(* ===== verification/_CoqProject ===== *)
-Q . S2P
Prelude.v
Errors.v
Buffer.v
Interface.v
OrdMap.v
Data.v
Catalog.v
IndexPage.v
Summary.v
FileSystem.v
Disk.v
Sstable.v
TableManager.v
Database.v
Murmur.v
Logger.v
Text.v
Lang.v
Wire.v
Dht.v
SystemTables.v
MetaTables.v
Metadata.v
ServerMsg.v
Query.v
Http.v
HttpServer.v
Race.v
Kernel.v
Endpoint.v
Server.v
Counters.v
CqlServer.v
Service.v
Failures.v
Programs.v
