(* ===== verification/Prelude.v ===== *)
(** * DibiBase: a verification library

    DibiBase is a small distributed database that speaks the CQL protocol.  A
    client's bytes are cut into frames ([lib/api/cql3]), a query is parsed by
    ANTLR into a tree a visitor turns into statements ([include/lang]), a node
    runs a statement on its own database or sends it to the node that owns its
    key ([include/dht]), and a database keeps each table in a memtable and in
    sstables on disk ([lib/db], [lib/io], [lib/mem], [lib/catalog]), written and
    read through a byte buffer ([lib/util]).  A second server exposes counters
    over HTTP ([lib/api/prom_endp]).

    This library translates these parts into executable definitions, keeping the
    names of the source, and proves what makes them correct.

    ** How the code is modelled

    A pure function of the source is a function here.  A function that throws
    returns an [outcome]: a value, an exception, or an undefined behaviour of
    C++ ([ub]: a read outside of an array, through a null pointer or after a
    [delete], a function that ends without returning, a counter that overflows, a
    character [<cctype>] does not take) or [exit], which ends the process.  A
    function that changes state is a computation [M S A] over an explicit state;
    the state reached before a throw is kept.  Integers are [Z] with the conversions of the source
    written out ([u8] ... [u64], [s8] ... [s64]); bytes are [Byte.byte]; floating
    values are their IEEE bit patterns; a [std::map] is an ordered list of
    entries ([OrdMap]) or, where only look-ups matter, a [gmap].

    What is not in the repository is a parameter.  The file system is the class
    [PosixFS], with its laws in [PosixSpec] and an instance in memory that the
    examples run on: [mkdir] makes a directory of a file name below one that is
    there, and none below one that is missing.  The calls on sockets are the class
    [Kernel] with [KernelSpec], a worker's epoll instance the class [Epoll] with
    [EpollSpec], by which a call may fail, and must for a descriptor that is not
    watched; the
    parse tree ANTLR builds, the remote call of gRPC, [strtold], the clock, the
    answers of [recv] and [send] and the contents of memory that was not
    initialised are arguments.

    ** The files

    - [Prelude]: outcomes, the monad, machine integers, bytes, arrays, tactics.
    - [Errors]: the classes of exceptions of [errors.hh] and of the standard
      library, and which [catch] clause takes what was thrown.
    - [Buffer]: [util::MemoryBuffer]; a calculus of serialisers ([serializes])
      and parsers ([parses]) the later files compose.
    - [Interface]: the abstract class [util::Buffer] as a type class with its
      laws, which [MemoryBuffer] keeps.
    - [OrdMap]: [std::map] with a comparison that may throw.
    - [Data], [Catalog]: [catalog::Data], [Field], [Schema], [Record], [Table].
    - [IndexPage], [Summary]: [db::IndexPage] and [mem::Summary].
    - [FileSystem]: system calls.  [Disk]: [io::DiskManager].  [Sstable]:
      [io::TableBuilder] and the layout of the three files of an sstable.
    - [TableManager], [Database]: [db::TableManager] and [db::Database], with the
      abstract store they refine.
    - [Murmur]: [dht::MurmurHash].
    - [Logger]: [util::Logger].  [Text]: the string functions of the standard
      library the later files use.
    - [Lang]: [lang::cql3::CQL3Visitor] and the statements, over the contexts of
      [grammars/ebnf/CqlParser.g4].
    - [Wire]: [api::cql3::Frame], [api::cql3::QueryResult] and
      [dht::ResultSerializer], with the client's reader of a reply.
    - [Dht]: configuration, [dht::StateStore], [dht::Partitioner], the query
      executors and the streamer, for one node and for a cluster.
    - [SystemTables]: the system tables a driver expects, as values.
      [MetaTables], [Metadata]: [api::cql3::Metadata], the replies about them.
    - [ServerMsg]: [api::cql3::ServerMsg], the reply to each request.
    - [Query]: its parts put together with the cluster's: the reply to a [SELECT]
      and to an [INSERT], and what becomes of a query that fails.
    - [Http], [HttpServer]: HTTP messages and the workers of
      [api::prom_endp::HttpServer].
    - [Race]: a registration and a request as sequences of accesses to the table
      of handlers.
    - [Kernel]: system calls on sockets.  [Endpoint]: the constructor, [Start] and
      [Stop] of [api::prom_endp::HttpServer].
    - [Server]: one reception of [api::cql3::Server].  [Counters]: what it keeps
      of the counters.  [CqlServer]: the constructor of [api::cql3::Server], with
      its sockets and the rounds of its loop.
    - [Service]: requests for records in any number, and a question about the
      system, from the bytes received to the bytes sent.
    - [Failures]: the same for statements without a result, and for owners that
      cannot be reached.
    - [Programs]: the [main] functions of [src/src] and [include/util/assert.hh].

    ** What the theorems show

    Storage.  [buffer_sequence] is the contract of the buffer, [reachable_safe]
    what each call does in every state, with any size; [data_roundtrip], [record_roundtrip], [table_roundtrip],
    [index_page_reload] the serialised forms; [DataCmp_strict_weak_order],
    [index_page_push_back] and [find_page_number_ascending] the order of keys and
    the search of a page.  [table_builder_layout] shows that [TableBuilder]
    writes exactly a reference layout of the three files and touches nothing
    else, [sstable_readback] that every record is found in it again.
    [table_refines_store] and [database_refines_stores] show that a table, and a
    database, answer every sequence of requests, errors included, as an abstract
    store does, when their directories exist and the requests fit the schemas;
    [database_restart] what a database opened on the files of a closed one reads,
    and that it serves the stored records when the bytes missing from the metadata
    are zero.

    Distribution.  [routing_unique]: all nodes send a key to the same owner.
    [cluster_select]: a read gets the owner's answer from any node, composed from
    the refinement of the database; [reads_served]: any number of reads on any
    connections, from the start of the program to the bytes the clients get.  What
    a node makes of any statement is the request to its stores
    ([statement_executes]); [statement_failed] and [peer_unreached] follow those
    without a result, and those whose owner cannot be reached, to what the client
    gets.  [inv_hash3_inverts] and [hash_footprint] are about the hash functions.

    Protocol.  [create_table_schema]: the schema a tree denotes.  [count_correct],
    [split_fields], [select_roundtrip]: a client reads back from a reply the
    record the node serialised, when it holds values that can be separated and
    counted.  [meta_served]: questions about system tables get complete replies with
    exactly the expected tables; [catalog_describes]: these tables agree with each
    other.  [query_recovered]: which text is run
    for a request.  [requests_cut], [handshake_replies],
    [options_answered]: from the bytes received to the bytes sent.
    [connections_never_closed]: the descriptors of the server over its whole life.
    [lang_program]: what the interpreter of CQL files prints.

    Metrics.  [request_roundtrip], [parser_total]: the parser of requests.
    [connections_safe]: an invariant of the workers, kept by every event:
    descriptors, epoll interests and heap objects correspond one to one; and the
    events that end a worker.
    [endpoint_current]: what the endpoint answers while the server runs;
    [endpoint_served]: a client gets it whole, in whatever parts it is sent.
    [endpoint_life]: its start and its stop.

    Some theorems state what the code does where that is not what it means to
    do: [lost_update], [create_table_orphan], [flush_failed_write], [metadata_short], [statement_failed],
    [peer_unreached], [registration_races], and among the lemmas [DataCmp_nan],
    [find_page_number_descending], [get_string_negative], [hash3_ignores_tail],
    [insert_using], [void_statements_undefined], [comma_value_throws], [colonless_line],
    [three_is_cut], [full_reception], [run_server_null], [probe_loop_ok].

    ** Fuel

    Loops over containers are structural.  Four loops are not: the table
    descriptors in the metadata ([open_tables], one round per byte left),
    [split_loop] (one round per character), [header_loop] (one round per
    character and one more) and [inv_rshift_xor_loop] (64 rounds, one per bit).
    Each is proved to have enough: [open_tables_ok], [split_eq],
    [header_loop_total], [inv_rshift_xor_loop_ok].

    ** Not modelled

    The ANTLR lexer and parser (generated), gRPC and YAML (libraries;
    the calls [run_server] makes of gRPC are an argument of it).  The contexts of
    [Lang] are those of texts that match the grammar: trees in which ANTLR has
    recovered from an error, with parts missing, are not among them.  The thread of the internal service is the node the remote calls
    of a cluster reach; it is not interleaved with the steps of the main thread.
    Two accesses at the same time to one map, and to the flag [running_], are
    undefined in C++; [Race] shows that such accesses happen, and nothing is
    claimed of what they return: the theorems about the endpoint are about requests
    that no registration overlaps.  The server
    ignores what [send] returns, and so does the model: what is handed to [send]
    is what is stated.  The format strings [dprintf] expands are not modelled;
    messages of level info are not kept in the log of the world. *)

From Stdlib Require Import ZArith Lia Strings.Byte String.
From stdpp Require Import base list list_numbers strings gmap.

Local Open Scope Z_scope.

(** ** Outcomes *)

(** The exceptions the modelled code throws. *)
Inductive exn :=
| BufferOverflow
| bad_array_new_length
| undefined_data_type_error
| incompatible_data_types_error
| uncomparable_type_error
| blob_size_error
| schema_mismatch_error
| non_existent_record_error
| unspported_cql_statement (what : string)
| unknown_cql_statement
| bad_cast
| bad_optional_access
| out_of_range (what : string)
| invalid_argument (what : string)
| logic_error (what : string)
| runtime_error (what : string).

(** The ways a run ends that no handler of the program sees: the undefined
    behaviours of C++ the modelled code can run into, and [exit] after a message
    or [std::terminate]. *)
Inductive ub :=
| OutOfBounds
| NullDereference
| BadEnumValue
| MissingReturn
| EndIterator
| UseAfterFree
| CtypeArgument      (* a character the functions of <cctype> do not take *)
| SignedOverflow
| ProcessExit (message : string).

(** A call returns, throws, or ends the run. *)
Inductive outcome (A : Type) :=
| Ok (a : A)
| Throw (e : exn)
| Undef (u : ub).
Arguments Ok {A} a.
Arguments Throw {A} e.
Arguments Undef {A} u.

#[global] Instance exn_eq_dec : EqDecision exn.
Proof. solve_decision. Defined.
#[global] Instance ub_eq_dec : EqDecision ub.
Proof. solve_decision. Defined.
#[global] Instance outcome_eq_dec `{EqDecision A} : EqDecision (outcome A).
Proof. solve_decision. Defined.

#[global] Instance outcome_ret : MRet outcome := λ A a, Ok a.
#[global] Instance outcome_bind : MBind outcome := λ A B f m,
  match m with
  | Ok a => f a
  | Throw e => Throw e
  | Undef u => Undef u
  end.

(** ** Stateful computations that may throw

    [M S A] threads a state of type [S]; the state reached before a throw is
    kept, as it is in the source. *)
Definition M (S A : Type) : Type := S → outcome A * S.

#[global] Instance M_ret {S} : MRet (M S) := λ A a s, (Ok a, s).
#[global] Instance M_bind {S} : MBind (M S) := λ A B f m s,
  match m s with
  | (Ok a, s') => f a s'
  | (Throw e, s') => (Throw e, s')
  | (Undef u, s') => (Undef u, s')
  end.

Definition get_state {S} : M S S := λ s, (Ok s, s).
Definition put_state {S} (s : S) : M S unit := λ _, (Ok tt, s).
Definition modify {S} (f : S → S) : M S unit := λ s, (Ok tt, f s).
Definition throw {S A} (e : exn) : M S A := λ s, (Throw e, s).
Definition lift {S A} (o : outcome A) : M S A := λ s, (o, s).

(** Running a computation on a component of the state. *)
Definition zoom {S T A} (proj : S → T) (inj : T → S → S) (m : M T A) : M S A :=
  λ s, let '(o, t) := m (proj s) in (o, inj t s).

(** A computation on a local object: its final value is returned. *)
Definition run_on {S T A} (t : T) (m : M T A) : M S (A * T) :=
  λ s, match m t with
       | (Ok a, t') => (Ok (a, t'), s)
       | (Throw e, _) => (Throw e, s)
       | (Undef u, _) => (Undef u, s)
       end.

(** A loop over the elements of a container. *)
Fixpoint for_each {S A} (f : A → M S unit) (l : list A) : M S unit :=
  match l with
  | [] => mret tt
  | x :: l => f x;; for_each f l
  end.

(** [n] runs of a body, the results collected in order ([push_back] loops). *)
Fixpoint repeat_m {S A} (n : nat) (m : M S A) : M S (list A) :=
  match n with
  | O => mret []
  | S n => x ← m; xs ← repeat_m n m; mret (x :: xs)
  end.

Lemma M_bind_ok {S A B} (m : M S A) (f : A → M S B) s a s' :
  m s = (Ok a, s') → (m ≫= f) s = f a s'.
Proof. intros H. unfold mbind, M_bind. by rewrite H. Qed.

Lemma M_bind_throw {S A B} (m : M S A) (f : A → M S B) s e s' :
  m s = (Throw e, s') → (m ≫= f) s = (Throw e, s').
Proof. intros H. unfold mbind, M_bind. by rewrite H. Qed.

Lemma M_bind_undef {S A B} (m : M S A) (f : A → M S B) s u s' :
  m s = (Undef u, s') → (m ≫= f) s = (Undef u, s').
Proof. intros H. unfold mbind, M_bind. by rewrite H. Qed.

Lemma M_bind_ret {S} (m : M S unit) s : (m;; mret tt) s = m s.
Proof. unfold mbind, M_bind. by destruct (m s) as [[[]|e|u] s']. Qed.

Lemma M_bind_assoc {S A B C} (m : M S A) (f : A → M S B) (g : B → M S C) s :
  ((m ≫= f) ≫= g) s = (m ≫= (λ x, f x ≫= g)) s.
Proof. unfold mbind, M_bind. by destruct (m s) as [[] ?]. Qed.

(** Case analysis on what a step of a bind returned. *)
Lemma M_bind_ok_inv {S A B} (m : M S A) (f : A → M S B) s b s' :
  (m ≫= f) s = (Ok b, s') → ∃ a s1, m s = (Ok a, s1) ∧ f a s1 = (Ok b, s').
Proof.
  unfold mbind, M_bind. destruct (m s) as [[a|e|u] s1]; intros H; simplify_eq.
  by exists a, s1.
Qed.

(** ** Machine integers

    A [w]-bit unsigned value is an integer in [0, 2^w); the conversions of the
    source reduce modulo [2^w], and the signed ones reinterpret the pattern. *)
Definition wrap (w z : Z) : Z := z mod 2 ^ w.
Definition swrap (w z : Z) : Z :=
  let r := z mod 2 ^ w in if r <? 2 ^ (w - 1) then r else r - 2 ^ w.

Abbreviation u8 := (wrap 8).
Abbreviation u16 := (wrap 16).
Abbreviation u32 := (wrap 32).
Abbreviation u64 := (wrap 64).
Abbreviation s8 := (swrap 8).
Abbreviation s16 := (swrap 16).
Abbreviation s32 := (swrap 32).
Abbreviation s64 := (swrap 64).

Definition in_u (w z : Z) : Prop := 0 ≤ z < 2 ^ w.
Definition in_s (w z : Z) : Prop := - 2 ^ (w - 1) ≤ z < 2 ^ (w - 1).

#[export] Instance in_s_dec w z : Decision (in_s w z).
Proof. unfold in_s. apply _. Defined.

Lemma wrap_small w z : in_u w z → wrap w z = z.
Proof. apply Z.mod_small. Qed.

Lemma wrap_range w z : 0 ≤ w → in_u w (wrap w z).
Proof. intros. apply Z.mod_pos_bound, Z.pow_pos_nonneg; lia. Qed.

Lemma wrap_wrap w z : 0 ≤ w → wrap w (wrap w z) = wrap w z.
Proof. intros. by apply wrap_small, wrap_range. Qed.

Lemma pow2_half w : 0 < w → 2 ^ w = 2 * 2 ^ (w - 1).
Proof. intros. rewrite <- Z.pow_succ_r by lia. f_equal. lia. Qed.

Lemma swrap_small w z : 0 < w → in_s w z → swrap w z = z.
Proof.
  intros Hw [H1 H2]. unfold swrap. pose proof (pow2_half w Hw) as Hp.
  assert (0 < 2 ^ (w - 1)) by (apply Z.pow_pos_nonneg; lia).
  destruct (decide (0 ≤ z)) as [Hz|Hz].
  - rewrite Z.mod_small by lia. destruct (Z.ltb_spec z (2 ^ (w - 1))); lia.
  - assert (z mod 2 ^ w = z + 2 ^ w) as ->.
    { rewrite <- (Z_mod_plus_full z 1 (2 ^ w)), Z.mul_1_l. apply Z.mod_small. lia. }
    destruct (Z.ltb_spec (z + 2 ^ w) (2 ^ (w - 1))); lia.
Qed.

Lemma swrap_wrap w z : 0 ≤ w → swrap w (wrap w z) = swrap w z.
Proof. intros. unfold swrap, wrap. by rewrite Z.mod_mod by (apply Z.pow_nonzero; lia). Qed.

Lemma swrap_range w z : 0 < w → in_s w (swrap w z).
Proof.
  intros Hw. unfold swrap, in_s. pose proof (pow2_half w Hw) as Hp.
  pose proof (wrap_range w z ltac:(lia)) as [Hr1 Hr2]. unfold wrap in Hr1, Hr2.
  destruct (Z.ltb_spec (z mod 2 ^ w) (2 ^ (w - 1))); lia.
Qed.

(** ** Bytes and their little-endian groups *)

Definition byte_of_Z (z : Z) : byte :=
  default x00 (Byte.of_N (Z.to_N (wrap 8 z))).
Definition Z_of_byte (b : byte) : Z := Z.of_N (Byte.to_N b).

#[global] Instance byte_eq_dec : EqDecision byte := Byte.byte_eq_dec.

Lemma Z_of_byte_range b : 0 ≤ Z_of_byte b < 256.
Proof. unfold Z_of_byte. pose proof (Byte.to_N_bounded b). lia. Qed.

Lemma byte_of_Z_of_byte b : byte_of_Z (Z_of_byte b) = b.
Proof. by destruct b. Qed.

Lemma Z_of_byte_of_Z z : Z_of_byte (byte_of_Z z) = z mod 256.
Proof.
  unfold byte_of_Z, Z_of_byte, wrap. change (2 ^ 8) with 256.
  pose proof (Z.mod_pos_bound z 256 ltac:(lia)) as Hr.
  destruct (Byte.of_N (Z.to_N (z mod 256))) as [b|] eqn:Hb; simpl.
  - apply Byte.to_of_N in Hb. rewrite Hb. rewrite Z2N.id; lia.
  - apply Byte.of_N_None_iff in Hb. lia.
Qed.

(** The object representation of an [n]-byte integer on a little-endian host. *)
Fixpoint le_bytes (n : nat) (z : Z) : list byte :=
  match n with
  | O => []
  | S n => byte_of_Z z :: le_bytes n (z / 256)
  end.

Fixpoint le_value (bs : list byte) : Z :=
  match bs with
  | [] => 0
  | b :: bs => Z_of_byte b + 256 * le_value bs
  end.

Lemma length_le_bytes n z : length (le_bytes n z) = n.
Proof. revert z. induction n as [|n IH]; intros z; simpl; [done|]. by rewrite IH. Qed.

Lemma pow256_S n : 2 ^ (8 * Z.of_nat (S n)) = 256 * 2 ^ (8 * Z.of_nat n).
Proof.
  replace (8 * Z.of_nat (S n)) with (8 + 8 * Z.of_nat n) by lia.
  rewrite Z.pow_add_r by lia. done.
Qed.

Lemma le_value_bytes n z : le_value (le_bytes n z) = z mod 2 ^ (8 * Z.of_nat n).
Proof.
  revert z. induction n as [|n IH]; intros z; [by rewrite Z.mod_1_r|].
  cbn [le_bytes le_value]. rewrite Z_of_byte_of_Z, IH, pow256_S.
  rewrite (Z.rem_mul_r z 256) by (try lia; apply Z.pow_pos_nonneg; lia). lia.
Qed.

Lemma le_value_range bs : 0 ≤ le_value bs < 2 ^ (8 * Z.of_nat (length bs)).
Proof.
  induction bs as [|b bs IH]; [simpl; lia|].
  cbn [le_value length]. rewrite pow256_S. pose proof (Z_of_byte_range b). lia.
Qed.

Lemma le_bytes_value bs : le_bytes (length bs) (le_value bs) = bs.
Proof.
  induction bs as [|b bs IH]; [done|]. cbn [le_value le_bytes length].
  pose proof (Z_of_byte_range b) as Hb.
  assert ((Z_of_byte b + 256 * le_value bs) / 256 = le_value bs) as ->.
  { rewrite Z.mul_comm, Z.div_add by lia. rewrite Z.div_small; lia. }
  rewrite IH. f_equal. rewrite <- (byte_of_Z_of_byte b) at 2. unfold byte_of_Z, wrap.
  change (2 ^ 8) with 256. rewrite Z.mul_comm, Z_mod_plus_full. done.
Qed.

Lemma le_bytes_app n m z :
  le_bytes (n + m) z = le_bytes n z ++ le_bytes m (z / 2 ^ (8 * Z.of_nat n)).
Proof.
  revert z. induction n as [|n IH]; intros z; [by rewrite Z.div_1_r|]. cbn [le_bytes Nat.add app].
  rewrite IH, pow256_S, Z.div_div by (try lia; apply Z.pow_pos_nonneg; lia). done.
Qed.

(** ** Strings as byte sequences *)

Abbreviation str_bytes := String.list_byte_of_string.
Abbreviation bytes_str := String.string_of_list_byte.

Lemma bytes_str_bytes s : bytes_str (str_bytes s) = s.
Proof. apply String.string_of_list_byte_of_string. Qed.

Lemma str_bytes_length s : length (str_bytes s) = String.length s.
Proof.
  unfold String.list_byte_of_string. rewrite List.length_map.
  induction s as [|a s IH]; [done|]. simpl. by rewrite IH.
Qed.

Definition zlen {A} (l : list A) : Z := Z.of_nat (length l).
Definition slen (s : string) : Z := Z.of_nat (String.length s).

(** [std::less<std::string>] *)
Definition str_before (a b : string) : bool := negb (String.leb b a).

Lemma zlen_nonneg {A} (l : list A) : 0 ≤ zlen l.
Proof. unfold zlen. lia. Qed.
Lemma slen_nonneg s : 0 ≤ slen s.
Proof. unfold slen. lia. Qed.
Lemma zlen_app {A} (l k : list A) : zlen (l ++ k) = zlen l + zlen k.
Proof. unfold zlen. rewrite length_app. lia. Qed.
Lemma zlen_le_bytes n z : zlen (le_bytes n z) = Z.of_nat n.
Proof. unfold zlen. by rewrite length_le_bytes. Qed.
Lemma str_bytes_app a b : str_bytes (a +:+ b) = str_bytes a ++ str_bytes b.
Proof. induction a as [|c a IH]; [done|]. exact (f_equal (cons _) IH). Qed.

Lemma zlen_str_bytes s : zlen (str_bytes s) = slen s.
Proof. unfold zlen, slen. by rewrite str_bytes_length. Qed.

Lemma str_app_cons a s t : String a s +:+ t = String a (s +:+ t).
Proof. done. Qed.

Lemma str_app_assoc s t u : (s +:+ t) +:+ u = s +:+ t +:+ u.
Proof. induction s as [|a s IH]; [done|]. by rewrite !str_app_cons, IH. Qed.

Lemma str_length_app s t : String.length (s +:+ t) = (String.length s + String.length t)%nat.
Proof. induction s as [|a s IH]; [done|]. rewrite str_app_cons. simpl. by rewrite IH. Qed.

(** A common suffix can be cancelled. *)
Lemma str_app_inj_r s s' t : s +:+ t = s' +:+ t → s = s'.
Proof.
  revert s'. induction s as [|a s IH]; intros [|a' s'] H; [done| | |].
  - apply (f_equal String.length) in H. rewrite !str_length_app in H. simpl in H. lia.
  - apply (f_equal String.length) in H. rewrite !str_length_app in H. simpl in H. lia.
  - rewrite !str_app_cons in H. injection H as -> H. f_equal. by apply IH.
Qed.

(** ** Overwriting a segment of an array *)

Definition overwrite {A} (off : nat) (bs l : list A) : list A :=
  take off l ++ bs ++ drop (off + length bs) l.

Lemma length_overwrite {A} off (bs l : list A) :
  (off + length bs ≤ length l)%nat → length (overwrite off bs l) = length l.
Proof.
  intros. unfold overwrite. rewrite !length_app, length_take, length_drop. lia.
Qed.

Lemma overwrite_app {A} off (bs1 bs2 l : list A) :
  (off + length bs1 + length bs2 ≤ length l)%nat →
  overwrite (off + length bs1) bs2 (overwrite off bs1 l) = overwrite off (bs1 ++ bs2) l.
Proof.
  intros H. unfold overwrite. rewrite take_app, length_take.
  rewrite (Nat.min_l off) by lia.
  replace (off + length bs1 - off)%nat with (length bs1) by lia.
  rewrite take_app_length, (take_ge (take off l)) by (rewrite length_take; lia).
  rewrite drop_app, length_take, (Nat.min_l off) by lia.
  rewrite (drop_ge (take off l)) by (rewrite length_take; lia).
  rewrite drop_app, drop_drop, length_app, <- !app_assoc. simpl.
  rewrite (drop_ge bs1) by lia. simpl. do 4 f_equal. lia.
Qed.

Lemma overwrite_nil {A} off (l : list A) : overwrite off [] l = l.
Proof. unfold overwrite. simpl. rewrite Nat.add_0_r. apply take_drop. Qed.

Lemma drop_overwrite {A} off (bs l : list A) :
  (off ≤ length l)%nat → drop off (overwrite off bs l) = bs ++ drop (off + length bs) l.
Proof.
  intros. unfold overwrite. rewrite drop_app, length_take, Nat.min_l by lia.
  rewrite (drop_ge (take off l)) by (rewrite length_take; lia).
  by rewrite Nat.sub_diag.
Qed.

(** ** Automation *)

Create HintDb dibi discriminated.
#[export] Hint Resolve zlen_nonneg Z_of_byte_range : dibi.

(** Goals about lengths. *)
Create Rewrite HintDb lens.
#[export] Hint Rewrite @zlen_app zlen_str_bytes length_le_bytes str_bytes_length
  @length_app @length_take @length_drop @length_replicate : lens.

Ltac lens := unfold zlen, slen in *; autorewrite with lens in *; simpl in *; try lia.

(** Steps through the head of a monadic computation with a lemma about it. *)
Ltac step_by lem :=
  erewrite M_bind_ok by (eapply lem; first [eassumption | done | lia]).
