(* ===== verification/Errors.v ===== *)
(** * Exceptions and their classes

    Models [include/errors.hh]: [application_error] and [system_error], the classes
    the macros [DEFINE_ERROR] and [DEFINE_CHILD_ERROR] derive from them, their place
    below [std::exception], and how a [catch] clause is chosen by the class of what
    was thrown.  [strerror] and the value of [errno] are parameters. *)

From Stdlib Require Import ZArith Lia String.
From stdpp Require Import base list strings relations.
From S2P Require Import Prelude.

Local Open Scope Z_scope.

(** ** The hierarchy *)

(** The classes of the standard library the program throws or names in a [catch],
    and its own. *)
Inductive exn_class :=
| C_exception
| C_runtime_error
| C_logic_error
| C_invalid_argument
| C_out_of_range
| C_bad_alloc
| C_bad_array_new_length
| C_bad_cast
| C_bad_optional_access
| C_application_error
| C_system_error
| C_undefined_data_type_error
| C_incompatible_data_types_error
| C_uncomparable_type_error
| C_schema_mismatch_error
| C_non_existent_record_error
| C_unspported_cql_statement
| C_unknown_cql_statement.

#[global] Instance exn_class_eq_dec : EqDecision exn_class.
Proof. solve_decision. Defined.

(** [DEFINE_ERROR(error)] is [DEFINE_CHILD_ERROR(error, application_error)]. *)
Definition DEFINE_ERROR : exn_class := C_application_error.

Definition parent (c : exn_class) : option exn_class :=
  match c with
  | C_exception => None
  | C_runtime_error | C_logic_error | C_bad_alloc | C_bad_cast | C_bad_optional_access => Some C_exception
  | C_invalid_argument | C_out_of_range => Some C_logic_error
  | C_bad_array_new_length => Some C_bad_alloc
  | C_application_error => Some C_runtime_error
  | C_system_error => Some C_application_error
  | C_undefined_data_type_error | C_incompatible_data_types_error | C_uncomparable_type_error
  | C_schema_mismatch_error | C_non_existent_record_error
  | C_unspported_cql_statement | C_unknown_cql_statement => Some DEFINE_ERROR
  end.

(** [d] is [c] or one of the classes [c] is derived from. *)
Fixpoint derives_fuel (fuel : nat) (c d : exn_class) : bool :=
  bool_decide (c = d) ||
  match fuel, parent c with
  | S fuel, Some p => derives_fuel fuel p d
  | _, _ => false
  end.

(** Chains have three steps at most. *)
Definition derives (c d : exn_class) : bool := derives_fuel 3 c d.

(** What was thrown: two places throw a [const char *], which has no class. *)
Definition class_of (e : exn) : option exn_class :=
  match e with
  | BufferOverflow | blob_size_error => None
  | bad_array_new_length => Some C_bad_array_new_length
  | undefined_data_type_error => Some C_undefined_data_type_error
  | incompatible_data_types_error => Some C_incompatible_data_types_error
  | uncomparable_type_error => Some C_uncomparable_type_error
  | schema_mismatch_error => Some C_schema_mismatch_error
  | non_existent_record_error => Some C_non_existent_record_error
  | unspported_cql_statement _ => Some C_unspported_cql_statement
  | unknown_cql_statement => Some C_unknown_cql_statement
  | bad_cast => Some C_bad_cast
  | bad_optional_access => Some C_bad_optional_access
  | out_of_range _ => Some C_out_of_range
  | invalid_argument _ => Some C_invalid_argument
  | logic_error _ => Some C_logic_error
  | runtime_error _ => Some C_runtime_error
  end.

(** [catch (c)] takes [e]. *)
Definition catches (c : exn_class) (e : exn) : bool :=
  match class_of e with Some d => derives d c | None => false end.

(** The clauses of a [try] are tried in order. *)
Fixpoint first_handler {A} (handlers : list (exn_class * (exn → A))) (e : exn) : option A :=
  match handlers with
  | [] => None
  | (c, h) :: handlers => if catches c e then Some (h e) else first_handler handlers e
  end.

(** ** Their contents *)

Record application_error := MkApplicationError { ae_what : string; ae_code : Z }.

(** [explicit application_error(const string &message, int code = 0)] *)
Definition application_error_new (message : string) (code : option Z) : application_error :=
  MkApplicationError message (default 0 code).

Section system_error.
Context (strerror : Z → string) (errno : Z).

Definition system_error_new : application_error := application_error_new (strerror errno) (Some errno).

Definition system_error_message (message : string) : application_error :=
  application_error_new (message +:+ " (reason: " +:+ strerror errno +:+ ")") (Some errno).
End system_error.

(** The object behind a thrown error of the program's own: the classes inherit the
    constructors, and every [throw] gives the message alone. *)
Definition as_application_error (e : exn) : option application_error :=
  match e with
  | unspported_cql_statement message => Some (application_error_new message None)
  | undefined_data_type_error | incompatible_data_types_error | uncomparable_type_error
  | schema_mismatch_error | non_existent_record_error | unknown_cql_statement =>
      Some (application_error_new "" None)
  | _ => None
  end.

(** ** What a [catch] takes *)

(** The fuel is enough: [derives] is the reflexive and transitive closure of
    [parent]. *)
Lemma derives_rtc c d : derives c d = true ↔ rtc (λ x y, parent x = Some y) c d.
Proof.
  split.
  - unfold derives. generalize 3%nat. intros n. revert c.
    induction n as [|n IH]; intros c; cbn [derives_fuel]; rewrite orb_true_iff, bool_decide_eq_true.
    + by intros [->|?].
    + intros [->|Hp]; [done|]. destruct (parent c) as [p|] eqn:Hpar; [|done].
      by eapply rtc_l; [exact Hpar|apply IH].
  - intros Hrtc. induction Hrtc as [c|c p d Hp Hrtc IH]; [by destruct c|].
    destruct c; cbn in Hp; simplify_eq; destruct d; try done; by vm_compute in IH.
Qed.

Lemma catches_application e :
  catches C_application_error e = true ↔ is_Some (as_application_error e).
Proof. split; [by destruct e; intros; eauto|by intros [? ?]; destruct e]. Qed.

(** A handler that is chosen is one of the clauses, and takes what was thrown. *)
Lemma first_handler_Some {A} (handlers : list (exn_class * (exn → A))) e a :
  first_handler handlers e = Some a → ∃ c h, (c, h) ∈ handlers ∧ catches c e = true ∧ a = h e.
Proof.
  induction handlers as [|[c h] handlers IH]; [done|]. cbn [first_handler].
  destruct (catches c e) eqn:Hc.
  - intros [= <-]. exists c, h. split; [by left|done].
  - intros (c' & h' & Hin & Hc' & ->)%IH. exists c', h'. split; [by right|done].
Qed.

(** A clause for [std::exception] leaves only what is no object. *)
Lemma first_handler_exception {A} (handlers : list (exn_class * (exn → A))) h e :
  first_handler (handlers ++ [(C_exception, h)]) e = None → class_of e = None.
Proof.
  induction handlers as [|[c h'] handlers IH]; cbn [app first_handler].
  - unfold catches. by destruct e.
  - by destruct (catches c e).
Qed.
