(* ===== verification/Buffer.v ===== *)
(** * [util::MemoryBuffer]: a fixed-size byte array with a cursor

    Models [include/util/buffer.hh] and [lib/util/buffer.cc]: the object's
    three fields, every [get_*] and [put_*] method, [offset], [size] and
    [bytes].  The host is little-endian, as on the platforms the project
    builds for, so the [memcpy] of an integer copies [le_bytes].

    Two relations carry the proofs of every serialiser of the project:
    [serializes m bs] says what a computation writes, [parses m bs a] what one
    reads; both compose along [mbind]. *)

From Stdlib Require Import ZArith Lia Strings.Byte String.
From stdpp Require Import base list list_numbers strings.
From S2P Require Import Prelude.

Local Open Scope Z_scope.

(** ** State *)

Record buffer := Buf {
  m_size : Z;             (* size_t *)
  m_offset : Z;           (* size_t *)
  m_buf : list byte       (* the allocated array *)
}.

#[global] Instance buffer_eq_dec : EqDecision buffer.
Proof. solve_decision. Defined.

(** [make_unique<unsigned char[]>(size)] zero-initialises the array. *)
Definition MemoryBuffer (size : Z) : buffer :=
  Buf size 0 (replicate (Z.to_nat size) x00).

Definition MemoryBuffer_from (buf : list byte) (size : Z) : buffer :=
  Buf size 0 buf.

(** The sum is computed in [size_t]. *)
Definition is_overflow (size : Z) (b : buffer) : bool :=
  m_size b <? u64 (size + m_offset b).

Definition advance (step : Z) : M buffer unit :=
  modify (λ b, Buf (m_size b) (u64 (m_offset b + step)) (m_buf b)).

(** [memcpy] between the array at the cursor and an object of [n] bytes;
    leaving the array is undefined. *)
Definition memcpy_from (n : Z) : M buffer (list byte) :=
  b ← get_state;
  if bool_decide (m_offset b + n ≤ zlen (m_buf b))
  then mret (take (Z.to_nat n) (drop (Z.to_nat (m_offset b)) (m_buf b)))
  else lift (Undef OutOfBounds).

Definition memcpy_to (bs : list byte) : M buffer unit :=
  b ← get_state;
  if bool_decide (m_offset b + zlen bs ≤ zlen (m_buf b))
  then put_state (Buf (m_size b) (m_offset b)
                      (overwrite (Z.to_nat (m_offset b)) bs (m_buf b)))
  else lift (Undef OutOfBounds).

(** The guard every accessor opens with. *)
Definition check_room (size : Z) : M buffer unit :=
  b ← get_state;
  if is_overflow size b then throw BufferOverflow else mret tt.

(** ** Fixed-width accessors *)

Definition get_fixed (n : nat) : M buffer (list byte) :=
  check_room (Z.of_nat n);;
  bs ← memcpy_from (Z.of_nat n);
  advance (Z.of_nat n);;
  mret bs.

Definition put_fixed (bs : list byte) : M buffer unit :=
  check_room (zlen bs);;
  memcpy_to bs;;
  advance (zlen bs).

Definition get_uint64 : M buffer Z := bs ← get_fixed 8; mret (le_value bs).
Definition put_uint64 (data : Z) : M buffer unit := put_fixed (le_bytes 8 data).
Definition get_uint32 : M buffer Z := bs ← get_fixed 4; mret (le_value bs).
Definition put_uint32 (data : Z) : M buffer unit := put_fixed (le_bytes 4 data).
Definition get_uint16 : M buffer Z := bs ← get_fixed 2; mret (le_value bs).
Definition put_uint16 (data : Z) : M buffer unit := put_fixed (le_bytes 2 data).
Definition get_uint8 : M buffer Z := bs ← get_fixed 1; mret (le_value bs).
Definition put_uint8 (data : Z) : M buffer unit := put_fixed (le_bytes 1 data).

Definition get_int64 : M buffer Z := bs ← get_fixed 8; mret (s64 (le_value bs)).
Definition put_int64 (data : Z) : M buffer unit := put_fixed (le_bytes 8 data).
Definition get_int32 : M buffer Z := bs ← get_fixed 4; mret (s32 (le_value bs)).
Definition put_int32 (data : Z) : M buffer unit := put_fixed (le_bytes 4 data).
Definition get_int16 : M buffer Z := bs ← get_fixed 2; mret (s16 (le_value bs)).
Definition put_int16 (data : Z) : M buffer unit := put_fixed (le_bytes 2 data).
Definition get_int8 : M buffer Z := bs ← get_fixed 1; mret (s8 (le_value bs)).
Definition put_int8 (data : Z) : M buffer unit := put_fixed (le_bytes 1 data).

(** A [double] and a [float] are their IEEE-754 bit patterns. *)
Definition get_double : M buffer Z := bs ← get_fixed 8; mret (le_value bs).
Definition put_double (data : Z) : M buffer unit := put_fixed (le_bytes 8 data).
Definition get_float : M buffer Z := bs ← get_fixed 4; mret (le_value bs).
Definition put_float (data : Z) : M buffer unit := put_fixed (le_bytes 4 data).

(** A [bool] is one byte holding 0 or 1; reading a [bool] whose byte holds
    anything else is undefined. *)
Definition get_boolean : M buffer bool :=
  bs ← get_fixed 1;
  match le_value bs with
  | 0 => mret false
  | 1 => mret true
  | _ => lift (Undef BadEnumValue)
  end.
Definition put_boolean (data : bool) : M buffer unit :=
  put_fixed (le_bytes 1 (if data then 1 else 0)).

(** ** Strings and blobs *)

(** [m_buf[i]] for a signed index [i]. *)
Definition buf_index (buf : list byte) (i : Z) : outcome byte :=
  if i <? 0 then Undef OutOfBounds
  else match buf !! Z.to_nat i with
       | Some c => Ok c
       | None => Undef OutOfBounds
       end.

(** The [push_back] loop of [get_string]: [n] iterations from index [i]. *)
Fixpoint push_back_loop (buf : list byte) (n : nat) (i : Z) : outcome (list byte) :=
  match n with
  | O => Ok []
  | S n => c ← buf_index buf i; cs ← push_back_loop buf n (i + 1); Ok (c :: cs)
  end.

(** [size] is an [int]: it is converted to [size_t] in the guard, in the loop
    bound and in [advance]; the loop counter and its bound are [int]s. *)
Definition get_string (size : Z) : M buffer string :=
  check_room (u64 size);;
  b ← get_state;
  let first := s32 (m_offset b) in
  let last := s32 (u64 (u64 size + m_offset b)) in
  data ← lift (push_back_loop (m_buf b) (Z.to_nat (last - first)) first);
  advance (u64 size);;
  mret (bytes_str data).

(** [memcpy] of [size] bytes (an [int] converted to [size_t]) out of an array
    [data]. *)
Definition memcpy_sized (data : list byte) (size : Z) : M buffer unit :=
  if bool_decide (u64 size ≤ zlen data)
  then memcpy_to (take (Z.to_nat (u64 size)) data)
  else lift (Undef OutOfBounds).

Definition put_string (data : string) : M buffer unit :=
  let size := s32 (slen data) in
  check_room (u64 size);;
  memcpy_sized (str_bytes data) size;;
  advance (u64 size).

(** The allocation of a negative number of elements throws. *)
Definition get_blob (size : Z) : M buffer (list byte) :=
  check_room (u64 size);;
  if size <? 0 then throw bad_array_new_length else
  data ← memcpy_from (u64 size);
  advance (u64 size);;
  mret data.

Definition put_blob (data : list byte) (size : Z) : M buffer unit :=
  check_room (u64 size);;
  memcpy_sized data size;;
  advance (u64 size).

(** The copy [bytes] returns: [(int) m_size] bytes are copied into a zeroed
    array of [m_size] bytes. *)
Definition MemoryBuffer_bytes (b : buffer) : outcome (list byte) :=
  let n := Z.to_nat (s32 (m_size b)) in
  cs ← push_back_loop (m_buf b) n 0;
  Ok (cs ++ replicate (Z.to_nat (m_size b) - n) x00).

Definition MemoryBuffer_offset (b : buffer) : Z := m_offset b.
Definition MemoryBuffer_size (b : buffer) : Z := m_size b.

(** ** Well-formed buffers

    The array has the announced size, the cursor lies in it, and the size fits
    the [int] counters of [get_string] and [bytes]. *)
Definition buffer_wf (b : buffer) : Prop :=
  zlen (m_buf b) = m_size b ∧ 0 ≤ m_offset b ≤ m_size b ∧ m_size b < 2 ^ 31.

(** The bytes from the cursor on. *)
Definition rest (b : buffer) : list byte := drop (Z.to_nat (m_offset b)) (m_buf b).

(** The buffer after [bs] is written at the cursor, and after [n] bytes are
    skipped. *)
Definition write_at (b : buffer) (bs : list byte) : buffer :=
  Buf (m_size b) (m_offset b + zlen bs)
      (overwrite (Z.to_nat (m_offset b)) bs (m_buf b)).

Definition skip (n : Z) (b : buffer) : buffer :=
  Buf (m_size b) (m_offset b + n) (m_buf b).

(** [m] appends exactly [bs] when there is room for them, and otherwise throws
    ["Buffer Overflow"]. *)
Definition serializes (m : M buffer unit) (bs : list byte) : Prop :=
  ∀ b, buffer_wf b →
    (m_offset b + zlen bs ≤ m_size b → m b = (Ok tt, write_at b bs)) ∧
    (m_size b < m_offset b + zlen bs → ∃ b', m b = (Throw BufferOverflow, b')).

(** [m] reads [a] and consumes [bs] from any buffer that continues with [bs]. *)
Definition parses {A} (m : M buffer A) (bs : list byte) (a : A) : Prop :=
  ∀ b k, buffer_wf b → rest b = bs ++ k → m b = (Ok a, skip (zlen bs) b).

Lemma MemoryBuffer_wf n : 0 ≤ n < 2 ^ 31 → buffer_wf (MemoryBuffer n).
Proof. intros. unfold buffer_wf. simpl. lens. Qed.

Lemma MemoryBuffer_from_wf bs : zlen bs < 2 ^ 31 → buffer_wf (MemoryBuffer_from bs (zlen bs)).
Proof. intros. unfold buffer_wf. simpl. lens. Qed.

Lemma write_at_wf b bs :
  buffer_wf b → m_offset b + zlen bs ≤ m_size b → buffer_wf (write_at b bs).
Proof.
  intros (H1 & H2 & H3) Hr. unfold buffer_wf. cbn [m_buf m_size m_offset write_at].
  unfold zlen in *. rewrite length_overwrite by lia. lia.
Qed.

Lemma skip_wf b n : buffer_wf b → 0 ≤ n → m_offset b + n ≤ m_size b → buffer_wf (skip n b).
Proof. intros (H1 & H2 & H3) Hn Hr. unfold buffer_wf. simpl. lia. Qed.

Lemma write_at_app b bs1 bs2 :
  buffer_wf b → m_offset b + zlen bs1 + zlen bs2 ≤ m_size b →
  write_at (write_at b bs1) bs2 = write_at b (bs1 ++ bs2).
Proof.
  intros (H1 & H2 & H3) Hr. unfold write_at. cbn [m_size m_offset m_buf].
  rewrite zlen_app. f_equal; [lia|]. unfold zlen in *.
  replace (Z.to_nat (m_offset b + Z.of_nat (length bs1)))
    with (Z.to_nat (m_offset b) + length bs1)%nat by lia.
  apply overwrite_app. lia.
Qed.

Lemma rest_length b : buffer_wf b → zlen (rest b) = m_size b - m_offset b.
Proof. intros (H1 & H2 & H3). unfold rest, zlen in *. rewrite length_drop. lia. Qed.

Lemma rest_room b bs k : buffer_wf b → rest b = bs ++ k → m_offset b + zlen bs ≤ m_size b.
Proof.
  intros Hwf Hr. pose proof (rest_length b Hwf) as Hl. rewrite Hr, zlen_app in Hl.
  pose proof (zlen_nonneg k). lia.
Qed.

Lemma rest_skip b bs k : buffer_wf b → rest b = bs ++ k → rest (skip (zlen bs) b) = k.
Proof.
  intros (H1 & H2 & H3) Hr. unfold rest, skip in *. cbn [m_offset m_buf]. unfold zlen.
  replace (Z.to_nat (m_offset b + Z.of_nat (length bs)))
    with (Z.to_nat (m_offset b) + length bs)%nat by lia.
  rewrite <- drop_drop, Hr. apply drop_app_length.
Qed.

Lemma skip_skip b n m : skip m (skip n b) = skip (n + m) b.
Proof. unfold skip. simpl. f_equal. lia. Qed.

(** ** Composition *)

Lemma serializes_ret : serializes (mret tt) [].
Proof.
  intros b Hwf. split; [intros _|].
  - unfold write_at. rewrite overwrite_nil. destruct b. unfold zlen. simpl.
    by rewrite Z.add_0_r.
  - destruct Hwf as (? & ? & ?). unfold zlen. simpl. lia.
Qed.

Lemma serializes_bind m1 m2 bs1 bs2 :
  serializes m1 bs1 → serializes m2 bs2 → serializes (m1;; m2) (bs1 ++ bs2).
Proof.
  intros H1 H2 b Hwf. destruct (H1 b Hwf) as [Hok Herr]. rewrite zlen_app.
  pose proof (zlen_nonneg bs2).
  destruct (decide (m_offset b + zlen bs1 ≤ m_size b)) as [Hr|Hr].
  - specialize (Hok Hr). pose proof (write_at_wf b bs1 Hwf Hr) as Hwf'.
    destruct (H2 _ Hwf') as [Hok2 Herr2]. cbn [m_offset m_size write_at] in Hok2, Herr2.
    split; intros Hroom; rewrite (M_bind_ok _ _ _ _ _ Hok).
    + rewrite Hok2, write_at_app by (auto; lia). done.
    + apply Herr2. lia.
  - split; intros Hroom; [lia|]. destruct Herr as [b' Hb']; [lia|].
    exists b'. by apply M_bind_throw.
Qed.

Lemma serializes_for_each {A} (f : A → M buffer unit) (enc : A → list byte) l :
  (∀ x, x ∈ l → serializes (f x) (enc x)) → serializes (for_each f l) (concat (enc <$> l)).
Proof.
  induction l as [|x l IH]; intros H; simpl; [apply serializes_ret|].
  apply serializes_bind; [apply H; by left|]. apply IH. intros y Hy. apply H. by right.
Qed.

Lemma parses_ret {A} (a : A) : parses (mret a) [] a.
Proof.
  intros b k Hwf Hr. unfold skip. destruct b. unfold zlen. simpl. by rewrite Z.add_0_r.
Qed.

Lemma parses_bind {A B} (m : M buffer A) (f : A → M buffer B) bs1 bs2 a c :
  parses m bs1 a → parses (f a) bs2 c → parses (m ≫= f) (bs1 ++ bs2) c.
Proof.
  intros H1 H2 b k Hwf Hr. rewrite <- app_assoc in Hr.
  rewrite (M_bind_ok _ _ _ _ _ (H1 b _ Hwf Hr)).
  assert (buffer_wf (skip (zlen bs1) b)) as Hwf'.
  { apply skip_wf; [done|apply zlen_nonneg|]. by eapply rest_room. }
  rewrite (H2 _ k Hwf' (rest_skip _ _ _ Hwf Hr)), skip_skip, zlen_app. done.
Qed.

Lemma parses_map {A B} (m : M buffer A) (f : A → M buffer B) bs a c :
  parses m bs a → (∀ s, f a s = (Ok c, s)) → parses (m ≫= f) bs c.
Proof.
  intros H Hf b k Hwf Hr. rewrite (M_bind_ok _ _ _ _ _ (H b k Hwf Hr)). apply Hf.
Qed.

Lemma parses_repeat {A} (m : M buffer A) (enc : A → list byte) l :
  (∀ x, x ∈ l → parses m (enc x) x) → parses (repeat_m (length l) m) (concat (enc <$> l)) l.
Proof.
  induction l as [|x l IH]; intros H; simpl; [apply parses_ret|].
  eapply parses_bind; [apply H; by left|].
  eapply parses_map; [apply IH; intros y Hy; apply H; by right|done].
Qed.

(** ** The accessors against these relations *)

Lemma is_overflow_spec n b :
  buffer_wf b → 0 ≤ n < 2 ^ 32 → is_overflow n b = bool_decide (m_size b < m_offset b + n).
Proof.
  intros (H1 & H2 & H3) Hn. unfold is_overflow.
  rewrite wrap_small by (unfold in_u; lia). rewrite Z.add_comm.
  destruct (Z.ltb_spec (m_size b) (m_offset b + n)); case_bool_decide; lia || done.
Qed.

Lemma check_room_ok n b :
  buffer_wf b → 0 ≤ n < 2 ^ 32 → m_offset b + n ≤ m_size b → check_room n b = (Ok tt, b).
Proof.
  intros Hwf Hn Hr. unfold check_room, get_state, mbind, M_bind.
  rewrite is_overflow_spec, bool_decide_false by (done || lia). done.
Qed.

Lemma check_room_overflow n b :
  buffer_wf b → 0 ≤ n < 2 ^ 32 → m_size b < m_offset b + n →
  check_room n b = (Throw BufferOverflow, b).
Proof.
  intros Hwf Hn Hr. unfold check_room, get_state, mbind, M_bind.
  rewrite is_overflow_spec, bool_decide_true by (done || lia). done.
Qed.

Lemma memcpy_to_ok bs b :
  buffer_wf b → m_offset b + zlen bs ≤ m_size b →
  memcpy_to bs b =
    (Ok tt, Buf (m_size b) (m_offset b) (overwrite (Z.to_nat (m_offset b)) bs (m_buf b))).
Proof.
  intros (H1 & H2 & H3) Hr. unfold memcpy_to, get_state, mbind, M_bind.
  rewrite bool_decide_true by lia. done.
Qed.

Lemma memcpy_from_ok bs k b :
  buffer_wf b → rest b = bs ++ k → memcpy_from (zlen bs) b = (Ok bs, b).
Proof.
  intros Hwf Hr. pose proof (rest_room _ _ _ Hwf Hr) as Hroom.
  destruct Hwf as (H1 & H2 & H3). unfold memcpy_from, get_state, mbind, M_bind.
  rewrite bool_decide_true by lia. fold (rest b). rewrite Hr.
  unfold zlen. rewrite Nat2Z.id, take_app_length. done.
Qed.

Lemma advance_ok n b :
  buffer_wf b → 0 ≤ n → m_offset b + n ≤ m_size b → advance n b = (Ok tt, skip n b).
Proof.
  intros (H1 & H2 & H3) Hn Hr. unfold advance, modify, skip.
  rewrite wrap_small by (unfold in_u; lia). done.
Qed.

Lemma advance_write bs b :
  buffer_wf b → m_offset b + zlen bs ≤ m_size b →
  advance (zlen bs) (Buf (m_size b) (m_offset b)
                         (overwrite (Z.to_nat (m_offset b)) bs (m_buf b))) =
    (Ok tt, write_at b bs).
Proof.
  intros (H1 & H2 & H3) Hr. unfold advance, modify, write_at. simpl.
  pose proof (zlen_nonneg bs). rewrite wrap_small by (unfold in_u; lia). done.
Qed.

Lemma put_fixed_serializes bs : zlen bs < 2 ^ 32 → serializes (put_fixed bs) bs.
Proof.
  intros Hl b Hwf. pose proof (zlen_nonneg bs). unfold put_fixed. split; intros Hr.
  - step_by check_room_ok.
    step_by memcpy_to_ok.
    by apply advance_write.
  - exists b. apply M_bind_throw, check_room_overflow; done || lia.
Qed.

Lemma get_fixed_parses bs : zlen bs < 2 ^ 32 → parses (get_fixed (length bs)) bs bs.
Proof.
  intros Hl b k Hwf Hr. pose proof (rest_room _ _ _ Hwf Hr) as Hroom.
  pose proof (zlen_nonneg bs). unfold get_fixed. fold (zlen bs).
  step_by check_room_ok.
  step_by memcpy_from_ok.
  step_by advance_ok. done.
Qed.

Lemma get_fixed_overflow n b :
  buffer_wf b → Z.of_nat n < 2 ^ 32 → m_size b < m_offset b + Z.of_nat n →
  get_fixed n b = (Throw BufferOverflow, b).
Proof. intros Hwf Hn Hr. apply M_bind_throw, check_room_overflow; done || lia. Qed.

(** A fixed-width read followed by a conversion. *)
Lemma get_le_parses {A} (n : nat) (conv : Z → A) z a :
  (n ≤ 8)%nat → conv (z mod 2 ^ (8 * Z.of_nat n)) = a →
  parses (bs ← get_fixed n; mret (conv (le_value bs))) (le_bytes n z) a.
Proof.
  intros Hn Hc. eapply parses_map.
  - rewrite <- (length_le_bytes n z) at 1. apply get_fixed_parses.
    unfold zlen. rewrite length_le_bytes. lia.
  - intros s. rewrite le_value_bytes, Hc. done.
Qed.

Lemma put_le_serializes (n : nat) z :
  (n ≤ 8)%nat → serializes (put_fixed (le_bytes n z)) (le_bytes n z).
Proof. intros. apply put_fixed_serializes. unfold zlen. rewrite length_le_bytes. lia. Qed.

Lemma get_uint64_parses z : in_u 64 z → parses get_uint64 (le_bytes 8 z) z.
Proof. intros. apply (get_le_parses 8 (λ x, x)); [lia|]. by apply wrap_small. Qed.
Lemma get_uint32_parses z : in_u 32 z → parses get_uint32 (le_bytes 4 z) z.
Proof. intros. apply (get_le_parses 4 (λ x, x)); [lia|]. by apply wrap_small. Qed.
Lemma get_uint16_parses z : in_u 16 z → parses get_uint16 (le_bytes 2 z) z.
Proof. intros. apply (get_le_parses 2 (λ x, x)); [lia|]. by apply wrap_small. Qed.
Lemma get_uint8_parses z : in_u 8 z → parses get_uint8 (le_bytes 1 z) z.
Proof. intros. apply (get_le_parses 1 (λ x, x)); [lia|]. by apply wrap_small. Qed.

Lemma swrap_le w z : 0 < w → in_s w z → swrap w (z mod 2 ^ w) = z.
Proof.
  intros Hw Hz. change (z mod 2 ^ w) with (wrap w z).
  rewrite swrap_wrap by lia. by apply swrap_small.
Qed.

Lemma get_int64_parses z : in_s 64 z → parses get_int64 (le_bytes 8 z) z.
Proof. intros. apply (get_le_parses 8 (swrap 64)); [lia|]. by apply swrap_le. Qed.
Lemma get_int32_parses z : in_s 32 z → parses get_int32 (le_bytes 4 z) z.
Proof. intros. apply (get_le_parses 4 (swrap 32)); [lia|]. by apply swrap_le. Qed.
Lemma get_int16_parses z : in_s 16 z → parses get_int16 (le_bytes 2 z) z.
Proof. intros. apply (get_le_parses 2 (swrap 16)); [lia|]. by apply swrap_le. Qed.
Lemma get_int8_parses z : in_s 8 z → parses get_int8 (le_bytes 1 z) z.
Proof. intros. apply (get_le_parses 1 (swrap 8)); [lia|]. by apply swrap_le. Qed.

Lemma get_double_parses z : in_u 64 z → parses get_double (le_bytes 8 z) z.
Proof. apply get_uint64_parses. Qed.
Lemma get_float_parses z : in_u 32 z → parses get_float (le_bytes 4 z) z.
Proof. apply get_uint32_parses. Qed.

Lemma get_boolean_parses (x : bool) : parses get_boolean (le_bytes 1 (if x then 1 else 0)) x.
Proof.
  eapply parses_map.
  - apply (get_fixed_parses (le_bytes 1 (if x then 1 else 0))). lens.
  - by destruct x.
Qed.

(** *** Strings and blobs *)

Lemma push_back_loop_spec buf n i cs :
  0 ≤ i → take n (drop (Z.to_nat i) buf) = cs → length cs = n →
  push_back_loop buf n i = Ok cs.
Proof.
  revert i cs. induction n as [|n IH]; intros i cs Hi Htake Hlen; simpl.
  - destruct cs; done.
  - destruct cs as [|c cs]; [done|].
    assert (drop (Z.to_nat i) buf !! 0%nat = Some c) as Hc.
    { apply (f_equal (.!! 0%nat)) in Htake. rewrite lookup_take_lt in Htake by lia. done. }
    rewrite lookup_drop, Nat.add_0_r in Hc. unfold buf_index.
    destruct (Z.ltb_spec i 0); [lia|]. rewrite Hc. simpl.
    rewrite (IH (i + 1) cs); simpl; [done|lia| |simpl in Hlen; lia].
    replace (Z.to_nat (i + 1)) with (Z.to_nat i + 1)%nat by lia.
    rewrite <- drop_drop. destruct (drop (Z.to_nat i) buf) as [|c' l]; [done|].
    simpl in *. by simplify_eq.
Qed.

Lemma get_string_parses s :
  slen s < 2 ^ 31 → parses (get_string (slen s)) (str_bytes s) s.
Proof.
  intros Hs b k Hwf Hr. pose proof (rest_room _ _ _ Hwf Hr) as Hroom.
  rewrite zlen_str_bytes in Hroom. assert (0 ≤ slen s) by (unfold slen; lia).
  pose proof Hwf as (H1 & H2 & H3). unfold get_string.
  rewrite (wrap_small 64 (slen s)) by (unfold in_u; lia).
  step_by check_room_ok.
  unfold get_state at 1. unfold mbind at 1, M_bind at 1.
  rewrite (wrap_small 64 (slen s + m_offset b)) by (unfold in_u; lia).
  rewrite !swrap_small by (unfold in_s; lia).
  replace (slen s + m_offset b - m_offset b) with (slen s) by lia.
  rewrite (push_back_loop_spec _ _ _ (str_bytes s)); [|lia| |].
  - unfold lift. unfold mbind at 1, M_bind at 1.
    step_by advance_ok.
    rewrite bytes_str_bytes, zlen_str_bytes. done.
  - fold (rest b). rewrite Hr. unfold slen. rewrite Nat2Z.id, <- str_bytes_length.
    by rewrite take_app_length.
  - unfold slen. rewrite Nat2Z.id. apply str_bytes_length.
Qed.

(** [put_string] and [put_blob] after the conversion of their size. *)
Lemma put_sized_serializes bs size :
  zlen bs < 2 ^ 31 → size = zlen bs →
  serializes (check_room (u64 size);; memcpy_sized bs size;; advance (u64 size)) bs.
Proof.
  intros Hs -> b Hwf. pose proof (zlen_nonneg bs).
  rewrite (wrap_small 64 (zlen bs)) by (unfold in_u; lia). split; intros Hr.
  - step_by check_room_ok.
    unfold memcpy_sized. rewrite (wrap_small 64 (zlen bs)) by (unfold in_u; lia).
    rewrite bool_decide_true by lia.
    rewrite (take_ge bs) by (unfold zlen; lia).
    step_by memcpy_to_ok. by apply advance_write.
  - exists b. apply M_bind_throw, check_room_overflow; done || lia.
Qed.

Lemma put_string_serializes s : slen s < 2 ^ 31 → serializes (put_string s) (str_bytes s).
Proof.
  intros Hs. assert (0 ≤ slen s) by (unfold slen; lia).
  apply put_sized_serializes; rewrite zlen_str_bytes; [done|].
  rewrite swrap_small by (unfold in_s; lia). done.
Qed.

Lemma put_blob_serializes bs : zlen bs < 2 ^ 31 → serializes (put_blob bs (zlen bs)) bs.
Proof. intros Hs. by apply put_sized_serializes. Qed.

Lemma get_blob_parses bs : zlen bs < 2 ^ 31 → parses (get_blob (zlen bs)) bs bs.
Proof.
  intros Hs b k Hwf Hr. pose proof (rest_room _ _ _ Hwf Hr) as Hroom.
  pose proof (zlen_nonneg bs). unfold get_blob.
  rewrite (wrap_small 64 (zlen bs)) by (unfold in_u; lia).
  step_by check_room_ok.
  destruct (Z.ltb_spec (zlen bs) 0); [lia|].
  step_by memcpy_from_ok.
  step_by advance_ok. done.
Qed.

(** [bytes] returns the whole array. *)
Lemma MemoryBuffer_bytes_ok b : buffer_wf b → MemoryBuffer_bytes b = Ok (m_buf b).
Proof.
  intros (H1 & H2 & H3). unfold MemoryBuffer_bytes.
  rewrite swrap_small by (unfold in_s; lia).
  rewrite (push_back_loop_spec _ _ 0 (m_buf b)); [|lia| |unfold zlen in H1; lia].
  - simpl. rewrite Nat.sub_diag, app_nil_r. done.
  - simpl. rewrite drop_0. apply take_ge. unfold zlen in H1. lia.
Qed.

#[export] Hint Resolve get_uint64_parses get_uint32_parses get_uint16_parses get_uint8_parses
  get_int64_parses get_int32_parses get_int16_parses get_int8_parses
  get_double_parses get_float_parses get_boolean_parses get_string_parses get_blob_parses
  put_string_serializes put_blob_serializes serializes_ret serializes_bind
  parses_ret : dibi.

(** ** Sequences of typed accesses

    The values the accessors move, one constructor per [put_*]/[get_*] pair. *)
Inductive item :=
| I_uint64 (z : Z) | I_uint32 (z : Z) | I_uint16 (z : Z) | I_uint8 (z : Z)
| I_int64 (z : Z) | I_int32 (z : Z) | I_int16 (z : Z) | I_int8 (z : Z)
| I_double (z : Z) | I_float (z : Z) | I_boolean (x : bool)
| I_string (s : string) | I_blob (bs : list byte).

Definition item_ok (i : item) : Prop :=
  match i with
  | I_uint64 z | I_double z => in_u 64 z
  | I_uint32 z | I_float z => in_u 32 z
  | I_uint16 z => in_u 16 z
  | I_uint8 z => in_u 8 z
  | I_int64 z => in_s 64 z
  | I_int32 z => in_s 32 z
  | I_int16 z => in_s 16 z
  | I_int8 z => in_s 8 z
  | I_boolean _ => True
  | I_string s => slen s < 2 ^ 31
  | I_blob bs => zlen bs < 2 ^ 31
  end.

Definition put_item (i : item) : M buffer unit :=
  match i with
  | I_uint64 z => put_uint64 z | I_uint32 z => put_uint32 z
  | I_uint16 z => put_uint16 z | I_uint8 z => put_uint8 z
  | I_int64 z => put_int64 z | I_int32 z => put_int32 z
  | I_int16 z => put_int16 z | I_int8 z => put_int8 z
  | I_double z => put_double z | I_float z => put_float z
  | I_boolean x => put_boolean x
  | I_string s => put_string s
  | I_blob bs => put_blob bs (zlen bs)
  end.

(** The read of an item of the same kind (and, for strings and blobs, the same
    length, which the callers know). *)
Definition get_item (i : item) : M buffer item :=
  match i with
  | I_uint64 _ => z ← get_uint64; mret (I_uint64 z)
  | I_uint32 _ => z ← get_uint32; mret (I_uint32 z)
  | I_uint16 _ => z ← get_uint16; mret (I_uint16 z)
  | I_uint8 _ => z ← get_uint8; mret (I_uint8 z)
  | I_int64 _ => z ← get_int64; mret (I_int64 z)
  | I_int32 _ => z ← get_int32; mret (I_int32 z)
  | I_int16 _ => z ← get_int16; mret (I_int16 z)
  | I_int8 _ => z ← get_int8; mret (I_int8 z)
  | I_double _ => z ← get_double; mret (I_double z)
  | I_float _ => z ← get_float; mret (I_float z)
  | I_boolean _ => x ← get_boolean; mret (I_boolean x)
  | I_string s => s ← get_string (slen s); mret (I_string s)
  | I_blob bs => bs ← get_blob (zlen bs); mret (I_blob bs)
  end.

Definition item_bytes (i : item) : list byte :=
  match i with
  | I_uint64 z | I_int64 z | I_double z => le_bytes 8 z
  | I_uint32 z | I_int32 z | I_float z => le_bytes 4 z
  | I_uint16 z | I_int16 z => le_bytes 2 z
  | I_uint8 z | I_int8 z => le_bytes 1 z
  | I_boolean x => le_bytes 1 (if x then 1 else 0)
  | I_string s => str_bytes s
  | I_blob bs => bs
  end.

Lemma put_item_serializes i : item_ok i → serializes (put_item i) (item_bytes i).
Proof. destruct i; simpl; intros; auto with dibi; apply put_le_serializes; lia. Qed.

Lemma get_item_parses i : item_ok i → parses (get_item i) (item_bytes i) i.
Proof. destruct i; simpl; intros; (eapply parses_map; [eauto with dibi|done]). Qed.

Fixpoint get_items (its : list item) : M buffer (list item) :=
  match its with
  | [] => mret []
  | i :: its => x ← get_item i; xs ← get_items its; mret (x :: xs)
  end.

Definition items_bytes (its : list item) : list byte := concat (item_bytes <$> its).

Lemma put_items_serializes its :
  Forall item_ok its → serializes (for_each put_item its) (items_bytes its).
Proof.
  intros H. apply serializes_for_each. intros i Hi. apply put_item_serializes.
  by eapply Forall_forall in H.
Qed.

Lemma get_items_parses its : Forall item_ok its → parses (get_items its) (items_bytes its) its.
Proof.
  induction 1 as [|i its Hi His IH]; unfold items_bytes; simpl; [apply parses_ret|].
  eapply parses_bind; [by apply get_item_parses|]. by eapply parses_map.
Qed.

(** A serialiser run on a fresh buffer with room for its output leaves its
    output followed by zeroes. *)
Lemma serializes_fresh m bs n :
  serializes m bs → zlen bs ≤ n < 2 ^ 31 →
  ∃ b, m (MemoryBuffer n) = (Ok tt, b) ∧ buffer_wf b ∧ m_size b = n ∧
       m_offset b = zlen bs ∧
       m_buf b = bs ++ replicate (Z.to_nat n - length bs) x00.
Proof.
  intros Hm Hn. pose proof (zlen_nonneg bs).
  assert (buffer_wf (MemoryBuffer n)) as Hwf by (apply MemoryBuffer_wf; lia).
  destruct (Hm _ Hwf) as [Hok _]. simpl in Hok. specialize (Hok ltac:(lia)).
  eexists. split; [done|]. split; [apply write_at_wf; simpl; done || lia|].
  split; [done|]. split; [done|].
  simpl. unfold overwrite. rewrite take_0, drop_replicate. simpl. done.
Qed.

Lemma parses_from {A} (m : M buffer A) bs k a :
  parses m bs a → zlen (bs ++ k) < 2 ^ 31 →
  m (MemoryBuffer_from (bs ++ k) (zlen (bs ++ k))) =
    (Ok a, Buf (zlen (bs ++ k)) (zlen bs) (bs ++ k)).
Proof.
  intros Hm Hn. rewrite (Hm _ k); [done|by apply MemoryBuffer_from_wf|].
  unfold rest. simpl. by rewrite drop_0.
Qed.

(** Writing with a serialiser and reading back with its parser. *)
Lemma roundtrip_fresh {A} (w : M buffer unit) (r : M buffer A) bs a n :
  serializes w bs → parses r bs a → zlen bs ≤ n < 2 ^ 31 →
  ∃ b out, w (MemoryBuffer n) = (Ok tt, b) ∧ MemoryBuffer_bytes b = Ok out ∧ zlen out = n ∧
           r (MemoryBuffer_from out n) = (Ok a, Buf n (zlen bs) out).
Proof.
  intros Hw Hr Hn. destruct (serializes_fresh _ _ n Hw Hn) as (b & Hb & Hwf & Hsz & Hoff & Hbuf).
  exists b, (m_buf b). split; [done|]. split; [by apply MemoryBuffer_bytes_ok|].
  destruct Hwf as (Hl & _). split; [lia|].
  rewrite <- Hsz, <- Hl, Hbuf in *. apply parses_from; [done|lia].
Qed.

(** ** Properties *)

(** A sequence of typed [put_*] calls that fits a fresh
    [MemoryBuffer(n)] succeeds, and the same sequence of [get_*] calls on a
    buffer built from [bytes()] returns exactly the values written, leaving
    the cursor after them. *)
Theorem put_get_sequence (its : list item) (n : Z) :
  Forall item_ok its → zlen (items_bytes its) ≤ n < 2 ^ 31 →
  ∃ b out, for_each put_item its (MemoryBuffer n) = (Ok tt, b) ∧
           MemoryBuffer_bytes b = Ok out ∧ zlen out = n ∧
           get_items its (MemoryBuffer_from out n) =
             (Ok its, Buf n (zlen (items_bytes its)) out).
Proof.
  intros Hok Hn.
  apply roundtrip_fresh; [by apply put_items_serializes|by apply get_items_parses|done].
Qed.

Lemma put_get_sequence_witness :
  let its := [I_uint8 3; I_string "abc"; I_int32 (-5); I_boolean true] in
  ∃ b out, for_each put_item its (MemoryBuffer 16) = (Ok tt, b) ∧
           MemoryBuffer_bytes b = Ok out ∧ zlen out = 16 ∧
           get_items its (MemoryBuffer_from out 16) =
             (Ok its, Buf 16 (zlen (items_bytes its)) out).
Proof.
  apply put_get_sequence.
  - repeat constructor; vm_compute; try done; intros; congruence.
  - vm_compute. split; intros; congruence.
Defined.

(** A sequence of typed [put_*] calls that does not fit the space
    left in the buffer throws ["Buffer Overflow"]. *)
Theorem put_sequence_overflow (its : list item) (b : buffer) :
  Forall item_ok its → buffer_wf b → m_size b < m_offset b + zlen (items_bytes its) →
  ∃ b', for_each put_item its b = (Throw BufferOverflow, b').
Proof. intros Hok Hwf Hr. by apply (put_items_serializes its Hok b Hwf). Qed.

Lemma put_sequence_overflow_witness :
  ∃ b', for_each put_item [I_uint64 1; I_uint8 2] (MemoryBuffer 8) = (Throw BufferOverflow, b').
Proof.
  apply put_sequence_overflow.
  - repeat constructor; vm_compute; try done; intros; congruence.
  - apply MemoryBuffer_wf. lia.
  - vm_compute. done.
Defined.

(** *** Reachable buffers *)

Lemma put_item_overflow i b :
  item_ok i → buffer_wf b → m_size b < m_offset b + zlen (item_bytes i) →
  put_item i b = (Throw BufferOverflow, b).
Proof.
  intros Hi Hwf Hr. pose proof (zlen_nonneg (item_bytes i)).
  destruct i; simpl in Hi, Hr |- *; apply M_bind_throw;
    (try rewrite (wrap_small 64 _)); try (rewrite swrap_small);
    rewrite ?zlen_str_bytes in *; try (apply check_room_overflow);
    unfold in_u, in_s, slen in *; try done; try lia; unfold zlen in *; simpl in *; lia.
Qed.

(** What a read does on any buffer: it consumes the bytes in front of the
    cursor, or throws and changes nothing. *)
Lemma get_fixed_room n b :
  buffer_wf b → Z.of_nat n < 2 ^ 32 → m_offset b + Z.of_nat n ≤ m_size b →
  get_fixed n b = (Ok (take n (rest b)), skip (Z.of_nat n) b).
Proof.
  intros Hwf Hn Hr. pose proof (rest_length b Hwf) as Hl.
  assert (length (take n (rest b)) = n) as Htk by (rewrite length_take; unfold zlen in Hl; lia).
  assert (parses (get_fixed n) (take n (rest b)) (take n (rest b))) as Hp.
  { rewrite <- Htk at 1. apply get_fixed_parses. unfold zlen. lia. }
  rewrite (Hp b (drop n (rest b))); [|done|by rewrite take_drop]. unfold zlen. by rewrite Htk.
Qed.

Lemma get_string_room n b :
  buffer_wf b → 0 ≤ n < 2 ^ 31 → m_offset b + n ≤ m_size b →
  get_string n b = (Ok (bytes_str (take (Z.to_nat n) (rest b))), skip n b).
Proof.
  intros Hwf Hn Hr. pose proof (rest_length b Hwf) as Hl.
  set (s := bytes_str (take (Z.to_nat n) (rest b))).
  assert (str_bytes s = take (Z.to_nat n) (rest b)) as Hs by apply String.list_byte_of_string_of_list_byte.
  assert (slen s = n) as Hlen.
  { rewrite <- zlen_str_bytes, Hs. unfold zlen in *. rewrite length_take. lia. }
  rewrite <- Hlen. rewrite (get_string_parses s ltac:(lia) b (drop (Z.to_nat n) (rest b)));
    [by rewrite zlen_str_bytes|done|by rewrite Hs, take_drop].
Qed.

Lemma get_string_overflow n b : buffer_wf b → 0 ≤ n < 2 ^ 31 → m_size b < m_offset b + n →
  get_string n b = (Throw BufferOverflow, b).
Proof.
  intros Hwf Hn Hr. apply M_bind_throw. rewrite wrap_small by (unfold in_u; lia).
  apply check_room_overflow; done || lia.
Qed.

Lemma get_blob_overflow n b : buffer_wf b → 0 ≤ n < 2 ^ 31 → m_size b < m_offset b + n →
  get_blob n b = (Throw BufferOverflow, b).
Proof.
  intros Hwf Hn Hr. apply M_bind_throw. rewrite wrap_small by (unfold in_u; lia).
  apply check_room_overflow; done || lia.
Qed.

Lemma get_blob_room n b :
  buffer_wf b → 0 ≤ n < 2 ^ 31 → m_offset b + n ≤ m_size b →
  get_blob n b = (Ok (take (Z.to_nat n) (rest b)), skip n b).
Proof.
  intros Hwf Hn Hr. pose proof (rest_length b Hwf) as Hl. set (bs := take (Z.to_nat n) (rest b)).
  assert (zlen bs = n) as Hlen by (unfold bs, zlen in *; rewrite length_take; lia).
  rewrite <- Hlen. rewrite (get_blob_parses bs ltac:(lia) b (drop (Z.to_nat n) (rest b)));
    [done|done|]. unfold bs. by rewrite take_drop.
Qed.

(** The guard of [get_string] adds a negative [int] size to the
    cursor in [size_t]; for a size in [-offset, 0) the sum wraps below
    [m_size], the call returns the empty string and moves the cursor
    backwards. *)
Theorem get_string_negative (b : buffer) (n : Z) :
  buffer_wf b → - m_offset b ≤ n < 0 → get_string n b = (Ok EmptyString, skip n b).
Proof.
  intros (H1 & H2 & H3) Hn. unfold get_string.
  assert (u64 n = n + 2 ^ 64) as ->.
  { unfold wrap. rewrite <- (Z_mod_plus_full n 1), Z.mul_1_l. apply Z.mod_small. lia. }
  assert (u64 (n + 2 ^ 64 + m_offset b) = m_offset b + n) as Hw.
  { unfold wrap. replace (n + 2 ^ 64 + m_offset b) with (m_offset b + n + 1 * 2 ^ 64) by lia.
    rewrite Z_mod_plus_full. apply Z.mod_small. lia. }
  unfold check_room, get_state, is_overflow, mbind, M_bind. rewrite Hw.
  destruct (Z.ltb_spec (m_size b) (m_offset b + n)) as [|_]; [lia|].
  unfold mret, M_ret. rewrite Hw, !swrap_small by (unfold in_s; lia).
  replace (Z.to_nat (m_offset b + n - m_offset b)) with 0%nat by lia. simpl.
  unfold advance, modify, skip. do 2 f_equal.
  rewrite <- Hw. f_equal. lia.
Qed.

(** One method call on a buffer, its result dropped; strings and blobs also with
    any [int] for a size. *)
Inductive call :=
| C_put (i : item)
| C_get (i : item)
| C_get_string (size : Z)
| C_get_blob (size : Z)
| C_put_blob (data : list byte) (size : Z).

Definition call_ok (c : call) : Prop :=
  match c with
  | C_put i | C_get i => item_ok i
  | C_get_string size | C_get_blob size => in_s 32 size
  | C_put_blob data size => in_s 32 size ∧ zlen data < 2 ^ 63
  end.

Definition run_call (c : call) : M buffer unit :=
  match c with
  | C_put i => put_item i
  | C_get i => get_item i;; mret tt
  | C_get_string size => get_string size;; mret tt
  | C_get_blob size => get_blob size;; mret tt
  | C_put_blob data size => put_blob data size
  end.

Definition call_size (c : call) : Z :=
  match c with
  | C_put i | C_get i => zlen (item_bytes i)
  | C_get_string size | C_get_blob size | C_put_blob _ size => size
  end.

(** What a call does.  The guard lets through every size, negative ones too, that
    keeps the cursor in the array.  Past it, items are written and read at the
    cursor, except that reading a [bool] from a byte other than 0 and 1 is
    undefined; [get_string] of a negative size moves the cursor back; [get_blob]
    of one cannot allocate; and [put_blob] of a negative size, or of one above that
    of its source, is undefined. *)
Definition call_result (c : call) (b : buffer) : outcome unit * buffer :=
  if bool_decide (0 ≤ m_offset b + call_size c ≤ m_size b) then
    match c with
    | C_put i => (Ok tt, write_at b (item_bytes i))
    | C_get (I_boolean _) =>
        (if bool_decide (rest b !! 0%nat ∈ [Some x00; Some x01]) then Ok tt else Undef BadEnumValue, skip 1 b)
    | C_get _ => (Ok tt, skip (call_size c) b)
    | C_get_string size => (Ok tt, skip size b)
    | C_get_blob size => if size <? 0 then (Throw bad_array_new_length, b) else (Ok tt, skip size b)
    | C_put_blob data size =>
        if bool_decide (0 ≤ size ≤ zlen data) then (Ok tt, write_at b (take (Z.to_nat size) data))
        else (Undef OutOfBounds, b)
    end
  else (Throw BufferOverflow, b).

(** The guard for an [int] that is converted to [size_t]. *)
Lemma check_room_int n b : buffer_wf b → in_s 32 n →
  check_room (u64 n) b =
    (if bool_decide (0 ≤ m_offset b + n ≤ m_size b) then Ok tt else Throw BufferOverflow, b).
Proof.
  intros (H1 & H2 & H3) Hn. unfold in_s in Hn. unfold check_room, get_state, is_overflow, mbind, M_bind.
  assert (u64 (u64 n + m_offset b) = if decide (0 ≤ m_offset b + n) then m_offset b + n else m_offset b + n + 2 ^ 64) as ->.
  { unfold wrap. rewrite Zplus_mod_idemp_l. destruct (decide _).
    - rewrite Z.mod_small by lia. lia.
    - rewrite <- (Z_mod_plus_full _ 1), Z.mul_1_l, Z.mod_small by lia. lia. }
  destruct (decide _); [destruct (Z.ltb_spec (m_size b) (m_offset b + n))|
    destruct (Z.ltb_spec (m_size b) (m_offset b + n + 2 ^ 64)); [|lia]];
    ((rewrite bool_decide_true by lia) || (rewrite bool_decide_false by lia)); done.
Qed.

Lemma put_call i b : buffer_wf b → item_ok i → put_item i b = call_result (C_put i) b.
Proof.
  intros Hwf Hi. pose proof Hwf as (_ & H2 & _). pose proof (zlen_nonneg (item_bytes i)).
  unfold call_result. cbn [call_size]. case_bool_decide.
  - apply put_item_serializes; try done; lia.
  - apply put_item_overflow; try done. lia.
Qed.

(** A read of an item: the bytes in front of the cursor are skipped, or the call
    throws. *)
Lemma get_call i b : buffer_wf b → item_ok i → run_call (C_get i) b = call_result (C_get i) b.
Proof.
  intros Hwf Hi. pose proof Hwf as (_ & H2 & _). pose proof (zlen_nonneg (item_bytes i)) as H0.
  unfold call_result. cbn [call_size]. case_bool_decide as Hr.
  - destruct i as [| | | | | | | | | |x| |]; cbn [item_bytes item_ok] in *;
      unfold run_call, get_item, get_uint64, get_uint32, get_uint16, get_uint8, get_int64, get_int32,
        get_int16, get_int8, get_double, get_float, get_boolean, mbind, M_bind;
      rewrite ?zlen_le_bytes, ?zlen_str_bytes in *;
      first [rewrite get_fixed_room by (done || lia) | rewrite get_string_room by (unfold slen in *; lia || done)
            | rewrite get_blob_room by (lia || done)]; try done.
    pose proof (rest_length b Hwf) as Hl. destruct (rest b) as [|c cs]; [unfold zlen in Hl; cbn in Hl; lia|].
    change ((c :: cs) !! 0%nat) with (Some c). by destruct c.
  - destruct i; cbn [item_bytes item_ok] in *; rewrite ?zlen_le_bytes, ?zlen_str_bytes in *;
      unfold run_call, get_item; do 3 apply M_bind_throw;
      first [apply get_fixed_overflow; done || lia
            | rewrite check_room_int by (unfold in_s, slen in *; done || lia); by rewrite bool_decide_false].
Qed.

(** Strings and blobs of any size. *)
Lemma get_string_call size b : buffer_wf b → in_s 32 size →
  run_call (C_get_string size) b = call_result (C_get_string size) b.
Proof.
  intros Hwf Hs. unfold call_result. cbn [call_size run_call]. case_bool_decide as Hr.
  - unfold mbind, M_bind. destruct (decide (0 ≤ size)).
    + unfold in_s in Hs. by rewrite get_string_room by (done || lia).
    + by rewrite get_string_negative by (done || lia).
  - do 2 apply M_bind_throw. rewrite check_room_int by done. by rewrite bool_decide_false.
Qed.

Lemma get_blob_call size b : buffer_wf b → in_s 32 size →
  run_call (C_get_blob size) b = call_result (C_get_blob size) b.
Proof.
  intros Hwf Hs. unfold call_result. cbn [call_size run_call]. case_bool_decide as Hr.
  - unfold mbind, M_bind. destruct (Z.ltb_spec size 0).
    + unfold get_blob. erewrite M_bind_ok by (rewrite check_room_int, bool_decide_true by done; reflexivity).
      destruct (Z.ltb_spec size 0); [done|lia].
    + unfold in_s in Hs. by rewrite get_blob_room by (done || lia).
  - do 2 apply M_bind_throw. rewrite check_room_int by done. by rewrite bool_decide_false.
Qed.

Lemma put_blob_call data size b : buffer_wf b → in_s 32 size → zlen data < 2 ^ 63 →
  put_blob data size b = call_result (C_put_blob data size) b.
Proof.
  intros Hwf Hs Hdata. unfold call_result, put_blob. cbn [call_size]. case_bool_decide as Hr.
  - erewrite M_bind_ok by (rewrite check_room_int, bool_decide_true by done; reflexivity).
    unfold in_s in Hs. pose proof (zlen_nonneg data). case_bool_decide as Hd; unfold memcpy_sized.
    + rewrite wrap_small by (unfold in_u; lia). rewrite bool_decide_true by lia.
      set (bs := take (Z.to_nat size) data).
      assert (size = zlen bs) as Hz by (unfold bs, zlen in *; rewrite length_take; lia). rewrite Hz.
      erewrite M_bind_ok by (apply memcpy_to_ok; [done|lia]). apply advance_write; [done|lia].
    + assert (u64 size = if decide (0 ≤ size) then size else size + 2 ^ 64) as ->.
      { unfold wrap. destruct (decide _); [by rewrite Z.mod_small by lia|].
        rewrite <- (Z_mod_plus_full _ 1), Z.mul_1_l, Z.mod_small by lia. lia. }
      rewrite bool_decide_false; [done|]. destruct (decide _); lia.
  - apply M_bind_throw. rewrite check_room_int by done. by rewrite bool_decide_false.
Qed.

Lemma run_call_result c b : buffer_wf b → call_ok c → run_call c b = call_result c b.
Proof.
  intros Hwf Hc. destruct c as [i|i|size|size|data size].
  - by apply put_call.
  - by apply get_call.
  - by apply get_string_call.
  - by apply get_blob_call.
  - destruct Hc. by apply put_blob_call.
Qed.

Lemma call_result_wf c b : buffer_wf b → call_ok c →
  buffer_wf (call_result c b).2 ∧ m_size (call_result c b).2 = m_size b.
Proof.
  intros Hwf Hc. unfold call_result. case_bool_decide as Hr; [|done].
  assert (buffer_wf (skip (call_size c) b)) as Hskip by (destruct Hwf; unfold buffer_wf; simpl; lia).
  destruct c as [i|i|size|size|data size]; cbn [call_size] in *.
  - split; [|done]. apply write_at_wf; [done|lia].
  - by destruct i.
  - done.
  - by destruct (Z.ltb_spec size 0).
  - case_bool_decide; [|done]. split; [|done]. apply write_at_wf; [done|].
    unfold zlen in *. rewrite length_take. lia.
Qed.

(** Buffers reached from a fresh one by any sequence of calls, whatever came of
    them. *)
Inductive reachable (n : Z) : buffer → Prop :=
| reach_new : reachable n (MemoryBuffer n)
| reach_call b c o b' :
    reachable n b → call_ok c → run_call c b = (o, b') → reachable n b'.

(** C19 (safety): in every buffer reachable from [MemoryBuffer(n)] by accessor
    calls, strings and blobs with any [int] for a size included, the array keeps
    its [n] bytes and the cursor stays inside it, and what a further call does is
    exactly [call_result]: a call whose bytes are not in the array throws ["Buffer
    Overflow"] and changes nothing, and every other reads or writes the bytes at
    the cursor, apart from the cases the guard does not see.  These are a
    [get_boolean] of a byte other than 0 and 1 and a [put_blob] of a size that is
    negative or above that of its source, which are undefined (the copy leaves the
    source and, for a negative size, the array as well); a [get_blob] of a negative
    size, which throws; and a [get_string] of one, which moves the cursor back. *)
Theorem reachable_safe (n : Z) (b : buffer) (c : call) :
  0 ≤ n < 2 ^ 31 → reachable n b → call_ok c →
  buffer_wf b ∧ m_size b = n ∧ run_call c b = call_result c b.
Proof.
  intros Hn Hr Hc. assert (buffer_wf b ∧ m_size b = n) as [Hwf Hs].
  { clear Hc c. induction Hr as [|b c o b' Hr [Hwf Hs] Hc Hrun].
    - split; [by apply MemoryBuffer_wf|done].
    - destruct (call_result_wf c b Hwf Hc) as [Hwf' Hs'].
      rewrite <- run_call_result, Hrun in Hwf', Hs' by done. split; [done|]. cbn in Hs'. lia. }
  split; [done|]. split; [done|]. by apply run_call_result.
Qed.

(** After a byte is written, a blob of size -1 passes the guard. *)
Lemma reachable_safe_witness :
  let b := (run_call (C_put (I_uint8 7)) (MemoryBuffer 4)).2 in
  buffer_wf b ∧ m_size b = 4 ∧ run_call (C_put_blob [x01] (-1)) b = (Undef OutOfBounds, b).
Proof.
  intros b. destruct (reachable_safe 4 b (C_put_blob [x01] (-1))) as (Hwf & Hs & Hrun).
  - lia.
  - eapply (reach_call 4 (MemoryBuffer 4) (C_put (I_uint8 7))); [apply reach_new|split; vm_compute; congruence|reflexivity].
  - split; [split; vm_compute; congruence|vm_compute; reflexivity].
  - split; [exact Hwf|]. split; [exact Hs|]. rewrite Hrun. vm_compute. reflexivity.
Defined.

Lemma get_string_negative_witness :
  let b := skip 5 (MemoryBuffer 8) in get_string (-3) b = (Ok EmptyString, skip (-3) b).
Proof.
  apply get_string_negative; [|vm_compute; split; congruence].
  apply skip_wf; [apply MemoryBuffer_wf; lia|lia|vm_compute; congruence].
Defined.
