(* ===== verification/Interface.v ===== *)
(** * The interface of buffers

    Models the abstract class [util::Buffer] of [include/util/buffer.hh] as a
    type class: its virtual functions, what a client may rely on, and the proof
    that [MemoryBuffer], the only class derived from it, keeps to that.  The
    theorems about sequences of accesses are proved against the interface. *)

From Stdlib Require Import ZArith Lia Strings.Byte String.
From stdpp Require Import base list.
From S2P Require Import Prelude Buffer.

Local Open Scope Z_scope.

(** ** The virtual functions *)

Class BufferOps (B : Type) := {
  b_get_uint64 : M B Z;       b_put_uint64 : Z → M B unit;
  b_get_uint32 : M B Z;       b_put_uint32 : Z → M B unit;
  b_get_uint16 : M B Z;       b_put_uint16 : Z → M B unit;
  b_get_uint8 : M B Z;        b_put_uint8 : Z → M B unit;
  b_get_int64 : M B Z;        b_put_int64 : Z → M B unit;
  b_get_int32 : M B Z;        b_put_int32 : Z → M B unit;
  b_get_int16 : M B Z;        b_put_int16 : Z → M B unit;
  b_get_int8 : M B Z;         b_put_int8 : Z → M B unit;
  b_get_string : Z → M B string;
  b_put_string : string → M B unit;
  b_get_double : M B Z;       b_put_double : Z → M B unit;
  b_get_float : M B Z;        b_put_float : Z → M B unit;
  b_get_boolean : M B bool;   b_put_boolean : bool → M B unit;
  b_get_blob : Z → M B (list byte);
  b_put_blob : list byte → Z → M B unit;
  b_offset : B → Z;
  b_size : B → Z;
  b_bytes : B → outcome (list byte)
}.

(** The calls behind the items of a sequence, on any buffer. *)
Definition b_put `{BufferOps B} (i : item) : M B unit :=
  match i with
  | I_uint64 z => b_put_uint64 z | I_uint32 z => b_put_uint32 z
  | I_uint16 z => b_put_uint16 z | I_uint8 z => b_put_uint8 z
  | I_int64 z => b_put_int64 z | I_int32 z => b_put_int32 z
  | I_int16 z => b_put_int16 z | I_int8 z => b_put_int8 z
  | I_double z => b_put_double z | I_float z => b_put_float z
  | I_boolean x => b_put_boolean x
  | I_string s => b_put_string s
  | I_blob bs => b_put_blob bs (zlen bs)
  end.

Definition b_get `{BufferOps B} (i : item) : M B item :=
  match i with
  | I_uint64 _ => z ← b_get_uint64; mret (I_uint64 z)
  | I_uint32 _ => z ← b_get_uint32; mret (I_uint32 z)
  | I_uint16 _ => z ← b_get_uint16; mret (I_uint16 z)
  | I_uint8 _ => z ← b_get_uint8; mret (I_uint8 z)
  | I_int64 _ => z ← b_get_int64; mret (I_int64 z)
  | I_int32 _ => z ← b_get_int32; mret (I_int32 z)
  | I_int16 _ => z ← b_get_int16; mret (I_int16 z)
  | I_int8 _ => z ← b_get_int8; mret (I_int8 z)
  | I_double _ => z ← b_get_double; mret (I_double z)
  | I_float _ => z ← b_get_float; mret (I_float z)
  | I_boolean _ => x ← b_get_boolean; mret (I_boolean x)
  | I_string s => s ← b_get_string (slen s); mret (I_string s)
  | I_blob bs => bs ← b_get_blob (zlen bs); mret (I_blob bs)
  end.

Fixpoint b_gets `{BufferOps B} (its : list item) : M B (list item) :=
  match its with
  | [] => mret []
  | i :: its => x ← b_get i; xs ← b_gets its; mret (x :: xs)
  end.

(** ** What a client relies on *)

(** The contents are the bytes [bytes()] returns: a write replaces those behind the
    cursor and moves it, or throws and changes nothing; a read returns the value in
    front of the cursor. *)
Class BufferLaws (B : Type) `{BufferOps B} := {
  b_ok : B → Prop;
  b_content : B → list byte;
  b_bounds : ∀ b, b_ok b → 0 ≤ b_offset b ≤ b_size b ∧ zlen (b_content b) = b_size b;
  b_bytes_law : ∀ b, b_ok b → b_bytes b = Ok (b_content b);
  b_put_law : ∀ i b, b_ok b → item_ok i → b_offset b + zlen (item_bytes i) ≤ b_size b →
    ∃ b', b_put i b = (Ok tt, b') ∧ b_ok b' ∧ b_size b' = b_size b ∧
      b_offset b' = b_offset b + zlen (item_bytes i) ∧
      b_content b' = overwrite (Z.to_nat (b_offset b)) (item_bytes i) (b_content b);
  b_put_full : ∀ i b, b_ok b → item_ok i → b_size b < b_offset b + zlen (item_bytes i) →
    b_put i b = (Throw BufferOverflow, b);
  b_get_law : ∀ i b k, b_ok b → item_ok i →
    drop (Z.to_nat (b_offset b)) (b_content b) = item_bytes i ++ k →
    ∃ b', b_get i b = (Ok i, b') ∧ b_ok b' ∧ b_content b' = b_content b ∧ b_size b' = b_size b ∧
      b_offset b' = b_offset b + zlen (item_bytes i)
}.

(** ** [MemoryBuffer] *)

#[export] Instance MemoryBuffer_ops : BufferOps buffer := {|
  b_get_uint64 := get_uint64; b_put_uint64 := put_uint64;
  b_get_uint32 := get_uint32; b_put_uint32 := put_uint32;
  b_get_uint16 := get_uint16; b_put_uint16 := put_uint16;
  b_get_uint8 := get_uint8; b_put_uint8 := put_uint8;
  b_get_int64 := get_int64; b_put_int64 := put_int64;
  b_get_int32 := get_int32; b_put_int32 := put_int32;
  b_get_int16 := get_int16; b_put_int16 := put_int16;
  b_get_int8 := get_int8; b_put_int8 := put_int8;
  b_get_string := get_string; b_put_string := put_string;
  b_get_double := get_double; b_put_double := put_double;
  b_get_float := get_float; b_put_float := put_float;
  b_get_boolean := get_boolean; b_put_boolean := put_boolean;
  b_get_blob := get_blob; b_put_blob := put_blob;
  b_offset := MemoryBuffer_offset; b_size := MemoryBuffer_size; b_bytes := MemoryBuffer_bytes
|}.

Lemma memory_put i b : b_put i b = put_item i b.
Proof. by destruct i. Qed.

Lemma memory_get i b : b_get i b = get_item i b.
Proof. by destruct i. Qed.

#[export] Instance MemoryBuffer_laws : BufferLaws buffer.
Proof.
  refine {| b_ok := buffer_wf; b_content := m_buf |}.
  - intros b (Hl & Ho & _). by split.
  - apply MemoryBuffer_bytes_ok.
  - intros i b Hwf Hi Hr. rewrite memory_put, (proj1 (put_item_serializes i Hi b Hwf) Hr).
    eexists. split; [done|]. split; [by apply write_at_wf|done].
  - intros i b Hwf Hi Hr. rewrite memory_put. by apply put_item_overflow.
  - intros i b k Hwf Hi Hk. rewrite memory_get, (get_item_parses i Hi b k Hwf Hk).
    eexists. split; [done|]. split; [|done]. apply skip_wf; [done|apply zlen_nonneg|].
    by apply (rest_room b _ k).
Defined.

(** ** Sequences of accesses, on any buffer *)

Section sequences.
Context {B : Type} `{BufferLaws B}.

Lemma items_bytes_cons i its : items_bytes (i :: its) = item_bytes i ++ items_bytes its.
Proof. done. Qed.

Lemma puts_ok its : ∀ b, b_ok b → Forall item_ok its → b_offset b + zlen (items_bytes its) ≤ b_size b →
  ∃ b', for_each b_put its b = (Ok tt, b') ∧ b_ok b' ∧ b_size b' = b_size b ∧
    b_offset b' = b_offset b + zlen (items_bytes its) ∧
    b_content b' = overwrite (Z.to_nat (b_offset b)) (items_bytes its) (b_content b).
Proof.
  induction its as [|i its IH]; intros b Hok Hits Hr.
  { exists b. split_and!; try done; [unfold items_bytes, zlen; cbn; lia|]. unfold overwrite, items_bytes. cbn [fmap list_fmap concat length app].
    by rewrite Nat.add_0_r, take_drop. }
  apply Forall_cons in Hits as [Hi Hits]. rewrite items_bytes_cons in *. rewrite zlen_app in Hr |- *.
  pose proof (zlen_nonneg (items_bytes its)).
  destruct (b_put_law i b Hok Hi ltac:(lia)) as (b1 & Hput & Hok1 & Hs1 & Ho1 & Hc1).
  destruct (IH b1 Hok1 Hits ltac:(lia)) as (b2 & Hputs & Hok2 & Hs2 & Ho2 & Hc2).
  exists b2. split; [cbn [for_each]; by erewrite M_bind_ok by exact Hput|]. split_and!; try done; try lia.
  destruct (b_bounds b Hok) as [Hb Hl]. rewrite Hc2, Hc1, Ho1.
  rewrite Z2Nat.inj_add by (try lia; apply zlen_nonneg). unfold zlen at 1. rewrite Nat2Z.id.
  apply overwrite_app. unfold zlen in *. lia.
Qed.

(** C20 (refinement): sequences of accesses through the interface.  On any buffer
    that keeps the laws, a sequence of typed writes that does not fit throws
    ["Buffer Overflow"]; one that fits succeeds, changes exactly the bytes behind
    the cursor, and the same sequence of reads from where the writes began returns
    the values written. *)
Theorem buffer_sequence (its : list item) (b : B) :
  b_ok b → Forall item_ok its →
  (b_size b < b_offset b + zlen (items_bytes its) →
   ∃ b', for_each b_put its b = (Throw BufferOverflow, b')) ∧
  (b_offset b + zlen (items_bytes its) ≤ b_size b →
   ∃ b1, for_each b_put its b = (Ok tt, b1) ∧ b_offset b1 = b_offset b + zlen (items_bytes its) ∧
     b_bytes b1 = Ok (overwrite (Z.to_nat (b_offset b)) (items_bytes its) (b_content b)) ∧
     ∀ b2, b_ok b2 → b_content b2 = b_content b1 → b_offset b2 = b_offset b →
       ∃ b3, b_gets its b2 = (Ok its, b3) ∧ b_offset b3 = b_offset b1).
Proof.
  intros Hok Hits. split.
  - revert b Hok. induction Hits as [|i its Hi Hits IH]; intros b Hok Hr.
    { destruct (b_bounds b Hok). unfold zlen in Hr. cbn in Hr. lia. }
    rewrite items_bytes_cons, zlen_app in Hr. cbn [for_each].
    destruct (decide (b_size b < b_offset b + zlen (item_bytes i))) as [Hfull|Hfit].
    + exists b. apply M_bind_throw. by apply b_put_full.
    + destruct (b_put_law i b Hok Hi ltac:(lia)) as (b1 & Hput & Hok1 & Hs1 & Ho1 & _).
      destruct (IH b1 Hok1 ltac:(lia)) as [b' Hrun]. exists b'. by erewrite M_bind_ok by exact Hput.
  - intros Hr. destruct (puts_ok its b Hok Hits Hr) as (b1 & Hrun & Hok1 & Hs1 & Ho1 & Hc1).
    exists b1. split; [done|]. split; [done|]. split; [by rewrite b_bytes_law, Hc1|].
    destruct (b_bounds b Hok) as [Hb Hl].
    intros b2 Hok2 Hc2 Ho2. rewrite Ho1, <- Ho2.
    assert (∃ k, drop (Z.to_nat (b_offset b2)) (b_content b2) = items_bytes its ++ k) as [k Hk].
    { rewrite Hc2, Ho2, Hc1. unfold overwrite. eexists. rewrite drop_app_length'; [done|].
      rewrite length_take. unfold zlen in *. lia. }
    clear b1 Hrun Hok1 Hs1 Ho1 Hc1 Hc2 Ho2 Hr Hb Hl Hok b. revert b2 Hok2 k Hk.
    induction Hits as [|i its Hi Hits IH]; intros b Hok k Hk; cbn [b_gets].
    { exists b. split; [done|]. unfold items_bytes, zlen. cbn. lia. }
    rewrite items_bytes_cons in Hk |- *. rewrite <- app_assoc in Hk.
    destruct (b_get_law i b _ Hok Hi Hk) as (b1 & Hget & Hok1 & Hc1 & _ & Ho1).
    destruct (IH b1 Hok1 k) as (b3 & Hgets & Ho3).
    { destruct (b_bounds b Hok) as [Hb _]. rewrite Hc1, Ho1.
      rewrite Z2Nat.inj_add by (try lia; apply zlen_nonneg). unfold zlen. rewrite Nat2Z.id.
      rewrite <- drop_drop, Hk. by rewrite drop_app_length. }
    exists b3. split; [|rewrite zlen_app; lia].
    erewrite M_bind_ok by exact Hget. by erewrite M_bind_ok by exact Hgets.
Qed.
End sequences.

Lemma buffer_sequence_witness :
  let its := [I_uint8 3; I_string "abc"; I_int32 (-5); I_boolean true] in
  let b := write_at (MemoryBuffer 16) [x01; x02] in
  ∃ b1, for_each b_put its b = (Ok tt, b1) ∧ b_offset b1 = 11 ∧
    b_bytes b1 = Ok (overwrite 2 (items_bytes its) (m_buf b)) ∧
    ∀ b2, buffer_wf b2 → m_buf b2 = m_buf b1 → m_offset b2 = 2 →
      ∃ b3, b_gets its b2 = (Ok its, b3) ∧ b_offset b3 = b_offset b1.
Proof.
  destruct (buffer_sequence [I_uint8 3; I_string "abc"; I_int32 (-5); I_boolean true]
    (write_at (MemoryBuffer 16) [x01; x02])) as [_ Hfit].
  - apply write_at_wf; [apply MemoryBuffer_wf; lia|vm_compute; congruence].
  - repeat constructor; vm_compute; try done; intros; congruence.
  - destruct Hfit as (b1 & Hrun & Ho & Hb & Hgets); [vm_compute; congruence|]. by exists b1.
Defined.
