(* ===== verification/OrdMap.v ===== *)
(** * [std::map]: ordered associative containers

    The project keeps its memtables, index pages and table registry in
    [std::map]s.  A map is the list of its entries in iteration order; the
    comparator may throw, so the operations return an [outcome].  A search
    skips the entries the comparator puts before the key and then asks whether
    the key comes before the entry found, as [lower_bound] does.

    [CmpOrder] states what a comparator promises on a domain of keys: it
    returns there, and is a strict weak order.  The lemmas about the operations
    are proved against that interface; [Data.v] and [Database.v] discharge it
    for their keys. *)

From Stdlib Require Import ZArith Lia.
From stdpp Require Import base list sorting.
From S2P Require Import Prelude.

Section ordmap.
Context {K V : Type} (cmp : K → K → outcome bool).

(** [lower_bound]: the entries strictly before [k], and the others. *)
Fixpoint lower_bound (k : K) (m : list (K * V)) : outcome (list (K * V) * list (K * V)) :=
  match m with
  | [] => Ok ([], [])
  | (k', v) :: m' =>
      before ← cmp k' k;
      if (before : bool)
      then '(l, r) ← lower_bound k m'; Ok ((k', v) :: l, r)
      else Ok ([], m)
  end.

(** [find]: [None] is [end()]. *)
Definition map_find (k : K) (m : list (K * V)) : outcome (option (K * V)) :=
  '(_, r) ← lower_bound k m;
  match r with
  | [] => Ok None
  | (k', v) :: _ => after ← cmp k k'; Ok (if (after : bool) then None else Some (k', v))
  end.

(** [insert]: keeps the entry of an equivalent key. *)
Definition map_insert (k : K) (v : V) (m : list (K * V)) : outcome (list (K * V)) :=
  '(l, r) ← lower_bound k m;
  match r with
  | [] => Ok (l ++ [(k, v)])
  | (k', _) :: _ =>
      after ← cmp k k';
      Ok (if (after : bool) then l ++ (k, v) :: r else m)
  end.

(** [m[k] = v]: replaces the value of an equivalent key. *)
Definition map_assign (k : K) (v : V) (m : list (K * V)) : outcome (list (K * V)) :=
  '(l, r) ← lower_bound k m;
  match r with
  | [] => Ok (l ++ [(k, v)])
  | (k', _) :: r' =>
      after ← cmp k k';
      Ok (if (after : bool) then l ++ (k, v) :: r else l ++ (k', v) :: r')
  end.
End ordmap.

(** ** The interface of a comparator *)

Class CmpOrder {K} (cmp : K → K → outcome bool) (dom : K → Prop) (lt : K → K → bool) : Prop := {
  cmp_returns a b : dom a → dom b → cmp a b = Ok (lt a b);
  cmp_irrefl a : dom a → lt a a = false;
  cmp_trans a b c : dom a → dom b → dom c → lt a b = true → lt b c = true → lt a c = true;
  cmp_ntrans a b c : dom a → dom b → dom c → lt a b = false → lt b c = false → lt a c = false;
}.

Section laws.
Context {K V : Type} (cmp : K → K → outcome bool) (dom : K → Prop) (lt : K → K → bool).
Context `{!CmpOrder cmp dom lt}.
Implicit Types (k : K) (v : V) (m : list (K * V)).

(** Equivalent keys: neither comes before the other. *)
Definition keq (a b : K) : bool := negb (lt a b) && negb (lt b a).

Definition keys_in m : Prop := Forall (λ e, dom e.1) m.
Definition ordered m : Prop := StronglySorted (λ e e', lt e.1 e'.1 = true) m.
Definition map_wf m : Prop := keys_in m ∧ ordered m.

(** The entry of a key, and the entries of the others. *)
Fixpoint lookup_key k m : option (K * V) :=
  match m with
  | [] => None
  | e :: m => if keq k e.1 then Some e else lookup_key k m
  end.

Lemma cmp_asym a b : dom a → dom b → lt a b = true → lt b a = false.
Proof.
  intros Ha Hb Hab. destruct (lt b a) eqn:Hba; [|done].
  pose proof (cmp_trans a b a Ha Hb Ha Hab Hba). rewrite (cmp_irrefl (lt := lt) a) in *; done.
Qed.

Lemma keq_refl a : dom a → keq a a = true.
Proof. intros. apply andb_true_iff. by rewrite (cmp_irrefl (lt := lt) a). Qed.

Lemma keq_sym a b : keq a b = keq b a.
Proof. unfold keq. apply andb_comm. Qed.

Lemma keq_spec a b : keq a b = true ↔ lt a b = false ∧ lt b a = false.
Proof. unfold keq. by rewrite andb_true_iff, !negb_true_iff. Qed.

Lemma keq_trans a b c : dom a → dom b → dom c → keq a b = true → keq b c = true → keq a c = true.
Proof. rewrite !keq_spec. intros Ha Hb Hc [? ?] [? ?]. split; eapply cmp_ntrans with b; eauto. Qed.

(** Equivalent keys are interchangeable. *)
Lemma keq_lt_l a b c : dom a → dom b → dom c → keq a b = true → lt a c = lt b c.
Proof.
  rewrite keq_spec. intros Ha Hb Hc [H1 H2].
  destruct (lt a c) eqn:Eac, (lt b c) eqn:Ebc; try done.
  - pose proof (cmp_ntrans a b c Ha Hb Hc H1 Ebc). congruence.
  - pose proof (cmp_ntrans b a c Hb Ha Hc H2 Eac). congruence.
Qed.
Lemma keq_lt_r a b c : dom a → dom b → dom c → keq a b = true → lt c a = lt c b.
Proof.
  rewrite keq_spec. intros Ha Hb Hc [H1 H2].
  destruct (lt c a) eqn:Eca, (lt c b) eqn:Ecb; try done.
  - pose proof (cmp_ntrans c b a Hc Hb Ha Ecb H2). congruence.
  - pose proof (cmp_ntrans c a b Hc Ha Hb Eca H1). congruence.
Qed.

Lemma keq_keq_r k a b :
  dom k → dom a → dom b → keq a b = true → keq k a = keq k b.
Proof.
  intros. unfold keq. by rewrite (keq_lt_l a b k), (keq_lt_r a b k).
Qed.

(** The split [lower_bound] computes. *)
Definition lb_split k m l r : Prop :=
  m = l ++ r ∧ Forall (λ e, lt e.1 k = true) l ∧
  Forall (λ e, lt e.1 k = false) r.

Lemma lower_bound_ok k m :
  dom k → map_wf m → ∃ l r, lower_bound cmp k m = Ok (l, r) ∧ lb_split k m l r.
Proof.
  intros Hk [Hdom Hord]. induction m as [|[k' v] m IH]; simpl.
  { exists [], []. repeat split; constructor. }
  inversion Hdom as [|?? Hk' Hm]; inversion Hord as [|?? Hord' Hall]; simplify_eq/=.
  rewrite (cmp_returns k' k) by done. simpl. destruct (lt k' k) eqn:Hlt.
  - destruct IH as (l & r & -> & -> & Hl & Hr); [done..|]. simpl.
    exists ((k', v) :: l), r. split; [done|]. split; [done|]. split; [by constructor|done].
  - exists [], ((k', v) :: m). split; [done|]. split; [done|]. split; [constructor|].
    constructor; [done|]. apply Forall_forall. intros [k2 v2] Hin. simpl.
    rewrite Forall_forall in Hall, Hm. specialize (Hall _ Hin). specialize (Hm _ Hin).
    simpl in *. destruct (lt k2 k) eqn:E; [|done].
    pose proof (cmp_trans k' k2 k Hk' Hm Hk Hall E). congruence.
Qed.

Lemma lookup_key_app_lt k l r :
  dom k → keys_in l → Forall (λ e, lt e.1 k = true) l → lookup_key k (l ++ r) = lookup_key k r.
Proof.
  intros Hk Hd. induction 1 as [|e l He Hl IH]; [done|]. simpl. inversion Hd; simplify_eq.
  unfold keq. rewrite He, andb_false_r. by apply IH.
Qed.

Lemma lookup_key_head k e r :
  dom k → map_wf (e :: r) → lt k e.1 = true → lookup_key k (e :: r) = None.
Proof.
  intros Hk [Hd Ho] Hlt. inversion Hd as [|?? He Hr]; inversion Ho as [|?? Ho' Hall]; simplify_eq.
  simpl. unfold keq at 1. rewrite Hlt. simpl.
  clear Ho Ho' Hd. induction r as [|e' r IH]; [done|]. simpl.
  inversion Hall as [|?? He' Hall']; inversion Hr; simplify_eq.
  unfold keq at 1. rewrite (cmp_trans k e.1 e'.1) by done. simpl. by apply IH.
Qed.

Lemma lookup_key_none_lt k m : dom k → keys_in m → Forall (λ e, lt e.1 k = true) m →
  lookup_key k m = None.
Proof. intros. rewrite <- (app_nil_r m). by rewrite lookup_key_app_lt. Qed.

Lemma map_wf_app l r : map_wf (l ++ r) → map_wf l ∧ map_wf r.
Proof.
  intros [Hd Ho]. unfold map_wf, keys_in in *. rewrite Forall_app in Hd. destruct Hd.
  split; split; try done; unfold ordered in *.
  - by eapply StronglySorted_app_1_l.
  - by eapply StronglySorted_app_1_r.
Qed.

(** [find] computes [lookup_key]. *)
Lemma map_find_ok k m : dom k → map_wf m → map_find cmp k m = Ok (lookup_key k m).
Proof.
  intros Hk Hwf. destruct (lower_bound_ok k m Hk Hwf) as (l & r & Hlb & Hsp).
  unfold map_find. rewrite Hlb. simpl. destruct Hsp as (-> & Hl & Hr).
  apply map_wf_app in Hwf as [Hwl Hwr].
  rewrite lookup_key_app_lt by (done || apply Hwl).
  destruct r as [|[k' v] r]; [done|].
  assert (dom k') as Hk' by (destruct Hwr as [Hd _]; by inversion Hd).
  rewrite (cmp_returns k k') by done. simpl. inversion Hr as [|?? Hge _]; simplify_eq/=.
  destruct (lt k k') eqn:E.
  - by rewrite <- (lookup_key_head k (k', v) r).
  - simpl. unfold keq. simpl. by rewrite E, Hge.
Qed.

(** On a well-formed map, an entry is found exactly by the keys equivalent to
    its key. *)
Lemma lookup_key_elem k m e : lookup_key k m = Some e → e ∈ m ∧ keq k e.1 = true.
Proof.
  induction m as [|e' m IH]; [done|]. simpl. destruct (keq k e'.1) eqn:E; intros H.
  - simplify_eq. split; [left|done].
  - destruct (IH H). split; [by right|done].
Qed.

Lemma ordered_keq_eq m e e' :
  map_wf m → e ∈ m → e' ∈ m → keq e.1 e'.1 = true → e = e'.
Proof.
  intros [Hd Ho]. induction Ho as [|e0 m Ho IH Hall]; intros He He' Heq; [by inversion He|].
  inversion Hd as [|?? Hd0 Hdm]; subst. rewrite Forall_forall in Hall.
  apply keq_spec in Heq as [Hlt Hgt]. inversion He; inversion He'; subst.
  - done.
  - specialize (Hall e' ltac:(done)). congruence.
  - specialize (Hall e ltac:(done)). congruence.
  - apply IH; try done. by apply keq_spec.
Qed.

Lemma lookup_key_Some k m e :
  dom k → map_wf m → lookup_key k m = Some e ↔ e ∈ m ∧ keq k e.1 = true.
Proof.
  intros Hk Hwf. split; [apply lookup_key_elem|]. intros [He Heq].
  destruct (lookup_key k m) as [e'|] eqn:E.
  - apply lookup_key_elem in E as [He' Heq']. f_equal.
    pose proof Hwf as [Hd _]. unfold keys_in in Hd. rewrite Forall_forall in Hd.
    apply (ordered_keq_eq m); try done.
    eapply keq_trans with k; try done; try by apply Hd. by rewrite keq_sym.
  - exfalso. clear Hwf. induction m as [|e' m IH]; [by inversion He|].
    simpl in E. destruct (keq k e'.1) eqn:E'; [done|]. inversion He; subst; [congruence|].
    by apply IH.
Qed.

Lemma lookup_key_None k m :
  lookup_key k m = None ↔ Forall (λ e, keq k e.1 = false) m.
Proof.
  induction m as [|e m IH]; simpl; [split; [constructor|done]|].
  rewrite Forall_cons, <- IH. destruct (keq k e.1); intuition congruence.
Qed.

(** Inserting a new key between the two sides of its split. *)
Lemma ordered_mid k v l r :
  dom k → map_wf (l ++ r) → Forall (λ e, lt e.1 k = true) l →
  Forall (λ e, lt k e.1 = true) r → map_wf (l ++ (k, v) :: r).
Proof.
  intros Hk [Hd Ho] Hl Hr. unfold map_wf, keys_in in *.
  rewrite Forall_app in *. destruct Hd as [Hdl Hdr]. split.
  { split; [done|]. by constructor. }
  unfold ordered in *. induction l as [|e l IH]; simpl in *.
  - by constructor.
  - inversion Ho as [|?? Ho' Hall]; inversion Hl as [|?? He Hl']; inversion Hdl; subst.
    constructor; [by apply IH|]. rewrite Forall_app in *. destruct Hall. split; [done|].
    by constructor.
Qed.

Lemma lb_right_gt k l r :
  dom k → map_wf (l ++ r) → Forall (λ e, lt e.1 k = false) r → lookup_key k (l ++ r) = None →
  Forall (λ e, lt k e.1 = true) r.
Proof.
  intros Hk Hwf Hr Hnone. apply lookup_key_None in Hnone. rewrite Forall_app in Hnone.
  destruct Hnone as [_ Hnone]. rewrite Forall_forall in *. intros e He.
  specialize (Hnone e He). specialize (Hr e He). simpl in *.
  unfold keq in Hnone. rewrite Hr in Hnone. by destruct (lt k e.1).
Qed.

(** [insert] of a new key adds its entry; of a present one, nothing. *)
Lemma map_insert_ok k v m :
  dom k → map_wf m →
  match lookup_key k m with
  | Some _ => map_insert cmp k v m = Ok m
  | None => ∃ l r, m = l ++ r ∧ map_insert cmp k v m = Ok (l ++ (k, v) :: r) ∧
                   map_wf (l ++ (k, v) :: r)
  end.
Proof.
  intros Hk Hwf. destruct (lower_bound_ok k m Hk Hwf) as (l & r & Hlb & -> & Hl & Hr).
  unfold map_insert. rewrite Hlb. simpl.
  destruct (lookup_key k (l ++ r)) as [e|] eqn:E.
  - rewrite lookup_key_app_lt in E by (done || apply (map_wf_app l r Hwf)).
    destruct r as [|[k' v'] r]; [done|].
    pose proof (map_wf_app _ _ Hwf) as [_ Hwr].
    assert (dom k') as Hk' by (destruct Hwr as [Hd _]; by inversion Hd).
    rewrite (cmp_returns k k') by done. simpl. destruct (lt k k') eqn:Hlt; [|done].
    rewrite lookup_key_head in E; done.
  - pose proof (lb_right_gt _ _ _ Hk Hwf Hr E) as Hgt.
    exists l, r. split; [done|]. split; [|by apply ordered_mid].
    destruct r as [|[k' v'] r]; [done|].
    pose proof (map_wf_app _ _ Hwf) as [_ Hwr].
    assert (dom k') as Hk' by (destruct Hwr as [Hd _]; by inversion Hd).
    rewrite (cmp_returns k k') by done. inversion Hgt; simplify_eq/=.
    by rewrite H1.
Qed.

(** [m[k] = v] on a new key, and on a present one. *)
Lemma map_assign_ok k v m :
  dom k → map_wf m →
  match lookup_key k m with
  | Some e => ∃ l r, m = l ++ e :: r ∧ map_assign cmp k v m = Ok (l ++ (e.1, v) :: r)
  | None => ∃ l r, m = l ++ r ∧ map_assign cmp k v m = Ok (l ++ (k, v) :: r) ∧
                   map_wf (l ++ (k, v) :: r)
  end.
Proof.
  intros Hk Hwf. destruct (lower_bound_ok k m Hk Hwf) as (l & r & Hlb & -> & Hl & Hr).
  unfold map_assign. rewrite Hlb. simpl.
  destruct (lookup_key k (l ++ r)) as [e|] eqn:E.
  - rewrite lookup_key_app_lt in E by (done || apply (map_wf_app l r Hwf)).
    destruct r as [|[k' v'] r]; [done|].
    pose proof (map_wf_app _ _ Hwf) as [_ Hwr].
    assert (dom k') as Hk' by (destruct Hwr as [Hd _]; by inversion Hd).
    rewrite (cmp_returns k k') by done. simpl. destruct (lt k k') eqn:Hlt.
    + rewrite lookup_key_head in E; done.
    + inversion Hr as [|?? Hge _]; simplify_eq/=. unfold keq in E. simpl in E.
      rewrite Hlt, Hge in E. simplify_eq/=. by exists l, r.
  - pose proof (lb_right_gt _ _ _ Hk Hwf Hr E) as Hgt.
    exists l, r. split; [done|]. split; [|by apply ordered_mid].
    destruct r as [|[k' v'] r]; [done|].
    pose proof (map_wf_app _ _ Hwf) as [_ Hwr].
    assert (dom k') as Hk' by (destruct Hwr as [Hd _]; by inversion Hd).
    rewrite (cmp_returns k k') by done. inversion Hgt; simplify_eq/=.
    by rewrite H1.
Qed.

(** Appending entries whose keys come in order rebuilds the map: the loops of
    the deserialisers. *)
Lemma lower_bound_snoc k v m :
  dom k → map_wf (m ++ [(k, v)]) → lower_bound cmp k m = Ok (m, []).
Proof.
  intros Hk Hwf. destruct (map_wf_app _ _ Hwf) as [Hm _].
  destruct (lower_bound_ok k m Hk Hm) as (l & r & Hlb & -> & Hl & Hr).
  assert (Forall (λ e, lt e.1 k = true) (l ++ r)) as Hall.
  { clear -Hwf. destruct Hwf as [_ Ho]. apply Forall_forall. intros e He.
    unfold ordered in Ho. apply (StronglySorted_app_1_elem_of _ _ _ e (k, v) Ho He). by left. }
  destruct r as [|e r]; [by rewrite Hlb, app_nil_r|].
  rewrite Forall_app in Hall. destruct Hall as [_ Hall].
  inversion Hall; inversion Hr; congruence.
Qed.

Lemma map_insert_snoc k v m :
  dom k → map_wf (m ++ [(k, v)]) → map_insert cmp k v m = Ok (m ++ [(k, v)]).
Proof. intros. unfold map_insert. by rewrite (lower_bound_snoc k v). Qed.

Lemma map_assign_snoc k v m :
  dom k → map_wf (m ++ [(k, v)]) → map_assign cmp k v m = Ok (m ++ [(k, v)]).
Proof. intros. unfold map_assign. by rewrite (lower_bound_snoc k v). Qed.
End laws.
