(* ===== verification/Data.v ===== *)
(** * [catalog::Data]: typed values

    Models [include/catalog/data.hh] and [lib/catalog/data.cc]: the type
    descriptor [Data::Type], the nine value classes with their constructors,
    the comparison [compare] (and [DataCmp], the order of every ordered
    container of the project), the serialisers [bytes] and the two [Data::from]
    factories.

    A value is its [m_type] and the fields of its dynamic class.  A
    [std::unique_ptr<Data>] or [std::shared_ptr<Data>] is an [option]: [None]
    is the null pointer, which [Data::from] returns for a type identifier that
    names no class. *)

From Stdlib Require Import ZArith Lia Strings.Byte String.
From stdpp Require Import base list list_numbers strings pretty.
From S2P Require Import Prelude Buffer OrdMap.

Local Open Scope Z_scope.

(** ** Types *)

(** The enumerators of [Data::Type::Id]; [UNNAMED] holds the other values an
    object of the enumeration can have. *)
Inductive Id :=
| ASCII | BIGINT | BOOLEAN | DOUBLE | FLOAT | INT | SMALLINT | TINYINT | BLOB
| UNNAMED (raw : Z).

#[global] Instance Id_eq_dec : EqDecision Id.
Proof. solve_decision. Defined.

Record Type_ := MkType {
  t_id : Id;
  t_length : Z     (* uint32_t *)
}.

#[global] Instance Type_eq_dec : EqDecision Type_.
Proof. solve_decision. Defined.

(** The constructor converts its argument to [uint32_t]. *)
Definition Type_new (id : Id) (length : Z) : Type_ := MkType id (u32 length).

(** The value of an enumerator, and the conversion back.  The enumeration has
    no fixed underlying type and its largest enumerator is 8, so its values are
    those of four bits; converting anything larger is undefined. *)
Definition Id_to_int (id : Id) : Z :=
  match id with
  | ASCII => 0 | BIGINT => 1 | BOOLEAN => 2 | DOUBLE => 3 | FLOAT => 4 | INT => 5
  | SMALLINT => 6 | TINYINT => 7 | BLOB => 8 | UNNAMED raw => raw
  end.

Definition Id_of_int (z : Z) : outcome Id :=
  match z with
  | 0 => Ok ASCII | 1 => Ok BIGINT | 2 => Ok BOOLEAN | 3 => Ok DOUBLE | 4 => Ok FLOAT
  | 5 => Ok INT | 6 => Ok SMALLINT | 7 => Ok TINYINT | 8 => Ok BLOB
  | _ => if z <? 16 then Ok (UNNAMED z) else Undef BadEnumValue
  end.

Definition Type_from : M buffer Type_ :=
  id ← get_int8;
  size ← get_int32;
  id ← lift (Id_of_int (u8 id));
  mret (Type_new id (u32 size)).

Definition Type_size : Z := 1 + 4.

Definition Type_bytes (t : Type_) : M buffer unit :=
  put_int8 (Id_to_int (t_id t));;
  put_uint32 (t_length t).

(** [operator==] on types. *)
Definition Type_eq (lhs rhs : Type_) : bool :=
  bool_decide (t_id lhs = t_id rhs) && (t_length lhs =? t_length rhs).

(** ** Values *)

(** The fields of the nine derived classes. *)
Inductive payload :=
| P_ASCII (m_data : string)
| P_BigInt (m_data : Z)
| P_Boolean (m_data : bool)
| P_Double (m_data : Z)
| P_Float (m_data : Z)
| P_Int (m_data : Z)
| P_SmallInt (m_data : Z)
| P_TinyInt (m_data : Z)
| P_Blob (m_size : Z) (m_data : list byte).

Record Data := MkData { m_type : Type_; m_payload : payload }.

#[global] Instance payload_eq_dec : EqDecision payload.
Proof. solve_decision. Defined.
#[global] Instance Data_eq_dec : EqDecision Data.
Proof. solve_decision. Defined.

Definition ASCIIData (data : string) : Data :=
  MkData (Type_new ASCII (slen data)) (P_ASCII data).
Definition BigIntData (data : Z) : Data := MkData (Type_new BIGINT 8) (P_BigInt data).
Definition BooleanData (data : bool) : Data := MkData (Type_new BOOLEAN 1) (P_Boolean data).
Definition DoubleData (data : Z) : Data := MkData (Type_new DOUBLE 8) (P_Double data).
Definition FloatData (data : Z) : Data := MkData (Type_new FLOAT 4) (P_Float data).
Definition IntData (data : Z) : Data := MkData (Type_new INT 4) (P_Int data).
Definition SmallIntData (data : Z) : Data := MkData (Type_new SMALLINT 2) (P_SmallInt data).
Definition TinyIntData (data : Z) : Data := MkData (Type_new TINYINT 1) (P_TinyInt data).
Definition BlobData (data : list byte) (size : Z) : Data :=
  MkData (Type_new BLOB size) (P_Blob size data).

(** [print]: only [ASCIIData] and [IntData] have a body that returns; flowing
    off the end of the others is undefined. *)
Definition Data_print (d : Data) : outcome string :=
  match m_payload d with
  | P_ASCII s => Ok s
  | P_Int z => Ok (pretty z)
  | _ => Undef MissingReturn
  end.

(** [set_data] of the eight scalar classes: the value changes, [m_type] does
    not. *)
Definition set_data (p : payload) (d : Data) : Data :=
  match m_payload d, p with
  | P_ASCII _, P_ASCII _ | P_BigInt _, P_BigInt _ | P_Boolean _, P_Boolean _
  | P_Double _, P_Double _ | P_Float _, P_Float _ | P_Int _, P_Int _
  | P_SmallInt _, P_SmallInt _ | P_TinyInt _, P_TinyInt _ => MkData (m_type d) p
  | _, _ => d
  end.

(** [BlobData::set_data]: at most [m_size] bytes are copied over the start of
    the array. *)
Definition BlobData_set_data (data : list byte) (size : Z) (d : Data) : outcome Data :=
  match m_payload d with
  | P_Blob m_size m_data =>
      if m_size <? size then Throw blob_size_error
      else if bool_decide (size ≤ zlen data ∧ size ≤ zlen m_data)
      then Ok (MkData (m_type d) (P_Blob m_size (overwrite 0 (take (Z.to_nat size) data) m_data)))
      else Undef OutOfBounds
  | _ => Undef NullDereference
  end.

(** [BlobData::data()]: a copy of the first [(int) m_size] bytes, in a zeroed
    array of [m_size] bytes. *)
Definition BlobData_data (m_size : Z) (m_data : list byte) : outcome (list byte) :=
  let n := Z.to_nat (s32 m_size) in
  cs ← push_back_loop m_data n 0;
  Ok (cs ++ replicate (Z.to_nat m_size - n) x00).

(** [Data::bytes] *)
Definition Data_bytes (d : Data) : M buffer unit :=
  match m_payload d with
  | P_ASCII s => put_string s
  | P_BigInt z => put_int64 z
  | P_Boolean x => put_boolean x
  | P_Double z => put_double z
  | P_Float z => put_float z
  | P_Int z => put_int32 z
  | P_SmallInt z => put_int16 z
  | P_TinyInt z => put_int8 z
  | P_Blob m_size m_data => put_blob m_data (s32 m_size)
  end.

(** [Data::from] on a buffer and a type. *)
Definition Data_from (t : Type_) : M buffer (option Data) :=
  match t_id t with
  | ASCII => s ← get_string (s32 (t_length t)); mret (Some (ASCIIData s))
  | BIGINT => z ← get_int64; mret (Some (BigIntData z))
  | BOOLEAN => x ← get_boolean; mret (Some (BooleanData x))
  | DOUBLE => z ← get_double; mret (Some (DoubleData z))
  | FLOAT => z ← get_float; mret (Some (FloatData z))
  | INT => z ← get_int32; mret (Some (IntData z))
  | SMALLINT => z ← get_int16; mret (Some (SmallIntData z))
  | TINYINT => z ← get_int8; mret (Some (TinyIntData z))
  | BLOB => bs ← get_blob (s32 (t_length t)); mret (Some (BlobData bs (t_length t)))
  | UNNAMED _ => mret None
  end.

(** [Data::from] on a [Data] pointer: the copy factory.  The switch is on
    [m_type], the [dynamic_cast] of each case on the class. *)
Definition Data_copy (d : option Data) : outcome Data :=
  match d with
  | None => Undef NullDereference
  | Some d =>
      match t_id (m_type d), m_payload d with
      | ASCII, P_ASCII s => Ok (ASCIIData s)
      | BIGINT, P_BigInt z => Ok (BigIntData z)
      | BOOLEAN, P_Boolean x => Ok (BooleanData x)
      | DOUBLE, P_Double z => Ok (DoubleData z)
      | FLOAT, P_Float z => Ok (FloatData z)
      | INT, P_Int z => Ok (IntData z)
      | SMALLINT, P_SmallInt z => Ok (SmallIntData z)
      | TINYINT, P_TinyInt z => Ok (TinyIntData z)
      | BLOB, P_Blob m_size m_data => bs ← BlobData_data m_size m_data; Ok (BlobData bs m_size)
      | _, _ => Throw undefined_data_type_error
      end
  end.

(** ** Comparison *)

(** IEEE-754 [<=] on bit patterns of [w] bits with [mw] mantissa bits: false
    when an operand is a NaN, and otherwise the order of the sign-magnitude
    integers the patterns encode (so that -0 and +0 are equal). *)
Definition ieee_magnitude (w z : Z) : Z := z mod 2 ^ (w - 1).
Definition ieee_nan (w mw z : Z) : bool :=
  (2 ^ (w - 1 - mw) - 1) * 2 ^ mw <? ieee_magnitude w z.
Definition ieee_rank (w z : Z) : Z :=
  if Z.testbit z (w - 1) then - ieee_magnitude w z else ieee_magnitude w z.
Definition ieee_le (w mw a b : Z) : bool :=
  negb (ieee_nan w mw a) && negb (ieee_nan w mw b) && (ieee_rank w a <=? ieee_rank w b).

(** [compare(other)] is [true] when the receiver is strictly greater.  The
    [dynamic_cast] of a null [other] fails like that of another class. *)
Definition Data_compare (d : Data) (other : option Data) : outcome bool :=
  match m_payload d, m_payload <$> other with
  | P_ASCII a, Some (P_ASCII b) => Ok (if String.leb a b then false else true)
  | P_BigInt a, Some (P_BigInt b) => Ok (if a <=? b then false else true)
  | P_Boolean _, _ => Throw uncomparable_type_error
  | P_Double a, Some (P_Double b) => Ok (if ieee_le 64 52 a b then false else true)
  | P_Float a, Some (P_Float b) => Ok (if ieee_le 32 23 a b then false else true)
  | P_Int a, Some (P_Int b) => Ok (if a <=? b then false else true)
  | P_SmallInt a, Some (P_SmallInt b) => Ok (if a <=? b then false else true)
  | P_TinyInt a, Some (P_TinyInt b) => Ok (if a <=? b then false else true)
  | P_Blob _ _, _ => Throw uncomparable_type_error
  | _, _ => Throw incompatible_data_types_error
  end.

(** The comparator of the ordered containers. *)
Definition DataCmp (lhs rhs : option Data) : outcome bool :=
  match lhs with
  | None => Undef NullDereference
  | Some d => Data_compare d rhs
  end.

(** ** Well-formed values *)

(** A type the schema language can declare: a scalar has the size of its C++
    representation. *)
Definition type_wf (t : Type_) : Prop :=
  match t_id t with
  | ASCII | BLOB => 0 ≤ t_length t < 2 ^ 31
  | BIGINT | DOUBLE => t_length t = 8
  | FLOAT | INT => t_length t = 4
  | SMALLINT => t_length t = 2
  | BOOLEAN | TINYINT => t_length t = 1
  | UNNAMED _ => False
  end.

(** The type a payload has, and the ranges of its fields. *)
Definition payload_type (p : payload) : Type_ :=
  match p with
  | P_ASCII s => MkType ASCII (slen s)
  | P_BigInt _ => MkType BIGINT 8
  | P_Boolean _ => MkType BOOLEAN 1
  | P_Double _ => MkType DOUBLE 8
  | P_Float _ => MkType FLOAT 4
  | P_Int _ => MkType INT 4
  | P_SmallInt _ => MkType SMALLINT 2
  | P_TinyInt _ => MkType TINYINT 1
  | P_Blob n _ => MkType BLOB n
  end.

Definition payload_wf (p : payload) : Prop :=
  match p with
  | P_ASCII s => slen s < 2 ^ 31
  | P_BigInt z => in_s 64 z
  | P_Boolean _ => True
  | P_Double z => in_u 64 z
  | P_Float z => in_u 32 z
  | P_Int z => in_s 32 z
  | P_SmallInt z => in_s 16 z
  | P_TinyInt z => in_s 8 z
  | P_Blob n bs => n = zlen bs ∧ zlen bs < 2 ^ 31
  end.

Definition data_wf (d : Data) : Prop :=
  payload_wf (m_payload d) ∧ m_type d = payload_type (m_payload d).

(** The bytes of a value. *)
Definition data_enc (d : Data) : list byte :=
  match m_payload d with
  | P_ASCII s => str_bytes s
  | P_BigInt z | P_Double z => le_bytes 8 z
  | P_Boolean x => le_bytes 1 (if x then 1 else 0)
  | P_Float z | P_Int z => le_bytes 4 z
  | P_SmallInt z => le_bytes 2 z
  | P_TinyInt z => le_bytes 1 z
  | P_Blob _ bs => bs
  end.

Definition type_enc (t : Type_) : list byte :=
  le_bytes 1 (Id_to_int (t_id t)) ++ le_bytes 4 (t_length t).

Lemma data_enc_length d : data_wf d → zlen (data_enc d) = t_length (m_type d).
Proof.
  destruct d as [t p]; intros [Hp Ht]; simpl in *; subst t.
  destruct p; unfold data_enc; simpl; rewrite ?zlen_str_bytes; try done. by destruct Hp.
Qed.

Lemma data_wf_type d : data_wf d → type_wf (m_type d).
Proof.
  destruct d as [t p]; intros [Hp Ht]; simpl in *; subst t.
  destruct p; unfold type_wf; simpl in *; try done.
  - unfold slen in *. lia.
  - pose proof (zlen_nonneg m_data). lia.
Qed.

Lemma type_enc_length t : zlen (type_enc t) = Type_size.
Proof. done. Qed.

Lemma Type_bytes_serializes t : serializes (Type_bytes t) (type_enc t).
Proof. apply serializes_bind; apply put_le_serializes; lia. Qed.

(** Every enumerator survives the trip through [int8_t] and [uint8_t]. *)
Lemma Id_of_to_int id :
  match id with UNNAMED raw => 9 ≤ raw < 16 | _ => True end →
  Id_of_int (u8 (s8 (wrap 8 (Id_to_int id)))) = Ok id.
Proof.
  destruct id as [| | | | | | | | |raw]; try done. simpl. intros Hr.
  assert (raw = 9 ∨ raw = 10 ∨ raw = 11 ∨ raw = 12 ∨ raw = 13 ∨ raw = 14 ∨ raw = 15) as H by lia.
  by destruct_or! H; subst raw.
Qed.

Lemma Type_from_parses t :
  match t_id t with UNNAMED raw => 9 ≤ raw < 16 | _ => True end → in_u 32 (t_length t) →
  parses Type_from (type_enc t) t.
Proof.
  intros Hid Hlen. unfold Type_from, type_enc.
  eapply parses_bind; [apply (get_le_parses 1 (swrap 8)); [lia|done]|].
  eapply parses_map; [apply (get_le_parses 4 (swrap 32)); [lia|done]|].
  intros s. change (2 ^ (8 * Z.of_nat 1)) with (2 ^ 8). change (2 ^ (8 * Z.of_nat 4)) with (2 ^ 32).
  change (Id_to_int (t_id t) mod 2 ^ 8) with (wrap 8 (Id_to_int (t_id t))).
  change (t_length t mod 2 ^ 32) with (wrap 32 (t_length t)).
  rewrite Id_of_to_int by done. unfold lift, mbind, M_bind, mret, M_ret, Type_new.
  rewrite (wrap_small 32 (t_length t)) by done.
  assert (u32 (s32 (t_length t)) = t_length t) as ->; [|rewrite wrap_small by done; by destruct t].
  unfold swrap. rewrite Z.mod_small by done. unfold in_u in Hlen.
  destruct (Z.ltb_spec (t_length t) (2 ^ (32 - 1))); [by apply wrap_small|].
  unfold wrap. rewrite <- (Z_mod_plus_full _ 1), Z.mul_1_l, Z.sub_add. by apply Z.mod_small.
Qed.

Lemma type_wf_parses t : type_wf t → parses Type_from (type_enc t) t.
Proof.
  destruct t as [id n]. intros Hwf. apply Type_from_parses; unfold type_wf, in_u in *; simpl in *;
    destruct id; try done; lia.
Qed.

Lemma Data_bytes_serializes d : data_wf d → serializes (Data_bytes d) (data_enc d).
Proof.
  destruct d as [t p]; intros [Hp _]; simpl in *. unfold Data_bytes, data_enc.
  destruct p; simpl in *; auto with dibi; try (apply put_le_serializes; lia).
  destruct Hp as [-> Hp]. pose proof (zlen_nonneg m_data).
  rewrite swrap_small by (unfold in_s; lia). by apply put_blob_serializes.
Qed.

Lemma Data_from_parses d : data_wf d → parses (Data_from (m_type d)) (data_enc d) (Some d).
Proof.
  destruct d as [t p]; intros [Hp Ht]; simpl in *; subst t. unfold Data_from, data_enc.
  destruct p; simpl in *; try (eapply parses_map; [by eauto with dibi|done]).
  - assert (0 ≤ slen m_data) by (unfold slen; lia).
    rewrite swrap_small by (unfold in_s; lia).
    eapply parses_map; [by apply get_string_parses|]. intros st. unfold ASCIIData, Type_new.
    rewrite wrap_small by (unfold in_u; lia). done.
  - destruct Hp as [-> Hp]. pose proof (zlen_nonneg m_data).
    rewrite swrap_small by (unfold in_s; lia).
    eapply parses_map; [by apply get_blob_parses|]. intros st. unfold BlobData, Type_new.
    rewrite wrap_small by (unfold in_u; lia). done.
Qed.

Lemma Data_copy_ok d : data_wf d → Data_copy (Some d) = Ok d.
Proof.
  destruct d as [t p]; intros [Hp Ht]; simpl in *; subst t.
  destruct p; simpl in *; try done; unfold ASCIIData, BlobData, Type_new.
  - assert (0 ≤ slen m_data) by (unfold slen; lia). rewrite wrap_small by (unfold in_u; lia). done.
  - destruct Hp as [-> Hp]. pose proof (zlen_nonneg m_data). unfold BlobData_data.
    rewrite swrap_small by (unfold in_s; lia).
    rewrite (push_back_loop_spec _ _ 0 m_data); simpl; [|lia| |unfold zlen; lia].
    + rewrite Nat.sub_diag, app_nil_r, wrap_small by (unfold in_u; lia). done.
    + rewrite drop_0. apply take_ge. unfold zlen. lia.
Qed.

(** ** The order of keys

    [DataCmp lhs rhs] holds when [lhs] is greater, so the containers iterate
    from the greatest key to the least.  [key_class] is the class of the values
    of a comparable type; a NaN has none. *)
Definition key_class (d : Data) : option Id :=
  match m_payload d with
  | P_ASCII _ => Some ASCII
  | P_BigInt _ => Some BIGINT
  | P_Double z => if ieee_nan 64 52 z then None else Some DOUBLE
  | P_Float z => if ieee_nan 32 23 z then None else Some FLOAT
  | P_Int _ => Some INT
  | P_SmallInt _ => Some SMALLINT
  | P_TinyInt _ => Some TINYINT
  | P_Boolean _ | P_Blob _ _ => None
  end.

(** A non-null pointer to a key of class [c]. *)
Definition key_of (c : Id) (p : option Data) : Prop :=
  match p with Some d => key_class d = Some c | None => False end.

Definition data_before (a b : option Data) : bool :=
  match DataCmp a b with Ok r => r | _ => false end.

(** The position of a numeric key on the integers. *)
Definition rank (p : option Data) : Z :=
  match m_payload <$> p with
  | Some (P_BigInt z | P_Int z | P_SmallInt z | P_TinyInt z) => z
  | Some (P_Double z) => ieee_rank 64 z
  | Some (P_Float z) => ieee_rank 32 z
  | _ => 0
  end.

Definition text (p : option Data) : string :=
  match m_payload <$> p with Some (P_ASCII s) => s | _ => EmptyString end.

Lemma key_of_class c p : key_of c p → ∃ d, p = Some d ∧ key_class d = Some c.
Proof. destruct p as [d|]; [by exists d|done]. Qed.

Lemma DataCmp_text a b : key_of ASCII a → key_of ASCII b →
  DataCmp a b = Ok (negb (String.leb (text a) (text b))).
Proof.
  intros (d & -> & Hd)%key_of_class (e & -> & He)%key_of_class. unfold key_class in *.
  destruct d as [t []], e as [t' []]; simpl in *; repeat case_match; simplify_eq/=; done.
Qed.

Lemma DataCmp_rank c a b : c ≠ ASCII → key_of c a → key_of c b →
  DataCmp a b = Ok (rank b <? rank a).
Proof.
  intros Hc (d & -> & Hd)%key_of_class (e & -> & He)%key_of_class. unfold key_class in *.
  destruct d as [t []], e as [t' []]; simpl in *; repeat case_match; simplify_eq/=;
    try done; unfold Data_compare, rank, ieee_le; simpl;
    repeat match goal with H : ieee_nan _ _ _ = false |- _ => rewrite H; clear H end; simpl;
    match goal with |- context [?x <=? ?y] =>
      destruct (Z.leb_spec x y), (Z.ltb_spec y x); try lia; done end.
Qed.

Lemma leb_false_trans a b c :
  String.leb a b = false → String.leb b c = false → String.leb a c = false.
Proof.
  intros Hab Hbc. destruct (String.leb a c) eqn:Hac; [|done].
  assert (String.leb c b = true) as Hcb.
  { destruct (String.leb_total b c); congruence. }
  pose proof (transitivity (R := String.le) (x := a) (y := c) (z := b)) as Htr.
  unfold String.le in Htr. rewrite Hac, Hcb, Hab in Htr. by destruct Htr.
Qed.

Lemma leb_true_trans a b c :
  String.leb a b = true → String.leb b c = true → String.leb a c = true.
Proof.
  intros Hab Hbc. pose proof (transitivity (R := String.le) (x := a) (y := b) (z := c)) as Htr.
  unfold String.le in Htr. rewrite Hab, Hbc in Htr. apply Is_true_true. by apply Htr.
Qed.

Lemma leb_refl a : String.leb a a = true.
Proof. apply Is_true_true. apply (reflexivity (R := String.le)). Qed.

(** Discharging the container interface: keys of one comparable class. *)
#[export] Instance data_order (c : Id) : CmpOrder DataCmp (key_of c) data_before.
Proof.
  destruct (decide (c = ASCII)) as [->|Hc].
  - split; unfold data_before; intros; rewrite ?DataCmp_text in * by done; simpl in *.
    + done.
    + by rewrite leb_refl.
    + rewrite negb_true_iff in *. by eapply leb_false_trans.
    + rewrite negb_false_iff in *. by eapply leb_true_trans.
  - split; unfold data_before; intros; erewrite ?DataCmp_rank in * by (eauto with typeclass_instances; exact Hc).
    all: try done; lia.
Qed.

(** ** Properties *)

(** C28 (round trip): a well-formed value of any of the nine classes written by
    [bytes] into a buffer with room for it is read back unchanged by
    [Data::from] with the value's type, which consumes exactly the type's
    length. *)
Theorem data_roundtrip (d : Data) (n : Z) :
  data_wf d → t_length (m_type d) ≤ n < 2 ^ 31 →
  ∃ b out, Data_bytes d (MemoryBuffer n) = (Ok tt, b) ∧ MemoryBuffer_bytes b = Ok out ∧
           zlen out = n ∧
           Data_from (m_type d) (MemoryBuffer_from out n) =
             (Ok (Some d), Buf n (t_length (m_type d)) out).
Proof.
  intros Hd Hn. rewrite <- (data_enc_length d Hd) in Hn |- *.
  apply roundtrip_fresh; [by apply Data_bytes_serializes|by apply Data_from_parses|done].
Qed.

Lemma data_roundtrip_witness :
  let d := ASCIIData "dibi" in
  ∃ b out, Data_bytes d (MemoryBuffer 6) = (Ok tt, b) ∧ MemoryBuffer_bytes b = Ok out ∧
           zlen out = 6 ∧
           Data_from (m_type d) (MemoryBuffer_from out 6) =
             (Ok (Some d), Buf 6 (t_length (m_type d)) out).
Proof. apply (data_roundtrip (ASCIIData "dibi") 6); vm_compute; repeat split; congruence. Defined.

(** A read of a fixed-width field, on any buffer. *)
(** What a factory does: without room it throws and leaves the buffer alone; a
    byte that is no [bool] is undefined; otherwise it returns a value of the type
    asked for. *)
Definition from_sound (t : Type_) (b : buffer) (r : outcome (option Data) * buffer) : Prop :=
  if bool_decide (m_offset b + t_length t ≤ m_size b) then
    if bool_decide (t_id t = BOOLEAN ∧ rest b !! 0%nat ∉ [Some x00; Some x01]) then r.1 = Undef BadEnumValue
    else ∃ d, r = (Ok (Some d), skip (t_length t) b) ∧ data_wf d ∧ m_type d = t
  else r = (Throw BufferOverflow, b).

Lemma from_sound_overflow t b r : m_size b < m_offset b + t_length t →
  r = (Throw BufferOverflow, b) → from_sound t b r.
Proof. intros Hr ->. unfold from_sound. by rewrite bool_decide_false by lia. Qed.

Lemma from_sound_value t b d : m_offset b + t_length t ≤ m_size b → t_id t ≠ BOOLEAN →
  data_wf d → m_type d = t → from_sound t b (Ok (Some d), skip (t_length t) b).
Proof.
  intros Hr Ht Hd Hty. unfold from_sound. rewrite bool_decide_true by done.
  rewrite bool_decide_false by tauto. by exists d.
Qed.

Lemma le_value_in_u n bs : length bs = n → in_u (8 * Z.of_nat n) (le_value bs).
Proof. intros <-. apply le_value_range. Qed.

(** A fixed-width read, converted and made a value. *)
Lemma from_fixed (n : nat) (conv : Z → Z) (mk : Z → Data) (t : Type_) b :
  buffer_wf b → Z.of_nat n < 2 ^ 32 → t_length t = Z.of_nat n → t_id t ≠ BOOLEAN →
  (∀ z, in_u (8 * Z.of_nat n) z → data_wf (mk (conv z)) ∧ m_type (mk (conv z)) = t) →
  from_sound t b ((z ← (bs ← get_fixed n; mret (conv (le_value bs))); mret (Some (mk z))) b).
Proof.
  intros Hwf Hn Ht Hid Hmk. unfold mbind, M_bind.
  destruct (decide (m_offset b + Z.of_nat n ≤ m_size b)) as [Hr|Hr].
  - rewrite get_fixed_room by done. rewrite <- Ht. pose proof (rest_length b Hwf) as Hl.
    apply from_sound_value; [lia|done|..]; apply Hmk, le_value_in_u; rewrite length_take; unfold zlen in Hl; lia.
  - rewrite get_fixed_overflow by (done || lia). by apply from_sound_overflow; [lia|].
Qed.

Lemma get_boolean_sound b : buffer_wf b →
  from_sound (Type_new BOOLEAN 1) b ((x ← get_boolean; mret (Some (BooleanData x))) b).
Proof.
  intros Hwf. unfold get_boolean, mbind, M_bind. pose proof (rest_length b Hwf) as Hl.
  destruct (decide (m_offset b + 1 ≤ m_size b)) as [Hr|Hr].
  - rewrite get_fixed_room by (done || lia). unfold from_sound. rewrite bool_decide_true by done.
    destruct (rest b) as [|c cs]; [unfold zlen in Hl; cbn in Hl; lia|].
    change ((c :: cs) !! 0%nat) with (Some c). destruct c; try done; by eexists.
  - rewrite get_fixed_overflow by (done || lia). apply from_sound_overflow; [change (t_length _) with 1; lia|done].
Qed.

(** C29 (type): what [Data::from] does on any buffer, for any type a schema can
    declare ([type_wf]: the length is the one of the type, and a text or blob has
    any that fits its field).  When fewer bytes than the type has are left, it
    throws ["Buffer Overflow"] and leaves the buffer unchanged; for a [BOOLEAN]
    whose byte is not 0 or 1 it is undefined; in every other case it returns a
    non-null, well-formed value of exactly that type and advances by its length. *)
Theorem Data_from_sound (t : Type_) (b : buffer) :
  buffer_wf b → type_wf t → from_sound t b (Data_from t b).
Proof.
  intros Hwf Ht. destruct t as [id n]. unfold type_wf in Ht; simpl in Ht. pose proof (rest_length b Hwf) as Hl.
  unfold Data_from; cbn [t_id t_length].
  destruct id; try done; subst; unfold get_int64, get_double, get_float, get_int32, get_int16, get_int8.
  - rewrite swrap_small by (unfold in_s; lia). unfold mbind, M_bind.
    destruct (decide (m_offset b + n ≤ m_size b)) as [Hr|Hr].
    + rewrite get_string_room by (done || lia). set (s := bytes_str _). assert (slen s = n) as Hs.
      { rewrite <- zlen_str_bytes. unfold s. rewrite String.list_byte_of_string_of_list_byte.
        unfold zlen in *. rewrite length_take. lia. }
      apply from_sound_value; [done|done|..]; unfold ASCIIData, data_wf, Type_new; simpl;
        rewrite Hs, wrap_small by (unfold in_u; lia); [split; [lia|done]|done].
    + rewrite get_string_overflow by (done || lia). by apply from_sound_overflow; [cbn; lia|].
  - by apply (from_fixed 8 s64 BigIntData); [|done..|intros z _; split; [split; [apply swrap_range; lia|]|]].
  - apply get_boolean_sound. done.
  - by apply (from_fixed 8 (λ z, z) DoubleData).
  - by apply (from_fixed 4 (λ z, z) FloatData).
  - by apply (from_fixed 4 s32 IntData); [|done..|intros z _; split; [split; [apply swrap_range; lia|]|]].
  - by apply (from_fixed 2 s16 SmallIntData); [|done..|intros z _; split; [split; [apply swrap_range; lia|]|]].
  - by apply (from_fixed 1 s8 TinyIntData); [|done..|intros z _; split; [split; [apply swrap_range; lia|]|]].
  - rewrite swrap_small by (unfold in_s; lia). unfold mbind, M_bind.
    destruct (decide (m_offset b + n ≤ m_size b)) as [Hr|Hr].
    + rewrite get_blob_room by (done || lia). set (bs := take _ _). assert (zlen bs = n) as Hs.
      { unfold bs, zlen in *. rewrite length_take. lia. }
      apply from_sound_value; [done|done|..]; unfold BlobData, data_wf, Type_new; simpl;
        rewrite wrap_small by (unfold in_u; lia); [split; [lia|done]|done].
    + rewrite get_blob_overflow by (done || lia). by apply from_sound_overflow; [cbn; lia|].
Qed.

Lemma Data_from_sound_witness :
  from_sound (Type_new INT 4) (MemoryBuffer 3) (Data_from (Type_new INT 4) (MemoryBuffer 3)).
Proof. apply Data_from_sound; [apply MemoryBuffer_wf; lia|reflexivity]. Defined.

(** C30 (functional): on the values of one comparable class (ASCII, the four
    integer types, and the floating types without NaN), the comparator of the
    ordered containers never throws and is a strict weak order: irreflexive,
    transitive, and with a transitive incomparability. *)
Theorem DataCmp_strict_weak_order (c : Id) (x y z : option Data) :
  key_of c x → key_of c y → key_of c z →
  (∃ r, DataCmp x y = Ok r) ∧
  DataCmp x x = Ok false ∧
  (DataCmp x y = Ok true → DataCmp y z = Ok true → DataCmp x z = Ok true) ∧
  (DataCmp x y = Ok false → DataCmp y z = Ok false → DataCmp x z = Ok false).
Proof.
  intros Hx Hy Hz.
  rewrite !(cmp_returns (lt := data_before)) by done. split; [eauto|].
  rewrite (cmp_irrefl (lt := data_before)) by done. split; [done|].
  split; intros [= H1] [= H2]; f_equal.
  - by eapply (cmp_trans (lt := data_before) x y z).
  - by eapply (cmp_ntrans (lt := data_before) x y z).
Qed.

Lemma DataCmp_strict_weak_order_witness :
  let x := Some (IntData 7) in let y := Some (IntData 5) in let z := Some (IntData (-2)) in
  (∃ r, DataCmp x y = Ok r) ∧ DataCmp x x = Ok false ∧
  (DataCmp x y = Ok true → DataCmp y z = Ok true → DataCmp x z = Ok true) ∧
  (DataCmp x y = Ok false → DataCmp y z = Ok false → DataCmp x z = Ok false).
Proof. apply (DataCmp_strict_weak_order INT); reflexivity. Defined.

(** A NaN is ordered before and after every value of its class,
    itself included, so a [DOUBLE] key column that holds a NaN breaks the strict
    weak order [std::map] requires. *)
Theorem DataCmp_nan (t t' : Type_) (x y : Z) :
  ieee_nan 64 52 x = true →
  DataCmp (Some (MkData t (P_Double x))) (Some (MkData t' (P_Double y))) = Ok true ∧
  DataCmp (Some (MkData t' (P_Double y))) (Some (MkData t (P_Double x))) = Ok true.
Proof.
  intros Hx. simpl. unfold Data_compare. simpl. unfold ieee_le. rewrite Hx. simpl.
  by rewrite andb_false_r.
Qed.

Lemma DataCmp_nan_witness :
  let nan := 0x7FF8000000000000 in
  DataCmp (Some (DoubleData nan)) (Some (DoubleData nan)) = Ok true ∧
  DataCmp (Some (DoubleData nan)) (Some (DoubleData nan)) = Ok true.
Proof. apply DataCmp_nan. reflexivity. Defined.
