(* ===== verification/Catalog.v ===== *)
(** * [catalog::Field], [Schema], [Record] and [Table]

    Models [include/catalog/schema.hh], [record.hh] and [table.hh] with their
    [lib/catalog] implementations: the table descriptors, their serialised
    forms and sizes, and the check of a record against a schema. *)

From Stdlib Require Import ZArith Lia Strings.Byte String.
From stdpp Require Import base list list_numbers strings.
From S2P Require Import Prelude Buffer OrdMap Data.

Local Open Scope Z_scope.

(** ** Fields *)

Record Field := MkField { f_name : string; f_type : Type_ }.

#[global] Instance Field_eq_dec : EqDecision Field.
Proof. solve_decision. Defined.

Definition Field_from : M buffer Field :=
  name_length ← get_uint8;
  name ← get_string name_length;
  read_type ← Type_from;
  mret (MkField name (Type_new (t_id read_type) (t_length read_type))).

Definition Field_size (f : Field) : Z := u64 (1 + slen (f_name f) + Type_size).

Definition Field_bytes (f : Field) : M buffer unit :=
  put_uint8 (slen (f_name f));;
  put_string (f_name f);;
  Type_bytes (f_type f).

(** ** Schemas *)

Record Schema := MkSchema {
  m_sort_key_index : Z;
  m_partition_key_index : Z;
  m_fields : list Field
}.

#[global] Instance Schema_eq_dec : EqDecision Schema.
Proof. solve_decision. Defined.

Definition Schema_from : M buffer Schema :=
  fields_length ← get_uint8;
  fields ← repeat_m (Z.to_nat fields_length) Field_from;
  sort_index ← get_uint64;
  partition_index ← get_uint64;
  mret (MkSchema sort_index partition_index fields).

Definition Schema_push_back (f : Field) (s : Schema) : Schema :=
  MkSchema (m_sort_key_index s) (m_partition_key_index s) (m_fields s ++ [f]).

Definition set_sort_key_index (i : Z) (s : Schema) : Schema :=
  MkSchema i (m_partition_key_index s) (m_fields s).

(** The setter of the partition key assigns [m_sort_key_index]. *)
Definition set_partition_key_index (i : Z) (s : Schema) : Schema :=
  MkSchema i (m_partition_key_index s) (m_fields s).

(** [record_size] and [size] accumulate in [size_t]. *)
Definition Schema_record_size (s : Schema) : Z :=
  fold_left (λ size f, u64 (size + t_length (f_type f))) (m_fields s) 0.

Definition Schema_size (s : Schema) : Z :=
  let fields_size := fold_left (λ size f, u64 (size + Field_size f)) (m_fields s) 0 in
  u64 (1 + fields_size + 8 + 8).

Definition Schema_bytes (s : Schema) : M buffer unit :=
  put_uint8 (zlen (m_fields s));;
  for_each Field_bytes (m_fields s);;
  put_uint64 (m_sort_key_index s);;
  put_uint64 (m_partition_key_index s).

(** ** Records *)

(** [m_values]: shared pointers to values. *)
Definition Record_ : Type := list (option Data).

(** [record[index]] *)
Definition Record_index (r : Record_) (i : Z) : outcome (option Data) :=
  if bool_decide (0 ≤ i) then
    match r !! Z.to_nat i with Some p => Ok p | None => Undef OutOfBounds end
  else Undef OutOfBounds.

Fixpoint Record_from_fields (fields : list Field) : M buffer Record_ :=
  match fields with
  | [] => mret []
  | f :: fields =>
      field ← Data_from (f_type f);
      values ← Record_from_fields fields;
      mret (field :: values)
  end.

Definition Record_from (schema : Schema) : M buffer Record_ :=
  Record_from_fields (m_fields schema).

Definition value_bytes (value : option Data) : M buffer unit :=
  match value with
  | Some d => Data_bytes d
  | None => lift (Undef NullDereference)
  end.

Definition Record_bytes (r : Record_) : M buffer unit := for_each value_bytes r.

(** The loop of [Schema::verify]: values against fields, in order. *)
Fixpoint verify_loop (values : Record_) (fields : list Field) : outcome bool :=
  match values, fields with
  | [], _ => Ok true
  | Some d :: values, f :: fields =>
      if Type_eq (m_type d) (f_type f) then verify_loop values fields else Ok false
  | None :: _, _ :: _ => Undef NullDereference
  | _ :: _, [] => Undef OutOfBounds
  end.

Definition Schema_verify (s : Schema) (record : Record_) : outcome bool :=
  if bool_decide (length record = length (m_fields s))
  then verify_loop record (m_fields s)
  else Ok false.

(** ** Tables *)

Record Table := MkTable {
  tbl_name : string;
  tbl_schema : Schema;
  tbl_last_sstable_id : Z
}.

Definition Table_from : M buffer Table :=
  name_length ← get_uint8;
  name ← get_string name_length;
  read_schema ← Schema_from;
  last_sstable_id ← get_uint64;
  mret (MkTable name
          (MkSchema (m_sort_key_index read_schema) (m_partition_key_index read_schema)
                    (m_fields read_schema))
          last_sstable_id).

Definition Table_size (t : Table) : Z :=
  u64 (1 + slen (tbl_name t) + Schema_size (tbl_schema t) + 8).

Definition Table_bytes (t : Table) : M buffer unit :=
  put_uint8 (slen (tbl_name t));;
  put_string (tbl_name t);;
  Schema_bytes (tbl_schema t);;
  put_uint64 (tbl_last_sstable_id t).

(** ** Encodings *)

Definition field_enc (f : Field) : list byte :=
  le_bytes 1 (slen (f_name f)) ++ str_bytes (f_name f) ++ type_enc (f_type f).

Definition schema_enc (s : Schema) : list byte :=
  le_bytes 1 (zlen (m_fields s)) ++ concat (field_enc <$> m_fields s) ++
  le_bytes 8 (m_sort_key_index s) ++ le_bytes 8 (m_partition_key_index s).

Definition table_enc (t : Table) : list byte :=
  le_bytes 1 (slen (tbl_name t)) ++ str_bytes (tbl_name t) ++
  schema_enc (tbl_schema t) ++ le_bytes 8 (tbl_last_sstable_id t).

Definition value_enc (value : option Data) : list byte :=
  match value with Some d => data_enc d | None => [] end.

Definition record_enc (r : Record_) : list byte := concat (value_enc <$> r).

(** Names and field counts fit their one-byte length prefix. *)
Definition field_wf (f : Field) : Prop := slen (f_name f) < 256 ∧ type_wf (f_type f).

Definition schema_wf (s : Schema) : Prop :=
  zlen (m_fields s) < 256 ∧ Forall field_wf (m_fields s) ∧
  in_u 64 (m_sort_key_index s) ∧ in_u 64 (m_partition_key_index s).

Definition table_wf (t : Table) : Prop :=
  slen (tbl_name t) < 256 ∧ schema_wf (tbl_schema t) ∧ in_u 64 (tbl_last_sstable_id t).

(** A record of well-formed values of the types of the schema's fields. *)
Definition value_matches (v : option Data) (f : Field) : Prop :=
  ∃ d, v = Some d ∧ data_wf d ∧ m_type d = f_type f.

Definition record_matches (s : Schema) (r : Record_) : Prop :=
  Forall2 value_matches r (m_fields s).

(** A record of non-null well-formed values, of whatever types. *)
Definition record_wf (r : Record_) : Prop :=
  Forall (λ v, ∃ d, v = Some d ∧ data_wf d) r.

(** *** Serialisers *)


Lemma Field_bytes_serializes f : field_wf f → serializes (Field_bytes f) (field_enc f).
Proof.
  intros [Hn _]. apply serializes_bind; [apply put_le_serializes; lia|].
  apply serializes_bind; [apply put_string_serializes; lia|apply Type_bytes_serializes].
Qed.

Lemma Schema_bytes_serializes s : schema_wf s → serializes (Schema_bytes s) (schema_enc s).
Proof.
  intros (_ & Hf & _). apply serializes_bind; [apply put_le_serializes; lia|].
  apply serializes_bind; [|apply serializes_bind; apply put_le_serializes; lia].
  apply serializes_for_each. intros f Hin. apply Field_bytes_serializes.
  by eapply Forall_forall in Hf.
Qed.

Lemma Table_bytes_serializes t : table_wf t → serializes (Table_bytes t) (table_enc t).
Proof.
  intros (Hn & Hs & _). apply serializes_bind; [apply put_le_serializes; lia|].
  apply serializes_bind; [apply put_string_serializes; lia|].
  apply serializes_bind; [by apply Schema_bytes_serializes|apply put_le_serializes; lia].
Qed.

Lemma Record_bytes_serializes r : record_wf r → serializes (Record_bytes r) (record_enc r).
Proof.
  intros Hr. apply serializes_for_each. intros v Hin. eapply Forall_forall in Hr; [|done].
  destruct Hr as (d & -> & Hd). by apply Data_bytes_serializes.
Qed.

(** *** Parsers *)

Lemma get_name_parses {A} (f : string → M buffer A) name bs a :
  slen name < 256 → parses (f name) bs a →
  parses (len ← get_uint8; name ← get_string len; f name)
         (le_bytes 1 (slen name) ++ str_bytes name ++ bs) a.
Proof.
  intros Hn Hf. pose proof (slen_nonneg name).
  eapply parses_bind; [apply get_uint8_parses; unfold in_u; lia|].
  eapply parses_bind; [apply get_string_parses; lia|done].
Qed.

Lemma Type_new_id t : in_u 32 (t_length t) → Type_new (t_id t) (t_length t) = t.
Proof. intros. unfold Type_new. rewrite wrap_small by done. by destruct t. Qed.

Lemma type_wf_length t : type_wf t → 0 ≤ t_length t < 2 ^ 31.
Proof. destruct t as [[] n]; unfold type_wf; simpl; lia. Qed.

Lemma Field_from_parses f : field_wf f → parses Field_from (field_enc f) f.
Proof.
  intros [Hn Ht]. apply get_name_parses; [done|].
  eapply parses_map; [by apply type_wf_parses|]. intros b.
  pose proof (type_wf_length _ Ht). rewrite Type_new_id by (unfold in_u; lia). by destruct f.
Qed.

Lemma Schema_from_parses s : schema_wf s → parses Schema_from (schema_enc s) s.
Proof.
  intros (Hl & Hf & Hi & Hp). unfold Schema_from, schema_enc. pose proof (zlen_nonneg (m_fields s)).
  eapply parses_bind; [apply get_uint8_parses; unfold in_u; lia|].
  eapply parses_bind.
  { unfold zlen. rewrite Nat2Z.id. apply parses_repeat. intros f Hin.
    apply Field_from_parses. by eapply Forall_forall in Hf. }
  eapply parses_bind; [by apply get_uint64_parses|].
  eapply parses_map; [by apply get_uint64_parses|]. by destruct s.
Qed.

Lemma Table_from_parses t : table_wf t → parses Table_from (table_enc t) t.
Proof.
  intros (Hn & Hs & Hi). apply get_name_parses; [done|].
  eapply parses_bind; [by apply Schema_from_parses|].
  eapply parses_map; [by apply get_uint64_parses|]. by destruct t as [? [] ?].
Qed.

Lemma Record_from_parses s r : record_matches s r → parses (Record_from s) (record_enc r) r.
Proof.
  unfold record_matches, Record_from, record_enc. intros H.
  induction H as [|v f r fields (d & -> & Hd & Ht) _ IH]; simpl; [apply parses_ret|].
  rewrite <- Ht. eapply parses_bind; [by apply Data_from_parses|].
  by eapply parses_map.
Qed.

(** *** Sizes *)

Fixpoint zsum (l : list Z) : Z :=
  match l with [] => 0 | x :: l => x + zsum l end.

Lemma zsum_nonneg {A} (g : A → Z) l : (∀ x, x ∈ l → 0 ≤ g x) → 0 ≤ zsum (g <$> l).
Proof.
  induction l as [|x l IH]; intros H; csimpl; [lia|].
  assert (0 ≤ g x) by (apply H; by left).
  assert (0 ≤ zsum (g <$> l)) by (apply IH; intros; apply H; by right). lia.
Qed.

(** An accumulation in [size_t] that does not wrap. *)
Lemma fold_u64_sum {A} (g : A → Z) l acc :
  (∀ x, x ∈ l → 0 ≤ g x) → 0 ≤ acc → acc + zsum (g <$> l) < 2 ^ 64 →
  fold_left (λ size x, u64 (size + g x)) l acc = acc + zsum (g <$> l).
Proof.
  revert acc. induction l as [|x l IH]; intros acc Hg Hacc Hb; csimpl in *; [lia|].
  assert (0 ≤ g x) by (apply Hg; by left).
  assert (∀ y, y ∈ l → 0 ≤ g y) as Hg' by (intros; apply Hg; by right).
  pose proof (zsum_nonneg g l Hg').
  rewrite wrap_small by (unfold in_u; lia). rewrite IH; [lia|done|lia|lia].
Qed.

Lemma zlen_concat {A B} (enc : A → list B) l :
  zlen (concat (enc <$> l)) = zsum ((λ x, zlen (enc x)) <$> l).
Proof. induction l as [|x l IH]; [done|]. csimpl. rewrite zlen_app, IH. done. Qed.

Lemma zsum_bound {A} (g : A → Z) l c :
  (∀ x, x ∈ l → g x ≤ c) → zsum (g <$> l) ≤ c * zlen l.
Proof.
  induction l as [|x l IH]; intros H; [unfold zlen; simpl; lia|].
  assert (g x ≤ c) by (apply H; by left).
  assert (zsum (g <$> l) ≤ c * zlen l) by (apply IH; intros; apply H; by right).
  unfold zlen in *. csimpl. lia.
Qed.

Lemma zsum_ext {A} (g h : A → Z) l :
  (∀ x, x ∈ l → g x = h x) → zsum (g <$> l) = zsum (h <$> l).
Proof.
  induction l as [|x l IH]; intros H; [done|]. csimpl. f_equal.
  - apply H. by left.
  - apply IH. intros. apply H. by right.
Qed.

Lemma Field_size_ok f : field_wf f → Field_size f = zlen (field_enc f).
Proof.
  intros [Hn _]. pose proof (slen_nonneg (f_name f)). unfold Field_size, field_enc.
  rewrite !zlen_app, zlen_str_bytes, type_enc_length.
  rewrite wrap_small by (unfold in_u, Type_size; lia). rewrite ?zlen_le_bytes. lia.
Qed.

Lemma field_enc_bound f : field_wf f → 0 ≤ zlen (field_enc f) ≤ 261.
Proof.
  intros [Hn _]. unfold field_enc. rewrite !zlen_app, zlen_str_bytes, type_enc_length.
  pose proof (slen_nonneg (f_name f)). rewrite ?zlen_le_bytes. unfold Type_size. lia.
Qed.

Lemma fields_enc_bound s : schema_wf s →
  0 ≤ zlen (concat (field_enc <$> m_fields s)) ≤ 261 * 255.
Proof.
  intros (Hl & Hf & _). rewrite Forall_forall in Hf. split; [apply zlen_nonneg|].
  rewrite zlen_concat. etrans.
  - apply (zsum_bound _ _ 261). intros f Hin. by apply field_enc_bound, Hf.
  - lia.
Qed.

Lemma Schema_size_ok s : schema_wf s → Schema_size s = zlen (schema_enc s).
Proof.
  intros Hs. pose proof (fields_enc_bound s Hs) as Hb. pose proof Hs as (Hl & Hf & _).
  rewrite Forall_forall in Hf. unfold Schema_size, schema_enc.
  assert (zsum (Field_size <$> m_fields s) = zlen (concat (field_enc <$> m_fields s))) as Hsum.
  { rewrite zlen_concat. apply zsum_ext. intros f Hin. by apply Field_size_ok, Hf. }
  rewrite fold_u64_sum, Hsum; [|intros f Hin; rewrite Field_size_ok by auto; apply zlen_nonneg|lia|lia].
  rewrite !zlen_app, wrap_small by (unfold in_u; lia). rewrite ?zlen_le_bytes. lia.
Qed.

Lemma schema_enc_bound s : schema_wf s → zlen (schema_enc s) ≤ 67000.
Proof.
  intros Hs. pose proof (fields_enc_bound s Hs) as Hb. unfold schema_enc. rewrite !zlen_app.
  rewrite ?zlen_le_bytes. lia.
Qed.

Lemma Table_size_ok t : table_wf t → Table_size t = zlen (table_enc t).
Proof.
  intros (Hn & Hs & _). pose proof (schema_enc_bound _ Hs). pose proof (slen_nonneg (tbl_name t)).
  pose proof (zlen_nonneg (schema_enc (tbl_schema t))).
  unfold Table_size, table_enc. rewrite Schema_size_ok by done.
  rewrite !zlen_app, zlen_str_bytes, wrap_small by (unfold in_u; lia).
  rewrite ?zlen_le_bytes. lia.
Qed.

Lemma Schema_record_size_ok s :
  schema_wf s → Schema_record_size s = zsum ((λ f, t_length (f_type f)) <$> m_fields s).
Proof.
  intros (Hl & Hf & _). rewrite Forall_forall in Hf. unfold Schema_record_size.
  assert (∀ f, f ∈ m_fields s → 0 ≤ t_length (f_type f) ≤ 2 ^ 31) as Hb.
  { intros f Hin. destruct (Hf f Hin) as [_ Ht]. pose proof (type_wf_length _ Ht). lia. }
  rewrite fold_u64_sum; [lia|intros f Hin; by apply Hb|lia|].
  assert (zsum ((λ f, t_length (f_type f)) <$> m_fields s) ≤ 2 ^ 31 * zlen (m_fields s)).
  { apply zsum_bound. intros f Hin. by apply Hb. }
  lia.
Qed.

Lemma record_enc_length s r :
  schema_wf s → record_matches s r → zlen (record_enc r) = Schema_record_size s.
Proof.
  intros Hs Hr. rewrite Schema_record_size_ok by done. unfold record_enc. rewrite zlen_concat.
  unfold record_matches in Hr. clear Hs.
  induction Hr as [|v f r fields (d & -> & Hd & Ht) _ IH]; [done|].
  csimpl. rewrite IH. f_equal. by rewrite data_enc_length, Ht.
Qed.

Lemma record_matches_wf s r : record_matches s r → record_wf r.
Proof.
  unfold record_matches, record_wf. induction 1 as [|v f r fields (d & -> & Hd & _) _ IH];
    constructor; eauto.
Qed.

(** *** Verification of records *)

Lemma Type_eq_spec lhs rhs : Type_eq lhs rhs = true ↔ lhs = rhs.
Proof.
  unfold Type_eq. rewrite andb_true_iff, bool_decide_eq_true, Z.eqb_eq.
  destruct lhs, rhs; simpl; split; [intros [-> ->]; done|intros [= -> ->]; done].
Qed.

Lemma verify_loop_spec r fields :
  record_wf r → length r = length fields →
  (∃ x, verify_loop r fields = Ok x) ∧
  (verify_loop r fields = Ok true ↔ Forall2 value_matches r fields).
Proof.
  intros Hr. revert fields. induction Hr as [|v r (d & -> & Hd) Hr IH]; intros [|f fields] Hl;
    try done; simpl.
  - split; [eauto|]. split; [constructor|done].
  - destruct (IH fields ltac:(simpl in Hl; lia)) as [Hx Hiff]. rewrite Forall2_cons.
    destruct (Type_eq (m_type d) (f_type f)) eqn:Ht.
    + split; [done|]. rewrite Hiff. apply Type_eq_spec in Ht.
      split; [intros; split; [by exists d|done]|by intros [_ ?]].
    + split; [eauto|]. split; [done|]. intros [(d' & [= <-] & _ & Hm) _].
      apply Type_eq_spec in Hm. congruence.
Qed.

Lemma Schema_verify_iff s r :
  record_wf r →
  (∃ x, Schema_verify s r = Ok x) ∧ (Schema_verify s r = Ok true ↔ record_matches s r).
Proof.
  intros Hr. unfold Schema_verify, record_matches. case_bool_decide as Hl.
  - by apply verify_loop_spec.
  - split; [eauto|]. split; [done|]. intros Hm%Forall2_length. done.
Qed.

(** ** Properties *)

(** C31 (round trip): a table descriptor (name and field names below 256 bytes,
    fewer than 256 fields) written by [Table::bytes] is read back unchanged by
    [Table::from], and [Table::size] is exactly the number of bytes written and
    read. *)
Theorem table_roundtrip (t : Table) (n : Z) :
  table_wf t → Table_size t ≤ n < 2 ^ 31 →
  ∃ b out, Table_bytes t (MemoryBuffer n) = (Ok tt, b) ∧ MemoryBuffer_bytes b = Ok out ∧
           zlen out = n ∧
           Table_from (MemoryBuffer_from out n) = (Ok t, Buf n (Table_size t) out).
Proof.
  intros Ht Hn. rewrite Table_size_ok in * by done.
  apply roundtrip_fresh; [by apply Table_bytes_serializes|by apply Table_from_parses|done].
Qed.

Definition example_schema : Schema :=
  MkSchema 1 0 [MkField "race_name" (MkType ASCII 3); MkField "race_position" (MkType INT 4);
                MkField "cyclist_name" (MkType ASCII 5)].

Lemma example_schema_wf : schema_wf example_schema.
Proof. repeat split; repeat constructor; vm_compute; congruence. Defined.

Lemma table_roundtrip_witness :
  let t := MkTable "race_winners" example_schema 2 in
  ∃ b out, Table_bytes t (MemoryBuffer 128) = (Ok tt, b) ∧ MemoryBuffer_bytes b = Ok out ∧
           zlen out = 128 ∧
           Table_from (MemoryBuffer_from out 128) = (Ok t, Buf 128 (Table_size t) out).
Proof.
  apply table_roundtrip.
  - split; [vm_compute; congruence|]. split; [apply example_schema_wf|].
    vm_compute. split; congruence.
  - vm_compute. split; congruence.
Defined.

(** A record that [Schema::verify] accepts fills a buffer of
    [record_size()] bytes exactly, and [Record::from] with the same schema
    returns the same values. *)
Theorem record_roundtrip (s : Schema) (r : Record_) :
  schema_wf s → record_wf r → Schema_verify s r = Ok true → Schema_record_size s < 2 ^ 31 →
  ∃ b out, Record_bytes r (MemoryBuffer (Schema_record_size s)) = (Ok tt, b) ∧
           MemoryBuffer_bytes b = Ok out ∧ zlen out = Schema_record_size s ∧
           Record_from s (MemoryBuffer_from out (Schema_record_size s)) =
             (Ok r, Buf (Schema_record_size s) (Schema_record_size s) out).
Proof.
  intros Hs Hr Hv Hb. apply Schema_verify_iff in Hv; [|done].
  rewrite <- (record_enc_length s r) in * by done.
  apply roundtrip_fresh; [by apply Record_bytes_serializes|by apply Record_from_parses|lia].
Qed.

Definition example_record : Record_ :=
  [Some (ASCIIData "TdF"); Some (IntData 1); Some (ASCIIData "Alice")].

Lemma record_roundtrip_witness :
  let n := Schema_record_size example_schema in
  ∃ b out, Record_bytes example_record (MemoryBuffer n) = (Ok tt, b) ∧
           MemoryBuffer_bytes b = Ok out ∧ zlen out = n ∧
           Record_from example_schema (MemoryBuffer_from out n) =
             (Ok example_record, Buf n n out).
Proof.
  apply record_roundtrip; [apply example_schema_wf| |reflexivity|vm_compute; congruence].
  repeat constructor; eexists; (split; [reflexivity|]); vm_compute; repeat split; congruence.
Defined.

(** On records of well-formed values [Schema::verify] always
    returns, and accepts exactly the records with one value per field, each of
    the field's type and length. *)
Theorem verify_correct (s : Schema) (r : Record_) :
  record_wf r →
  (∃ x, Schema_verify s r = Ok x) ∧ (Schema_verify s r = Ok true ↔ record_matches s r).
Proof. apply Schema_verify_iff. Qed.

Lemma verify_correct_witness :
  (∃ x, Schema_verify example_schema example_record = Ok x) ∧
  (Schema_verify example_schema example_record = Ok true ↔
   record_matches example_schema example_record).
Proof.
  apply verify_correct.
  repeat constructor; eexists; (split; [reflexivity|]); vm_compute; repeat split; congruence.
Defined.
