(* ===== verification/IndexPage.v ===== *)
(** * [db::IndexPage]: a page of the index file

    Models [include/db/index_page.hh] and [lib/db/index_page.cc]: a map from
    sort keys to offsets in the data file, kept within a 4096-byte page. *)

From Stdlib Require Import ZArith Lia Strings.Byte String.
From stdpp Require Import base list list_numbers strings sorting sets.
From S2P Require Import Prelude Buffer OrdMap Data Catalog.

Local Open Scope Z_scope.

(** The size of a page, the literal 4096 of the sources. *)
Definition page_size : Z := 4096.

Record IndexPage := MkPage {
  ip_sort_keys : list (option Data * Z);   (* std::map<.., off_t, DataCmp> *)
  ip_type : Type_
}.

Definition IndexPage_new (type : Type_) : IndexPage := MkPage [] type.

(** The loop of [from]: the offset read as [uint64_t] is stored as [off_t]. *)
Fixpoint index_loop (n : nat) (type : Type_) (sort_keys : list (option Data * Z)) :
    M buffer (list (option Data * Z)) :=
  match n with
  | O => mret sort_keys
  | S n =>
      key ← Data_from type;
      off ← get_uint64;
      sort_keys ← lift (map_assign DataCmp key (s64 off) sort_keys);
      index_loop n type sort_keys
  end.

Definition IndexPage_from : M buffer IndexPage :=
  sort_keys_length ← get_uint8;
  read_type ← Type_from;
  let type := Type_new (t_id read_type) (t_length read_type) in
  sort_keys ← index_loop (Z.to_nat sort_keys_length) type [];
  mret (MkPage sort_keys type).

Definition find_offset (key : option Data) (p : IndexPage) : outcome Z :=
  find_key ← map_find DataCmp key (ip_sort_keys p);
  Ok (match find_key with Some (_, off) => off | None => -1 end).

Definition IndexPage_size (p : IndexPage) : Z :=
  u64 (1 + Type_size + u64 (zlen (ip_sort_keys p) * u64 (t_length (ip_type p) + 8))).

Definition IndexPage_push_back (key : option Data) (off : Z) : M IndexPage bool :=
  p ← get_state;
  if page_size <? u64 (IndexPage_size p + t_length (ip_type p) + 8) then mret false else
  copy ← lift (Data_copy key);
  sort_keys ← lift (map_assign DataCmp (Some copy) off (ip_sort_keys p));
  put_state (MkPage sort_keys (ip_type p));;
  mret true.

Definition IndexPage_clear : M IndexPage unit :=
  modify (λ p, MkPage [] (ip_type p)).

Definition entry_bytes (e : option Data * Z) : M buffer unit :=
  value_bytes e.1;;
  put_uint64 e.2.

Definition IndexPage_bytes (p : IndexPage) : M buffer unit :=
  put_uint8 (zlen (ip_sort_keys p));;
  Type_bytes (ip_type p);;
  for_each entry_bytes (ip_sort_keys p).

(** ** Well-formed pages *)

Definition entry_wf (c : Id) (t : Type_) (e : option Data * Z) : Prop :=
  ∃ d, e.1 = Some d ∧ data_wf d ∧ m_type d = t ∧ key_class d = Some c ∧ in_u 63 e.2.

Definition entries_wf (c : Id) (t : Type_) (l : list (option Data * Z)) : Prop :=
  Forall (entry_wf c t) l ∧ ordered data_before l.

(** The keys have one comparable class and the page's type, they are in
    container order, and the page fits its 4096 bytes. *)
Definition page_wf (c : Id) (p : IndexPage) : Prop :=
  entries_wf c (ip_type p) (ip_sort_keys p) ∧ type_wf (ip_type p) ∧
  1 + Type_size + zlen (ip_sort_keys p) * (t_length (ip_type p) + 8) ≤ page_size.

Definition entry_enc (e : option Data * Z) : list byte := value_enc e.1 ++ le_bytes 8 e.2.

Definition page_enc (p : IndexPage) : list byte :=
  le_bytes 1 (zlen (ip_sort_keys p)) ++ type_enc (ip_type p) ++
  concat (entry_enc <$> ip_sort_keys p).

Lemma entries_map_wf c t l : entries_wf c t l → map_wf (key_of c) data_before l.
Proof.
  intros [Hall Ho]. split; [|done]. eapply Forall_impl; [exact Hall|].
  intros e (d & He & _ & _ & Hc & _). unfold key_of. by rewrite He.
Qed.

Lemma entries_wf_app c t l k : entries_wf c t (l ++ k) → entries_wf c t l ∧ entries_wf c t k.
Proof.
  intros [Hall Ho]. apply Forall_app in Hall as [Hl Hk]. unfold ordered in Ho.
  split; split; try done; unfold ordered.
  - by eapply StronglySorted_app_1_l.
  - by eapply StronglySorted_app_1_r.
Qed.

Lemma entry_bytes_serializes c t e : entry_wf c t e → serializes (entry_bytes e) (entry_enc e).
Proof.
  intros (d & He & Hd & _). unfold entry_bytes, entry_enc. rewrite He.
  apply serializes_bind; [by apply Data_bytes_serializes|apply put_le_serializes; lia].
Qed.

Lemma IndexPage_bytes_serializes c p : page_wf c p → serializes (IndexPage_bytes p) (page_enc p).
Proof.
  intros ([Hall _] & _). apply serializes_bind; [apply put_le_serializes; lia|].
  apply serializes_bind; [apply Type_bytes_serializes|].
  apply serializes_for_each. intros e He. eapply entry_bytes_serializes.
  by eapply Forall_forall in Hall.
Qed.

(** The loop of [from] rebuilds entries written in container order. *)
Lemma index_loop_parses c t acc l :
  entries_wf c t (acc ++ l) →
  parses (index_loop (length l) t acc) (concat (entry_enc <$> l)) (acc ++ l).
Proof.
  revert acc. induction l as [|[k off] l IH]; intros acc Hwf; csimpl.
  { rewrite app_nil_r. apply parses_ret. }
  destruct (entries_wf_app c t (acc ++ [(k, off)]) l) as [Hacc _].
  { by rewrite <- app_assoc. }
  pose proof Hacc as [Hall _]. apply Forall_app in Hall as [_ Hall].
  apply Forall_singleton in Hall as (d & Hk & Hd & Ht & Hc & Hoff). simpl in *. subst k t.
  unfold entry_enc at 1. simpl. rewrite <- app_assoc.
  eapply parses_bind; [by apply Data_from_parses|].
  eapply parses_bind; [apply get_uint64_parses; unfold in_u in *; lia|].
  rewrite <- (app_nil_l (concat _)). eapply parses_bind.
  { intros b r Hb _. unfold lift. rewrite swrap_small by (unfold in_s, in_u in *; lia).
    rewrite (map_assign_snoc DataCmp (key_of c) data_before);
      [|done|by eapply entries_map_wf].
    unfold skip, zlen. simpl. rewrite Z.add_0_r. by destruct b. }
  replace (acc ++ (Some d, off) :: l) with ((acc ++ [(Some d, off)]) ++ l)
    by (by rewrite <- app_assoc).
  apply IH. by rewrite <- app_assoc.
Qed.

Lemma entry_enc_length c t e : entry_wf c t e → zlen (entry_enc e) = t_length t + 8.
Proof.
  intros (d & He & Hd & Ht & _). unfold entry_enc. rewrite He. cbn [value_enc].
  rewrite zlen_app, data_enc_length, Ht, zlen_le_bytes by done. done.
Qed.

Lemma entries_enc_length c t l :
  Forall (entry_wf c t) l → zlen (concat (entry_enc <$> l)) = zlen l * (t_length t + 8).
Proof.
  intros H. rewrite zlen_concat. induction H as [|e l He Hl IH]; [done|].
  csimpl. rewrite IH, (entry_enc_length c t) by done. unfold zlen. simpl. lia.
Qed.

Lemma page_enc_length c p :
  page_wf c p →
  zlen (page_enc p) = 1 + Type_size + zlen (ip_sort_keys p) * (t_length (ip_type p) + 8).
Proof.
  intros ([Hall _] & _). unfold page_enc.
  rewrite !zlen_app, zlen_le_bytes, type_enc_length, (entries_enc_length c (ip_type p)) by done.
  lia.
Qed.

Lemma IndexPage_size_ok c p : page_wf c p → IndexPage_size p = zlen (page_enc p).
Proof.
  intros Hp. rewrite (page_enc_length c) by done. destruct Hp as ([Hall _] & Ht & Hsz).
  pose proof (type_wf_length _ Ht). pose proof (zlen_nonneg (ip_sort_keys p)).
  pose proof (Z.mul_nonneg_nonneg (zlen (ip_sort_keys p)) (t_length (ip_type p) + 8)
                ltac:(lia) ltac:(lia)).
  unfold IndexPage_size, Type_size, page_size in *.
  rewrite (wrap_small 64 (t_length _ + 8)) by (unfold in_u; lia).
  rewrite (wrap_small 64 (zlen _ * _)) by (unfold in_u; lia).
  apply wrap_small. unfold in_u. lia.
Qed.

(** What is read back from the bytes of a page: the entries its one-byte count
    announces. *)
Lemma IndexPage_from_parses c p :
  page_wf c p →
  let n := Z.to_nat (u8 (zlen (ip_sort_keys p))) in
  parses IndexPage_from
    (le_bytes 1 (zlen (ip_sort_keys p)) ++ type_enc (ip_type p) ++
     concat (entry_enc <$> take n (ip_sort_keys p)))
    (MkPage (take n (ip_sort_keys p)) (ip_type p)).
Proof.
  intros (Hent & Ht & _) n. pose proof (type_wf_length _ Ht). unfold IndexPage_from.
  eapply parses_bind; [apply (get_le_parses 1 (λ x, x)); [lia|done]|].
  change (2 ^ (8 * Z.of_nat 1)) with (2 ^ 8). fold (wrap 8 (zlen (ip_sort_keys p))).
  eapply parses_bind; [by apply type_wf_parses|].
  rewrite Type_new_id by (unfold in_u; lia). fold n.
  rewrite <- (take_drop n (ip_sort_keys p)) in Hent. apply entries_wf_app in Hent as [Hent _].
  assert (length (take n (ip_sort_keys p)) = n) as Hlen.
  { rewrite length_take. pose proof (zlen_nonneg (ip_sort_keys p)).
    assert (wrap 8 (zlen (ip_sort_keys p)) ≤ zlen (ip_sort_keys p)) by (apply Z.mod_le; lia).
    unfold n, zlen in *. lia. }
  eapply parses_map; [|done].
  rewrite <- Hlen at 1. apply (index_loop_parses c _ []). done.
Qed.

(** ** Searching and extending a page *)

Lemma find_offset_ok c k p :
  page_wf c p → key_of c k →
  find_offset k p = Ok (match lookup_key data_before k (ip_sort_keys p) with
                        | Some (_, off) => off | None => -1 end).
Proof.
  intros (Hent & _) Hk. unfold find_offset.
  rewrite (map_find_ok DataCmp (key_of c) data_before);
    [done|done|by eapply entries_map_wf].
Qed.

(** A key that may be pushed on a page of type [t]. *)
Definition pushable (c : Id) (t : Type_) (d : Data) : Prop :=
  data_wf d ∧ m_type d = t ∧ key_class d = Some c.

(** Room for one more entry. *)
Definition page_room (p : IndexPage) : Prop :=
  1 + Type_size + (zlen (ip_sort_keys p) + 1) * (t_length (ip_type p) + 8) ≤ page_size.

Lemma push_guard c p :
  page_wf c p →
  (page_size <? u64 (IndexPage_size p + t_length (ip_type p) + 8)) = bool_decide (¬ page_room p).
Proof.
  intros Hp. rewrite (IndexPage_size_ok c), (page_enc_length c) by done.
  destruct Hp as (_ & Ht & Hsz). pose proof (type_wf_length _ Ht).
  pose proof (zlen_nonneg (ip_sort_keys p)).
  pose proof (Z.mul_nonneg_nonneg (zlen (ip_sort_keys p)) (t_length (ip_type p) + 8)
                ltac:(lia) ltac:(lia)).
  unfold page_room, page_size, Type_size in *. rewrite wrap_small by (unfold in_u; lia).
  case_bool_decide; [apply Z.ltb_lt|apply Z.ltb_ge]; lia.
Qed.

Lemma push_back_full c p key off :
  page_wf c p → ¬ page_room p → IndexPage_push_back key off p = (Ok false, p).
Proof.
  intros Hp Hr. unfold IndexPage_push_back, get_state, mbind, M_bind.
  by rewrite (push_guard c), bool_decide_true.
Qed.

Lemma push_back_room c p d off :
  page_wf c p → page_room p → pushable c (ip_type p) d →
  IndexPage_push_back (Some d) off p =
    (sort_keys ← lift (map_assign DataCmp (Some d) off (ip_sort_keys p));
     put_state (MkPage sort_keys (ip_type p));; mret true) p.
Proof.
  intros Hp Hr (Hd & Ht & Hc). unfold IndexPage_push_back, get_state, mbind, M_bind.
  rewrite (push_guard c), bool_decide_false by tauto. unfold lift. by rewrite Data_copy_ok.
Qed.

Lemma lookup_mid {V} c (l r : list (option Data * V)) e k :
  key_of c k → map_wf (key_of c) data_before (l ++ e :: r) →
  lookup_key data_before k (l ++ e :: r) =
    if keq data_before k e.1 then Some e else lookup_key data_before k (l ++ r).
Proof.
  intros Hk Hwf. destruct (keq data_before k e.1) eqn:He.
  - rewrite (lookup_key_Some DataCmp (key_of c) data_before) by done. split; [set_solver|done].
  - clear Hwf. induction l as [|e' l IH]; simpl; [by rewrite He|].
    by destruct (keq data_before k e'.1).
Qed.

(** Replacing the offset of an entry, and adding an entry at its place. *)
Lemma entries_wf_replace c t l e r off :
  entries_wf c t (l ++ e :: r) → in_u 63 off → entries_wf c t (l ++ (e.1, off) :: r).
Proof.
  intros [Hall Hord] Hoff. split.
  - apply Forall_app in Hall as [? Hall]. apply Forall_cons in Hall as [He ?].
    apply Forall_app. split; [done|]. constructor; [|done].
    destruct He as (d' & ? & ? & ? & ? & ?). by exists d'.
  - unfold ordered in *. apply StronglySorted_app in Hord as (H1 & H2 & H3).
    apply StronglySorted_app. inversion H3; subst.
    split; [|split; [done|by constructor]].
    intros x y Hx [->|Hy]%elem_of_cons; [apply (H1 x e Hx); by left|].
    apply (H1 x y Hx). by right.
Qed.

Lemma entries_wf_mid c t l e r :
  entries_wf c t (l ++ r) → map_wf (key_of c) data_before (l ++ e :: r) → entry_wf c t e →
  entries_wf c t (l ++ e :: r).
Proof.
  intros [Hall _] [_ Hord] He. split; [|done].
  apply Forall_app in Hall as [? ?]. apply Forall_app. split; [done|]. by constructor.
Qed.

(** Pushing keeps the page well formed and updates one key. *)
Lemma push_back_ok c p d off :
  page_wf c p → page_room p → pushable c (ip_type p) d → in_u 63 off →
  ∃ p', IndexPage_push_back (Some d) off p = (Ok true, p') ∧ page_wf c p' ∧
        ip_type p' = ip_type p ∧
        ∀ k, key_of c k →
          find_offset k p' =
            if keq data_before k (Some d) then Ok off else find_offset k p.
Proof.
  intros Hp Hroom Hpush Hoff. pose proof Hp as (Hent & Ht & Hsz).
  pose proof (entries_map_wf _ _ _ Hent) as Hmw. destruct Hpush as (Hd & Hdt & Hc).
  rewrite (push_back_room c) by (done || by split).
  pose proof (map_assign_ok DataCmp (key_of c) data_before (Some d) off _ Hc Hmw) as Hassign.
  destruct (lookup_key data_before (Some d) (ip_sort_keys p)) as [e|] eqn:Hlk.
  - destruct Hassign as (l & r & Hkeys & Hres).
    assert (entries_wf c (ip_type p) (l ++ (e.1, off) :: r)) as Hent'
      by (apply entries_wf_replace; [by rewrite <- Hkeys|done]).
    assert (page_wf c (MkPage (l ++ (e.1, off) :: r) (ip_type p))) as Hp'.
    { split; [done|]. split; [done|]. simpl. rewrite Hkeys in Hsz.
      rewrite !zlen_app in *. unfold zlen in *. simpl in *. done. }
    eexists. split; [by rewrite Hres|]. split; [done|]. split; [done|].
    intros k Hk. rewrite !(find_offset_ok c) by done. simpl. rewrite Hkeys.
    apply lookup_key_elem in Hlk as [Hin Heq].
    assert (key_of c e.1) as Hke.
    { destruct Hmw as [Hdom _]. rewrite Hkeys in Hdom. apply Forall_app in Hdom as [_ Hdom].
      by inversion Hdom. }
    rewrite !(lookup_mid c); [|done|by rewrite <- Hkeys|done|by eapply entries_map_wf].
    simpl. rewrite <- (keq_keq_r DataCmp (key_of c) data_before k (Some d) e.1) by done.
    by destruct (keq data_before k (Some d)).
  - destruct Hassign as (l & r & Hkeys & Hres & Hmw').
    assert (page_wf c (MkPage (l ++ (Some d, off) :: r) (ip_type p))) as Hp'.
    { split; [apply entries_wf_mid; [by rewrite <- Hkeys|done|by exists d]|split; [done|]].
      unfold page_room in Hroom. simpl. rewrite Hkeys, zlen_app in Hroom.
      rewrite zlen_app. unfold zlen in *. simpl in *. lia. }
    eexists. split; [by rewrite Hres|]. split; [done|]. split; [done|].
    intros k Hk. rewrite !(find_offset_ok c) by done. simpl. rewrite Hkeys.
    rewrite (lookup_mid c) by done. simpl. by destruct (keq data_before k (Some d)).
Qed.

(** Pushing the next key of a sequence in container order. *)
Lemma push_back_snoc c p d off :
  page_wf c p → page_room p → pushable c (ip_type p) d →
  entries_wf c (ip_type p) (ip_sort_keys p ++ [(Some d, off)]) →
  IndexPage_push_back (Some d) off p =
    (Ok true, MkPage (ip_sort_keys p ++ [(Some d, off)]) (ip_type p)) ∧
  page_wf c (MkPage (ip_sort_keys p ++ [(Some d, off)]) (ip_type p)).
Proof.
  intros Hp Hroom Hpush Hent. pose proof Hp as (_ & Ht & _). split.
  - rewrite (push_back_room c) by done. unfold lift, mbind, M_bind.
    rewrite (map_assign_snoc DataCmp (key_of c) data_before); [done| |].
    + by destruct Hpush as (_ & _ & ?).
    + by eapply entries_map_wf.
  - split; [done|]. split; [done|]. unfold page_room in Hroom. simpl.
    rewrite zlen_app. unfold zlen in *. simpl in *. lia.
Qed.

Lemma IndexPage_new_wf c t : type_wf t → page_wf c (IndexPage_new t).
Proof.
  intros Ht. split; [|split; [done|]].
  - split; constructor.
  - unfold page_size. simpl. unfold Type_size, zlen. simpl. lia.
Qed.

(** ** Properties *)

(** C32 (invariant): on a well-formed page, [push_back] of a key of the page's
    type either refuses (exactly when the entry would not fit the 4096 bytes)
    and changes nothing, or yields a well-formed page, so one whose bytes never
    exceed 4096, in which [find_offset] returns the new offset for the keys
    equivalent to the one pushed and is unchanged for all others. *)
Theorem index_page_push_back (c : Id) (p : IndexPage) (d : Data) (off : Z) :
  page_wf c p → pushable c (ip_type p) d → in_u 63 off →
  (¬ page_room p ∧ IndexPage_push_back (Some d) off p = (Ok false, p)) ∨
  (∃ p', IndexPage_push_back (Some d) off p = (Ok true, p') ∧ page_wf c p' ∧
         IndexPage_size p' ≤ page_size ∧
         ∀ k, key_of c k →
           find_offset k p' = if keq data_before k (Some d) then Ok off else find_offset k p).
Proof.
  intros Hp Hpush Hoff. destruct (decide (page_room p)) as [Hr|Hr].
  - right. destruct (push_back_ok c p d off Hp Hr Hpush Hoff) as (p' & Hrun & Hp' & _ & Hfind).
    exists p'. split; [done|]. split; [done|]. split; [|done].
    rewrite (IndexPage_size_ok c), (page_enc_length c) by done. apply Hp'.
  - left. split; [done|]. by apply (push_back_full c).
Qed.

Lemma index_page_push_back_witness :
  let p := IndexPage_new (MkType INT 4) in let d := IntData 5 in
  (¬ page_room p ∧ IndexPage_push_back (Some d) 40 p = (Ok false, p)) ∨
  (∃ p', IndexPage_push_back (Some d) 40 p = (Ok true, p') ∧ page_wf INT p' ∧
         IndexPage_size p' ≤ page_size ∧
         ∀ k, key_of INT k →
           find_offset k p' = if keq data_before k (Some d) then Ok 40 else find_offset k p).
Proof.
  apply index_page_push_back.
  - by apply IndexPage_new_wf.
  - split; [|done]. vm_compute. repeat split; congruence.
  - vm_compute. split; congruence.
Defined.

(** C33 (round trip): a page written by [bytes] into its 4096-byte buffer is read
    back by [from] with the first [n mod 256] of its [n] entries: unchanged up
    to 255 entries, truncated above, where the one-byte count wraps (a page of
    [INT] keys holds up to 340). *)
Theorem index_page_reload (c : Id) (p : IndexPage) :
  page_wf c p →
  ∃ b out b', IndexPage_bytes p (MemoryBuffer page_size) = (Ok tt, b) ∧
    MemoryBuffer_bytes b = Ok out ∧
    IndexPage_from (MemoryBuffer_from out page_size) =
      (Ok (MkPage (take (Z.to_nat (u8 (zlen (ip_sort_keys p)))) (ip_sort_keys p)) (ip_type p)), b').
Proof.
  intros Hp. pose proof (page_enc_length c p Hp) as Hlen. pose proof Hp as (_ & _ & Hsz).
  destruct (serializes_fresh _ _ page_size (IndexPage_bytes_serializes c p Hp))
    as (b & Hb & Hwf & Hs & _ & Hbuf); [unfold page_size in *; lia|].
  pose proof (IndexPage_from_parses c p Hp) as Hparse. cbv zeta in Hparse.
  set (n := Z.to_nat (u8 (zlen (ip_sort_keys p)))) in *.
  exists b, (m_buf b). eexists. split; [done|]. split; [by apply MemoryBuffer_bytes_ok|].
  apply (Hparse _ (concat (entry_enc <$> drop n (ip_sort_keys p)) ++
                   replicate (Z.to_nat page_size - length (page_enc p)) x00)).
  - destruct Hwf as (Hl & _). rewrite <- Hs, <- Hl. apply MemoryBuffer_from_wf.
    rewrite Hl, Hs. unfold page_size. lia.
  - unfold rest. simpl. rewrite drop_0, Hbuf. set (zeroes := replicate _ _). unfold page_enc.
    rewrite <- (take_drop n (ip_sort_keys p)) at 2.
    by rewrite fmap_app, concat_app, <- !app_assoc.
Qed.

Lemma index_page_reload_witness :
  let p := MkPage [(Some (IntData 9), 0); (Some (IntData 3), 12)] (MkType INT 4) in
  ∃ b out b', IndexPage_bytes p (MemoryBuffer page_size) = (Ok tt, b) ∧
    MemoryBuffer_bytes b = Ok out ∧
    IndexPage_from (MemoryBuffer_from out page_size) =
      (Ok (MkPage (take (Z.to_nat (u8 (zlen (ip_sort_keys p)))) (ip_sort_keys p)) (ip_type p)), b').
Proof.
  apply (index_page_reload INT). split; [split|split].
  - repeat constructor; eexists; (split; [reflexivity|]); vm_compute; repeat split; congruence.
  - repeat constructor.
  - done.
  - vm_compute. congruence.
Defined.
