(* ===== verification/Summary.v ===== *)
(** * [mem::Summary]: the first keys of the index pages

    Models [include/mem/summary.hh] and [lib/mem/summary.cc]: a vector that
    holds the first sort key of every index page of an sstable, searched for
    the page that may contain a key. *)

From Stdlib Require Import ZArith Lia Strings.Byte String.
From stdpp Require Import base list list_numbers strings sorting.
From S2P Require Import Prelude Buffer OrdMap Data Catalog IndexPage.

Local Open Scope Z_scope.

Record Summary := MkSummary {
  sm_sort_keys : list (option Data);   (* std::vector<std::unique_ptr<Data>> *)
  sm_type : Type_
}.

Definition Summary_new (type : Type_) : Summary := MkSummary [] type.

Definition Summary_from : M buffer Summary :=
  sort_keys_length ← get_uint8;
  read_type ← Type_from;
  let type := Type_new (t_id read_type) (t_length read_type) in
  values ← repeat_m (Z.to_nat sort_keys_length) (Data_from type);
  mret (MkSummary values type).

(** The loop over the pages from index [i]: the page before the first key that
    is greater than [key].  [i - 1] is computed in [size_t] and returned as
    [uint8_t]. *)
Fixpoint find_page_loop (i : Z) (sort_keys : list (option Data)) (key : option Data) :
    outcome (option Z) :=
  match sort_keys with
  | [] => Ok None
  | k :: sort_keys =>
      greater ← DataCmp k key;
      if (greater : bool) then Ok (Some (u8 (u64 (i - 1))))
      else find_page_loop (i + 1) sort_keys key
  end.

Definition find_page_number (key : option Data) (s : Summary) : outcome Z :=
  let n := zlen (sm_sort_keys s) in
  if n =? 0 then Throw (invalid_argument "Summary is empty") else
  if n =? 1 then Ok 0 else
  page ← find_page_loop 0 (sm_sort_keys s) key;
  Ok (match page with Some p => p | None => u8 (u64 (n - 1)) end).

Definition Summary_size (s : Summary) : Z :=
  u64 (1 + Type_size + u64 (zlen (sm_sort_keys s) * t_length (sm_type s))).

Definition Summary_push_back (key : option Data) : M Summary bool :=
  s ← get_state;
  if page_size <? u64 (Summary_size s + t_length (sm_type s)) then mret false else
  copy ← lift (Data_copy key);
  put_state (MkSummary (sm_sort_keys s ++ [Some copy]) (sm_type s));;
  mret true.

Definition Summary_bytes (s : Summary) : M buffer unit :=
  put_uint8 (zlen (sm_sort_keys s));;
  Type_bytes (sm_type s);;
  for_each value_bytes (sm_sort_keys s).

(** ** Well-formed summaries *)

Definition key_wf (c : Id) (t : Type_) (k : option Data) : Prop :=
  ∃ d, k = Some d ∧ data_wf d ∧ m_type d = t ∧ key_class d = Some c.

Definition summary_wf (c : Id) (s : Summary) : Prop :=
  Forall (key_wf c (sm_type s)) (sm_sort_keys s) ∧ type_wf (sm_type s) ∧
  1 + Type_size + zlen (sm_sort_keys s) * t_length (sm_type s) ≤ page_size.

Definition summary_enc (s : Summary) : list byte :=
  le_bytes 1 (zlen (sm_sort_keys s)) ++ type_enc (sm_type s) ++
  concat (value_enc <$> sm_sort_keys s).

Lemma key_wf_key_of c t k : key_wf c t k → key_of c k.
Proof. by intros (d & -> & _ & _ & Hc). Qed.

Lemma Summary_bytes_serializes c s :
  summary_wf c s → serializes (Summary_bytes s) (summary_enc s).
Proof.
  intros (Hall & _). apply serializes_bind; [apply put_le_serializes; lia|].
  apply serializes_bind; [apply Type_bytes_serializes|].
  apply serializes_for_each. intros k Hk. eapply Forall_forall in Hall as (d & -> & Hd & _); [|done].
  by apply Data_bytes_serializes.
Qed.

Lemma summary_enc_length c s :
  summary_wf c s →
  zlen (summary_enc s) = 1 + Type_size + zlen (sm_sort_keys s) * t_length (sm_type s).
Proof.
  intros (Hall & _). unfold summary_enc. rewrite !zlen_app, zlen_le_bytes, type_enc_length.
  assert (zlen (concat (value_enc <$> sm_sort_keys s)) =
          zlen (sm_sort_keys s) * t_length (sm_type s)) as ->; [|lia].
  rewrite zlen_concat. induction Hall as [|k l (d & -> & Hd & Ht & _) _ IH]; [done|].
  csimpl. rewrite IH, data_enc_length, Ht by done. unfold zlen. simpl. lia.
Qed.

Lemma Summary_size_ok c s : summary_wf c s → Summary_size s = zlen (summary_enc s).
Proof.
  intros Hs. rewrite (summary_enc_length c) by done. destruct Hs as (_ & Ht & Hsz).
  pose proof (type_wf_length _ Ht). pose proof (zlen_nonneg (sm_sort_keys s)).
  pose proof (Z.mul_nonneg_nonneg (zlen (sm_sort_keys s)) (t_length (sm_type s))
                ltac:(lia) ltac:(lia)).
  unfold Summary_size, Type_size, page_size in *.
  rewrite (wrap_small 64 (zlen _ * _)) by (unfold in_u; lia).
  apply wrap_small. unfold in_u. lia.
Qed.

Lemma Summary_from_parses c s :
  summary_wf c s →
  let n := Z.to_nat (u8 (zlen (sm_sort_keys s))) in
  parses Summary_from
    (le_bytes 1 (zlen (sm_sort_keys s)) ++ type_enc (sm_type s) ++
     concat (value_enc <$> take n (sm_sort_keys s)))
    (MkSummary (take n (sm_sort_keys s)) (sm_type s)).
Proof.
  intros (Hall & Ht & _) n. pose proof (type_wf_length _ Ht). unfold Summary_from.
  eapply parses_bind; [apply (get_le_parses 1 (λ x, x)); [lia|done]|].
  change (2 ^ (8 * Z.of_nat 1)) with (2 ^ 8). fold (wrap 8 (zlen (sm_sort_keys s))).
  eapply parses_bind; [by apply type_wf_parses|].
  rewrite Type_new_id by (unfold in_u; lia). fold n.
  assert (length (take n (sm_sort_keys s)) = n) as Hlen.
  { rewrite length_take. pose proof (zlen_nonneg (sm_sort_keys s)).
    assert (wrap 8 (zlen (sm_sort_keys s)) ≤ zlen (sm_sort_keys s)) by (apply Z.mod_le; lia).
    unfold n, zlen in *. lia. }
  eapply parses_map; [|done]. rewrite <- Hlen at 1. apply parses_repeat.
  intros k Hk. rewrite <- (take_drop n) in Hall. apply Forall_app in Hall as [Hall _].
  eapply Forall_forall in Hall as (d & -> & Hd & <- & _); [|done]. by apply Data_from_parses.
Qed.

Lemma Summary_push_back_ok c s d :
  summary_wf c s → pushable c (sm_type s) d →
  1 + Type_size + (zlen (sm_sort_keys s) + 1) * t_length (sm_type s) ≤ page_size →
  Summary_push_back (Some d) s =
    (Ok true, MkSummary (sm_sort_keys s ++ [Some d]) (sm_type s)) ∧
  summary_wf c (MkSummary (sm_sort_keys s ++ [Some d]) (sm_type s)).
Proof.
  intros Hs (Hd & Hdt & Hc) Hroom. pose proof Hs as (Hall & Ht & Hsz). split.
  - unfold Summary_push_back, get_state, mbind, M_bind.
    rewrite (Summary_size_ok c), (summary_enc_length c) by done.
    pose proof (type_wf_length _ Ht). pose proof (zlen_nonneg (sm_sort_keys s)).
    pose proof (Z.mul_nonneg_nonneg (zlen (sm_sort_keys s)) (t_length (sm_type s))
                  ltac:(lia) ltac:(lia)).
    unfold page_size, Type_size in *. rewrite wrap_small by (unfold in_u; lia).
    destruct (Z.ltb_spec 4096 (1 + (1 + 4) + zlen (sm_sort_keys s) * t_length (sm_type s) +
                               t_length (sm_type s))); [lia|].
    unfold lift. by rewrite Data_copy_ok.
  - split; [|split; [done|]].
    + apply Forall_app. split; [done|]. constructor; [by exists d|constructor].
    + simpl. rewrite zlen_app. unfold zlen in *. simpl in *. lia.
Qed.

Lemma Summary_new_wf c t : type_wf t → summary_wf c (Summary_new t).
Proof.
  intros Ht. split; [constructor|]. split; [done|]. unfold zlen, page_size. simpl.
  unfold Type_size. lia.
Qed.

(** ** The search *)

Lemma find_page_loop_skip c key i l r :
  key_of c key → Forall (λ k, key_of c k ∧ data_before k key = false) l →
  find_page_loop i (l ++ r) key = find_page_loop (i + zlen l) r key.
Proof.
  intros Hk Hl. revert i. induction Hl as [|k l [Hkk Hlt] Hl IH]; intros i; simpl.
  - f_equal. unfold zlen. simpl. lia.
  - rewrite (cmp_returns (lt := data_before)), Hlt by done. simpl. rewrite IH.
    f_equal. unfold zlen. simpl. lia.
Qed.

(** The result on any summary with at least two keys: the first key greater
    than the one searched decides. *)
Lemma find_page_number_split c key s l k r :
  key_of c key → key_of c k → sm_sort_keys s = l ++ k :: r → (2 ≤ length (l ++ k :: r))%nat →
  zlen l < 2 ^ 63 →
  Forall (λ k, key_of c k ∧ data_before k key = false) l → data_before k key = true →
  find_page_number key s = Ok (u8 (zlen l - 1)).
Proof.
  intros Hkey Hk Hs Hlen Hb Hl Hlt. unfold find_page_number. rewrite Hs.
  assert (2 ≤ zlen (l ++ k :: r)) by (unfold zlen; lia).
  destruct (Z.eqb_spec (zlen (l ++ k :: r)) 0); [lia|].
  destruct (Z.eqb_spec (zlen (l ++ k :: r)) 1); [lia|].
  rewrite (find_page_loop_skip c) by done. simpl.
  rewrite (cmp_returns (lt := data_before)), Hlt by done. simpl. f_equal.
  pose proof (zlen_nonneg l). destruct (decide (zlen l = 0)) as [->|]; [done|].
  by rewrite (wrap_small 64) by (unfold in_u; lia).
Qed.

Lemma find_page_number_last c key s :
  key_of c key → 2 ≤ zlen (sm_sort_keys s) < 2 ^ 63 →
  Forall (λ k, key_of c k ∧ data_before k key = false) (sm_sort_keys s) →
  find_page_number key s = Ok (u8 (zlen (sm_sort_keys s) - 1)).
Proof.
  intros Hkey Hlen Hall. unfold find_page_number.
  destruct (Z.eqb_spec (zlen (sm_sort_keys s)) 0); [lia|].
  destruct (Z.eqb_spec (zlen (sm_sort_keys s)) 1); [lia|].
  pose proof (find_page_loop_skip c key 0 (sm_sort_keys s) [] Hkey Hall) as Hskip.
  rewrite app_nil_r in Hskip. rewrite Hskip. simpl. f_equal.
  by rewrite (wrap_small 64) by (unfold in_u; lia).
Qed.

(** ** Properties *)

(** On a summary whose first keys increase from page to page,
    [find_page_number] returns the page that may hold the key: the page whose
    first key is not greater than it while every later page's is. *)
Theorem find_page_number_ascending (c : Id) (s : Summary) (key : option Data)
    (l r : list (option Data)) (k : option Data) :
  sm_sort_keys s = l ++ k :: r → (length (l ++ k :: r) ≤ 256)%nat →
  key_of c key → Forall (key_of c) (l ++ k :: r) →
  StronglySorted (λ x y, data_before y x = true) (l ++ k :: r) →
  data_before k key = false → Forall (λ k', data_before k' key = true) r →
  find_page_number key s = Ok (zlen l).
Proof.
  intros Hs Hlen Hkey Hdom Hord Hk Hr.
  apply Forall_app in Hdom as [Hdl Hdr]. apply Forall_cons in Hdr as [Hdk Hdr].
  assert (Forall (λ x, key_of c x ∧ data_before x key = false) (l ++ [k])) as Hpre.
  { apply Forall_app. split; [|by repeat constructor]. apply Forall_forall. intros x Hx.
    rewrite Forall_forall in Hdl. split; [by apply Hdl|].
    assert (data_before k x = true) as Hkx.
    { apply StronglySorted_app in Hord as (H1 & _ & _). apply (H1 x k Hx). by left. }
    destruct (data_before x key) eqn:E; [|done].
    pose proof (cmp_trans (lt := data_before) k x key Hdk (Hdl _ Hx) Hkey Hkx E). congruence. }
  assert (u8 (zlen (l ++ [k]) - 1) = zlen l) as Hpage.
  { rewrite zlen_app. rewrite length_app in Hlen. simpl in Hlen.
    rewrite wrap_small; unfold in_u, zlen; simpl; lia. }
  destruct r as [|k' r].
  - destruct l as [|k0 l]; [unfold find_page_number; by rewrite Hs|].
    rewrite (find_page_number_last c); rewrite ?Hs; [by rewrite Hpage|done| |done].
    unfold zlen. simpl in *. rewrite length_app in *. simpl in *. lia.
  - apply Forall_cons in Hr as [Hk' _]. apply Forall_cons in Hdr as [Hdk' _].
    rewrite (find_page_number_split c key s (l ++ [k]) k' r); [by rewrite Hpage|done|done| | | |done|done].
    + by rewrite Hs, <- app_assoc.
    + rewrite !length_app. simpl. lia.
    + rewrite zlen_app. rewrite length_app in Hlen. unfold zlen. simpl in *. lia.
Qed.

Lemma find_page_number_ascending_witness :
  find_page_number (Some (IntData 25))
    (MkSummary [Some (IntData 10); Some (IntData 20); Some (IntData 30)] (MkType INT 4)) = Ok 1.
Proof.
  apply (find_page_number_ascending INT _ _ [Some (IntData 10)] [Some (IntData 30)]
           (Some (IntData 20))); try done.
  - simpl. lia.
  - repeat constructor.
  - repeat constructor.
  - repeat constructor.
Defined.

(** On a summary of two or more pages whose first keys decrease --
    the order in which the sstable writer stores them -- every key below the
    greatest one is sent to page 255, whatever page it is on. *)
Theorem find_page_number_descending (c : Id) (s : Summary) (key k1 k2 : option Data)
    (r : list (option Data)) :
  sm_sort_keys s = k1 :: k2 :: r → key_of c key → key_of c k1 →
  data_before k1 key = true →
  find_page_number key s = Ok 255.
Proof.
  intros Hs Hkey Hk1 Hlt. rewrite (find_page_number_split c key s [] k1 (k2 :: r)); try done.
  simpl. lia.
Qed.

Lemma find_page_number_descending_witness :
  find_page_number (Some (IntData 10))
    (MkSummary [Some (IntData 30); Some (IntData 10)] (MkType INT 4)) = Ok 255.
Proof. by eapply (find_page_number_descending INT). Defined.

(** A summary written by [bytes] into its 4096-byte buffer is
    read back by [from] with the first [n mod 256] of its [n] keys. *)
Theorem summary_reload (c : Id) (s : Summary) :
  summary_wf c s →
  ∃ b out b', Summary_bytes s (MemoryBuffer page_size) = (Ok tt, b) ∧
    MemoryBuffer_bytes b = Ok out ∧
    Summary_from (MemoryBuffer_from out page_size) =
      (Ok (MkSummary (take (Z.to_nat (u8 (zlen (sm_sort_keys s)))) (sm_sort_keys s)) (sm_type s)), b').
Proof.
  intros Hs. pose proof (summary_enc_length c s Hs) as Hlen. pose proof Hs as (_ & _ & Hsz).
  destruct (serializes_fresh _ _ page_size (Summary_bytes_serializes c s Hs))
    as (b & Hb & Hwf & Hbs & _ & Hbuf); [unfold page_size in *; lia|].
  pose proof (Summary_from_parses c s Hs) as Hparse. cbv zeta in Hparse.
  set (n := Z.to_nat (u8 (zlen (sm_sort_keys s)))) in *.
  exists b, (m_buf b). eexists. split; [done|]. split; [by apply MemoryBuffer_bytes_ok|].
  apply (Hparse _ (concat (value_enc <$> drop n (sm_sort_keys s)) ++
                   replicate (Z.to_nat page_size - length (summary_enc s)) x00)).
  - destruct Hwf as (Hl & _). rewrite <- Hbs, <- Hl. apply MemoryBuffer_from_wf.
    rewrite Hl, Hbs. unfold page_size. lia.
  - unfold rest. simpl. rewrite drop_0, Hbuf. set (zeroes := replicate _ _). unfold summary_enc.
    rewrite <- (take_drop n (sm_sort_keys s)) at 2.
    by rewrite fmap_app, concat_app, <- !app_assoc.
Qed.

Lemma summary_reload_witness :
  let s := MkSummary [Some (IntData 9)] (MkType INT 4) in
  ∃ b out b', Summary_bytes s (MemoryBuffer page_size) = (Ok tt, b) ∧
    MemoryBuffer_bytes b = Ok out ∧
    Summary_from (MemoryBuffer_from out page_size) =
      (Ok (MkSummary (take (Z.to_nat (u8 (zlen (sm_sort_keys s)))) (sm_sort_keys s)) (sm_type s)), b').
Proof.
  apply (summary_reload INT). split; [|split; [done|vm_compute; congruence]].
  repeat constructor. eexists. split; [reflexivity|]. vm_compute. repeat split; congruence.
Defined.
