(* ===== verification/FileSystem.v ===== *)
(** * The system calls the storage engine makes

    The operating system is not part of the repository.  [PosixFS] names the
    calls of [lib/io] and [lib/db] as operations on an unspecified system state,
    and [PosixSpec] states what POSIX documents about them on regular files
    when no limit or permission stands in the way: descriptors are fresh and
    limited in number, reads stop at the end of the file, writes extend it, an
    [open] without [O_CREAT] of a missing file returns -1, [mkdir] makes a
    directory only in a directory that exists and where there is no file of that
    name.  A path is the string the program passes: the program names each file
    in one way, so that links and the names "." and ".." play no part.  The engine is defined over the first class, so it
    also runs on systems whose calls fail; its theorems are proved from the
    second.  [MemFS], an in-memory system, satisfies it. *)

From Stdlib Require Import ZArith Lia Strings.Byte Ascii String.
From stdpp Require Import base list list_numbers strings gmap pretty.
From S2P Require Import Prelude Buffer.

Local Open Scope Z_scope.

(** The flag combinations of the sources; none of them truncates. *)
Inductive oflags := O_RDONLY | O_WRONLY | O_WRONLY_CREAT | O_RDWR_CREAT.

Definition o_creat (fl : oflags) : bool :=
  match fl with O_WRONLY_CREAT | O_RDWR_CREAT => true | _ => false end.

Class PosixFS (F : Type) := {
  sys_open : string → oflags → F → Z * F;
  sys_read : Z → Z → F → Z * list byte * F;    (* rc and the bytes stored *)
  sys_write : Z → list byte → F → Z * F;
  sys_lseek : Z → Z → F → F;                   (* SEEK_SET *)
  sys_close : Z → F → F;
  sys_mkdir : string → F → F;
  sys_opendir : string → F → bool
}.

(** ** What the calls do *)

Record fsview := FsView {
  v_files : gmap string (list byte);
  v_dirs : gset string;
  v_fds : gmap Z (string * Z)      (* path and position of each descriptor *)
}.

Definition with_fds (fds : gmap Z (string * Z)) (v : fsview) : fsview :=
  FsView (v_files v) (v_dirs v) fds.
Definition with_file (path : string) (c : list byte) (v : fsview) : fsview :=
  FsView (<[path := c]> (v_files v)) (v_dirs v) (v_fds v).

(** A file name has no directory separator, ... *)
Fixpoint no_slash (name : string) : bool :=
  match name with
  | EmptyString => true
  | String a name => negb (bool_decide (a = "/"%char)) && no_slash name
  end.

(** ... it has no NUL, at which [c_str()] would end, and it is not one of the
    names with a meaning of their own. *)
Fixpoint no_nul (name : string) : bool :=
  match name with
  | EmptyString => true
  | String a name => negb (bool_decide (a = "000"%char)) && no_nul name
  end.

Definition is_file_name (name : string) : bool :=
  no_slash name && no_nul name && negb (existsb (String.eqb name) [""; "."; ".."]).

Lemma file_name_slash name : is_file_name name = true → no_slash name = true.
Proof. unfold is_file_name. by rewrite !andb_true_iff; intros [[? _] _]. Qed.

(** What [mkdir] does in a directory that is there or not. *)
Definition with_dir (path : string) (v : fsview) : fsview :=
  FsView (v_files v) ({[path]} ∪ v_dirs v) (v_fds v).
Definition mkdir_in (parent : bool) (path : string) (v : fsview) : fsview :=
  if parent && bool_decide (v_files v !! path = None) then with_dir path v else v.

Class PosixSpec (F : Type) `{PosixFS F} := {
  view : F → fsview;
  fd_max : nat;
  open_existing path fl c f :
    v_files (view f) !! path = Some c → (size (v_fds (view f)) < fd_max)%nat →
    ∃ fd f', sys_open path fl f = (fd, f') ∧ 0 ≤ fd ∧ v_fds (view f) !! fd = None ∧
             view f' = with_fds (<[fd := (path, 0)]> (v_fds (view f))) (view f);
  open_create dir name fl f :
    o_creat fl = true → dir ∈ v_dirs (view f) → no_slash name = true →
    v_files (view f) !! (dir +:+ "/" +:+ name) = None →
    (size (v_fds (view f)) < fd_max)%nat →
    ∃ fd f', sys_open (dir +:+ "/" +:+ name) fl f = (fd, f') ∧ 0 ≤ fd ∧
             v_fds (view f) !! fd = None ∧
             view f' = with_fds (<[fd := (dir +:+ "/" +:+ name, 0)]> (v_fds (view f)))
                                (with_file (dir +:+ "/" +:+ name) [] (view f));
  open_missing path fl f :
    o_creat fl = false → v_files (view f) !! path = None → sys_open path fl f = (-1, f);
  read_file fd n path pos c f :
    v_fds (view f) !! fd = Some (path, pos) → v_files (view f) !! path = Some c →
    0 ≤ fd → 0 ≤ pos → 0 ≤ n →
    ∃ f', let bs := take (Z.to_nat n) (drop (Z.to_nat pos) c) in
          sys_read fd n f = (zlen bs, bs, f') ∧
          view f' = with_fds (<[fd := (path, pos + zlen bs)]> (v_fds (view f))) (view f);
  read_bad n f : sys_read (-1) n f = (-1, [], f);
  write_file fd bs path pos c f :
    v_fds (view f) !! fd = Some (path, pos) → v_files (view f) !! path = Some c →
    0 ≤ fd → 0 ≤ pos ≤ zlen c →
    ∃ f', sys_write fd bs f = (zlen bs, f') ∧
          view f' = with_fds (<[fd := (path, pos + zlen bs)]> (v_fds (view f)))
                             (with_file path (overwrite (Z.to_nat pos) bs c) (view f));
  lseek_file fd pos path pos0 f :
    v_fds (view f) !! fd = Some (path, pos0) → 0 ≤ fd → 0 ≤ pos →
    view (sys_lseek fd pos f) = with_fds (<[fd := (path, pos)]> (v_fds (view f))) (view f);
  lseek_bad pos f : sys_lseek (-1) pos f = f;
  close_file fd f :
    view (sys_close fd f) = with_fds (delete fd (v_fds (view f))) (view f);
  mkdir_here name f :
    is_file_name name = true → view (sys_mkdir name f) = mkdir_in true name (view f);
  mkdir_below dir name f :
    dir ≠ "" → is_file_name name = true →
    view (sys_mkdir (dir +:+ "/" +:+ name) f) =
      mkdir_in (bool_decide (dir ∈ v_dirs (view f))) (dir +:+ "/" +:+ name) (view f);
  opendir_view path f : sys_opendir path f = bool_decide (path ∈ v_dirs (view f))
}.

(** ** The world of a computation: the system and the error log *)

Record world (F : Type) := World { w_fs : F; w_log : list string }.
Arguments World {F} w_fs w_log.
Arguments w_fs {F} w.
Arguments w_log {F} w.

Section calls.
Context {F : Type} `{PosixFS F}.

Definition lift_sys {A} (call : F → A * F) : M (world F) A :=
  λ w, let '(a, f) := call (w_fs w) in (Ok a, World f (w_log w)).

Definition os_open (path : string) (fl : oflags) : M (world F) Z :=
  lift_sys (sys_open path fl).
Definition os_read (fd n : Z) : M (world F) (Z * list byte) := lift_sys (sys_read fd n).
Definition os_write (fd : Z) (bs : list byte) : M (world F) Z := lift_sys (sys_write fd bs).
Definition os_lseek (fd pos : Z) : M (world F) unit :=
  lift_sys (λ f, (tt, sys_lseek fd pos f)).
Definition os_close (fd : Z) : M (world F) unit := lift_sys (λ f, (tt, sys_close fd f)).
Definition os_mkdir (path : string) : M (world F) unit := lift_sys (λ f, (tt, sys_mkdir path f)).
Definition os_opendir (path : string) : M (world F) bool := λ w, (Ok (sys_opendir path (w_fs w)), w).

(** [util::Logger::make().err(..)] *)
Definition log_err (msg : string) : M (world F) unit :=
  λ w, (Ok tt, World (w_fs w) (w_log w ++ [msg])).
End calls.

(** Memory obtained by [new unsigned char[n]] is not initialised: its contents
    are whatever [junk] the heap holds there. *)
Definition uninit (junk : Z → byte) (n : Z) : list byte := junk <$> seqZ 0 n.

(** The buffer after [read] stored [bs] at its start. *)
Definition filled (junk : Z → byte) (n : Z) (bs : list byte) : list byte :=
  bs ++ drop (length bs) (uninit junk n).

Lemma length_uninit junk n : length (uninit junk n) = Z.to_nat n.
Proof. unfold uninit. by rewrite length_fmap, length_seqZ. Qed.

Lemma filled_full junk n bs : zlen bs = n → filled junk n bs = bs.
Proof.
  intros Hb. unfold filled. rewrite drop_ge; [by rewrite app_nil_r|].
  rewrite length_uninit. unfold zlen in Hb. lia.
Qed.

(** ** What a computation does to the files and the descriptors *)

Section effects.
Context {F : Type} `{PosixSpec F}.
Implicit Types (w : world F) (path : string) (fd : Z).

Definition files w : gmap string (list byte) := v_files (view (w_fs w)).
Definition dirs w : gset string := v_dirs (view (w_fs w)).
Definition fds w : gmap Z (string * Z) := v_fds (view (w_fs w)).

(** [n] descriptors were opened and left open; nothing else changed. *)
Definition leaks (n : nat) w w' : Prop :=
  files w' = files w ∧ dirs w' = dirs w ∧ w_log w' = w_log w ∧
  fds w ⊆ fds w' ∧ size (fds w') = (size (fds w) + n)%nat.

(** Only the files and descriptors that satisfy [P] and [Q] changed. *)
Definition touches (P : string → Prop) (Q : Z → Prop) w w' : Prop :=
  dirs w' = dirs w ∧ w_log w' = w_log w ∧
  (∀ path, ¬ P path → files w' !! path = files w !! path) ∧
  (∀ fd, ¬ Q fd → fds w' !! fd = fds w !! fd).

#[export] Instance touches_preorder P Q : PreOrder (touches P Q).
Proof.
  split; [by repeat split|]. intros w1 w2 w3 (D1 & L1 & F1 & R1) (D2 & L2 & F2 & R2).
  split; [congruence|]. split; [congruence|].
  split; intros x Hx; [rewrite F2, F1|rewrite R2, R1]; done.
Qed.

Lemma touches_weaken (P P' : string → Prop) (Q Q' : Z → Prop) w w' :
  (∀ path, P path → P' path) → (∀ fd, Q fd → Q' fd) → touches P Q w w' → touches P' Q' w w'.
Proof.
  intros HP HQ (D & L & Fi & R). split; [done|]. split; [done|].
  split; intros x Hx; [apply Fi|apply R]; auto.
Qed.

Lemma leaks_refl w : leaks 0 w w.
Proof. split; [done|]. split; [done|]. split; [done|]. split; [done|lia]. Qed.

Lemma leaks_trans n m w1 w2 w3 : leaks n w1 w2 → leaks m w2 w3 → leaks (n + m) w1 w3.
Proof.
  intros (F1 & D1 & L1 & S1 & N1) (F2 & D2 & L2 & S2 & N2).
  split; [congruence|]. split; [congruence|]. split; [congruence|].
  split; [by etrans|lia].
Qed.

(** A descriptor through which [bs] has been written from the start of a file
    that held [old]: nothing is truncated. *)
Definition writing fd path (old bs : list byte) w : Prop :=
  0 ≤ fd ∧ fds w !! fd = Some (path, zlen bs) ∧
  files w !! path = Some (bs ++ drop (length bs) old).

Lemma overwrite_seq {A} (bs bs' old : list A) :
  overwrite (length bs) bs' (bs ++ drop (length bs) old) =
    (bs ++ bs') ++ drop (length (bs ++ bs')) old.
Proof.
  unfold overwrite. rewrite take_app_length, drop_app, length_app.
  rewrite (drop_ge bs) by lia. simpl. rewrite drop_drop, <- app_assoc. do 3 f_equal. lia.
Qed.

Lemma os_write_ok fd path old bs bs' w :
  writing fd path old bs w →
  ∃ w', os_write fd bs' w = (Ok (zlen bs'), w') ∧ writing fd path old (bs ++ bs') w' ∧
        touches (eq path) (eq fd) w w'.
Proof.
  intros (Hfd & Hpos & Hc). unfold os_write, lift_sys.
  destruct (write_file fd bs' path (zlen bs) _ (w_fs w) Hpos Hc Hfd) as (f' & Hw & Hv).
  { unfold zlen. rewrite length_app. lia. }
  rewrite Hw. eexists. split; [done|].
  assert (files (World f' (w_log w)) = <[path := (bs ++ bs') ++ drop (length (bs ++ bs')) old]>
            (files w)) as Hfiles.
  { unfold files. cbn [w_fs]. rewrite Hv. cbn [v_files with_fds with_file]. f_equal.
    unfold zlen. rewrite Nat2Z.id. apply overwrite_seq. }
  assert (fds (World f' (w_log w)) = <[fd := (path, zlen (bs ++ bs'))]> (fds w)) as Hfds.
  { unfold fds. cbn [w_fs]. rewrite Hv, zlen_app. done. }
  split; [split; [done|]; rewrite Hfiles, Hfds, !lookup_insert_eq; done|].
  split; [unfold dirs; cbn [w_fs]; by rewrite Hv|]. split; [done|].
  split; intros x Hx; rewrite ?Hfiles, ?Hfds, lookup_insert_ne by done; done.
Qed.

(** Files other than the one written keep their state. *)
Lemma writing_touched fd path old bs P Q w w' :
  writing fd path old bs w → touches P Q w w' → ¬ P path → ¬ Q fd → writing fd path old bs w'.
Proof.
  intros (Hfd & Hpos & Hc) (_ & _ & HF & HR) HP HQ.
  split; [done|]. by rewrite HF, HR.
Qed.

Lemma os_open_existing path fl c w :
  files w !! path = Some c → (size (fds w) < fd_max)%nat →
  ∃ fd w', os_open path fl w = (Ok fd, w') ∧ 0 ≤ fd ∧ fds w !! fd = None ∧
           files w' = files w ∧ dirs w' = dirs w ∧ w_log w' = w_log w ∧
           fds w' = <[fd := (path, 0)]> (fds w).
Proof.
  intros Hc Hroom. destruct (open_existing path fl c (w_fs w) Hc Hroom)
    as (fd & f' & Ho & Hfd & Hnew & Hv).
  exists fd, (World f' (w_log w)). unfold os_open, lift_sys, files, dirs, fds. rewrite Ho.
  cbn [w_fs]. by rewrite Hv.
Qed.

(** Opening a file to write it, whether it exists or not. *)
Lemma os_open_creat dir name fl w :
  let path := dir +:+ "/" +:+ name in
  o_creat fl = true → dir ∈ dirs w → no_slash name = true → (size (fds w) < fd_max)%nat →
  ∃ fd w', os_open path fl w = (Ok fd, w') ∧ fds w !! fd = None ∧
           writing fd path (default [] (files w !! path)) [] w' ∧
           touches (eq path) (eq fd) w w' ∧ size (fds w') = S (size (fds w)).
Proof.
  intros path Hfl Hdir Hname Hroom. destruct (files w !! path) as [c|] eqn:Hc.
  - destruct (os_open_existing path fl c w Hc Hroom) as (fd & w' & Ho & Hfd & Hnew & Hf & Hd & Hl & Hs).
    exists fd, w'. split; [done|]. split; [done|]. unfold writing, touches.
    rewrite Hf, Hd, Hl, Hs, lookup_insert_eq, map_size_insert_None by done. cbn [default].
    repeat split; try done. intros x Hx. by rewrite lookup_insert_ne.
  - destruct (open_create dir name fl (w_fs w) Hfl Hdir Hname Hc Hroom)
      as (fd & f' & Ho & Hfd & Hnew & Hv).
    exists fd, (World f' (w_log w)). unfold os_open, lift_sys. fold path in Ho, Hv. rewrite Ho.
    split; [done|]. split; [done|]. unfold writing, touches, files, dirs, fds in *. cbn [w_fs].
    rewrite Hv. cbn [v_fds v_files v_dirs with_fds with_file default].
    rewrite !lookup_insert_eq, map_size_insert_None by done. repeat split; try done.
    + intros x Hx. by rewrite lookup_insert_ne.
    + intros x Hx. by rewrite lookup_insert_ne.
Qed.

Lemma os_close_ok fd w :
  ∃ w', os_close fd w = (Ok tt, w') ∧ files w' = files w ∧ dirs w' = dirs w ∧
        w_log w' = w_log w ∧ fds w' = delete fd (fds w).
Proof.
  exists (World (sys_close fd (w_fs w)) (w_log w)). split; [done|].
  unfold files, dirs, fds. cbn [w_fs]. by rewrite close_file.
Qed.

Lemma os_read_ok fd n path pos c w :
  fds w !! fd = Some (path, pos) → files w !! path = Some c → 0 ≤ fd → 0 ≤ pos → 0 ≤ n →
  let bs := take (Z.to_nat n) (drop (Z.to_nat pos) c) in
  ∃ w', os_read fd n w = (Ok (zlen bs, bs), w') ∧ files w' = files w ∧ dirs w' = dirs w ∧
        w_log w' = w_log w ∧ fds w' = <[fd := (path, pos + zlen bs)]> (fds w).
Proof.
  intros Hfd Hc H1 H2 H3 bs.
  destruct (read_file fd n path pos c (w_fs w) Hfd Hc H1 H2 H3) as (f' & Hr & Hv).
  exists (World f' (w_log w)). unfold os_read, lift_sys. rewrite Hr. split; [done|].
  unfold files, dirs, fds. cbn [w_fs]. by rewrite Hv.
Qed.

(** A directory can be made at [path]: its parent is there, and no file is in
    the way. *)
Definition makeable path w : Prop :=
  files w !! path = None ∧
  (is_file_name path = true ∨
   ∃ dir name, path = dir +:+ "/" +:+ name ∧ dir ≠ "" ∧ dir ∈ dirs w ∧ is_file_name name = true).

Lemma os_mkdir_ok path w :
  makeable path w →
  ∃ w', os_mkdir path w = (Ok tt, w') ∧ files w' = files w ∧ fds w' = fds w ∧
        w_log w' = w_log w ∧ dirs w' = {[path]} ∪ dirs w.
Proof.
  intros [Hno Hparent]. exists (World (sys_mkdir path (w_fs w)) (w_log w)). split; [done|].
  assert (view (sys_mkdir path (w_fs w)) = with_dir path (view (w_fs w))) as Hv.
  { destruct Hparent as [Hn|(dir & name & -> & Hdir & Hin & Hn)].
    - rewrite mkdir_here by done. unfold mkdir_in. by rewrite bool_decide_true.
    - rewrite mkdir_below by done. unfold mkdir_in. by rewrite !bool_decide_true. }
  unfold files, dirs, fds. cbn [w_fs]. by rewrite Hv.
Qed.

(** Without its parent nothing is made. *)
Lemma os_mkdir_orphan dir name w :
  dir ≠ "" → is_file_name name = true → dir ∉ dirs w →
  ∃ w', os_mkdir (dir +:+ "/" +:+ name) w = (Ok tt, w') ∧ files w' = files w ∧
        fds w' = fds w ∧ w_log w' = w_log w ∧ dirs w' = dirs w.
Proof.
  intros Hd Hn Hno. exists (World (sys_mkdir (dir +:+ "/" +:+ name) (w_fs w)) (w_log w)).
  split; [done|]. unfold files, dirs, fds. cbn [w_fs]. rewrite mkdir_below by done.
  unfold mkdir_in. by rewrite (bool_decide_false (dir ∈ _)).
Qed.

(** Opening a file and reading [n] of its bytes from a position: what the
    loaders do.  The descriptor stays open. *)
Lemma open_seek_read path c pos n w :
  files w !! path = Some c → 0 ≤ pos → 0 ≤ n → (size (fds w) < fd_max)%nat →
  let bs := take (Z.to_nat n) (drop (Z.to_nat pos) c) in
  ∃ w', (∀ A (k : Z * list byte → M (world F) A),
           (fd ← os_open path O_RDONLY; os_lseek fd pos;; x ← os_read fd n; k x) w =
             k (zlen bs, bs) w') ∧ leaks 1 w w'.
Proof.
  intros Hc Hpos Hn Hroom bs.
  destruct (os_open_existing path O_RDONLY c w Hc Hroom)
    as (fd & w1 & Ho & Hfd & Hnew & Hf & Hd & Hl & Hs).
  set (f2 := sys_lseek fd pos (w_fs w1)).
  assert (view f2 = with_fds (<[fd := (path, pos)]> (fds w1)) (view (w_fs w1))) as Hv2.
  { apply (lseek_file fd pos path 0); [|done|done]. fold (fds w1). by rewrite Hs, lookup_insert_eq. }
  destruct (read_file fd n path pos c f2) as (f3 & Hr & Hv3); [|  |done..|].
  { rewrite Hv2. cbn. by rewrite lookup_insert_eq. }
  { rewrite Hv2. cbn. fold (files w1). by rewrite Hf. }
  exists (World f3 (w_log w1)). split.
  { intros A k. rewrite (M_bind_ok _ _ _ _ _ Ho). unfold os_lseek, os_read, lift_sys, mbind, M_bind.
    cbn [w_fs]. fold f2. by rewrite Hr. }
  unfold leaks, files, dirs, fds in *. cbn [w_fs w_log].
  rewrite Hv3. cbn [v_files v_dirs v_fds with_fds]. rewrite Hv2.
  cbn [v_files v_dirs v_fds with_fds]. rewrite !insert_insert_eq, Hs, insert_insert_eq.
  split; [done|]. split; [done|]. split; [done|]. split; [by apply insert_subseteq|].
  rewrite map_size_insert_None by done. lia.
Qed.

(** The same without [lseek]: from the start of the file. *)
Lemma open_read path c n w :
  files w !! path = Some c → 0 ≤ n → (size (fds w) < fd_max)%nat →
  let bs := take (Z.to_nat n) c in
  ∃ w', (∀ A (k : Z * list byte → M (world F) A),
           (fd ← os_open path O_RDONLY; x ← os_read fd n; k x) w = k (zlen bs, bs) w') ∧
        leaks 1 w w'.
Proof.
  intros Hc Hn Hroom bs.
  destruct (os_open_existing path O_RDONLY c w Hc Hroom)
    as (fd & w1 & Ho & Hfd & Hnew & Hf & Hd & Hl & Hs).
  destruct (read_file fd n path 0 c (w_fs w1)) as (f3 & Hr & Hv3); [|  |done..|].
  { fold (fds w1). by rewrite Hs, lookup_insert_eq. }
  { fold (files w1). by rewrite Hf. }
  exists (World f3 (w_log w1)). split.
  { intros A k. rewrite (M_bind_ok _ _ _ _ _ Ho). unfold os_read, lift_sys, mbind, M_bind.
    by rewrite Hr. }
  unfold leaks, files, dirs, fds in *. cbn [w_fs w_log].
  rewrite Hv3. cbn [v_files v_dirs v_fds with_fds]. rewrite Hs, insert_insert_eq.
  split; [done|]. split; [done|]. split; [done|]. split; [by apply insert_subseteq|].
  rewrite map_size_insert_None by done. lia.
Qed.
End effects.

(** ** An in-memory system *)

Module MemFS.
(** The number of descriptors a process may have open. *)
Definition limit : nat := 1024.

Definition fresh_fd (fds : gmap Z (string * Z)) : Z :=
  map_fold (λ fd _ m, Z.max m (fd + 1)) 3 fds.

(** A file can be created below a directory that exists. *)
Definition below (path : string) (dirs : gset string) : bool :=
  existsb (λ d, String.prefix (d +:+ "/") path) (elements dirs).

Definition mem_open (path : string) (fl : oflags) (v : fsview) : Z * fsview :=
  let fd := fresh_fd (v_fds v) in
  match v_files v !! path with
  | Some _ => if bool_decide (size (v_fds v) < limit)%nat
              then (fd, with_fds (<[fd := (path, 0)]> (v_fds v)) v) else (-1, v)
  | None => if o_creat fl && below path (v_dirs v) && bool_decide (size (v_fds v) < limit)%nat
            then (fd, with_fds (<[fd := (path, 0)]> (v_fds v)) (with_file path [] v))
            else (-1, v)
  end.

Definition mem_read (fd n : Z) (v : fsview) : Z * list byte * fsview :=
  match v_fds v !! fd with
  | Some (path, pos) =>
      if bool_decide (0 ≤ fd) then
        let bs := take (Z.to_nat n) (drop (Z.to_nat pos) (default [] (v_files v !! path))) in
        (zlen bs, bs, with_fds (<[fd := (path, pos + zlen bs)]> (v_fds v)) v)
      else (-1, [], v)
  | None => (-1, [], v)
  end.

Definition mem_write (fd : Z) (bs : list byte) (v : fsview) : Z * fsview :=
  match v_fds v !! fd with
  | Some (path, pos) =>
      (zlen bs,
       with_fds (<[fd := (path, pos + zlen bs)]> (v_fds v))
         (with_file path (overwrite (Z.to_nat pos) bs (default [] (v_files v !! path))) v))
  | None => (-1, v)
  end.

Definition mem_lseek (fd pos : Z) (v : fsview) : fsview :=
  match v_fds v !! fd with
  | Some (path, _) => if bool_decide (0 ≤ fd)
                      then with_fds (<[fd := (path, pos)]> (v_fds v)) v else v
  | None => v
  end.

(** The directory [path] would be made in, if any: what precedes the last
    separator. *)
Fixpoint parent_dir (path : string) : option string :=
  match path with
  | EmptyString => None
  | String a path' =>
      match parent_dir path' with
      | Some d => Some (String a d)
      | None => if bool_decide (a = "/"%char) then Some "" else None
      end
  end.

Definition mem_mkdir (path : string) (v : fsview) : fsview :=
  mkdir_in match parent_dir path with
           | Some d => String.eqb d "" || bool_decide (d ∈ v_dirs v)
           | None => true
           end path v.

#[export] Instance mem_posix : PosixFS fsview := {
  sys_open := mem_open;
  sys_read := mem_read;
  sys_write := mem_write;
  sys_lseek := mem_lseek;
  sys_close fd v := with_fds (delete fd (v_fds v)) v;
  sys_mkdir := mem_mkdir;
  sys_opendir path v := bool_decide (path ∈ v_dirs v)
}.

Lemma fresh_fd_spec fds : 0 ≤ fresh_fd fds ∧ fds !! fresh_fd fds = None.
Proof.
  assert (3 ≤ fresh_fd fds ∧ ∀ fd, is_Some (fds !! fd) → fd < fresh_fd fds) as [H1 H2].
  { unfold fresh_fd.
    apply (map_fold_weak_ind (λ r m, 3 ≤ r ∧ ∀ fd, is_Some (m !! fd) → fd < r)).
    - split; [lia|]. intros fd [x Hx]. by rewrite lookup_empty in Hx.
    - intros fd x m r Hm [Hr IH]. split; [lia|]. intros fd' Hfd'.
      destruct (decide (fd = fd')) as [->|Hne]; [lia|].
      rewrite lookup_insert_ne in Hfd' by done. specialize (IH fd' Hfd'). lia. }
  split; [lia|]. destruct (fds !! fresh_fd fds) eqn:E; [|done].
  specialize (H2 (fresh_fd fds) ltac:(eauto)). lia.
Qed.

Lemma prefix_app s t : String.prefix s (s +:+ t) = true.
Proof.
  induction s as [|a s IH]; [by destruct t|]. rewrite str_app_cons. simpl.
  destruct (Ascii.ascii_dec a a) as [_|]; [apply IH|done].
Qed.

Lemma below_dir dir name dirs : dir ∈ dirs → below (dir +:+ "/" +:+ name) dirs = true.
Proof.
  intros Hd. unfold below. apply existsb_exists. exists dir.
  split; [by apply list_elem_of_In, elem_of_elements|].
  rewrite <- str_app_assoc. apply prefix_app.
Qed.

Lemma parent_name name : no_slash name = true → parent_dir name = None.
Proof.
  induction name as [|a name IH]; [done|]. cbn. rewrite andb_true_iff, negb_true_iff.
  intros [-> Hn]. by rewrite IH.
Qed.

Lemma parent_below dir name : no_slash name = true → parent_dir (dir +:+ "/" +:+ name) = Some dir.
Proof.
  intros Hn. induction dir as [|a dir IH].
  - change (parent_dir (String "/" name) = Some ""). cbn. by rewrite parent_name.
  - rewrite str_app_cons. cbn [parent_dir]. by rewrite IH.
Qed.

(** The in-memory system behaves as documented. *)
#[export] Program Instance mem_spec : PosixSpec fsview := {
  view v := v;
  fd_max := limit
}.
Next Obligation.
  intros path fl c v Hc Hroom. cbn. unfold mem_open. rewrite Hc, bool_decide_true by done.
  destruct (fresh_fd_spec (v_fds v)). eauto 10.
Qed.
Next Obligation.
  intros dir name fl v Hfl Hdir Hn Hc Hroom. cbn. unfold mem_open.
  rewrite Hc, Hfl, below_dir, bool_decide_true by done. simpl.
  destruct (fresh_fd_spec (v_fds v)). eauto 10.
Qed.
Next Obligation.
  intros path fl v Hfl Hc. cbn. unfold mem_open. by rewrite Hc, Hfl.
Qed.
Next Obligation.
  intros fd n path pos c v Hfd Hc Hfd0 Hpos Hn. cbn. unfold mem_read.
  rewrite Hfd, bool_decide_true, Hc by done. simpl. eauto.
Qed.
Next Obligation.
  intros n v. cbn. unfold mem_read. by destruct (v_fds v !! (-1)) as [[]|].
Qed.
Next Obligation.
  intros fd bs path pos c v Hfd Hc Hfd0 Hpos. cbn. unfold mem_write. rewrite Hfd, Hc. eauto.
Qed.
Next Obligation.
  intros fd pos path pos0 v Hfd Hfd0 Hpos. cbn. unfold mem_lseek.
  by rewrite Hfd, bool_decide_true.
Qed.
Next Obligation.
  intros pos v. cbn. unfold mem_lseek. by destruct (v_fds v !! (-1)) as [[]|].
Qed.
Next Obligation. done. Qed.
Next Obligation.
  intros name v Hn. cbn. unfold mem_mkdir. by rewrite parent_name by by apply file_name_slash.
Qed.
Next Obligation.
  intros dir name v Hd Hn. cbn. unfold mem_mkdir. rewrite parent_below by by apply file_name_slash.
  by rewrite (proj2 (String.eqb_neq dir "") Hd).
Qed.
Next Obligation. done. Qed.
End MemFS.
