(* ===== verification/Disk.v ===== *)
(** * [io::DiskManager] and [io::TableBuilder]: sstables on disk

    Models [include/io] and [lib/io].  An sstable is three files of the table's
    directory: [data_N.db], the records one after the other; [index_N.db], pages
    of 4096 bytes; [summary_N.db], the first key of each page.  [TableBuilder]
    writes them from a memtable, [DiskManager] reads them back.

    A [write] or [read] count is stored in an [int] before it is tested. *)

From Stdlib Require Import ZArith Lia Strings.Byte Ascii String.
From stdpp Require Import base list list_numbers strings gmap pretty.
From S2P Require Import Prelude Buffer OrdMap Data Catalog IndexPage Summary FileSystem.

Local Open Scope Z_scope.

(** [database_path + "/" + table_name + kind + std::to_string(id) + ".db"] *)
Definition sstable_path (database_path table_name kind : string) (sstable_id : Z) : string :=
  (database_path +:+ "/" +:+ table_name) +:+ "/" +:+ kind +:+ pretty sstable_id +:+ ".db".

Section disk.
Context {F : Type} `{PosixFS F}.
Context (junk : Z → byte).   (* the contents of fresh memory *)

(** ** [DiskManager] *)

(** The buffer [read] filled, and the two diagnostics on its result. *)
Definition check_rc (rc expected : Z) (failed malformed : string) : M (world F) unit :=
  if s32 rc <? 0 then log_err failed
  else if negb (s32 rc =? s32 expected) then log_err malformed
  else mret tt.

Definition load_summary (database_path table_name : string) (sstable_id : Z) :
    M (world F) Summary :=
  fd ← os_open (sstable_path database_path table_name "summary_" sstable_id) O_RDONLY;
  '(rc, bs) ← os_read fd page_size;
  check_rc rc page_size "Error reading Summary file"
           "Malformed Summary file: File length isn't 4096";;
  '(summary, _) ← run_on (MemoryBuffer_from (filled junk page_size bs) page_size) Summary_from;
  mret summary.

Definition load_index_page (database_path table_name : string) (sstable_id page_num : Z) :
    M (world F) IndexPage :=
  fd ← os_open (sstable_path database_path table_name "index_" sstable_id) O_RDONLY;
  os_lseek fd (page_num * page_size);;
  '(rc, bs) ← os_read fd page_size;
  check_rc rc page_size "Error reading Index file"
           "Malformed Index file: File length isn't a mulitple of 4096";;
  '(index_page, _) ←
    run_on (MemoryBuffer_from (filled junk page_size bs) page_size) IndexPage_from;
  mret index_page.

Definition get_record_from_data (database_path table_name : string) (sstable_id : Z)
    (schema : Schema) (offset : Z) : M (world F) Record_ :=
  fd ← os_open (sstable_path database_path table_name "data_" sstable_id) O_RDONLY;
  os_lseek fd offset;;
  let n := Schema_record_size schema in
  '(rc, bs) ← os_read fd n;
  check_rc rc n "Error reading Data file" "Malformed Data file: File is truncated";;
  '(record, _) ← run_on (MemoryBuffer_from (filled junk n bs) n) (Record_from schema);
  mret record.

(** ** [TableBuilder] *)

(** What the methods of the builder change: the world, [m_summary] and
    [m_index_page]. *)
Record builder := MkBuilder {
  b_world : world F;
  b_summary : Summary;
  b_index_page : IndexPage
}.

Definition in_world {A} : M (world F) A → M builder A :=
  zoom b_world (λ w b, MkBuilder w (b_summary b) (b_index_page b)).
Definition in_summary {A} : M Summary A → M builder A :=
  zoom b_summary (λ s b, MkBuilder (b_world b) s (b_index_page b)).
Definition in_page {A} : M IndexPage A → M builder A :=
  zoom b_index_page (λ p b, MkBuilder (b_world b) (b_summary b) p).

(** Running the builder's methods from its first summary and page: the new
    summary. *)
Definition with_builder (s : Summary) (p : IndexPage) (m : M builder unit) :
    M (world F) Summary :=
  λ w, let '(o, b) := m (MkBuilder w s p) in
       (_ ← o; Ok (b_summary b), b_world b).

(** Serialising an object into a fresh buffer of [n] bytes. *)
Definition to_bytes {S} (n : Z) (m : M buffer unit) : M S (list byte) :=
  '(_, buf) ← run_on (MemoryBuffer n) m;
  lift (MemoryBuffer_bytes buf).

Definition write_index_file (index_fd : Z) : M builder bool :=
  b ← get_state;
  i_buf ← to_bytes page_size (IndexPage_bytes (b_index_page b));
  wc ← in_world (os_write index_fd i_buf);
  if s32 wc <? 0
  then in_world (log_err "Error writing in index file");; mret false
  else mret true.

Definition write_summary_file (summary_fd : Z) : M builder unit :=
  b ← get_state;
  s_buf ← to_bytes page_size (Summary_bytes (b_summary b));
  wc ← in_world (os_write summary_fd s_buf);
  if s32 wc <? 0 then in_world (log_err "Error writing in summary file") else mret tt.

(** A key that does not fit the current page: it opens a new one. *)
Definition next_page (index_fd : Z) (key : option Data) (key_offset : Z) : M builder bool :=
  in_summary (Summary_push_back key);;
  ok ← write_index_file index_fd;
  if (ok : bool) then
    in_page IndexPage_clear;;
    in_page (IndexPage_push_back key key_offset);;
    mret true
  else mret false.

(** The loop over the records; [false] is an early [return]. *)
Fixpoint write_records (data_fd index_fd : Z) (schema : Schema)
    (records : list (option Data * Record_)) (key_offset : Z) : M builder bool :=
  match records with
  | [] => mret true
  | (key, record) :: records =>
      r_buf ← to_bytes (Schema_record_size schema) (Record_bytes record);
      data_wc ← in_world (os_write data_fd r_buf);
      if s32 data_wc <? 0
      then in_world (log_err "Error writing in Data file");; mret false
      else
        pushed ← in_page (IndexPage_push_back key key_offset);
        ok ← (if (pushed : bool) then mret true else next_page index_fd key key_offset);
        if (ok : bool)
        then write_records data_fd index_fd schema records
               (s64 (key_offset + Schema_record_size schema))
        else mret false
  end.

(** Dereferencing the [begin()] of an empty map is undefined. *)
Definition construct_sstable_files (summary_fd index_fd data_fd : Z) (schema : Schema)
    (records : list (option Data * Record_)) : M (world F) Summary :=
  match records with
  | [] => lift (Undef EndIterator)
  | (None, _) :: _ => lift (Undef NullDereference)
  | (Some d, _) :: _ =>
      let key_type := m_type d in
      with_builder (Summary_new key_type) (IndexPage_new key_type)
        (in_summary (Summary_push_back (Some d));;
         ok ← write_records data_fd index_fd schema records 0;
         if (ok : bool) then
           ok ← write_index_file index_fd;
           if (ok : bool) then write_summary_file summary_fd else mret tt
         else mret tt)
  end.

Definition open_or_perror (path : string) : M (world F) Z :=
  fd ← os_open path O_WRONLY_CREAT;
  (if fd <? 0 then log_err "open" else mret tt);;
  mret fd.

(** The constructor: the three descriptors and the new summary.  The
    destructor closes the descriptors. *)
Definition TableBuilder_new (base_path table_name : string) (schema : Schema)
    (sstable_id : Z) (records : list (option Data * Record_)) :
    M (world F) (Z * Z * Z * Summary) :=
  summary_fd ← open_or_perror (sstable_path base_path table_name "summary_" sstable_id);
  index_fd ← open_or_perror (sstable_path base_path table_name "index_" sstable_id);
  data_fd ← open_or_perror (sstable_path base_path table_name "data_" sstable_id);
  summary ← construct_sstable_files summary_fd index_fd data_fd schema records;
  mret (summary_fd, index_fd, data_fd, summary).

Definition TableBuilder_delete (summary_fd index_fd data_fd : Z) : M (world F) unit :=
  os_close summary_fd;; os_close index_fd;; os_close data_fd.
End disk.
