(* ===== verification/Sstable.v ===== *)
(** * The contents of an sstable, written and read back

    Proofs about [Disk.v].  [TableBuilder] is compared with a reference layout:
    the data file is the concatenation of the records, the index file the
    sequence of the pages that [paginate] cuts the keys into, the summary the
    first key of every page.  The loaders are then proved to read these
    contents back.  Both rest on the documented behaviour of the system calls
    ([PosixSpec]). *)

From Stdlib Require Import ZArith Lia Strings.Byte Ascii String.
From stdpp Require Import base list list_numbers strings gmap pretty sorting.
From S2P Require Import Prelude Buffer OrdMap Data Catalog IndexPage Summary FileSystem Disk.

Local Open Scope Z_scope.

(** ** File names *)

Definition kinds : list string := ["summary_"; "index_"; "data_"].

Definition file_name (kind : string) (id : Z) : string := kind +:+ pretty id +:+ ".db".

Lemma no_slash_app s t : no_slash (s +:+ t) = no_slash s && no_slash t.
Proof.
  induction s as [|a s IH]; [done|]. rewrite str_app_cons. simpl. rewrite IH.
  apply andb_assoc.
Qed.

Lemma no_slash_pretty_go x s : no_slash s = true → no_slash (pretty_N_go x s) = true.
Proof.
  revert s. induction (N.lt_wf_0 x) as [x _ IH]; intros s Hs.
  destruct (decide (0 < x)%N) as [Hx|Hx].
  - rewrite pretty_N_go_step by done. apply IH; [by apply N.div_lt|].
    unfold pretty_N_char. simpl. rewrite Hs, andb_true_r. by repeat case_match.
  - assert (x = 0%N) as -> by lia. by rewrite pretty_N_go_0.
Qed.

Lemma no_slash_pretty (z : Z) : no_slash (pretty z) = true.
Proof.
  destruct z as [|x|x]; [done|by apply no_slash_pretty_go|].
  change (no_slash ("-" +:+ pretty_N_go (N.pos x) "") = true).
  rewrite no_slash_app. apply andb_true_iff. split; [done|by apply no_slash_pretty_go].
Qed.

Lemma file_name_no_slash kind id : kind ∈ kinds → no_slash (file_name kind id) = true.
Proof.
  intros Hk. unfold file_name. rewrite !no_slash_app, no_slash_pretty.
  repeat (apply elem_of_cons in Hk as [->|Hk]; [done|]). by apply elem_of_nil in Hk.
Qed.

Lemma str_app_inj_l s t t' : s +:+ t = s +:+ t' → t = t'.
Proof. induction s as [|a s IH]; [done|]. rewrite !str_app_cons. intros [= H]. auto. Qed.

(** The three files of the sstables of a table are all distinct. *)
Lemma sstable_path_inj base table kind kind' id id' :
  kind ∈ kinds → kind' ∈ kinds →
  sstable_path base table kind id = sstable_path base table kind' id' →
  kind = kind' ∧ id = id'.
Proof.
  intros Hk Hk' H. unfold sstable_path in H. do 2 apply str_app_inj_l in H.
  assert (kind = kind') as <-.
  { repeat (apply elem_of_cons in Hk as [->|Hk]); repeat (apply elem_of_cons in Hk' as [->|Hk']);
      try done; try (by apply elem_of_nil in Hk); try (by apply elem_of_nil in Hk'). }
  split; [done|]. apply str_app_inj_l, str_app_inj_r in H. by apply (inj pretty).
Qed.

(** ** The reference layout *)

(** The padding of a buffer of [n] bytes. *)
Definition pad (n : Z) (bs : list byte) : list byte :=
  bs ++ replicate (Z.to_nat n - length bs) x00.

(** The offset of each record in the data file. *)
Fixpoint with_offsets (off size : Z) (records : list (option Data * Record_)) :
    list (option Data * Z) :=
  match records with
  | [] => []
  | (k, _) :: records => (k, off) :: with_offsets (off + size) size records
  end.

(** The number of entries a page has room for. *)
Definition capacity (t : Type_) : nat :=
  Z.to_nat ((page_size - (1 + Type_size)) / (t_length t + 8)).

(** Entries cut into pages of [cap], the first one started by [cur]. *)
Fixpoint paginate {E} (cap : nat) (cur es : list E) : list (list E) :=
  match es with
  | [] => [cur]
  | e :: es =>
      if decide (length cur < cap)%nat then paginate cap (cur ++ [e]) es
      else cur :: paginate cap [e] es
  end.

Definition page_image (t : Type_) (entries : list (option Data * Z)) : list byte :=
  pad page_size (page_enc (MkPage entries t)).

Definition first_key (entries : list (option Data * Z)) : option Data :=
  match entries with (k, _) :: _ => k | [] => None end.

Definition record_data (records : list (option Data * Record_)) : list byte :=
  concat (record_enc <$> records.*2).

Lemma paginate_concat {E} cap (cur es : list E) : concat (paginate cap cur es) = cur ++ es.
Proof.
  revert cur. induction es as [|e es IH]; intros cur; [done|]. cbn [paginate].
  case_decide; [by rewrite IH, <- app_assoc|]. cbn [concat]. by rewrite IH.
Qed.

Lemma paginate_head {E} cap (e : E) cur es :
  ∃ x ps, paginate cap (e :: cur) es = (e :: x) :: ps.
Proof.
  revert cur. induction es as [|e' es IH]; intros cur; cbn [paginate]; [eauto|].
  case_decide; [|eauto]. apply (IH (cur ++ [e'])).
Qed.

Lemma paginate_fits {E} cap (cur es : list E) :
  (length (cur ++ es) ≤ cap)%nat → paginate cap cur es = [cur ++ es].
Proof.
  revert cur. induction es as [|e es IH]; intros cur Hl; cbn [paginate].
  { by rewrite app_nil_r. }
  rewrite length_app in Hl. simpl in Hl. rewrite decide_True by lia.
  rewrite IH by (rewrite !length_app; simpl; lia). by rewrite <- app_assoc.
Qed.

Lemma paginate_bound {E} cap (cur es : list E) :
  (1 ≤ cap)%nat → (length cur ≤ cap)%nat →
  Forall (λ page, length page ≤ cap)%nat (paginate cap cur es).
Proof.
  revert cur. induction es as [|e es IH]; intros cur Hc Hl; cbn [paginate]; [by repeat constructor|].
  case_decide; [apply IH; [done|rewrite length_app; simpl; lia]|].
  constructor; [done|]. apply IH; simpl; lia.
Qed.

Lemma capacity_room p : type_wf (ip_type p) →
  page_room p ↔ (length (ip_sort_keys p) < capacity (ip_type p))%nat.
Proof.
  intros Ht. pose proof (type_wf_length _ Ht). unfold page_room, capacity, zlen.
  set (L := t_length (ip_type p) + 8) in *. set (n := length (ip_sort_keys p)).
  set (B := page_size - (1 + Type_size)). assert (0 ≤ B) by done.
  assert (1 + Type_size + (Z.of_nat n + 1) * L ≤ page_size ↔ Z.of_nat n + 1 ≤ B / L) as ->.
  { split; intros Hle.
    - apply Z.div_le_lower_bound; unfold B; lia.
    - pose proof (Z.mul_div_le B L ltac:(lia)). unfold B in *. nia. }
  pose proof (Z.div_pos B L ltac:(lia) ltac:(lia)). lia.
Qed.

Lemma with_offsets_keys off size records : (with_offsets off size records).*1 = records.*1.
Proof.
  revert off. induction records as [|[k r] records IH]; intros off; [done|]. csimpl. by rewrite IH.
Qed.

Lemma with_offsets_length off size records :
  length (with_offsets off size records) = length records.
Proof.
  revert off. induction records as [|[k r] records IH]; intros off; [done|]. simpl. by rewrite IH.
Qed.

(** ** The loaders *)

Lemma pad_length n bs : zlen bs ≤ n → zlen (pad n bs) = n.
Proof.
  intros Hn. unfold pad, zlen in *. rewrite length_app, length_replicate. lia.
Qed.

Lemma pad_full n bs : zlen bs = n → pad n bs = bs.
Proof.
  intros Hn. unfold pad, zlen in *. replace (Z.to_nat n - length bs)%nat with 0%nat by lia.
  apply app_nil_r.
Qed.

Lemma take_prefix {A} n (bs c : list A) : bs `prefix_of` c → zlen bs = n → take (Z.to_nat n) c = bs.
Proof. intros [k ->] <-. unfold zlen. by rewrite Nat2Z.id, take_app_length. Qed.

Section loaders.
Context {F : Type} `{PosixSpec F}.
Variable junk : Z → byte.
Implicit Types (w : world F).

Lemma check_rc_ok n failed malformed w :
  0 ≤ n < 2 ^ 31 → check_rc n n failed malformed w = (Ok tt, w).
Proof.
  intros Hn. unfold check_rc. rewrite swrap_small by (unfold in_s; lia).
  destruct (Z.ltb_spec n 0); [lia|]. by rewrite Z.eqb_refl.
Qed.

(** The end of every loader: a full buffer is parsed. *)
Lemma parse_full {A} (m : M buffer A) bs k n a failed malformed w :
  parses m bs a → zlen (bs ++ k) = n → n < 2 ^ 31 →
  (check_rc (zlen (bs ++ k)) n failed malformed;;
   '(x, _) ← run_on (MemoryBuffer_from (filled junk n (bs ++ k)) n) m; mret x) w = (Ok a, w).
Proof.
  intros Hm <- Hn. pose proof (zlen_nonneg (bs ++ k)).
  rewrite (M_bind_ok _ _ _ _ _ (check_rc_ok _ _ _ _ (conj H1 Hn))), filled_full by done.
  unfold run_on, mbind, M_bind. by rewrite (parses_from _ _ _ _ Hm Hn).
Qed.

Lemma page_parses c p : page_wf c p → zlen (ip_sort_keys p) < 256 →
  parses IndexPage_from (page_enc p) p.
Proof.
  intros Hp Hn. pose proof (IndexPage_from_parses c p Hp) as Hparse. cbv zeta in Hparse.
  pose proof (zlen_nonneg (ip_sort_keys p)). rewrite wrap_small in Hparse by (unfold in_u; lia).
  rewrite take_ge in Hparse by (unfold zlen; lia). by destruct p.
Qed.

Lemma summary_parses c s : summary_wf c s → zlen (sm_sort_keys s) < 256 →
  parses Summary_from (summary_enc s) s.
Proof.
  intros Hs Hn. pose proof (Summary_from_parses c s Hs) as Hparse. cbv zeta in Hparse.
  pose proof (zlen_nonneg (sm_sort_keys s)). rewrite wrap_small in Hparse by (unfold in_u; lia).
  rewrite take_ge in Hparse by (unfold zlen; lia). by destruct s.
Qed.

Lemma load_index_page_ok base table id page content c t entries w :
  files w !! sstable_path base table "index_" id = Some content → 0 ≤ page →
  page_image t entries `prefix_of` drop (Z.to_nat (page * page_size)) content →
  page_wf c (MkPage entries t) → zlen entries < 256 → (size (fds w) < fd_max)%nat →
  ∃ w', load_index_page junk base table id page w = (Ok (MkPage entries t), w') ∧ leaks 1 w w'.
Proof.
  intros Hc Hpage Hpre Hp Hn Hroom. unfold load_index_page.
  pose proof (page_enc_length c _ Hp) as Hlen. pose proof Hp as (_ & _ & Hsz).
  assert (zlen (page_image t entries) = page_size) as Himg by (apply pad_length; lia).
  destruct (open_seek_read _ _ (page * page_size) page_size w Hc) as (w' & Hrun & Hleak);
    [unfold page_size; lia..|done|].
  exists w'. split; [|done]. etrans; [apply Hrun|]. rewrite (take_prefix _ _ _ Hpre Himg). cbn beta iota.
  apply parse_full; [by apply (page_parses c)|exact Himg|unfold page_size; lia].
Qed.

Lemma load_summary_ok base table id content c s w :
  files w !! sstable_path base table "summary_" id = Some content →
  pad page_size (summary_enc s) `prefix_of` content →
  summary_wf c s → zlen (sm_sort_keys s) < 256 → (size (fds w) < fd_max)%nat →
  ∃ w', load_summary junk base table id w = (Ok s, w') ∧ leaks 1 w w'.
Proof.
  intros Hc Hpre Hs Hn Hroom. unfold load_summary.
  pose proof (summary_enc_length c _ Hs) as Hlen. pose proof Hs as (_ & _ & Hsz).
  assert (zlen (pad page_size (summary_enc s)) = page_size) as Himg by (apply pad_length; lia).
  destruct (open_read _ _ page_size w Hc) as (w' & Hrun & Hleak); [unfold page_size; lia|done|].
  exists w'. split; [|done]. etrans; [apply Hrun|]. rewrite (take_prefix _ _ _ Hpre Himg). cbn beta iota.
  apply parse_full; [by apply (summary_parses c)|exact Himg|unfold page_size; lia].
Qed.

Lemma get_record_from_data_ok base table id schema off content r w :
  files w !! sstable_path base table "data_" id = Some content → 0 ≤ off →
  record_enc r `prefix_of` drop (Z.to_nat off) content →
  schema_wf schema → record_matches schema r → Schema_record_size schema < 2 ^ 31 →
  (size (fds w) < fd_max)%nat →
  ∃ w', get_record_from_data junk base table id schema off w = (Ok r, w') ∧ leaks 1 w w'.
Proof.
  intros Hc Hoff Hpre Hs Hr Hsz Hroom. unfold get_record_from_data.
  pose proof (record_enc_length _ _ Hs Hr) as Hlen. pose proof (zlen_nonneg (record_enc r)).
  destruct (open_seek_read _ _ off (Schema_record_size schema) w Hc) as (w' & Hrun & Hleak);
    [done|lia|done|].
  exists w'. split; [|done]. etrans; [apply Hrun|]. rewrite (take_prefix _ _ _ Hpre Hlen). cbn beta iota.
  rewrite <- (app_nil_r (record_enc r)). apply parse_full; [|by rewrite app_nil_r|done].
  by apply Record_from_parses.
Qed.
End loaders.

(** ** The writer *)

(** Unification never needs the contents of a buffer. *)
#[global] Opaque pad.

(** A record that may be stored under its key in a table. *)
Definition row_wf (c : Id) (t : Type_) (schema : Schema) (row : option Data * Record_) : Prop :=
  key_wf c t row.1 ∧ record_matches schema row.2.

Section writer.
Context {F : Type} `{PosixSpec F}.
Implicit Types (w : world F).

Lemma to_bytes_ok {S} n m bs (s : S) :
  serializes m bs → zlen bs ≤ n < 2 ^ 31 → to_bytes n m s = (Ok (pad n bs), s).
Proof.
  intros Hm Hn. destruct (serializes_fresh _ _ _ Hm Hn) as (b & Hb & Hwf & _ & _ & Hbuf).
  unfold to_bytes, run_on, mbind, M_bind. rewrite Hb. unfold lift.
  by rewrite MemoryBuffer_bytes_ok, Hbuf.
Qed.

(** A write through an open descriptor, as a step of the builder. *)
Lemma builder_write fd path old bs bs' w s p :
  writing fd path old bs w → zlen bs' < 2 ^ 31 →
  ∃ w', in_world (os_write fd bs') (MkBuilder w s p) = (Ok (zlen bs'), MkBuilder w' s p) ∧
        (s32 (zlen bs') <? 0) = false ∧
        writing fd path old (bs ++ bs') w' ∧ touches (eq path) (eq fd) w w'.
Proof.
  intros Hw Hlen. destruct (os_write_ok _ _ _ _ bs' _ Hw) as (w' & Hrun & Hw' & Ht).
  exists w'. split; [unfold in_world, zoom; cbn [b_world]; by rewrite Hrun|].
  split; [|done]. rewrite swrap_small by (unfold in_s; pose proof (zlen_nonneg bs'); lia).
  apply Z.ltb_ge, zlen_nonneg.
Qed.

Lemma write_index_file_ok fd path old bs c w s p :
  writing fd path old bs w → page_wf c p →
  ∃ w', write_index_file fd (MkBuilder w s p) = (Ok true, MkBuilder w' s p) ∧
        writing fd path old (bs ++ page_image (ip_type p) (ip_sort_keys p)) w' ∧
        touches (eq path) (eq fd) w w'.
Proof.
  intros Hw Hp. pose proof (page_enc_length c p Hp) as Hlen. pose proof Hp as (_ & _ & Hsz).
  assert (zlen (page_image (ip_type p) (ip_sort_keys p)) = page_size) as Himg.
  { apply pad_length. destruct p. simpl in *. lia. }
  destruct (builder_write _ _ _ _ (page_image (ip_type p) (ip_sort_keys p)) _ s p Hw)
    as (w' & Hrun & Hrc & Hw' & Ht); [rewrite Himg; unfold page_size; lia|].
  exists w'. split; [|done]. unfold write_index_file, get_state.
  erewrite M_bind_ok by reflexivity. erewrite M_bind_ok.
  2: { apply (to_bytes_ok page_size _ (page_enc p)); [by apply (IndexPage_bytes_serializes c)|].
       unfold page_size in *. lia. }
  replace (pad page_size (page_enc p)) with (page_image (ip_type p) (ip_sort_keys p))
    by (by destruct p).
  erewrite M_bind_ok by exact Hrun. cbn beta. by rewrite Hrc.
Qed.

Lemma write_summary_file_ok fd path old bs c w s p :
  writing fd path old bs w → summary_wf c s →
  ∃ w', write_summary_file fd (MkBuilder w s p) = (Ok tt, MkBuilder w' s p) ∧
        writing fd path old (bs ++ pad page_size (summary_enc s)) w' ∧
        touches (eq path) (eq fd) w w'.
Proof.
  intros Hw Hs. pose proof (summary_enc_length c s Hs) as Hlen. pose proof Hs as (_ & _ & Hsz).
  assert (zlen (pad page_size (summary_enc s)) = page_size) as Himg by (apply pad_length; lia).
  destruct (builder_write _ _ _ _ (pad page_size (summary_enc s)) _ s p Hw)
    as (w' & Hrun & Hrc & Hw' & Ht); [rewrite Himg; unfold page_size; lia|].
  exists w'. split; [|done]. unfold write_summary_file, get_state.
  erewrite M_bind_ok by reflexivity. erewrite M_bind_ok.
  2: { apply (to_bytes_ok page_size _ (summary_enc s)); [by apply (Summary_bytes_serializes c)|].
       unfold page_size in *. lia. }
  erewrite M_bind_ok by exact Hrun. cbn beta. by rewrite Hrc.
Qed.

Lemma in_page_ok {A} (m : M IndexPage A) w s p a p' :
  m p = (Ok a, p') → in_page (F := F) m (MkBuilder w s p) = (Ok a, MkBuilder w s p').
Proof. intros Hm. unfold in_page, zoom. cbn [b_index_page]. by rewrite Hm. Qed.

Lemma in_summary_ok {A} (m : M Summary A) w s p a s' :
  m s = (Ok a, s') → in_summary (F := F) m (MkBuilder w s p) = (Ok a, MkBuilder w s' p).
Proof. intros Hm. unfold in_summary, zoom. cbn [b_summary]. by rewrite Hm. Qed.

(** The page switch: the full page goes to the index file, its successor starts
    with the key that did not fit. *)
Lemma next_page_ok fd path old bs c w s p d off :
  writing fd path old bs w → page_wf c p → summary_wf c s → pushable c (ip_type p) d →
  sm_type s = ip_type p → in_u 63 off → (1 ≤ capacity (ip_type p))%nat →
  1 + Type_size + (zlen (sm_sort_keys s) + 1) * t_length (sm_type s) ≤ page_size →
  ∃ w', let s' := MkSummary (sm_sort_keys s ++ [Some d]) (sm_type s) in
        let p' := MkPage [(Some d, off)] (ip_type p) in
    next_page fd (Some d) off (MkBuilder w s p) = (Ok true, MkBuilder w' s' p') ∧
    summary_wf c s' ∧ page_wf c p' ∧
    writing fd path old (bs ++ page_image (ip_type p) (ip_sort_keys p)) w' ∧
    touches (eq path) (eq fd) w w'.
Proof.
  intros Hw Hp Hs Hpush Hty Hoff Hcap Hroom. pose proof Hp as (_ & Ht & _).
  destruct (Summary_push_back_ok c s d Hs) as [Hsrun Hs']; [by rewrite Hty|done|].
  set (s' := MkSummary _ _) in *.
  destruct (write_index_file_ok fd path old bs c w s' p Hw Hp) as (w' & Hrun & Hw' & Htouch).
  pose proof (IndexPage_new_wf c _ Ht) as Hnew.
  assert (page_room (IndexPage_new (ip_type p))) as Hpr by (apply capacity_room; simpl; [done|lia]).
  destruct (push_back_snoc c (IndexPage_new (ip_type p)) d off Hnew Hpr Hpush) as [Hpb Hp'].
  { destruct Hpush as (? & ? & ?). simpl. split; [|by repeat constructor].
    repeat constructor. exists d. auto 10. }
  exists w'. cbv zeta. refine (conj _ (conj Hs' (conj Hp' (conj Hw' Htouch)))). unfold next_page.
  erewrite M_bind_ok by (by apply in_summary_ok). erewrite M_bind_ok by exact Hrun. cbn beta iota.
  erewrite M_bind_ok by (by apply in_page_ok). erewrite M_bind_ok by (by apply in_page_ok). done.
Qed.

(** *** The loop over the records *)

Section loop.
Variables (c : Id) (t : Type_) (schema : Schema).
Variables (data_fd index_fd : Z) (dpath ipath : string) (dold iold : list byte).
Hypothesis Hschema : schema_wf schema.
Hypothesis Hsize : Schema_record_size schema < 2 ^ 31.
Hypothesis Hfds : data_fd ≠ index_fd.
Hypothesis Hpaths : dpath ≠ ipath.
Hypothesis Hcap : (1 ≤ capacity t)%nat.

Abbreviation rs := (Schema_record_size schema).
Abbreviation pages_of p rows off :=
  (paginate (capacity t) (ip_sort_keys p) (with_offsets off rs rows)).

(** What is in the files, and the builder's summary and page. *)
Definition loop_inv (D I : list byte) (b : builder (F := F)) : Prop :=
  writing data_fd dpath dold D (b_world b) ∧ writing index_fd ipath iold I (b_world b) ∧
  page_wf c (b_index_page b) ∧ summary_wf c (b_summary b) ∧
  ip_type (b_index_page b) = t ∧ sm_type (b_summary b) = t.

Definition loop_touches : world F → world F → Prop :=
  touches (λ x, x = dpath ∨ x = ipath) (λ x, x = data_fd ∨ x = index_fd).

Definition summary_room (s : Summary) (n : Z) : Prop :=
  1 + Type_size + (zlen (sm_sort_keys s) + n) * t_length t ≤ page_size.

(** One iteration: the record is appended to the data file, its key to the
    page, or to a new page when the current one is full. *)
Lemma write_records_step D I b k r rows off :
  loop_inv D I b → row_wf c t schema (k, r) → in_u 63 off →
  entries_wf c t (ip_sort_keys (b_index_page b) ++ [(k, off)]) →
  let cur := ip_sort_keys (b_index_page b) in
  let fits := bool_decide (length cur < capacity t)%nat in
  (fits = false → summary_room (b_summary b) 1) →
  ∃ w', let b' := MkBuilder w'
          (if fits then b_summary b else MkSummary (sm_sort_keys (b_summary b) ++ [k]) t)
          (MkPage (if fits then cur ++ [(k, off)] else [(k, off)]) t) in
    write_records data_fd index_fd schema ((k, r) :: rows) off b =
      write_records data_fd index_fd schema rows (s64 (off + rs)) b' ∧
    loop_inv (D ++ record_enc r) (if fits then I else I ++ page_image t cur) b' ∧
    loop_touches (b_world b) w'.
Proof.
  intros (Hd & Hi & Hp & Hs & Htp & Hts) [(d & Hk & Hwf & Hdt & Hc) Hr] Hoff Hent cur fits Hroom.
  cbn [fst snd] in Hk, Hr. subst k. destruct b as [w s p]. cbn [b_world b_summary b_index_page] in *.
  pose proof (record_enc_length _ _ Hschema Hr) as Hlen. pose proof (zlen_nonneg (record_enc r)).
  destruct (builder_write _ _ _ _ (record_enc r) _ s p Hd) as (w1 & Hrun & Hrc & Hd1 & Ht1); [lia|].
  assert (writing index_fd ipath iold I w1) as Hi1 by (eapply writing_touched; eauto).
  assert (loop_touches w w1) as Htouch1 by (eapply touches_weaken; [| |exact Ht1]; auto).
  cbn [write_records]. assert (∀ B (f : list byte → M builder B),
    (r_buf ← to_bytes rs (Record_bytes r); f r_buf) (MkBuilder w s p) =
    f (record_enc r) (MkBuilder w s p)) as Hbuf.
  { intros B f. erewrite M_bind_ok; [reflexivity|]. rewrite (to_bytes_ok _ _ (record_enc r)).
    - by rewrite pad_full.
    - apply Record_bytes_serializes. by eapply record_matches_wf.
    - lia. }
  rewrite Hbuf. erewrite M_bind_ok by exact Hrun. cbn beta. rewrite Hrc.
  pose proof (capacity_room p (proj1 (proj2 Hp))) as Hpr.
  unfold fits in *. case_bool_decide as Hfit.
  - destruct (push_back_snoc c p d off) as [Hpb Hp']; [done|apply Hpr; by rewrite Htp| |by rewrite Htp|].
    { rewrite Htp. split; [done|]. by split. }
    rewrite Htp in Hpb, Hp'. exists w1. cbv zeta.
    erewrite M_bind_ok by (by apply in_page_ok). cbn beta iota.
    erewrite M_bind_ok by reflexivity. split; [done|]. split; [|done].
    unfold loop_inv. cbn. auto 10.
  - destruct (next_page_ok index_fd ipath iold I c w1 s p d off)
      as (w2 & Hnp & Hs2 & Hp2 & Hi2 & Ht2); try done.
    { rewrite Htp. split; [done|]. by split. }
    { by rewrite Hts, Htp. }
    { by rewrite Htp. }
    { rewrite Hts. by apply Hroom. }
    rewrite Hts, Htp in *. exists w2. cbv zeta.
    erewrite M_bind_ok.
    2: { apply in_page_ok, (push_back_full c); [done|]. by rewrite Hpr. }
    cbn beta iota. erewrite M_bind_ok by exact Hnp. split; [done|].
    split; [|etrans; [exact Htouch1|]; eapply (touches_weaken (eq ipath) _ (eq index_fd)); [auto|auto|]; exact Ht2].
    split; [cbn [b_world]; eapply writing_touched; eauto; congruence|]. cbn. auto 10.
Qed.

Lemma entries_wf_tail k r off rows cur :
  entries_wf c t (cur ++ with_offsets off rs ((k, r) :: rows)) →
  entries_wf c t ((cur ++ [(k, off)]) ++ with_offsets (off + rs) rs rows) ∧
  entries_wf c t (cur ++ [(k, off)]) ∧
  entries_wf c t ([(k, off)] ++ with_offsets (off + rs) rs rows) ∧ in_u 63 off.
Proof.
  cbn [with_offsets]. intros Hent.
  assert (entries_wf c t ((cur ++ [(k, off)]) ++ with_offsets (off + rs) rs rows)) as Hent2
    by (by rewrite <- app_assoc).
  split; [done|]. split; [by apply (entries_wf_app c t _ _ Hent2)|].
  apply entries_wf_app in Hent as [_ Hent]. split; [done|].
  destruct Hent as [Hall _]. by apply Forall_cons in Hall as [(? & ? & ? & ? & ? & ?) _].
Qed.

Lemma write_records_ok rows off D I b :
  loop_inv D I b → Forall (row_wf c t schema) rows → off + zlen rows * rs < 2 ^ 63 →
  entries_wf c t (ip_sort_keys (b_index_page b) ++ with_offsets off rs rows) →
  summary_room (b_summary b) (zlen (pages_of (b_index_page b) rows off) - 1) →
  ∃ w' full last, pages_of (b_index_page b) rows off = full ++ [last] ∧
    let b' := MkBuilder w'
      (MkSummary (sm_sort_keys (b_summary b) ++
                  (first_key <$> tail (pages_of (b_index_page b) rows off))) t)
      (MkPage last t) in
    write_records data_fd index_fd schema rows off b = (Ok true, b') ∧
    loop_inv (D ++ record_data rows) (I ++ concat (page_image t <$> full)) b' ∧
    loop_touches (b_world b) w'.
Proof.
  revert off D I b. induction rows as [|[k r] rows IH]; intros off D I b Hinv Hrows Hoff Hent Hroom.
  { exists (b_world b), [], (ip_sort_keys (b_index_page b)). split; [done|]. cbn.
    destruct b as [w [ks st] [es pt]]. pose proof Hinv as (_ & _ & _ & _ & Htp & Hts).
    cbn in *. subst st pt. rewrite !app_nil_r. split; [done|]. split; [done|reflexivity]. }
  apply Forall_cons in Hrows as [Hrow Hrows].
  destruct (entries_wf_tail k r off rows _ Hent) as (Hent1 & Hent2 & Hent3 & Hu).
  assert (0 ≤ rs) as Hrs.
  { rewrite <- (record_enc_length schema r) by (done || apply Hrow). apply zlen_nonneg. }
  assert (zlen ((k, r) :: rows) = 1 + zlen rows) as Hz by (unfold zlen; simpl; lia).
  assert (s64 (off + rs) = off + rs) as Hs64.
  { apply swrap_small; [lia|]. unfold in_s, in_u in *. pose proof (zlen_nonneg rows). nia. }
  assert (0 ≤ t_length t) as Htl.
  { destruct Hinv as (_ & _ & (_ & Htw & _) & _ & Htp & _). rewrite Htp in Htw.
    apply type_wf_length in Htw. lia. }
  destruct (write_records_step D I b k r rows off Hinv Hrow Hu Hent2) as (w1 & Hrun & Hinv1 & Ht1).
  { intros Hfit. apply bool_decide_eq_false in Hfit. cbn [with_offsets paginate] in Hroom.
    rewrite decide_False in Hroom by done. unfold summary_room in *.
    destruct (paginate_head (capacity t) (k, off) [] (with_offsets (off + rs) rs rows))
      as (x & ps & Hps).
    rewrite Hps in Hroom. unfold zlen in *. cbn [length] in *. nia. }
  rewrite Hs64 in Hrun. cbn [with_offsets paginate] in *.
  destruct (decide (length (ip_sort_keys (b_index_page b)) < capacity t)%nat) as [Hfit|Hfit].
  - rewrite bool_decide_true in * by done.
    destruct (IH (off + rs) _ _ _ Hinv1) as (w' & full & last & Hpages & Hrun' & Hinv' & Ht');
      [done|lia|done|done|]. cbn [b_world b_summary b_index_page ip_sort_keys sm_sort_keys] in *.
    exists w', full, last. split; [done|]. cbv zeta in *. rewrite Hrun, Hrun'. split; [done|].
    split; [|by etrans]. unfold record_data in *. csimpl. by rewrite <- app_assoc in Hinv'.
  - rewrite bool_decide_false in * by done.
    destruct (paginate_head (capacity t) (k, off) [] (with_offsets (off + rs) rs rows))
      as (x & ps & Hps).
    destruct (IH (off + rs) _ _ _ Hinv1) as (w' & full & last & Hpages & Hrun' & Hinv' & Ht');
      [done|lia|done| |]; cbn [b_world b_summary b_index_page ip_sort_keys sm_sort_keys] in *.
    { rewrite Hps in Hroom |- *. unfold summary_room in *. cbn [sm_sort_keys].
      rewrite zlen_app. unfold zlen in *. cbn [length] in *. lia. }
    exists w', (ip_sort_keys (b_index_page b) :: full), last. split; [by rewrite Hpages|].
    cbv zeta in *. rewrite Hrun, Hrun'. cbn [tail]. rewrite Hps in *. cbn [tail].
    split; [csimpl; by rewrite <- app_assoc|].
    split; [|by etrans]. unfold record_data in *. csimpl.
    rewrite <- !app_assoc in Hinv'. done.
Qed.
End loop.

(** *** The three files *)

Definition sstable_pages (t : Type_) (schema : Schema) (rows : list (option Data * Record_)) :
    list (list (option Data * Z)) :=
  paginate (capacity t) [] (with_offsets 0 (Schema_record_size schema) rows).

Definition sstable_summary (t : Type_) (schema : Schema)
    (rows : list (option Data * Record_)) : Summary :=
  MkSummary (first_key <$> sstable_pages t schema rows) t.

Definition index_data (t : Type_) (schema : Schema) (rows : list (option Data * Record_)) :
    list byte := concat (page_image t <$> sstable_pages t schema rows).

(** A memtable that can be stored: keys of one class and type in container
    order, records of the schema, offsets in range, and a summary that fits. *)
Record storable (c : Id) (t : Type_) (schema : Schema) (rows : list (option Data * Record_)) :
    Prop := {
  st_rows : Forall (row_wf c t schema) rows;
  st_ordered : ordered data_before rows;
  st_type : type_wf t;
  st_schema : schema_wf schema;
  st_record : Schema_record_size schema < 2 ^ 31;
  st_data : zlen rows * Schema_record_size schema < 2 ^ 63;
  st_page : (1 ≤ capacity t)%nat;
  st_summary : 1 + Type_size + zlen (sstable_pages t schema rows) * t_length t ≤ page_size
}.

Lemma ordered_keys {V} (l : list (option Data * V)) :
  ordered data_before l ↔ StronglySorted (λ a b, data_before a b = true) l.*1.
Proof.
  unfold ordered. induction l as [|e l IH]; csimpl; [split; constructor|].
  split; intros Hs; inversion Hs; subst; constructor; try (by apply IH);
    by rewrite Forall_fmap in *.
Qed.

Lemma record_size_nonneg schema : schema_wf schema → 0 ≤ Schema_record_size schema.
Proof.
  intros Hs. rewrite Schema_record_size_ok by done. apply zsum_nonneg. intros f Hf.
  destruct Hs as (_ & Hall & _). rewrite Forall_forall in Hall.
  destruct (Hall f Hf) as [_ Ht]. apply type_wf_length in Ht. lia.
Qed.

Lemma with_offsets_wf c t schema rows off size :
  Forall (row_wf c t schema) rows → ordered data_before rows →
  0 ≤ off → 0 ≤ size → off + zlen rows * size < 2 ^ 63 →
  entries_wf c t (with_offsets off size rows).
Proof.
  intros Hrows Hord Hoff Hsize Hb. split.
  - clear Hord. revert off Hoff Hb. induction Hrows as [|[k r] rows Hrow Hrows IH]; intros off Hoff Hb.
    { constructor. }
    assert (zlen ((k, r) :: rows) = 1 + zlen rows) as Hz by (unfold zlen; simpl; lia).
    pose proof (zlen_nonneg rows). rewrite Hz in Hb.
    pose proof (Z.mul_nonneg_nonneg (zlen rows) size ltac:(done) Hsize).
    cbn [with_offsets]. constructor; [|apply IH; lia].
    destruct Hrow as [(d & ? & ? & ? & ?) _]. exists d. unfold in_u. cbn in *.
    assert (off < 2 ^ 63) by lia. auto 10.
  - apply ordered_keys. rewrite with_offsets_keys. by apply ordered_keys.
Qed.

Lemma sstable_pages_cons t schema k r rows :
  (1 ≤ capacity t)%nat →
  ∃ x ps, sstable_pages t schema ((k, r) :: rows) = ((k, 0) :: x) :: ps.
Proof.
  intros Hcap. unfold sstable_pages. cbn [with_offsets paginate].
  rewrite decide_True by (simpl; lia). apply (paginate_head (capacity t) (k, 0) []).
Qed.

Lemma NoDup_three {A} (x y z : A) : NoDup [x; y; z] ↔ x ≠ y ∧ x ≠ z ∧ y ≠ z.
Proof.
  assert (NoDup (@nil A)) by constructor.
  rewrite !NoDup_cons, !elem_of_cons, !elem_of_nil. tauto.
Qed.

Lemma construct_sstable_files_ok c t schema rows summary_fd index_fd data_fd
    spath ipath dpath sold iold dold w :
  storable c t schema rows → rows ≠ [] →
  NoDup [summary_fd; index_fd; data_fd] → NoDup [spath; ipath; dpath] →
  writing summary_fd spath sold [] w → writing index_fd ipath iold [] w →
  writing data_fd dpath dold [] w →
  ∃ w', construct_sstable_files summary_fd index_fd data_fd schema rows w =
          (Ok (sstable_summary t schema rows), w') ∧
    writing summary_fd spath sold (pad page_size (summary_enc (sstable_summary t schema rows))) w' ∧
    writing index_fd ipath iold (index_data t schema rows) w' ∧
    writing data_fd dpath dold (record_data rows) w' ∧
    touches (.∈ [spath; ipath; dpath]) (.∈ [summary_fd; index_fd; data_fd]) w w'.
Proof.
  intros Hst Hne Hfds Hpaths Hs Hi Hd. destruct rows as [|[k r] rows]; [done|]. clear Hne.
  apply NoDup_three in Hfds. apply NoDup_three in Hpaths.
  destruct Hst as [Hrows Hord Ht Hsch Hrec Hdata Hcap Hsum].
  pose proof (sstable_pages_cons t schema k r rows Hcap) as (x & ps & Hps).
  pose proof (record_size_nonneg _ Hsch) as Hrs.
  pose proof Hrows as Hrow. apply Forall_cons in Hrow as [[(d & Hk & Hdwf & Hdt & Hdc) _] _].
  cbn [fst] in Hk. subst k. pose proof (type_wf_length _ Ht) as Htl.
  pose proof (Summary_new_wf c _ Ht) as Hs0. pose proof (IndexPage_new_wf c _ Ht) as Hp0.
  destruct (Summary_push_back_ok c (Summary_new t) d Hs0) as [Hsrun Hs1]; [by (split; [|split])| |].
  { rewrite Hps in Hsum. unfold zlen in *. simpl in *. nia. }
  cbn [Summary_new sm_sort_keys sm_type app] in Hsrun, Hs1.
  destruct (write_records_ok c t schema data_fd index_fd dpath ipath dold iold Hsch Hrec
              ltac:(intuition congruence) ltac:(intuition congruence) Hcap ((Some d, r) :: rows) 0 [] []
              (MkBuilder w (MkSummary [Some d] t) (IndexPage_new t)))
    as (w1 & full & last & Hpages & Hrun & (Hd1 & Hi1 & Hp1 & Hs2 & _) & Ht1).
  { unfold loop_inv. cbn. auto 10. }
  { done. }
  { lia. }
  { apply (with_offsets_wf c t schema); [done|done|lia|done|lia]. }
  { unfold summary_room. cbn [b_index_page b_summary IndexPage_new ip_sort_keys sm_sort_keys].
    fold (sstable_pages t schema ((Some d, r) :: rows)). unfold zlen in *. simpl in *. lia. }
  cbn [b_world b_summary b_index_page IndexPage_new ip_sort_keys sm_sort_keys app] in *.
  fold (sstable_pages t schema ((Some d, r) :: rows)) in Hpages, Hrun, Hs2.
  assert (MkSummary (Some d :: (first_key <$> tail (sstable_pages t schema ((Some d, r) :: rows)))) t
          = sstable_summary t schema ((Some d, r) :: rows)) as Hsumeq.
  { unfold sstable_summary. by rewrite Hps. }
  rewrite Hsumeq in *. set (sm := sstable_summary _ _ _) in *.
  destruct (write_index_file_ok _ _ _ _ c _ sm _ Hi1 Hp1) as (w2 & Hrun2 & Hi2 & Ht2).
  cbn [ip_type ip_sort_keys] in Hi2.
  assert (writing summary_fd spath sold [] w2) as Hs3.
  { eapply writing_touched; [eapply writing_touched; [exact Hs|exact Ht1|..]|exact Ht2|..];
      intuition congruence. }
  assert (writing data_fd dpath dold (record_data ((Some d, r) :: rows)) w2) as Hd2.
  { eapply writing_touched; [exact Hd1|exact Ht2|..]; intuition congruence. }
  destruct (write_summary_file_ok _ _ _ _ c _ sm (MkPage last t) Hs3 Hs2) as (w3 & Hrun3 & Hs4 & Ht3).
  exists w3. split.
  { unfold construct_sstable_files, with_builder. rewrite Hdt.
    erewrite M_bind_ok by (apply in_summary_ok; exact Hsrun).
    erewrite M_bind_ok by exact Hrun. cbn beta iota.
    erewrite M_bind_ok by exact Hrun2. cbn beta iota. by rewrite Hrun3. }
  split; [done|]. split; [|split].
  - unfold index_data. rewrite Hpages, fmap_app, concat_app. cbn. rewrite app_nil_r.
    eapply writing_touched; [exact Hi2|exact Ht3|..]; intuition congruence.
  - eapply writing_touched; [exact Hd2|exact Ht3|..]; intuition congruence.
  - etrans; [eapply touches_weaken; [| |exact Ht1]|etrans; [eapply touches_weaken; [| |exact Ht2]|
      eapply touches_weaken; [| |exact Ht3]]]; intros ?; rewrite !elem_of_cons; intuition.
Qed.

(** *** The constructor and the destructor *)

(** What a new sstable leaves behind: the three images at the start of their
    files, what the files held before after them; no descriptor and no other
    file is touched. *)
Record sstable_written (base table : string) (id : Z) (t : Type_) (schema : Schema)
    (rows : list (option Data * Record_)) w w' : Prop := {
  wr_fds : fds w' = fds w;
  wr_dirs : dirs w' = dirs w;
  wr_log : w_log w' = w_log w;
  wr_files kind bs :
    (kind, bs) ∈ [("summary_", pad page_size (summary_enc (sstable_summary t schema rows)));
                  ("index_", index_data t schema rows); ("data_", record_data rows)] →
    let path := sstable_path base table kind id in
    files w' !! path = Some (bs ++ drop (length bs) (default [] (files w !! path)));
  wr_others path :
    path ∉ (λ kind, sstable_path base table kind id) <$> kinds → files w' !! path = files w !! path
}.

Lemma open_or_perror_ok base table kind id w :
  let path := sstable_path base table kind id in
  kind ∈ kinds → (base +:+ "/" +:+ table) ∈ dirs w → (size (fds w) < fd_max)%nat →
  ∃ fd w', open_or_perror path w = (Ok fd, w') ∧ fds w !! fd = None ∧
           writing fd path (default [] (files w !! path)) [] w' ∧
           touches (eq path) (eq fd) w w' ∧ size (fds w') = S (size (fds w)).
Proof.
  intros path Hk Hdir Hroom.
  destruct (os_open_creat (base +:+ "/" +:+ table) (file_name kind id) O_WRONLY_CREAT w)
    as (fd & w' & Ho & Hnew & Hw & Ht & Hn); [done|done|by apply file_name_no_slash|done|].
  exists fd, w'. split; [|done]. unfold open_or_perror. rewrite (M_bind_ok _ _ _ _ _ Ho).
  destruct Hw as (Hfd & _). by destruct (Z.ltb_spec fd 0); [lia|].
Qed.

Lemma fresh_ne w fd fd' path old bs :
  writing fd path old bs w → fds w !! fd' = None → fd ≠ fd'.
Proof. intros (_ & Hpos & _) Hnew ->. congruence. Qed.

Lemma TableBuilder_new_ok c t base table id schema rows w :
  storable c t schema rows → rows ≠ [] → (base +:+ "/" +:+ table) ∈ dirs w →
  (size (fds w) + 3 ≤ fd_max)%nat →
  let path kind := sstable_path base table kind id in
  let old kind := default [] (files w !! path kind) in
  ∃ sfd ifd dfd w',
    TableBuilder_new base table schema id rows w =
      (Ok (sfd, ifd, dfd, sstable_summary t schema rows), w') ∧
    (fds w !! sfd = None ∧ fds w !! ifd = None ∧ fds w !! dfd = None) ∧
    writing sfd (path "summary_") (old "summary_")
      (pad page_size (summary_enc (sstable_summary t schema rows))) w' ∧
    writing ifd (path "index_") (old "index_") (index_data t schema rows) w' ∧
    writing dfd (path "data_") (old "data_") (record_data rows) w' ∧
    touches (.∈ [path "summary_"; path "index_"; path "data_"]) (.∈ [sfd; ifd; dfd]) w w'.
Proof.
  intros Hst Hne Hdir Hroom path old.
  assert (NoDup [path "summary_"; path "index_"; path "data_"]) as Hnd.
  { apply NoDup_three. split_and!; intros Heq;
      apply sstable_path_inj in Heq as [Heq _]; try done; unfold kinds; set_solver. }
  destruct (open_or_perror_ok base table "summary_" id w) as (sfd & w1 & Ho1 & Hn1 & Hw1 & Ht1 & Hs1);
    [unfold kinds; set_solver|done|lia|].
  destruct (open_or_perror_ok base table "index_" id w1) as (ifd & w2 & Ho2 & Hn2 & Hw2 & Ht2 & Hs2);
    [unfold kinds; set_solver|by rewrite (proj1 Ht1)|lia|].
  destruct (open_or_perror_ok base table "data_" id w2) as (dfd & w3 & Ho3 & Hn3 & Hw3 & Ht3 & Hs3);
    [unfold kinds; set_solver|by rewrite (proj1 Ht2), (proj1 Ht1)|lia|].
  pose proof (fresh_ne _ _ _ _ _ _ Hw1 Hn2). pose proof (fresh_ne _ _ _ _ _ _ Hw2 Hn3).
  pose proof Hnd as (Hp1 & Hp2 & Hp3)%NoDup_three. fold (path "summary_") (path "index_") (path "data_") in *.
  assert (writing sfd (path "summary_") (old "summary_") [] w2) as Hw12
    by (eapply writing_touched; [exact Hw1|exact Ht2|congruence..]).
  pose proof (fresh_ne _ _ _ _ _ _ Hw12 Hn3).
  pose proof Ht1 as (_ & _ & Hf1 & Hr1). pose proof Ht2 as (_ & _ & Hf2 & Hr2).
  rewrite Hf1 in Hw2 by congruence. rewrite Hf2, Hf1 in Hw3 by congruence.
  destruct (construct_sstable_files_ok c t schema rows sfd ifd dfd (path "summary_") (path "index_")
    (path "data_") (old "summary_") (old "index_") (old "data_") w3)
    as (w4 & Hrun & Hws & Hwi & Hwd & Ht4); [done|done| |done| | |exact Hw3|].
  { by apply NoDup_three. }
  { eapply writing_touched; [exact Hw12|exact Ht3|congruence..]. }
  { eapply writing_touched; [exact Hw2|exact Ht3|congruence..]. }
  exists sfd, ifd, dfd, w4. split.
  { unfold TableBuilder_new. rewrite (M_bind_ok _ _ _ _ _ Ho1), (M_bind_ok _ _ _ _ _ Ho2),
      (M_bind_ok _ _ _ _ _ Ho3), (M_bind_ok _ _ _ _ _ Hrun). done. }
  split.
  { rewrite Hr1 in Hn2 by congruence. rewrite Hr2, Hr1 in Hn3 by congruence. done. }
  split; [done|]. split; [done|]. split; [done|]. etrans; [|exact Ht4].
  etrans; [|eapply touches_weaken; [| |exact Ht3]; intros ? <-; rewrite !elem_of_cons; auto].
  etrans; eapply touches_weaken; [| |exact Ht1| | |exact Ht2]; intros ? <-;
    rewrite !elem_of_cons; auto.
Qed.

Lemma TableBuilder_delete_ok sfd ifd dfd w :
  ∃ w', TableBuilder_delete sfd ifd dfd w = (Ok tt, w') ∧ files w' = files w ∧
        dirs w' = dirs w ∧ w_log w' = w_log w ∧
        fds w' = delete dfd (delete ifd (delete sfd (fds w))).
Proof.
  destruct (os_close_ok sfd w) as (w1 & Hc1 & Hf1 & Hd1 & Hl1 & Hr1).
  destruct (os_close_ok ifd w1) as (w2 & Hc2 & Hf2 & Hd2 & Hl2 & Hr2).
  destruct (os_close_ok dfd w2) as (w3 & Hc3 & Hf3 & Hd3 & Hl3 & Hr3).
  exists w3. unfold TableBuilder_delete. rewrite (M_bind_ok _ _ _ _ _ Hc1), (M_bind_ok _ _ _ _ _ Hc2).
  split; [done|]. split; [congruence|]. split; [congruence|]. split; [congruence|].
  by rewrite Hr3, Hr2, Hr1.
Qed.

(** The life of a builder: construction, then destruction. *)
Lemma TableBuilder_ok c t base table id schema rows w :
  storable c t schema rows → rows ≠ [] → (base +:+ "/" +:+ table) ∈ dirs w →
  (size (fds w) + 3 ≤ fd_max)%nat →
  ∃ sfd ifd dfd w1 w2,
    TableBuilder_new base table schema id rows w =
      (Ok (sfd, ifd, dfd, sstable_summary t schema rows), w1) ∧
    TableBuilder_delete sfd ifd dfd w1 = (Ok tt, w2) ∧
    sstable_written base table id t schema rows w w2.
Proof.
  intros Hst Hne Hdir Hroom.
  destruct (TableBuilder_new_ok c t base table id schema rows w Hst Hne Hdir Hroom)
    as (sfd & ifd & dfd & w1 & Hrun & (Hs & Hi & Hd) & Hws & Hwi & Hwd & (HD & HL & HF & HR)).
  destruct (TableBuilder_delete_ok sfd ifd dfd w1) as (w2 & Hdel & Hf2 & Hd2 & Hl2 & Hr2).
  exists sfd, ifd, dfd, w1, w2. split; [done|]. split; [done|]. split.
  - rewrite Hr2. apply map_eq. intros fd.
    destruct (decide (fd ∈ [sfd; ifd; dfd])) as [Hin|Hin].
    + rewrite !elem_of_cons, elem_of_nil in Hin.
      assert (fds w !! fd = None) as -> by (by destruct Hin as [->|[->|[->|[]]]]).
      rewrite !lookup_delete_None. destruct Hin as [->|[->|[->|[]]]]; auto.
    + pose proof Hin as Hne'. rewrite !elem_of_cons in Hne'.
      rewrite !lookup_delete_ne by (intros ->; tauto). by apply HR.
  - congruence.
  - congruence.
  - intros kind bs Hin path. rewrite Hf2.
    repeat (apply elem_of_cons in Hin as [[= -> ->]|Hin]); [apply Hws|apply Hwi|apply Hwd|].
    by apply elem_of_nil in Hin.
  - intros path Hp. rewrite Hf2. apply HF. exact Hp.
Qed.

Definition build_sstable (base table : string) (id : Z) (schema : Schema)
    (rows : list (option Data * Record_)) : M (world F) Summary :=
  '(sfd, ifd, dfd, summary) ← TableBuilder_new base table schema id rows;
  TableBuilder_delete sfd ifd dfd;;
  mret summary.

Lemma build_sstable_ok c t base table id schema rows w :
  storable c t schema rows → rows ≠ [] → (base +:+ "/" +:+ table) ∈ dirs w →
  (size (fds w) + 3 ≤ fd_max)%nat →
  ∃ w', build_sstable base table id schema rows w = (Ok (sstable_summary t schema rows), w') ∧
        sstable_written base table id t schema rows w w'.
Proof.
  intros Hst Hne Hdir Hroom.
  destruct (TableBuilder_ok c t base table id schema rows w Hst Hne Hdir Hroom)
    as (sfd & ifd & dfd & w1 & w2 & Hnew & Hdel & Hwr).
  exists w2. split; [|done]. unfold build_sstable. rewrite (M_bind_ok _ _ _ _ _ Hnew).
  by rewrite (M_bind_ok _ _ _ _ _ Hdel).
Qed.
End writer.

(** ** Reading an sstable *)

(** The [i]-th of a sequence of equally long blocks. *)
Lemma concat_block {A} (blocks : list (list A)) (n : nat) content i b :
  Forall (λ x, length x = n) blocks → concat blocks `prefix_of` content → blocks !! i = Some b →
  b `prefix_of` drop (i * n) content.
Proof.
  intros Hn [rest ->] Hi. rewrite <- (take_drop_middle _ _ _ Hi), concat_app. cbn [concat].
  apply Forall_take with (n := i) in Hn.
  assert (length (concat (take i blocks)) = (i * n)%nat) as Hlen.
  { apply lookup_lt_Some in Hi. rewrite <- (length_take_le blocks i) at 2 by lia.
    clear Hi. induction Hn as [|x l Hx Hl IH]; [done|]. cbn. rewrite length_app, IH. lia. }
  rewrite <- Hlen, <- !app_assoc, drop_app_length. by eexists.
Qed.

Lemma with_offsets_lookup off size rows i k r :
  rows !! i = Some (k, r) → with_offsets off size rows !! i = Some (k, off + Z.of_nat i * size).
Proof.
  revert off i. induction rows as [|[k' r'] rows IH]; intros off [|i] Hi; simplify_eq/=; [f_equal; f_equal; lia|].
  rewrite (IH _ _ Hi). do 2 f_equal. lia.
Qed.

(** Searching the entries of a memtable's index is searching the memtable. *)
Lemma lookup_key_offsets (k : option Data) off size rows :
  match lookup_key data_before k rows with
  | Some (k', r) => ∃ i, rows !! i = Some (k', r) ∧
      lookup_key data_before k (with_offsets off size rows) = Some (k', off + Z.of_nat i * size)
  | None => lookup_key data_before k (with_offsets off size rows) = None
  end.
Proof.
  revert off. induction rows as [|[k' r'] rows IH]; intros off; [done|]. cbn.
  destruct (keq data_before k k').
  - exists 0%nat. split; [done|]. do 2 f_equal. lia.
  - specialize (IH (off + size)). destruct (lookup_key data_before k rows) as [[k2 r2]|]; [|done].
    destruct IH as (i & Hi & ->). exists (S i). split; [done|]. do 2 f_equal. lia.
Qed.

Section reader.
Context {F : Type} `{PosixSpec F}.
Variable junk : Z → byte.
Implicit Types (w : world F).

Definition holds w (path : string) (bs : list byte) : Prop :=
  ∃ content, files w !! path = Some content ∧ bs `prefix_of` content.

Record sstable_on_disk (base table : string) (id : Z) (t : Type_) (schema : Schema)
    (rows : list (option Data * Record_)) w : Prop := {
  od_summary : holds w (sstable_path base table "summary_" id)
                     (pad page_size (summary_enc (sstable_summary t schema rows)));
  od_index : holds w (sstable_path base table "index_" id) (index_data t schema rows);
  od_data : holds w (sstable_path base table "data_" id) (record_data rows)
}.

Lemma written_on_disk base table id t schema rows w w' :
  sstable_written base table id t schema rows w w' →
  sstable_on_disk base table id t schema rows w'.
Proof.
  intros [_ _ _ Hf _].
  split; (eexists; split; [apply Hf; rewrite !elem_of_cons; auto|by eexists]).
Qed.

(** Files that keep their contents keep the sstable. *)
Lemma on_disk_files base table id t schema rows w w' :
  (∀ kind, kind ∈ kinds →
     files w' !! sstable_path base table kind id = files w !! sstable_path base table kind id) →
  sstable_on_disk base table id t schema rows w → sstable_on_disk base table id t schema rows w'.
Proof.
  intros Hf [Hs Hi Hd]. unfold holds in *.
  rewrite <- Hf in Hs, Hi, Hd by (unfold kinds; rewrite !elem_of_cons; auto).
  by split.
Qed.

(** Writing one sstable leaves the others alone. *)
Lemma on_disk_other base table id id' t t' schema schema' rows rows' w w' :
  id ≠ id' → sstable_written base table id' t' schema' rows' w w' →
  sstable_on_disk base table id t schema rows w → sstable_on_disk base table id t schema rows w'.
Proof.
  intros Hid [_ _ _ _ Ho]. apply on_disk_files. intros kind Hk. apply Ho.
  intros (kind' & Heq & Hk')%list_elem_of_fmap. by apply sstable_path_inj in Heq as [_ ?].
Qed.

Lemma storable_entries c t schema rows :
  storable c t schema rows → entries_wf c t (with_offsets 0 (Schema_record_size schema) rows).
Proof.
  intros []. apply (with_offsets_wf c t schema); try done. by apply record_size_nonneg.
Qed.

(** Every page of the layout is well formed. *)
Lemma storable_page c t schema rows page :
  storable c t schema rows → page ∈ sstable_pages t schema rows →
  page_wf c (MkPage page t) ∧ (length page ≤ capacity t)%nat.
Proof.
  intros Hst Hin. pose proof (storable_entries _ _ _ _ Hst) as Hent. destruct Hst.
  assert (length page ≤ capacity t)%nat as Hlen.
  { pose proof (paginate_bound (capacity t) [] (with_offsets 0 (Schema_record_size schema) rows)
      st_page0 ltac:(simpl; lia)) as Hb. rewrite Forall_forall in Hb. by apply Hb. }
  split; [|done]. unfold sstable_pages in Hin.
  rewrite <- (app_nil_l (with_offsets _ _ _)), <- (paginate_concat (capacity t)) in Hent.
  apply list_elem_of_split in Hin as (l1 & l2 & Hl). rewrite Hl, concat_app in Hent.
  apply entries_wf_app in Hent as [_ Hent]. cbn [concat] in Hent.
  apply entries_wf_app in Hent as [Hent _]. split; [done|]. split; [done|].
  pose proof (type_wf_length _ st_type0). cbn [ip_sort_keys ip_type].
  unfold capacity in *. set (L := t_length t + 8) in *. set (B := page_size - (1 + Type_size)) in *.
  pose proof (Z.mul_div_le B L ltac:(lia)). pose proof (Z.div_pos B L ltac:(done) ltac:(lia)).
  assert (zlen page * L ≤ B) by (unfold zlen; nia). unfold B in *. lia.
Qed.

Lemma page_image_length c t page : page_wf c (MkPage page t) → zlen (page_image t page) = page_size.
Proof.
  intros Hp. apply pad_length. rewrite (page_enc_length c) by done. apply Hp.
Qed.

Lemma load_page c t base table id schema rows i page w :
  storable c t schema rows → sstable_on_disk base table id t schema rows w →
  sstable_pages t schema rows !! i = Some page → (length page < 256)%nat →
  (size (fds w) < fd_max)%nat →
  ∃ w', load_index_page junk base table id (Z.of_nat i) w = (Ok (MkPage page t), w') ∧ leaks 1 w w'.
Proof.
  intros Hst Hod Hi Hlen Hroom. destruct (od_index _ _ _ _ _ _ _ Hod) as (content & Hc & Hpre).
  pose proof (list_elem_of_lookup_2 _ _ _ Hi) as Hin.
  apply (load_index_page_ok junk base table id (Z.of_nat i) content c); [done|lia| | |unfold zlen; lia|done].
  2: by apply (storable_page c t schema rows).
  replace (Z.to_nat (Z.of_nat i * page_size)) with (i * Z.to_nat page_size)%nat
    by (unfold page_size; lia).
  apply (concat_block (page_image t <$> sstable_pages t schema rows)); [|done|].
  - apply Forall_fmap, Forall_forall. intros x Hx.
    change (length (page_image t x) = Z.to_nat page_size).
    destruct (storable_page c t schema rows x Hst Hx) as [Hx' _].
    pose proof (page_image_length _ _ _ Hx') as Hl. unfold zlen in Hl. lia.
  - by rewrite list_lookup_fmap, Hi.
Qed.

Lemma load_row c t base table id schema rows i k r w :
  storable c t schema rows → sstable_on_disk base table id t schema rows w →
  rows !! i = Some (k, r) → (size (fds w) < fd_max)%nat →
  ∃ w', get_record_from_data junk base table id schema (Z.of_nat i * Schema_record_size schema) w =
          (Ok r, w') ∧ leaks 1 w w'.
Proof.
  intros Hst Hod Hi Hroom. destruct (od_data _ _ _ _ _ _ _ Hod) as (content & Hc & Hpre).
  destruct Hst. pose proof (record_size_nonneg _ st_schema0) as Hrs.
  pose proof st_rows0 as Hall. rewrite Forall_forall in Hall.
  pose proof (list_elem_of_lookup_2 _ _ _ Hi) as Hin. destruct (Hall _ Hin) as [_ Hr].
  apply (get_record_from_data_ok junk base table id schema _ content); try done;
    [apply Z.mul_nonneg_nonneg; lia|].
  rewrite Z2Nat.inj_mul, Nat2Z.id by lia.
  apply (concat_block (record_enc <$> rows.*2)); [|done|].
  - apply Forall_fmap, Forall_fmap, Forall_forall. intros x Hx.
    change (length (record_enc x.2) = Z.to_nat (Schema_record_size schema)).
    destruct (Hall _ Hx) as [_ Hx']. pose proof (record_enc_length _ _ st_schema0 Hx') as Hl.
    unfold zlen in Hl. lia.
  - by rewrite !list_lookup_fmap, Hi.
Qed.

Lemma paginate_nonempty {E} cap (cur es : list E) :
  (1 ≤ cap)%nat → cur ≠ [] ∨ es ≠ [] → Forall (λ page, page ≠ []) (paginate cap cur es).
Proof.
  intros Hcap. revert cur. induction es as [|e es IH]; intros cur Hne; cbn [paginate].
  { repeat constructor. by destruct Hne. }
  case_decide as Hl; [apply IH; left; by destruct cur|].
  constructor; [by destruct cur; [simpl in Hl; lia|]|]. apply IH. by left.
Qed.

Lemma sstable_summary_wf c t schema rows :
  storable c t schema rows → rows ≠ [] → summary_wf c (sstable_summary t schema rows).
Proof.
  intros Hst Hne. pose proof Hst as []. split; [|split; [done|]]; cbn [sm_sort_keys sm_type sstable_summary].
  - apply Forall_fmap, Forall_forall. intros page Hpage.
    destruct (storable_page c t schema rows page Hst Hpage) as [[[Hall _] _] _].
    pose proof (paginate_nonempty (capacity t) [] (with_offsets 0 (Schema_record_size schema) rows)
      st_page0) as Hnil. rewrite Forall_forall in Hnil.
    destruct page as [|[k off] page]; [exfalso; apply (Hnil ltac:(right; by destruct rows as [|[]]) []); done|].
    apply Forall_cons in Hall as [(d & ? & ? & ? & ? & _) _]. by exists d.
  - unfold zlen in *. by rewrite length_fmap.
Qed.

(** A stored record is on the page its offset is on, and the data file holds it
    at that offset. *)
Lemma row_on_page c t schema rows i k r :
  storable c t schema rows → rows !! i = Some (k, r) →
  ∃ n page, sstable_pages t schema rows !! n = Some page ∧
    find_offset k (MkPage page t) = Ok (Z.of_nat i * Schema_record_size schema).
Proof.
  intros Hst Hi.
  pose proof (with_offsets_lookup 0 (Schema_record_size schema) rows i k r Hi) as Hoff.
  apply list_elem_of_lookup_2 in Hoff.
  rewrite <- (app_nil_l (with_offsets _ _ _)), <- (paginate_concat (capacity t)) in Hoff.
  apply list_elem_of_In, in_concat in Hoff as (page & Hpage & Hin).
  apply list_elem_of_In in Hpage, Hin. destruct (list_elem_of_lookup_1 _ _ Hpage) as [n Hn].
  destruct (storable_page c t schema rows page Hst Hpage) as [Hp _].
  assert (key_of c k) as Hk.
  { destruct Hst. rewrite Forall_forall in st_rows0.
    eapply key_wf_key_of, (st_rows0 _ (list_elem_of_lookup_2 _ _ _ Hi)). }
  exists n, page. split; [done|]. rewrite (find_offset_ok c) by done. cbn [ip_sort_keys].
  assert (lookup_key data_before k page = Some (k, 0 + Z.of_nat i * Schema_record_size schema)) as ->.
  { apply (lookup_key_Some DataCmp (key_of c) data_before); [done| |].
    - eapply entries_map_wf, Hp.
    - split; [done|]. by apply (keq_refl DataCmp (key_of c) data_before). }
  done.
Qed.

(** ** Properties *)

(** C9 (refinement): on a system that behaves as documented, constructing and
    destroying a [TableBuilder] for any storable memtable stores exactly the
    reference layout -- records back to back, keys with their offsets in pages
    of as many entries as fit, the first key of every page in the summary, which
    it returns -- over whatever the three files held, and leaves every other
    file, every descriptor and the error log as they were. *)
Theorem table_builder_layout (c : Id) (t : Type_) (base table : string) (id : Z) (schema : Schema)
    (rows : list (option Data * Record_)) (w : world F) :
  storable c t schema rows → rows ≠ [] → (base +:+ "/" +:+ table) ∈ dirs w →
  (size (fds w) + 3 ≤ fd_max)%nat →
  ∃ w', build_sstable base table id schema rows w = (Ok (sstable_summary t schema rows), w') ∧
        sstable_written base table id t schema rows w w'.
Proof. apply build_sstable_ok. Qed.

(** C10 (round trip): from the files of an sstable of fewer than 256 pages with
    fewer than 256 entries each, [load_summary] rebuilds the builder's summary, and
    every record of the memtable it was built from is on some page:
    [load_index_page] returns that page, [find_offset] of the key returns an offset
    there, and [get_record_from_data] returns the record.  Each load leaves one
    descriptor open. *)
Theorem sstable_readback (c : Id) (t : Type_) (base table : string) (id : Z) (schema : Schema)
    (rows : list (option Data * Record_)) (w : world F) :
  storable c t schema rows → rows ≠ [] → sstable_on_disk base table id t schema rows w →
  Forall (λ page, length page < 256)%nat (sstable_pages t schema rows) →
  (length (sstable_pages t schema rows) < 256)%nat → (size (fds w) + 2 ≤ fd_max)%nat →
  (∃ w', load_summary junk base table id w = (Ok (sstable_summary t schema rows), w') ∧
         leaks 1 w w') ∧
  ∀ k r, (k, r) ∈ rows → ∃ n page off w1 w2,
    load_index_page junk base table id (Z.of_nat n) w = (Ok (MkPage page t), w1) ∧
    find_offset k (MkPage page t) = Ok off ∧
    get_record_from_data junk base table id schema off w1 = (Ok r, w2) ∧ leaks 2 w w2.
Proof.
  intros Hst Hne Hod Hpages Hn Hroom. split.
  - destruct (od_summary _ _ _ _ _ _ _ Hod) as (content & Hc & Hpre).
    apply (load_summary_ok junk base table id content c); [done|done| | |lia].
    + by apply sstable_summary_wf.
    + unfold zlen. cbn. rewrite length_fmap. lia.
  - intros k r Hin. apply list_elem_of_lookup_1 in Hin as [i Hi].
    destruct (row_on_page c t schema rows i k r Hst Hi) as (n & page & Hpage & Hfind).
    rewrite Forall_forall in Hpages. pose proof (list_elem_of_lookup_2 _ _ _ Hpage) as Hp.
    destruct (load_page c t base table id schema rows n page w) as (w1 & Hload & Hleak1);
      [done|done|done|by apply Hpages|lia|].
    destruct (load_row c t base table id schema rows i k r w1) as (w2 & Hget & Hleak2).
    + done.
    + eapply on_disk_files; [|exact Hod]. intros. by rewrite (proj1 Hleak1).
    + done.
    + destruct Hleak1 as (_ & _ & _ & _ & ->). lia.
    + eexists n, page, _, w1, w2. split; [done|]. split; [done|]. split; [done|].
      by apply (leaks_trans 1 1 _ w1).
Qed.
End reader.

(** *** A concrete sstable *)

Import MemFS.

Definition example_rows : list (option Data * Record_) :=
  [(Some (IntData 2), [Some (ASCIIData "TdF"); Some (IntData 2); Some (ASCIIData "Marco")]);
   (Some (IntData 1), example_record)].

Definition example_world : world fsview :=
  World (FsView ∅ {["db/races"]} ∅) [].

Lemma example_storable : storable INT (MkType INT 4) example_schema example_rows.
Proof.
  split.
  - repeat constructor; cbn; (eexists; split; [reflexivity|]); vm_compute; repeat split; congruence.
  - repeat constructor.
  - done.
  - apply example_schema_wf.
  - done.
  - done.
  - apply leb_complete. done.
  - done.
Defined.

Lemma table_builder_layout_witness :
  ∃ w', build_sstable "db" "races" 0 example_schema example_rows example_world =
          (Ok (sstable_summary (MkType INT 4) example_schema example_rows), w') ∧
        sstable_written "db" "races" 0 (MkType INT 4) example_schema example_rows example_world w'.
Proof.
  apply (table_builder_layout INT).
  - apply example_storable.
  - done.
  - vm_compute. done.
  - vm_compute. lia.
Defined.

(** The world after the example was written. *)
Definition example_written : world fsview :=
  (build_sstable "db" "races" 0 example_schema example_rows example_world).2.

Lemma example_on_disk :
  sstable_on_disk "db" "races" 0 (MkType INT 4) example_schema example_rows example_written ∧
  fds example_written = ∅ ∧ dirs example_written = {["db/races"]}.
Proof.
  destruct (build_sstable_ok INT (MkType INT 4) "db" "races" 0 example_schema example_rows
              example_world example_storable) as (w' & Hrun & Hwr);
    [done|vm_compute; done|vm_compute; lia|].
  assert (example_written = w') as -> by (unfold example_written; by rewrite Hrun).
  split; [by eapply written_on_disk|]. destruct Hwr as [Hf Hd _ _ _].
  split; [by transitivity (fds example_world)|by transitivity (dirs example_world)].
Qed.

#[global] Opaque example_written.

Lemma sstable_readback_witness :
  let junk := λ _ : Z, xff in let w := example_written in
  (∃ w', load_summary junk "db" "races" 0 w =
           (Ok (sstable_summary (MkType INT 4) example_schema example_rows), w') ∧ leaks 1 w w') ∧
  ∀ k r, (k, r) ∈ example_rows → ∃ n page off w1 w2,
    load_index_page junk "db" "races" 0 (Z.of_nat n) w = (Ok (MkPage page (MkType INT 4)), w1) ∧
    find_offset k (MkPage page (MkType INT 4)) = Ok off ∧
    get_record_from_data junk "db" "races" 0 example_schema off w1 = (Ok r, w2) ∧ leaks 2 w w2.
Proof.
  apply (sstable_readback _ INT).
  - apply example_storable.
  - done.
  - apply example_on_disk.
  - repeat constructor.
  - vm_compute. lia.
  - rewrite (proj1 (proj2 example_on_disk)). vm_compute. lia.
Defined.
