(* ===== verification/TableManager.v ===== *)
(** * [db::TableManager]: one table of the log-structured store

    Models [include/db/table_manager.hh] and [lib/db/table_manager.cc]: a
    memtable, flushed to a new sstable as soon as it holds two records, and the
    summaries of the sstables, searched from the newest to the oldest. *)

From Stdlib Require Import ZArith Lia Strings.Byte Ascii String.
From stdpp Require Import base list list_numbers strings gmap pretty sorting.
From S2P Require Import Prelude Buffer OrdMap Data Catalog IndexPage Summary FileSystem Disk Sstable.

Local Open Scope Z_scope.

Record TableManager := MkTM {
  tm_base_path : string;
  tm_table_name : string;
  tm_schema : Schema;
  tm_current_sstable_id : Z;
  tm_summaries : list Summary;
  tm_memtable : list (option Data * Record_)
}.

Definition TableManager_new (base_path table_name : string) (schema : Schema)
    (summary : list Summary) : TableManager :=
  MkTM base_path table_name schema (zlen summary) summary [].

Definition set_memtable (m : list (option Data * Record_)) (t : TableManager) : TableManager :=
  MkTM (tm_base_path t) (tm_table_name t) (tm_schema t) (tm_current_sstable_id t)
       (tm_summaries t) m.

Section table_manager.
Context {F : Type} `{PosixFS F}.
Context (junk : Z → byte).

Abbreviation TM := (M (TableManager * world F)).

Definition on_world {A} : M (world F) A → TM A := zoom snd (λ w s, (s.1, w)).

(** The search of the sstables below number [n], newest first. *)
Fixpoint search_sstables (n : nat) (sort_key : option Data) : TM Record_ :=
  match n with
  | O => throw non_existent_record_error
  | S n =>
      '(t, _) ← get_state;
      summary ← lift (match tm_summaries t !! n with
                      | Some s => Ok s | None => Undef OutOfBounds end);
      page_number ← lift (find_page_number sort_key summary);
      index_page ← on_world (load_index_page junk (tm_base_path t) (tm_table_name t)
                               (Z.of_nat n) page_number);
      key ← lift (Data_copy sort_key);
      key_offset ← lift (find_offset (Some key) index_page);
      if negb (key_offset =? -1)
      then on_world (get_record_from_data junk (tm_base_path t) (tm_table_name t)
                       (Z.of_nat n) (tm_schema t) key_offset)
      else search_sstables n sort_key
  end.

(** [ssize_t sstable_id = m_current_sstable_id - 1] *)
Definition read_record (sort_key : option Data) : TM Record_ :=
  '(t, _) ← get_state;
  find_key ← lift (map_find DataCmp sort_key (tm_memtable t));
  match find_key with
  | Some (_, record) => mret record
  | None => search_sstables (Z.to_nat (s64 (u64 (tm_current_sstable_id t - 1)) + 1)) sort_key
  end.

Definition flush : TM unit :=
  '(t, _) ← get_state;
  '(summary_fd, index_fd, data_fd, summary) ←
    on_world (TableBuilder_new (tm_base_path t) (tm_table_name t) (tm_schema t)
                (tm_current_sstable_id t) (tm_memtable t));
  let summaries := tm_summaries t ++ [summary] in
  modify (λ s, (MkTM (tm_base_path t) (tm_table_name t) (tm_schema t) (zlen summaries)
                     summaries [], s.2));;
  on_world (TableBuilder_delete summary_fd index_fd data_fd).

Definition write_record (record : Record_) : TM unit :=
  '(t, _) ← get_state;
  ok ← lift (Schema_verify (tm_schema t) record);
  if negb ok then throw schema_mismatch_error else
  key ← lift (Record_index record (m_sort_key_index (tm_schema t)));
  memtable ← lift (map_insert DataCmp key record (tm_memtable t));
  modify (λ s, (set_memtable memtable s.1, s.2));;
  if 2 <=? zlen memtable then flush else mret tt.
End table_manager.

(** ** The abstract store

    What a table is for its clients: at most one pending record, and the stored
    records, the latest first.  A write to a free slot is pending; a write under
    another key stores both; a write under the pending key is dropped, as
    [std::map::insert] drops it. *)
Record store := MkStore {
  pending : option (option Data * Record_);
  stored : list (option Data * Record_)
}.

Definition store_entry (s : store) (k : option Data) : option (option Data * Record_) :=
  match pending s with
  | Some e => if keq data_before k e.1 then Some e else lookup_key data_before k (stored s)
  | None => lookup_key data_before k (stored s)
  end.

Definition store_read (s : store) (k : option Data) : outcome Record_ :=
  match store_entry s k with
  | Some e => Ok e.2
  | None => Throw non_existent_record_error
  end.

Definition store_write (s : store) (k : option Data) (r : Record_) : store :=
  match pending s with
  | None => MkStore (Some (k, r)) (stored s)
  | Some e => if keq data_before k e.1 then s
              else MkStore None ((k, r) :: e :: stored s)
  end.

(** ** What represents it *)

(** The tables the store works for: a comparable key class, and keys short
    enough for two of them to share a page. *)
Record table_ok (c : Id) (t : Type_) (schema : Schema) : Prop := {
  to_schema : schema_wf schema;
  to_record : Schema_record_size schema < 2 ^ 31;
  to_type : type_wf t;
  to_class : t_id t = c;
  to_key : ∃ f, m_fields schema !! Z.to_nat (m_sort_key_index schema) = Some f ∧ f_type f = t;
  to_page : (2 ≤ capacity t)%nat
}.

(** The memtables that were flushed to the sstables of a table, by number. *)
Record generation_ok {F} `{PosixSpec F} (c : Id) (t : Type_) (tm : TableManager) (w : world F)
    (id : nat) (rows : list (option Data * Record_)) : Prop := {
  go_storable : storable c t (tm_schema tm) rows;
  go_nonempty : rows ≠ [];
  go_page : (length rows ≤ 2)%nat;
  go_disk : sstable_on_disk (tm_base_path tm) (tm_table_name tm) (Z.of_nat id) t
              (tm_schema tm) rows w;
  go_summary : tm_summaries tm !! id = Some (sstable_summary t (tm_schema tm) rows)
}.

(** The search through the generations, newest first. *)
Definition gens_lookup (k : option Data) (gens : list (list (option Data * Record_))) :
    option (option Data * Record_) := lookup_key data_before k (concat (reverse gens)).

Record represents {F} `{PosixSpec F} (c : Id) (t : Type_)
    (gens : list (list (option Data * Record_))) (s : store) (tm : TableManager) (w : world F) :
    Prop := {
  rp_table : table_ok c t (tm_schema tm);
  rp_dir : (tm_base_path tm +:+ "/" +:+ tm_table_name tm) ∈ dirs w;
  rp_memtable : tm_memtable tm = match pending s with Some e => [e] | None => [] end;
  rp_pending : match pending s with Some e => row_wf c t (tm_schema tm) e | None => True end;
  rp_id : tm_current_sstable_id tm = zlen gens;
  rp_count : zlen gens < 2 ^ 62;
  rp_gens : ∀ id rows, gens !! id = Some rows → generation_ok c t tm w id rows;
  rp_summaries : length (tm_summaries tm) = length gens;
  rp_stored : ∀ k, key_of c k → lookup_key data_before k (stored s) = gens_lookup k gens
}.

Section refinement.
Context {F : Type} `{PosixSpec F}.
Variable junk : Z → byte.
Implicit Types (tm : TableManager) (w : world F) (gens : list (list (option Data * Record_))).

Lemma lookup_key_app {V} (k : option Data) (l r : list (option Data * V)) :
  lookup_key data_before k (l ++ r) =
    match lookup_key data_before k l with Some e => Some e | None => lookup_key data_before k r end.
Proof. induction l as [|e l IH]; [done|]. cbn. by destruct (keq data_before k e.1). Qed.

Lemma gens_lookup_snoc k gens rows :
  gens_lookup k (gens ++ [rows]) =
    match lookup_key data_before k rows with Some e => Some e | None => gens_lookup k gens end.
Proof. unfold gens_lookup. rewrite reverse_snoc. cbn [concat]. apply lookup_key_app. Qed.

(** *** One sstable *)

Lemma generation_pages c t tm w id rows :
  generation_ok c t tm w id rows → table_ok c t (tm_schema tm) →
  sstable_pages t (tm_schema tm) rows =
    [with_offsets 0 (Schema_record_size (tm_schema tm)) rows].
Proof.
  intros Hg Ht. destruct Hg, Ht. unfold sstable_pages.
  rewrite paginate_fits by (rewrite length_app, with_offsets_length; simpl; lia). done.
Qed.

(** A summary with one page sends every key to it. *)
Lemma generation_page_number c t tm w id rows k :
  generation_ok c t tm w id rows → table_ok c t (tm_schema tm) →
  find_page_number k (sstable_summary t (tm_schema tm) rows) = Ok 0.
Proof.
  intros Hg Ht. unfold find_page_number, sstable_summary.
  by rewrite (generation_pages c t tm w id rows).
Qed.

Lemma leaks_generation c t tm w w' id rows n :
  leaks n w w' → generation_ok c t tm w id rows → generation_ok c t tm w' id rows.
Proof.
  intros Hl [? ? ? Hd ?]. split; try done. eapply on_disk_files; [|exact Hd].
  intros. by rewrite (proj1 Hl).
Qed.

(** The probe of one sstable: its page, the offset of the key and the record. *)
Lemma probe c t tm w id rows d :
  generation_ok c t tm w id rows → table_ok c t (tm_schema tm) → data_wf d → key_class d = Some c →
  (size (fds w) + 2 ≤ fd_max)%nat →
  let page := MkPage (with_offsets 0 (Schema_record_size (tm_schema tm)) rows) t in
  ∃ w1, load_index_page junk (tm_base_path tm) (tm_table_name tm) (Z.of_nat id) 0 w =
          (Ok page, w1) ∧ leaks 1 w w1 ∧
    match lookup_key data_before (Some d) rows with
    | Some (_, r) => ∃ off w2, find_offset (Some d) page = Ok off ∧ off ≠ -1 ∧
        get_record_from_data junk (tm_base_path tm) (tm_table_name tm) (Z.of_nat id)
          (tm_schema tm) off w1 = (Ok r, w2) ∧ leaks 2 w w2
    | None => find_offset (Some d) page = Ok (-1)
    end.
Proof.
  intros Hg Ht Hd Hc Hroom page. pose proof (generation_pages _ _ _ _ _ _ Hg Ht) as Hpages.
  destruct Hg as [Hst Hne Hlen Hod Hsum].
  destruct (load_page junk c t _ _ _ _ rows 0 (ip_sort_keys page) w Hst Hod) as (w1 & Hload & Hl1).
  { by rewrite Hpages. }
  { cbn. rewrite with_offsets_length. lia. }
  { lia. }
  exists w1. split; [exact Hload|]. split; [done|].
  destruct (storable_page c t _ rows (ip_sort_keys page) Hst) as [Hp _].
  { rewrite Hpages. by left. }
  rewrite (find_offset_ok c) by done. cbn [page ip_sort_keys].
  pose proof (lookup_key_offsets (Some d) 0 (Schema_record_size (tm_schema tm)) rows) as Hlk.
  destruct (lookup_key data_before (Some d) rows) as [[k' r]|].
  - destruct Hlk as (i & Hi & ->).
    destruct (load_row junk c t (tm_base_path tm) (tm_table_name tm) (Z.of_nat id)
                (tm_schema tm) rows i k' r w1)
      as (w2 & Hget & Hl2); [done| |done| |].
    + eapply on_disk_files; [|exact Hod]. intros. by rewrite (proj1 Hl1).
    + destruct Hl1 as (_ & _ & _ & _ & ->). lia.
    + pose proof (record_size_nonneg _ (to_schema _ _ _ Ht)).
      eexists _, w2. split; [reflexivity|]. split; [nia|].
      split; [exact Hget|by apply (leaks_trans 1 1 w w1)].
  - by rewrite Hlk.
Qed.

(** *** Reading *)

(** The search of the first [n] sstables is the search of their generations;
    it leaves one descriptor open per sstable probed, and one more when it
    finds the record. *)
Lemma search_sstables_ok c t gens tm w n d :
  table_ok c t (tm_schema tm) → (∀ id rows, gens !! id = Some rows → generation_ok c t tm w id rows) →
  (n ≤ length gens)%nat → data_wf d → key_class d = Some c →
  (size (fds w) + n + 1 ≤ fd_max)%nat →
  ∃ j w', search_sstables junk n (Some d) (tm, w) =
            (match gens_lookup (Some d) (take n gens) with
             | Some e => Ok e.2 | None => Throw non_existent_record_error end, (tm, w')) ∧
          (Nat.min 1 n ≤ j ≤ n + 1)%nat ∧ leaks j w w'.
Proof.
  intros Ht. revert w. induction n as [|n IH]; intros w Hgens Hn Hd Hc Hroom.
  { exists 0%nat, w. split; [done|]. split; [lia|apply leaks_refl]. }
  destruct (lookup_lt_is_Some_2 gens n ltac:(lia)) as [rows Hrows].
  pose proof (Hgens _ _ Hrows) as Hg.
  destruct (probe c t tm w n rows d Hg Ht Hd Hc ltac:(lia)) as (w1 & Hload & Hl1 & Hprobe).
  rewrite (take_S_r _ _ _ Hrows), gens_lookup_snoc.
  cbn [search_sstables]. unfold get_state. erewrite M_bind_ok by reflexivity. cbn beta iota.
  rewrite (go_summary _ _ _ _ _ _ Hg). erewrite M_bind_ok by reflexivity.
  rewrite (generation_page_number c t tm w n rows) by done.
  erewrite M_bind_ok by reflexivity.
  erewrite M_bind_ok by (unfold on_world, zoom; cbn [snd fst]; by rewrite Hload).
  rewrite Data_copy_ok by done. erewrite M_bind_ok by reflexivity.
  destruct (lookup_key data_before (Some d) rows) as [[k' r]|].
  - destruct Hprobe as (off & w2 & -> & Hoff & Hget & Hl2).
    erewrite M_bind_ok by reflexivity. apply Z.eqb_neq in Hoff. rewrite Hoff. cbn [negb].
    exists 2%nat, w2. split; [unfold on_world, zoom; cbn [snd fst]; by rewrite Hget|].
    split; [lia|done].
  - rewrite Hprobe. erewrite M_bind_ok by reflexivity. cbn [negb Z.eqb Pos.eqb].
    destruct (IH w1) as (j & w' & Hrun & Hj & Hl); [|lia|done|done| |].
    + intros. by eapply leaks_generation, Hgens.
    + destruct Hl1 as (_ & _ & _ & _ & ->). lia.
    + exists (1 + j)%nat, w'. split; [exact Hrun|]. split; [lia|by eapply leaks_trans].
Qed.

Lemma leaks_represents c t gens s tm w w' n :
  leaks n w w' → represents c t gens s tm w → represents c t gens s tm w'.
Proof.
  intros Hl []. split; try done.
  - by rewrite (proj1 (proj2 Hl)).
  - intros. eapply leaks_generation; eauto.
Qed.

(** [ssize_t sstable_id = m_current_sstable_id - 1], counted from below. *)
Lemma start_id n : 0 ≤ n < 2 ^ 63 → s64 (u64 (n - 1)) + 1 = n.
Proof.
  intros Hn. rewrite swrap_wrap by lia. destruct (decide (n = 0)) as [->|]; [done|].
  rewrite swrap_small by (unfold in_s; lia). lia.
Qed.

Lemma read_record_ok c t gens s tm w d :
  represents c t gens s tm w → data_wf d → key_class d = Some c →
  (size (fds w) + length gens + 1 ≤ fd_max)%nat →
  ∃ j w', read_record junk (Some d) (tm, w) = (store_read s (Some d), (tm, w')) ∧
          (j ≤ length gens + 1)%nat ∧ leaks j w w' ∧
          (match pending s with Some e => keq data_before (Some d) e.1 = false | None => True end →
           gens ≠ [] → 1 ≤ j)%nat.
Proof.
  intros Hr Hd Hc Hroom. pose proof Hr as [Ht _ Hm Hp Hid Hcount Hgens _ Hst].
  assert (map_wf (key_of c) data_before (tm_memtable tm)) as Hwf.
  { rewrite Hm. destruct (pending s) as [e|]; split; repeat constructor.
    eapply key_wf_key_of, Hp. }
  unfold read_record, get_state. erewrite M_bind_ok by reflexivity. cbn beta iota.
  rewrite (map_find_ok DataCmp (key_of c) data_before) by done.
  erewrite M_bind_ok by reflexivity. unfold store_read, store_entry. rewrite Hm, Hid.
  rewrite start_id by (pose proof (zlen_nonneg gens); lia).
  unfold zlen. rewrite Nat2Z.id.
  destruct (search_sstables_ok c t gens tm w (length gens) d) as (j & w' & Hrun & Hj & Hl);
    try done.
  rewrite take_ge in Hrun by lia. rewrite (Hst (Some d) Hc).
  assert (gens ≠ [] → 1 ≤ j)%nat as Hj1 by (destruct gens; [done|simpl in *; lia]).
  assert (j ≤ length gens + 1)%nat as Hj2 by lia.
  destruct (pending s) as [[k r]|]; cbn [lookup_key fst snd]; [|eauto 10].
  destruct (keq data_before (Some d) k); [|eauto 10].
  exists 0%nat, w. split; [done|]. split; [lia|]. split; [apply leaks_refl|done].
Qed.

(** *** Writing *)

Lemma small_storable c t schema rows :
  table_ok c t schema → Forall (row_wf c t schema) rows → ordered data_before rows →
  (length rows ≤ 2)%nat → storable c t schema rows.
Proof.
  intros [Hs Hr Ht _ _ Hcap] Hrows Hord Hlen. split; try done; [|lia|].
  - pose proof (record_size_nonneg _ Hs). unfold zlen. nia.
  - unfold sstable_pages. rewrite paginate_fits by (rewrite length_app, with_offsets_length; simpl; lia).
    pose proof (type_wf_length _ Ht). unfold capacity in Hcap.
    set (L := t_length t + 8) in *. set (B := page_size - (1 + Type_size)) in *.
    pose proof (Z.mul_div_le B L ltac:(lia)). pose proof (Z.div_pos B L ltac:(done) ltac:(lia)).
    assert (2 * L ≤ B) by nia. change (zlen [_]) with 1. unfold B, L in *. lia.
Qed.

Lemma flush_ok c t tm w :
  storable c t (tm_schema tm) (tm_memtable tm) → tm_memtable tm ≠ [] →
  (tm_base_path tm +:+ "/" +:+ tm_table_name tm) ∈ dirs w → (size (fds w) + 3 ≤ fd_max)%nat →
  let summaries := tm_summaries tm ++ [sstable_summary t (tm_schema tm) (tm_memtable tm)] in
  ∃ w', flush (tm, w) =
          (Ok tt, (MkTM (tm_base_path tm) (tm_table_name tm) (tm_schema tm) (zlen summaries)
                        summaries [], w')) ∧
        sstable_written (tm_base_path tm) (tm_table_name tm) (tm_current_sstable_id tm) t
          (tm_schema tm) (tm_memtable tm) w w'.
Proof.
  intros Hst Hne Hdir Hroom summaries.
  destruct (TableBuilder_ok c t _ _ (tm_current_sstable_id tm) _ _ w Hst Hne Hdir Hroom)
    as (sfd & ifd & dfd & w1 & w2 & Hnew & Hdel & Hwr).
  exists w2. split; [|done]. unfold flush, get_state. erewrite M_bind_ok by reflexivity.
  cbn beta iota. erewrite M_bind_ok by (unfold on_world, zoom; cbn [snd fst]; by rewrite Hnew).
  cbn beta iota. erewrite M_bind_ok by reflexivity. unfold on_world, zoom. cbn [snd fst].
  by rewrite Hdel.
Qed.

(** The key of a record of the schema. *)
Lemma record_key c t schema r :
  table_ok c t schema → record_matches schema r →
  ∃ d, Record_index r (m_sort_key_index schema) = Ok (Some d) ∧ data_wf d ∧ m_type d = t.
Proof.
  intros [Hs _ _ _ (f & Hf & Hft) _] Hr. unfold Record_index. destruct Hs as (_ & _ & Hi & _).
  rewrite bool_decide_true by apply Hi.
  destruct (Forall2_lookup_r _ _ _ _ _ Hr Hf) as (v & Hv & (d & -> & Hd & Hdt)).
  exists d. unfold Record_ in *. by rewrite Hv, Hdt.
Qed.

(** The generations after a flush. *)
Lemma represents_flush c t gens s tm w w' rows :
  represents c t gens s tm w → storable c t (tm_schema tm) rows → rows ≠ [] →
  (length rows ≤ 2)%nat → zlen gens + 1 < 2 ^ 62 →
  sstable_written (tm_base_path tm) (tm_table_name tm) (tm_current_sstable_id tm) t
    (tm_schema tm) rows w w' →
  let summaries := tm_summaries tm ++ [sstable_summary t (tm_schema tm) rows] in
  let tm' := MkTM (tm_base_path tm) (tm_table_name tm) (tm_schema tm) (zlen summaries) summaries [] in
  ∀ log, (∀ k, key_of c k → lookup_key data_before k log = gens_lookup k (gens ++ [rows])) →
  represents c t (gens ++ [rows]) (MkStore None log) tm' w'.
Proof.
  intros Hrep Hst Hne Hlen Hcount Hwr summaries tm' log Hlog. destruct Hrep.
  split; try done; cbn [tm_current_sstable_id tm_summaries tm' tm_schema].
  - by rewrite (wr_dirs _ _ _ _ _ _ _ _ Hwr).
  - unfold summaries, zlen. rewrite !length_app, rp_summaries0. done.
  - rewrite zlen_app. unfold zlen in *. simpl. lia.
  - intros id rows' [Hid|[Hid ->]]%lookup_snoc_Some.
    + destruct Hid as [Hlt Hid]. destruct (rp_gens0 _ _ Hid). split; try done.
      * eapply on_disk_other; [|exact Hwr|exact go_disk0]. rewrite rp_id0. unfold zlen. lia.
      * cbn [tm_summaries tm' tm_schema]. unfold summaries.
        by rewrite lookup_app_l by (rewrite rp_summaries0; lia).
    + split; try done.
      * replace (Z.of_nat id) with (tm_current_sstable_id tm) by (rewrite rp_id0; unfold zlen; lia).
        by eapply written_on_disk.
      * cbn [tm_summaries tm' tm_schema]. unfold summaries.
        by rewrite Hid, <- rp_summaries0, list_lookup_middle.
  - unfold summaries. rewrite !length_app, rp_summaries0. done.
Qed.

(** A file of a table, and the computations that change no other file. *)
Definition table_file (base name path : string) : Prop :=
  ∃ kind id, kind ∈ kinds ∧ path = sstable_path base name kind id.

Definition stays_in (base name : string) w w' : Prop :=
  dirs w' = dirs w ∧ fds w' = fds w ∧ w_log w' = w_log w ∧
  ∀ path, ¬ table_file base name path → files w' !! path = files w !! path.

Lemma stays_in_refl base name w : stays_in base name w w.
Proof. done. Qed.

Lemma written_stays_in base name id t schema rows w w' :
  sstable_written base name id t schema rows w w' → stays_in base name w w'.
Proof.
  intros [Hf Hd Hl _ Ho]. split_and!; try done. intros path Hp. apply Ho.
  intros (kind & -> & Hk)%list_elem_of_fmap. apply Hp. by exists kind, id.
Qed.

(** The part of [write_record] before the flush. *)
Lemma write_record_start c t gens s tm w d r :
  represents c t gens s tm w → record_matches (tm_schema tm) r → key_class d = Some c →
  Record_index r (m_sort_key_index (tm_schema tm)) = Ok (Some d) →
  ∃ m, map_insert DataCmp (Some d) r (tm_memtable tm) = Ok m ∧
       write_record r (tm, w) =
         (if 2 <=? zlen m then flush else mret tt) (set_memtable m tm, w) ∧
       match pending s with
       | None => m = [(Some d, r)]
       | Some e => if keq data_before (Some d) e.1 then m = [e]
                   else map_wf (key_of c) data_before m ∧
                        ∃ l l', [e] = l ++ l' ∧ m = l ++ (Some d, r) :: l'
       end.
Proof.
  intros [Ht _ Hm Hp _ _ _ _ _] Hr Hc Hkey.
  assert (map_wf (key_of c) data_before (tm_memtable tm)) as Hwf.
  { rewrite Hm. destruct (pending s) as [e|]; split; repeat constructor.
    eapply key_wf_key_of, Hp. }
  assert (Schema_verify (tm_schema tm) r = Ok true) as Hver
    by (apply Schema_verify_iff; [by eapply record_matches_wf|done]).
  pose proof (map_insert_ok DataCmp (key_of c) data_before (Some d) r _ Hc Hwf) as Hins.
  assert (∀ m, map_insert DataCmp (Some d) r (tm_memtable tm) = Ok m →
    write_record r (tm, w) = (if 2 <=? zlen m then flush else mret tt) (set_memtable m tm, w)) as Hrun.
  { intros m Hm'. unfold write_record, get_state. erewrite M_bind_ok by reflexivity. cbn beta iota.
    rewrite Hver. erewrite M_bind_ok by reflexivity. cbn [negb].
    rewrite Hkey. erewrite M_bind_ok by reflexivity.
    rewrite Hm'. erewrite M_bind_ok by reflexivity. by erewrite M_bind_ok by reflexivity. }
  rewrite Hm in *. destruct (pending s) as [e|]; cbn [lookup_key] in Hins.
  - destruct (keq data_before (Some d) e.1).
    + exists [e]. auto.
    + destruct Hins as (l & l' & Hl & Hins & Hwf'). eexists. split; [done|].
      split; [by apply Hrun|]. split; [done|]. by exists l, l'.
  - destruct Hins as (l & l' & Hl & Hins & Hwf'). symmetry in Hl. apply app_nil in Hl as [-> ->].
    eexists. split; [done|]. split; [by apply Hrun|done].
Qed.

(** A write that does not flush. *)
Lemma represents_memtable c t gens s tm w p :
  represents c t gens s tm w →
  match p with Some e => row_wf c t (tm_schema tm) e | None => True end →
  represents c t gens (MkStore p (stored s))
    (set_memtable (match p with Some e => [e] | None => [] end) tm) w.
Proof.
  intros [] Hp. split; try done. intros id rows Hid. by destruct (rp_gens0 _ _ Hid).
Qed.

Lemma store_lookup_flush c (s : store) e k k' r l l' gens :
  key_of c k' → map_wf (key_of c) data_before (l ++ (k, r) :: l') → [e] = l ++ l' →
  lookup_key data_before k' (stored s) = gens_lookup k' gens →
  lookup_key data_before k' ((k, r) :: e :: stored s) =
    gens_lookup k' (gens ++ [l ++ (k, r) :: l']).
Proof.
  intros Hk' Hwf Hl Hst. rewrite gens_lookup_snoc, (lookup_mid c) by done. rewrite <- Hl, <- Hst.
  cbn. destruct (keq data_before k' k); [done|]. by destruct (keq data_before k' e.1).
Qed.

Lemma write_record_ok c t gens s tm w d r :
  represents c t gens s tm w → record_matches (tm_schema tm) r → key_class d = Some c →
  Record_index r (m_sort_key_index (tm_schema tm)) = Ok (Some d) →
  (size (fds w) + 3 ≤ fd_max)%nat → zlen gens + 1 < 2 ^ 62 →
  ∃ gens' tm' w', write_record r (tm, w) = (Ok tt, (tm', w')) ∧
    represents c t gens' (store_write s (Some d) r) tm' w' ∧
    (tm_base_path tm' = tm_base_path tm ∧ tm_table_name tm' = tm_table_name tm ∧
     tm_schema tm' = tm_schema tm) ∧
    stays_in (tm_base_path tm) (tm_table_name tm) w w' ∧ (length gens' ≤ length gens + 1)%nat.
Proof.
  intros Hrep Hr Hc Hkey Hroom Hcount.
  destruct (write_record_start c t gens s tm w d r Hrep Hr Hc Hkey) as (m & _ & Hrun & Hm).
  pose proof Hrep as [Ht Hdir Hmem Hp Hid _ Hgens Hsum Hst].
  destruct (record_key c t _ r Ht Hr) as (d' & Hkey' & Hd & Hdt).
  rewrite Hkey in Hkey'. injection Hkey' as <-.
  assert (row_wf c t (tm_schema tm) (Some d, r)) as Hrow by (split; [by exists d|done]).
  unfold store_write. rewrite Hrun. destruct (pending s) as [e|] eqn:He.
  - destruct (keq data_before (Some d) e.1) eqn:Hkeq.
    + subst m. exists gens, (set_memtable [e] tm), w. split; [done|]. split; [|split_and!; (done || lia)].
      replace s with (MkStore (Some e) (stored s)) by (destruct s; cbn in *; by subst).
      by apply (represents_memtable _ _ _ _ _ _ (Some e) Hrep).
    + destruct Hm as (Hwf & l & l' & Hl & ->).
      assert (length (l ++ (Some d, r) :: l') = 2%nat) as Hlen.
      { apply (f_equal length) in Hl. rewrite length_app in *. simpl in *. lia. }
      assert (storable c t (tm_schema tm) (l ++ (Some d, r) :: l')) as Hsto.
      { apply small_storable; [done| |apply Hwf|lia]. clear -Hl Hp Hrow.
        assert (Forall (row_wf c t (tm_schema tm)) (l ++ l')) as Hall by (rewrite <- Hl; by constructor).
        apply Forall_app in Hall as [? ?]. apply Forall_app. split; [done|by constructor]. }
      unfold zlen at 1. rewrite Hlen. cbn [Z.leb Z.of_nat Pos.of_succ_nat Pos.succ Z.compare Pos.compare Pos.compare_cont].
      destruct (flush_ok c t (set_memtable (l ++ (Some d, r) :: l') tm) w) as (w' & Hfl & Hwr);
        [done|cbn; by destruct l|done|done|].
      cbn [set_memtable tm_base_path tm_table_name tm_schema tm_summaries tm_memtable
           tm_current_sstable_id] in Hfl, Hwr.
      eexists (gens ++ [_]), _, w'. split; [exact Hfl|].
      split; [|split; [done|]; split; [by eapply written_stays_in|rewrite length_app; simpl; lia]].
      eapply represents_flush; try done; [by destruct l|lia|].
      intros k Hk. eapply store_lookup_flush; eauto.
  - subst m. exists gens, (set_memtable [(Some d, r)] tm), w. split; [done|].
    split; [|split_and!; (done || lia)].
    by apply (represents_memtable _ _ _ _ _ _ (Some (Some d, r)) Hrep).
Qed.

(** *** Requests and replies *)

Inductive request := Get (key : Data) | Put (record : Record_).
Inductive reply := GetReply (o : outcome Record_) | PutReply (o : outcome unit).

(** A client that takes exceptions as replies. *)
Definition serve (q : request) : M (TableManager * world F) reply :=
  λ st, match q with
        | Get key => let '(o, st') := read_record junk (Some key) st in (Ok (GetReply o), st')
        | Put record => let '(o, st') := write_record record st in (Ok (PutReply o), st')
        end.

Fixpoint serve_all (qs : list request) : M (TableManager * world F) (list reply) :=
  match qs with
  | [] => mret []
  | q :: qs => a ← serve q; answers ← serve_all qs; mret (a :: answers)
  end.

(** The same requests on the abstract store. *)
Definition store_serve (schema : Schema) (q : request) (s : store) : reply * store :=
  match q with
  | Get key => (GetReply (store_read s (Some key)), s)
  | Put record =>
      match Schema_verify schema record, Record_index record (m_sort_key_index schema) with
      | Ok true, Ok key => (PutReply (Ok tt), store_write s key record)
      | _, _ => (PutReply (Throw schema_mismatch_error), s)
      end
  end.

Fixpoint store_serve_all (schema : Schema) (qs : list request) (s : store) : list reply * store :=
  match qs with
  | [] => ([], s)
  | q :: qs => let '(a, s1) := store_serve schema q s in
               let '(answers, s2) := store_serve_all schema qs s1 in (a :: answers, s2)
  end.

(** Requests with well-formed values whose keys are comparable. *)
Definition request_ok (c : Id) (schema : Schema) (q : request) : Prop :=
  match q with
  | Get key => data_wf key ∧ key_class key = Some c
  | Put record =>
      record_wf record ∧
      ∀ d, Record_index record (m_sort_key_index schema) = Ok (Some d) → key_class d = Some c
  end.

(** A record that does not match the schema is refused. *)
Lemma write_record_mismatch tm w r :
  Schema_verify (tm_schema tm) r = Ok false →
  write_record r (tm, w) = (Throw schema_mismatch_error, (tm, w)).
Proof.
  intros Hv. unfold write_record, get_state. erewrite M_bind_ok by reflexivity. cbn beta iota.
  rewrite Hv. by erewrite M_bind_ok by reflexivity.
Qed.

Lemma serve_ok c t gens s tm w q :
  represents c t gens s tm w → request_ok c (tm_schema tm) q →
  (size (fds w) + length gens + 3 ≤ fd_max)%nat → zlen gens + 1 < 2 ^ 62 →
  ∃ gens' tm' w', serve q (tm, w) = (Ok (store_serve (tm_schema tm) q s).1, (tm', w')) ∧
    represents c t gens' (store_serve (tm_schema tm) q s).2 tm' w' ∧
    (tm_base_path tm' = tm_base_path tm ∧ tm_table_name tm' = tm_table_name tm ∧
     tm_schema tm' = tm_schema tm) ∧ (length gens' ≤ length gens + 1)%nat ∧
    (size (fds w') ≤ size (fds w) + length gens + 1)%nat ∧ dirs w' = dirs w ∧
    (∀ path, ¬ table_file (tm_base_path tm) (tm_table_name tm) path →
             files w' !! path = files w !! path).
Proof.
  intros Hrep Hq Hroom Hcount. destruct q as [key|record]; cbn [serve store_serve].
  - destruct Hq as [Hd Hc]. unfold serve.
    destruct (read_record_ok c t gens s tm w key Hrep Hd Hc) as (j & w' & Hrun & Hj & Hl & _); [lia|].
    rewrite Hrun. exists gens, tm, w'. split; [done|]. split; [by eapply leaks_represents|].
    split; [done|]. destruct Hl as (Hf & Hdir & _ & _ & ->). split_and!; try done; [lia..|].
    intros. by rewrite Hf.
  - destruct Hq as [Hwf Hkeys]. unfold serve.
    destruct (Schema_verify_iff (tm_schema tm) record Hwf) as [[x Hx] Hiff]. rewrite Hx in *.
    destruct x.
    + destruct (record_key c t (tm_schema tm) record (rp_table _ _ _ _ _ _ Hrep))
        as (d & Hkey & Hd & Hdt); [by apply Hiff|]. rewrite Hkey.
      destruct (write_record_ok c t gens s tm w d record Hrep)
        as (gens' & tm' & w' & Hrun & Hrep' & Hstat & (Hdir & Hfds & _ & Hf) & Hn);
        [by apply Hiff|by apply Hkeys|done|lia|done|].
      rewrite Hrun. exists gens', tm', w'. rewrite Hfds. split_and!; try apply Hstat; try done; lia.
    + rewrite write_record_mismatch by done. exists gens, tm, w.
      destruct (Record_index _ _); split_and!; try done; lia.
Qed.

(** ** Properties *)

(** C2 (refinement): a table that represents an abstract store answers every
    sequence of reads and writes as the store does -- records, missing records
    and schema mismatches alike -- and represents the store's final state.  The
    descriptors [read_record] leaves open bound the length of the sequence. *)
Theorem table_refines_store (c : Id) (t : Type_) (gens : list (list (option Data * Record_)))
    (s : store) (tm : TableManager) (w : world F) (qs : list request) :
  represents c t gens s tm w → Forall (request_ok c (tm_schema tm)) qs →
  (size (fds w) + length qs * (length gens + length qs + 1) + 3 ≤ fd_max)%nat →
  zlen gens + zlen qs < 2 ^ 62 →
  ∃ gens' tm' w', serve_all qs (tm, w) =
      (Ok (store_serve_all (tm_schema tm) qs s).1, (tm', w')) ∧
    represents c t gens' (store_serve_all (tm_schema tm) qs s).2 tm' w'.
Proof.
  intros Hrep Hqs. revert gens s tm w Hrep Hqs.
  induction qs as [|q qs IH]; intros gens s tm w Hrep Hqs Hroom Hcount.
  { exists gens, tm, w. by split. }
  apply Forall_cons in Hqs as [Hq Hqs]. cbn [serve_all store_serve_all].
  assert (zlen (q :: qs) = 1 + zlen qs) as Hz by (unfold zlen; simpl; lia).
  pose proof (zlen_nonneg qs). cbn [length] in Hroom.
  destruct (serve_ok c t gens s tm w q Hrep Hq) as (gens1 & tm1 & w1 & Hrun & Hrep1 & (_ & _ & Hsch) & Hn & Hf & _);
    [nia|lia|].
  erewrite M_bind_ok by exact Hrun. cbn beta.
  destruct (store_serve (tm_schema tm) q s) as [a s1] eqn:Hs1. cbn [fst snd] in *.
  destruct (IH gens1 s1 tm1 w1 Hrep1) as (gens2 & tm2 & w2 & Hrun2 & Hrep2).
  { by rewrite Hsch. }
  { nia. }
  { unfold zlen in *. lia. }
  rewrite Hsch in *. destruct (store_serve_all (tm_schema tm) qs s1) as [answers s2] eqn:Hs2.
  cbn [fst snd] in *. exists gens2, tm2, w2. split; [|done]. by erewrite M_bind_ok by exact Hrun2.
Qed.

Lemma store_read_write c (s : store) d r :
  key_class d = Some c →
  (∀ e, pending s = Some e → keq data_before (Some d) e.1 = false) →
  store_read (store_write s (Some d) r) (Some d) = Ok r.
Proof.
  intros Hc Hp. assert (keq data_before (Some d) (Some d) = true) as Hrefl
    by (by apply (keq_refl DataCmp (key_of c) data_before)).
  unfold store_read, store_entry, store_write. destruct (pending s) as [e|].
  - rewrite (Hp e) by done. cbn. by rewrite Hrefl.
  - cbn. by rewrite Hrefl.
Qed.

(** A write followed by a read of its key. *)
Lemma write_read_ok c t gens s tm w d r :
  represents c t gens s tm w → record_matches (tm_schema tm) r → key_class d = Some c →
  Record_index r (m_sort_key_index (tm_schema tm)) = Ok (Some d) →
  (size (fds w) + length gens + 3 ≤ fd_max)%nat → zlen gens + 1 < 2 ^ 62 →
  ∃ st st', write_record r (tm, w) = (Ok tt, st) ∧
    read_record junk (Some d) st = (store_read (store_write s (Some d) r) (Some d), st').
Proof.
  intros Hrep Hr Hc Hkey Hroom Hcount.
  destruct (write_record_ok c t gens s tm w d r Hrep Hr Hc Hkey)
    as (gens1 & tm1 & w1 & Hrun & Hrep1 & _ & (_ & Hfds & _) & Hn); [lia|done|].
  destruct (record_key c t _ r (rp_table _ _ _ _ _ _ Hrep) Hr) as (d' & Hkey' & Hd & _).
  rewrite Hkey in Hkey'. injection Hkey' as <-.
  destruct (read_record_ok c t gens1 _ tm1 w1 d Hrep1 Hd Hc) as (j & w2 & Hread & _); [rewrite Hfds; lia|].
  by exists (tm1, w1), (tm1, w2).
Qed.

(** C18 (functional): a record written under a key that is not the pending one is
    what the next read of that key returns, whether it stays in the memtable or
    goes through the files of a new sstable. *)
Theorem read_your_write (c : Id) (t : Type_) (gens : list (list (option Data * Record_)))
    (s : store) (tm : TableManager) (w : world F) (d : Data) (r : Record_) :
  represents c t gens s tm w → record_matches (tm_schema tm) r → key_class d = Some c →
  Record_index r (m_sort_key_index (tm_schema tm)) = Ok (Some d) →
  (∀ e, pending s = Some e → keq data_before (Some d) e.1 = false) →
  (size (fds w) + length gens + 3 ≤ fd_max)%nat → zlen gens + 1 < 2 ^ 62 →
  ∃ st st', write_record r (tm, w) = (Ok tt, st) ∧ read_record junk (Some d) st = (Ok r, st').
Proof.
  intros Hrep Hr Hc Hkey Hp Hroom Hcount.
  destruct (write_read_ok c t gens s tm w d r) as (st & st' & Hw & Hrd); try done.
  exists st, st'. split; [done|]. by rewrite Hrd, (store_read_write c).
Qed.

(** C38 (error): a record written under the key of the pending record is lost
    without an error: the write returns normally and the next read returns the
    earlier record. *)
Theorem lost_update (c : Id) (t : Type_) (gens : list (list (option Data * Record_)))
    (s : store) (tm : TableManager) (w : world F) (d : Data) (r : Record_)
    (e : option Data * Record_) :
  represents c t gens s tm w → record_matches (tm_schema tm) r → key_class d = Some c →
  Record_index r (m_sort_key_index (tm_schema tm)) = Ok (Some d) →
  pending s = Some e → keq data_before (Some d) e.1 = true →
  (size (fds w) + length gens + 3 ≤ fd_max)%nat → zlen gens + 1 < 2 ^ 62 →
  ∃ st st', write_record r (tm, w) = (Ok tt, st) ∧ read_record junk (Some d) st = (Ok e.2, st').
Proof.
  intros Hrep Hr Hc Hkey Hp Heq Hroom Hcount.
  destruct (write_read_ok c t gens s tm w d r) as (st & st' & Hw & Hrd); try done.
  exists st, st'. split; [done|]. rewrite Hrd. unfold store_read, store_write, store_entry.
  by rewrite Hp, Heq, Hp, Heq.
Qed.

(** A read that is not answered from the memtable of a table with
    sstables leaves descriptors open, at least one and at most one more than
    the sstables, and changes nothing else. *)
Theorem read_record_leaks (c : Id) (t : Type_) (gens : list (list (option Data * Record_)))
    (s : store) (tm : TableManager) (w : world F) (d : Data) :
  represents c t gens s tm w → data_wf d → key_class d = Some c → gens ≠ [] →
  match pending s with Some e => keq data_before (Some d) e.1 = false | None => True end →
  (size (fds w) + length gens + 1 ≤ fd_max)%nat →
  ∃ n w', (read_record junk (Some d) (tm, w)).2 = (tm, w') ∧ leaks n w w' ∧
          (1 ≤ n ≤ length gens + 1)%nat.
Proof.
  intros Hrep Hd Hc Hne Hp Hroom.
  destruct (read_record_ok c t gens s tm w d Hrep Hd Hc Hroom) as (j & w' & Hrun & Hj & Hl & Hj1).
  exists j, w'. rewrite Hrun. split; [done|]. split; [done|]. split; [by apply Hj1|done].
Qed.

(** A new table is an empty store. *)
Lemma TableManager_new_represents c t base name schema w :
  table_ok c t schema → (base +:+ "/" +:+ name) ∈ dirs w →
  represents c t [] (MkStore None []) (TableManager_new base name schema []) w.
Proof. intros Ht Hdir. by split. Qed.
End refinement.

(** ** Failing writes *)

Section failing.
Context {F : Type} `{PosixFS F}.

(** The system refuses every [write], as on a full disk. *)
Hypothesis write_fails : ∀ fd bs (f : F), sys_write fd bs f = (-1, f).

Lemma write_records_fails c t schema k r rows data_fd index_fd (b : builder (F := F)) :
  storable c t schema ((k, r) :: rows) →
  write_records data_fd index_fd schema ((k, r) :: rows) 0 b =
    (Ok false, MkBuilder (World (w_fs (b_world b))
                                (w_log (b_world b) ++ ["Error writing in Data file"]))
                         (b_summary b) (b_index_page b)).
Proof.
  intros [Hrows _ _ Hs Hsize _ _ _]. apply Forall_cons in Hrows as [[_ Hr] _]. cbn [snd] in Hr.
  pose proof (record_enc_length _ _ Hs Hr) as Hlen. destruct b as [w s p]. cbn [write_records].
  erewrite M_bind_ok.
  2: { apply (to_bytes_ok _ _ (record_enc r)); [|lia].
       apply Record_bytes_serializes. by eapply record_matches_wf. }
  erewrite M_bind_ok.
  2: { unfold in_world, zoom, os_write, lift_sys. cbn [b_world]. by rewrite write_fails. }
  done.
Qed.

Lemma TableBuilder_new_fails c t base name schema id k r rows w :
  storable c t schema ((k, r) :: rows) →
  ∃ fds summary w', TableBuilder_new base name schema id ((k, r) :: rows) w =
      (Ok (fds, summary), w') ∧ "Error writing in Data file" ∈ w_log w'.
Proof.
  intros Hst. pose proof Hst as [Hrows _ Ht _ _ _ _ Hsum]. apply Forall_cons in Hrows as [[Hk _] _].
  destruct Hk as (d & Hkd & Hd & Hdt & Hdc). cbn [fst] in Hkd. subst k.
  assert (∀ path (w : world F), ∃ fd w1, open_or_perror path w = (Ok fd, w1)) as Hopen.
  { intros path w0. unfold open_or_perror, os_open, lift_sys, mbind, M_bind.
    destruct (sys_open path O_WRONLY_CREAT (w_fs w0)) as [fd f]. cbn beta iota.
    destruct (fd <? 0); eauto. }
  destruct (Hopen (sstable_path base name "summary_" id) w) as (sfd & w1 & Ho1).
  destruct (Hopen (sstable_path base name "index_" id) w1) as (ifd & w2 & Ho2).
  destruct (Hopen (sstable_path base name "data_" id) w2) as (dfd & w3 & Ho3).
  destruct (Summary_push_back_ok c (Summary_new t) d) as [Hpush _];
    [by apply Summary_new_wf|by (split; [|split])| |].
  { pose proof (type_wf_length _ Ht). pose proof (st_page _ _ _ _ Hst) as Hcap.
    destruct (sstable_pages_cons t schema (Some d) r rows Hcap) as (x & ps & Hps).
    rewrite Hps in Hsum. unfold zlen in *. simpl in *. nia. }
  cbn [Summary_new sm_sort_keys sm_type app] in Hpush.
  exists (sfd, ifd, dfd), (MkSummary [Some d] t), (World (w_fs w3) (w_log w3 ++ ["Error writing in Data file"])).
  split; [|cbn; apply elem_of_app; right; by left].
  unfold TableBuilder_new.
  rewrite (M_bind_ok _ _ _ _ _ Ho1), (M_bind_ok _ _ _ _ _ Ho2), (M_bind_ok _ _ _ _ _ Ho3).
  erewrite M_bind_ok; [reflexivity|]. unfold construct_sstable_files, with_builder. rewrite Hdt.
  erewrite M_bind_ok by (apply in_summary_ok; exact Hpush).
  by erewrite M_bind_ok by (eapply write_records_fails; exact Hst).
Qed.

(** C39 (error): when the system refuses the writes of a flush, [flush] returns
    normally with an empty memtable and a summary for an sstable that was never
    written: the records it was to store are gone, and only the error log
    says so. *)
Theorem flush_failed_write (c : Id) (t : Type_) (tm : TableManager) (w : world F) :
  storable c t (tm_schema tm) (tm_memtable tm) → tm_memtable tm ≠ [] →
  ∃ tm' w', flush (tm, w) = (Ok tt, (tm', w')) ∧ tm_memtable tm' = [] ∧
    length (tm_summaries tm') = S (length (tm_summaries tm)) ∧
    "Error writing in Data file" ∈ w_log w'.
Proof.
  intros Hst Hne. destruct (tm_memtable tm) as [|[k r] rows] eqn:Hm; [done|].
  destruct (TableBuilder_new_fails c t (tm_base_path tm) (tm_table_name tm) (tm_schema tm)
              (tm_current_sstable_id tm) k r rows w Hst) as ([[sfd ifd] dfd] & summary & w1 & Hnew & Hlog).
  unfold flush, get_state. erewrite M_bind_ok by reflexivity. cbn beta iota. rewrite Hm.
  erewrite M_bind_ok by (unfold on_world, zoom; cbn [snd fst]; by rewrite Hnew).
  cbn beta iota. erewrite M_bind_ok by reflexivity.
  eexists _, _. split; [reflexivity|]. split; [done|]. cbn. rewrite length_app. split; [simpl; lia|done].
Qed.
End failing.

(** *** The example table *)

Import MemFS.

Lemma example_table_ok : table_ok INT (MkType INT 4) example_schema.
Proof.
  split; [apply example_schema_wf|done|done|done|by eexists|]. apply leb_complete. done.
Defined.

Definition example_table : TableManager := TableManager_new "db" "races" example_schema [].

Lemma example_represents :
  represents INT (MkType INT 4) [] (MkStore None []) example_table example_world.
Proof. apply TableManager_new_represents; [apply example_table_ok|vm_compute; done]. Qed.

Definition row (k : Z) (name : string) : Record_ :=
  [Some (ASCIIData "TdF"); Some (IntData k); Some (ASCIIData name)].

Lemma table_refines_store_witness :
  let qs := [Put (row 1 "Alice"); Put (row 2 "Marco"); Get (IntData 1); Put (row 1 "Sofia");
             Put (row 3 "Jonas"); Get (IntData 1); Get (IntData 4); Put []] in
  ∃ gens' tm' w', serve_all (λ _, xff) qs (example_table, example_world) =
      (Ok (store_serve_all (tm_schema example_table) qs (MkStore None [])).1, (tm', w')) ∧
    represents INT (MkType INT 4) gens'
      (store_serve_all (tm_schema example_table) qs (MkStore None [])).2 tm' w'.
Proof.
  apply (table_refines_store _ INT (MkType INT 4) []).
  - apply example_represents.
  - repeat constructor;
      try (intros d Hd; vm_compute in Hd; congruence || (injection Hd as <-; reflexivity));
      try (eexists; split; [reflexivity|]); vm_compute; repeat split; congruence.
  - vm_compute. lia.
  - vm_compute. congruence.
Defined.

Lemma example_pending :
  represents INT (MkType INT 4) [] (MkStore (Some (Some (IntData 1), row 1 "Alice")) [])
    (set_memtable [(Some (IntData 1), row 1 "Alice")] example_table) example_world.
Proof.
  apply (represents_memtable _ _ _ _ _ _ (Some (Some (IntData 1), row 1 "Alice")) example_represents).
  split.
  - eexists. split; [reflexivity|]. vm_compute. repeat split; congruence.
  - repeat constructor; (eexists; split; [reflexivity|]); vm_compute; repeat split; congruence.
Qed.

(** A table reopened on the example sstable. *)
Definition example_reopened : TableManager :=
  TableManager_new "db" "races" example_schema
    [sstable_summary (MkType INT 4) example_schema example_rows].

Lemma example_reopened_represents :
  represents INT (MkType INT 4) [example_rows] (MkStore None example_rows)
    example_reopened example_written.
Proof.
  destruct example_on_disk as (Hod & _ & Hdirs).
  split; [apply example_table_ok|rewrite Hdirs; vm_compute; done|done..| |done|].
  - intros [|id] rows Hid; [|done]. injection Hid as <-.
    split; [apply example_storable|done|vm_compute; lia|exact Hod|done].
  - intros k _. unfold gens_lookup. by rewrite reverse_singleton.
Qed.

Lemma read_your_write_witness :
  let junk := λ _ : Z, xff in
  ∃ st st', write_record (row 2 "Marco")
              (set_memtable [(Some (IntData 1), row 1 "Alice")] example_table, example_world) =
              (Ok tt, st) ∧
            read_record junk (Some (IntData 2)) st = (Ok (row 2 "Marco"), st').
Proof.
  apply (read_your_write _ INT _ _ _ _ _ _ _ example_pending).
  - repeat constructor; (eexists; split; [reflexivity|]); vm_compute; repeat split; congruence.
  - done.
  - done.
  - intros e [= <-]. done.
  - vm_compute. lia.
  - done.
Defined.

Lemma lost_update_witness :
  let junk := λ _ : Z, xff in
  ∃ st st', write_record (row 1 "Sofia")
              (set_memtable [(Some (IntData 1), row 1 "Alice")] example_table, example_world) =
              (Ok tt, st) ∧
            read_record junk (Some (IntData 1)) st = (Ok (row 1 "Alice"), st').
Proof.
  apply (lost_update _ INT _ _ _ _ _ _ _ (Some (IntData 1), row 1 "Alice") example_pending).
  - repeat constructor; (eexists; split; [reflexivity|]); vm_compute; repeat split; congruence.
  - done.
  - done.
  - done.
  - done.
  - vm_compute. lia.
  - done.
Defined.

Lemma read_record_leaks_witness :
  let junk := λ _ : Z, xff in
  ∃ n w', (read_record junk (Some (IntData 1)) (example_reopened, example_written)).2 =
            (example_reopened, w') ∧
          leaks n example_written w' ∧ (1 ≤ n ≤ length [example_rows] + 1)%nat.
Proof.
  apply (read_record_leaks (λ _ : Z, xff) INT _ _ _ _ _ (IntData 1) example_reopened_represents).
  - vm_compute. repeat split; congruence.
  - reflexivity.
  - congruence.
  - exact I.
  - rewrite (proj1 (proj2 example_on_disk)). vm_compute. lia.
Defined.

(** A full disk. *)
Definition full_posix : PosixFS fsview := {|
  sys_open := mem_open;
  sys_read := mem_read;
  sys_write _ _ v := (-1, v);
  sys_lseek := mem_lseek;
  sys_close fd v := with_fds (delete fd (v_fds v)) v;
  sys_mkdir := mem_mkdir;
  sys_opendir path v := bool_decide (path ∈ v_dirs v)
|}.

Lemma flush_failed_write_witness :
  let tm := set_memtable example_rows example_table in
  ∃ tm' w', flush (H := full_posix) (tm, example_world) = (Ok tt, (tm', w')) ∧
    tm_memtable tm' = [] ∧ length (tm_summaries tm') = S (length (tm_summaries tm)) ∧
    "Error writing in Data file" ∈ w_log w'.
Proof.
  apply (flush_failed_write (H := full_posix) (λ _ _ _, eq_refl) INT (MkType INT 4));
    [apply example_storable|done].
Defined.
