(* ===== verification/Database.v ===== *)
(** * [db::Database]: the tables of a directory

    Models [include/db/database.hh] and [lib/db/database.cc]: an ordered map
    from names to table managers, the metadata file that lists the tables, its
    loading by the constructor and its writing by the destructor.

    [closedir] of the null pointer [opendir] returned is taken to do nothing. *)

From Stdlib Require Import ZArith Lia Strings.Byte Ascii String.
From stdpp Require Import base list list_numbers strings gmap pretty sorting.
From S2P Require Import Prelude Buffer OrdMap Data Catalog IndexPage Summary FileSystem Disk Sstable TableManager.

Local Open Scope Z_scope.

(** [std::less<std::string>] as a comparison that may throw *)
Definition str_cmp (a b : string) : outcome bool := Ok (str_before a b).

Record Database := MkDb {
  db_base_path : string;
  db_table_managers : list (string * TableManager)   (* std::map *)
}.

Definition metadata_path (base_path : string) : string := base_path +:+ "/" +:+ "metadata.meta".

(** Writing through the iterator [find] returned. *)
Fixpoint set_manager (name : string) (tm : TableManager) (m : list (string * TableManager)) :
    list (string * TableManager) :=
  match m with
  | [] => []
  | (n, old) :: m => if String.eqb n name then (n, tm) :: m else (n, old) :: set_manager name tm m
  end.

Section database.
Context {F : Type} `{PosixFS F}.
Context (junk : Z → byte).

Abbreviation DB := (M (Database * world F)).

Definition in_os {A} : M (world F) A → DB A := zoom snd (λ w s, (s.1, w)).

(** ** The constructor *)

(** The summaries of a table's sstables, from number [i] on. *)
Fixpoint load_summaries (base_path table_name : string) (n : nat) (i : Z) :
    M (world F) (list Summary) :=
  match n with
  | O => mret []
  | S n =>
      summary ← load_summary junk base_path table_name i;
      summaries ← load_summaries base_path table_name n (i + 1);
      mret (summary :: summaries)
  end.

Definition open_table (base_path : string) (table : Table) : M (world F) TableManager :=
  summaries ← load_summaries base_path (tbl_name table)
                (Z.to_nat (tbl_last_sstable_id table)) 0;
  mret (TableManager_new base_path (tbl_name table)
          (MkSchema (m_sort_key_index (tbl_schema table))
                    (m_partition_key_index (tbl_schema table)) (m_fields (tbl_schema table)))
          summaries).

(** The loop over the metadata: every descriptor read takes at least one byte,
    so [length] iterations are enough. *)
Fixpoint open_tables (fuel : nat) (base_path : string) (length : Z) (b : buffer)
    (managers : list (string * TableManager)) : M (world F) (list (string * TableManager)) :=
  match fuel with
  | O => mret managers
  | S fuel =>
      if MemoryBuffer_offset b <? length then
        '(table, b) ← run_on b Table_from;
        table_manager ← open_table base_path table;
        managers ← lift (map_insert str_cmp (tbl_name table) table_manager managers);
        open_tables fuel base_path length b managers
      else mret managers
  end.

(** The [uint32_t] at the start of the file; it was set to 0 before [read]. *)
Definition read_length (fd : Z) : M (world F) (Z * Z) :=
  '(rc, bs) ← os_read fd 4;
  mret (s32 rc, le_value (bs ++ replicate (4 - Datatypes.length bs) x00)).

Definition Database_new (base_path : string) : M (world F) Database :=
  dir ← os_opendir base_path;
  (if (dir : bool) then mret tt else os_mkdir base_path);;
  fd ← os_open (metadata_path base_path) O_RDWR_CREAT;
  '(rc, length) ← read_length fd;
  if negb (rc =? 4) || (length =? 0) then mret (MkDb base_path []) else
  '(_, bs) ← os_read fd length;
  os_close fd;;
  managers ← open_tables (S (Z.to_nat length)) base_path length
               (MemoryBuffer_from (filled junk length bs) length) [];
  mret (MkDb base_path managers).

(** ** Tables *)

Definition create_table (table_name : string) (schema : Schema) : DB unit :=
  '(db, _) ← get_state;
  in_os (os_mkdir (db_base_path db +:+ "/" +:+ table_name));;
  let table_manager := TableManager_new (db_base_path db) table_name
    (MkSchema (m_sort_key_index schema) (m_partition_key_index schema) (m_fields schema)) [] in
  managers ← lift (map_insert str_cmp table_name table_manager (db_table_managers db));
  modify (λ s, (MkDb (db_base_path db) managers, s.2)).

(** A call on the manager [find] returned: its state is written back, whether
    the call returns or throws. *)
Definition on_table {A} (name : string) (tm : TableManager)
    (m : M (TableManager * world F) A) : DB A :=
  λ s, let '(o, (tm', w)) := m (tm, s.2) in
       (o, (MkDb (db_base_path s.1) (set_manager name tm' (db_table_managers s.1)), w)).

Definition Database_read_record (table_name : string) (data : option Data) : DB Record_ :=
  '(db, _) ← get_state;
  it ← lift (map_find str_cmp table_name (db_table_managers db));
  match it with
  | Some (name, tm) => on_table name tm (read_record junk data)
  | None => throw uncomparable_type_error
  end.

(** A missing table is ignored. *)
Definition Database_write_record (table_name : string) (record : Record_) : DB unit :=
  '(db, _) ← get_state;
  it ← lift (map_find str_cmp table_name (db_table_managers db));
  match it with
  | Some (name, tm) => on_table name tm (write_record record)
  | None => mret tt
  end.

(** The iterator is not compared with [end()]. *)
Definition read_schema (table_name : string) : DB Schema :=
  '(db, _) ← get_state;
  it ← lift (map_find str_cmp table_name (db_table_managers db));
  match it with
  | Some (_, tm) => mret (tm_schema tm)
  | None => lift (Undef EndIterator)
  end.

(** ** The metadata *)

Definition table_of (e : string * TableManager) : Table :=
  MkTable e.1
    (MkSchema (m_sort_key_index (tm_schema e.2)) (m_partition_key_index (tm_schema e.2))
              (m_fields (tm_schema e.2)))
    (tm_current_sstable_id e.2).

(** [length] bytes of the [length + 4] are written. *)
Definition flush_metadata : DB unit :=
  '(db, _) ← get_state;
  let tables := table_of <$> db_table_managers db in
  let length := fold_left (λ length table, u64 (length + Table_size table)) tables 0 in
  metadata ← to_bytes (u64 (length + 4))
               (put_uint32 (u32 length);; for_each Table_bytes tables);
  fd ← in_os (os_open (metadata_path (db_base_path db)) O_WRONLY);
  rc ← in_os (os_write fd (take (Z.to_nat length) metadata));
  in_os (os_close fd);;
  if negb (s32 rc =? s32 length)
  then in_os (log_err "Error writing Metadata") else mret tt.
End database.

(** ** The order of names *)

#[export] Instance str_order : CmpOrder str_cmp (λ _, True) str_before.
Proof.
  split; unfold str_before; intros; rewrite ?negb_true_iff, ?negb_false_iff in *.
  - done.
  - apply leb_refl.
  - by eapply leb_false_trans.
  - by eapply leb_true_trans.
Qed.

Lemma keq_str a b : keq str_before a b = true ↔ a = b.
Proof.
  unfold keq, str_before. rewrite andb_true_iff, !negb_true_iff, !negb_false_iff.
  split; [intros [H1 H2]|intros ->; split; apply leb_refl].
  by apply String.leb_antisym.
Qed.

Abbreviation managers_wf := (map_wf (λ _ : string, True) str_before).

Lemma lookup_name (name : string) (m : list (string * TableManager)) e :
  managers_wf m → lookup_key str_before name m = Some e ↔ e ∈ m ∧ e.1 = name.
Proof.
  intros Hwf. rewrite (lookup_key_Some str_cmp (λ _, True) str_before) by done.
  rewrite keq_str. split; intros [? ?]; by split.
Qed.

(** Writing back the manager of a name. *)
Lemma set_manager_ok name tm tm' (m : list (string * TableManager)) :
  managers_wf m → (name, tm) ∈ m →
  managers_wf (set_manager name tm' m) ∧
  ∀ n x, (n, x) ∈ set_manager name tm' m ↔ (n = name ∧ x = tm') ∨ (n ≠ name ∧ (n, x) ∈ m).
Proof.
  intros Hwf Hin. assert ((set_manager name tm' m).*1 = m.*1) as Hkeys.
  { clear. induction m as [|[n old] m IH]; [done|]. cbn. destruct (String.eqb n name); csimpl; [done|].
    by rewrite IH. }
  assert (NoDup m.*1) as Hnd.
  { clear -Hwf. destruct Hwf as [_ Ho]. induction Ho as [|e l _ IH Hall]; [constructor|].
    csimpl. constructor; [|done]. intros (e' & He & Hin')%list_elem_of_fmap.
    rewrite Forall_forall in Hall. specialize (Hall _ Hin'). rewrite <- He in Hall.
    unfold str_before in Hall. by rewrite leb_refl in Hall. }
  split.
  - split; [by apply Forall_true|]. destruct Hwf as [_ Ho]. unfold ordered in *.
    clear -Ho Hkeys. revert Hkeys. generalize (set_manager name tm' m).
    induction Ho as [|e l Ho IH Hall]; intros [|e' l'] Hk; try done; [constructor|].
    csimpl in *. injection Hk as He Hk. constructor; [by apply IH|].
    apply (Forall_fmap fst (λ k, str_before e'.1 k = true)). rewrite Hk, He.
    by apply (Forall_fmap fst (λ k, str_before e.1 k = true)).
  - clear Hkeys Hwf. intros n x. induction m as [|[n0 old] m IH]; [by apply elem_of_nil in Hin|].
    csimpl in *. apply NoDup_cons in Hnd as [Hn0 Hnd]. cbn.
    destruct (String.eqb_spec n0 name) as [->|Hne].
    + rewrite !elem_of_cons. split.
      * intros [[= -> ->]|Hx]; [by left|right; split; [|by right]].
        intros ->. apply Hn0. apply list_elem_of_fmap. by exists (name, x).
      * intros [[-> ->]|[Hne [[= -> ->]|Hx]]]; [by left|done|by right].
    + apply elem_of_cons in Hin as [[= -> ->]|Hin]; [done|]. rewrite !elem_of_cons, IH by done.
      clear -Hne. intuition congruence.
Qed.

(** ** The abstract database: a schema and a store per name *)

Definition key_type (schema : Schema) : option Type_ :=
  f_type <$> m_fields schema !! Z.to_nat (m_sort_key_index schema).

Inductive db_request :=
| DbCreate (name : string) (schema : Schema)
| DbGet (name : string) (key : Data)
| DbPut (name : string) (record : Record_).

Inductive db_reply := Created (o : outcome unit) | Answered (a : reply).

(** A missing table: a read throws, a write is ignored. *)
Definition missing_reply (q : request) : reply :=
  match q with
  | Get _ => GetReply (Throw uncomparable_type_error)
  | Put _ => PutReply (Ok tt)
  end.

Definition abs_request (σ : gmap string (Schema * store)) (name : string) (q : request) :
    db_reply * gmap string (Schema * store) :=
  match σ !! name with
  | Some (schema, s) => let '(a, s') := store_serve schema q s in
                        (Answered a, <[name := (schema, s')]> σ)
  | None => (Answered (missing_reply q), σ)
  end.

Definition abs_step (σ : gmap string (Schema * store)) (q : db_request) :
    db_reply * gmap string (Schema * store) :=
  match q with
  | DbCreate name schema =>
      (Created (Ok tt), match σ !! name with
                        | Some _ => σ
                        | None => <[name := (schema, MkStore None [])]> σ
                        end)
  | DbGet name key => abs_request σ name (Get key)
  | DbPut name record => abs_request σ name (Put record)
  end.

Fixpoint abs_run (σ : gmap string (Schema * store)) (qs : list db_request) :
    list db_reply * gmap string (Schema * store) :=
  match qs with
  | [] => ([], σ)
  | q :: qs => let '(a, σ1) := abs_step σ q in
               let '(answers, σ2) := abs_run σ1 qs in (a :: answers, σ2)
  end.

(** Requests within the documented use: table names are file names other than
    the one of the metadata, schemas have a comparable sort key of moderate
    length, values are well formed. *)
Definition table_request_ok (σ : gmap string (Schema * store)) (name : string) (q : request) :
    Prop :=
  ∀ schema s t, σ !! name = Some (schema, s) → key_type schema = Some t →
    request_ok (t_id t) schema q.

Definition db_request_ok (σ : gmap string (Schema * store)) (q : db_request) : Prop :=
  match q with
  | DbCreate name schema =>
      is_file_name name = true ∧ name ≠ "metadata.meta" ∧
      ∃ t, key_type schema = Some t ∧ table_ok (t_id t) t schema
  | DbGet name key => table_request_ok σ name (Get key)
  | DbPut name record => table_request_ok σ name (Put record)
  end.

Fixpoint db_requests_ok (σ : gmap string (Schema * store)) (qs : list db_request) : Prop :=
  match qs with
  | [] => True
  | q :: qs => db_request_ok σ q ∧ db_requests_ok (abs_step σ q).2 qs
  end.

Section refinement.
Context {F : Type} `{PosixSpec F}.
Variable junk : Z → byte.
Implicit Types (w : world F) (σ : gmap string (Schema * store)).

Definition db_serve (q : db_request) : M (Database * world F) db_reply :=
  λ st, match q with
        | DbCreate name schema =>
            let '(o, st') := create_table name schema st in (Ok (Created o), st')
        | DbGet name key =>
            let '(o, st') := Database_read_record junk name (Some key) st in
            (Ok (Answered (GetReply o)), st')
        | DbPut name record =>
            let '(o, st') := Database_write_record name record st in
            (Ok (Answered (PutReply o)), st')
        end.

Fixpoint db_serve_all (qs : list db_request) : M (Database * world F) (list db_reply) :=
  match qs with
  | [] => mret []
  | q :: qs => a ← db_serve q; answers ← db_serve_all qs; mret (a :: answers)
  end.

(** A manager that represents a store under the name [name], with at most [n]
    sstables. *)
Definition table_represents (n : nat) (base name : string) (schema : Schema) (s : store)
    (tm : TableManager) w : Prop :=
  is_file_name name = true ∧ tm_base_path tm = base ∧ tm_table_name tm = name ∧
  tm_schema tm = schema ∧
  ∃ t gens, key_type schema = Some t ∧ (length gens ≤ n)%nat ∧
            represents (t_id t) t gens s tm w.

(** The directory of a database: it exists, and its only file of its own is the
    metadata. *)
Definition db_dir (base : string) w : Prop :=
  base ≠ "" ∧ base ∈ dirs w ∧
  ∀ name, no_slash name = true → name ≠ "metadata.meta" → files w !! (base +:+ "/" +:+ name) = None.

Record db_represents (n : nat) σ (db : Database) w : Prop := {
  dr_base : db_dir (db_base_path db) w;
  dr_order : managers_wf (db_table_managers db);
  dr_tables : ∀ name schema s, σ !! name = Some (schema, s) → ∃ tm,
    (name, tm) ∈ db_table_managers db ∧
    table_represents n (db_base_path db) name schema s tm w;
  dr_names : ∀ name tm, (name, tm) ∈ db_table_managers db → is_Some (σ !! name)
}.

(** *** Tables do not interfere *)

Lemma slash_split n n' x x' :
  no_slash n = true → no_slash n' = true → n +:+ "/" +:+ x = n' +:+ "/" +:+ x' → n = n'.
Proof.
  revert n'. induction n as [|a n IH]; intros [|a' n'] Hn Hn' Heq; [done| | |].
  - injection Heq as <- _. done.
  - injection Heq as -> _. done.
  - injection Heq as -> Heq. apply andb_true_iff in Hn as [_ Hn], Hn' as [_ Hn'].
    f_equal. by apply IH.
Qed.

Lemma table_file_name base name name' path :
  no_slash name = true → no_slash name' = true →
  table_file base name path → table_file base name' path → name = name'.
Proof.
  intros Hn Hn' (kind & id & _ & ->) (kind' & id' & _ & Heq). unfold sstable_path in Heq.
  rewrite !str_app_assoc in Heq. do 2 apply str_app_inj_l in Heq.
  by eapply slash_split.
Qed.

(** The files of a table are not in the directory of the database itself. *)
Lemma table_file_below base name path name' :
  table_file base name path → no_slash name' = true → path ≠ base +:+ "/" +:+ name'.
Proof.
  intros (kind & id & _ & ->) Hn Heq. unfold sstable_path in Heq.
  rewrite !str_app_assoc in Heq. do 2 apply str_app_inj_l in Heq.
  rewrite <- Heq, !no_slash_app in Hn.
  apply andb_true_iff in Hn as [_ Hn]. discriminate Hn.
Qed.

Lemma db_dir_world base w w' :
  db_dir base w → dirs w ⊆ dirs w' →
  (∀ name, no_slash name = true → name ≠ "metadata.meta" →
     files w' !! (base +:+ "/" +:+ name) = files w !! (base +:+ "/" +:+ name)) →
  db_dir base w'.
Proof.
  intros (Hne & Hin & Hfree) Hd Hf. split; [done|]. split; [by apply Hd|].
  intros name Hn Hm. rewrite Hf; auto.
Qed.

(** A world with the same table files and at least the same directories. *)
Lemma represents_world c t gens s tm w w' :
  represents c t gens s tm w → dirs w ⊆ dirs w' →
  (∀ path, table_file (tm_base_path tm) (tm_table_name tm) path → files w' !! path = files w !! path) →
  represents c t gens s tm w'.
Proof.
  intros [? ? ? ? ? ? Hgens ? ?] Hd Hf. split; try done; [by apply Hd|]. intros id rows Hid.
  destruct (Hgens _ _ Hid) as [? ? ? Hod ?]. split; try done. eapply on_disk_files; [|exact Hod].
  intros kind Hk. apply Hf. by exists kind, (Z.of_nat id).
Qed.

Lemma table_represents_world n base name schema s tm w w' :
  table_represents n base name schema s tm w → dirs w ⊆ dirs w' →
  (∀ path, table_file base name path → files w' !! path = files w !! path) →
  table_represents n base name schema s tm w'.
Proof.
  intros (Hn & Hb & Htn & Hs & t & gens & Hkt & Hg & Hr) Hd Hf.
  split_and!; try done. exists t, gens. split_and!; try done.
  eapply represents_world; [done|done|]. intros path. rewrite Hb, Htn. apply Hf.
Qed.

Lemma table_represents_mono n n' base name schema s tm w :
  (n ≤ n')%nat → table_represents n base name schema s tm w →
  table_represents n' base name schema s tm w.
Proof.
  intros Hn (? & ? & ? & ? & t & gens & ? & ? & ?). split_and!; try done.
  exists t, gens. split_and!; try done. lia.
Qed.

(** *** One request *)

Definition to_db (name : string) (q : request) : db_request :=
  match q with Get key => DbGet name key | Put record => DbPut name record end.

Lemma find_manager (m : list (string * TableManager)) name tm :
  managers_wf m → (name, tm) ∈ m → map_find str_cmp name m = Ok (Some (name, tm)).
Proof.
  intros Hwf Hin. rewrite (map_find_ok str_cmp (λ _, True) str_before) by done.
  f_equal. by apply lookup_name.
Qed.

(** A request on a table is the request on its manager. *)
Lemma db_serve_table (db : Database) w name tm q a tm' w' :
  managers_wf (db_table_managers db) → (name, tm) ∈ db_table_managers db →
  serve junk q (tm, w) = (Ok a, (tm', w')) →
  db_serve (to_db name q) (db, w) =
    (Ok (Answered a), (MkDb (db_base_path db) (set_manager name tm' (db_table_managers db)), w')).
Proof.
  intros Hwf Hin Hrun. pose proof (find_manager _ _ _ Hwf Hin) as Hfind.
  destruct q as [key|record]; unfold serve in Hrun; cbn [to_db db_serve];
    [unfold Database_read_record|unfold Database_write_record]; unfold get_state;
    (erewrite M_bind_ok by reflexivity); cbn beta iota; rewrite Hfind;
    (erewrite M_bind_ok by reflexivity); cbn beta iota; unfold on_table; cbn [fst snd].
  - destruct (read_record junk (Some key) (tm, w)) as [o [tm1 w1]]. by simplify_eq.
  - destruct (write_record record (tm, w)) as [o [tm1 w1]]. by simplify_eq.
Qed.

(** A request on a name without a table. *)
Lemma db_serve_missing (db : Database) w name q :
  managers_wf (db_table_managers db) → (∀ tm, (name, tm) ∉ db_table_managers db) →
  db_serve (to_db name q) (db, w) = (Ok (Answered (missing_reply q)), (db, w)).
Proof.
  intros Hwf Hno. assert (map_find str_cmp name (db_table_managers db) = Ok None) as Hfind.
  { rewrite (map_find_ok str_cmp (λ _, True) str_before) by done.
    destruct (lookup_key str_before name (db_table_managers db)) as [[n tm]|] eqn:Hl; [|done].
    apply lookup_name in Hl as [Hin Hn]; [|done]. simpl in Hn. subst. by destruct (Hno tm). }
  destruct q as [key|record]; cbn [to_db db_serve];
    [unfold Database_read_record|unfold Database_write_record]; unfold get_state;
    (erewrite M_bind_ok by reflexivity); cbn beta iota; rewrite Hfind;
    by erewrite M_bind_ok by reflexivity.
Qed.

(** Replacing the manager of one table. *)
Lemma db_represents_update n σ db w w' name tm tm' schema s s' :
  db_represents n σ db w → σ !! name = Some (schema, s) → (name, tm) ∈ db_table_managers db →
  table_represents (S n) (db_base_path db) name schema s' tm' w' → dirs w' = dirs w →
  (∀ path, ¬ table_file (db_base_path db) name path → files w' !! path = files w !! path) →
  db_represents (S n) (<[name := (schema, s')]> σ)
    (MkDb (db_base_path db) (set_manager name tm' (db_table_managers db))) w'.
Proof.
  intros [Hb Ho Ht Hn] Hσ Hin Hrep Hd Hf.
  destruct (set_manager_ok name tm tm' _ Ho Hin) as [Ho' Hset]. split; cbn [db_table_managers db_base_path].
  - eapply db_dir_world; [done|by rewrite Hd|]. intros name' Hn' _. apply Hf.
    intros Hp. by eapply table_file_below.
  - done.
  - intros name1 schema1 s1 Hσ1. destruct (decide (name = name1)) as [<-|Hne].
    + rewrite lookup_insert_eq in Hσ1. simplify_eq. exists tm'. split; [by apply Hset; left|done].
    + rewrite lookup_insert_ne in Hσ1 by done. destruct (Ht _ _ _ Hσ1) as (tm1 & Hin1 & Hrep1).
      exists tm1. split; [apply Hset; by right|].
      eapply table_represents_mono; [|eapply table_represents_world; [exact Hrep1|by rewrite Hd|]]; [lia|].
      intros path Hp. apply Hf. intros Hp'. apply Hne.
      eapply table_file_name; [apply file_name_slash, Hrep|apply file_name_slash, Hrep1|done|done].
  - intros name1 tm1 [[-> ->]|[Hne Hin1]]%Hset; [by rewrite lookup_insert_eq|].
    rewrite lookup_insert_ne by done. by eapply Hn.
Qed.

Lemma db_table_request n σ db w name q :
  db_represents n σ db w → table_request_ok σ name q →
  (size (fds w) + n + 3 ≤ fd_max)%nat → Z.of_nat n + 1 < 2 ^ 62 →
  ∃ db' w', db_serve (to_db name q) (db, w) = (Ok (abs_request σ name q).1, (db', w')) ∧
    db_represents (S n) (abs_request σ name q).2 db' w' ∧
    db_base_path db' = db_base_path db ∧ (size (fds w') ≤ size (fds w) + n + 1)%nat.
Proof.
  intros Hdb Hq Hroom Hcount. pose proof Hdb as [Hbase Ho Ht Hn]. unfold abs_request.
  destruct (σ !! name) as [[schema s]|] eqn:Hσ.
  - destruct (Ht _ _ _ Hσ) as (tm & Hin & (Hslash & Hb & Htn & Hsch & t & gens & Hkt & Hlen & Hrep)).
    subst schema. destruct (serve_ok junk (t_id t) t gens s tm w q Hrep)
      as (gens' & tm' & w' & Hrun & Hrep' & (Hb' & Htn' & Hsch') & Hlen' & Hfds & Hd & Hf);
      [by eapply Hq|lia|unfold zlen; lia|].
    destruct (store_serve (tm_schema tm) q s) as [a s']. cbn [fst snd] in *.
    eexists _, w'. split; [by eapply db_serve_table|]. split; [|split; [done|lia]].
    eapply db_represents_update; try done; [|by rewrite <- Hb, <- Htn].
    split_and!; try congruence. exists t, gens'. split_and!; try done. lia.
  - rewrite db_serve_missing; [|done|].
    + exists db, w. split; [done|]. split; [|split; [done|lia]]. split; try done.
      intros name1 schema1 s1 Hσ1. destruct (Ht _ _ _ Hσ1) as (tm & Hin & Hrep).
      exists tm. split; [done|]. eapply table_represents_mono; [|done]. lia.
    + intros tm Hin. destruct (Hn _ _ Hin). congruence.
Qed.

Lemma schema_eta schema :
  MkSchema (m_sort_key_index schema) (m_partition_key_index schema) (m_fields schema) = schema.
Proof. by destruct schema. Qed.

(** The managers after an insertion. *)
Lemma create_manager (db : Database) w name schema w1 :
  managers_wf (db_table_managers db) →
  os_mkdir (db_base_path db +:+ "/" +:+ name) w = (Ok tt, w1) →
  ∃ managers, create_table name schema (db, w) = (Ok tt, (MkDb (db_base_path db) managers, w1)) ∧
    managers_wf managers ∧
    ∀ n tm, (n, tm) ∈ managers ↔ (n, tm) ∈ db_table_managers db ∨
      (n = name ∧ tm = TableManager_new (db_base_path db) name schema [] ∧
       ∀ tm', (name, tm') ∉ db_table_managers db).
Proof.
  intros Hwf Hmk. set (tm0 := TableManager_new (db_base_path db) name schema []).
  assert (∀ managers, map_insert str_cmp name tm0 (db_table_managers db) = Ok managers →
    create_table name schema (db, w) = (Ok tt, (MkDb (db_base_path db) managers, w1))) as Hrun.
  { intros managers Hins. unfold create_table, get_state. erewrite M_bind_ok by reflexivity.
    cbn beta iota. erewrite M_bind_ok by (unfold in_os, zoom; cbn [fst snd]; by rewrite Hmk).
    rewrite schema_eta. fold tm0. rewrite Hins. by erewrite M_bind_ok by reflexivity. }
  pose proof (map_insert_ok str_cmp (λ _, True) str_before name tm0 _ I Hwf) as Hins.
  destruct (lookup_key str_before name (db_table_managers db)) as [[n1 tm1]|] eqn:Hl.
  - exists (db_table_managers db). split; [by apply Hrun|]. split; [done|].
    apply lookup_name in Hl as [Hin Heq]; [|done]. simpl in Heq. subst n1.
    intros n tm. split; [by left|]. intros [Hin'|(_ & _ & Hno)]; [done|by destruct (Hno tm1)].
  - destruct Hins as (l & r & Hlr & Hins & Hwf'). eexists. split; [by apply Hrun|]. split; [done|].
    assert (∀ tm', (name, tm') ∉ db_table_managers db) as Hno.
    { intros tm' Hin. apply lookup_key_None in Hl. rewrite Forall_forall in Hl.
      specialize (Hl _ Hin). simpl in Hl. assert (keq str_before name name = true) by (by apply keq_str).
      congruence. }
    intros n tm. rewrite Hlr, !elem_of_app, elem_of_cons. rewrite Hlr in Hno. clear -Hno.
    split; [|intuition congruence]. intros [?|[[= -> ->]|?]]; auto.
Qed.

(** The result of [mkdir] is not looked at: without the directory of the
    database a table is created, but not the directory its files go to. *)
Lemma create_table_orphan (db : Database) w name schema :
  managers_wf (db_table_managers db) → db_base_path db ≠ "" → db_base_path db ∉ dirs w →
  is_file_name name = true →
  ∃ db' w', create_table name schema (db, w) = (Ok tt, (db', w')) ∧
    files w' = files w ∧ dirs w' = dirs w ∧ ∃ tm, (name, tm) ∈ db_table_managers db'.
Proof.
  intros Hwf Hne Hno Hn.
  destruct (os_mkdir_orphan (db_base_path db) name w Hne Hn Hno) as (w1 & Hmk & Hf & _ & _ & Hd).
  destruct (create_manager db w name schema w1 Hwf Hmk) as (managers & Hrun & _ & Helem).
  exists (MkDb (db_base_path db) managers), w1. split_and!; try done.
  destruct (lookup_key str_before name (db_table_managers db)) as [[n tm]|] eqn:Hl.
  - apply lookup_name in Hl as [Hin Heq]; [|done]. simpl in Heq. subst n. exists tm. apply Helem. by left.
  - eexists. apply Helem. right. split; [done|]. split; [done|]. intros tm' Hin.
    assert (lookup_key str_before name (db_table_managers db) = Some (name, tm')) by by apply lookup_name.
    congruence.
Qed.

Lemma db_create n σ db w name schema :
  db_represents n σ db w → db_request_ok σ (DbCreate name schema) →
  ∃ db' w', create_table name schema (db, w) = (Ok tt, (db', w')) ∧
    db_represents (S n) (abs_step σ (DbCreate name schema)).2 db' w' ∧
    db_base_path db' = db_base_path db ∧ size (fds w') = size (fds w).
Proof.
  intros [Hb Ho Ht Hn] (Hslash & Hmeta & t & Hkt & Hok).
  destruct (os_mkdir_ok (db_base_path db +:+ "/" +:+ name) w) as (w1 & Hmk & Hf & Hfd & _ & Hd).
  { destruct Hb as (Hne & Hin & Hfree). split; [by apply Hfree; [apply file_name_slash|]|].
    right. by exists (db_base_path db), name. }
  assert (db_dir (db_base_path db) w1) as Hb1.
  { eapply db_dir_world; [done|rewrite Hd; apply union_subseteq_r|by rewrite Hf]. }
  destruct (create_manager db w name schema w1 Ho Hmk) as (managers & Hrun & Hwf & Helem).
  exists (MkDb (db_base_path db) managers), w1. split; [done|]. split; [|by rewrite Hfd].
  assert (∀ name1 schema1 s1, σ !! name1 = Some (schema1, s1) → ∃ tm,
    (name1, tm) ∈ managers ∧ table_represents (S n) (db_base_path db) name1 schema1 s1 tm w1) as Hold.
  { intros name1 schema1 s1 Hσ1. destruct (Ht _ _ _ Hσ1) as (tm & Hin & Hrep).
    exists tm. split; [apply Helem; by left|].
    eapply table_represents_mono; [|eapply table_represents_world; [exact Hrep|rewrite Hd|]];
      [lia|apply union_subseteq_r|by rewrite Hf]. }
  cbn [abs_step snd]. destruct (σ !! name) as [[schema0 s0]|] eqn:Hσ.
  - split; [done|done|done|]. intros n1 tm1 [Hin|(-> & _)]%Helem; [by eapply Hn|by eexists].
  - split; [done|done| |].
    + intros name1 schema1 s1 Hσ1. destruct (decide (name = name1)) as [<-|Hne].
      * rewrite lookup_insert_eq in Hσ1. simplify_eq.
        exists (TableManager_new (db_base_path db) name schema1 []). split.
        { apply Helem. right. split_and!; try done. intros tm' Hin. destruct (Hn _ _ Hin). congruence. }
        split_and!; try done. exists t, []. split_and!; [done|simpl; lia|].
        apply TableManager_new_represents; [done|]. rewrite Hd.
        by apply elem_of_union_l, elem_of_singleton_2.
      * rewrite lookup_insert_ne in Hσ1 by done. by apply Hold.
    + intros n1 tm1 [Hin|(-> & _)]%Helem; [|by rewrite lookup_insert_eq].
      destruct (decide (name = n1)) as [<-|]; [by rewrite lookup_insert_eq|].
      rewrite lookup_insert_ne by done. by eapply Hn.
Qed.

Lemma db_serve_ok n σ db w q :
  db_represents n σ db w → db_request_ok σ q →
  (size (fds w) + n + 3 ≤ fd_max)%nat → Z.of_nat n + 1 < 2 ^ 62 →
  ∃ db' w', db_serve q (db, w) = (Ok (abs_step σ q).1, (db', w')) ∧
    db_represents (S n) (abs_step σ q).2 db' w' ∧
    db_base_path db' = db_base_path db ∧ (size (fds w') ≤ size (fds w) + n + 1)%nat.
Proof.
  intros Hdb Hq Hroom Hcount. destruct q as [name schema|name key|name record].
  - destruct (db_create n σ db w name schema Hdb Hq) as (db' & w' & Hrun & Hrep & Hb & Hf).
    exists db', w'. cbn [db_serve]. rewrite Hrun. split_and!; try done. lia.
  - by apply (db_table_request n σ db w name (Get key)).
  - by apply (db_table_request n σ db w name (Put record)).
Qed.

(** ** Properties *)

(** C1 (refinement): a database answers every sequence of table creations, reads
    and writes as independent stores, one per name, do: a request changes its own
    table only, a read of a missing table throws, a write to a missing table is
    ignored, a second creation of a name keeps the first table.  The database is
    one that represents its stores: its base directory exists, and below it the
    directory and the files of each table.  The requests are those of
    [db_requests_ok]: new tables are named by file names other than that of the
    metadata, their schemas have a key a table can be ordered by, records and keys
    fit the schema of their table; and descriptors are left for all requests. *)
Theorem database_refines_stores (n : nat) (σ : gmap string (Schema * store)) (db : Database)
    (w : world F) (qs : list db_request) :
  db_represents n σ db w → db_requests_ok σ qs →
  (size (fds w) + length qs * (n + length qs + 1) + 3 ≤ fd_max)%nat →
  Z.of_nat n + zlen qs < 2 ^ 62 →
  ∃ db' w', db_serve_all qs (db, w) = (Ok (abs_run σ qs).1, (db', w')) ∧
    db_represents (n + length qs) (abs_run σ qs).2 db' w'.
Proof.
  revert n σ db w. induction qs as [|q qs IH]; intros n σ db w Hdb Hqs Hroom Hcount.
  { exists db, w. rewrite Nat.add_0_r. by split. }
  destruct Hqs as [Hq Hqs]. cbn [db_serve_all abs_run length] in *.
  assert (zlen (q :: qs) = 1 + zlen qs) as Hz by (unfold zlen; simpl; lia).
  pose proof (zlen_nonneg qs).
  destruct (db_serve_ok n σ db w q Hdb Hq) as (db1 & w1 & Hrun & Hdb1 & _ & Hf); [nia|lia|].
  erewrite M_bind_ok by exact Hrun. cbn beta.
  destruct (abs_step σ q) as [a σ1] eqn:Hs1. cbn [fst snd] in *.
  destruct (IH (S n) σ1 db1 w1 Hdb1 Hqs) as (db2 & w2 & Hrun2 & Hdb2); [nia|lia|].
  destruct (abs_run σ1 qs) as [answers σ2]. cbn [fst snd] in *. exists db2, w2.
  split; [by erewrite M_bind_ok by exact Hrun2|]. by rewrite Nat.add_succ_r.
Qed.
End refinement.

(** ** Starting and restarting *)

Section restart.
Context {F : Type} `{PosixSpec F}.
Variable junk : Z → byte.
Implicit Types (w : world F) (σ : gmap string (Schema * store)).

(** *** The first start *)

Lemma opendir_mkdir base w :
  base ∈ dirs w ∨ makeable base w →
  ∃ w', (dir ← os_opendir base; if (dir : bool) then mret tt else os_mkdir base) w = (Ok tt, w') ∧
        files w' = files w ∧ fds w' = fds w ∧ dirs w' = {[base]} ∪ dirs w ∧ w_log w' = w_log w.
Proof.
  intros Hbase. unfold os_opendir, mbind, M_bind. rewrite opendir_view. case_bool_decide as Hd.
  - exists w. split; [done|]. split; [done|]. split; [done|]. split; [|done].
    symmetry. apply subseteq_union_1_L, singleton_subseteq_l, Hd.
  - destruct Hbase as [|Hmake]; [done|].
    destruct (os_mkdir_ok base w Hmake) as (w' & Hmk & Hf & Hfd & Hl & Hdirs). by exists w'.
Qed.

(** A directory without metadata is a database without tables. *)
Lemma Database_new_empty base w :
  base ∈ dirs w ∨ makeable base w →
  files w !! metadata_path base = None → (size (fds w) < fd_max)%nat →
  ∃ w', Database_new junk base w = (Ok (MkDb base []), w') ∧ dirs w' = {[base]} ∪ dirs w ∧
        files w' = <[metadata_path base := []]> (files w) ∧
        size (fds w') = S (size (fds w)).
Proof.
  intros Hbase Hno Hroom. destruct (opendir_mkdir base w Hbase) as (w1 & Hrun1 & Hf1 & Hfd1 & Hd1 & _).
  destruct (open_create base "metadata.meta" O_RDWR_CREAT (w_fs w1)) as (fd & f2 & Ho & Hfd & Hnew & Hv).
  { done. }
  { fold (dirs w1). rewrite Hd1. by apply elem_of_union_l, elem_of_singleton_2. }
  { done. }
  { fold (files w1) (metadata_path base). by rewrite Hf1. }
  { fold (fds w1). by rewrite Hfd1. }
  fold (metadata_path base) in Ho, Hv. set (w2 := World f2 (w_log w1)).
  assert (files w2 = <[metadata_path base := []]> (files w) ∧ dirs w2 = dirs w1 ∧
          fds w2 = <[fd := (metadata_path base, 0)]> (fds w)) as (Hf2 & Hd2 & Hfd2).
  { unfold files, dirs, fds in *. cbn [w_fs w2]. rewrite Hv. cbn. by rewrite Hf1, Hfd1. }
  destruct (os_read_ok fd 4 (metadata_path base) 0 [] w2) as (w3 & Hread & Hf3 & Hd3 & _ & Hfd3);
    [by rewrite Hfd2, lookup_insert_eq|by rewrite Hf2, lookup_insert_eq|done..|].
  exists w3. split.
  - unfold Database_new. rewrite <- M_bind_assoc. erewrite M_bind_ok by exact Hrun1.
    erewrite M_bind_ok by (unfold os_open, lift_sys; by rewrite Ho).
    unfold read_length. rewrite M_bind_assoc. erewrite M_bind_ok by exact Hread. done.
  - rewrite Hd3, Hd2, Hd1, Hf3, Hf2, Hfd3, Hfd2, insert_insert_eq. split; [done|]. split; [done|].
    apply map_size_insert_None. fold (fds w1) in Hnew. by rewrite <- Hfd1.
Qed.

(** *** The metadata *)

Definition tables_of (db : Database) : list Table := table_of <$> db_table_managers db.
Definition metadata_of (db : Database) : list byte := concat (table_enc <$> tables_of db).

Lemma metadata_length db :
  Forall table_wf (tables_of db) → zlen (metadata_of db) < 2 ^ 31 →
  fold_left (λ length table, u64 (length + Table_size table)) (tables_of db) 0 = zlen (metadata_of db).
Proof.
  intros Hwf Hlen. unfold metadata_of in *. rewrite zlen_concat in *.
  assert (zsum (Table_size <$> tables_of db) = zsum ((λ x, zlen (table_enc x)) <$> tables_of db)) as Hsum.
  { apply zsum_ext. intros t Ht. rewrite Forall_forall in Hwf. by apply Table_size_ok, Hwf. }
  rewrite (fold_u64_sum Table_size); [by rewrite Hsum| |done|rewrite Hsum; lia].
  intros t Ht. rewrite Forall_forall in Hwf. rewrite Table_size_ok by (by apply Hwf). apply zlen_nonneg.
Qed.

(** What the destructor writes: the first [length] bytes of the prefixed
    metadata. *)
Lemma flush_metadata_ok db w old :
  Forall table_wf (tables_of db) → zlen (metadata_of db) + 4 < 2 ^ 31 →
  files w !! metadata_path (db_base_path db) = Some old → (size (fds w) < fd_max)%nat →
  let n := length (metadata_of db) in
  ∃ w', flush_metadata (db, w) = (Ok tt, (db, w')) ∧
    files w' = <[metadata_path (db_base_path db) :=
                   take n (le_bytes 4 (zlen (metadata_of db)) ++ metadata_of db) ++ drop n old]> (files w) ∧
    dirs w' = dirs w ∧ fds w' = fds w ∧ w_log w' = w_log w.
Proof.
  intros Hwf Hlen Hold Hroom n. set (path := metadata_path (db_base_path db)) in *.
  set (T := metadata_of db) in *. pose proof (zlen_nonneg T) as HT.
  set (out := take n (le_bytes 4 (zlen T) ++ T)).
  assert (length out = n) as Hout.
  { unfold out. rewrite length_take, length_app, length_le_bytes. unfold n. lia. }
  destruct (os_open_existing path O_WRONLY old w Hold Hroom)
    as (fd & w1 & Ho & Hfd & Hnew & Hf1 & Hd1 & Hl1 & Hfds1).
  assert (writing fd path old [] w1) as Hw1
    by (split; [done|]; rewrite Hfds1, Hf1, lookup_insert_eq; done).
  destruct (os_write_ok _ _ _ _ out _ Hw1) as (w2 & Hwrite & (_ & Hpos2 & Hc2) & (Hd2 & Hl2 & HF2 & HR2)).
  destruct (os_close_ok fd w2) as (w3 & Hclose & Hf3 & Hd3 & Hl3 & Hfds3).
  assert (zlen out = zlen T) as Hz by (unfold zlen; by rewrite Hout).
  exists w3. split.
  - unfold flush_metadata, get_state. erewrite M_bind_ok by reflexivity. cbn beta iota.
    fold (tables_of db). rewrite metadata_length by (done || (fold T; lia)). fold T.
    rewrite (wrap_small 64) by (unfold in_u; lia). rewrite (wrap_small 32) by (unfold in_u; lia).
    erewrite M_bind_ok.
    2: { apply (to_bytes_ok _ _ (le_bytes 4 (zlen T) ++ T)).
         - apply serializes_bind; [apply put_le_serializes; lia|]. apply serializes_for_each.
           intros t Ht. rewrite Forall_forall in Hwf. by apply Table_bytes_serializes, Hwf.
         - rewrite zlen_app, zlen_le_bytes. lia. }
    rewrite pad_full by (rewrite zlen_app, zlen_le_bytes; lia).
    erewrite M_bind_ok by (unfold in_os, zoom; cbn [fst snd]; fold path; by rewrite Ho).
    replace (Z.to_nat (zlen T)) with n by (unfold zlen, n; lia). fold out.
    erewrite M_bind_ok by (unfold in_os, zoom; cbn [fst snd]; by rewrite Hwrite).
    erewrite M_bind_ok by (unfold in_os, zoom; cbn [fst snd]; by rewrite Hclose).
    rewrite Hz, Z.eqb_refl. done.
  - split_and!; try congruence.
    + rewrite Hf3. apply map_eq. intros p. destruct (decide (path = p)) as [<-|Hne].
      * rewrite lookup_insert_eq, Hc2. cbn [app]. by rewrite Hout.
      * by rewrite lookup_insert_ne, HF2, Hf1.
    + rewrite Hfds3. apply map_eq. intros x. destruct (decide (fd = x)) as [<-|Hne].
      * by rewrite lookup_delete_eq.
      * by rewrite lookup_delete_ne, HR2, Hfds1, lookup_insert_ne.
Qed.

(** *** Loading the tables *)

(** What a restart makes of a manager: its memtable is gone. *)
Definition reopened (e : string * TableManager) : string * TableManager :=
  (e.1, set_memtable [] e.2).

Lemma load_summaries_ok c t gens tm w n i :
  table_ok c t (tm_schema tm) → length (tm_summaries tm) = length gens →
  (∀ id rows, gens !! id = Some rows → generation_ok c t tm w id rows) →
  (i + n = length gens)%nat → (size (fds w) + n ≤ fd_max)%nat →
  ∃ w', load_summaries junk (tm_base_path tm) (tm_table_name tm) n (Z.of_nat i) w =
          (Ok (drop i (tm_summaries tm)), w') ∧ leaks n w w'.
Proof.
  intros Ht Hlen. revert i w. induction n as [|n IH]; intros i w Hgens Hi Hroom.
  { exists w. rewrite drop_ge by lia. split; [done|apply leaks_refl]. }
  destruct (lookup_lt_is_Some_2 gens i ltac:(lia)) as [rows Hrows].
  pose proof (Hgens _ _ Hrows) as Hg. pose proof (generation_pages _ _ _ _ _ _ Hg Ht) as Hpages.
  pose proof Hg as [Hst Hne _ Hod Hsum]. destruct (od_summary _ _ _ _ _ _ _ Hod) as (content & Hc & Hpre).
  destruct (load_summary_ok junk (tm_base_path tm) (tm_table_name tm) (Z.of_nat i) content c
              (sstable_summary t (tm_schema tm) rows) w) as (w1 & Hload & Hl1); [done|done| | |lia|].
  { by apply sstable_summary_wf. }
  { unfold sstable_summary. by rewrite Hpages. }
  destruct (IH (S i) w1) as (w2 & Hrun & Hl2).
  - intros. by eapply leaks_generation, Hgens.
  - lia.
  - destruct Hl1 as (_ & _ & _ & _ & ->). lia.
  - exists w2. split; [|by apply (leaks_trans 1 n w w1)]. cbn [load_summaries].
    erewrite M_bind_ok by exact Hload. replace (Z.of_nat i + 1) with (Z.of_nat (S i)) by lia.
    erewrite M_bind_ok by exact Hrun. by rewrite (drop_S _ _ _ Hsum).
Qed.

Lemma open_table_ok n base name schema s tm w :
  table_represents n base name schema s tm w → (size (fds w) + n ≤ fd_max)%nat →
  ∃ k w', open_table junk base (table_of (name, tm)) w = (Ok (set_memtable [] tm), w') ∧
          (k ≤ n)%nat ∧ leaks k w w'.
Proof.
  intros (_ & Hb & Hn & Hs & t & gens & _ & Hlen & [Ht _ _ _ Hid _ Hgens Hsum _]) Hroom.
  destruct (load_summaries_ok (t_id t) t gens tm w (length gens) 0) as (w' & Hrun & Hl);
    [done|done|done|lia|lia|].
  exists (length gens), w'. split; [|done]. unfold open_table, table_of.
  cbn [tbl_name tbl_last_sstable_id tbl_schema fst snd].
  rewrite Hid. unfold zlen. rewrite Nat2Z.id. rewrite <- Hb, <- Hn.
  erewrite M_bind_ok by exact Hrun. unfold set_memtable, TableManager_new. rewrite !schema_eta.
  cbn [drop]. rewrite Hid. unfold zlen. rewrite <- Hsum. done.
Qed.

Lemma db_represents_same n σ db w w' :
  files w' = files w → dirs w' = dirs w → db_represents n σ db w → db_represents n σ db w'.
Proof.
  intros Hf Hd [Hb Ho Ht Hn]. split; try done.
  { eapply db_dir_world; [done|by rewrite Hd|by rewrite Hf]. }
  intros name schema s Hσ.
  destruct (Ht _ _ _ Hσ) as (tm & Hin & Hrep). exists tm. split; [done|].
  eapply table_represents_world; [done|by rewrite Hd|by rewrite Hf].
Qed.

Lemma db_represents_leaks n k σ db w w' :
  leaks k w w' → db_represents n σ db w → db_represents n σ db w'.
Proof. intros (Hf & Hd & _). by apply db_represents_same. Qed.

Lemma reopened_wf (m : list (string * TableManager)) : managers_wf m → managers_wf (reopened <$> m).
Proof.
  intros [_ Ho]. split; [by apply Forall_true|]. unfold ordered in *.
  induction Ho as [|e l Ho IH Hall]; csimpl; constructor; [done|]. by rewrite Forall_fmap.
Qed.

(** Every manager of the map represents the table of its name. *)
Lemma managers_table n σ db w name tm :
  db_represents n σ db w → (name, tm) ∈ db_table_managers db →
  ∃ schema s, σ !! name = Some (schema, s) ∧
    table_represents n (db_base_path db) name schema s tm w.
Proof.
  intros [_ Ho Ht Hn] Hin. destruct (Hn _ _ Hin) as [[schema s] Hσ]. exists schema, s. split; [done|].
  destruct (Ht _ _ _ Hσ) as (tm' & Hin' & Hrep).
  assert (lookup_key str_before name (db_table_managers db) = Some (name, tm)) as H1 by (by apply lookup_name).
  assert (lookup_key str_before name (db_table_managers db) = Some (name, tm')) as H2 by (by apply lookup_name).
  rewrite H1 in H2. by simplify_eq.
Qed.

(** The loop over the metadata rebuilds the managers in order. *)
Lemma open_tables_ok n σ db L T done todo fuel w :
  db_represents n σ db w → db_table_managers db = done ++ todo →
  Forall table_wf (tables_of db) → T = metadata_of db → L = zlen T → L < 2 ^ 31 →
  (length todo < fuel)%nat → (size (fds w) + length todo * n ≤ fd_max)%nat →
  let D := concat (table_enc <$> (table_of <$> done)) in
  ∃ k w', open_tables junk fuel (db_base_path db) L (Buf L (zlen D) T) (reopened <$> done) w =
            (Ok (reopened <$> db_table_managers db), w') ∧ leaks k w w'.
Proof.
  intros Hdb Hm Hwf HT HL Hlen. revert done fuel w Hdb Hm.
  induction todo as [|[name tm] todo IH]; intros done fuel w Hdb Hm Hfuel Hroom D;
    (destruct fuel as [|fuel]; [simpl in *; lia|]); cbn [open_tables MemoryBuffer_offset m_offset].
  { assert (zlen D = L) as ->.
    { rewrite HL, HT. unfold D, metadata_of, tables_of. by rewrite Hm, app_nil_r. }
    rewrite Z.ltb_irrefl. rewrite Hm, app_nil_r. exists 0%nat, w. split; [done|apply leaks_refl]. }
  set (tb := table_of (name, tm)). assert (table_wf tb) as Htb.
  { rewrite Forall_forall in Hwf. apply Hwf. unfold tables_of. rewrite Hm, fmap_app.
    apply elem_of_app. right. by left. }
  set (R := concat (table_enc <$> (table_of <$> todo))).
  assert (T = D ++ table_enc tb ++ R) as HTD.
  { rewrite HT. unfold metadata_of, tables_of. rewrite Hm, !fmap_app, concat_app. done. }
  assert (zlen D + zlen (table_enc tb) + zlen R = L) as Hz by (rewrite HL, HTD, !zlen_app; lia).
  assert (1 ≤ zlen (table_enc tb)) as Hpos.
  { unfold table_enc. rewrite zlen_app, zlen_le_bytes. pose proof (zlen_nonneg
      (str_bytes (tbl_name tb) ++ schema_enc (tbl_schema tb) ++ le_bytes 8 (tbl_last_sstable_id tb))). lia. }
  pose proof (zlen_nonneg R). pose proof (zlen_nonneg D).
  destruct (Z.ltb_spec (zlen D) L); [|lia].
  erewrite M_bind_ok.
  2: { unfold run_on. rewrite (Table_from_parses tb Htb _ R); [reflexivity| |].
       - split; [cbn; lia|]. cbn. lia.
       - unfold rest. cbn [m_offset m_buf]. unfold zlen. by rewrite Nat2Z.id, HTD, drop_app_length. }
  cbn beta iota. destruct (managers_table n σ db w name tm Hdb) as (schema & s & Hσ & Hrep).
  { rewrite Hm. apply elem_of_app. right. by left. }
  cbn [length] in *. destruct (open_table_ok n _ _ _ _ _ _ Hrep) as (k & w1 & Hopen & Hk & Hl1); [lia|].
  erewrite M_bind_ok by exact Hopen.
  assert ((reopened <$> done) ++ [(tbl_name tb, set_memtable [] tm)] =
          reopened <$> (done ++ [(name, tm)])) as Hacc by (by rewrite fmap_app).
  rewrite (map_insert_snoc str_cmp (λ _, True) str_before); [|done|].
  2: { rewrite Hacc. pose proof (reopened_wf _ (dr_order _ _ _ _ Hdb)) as Hwf'. rewrite Hm in Hwf'.
       replace (done ++ (name, tm) :: todo) with ((done ++ [(name, tm)]) ++ todo) in Hwf'
         by (by rewrite <- app_assoc).
       rewrite fmap_app in Hwf'. by apply (map_wf_app (λ _, True) str_before) in Hwf' as [? _]. }
  erewrite M_bind_ok by reflexivity. rewrite Hacc.
  destruct (IH (done ++ [(name, tm)]) fuel w1) as (k' & w2 & Hrun & Hl2).
  - by eapply db_represents_leaks.
  - by rewrite <- app_assoc.
  - lia.
  - destruct Hl1 as (_ & _ & _ & _ & ->). lia.
  - exists (k + k')%nat, w2. split; [|by eapply leaks_trans]. rewrite <- Hrun. f_equal.
    unfold skip. cbn [m_size m_offset m_buf]. f_equal. rewrite !fmap_app, concat_app, zlen_app.
    cbn. by rewrite app_nil_r.
Qed.

(** *** The constructor on existing metadata *)

Lemma managers_le_metadata db :
  (length (db_table_managers db) ≤ length (metadata_of db))%nat.
Proof.
  unfold metadata_of, tables_of. induction (db_table_managers db) as [|e m IH]; [done|].
  assert (1 ≤ length (table_enc (table_of e)))%nat
    by (unfold table_enc; rewrite length_app, length_le_bytes; lia).
  rewrite !fmap_cons. cbn [concat length]. rewrite length_app. lia.
Qed.

(** The constructor reads the announced number of bytes behind the length; what
    the file does not have stays what the heap held. *)
Lemma Database_new_reads base w L X :
  base ∈ dirs w → 0 < L < 2 ^ 31 → files w !! metadata_path base = Some (le_bytes 4 L ++ X) →
  (size (fds w) + 1 ≤ fd_max)%nat →
  ∃ w', Database_new junk base w =
          (managers ← open_tables junk (S (Z.to_nat L)) base L
                        (MemoryBuffer_from (filled junk L (take (Z.to_nat L) X)) L) [];
           mret (MkDb base managers)) w' ∧
        files w' = files w ∧ dirs w' = dirs w ∧ fds w' = fds w.
Proof.
  intros Hbase HL Hfile Hroom.
  destruct (opendir_mkdir base w (or_introl Hbase)) as (w1 & Hrun1 & Hf1 & Hfd1 & Hd1 & _).
  rewrite (subseteq_union_1_L {[base]} (dirs w)) in Hd1 by (by apply singleton_subseteq_l).
  destruct (os_open_existing (metadata_path base) O_RDWR_CREAT (le_bytes 4 L ++ X) w1)
    as (fd & w2 & Ho & Hfd & Hnew & Hf2 & Hd2 & _ & Hfds2); [by rewrite Hf1|rewrite Hfd1; lia|].
  destruct (os_read_ok fd 4 (metadata_path base) 0 (le_bytes 4 L ++ X) w2)
    as (w3 & Hread & Hf3 & Hd3 & _ & Hfds3);
    [by rewrite Hfds2, lookup_insert_eq|by rewrite Hf2, Hf1|done..|].
  change (take (Z.to_nat 4) (drop (Z.to_nat 0) (le_bytes 4 L ++ X)))
    with (le_bytes 4 L) in Hread, Hfds3.
  rewrite zlen_le_bytes in Hread, Hfds3.
  destruct (os_read_ok fd L (metadata_path base) 4 (le_bytes 4 L ++ X) w3)
    as (w4 & Hread2 & Hf4 & Hd4 & _ & Hfds4);
    [by rewrite Hfds3, lookup_insert_eq|by rewrite Hf3, Hf2, Hf1|done|done|lia|].
  change (drop (Z.to_nat 4) (le_bytes 4 L ++ X)) with X in Hread2, Hfds4.
  destruct (os_close_ok fd w4) as (w5 & Hclose & Hf5 & Hd5 & _ & Hfds5).
  exists w5. split; [|split_and!; [congruence..|]].
  - unfold Database_new. rewrite <- M_bind_assoc. erewrite M_bind_ok by exact Hrun1.
    erewrite M_bind_ok by exact Ho. unfold read_length. rewrite M_bind_assoc.
    erewrite M_bind_ok by exact Hread. cbn beta iota. rewrite length_le_bytes. cbn [Nat.sub replicate].
    erewrite M_bind_ok by reflexivity. cbn beta iota.
    rewrite app_nil_r, le_value_bytes. change (2 ^ (8 * Z.of_nat 4)) with (2 ^ 32).
    rewrite Z.mod_small by lia. rewrite (proj2 (Z.eqb_neq L 0)) by lia.
    rewrite swrap_small by (unfold in_s; lia). change (Z.of_nat 4 =? 4) with true. cbn [negb orb].
    erewrite M_bind_ok by exact Hread2. cbn beta iota. by erewrite M_bind_ok by exact Hclose.
  - rewrite Hfds5, Hfds4, Hfds3, Hfds2, !insert_insert_eq, delete_insert_id by done. done.
Qed.

(** An empty metadata file: no table, and the descriptor stays open. *)
Lemma Database_new_no_length base w :
  base ∈ dirs w → files w !! metadata_path base = Some [] → (size (fds w) + 1 ≤ fd_max)%nat →
  ∃ w', Database_new junk base w = (Ok (MkDb base []), w') ∧ files w' = files w ∧ dirs w' = dirs w.
Proof.
  intros Hbase Hfile Hroom.
  destruct (opendir_mkdir base w (or_introl Hbase)) as (w1 & Hrun1 & Hf1 & Hfd1 & Hd1 & _).
  rewrite (subseteq_union_1_L {[base]} (dirs w)) in Hd1 by (by apply singleton_subseteq_l).
  destruct (os_open_existing (metadata_path base) O_RDWR_CREAT [] w1)
    as (fd & w2 & Ho & Hfd & _ & Hf2 & Hd2 & _ & Hfds2); [by rewrite Hf1|rewrite Hfd1; lia|].
  destruct (os_read_ok fd 4 (metadata_path base) 0 [] w2) as (w3 & Hread & Hf3 & Hd3 & _);
    [by rewrite Hfds2, lookup_insert_eq|by rewrite Hf2, Hf1|done..|].
  exists w3. split; [|split; congruence]. unfold Database_new. rewrite <- M_bind_assoc.
  erewrite M_bind_ok by exact Hrun1. erewrite M_bind_ok by exact Ho. unfold read_length.
  rewrite M_bind_assoc. by erewrite M_bind_ok by exact Hread.
Qed.

(** *** Shutdown and restart *)

(** What survives: the stored records of every table, not the pending one. *)
Definition restarted σ : gmap string (Schema * store) :=
  (λ x, (x.1, MkStore None (stored x.2))) <$> σ.

Lemma db_represents_reopened n σ db w :
  db_represents n σ db w →
  db_represents n (restarted σ) (MkDb (db_base_path db) (reopened <$> db_table_managers db)) w.
Proof.
  intros [Hb Ho Ht Hn]. unfold restarted. split; cbn [db_table_managers db_base_path]; [done|..].
  - by apply reopened_wf.
  - intros name schema s Hσ. rewrite lookup_fmap in Hσ.
    destruct (σ !! name) as [[schema0 s0]|] eqn:Hσ0; simplify_eq/=.
    destruct (Ht _ _ _ Hσ0) as (tm & Hin & (? & ? & ? & ? & t & gens & ? & ? & Hrep)).
    exists (set_memtable [] tm). split; [apply list_elem_of_fmap; by exists (name, tm)|].
    split_and!; try done. exists t, gens. split_and!; try done.
    by apply (represents_memtable _ _ _ _ _ _ None Hrep).
  - intros name tm (e & [= -> ->] & Hin)%list_elem_of_fmap. destruct e as [name tm0].
    rewrite lookup_fmap, fmap_is_Some. by eapply Hn.
Qed.

Lemma metadata_not_table base name :
  ¬ table_file base name (metadata_path base).
Proof. intros Hp. by apply (table_file_below _ _ _ "metadata.meta" Hp). Qed.

Lemma tables_wf n σ db w :
  db_represents n σ db w → (∀ name x, σ !! name = Some x → slen name < 256) →
  Z.of_nat n < 2 ^ 32 → Forall (λ tb, table_wf tb ∧ tbl_last_sstable_id tb < 2 ^ 32) (tables_of db).
Proof.
  intros Hdb Hnames Hn. apply Forall_fmap, Forall_forall. intros [name tm] Hin.
  destruct (managers_table _ _ _ _ _ _ Hdb Hin) as (schema & s & Hσ & Hrep).
  destruct Hrep as (_ & _ & _ & Hs & t & gens & _ & Hlen & [Ht _ _ _ Hid _ _ _ _]).
  unfold table_wf, table_of. cbn [compose tbl_name tbl_schema tbl_last_sstable_id fst snd].
  rewrite schema_eta, Hid. unfold zlen.
  assert (in_u 64 (Z.of_nat (length gens))) by (unfold in_u; lia).
  split; [split_and!; [by eapply Hnames|apply Ht|done]|lia].
Qed.

(** The last table with [v] added to the high half of its sstable count. *)
Definition raise_id (v : Z) (tb : Table) : Table :=
  MkTable (tbl_name tb) (tbl_schema tb) (tbl_last_sstable_id tb + 2 ^ 32 * v).

Fixpoint raise_last (v : Z) (tables : list Table) : list Table :=
  match tables with
  | [] => []
  | [tb] => [raise_id v tb]
  | tb :: tables => tb :: raise_last v tables
  end.

Lemma raise_last_snoc v tables tb : raise_last v (tables ++ [tb]) = tables ++ [raise_id v tb].
Proof. induction tables as [|tb' [|tb'' ts] IH]; [done..|]. cbn in *. by rewrite IH. Qed.

Lemma raise_last_0 tables : raise_last 0 tables = tables.
Proof.
  induction tables as [|tb tables _] using rev_ind; [done|]. rewrite raise_last_snoc. unfold raise_id.
  rewrite Z.mul_0_r, Z.add_0_r. by destruct tb.
Qed.

(** The metadata ends with that high half. *)
Lemma metadata_tail tables :
  Forall (λ tb, table_wf tb ∧ tbl_last_sstable_id tb < 2 ^ 32) tables → tables ≠ [] →
  ∃ P, ∀ v, 0 ≤ v < 2 ^ 32 → concat (table_enc <$> raise_last v tables) = P ++ le_bytes 4 v.
Proof.
  intros Hwf Hne. destruct tables as [|tb tables _] using rev_ind; [done|].
  apply Forall_app in Hwf as [_ Hwf]. apply Forall_singleton in Hwf as [(_ & _ & [Hid _]) Hlt].
  eexists (concat (table_enc <$> tables) ++ _). intros v Hv. rewrite raise_last_snoc, fmap_app, concat_app.
  rewrite <- app_assoc. f_equal. cbn [fmap list_fmap concat]. rewrite app_nil_r.
  unfold table_enc, raise_id.
  cbn [tbl_name tbl_schema tbl_last_sstable_id]. change 8%nat with (4 + 4)%nat. rewrite le_bytes_app.
  change (2 ^ (8 * Z.of_nat 4)) with (2 ^ 32).
  rewrite (Z.mul_comm (2 ^ 32)), Z.div_add, (Z.div_small (tbl_last_sstable_id tb)) by lia.
  assert (le_bytes 4 (tbl_last_sstable_id tb + v * 2 ^ 32) = le_bytes 4 (tbl_last_sstable_id tb)) as ->.
  { rewrite <- (le_bytes_value (le_bytes 4 (_ + _))), le_value_bytes, length_le_bytes.
    change (2 ^ (8 * Z.of_nat 4)) with (2 ^ 32). by rewrite Z.mod_add, Z.mod_small by lia. }
  by rewrite Z.add_0_l, !app_assoc.
Qed.

(** The four bytes the constructor finds where [flush_metadata] left out the end
    of [n] bytes of metadata: those of an older, longer file, or else what the
    heap holds there. *)
Definition unwritten_tail (old : list byte) (n : nat) : list byte :=
  (λ i : Z, default (junk i) (old !! Z.to_nat (i + 4))) <$> seqZ (Z.of_nat n - 4) 4.

Lemma filled_tail (P old : list byte) :
  let n := (length P + 4)%nat in
  filled junk (Z.of_nat n) (take n (P ++ drop n old)) = P ++ unwritten_tail old n.
Proof.
  intros n. unfold filled, uninit, unwritten_tail. rewrite take_app, (take_ge P) by lia.
  rewrite <- app_assoc, length_app, <- drop_drop. f_equal.
  replace (n - length P)%nat with 4%nat by lia.
  replace (Z.of_nat n) with (Z.of_nat (length P) + 4) by lia.
  rewrite (seqZ_app 0 (Z.of_nat (length P)) 4) by lia.
  rewrite fmap_app, drop_app_length' by (rewrite length_fmap, length_seqZ; lia).
  replace (Z.of_nat (length P) + 4 - 4) with (0 + Z.of_nat (length P)) by lia.
  assert (∀ j : nat, old !! Z.to_nat (Z.of_nat j + (0 + Z.of_nat (length P)) + 4) = drop n old !! j) as Hold.
  { intros j. rewrite lookup_drop. f_equal. lia. }
  pose proof (Hold 0%nat) as HI0. pose proof (Hold 1%nat) as HI1.
  pose proof (Hold 2%nat) as HI2. pose proof (Hold 3%nat) as HI3. clear Hold. unfold seqZ.
  change (seq 0 (Z.to_nat 4)) with [0;1;2;3]%nat. cbn [fmap list_fmap].
  rewrite HI0, HI1, HI2, HI3.
  by destruct (drop n old) as [|? [|? [|? [|? ?]]]].
Qed.

(** Writing the metadata leaves the tables alone. *)
Lemma db_represents_metadata n σ db w w' c :
  db_represents n σ db w → dirs w' = dirs w →
  files w' = <[metadata_path (db_base_path db) := c]> (files w) → db_represents n σ db w'.
Proof.
  intros [Hb Ho Ht Hn] Hd Hf. split; try done.
  - eapply db_dir_world; [done|by rewrite Hd|]. intros name Hname Hne. rewrite Hf, lookup_insert_ne; [done|].
    unfold metadata_path. intros Heq. do 2 apply str_app_inj_l in Heq. congruence.
  - intros name schema s Hσ. destruct (Ht _ _ _ Hσ) as (tm & Hin & Hrep). exists tm. split; [done|].
    eapply table_represents_world; [done|by rewrite Hd|]. intros path Hp.
    rewrite Hf, lookup_insert_ne; [done|]. intros <-. by eapply metadata_not_table.
Qed.

(** C8 (round trip): a database that is destroyed and constructed again.  The
    destructor leaves out the last four bytes of the metadata, the high half of
    the last table's sstable count.  So the constructor loads that table with
    the number [v] of the four bytes it finds instead, from an older, longer
    metadata file or from the heap, as this half; when they are zero (or there is
    no table) the new database serves the stored records of all tables, and
    only the pending record of each table is lost. *)
Theorem database_restart (n : nat) (σ : gmap string (Schema * store)) (db : Database)
    (w : world F) (old : list byte) :
  let T := metadata_of db in
  let v := le_value (unwritten_tail old (length T)) in
  db_represents n σ db w → (∀ name x, σ !! name = Some x → slen name < 256) → Z.of_nat n < 2 ^ 32 →
  zlen T + 4 < 2 ^ 31 → files w !! metadata_path (db_base_path db) = Some old →
  (db_table_managers db = [] → old = []) →
  (size (fds w) + length (db_table_managers db) * n + 1 ≤ fd_max)%nat →
  ∃ w1, flush_metadata (db, w) = (Ok tt, (db, w1)) ∧
    (db_table_managers db ≠ [] → ∃ w2, Database_new junk (db_base_path db) w1 =
       (managers ← open_tables junk (S (length T)) (db_base_path db) (zlen T)
                     (MemoryBuffer_from (concat (table_enc <$> raise_last v (tables_of db))) (zlen T)) [];
        mret (MkDb (db_base_path db) managers)) w2) ∧
    (db_table_managers db = [] ∨ v = 0 → ∃ db2 w2,
       Database_new junk (db_base_path db) w1 = (Ok db2, w2) ∧ db_represents n (restarted σ) db2 w2).
Proof.
  intros T v Hdb Hnames Hn Hlen Hfile Hempty Hroom. set (base := db_base_path db) in *.
  pose proof (tables_wf _ _ _ _ Hdb Hnames Hn) as Hwf.
  assert (Forall table_wf (tables_of db)) as Hwf' by (eapply Forall_impl; [exact Hwf|by intros ? []]).
  destruct (flush_metadata_ok db w old Hwf' Hlen Hfile) as (w1 & Hflush & Hf1 & Hd1 & Hfds1 & _); [lia|].
  assert (db_represents n σ db w1) as Hdb1 by (by eapply db_represents_metadata).
  assert (base ∈ dirs w1) as Hbase by apply Hdb1.
  exists w1. split; [done|]. destruct (decide (db_table_managers db = [])) as [Hnil|Hne].
  { split; [done|]. intros _. rewrite (Hempty Hnil) in Hf1.
    destruct (Database_new_no_length base w1 Hbase) as (w2 & Hnew & Hf2 & Hd2).
    { rewrite Hf1, lookup_insert_eq. unfold metadata_of, tables_of. by rewrite Hnil. }
    { rewrite Hfds1. lia. }
    exists (MkDb base []), w2. split; [done|]. apply (db_represents_metadata _ _ _ w1 w2 []); [|done|].
    - pose proof (db_represents_reopened _ _ _ _ Hdb1) as Hr. by rewrite Hnil in Hr.
    - rewrite Hf2, Hf1. unfold metadata_of, tables_of. rewrite Hnil. by rewrite insert_insert_eq. }
  assert (tables_of db ≠ []) as Htables by (unfold tables_of; by intros ?%fmap_nil_inv).
  destruct (metadata_tail _ Hwf Htables) as [P HP].
  assert (T = P ++ le_bytes 4 0) as HT.
  { rewrite <- HP by lia. by rewrite raise_last_0. }
  assert (length T = length P + 4)%nat as HlenT by (rewrite HT, length_app, length_le_bytes; done).
  assert (take (length T) (le_bytes 4 (zlen T) ++ T) = le_bytes 4 (zlen T) ++ P) as Hout.
  { rewrite take_app, length_le_bytes, take_ge by (rewrite length_le_bytes; lia). f_equal.
    rewrite HT at 2. by rewrite HlenT, take_app_length' by lia. }
  destruct (Database_new_reads base w1 (zlen T) (P ++ drop (length T) old)) as (w2 & Hnew & Hf2 & Hd2 & Hfds2).
  { done. }
  { unfold zlen in *. lia. }
  { rewrite Hf1. fold T. by rewrite lookup_insert_eq, Hout, <- app_assoc. }
  { rewrite Hfds1. lia. }
  assert (Z.to_nat (zlen T) = length T) as Hnat by (unfold zlen; lia).
  assert (filled junk (zlen T) (take (length T) (P ++ drop (length T) old)) =
    concat (table_enc <$> raise_last v (tables_of db))) as Hread.
  { unfold zlen. rewrite HlenT at 1 2 3. rewrite (filled_tail P old). rewrite HP.
    - unfold v. rewrite HlenT. f_equal. symmetry. apply (le_bytes_value (unwritten_tail _ _)).
    - apply (le_value_range (unwritten_tail _ _)). }
  rewrite Hnat, Hread in Hnew. split; [by exists w2|]. intros [|Hv]; [done|].
  rewrite Hv, raise_last_0 in Hnew. fold (metadata_of db) T in Hnew.
  destruct (open_tables_ok n σ db (zlen T) T [] (db_table_managers db) (S (length T)) w2)
    as (k & w3 & Hrun3 & Hl3); try done.
  { by eapply db_represents_same. }
  { lia. }
  { pose proof (managers_le_metadata db). fold T in H1. lia. }
  { rewrite Hfds2, Hfds1. lia. }
  cbn [fmap list_fmap concat] in Hrun3. change (zlen []) with 0 in Hrun3.
  exists (MkDb base (reopened <$> db_table_managers db)), w3. split.
  - rewrite Hnew. by erewrite M_bind_ok by exact Hrun3.
  - apply db_represents_reopened. eapply db_represents_leaks; [exact Hl3|].
    by eapply db_represents_same.
Qed.


(** C40 (error): [flush_metadata] writes [length] of the [length + 4] bytes it
    prepared: a metadata file it fills from empty ends four bytes before the
    announced length, in the middle of the last table's sstable count. *)
Theorem metadata_short (db : Database) (w : world F) :
  Forall table_wf (tables_of db) → zlen (metadata_of db) + 4 < 2 ^ 31 →
  (4 ≤ length (metadata_of db))%nat →
  files w !! metadata_path (db_base_path db) = Some [] → (size (fds w) < fd_max)%nat →
  ∃ w' content, flush_metadata (db, w) = (Ok tt, (db, w')) ∧ w_log w' = w_log w ∧
    files w' !! metadata_path (db_base_path db) = Some content ∧
    length content = length (metadata_of db) ∧
    content ++ drop (length (metadata_of db) - 4) (metadata_of db) =
      le_bytes 4 (zlen (metadata_of db)) ++ metadata_of db.
Proof.
  intros Hwf Hlen Hmin Hfile Hroom.
  destruct (flush_metadata_ok db w [] Hwf Hlen Hfile Hroom) as (w' & Hrun & Hf & _ & _ & Hl).
  set (T := metadata_of db) in *. rewrite drop_nil, app_nil_r in Hf.
  eexists w', _. split; [done|]. split; [done|]. split; [by rewrite Hf, lookup_insert_eq|].
  split; [rewrite length_take, length_app, length_le_bytes; lia|].
  rewrite take_app, length_le_bytes, take_ge by (rewrite length_le_bytes; lia).
  by rewrite <- app_assoc, take_drop.
Qed.

Lemma db_represents_nil base w : db_dir base w → db_represents 0 ∅ (MkDb base []) w.
Proof.
  intros Hdir. split; [done|split; constructor| |].
  - intros name schema s Hσ. by rewrite lookup_empty in Hσ.
  - intros name tm Hin. by apply elem_of_nil in Hin.
Qed.
End restart.

(** *** A concrete database *)

Import MemFS.

Definition empty_world : world fsview := World (FsView ∅ ∅ ∅) [].

(** A system with an empty directory for a database. *)
Definition db_world : world fsview := World (FsView ∅ {["db"]} ∅) [].

(** In memory, the state of a database's directory can be computed. *)
Definition dir_ready (base : string) (w : world fsview) : bool :=
  bool_decide (base ≠ "" ∧ base ∈ dirs w ∧
    map_Forall (λ path _, parent_dir path = Some base → path = metadata_path base) (files w)).

Lemma dir_ready_ok base w : dir_ready base w = true → db_dir base w.
Proof.
  intros (Hne & Hin & Hall)%bool_decide_eq_true_1. split; [done|]. split; [done|].
  intros name Hn Hmeta. destruct (files w !! _) as [c|] eqn:Hf; [|done].
  pose proof (Hall _ _ Hf (parent_below _ _ Hn)) as Heq. unfold metadata_path in Heq.
  do 2 apply str_app_inj_l in Heq. congruence.
Qed.

Lemma example_create_ok σ name :
  is_file_name name = true → name ≠ "metadata.meta" → db_request_ok σ (DbCreate name example_schema).
Proof. intros Hn Hm. split; [done|]. split; [done|]. exists (MkType INT 4). split; [done|apply example_table_ok]. Qed.

Lemma example_put_ok (σ : gmap string (Schema * store)) name k who :
  slen who = 5 → in_s 32 k → (∀ schema s, σ !! name = Some (schema, s) → schema = example_schema) →
  db_request_ok σ (DbPut name (row k who)).
Proof.
  intros Hw Hk Hσ schema s t Hs Ht. rewrite (Hσ _ _ Hs) in *. injection Ht as <-.
  split; [|by intros d [= <-]]. repeat constructor; (eexists; split; [reflexivity|]).
  - by split.
  - by split.
  - unfold ASCIIData. split; cbn; [lia|]. unfold Type_new. rewrite wrap_small; [done|]. unfold in_u. lia.
Qed.

Lemma database_refines_stores_witness :
  let junk := λ _ : Z, xff in
  let qs := [DbCreate "races" example_schema; DbCreate "teams" example_schema;
             DbPut "races" (row 1 "Alice"); DbPut "races" (row 2 "Marco");
             DbPut "teams" (row 1 "Sofia"); DbGet "races" (IntData 1);
             DbGet "cars" (IntData 1); DbPut "cars" (row 3 "Jonas")] in
  ∃ db' w', db_serve_all junk qs (MkDb "db" [], db_world) = (Ok (abs_run ∅ qs).1, (db', w')) ∧
    db_represents (0 + length qs) (abs_run ∅ qs).2 db' w'.
Proof.
  apply database_refines_stores.
  - by apply db_represents_nil, dir_ready_ok.
  - cbn [db_requests_ok]. split_and!; try done; try (by apply example_create_ok);
      try (apply example_put_ok; [done|done|intros schema s Hs; vm_compute in Hs; by simplify_eq]);
      intros schema s t Hs Ht; vm_compute in Hs; simplify_eq; injection Ht as <-.
    vm_compute. repeat split; congruence.
  - vm_compute. lia.
  - done.
Defined.

(** A database with one table, whose one record is pending, and the empty
    metadata file its constructor created. *)
Definition example_db : Database :=
  MkDb "db" [("races", set_memtable [(Some (IntData 1), row 1 "Alice")] example_table)].

Definition example_db_world : world fsview :=
  World (FsView {["db/metadata.meta" := []]} {["db"; "db/races"]} ∅) [].

Definition example_stores : gmap string (Schema * store) :=
  {["races" := (example_schema, MkStore (Some (Some (IntData 1), row 1 "Alice")) [])]}.

(** It is represented wherever its directories are, since it has no files yet. *)
Lemma example_db_represents_in (w : world fsview) : dir_ready "db" w = true → "db/races" ∈ dirs w →
  db_represents 0 example_stores example_db w.
Proof.
  intros Hready Hdir. split; [by apply dir_ready_ok|..].
  - split; repeat constructor.
  - intros name schema s Hs. unfold example_stores in Hs.
    apply lookup_singleton_Some in Hs as [<- [= <- <-]].
    eexists. split; [by left|]. split_and!; try done. exists (MkType INT 4), [].
    split_and!; [done|done|]. destruct example_pending. split; try done.
  - intros name tm [[= -> ->]|Hin%elem_of_nil]%elem_of_cons; [|done].
    unfold example_stores. rewrite lookup_singleton_eq. by eexists.
Qed.

Lemma example_db_represents : db_represents 0 example_stores example_db example_db_world.
Proof. by apply example_db_represents_in; vm_compute. Qed.

(** On a heap that holds zeros behind the bytes of the metadata only. *)
Lemma database_restart_witness :
  let T := metadata_of example_db in
  let junk := λ i, if i <? zlen T - 4 then xff else x00 in
  ∃ w1, flush_metadata (example_db, example_db_world) = (Ok tt, (example_db, w1)) ∧
    (db_table_managers example_db ≠ [] → ∃ w2, Database_new junk "db" w1 =
       (managers ← open_tables junk (S (length T)) "db" (zlen T)
                     (MemoryBuffer_from (concat (table_enc <$> raise_last 0 (tables_of example_db))) (zlen T)) [];
        mret (MkDb "db" managers)) w2) ∧
    (db_table_managers example_db = [] ∨ 0 = 0 → ∃ db2 w2, Database_new junk "db" w1 = (Ok db2, w2) ∧
       db_represents 0 (restarted example_stores) db2 w2).
Proof.
  set (T := metadata_of example_db). set (junk := λ i, if i <? zlen T - 4 then xff else x00).
  assert (le_value (unwritten_tail junk [] (length T)) = 0) as Hv by (vm_compute; reflexivity).
  pose proof (database_restart junk 0 example_stores example_db example_db_world []) as Hrun.
  cbv zeta in Hrun. fold T in Hrun. rewrite Hv in Hrun. apply Hrun.
  - apply example_db_represents.
  - intros name x Hx. unfold example_stores in Hx. by apply lookup_singleton_Some in Hx as [<- _].
  - done.
  - done.
  - done.
  - done.
  - vm_compute. lia.
Defined.

Lemma metadata_short_witness :
  ∃ w' content, flush_metadata (example_db, example_db_world) = (Ok tt, (example_db, w')) ∧
    w_log w' = w_log example_db_world ∧
    files w' !! metadata_path (db_base_path example_db) = Some content ∧
    length content = length (metadata_of example_db) ∧
    content ++ drop (length (metadata_of example_db) - 4) (metadata_of example_db) =
      le_bytes 4 (zlen (metadata_of example_db)) ++ metadata_of example_db.
Proof.
  apply metadata_short.
  - constructor; [|constructor]. split_and!; [done|apply example_schema_wf|done].
  - done.
  - apply leb_complete. done.
  - done.
  - vm_compute. lia.
Defined.
