(* ===== verification/Murmur.v ===== *)
(** * [dht::MurmurHash]: the hash functions of the partitioner

    Models [include/dht/murmur_hash.hh] and [lib/dht/murmur_hash.cc]: MurmurHash
    2 in its 32- and 64-bit forms, MurmurHash 3 in its 128-bit form, and the
    inverse of the latter on one block.  Integers are kept at their width:
    [u32] and [u64] reduce after every operation that can leave it.

    A key is the memory the pointer designates, as a function from indices to
    byte values; [hash_footprint] shows that the functions depend on the
    announced bytes only. *)

From Stdlib Require Import ZArith Lia Strings.Byte String.
From stdpp Require Import base list list_numbers strings.
From S2P Require Import Prelude.

Local Open Scope Z_scope.

Definition memory : Type := Z → byte.
Definition mem_at (key : memory) (i : Z) : Z := Z_of_byte (key i).

Definition add64 (a b : Z) : Z := u64 (a + b).
Definition sub64 (a b : Z) : Z := u64 (a - b).
Definition mul64 (a b : Z) : Z := u64 (a * b).
Definition shl64 (a n : Z) : Z := u64 (Z.shiftl a n).
Definition mul32 (a b : Z) : Z := u32 (a * b).
Definition shl32 (a n : Z) : Z := u32 (Z.shiftl a n).
Definition add32 (a b : Z) : Z := u32 (a + b).

(** A [case] of a [switch] that falls through: it runs from any label at or
    above its own. *)
Definition from_case (label at_or_above : Z) (f : Z → Z) (x : Z) : Z :=
  if label <=? at_or_above then f x else x.

(** ** MurmurHash 2, 32 bits *)

Definition mix2_x32 (key : memory) (offset : Z) (h i : Z) : Z :=
  let m := 0x5bd1e995 in
  let i_4 := shl32 i 2 in
  let at_ j := mem_at key (add32 (add32 offset i_4) j) in
  let k := at_ 3 in
  let k := Z.lor (shl32 k 8) (Z.land (at_ 2) 0xff) in
  let k := Z.lor (shl32 k 8) (Z.land (at_ 1) 0xff) in
  let k := Z.lor (shl32 k 8) (Z.land (at_ 0) 0xff) in
  let k := mul32 k m in
  let k := Z.lxor k (Z.shiftr k 24) in
  let k := mul32 k m in
  Z.lxor (mul32 h m) k.

Definition hash2_x32 (key : memory) (offset length seed : Z) : Z :=
  let m := 0x5bd1e995 in
  let len_4 := Z.shiftr length 2 in
  let h := foldl (mix2_x32 key offset) (Z.lxor seed length) (seqZ 0 len_4) in
  let left := u32 (length - shl32 len_4 2) in
  let at_ j := mem_at key (u32 (add32 offset length - j)) in
  let h := if left =? 0 then h else
    let h := if 3 <=? left then Z.lxor h (shl32 (at_ 3) 16) else h in
    let h := if 2 <=? left then Z.lxor h (shl32 (at_ 2) 8) else h in
    let h := if 1 <=? left then Z.lxor h (at_ 1) else h in
    mul32 h m in
  let h := Z.lxor h (Z.shiftr h 13) in
  let h := mul32 h m in
  Z.lxor h (Z.shiftr h 15).

(** ** MurmurHash 2, 64 bits *)

(** Eight bytes, little-endian, from an index on. *)
Definition load64 (key : memory) (i : Z) : Z :=
  let at_ j := Z.land (mem_at key (add32 i j)) 0xff in
  u64 (at_ 0 + shl64 (at_ 1) 8 + shl64 (at_ 2) 16 + shl64 (at_ 3) 24 +
       shl64 (at_ 4) 32 + shl64 (at_ 5) 40 + shl64 (at_ 6) 48 + shl64 (at_ 7) 56).

Definition mix2_x64 (key : memory) (offset : Z) (h64 i : Z) : Z :=
  let m64 := 0xc6a4a7935bd1e995 in
  let k64 := load64 key (add32 offset (shl32 i 3)) in
  let k64 := mul64 k64 m64 in
  let k64 := Z.lxor k64 (Z.shiftr k64 47) in
  let k64 := mul64 k64 m64 in
  mul64 (Z.lxor h64 k64) m64.

Definition hash2_x64 (key : memory) (offset length seed : Z) : Z :=
  let m64 := 0xc6a4a7935bd1e995 in
  let h64 := Z.lxor (Z.land seed 0xffffffff) (mul64 m64 length) in
  let lenLongs := Z.shiftr length 3 in
  let h64 := foldl (mix2_x64 key offset) h64 (seqZ 0 lenLongs) in
  let rem := Z.land length 0x7 in
  let at_ j := mem_at key (add32 (u32 (add32 offset length - rem)) j) in
  let tail j h := Z.lxor h (shl64 (at_ j) (8 * j)) in
  let h64 := from_case 7 rem (tail 6) h64 in
  let h64 := from_case 6 rem (tail 5) h64 in
  let h64 := from_case 5 rem (tail 4) h64 in
  let h64 := from_case 4 rem (tail 3) h64 in
  let h64 := from_case 3 rem (tail 2) h64 in
  let h64 := from_case 2 rem (tail 1) h64 in
  let h64 := from_case 1 rem (λ h, mul64 (tail 0 h) m64) h64 in
  let h64 := Z.lxor h64 (Z.shiftr h64 47) in
  let h64 := mul64 h64 m64 in
  Z.lxor h64 (Z.shiftr h64 47).

(** ** MurmurHash 3, 128 bits *)

Definition get_block (key : memory) (offset index : Z) : Z :=
  load64 key (add32 offset (shl32 index 3)).

Definition rotl64 (v n : Z) : Z := Z.lor (shl64 v n) (Z.shiftr v (64 - n)).
Definition inv_rotl64 (v n : Z) : Z := Z.lor (Z.shiftr v n) (shl64 v (64 - n)).

Definition fmix (k : Z) : Z :=
  let k := Z.lxor k (Z.shiftr k 33) in
  let k := mul64 k 0xff51afd7ed558ccd in
  let k := Z.lxor k (Z.shiftr k 33) in
  let k := mul64 k 0xc4ceb9fe1a85ec53 in
  Z.lxor k (Z.shiftr k 33).

(** One 128-bit block of the body. *)
Definition mix3 (k1 k2 : Z) (h : Z * Z) : Z * Z :=
  let c1 := 0x87c37b91114253d5 in
  let c2 := 0x4cf5ad432745937f in
  let '(h1, h2) := h in
  let k1 := mul64 (rotl64 (mul64 k1 c1) 31) c2 in
  let h1 := Z.lxor h1 k1 in
  let h1 := add64 (rotl64 h1 27) h2 in
  let h1 := add64 (mul64 h1 5) 0x52dce729 in
  let k2 := mul64 (rotl64 (mul64 k2 c2) 33) c1 in
  let h2 := Z.lxor h2 k2 in
  let h2 := add64 (rotl64 h2 31) h1 in
  let h2 := add64 (mul64 h2 5) 0x38495ab5 in
  (h1, h2).

(** The tail; its labels 11 to 15 all read the byte at [offset + 1]. *)
Definition tail3 (key : memory) (offset length : Z) (h : Z * Z) : Z * Z :=
  let c1 := 0x87c37b91114253d5 in
  let c2 := 0x4cf5ad432745937f in
  let '(h1, h2) := h in
  let n := Z.land length 15 in
  let xor_at j shift k := Z.lxor k (shl64 (mem_at key (add32 offset j)) shift) in
  let k2 := from_case 15 n (xor_at 1 48) 0 in
  let k2 := from_case 14 n (xor_at 1 40) k2 in
  let k2 := from_case 13 n (xor_at 1 32) k2 in
  let k2 := from_case 12 n (xor_at 1 24) k2 in
  let k2 := from_case 11 n (xor_at 1 16) k2 in
  let k2 := from_case 10 n (xor_at 9 8) k2 in
  let k2 := from_case 9 n (xor_at 8 0) k2 in
  let h2 := from_case 9 n (λ h2, Z.lxor h2 (mul64 (rotl64 (mul64 k2 c2) 33) c1)) h2 in
  let k1 := from_case 8 n (xor_at 7 56) 0 in
  let k1 := from_case 7 n (xor_at 6 48) k1 in
  let k1 := from_case 6 n (xor_at 5 40) k1 in
  let k1 := from_case 5 n (xor_at 4 32) k1 in
  let k1 := from_case 4 n (xor_at 3 24) k1 in
  let k1 := from_case 3 n (xor_at 2 16) k1 in
  let k1 := from_case 2 n (xor_at 1 8) k1 in
  let k1 := from_case 1 n (xor_at 0 0) k1 in
  let h1 := from_case 1 n (λ h1, Z.lxor h1 (mul64 (rotl64 (mul64 k1 c1) 31) c2)) h1 in
  (h1, h2).

Definition finish3 (length : Z) (h : Z * Z) : Z * Z :=
  let '(h1, h2) := h in
  let h1 := Z.lxor h1 length in
  let h2 := Z.lxor h2 length in
  let h1 := add64 h1 h2 in
  let h2 := add64 h2 h1 in
  let h1 := fmix h1 in
  let h2 := fmix h2 in
  let h1 := add64 h1 h2 in
  let h2 := add64 h2 h1 in
  (h1, h2).

Definition hash3_x64_128 (key : memory) (offset length seed : Z) : Z * Z :=
  let nblocks := Z.shiftr length 4 in
  let body h i :=
    mix3 (get_block key offset (add32 (mul32 i 2) 0))
         (get_block key offset (add32 (mul32 i 2) 1)) h in
  let h := foldl body (seed, seed) (seqZ 0 nblocks) in
  let offset := add32 offset (mul32 nblocks 16) in
  finish3 length (tail3 key offset length h).

(** ** The inverse *)

(** The loop of [inv_rshift_xor] from iteration [i]; its bound in the source is
    [i * shift < 64], reached in at most 64 iterations. *)
Fixpoint inv_rshift_xor_loop (fuel : nat) (shift i value output : Z) : Z :=
  match fuel with
  | O => output
  | S fuel =>
      if u64 (i * shift) <? 64 then
        let c := Z.shiftr (shl64 0xffffffffffffffff (64 - shift)) (u64 (shift * i)) in
        let partOutput := Z.land value c in
        inv_rshift_xor_loop fuel shift (i + 1) (Z.lxor value (Z.shiftr partOutput shift))
          (Z.lor output partOutput)
      else output
  end.

Definition inv_rshift_xor (value shift : Z) : Z := inv_rshift_xor_loop 64 shift 0 value 0.

Definition inv_fmix (k : Z) : Z :=
  let k := inv_rshift_xor k 33 in
  let k := mul64 k 0x9cb4b2f8129337db in
  let k := inv_rshift_xor k 33 in
  let k := mul64 k 0x4f74430c22a54005 in
  inv_rshift_xor k 33.

Definition reverse_bytes (x : Z) : Z :=
  let x := Z.lor (shl64 (Z.land x 0x00000000FFFFFFFF) 32)
                 (Z.shiftr (Z.land x 0xFFFFFFFF00000000) 32) in
  let x := Z.lor (shl64 (Z.land x 0x0000FFFF0000FFFF) 16)
                 (Z.shiftr (Z.land x 0xFFFF0000FFFF0000) 16) in
  Z.lor (shl64 (Z.land x 0x00FF00FF00FF00FF) 8) (Z.shiftr (Z.land x 0xFF00FF00FF00FF00) 8).

Definition inv_hash3_x64_128 (result : Z * Z) : Z * Z :=
  let c1 := 0xa98409e882ce4d7d in
  let c2 := 0xa81e14edd9de2c7f in
  let '(h1, h2) := result in
  let h2 := sub64 h2 h1 in
  let h1 := sub64 h1 h2 in
  let h1 := inv_fmix h1 in
  let h2 := inv_fmix h2 in
  let h2 := sub64 h2 h1 in
  let h1 := sub64 h1 h2 in
  let h1 := Z.lxor h1 16 in
  let h2 := Z.lxor h2 16 in
  let h2 := sub64 h2 0x38495ab5 in
  let h2 := mul64 h2 0xcccccccccccccccd in
  let h2 := sub64 h2 h1 in
  let h2 := inv_rotl64 h2 31 in
  let k2 := mul64 h2 c1 in
  let k2 := inv_rotl64 k2 33 in
  let k2 := mul64 k2 c2 in
  let h1 := sub64 h1 0x52dce729 in
  let h1 := mul64 h1 0xcccccccccccccccd in
  let h1 := inv_rotl64 h1 27 in
  let k1 := mul64 h1 c2 in
  let k1 := inv_rotl64 k1 31 in
  let k1 := mul64 k1 c1 in
  (reverse_bytes k1, reverse_bytes k2).

(** ** The vectors of the project's tests *)

(** The memory that holds the bytes of a string. *)
Definition mem_of (bs : list byte) : memory := λ i, nth (Z.to_nat i) bs x00.

Example hash2_x32_vector :
  hash2_x32 (mem_of (str_bytes "hello")) 0 5 0x982 = 0x1E65961D.
Proof. vm_compute. reflexivity. Qed.
Example hash2_x64_vector :
  hash2_x64 (mem_of (str_bytes "We are here")) 0 11 0x14F = 0x7A647FDF36B1E653.
Proof. vm_compute. reflexivity. Qed.
Example hash3_vector :
  hash3_x64_128 (mem_of (str_bytes "Yes We are here")) 0 15 0xFAE =
    (0x65A621C0D6CC7865, 0x7EDC0F9358782055).
Proof. vm_compute. reflexivity. Qed.
Example inv_hash3_vector :
  inv_hash3_x64_128 (0, 0) = (0x5ED0B893F10C088C, 0xCF0E007BF6EDBF61).
Proof. vm_compute. reflexivity. Qed.

(** ** Words as sequences of bits *)

Lemma u64_bit z n : 0 ≤ n → Z.testbit (u64 z) n = (n <? 64) && Z.testbit z n.
Proof.
  intros Hn. unfold wrap. destruct (Z.ltb_spec n 64).
  - by rewrite Z.mod_pow2_bits_low.
  - by rewrite Z.mod_pow2_bits_high by lia.
Qed.

Lemma u64_high a n : in_u 64 a → 64 ≤ n → Z.testbit a n = false.
Proof.
  intros Ha Hn. rewrite <- (wrap_small 64 a Ha), u64_bit by lia.
  by destruct (Z.ltb_spec n 64); [lia|].
Qed.

Lemma in_u_bits a : (∀ n, 64 ≤ n → Z.testbit a n = false) → in_u 64 a.
Proof.
  intros Ha. assert (u64 a = a) as <-; [|apply wrap_range; lia].
  apply Z.bits_inj'. intros n Hn. rewrite u64_bit by done.
  destruct (Z.ltb_spec n 64); [done|]. by rewrite Ha.
Qed.

Lemma bits_eq a b :
  in_u 64 a → in_u 64 b → (∀ n, 0 ≤ n < 64 → Z.testbit a n = Z.testbit b n) → a = b.
Proof.
  intros Ha Hb Hab. apply Z.bits_inj'. intros n Hn. destruct (decide (n < 64)); [by apply Hab|].
  by rewrite !u64_high by (done || lia).
Qed.

Lemma lxor_u64 a b : in_u 64 a → in_u 64 b → in_u 64 (Z.lxor a b).
Proof. intros. apply in_u_bits. intros n Hn. rewrite Z.lxor_spec, !u64_high; done. Qed.
Lemma lor_u64 a b : in_u 64 a → in_u 64 b → in_u 64 (Z.lor a b).
Proof. intros. apply in_u_bits. intros n Hn. rewrite Z.lor_spec, !u64_high; done. Qed.
Lemma land_u64 a b : in_u 64 a → in_u 64 (Z.land a b).
Proof. intros. apply in_u_bits. intros n Hn. by rewrite Z.land_spec, u64_high. Qed.
Lemma shiftr_u64 a n : in_u 64 a → 0 ≤ n → in_u 64 (Z.shiftr a n).
Proof. intros. apply in_u_bits. intros m Hm. rewrite Z.shiftr_spec, u64_high; done || lia. Qed.
Lemma u64_u64 z : in_u 64 (u64 z).
Proof. apply wrap_range. lia. Qed.

#[export] Hint Resolve lxor_u64 lor_u64 land_u64 shiftr_u64 u64_u64 : dibi.

(** Comparisons in the goal, decided one by one. *)
Ltac bit_cases :=
  repeat match goal with
  | |- context [Z.ltb ?a ?b] => destruct (Z.ltb_spec a b); try lia
  | |- context [Z.leb ?a ?b] => destruct (Z.leb_spec a b); try lia
  end; simpl.

(** ** Inverses of the steps *)

Lemma rotl64_bit v n i : in_u 64 v → 0 < n < 64 → 0 ≤ i < 64 →
  Z.testbit (rotl64 v n) i = Z.testbit v (if i <? n then i + 64 - n else i - n).
Proof.
  intros Hv Hn Hi. unfold rotl64, shl64.
  rewrite Z.lor_spec, u64_bit, Z.shiftl_spec, Z.shiftr_spec by lia. bit_cases.
  - rewrite (Z.testbit_neg_r v (i - n)) by lia. simpl. f_equal. lia.
  - rewrite (u64_high v (i + (64 - n))) by (done || lia). apply orb_false_r.
Qed.

Lemma inv_rotl64_bit v n i : in_u 64 v → 0 < n < 64 → 0 ≤ i < 64 →
  Z.testbit (inv_rotl64 v n) i = Z.testbit v (if i <? 64 - n then i + n else i + n - 64).
Proof.
  intros Hv Hn Hi. unfold inv_rotl64, shl64.
  rewrite Z.lor_spec, u64_bit, Z.shiftl_spec, Z.shiftr_spec by lia. bit_cases.
  - rewrite (Z.testbit_neg_r v (i - (64 - n))) by lia. apply orb_false_r.
  - rewrite (u64_high v (i + n)) by (done || lia). simpl. f_equal. lia.
Qed.

Lemma rotl64_u64 v n : in_u 64 v → 0 < n < 64 → in_u 64 (rotl64 v n).
Proof. intros. unfold rotl64, shl64. apply lor_u64; [apply u64_u64|apply shiftr_u64; [done|lia]]. Qed.
Lemma inv_rotl64_u64 v n : in_u 64 v → 0 < n < 64 → in_u 64 (inv_rotl64 v n).
Proof. intros. unfold inv_rotl64, shl64. apply lor_u64; [apply shiftr_u64; [done|lia]|apply u64_u64]. Qed.

Lemma inv_rotl64_rotl64 v n : in_u 64 v → 0 < n < 64 → inv_rotl64 (rotl64 v n) n = v.
Proof.
  intros Hv Hn. pose proof (rotl64_u64 v n Hv Hn) as Hr.
  apply bits_eq; [by apply inv_rotl64_u64|done|]. intros i Hi.
  rewrite inv_rotl64_bit by done. destruct (Z.ltb_spec i (64 - n)); rewrite rotl64_bit by (done || lia);
    f_equal; bit_cases; lia.
Qed.

(** The invariant of the loop of [inv_rshift_xor]: the bits from [64 - s * i] up
    are recovered, and the value no longer holds their shifted copies. *)
Lemma inv_rshift_xor_loop_ok s x fuel i value output :
  in_u 64 x → 0 < s < 64 → 0 ≤ i → 64 ≤ s * (i + Z.of_nat fuel) → s * i < 128 →
  in_u 64 value → in_u 64 output →
  (∀ n, 0 ≤ n < 64 → Z.testbit value n =
     xorb (Z.testbit x n) ((n + s <? 64 - s * i) && Z.testbit x (n + s))) →
  (∀ n, 0 ≤ n < 64 → Z.testbit output n = (64 - s * i <=? n) && Z.testbit x n) →
  inv_rshift_xor_loop fuel s i value output = x.
Proof.
  intros Hx Hs. revert i value output. induction fuel as [|fuel IH];
    intros i value output Hi Hfuel Hb Hv Ho Hval Hout.
  { apply bits_eq; [done|done|]. intros n Hn. rewrite Hout by done. simpl in Hfuel. bit_cases. done. }
  cbn [inv_rshift_xor_loop]. rewrite (Z.mul_comm i s), (wrap_small 64 (s * i)) by (unfold in_u; lia).
  destruct (Z.ltb_spec (s * i) 64) as [Hlt|Hge].
  2: { apply bits_eq; [done|done|]. intros n Hn. rewrite Hout by done. bit_cases. done. }
  set (c := Z.shiftr (shl64 0xffffffffffffffff (64 - s)) (s * i)).
  assert (∀ n, 0 ≤ n → Z.testbit c n = (64 - s <=? n + s * i) && (n + s * i <? 64)) as Hc.
  { intros n Hn. unfold c, shl64. rewrite Z.shiftr_spec, u64_bit, Z.shiftl_spec by lia.
    change 0xffffffffffffffff with (Z.ones 64).
    destruct (Z.ltb_spec (n + s * i) 64); [|by rewrite andb_false_r].
    destruct (Z.leb_spec (64 - s) (n + s * i)); simpl.
    - rewrite Z.ones_spec_low by lia. done.
    - rewrite Z.testbit_neg_r by lia. done. }
  assert (∀ n, 0 ≤ n → Z.testbit (Z.land value c) n =
    (64 - s <=? n + s * i) && (n + s * i <? 64) && Z.testbit x n) as Hpart.
  { intros n Hn. rewrite Z.land_spec, Hc by done. destruct (decide (n < 64)) as [Hlt64|Hge64].
    - rewrite Hval by lia. bit_cases; rewrite ?xorb_false_r, ?andb_true_r, ?andb_false_r; done.
    - rewrite (u64_high value) by (done || lia). bit_cases. }
  apply IH; try lia.
  - apply lxor_u64; [done|]. apply shiftr_u64; [by apply land_u64|lia].
  - apply lor_u64; [done|by apply land_u64].
  - intros n Hn. rewrite Z.lxor_spec, Z.shiftr_spec, Hpart, Hval by lia.
    bit_cases; rewrite ?xorb_false_r, ?xorb_assoc, ?xorb_nilpotent, ?xorb_false_r; done.
  - intros n Hn. rewrite Z.lor_spec, Hpart, Hout by lia. bit_cases; rewrite ?orb_false_r; done.
Qed.

Lemma inv_rshift_xor_inverts x s :
  in_u 64 x → 0 < s < 64 → inv_rshift_xor (Z.lxor x (Z.shiftr x s)) s = x.
Proof.
  intros Hx Hs. apply inv_rshift_xor_loop_ok; try done; try lia.
  - apply lxor_u64; [done|]. apply shiftr_u64; [done|lia].
  - intros n Hn. rewrite Z.lxor_spec, Z.shiftr_spec, Z.mul_0_r, Z.sub_0_r by lia.
    destruct (Z.ltb_spec (n + s) 64); [done|]. by rewrite (u64_high x (n + s)) by (done || lia).
  - intros n Hn. rewrite Z.testbit_0_l. bit_cases.
Qed.

Lemma mul64_inverse a c d : in_u 64 a → u64 (c * d) = 1 → mul64 (mul64 a c) d = a.
Proof.
  intros Ha Hcd. unfold mul64, wrap in *. rewrite Z.mul_mod_idemp_l, <- Z.mul_assoc by done.
  rewrite <- Z.mul_mod_idemp_r, Hcd, Z.mul_1_r by done. by apply wrap_small.
Qed.

Lemma sub64_add64 a b : in_u 64 a → sub64 (add64 a b) b = a.
Proof.
  intros Ha. unfold sub64, add64, wrap. rewrite Zminus_mod_idemp_l.
  replace (a + b - b) with a by lia. by apply wrap_small.
Qed.

Lemma lxor_cancel a b : Z.lxor (Z.lxor a b) b = a.
Proof. by rewrite Z.lxor_assoc, Z.lxor_nilpotent, Z.lxor_0_r. Qed.

Lemma fmix_u64 k : in_u 64 k → in_u 64 (fmix k).
Proof. intros. unfold fmix, mul64. apply lxor_u64; [apply u64_u64|apply shiftr_u64; [apply u64_u64|lia]]. Qed.

Lemma inv_fmix_fmix k : in_u 64 k → inv_fmix (fmix k) = k.
Proof.
  intros Hk. unfold inv_fmix, fmix.
  assert (∀ x, in_u 64 x → in_u 64 (Z.lxor x (Z.shiftr x 33))) as Hx
    by (intros; apply lxor_u64; [done|apply shiftr_u64; [done|lia]]).
  rewrite inv_rshift_xor_inverts by (apply u64_u64 || lia).
  rewrite mul64_inverse by (reflexivity || (apply Hx, u64_u64)).
  rewrite inv_rshift_xor_inverts by (apply u64_u64 || lia).
  rewrite mul64_inverse by (reflexivity || (apply Hx; exact Hk)).
  by rewrite inv_rshift_xor_inverts by (done || lia).
Qed.

(** The finalisation and the mixing of a block into (0, 0) are undone. *)
Definition unfinish3 (h : Z * Z) : Z * Z :=
  let '(h1, h2) := h in
  let h2 := sub64 h2 h1 in
  let h1 := sub64 h1 h2 in
  let h1 := inv_fmix h1 in
  let h2 := inv_fmix h2 in
  let h2 := sub64 h2 h1 in
  let h1 := sub64 h1 h2 in
  (Z.lxor h1 16, Z.lxor h2 16).

Lemma unfinish3_finish3 h1 h2 :
  in_u 64 h1 → in_u 64 h2 → unfinish3 (finish3 16 (h1, h2)) = (h1, h2).
Proof.
  intros H1 H2. assert (in_u 64 16) as H16 by done. unfold unfinish3, finish3.
  pose proof (lxor_u64 h1 16 H1 H16) as Hx1. pose proof (lxor_u64 h2 16 H2 H16) as Hx2.
  remember (add64 (Z.lxor h1 16) (Z.lxor h2 16)) as a eqn:Ha.
  remember (add64 (Z.lxor h2 16) a) as b eqn:Hb.
  assert (in_u 64 a) by (rewrite Ha; apply u64_u64).
  assert (in_u 64 b) by (rewrite Hb; apply u64_u64).
  rewrite (sub64_add64 (fmix b)), (sub64_add64 (fmix a)) by (by apply fmix_u64).
  rewrite !inv_fmix_fmix by done.
  assert (sub64 b a = Z.lxor h2 16) as -> by (rewrite Hb; by apply sub64_add64).
  rewrite Ha, sub64_add64 by done. by rewrite !lxor_cancel.
Qed.

Lemma load64_u64 key i : in_u 64 (load64 key i).
Proof. apply u64_u64. Qed.

Lemma unmix_block k c c' d d' r : in_u 64 k → 0 < r < 64 → u64 (c * c') = 1 → u64 (d * d') = 1 →
  mul64 (inv_rotl64 (mul64 (mul64 (rotl64 (mul64 k c) r) d) d') r) c' = k.
Proof.
  intros Hk Hr Hc Hd. rewrite (mul64_inverse _ d d') by (done || (apply rotl64_u64; [apply u64_u64|done])).
  rewrite inv_rotl64_rotl64 by (apply u64_u64 || done). by apply mul64_inverse.
Qed.

(** The rest of [inv_hash3_x64_128] after the finalisation is undone. *)
Definition unmix3 (h : Z * Z) : Z * Z :=
  let c1 := 0xa98409e882ce4d7d in
  let c2 := 0xa81e14edd9de2c7f in
  let '(h1, h2) := h in
  let b := inv_rotl64 (sub64 (mul64 (sub64 h2 0x38495ab5) 0xcccccccccccccccd) h1) 31 in
  let a := inv_rotl64 (mul64 (sub64 h1 0x52dce729) 0xcccccccccccccccd) 27 in
  (mul64 (inv_rotl64 (mul64 a c2) 31) c1, mul64 (inv_rotl64 (mul64 b c1) 33) c2).

Lemma inv_hash3_steps r :
  inv_hash3_x64_128 r = let '(k1, k2) := unmix3 (unfinish3 r) in (reverse_bytes k1, reverse_bytes k2).
Proof. by destruct r. Qed.

Lemma mix3_u64 k1 k2 h : in_u 64 (mix3 k1 k2 h).1 ∧ in_u 64 (mix3 k1 k2 h).2.
Proof. destruct h. split; apply u64_u64. Qed.

Lemma add64_0 a : in_u 64 a → add64 a 0 = a.
Proof. intros. unfold add64. rewrite Z.add_0_r. by apply wrap_small. Qed.

Lemma unmix3_mix3 k1 k2 :
  in_u 64 k1 → in_u 64 k2 → unmix3 (mix3 k1 k2 (0, 0)) = (k1, k2).
Proof.
  intros H1 H2. unfold mix3. rewrite !Z.lxor_0_l.
  set (a := mul64 (rotl64 (mul64 k1 0x87c37b91114253d5) 31) 0x4cf5ad432745937f).
  set (b := mul64 (rotl64 (mul64 k2 0x4cf5ad432745937f) 33) 0x87c37b91114253d5).
  assert (in_u 64 a) by apply u64_u64. assert (in_u 64 b) by apply u64_u64.
  rewrite (add64_0 (rotl64 a 27)) by (by apply rotl64_u64).
  set (h1 := add64 (mul64 (rotl64 a 27) 5) 0x52dce729). unfold unmix3.
  rewrite (sub64_add64 (mul64 (add64 (rotl64 b 31) h1) 5)) by apply u64_u64.
  rewrite (mul64_inverse (add64 (rotl64 b 31) h1)) by (apply u64_u64 || reflexivity).
  rewrite sub64_add64 by (by apply rotl64_u64). rewrite inv_rotl64_rotl64 by done.
  unfold h1. rewrite sub64_add64 by apply u64_u64.
  rewrite (mul64_inverse (rotl64 a 27)) by (reflexivity || by apply rotl64_u64).
  rewrite inv_rotl64_rotl64 by done.
  f_equal; apply unmix_block; done.
Qed.

Lemma hash3_one_block key offset :
  hash3_x64_128 key offset 16 0 =
    finish3 16 (mix3 (get_block key offset 0) (get_block key offset 1) (0, 0)).
Proof.
  unfold hash3_x64_128. change (seqZ 0 (Z.shiftr 16 4)) with [0]. cbn [foldl].
  change (add32 (mul32 0 2) 0) with 0. change (add32 (mul32 0 2) 1) with 1.
  by destruct (mix3 (get_block key offset 0) (get_block key offset 1) (0, 0)).
Qed.

(** *** Bytes in reverse order *)

(** A statement about bit positions is checked position by position. *)
Lemma by_range (P : Z → bool) n : forallb P (seqZ 0 64) = true → 0 ≤ n < 64 → P n = true.
Proof.
  intros HP Hn. rewrite forallb_forall in HP. apply HP, list_elem_of_In, elem_of_seqZ. lia.
Qed.

(** The position a bit comes from when groups of [s] bits are exchanged. *)
Definition swapped (s n : Z) : Z := if Z.odd (n / s) then n - s else n + s.

Lemma swap_groups x s lo hi n :
  0 < s < 64 → 0 ≤ n < 64 →
  (∀ m, 0 ≤ m < 64 → Z.testbit lo m = Z.even (m / s)) →
  (∀ m, 0 ≤ m < 64 → Z.testbit hi m = Z.odd (m / s)) →
  in_u 64 hi → 0 ≤ swapped s n < 64 →
  Z.testbit (Z.lor (shl64 (Z.land x lo) s) (Z.shiftr (Z.land x hi) s)) n =
    Z.testbit x (swapped s n).
Proof.
  intros Hs Hn Hlo Hhi Hu Hsw. unfold shl64, swapped in *.
  rewrite Z.lor_spec, u64_bit, Z.shiftl_spec, Z.shiftr_spec, !Z.land_spec by lia.
  rewrite (proj2 (Z.ltb_lt n 64)) by lia. rewrite andb_true_l.
  assert ((n - s) / s = n / s - 1) as Hm
    by (replace (n - s) with (n + -1 * s) by lia; rewrite Z.div_add; lia).
  assert ((n + s) / s = n / s + 1) as Hp
    by (replace (n + s) with (n + 1 * s) by lia; rewrite Z.div_add; lia).
  destruct (Z.odd (n / s)) eqn:Ho.
  - rewrite Hlo, Hm, Z.even_sub by lia. rewrite <- Z.negb_odd, Ho. simpl. rewrite andb_true_r.
    destruct (decide (n + s < 64)).
    + rewrite Hhi, Hp, Z.odd_add, Ho by lia. simpl. by rewrite andb_false_r, orb_false_r.
    + rewrite (u64_high hi) by (done || lia). by rewrite andb_false_r, orb_false_r.
  - rewrite Hhi, Hp, Z.odd_add, Ho by lia. simpl. rewrite andb_true_r.
    destruct (decide (0 ≤ n - s)).
    + rewrite Hlo, Hm, Z.even_sub by lia. rewrite <- Z.negb_odd, Ho. simpl.
      by rewrite andb_false_r.
    + by rewrite (Z.testbit_neg_r x (n - s)) by lia.
Qed.

Lemma mask_bits c (f : Z → bool) m :
  forallb (λ m, Bool.eqb (Z.testbit c m) (f m)) (seqZ 0 64) = true → 0 ≤ m < 64 →
  Z.testbit c m = f m.
Proof. intros Hf Hm. apply eqb_prop. by apply (by_range (λ m, Bool.eqb (Z.testbit c m) (f m))). Qed.

Lemma swapped_range s m :
  forallb (λ m, (0 <=? swapped s m) && (swapped s m <? 64)) (seqZ 0 64) = true → 0 ≤ m < 64 →
  0 ≤ swapped s m < 64.
Proof.
  intros Hf Hm. apply (by_range (λ m, (0 <=? swapped s m) && (swapped s m <? 64)) m) in Hf; [|done].
  by rewrite andb_true_iff, Z.leb_le, Z.ltb_lt in Hf.
Qed.

Ltac swap_step s :=
  rewrite (swap_groups _ s);
    [|lia|assumption
     |intros; apply (mask_bits _ (λ m, Z.even (m / s))); [vm_compute; reflexivity|assumption]
     |intros; apply (mask_bits _ (λ m, Z.odd (m / s))); [vm_compute; reflexivity|assumption]
     |vm_compute; split; congruence|apply swapped_range; [vm_compute; reflexivity|assumption]].

Lemma reverse_bytes_bit x n : 0 ≤ n < 64 →
  Z.testbit (reverse_bytes x) n = Z.testbit x (8 * (7 - n / 8) + n mod 8).
Proof.
  intros Hn. unfold reverse_bytes.
  assert (0 ≤ swapped 8 n < 64) by (by apply swapped_range).
  assert (0 ≤ swapped 16 (swapped 8 n) < 64) by (by apply swapped_range).
  swap_step 8. swap_step 16. swap_step 32. f_equal. apply Z.eqb_eq.
  by apply (by_range (λ n, swapped 32 (swapped 16 (swapped 8 n)) =? 8 * (7 - n / 8) + n mod 8)).
Qed.

Lemma le_value_bit bs n : 0 ≤ n →
  Z.testbit (le_value bs) n = Z.testbit (Z_of_byte (nth (Z.to_nat (n / 8)) bs x00)) (n mod 8).
Proof.
  revert n. induction bs as [|b bs IH]; intros n Hn.
  { cbn [le_value]. rewrite Z.testbit_0_l. destruct (Z.to_nat (n / 8)); simpl; by rewrite Z.testbit_0_l. }
  cbn [le_value]. pose proof (Z_of_byte_range b). destruct (decide (n < 8)) as [Hlt|Hge].
  - rewrite (Z.div_small n 8), (Z.mod_small n 8) by lia. change (nth (Z.to_nat 0) (b :: bs) x00) with b.
    rewrite <- (Z.mod_pow2_bits_low (Z_of_byte b + _) 8 n) by lia. f_equal. change (2 ^ 8) with 256.
    rewrite Z.mul_comm, Z_mod_plus_full. apply Z.mod_small. lia.
  - replace n with (n - 8 + 8) at 1 by lia. rewrite <- Z.div_pow2_bits by lia. change (2 ^ 8) with 256.
    rewrite Z.mul_comm, Z.div_add, Z.div_small, Z.add_0_l, IH by lia.
    replace ((n - 8) mod 8) with (n mod 8)
      by (replace (n - 8) with (n + -1 * 8) by lia; by rewrite Z_mod_plus_full).
    replace (Z.to_nat (n / 8)) with (S (Z.to_nat ((n - 8) / 8))); [done|].
    replace (n - 8) with (n + -1 * 8) by lia. rewrite Z.div_add by lia.
    assert (1 ≤ n / 8) by (apply Z.div_le_lower_bound; lia). lia.
Qed.

Lemma le_value_u64 bs : length bs = 8%nat → in_u 64 (le_value bs).
Proof. intros Hl. pose proof (le_value_range bs) as Hr. by rewrite Hl in Hr. Qed.

Lemma reverse_bytes_spec bs : length bs = 8%nat → reverse_bytes (le_value bs) = le_value (reverse bs).
Proof.
  intros Hl. apply bits_eq.
  - apply lor_u64; [apply u64_u64|]. apply shiftr_u64; [|lia]. rewrite Z.land_comm. by apply land_u64.
  - apply le_value_u64. by rewrite length_reverse.
  - intros n Hn. rewrite reverse_bytes_bit by done.
    assert (0 ≤ n / 8 < 8) by (split; [apply Z.div_pos|apply Z.div_lt_upper_bound]; lia).
    pose proof (Z.mod_pos_bound n 8 ltac:(lia)).
    rewrite !le_value_bit by lia.
    replace (8 * (7 - n / 8) + n mod 8) with (n mod 8 + (7 - n / 8) * 8) by lia.
    rewrite Z.div_add, Z.div_small, Z_mod_plus_full, Z.mod_mod by lia. do 2 f_equal.
    unfold reverse. rewrite <- rev_alt, rev_nth by lia. f_equal. lia.
Qed.

(** The bytes of a key. *)
Definition key_bytes (key : memory) (i n : Z) : list byte := (λ j, key (i + j)) <$> seqZ 0 n.

Lemma load64_spec key i : 0 ≤ i → i + 8 ≤ 2 ^ 32 → load64 key i = le_value (key_bytes key i 8).
Proof.
  intros Hi Hb. unfold load64, mem_at, add32, shl64.
  rewrite !(wrap_small 32) by (unfold in_u; lia).
  assert (∀ b, Z.land (Z_of_byte b) 0xff = Z_of_byte b) as Hland.
  { intros b. pose proof (Z_of_byte_range b). change 0xff with (Z.ones 8).
    rewrite Z.land_ones by lia. apply Z.mod_small. done. }
  rewrite !Hland, !Z.shiftl_mul_pow2 by lia.
  change (key_bytes key i 8) with [key (i + 0); key (i + 1); key (i + 2); key (i + 3);
    key (i + 4); key (i + 5); key (i + 6); key (i + 7)]. cbn [le_value].
  repeat match goal with |- context [Z_of_byte ?b] =>
    pose proof (Z_of_byte_range b); generalize dependent (Z_of_byte b); intros end.
  rewrite !(wrap_small 64 (_ * _)) by (unfold in_u; lia). rewrite wrap_small by (unfold in_u; lia). lia.
Qed.

(** ** Properties *)

Lemma inv_hash3_block key offset : 0 ≤ offset → offset + 16 ≤ 2 ^ 32 →
  inv_hash3_x64_128 (hash3_x64_128 key offset 16 0) =
    (le_value (reverse (key_bytes key offset 8)), le_value (reverse (key_bytes key (offset + 8) 8))).
Proof.
  intros Ho Hb. rewrite hash3_one_block, inv_hash3_steps.
  pose proof (mix3_u64 (get_block key offset 0) (get_block key offset 1) (0, 0)) as Hm.
  pose proof (unmix3_mix3 (get_block key offset 0) (get_block key offset 1)
                (load64_u64 _ _) (load64_u64 _ _)) as Hu.
  destruct (mix3 _ _ _) as [h1 h2]. destruct Hm as [Hm1 Hm2].
  rewrite unfinish3_finish3, Hu by done. unfold get_block.
  change (shl32 0 3) with 0. change (shl32 1 3) with 8. unfold add32.
  rewrite Z.add_0_r, !wrap_small by (unfold in_u; lia). rewrite !load64_spec by lia.
  by rewrite !reverse_bytes_spec.
Qed.

(** C25 (round trip): [inv_hash3_x64_128] inverts [hash3_x64_128] on the 16-byte
    keys hashed with seed 0: it returns the two halves of the key read as
    big-endian numbers. *)
Theorem inv_hash3_inverts (key : memory) (offset : Z) :
  0 ≤ offset → offset + 16 ≤ 2 ^ 32 →
  inv_hash3_x64_128 (hash3_x64_128 key offset 16 0) =
    (le_value (reverse (key_bytes key offset 8)), le_value (reverse (key_bytes key (offset + 8) 8))).
Proof. apply inv_hash3_block. Qed.

Lemma inv_hash3_inverts_witness :
  let key := mem_of (str_bytes "0123456789abcdef") in
  inv_hash3_x64_128 (hash3_x64_128 key 0 16 0) =
    (le_value (reverse (key_bytes key 0 8)), le_value (reverse (key_bytes key (0 + 8) 8))).
Proof. apply inv_hash3_inverts; lia. Defined.

Lemma le_value_inj bs bs' : length bs = length bs' → le_value bs = le_value bs' → bs = bs'.
Proof. intros Hl Hv. by rewrite <- (le_bytes_value bs), <- (le_bytes_value bs'), Hl, Hv. Qed.

(** Two 16-byte keys with the same 128-bit hash under seed 0 are
    the same key: the hash is injective on them. *)
Theorem hash3_injective_on_blocks (key key' : memory) (offset offset' : Z) :
  0 ≤ offset → offset + 16 ≤ 2 ^ 32 → 0 ≤ offset' → offset' + 16 ≤ 2 ^ 32 →
  hash3_x64_128 key offset 16 0 = hash3_x64_128 key' offset' 16 0 →
  ∀ j, 0 ≤ j < 16 → key (offset + j) = key' (offset' + j).
Proof.
  intros H1 H2 H3 H4 Heq j Hj. apply (f_equal inv_hash3_x64_128) in Heq.
  rewrite !inv_hash3_block in Heq by done. apply pair_equal_spec in Heq as [Hlo Hhi].
  assert (∀ i i', key_bytes key i 8 = key_bytes key' i' 8 → ∀ j, 0 ≤ j < 8 → key (i + j) = key' (i' + j))
    as Hbytes.
  { intros i i' Hk m Hm. apply (f_equal (.!! Z.to_nat m)) in Hk. unfold key_bytes in Hk.
    rewrite !list_lookup_fmap, !lookup_seqZ_lt in Hk by lia. simpl in Hk.
    rewrite Z2Nat.id in Hk by lia. by simplify_eq. }
  apply le_value_inj in Hlo, Hhi; [|by rewrite !length_reverse..].
  apply (inj reverse) in Hlo, Hhi. destruct (decide (j < 8)); [apply Hbytes; [done|lia]|].
  replace (offset + j) with (offset + 8 + (j - 8)) by lia.
  replace (offset' + j) with (offset' + 8 + (j - 8)) by lia. apply Hbytes; [done|lia].
Qed.

Lemma hash3_injective_on_blocks_witness :
  let key := mem_of (str_bytes "0123456789abcdef") in
  let key' := mem_of (str_bytes "..0123456789abcdef") in
  key (0 + 7) = key' (2 + 7).
Proof.
  apply hash3_injective_on_blocks; [lia..| |lia]. vm_compute. reflexivity.
Defined.

(** *** The bytes the functions read *)

Lemma foldl_ext_in {A B} (f g : A → B → A) l h :
  (∀ h i, i ∈ l → f h i = g h i) → foldl f h l = foldl g h l.
Proof.
  revert h. induction l as [|i l IH]; intros h Hfg; [done|]. cbn. rewrite Hfg by (by left).
  apply IH. intros. apply Hfg. by right.
Qed.

Lemma shl32_mul i n : 0 ≤ n → 0 ≤ i → i * 2 ^ n < 2 ^ 32 → shl32 i n = i * 2 ^ n.
Proof.
  intros Hn Hi Hb. unfold shl32. rewrite Z.shiftl_mul_pow2 by done. apply wrap_small.
  unfold in_u. split; [|done]. apply Z.mul_nonneg_nonneg; lia.
Qed.

Section footprint.
Variables (key key' : memory) (offset length : Z).
Hypothesis Hoffset : 0 ≤ offset.
Hypothesis Hlength : 0 ≤ length.
Hypothesis Hend : offset + length < 2 ^ 32.

(** Memories that agree on the first [n] bytes of the key. *)
Definition agree (n : Z) : Prop := ∀ j, 0 ≤ j < n → key (offset + j) = key' (offset + j).

Lemma mem_at_agree n i : agree n → offset ≤ i < offset + n → mem_at key i = mem_at key' i.
Proof.
  intros Ha Hi. unfold mem_at. f_equal. replace i with (offset + (i - offset)) by lia.
  apply Ha. lia.
Qed.

Lemma load64_agree n i :
  agree n → offset ≤ i → i + 8 ≤ offset + n → offset + n < 2 ^ 32 → load64 key i = load64 key' i.
Proof.
  intros Ha H1 H2 H3. unfold load64, add32. rewrite !(wrap_small 32) by (unfold in_u; lia).
  by rewrite !(mem_at_agree n) by (done || lia).
Qed.

Lemma hash2_x32_agree seed : agree length → hash2_x32 key offset length seed = hash2_x32 key' offset length seed.
Proof.
  intros Ha. unfold hash2_x32. rewrite Z.shiftr_div_pow2 by lia. change (2 ^ 2) with 4.
  pose proof (Z.mul_div_le length 4 ltac:(lia)). pose proof (Z.div_pos length 4 Hlength ltac:(lia)).
  pose proof (Z.mod_pos_bound length 4 ltac:(lia)). pose proof (Z.div_mod length 4 ltac:(lia)).
  rewrite (foldl_ext_in (mix2_x32 key offset) (mix2_x32 key' offset)).
  2: { intros h i [Hi1 Hi2]%elem_of_seqZ. unfold mix2_x32.
       rewrite (shl32_mul i 2) by lia. unfold add32. change (2 ^ 2) with 4.
       rewrite (wrap_small 32 (offset + i * 4)) by (unfold in_u; lia).
       rewrite !(wrap_small 32 (offset + i * 4 + _)) by (unfold in_u; lia).
       by rewrite !(mem_at_agree length) by (done || lia). }
  set (h := foldl _ _ _). rewrite (shl32_mul (length / 4) 2) by lia. change (2 ^ 2) with 4.
  rewrite (wrap_small 32 (length - _)) by (unfold in_u; lia).
  replace (length - length / 4 * 4) with (length mod 4) by lia.
  unfold add32. rewrite (wrap_small 32 (offset + length)) by (unfold in_u; lia).
  destruct (Z.eqb_spec (length mod 4) 0); [done|].
  destruct (Z.leb_spec 3 (length mod 4)), (Z.leb_spec 2 (length mod 4)),
    (Z.leb_spec 1 (length mod 4)); try lia; cbv zeta iota;
    rewrite !(wrap_small 32 (offset + length - _)) by (unfold in_u; lia);
    by rewrite !(mem_at_agree length) by (done || lia).
Qed.

(** A case that reads a byte both memories hold. *)
Lemma from_case_xor label n i shift x :
  (label ≤ n → mem_at key i = mem_at key' i) →
  from_case label n (λ k, Z.lxor k (shl64 (mem_at key i) shift)) x =
  from_case label n (λ k, Z.lxor k (shl64 (mem_at key' i) shift)) x.
Proof. intros Hi. unfold from_case. destruct (Z.leb_spec label n); [by rewrite Hi|done]. Qed.

Lemma hash2_x64_agree seed : agree length → hash2_x64 key offset length seed = hash2_x64 key' offset length seed.
Proof.
  intros Ha. unfold hash2_x64. rewrite Z.shiftr_div_pow2 by lia. change (2 ^ 3) with 8.
  pose proof (Z.mul_div_le length 8 ltac:(lia)). pose proof (Z.div_pos length 8 Hlength ltac:(lia)).
  pose proof (Z.mod_pos_bound length 8 ltac:(lia)). pose proof (Z.div_mod length 8 ltac:(lia)).
  rewrite (foldl_ext_in (mix2_x64 key offset) (mix2_x64 key' offset)).
  2: { intros h i [Hi1 Hi2]%elem_of_seqZ. unfold mix2_x64.
       rewrite (shl32_mul i 3) by lia. unfold add32. change (2 ^ 3) with 8.
       rewrite (wrap_small 32 (offset + i * 8)) by (unfold in_u; lia).
       by rewrite (load64_agree length) by (done || lia). }
  set (h := foldl _ _ _).
  assert (Z.land length 7 = length mod 8) as ->.
  { change 7 with (Z.ones 3). by rewrite Z.land_ones by lia. }
  set (rem := length mod 8) in *.
  assert (∀ j, 0 ≤ j < rem → mem_at key (add32 (u32 (add32 offset length - rem)) j) =
                            mem_at key' (add32 (u32 (add32 offset length - rem)) j)) as Hat.
  { intros j Hj. unfold add32. rewrite !(wrap_small 32 (offset + length)) by (unfold in_u; lia).
    rewrite !(wrap_small 32 (offset + length - rem)) by (unfold in_u; lia).
    rewrite !wrap_small by (unfold in_u; lia). apply (mem_at_agree length); [done|lia]. }
  cbv zeta beta.
  do 6 (rewrite (from_case_xor _ rem (add32 (u32 (add32 offset length - rem)) _))
          by (intros; apply Hat; lia)).
  assert (∀ i x m, mem_at key i = mem_at key' i ∨ rem < 1 →
    from_case 1 rem (λ h, mul64 (Z.lxor h (shl64 (mem_at key i) (8 * 0))) m) x =
    from_case 1 rem (λ h, mul64 (Z.lxor h (shl64 (mem_at key' i) (8 * 0))) m) x) as Hlast.
  { intros i x m Hi. unfold from_case. destruct (Z.leb_spec 1 rem); [|done].
    destruct Hi as [->|]; [done|lia]. }
  rewrite Hlast; [done|]. destruct (decide (rem < 1)); [by right|left; apply Hat; lia].
Qed.

(** [hash3_x64_128] reads its blocks and at most the first ten bytes of its tail. *)
Definition read3 : Z := length - Z.max 0 (length mod 16 - 10).

Lemma hash3_agree seed : agree read3 → hash3_x64_128 key offset length seed = hash3_x64_128 key' offset length seed.
Proof.
  intros Ha. unfold read3 in Ha. unfold hash3_x64_128. rewrite Z.shiftr_div_pow2 by lia. change (2 ^ 4) with 16.
  pose proof (Z.mul_div_le length 16 ltac:(lia)). pose proof (Z.div_pos length 16 Hlength ltac:(lia)).
  pose proof (Z.mod_pos_bound length 16 ltac:(lia)). pose proof (Z.div_mod length 16 ltac:(lia)).
  set (nb := length / 16) in *. set (n := length mod 16) in *.
  assert (∀ h i, i ∈ seqZ 0 nb →
    mix3 (get_block key offset (add32 (mul32 i 2) 0)) (get_block key offset (add32 (mul32 i 2) 1)) h =
    mix3 (get_block key' offset (add32 (mul32 i 2) 0)) (get_block key' offset (add32 (mul32 i 2) 1)) h) as Hbody.
  { intros h i [Hi1 Hi2]%elem_of_seqZ. unfold get_block, mul32, add32.
    rewrite !(wrap_small 32 (i * 2)) by (unfold in_u; lia).
    rewrite !(wrap_small 32 (i * 2 + _)) by (unfold in_u; lia).
    rewrite !shl32_mul by lia. change (2 ^ 3) with 8.
    rewrite !(wrap_small 32 (offset + _)) by (unfold in_u; lia).
    by rewrite !(load64_agree (length - Z.max 0 (n - 10))) by (done || lia). }
  rewrite (foldl_ext_in _ _ _ _ Hbody). set (h := foldl _ _ _).
  assert (add32 offset (mul32 nb 16) = offset + nb * 16) as ->.
  { unfold mul32, add32. rewrite (wrap_small 32 (nb * 16)) by (unfold in_u; lia).
    apply wrap_small. unfold in_u. lia. }
  f_equal. unfold tail3. destruct h as [h1 h2].
  assert (Z.land length 15 = n) as ->.
  { change 15 with (Z.ones 4). by rewrite Z.land_ones by lia. }
  assert (∀ j, 0 ≤ j < Z.min n 10 → mem_at key (add32 (offset + nb * 16) j) =
                                   mem_at key' (add32 (offset + nb * 16) j)) as Hat.
  { intros j Hj. unfold add32. rewrite !wrap_small by (unfold in_u; lia).
    apply (mem_at_agree (length - Z.max 0 (n - 10))); [done|lia]. }
  cbv zeta beta.
  do 15 (rewrite (from_case_xor _ n (add32 (offset + nb * 16) _)) by (intros; apply Hat; lia)).
  done.
Qed.
End footprint.

(** The hash functions depend on the announced bytes of the key
    only: they give the same result on any two memories that agree there. *)
Theorem hash_footprint (key key' : memory) (offset length seed : Z) :
  0 ≤ offset → 0 ≤ length → offset + length < 2 ^ 32 → agree key key' offset length →
  hash2_x32 key offset length seed = hash2_x32 key' offset length seed ∧
  hash2_x64 key offset length seed = hash2_x64 key' offset length seed ∧
  hash3_x64_128 key offset length seed = hash3_x64_128 key' offset length seed.
Proof.
  intros H1 H2 H3 Ha. split; [by apply hash2_x32_agree|]. split; [by apply hash2_x64_agree|].
  apply hash3_agree; try done. intros j Hj. apply Ha. unfold read3 in Hj. lia.
Qed.

Lemma hash_footprint_witness :
  let key := mem_of (str_bytes "hash me") in let key' := mem_of (str_bytes "hash me not") in
  hash2_x32 key 0 7 1 = hash2_x32 key' 0 7 1 ∧ hash2_x64 key 0 7 1 = hash2_x64 key' 0 7 1 ∧
  hash3_x64_128 key 0 7 1 = hash3_x64_128 key' 0 7 1.
Proof.
  apply hash_footprint; [lia..|]. intros j Hj.
  assert (j = 0 ∨ j = 1 ∨ j = 2 ∨ j = 3 ∨ j = 4 ∨ j = 5 ∨ j = 6) as Hc by lia.
  by repeat destruct Hc as [->|Hc]; try (subst j).
Defined.

(** The tail of [hash3_x64_128] ignores the bytes from the eleventh
    on, which its labels 11 to 15 should mix in: two keys that differ there only
    have the same hash. *)
Theorem hash3_ignores_tail (key key' : memory) (offset length seed : Z) :
  0 ≤ offset → 0 ≤ length → offset + length < 2 ^ 32 →
  (∀ j, 0 ≤ j < length → j mod 16 < 10 ∨ j < 16 * (length / 16) → key (offset + j) = key' (offset + j)) →
  hash3_x64_128 key offset length seed = hash3_x64_128 key' offset length seed.
Proof.
  intros H1 H2 H3 Ha. apply hash3_agree; try done. intros j Hj. unfold read3 in Hj.
  pose proof (Z.div_mod length 16 ltac:(lia)). pose proof (Z.mod_pos_bound length 16 ltac:(lia)).
  apply Ha; [lia|]. destruct (decide (j < 16 * (length / 16))); [by right|left].
  assert (j mod 16 = j - 16 * (length / 16)) as ->; [|lia].
  symmetry. apply (Z.mod_unique _ _ (length / 16)); lia.
Qed.

Lemma hash3_ignores_tail_witness :
  hash3_x64_128 (mem_of (str_bytes "partition_one")) 0 13 0 =
  hash3_x64_128 (mem_of (str_bytes "partition_two")) 0 13 0.
Proof.
  apply hash3_ignores_tail; [lia..|]. intros j Hj Hor. change (16 * (13 / 16)) with 0 in Hor.
  rewrite Z.mod_small in Hor by lia.
  assert (j = 0 ∨ j = 1 ∨ j = 2 ∨ j = 3 ∨ j = 4 ∨ j = 5 ∨ j = 6 ∨ j = 7 ∨ j = 8 ∨ j = 9) as Hc by lia.
  by repeat destruct Hc as [->|Hc]; try (subst j).
Defined.
