(* ===== verification/Logger.v ===== *)
(** * The logger: [util::Logger]

    Models [include/util/logger.hh], [lib/util/logger.cc] and the singleton of
    [include/util/factory.hh]: verbosity, prefixes and suffixes, and the format
    handed to [dprintf].  Whether the descriptor is a terminal is a parameter. *)

From Stdlib Require Import ZArith Lia Ascii String.
From stdpp Require Import base list strings.
From S2P Require Import Prelude.

Local Open Scope Z_scope.

Inductive LogLevel := NONE | ERROR | WARNING | NOTICE | INFO.

#[export] Instance LogLevel_eq_dec : EqDecision LogLevel.
Proof. solve_decision. Defined.

Definition level_int (l : LogLevel) : Z :=
  match l with NONE => 0 | ERROR => 1 | WARNING => 2 | NOTICE => 3 | INFO => 4 end.

Record Logger := MkLogger { lg_level : LogLevel; lg_tty : bool }.

(** [Logger::Logger]: [tty] is [isatty(m_fd)]. *)
Definition Logger_new (tty : bool) (level : LogLevel) : Logger := MkLogger level tty.

Definition set_verbosity (level : LogLevel) (l : Logger) : Logger := MkLogger level (lg_tty l).

Definition parse_verbosity (name : string) (fallback : LogLevel) : LogLevel :=
  if String.eqb name "error" then ERROR
  else if String.eqb name "warning" then WARNING
  else if String.eqb name "notice" then NOTICE
  else if String.eqb name "info" then INFO
  else fallback.

Definition ESC : string := String (ascii_of_nat 27) "".
Definition carriage : string := String (ascii_of_nat 13) "".

(** [m_prefixes.at(level)], [m_suffixes.at(level)] *)
Definition prefix_of (tty : bool) (level : LogLevel) : outcome string :=
  let colour code text := Ok (carriage +:+ ESC +:+ "[1;" +:+ code +:+ "m" +:+ text +:+ ESC +:+ "[0m") in
  match tty, level with
  | _, NONE => Throw (out_of_range "map::at")
  | true, INFO => colour "32" "* "
  | true, NOTICE => colour "34" "notice: "
  | true, WARNING => colour "33" "warn: "
  | true, ERROR => colour "31" "error: "
  | false, INFO => Ok "dibibase|info: "
  | false, NOTICE => Ok "dibibase|notice: "
  | false, WARNING => Ok "dibibase|warn: "
  | false, ERROR => Ok "dibibase|error: "
  end.

Definition suffix_of (tty : bool) (level : LogLevel) : outcome string :=
  match level with
  | NONE => Throw (out_of_range "map::at")
  | _ => Ok (if tty then ESC +:+ "[0m" else "")
  end.

(** [output]: nothing, or the format given to [dprintf]. *)
Definition output (level : LogLevel) (format : string) (l : Logger) : outcome (option string) :=
  if level_int (lg_level l) <? level_int level then Ok None
  else
    prefix ← prefix_of (lg_tty l) level;
    suffix ← suffix_of (lg_tty l) level;
    Ok (Some (prefix +:+ format +:+ suffix +:+ String (ascii_of_nat 10) "")).

Definition info : string → Logger → outcome (option string) := output INFO.
Definition notice : string → Logger → outcome (option string) := output NOTICE.
Definition warn : string → Logger → outcome (option string) := output WARNING.
Definition err : string → Logger → outcome (option string) := output ERROR.

(** [Logger::make]: the static instance is built by the first call. *)
Definition make (tty : bool) (level : LogLevel) : M (option Logger) Logger := λ instance,
  match instance with
  | Some l => (Ok l, Some l)
  | None => let l := Logger_new tty level in (Ok l, Some l)
  end.

(** A message of a level that has a name is written exactly when the verbosity
    reaches the level; the four calls never throw. *)
Lemma output_iff level format l : level ≠ NONE →
  ∃ text, output level format l = Ok text ∧
    (is_Some text ↔ level_int level ≤ level_int (lg_level l)).
Proof.
  intros Hl. unfold output. destruct (Z.ltb_spec (level_int (lg_level l)) (level_int level)) as [Hlt|Hge].
  - exists None. split; [done|]. split; [by intros []|lia].
  - destruct (lg_tty l), level; try done; cbn; eexists; (split; [reflexivity|]); (split; [done|by eexists]).
Qed.

(** Later calls of [make] get the first logger, whatever level they ask for. *)
Lemma make_again tty level level' :
  (make tty level ≫= λ l, l' ← make tty level'; mret (l, l')) None =
    (Ok (Logger_new tty level, Logger_new tty level), Some (Logger_new tty level)).
Proof. done. Qed.
