(* ===== verification/Text.v ===== *)
(** * Strings of the C++ library

    What the protocol and routing code uses of [std::string] and of the C
    conversions: indexing, [find], [substr], [strstr], [tolower], [std::stoi]
    and [atoi]. *)

From Stdlib Require Import ZArith Lia Strings.Byte Ascii String.
From stdpp Require Import base list list_numbers strings pretty.
From S2P Require Import Prelude.

Local Open Scope Z_scope.

(** ** Characters *)

Definition char_code (c : ascii) : Z := Z.of_N (N_of_ascii c).

(** [s\[i\]]: the terminating NUL is readable, what follows is not. *)
Definition string_at (s : string) (i : Z) : outcome Z :=
  if bool_decide (0 ≤ i) then
    match String.get (Z.to_nat i) s with
    | Some c => Ok (char_code c)
    | None => if i =? slen s then Ok 0 else Undef OutOfBounds
    end
  else Undef OutOfBounds.

(** [tolower] in the C locale. *)
Definition tolower (c : Z) : Z := if (65 <=? c) && (c <=? 90) then c + 32 else c.

(** ** Searching and slicing *)

Definition npos : Z := 2 ^ 64 - 1.

Definition str_find (s token : string) : Z :=
  match String.index 0 token s with Some p => Z.of_nat p | None => npos end.

Definition str_substr (s : string) (pos n : Z) : outcome string :=
  if slen s <? pos then Throw (out_of_range "basic_string::substr")
  else Ok (String.substring (Z.to_nat pos) (Z.to_nat (Z.min n (slen s - pos))) s).

(** [strstr(s.c_str(), token.c_str())] is not null; neither holds a NUL. *)
Definition strstr (s token : string) : bool :=
  match String.index 0 token s with Some _ => true | None => false end.

(** ** [std::map<std::string, V>] *)

Fixpoint str_map_get {V} (k : string) (m : list (string * V)) : option V :=
  match m with
  | [] => None
  | (k', v) :: m => if String.eqb k' k then Some v else str_map_get k m
  end.

(** [m\[k\] = v] *)
Fixpoint str_map_set {V} (k : string) (v : V) (m : list (string * V)) : list (string * V) :=
  match m with
  | [] => [(k, v)]
  | (k', v') :: m =>
      if String.eqb k' k then (k, v) :: m
      else if str_before k k' then (k, v) :: (k', v') :: m
      else (k', v') :: str_map_set k v m
  end.

(** ** Conversions to integers *)

Definition digit_of (c : ascii) : option Z :=
  let d := char_code c - 48 in if (0 <=? d) && (d <=? 9) then Some d else None.

Definition isspace (c : ascii) : bool :=
  let d := char_code c in (d =? 32) || ((9 <=? d) && (d <=? 13)).

(** What [isspace], [tolower] and [toupper] of [<cctype>] take when they are
    given a plain [char]: a value of [unsigned char], or [EOF], which is the
    [char] 0xff. *)
Definition ctype_arg (c : ascii) : bool := (char_code c <? 128) || (char_code c =? 255).

Fixpoint skip_space (s : string) : string :=
  match s with
  | String c s' => if isspace c then skip_space s' else s
  | EmptyString => s
  end.

Fixpoint read_digits (acc : Z) (s : string) : Z :=
  match s with
  | String c s' =>
      match digit_of c with Some d => read_digits (10 * acc + d) s' | None => acc end
  | EmptyString => acc
  end.

(** The number [strtol(s, _, 10)] reads, before it is clamped; [None] when
    there is no digit to read. *)
Definition strtol (s : string) : option Z :=
  let unsigned s :=
    match s with
    | String c _ => match digit_of c with Some _ => Some (read_digits 0 s) | None => None end
    | EmptyString => None
    end in
  match skip_space s with
  | String "-" s' => Z.opp <$> unsigned s'
  | String "+" s' => unsigned s'
  | s' => unsigned s'
  end.

Definition stoi (s : string) : outcome Z :=
  match strtol s with
  | None => Throw (invalid_argument "stoi")
  | Some z => if bool_decide (in_s 32 z) then Ok z else Throw (out_of_range "stoi")
  end.

Definition strtoll (s : string) : Z :=
  match strtol s with
  | None => 0
  | Some z => Z.max (- 2 ^ 63) (Z.min z (2 ^ 63 - 1))
  end.

Definition atoi (s : string) : Z := s32 (strtoll s).

(** ** Decimal texts *)

Lemma digit_of_pretty x : (x < 10)%N → digit_of (pretty_N_char x) = Some (Z.of_N x).
Proof.
  intros H. assert (x = 0 ∨ x = 1 ∨ x = 2 ∨ x = 3 ∨ x = 4 ∨ x = 5 ∨ x = 6 ∨ x = 7 ∨ x = 8 ∨ x = 9)%N
    as [->|[->|[->|[->|[->|[->|[->|[->|[->| ->]]]]]]]]] by lia; done.
Qed.

Lemma read_digits_pretty x s : ∀ acc,
  ∃ k : Z, read_digits acc (pretty_N_go x s) = read_digits (k * acc + Z.of_N x) s ∧ 1 ≤ k.
Proof.
  revert s. induction (N.lt_wf_0 x) as [x _ IH]; intros s acc.
  destruct (decide (0 < x)%N) as [Hx|Hx]; last first.
  { assert (x = 0%N) as -> by lia. rewrite pretty_N_go_0. exists 1. split; [f_equal; lia|lia]. }
  rewrite pretty_N_go_step by done.
  destruct (IH (x `div` 10)%N (N.div_lt x 10 Hx eq_refl)
              (String (pretty_N_char (x `mod` 10)) s) acc) as (k & Hk & Hk1).
  exists (10 * k). split; [|lia]. rewrite Hk. cbn [read_digits].
  rewrite digit_of_pretty by (apply N.mod_lt; lia). f_equal.
  rewrite N2Z.inj_div, N2Z.inj_mod. pose proof (Z.div_mod (Z.of_N x) 10). lia.
Qed.

(** The characters of a decimal text, read from its accumulator. *)
Lemma pretty_go_forall (P : ascii → Prop) x s :
  (∀ d, (d < 10)%N → P (pretty_N_char d)) →
  Forall P (String.list_ascii_of_string s) → Forall P (String.list_ascii_of_string (pretty_N_go x s)).
Proof.
  intros HP. revert s. induction (N.lt_wf_0 x) as [x _ IH]; intros s Hs.
  destruct (decide (0 < x)%N) as [Hx|Hx]; last first.
  { assert (x = 0%N) as -> by lia. by rewrite pretty_N_go_0. }
  rewrite pretty_N_go_step by done. apply IH; [by apply N.div_lt|]. cbn.
  constructor; [|done]. apply HP, N.mod_lt. lia.
Qed.

Lemma pretty_go_head x s : (0 < x)%N →
  ∃ d r, pretty_N_go x s = String (pretty_N_char d) r ∧ (d < 10)%N.
Proof.
  revert s. induction (N.lt_wf_0 x) as [x _ IH]; intros s Hx. rewrite pretty_N_go_step by done.
  destruct (N.eq_0_gt_0_cases (x `div` 10)%N) as [->|Hd].
  - rewrite pretty_N_go_0. eexists _, _. split; [done|]. by apply N.mod_lt.
  - apply IH; [by apply N.div_lt|done].
Qed.

Lemma strtol_unsigned x : (0 < x)%N →
  ∃ d r, pretty_N_go x "" = String (pretty_N_char d) r ∧ (d < 10)%N ∧
    read_digits 0 (String (pretty_N_char d) r) = Z.of_N x.
Proof.
  intros Hx. destruct (pretty_go_head x "" Hx) as (d & r & Hp & Hd). exists d, r.
  split_and!; [done..|]. rewrite <- Hp. destruct (read_digits_pretty x "" 0) as (k & -> & _).
  cbn. lia.
Qed.

Lemma strtol_pretty (z : Z) : strtol (pretty z) = Some z.
Proof.
  destruct z as [|x|x]; [done| |];
    destruct (strtol_unsigned (N.pos x) ltac:(lia)) as (d & r & Hp & Hd & Hr).
  - change (pretty (Z.pos x)) with (pretty_N_go (N.pos x) ""). rewrite Hp.
    change (Z.pos x) with (Z.of_N (N.pos x)). rewrite <- Hr. clear Hp Hr.
    assert (d = 0 ∨ d = 1 ∨ d = 2 ∨ d = 3 ∨ d = 4 ∨ d = 5 ∨ d = 6 ∨ d = 7 ∨ d = 8 ∨ d = 9)%N
      as [->|[->|[->|[->|[->|[->|[->|[->|[->| ->]]]]]]]]] by lia; reflexivity.
  - change (pretty (Z.neg x)) with ("-" +:+ pretty_N_go (N.pos x) ""). rewrite Hp.
    change (Z.neg x) with (- Z.of_N (N.pos x)). rewrite <- Hr.
    unfold strtol. change ("-" +:+ ?s) with (String "-" s). cbn [skip_space].
    change (isspace "-") with false. cbn iota. by rewrite digit_of_pretty.
Qed.

Lemma stoi_pretty z : in_s 32 z → stoi (pretty z) = Ok z.
Proof. intros H. unfold stoi. rewrite strtol_pretty. by rewrite bool_decide_true. Qed.

(** A decimal text is made of digits and a sign. *)
Lemma pretty_chars (P : ascii → Prop) (z : Z) :
  (∀ d, (d < 10)%N → P (pretty_N_char d)) → P "-"%char →
  Forall P (String.list_ascii_of_string (pretty z)).
Proof.
  intros HP Hm. destruct z as [|x|x].
  - constructor; [apply (HP 0%N); lia|constructor].
  - by apply pretty_go_forall.
  - constructor; [done|]. by apply pretty_go_forall.
Qed.

(** ** Texts and their characters *)

Abbreviation lacks c s := (Forall (λ a : ascii, a ≠ c) (String.list_ascii_of_string s)).

Lemma list_ascii_app s t :
  String.list_ascii_of_string (s +:+ t) =
  String.list_ascii_of_string s ++ String.list_ascii_of_string t.
Proof. induction s as [|a s IH]; [done|]. rewrite str_app_cons. cbn. by rewrite IH. Qed.

Lemma str_app_nil_r s : s +:+ "" = s.
Proof. induction s as [|a s IH]; [done|]. by rewrite str_app_cons, IH. Qed.

(** The first occurrence of a character. *)
Lemma index_char c s :
  (String.index 0 (String c "") s = None ∧ lacks c s) ∨
  ∃ p r, s = p +:+ String c r ∧ lacks c p ∧
    String.index 0 (String c "") s = Some (String.length p).
Proof.
  induction s as [|a s IH]; [left; by split|]. cbn [String.index String.prefix].
  destruct (ascii_dec c a) as [->|Hne].
  - right. exists "", s. cbn. destruct s; by repeat split.
  - destruct IH as [[-> Hl]|(p & r & -> & Hl & ->)].
    + left. split; [done|]. cbn. constructor; [congruence|done].
    + right. exists (String a p), r. rewrite str_app_cons. cbn. repeat split.
      constructor; [congruence|done].
Qed.

Lemma substring_0 p t : String.substring 0 (String.length p) (p +:+ t) = p.
Proof. induction p as [|a p IH]; [by destruct t|]. rewrite str_app_cons. cbn. by rewrite IH. Qed.

Lemma substring_all t : String.substring 0 (String.length t) t = t.
Proof. induction t as [|a t IH]; [done|]. cbn. by rewrite IH. Qed.

Lemma substring_after p t :
  String.substring (String.length p) (String.length t) (p +:+ t) = t.
Proof.
  induction p as [|a p IH]; [apply substring_all|]. rewrite str_app_cons. by cbn.
Qed.

Lemma slen_app s t : slen (s +:+ t) = slen s + slen t.
Proof. unfold slen. rewrite str_length_app. lia. Qed.

Lemma slen_eqb_0 s : s ≠ "" → (slen s =? 0) = false.
Proof. intros Hs. apply Z.eqb_neq. destruct s; [done|]. unfold slen. cbn [String.length]. lia. Qed.

Lemma str_map_set_get {V} k (v v' : V) m : str_map_get k m = Some v' →
  str_map_get k (str_map_set k v m) = Some v.
Proof.
  induction m as [|[k' x] m IH]; [done|]. cbn. destruct (String.eqb_spec k' k) as [->|Hne].
  - intros _. cbn. by rewrite String.eqb_refl.
  - intros Hg. destruct (str_before k k'); cbn.
    + by rewrite String.eqb_refl.
    + apply String.eqb_neq in Hne. rewrite Hne. by apply IH.
Qed.

(** The lengths of decimal texts. *)
Lemma pretty_go_length k : ∀ x s, (x < 10 ^ N.of_nat k)%N →
  (String.length (pretty_N_go x s) ≤ k + String.length s)%nat.
Proof.
  induction k as [|k IH]; intros x s Hx.
  { assert (x = 0%N) as -> by (cbn in Hx; lia). rewrite pretty_N_go_0. lia. }
  destruct (decide (0 < x)%N) as [Hp|Hp]; last first.
  { assert (x = 0%N) as -> by lia. rewrite pretty_N_go_0. lia. }
  rewrite pretty_N_go_step by done.
  assert (x `div` 10 < 10 ^ N.of_nat k)%N as Hd.
  { apply N.Div0.div_lt_upper_bound. rewrite <- N.pow_succ_r'. by replace (N.succ (N.of_nat k)) with (N.of_nat (S k)) by lia. }
  specialize (IH (x `div` 10)%N (String (pretty_N_char (x `mod` 10)) s) Hd). cbn [String.length] in IH. lia.
Qed.

Lemma pretty_length_s32 z : in_s 32 z → slen (pretty z) ≤ 11.
Proof.
  intros Hz. unfold in_s in Hz. unfold slen. destruct z as [|x|x]; [cbn; lia| |].
  - change (pretty (Z.pos x)) with (pretty_N_go (N.pos x) "").
    pose proof (pretty_go_length 10 (N.pos x) "") as Hl. cbn [String.length] in Hl.
    specialize (Hl ltac:(change (10 ^ N.of_nat 10)%N with 10000000000%N; lia)). lia.
  - change (pretty (Z.neg x)) with (String "-" (pretty_N_go (N.pos x) "")).
    pose proof (pretty_go_length 10 (N.pos x) "") as Hl. cbn [String.length] in *.
    specialize (Hl ltac:(change (10 ^ N.of_nat 10)%N with 10000000000%N; lia)). lia.
Qed.

(** Texts without a NUL, which C functions see whole. *)
Definition nul_free (s : string) : Prop := x00 ∉ str_bytes s.

Lemma nul_free_app s t : nul_free (s +:+ t) ↔ nul_free s ∧ nul_free t.
Proof. unfold nul_free. by rewrite str_bytes_app, not_elem_of_app. Qed.

Lemma nul_free_text (s : string) : forallb (λ b, negb (Byte.eqb b x00)) (str_bytes s) = true → nul_free s.
Proof.
  unfold nul_free. intros Hall Hin. rewrite forallb_forall in Hall.
  by specialize (Hall x00 (proj1 (list_elem_of_In _ _) Hin)).
Qed.

Lemma nul_free_pretty (z : Z) : nul_free (pretty z).
Proof.
  assert (Forall (λ a, byte_of_ascii a ≠ x00) (String.list_ascii_of_string (pretty z))) as Hall.
  { apply pretty_chars; [|done]. intros d Hd.
    assert (d = 0 ∨ d = 1 ∨ d = 2 ∨ d = 3 ∨ d = 4 ∨ d = 5 ∨ d = 6 ∨ d = 7 ∨ d = 8 ∨ d = 9)%N
      as [->|[->|[->|[->|[->|[->|[->|[->|[->| ->]]]]]]]]] by lia; done. }
  unfold nul_free, String.list_byte_of_string. intros Hin. change (List.map ?f ?l) with (f <$> l) in Hin.
  apply list_elem_of_fmap in Hin as (a & Ha & Hin). rewrite Forall_forall in Hall. by apply (Hall a).
Qed.
