(* ===== verification/Lang.v ===== *)
(** * CQL statements and the visitor that builds them

    Models [include/lang/statements/*.hh] and [include/lang/cql3_visitor.hh].
    The lexer and parser are generated from [grammars/ebnf/CqlParser.g4]; the
    contexts below hold what the visitor reads of a parse tree of that
    grammar, with an [option] for what a rule makes optional and the tokens of
    a repeated accessor ([OBJECT_NAME(i)]) as a list.  Reading through an
    absent child is undefined.

    A member that a constructor leaves uninitialised is an [option], [None]
    until it is assigned. *)

From Stdlib Require Import ZArith Lia Strings.Byte Ascii String.
From stdpp Require Import base list list_numbers strings pretty.
From S2P Require Import Prelude Buffer OrdMap Data Catalog Text.

Local Open Scope Z_scope.

(** ** Statements *)

Record TtlTimestamp := MkTtl {
  tt_ttl_valid : bool;
  tt_ttl : option Z;             (* uint64_t *)
  tt_timestamp_valid : bool;
  tt_timestamp : option Z        (* uint64_t *)
}.
Definition TtlTimestamp_new : TtlTimestamp := MkTtl false None false None.
Definition from_ttl (ttl : Z) : TtlTimestamp := MkTtl true (Some ttl) false None.
Definition from_timestamp (timestamp : Z) : TtlTimestamp := MkTtl false None true (Some timestamp).
Definition from_ttl_and_timestamp (ttl timestamp : Z) : TtlTimestamp :=
  MkTtl true (Some ttl) true (Some timestamp).

Inductive BatchType := LOGGED | UNLOGGED | UNVALID.

(** [TimestampSpec]: its timestamp, when valid. *)
Definition TimestampSpec : Type := option Z.

Record Batch := MkBatch {
  bt_valid : option bool;
  bt_type : option BatchType;
  bt_timestamp_spec : TimestampSpec
}.
Definition Batch_new : Batch := MkBatch None None None.
Definition from_type (t : BatchType) : Batch := MkBatch (Some true) (Some t) None.
Definition from_timestamp_spec (ts : TimestampSpec) : Batch := MkBatch (Some true) None ts.
Definition from_type_and_timestamp_spec (t : BatchType) (ts : TimestampSpec) : Batch :=
  MkBatch (Some true) (Some t) ts.

Inductive Operator := EQ | LT | GT | LTE | GTE.

Record RelationElement := MkRelation {
  re_column : string;
  re_op : Operator;
  re_operand : option Data       (* an owned pointer *)
}.

(** Copies own a copy of the operand; copying from a null one is undefined. *)
Definition RelationElement_copy (other : RelationElement) : outcome RelationElement :=
  operand ← Data_copy (re_operand other);
  Ok (MkRelation (re_column other) (re_op other) (Some operand)).

(** [operator=]: the old operand is deleted. *)
Definition RelationElement_assign (self_assignment : bool) (e other : RelationElement) :
    outcome RelationElement :=
  if self_assignment then Ok e
  else new_operand ← Data_copy (re_operand other);
       Ok (MkRelation (re_column other) (re_op other) (Some new_operand)).

Record FromSpec := MkFrom { fs_table : string; fs_keyspace : string }.

Record SelectElement := MkSelectElement { se_name : string; se_star : bool; se_alias : string }.

Record SelectElements := MkSelectElements { ses_star : bool; ses_elements : list SelectElement }.

(** [OrderSpec]: column and direction, when valid. *)
Definition OrderSpec : Type := option (string * bool).

Record CreateTableStatement := MkCreateTable {
  ct_if_not_exists : bool;
  ct_keyspace : string;
  ct_table : string;
  ct_schema : Schema
}.

Record InsertStatement := MkInsert {
  in_batch : Batch;
  in_keyspace : string;
  in_table : string;
  in_columns : list string;
  in_values : list (option Data);
  in_if_not_exists : bool;
  in_ttl_timestamp : TtlTimestamp
}.

Record SelectStatement := MkSelect {
  sl_distinct : option bool;
  sl_json : option bool;
  sl_select_elements : SelectElements;
  sl_from_spec : FromSpec;
  sl_where_spec : list RelationElement;
  sl_order_spec : OrderSpec;
  sl_limit : option Z;           (* uint64_t *)
  sl_allow_filtering : option bool
}.

(** The classes derived from [Statement]; the other values of its [Type] have
    no class. *)
Inductive Statement :=
| CREATE_TABLE (s : CreateTableStatement)
| INSERT (s : InsertStatement)
| SELECT (s : SelectStatement).

(** [partition_key]: the print of the second value of an [INSERT], of the
    first operand of a [SELECT]. *)
Definition print_pointer (d : option Data) : outcome string :=
  match d with Some d => Data_print d | None => Undef NullDereference end.

Definition InsertStatement_partition_key (s : InsertStatement) : outcome (option string) :=
  match in_values s !! 1%nat with
  | Some d => k ← print_pointer d; Ok (Some k)
  | None => Undef OutOfBounds
  end.

Definition SelectStatement_partition_key (s : SelectStatement) : outcome (option string) :=
  match sl_where_spec s !! 0%nat with
  | Some e => k ← print_pointer (re_operand e); Ok (Some k)
  | None => Undef OutOfBounds
  end.

Definition partition_key (s : Statement) : outcome (option string) :=
  match s with
  | CREATE_TABLE _ => Ok None
  | INSERT s => InsertStatement_partition_key s
  | SELECT s => SelectStatement_partition_key s
  end.

(** ** Parse trees *)

Inductive DataTypeNameContext :=
| K_ASCII (decimalLiteral : string)
| K_BIGINT | K_BOOLEAN | K_DOUBLE | K_FLOAT | K_INT | K_SMALLINT | K_TINYINT
| K_BLOB (decimalLiteral : string)
| K_other.                       (* the eighteen other alternatives *)

Record ColumnDefinitionContext := MkColumnDefinition {
  cd_column : string;
  cd_dataType : DataTypeNameContext;
  cd_primaryKeyColumn : bool
}.

(** Partition and clustering columns; the two lists are not empty. *)
Inductive PrimaryKeyDefinitionContext :=
| singlePrimaryKey (column : string)
| compoundKey (partitionKey : string) (clusteringKey : string * list string)
| compositeKey (partitionKey clusteringKey : string * list string).

Record ColumnDefinitionListContext := MkColumnDefinitionList {
  cdl_columnDefinition : list ColumnDefinitionContext;
  cdl_primaryKeyElement : option PrimaryKeyDefinitionContext
}.

Record CreateTableContext := MkCreateTableContext {
  ctc_ifNotExist : bool;
  ctc_keyspace : option string;
  ctc_table : string;
  ctc_columnDefinitionList : ColumnDefinitionListContext
}.

Inductive ConstantContext :=
| stringLiteral (text : string)
| decimalLiteral (text : string)
| floatLiteral (text : string)
| booleanLiteral (k_true : bool)
| otherConstant.                 (* UUID, hexadecimal, code block, NULL *)

Inductive ExpressionContext :=
| constantExpression (c : ConstantContext)
| assignmentExpression.          (* map, set, list, tuple *)

Inductive InsertValuesSpecContext :=
| valuesSpec (expressionList : list ExpressionContext)
| jsonSpec.

Record BeginBatchContext := MkBeginBatch {
  bb_logged : option bool;       (* [batchType]: [kwLogged] or [kwUnlogged] *)
  bb_timestamp : option string
}.

Record UsingTtlTimestampContext := MkUsing {
  ut_ttl : option string;
  ut_timestamp : option string
}.

Record InsertContext := MkInsertContext {
  ic_beginBatch : option BeginBatchContext;
  ic_keyspace : option string;
  ic_table : string;
  ic_insertColumnSpec : option (list string);
  ic_insertValuesSpec : InsertValuesSpecContext;
  ic_ifNotExist : bool;
  ic_usingTtlTimestamp : option UsingTtlTimestampContext
}.

Record SelectElementContext := MkSelectElementContext {
  sec_OBJECT_NAME : list string;
  sec_STAR : bool
}.

Record RelationElementContext := MkRelationElementContext {
  rec_OBJECT_NAME : list string;
  rec_operator : option Operator;
  rec_constant : option ConstantContext
}.

Record Select_Context := MkSelectContext {
  sc_distinctSpec : bool;
  sc_kwJson : bool;
  sc_star : bool;
  sc_selectElement : list SelectElementContext;
  sc_fromSpecElement : string * option string;     (* [OBJECT_NAME(0)], [OBJECT_NAME(1)] *)
  sc_whereSpec : option (list RelationElementContext);
  sc_orderSpec : option (string * bool);           (* column, [kwDesc] *)
  sc_limitSpec : option string;
  sc_allowFilteringSpec : bool
}.

(** One statement.  The default [visit] of the alternatives without a method
    of their own goes through their children, where a method of the visitor
    may throw. *)
Inductive CqlContext :=
| cql_createTable (ctx : CreateTableContext)
| cql_insert (ctx : InsertContext)
| cql_select (ctx : Select_Context)
| cql_other (children : outcome unit)
| cql_empty.

(** ** The visitor *)

Section visitor.
(** The bits of the [double] nearest to a decimal text ([strtold]). *)
Context (strtold : string → Z).

Definition visitDataTypeName (ctx : DataTypeNameContext) : outcome Type_ :=
  match ctx with
  | K_ASCII n => Ok (Type_new ASCII (strtoll n))
  | K_BIGINT => Ok (Type_new BIGINT 8)
  | K_BOOLEAN => Ok (Type_new BOOLEAN 1)
  | K_DOUBLE => Ok (Type_new DOUBLE 8)
  | K_FLOAT => Ok (Type_new FLOAT 4)
  | K_INT => Ok (Type_new INT 4)
  | K_SMALLINT => Ok (Type_new SMALLINT 2)
  | K_TINYINT => Ok (Type_new TINYINT 1)
  | K_BLOB n => Ok (Type_new BLOB (strtoll n))
  | K_other => Throw (unspported_cql_statement "Unsupported Type")
  end.

Definition visitColumnDefinition (ctx : ColumnDefinitionContext) : outcome (Field * bool) :=
  data_type ← visitDataTypeName (cd_dataType ctx);
  Ok (MkField (cd_column ctx) data_type, cd_primaryKeyColumn ctx).

Definition visitPrimaryKeyDefinition (ctx : PrimaryKeyDefinitionContext) : string * string :=
  match ctx with
  | singlePrimaryKey column => (column, column)
  | compoundKey partition cluster => (partition, cluster.1)
  | compositeKey partition cluster => (partition.1, cluster.1)
  end.

(** The loop over the definitions, at index [i]. *)
Fixpoint add_columns (ctxs : list ColumnDefinitionContext) (i : Z) (schema : Schema) : outcome Schema :=
  match ctxs with
  | [] => Ok schema
  | ctx :: ctxs =>
      '(field, primary) ← visitColumnDefinition ctx;
      let schema := Schema_push_back field schema in
      let schema := if (primary : bool)
                    then set_sort_key_index i (set_partition_key_index i schema) else schema in
      add_columns ctxs (i + 1) schema
  end.

(** The loop over the fields that names the key columns. *)
Fixpoint set_keys (fields : list Field) (i : Z) (keys : string * string) (schema : Schema) : Schema :=
  match fields with
  | [] => schema
  | f :: fields =>
      let schema := if bool_decide (f_name f = keys.1)
                    then set_partition_key_index i schema else schema in
      let schema := if bool_decide (f_name f = keys.2)
                    then set_sort_key_index i schema else schema in
      set_keys fields (i + 1) keys schema
  end.

Definition visitColumnDefinitionList (ctx : ColumnDefinitionListContext) : outcome Schema :=
  schema ← add_columns (cdl_columnDefinition ctx) 0 (MkSchema 0 0 []);
  match cdl_primaryKeyElement ctx with
  | Some pk => Ok (set_keys (m_fields schema) 0 (visitPrimaryKeyDefinition pk) schema)
  | None => Ok schema
  end.

Definition visitCreateTable (ctx : CreateTableContext) : outcome CreateTableStatement :=
  schema ← visitColumnDefinitionList (ctc_columnDefinitionList ctx);
  Ok (MkCreateTable (ctc_ifNotExist ctx) (default "" (ctc_keyspace ctx)) (ctc_table ctx) schema).

(** The literal's text is kept with its quotes; an integer is converted to
    [int32_t]. *)
Definition visitConstant (ctx : ConstantContext) : outcome Data :=
  match ctx with
  | stringLiteral text => Ok (ASCIIData text)
  | decimalLiteral text => Ok (IntData (s32 (strtoll text)))
  | floatLiteral text => Ok (DoubleData (strtold text))
  | booleanLiteral k_true => Ok (BooleanData k_true)
  | otherConstant => Throw (unspported_cql_statement "Unsupported Data Type")
  end.

Definition visitExpression (ctx : ExpressionContext) : outcome Data :=
  match ctx with
  | constantExpression c => visitConstant c
  | assignmentExpression =>
      Throw (unspported_cql_statement "Only Constants are Supported at the moment")
  end.

Fixpoint visitExpressionList (ctx : list ExpressionContext) : outcome (list (option Data)) :=
  match ctx with
  | [] => Ok []
  | e :: ctx => d ← visitExpression e; ds ← visitExpressionList ctx; Ok (Some d :: ds)
  end.

Definition visitInsertValuesSpec (ctx : InsertValuesSpecContext) : outcome (list (option Data)) :=
  match ctx with
  | valuesSpec es => visitExpressionList es
  | jsonSpec => Throw (unspported_cql_statement "JSON is Unsupported")
  end.

Definition visitBeginBatch (ctx : BeginBatchContext) : Batch :=
  MkBatch (Some true)
    (match bb_logged ctx with
     | Some true => Some LOGGED
     | Some false => Some UNLOGGED
     | None => None
     end)
    (match bb_timestamp ctx with Some t => Some (u64 (strtoll t)) | None => None end).

(** The context is null when the statement has no [USING]. *)
Definition visitUsingTtlTimestamp (ctx : option UsingTtlTimestampContext) : outcome TtlTimestamp :=
  match ctx with
  | None => Undef NullDereference
  | Some ctx =>
      let t := TtlTimestamp_new in
      let t := match ut_ttl ctx with
               | Some text => MkTtl true (Some (u64 (strtoll text))) (tt_timestamp_valid t) (tt_timestamp t)
               | None => t
               end in
      let t := match ut_timestamp ctx with
               | Some text => MkTtl (tt_ttl_valid t) (Some (u64 (strtoll text))) true (tt_timestamp t)
               | None => t
               end in
      Ok t
  end.

Definition visitInsert (ctx : InsertContext) : outcome InsertStatement :=
  let batch := match ic_beginBatch ctx with Some b => visitBeginBatch b | None => Batch_new end in
  values ← visitInsertValuesSpec (ic_insertValuesSpec ctx);
  ttl ← visitUsingTtlTimestamp (ic_usingTtlTimestamp ctx);
  Ok (MkInsert batch (default "" (ic_keyspace ctx)) (ic_table ctx)
        (default [] (ic_insertColumnSpec ctx)) values (ic_ifNotExist ctx) ttl).

Definition visitSelectElement (ctx : SelectElementContext) : outcome SelectElement :=
  match sec_OBJECT_NAME ctx with
  | [] => Undef NullDereference
  | name :: names => Ok (MkSelectElement name (sec_STAR ctx) (default "" (head names)))
  end.

Definition visitFromSpec (ctx : string * option string) : FromSpec :=
  match ctx.2 with
  | Some name => MkFrom name ctx.1
  | None => MkFrom ctx.1 ""
  end.

Definition visitRelationElement (ctx : RelationElementContext) : outcome RelationElement :=
  column ← match rec_OBJECT_NAME ctx with
           | [] => Undef NullDereference
           | [name] => Ok name
           | _ :: name :: _ => Ok name
           end;
  let op := default EQ (rec_operator ctx) in
  operand ← match rec_constant ctx with
            | Some c => visitConstant c
            | None => Undef NullDereference
            end;
  Ok (MkRelation column op (Some operand)).

(** A loop that pushes the result of a visit per child. *)
Fixpoint visit_all {A B} (visit : A → outcome B) (ctxs : list A) : outcome (list B) :=
  match ctxs with
  | [] => Ok []
  | ctx :: ctxs => x ← visit ctx; xs ← visit_all visit ctxs; Ok (x :: xs)
  end.

Definition visitSelectElements (star : bool) (ctxs : list SelectElementContext) : outcome SelectElements :=
  elements ← visit_all visitSelectElement ctxs; Ok (MkSelectElements star elements).

Definition visitWhereSpec (ctx : list RelationElementContext) : outcome (list RelationElement) :=
  visit_all visitRelationElement ctx.

Definition visitOrderSpec (ctx : string * bool) : OrderSpec := Some (ctx.1, negb ctx.2).

Definition set_flag (b : bool) : option bool := if b then Some true else None.

Definition visitSelect_ (ctx : Select_Context) : outcome SelectStatement :=
  elements ← visitSelectElements (sc_star ctx) (sc_selectElement ctx);
  let from := visitFromSpec (sc_fromSpecElement ctx) in
  where_ ← match sc_whereSpec ctx with Some w => visitWhereSpec w | None => Ok [] end;
  Ok (MkSelect (set_flag (sc_distinctSpec ctx)) (set_flag (sc_kwJson ctx)) elements from where_
        (match sc_orderSpec ctx with Some o => visitOrderSpec o | None => None end)
        (match sc_limitSpec ctx with Some t => Some (u64 (strtoll t)) | None => None end)
        (set_flag (sc_allowFilteringSpec ctx))).

(** [visitCql], then [.as<Statement *>()], which throws on the result of a
    default visit. *)
Definition visitCql (ctx : CqlContext) : outcome Statement :=
  match ctx with
  | cql_createTable ctx => s ← visitCreateTable ctx; Ok (CREATE_TABLE s)
  | cql_insert ctx => s ← visitInsert ctx; Ok (INSERT s)
  | cql_select ctx => s ← visitSelect_ ctx; Ok (SELECT s)
  | cql_other children => _ ← children; Throw bad_cast
  | cql_empty => Throw unknown_cql_statement
  end.

Definition visitCqls (ctx : list CqlContext) : outcome (list Statement) := visit_all visitCql ctx.

Definition visitRoot (ctx : option (list CqlContext)) : outcome (list Statement) :=
  match ctx with
  | Some cqls => visitCqls cqls
  | None => Ok []
  end.
End visitor.

(** ** The schema of a table *)

(** The declared type of a column. *)
Definition declared_type (ctx : DataTypeNameContext) : option Type_ :=
  match visitDataTypeName ctx with Ok t => Some t | _ => None end.

Definition declared_field (ctx : ColumnDefinitionContext) : option Field :=
  match declared_type (cd_dataType ctx) with
  | Some t => Some (MkField (cd_column ctx) t)
  | None => None
  end.

(** The last index, counted from [i], at which [P] holds. *)
Fixpoint last_index {A} (P : A → bool) (l : list A) (i : Z) : option Z :=
  match l with
  | [] => None
  | x :: l =>
      match last_index P l (i + 1) with
      | Some j => Some j
      | None => if P x then Some i else None
      end
  end.

Definition is_key (keys : string * string) (f : Field) : bool :=
  bool_decide (f_name f = keys.1) || bool_decide (f_name f = keys.2).

Lemma declared_field_Some ctx f : declared_field ctx = Some f →
  visitColumnDefinition ctx = Ok (f, cd_primaryKeyColumn ctx).
Proof.
  unfold declared_field, declared_type, visitColumnDefinition.
  destruct (visitDataTypeName _); intros H; by simplify_eq/=.
Qed.

Lemma add_columns_ok ctxs fields : Forall2 (λ ctx f, declared_field ctx = Some f) ctxs fields →
  ∀ i schema, add_columns ctxs i schema =
    Ok (MkSchema (default (m_sort_key_index schema) (last_index cd_primaryKeyColumn ctxs i))
          (m_partition_key_index schema) (m_fields schema ++ fields)).
Proof.
  induction 1 as [|ctx f ctxs fields Hf _ IH]; intros i schema; cbn [add_columns last_index].
  { rewrite app_nil_r. by destruct schema. }
  rewrite (declared_field_Some _ _ Hf). cbn [mbind outcome_bind]. rewrite IH.
  destruct (last_index _ ctxs (i + 1)), (cd_primaryKeyColumn ctx); cbn; by rewrite <- app_assoc.
Qed.

Lemma set_keys_ok keys fields : ∀ i schema, set_keys fields i keys schema =
  MkSchema (default (m_sort_key_index schema) (last_index (is_key keys) fields i))
    (m_partition_key_index schema) (m_fields schema).
Proof.
  induction fields as [|f fields IH]; intros i schema; cbn [set_keys last_index].
  { by destruct schema. }
  rewrite IH. unfold is_key. destruct (last_index _ fields (i + 1)).
  - by case_bool_decide; case_bool_decide.
  - by case_bool_decide; case_bool_decide.
Qed.

(** C24 (functional): the schema of a [CREATE TABLE] with supported column types
    has the declared columns in order.  Its sort key is the last column named
    by the key element, whether as partition or as clustering column, else the
    last one marked [PRIMARY KEY], else the first.  Its partition key is always
    column 0: the setter assigns the sort key instead. *)
Theorem create_table_schema (ctx : ColumnDefinitionListContext) (fields : list Field) :
  Forall2 (λ ctx f, declared_field ctx = Some f) (cdl_columnDefinition ctx) fields →
  visitColumnDefinitionList ctx =
    Ok (MkSchema
          (default (default 0 (last_index cd_primaryKeyColumn (cdl_columnDefinition ctx) 0))
             (pk ← cdl_primaryKeyElement ctx;
              last_index (is_key (visitPrimaryKeyDefinition pk)) fields 0))
          0 fields).
Proof.
  intros Hf. unfold visitColumnDefinitionList. rewrite (add_columns_ok _ _ Hf). cbn.
  destruct (cdl_primaryKeyElement ctx) as [pk|]; [|done]. by rewrite set_keys_ok.
Qed.

(** The table of [examples/lang/cql3/integration.cql], with the columns of its
    key in the other order. *)
Lemma create_table_schema_witness :
  visitColumnDefinitionList
    (MkColumnDefinitionList
       [MkColumnDefinition "race_position" K_INT false;
        MkColumnDefinition "race_name" (K_ASCII "19") false;
        MkColumnDefinition "cyclist_name" (K_ASCII "9") false]
       (Some (compoundKey "race_name" ("race_position", [])))) =
  Ok (MkSchema 1 0 [MkField "race_position" (MkType INT 4);
                    MkField "race_name" (MkType ASCII 19);
                    MkField "cyclist_name" (MkType ASCII 9)]).
Proof.
  refine (eq_trans (create_table_schema _ _ _) _).
  - cbn [cdl_columnDefinition]. repeat constructor.
  - reflexivity.
Defined.

(** An [INSERT] of constants is built only when it has a [USING]
    clause: without one the visitor reads through a null context.  With both a
    TTL and a timestamp, the timestamp is stored as the TTL and the timestamp
    itself stays unset. *)
Theorem insert_using (strtold : string → Z) (ctx : InsertContext) (values : list (option Data)) :
  visitInsertValuesSpec strtold (ic_insertValuesSpec ctx) = Ok values →
  match ic_usingTtlTimestamp ctx with
  | None => visitInsert strtold ctx = Undef NullDereference
  | Some clause => ∃ s, visitInsert strtold ctx = Ok s ∧
      in_table s = ic_table ctx ∧ in_values s = values ∧
      ∀ ttl timestamp, ut_ttl clause = Some ttl → ut_timestamp clause = Some timestamp →
        in_ttl_timestamp s = MkTtl true (Some (u64 (strtoll timestamp))) true None
  end.
Proof.
  intros Hv. unfold visitInsert. rewrite Hv. cbn [mbind outcome_bind].
  destruct (ic_usingTtlTimestamp ctx) as [clause|]; [|done]. cbn.
  eexists. split; [done|]. split; [done|]. split; [done|].
  intros ttl timestamp Ht Hs. cbn. by rewrite Ht, Hs.
Qed.

Definition example_insert (clause : option UsingTtlTimestampContext) : InsertContext :=
  MkInsertContext None None "race_winners" None
    (valuesSpec [constantExpression (stringLiteral "'Race 1'");
                 constantExpression (decimalLiteral "1")]) false clause.

Lemma insert_using_witness :
  visitInsert (λ _, 0) (example_insert None) = Undef NullDereference ∧
  ∃ s, visitInsert (λ _, 0) (example_insert (Some (MkUsing (Some "86400") (Some "123456789")))) = Ok s ∧
    in_table s = "race_winners" ∧
    in_values s = [Some (ASCIIData "'Race 1'"); Some (IntData 1)] ∧
    ∀ ttl timestamp, Some "86400" = Some ttl → Some "123456789" = Some timestamp →
      in_ttl_timestamp s = MkTtl true (Some (u64 (strtoll timestamp))) true None.
Proof.
  split.
  - apply (insert_using (λ _, 0) (example_insert None) _ eq_refl).
  - apply (insert_using (λ _, 0)
      (example_insert (Some (MkUsing (Some "86400") (Some "123456789")))) _ eq_refl).
Defined.
