(* ===== verification/Wire.v ===== *)
(** * The CQL wire format: [api::cql3::Frame] and [api::cql3::QueryResult]

    Models [frame.hh], [frame.cc], [query_result.hh] and [query_result.cc]: the
    header of a request, and the bodies of the replies, which are written one
    byte at a time into an array of the caller.

    An array is the list of its bytes; reading an element as [char] gives the
    signed value, as [unsigned char] the unsigned one, and storing an [int]
    keeps its low eight bits.  An index outside the array is undefined. *)

From Stdlib Require Import ZArith Lia Strings.Byte Ascii String.
From stdpp Require Import base list list_numbers strings pretty.
From S2P Require Import Prelude Buffer OrdMap Data Catalog Text.

Local Open Scope Z_scope.

(** ** Arrays of characters *)

Abbreviation chars := (list byte).

Definition poke (i v : Z) : M chars unit := λ l,
  if bool_decide (0 ≤ i < zlen l) then (Ok tt, <[Z.to_nat i := byte_of_Z v]> l)
  else (Undef OutOfBounds, l).

Definition peek (i : Z) : M chars Z := λ l,
  if bool_decide (0 ≤ i) then
    match l !! Z.to_nat i with Some b => (Ok (Z_of_byte b), l) | None => (Undef OutOfBounds, l) end
  else (Undef OutOfBounds, l).

Definition peek_char (i : Z) : M chars Z := v ← peek i; mret (s8 v).

(** Consecutive constant stores: [body\[i\] = v0; body\[i+1\] = v1; ...] *)
Fixpoint poke_all (i : Z) (vs : list Z) : M chars unit :=
  match vs with
  | [] => mret tt
  | v :: vs => poke i v;; poke_all (i + 1) vs
  end.

(** ** Requests *)

Record Frame := MkFrame {
  fr_buffer : chars;
  fr_version : Z;              (* char *)
  fr_flags : Z;                (* char *)
  fr_opcode : Z;               (* char *)
  fr_streamID : Z * Z;         (* unsigned char[2] *)
  fr_length : list Z;          (* char[4] *)
  fr_max_size : Z;             (* int *)
  fr_body : option chars       (* null until parsed *)
}.

(** [flags] and [opcode] are not initialised by the constructor: [junk]. *)
Definition Frame_new (junk : Z * Z) (buff : chars) (size : Z) : Frame :=
  MkFrame buff 3 junk.1 junk.2 (48, 48) [48; 48; 48; 48] size None.

(** [substr]: [len] characters and a terminating NUL. *)
Definition Frame_substr (arr : chars) (begin len : Z) : outcome chars :=
  if bool_decide (0 ≤ begin ∧ 0 ≤ len ∧ begin + len ≤ zlen arr)
  then Ok (take (Z.to_nat len) (drop (Z.to_nat begin) arr) ++ [x00])
  else Undef OutOfBounds.

Definition Frame_parse (f : Frame) : outcome Frame :=
  let at_ i := (fst (peek_char i (fr_buffer f))) in
  let uat i := (fst (peek i (fr_buffer f))) in
  version ← at_ 0;
  flags ← at_ 1;
  s0 ← uat 2; s1 ← uat 3;
  opcode ← at_ 4;
  l0 ← at_ 5; l1 ← at_ 6; l2 ← at_ 7; l3 ← at_ 8;
  body ← (if 9 <? fr_max_size f
          then b ← Frame_substr (fr_buffer f) 9 (fr_max_size f - 9); Ok (Some b)
          else Ok (fr_body f));
  mret (MkFrame (fr_buffer f) version flags opcode (s0, s1) [l0; l1; l2; l3]
          (fr_max_size f) body).

(** ** Replies: [QueryResult] *)

(** [count]: [size] as a big-endian number of [breadth] bytes. *)
Definition count (start breadth size : Z) : M chars Z :=
  (if (size <? 256 * 256 * 256) && (256 * 256 <? size) then
     for_each (λ i,
       poke i 0;;
       if i - start =? breadth - 3 then poke i (size ÷ 65536)
       else if i - start =? breadth - 2 then
         p ← peek_char (i - 1); poke i ((size - p * 65536) ÷ 256)
       else if i - start =? breadth - 1 then
         p ← peek_char (i - 1); q ← peek_char (i - 2); poke i (size - p * 256 - q * 65536)
       else mret tt) (seqZ start breadth)
   else if (size <? 256 * 256) && (256 <? size) then
     for_each (λ i,
       poke i 0;;
       if i - start =? breadth - 2 then poke i (size ÷ 256)
       else if i - start =? breadth - 1 then
         p ← peek_char (i - 1); poke i (size - p * 256)
       else mret tt) (seqZ start breadth)
   else if size <? 256 then
     for_each (λ i,
       poke i 0;;
       if i - start =? breadth - 1 then poke i size else mret tt) (seqZ start breadth)
   else mret tt);;
  mret (start + breadth).

(** The copying loops: [buffer\[i\] = input\[in_index\]], where [in_index] is
    [i - start]. *)
Definition copy_string (start size : Z) (input : string) : M chars unit :=
  for_each (λ i, c ← lift (string_at input (i - start)); poke i c) (seqZ start size).

Definition append_string (start size : Z) (input : string) : M chars Z :=
  copy_string start size input;; mret (start + size).

(** The wire codes of [enum type], as [append_field] maps the catalog's types
    to them; another identifier leaves the byte alone. *)
Definition type_code (id : Id) : option Z :=
  match id with
  | ASCII => Some 1 | BIGINT => Some 2 | BLOB => Some 3 | BOOLEAN => Some 4
  | DOUBLE => Some 7 | FLOAT => Some 8 | INT => Some 9
  | SMALLINT => Some 0x13 | TINYINT => Some 0x14
  | UNNAMED _ => None
  end.

Definition append_field (start size : Z) (field_name : string) (t : Type_) : M chars Z :=
  poke (size + start) 0;;
  copy_string start size field_name;;
  match type_code (t_id t) with
  | Some c => poke (size + start + 1) c
  | None => mret tt
  end;;
  mret (start + size + 2).

(** Only the [ASCII] and [INT] cases of the switch write anything. *)
Definition append_record (start size : Z) (record_str : string) (id : Z) : M chars Z :=
  (if id =? Id_to_int ASCII then copy_string start size record_str
   else if id =? Id_to_int INT then
     int_data ← lift (stoi record_str); count start 4 int_data;; mret tt
   else mret tt);;
  mret (start + size).

(** [split].  [str.find] is converted to [int]; [str] gets shorter in every
    round, so its length bounds the rounds. *)
Fixpoint split_loop (fuel : nat) (str token : string) : outcome (list string) :=
  match fuel with
  | O => Ok []
  | S fuel =>
      if slen str =? 0 then Ok [] else
      let index := s32 (str_find str token) in
      if u64 index =? npos then Ok [str] else
      head ← str_substr str 0 (u64 index);
      str ← str_substr str (u64 (index + slen token)) npos;
      if slen str =? 0 then Ok [head; str] else
      rest ← split_loop fuel str token;
      Ok (head :: rest)
  end.

Definition split (str token : string) : outcome (list string) :=
  split_loop (S (String.length str)) str token.

(** [attributes\[i\]] *)
Definition vec_at (v : list string) (i : nat) : outcome string :=
  match v !! i with Some s => Ok s | None => Undef OutOfBounds end.

(** A counted string: [count] of its length in [breadth] bytes, then its text. *)
Definition put_counted (index : Z) (s : string) : M chars Z :=
  index ← count index 2 (s32 (slen s));
  append_string index (s32 (slen s)) s.

(** Several of them, one after the other. *)
Fixpoint put_names (names : list string) (index : Z) : M chars Z :=
  match names with
  | [] => mret index
  | s :: names => index ← put_counted index s; put_names names index
  end.

Definition EVENT : Z := 0x0C.

Definition schema_change (keyspace table : string) : M chars Z :=
  poke_all 0 [0xFF; 0xFF; EVENT];;
  index ← put_names ["SCHEMA_CHANGE"; "CREATED"; "TABLE"; keyspace; table] 7;
  count 3 4 (index - 6);;
  mret index.

Definition QueryResult_create_table (keyspace table : string) : M chars Z :=
  poke_all 0 [0; 0; 0; 5];;
  put_names ["CREATED"; "TABLE"; keyspace; table] 4.

Definition insert_record : M chars Z :=
  poke_all 0 [0; 0; 0; 4; 0; 0; 0; 1];; mret 8.

Fixpoint put_fields (fields : list Field) (index : Z) : M chars Z :=
  match fields with
  | [] => mret index
  | f :: fields =>
      index ← count index 2 (s32 (slen (f_name f)));
      index ← append_field index (s32 (slen (f_name f))) (f_name f) (f_type f);
      put_fields fields index
  end.

Fixpoint put_values (values : list string) (index : Z) : M chars Z :=
  match values with
  | [] => mret index
  | val :: values =>
      index ← (if 0 <? slen val then
                 attributes ← lift (split val ",");
                 length ← lift (vec_at attributes 2 ≫= stoi);
                 index ← count index 4 length;
                 length ← lift (vec_at attributes 2 ≫= stoi);
                 text ← lift (vec_at attributes 0);
                 id ← lift (vec_at attributes 1 ≫= stoi);
                 append_record index length text id
               else mret index);
      put_values values index
  end.

(** [select_result]; the member [size] it also assigns is the value returned. *)
Definition select_result (keyspace table : string) (schema : Schema) (record_v : list Record_)
    (record_str : string) : M chars Z :=
  let rows := s32 (zlen record_v) in
  (if (rows <? 1) && bool_decide (record_str = "") then poke_all 0 [0; 0; 0; 1]
   else poke_all 0 [0; 0; 0; 2]);;
  (if (rows <=? 10) && (0 <=? rows) then poke_all 4 [0; 0; 0; 1]
   else if 10 <? rows then poke_all 4 [0; 0; 0; 2] else mret tt);;
  index ← count 8 4 (s32 (zlen (m_fields schema)));
  index ← put_names [keyspace; table] index;
  index ← put_fields (m_fields schema) index;
  index ← count index 4 (rows + 1);
  values ← lift (split record_str "|");
  index ← put_values values index;
  mret index.

(** [ResultSerializer::serialize] ([include/dht/result_serializer.hh]): the text
    a node returns for a record, which [select_result] takes apart. *)
Fixpoint serialize_values (values : Record_) : outcome string :=
  match values with
  | [] => Ok ""
  | None :: _ => Undef NullDereference
  | Some value :: values =>
      text ← Data_print value;
      rest ← serialize_values values;
      Ok ((text +:+ "," +:+ pretty (Id_to_int (t_id (m_type value))) +:+ ","
             +:+ pretty (t_length (m_type value)) +:+ "|") +:+ rest)
  end.

Definition serialize (record : option Record_) : outcome string :=
  match record with
  | Some values => serialize_values values
  | None => Ok ""
  end.

(** ** The reference layout *)

(** An [n]-byte big-endian number. *)
Definition be_bytes (n : nat) (z : Z) : list byte := reverse (le_bytes n z).
#[global] Arguments be_bytes : simpl never.
Definition be_value (bs : list byte) : Z := le_value (reverse bs).

(** A [\[string\]] of the protocol: a two-byte length and the text. *)
Definition string_enc (s : string) : list byte := be_bytes 2 (slen s) ++ str_bytes s.

Lemma length_be_bytes n z : length (be_bytes n z) = n.
Proof. unfold be_bytes. by rewrite length_reverse, length_le_bytes. Qed.

Lemma zlen_be_bytes n z : zlen (be_bytes n z) = Z.of_nat n.
Proof. unfold zlen. by rewrite length_be_bytes. Qed.

Lemma be_value_bytes n z : be_value (be_bytes n z) = z mod 2 ^ (8 * Z.of_nat n).
Proof. unfold be_value, be_bytes. by rewrite reverse_involutive, le_value_bytes. Qed.

Lemma byte_of_Z_eq a b : a mod 256 = b mod 256 → byte_of_Z a = byte_of_Z b.
Proof. unfold byte_of_Z, wrap. change (2 ^ 8) with 256. by intros ->. Qed.

Lemma s8_mod z : s8 z mod 256 = z mod 256.
Proof.
  unfold swrap. change (2 ^ 8) with 256. case_match; [by apply Z.mod_mod|].
  replace (z mod 256 - 256) with (z mod 256 + (-1) * 256) by lia.
  rewrite Z_mod_plus_full. by apply Z.mod_mod.
Qed.

(** ** Writers that append

    [m] writes [bs] at the index it is given and returns the index after
    them.  The index is positive: [count] looks one byte back. *)
Definition emits (m : Z → M chars Z) (bs : list byte) : Prop := ∀ start l,
  1 ≤ start → start + zlen bs ≤ zlen l →
  m start l = (Ok (start + zlen bs), overwrite (Z.to_nat start) bs l).

Lemma overwrite_snoc {A} off (bs : list A) b l :
  (off + length bs < length l)%nat →
  <[(off + length bs)%nat := b]> (overwrite off bs l) = overwrite off (bs ++ [b]) l.
Proof.
  intros Hl. rewrite <- overwrite_app by (cbn; lia).
  assert (length (overwrite off bs l) = length l) as Hlen by (apply length_overwrite; lia).
  generalize dependent (overwrite off bs l). intros l' Hlen. unfold overwrite.
  rewrite insert_take_drop by lia. cbn [length app]. by rewrite Nat.add_1_r.
Qed.

Lemma overwrite_lookup {A} off (bs l : list A) k :
  (off + length bs ≤ length l)%nat → (k < length bs)%nat →
  overwrite off bs l !! (off + k)%nat = bs !! k.
Proof.
  intros Hl Hk. unfold overwrite. rewrite lookup_app_r by (rewrite length_take; lia).
  rewrite length_take, lookup_app_l by lia. f_equal. lia.
Qed.

(** A loop whose step [k] puts byte [k] of [bs] after those put before. *)
Lemma for_each_overwrite (f : Z → M chars unit) (start : Z) (bs : list byte) (l : chars) :
  0 ≤ start → start + zlen bs ≤ zlen l →
  (∀ k b, bs !! k = Some b →
     let l' := overwrite (Z.to_nat start) (take k bs) l in
     f (start + Z.of_nat k) l' = (Ok tt, <[(Z.to_nat start + k)%nat := b]> l')) →
  for_each f (seqZ start (zlen bs)) l = (Ok tt, overwrite (Z.to_nat start) bs l).
Proof.
  intros H0 Hl Hf.
  assert (∀ n k, (k + n = length bs)%nat →
    for_each f (seqZ (start + Z.of_nat k) (Z.of_nat n)) (overwrite (Z.to_nat start) (take k bs) l) =
      (Ok tt, overwrite (Z.to_nat start) bs l)) as Hgo.
  { induction n as [|n IH]; intros k Hk.
    - cbn. by rewrite take_ge by lia.
    - rewrite seqZ_cons by lia. cbn [for_each].
      destruct (lookup_lt_is_Some_2 bs k ltac:(lia)) as [b Hb].
      erewrite M_bind_ok by (by apply Hf).
      replace (Z.to_nat start + k)%nat with (Z.to_nat start + length (take k bs))%nat
        by (rewrite length_take; lia).
      rewrite overwrite_snoc by (unfold zlen in *; rewrite length_take; lia).
      rewrite <- (take_S_r _ _ _ Hb).
      replace (Z.succ (start + Z.of_nat k)) with (start + Z.of_nat (S k)) by lia.
      replace (Z.pred (Z.of_nat (S n))) with (Z.of_nat n) by lia.
      apply IH. lia. }
  specialize (Hgo (length bs) O eq_refl). rewrite take_0, overwrite_nil, Z.add_0_r in Hgo.
  exact Hgo.
Qed.

Lemma poke_ok i v (l : chars) : 0 ≤ i < zlen l →
  poke i v l = (Ok tt, <[Z.to_nat i := byte_of_Z v]> l).
Proof. intros. unfold poke. by rewrite bool_decide_true. Qed.

Lemma peek_ok i b (l : chars) : 0 ≤ i → l !! Z.to_nat i = Some b → peek i l = (Ok (Z_of_byte b), l).
Proof. intros Hi Hb. unfold peek. by rewrite bool_decide_true, Hb by done. Qed.

Lemma peek_char_ok i b (l : chars) : 0 ≤ i → l !! Z.to_nat i = Some b →
  peek_char i l = (Ok (s8 (Z_of_byte b)), l).
Proof. intros. unfold peek_char. by erewrite M_bind_ok by (by apply peek_ok). Qed.

Lemma emits_bind m1 m2 bs1 bs2 :
  emits m1 bs1 → emits m2 bs2 → emits (λ i, m1 i ≫= m2) (bs1 ++ bs2).
Proof.
  intros H1 H2 start l Hs Hl. rewrite zlen_app in Hl. pose proof (zlen_nonneg bs1).
  pose proof (zlen_nonneg bs2).
  erewrite M_bind_ok by (apply H1; lia). unfold zlen in *. rewrite H2.
  - rewrite length_app. f_equal; [unfold zlen; f_equal; lia|].
    rewrite <- overwrite_app by lia. f_equal. lia.
  - lia.
  - unfold zlen. rewrite length_overwrite by lia. lia.
Qed.

Lemma emits_nil : emits mret [].
Proof. intros start l _ _. rewrite overwrite_nil. cbn. by rewrite Z.add_0_r. Qed.

Lemma emits_ext m m' bs : (∀ i l, m i l = m' i l) → emits m bs → emits m' bs.
Proof. intros Heq H start l ??. rewrite <- Heq. by apply H. Qed.

Lemma string_at_byte s k b : str_bytes s !! k = Some b →
  ∃ c, string_at s (Z.of_nat k) = Ok c ∧ byte_of_Z c = b.
Proof.
  intros Hb. unfold string_at. rewrite bool_decide_true by lia. rewrite Nat2Z.id.
  revert k Hb. induction s as [|a s IH]; intros [|k] Hb; cbn in Hb; simplify_eq.
  - exists (char_code a). split; [done|]. unfold char_code. by destruct a as [[] [] [] [] [] [] [] []].
  - destruct (IH k Hb) as (c & Hc & Hcb). exists c. split; [|done]. cbn.
    destruct (String.get k s) eqn:Hg; [by simplify_eq|]. exfalso.
    revert Hb. clear -Hg. revert k Hg. induction s as [|a s IH]; intros [|k] Hg Hb; cbn in *; try done.
    by apply (IH k).
Qed.

Lemma copy_string_ok s start (l : chars) : 0 ≤ start → start + slen s ≤ zlen l →
  copy_string start (slen s) s l = (Ok tt, overwrite (Z.to_nat start) (str_bytes s) l).
Proof.
  intros H0 Hl. rewrite <- zlen_str_bytes in *. unfold copy_string.
  apply for_each_overwrite; [done..|]. intros k b Hb l'.
  destruct (string_at_byte s k b Hb) as (c & Hc & <-).
  replace (start + Z.of_nat k - start) with (Z.of_nat k) by lia.
  erewrite M_bind_ok by (unfold lift; by rewrite Hc).
  apply lookup_lt_Some in Hb. unfold zlen in *.
  rewrite poke_ok; [do 2 f_equal; lia|]. subst l'. unfold zlen.
  rewrite length_overwrite; rewrite ?length_take; lia.
Qed.

Lemma emits_copy s : emits (λ i, append_string i (slen s) s) (str_bytes s).
Proof.
  intros start l Hs Hl. rewrite zlen_str_bytes in *. unfold append_string.
  by erewrite M_bind_ok by (apply copy_string_ok; lia).
Qed.

(** ** [count] *)

(** The sizes [count] writes in full. *)
Definition countable (breadth : nat) (size : Z) : Prop :=
  (breadth = 2%nat ∧ 0 ≤ size < 2 ^ 16 ∨ breadth = 4%nat ∧ 0 ≤ size < 2 ^ 24) ∧
  size ≠ 256 ∧ size ≠ 65536.

(** A store after the zeroing store of the same element. *)
Lemma poke_twice i v w (l : chars) : 0 ≤ i < zlen l →
  (poke i v;; poke i w) l = (Ok tt, <[Z.to_nat i := byte_of_Z w]> l).
Proof.
  intros Hi. erewrite M_bind_ok by (by apply poke_ok). rewrite poke_ok.
  - by rewrite list_insert_insert_eq.
  - unfold zlen. by rewrite length_insert.
Qed.

(** Stores that read earlier elements first. *)
Lemma poke_peek1 i v (g : Z → Z) b (l : chars) :
  1 ≤ i < zlen l → l !! Z.to_nat (i - 1) = Some b →
  (poke i v;; p ← peek_char (i - 1); poke i (g p)) l =
    (Ok tt, <[Z.to_nat i := byte_of_Z (g (s8 (Z_of_byte b)))]> l).
Proof.
  intros Hi Hb. erewrite M_bind_ok by (apply poke_ok; lia).
  erewrite M_bind_ok by (apply peek_char_ok; [lia|rewrite list_lookup_insert_ne by lia; done]).
  rewrite poke_ok by (unfold zlen in *; rewrite length_insert; lia).
  by rewrite list_insert_insert_eq.
Qed.

Lemma poke_peek2 i v (g : Z → Z → Z) b c (l : chars) :
  2 ≤ i < zlen l → l !! Z.to_nat (i - 1) = Some b → l !! Z.to_nat (i - 2) = Some c →
  (poke i v;; p ← peek_char (i - 1); q ← peek_char (i - 2); poke i (g p q)) l =
    (Ok tt, <[Z.to_nat i := byte_of_Z (g (s8 (Z_of_byte b)) (s8 (Z_of_byte c)))]> l).
Proof.
  intros Hi Hb Hc. erewrite M_bind_ok by (apply poke_ok; lia).
  erewrite M_bind_ok by (apply peek_char_ok; [lia|rewrite list_lookup_insert_ne by lia; done]).
  erewrite M_bind_ok by (apply peek_char_ok; [lia|rewrite list_lookup_insert_ne by lia; done]).
  rewrite poke_ok by (unfold zlen in *; rewrite length_insert; lia).
  by rewrite list_insert_insert_eq.
Qed.

Lemma s8_small_or z : 0 ≤ z < 256 → s8 z = z ∨ s8 z = z - 256.
Proof. intros Hz. unfold swrap. change (2 ^ 8) with 256. rewrite Z.mod_small by done. case_match; auto. Qed.

Lemma middle_byte size : 0 ≤ size < 2 ^ 24 →
  ((size - s8 (Z_of_byte (byte_of_Z (size / 65536))) * 65536) ÷ 256) mod 256 = (size / 256) mod 256.
Proof.
  intros Hs. assert (0 ≤ size / 65536 < 256) as Hh
    by (split; [apply Z.div_pos|apply Z.div_lt_upper_bound]; lia).
  pose proof (Z.mul_div_le size 65536 ltac:(lia)).
  rewrite Z_of_byte_of_Z, (Z.mod_small (size / 65536)) by lia.
  set (p := s8 (size / 65536)).
  assert (p = size / 65536 ∨ p = size / 65536 - 256) as Hp by (apply s8_small_or; lia).
  rewrite Z.quot_div_nonneg by lia.
  replace (size - p * 65536) with (size + (- p * 256) * 256) by lia.
  rewrite Z.div_add, Z_mod_plus_full by done. done.
Qed.

(** One step of a [count] loop: decide its guards, then run its stores. *)
Ltac count_step :=
  repeat (case_match; rewrite ?Z.eqb_eq, ?Z.eqb_neq in *; try lia);
  lazymatch goal with
  | |- (poke _ _;; poke _ _) _ = _ => rewrite poke_twice
  | |- (poke _ _;; mret tt) _ = _ => erewrite M_bind_ok by (apply poke_ok; lens)
  | |- (poke ?i _;; p ← peek_char _; poke _ (@?g p)) _ = _ => erewrite (poke_peek1 i _ g)
  | |- (poke ?i _;; p ← peek_char _; q ← peek_char _; poke _ (@?g p q)) _ = _ =>
      erewrite (poke_peek2 i _ g)
  end.

Lemma stored i j a b (l : chars) : i = j → a mod 256 = b mod 256 →
  (@Ok unit tt, <[i := byte_of_Z a]> l) = (Ok tt, <[j := byte_of_Z b]> l).
Proof. intros -> H. by rewrite (byte_of_Z_eq a b). Qed.

(** What a step of a loop over [bs] sees of the array. *)
Lemma overwritten start k (bs : list byte) (l : chars) :
  1 ≤ start → start + zlen bs ≤ zlen l → (k < length bs)%nat →
  let l' := overwrite (Z.to_nat start) (take k bs) l in
  zlen l' = zlen l ∧
  ∀ j, (j < k)%nat → l' !! Z.to_nat (start + Z.of_nat j) = bs !! j.
Proof.
  intros Hs Hl Hk. unfold zlen in *. split.
  - rewrite length_overwrite; rewrite ?length_take; lia.
  - intros j Hj. replace (Z.to_nat (start + Z.of_nat j)) with (Z.to_nat start + j)%nat by lia.
    rewrite overwrite_lookup; rewrite ?length_take; [|lia..]. by rewrite lookup_take_lt by lia.
Qed.

Ltac count_loop :=
  erewrite M_bind_ok; [by rewrite zlen_be_bytes|];
  match goal with |- context [be_bytes ?n ?z] =>
    rewrite <- (zlen_be_bytes n z) end;
  apply for_each_overwrite; [lia..|];
  let k := fresh "k" in let b := fresh "b" in let Hk := fresh "Hk" in let l' := fresh "l'" in
  let Hlen := fresh "Hlen" in let Hlk := fresh "Hlk" in
  intros k b Hk l';
  match goal with Hs : 1 ≤ ?start, Hl : ?start + zlen ?bs ≤ zlen ?l |- _ =>
    destruct (overwritten start k bs l Hs Hl (lookup_lt_Some _ _ _ Hk)) as [Hlen Hlk] end;
  fold l' in Hlen, Hlk; clearbody l'; rewrite zlen_be_bytes in *;
  destruct k as [|[|[|[|k]]]]; unfold be_bytes in Hk; cbn in Hk; simplify_eq; count_step.

Ltac lookup_prev :=
  match goal with Hlk : ∀ j, _ → ?l !! Z.to_nat _ = _
    |- ?l !! Z.to_nat (?s + Z.of_nat ?k - ?d) = Some _ =>
    let j := eval compute in (Z.to_nat (Z.of_nat k - d)) in
    replace (s + Z.of_nat k - d) with (s + Z.of_nat j) by lia; rewrite Hlk by lia; reflexivity
  end.

Lemma low_byte size p q : (size - p * 256 - q * 65536) mod 256 = size mod 256.
Proof.
  replace (size - p * 256 - q * 65536) with (size + (- p - q * 256) * 256) by lia.
  apply Z_mod_plus_full.
Qed.

Lemma count_emits breadth size :
  countable breadth size → emits (λ i, count i (Z.of_nat breadth) size) (be_bytes breadth size).
Proof.
  intros [Hb [H1 H2]] start l Hs Hl. unfold count.
  destruct ((size <? 256 * 256 * 256) && (256 * 256 <? size)) eqn:E1;
  [|destruct ((size <? 256 * 256) && (256 <? size)) eqn:E2; [|destruct (size <? 256) eqn:E3]].
  - destruct Hb as [[-> Hr]|[-> Hr]]; [lia|]. count_loop; try lookup_prev; try lia.
    all: apply stored; [lia|]; rewrite ?Z.div_div by lia; cbn [Z.mul Pos.mul].
    + by rewrite Z.div_small by lia.
    + by rewrite Z.quot_div_nonneg by lia.
    + apply middle_byte. lia.
    + apply low_byte.
  - destruct Hb as [[-> Hr]|[-> Hr]]; count_loop; try lookup_prev; try lia.
    all: apply stored; [lia|]; rewrite ?Z.div_div by lia; cbn [Z.mul Pos.mul].
    all: rewrite ?Z.quot_div_nonneg by lia; try done.
    all: try (by rewrite Z.div_small by lia).
    all: match goal with |- (_ - ?p * 256) mod _ = _ =>
      rewrite <- (low_byte size p 0); f_equal; lia end.
  - destruct Hb as [[-> Hr]|[-> Hr]]; count_loop; try lia.
    all: apply stored; [lia|]; rewrite ?Z.div_div by lia; by rewrite ?Z.div_small by lia.
  - exfalso. lia.
Qed.

(** [size] 256, 65536 and everything from [2^24] on falls between the cases. *)
Lemma count_skips start breadth size (l : chars) :
  size = 256 ∨ size = 65536 ∨ 2 ^ 24 ≤ size →
  count start breadth size l = (Ok (start + breadth), l).
Proof.
  intros H. unfold count.
  destruct ((size <? 256 * 256 * 256) && (256 * 256 <? size)) eqn:E1; [lia|].
  destruct ((size <? 256 * 256) && (256 <? size)) eqn:E2; [lia|].
  destruct (size <? 256) eqn:E3; [lia|done].
Qed.

(** A negative number is written as its low byte. *)
Lemma count_negative_emits breadth size : size < 0 → breadth = 2%nat ∨ breadth = 4%nat →
  emits (λ i, count i (Z.of_nat breadth) size) (be_bytes breadth (size mod 256)).
Proof.
  intros H Hb start l Hs Hl. unfold count. pose proof (Z.mod_pos_bound size 256 ltac:(lia)).
  destruct ((size <? 256 * 256 * 256) && (256 * 256 <? size)) eqn:E1; [lia|].
  destruct ((size <? 256 * 256) && (256 <? size)) eqn:E2; [lia|].
  destruct (size <? 256) eqn:E3; [|lia].
  destruct Hb as [-> | ->]; count_loop; try lia.
  all: apply stored; [lia|]; rewrite ?Z.div_div by lia; by rewrite ?Z.div_small, ?Z.mod_mod by lia.
Qed.

(** ** [split] *)

(** The fields of a text separated by a character. *)
Fixpoint fields_of (c : ascii) (s : string) : list string :=
  match s with
  | EmptyString => [""]
  | String a s =>
      if Ascii.eqb a c then "" :: fields_of c s
      else match fields_of c s with
           | p :: ps => String a p :: ps
           | [] => [String a ""]
           end
  end.

Lemma fields_of_lacks c s : lacks c s → fields_of c s = [s].
Proof.
  induction s as [|a s IH]; [done|]. cbn. intros [Ha Hs]%Forall_cons.
  apply Ascii.eqb_neq in Ha. rewrite Ha. by rewrite IH.
Qed.

Lemma fields_of_app c p r : lacks c p → fields_of c (p +:+ String c r) = p :: fields_of c r.
Proof.
  induction p as [|a p IH].
  - intros _. change ("" +:+ String c r) with (String c r). cbn [fields_of].
    by rewrite Ascii.eqb_refl.
  - cbn. intros [Ha Hs]%Forall_cons. apply Ascii.eqb_neq in Ha. rewrite str_app_cons. cbn.
    rewrite Ha. by rewrite IH.
Qed.

(** One round of the loop at a separator. *)
Lemma substr_around c p r :
  slen (p +:+ String c r) < 2 ^ 31 →
  str_substr (p +:+ String c r) 0 (slen p) = Ok p ∧
  str_substr (p +:+ String c r) (slen p + 1) npos = Ok r.
Proof.
  rewrite slen_app. change (slen (String c r)) with (Z.of_nat (S (String.length r))).
  intros Hl. unfold str_substr. rewrite slen_app.
  change (slen (String c r)) with (Z.of_nat (S (String.length r))). unfold slen, npos in *.
  split.
  - destruct (Z.ltb_spec (Z.of_nat (String.length p) + Z.of_nat (S (String.length r))) 0); [lia|].
    rewrite Z.min_l, Nat2Z.id by lia. by rewrite substring_0.
  - destruct (Z.ltb_spec (Z.of_nat (String.length p) + Z.of_nat (S (String.length r)))
               (Z.of_nat (String.length p) + 1)); [lia|].
    rewrite Z.min_r by lia.
    change (p +:+ String c r) with (p +:+ String c "" +:+ r). rewrite <- str_app_assoc.
    rewrite <- (substring_after (p +:+ String c "") r) at 3. rewrite str_length_app. cbn.
    do 3 f_equal; lia.
Qed.

Lemma split_loop_ok c s : slen s < 2 ^ 31 → ∀ fuel, (String.length s < fuel)%nat →
  split_loop fuel s (String c "") = Ok (if decide (s = "") then [] else fields_of c s).
Proof.
  intros Hl fuel. revert s Hl. induction fuel as [|fuel IH]; intros s Hl Hf; [lia|].
  cbn [split_loop]. destruct (decide (s = "")) as [->|Hne]; [done|].
  rewrite slen_eqb_0 by done.
  unfold str_find. destruct (index_char c s) as [[-> Hlk]|(p & r & -> & Hlk & ->)].
  { cbn. by rewrite fields_of_lacks. }
  change (slen (String c "")) with 1. rewrite slen_app in Hl.
  assert (slen (String c r) = slen r + 1) as Hc by (unfold slen; cbn [String.length]; lia).
  assert (0 ≤ slen r) by (unfold slen; lia). change (Z.of_nat (String.length p)) with (slen p).
  assert (0 ≤ slen p) by (unfold slen; lia).
  rewrite swrap_small by (unfold in_s; lia). rewrite !wrap_small by (unfold in_u; lia).
  assert ((slen p =? npos) = false) as -> by (unfold npos; lia).
  destruct (substr_around c p r) as [-> ->]; [rewrite slen_app; lia|]. cbn [mbind outcome_bind].
  rewrite fields_of_app by done. rewrite str_length_app in Hf. cbn in Hf.
  destruct (decide (r = "")) as [->|Hr]; [done|].
  rewrite slen_eqb_0 by done.
  rewrite IH by lia. by rewrite decide_False by done.
Qed.

Lemma split_eq c s : slen s < 2 ^ 31 →
  split s (String c "") = Ok (if decide (s = "") then [] else fields_of c s).
Proof. intros. apply split_loop_ok; [done|lia]. Qed.

(** ** The parts of a reply *)

(** The strings [count] can write the length of in two bytes. *)
Definition wire_string (s : string) : Prop := slen s < 65536 ∧ slen s ≠ 256.

Lemma wire_string_s32 s : wire_string s → s32 (slen s) = slen s.
Proof. intros [? ?]. pose proof (slen_nonneg s). apply swrap_small; [|unfold in_s]; lia. Qed.

Lemma wire_string_countable s : wire_string s → countable 2 (slen s).
Proof. intros [? ?]. pose proof (slen_nonneg s). split; [left|]; lia. Qed.

Lemma put_counted_emits s : wire_string s → emits (λ i, put_counted i s) (string_enc s).
Proof.
  intros Hs. unfold put_counted, string_enc. rewrite wire_string_s32 by done.
  apply emits_bind; [by apply (count_emits 2), wire_string_countable|apply emits_copy].
Qed.

Lemma overwrite_1 {A} i (b : A) l : (i < length l)%nat → <[i := b]> l = overwrite i [b] l.
Proof. intros. unfold overwrite. cbn. rewrite insert_take_drop by done. by rewrite Nat.add_1_r. Qed.

(** Writing a segment after the one that follows it. *)
Lemma overwrite_before {A} off (bs1 bs2 l : list A) :
  (off + length bs1 + length bs2 ≤ length l)%nat →
  overwrite off bs1 (overwrite (off + length bs1) bs2 l) = overwrite off (bs1 ++ bs2) l.
Proof.
  intros Hl. unfold overwrite at 1. rewrite drop_overwrite by lia. unfold overwrite.
  rewrite take_app_le by (rewrite length_take; lia). rewrite take_take, Nat.min_l by lia.
  rewrite length_app, <- !app_assoc. by rewrite Nat.add_assoc.
Qed.

Definition type_wire (t : Type_) : list byte :=
  match type_code (t_id t) with Some c => be_bytes 2 c | None => [] end.

Lemma append_field_emits s t c : type_code (t_id t) = Some c →
  emits (λ i, append_field i (slen s) s t) (str_bytes s ++ be_bytes 2 c).
Proof.
  intros Hc start l Hs Hl. unfold append_field. rewrite Hc.
  rewrite zlen_app, zlen_str_bytes, zlen_be_bytes in *. pose proof (slen_nonneg s).
  assert (length (str_bytes s) = Z.to_nat (slen s)) as Hls
    by (rewrite str_bytes_length; unfold slen; lia).
  unfold zlen in Hl.
  erewrite M_bind_ok by (apply poke_ok; unfold zlen; lia).
  rewrite overwrite_1 by lia.
  erewrite M_bind_ok by (apply copy_string_ok; [lia|unfold zlen; rewrite length_overwrite; cbn; lia]).
  replace (Z.to_nat (slen s + start)) with (Z.to_nat start + length (str_bytes s))%nat by lia.
  rewrite overwrite_before by (cbn; lia).
  erewrite M_bind_ok by (apply poke_ok; unfold zlen; rewrite length_overwrite;
    rewrite ?length_app; cbn; lia).
  unfold mret, M_ret. f_equal; [f_equal; lia|].
  replace (Z.to_nat (slen s + start + 1))
    with (Z.to_nat start + length (str_bytes s ++ [byte_of_Z 0]))%nat
    by (rewrite length_app; cbn; lia).
  rewrite overwrite_snoc by (rewrite length_app; cbn; lia). rewrite <- app_assoc. do 2 f_equal.
  destruct (t_id t); simplify_eq/=; by vm_compute.
Qed.

Definition field_wire (f : Field) : list byte := string_enc (f_name f) ++ type_wire (f_type f).

Definition wire_field (f : Field) : Prop :=
  wire_string (f_name f) ∧ is_Some (type_code (t_id (f_type f))).

Lemma put_fields_emits fields :
  Forall wire_field fields → emits (put_fields fields) (concat (field_wire <$> fields)).
Proof.
  induction 1 as [|f fields [Hn [c Hc]] _ IH]; [apply emits_nil|].
  assert (concat (field_wire <$> f :: fields) =
    be_bytes 2 (slen (f_name f)) ++ (str_bytes (f_name f) ++ be_bytes 2 c) ++
    concat (field_wire <$> fields)) as ->.
  { rewrite fmap_cons. cbn [concat]. unfold field_wire at 1, string_enc, type_wire.
    by rewrite Hc, <- !app_assoc. }
  apply (emits_bind (λ i, count i 2 (s32 (slen (f_name f))))
    (λ i, append_field i (s32 (slen (f_name f))) (f_name f) (f_type f) ≫= put_fields fields));
    rewrite wire_string_s32 by done.
  - by apply (count_emits 2), wire_string_countable.
  - apply emits_bind; [by apply append_field_emits|done].
Qed.

Lemma poke_all_ok vs : ∀ i (l : chars), 0 ≤ i → i + zlen vs ≤ zlen l →
  poke_all i vs l = (Ok tt, overwrite (Z.to_nat i) (byte_of_Z <$> vs) l).
Proof.
  induction vs as [|v vs IH]; intros i l Hi Hl.
  { cbn. by rewrite overwrite_nil. }
  cbn [poke_all]. unfold zlen in *. cbn [length] in Hl.
  erewrite M_bind_ok by (apply poke_ok; unfold zlen; lia). rewrite overwrite_1 by lia.
  rewrite IH by (rewrite ?length_overwrite; cbn; lia). csimpl.
  replace (Z.to_nat (i + 1)) with (Z.to_nat i + length [byte_of_Z v])%nat by (cbn; lia).
  rewrite overwrite_app by (rewrite ?length_fmap; cbn; lia). done.
Qed.

Definition names_wire (names : list string) : list byte := concat (string_enc <$> names).

Lemma put_names_emits names : Forall wire_string names → emits (put_names names) (names_wire names).
Proof.
  induction 1 as [|s names Hs _ IH]; [apply emits_nil|].
  apply (emits_bind (λ i, put_counted i s)); [by apply put_counted_emits|done].
Qed.

(** *** [schema_change], [create_table] and [insert_record] *)

Lemma schema_change_ok keyspace table (l : chars) :
  let names := names_wire ["SCHEMA_CHANGE"; "CREATED"; "TABLE"; keyspace; table] in
  wire_string keyspace → wire_string table → countable 4 (zlen names + 1) →
  7 + zlen names ≤ zlen l →
  schema_change keyspace table l =
    (Ok (7 + zlen names),
     overwrite 0 ([xff; xff; x0c] ++ be_bytes 4 (zlen names + 1) ++ names) l).
Proof.
  intros names Hk Ht Hc Hl. pose proof (zlen_nonneg names). unfold schema_change.
  unfold zlen in Hl, Hc |- *. set (hd := byte_of_Z <$> [255; 255; EVENT]).
  erewrite M_bind_ok by (apply poke_all_ok; unfold zlen; cbn; lia). fold hd.
  assert (length (overwrite 0 hd l) = length l) as Hl1
    by (apply length_overwrite; unfold hd; cbn; lia).
  assert (Forall wire_string ["SCHEMA_CHANGE"; "CREATED"; "TABLE"; keyspace; table]) as Hw
    by (repeat apply Forall_cons_2; try done; by apply Forall_nil_2).
  erewrite M_bind_ok by (apply (put_names_emits _ Hw); [lia|];
    unfold zlen; change (Z.to_nat 0) with O; fold names; lia).
  fold names. change (Z.to_nat 0) with O. change (Z.to_nat 7) with 7%nat. unfold zlen.
  assert (length (overwrite 7 names (overwrite 0 hd l)) = length l) as Hl2
    by (rewrite length_overwrite; lia).
  replace (7 + Z.of_nat (length names) - 6) with (Z.of_nat (length names) + 1) by lia.
  erewrite M_bind_ok by (apply (count_emits 4 _ Hc); unfold zlen;
    rewrite ?length_be_bytes, ?Hl2; lia).
  unfold mret, M_ret. f_equal. change (Z.to_nat 3) with 3%nat.
  set (len := be_bytes 4 (Z.of_nat (length names) + 1)).
  assert (length len = 4%nat) as Hlen by apply length_be_bytes.
  pose proof (overwrite_before 3 len names (overwrite 0 hd l)) as Hob. rewrite Hlen in Hob.
  change (3 + 4)%nat with 7%nat in Hob. etransitivity; [apply Hob; lia|].
  apply (overwrite_app 0 hd (len ++ names)). rewrite length_app. change (length hd) with 3%nat. lia.
Qed.

Lemma create_table_ok keyspace table (l : chars) :
  let names := names_wire ["CREATED"; "TABLE"; keyspace; table] in
  wire_string keyspace → wire_string table → 4 + zlen names ≤ zlen l →
  QueryResult_create_table keyspace table l =
    (Ok (4 + zlen names), overwrite 0 (be_bytes 4 5 ++ names) l).
Proof.
  intros names Hk Ht Hl. unfold QueryResult_create_table. pose proof (zlen_nonneg names).
  erewrite M_bind_ok by (apply poke_all_ok; unfold zlen in *; cbn; lia).
  assert (Forall wire_string ["CREATED"; "TABLE"; keyspace; table]) as Hw
    by (repeat apply Forall_cons_2; try done; by apply Forall_nil_2).
  rewrite (put_names_emits _ Hw);
    [|lia|unfold zlen in *; rewrite length_overwrite; [|cbn]; fold names; lia].
  fold names. f_equal. apply (overwrite_app 0 (be_bytes 4 5) names).
  unfold zlen in *. rewrite length_be_bytes. lia.
Qed.

Lemma insert_record_ok (l : chars) : 8 ≤ zlen l →
  insert_record l = (Ok 8, overwrite 0 (be_bytes 4 4 ++ be_bytes 4 1) l).
Proof. intros Hl. unfold insert_record. by erewrite M_bind_ok by (by apply poke_all_ok). Qed.

(** *** Rows *)

(** The values a reply carries in full: texts without the separators of
    [serialize], and the numbers [count] can write. *)
Definition sendable (d : Data) : Prop :=
  match m_payload d with
  | P_ASCII s => lacks ","%char s ∧ lacks "|"%char s ∧ countable 4 (slen s)
  | P_Int z => countable 4 z
  | _ => False
  end.

Definition value_wire (d : Data) : list byte :=
  match m_payload d with
  | P_ASCII s => be_bytes 4 (slen s) ++ str_bytes s
  | P_Int z => be_bytes 4 4 ++ be_bytes 4 z
  | _ => []
  end.

(** The text of a value: its print, its type and its length. *)
Definition value_text (text : string) (t : Type_) : string :=
  text +:+ String "," (pretty (Id_to_int (t_id t)) +:+ String "," (pretty (t_length t))).

Lemma lacks_pretty c (z : Z) : c = ","%char ∨ c = "|"%char → lacks c (pretty z).
Proof.
  intros Hc. apply pretty_chars; [|by destruct Hc; subst].
  intros d Hd. assert (digit_of c = None) as Hn by (by destruct Hc; subst).
  intros <-. by rewrite digit_of_pretty in Hn.
Qed.

Lemma value_text_lacks text t : lacks "|"%char text → lacks "|"%char (value_text text t).
Proof.
  intros Ht. unfold value_text. rewrite list_ascii_app, Forall_app. split; [done|].
  cbn [String.list_ascii_of_string]. constructor; [done|].
  rewrite list_ascii_app, Forall_app. split; [by apply lacks_pretty; auto|].
  cbn [String.list_ascii_of_string]. constructor; [done|]. apply lacks_pretty; auto.
Qed.

Lemma fields_of_value_text text t : lacks ","%char text →
  fields_of ","%char (value_text text t) = [text; pretty (Id_to_int (t_id t)); pretty (t_length t)].
Proof.
  intros Ht. unfold value_text.
  rewrite fields_of_app by done. rewrite fields_of_app by (apply lacks_pretty; auto).
  by rewrite fields_of_lacks by (apply lacks_pretty; auto).
Qed.

Lemma value_text_nonempty text t : value_text text t ≠ "".
Proof.
  unfold value_text. intros H. apply (f_equal String.length) in H.
  rewrite str_length_app in H. cbn in H. lia.
Qed.

Lemma append_record_emits d text : data_wf d → sendable d → Data_print d = Ok text →
  let len := t_length (m_type d) in
  lacks ","%char text ∧ lacks "|"%char text ∧ countable 4 len ∧ in_s 32 len ∧
  ∃ bs, emits (λ i, append_record i len text (Id_to_int (t_id (m_type d)))) bs ∧
    value_wire d = be_bytes 4 len ++ bs.
Proof.
  intros [_ Hty] Hs Hp len. unfold sendable, Data_print, value_wire in *.
  destruct d as [ty p]. cbn in *. subst ty len. destruct p as [s| | | | |z| | |]; try done; simplify_eq.
  - destruct Hs as (Hc & Hb & Hn). cbn [payload_type t_length t_id m_type].
    split_and!; try done; [destruct Hn as [[]]; unfold in_s; lia|].
    exists (str_bytes text). split; [|done]. intros start l Hst Hl. unfold append_record.
    rewrite zlen_str_bytes in *. cbn [Id_to_int Z.eqb].
    by erewrite M_bind_ok by (apply copy_string_ok; lia).
  - assert (in_s 32 z) as Hz by (destruct Hs as [[]]; unfold in_s; lia).
    cbn [payload_type t_length t_id]. split_and!; try (by apply lacks_pretty; auto); [unfold countable; lia|by vm_compute|].
    exists (be_bytes 4 z). split; [|done]. intros start l Hst Hl. unfold append_record.
    cbn [Id_to_int Z.eqb Pos.eqb].
    erewrite M_bind_ok; [by rewrite zlen_be_bytes|].
    erewrite M_bind_ok by (unfold lift; by rewrite stoi_pretty).
    by erewrite M_bind_ok by (by apply (count_emits 4)).
Qed.

Lemma put_value_emits d text : data_wf d → sendable d → Data_print d = Ok text →
  slen (value_text text (m_type d)) < 2 ^ 31 → ∀ values bs, emits (put_values values) bs →
  emits (put_values (value_text text (m_type d) :: values)) (value_wire d ++ bs).
Proof.
  intros Hwf Hs Hp Hlen values bs Hvs.
  destruct (append_record_emits d text Hwf Hs Hp) as (Hc & _ & Hn & Hi & bs1 & He & ->).
  apply (emits_ext (λ i, (count i 4 (t_length (m_type d)) ≫=
    λ i, append_record i (t_length (m_type d)) text (Id_to_int (t_id (m_type d)))) ≫=
    put_values values)).
  - intros i l. cbn [put_values].
    assert ((0 <? slen (value_text text (m_type d))) = true) as ->.
    { pose proof (slen_eqb_0 _ (value_text_nonempty text (m_type d))).
      pose proof (slen_nonneg (value_text text (m_type d))). lia. }
    rewrite split_eq, decide_False, fields_of_value_text by (done || apply value_text_nonempty).
    assert (in_s 32 (Id_to_int (t_id (m_type d)))).
    { destruct Hwf as [_ ->]. unfold in_s. destruct (m_payload d); cbn; lia. }
    unfold mbind, M_bind, outcome_bind, lift, vec_at. cbn [lookup list_lookup].
    by rewrite !stoi_pretty.
  - apply emits_bind; [|done]. apply emits_bind; [by apply (count_emits 4)|done].
Qed.

Lemma serialize_values_cons d values text : serialize_values (Some d :: values) = Ok text →
  ∃ t rest, Data_print d = Ok t ∧ serialize_values values = Ok rest ∧
    text = value_text t (m_type d) +:+ String "|" rest.
Proof.
  cbn. destruct (Data_print d) as [t| |]; try done.
  destruct (serialize_values values) as [rest| |]; try done. cbn. intros [= <-].
  exists t, rest. split_and!; [done..|]. unfold value_text.
  rewrite !str_app_assoc. f_equal. rewrite !str_app_cons. f_equal.
  change ("" +:+ ?x) with x. by rewrite !str_app_assoc.
Qed.

Lemma put_values_emits ds : Forall data_wf ds → Forall sendable ds →
  ∀ text, serialize_values (Some <$> ds) = Ok text → slen text < 2 ^ 31 →
  emits (put_values (fields_of "|"%char text)) (concat (value_wire <$> ds)).
Proof.
  induction 1 as [|d ds Hd _ IH]; intros Hs text Ht Hl.
  { cbn in Ht. simplify_eq. apply emits_nil. }
  apply Forall_cons in Hs as [Hs Hss]. rewrite fmap_cons in Ht.
  destruct (serialize_values_cons d _ text Ht) as (t & rest & Hp & Hr & ->).
  rewrite slen_app in Hl. pose proof (slen_nonneg (value_text t (m_type d))).
  assert (slen (String "|" rest) = slen rest + 1) as Hc
    by (unfold slen; cbn [String.length]; lia).
  pose proof (slen_nonneg rest).
  rewrite fields_of_app by (apply value_text_lacks, (append_record_emits d t Hd Hs Hp)).
  csimpl. apply put_value_emits; [done..|lia|]. apply IH; [done..|lia].
Qed.

(** The body of a [RESULT] for one record. *)
Definition rows_wire (keyspace table : string) (schema : Schema) (ds : list Data) : list byte :=
  be_bytes 4 (if decide (ds = []) then 1 else 2) ++ be_bytes 4 1 ++
  be_bytes 4 (zlen (m_fields schema)) ++ names_wire [keyspace; table] ++
  concat (field_wire <$> m_fields schema) ++ be_bytes 4 1 ++ concat (value_wire <$> ds).

Lemma serialize_total ds : Forall sendable ds → ∃ text, serialize (Some (Some <$> ds)) = Ok text.
Proof.
  cbn. induction 1 as [|d ds Hd _ [text Ht]]; [by eexists|]. csimpl.
  unfold sendable in Hd. unfold Data_print. destruct (m_payload d); try done; cbn; rewrite Ht; by eexists.
Qed.

Lemma serialize_empty ds text : serialize_values (Some <$> ds) = Ok text → text = "" ↔ ds = [].
Proof.
  destruct ds as [|d ds]; cbn [fmap list_fmap]; intros Ht; [cbn in Ht; by simplify_eq|].
  destruct (serialize_values_cons d _ text Ht) as (t & rest & _ & _ & ->).
  split; [|done]. intros H. apply (f_equal String.length) in H.
  rewrite str_length_app in H. cbn in H. lia.
Qed.

Lemma emits_at m bs off bs0 (l : chars) : emits m bs → 1 ≤ zlen bs0 →
  off = zlen bs0 → zlen bs0 + zlen bs ≤ zlen l →
  m off (overwrite 0 bs0 l) = (Ok (zlen (bs0 ++ bs)), overwrite 0 (bs0 ++ bs) l).
Proof.
  intros Hm H1 -> Hl. pose proof (zlen_nonneg bs). unfold zlen in *.
  rewrite Hm; unfold zlen; rewrite ?length_overwrite; [|lia..].
  rewrite length_app, Nat2Z.id. f_equal; [f_equal; lia|]. apply (overwrite_app 0). lia.
Qed.

(** The two words before the columns. *)
Lemma select_kind text (l : chars) : 8 ≤ zlen l →
  ((if (0 <? 1) && bool_decide (text = "") then poke_all 0 [0; 0; 0; 1]
    else poke_all 0 [0; 0; 0; 2]);; poke_all 4 [0; 0; 0; 1]) l =
  (Ok tt, overwrite 0 (be_bytes 4 (if decide (text = "") then 1 else 2) ++ be_bytes 4 1) l).
Proof.
  intros Hl. set (kind := if decide (text = "") then 1 else 2).
  replace (if (0 <? 1) && bool_decide (text = "") then poke_all 0 [0; 0; 0; 1]
    else poke_all 0 [0; 0; 0; 2]) with (poke_all 0 [0; 0; 0; kind]); last first.
  { unfold kind. by destruct (decide (text = "")) as [->|Hd];
      [rewrite bool_decide_true|rewrite bool_decide_false]. }
  unfold zlen in *. erewrite M_bind_ok by (apply poke_all_ok; unfold zlen; cbn; lia).
  rewrite poke_all_ok by (unfold zlen; rewrite ?length_overwrite; cbn; lia).
  f_equal. change (Z.to_nat 0) with O.
  replace (be_bytes 4 kind) with (byte_of_Z <$> [0; 0; 0; kind])
    by (unfold kind; by destruct (decide (text = ""))).
  replace (be_bytes 4 1) with (byte_of_Z <$> [0; 0; 0; 1]) by reflexivity.
  rewrite <- (overwrite_app 0); [done|]. cbn. lia.
Qed.

Definition rows_head (keyspace table : string) (schema : Schema) (kind : Z) : list byte :=
  (be_bytes 4 kind ++ be_bytes 4 1) ++ be_bytes 4 (zlen (m_fields schema)) ++
  names_wire [keyspace; table] ++ concat (field_wire <$> m_fields schema) ++ be_bytes 4 1.

(** The part of [select_result] before the values. *)
Lemma select_result_head keyspace table schema text (l : chars) :
  wire_string keyspace → wire_string table → Forall wire_field (m_fields schema) →
  countable 4 (zlen (m_fields schema)) → slen text < 2 ^ 31 →
  let head := rows_head keyspace table schema (if decide (text = "") then 1 else 2) in
  zlen head ≤ zlen l →
  select_result keyspace table schema [] text l =
    put_values (if decide (text = "") then [] else fields_of "|"%char text)
      (zlen head) (overwrite 0 head l).
Proof.
  intros Hk Ht Hf Hn Hlen head Hl. unfold select_result.
  change (s32 (zlen (@nil Record_))) with 0. change (0 <=? 10) with true.
  change (0 <=? 0) with true. change (0 + 1) with 1. cbn [andb].
  set (h0 := be_bytes 4 (if decide (text = "") then 1 else 2) ++ be_bytes 4 1).
  assert (zlen h0 = 8) as Hhd by (unfold h0; by rewrite zlen_app, !zlen_be_bytes).
  unfold head, rows_head in *. fold h0 in Hl |- *. clear head. rewrite zlen_app in Hl.
  match type of Hl with _ + zlen ?x ≤ _ => set (h1 := x) in *; pose proof (zlen_nonneg h1) end.
  rewrite <- M_bind_assoc. erewrite M_bind_ok by (apply select_kind; lia). fold h0.
  rewrite swrap_small by (unfold in_s; destruct Hn; lia).
  assert (emits (λ i, index ← count i 4 (zlen (m_fields schema));
    index ← put_names [keyspace; table] index;
    index ← put_fields (m_fields schema) index; count index 4 1) h1) as He.
  { apply emits_bind; [by apply (count_emits 4)|].
    apply emits_bind; [apply put_names_emits; by repeat apply Forall_cons_2|].
    apply emits_bind; [by apply put_fields_emits|].
    apply (count_emits 4). unfold countable; lia. }
  pose proof (emits_at _ _ 8 h0 l He ltac:(lia) ltac:(lia) ltac:(lia)) as Hrun. clear He.
  revert Hrun. generalize (overwrite 0 h0 l) as l0. intros l0.
  unfold mbind, M_bind.
  destruct (count 8 4 _ l0) as [[i1| |] l1]; try done.
  destruct (put_names _ i1 l1) as [[i2| |] l2]; try done.
  destruct (put_fields _ i2 l2) as [[i3| |] l3]; try done. intros ->.
  unfold lift. rewrite split_eq by done. unfold mret, M_ret. by destruct (put_values _ _ _) as [[] ?].
Qed.

Lemma select_result_ok keyspace table schema ds text (l : chars) :
  wire_string keyspace → wire_string table → Forall wire_field (m_fields schema) →
  countable 4 (zlen (m_fields schema)) → Forall data_wf ds → Forall sendable ds →
  serialize_values (Some <$> ds) = Ok text → slen text < 2 ^ 31 →
  zlen (rows_wire keyspace table schema ds) ≤ zlen l →
  select_result keyspace table schema [] text l =
    (Ok (zlen (rows_wire keyspace table schema ds)),
     overwrite 0 (rows_wire keyspace table schema ds) l).
Proof.
  intros Hk Ht Hf Hn Hwf Hs Htx Hlen Hl.
  set (head := rows_head keyspace table schema (if decide (text = "") then 1 else 2)).
  assert (rows_wire keyspace table schema ds = head ++ concat (value_wire <$> ds)) as Hr.
  { unfold rows_wire, head, rows_head. pose proof (serialize_empty ds text Htx) as Hemp.
    rewrite <- !app_assoc. do 2 f_equal. by destruct (decide (ds = [])), (decide (text = "")); tauto. }
  rewrite Hr in *. rewrite zlen_app in Hl. pose proof (zlen_nonneg (concat (value_wire <$> ds))).
  rewrite select_result_head by (try done; fold head; lia). fold head.
  replace (put_values _) with (put_values (fields_of "|"%char text))
    by (by destruct (decide (text = "")) as [->|]).
  apply emits_at; [by apply put_values_emits| |done..].
  unfold head, rows_head. rewrite !zlen_app, !zlen_be_bytes.
  pose proof (zlen_nonneg (names_wire [keyspace; table])).
  pose proof (zlen_nonneg (concat (field_wire <$> m_fields schema))). lia.
Qed.

(** ** The client's side

    A reader of [RESULT] bodies of kind [Rows] with a global table
    specification, after the description of the protocol: it is what a driver
    does with the bytes, and the reference the replies are checked against. *)

Definition parser (A : Type) : Type := list byte → option (A * list byte).

Fixpoint p_take (n : nat) : parser (list byte) := λ bs,
  match n, bs with
  | O, _ => Some ([], bs)
  | S n, b :: bs => '(w, bs) ← p_take n bs; Some (b :: w, bs)
  | S _, [] => None
  end.

Definition p_be (n : nat) : parser Z := λ bs,
  '(w, bs) ← p_take n bs; Some (be_value w, bs).

Definition p_string : parser string := λ bs,
  '(n, bs) ← p_be 2 bs; '(w, bs) ← p_take (Z.to_nat n) bs; Some (bytes_str w, bs).

Inductive ctype :=
| T_basic (code : Z)
| T_list (t : Z)
| T_set (t : Z)
| T_map (k v : Z).

Definition p_type : parser ctype := λ bs,
  '(c, bs) ← p_be 2 bs;
  if c =? 0x20 then '(t, bs) ← p_be 2 bs; Some (T_list t, bs)
  else if c =? 0x22 then '(t, bs) ← p_be 2 bs; Some (T_set t, bs)
  else if c =? 0x21 then '(k, bs) ← p_be 2 bs; '(v, bs) ← p_be 2 bs; Some (T_map k v, bs)
  else Some (T_basic c, bs).

Definition p_column : parser (string * ctype) := λ bs,
  '(name, bs) ← p_string bs; '(t, bs) ← p_type bs; Some ((name, t), bs).

(** A value: a signed length and as many bytes; a negative length is null. *)
Definition p_value : parser (option (list byte)) := λ bs,
  '(n, bs) ← p_be 4 bs;
  if s32 n <? 0 then Some (None, bs)
  else '(w, bs) ← p_take (Z.to_nat n) bs; Some (Some w, bs).

Fixpoint p_repeat {A} (n : nat) (p : parser A) : parser (list A) := λ bs,
  match n with
  | O => Some ([], bs)
  | S n => '(x, bs) ← p bs; '(xs, bs) ← p_repeat n p bs; Some (x :: xs, bs)
  end.

Record Rows := MkRows {
  rows_keyspace : string;
  rows_table : string;
  rows_columns : list (string * ctype);
  rows_content : list (list (option (list byte)))
}.

Definition p_rows : parser Rows := λ bs,
  '(kind, bs) ← p_be 4 bs;
  '(flags, bs) ← p_be 4 bs;
  if negb ((kind =? 2) && (flags =? 1)) then None else
  '(columns, bs) ← p_be 4 bs;
  '(keyspace, bs) ← p_string bs;
  '(table, bs) ← p_string bs;
  '(cols, bs) ← p_repeat (Z.to_nat columns) p_column bs;
  '(count, bs) ← p_be 4 bs;
  '(rows, bs) ← p_repeat (Z.to_nat count) (p_repeat (length cols) p_value) bs;
  Some (MkRows keyspace table cols rows, bs).

Lemma p_take_ok w bs : p_take (length w) (w ++ bs) = Some (w, bs).
Proof. induction w as [|b w IH]; [by destruct bs|]. cbn. by rewrite IH. Qed.

#[global] Arguments p_take : simpl never.
#[global] Arguments p_be : simpl never.

Lemma p_be_ok n z bs : 0 ≤ z < 2 ^ (8 * Z.of_nat n) → p_be n (be_bytes n z ++ bs) = Some (z, bs).
Proof.
  intros Hz. unfold p_be. pose proof (p_take_ok (be_bytes n z) bs) as H.
  rewrite length_be_bytes in H. rewrite H. cbn. by rewrite be_value_bytes, Z.mod_small.
Qed.

Lemma p_string_ok s bs : slen s < 65536 → p_string (string_enc s ++ bs) = Some (s, bs).
Proof.
  intros Hs. pose proof (slen_nonneg s). unfold p_string, string_enc. rewrite <- app_assoc.
  rewrite p_be_ok by (cbn; lia). cbn.
  replace (Z.to_nat (slen s)) with (length (str_bytes s))
    by (rewrite str_bytes_length; unfold slen; lia).
  rewrite p_take_ok. cbn. by rewrite bytes_str_bytes.
Qed.

Lemma p_repeat_ok {A B} (p : parser A) (enc : B → list byte) (f : B → A) xs rest :
  Forall (λ x, ∀ bs, p (enc x ++ bs) = Some (f x, bs)) xs →
  p_repeat (length xs) p (concat (enc <$> xs) ++ rest) = Some (f <$> xs, rest).
Proof.
  induction 1 as [|x xs Hx _ IH]; [done|]. csimpl. rewrite <- app_assoc, Hx. cbn.
  by rewrite IH.
Qed.

(** What the client sees of a column and of a value. *)
Definition client_column (f : Field) : string * ctype :=
  (f_name f, T_basic (default 0 (type_code (t_id (f_type f))))).

Definition client_value (d : Data) : option (list byte) :=
  match m_payload d with
  | P_ASCII s => Some (str_bytes s)
  | P_Int z => Some (be_bytes 4 z)
  | _ => None
  end.

Lemma p_column_ok f bs : wire_field f → p_column (field_wire f ++ bs) = Some (client_column f, bs).
Proof.
  intros [[Hn _] [c Hc]]. unfold p_column, field_wire, client_column, type_wire. rewrite Hc.
  rewrite <- app_assoc, p_string_ok by done. cbn. unfold p_type.
  destruct (t_id (f_type f)); cbn in Hc; simplify_eq; rewrite p_be_ok by lia; done.
Qed.

Lemma p_value_ok d bs : sendable d → p_value (value_wire d ++ bs) = Some (client_value d, bs).
Proof.
  unfold sendable, value_wire, client_value, p_value.
  destruct (m_payload d) as [s| | | | |z| | |]; try done. intros (_ & _ & [Hn _]).
  rewrite <- app_assoc. rewrite p_be_ok by (cbn; lia). cbn.
  rewrite swrap_small by (unfold in_s; lia).
  destruct (Z.ltb_spec (slen s) 0); [lia|].
  replace (Z.to_nat (slen s)) with (length (str_bytes s))
    by (rewrite str_bytes_length; unfold slen; lia). by rewrite p_take_ok.
Qed.

Lemma p_rows_ok keyspace table schema ds bs :
  wire_string keyspace → wire_string table → Forall wire_field (m_fields schema) →
  countable 4 (zlen (m_fields schema)) → Forall sendable ds →
  length ds = length (m_fields schema) → ds ≠ [] →
  p_rows (rows_wire keyspace table schema ds ++ bs) =
    Some (MkRows keyspace table (client_column <$> m_fields schema) [client_value <$> ds], bs).
Proof.
  intros [Hk _] [Ht _] Hf Hn Hs Hlen Hne. unfold p_rows, rows_wire, names_wire.
  rewrite decide_False by done. rewrite <- !app_assoc. cbn [concat fmap list_fmap].
  rewrite p_be_ok by lia. cbn [mbind option_bind]. rewrite p_be_ok by lia. cbn.
  destruct Hn as [Hn _]. rewrite p_be_ok by (cbn; lia). cbn. rewrite <- !app_assoc.
  rewrite p_string_ok by done. cbn. rewrite p_string_ok by done. cbn.
  unfold zlen. rewrite Nat2Z.id.
  rewrite (p_repeat_ok p_column field_wire client_column)
    by (eapply Forall_impl; [exact Hf|]; intros; by apply p_column_ok).
  cbn. rewrite p_be_ok by lia. cbn. change (Z.to_nat 1) with 1%nat. cbn.
  rewrite length_fmap, <- Hlen.
  rewrite (p_repeat_ok p_value value_wire client_value)
    by (eapply Forall_impl; [exact Hs|]; intros; by apply p_value_ok).
  done.
Qed.

(** ** Properties *)

(** C27 (functional): every size below [2^16] in two bytes, or below [2^24] in
    four, is written big-endian over exactly that many bytes and the index
    after them is returned, although [char] is signed and the intermediate
    bytes are read back; except 256 and 65536, for which, as from [2^24] on,
    the array is left as it was; and a negative number keeps only its low
    byte. *)
Theorem count_correct (breadth : nat) (size start : Z) (l : chars) :
  (breadth = 2%nat ∧ size < 2 ^ 16 ∨ breadth = 4%nat) →
  1 ≤ start → start + Z.of_nat breadth ≤ zlen l →
  count start (Z.of_nat breadth) size l =
    (Ok (start + Z.of_nat breadth),
     if decide (size = 256 ∨ size = 65536 ∨ 2 ^ 24 ≤ size) then l
     else overwrite (Z.to_nat start)
            (be_bytes breadth (if size <? 0 then size mod 256 else size)) l).
Proof.
  intros Hb Hs Hl. destruct (decide _) as [Hskip|Hk]; [by apply count_skips|].
  destruct (Z.ltb_spec size 0) as [Hneg|Hpos].
  - assert (emits (λ i, count i (Z.of_nat breadth) size) (be_bytes breadth (size mod 256))) as He.
    { destruct Hb as [[-> _]| ->]; apply count_negative_emits; auto. }
    rewrite He by (rewrite ?zlen_be_bytes; lia). by rewrite zlen_be_bytes.
  - rewrite (count_emits breadth size) by (rewrite ?zlen_be_bytes; unfold countable; lia).
    by rewrite zlen_be_bytes.
Qed.

Lemma count_correct_witness :
  count 1 2 1000 (replicate 4 x00) = (Ok 3, [x00; x03; xe8; x00]).
Proof.
  refine (eq_trans (count_correct 2 1000 1 (replicate 4 x00) _ _ _) _);
    [left; split; lia|lia|unfold zlen; simpl; lia|by vm_compute].
Defined.

(** C26 (equivalence): [split] at a one-character token computes the fields of
    the text, and none for the empty text; in particular its loop ends. *)
Theorem split_fields (c : ascii) (s : string) :
  slen s < 2 ^ 31 →
  split s (String c "") = Ok (if decide (s = "") then [] else fields_of c s).
Proof. apply split_eq. Qed.

Lemma split_fields_witness : split "a,bc,,d," "," = Ok ["a"; "bc"; ""; "d"; ""].
Proof. refine (eq_trans (split_fields "," "a,bc,,d," _) _); [unfold slen; simpl; lia|done]. Defined.

(** C11 (roundtrip): a record of [ASCII] texts without comma and bar and of [INT]
    numbers from 0 below 2^24 other than 256 and 65536 -- the values [serialize]
    can separate and [count] can write -- serialised by the node that holds it and
    written into a reply by [select_result], is read back by the client with its
    columns and values; the bytes behind the reply are untouched.  The lengths of
    the texts and of the names and the number of columns are ones [count] writes,
    too, and the reply fits the array. *)
Theorem select_roundtrip (keyspace table : string) (schema : Schema) (ds : list Data)
    (text : string) (l : chars) :
  wire_string keyspace → wire_string table → Forall wire_field (m_fields schema) →
  countable 4 (zlen (m_fields schema)) → Forall data_wf ds → Forall sendable ds →
  length ds = length (m_fields schema) → ds ≠ [] →
  serialize (Some (Some <$> ds)) = Ok text → slen text < 2 ^ 31 →
  zlen (rows_wire keyspace table schema ds) ≤ zlen l →
  ∃ size body, select_result keyspace table schema [] text l = (Ok size, body) ∧
    length body = length l ∧
    p_rows body = Some (MkRows keyspace table (client_column <$> m_fields schema)
                          [client_value <$> ds], drop (Z.to_nat size) l).
Proof.
  intros Hk Ht Hf Hn Hwf Hs Hlen Hne Htx Hsl Hl. eexists _, _.
  split; [by apply (select_result_ok _ _ _ ds)|]. unfold zlen in *. split.
  - rewrite length_overwrite; lia.
  - unfold overwrite. rewrite take_0, Nat2Z.id. by apply p_rows_ok.
Qed.

Definition example_wire_schema : Schema :=
  MkSchema 0 0 [MkField "id" (MkType INT 4); MkField "name" (MkType ASCII 20)].

Lemma select_roundtrip_witness :
  ∃ size body,
    select_result "ks" "users" example_wire_schema [] "7,5,4|ada,0,3|" (replicate 100 x00) =
      (Ok size, body) ∧
    length body = 100%nat ∧
    p_rows body = Some (MkRows "ks" "users" [("id", T_basic 9); ("name", T_basic 1)]
                          [[Some [x00; x00; x00; x07]; Some (str_bytes "ada")]],
                        drop (Z.to_nat size) (replicate 100 x00)).
Proof.
  apply (select_roundtrip "ks" "users" example_wire_schema [IntData 7; ASCIIData "ada"]
    "7,5,4|ada,0,3|" (replicate 100 x00)).
  - split; vm_compute; done.
  - split; vm_compute; done.
  - repeat apply Forall_cons_2; try apply Forall_nil_2;
      (split; [split; vm_compute; done|by eexists]).
  - unfold countable, zlen. simpl. lia.
  - repeat apply Forall_cons_2; try apply Forall_nil_2; (split; [|done]); vm_compute; by split.
  - repeat apply Forall_cons_2; try apply Forall_nil_2.
    + unfold sendable, countable. simpl. lia.
    + split_and!; [..|unfold countable, slen; simpl; lia];
        repeat apply Forall_cons_2; try apply Forall_nil_2; done.
  - done.
  - done.
  - done.
  - vm_compute. done.
  - vm_compute. done.
Defined.

(** A record whose first value is a text with a comma is not sent.
    The text is cut at the comma, what follows it is taken for the type of the
    value, and when that is no number the conversion throws
    [std::invalid_argument], which no handler of the server catches. *)
Theorem comma_value_throws (keyspace table : string) (schema : Schema) (a b : string)
    (values : Record_) (text : string) (l : chars) :
  lacks ","%char a → lacks ","%char b → lacks "|"%char (a +:+ "," +:+ b) → strtol b = None →
  wire_string keyspace → wire_string table → Forall wire_field (m_fields schema) →
  countable 4 (zlen (m_fields schema)) →
  serialize (Some (Some (ASCIIData (a +:+ "," +:+ b)) :: values)) = Ok text →
  slen text < 2 ^ 31 → zlen (rows_head keyspace table schema 2) + 4 ≤ zlen l →
  ∃ l', select_result keyspace table schema [] text l = (Throw (invalid_argument "stoi"), l').
Proof.
  intros Ha Hb Hbar Hnum Hk Ht Hf Hn Htx Hlen Hl.
  destruct (serialize_values_cons _ _ text Htx) as (t & rest & [= <-] & Hr & ->).
  set (ty := m_type (ASCIIData (a +:+ "," +:+ b))) in *.
  set (vt := value_text (a +:+ "," +:+ b) ty) in *.
  assert (vt ≠ "") as Hne by apply value_text_nonempty.
  assert (vt +:+ String "|" rest ≠ "") as Hne' by (by destruct vt).
  rewrite slen_app in Hlen. pose proof (slen_nonneg (String "|" rest)).
  rewrite select_result_head; rewrite ?slen_app, ?decide_False by done; try done; [|lia..].
  rewrite fields_of_app by (by apply value_text_lacks).
  set (head := rows_head keyspace table schema 2) in *.
  assert (fields_of ","%char vt = [a; b; pretty (Id_to_int (t_id ty)); pretty (t_length ty)]) as Hvt.
  { unfold vt, value_text. rewrite str_app_assoc. change ("," +:+ b) with (String "," b).
    rewrite str_app_cons, fields_of_app by done. rewrite fields_of_app by done.
    rewrite fields_of_app by (apply lacks_pretty; auto).
    by rewrite fields_of_lacks by (apply lacks_pretty; auto). }
  cbn [put_values]. assert ((0 <? slen vt) = true) as ->.
  { pose proof (slen_eqb_0 _ Hne). pose proof (slen_nonneg vt). lia. }
  rewrite split_eq, decide_False, Hvt by (done || lia).
  change (pretty (Id_to_int (t_id ty))) with "0".
  assert (∃ i l', count (zlen head) 4 0 (overwrite 0 head l) = (Ok i, l')) as (i & l' & Hc).
  { assert (1 ≤ zlen head) by (unfold head, rows_head; rewrite !zlen_app, !zlen_be_bytes;
      pose proof (zlen_nonneg (names_wire [keyspace; table]));
      pose proof (zlen_nonneg (concat (field_wire <$> m_fields schema))); lia).
    eexists _, _. apply (emits_at (λ i, count i 4 0) (be_bytes 4 0)); [|lia|done|rewrite zlen_be_bytes; lia].
    apply (count_emits 4). unfold countable. lia. }
  assert (stoi b = Throw (invalid_argument "stoi")) as Hb' by (unfold stoi; by rewrite Hnum).
  exists l'. apply M_bind_throw. erewrite M_bind_ok by reflexivity.
  erewrite M_bind_ok by reflexivity. erewrite M_bind_ok by exact Hc.
  do 2 erewrite M_bind_ok by reflexivity. apply M_bind_throw. cbn. by rewrite Hb'.
Qed.

Lemma comma_value_throws_witness :
  ∃ l', select_result "ks" "users" example_wire_schema [] "Doe, J.,0,7|7,5,4|" (replicate 100 x00) =
    (Throw (invalid_argument "stoi"), l').
Proof.
  apply (comma_value_throws "ks" "users" example_wire_schema "Doe" " J." [Some (IntData 7)]).
  1-3: repeat apply Forall_cons_2; try apply Forall_nil_2; done.
  - done.
  - split; vm_compute; done.
  - split; vm_compute; done.
  - repeat apply Forall_cons_2; try apply Forall_nil_2;
      (split; [split; vm_compute; done|by eexists]).
  - unfold countable, zlen. simpl. lia.
  - done.
  - vm_compute. done.
  - vm_compute. done.
Defined.

(** The text that stands for the answer of a node that could not be reached is no
    record: its only piece has no third attribute. *)
Lemma select_error (keyspace table : string) (schema : Schema) (l : chars) :
  wire_string keyspace → wire_string table → Forall wire_field (m_fields schema) →
  countable 4 (zlen (m_fields schema)) → zlen (rows_head keyspace table schema 2) ≤ zlen l →
  ∃ l', select_result keyspace table schema [] "Error" l = (Undef OutOfBounds, l').
Proof.
  intros Hk Ht Hf Hn Hl. rewrite select_result_head; try done. rewrite decide_False by done.
  eexists. change (fields_of "|"%char "Error") with ["Error"]. cbn [put_values].
  apply M_bind_undef. change (0 <? slen "Error") with true. cbv iota.
  erewrite M_bind_ok by reflexivity. by apply M_bind_undef.
Qed.

(** The layout of the two replies to [CREATE TABLE].  The
    event names the keyspace and the table and announces one byte more than it
    writes; the result is the schema change without the event's name. *)
Theorem schema_change_layout (keyspace table : string) (l l' : chars) :
  let names := names_wire ["CREATED"; "TABLE"; keyspace; table] in
  wire_string keyspace → wire_string table → zlen names ≠ 240 → zlen names < 3000 →
  3100 ≤ zlen l → 3100 ≤ zlen l' →
  schema_change keyspace table l =
    (Ok (22 + zlen names),
     overwrite 0 ([xff; xff; x0c] ++ be_bytes 4 (zlen names + 16) ++
                  string_enc "SCHEMA_CHANGE" ++ names) l) ∧
  QueryResult_create_table keyspace table l' =
    (Ok (4 + zlen names), overwrite 0 (be_bytes 4 5 ++ names) l').
Proof.
  intros names Hk Ht Hne Hlt Hl Hl'. pose proof (zlen_nonneg names).
  assert (names_wire ["SCHEMA_CHANGE"; "CREATED"; "TABLE"; keyspace; table] =
    string_enc "SCHEMA_CHANGE" ++ names) as Hn by done.
  assert (zlen (string_enc "SCHEMA_CHANGE") = 15) as H15 by done.
  split; [|apply create_table_ok; [done|done|fold names; lia]].
  assert (zlen (string_enc "SCHEMA_CHANGE" ++ names) = 15 + zlen names) as Hz
    by (by rewrite zlen_app, H15).
  pose proof (schema_change_ok keyspace table l) as Hsc. cbv zeta in Hsc. rewrite Hn, Hz in Hsc.
  rewrite Hsc; [|done|done|unfold countable; lia|lia].
  f_equal; [f_equal; lia|]. do 3 f_equal. f_equal. lia.
Qed.

Lemma schema_change_layout_witness :
  let l := replicate 3500 x00 in let names := names_wire ["CREATED"; "TABLE"; "ks"; "users"] in
  schema_change "ks" "users" l =
    (Ok (22 + zlen names),
     overwrite 0 ([xff; xff; x0c] ++ be_bytes 4 (zlen names + 16) ++
                  string_enc "SCHEMA_CHANGE" ++ names) l) ∧
  QueryResult_create_table "ks" "users" l =
    (Ok (4 + zlen names), overwrite 0 (be_bytes 4 5 ++ names) l).
Proof.
  apply schema_change_layout; try (split; vm_compute; done);
    unfold zlen; rewrite ?length_replicate; vm_compute; done.
Defined.
