(* ===== verification/Dht.v ===== *)
(** * The distributed layer: routing and execution of queries

    Models [include/config/*.hh] and the executors of [include/dht]: the token
    ranges, the state store, the partitioner, the query processor with its
    single-node and multi-node executors, and the service a node offers to its
    peers.

    The generated parser ([parse_tree]) and the transport ([rpc], the stub of
    [StreamerClient]) are parameters.  A node is its [StateStore] and its
    operating system; the functions run on a state [St] that contains a node,
    so that the same definitions serve one node and a cluster of them.
    [Partitioner] holds copies of the configuration and of the state store,
    whose additions are dropped with it.  The informational log lines are not
    kept. *)

From Stdlib Require Import ZArith Lia Strings.Byte Ascii String.
From stdpp Require Import base list list_numbers strings gmap pretty sorting.
From S2P Require Import Prelude Buffer OrdMap Data Catalog IndexPage Summary FileSystem Disk Sstable TableManager Database Text Lang Wire.

Local Open Scope Z_scope.

(** ** Configuration *)

Record Range := MkRange { rg_start : Z; rg_end : Z; rg_address : string }.

Definition contains (r : Range) (id : Z) : bool := (rg_start r <=? id) && (id <? rg_end r).

Definition Range_eq (r s : Range) : bool :=
  (rg_start r =? rg_start s) && (rg_end r =? rg_end s) && String.eqb (rg_address r) (rg_address s).

Record Config := MkConfig { cf_local_address : string; cf_ranges : list Range }.

(** ** The state store *)

(** A [StreamerClient] is the address its channel was created for. *)
Record StateStore := MkStateStore {
  ss_streamers : list (string * string);
  ss_keyspaces : list (string * Database)
}.

Definition StateStore_new (config : Config) : StateStore :=
  MkStateStore (fold_left (λ m r, str_map_set (rg_address r) (rg_address r) m) (cf_ranges config) []) [].

Definition StateStore_get_address (config : Config) (token : Z) : option string :=
  (fix go ranges := match ranges with
                    | [] => None
                    | range :: ranges =>
                        if contains range token then Some (rg_address range) else go ranges
                    end) (cf_ranges config).

(** [get_streamer]: the client of an address, made and kept if there is none. *)
Definition get_streamer (address : string) (s : StateStore) : string * StateStore :=
  match str_map_get address (ss_streamers s) with
  | Some streamer => (streamer, s)
  | None => (address, MkStateStore (str_map_set address address (ss_streamers s)) (ss_keyspaces s))
  end.

(** [get_streamer] of a token *)
Definition get_streamer_token (config : Config) (token : Z) (s : StateStore) :
    option string * StateStore :=
  match StateStore_get_address config token with
  | Some address => let '(streamer, s) := get_streamer address s in (Some streamer, s)
  | None => (None, s)
  end.

(** ** The partitioner *)

(** Keys are sent by parity: the hash is commented out in the source. *)
Definition get_address (config : Config) (key : string) : option string :=
  let token := if Z.odd (atoi key) then 50 else 150 in
  StateStore_get_address config (u32 token).

Definition is_local (config : Config) (key : string) : bool :=
  match get_address config key with
  | None => true
  | Some address => String.eqb address (cf_local_address config)
  end.

Section node.
Context {F : Type} `{PosixFS F}.
Context (junk : Z → byte) (strtold : string → Z).
(** The tree [CqlParser::root] builds. *)
Context (parse_tree : string → option (list CqlContext)).
Context (config : Config).

Abbreviation Node := (StateStore * world F)%type.

(** ** Statements on a database *)

Fixpoint copy_values (values : list (option Data)) : outcome Record_ :=
  match values with
  | [] => Ok []
  | v :: values => d ← Data_copy v; ds ← copy_values values; Ok (Some d :: ds)
  end.

Definition CreateTableStatement_execute (s : CreateTableStatement) :
    M (Database * world F) (option Record_) :=
  create_table (ct_table s) (ct_schema s);; mret None.

Definition InsertStatement_execute (s : InsertStatement) : M (Database * world F) (option Record_) :=
  values ← lift (copy_values (in_values s));
  Database_write_record (in_table s) values;;
  mret None.

Definition SelectStatement_execute (s : SelectStatement) : M (Database * world F) (option Record_) :=
  match sl_where_spec s !! 0%nat with
  | None => lift (Undef OutOfBounds)
  | Some e =>
      key ← lift (Data_copy (re_operand e));
      record ← Database_read_record junk (fs_table (sl_from_spec s)) (Some key);
      mret (Some record)
  end.

(** The virtual call. *)
Definition Statement_execute (stmt : Statement) : M (Database * world F) (option Record_) :=
  match stmt with
  | CREATE_TABLE s => CreateTableStatement_execute s
  | INSERT s => InsertStatement_execute s
  | SELECT s => SelectStatement_execute s
  end.

(** ** One node *)

(** [get_keyspace]: the database of a path, opened and kept if there is none. *)
Definition get_keyspace (keyspace : string) : M Node Database :=
  '(store, _) ← get_state;
  match str_map_get keyspace (ss_keyspaces store) with
  | Some db => mret db
  | None =>
      db ← zoom snd (λ w s, (s.1, w)) (Database_new junk keyspace);
      modify (λ s, (MkStateStore (ss_streamers s.1) (str_map_set keyspace db (ss_keyspaces s.1)), s.2));;
      mret db
  end.

(** A call on a database of the store: the object is shared, so what the call
    leaves of it stays in the store, whether it returns or throws. *)
Definition on_keyspace {A} (keyspace : string) (db : Database) (m : M (Database * world F) A) :
    M Node A :=
  λ s, let '(o, (db', w)) := m (db, s.2) in
       (o, (MkStateStore (ss_streamers s.1) (str_map_set keyspace db' (ss_keyspaces s.1)), w)).

(** [StatementExecutor::execute].  The line that printed the values is
    commented out, so that [return result] is the body of the loop: without a
    record, or with an empty one, the function ends without returning. *)
Definition execute_statement (stmt : Statement) : M Node (option Record_) :=
  let path := "data/" +:+ cf_local_address config +:+ ":database" in
  db ← get_keyspace path;
  result ← on_keyspace path db (Statement_execute stmt);
  match result with
  | Some (_ :: _) => mret result
  | _ => lift (Undef MissingReturn)
  end.

(** [LocalQueryExecutor::execute] *)
Definition execute_local (stmt : Statement) : M Node string :=
  result ← execute_statement stmt;
  lift (serialize result).

(** [StatementParser::process] *)
Definition parse_statement (query : string) : outcome Statement :=
  statements ← visitRoot strtold (parse_tree query);
  match statements !! 0%nat with
  | Some stmt => Ok stmt
  | None => Undef OutOfBounds
  end.

(** [StreamerServer::execute], the service of a node to its peers. *)
Definition StreamerServer_execute (query : string) : M Node string :=
  stmt ← lift (parse_statement query);
  execute_local stmt.

(** ** A node among others *)

Section network.
Context {St : Type} (proj : St → Node) (inj : Node → St → St).
(** A remote call: a status code with its message, or the response. *)
Context (rpc : string → string → M St (Z * string + string)).

Definition here {A} : M Node A → M St A := zoom proj inj.

(** [StreamerClient::execute] *)
Definition StreamerClient_execute (streamer query : string) : M St string :=
  status ← rpc streamer query;
  match status with
  | inr response => mret response
  | inl (code, message) =>
      here (zoom snd (λ w s, (s.1, w))
        (log_err ("gRPC Error(" +:+ pretty code +:+ "): " +:+ message)));;
      mret "Error"
  end.

(** [StreamerServer::health_check]: [ok] and [ready]. *)
Definition StreamerServer_health_check : bool * bool := (true, true).

(** [StreamerClient::health_check], over a call that fails or tells whether the
    node is ready. *)
Definition StreamerClient_health_check (health : string → M St (Z * string + bool)) (streamer : string) :
    M St bool :=
  status ← health streamer;
  match status with
  | inr ready => mret ready
  | inl _ => mret false
  end.

(** [Partitioner::send] *)
Definition send (query key : string) : M St string :=
  match get_address config key with
  | None => throw bad_optional_access
  | Some address =>
      '(store, _) ← here get_state;
      StreamerClient_execute (get_streamer address store).1 query
  end.

(** [Partitioner::send_all] *)
Definition send_all (streamers : list (string * string)) (query : string) : M St unit :=
  for_each (λ '(address, streamer),
    if String.eqb address (cf_local_address config) then mret tt
    else StreamerClient_execute streamer query;; mret tt) streamers.

(** [MultinodeQueryExecutor::execute] *)
Definition execute_multinode (query : string) (stmt : Statement) : M St string :=
  '(store, _) ← here get_state;
  here (execute_statement stmt);;
  send_all (ss_streamers store) query;;
  mret "All nodes have been updated".

(** [SinglenodeQueryExecutor::execute] *)
Definition execute_singlenode (query : string) (stmt : Statement) : M St string :=
  key ← lift (partition_key stmt);
  match key with
  | None => throw bad_optional_access
  | Some key =>
      if is_local config key then here (execute_local stmt)
      else if String.eqb key "" then execute_multinode query stmt
      else send query key
  end.

(** [QueryProcessor::process] *)
Definition process (query : string) : M St string :=
  stmt ← lift (parse_statement query);
  match stmt with
  | CREATE_TABLE _ => execute_multinode query stmt
  | INSERT _ | SELECT _ => execute_singlenode query stmt
  end.
End network.
End node.

(** ** Routing *)

Lemma get_address_ranges config addr key :
  get_address (MkConfig addr (cf_ranges config)) key = get_address config key.
Proof. done. Qed.

(** A token is in a range from its start on and before its end; a key belongs to
    the address of the first range its token is in. *)
Definition in_range (token : Z) (r : Range) : Prop := rg_start r ≤ token < rg_end r.

Definition key_token (key : string) : Z := if Z.odd (atoi key) then 50 else 150.

Definition owned (ranges : list Range) (key owner : string) : Prop :=
  ∃ before r after, ranges = before ++ r :: after ∧ rg_address r = owner ∧ in_range (key_token key) r ∧
    Forall (λ r', ¬ in_range (key_token key) r') before.

Lemma contains_in_range r token : contains r token = true ↔ in_range token r.
Proof. unfold contains, in_range. rewrite andb_true_iff. lia. Qed.

Lemma get_address_key config key : get_address config key = StateStore_get_address config (key_token key).
Proof. unfold get_address, key_token. by destruct (Z.odd _). Qed.

Lemma owned_get_address addr ranges key owner :
  owned ranges key owner → get_address (MkConfig addr ranges) key = Some owner.
Proof.
  intros (before & r & after & -> & <- & Hr & Hb). rewrite get_address_key. unfold StateStore_get_address.
  cbn [cf_ranges]. induction Hb as [|r' before Hr' _ IH]; cbn [app].
  - by apply contains_in_range in Hr as ->.
  - destruct (contains r' _) eqn:Hc; [by apply contains_in_range in Hc|done].
Qed.

Lemma owned_or_none ranges key :
  (∃ owner, owned ranges key owner) ∨ Forall (λ r, ¬ in_range (key_token key) r) ranges.
Proof.
  induction ranges as [|r ranges IH]; [by right|].
  destruct (contains r (key_token key)) eqn:Hc.
  - left. exists (rg_address r), [], r, ranges. apply contains_in_range in Hc. by split_and!.
  - assert (¬ in_range (key_token key) r) as Hr by (rewrite <- contains_in_range; congruence).
    destruct IH as [(owner & before & r' & after & -> & Ho & Hin & Hb)|IH]; [left|right; by constructor].
    exists owner, (r :: before), r', after. split_and!; try done. by constructor.
Qed.

Lemma none_get_address addr ranges key : Forall (λ r, ¬ in_range (key_token key) r) ranges →
  get_address (MkConfig addr ranges) key = None.
Proof.
  intros Hall. rewrite get_address_key. unfold StateStore_get_address. cbn [cf_ranges].
  induction Hall as [|r ranges Hr _ IH]; [done|].
  destruct (contains r _) eqn:Hc; [by apply contains_in_range in Hc|done].
Qed.

(** ** Statements without a result *)

Section void.
Context {F : Type} `{PosixFS F}.
Context (junk : Z → byte) (config : Config).

Lemma execute_never_ok (stmt : Statement) (node : StateStore * world F) :
  (match stmt with SELECT _ => False | _ => True end) →
  ∀ r node', execute_statement junk config stmt node ≠ (Ok r, node').
Proof.
  intros Hs r node' Hrun. unfold execute_statement in Hrun.
  apply M_bind_ok_inv in Hrun as (db & n1 & _ & Hrun).
  apply M_bind_ok_inv in Hrun as (res & n2 & Hex & Hret).
  destruct res as [[|v vs]|]; try done.
  unfold on_keyspace in Hex. destruct (Statement_execute junk stmt (db, n1.2)) as [o [db' w']] eqn:He.
  destruct o as [a| |]; simplify_eq. destruct stmt as [s|s|s]; [| |done]; cbn in He.
  - apply M_bind_ok_inv in He as (? & ? & _ & He). done.
  - apply M_bind_ok_inv in He as (? & ? & _ & He). apply M_bind_ok_inv in He as (? & ? & _ & He). done.
Qed.

Context (strtold : string → Z) (parse_tree : string → option (list CqlContext)).
Context {St : Type} (proj : St → StateStore * world F) (inj : StateStore * world F → St → St).
Context (rpc : string → string → M St (Z * string + string)).

(** No node ever answers a [CREATE TABLE] of its own client, nor an
    [INSERT] whose key is local: the statement is executed, but
    [StatementExecutor::execute] then ends without returning a value, whatever
    the database, the network and the file system did. *)
Theorem void_statements_undefined (query : string) (stmt : Statement) (st st' : St) (answer : string) :
  parse_statement strtold parse_tree query = Ok stmt →
  match stmt with
  | CREATE_TABLE _ => True
  | INSERT _ => ∃ key, partition_key stmt = Ok (Some key) ∧ is_local config key = true
  | SELECT _ => False
  end →
  process junk strtold parse_tree config proj inj rpc query st ≠ (Ok answer, st').
Proof.
  intros Hp Hs Hrun. unfold process in Hrun.
  assert (∀ r st1 st2, here proj inj (execute_statement junk config stmt) st1 ≠ (Ok r, st2)) as Hno.
  { intros r st1 st2. unfold here, zoom.
    destruct (execute_statement junk config stmt (proj st1)) as [o n] eqn:He. intros [= -> _].
    eapply execute_never_ok; [|exact He]. by destruct stmt. }
  apply M_bind_ok_inv in Hrun as (stmt' & st1 & Hl & Hrun). unfold lift in Hl. rewrite Hp in Hl.
  injection Hl as <- <-. destruct stmt as [s|s|s]; [| |done].
  - unfold execute_multinode in Hrun. apply M_bind_ok_inv in Hrun as ([store w] & st2 & _ & Hrun).
    apply M_bind_ok_inv in Hrun as (r & st3 & Hex & _). by eapply Hno.
  - destruct Hs as (key & Hk & Hloc). unfold execute_singlenode in Hrun.
    apply M_bind_ok_inv in Hrun as (k & st2 & Hl & Hrun). unfold lift in Hl. rewrite Hk in Hl.
    injection Hl as <- <-. rewrite Hloc in Hrun. unfold here, execute_local, zoom in Hrun.
    destruct ((execute_statement junk config (INSERT s) ≫= λ result, lift (serialize result)) (proj st))
      as [o n] eqn:He. injection Hrun as -> _.
    apply M_bind_ok_inv in He as (r & n' & He & _). exact (execute_never_ok (INSERT s) _ I _ _ He).
Qed.
End void.

(** ** Reads in a cluster *)

Section cluster.
Context {F : Type} `{PosixSpec F}.
Context (junk : Z → byte) (strtold : string → Z).
Context (parse_tree : string → option (list CqlContext)).
Context (ranges : list Range).

Abbreviation Node := (StateStore * world F)%type.

(** The nodes of a cluster, which share their ranges.  [node0] stands for the
    addresses without a node. *)
Context (node0 : Node).
Abbreviation cluster := (gmap string Node).
Definition node_config (a : string) : Config := MkConfig a ranges.
Definition the_node (a : string) (c : cluster) : Node := default node0 (c !! a).
Definition set_node (a : string) (n : Node) (c : cluster) : cluster := <[a := n]> c.
Definition at_node {A} (a : string) : M Node A → M cluster A := zoom (the_node a) (set_node a).

Context (rpc : string → string → M cluster (Z * string + string)).

(** What a transport promises: when the service of the node returns, the caller
    gets its response. *)
Definition rpc_delivers : Prop := ∀ a query c text c',
  at_node a (StreamerServer_execute junk strtold parse_tree (node_config a) query) c = (Ok text, c') →
  rpc a query c = (Ok (inr text), c').

(** The clients of a node are connected to the addresses they are kept under. *)
Definition streamers_ok (n : Node) : Prop :=
  ∀ a streamer, str_map_get a (ss_streamers n.1) = Some streamer → streamer = a.

Definition process_at (b : string) : string → M cluster string :=
  process junk strtold parse_tree (node_config b) (the_node b) (set_node b) rpc.

Definition keyspace_path (a : string) : string := "data/" +:+ a +:+ ":database".

(** A node that holds a database representing [σ]. *)
Definition node_represents (n : nat) (σ : gmap string (Schema * store)) (a : string) (node : Node) :
    Prop :=
  ∃ db, str_map_get (keyspace_path a) (ss_keyspaces node.1) = Some db ∧ db_represents n σ db node.2.

(** What a request leaves of the node that holds the database. *)
Record node_served (n : nat) (σ : gmap string (Schema * store)) (a : string) (node node' : Node) : Prop := {
  nr_represents : node_represents (S n) σ a node';
  nr_streamers : ss_streamers node'.1 = ss_streamers node.1;
  nr_fds : (size (fds node'.2) ≤ size (fds node.2) + n + 1)%nat
}.

(** The request to the database a statement stands for. *)
Definition abs_of (stmt : Statement) : option db_request :=
  match stmt with
  | CREATE_TABLE s => Some (DbCreate (ct_table s) (ct_schema s))
  | INSERT s => Some (DbPut (in_table s) (in_values s))
  | SELECT s =>
      e ← head (sl_where_spec s); d ← re_operand e; Some (DbGet (fs_table (sl_from_spec s)) d)
  end.

(** Its values can be copied. *)
Definition copied (q : db_request) : Prop :=
  match q with
  | DbCreate _ _ => True
  | DbGet _ key => data_wf key
  | DbPut _ record => ∃ ds, record = Some <$> ds ∧ Forall data_wf ds
  end.

Lemma copy_values_ok ds : Forall data_wf ds → copy_values (Some <$> ds) = Ok (Some <$> ds).
Proof.
  induction 1 as [|d ds Hd _ IH]; [done|]. cbn [copy_values fmap list_fmap]. rewrite Data_copy_ok by done.
  change (list_fmap _ _ Some ds) with (Some <$> ds). by rewrite IH.
Qed.

(** What the executor makes of the database's reply. *)
Definition executed (a : db_reply) : outcome (option Record_) :=
  match a with
  | Answered (GetReply o) =>
      record ← o; match record with [] => Undef MissingReturn | _ => Ok (Some record) end
  | Created o | Answered (PutReply o) => o ≫= λ _, Undef MissingReturn
  end.

Lemma Statement_execute_db stmt q db w o st' : abs_of stmt = Some q → copied q →
  db_serve junk q (db, w) = (Ok o, st') →
  Statement_execute junk stmt (db, w) =
    (match o with
     | Answered (GetReply o) => record ← o; Ok (Some record)
     | Created o | Answered (PutReply o) => o ≫= λ _, Ok None
     end, st').
Proof.
  intros Hq Hc Hrun. destruct stmt as [s|s|s]; cbn [Statement_execute abs_of] in *.
  - injection Hq as <-. cbn [db_serve] in Hrun. unfold CreateTableStatement_execute, mbind at 1, M_bind.
    destruct (create_table _ _ (db, w)) as [[[]|x|u] st1]; by simplify_eq.
  - injection Hq as <-. destruct Hc as (ds & Hds & Hc). cbn [db_serve] in Hrun.
    unfold InsertStatement_execute. rewrite Hds in *. unfold lift. rewrite copy_values_ok by done.
    erewrite M_bind_ok by reflexivity. unfold mbind at 1, M_bind.
    destruct (Database_write_record _ _ (db, w)) as [[[]|x|u] st1]; by simplify_eq.
  - unfold SelectStatement_execute. destruct (sl_where_spec s) as [|e es]; [done|]. cbn in Hq.
    cbn [lookup list_lookup]. destruct (re_operand e) as [d|]; [|done]. cbn in Hq. injection Hq as <-.
    cbn [copied db_serve] in *. unfold lift. rewrite Data_copy_ok by done. erewrite M_bind_ok by reflexivity.
    unfold mbind at 1, M_bind.
    destruct (Database_read_record _ _ _ (db, w)) as [[r|x|u] st1]; by simplify_eq.
Qed.

(** A statement on the node that holds the database is the request to its stores,
    whatever comes of it. *)
Lemma statement_executes n σ a (node : Node) stmt q :
  node_represents n σ a node → abs_of stmt = Some q → copied q → db_request_ok σ q →
  (size (fds node.2) + n + 3 ≤ fd_max)%nat → Z.of_nat n + 1 < 2 ^ 62 →
  ∃ node', execute_statement junk (node_config a) stmt node = (executed (abs_step σ q).1, node') ∧
    node_served n (abs_step σ q).2 a node node'.
Proof.
  intros (db & Hdb & Hrep) Hq Hc Hok Hroom Hcount.
  destruct (db_serve_ok junk n σ db node.2 q Hrep Hok Hroom Hcount) as (db' & w' & Hrun & Hrep' & _ & Hfds).
  pose proof (Statement_execute_db stmt q db node.2 _ _ Hq Hc Hrun) as Hex.
  exists (MkStateStore (ss_streamers node.1) (str_map_set (keyspace_path a) db' (ss_keyspaces node.1)), w').
  split; [|split; [exists db'; split; [by eapply str_map_set_get|done]|done|done]].
  assert (get_keyspace junk (keyspace_path a) node = (Ok db, node)) as Hk.
  { unfold get_keyspace, get_state. erewrite M_bind_ok by reflexivity. destruct node as [store w].
    cbn in Hdb |- *. by rewrite Hdb. }
  unfold execute_statement. cbv zeta. erewrite M_bind_ok by exact Hk.
  unfold mbind at 1, M_bind, on_keyspace. rewrite Hex.
  destruct (abs_step σ q).1 as [[[]|x|u]|[[[|v vs]|x|u]|[[]|x|u]]]; done.
Qed.

Lemma local_ok (stmt : Statement) (config : Config) (node node' : Node) o :
  execute_statement junk config stmt node = (o, node') →
  execute_local junk config stmt node = (o ≫= serialize, node').
Proof. intros Hex. unfold execute_local, mbind at 1, M_bind. rewrite Hex. by destruct o. Qed.

(** A read of a record that is there. *)
Lemma select_stored n σ a (node : Node) s e es d schema st v vs :
  node_represents n σ a node →
  sl_where_spec s = e :: es → re_operand e = Some d →
  σ !! fs_table (sl_from_spec s) = Some (schema, st) →
  table_request_ok σ (fs_table (sl_from_spec s)) (Get d) → data_wf d →
  (size (fds node.2) + n + 3 ≤ fd_max)%nat → Z.of_nat n + 1 < 2 ^ 62 →
  store_read st (Some d) = Ok (v :: vs) →
  ∃ node', execute_local junk (node_config a) (SELECT s) node = (serialize (Some (v :: vs)), node') ∧
    node_served n σ a node node'.
Proof.
  intros Hrep Hw He Hσ Hreq Hwf Hroom Hcount Hread.
  destruct (statement_executes n σ a node (SELECT s) (DbGet (fs_table (sl_from_spec s)) d))
    as (node' & Hex & Hserved); try done.
  { cbn. rewrite Hw. cbn. by rewrite He. }
  cbn [abs_step] in Hex, Hserved. unfold abs_request in Hex, Hserved. rewrite Hσ in Hex, Hserved.
  cbn [store_serve fst snd executed] in Hex, Hserved. rewrite Hread in Hex. rewrite insert_id in Hserved by done.
  exists node'. split; [|done]. by apply local_ok in Hex.
Qed.

(** A statement about one key. *)
Definition keyed (stmt : Statement) : Prop :=
  match stmt with CREATE_TABLE _ => False | _ => True end.

(** A statement its receiver executes itself. *)
Definition runs_here (b : string) (stmt : Statement) : Prop :=
  keyed stmt → ∃ key, partition_key stmt = Ok (Some key) ∧ is_local (node_config b) key = true.

Lemma process_here query stmt b (c : cluster) nb o node' :
  c !! b = Some nb → parse_statement strtold parse_tree query = Ok stmt → runs_here b stmt →
  execute_statement junk (node_config b) stmt nb = (o, node') →
  match o with Ok _ => keyed stmt | _ => True end →
  process_at b query c = (o ≫= serialize, <[b := node']> c).
Proof.
  intros Hcb Hp Hhere Hex Ho. unfold process_at, process, lift. rewrite Hp.
  assert (the_node b c = nb) as Hnb by (unfold the_node; by rewrite Hcb).
  erewrite M_bind_ok by reflexivity.
  assert (∀ key, partition_key stmt = Ok (Some key) → is_local (node_config b) key = true →
    execute_singlenode junk (node_config b) (the_node b) (set_node b) rpc query stmt c =
      (o ≫= serialize, <[b := node']> c)) as Hsingle.
  { intros key Hk Hloc. unfold execute_singlenode, lift. rewrite Hk. erewrite M_bind_ok by reflexivity.
    cbv beta iota. rewrite Hloc. unfold here, zoom. by rewrite Hnb, (local_ok _ _ _ _ _ Hex). }
  destruct stmt as [s|s|s]; try (destruct Hhere as (key & Hk & Hloc); [done|by eapply Hsingle]).
  unfold execute_multinode. assert (here (the_node b) (set_node b) get_state c = (Ok nb, c)) as Hget.
  { unfold here, zoom, get_state, set_node. cbv beta iota. rewrite Hnb. by rewrite insert_id. }
  erewrite M_bind_ok by exact Hget. destruct nb as [store w]. cbv beta iota.
  unfold mbind at 1, M_bind, here, zoom. rewrite Hnb, Hex. by destruct o.
Qed.

Lemma process_remote query stmt key a b (c : cluster) nb :
  c !! b = Some nb → streamers_ok nb → parse_statement strtold parse_tree query = Ok stmt → keyed stmt →
  partition_key stmt = Ok (Some key) → key ≠ "" → get_address (node_config b) key = Some a → a ≠ b →
  process_at b query c = StreamerClient_execute (the_node b) (set_node b) rpc a query c.
Proof.
  intros Hcb Hstr Hp Hst Hk Hne Ha Hab. unfold process_at, process, lift. rewrite Hp.
  assert (the_node b c = nb) as Hnb by (unfold the_node; by rewrite Hcb).
  erewrite M_bind_ok by reflexivity.
  assert (execute_singlenode junk (node_config b) (the_node b) (set_node b) rpc query stmt c =
    StreamerClient_execute (the_node b) (set_node b) rpc a query c) as Hs.
  { unfold execute_singlenode, lift. rewrite Hk. erewrite M_bind_ok by reflexivity. cbv beta iota. unfold is_local.
    rewrite Ha. cbn [cf_local_address node_config].
    apply String.eqb_neq in Hne, Hab. rewrite Hab, Hne. unfold send. rewrite Ha.
    assert (here (the_node b) (set_node b) get_state c = (Ok nb, c)) as Hget.
    { unfold here, zoom, get_state, set_node. cbv beta iota. rewrite Hnb. by rewrite insert_id. }
    erewrite M_bind_ok by exact Hget. destruct nb as [store w]. cbv beta iota.
    assert ((get_streamer a store).1 = a) as ->; [|done].
    unfold get_streamer. destruct (str_map_get a (ss_streamers store)) eqn:Hs; [|done].
    by apply Hstr in Hs. }
  by destruct stmt.
Qed.

(** A read is answered by the owner, whichever node receives it. *)
Lemma process_owner query s key a b (c : cluster) na nb text node' :
  rpc_delivers → c !! a = Some na → c !! b = Some nb → streamers_ok nb →
  parse_statement strtold parse_tree query = Ok (SELECT s) →
  partition_key (SELECT s) = Ok (Some key) → key ≠ "" →
  get_address (node_config b) key = Some a →
  execute_local junk (node_config a) (SELECT s) na = (Ok text, node') →
  process_at b query c = (Ok text, <[a := node']> c).
Proof.
  intros Hrpc Hca Hcb Hstr Hp Hk Hne Ha Hex. destruct (decide (a = b)) as [->|Hab].
  - simplify_eq. unfold execute_local, mbind at 1, M_bind in Hex.
    destruct (execute_statement junk (node_config b) (SELECT s) na) as [o nb'] eqn:He.
    rewrite (process_here query (SELECT s) b c na o nb'); try done; [| |by destruct o].
    { destruct o as [r| |]; [|done..]. unfold lift in Hex. injection Hex as Hs <-. cbn. by rewrite Hs. }
    intros _. exists key. split; [done|]. unfold is_local. rewrite Ha. apply String.eqb_refl.
  - rewrite (process_remote query (SELECT s) key a b c nb) by done.
    assert (the_node a c = na) as Hna by (unfold the_node; by rewrite Hca).
    assert (rpc a query c = (Ok (inr text), <[a := node']> c)) as Hcall.
    { apply Hrpc. unfold at_node, zoom, StreamerServer_execute, lift. rewrite Hna, Hp.
      erewrite M_bind_ok by reflexivity. by rewrite Hex. }
    unfold StreamerClient_execute. by erewrite M_bind_ok by exact Hcall.
Qed.

(** A call that fails: the caller logs its status, and goes on with a text. *)
Lemma process_unreached query stmt key a b (c : cluster) nb code message c' :
  c !! b = Some nb → streamers_ok nb → parse_statement strtold parse_tree query = Ok stmt → keyed stmt →
  partition_key stmt = Ok (Some key) → key ≠ "" → get_address (node_config b) key = Some a → a ≠ b →
  rpc a query c = (Ok (inl (code, message)), c') →
  ∃ nb', process_at b query c = (Ok "Error", <[b := nb']> c').
Proof.
  intros Hcb Hstr Hp Hst Hk Hne Ha Hab Hcall. rewrite (process_remote query stmt key a b c nb) by done.
  unfold StreamerClient_execute. erewrite M_bind_ok by exact Hcall. cbv beta iota.
  eexists. by erewrite M_bind_ok by reflexivity.
Qed.

(** A statement with a local key runs on the node that receives it. *)
Lemma process_local query stmt key b (c : cluster) :
  parse_statement strtold parse_tree query = Ok stmt → keyed stmt →
  partition_key stmt = Ok (Some key) → is_local (node_config b) key = true →
  process_at b query c = here (the_node b) (set_node b) (execute_local junk (node_config b) stmt) c.
Proof.
  intros Hp Hst Hk Hloc. unfold process_at, process, lift. rewrite Hp. erewrite M_bind_ok by reflexivity.
  assert (execute_singlenode junk (node_config b) (the_node b) (set_node b) rpc query stmt c =
    here (the_node b) (set_node b) (execute_local junk (node_config b) stmt) c) as Hs.
  { unfold execute_singlenode, lift. rewrite Hk. erewrite M_bind_ok by reflexivity. cbv beta iota. by rewrite Hloc. }
  by destruct stmt.
Qed.

(** C36 (functional): every key has one home, and statements go there.  The token
    of a key is 50 for an odd number and 150 otherwise; the key belongs to the
    address of the first of the ranges its token is in, which is the only such
    address, the one every node computes, and the only one the key is local to: a
    statement with the key runs on that node when it arrives there, and every other
    node sends it to that node.  A key in no range is local everywhere, and its
    statements run on whatever node they arrive at. *)
Theorem routing_unique (key query : string) (stmt : Statement) :
  parse_statement strtold parse_tree query = Ok stmt → keyed stmt →
  partition_key stmt = Ok (Some key) → key ≠ "" →
  (∃ owner, owned ranges key owner ∧ (∀ owner', owned ranges key owner' → owner' = owner) ∧
    ∀ b, get_address (node_config b) key = Some owner ∧
      (is_local (node_config b) key = true ↔ b = owner) ∧
      ∀ (c : cluster) nb, c !! b = Some nb → streamers_ok nb →
        process_at b query c =
          if decide (b = owner) then here (the_node b) (set_node b) (execute_local junk (node_config b) stmt) c
          else StreamerClient_execute (the_node b) (set_node b) rpc owner query c) ∨
  (Forall (λ r, ¬ in_range (key_token key) r) ranges ∧
    ∀ b, get_address (node_config b) key = None ∧ is_local (node_config b) key = true ∧
      ∀ c : cluster, process_at b query c =
        here (the_node b) (set_node b) (execute_local junk (node_config b) stmt) c).
Proof.
  intros Hp Hst Hk Hne. destruct (owned_or_none ranges key) as [(owner & Ho)|Hnone].
  - left. exists owner. split; [done|]. split.
    { intros owner' Ho'. apply (owned_get_address "") in Ho, Ho'. congruence. }
    intros b. pose proof (owned_get_address b _ _ _ Ho) as Ha. split; [done|].
    assert (is_local (node_config b) key = true ↔ b = owner) as Hloc.
    { unfold is_local, node_config. rewrite Ha. cbn [cf_local_address]. rewrite String.eqb_eq. by split. }
    split; [done|]. intros c nb Hc Hstr. destruct (decide (b = owner)) as [Hb|Hb].
    + eapply process_local; try done. by apply Hloc.
    + eapply process_remote; try done; congruence.
  - right. split; [done|]. intros b. pose proof (none_get_address b _ _ Hnone) as Ha. split; [done|].
    assert (is_local (node_config b) key = true) as Hloc by (unfold is_local, node_config; by rewrite Ha).
    split; [done|]. intros c. by eapply process_local.
Qed.

(** C4 (refinement): a read gets the same answer from every node of a cluster.
    When the key of the [SELECT] falls in the range of a node whose database
    represents stores [σ], every node replies with the serialised record that
    the store of the table holds under the key, and only the owner's node
    changes, still representing [σ]. *)
Theorem cluster_select (n : nat) (σ : gmap string (Schema * store)) (a b : string) (c : cluster)
    (na nb : Node) (query : string) (s : SelectStatement) (e : RelationElement)
    (es : list RelationElement) (d : Data) (key : string) (schema : Schema) (st : store)
    (v : option Data) (vs : Record_) (text : string) :
  rpc_delivers → c !! a = Some na → c !! b = Some nb → streamers_ok nb →
  parse_statement strtold parse_tree query = Ok (SELECT s) →
  sl_where_spec s = e :: es → re_operand e = Some d → data_wf d → Data_print d = Ok key → key ≠ "" →
  get_address (node_config b) key = Some a →
  node_represents n σ a na → σ !! fs_table (sl_from_spec s) = Some (schema, st) →
  table_request_ok σ (fs_table (sl_from_spec s)) (Get d) →
  (size (fds na.2) + n + 3 ≤ fd_max)%nat → Z.of_nat n + 1 < 2 ^ 62 →
  store_read st (Some d) = Ok (v :: vs) → serialize (Some (v :: vs)) = Ok text →
  ∃ na', process_at b query c = (Ok text, <[a := na']> c) ∧ node_represents (S n) σ a na'.
Proof.
  intros Hrpc Hca Hcb Hstr Hp Hw He Hwf Hpr Hne Ha Hrep Hσ Hreq Hroom Hcount Hread Hser.
  destruct (select_stored n σ a na s e es d schema st v vs) as (na' & Hex & [Hrep' _ _]); try done.
  exists na'. split; [|done]. rewrite Hser in Hex. eapply process_owner; try done.
  unfold partition_key, SelectStatement_partition_key. rewrite Hw. cbn. by rewrite He; cbn; rewrite Hpr.
Qed.
End cluster.

(** ** Examples *)

Import MemFS.

Definition example_ranges : list Range := [MkRange 0 100 "A"; MkRange 100 200 "B"].

Definition example_select : SelectStatement :=
  MkSelect None None (MkSelectElements true []) (MkFrom "races" "") 
    [MkRelation "id" EQ (Some (IntData 1))] None None None.

Definition missing_select : SelectStatement :=
  MkSelect None None (MkSelectElements true []) (MkFrom "races" "") 
    [MkRelation "id" EQ (Some (IntData 3))] None None None.

(** The trees of two reads, of a creation and of no other text. *)
Definition example_tree (query : string) : option (list CqlContext) :=
  if String.eqb query "SELECT * FROM races WHERE id = 1;" then
    Some [cql_select (MkSelectContext false false true [] ("races", None)
            (Some [MkRelationElementContext ["id"] (Some EQ) (Some (decimalLiteral "1"))])
            None None false)]
  else if String.eqb query "SELECT * FROM races WHERE id = 3;" then
    Some [cql_select (MkSelectContext false false true [] ("races", None)
            (Some [MkRelationElementContext ["id"] (Some EQ) (Some (decimalLiteral "3"))])
            None None false)]
  else if String.eqb query "CREATE TABLE t (id INT);" then
    Some [cql_createTable (MkCreateTableContext false None "t"
            (MkColumnDefinitionList [MkColumnDefinition "id" K_INT false] None))]
  else None.

Definition example_node : StateStore * world fsview :=
  (MkStateStore [("A", "A"); ("B", "B")] [("data/A:database", example_db)], example_db_world).

Definition empty_node : StateStore * world fsview :=
  (MkStateStore [("A", "A"); ("B", "B")] [], example_db_world).

Definition example_cluster : gmap string (StateStore * world fsview) :=
  {["A" := example_node; "B" := empty_node]}.

(** A network without failures. *)
Definition example_rpc : string → string → M (gmap string (StateStore * world fsview)) (Z * string + string) :=
  λ a query, text ← at_node empty_node a
                      (StreamerServer_execute (λ _, x00) (λ _, 0) example_tree
                         (node_config example_ranges a) query);
             mret (inr text).

Lemma void_statements_undefined_witness :
  process (λ _, x00) (λ _, 0) example_tree (MkConfig "A" example_ranges)
    (the_node empty_node "A") (set_node "A") example_rpc "CREATE TABLE t (id INT);" example_cluster
  ≠ (Ok "All nodes have been updated", example_cluster).
Proof.
  apply (void_statements_undefined (λ _, x00) (MkConfig "A" example_ranges) (λ _, 0) example_tree
    (the_node empty_node "A") (set_node "A") example_rpc _
    (CREATE_TABLE (MkCreateTable false "" "t" (MkSchema 0 0 [MkField "id" (MkType INT 4)])))).
  - reflexivity.
  - exact I.
Defined.

(** The key 1 belongs to the first node, and the second sends it there. *)
Lemma routing_unique_witness :
  process_at (λ _, x00) (λ _, 0) example_tree example_ranges empty_node example_rpc "B"
    "SELECT * FROM races WHERE id = 1;" example_cluster =
  StreamerClient_execute (the_node empty_node "B") (set_node "B") example_rpc "A"
    "SELECT * FROM races WHERE id = 1;" example_cluster.
Proof.
  destruct (routing_unique (λ _, x00) (λ _, 0) example_tree example_ranges empty_node example_rpc
    "1" "SELECT * FROM races WHERE id = 1;" (SELECT example_select)) as [(owner & Ho & _ & Hall)|[Hnone _]].
  - reflexivity.
  - exact I.
  - reflexivity.
  - done.
  - destruct (Hall "B") as (Ha & _ & Hrun). vm_compute in Ha. injection Ha as <-.
    refine (eq_trans (Hrun example_cluster empty_node _ _) _); [reflexivity| |reflexivity].
    intros a streamer Hs. cbn [empty_node fst ss_streamers str_map_get] in Hs.
    repeat case_match; simplify_eq; by apply String.eqb_eq.
  - apply Forall_cons_1 in Hnone as [Hr _]. destruct Hr. vm_compute. split; congruence.
Defined.

Lemma cluster_select_witness :
  ∃ na', process_at (λ _, x00) (λ _, 0) example_tree example_ranges empty_node example_rpc "B"
           "SELECT * FROM races WHERE id = 1;" example_cluster =
         (Ok "TdF,0,3|1,5,4|Alice,0,5|", <["A" := na']> example_cluster) ∧
    node_represents 1 example_stores "A" na'.
Proof.
  apply (cluster_select (λ _, x00) (λ _, 0) example_tree example_ranges empty_node example_rpc
    0 example_stores "A" "B" example_cluster example_node empty_node _
    example_select (MkRelation "id" EQ (Some (IntData 1))) [] (IntData 1) "1" example_schema
    (MkStore (Some (Some (IntData 1), row 1 "Alice")) []) (Some (ASCIIData "TdF"))
    [Some (IntData 1); Some (ASCIIData "Alice")]).
  - intros a query c text c' Hrun. unfold example_rpc. by erewrite M_bind_ok by exact Hrun.
  - reflexivity.
  - reflexivity.
  - intros a streamer Hs. cbn [empty_node fst ss_streamers str_map_get] in Hs.
    repeat case_match; simplify_eq; by apply String.eqb_eq.
  - reflexivity.
  - reflexivity.
  - reflexivity.
  - split; vm_compute; done.
  - reflexivity.
  - done.
  - reflexivity.
  - exists example_db. split; [reflexivity|apply example_db_represents].
  - reflexivity.
  - intros schema s t Hs Ht. vm_compute in Hs. simplify_eq. injection Ht as <-.
    split; [split; vm_compute; done|reflexivity].
  - vm_compute. lia.
  - done.
  - reflexivity.
  - reflexivity.
Defined.
