(* ===== verification/SystemTables.v ===== *)
(** * The system tables a driver expects

    What the replies of [api::cql3::Metadata] ([lib/api/cql3/fake_meta.cc]) are
    meant to say, as values: the columns of every system table with their types,
    and the rows, with texts, numbers and collections written as such.  The bytes
    of the program are in [MetaTables.v] and [Metadata.v], which shows that a
    client reads these tables from them. *)

From Stdlib Require Import ZArith Strings.Byte Ascii String.
From stdpp Require Import base list strings.
From S2P Require Import Prelude Buffer OrdMap Data Catalog Text Wire.

Local Open Scope Z_scope.

(** ** Types and values of the protocol *)

Module Tables.

(** The basic types, and collections of them. *)
Definition BLOB : ctype := T_basic 3.
Definition BOOLEAN : ctype := T_basic 4.
Definition DOUBLE : ctype := T_basic 7.
Definition INT : ctype := T_basic 9.
Definition UUID : ctype := T_basic 12.
Definition TEXT : ctype := T_basic 13.
Definition INET : ctype := T_basic 16.

Definition code (t : ctype) : Z := match t with T_basic c => c | _ => 0 end.
Definition LIST (t : ctype) : ctype := T_list (code t).
Definition SET (t : ctype) : ctype := T_set (code t).
Definition MAP (k v : ctype) : ctype := T_map (code k) (code v).

(** A value is null or bytes. *)
Abbreviation value := (option (list byte)).

Definition null : value := None.
Definition txt (s : string) : value := Some (str_bytes s).
Definition int (z : Z) : value := Some (be_bytes 4 z).
Definition boolean (b : bool) : value := Some [if b then x01 else x00].
Definition uuid (z : Z) : value := Some (be_bytes 16 z).
Definition inet (z : Z) : value := Some (be_bytes 4 z).
(** A floating-point number is given by its representation. *)
Definition double (bits : Z) : value := Some (be_bytes 8 bits).
Definition blob (z : Z) (size : nat) : value := Some (be_bytes size z).

(** Collections: their size, and each counted behind its length. *)
Definition counted (v : value) : list byte :=
  let bs := default [] v in be_bytes 4 (zlen bs) ++ bs.
Definition set_of (l : list value) : value := Some (be_bytes 4 (zlen l) ++ concat (counted <$> l)).
Definition map_of (l : list (value * value)) : value :=
  Some (be_bytes 4 (zlen l) ++ concat ((λ kv, counted kv.1 ++ counted kv.2) <$> l)).
Definition text_map (l : list (string * string)) : value := map_of (prod_map txt txt <$> l).

(** ** The tables of rows *)

(** The tokens of the node. *)
Definition local_tokens : list string := [
  "-1444389133837661072"; "-2535686244529873332"; "-3631728144764811621"; "-5410362445588398750";
  "-600012486346499316"; "-6388507898104512825"; "-8007531193801556123"; "1911756359896116735";
  "2929607764638543750"; "3747279697250894545"; "4823035578476474084"; "5558951271187367725";
  "6638324078634969383"; "7881844084315561355"; "840255743556083922"; "8849208327394096854"].

Definition truncated : list (value * value) := [
  (uuid 0x176c39cdb93d33a5a2188eb06a56f66e, blob 0x0000017dfb6ac9e50000001c0000017dfb6ade90 20);
  (uuid 0x618f817b005f3678b8a453f3930b8e86, blob 0x0000017dfb6ac9e50000001c0000017dfb6adba5 20)].

(** The node itself. *)
Definition system_local : Rows := MkRows "system" "local"
  [("key", TEXT); ("bootstrapped", TEXT); ("broadcast_address", INET); ("broadcast_port", INT);
   ("cluster_name", TEXT); ("cql_version", TEXT); ("data_center", TEXT); ("gossip_generation", INT);
   ("host_id", UUID); ("listen_address", INET); ("listen_port", INT); ("native_protocol_version", TEXT);
   ("partitioner", TEXT); ("rack", TEXT); ("release_version", TEXT); ("rpc_address", INET); ("rpc_port", INT);
   ("schema_version", UUID); ("tokens", SET TEXT); ("truncated_at", MAP UUID BLOB)]
  [[txt "local"; txt "COMPLETED"; inet 0x7f000001; int 7000; txt "Test Cluster"; txt "3.4.5";
    txt "datacenter1"; int 1640600626; uuid 0xfb3f131436c344a38a4d66cfd76bd0d1; inet 0x7f000001; int 7000;
    txt "5"; txt "org.apache.cassandra.dht.Murmur3Partitioner"; txt "rack1"; txt "4.0.1"; inet 0x7f000001;
    int 9042; uuid 0x2207c2a9f5983971986b2926e09e239d; set_of (txt <$> local_tokens); map_of truncated]].

(** The keyspaces and their replication. *)
Definition schema_keyspaces : Rows := MkRows "system_schema" "keyspaces"
  [("keyspace_name", TEXT); ("durable_writes", BOOLEAN); ("replication", MAP TEXT TEXT)]
  [[txt "system_auth"; boolean true; text_map [("class", "org.apache.cassandra.locator.SimpleStrategy"); ("replication_factor", "1")]];
   [txt "system_schema"; boolean true; text_map [("class", "org.apache.cassandra.locator.LocalStrategy")]];
   [txt "system_distributed"; boolean true; text_map [("class", "org.apache.cassandra.locator.SimpleStrategy"); ("replication_factor", "3")]];
   [txt "system"; boolean true; text_map [("class", "org.apache.cassandra.locator.LocalStrategy")]];
   [txt "system_traces"; boolean true; text_map [("class", "org.apache.cassandra.locator.SimpleStrategy"); ("replication_factor", "2")]]].

(** The compaction of a table, and the row of one: what all of them share is
    written once. *)
Definition size_tiered (min_threshold : string) : value := text_map
  [("class", "org.apache.cassandra.db.compaction.SizeTieredCompactionStrategy"); ("max_threshold", "32");
   ("min_threshold", min_threshold)].
Definition time_window : value := text_map
  [("class", "org.apache.cassandra.db.compaction.TimeWindowCompactionStrategy");
   ("compaction_window_size", "1"); ("compaction_window_unit", "DAYS"); ("max_threshold", "32");
   ("min_threshold", "4")].
Definition leveled : value := text_map
  [("class", "org.apache.cassandra.db.compaction.LeveledCompactionStrategy"); ("max_threshold", "32");
   ("min_threshold", "4")].

Definition table_row (keyspace table comment : string) (compaction : value) (time_to_live gc_grace id flush_period : Z) :
    list value :=
  [txt keyspace; txt table; txt "99p"; double 0x3f847ae147ae147b;
   text_map [("keys", "ALL"); ("rows_per_partition", "NONE")]; null; txt comment; compaction;
   text_map [("chunk_length_in_kb", "16"); ("class", "org.apache.cassandra.io.compress.LZ4Compressor")];
   double 0x3ff0000000000000; double 0; int time_to_live; text_map []; set_of [txt "compound"]; int gc_grace; uuid id;
   int 2048; int flush_period; int 128; txt "BLOCKING"; double 0; txt "99p"].

(** The tables of the keyspaces. *)
Definition schema_tables : Rows := MkRows "system_schema" "tables"
  [("keyspace_name", TEXT); ("table_name", TEXT); ("additional_write_policy", TEXT);
   ("bloom_filter_fp_chance", DOUBLE); ("caching", MAP TEXT TEXT); ("cdc", BOOLEAN); ("comment", TEXT);
   ("compaction", MAP TEXT TEXT); ("compression", MAP TEXT TEXT); ("crc_check_chance", DOUBLE);
   ("dclocal_read_repair_chance", DOUBLE); ("default_time_to_live", INT); ("extensions", MAP TEXT BLOB);
   ("flags", SET TEXT); ("gc_grace_seconds", INT); ("id", UUID); ("max_index_interval", INT);
   ("memtable_flush_period_in_ms", INT); ("min_index_interval", INT); ("read_repair", TEXT);
   ("read_repair_chance", DOUBLE); ("speculative_retry", TEXT)]
  [table_row "system_auth" "network_permissions" "user network permissions" (size_tiered "4") 0 7776000 0xd46780c22f1c3db9b4c1b8d9fbc0cc23 0;
   table_row "system_auth" "resource_role_permissons_index" "index of db roles with permissions granted on a resource" (size_tiered "4") 0 7776000 0x5f2fbdad91f13946bd25d5da3a5c35ec 0;
   table_row "system_auth" "role_members" "role memberships lookup table" (size_tiered "4") 0 7776000 0x0ecdaa87f8fb3e6088d174fb36fe5c0d 0;
   table_row "system_auth" "role_permissions" "permissions granted to db roles" (size_tiered "4") 0 7776000 0x3afbe79f219431a7add7f5ab90d8ec9c 0;
   table_row "system_auth" "roles" "role definitions" (size_tiered "4") 0 7776000 0x5bc52802de2535edaeab188eecebb090 0;
   table_row "system_schema" "aggregates" "user defined aggregate definitions" (size_tiered "4") 0 604800 0x924c55872e3a345bb10c12f37c1ba895 3600000;
   table_row "system_schema" "columns" "column definitions" (size_tiered "4") 0 604800 0x24101c25a2ae3af787c1b40ee1aca33f 3600000;
   table_row "system_schema" "dropped_columns" "dropped column registry" (size_tiered "4") 0 604800 0x5e7583b5f3f43af19a39b7e1d6f5f11f 3600000;
   table_row "system_schema" "functions" "user defined function definitions" (size_tiered "4") 0 604800 0x96489b7980be3e14a70166a0b9159450 3600000;
   table_row "system_schema" "indexes" "secondary index definitions" (size_tiered "4") 0 604800 0x0feb57ac311f382fba6d9024d305702f 3600000;
   table_row "system_schema" "keyspaces" "keyspace definitions" (size_tiered "4") 0 604800 0xabac5682dea631c5b535b3d6cffd0fb6 3600000;
   table_row "system_schema" "tables" "table definitions" (size_tiered "4") 0 604800 0xafddfb9dbc1e30688056eed6c302ba09 3600000;
   table_row "system_schema" "triggers" "trigger definitions" (size_tiered "4") 0 604800 0x4df70b666b05325195a132b54005fd48 3600000;
   table_row "system_schema" "types" "user defined type definitions" (size_tiered "4") 0 604800 0x5a8b1ca866023f77a0459273d308917a 3600000;
   table_row "system_schema" "views" "view definitions" (size_tiered "4") 0 604800 0x9786ac1cdd583201a7cdad556410c985 3600000;
   table_row "system_distributed" "parent_repair_history" "Repair history" time_window 2592000 864000 0xdeabd734b99d3b9c92e5fd92eb5abf14 0;
   table_row "system_distributed" "repair_history" "Repair history" time_window 2592000 864000 0x759fffad624b318180eefa9a52d1f627 0;
   table_row "system_distributed" "view_build_status" "Materialized View build status" (size_tiered "4") 0 864000 0x5582b59f8e4e35e1b9133acada51eb04 0;
   table_row "system" "IndexInfo" "built column indexes" (size_tiered "4") 0 0 0x9f5c6374d48532299a0a5094af9ad1e3 3600000;
   table_row "system" "available_ranges" "available keyspace/ranges during bootstrap/replace that are ready to be served" (size_tiered "4") 0 0 0xc539fcabd65a31d18133d25605643ee3 3600000;
   table_row "system" "available_ranges_v2" "available keyspace/ranges during bootstrap/replace that are ready to be served" (size_tiered "4") 0 0 0x4224a0882ac93d0c889dfbb5f0facda0 3600000;
   table_row "system" "batches" "batches awaiting replay" (size_tiered "2") 0 0 0x919a4bc57a333573b03e13fc3f68b465 3600000;
   table_row "system" "built_views" "built views" (size_tiered "4") 0 0 0x4b3c50a9ea873d7691016dbc9c38494a 3600000;
   table_row "system" "compaction_history" "week-long compaction history" (size_tiered "4") 604800 0 0xb4dbb7b4dc493fb5b3bfce6e434832ca 3600000;
   table_row "system" "local" "information about the local node" (size_tiered "4") 0 0 0x7ad54392bcdd35a684174e047860b377 3600000;
   table_row "system" "paxos" "in-progress paxos proposals" leveled 0 0 0xb7b7f0c2fd0a34108c053ef614bb7c2d 3600000;
   table_row "system" "peer_events" "events related to peers" (size_tiered "4") 0 0 0x59dfeaea8db2334191ef109974d81484 3600000;
   table_row "system" "peer_events_v2" "events related to peers" (size_tiered "4") 0 0 0x0e65065fe40138ed9507b9213fae8d11 3600000;
   table_row "system" "peers" "information about known peers in the cluster" (size_tiered "4") 0 0 0x37f71aca7dc2383ba70672528af04d4f 3600000;
   table_row "system" "peers_v2" "information about known peers in the cluster" (size_tiered "4") 0 0 0xc4325fbb8e5e3bafbd070f9250ed818e 3600000;
   table_row "system" "prepared_statements" "prepared statements" (size_tiered "4") 0 0 0x18a9c2576a0c3841ba718cd529849fef 3600000;
   table_row "system" "repairs" "repairs" (size_tiered "4") 0 0 0xa3d277d1cfaf36f5a2a738d5eea9ad6a 3600000;
   table_row "system" "size_estimates" "per-table primary range size estimates, table is deprecated in favor of table_estimates" (size_tiered "4") 0 0 0x618f817b005f3678b8a453f3930b8e86 3600000;
   table_row "system" "sstable_activity" "historic sstable read rates" (size_tiered "4") 0 0 0x5a1ff267ace03f128563cfae6103c65e 3600000;
   table_row "system" "table_estimates" "per-table range size estimates" (size_tiered "4") 0 0 0x176c39cdb93d33a5a2188eb06a56f66e 3600000;
   table_row "system" "transferred_ranges" "record of transferred ranges for streaming operation" (size_tiered "4") 0 0 0x6cad20f7d4f53af2b6e20da33c6c1f83 3600000;
   table_row "system" "transferred_ranges_v2" "record of transferred ranges for streaming operation" (size_tiered "4") 0 0 0x1ff78f1a7df13a2aa9986f4932270af5 3600000;
   table_row "system" "view_builds_in_progress" "views builds current progress" (size_tiered "4") 0 0 0x6c22df66c3bd3df6b74d21179c6a9fe9 3600000;
   table_row "system_traces" "events" "tracing events" (size_tiered "4") 0 0 0x8826e8e9e16a372887533bc1fc713c25 0;
   table_row "system_traces" "sessions" "tracing sessions" (size_tiered "4") 0 0 0xc5e99f1686773914b17e960613512345 0].

(** The columns of a table: its name, and for each column its name, order, kind,
    position and type. *)
Record described := Described {
  dc_name : string; dc_order : string; dc_kind : string; dc_position : Z; dc_type : string
}.
Definition key (name : string) (position : Z) (type : string) : described :=
  Described name "none" "partition_key" position type.
Definition clustering (name : string) (position : Z) (type : string) : described :=
  Described name "asc" "clustering" position type.
Definition regular (name type : string) : described := Described name "none" "regular" (-1) type.

Definition column_row (keyspace table : string) (c : described) : list value :=
  [txt keyspace; txt table; txt (dc_name c); txt (dc_order c); txt (dc_name c); txt (dc_kind c);
   int (dc_position c); txt (dc_type c)].
Definition column_rows (tables : list (string * string * list described)) : list (list value) :=
  concat (map (λ '(keyspace, table, columns), map (column_row keyspace table) columns) tables).

(** What the tables of the keyspaces consist of. *)
Definition catalog : list (string * string * list described) := [
  ("system_auth", "network_permissions",
    [regular "dcs" "frozen<set<text>>"; key "role" 0 "text"]);
  ("system_auth", "resource_role_permissons_index",
    [key "resource" 0 "text"; clustering "role" 0 "text"]);
  ("system_auth", "role_members",
    [clustering "member" 0 "text"; key "role" 0 "text"]);
  ("system_auth", "role_permissions",
    [regular "permissions" "set<text>"; clustering "resource" 0 "text"; key "role" 0 "text"]);
  ("system_auth", "roles",
    [regular "can_login" "boolean"; regular "is_superuser" "boolean"; regular "member_of" "set<text>";
     key "role" 0 "text"; regular "salted_hash" "text"]);
  ("system_schema", "aggregates",
    [clustering "aggregate_name" 0 "text"; clustering "argument_types" 1 "frozen<list<text>>";
     regular "final_func" "text"; regular "initcond" "text"; key "keyspace_name" 0 "text";
     regular "return_type" "text"; regular "state_func" "text"; regular "state_type" "text"]);
  ("system_schema", "columns",
    [regular "clustering_order" "text"; clustering "column_name" 1 "text"; regular "column_name_bytes" "blob";
     key "keyspace_name" 0 "text"; regular "kind" "text"; regular "position" "int";
     clustering "table_name" 0 "text"; regular "type" "text"]);
  ("system_schema", "dropped_columns",
    [clustering "column_name" 1 "text"; regular "dropped_time" "timestamp"; key "keyspace_name" 0 "text";
     regular "kind" "text"; clustering "table_name" 0 "text"; regular "type" "text"]);
  ("system_schema", "functions",
    [regular "argument_names" "frozen<list<text>>"; clustering "argument_types" 1 "frozen<list<text>>";
     regular "body" "text"; regular "called_on_null_input" "boolean"; clustering "function_name" 0 "text";
     key "keyspace_name" 0 "text"; regular "language" "text"; regular "return_type" "text"]);
  ("system_schema", "indexes",
    [clustering "index_name" 1 "text"; key "keyspace_name" 0 "text"; regular "kind" "text";
     regular "options" "frozen<map<text, text>>"; clustering "table_name" 0 "text"]);
  ("system_schema", "keyspaces",
    [regular "durable_writes" "boolean"; key "keyspace_name" 0 "text";
     regular "replication" "frozen<map<text, text>>"]);
  ("system_schema", "tables",
    [regular "additional_write_policy" "text"; regular "bloom_filter_fp_chance" "double";
     regular "caching" "frozen<map<text, text>>"; regular "cdc" "boolean"; regular "comment" "text";
     regular "compaction" "frozen<map<text, text>>"; regular "compression" "frozen<map<text, text>>";
     regular "crc_check_chance" "double"; regular "dclocal_read_repair_chance" "double";
     regular "default_time_to_live" "int"; regular "extensions" "frozen<map<text, blob>>";
     regular "flags" "frozen<set<text>>"; regular "gc_grace_seconds" "int"; regular "id" "uuid";
     key "keyspace_name" 0 "text"; regular "max_index_interval" "int";
     regular "memtable_flush_period_in_ms" "int"; regular "min_index_interval" "int";
     regular "read_repair" "text"; regular "read_repair_chance" "double"; regular "speculative_retry" "text";
     clustering "table_name" 0 "text"]);
  ("system_schema", "triggers",
    [key "keyspace_name" 0 "text"; regular "options" "frozen<map<text, text>>";
     clustering "table_name" 0 "text"; clustering "trigger_name" 1 "text"]);
  ("system_schema", "types",
    [regular "field_names" "frozen<list<text>>"; regular "field_types" "frozen<list<text>>";
     key "keyspace_name" 0 "text"; clustering "type_name" 0 "text"]);
  ("system_schema", "views",
    [regular "additional_write_policy" "text"; regular "base_table_id" "uuid";
     regular "base_table_name" "text"; regular "bloom_filter_fp_chance" "double";
     regular "caching" "frozen<map<text, text>>"; regular "cdc" "boolean"; regular "comment" "text";
     regular "compaction" "frozen<map<text, text>>"; regular "compression" "frozen<map<text, text>>";
     regular "crc_check_chance" "double"; regular "dclocal_read_repair_chance" "double";
     regular "default_time_to_live" "int"; regular "extensions" "frozen<map<text, blob>>";
     regular "gc_grace_seconds" "int"; regular "id" "uuid"; regular "include_all_columns" "boolean";
     key "keyspace_name" 0 "text"; regular "max_index_interval" "int";
     regular "memtable_flush_period_in_ms" "int"; regular "min_index_interval" "int";
     regular "read_repair" "text"; regular "read_repair_chance" "double"; regular "speculative_retry" "text";
     clustering "view_name" 0 "text"; regular "where_clause" "text"]);
  ("system_distributed", "parent_repair_history",
    [regular "columnfamily_names" "set<text>"; regular "exception_message" "text";
     regular "exception_stacktrace" "text"; regular "finished_at" "timestamp"; regular "keyspace_name" "text";
     regular "options" "map<text, text>"; key "parent_id" 0 "timeuuid";
     regular "requested_ranges" "set<text>"; regular "started_at" "timestamp";
     regular "successful_ranges" "set<text>"]);
  ("system_distributed", "repair_history",
    [key "columnfamily_name" 1 "text"; regular "coordinator" "inet"; regular "coordinator_port" "int";
     regular "exception_message" "text"; regular "exception_stacktrace" "text";
     regular "finished_at" "timestamp"; clustering "id" 0 "timeuuid"; key "keyspace_name" 0 "text";
     regular "parent_id" "timeuuid"; regular "participants" "set<inet>";
     regular "participants_v2" "set<text>"; regular "range_begin" "text"; regular "range_end" "text";
     regular "started_at" "timestamp"; regular "status" "text"]);
  ("system_distributed", "view_build_status",
    [clustering "host_id" 0 "uuid"; key "keyspace_name" 0 "text"; regular "status" "text";
     key "view_name" 1 "text"]);
  ("system", "IndexInfo",
    [clustering "index_name" 0 "text"; key "table_name" 0 "text"; regular "value" "blob"]);
  ("system", "available_ranges",
    [key "keyspace_name" 0 "text"; regular "ranges" "set<blob>"]);
  ("system", "available_ranges_v2",
    [regular "full_ranges" "set<blob>"; key "keyspace_name" 0 "text"; regular "transient_ranges" "set<blob>"]);
  ("system", "batches",
    [key "id" 0 "timeuuid"; regular "mutations" "list<blob>"; regular "version" "int"]);
  ("system", "built_views",
    [key "keyspace_name" 0 "text"; regular "status_replicated" "boolean"; clustering "view_name" 0 "text"]);
  ("system", "compaction_history",
    [regular "bytes_in" "bigint"; regular "bytes_out" "bigint"; regular "columnfamily_name" "text";
     regular "compacted_at" "timestamp"; key "id" 0 "uuid"; regular "keyspace_name" "text";
     regular "rows_merged" "map<int, bigint>"]);
  ("system", "local",
    [regular "bootstrapped" "text"; regular "broadcast_address" "inet"; regular "broadcast_port" "int";
     regular "cluster_name" "text"; regular "cql_version" "text"; regular "data_center" "text";
     regular "gossip_generation" "int"; regular "host_id" "uuid"; key "key" 0 "text";
     regular "listen_address" "inet"; regular "listen_port" "int"; regular "native_protocol_version" "text";
     regular "partitioner" "text"; regular "rack" "text"; regular "release_version" "text";
     regular "rpc_address" "inet"; regular "rpc_port" "int"; regular "schema_version" "uuid";
     regular "tokens" "set<text>"; regular "truncated_at" "map<uuid, blob>"]);
  ("system", "paxos",
    [clustering "cf_id" 0 "uuid"; regular "in_progress_ballot" "timeuuid";
     regular "most_recent_commit" "blob"; regular "most_recent_commit_at" "timeuuid";
     regular "most_recent_commit_version" "int"; regular "proposal" "blob";
     regular "proposal_ballot" "timeuuid"; regular "proposal_version" "int"; key "row_key" 0 "blob"]);
  ("system", "peer_events",
    [regular "hints_dropped" "map<uuid, int>"; key "peer" 0 "inet"]);
  ("system", "peer_events_v2",
    [regular "hints_dropped" "map<uuid, int>"; key "peer" 0 "inet"; clustering "peer_port" 0 "int"]);
  ("system", "peers",
    [regular "data_center" "text"; regular "host_id" "uuid"; key "peer" 0 "inet";
     regular "preferred_ip" "inet"; regular "rack" "text"; regular "release_version" "text";
     regular "rpc_address" "inet"; regular "schema_version" "uuid"; regular "tokens" "set<text>"]);
  ("system", "peers_v2",
    [regular "data_center" "text"; regular "host_id" "uuid"; regular "native_address" "inet";
     regular "native_port" "int"; key "peer" 0 "inet"; clustering "peer_port" 0 "int";
     regular "preferred_ip" "inet"; regular "preferred_port" "int"; regular "rack" "text";
     regular "release_version" "text"; regular "schema_version" "uuid"; regular "tokens" "set<text>"]);
  ("system", "prepared_statements",
    [regular "logged_keyspace" "text"; key "prepared_id" 0 "blob"; regular "query_string" "text"]);
  ("system", "repairs",
    [regular "cfids" "set<uuid>"; regular "coordinator" "inet"; regular "coordinator_port" "int";
     regular "last_update" "timestamp"; key "parent_id" 0 "timeuuid"; regular "participants" "set<inet>";
     regular "participants_wp" "set<text>"; regular "ranges" "set<blob>"; regular "repaired_at" "timestamp";
     regular "started_at" "timestamp"; regular "state" "int"]);
  ("system", "size_estimates",
    [key "keyspace_name" 0 "text"; regular "mean_partition_size" "bigint";
     regular "partitions_count" "bigint"; clustering "range_end" 2 "text"; clustering "range_start" 1 "text";
     clustering "table_name" 0 "text"]);
  ("system", "sstable_activity",
    [key "columnfamily_name" 1 "text"; key "generation" 2 "int"; key "keyspace_name" 0 "text";
     regular "rate_120m" "double"; regular "rate_15m" "double"]);
  ("system", "table_estimates",
    [key "keyspace_name" 0 "text"; regular "mean_partition_size" "bigint";
     regular "partitions_count" "bigint"; clustering "range_end" 3 "text"; clustering "range_start" 2 "text";
     clustering "range_type" 1 "text"; clustering "table_name" 0 "text"]);
  ("system", "transferred_ranges",
    [key "keyspace_name" 1 "text"; key "operation" 0 "text"; clustering "peer" 0 "inet";
     regular "ranges" "set<blob>"]);
  ("system", "transferred_ranges_v2",
    [key "keyspace_name" 1 "text"; key "operation" 0 "text"; clustering "peer" 0 "inet";
     clustering "peer_port" 1 "int"; regular "ranges" "set<blob>"]);
  ("system", "view_builds_in_progress",
    [clustering "end_token" 2 "text"; regular "keys_built" "bigint"; key "keyspace_name" 0 "text";
     regular "last_token" "text"; clustering "start_token" 1 "text"; clustering "view_name" 0 "text"]);
  ("system_traces", "events",
    [regular "activity" "text"; clustering "event_id" 0 "timeuuid"; key "session_id" 0 "uuid";
     regular "source" "inet"; regular "source_elapsed" "int"; regular "source_port" "int";
     regular "thread" "text"]);
  ("system_traces", "sessions",
    [regular "client" "inet"; regular "command" "text"; regular "coordinator" "inet";
     regular "coordinator_port" "int"; regular "duration" "int"; regular "parameters" "map<text, text>";
     regular "request" "text"; key "session_id" 0 "uuid"; regular "started_at" "timestamp"])].

(** The columns of the tables. *)
Definition schema_columns : Rows := MkRows "system_schema" "columns"
  [("keyspace_name", TEXT); ("table_name", TEXT); ("column_name", TEXT); ("clustering_order", TEXT);
   ("column_name_bytes", BLOB); ("kind", TEXT); ("position", INT); ("type", TEXT)]
  (column_rows catalog).

(** The virtual tables. *)
Definition virtual_tables : Rows := MkRows "system_virtual_schema" "tables"
  [("keyspace_name", TEXT); ("table_name", TEXT); ("comment", TEXT)]
  [[txt "system_views"; txt "caches"; txt "system caches"];
   [txt "system_views"; txt "clients"; txt "currently connected clients"];
   [txt "system_views"; txt "coordinator_read_latency"; txt ""];
   [txt "system_views"; txt "coordinator_scan_latency"; txt ""];
   [txt "system_views"; txt "coordinator_write_latency"; txt ""];
   [txt "system_views"; txt "disk_usage"; txt ""];
   [txt "system_views"; txt "internode_inbound"; txt ""];
   [txt "system_views"; txt "internode_outbound"; txt ""];
   [txt "system_views"; txt "local_read_latency"; txt ""];
   [txt "system_views"; txt "local_scan_latency"; txt ""];
   [txt "system_views"; txt "local_write_latency"; txt ""];
   [txt "system_views"; txt "max_partition_size"; txt ""];
   [txt "system_views"; txt "rows_per_read"; txt ""];
   [txt "system_views"; txt "settings"; txt "current settings"];
   [txt "system_views"; txt "sstable_tasks"; txt "current sstable tasks"];
   [txt "system_views"; txt "system_properties"; txt "Cassandra relevant system properties"];
   [txt "system_views"; txt "thread_pools"; txt ""];
   [txt "system_views"; txt "tombstones_per_read"; txt ""];
   [txt "system_virtual_schema"; txt "columns"; txt "virtual column definitions"];
   [txt "system_virtual_schema"; txt "keyspaces"; txt "virtual keyspace definitions"];
   [txt "system_virtual_schema"; txt "tables"; txt "virtual table definitions"]].

(** What the virtual tables consist of. *)
Definition virtual_catalog : list (string * string * list described) := [
  ("system_views", "caches",
    [regular "capacity_bytes" "bigint"; regular "entry_count" "int"; regular "hit_count" "bigint";
     regular "hit_ratio" "double"; key "name" 0 "text"; regular "recent_hit_rate_per_second" "bigint";
     regular "recent_request_rate_per_second" "bigint"; regular "request_count" "bigint";
     regular "size_bytes" "bigint"]);
  ("system_views", "clients",
    [key "address" 0 "inet"; regular "connection_stage" "text"; regular "driver_name" "text";
     regular "driver_version" "text"; regular "hostname" "text"; clustering "port" 0 "int";
     regular "protocol_version" "int"; regular "request_count" "bigint"; regular "ssl_cipher_suite" "text";
     regular "ssl_enabled" "boolean"; regular "ssl_protocol" "text"; regular "username" "text"]);
  ("system_views", "coordinator_read_latency",
    [regular "count" "bigint"; key "keyspace_name" 0 "text"; regular "max_ms" "double";
     regular "p50th_ms" "double"; regular "p99th_ms" "double"; regular "per_second" "double";
     key "table_name" 1 "text"]);
  ("system_views", "coordinator_scan_latency",
    [regular "count" "bigint"; key "keyspace_name" 0 "text"; regular "max_ms" "double";
     regular "p50th_ms" "double"; regular "p99th_ms" "double"; regular "per_second" "double";
     key "table_name" 1 "text"]);
  ("system_views", "coordinator_write_latency",
    [regular "count" "bigint"; key "keyspace_name" 0 "text"; regular "max_ms" "double";
     regular "p50th_ms" "double"; regular "p99th_ms" "double"; regular "per_second" "double";
     key "table_name" 1 "text"]);
  ("system_views", "disk_usage",
    [key "keyspace_name" 0 "text"; regular "mebibytes" "bigint"; key "table_name" 1 "text"]);
  ("system_views", "internode_inbound",
    [key "address" 0 "inet"; regular "corrupt_frames_recovered" "bigint";
     regular "corrupt_frames_unrecovered" "bigint"; clustering "dc" 0 "text"; regular "error_bytes" "bigint";
     regular "error_count" "bigint"; regular "expired_bytes" "bigint"; regular "expired_count" "bigint";
     key "port" 1 "int"; regular "processed_bytes" "bigint"; regular "processed_count" "bigint";
     clustering "rack" 1 "text"; regular "received_bytes" "bigint"; regular "received_count" "bigint";
     regular "scheduled_bytes" "bigint"; regular "scheduled_count" "bigint";
     regular "throttled_count" "bigint"; regular "throttled_nanos" "bigint"; regular "using_bytes" "bigint";
     regular "using_reserve_bytes" "bigint"]);
  ("system_views", "internode_outbound",
    [regular "active_connections" "bigint"; key "address" 0 "inet"; regular "connection_attempts" "bigint";
     clustering "dc" 0 "text"; regular "error_bytes" "bigint"; regular "error_count" "bigint";
     regular "expired_bytes" "bigint"; regular "expired_count" "bigint"; regular "overload_bytes" "bigint";
     regular "overload_count" "bigint"; regular "pending_bytes" "bigint"; regular "pending_count" "bigint";
     key "port" 1 "int"; clustering "rack" 1 "text"; regular "sent_bytes" "bigint";
     regular "sent_count" "bigint"; regular "successful_connection_attempts" "bigint";
     regular "using_bytes" "bigint"; regular "using_reserve_bytes" "bigint"]);
  ("system_views", "local_read_latency",
    [regular "count" "bigint"; key "keyspace_name" 0 "text"; regular "max_ms" "double";
     regular "p50th_ms" "double"; regular "p99th_ms" "double"; regular "per_second" "double";
     key "table_name" 1 "text"]);
  ("system_views", "local_scan_latency",
    [regular "count" "bigint"; key "keyspace_name" 0 "text"; regular "max_ms" "double";
     regular "p50th_ms" "double"; regular "p99th_ms" "double"; regular "per_second" "double";
     key "table_name" 1 "text"]);
  ("system_views", "local_write_latency",
    [regular "count" "bigint"; key "keyspace_name" 0 "text"; regular "max_ms" "double";
     regular "p50th_ms" "double"; regular "p99th_ms" "double"; regular "per_second" "double";
     key "table_name" 1 "text"]);
  ("system_views", "max_partition_size",
    [key "keyspace_name" 0 "text"; regular "mebibytes" "bigint"; key "table_name" 1 "text"]);
  ("system_views", "rows_per_read",
    [regular "count" "bigint"; key "keyspace_name" 0 "text"; regular "max" "double"; regular "p50th" "double";
     regular "p99th" "double"; key "table_name" 1 "text"]);
  ("system_views", "settings",
    [key "name" 0 "text"; regular "value" "text"]);
  ("system_views", "sstable_tasks",
    [regular "completion_ratio" "double"; key "keyspace_name" 0 "text"; regular "kind" "text";
     regular "progress" "bigint"; clustering "table_name" 0 "text"; clustering "task_id" 1 "uuid";
     regular "total" "bigint"; regular "unit" "text"]);
  ("system_views", "system_properties",
    [key "name" 0 "text"; regular "value" "text"]);
  ("system_views", "thread_pools",
    [regular "active_tasks" "int"; regular "active_tasks_limit" "int"; regular "blocked_tasks" "bigint";
     regular "blocked_tasks_all_time" "bigint"; regular "completed_tasks" "bigint"; key "name" 0 "text";
     regular "pending_tasks" "int"]);
  ("system_views", "tombstones_per_read",
    [regular "count" "bigint"; key "keyspace_name" 0 "text"; regular "max" "double"; regular "p50th" "double";
     regular "p99th" "double"; key "table_name" 1 "text"]);
  ("system_virtual_schema", "columns",
    [regular "clustering_order" "text"; clustering "column_name" 1 "text"; regular "column_name_bytes" "blob";
     key "keyspace_name" 0 "text"; regular "kind" "text"; regular "position" "int";
     clustering "table_name" 0 "text"; regular "type" "text"]);
  ("system_virtual_schema", "keyspaces",
    [key "keyspace_name" 0 "text"]);
  ("system_virtual_schema", "tables",
    [regular "comment" "text"; key "keyspace_name" 0 "text"; clustering "table_name" 0 "text"])].

(** The columns of the virtual tables. *)
Definition virtual_columns : Rows := MkRows "system_virtual_schema" "columns"
  [("keyspace_name", TEXT); ("table_name", TEXT); ("column_name", TEXT); ("clustering_order", TEXT);
   ("column_name_bytes", BLOB); ("kind", TEXT); ("position", INT); ("type", TEXT)]
  (column_rows virtual_catalog).

(** ** The tables without rows, and the virtual keyspaces *)

(** The other nodes: none. *)
Definition system_peers : Rows := MkRows "system" "peers_v2"
  [("peer", INET); ("peer_port", INT); ("data_center", TEXT); ("host_id", UUID); ("native_address", INET);
   ("native_port", INT); ("preferred_ip", INET); ("preferred_port", INT); ("rack", TEXT);
   ("release_version", TEXT); ("schema_version", UUID); ("tokens", SET TEXT)]
  [].

(** User types. *)
Definition schema_types : Rows := MkRows "system_schema" "types"
  [("keyspace_name", TEXT); ("type_name", TEXT); ("field_names", LIST TEXT); ("field_types", LIST TEXT)]
  [].

(** Aggregates. *)
Definition schema_aggregates : Rows := MkRows "system_schema" "aggregates"
  [("keyspace_name", TEXT); ("aggregate_name", TEXT); ("argument_types", LIST TEXT); ("final_func", TEXT);
   ("initcond", TEXT); ("return_type", TEXT); ("state_func", TEXT); ("state_type", TEXT)]
  [].

(** Functions. *)
Definition schema_functions : Rows := MkRows "system_schema" "functions"
  [("keyspace_name", TEXT); ("function_name", TEXT); ("argument_types", LIST TEXT);
   ("argument_names", LIST TEXT); ("body", TEXT); ("called_on_null_input", BOOLEAN); ("language", TEXT);
   ("return_type", TEXT)]
  [].

(** Triggers. *)
Definition schema_triggers : Rows := MkRows "system_schema" "triggers"
  [("keyspace_name", TEXT); ("table_name", TEXT); ("trigger_name", TEXT); ("options", MAP TEXT TEXT)]
  [].

(** The columns of the indexes, under the name of the triggers. *)
Definition schema_indexes : Rows := MkRows "system_schema" "triggers"
  [("keyspace_name", TEXT); ("table_name", TEXT); ("index_name", TEXT); ("kind", TEXT);
   ("options", MAP TEXT TEXT)]
  [].

(** Views. *)
Definition schema_views : Rows := MkRows "system_schema" "views"
  [("keyspace_name", TEXT); ("view_name", TEXT); ("additional_write_policy", TEXT); ("base_table_id", UUID);
   ("base_table_name", TEXT); ("bloom_filter_fp_chance", DOUBLE); ("caching", MAP TEXT TEXT);
   ("cdc", BOOLEAN); ("comment", TEXT); ("compaction", MAP TEXT TEXT); ("compression", MAP TEXT TEXT);
   ("crc_check_chance", DOUBLE); ("dclocal_read_repair_chance", DOUBLE); ("default_time_to_live", INT);
   ("extensions", MAP TEXT BLOB); ("gc_grace_seconds", INT); ("id", UUID); ("include_all_columns", BOOLEAN);
   ("max_index_interval", INT); ("memtable_flush_period_in_ms", INT); ("min_index_interval", INT);
   ("read_repair", TEXT); ("read_repair_chance", DOUBLE); ("speculative_retry", TEXT); ("where_clause", TEXT)]
  [].

(** The virtual keyspaces. *)
Definition virtual_keyspaces : Rows := MkRows "system_virtual_schema" "keyspaces"
  [("keyspace_name", TEXT)]
  [[txt "system_views"]; [txt "system_virtual_schema"]].

End Tables.

(** ** The table for a question *)

(** A question is recognised by what its txt contains, in this order; [sy_name] is
    the name of the table that is meant, [sy_rows] what is answered, and [sy_slack]
    how many bytes follow it in the reply. *)
Record SystemTable := MkSystem {
  sy_mention : string; sy_keyspace : string; sy_name : string; sy_rows : Rows; sy_slack : nat
}.

Definition system_tables : list SystemTable := [
  MkSystem "peers_v2" "system" "peers_v2" Tables.system_peers 1;
  MkSystem "system.local" "system" "local" Tables.system_local 0;
  MkSystem "system_schema.keyspaces" "system_schema" "keyspaces" Tables.schema_keyspaces 0;
  MkSystem "system_schema.tables" "system_schema" "tables" Tables.schema_tables 0;
  MkSystem "system_schema.columns" "system_schema" "columns" Tables.schema_columns 0;
  MkSystem "types" "system_schema" "types" Tables.schema_types 0;
  MkSystem "aggregates" "system_schema" "aggregates" Tables.schema_aggregates 0;
  MkSystem "functions" "system_schema" "functions" Tables.schema_functions 0;
  MkSystem "triggers" "system_schema" "triggers" Tables.schema_triggers 0;
  MkSystem "indexes" "system_schema" "indexes" Tables.schema_indexes 0;
  MkSystem "views" "system_schema" "views" Tables.schema_views 0;
  MkSystem "system_virtual_schema.keyspaces" "system_virtual_schema" "keyspaces" Tables.virtual_keyspaces 0;
  MkSystem "system_virtual_schema.tables" "system_virtual_schema" "tables" Tables.virtual_tables 0;
  MkSystem "system_virtual_schema.columns" "system_virtual_schema" "columns" Tables.virtual_columns 0].

Fixpoint find_system (query : string) (tables : list SystemTable) : option SystemTable :=
  match tables with
  | [] => None
  | t :: tables => if strstr query (sy_mention t) then Some t else find_system query tables
  end.

Definition system_table (query : string) : option SystemTable := find_system query system_tables.
