(* ===== verification/MetaTables.v ===== *)
(** * The canned replies of [api::cql3::Metadata]

    The initialisers of the arrays of [lib/api/cql3/fake_meta.cc], byte for
    byte: the replies to the queries a driver sends about the system tables.
    The lists are cut into rows of forty numbers. *)

From Stdlib Require Import ZArith.
From stdpp Require Import base list.
From S2P Require Import Prelude.

Local Open Scope Z_scope.

(** The row of [system.local]. *)
Definition local_meta : list Z := concat [
  [0; 0; 4; 31; 0; 0; 0; 2; 0; 0; 0; 1; 0; 0; 0; 20; 0; 6; 115; 121; 115; 116; 101; 109; 0; 5; 108; 111; 99; 97; 108; 0; 3; 107; 101; 121; 0; 13; 0; 12];
  [98; 111; 111; 116; 115; 116; 114; 97; 112; 112; 101; 100; 0; 13; 0; 17; 98; 114; 111; 97; 100; 99; 97; 115; 116; 95; 97; 100; 100; 114; 101; 115; 115; 0; 16; 0; 14; 98; 114; 111];
  [97; 100; 99; 97; 115; 116; 95; 112; 111; 114; 116; 0; 9; 0; 12; 99; 108; 117; 115; 116; 101; 114; 95; 110; 97; 109; 101; 0; 13; 0; 11; 99; 113; 108; 95; 118; 101; 114; 115; 105];
  [111; 110; 0; 13; 0; 11; 100; 97; 116; 97; 95; 99; 101; 110; 116; 101; 114; 0; 13; 0; 17; 103; 111; 115; 115; 105; 112; 95; 103; 101; 110; 101; 114; 97; 116; 105; 111; 110; 0; 9];
  [0; 7; 104; 111; 115; 116; 95; 105; 100; 0; 12; 0; 14; 108; 105; 115; 116; 101; 110; 95; 97; 100; 100; 114; 101; 115; 115; 0; 16; 0; 11; 108; 105; 115; 116; 101; 110; 95; 112; 111];
  [114; 116; 0; 9; 0; 23; 110; 97; 116; 105; 118; 101; 95; 112; 114; 111; 116; 111; 99; 111; 108; 95; 118; 101; 114; 115; 105; 111; 110; 0; 13; 0; 11; 112; 97; 114; 116; 105; 116; 105];
  [111; 110; 101; 114; 0; 13; 0; 4; 114; 97; 99; 107; 0; 13; 0; 15; 114; 101; 108; 101; 97; 115; 101; 95; 118; 101; 114; 115; 105; 111; 110; 0; 13; 0; 11; 114; 112; 99; 95; 97];
  [100; 100; 114; 101; 115; 115; 0; 16; 0; 8; 114; 112; 99; 95; 112; 111; 114; 116; 0; 9; 0; 14; 115; 99; 104; 101; 109; 97; 95; 118; 101; 114; 115; 105; 111; 110; 0; 12; 0; 6];
  [116; 111; 107; 101; 110; 115; 0; 34; 0; 13; 0; 12; 116; 114; 117; 110; 99; 97; 116; 101; 100; 95; 97; 116; 0; 33; 0; 12; 0; 3; 0; 0; 0; 1; 0; 0; 0; 5; 108; 111];
  [99; 97; 108; 0; 0; 0; 9; 67; 79; 77; 80; 76; 69; 84; 69; 68; 0; 0; 0; 4; 127; 0; 0; 1; 0; 0; 0; 4; 0; 0; 27; 88; 0; 0; 0; 12; 84; 101; 115; 116];
  [32; 67; 108; 117; 115; 116; 101; 114; 0; 0; 0; 5; 51; 46; 52; 46; 53; 0; 0; 0; 11; 100; 97; 116; 97; 99; 101; 110; 116; 101; 114; 49; 0; 0; 0; 4; 97; 201; 148; 50];
  [0; 0; 0; 16; 251; 63; 19; 20; 54; 195; 68; 163; 138; 77; 102; 207; 215; 107; 208; 209; 0; 0; 0; 4; 127; 0; 0; 1; 0; 0; 0; 4; 0; 0; 27; 88; 0; 0; 0; 1];
  [53; 0; 0; 0; 43; 111; 114; 103; 46; 97; 112; 97; 99; 104; 101; 46; 99; 97; 115; 115; 97; 110; 100; 114; 97; 46; 100; 104; 116; 46; 77; 117; 114; 109; 117; 114; 51; 80; 97; 114];
  [116; 105; 116; 105; 111; 110; 101; 114; 0; 0; 0; 5; 114; 97; 99; 107; 49; 0; 0; 0; 5; 52; 46; 48; 46; 49; 0; 0; 0; 4; 127; 0; 0; 1; 0; 0; 0; 4; 0; 0];
  [35; 82; 0; 0; 0; 16; 34; 7; 194; 169; 245; 152; 57; 113; 152; 107; 41; 38; 224; 158; 35; 157; 0; 0; 1; 121; 0; 0; 0; 16; 0; 0; 0; 20; 45; 49; 52; 52; 52; 51];
  [56; 57; 49; 51; 51; 56; 51; 55; 54; 54; 49; 48; 55; 50; 0; 0; 0; 20; 45; 50; 53; 51; 53; 54; 56; 54; 50; 52; 52; 53; 50; 57; 56; 55; 51; 51; 51; 50; 0; 0];
  [0; 20; 45; 51; 54; 51; 49; 55; 50; 56; 49; 52; 52; 55; 54; 52; 56; 49; 49; 54; 50; 49; 0; 0; 0; 20; 45; 53; 52; 49; 48; 51; 54; 50; 52; 52; 53; 53; 56; 56];
  [51; 57; 56; 55; 53; 48; 0; 0; 0; 19; 45; 54; 48; 48; 48; 49; 50; 52; 56; 54; 51; 52; 54; 52; 57; 57; 51; 49; 54; 0; 0; 0; 20; 45; 54; 51; 56; 56; 53; 48];
  [55; 56; 57; 56; 49; 48; 52; 53; 49; 50; 56; 50; 53; 0; 0; 0; 20; 45; 56; 48; 48; 55; 53; 51; 49; 49; 57; 51; 56; 48; 49; 53; 53; 54; 49; 50; 51; 0; 0; 0];
  [19; 49; 57; 49; 49; 55; 53; 54; 51; 53; 57; 56; 57; 54; 49; 49; 54; 55; 51; 53; 0; 0; 0; 19; 50; 57; 50; 57; 54; 48; 55; 55; 54; 52; 54; 51; 56; 53; 52; 51];
  [55; 53; 48; 0; 0; 0; 19; 51; 55; 52; 55; 50; 55; 57; 54; 57; 55; 50; 53; 48; 56; 57; 52; 53; 52; 53; 0; 0; 0; 19; 52; 56; 50; 51; 48; 51; 53; 53; 55; 56];
  [52; 55; 54; 52; 55; 52; 48; 56; 52; 0; 0; 0; 19; 53; 53; 53; 56; 57; 53; 49; 50; 55; 49; 49; 56; 55; 51; 54; 55; 55; 50; 53; 0; 0; 0; 19; 54; 54; 51; 56];
  [51; 50; 52; 48; 55; 56; 54; 51; 52; 57; 54; 57; 51; 56; 51; 0; 0; 0; 19; 55; 56; 56; 49; 56; 52; 52; 48; 56; 52; 51; 49; 53; 53; 54; 49; 51; 53; 53; 0; 0];
  [0; 18; 56; 52; 48; 50; 53; 53; 55; 52; 51; 53; 53; 54; 48; 56; 51; 57; 50; 50; 0; 0; 0; 19; 56; 56; 52; 57; 50; 48; 56; 51; 50; 55; 51; 57; 52; 48; 57; 54];
  [56; 53; 52; 0; 0; 0; 92; 0; 0; 0; 2; 0; 0; 0; 16; 23; 108; 57; 205; 185; 61; 51; 165; 162; 24; 142; 176; 106; 86; 246; 110; 0; 0; 0; 20; 0; 0; 1; 125; 251];
  [106; 201; 229; 0; 0; 0; 28; 0; 0; 1; 125; 251; 106; 222; 144; 0; 0; 0; 16; 97; 143; 129; 123; 0; 95; 54; 120; 184; 164; 83; 243; 147; 11; 142; 134; 0; 0; 0; 20; 0];
  [0; 1; 125; 251; 106; 201; 229; 0; 0; 0; 28; 0; 0; 1; 125; 251; 106; 219; 165]].

(** The rows of [system_schema.keyspaces]. *)
Definition keyspaces_meta : list Z := concat [
  [0; 0; 2; 89; 0; 0; 0; 2; 0; 0; 0; 1; 0; 0; 0; 3; 0; 13; 115; 121; 115; 116; 101; 109; 95; 115; 99; 104; 101; 109; 97; 0; 9; 107; 101; 121; 115; 112; 97; 99];
  [101; 115; 0; 13; 107; 101; 121; 115; 112; 97; 99; 101; 95; 110; 97; 109; 101; 0; 13; 0; 14; 100; 117; 114; 97; 98; 108; 101; 95; 119; 114; 105; 116; 101; 115; 0; 4; 0; 11; 114];
  [101; 112; 108; 105; 99; 97; 116; 105; 111; 110; 0; 33; 0; 13; 0; 13; 0; 0; 0; 5; 0; 0; 0; 11; 115; 121; 115; 116; 101; 109; 95; 97; 117; 116; 104; 0; 0; 0; 1; 1];
  [0; 0; 0; 87; 0; 0; 0; 2; 0; 0; 0; 5; 99; 108; 97; 115; 115; 0; 0; 0; 43; 111; 114; 103; 46; 97; 112; 97; 99; 104; 101; 46; 99; 97; 115; 115; 97; 110; 100; 114];
  [97; 46; 108; 111; 99; 97; 116; 111; 114; 46; 83; 105; 109; 112; 108; 101; 83; 116; 114; 97; 116; 101; 103; 121; 0; 0; 0; 18; 114; 101; 112; 108; 105; 99; 97; 116; 105; 111; 110; 95];
  [102; 97; 99; 116; 111; 114; 0; 0; 0; 1; 49; 0; 0; 0; 13; 115; 121; 115; 116; 101; 109; 95; 115; 99; 104; 101; 109; 97; 0; 0; 0; 1; 1; 0; 0; 0; 59; 0; 0; 0];
  [1; 0; 0; 0; 5; 99; 108; 97; 115; 115; 0; 0; 0; 42; 111; 114; 103; 46; 97; 112; 97; 99; 104; 101; 46; 99; 97; 115; 115; 97; 110; 100; 114; 97; 46; 108; 111; 99; 97; 116];
  [111; 114; 46; 76; 111; 99; 97; 108; 83; 116; 114; 97; 116; 101; 103; 121; 0; 0; 0; 18; 115; 121; 115; 116; 101; 109; 95; 100; 105; 115; 116; 114; 105; 98; 117; 116; 101; 100; 0; 0];
  [0; 1; 1; 0; 0; 0; 87; 0; 0; 0; 2; 0; 0; 0; 5; 99; 108; 97; 115; 115; 0; 0; 0; 43; 111; 114; 103; 46; 97; 112; 97; 99; 104; 101; 46; 99; 97; 115; 115; 97];
  [110; 100; 114; 97; 46; 108; 111; 99; 97; 116; 111; 114; 46; 83; 105; 109; 112; 108; 101; 83; 116; 114; 97; 116; 101; 103; 121; 0; 0; 0; 18; 114; 101; 112; 108; 105; 99; 97; 116; 105];
  [111; 110; 95; 102; 97; 99; 116; 111; 114; 0; 0; 0; 1; 51; 0; 0; 0; 6; 115; 121; 115; 116; 101; 109; 0; 0; 0; 1; 1; 0; 0; 0; 59; 0; 0; 0; 1; 0; 0; 0];
  [5; 99; 108; 97; 115; 115; 0; 0; 0; 42; 111; 114; 103; 46; 97; 112; 97; 99; 104; 101; 46; 99; 97; 115; 115; 97; 110; 100; 114; 97; 46; 108; 111; 99; 97; 116; 111; 114; 46; 76];
  [111; 99; 97; 108; 83; 116; 114; 97; 116; 101; 103; 121; 0; 0; 0; 13; 115; 121; 115; 116; 101; 109; 95; 116; 114; 97; 99; 101; 115; 0; 0; 0; 1; 1; 0; 0; 0; 87; 0; 0];
  [0; 2; 0; 0; 0; 5; 99; 108; 97; 115; 115; 0; 0; 0; 43; 111; 114; 103; 46; 97; 112; 97; 99; 104; 101; 46; 99; 97; 115; 115; 97; 110; 100; 114; 97; 46; 108; 111; 99; 97];
  [116; 111; 114; 46; 83; 105; 109; 112; 108; 101; 83; 116; 114; 97; 116; 101; 103; 121; 0; 0; 0; 18; 114; 101; 112; 108; 105; 99; 97; 116; 105; 111; 110; 95; 102; 97; 99; 116; 111; 114];
  [0; 0; 0; 1; 50]].

(** The rows of [system_schema.tables]. *)
Definition tables_meta : list Z := concat [
  [0; 0; 81; 135; 0; 0; 0; 2; 0; 0; 0; 1; 0; 0; 0; 22; 0; 13; 115; 121; 115; 116; 101; 109; 95; 115; 99; 104; 101; 109; 97; 0; 6; 116; 97; 98; 108; 101; 115; 0];
  [13; 107; 101; 121; 115; 112; 97; 99; 101; 95; 110; 97; 109; 101; 0; 13; 0; 10; 116; 97; 98; 108; 101; 95; 110; 97; 109; 101; 0; 13; 0; 23; 97; 100; 100; 105; 116; 105; 111; 110];
  [97; 108; 95; 119; 114; 105; 116; 101; 95; 112; 111; 108; 105; 99; 121; 0; 13; 0; 22; 98; 108; 111; 111; 109; 95; 102; 105; 108; 116; 101; 114; 95; 102; 112; 95; 99; 104; 97; 110; 99];
  [101; 0; 7; 0; 7; 99; 97; 99; 104; 105; 110; 103; 0; 33; 0; 13; 0; 13; 0; 3; 99; 100; 99; 0; 4; 0; 7; 99; 111; 109; 109; 101; 110; 116; 0; 13; 0; 10; 99; 111];
  [109; 112; 97; 99; 116; 105; 111; 110; 0; 33; 0; 13; 0; 13; 0; 11; 99; 111; 109; 112; 114; 101; 115; 115; 105; 111; 110; 0; 33; 0; 13; 0; 13; 0; 16; 99; 114; 99; 95; 99];
  [104; 101; 99; 107; 95; 99; 104; 97; 110; 99; 101; 0; 7; 0; 26; 100; 99; 108; 111; 99; 97; 108; 95; 114; 101; 97; 100; 95; 114; 101; 112; 97; 105; 114; 95; 99; 104; 97; 110; 99];
  [101; 0; 7; 0; 20; 100; 101; 102; 97; 117; 108; 116; 95; 116; 105; 109; 101; 95; 116; 111; 95; 108; 105; 118; 101; 0; 9; 0; 10; 101; 120; 116; 101; 110; 115; 105; 111; 110; 115; 0];
  [33; 0; 13; 0; 3; 0; 5; 102; 108; 97; 103; 115; 0; 34; 0; 13; 0; 16; 103; 99; 95; 103; 114; 97; 99; 101; 95; 115; 101; 99; 111; 110; 100; 115; 0; 9; 0; 2; 105; 100];
  [0; 12; 0; 18; 109; 97; 120; 95; 105; 110; 100; 101; 120; 95; 105; 110; 116; 101; 114; 118; 97; 108; 0; 9; 0; 27; 109; 101; 109; 116; 97; 98; 108; 101; 95; 102; 108; 117; 115; 104];
  [95; 112; 101; 114; 105; 111; 100; 95; 105; 110; 95; 109; 115; 0; 9; 0; 18; 109; 105; 110; 95; 105; 110; 100; 101; 120; 95; 105; 110; 116; 101; 114; 118; 97; 108; 0; 9; 0; 11; 114];
  [101; 97; 100; 95; 114; 101; 112; 97; 105; 114; 0; 13; 0; 18; 114; 101; 97; 100; 95; 114; 101; 112; 97; 105; 114; 95; 99; 104; 97; 110; 99; 101; 0; 7; 0; 17; 115; 112; 101; 99];
  [117; 108; 97; 116; 105; 118; 101; 95; 114; 101; 116; 114; 121; 0; 13; 0; 0; 0; 40; 0; 0; 0; 11; 115; 121; 115; 116; 101; 109; 95; 97; 117; 116; 104; 0; 0; 0; 19; 110; 101];
  [116; 119; 111; 114; 107; 95; 112; 101; 114; 109; 105; 115; 115; 105; 111; 110; 115; 0; 0; 0; 3; 57; 57; 112; 0; 0; 0; 8; 63; 132; 122; 225; 71; 174; 20; 123; 0; 0; 0; 49];
  [0; 0; 0; 2; 0; 0; 0; 4; 107; 101; 121; 115; 0; 0; 0; 3; 65; 76; 76; 0; 0; 0; 18; 114; 111; 119; 115; 95; 112; 101; 114; 95; 112; 97; 114; 116; 105; 116; 105; 111];
  [110; 0; 0; 0; 4; 78; 79; 78; 69; 255; 255; 255; 255; 0; 0; 0; 24; 117; 115; 101; 114; 32; 110; 101; 116; 119; 111; 114; 107; 32; 112; 101; 114; 109; 105; 115; 115; 105; 111; 110];
  [115; 0; 0; 0; 125; 0; 0; 0; 3; 0; 0; 0; 5; 99; 108; 97; 115; 115; 0; 0; 0; 63; 111; 114; 103; 46; 97; 112; 97; 99; 104; 101; 46; 99; 97; 115; 115; 97; 110; 100];
  [114; 97; 46; 100; 98; 46; 99; 111; 109; 112; 97; 99; 116; 105; 111; 110; 46; 83; 105; 122; 101; 84; 105; 101; 114; 101; 100; 67; 111; 109; 112; 97; 99; 116; 105; 111; 110; 83; 116; 114];
  [97; 116; 101; 103; 121; 0; 0; 0; 13; 109; 97; 120; 95; 116; 104; 114; 101; 115; 104; 111; 108; 100; 0; 0; 0; 2; 51; 50; 0; 0; 0; 13; 109; 105; 110; 95; 116; 104; 114; 101];
  [115; 104; 111; 108; 100; 0; 0; 0; 1; 52; 0; 0; 0; 91; 0; 0; 0; 2; 0; 0; 0; 18; 99; 104; 117; 110; 107; 95; 108; 101; 110; 103; 116; 104; 95; 105; 110; 95; 107; 98];
  [0; 0; 0; 2; 49; 54; 0; 0; 0; 5; 99; 108; 97; 115; 115; 0; 0; 0; 46; 111; 114; 103; 46; 97; 112; 97; 99; 104; 101; 46; 99; 97; 115; 115; 97; 110; 100; 114; 97; 46];
  [105; 111; 46; 99; 111; 109; 112; 114; 101; 115; 115; 46; 76; 90; 52; 67; 111; 109; 112; 114; 101; 115; 115; 111; 114; 0; 0; 0; 8; 63; 240; 0; 0; 0; 0; 0; 0; 0; 0; 0];
  [8; 0; 0; 0; 0; 0; 0; 0; 0; 0; 0; 0; 4; 0; 0; 0; 0; 0; 0; 0; 4; 0; 0; 0; 0; 0; 0; 0; 16; 0; 0; 0; 1; 0; 0; 0; 8; 99; 111; 109];
  [112; 111; 117; 110; 100; 0; 0; 0; 4; 0; 118; 167; 0; 0; 0; 0; 16; 212; 103; 128; 194; 47; 28; 61; 185; 180; 193; 184; 217; 251; 192; 204; 35; 0; 0; 0; 4; 0; 0; 8];
  [0; 0; 0; 0; 4; 0; 0; 0; 0; 0; 0; 0; 4; 0; 0; 0; 128; 0; 0; 0; 8; 66; 76; 79; 67; 75; 73; 78; 71; 0; 0; 0; 8; 0; 0; 0; 0; 0; 0; 0];
  [0; 0; 0; 0; 3; 57; 57; 112; 0; 0; 0; 11; 115; 121; 115; 116; 101; 109; 95; 97; 117; 116; 104; 0; 0; 0; 30; 114; 101; 115; 111; 117; 114; 99; 101; 95; 114; 111; 108; 101];
  [95; 112; 101; 114; 109; 105; 115; 115; 111; 110; 115; 95; 105; 110; 100; 101; 120; 0; 0; 0; 3; 57; 57; 112; 0; 0; 0; 8; 63; 132; 122; 225; 71; 174; 20; 123; 0; 0; 0; 49];
  [0; 0; 0; 2; 0; 0; 0; 4; 107; 101; 121; 115; 0; 0; 0; 3; 65; 76; 76; 0; 0; 0; 18; 114; 111; 119; 115; 95; 112; 101; 114; 95; 112; 97; 114; 116; 105; 116; 105; 111];
  [110; 0; 0; 0; 4; 78; 79; 78; 69; 255; 255; 255; 255; 0; 0; 0; 56; 105; 110; 100; 101; 120; 32; 111; 102; 32; 100; 98; 32; 114; 111; 108; 101; 115; 32; 119; 105; 116; 104; 32];
  [112; 101; 114; 109; 105; 115; 115; 105; 111; 110; 115; 32; 103; 114; 97; 110; 116; 101; 100; 32; 111; 110; 32; 97; 32; 114; 101; 115; 111; 117; 114; 99; 101; 0; 0; 0; 125; 0; 0; 0];
  [3; 0; 0; 0; 5; 99; 108; 97; 115; 115; 0; 0; 0; 63; 111; 114; 103; 46; 97; 112; 97; 99; 104; 101; 46; 99; 97; 115; 115; 97; 110; 100; 114; 97; 46; 100; 98; 46; 99; 111];
  [109; 112; 97; 99; 116; 105; 111; 110; 46; 83; 105; 122; 101; 84; 105; 101; 114; 101; 100; 67; 111; 109; 112; 97; 99; 116; 105; 111; 110; 83; 116; 114; 97; 116; 101; 103; 121; 0; 0; 0];
  [13; 109; 97; 120; 95; 116; 104; 114; 101; 115; 104; 111; 108; 100; 0; 0; 0; 2; 51; 50; 0; 0; 0; 13; 109; 105; 110; 95; 116; 104; 114; 101; 115; 104; 111; 108; 100; 0; 0; 0];
  [1; 52; 0; 0; 0; 91; 0; 0; 0; 2; 0; 0; 0; 18; 99; 104; 117; 110; 107; 95; 108; 101; 110; 103; 116; 104; 95; 105; 110; 95; 107; 98; 0; 0; 0; 2; 49; 54; 0; 0];
  [0; 5; 99; 108; 97; 115; 115; 0; 0; 0; 46; 111; 114; 103; 46; 97; 112; 97; 99; 104; 101; 46; 99; 97; 115; 115; 97; 110; 100; 114; 97; 46; 105; 111; 46; 99; 111; 109; 112; 114];
  [101; 115; 115; 46; 76; 90; 52; 67; 111; 109; 112; 114; 101; 115; 115; 111; 114; 0; 0; 0; 8; 63; 240; 0; 0; 0; 0; 0; 0; 0; 0; 0; 8; 0; 0; 0; 0; 0; 0; 0];
  [0; 0; 0; 0; 4; 0; 0; 0; 0; 0; 0; 0; 4; 0; 0; 0; 0; 0; 0; 0; 16; 0; 0; 0; 1; 0; 0; 0; 8; 99; 111; 109; 112; 111; 117; 110; 100; 0; 0; 0];
  [4; 0; 118; 167; 0; 0; 0; 0; 16; 95; 47; 189; 173; 145; 241; 57; 70; 189; 37; 213; 218; 58; 92; 53; 236; 0; 0; 0; 4; 0; 0; 8; 0; 0; 0; 0; 4; 0; 0; 0];
  [0; 0; 0; 0; 4; 0; 0; 0; 128; 0; 0; 0; 8; 66; 76; 79; 67; 75; 73; 78; 71; 0; 0; 0; 8; 0; 0; 0; 0; 0; 0; 0; 0; 0; 0; 0; 3; 57; 57; 112];
  [0; 0; 0; 11; 115; 121; 115; 116; 101; 109; 95; 97; 117; 116; 104; 0; 0; 0; 12; 114; 111; 108; 101; 95; 109; 101; 109; 98; 101; 114; 115; 0; 0; 0; 3; 57; 57; 112; 0; 0];
  [0; 8; 63; 132; 122; 225; 71; 174; 20; 123; 0; 0; 0; 49; 0; 0; 0; 2; 0; 0; 0; 4; 107; 101; 121; 115; 0; 0; 0; 3; 65; 76; 76; 0; 0; 0; 18; 114; 111; 119];
  [115; 95; 112; 101; 114; 95; 112; 97; 114; 116; 105; 116; 105; 111; 110; 0; 0; 0; 4; 78; 79; 78; 69; 255; 255; 255; 255; 0; 0; 0; 29; 114; 111; 108; 101; 32; 109; 101; 109; 98];
  [101; 114; 115; 104; 105; 112; 115; 32; 108; 111; 111; 107; 117; 112; 32; 116; 97; 98; 108; 101; 0; 0; 0; 125; 0; 0; 0; 3; 0; 0; 0; 5; 99; 108; 97; 115; 115; 0; 0; 0];
  [63; 111; 114; 103; 46; 97; 112; 97; 99; 104; 101; 46; 99; 97; 115; 115; 97; 110; 100; 114; 97; 46; 100; 98; 46; 99; 111; 109; 112; 97; 99; 116; 105; 111; 110; 46; 83; 105; 122; 101];
  [84; 105; 101; 114; 101; 100; 67; 111; 109; 112; 97; 99; 116; 105; 111; 110; 83; 116; 114; 97; 116; 101; 103; 121; 0; 0; 0; 13; 109; 97; 120; 95; 116; 104; 114; 101; 115; 104; 111; 108];
  [100; 0; 0; 0; 2; 51; 50; 0; 0; 0; 13; 109; 105; 110; 95; 116; 104; 114; 101; 115; 104; 111; 108; 100; 0; 0; 0; 1; 52; 0; 0; 0; 91; 0; 0; 0; 2; 0; 0; 0];
  [18; 99; 104; 117; 110; 107; 95; 108; 101; 110; 103; 116; 104; 95; 105; 110; 95; 107; 98; 0; 0; 0; 2; 49; 54; 0; 0; 0; 5; 99; 108; 97; 115; 115; 0; 0; 0; 46; 111; 114];
  [103; 46; 97; 112; 97; 99; 104; 101; 46; 99; 97; 115; 115; 97; 110; 100; 114; 97; 46; 105; 111; 46; 99; 111; 109; 112; 114; 101; 115; 115; 46; 76; 90; 52; 67; 111; 109; 112; 114; 101];
  [115; 115; 111; 114; 0; 0; 0; 8; 63; 240; 0; 0; 0; 0; 0; 0; 0; 0; 0; 8; 0; 0; 0; 0; 0; 0; 0; 0; 0; 0; 0; 4; 0; 0; 0; 0; 0; 0; 0; 4];
  [0; 0; 0; 0; 0; 0; 0; 16; 0; 0; 0; 1; 0; 0; 0; 8; 99; 111; 109; 112; 111; 117; 110; 100; 0; 0; 0; 4; 0; 118; 167; 0; 0; 0; 0; 16; 14; 205; 170; 135];
  [248; 251; 62; 96; 136; 209; 116; 251; 54; 254; 92; 13; 0; 0; 0; 4; 0; 0; 8; 0; 0; 0; 0; 4; 0; 0; 0; 0; 0; 0; 0; 4; 0; 0; 0; 128; 0; 0; 0; 8];
  [66; 76; 79; 67; 75; 73; 78; 71; 0; 0; 0; 8; 0; 0; 0; 0; 0; 0; 0; 0; 0; 0; 0; 3; 57; 57; 112; 0; 0; 0; 11; 115; 121; 115; 116; 101; 109; 95; 97; 117];
  [116; 104; 0; 0; 0; 16; 114; 111; 108; 101; 95; 112; 101; 114; 109; 105; 115; 115; 105; 111; 110; 115; 0; 0; 0; 3; 57; 57; 112; 0; 0; 0; 8; 63; 132; 122; 225; 71; 174; 20];
  [123; 0; 0; 0; 49; 0; 0; 0; 2; 0; 0; 0; 4; 107; 101; 121; 115; 0; 0; 0; 3; 65; 76; 76; 0; 0; 0; 18; 114; 111; 119; 115; 95; 112; 101; 114; 95; 112; 97; 114];
  [116; 105; 116; 105; 111; 110; 0; 0; 0; 4; 78; 79; 78; 69; 255; 255; 255; 255; 0; 0; 0; 31; 112; 101; 114; 109; 105; 115; 115; 105; 111; 110; 115; 32; 103; 114; 97; 110; 116; 101];
  [100; 32; 116; 111; 32; 100; 98; 32; 114; 111; 108; 101; 115; 0; 0; 0; 125; 0; 0; 0; 3; 0; 0; 0; 5; 99; 108; 97; 115; 115; 0; 0; 0; 63; 111; 114; 103; 46; 97; 112];
  [97; 99; 104; 101; 46; 99; 97; 115; 115; 97; 110; 100; 114; 97; 46; 100; 98; 46; 99; 111; 109; 112; 97; 99; 116; 105; 111; 110; 46; 83; 105; 122; 101; 84; 105; 101; 114; 101; 100; 67];
  [111; 109; 112; 97; 99; 116; 105; 111; 110; 83; 116; 114; 97; 116; 101; 103; 121; 0; 0; 0; 13; 109; 97; 120; 95; 116; 104; 114; 101; 115; 104; 111; 108; 100; 0; 0; 0; 2; 51; 50];
  [0; 0; 0; 13; 109; 105; 110; 95; 116; 104; 114; 101; 115; 104; 111; 108; 100; 0; 0; 0; 1; 52; 0; 0; 0; 91; 0; 0; 0; 2; 0; 0; 0; 18; 99; 104; 117; 110; 107; 95];
  [108; 101; 110; 103; 116; 104; 95; 105; 110; 95; 107; 98; 0; 0; 0; 2; 49; 54; 0; 0; 0; 5; 99; 108; 97; 115; 115; 0; 0; 0; 46; 111; 114; 103; 46; 97; 112; 97; 99; 104];
  [101; 46; 99; 97; 115; 115; 97; 110; 100; 114; 97; 46; 105; 111; 46; 99; 111; 109; 112; 114; 101; 115; 115; 46; 76; 90; 52; 67; 111; 109; 112; 114; 101; 115; 115; 111; 114; 0; 0; 0];
  [8; 63; 240; 0; 0; 0; 0; 0; 0; 0; 0; 0; 8; 0; 0; 0; 0; 0; 0; 0; 0; 0; 0; 0; 4; 0; 0; 0; 0; 0; 0; 0; 4; 0; 0; 0; 0; 0; 0; 0];
  [16; 0; 0; 0; 1; 0; 0; 0; 8; 99; 111; 109; 112; 111; 117; 110; 100; 0; 0; 0; 4; 0; 118; 167; 0; 0; 0; 0; 16; 58; 251; 231; 159; 33; 148; 49; 167; 173; 215; 245];
  [171; 144; 216; 236; 156; 0; 0; 0; 4; 0; 0; 8; 0; 0; 0; 0; 4; 0; 0; 0; 0; 0; 0; 0; 4; 0; 0; 0; 128; 0; 0; 0; 8; 66; 76; 79; 67; 75; 73; 78];
  [71; 0; 0; 0; 8; 0; 0; 0; 0; 0; 0; 0; 0; 0; 0; 0; 3; 57; 57; 112; 0; 0; 0; 11; 115; 121; 115; 116; 101; 109; 95; 97; 117; 116; 104; 0; 0; 0; 5; 114];
  [111; 108; 101; 115; 0; 0; 0; 3; 57; 57; 112; 0; 0; 0; 8; 63; 132; 122; 225; 71; 174; 20; 123; 0; 0; 0; 49; 0; 0; 0; 2; 0; 0; 0; 4; 107; 101; 121; 115; 0];
  [0; 0; 3; 65; 76; 76; 0; 0; 0; 18; 114; 111; 119; 115; 95; 112; 101; 114; 95; 112; 97; 114; 116; 105; 116; 105; 111; 110; 0; 0; 0; 4; 78; 79; 78; 69; 255; 255; 255; 255];
  [0; 0; 0; 16; 114; 111; 108; 101; 32; 100; 101; 102; 105; 110; 105; 116; 105; 111; 110; 115; 0; 0; 0; 125; 0; 0; 0; 3; 0; 0; 0; 5; 99; 108; 97; 115; 115; 0; 0; 0];
  [63; 111; 114; 103; 46; 97; 112; 97; 99; 104; 101; 46; 99; 97; 115; 115; 97; 110; 100; 114; 97; 46; 100; 98; 46; 99; 111; 109; 112; 97; 99; 116; 105; 111; 110; 46; 83; 105; 122; 101];
  [84; 105; 101; 114; 101; 100; 67; 111; 109; 112; 97; 99; 116; 105; 111; 110; 83; 116; 114; 97; 116; 101; 103; 121; 0; 0; 0; 13; 109; 97; 120; 95; 116; 104; 114; 101; 115; 104; 111; 108];
  [100; 0; 0; 0; 2; 51; 50; 0; 0; 0; 13; 109; 105; 110; 95; 116; 104; 114; 101; 115; 104; 111; 108; 100; 0; 0; 0; 1; 52; 0; 0; 0; 91; 0; 0; 0; 2; 0; 0; 0];
  [18; 99; 104; 117; 110; 107; 95; 108; 101; 110; 103; 116; 104; 95; 105; 110; 95; 107; 98; 0; 0; 0; 2; 49; 54; 0; 0; 0; 5; 99; 108; 97; 115; 115; 0; 0; 0; 46; 111; 114];
  [103; 46; 97; 112; 97; 99; 104; 101; 46; 99; 97; 115; 115; 97; 110; 100; 114; 97; 46; 105; 111; 46; 99; 111; 109; 112; 114; 101; 115; 115; 46; 76; 90; 52; 67; 111; 109; 112; 114; 101];
  [115; 115; 111; 114; 0; 0; 0; 8; 63; 240; 0; 0; 0; 0; 0; 0; 0; 0; 0; 8; 0; 0; 0; 0; 0; 0; 0; 0; 0; 0; 0; 4; 0; 0; 0; 0; 0; 0; 0; 4];
  [0; 0; 0; 0; 0; 0; 0; 16; 0; 0; 0; 1; 0; 0; 0; 8; 99; 111; 109; 112; 111; 117; 110; 100; 0; 0; 0; 4; 0; 118; 167; 0; 0; 0; 0; 16; 91; 197; 40; 2];
  [222; 37; 53; 237; 174; 171; 24; 142; 236; 235; 176; 144; 0; 0; 0; 4; 0; 0; 8; 0; 0; 0; 0; 4; 0; 0; 0; 0; 0; 0; 0; 4; 0; 0; 0; 128; 0; 0; 0; 8];
  [66; 76; 79; 67; 75; 73; 78; 71; 0; 0; 0; 8; 0; 0; 0; 0; 0; 0; 0; 0; 0; 0; 0; 3; 57; 57; 112; 0; 0; 0; 13; 115; 121; 115; 116; 101; 109; 95; 115; 99];
  [104; 101; 109; 97; 0; 0; 0; 10; 97; 103; 103; 114; 101; 103; 97; 116; 101; 115; 0; 0; 0; 3; 57; 57; 112; 0; 0; 0; 8; 63; 132; 122; 225; 71; 174; 20; 123; 0; 0; 0];
  [49; 0; 0; 0; 2; 0; 0; 0; 4; 107; 101; 121; 115; 0; 0; 0; 3; 65; 76; 76; 0; 0; 0; 18; 114; 111; 119; 115; 95; 112; 101; 114; 95; 112; 97; 114; 116; 105; 116; 105];
  [111; 110; 0; 0; 0; 4; 78; 79; 78; 69; 255; 255; 255; 255; 0; 0; 0; 34; 117; 115; 101; 114; 32; 100; 101; 102; 105; 110; 101; 100; 32; 97; 103; 103; 114; 101; 103; 97; 116; 101];
  [32; 100; 101; 102; 105; 110; 105; 116; 105; 111; 110; 115; 0; 0; 0; 125; 0; 0; 0; 3; 0; 0; 0; 5; 99; 108; 97; 115; 115; 0; 0; 0; 63; 111; 114; 103; 46; 97; 112; 97];
  [99; 104; 101; 46; 99; 97; 115; 115; 97; 110; 100; 114; 97; 46; 100; 98; 46; 99; 111; 109; 112; 97; 99; 116; 105; 111; 110; 46; 83; 105; 122; 101; 84; 105; 101; 114; 101; 100; 67; 111];
  [109; 112; 97; 99; 116; 105; 111; 110; 83; 116; 114; 97; 116; 101; 103; 121; 0; 0; 0; 13; 109; 97; 120; 95; 116; 104; 114; 101; 115; 104; 111; 108; 100; 0; 0; 0; 2; 51; 50; 0];
  [0; 0; 13; 109; 105; 110; 95; 116; 104; 114; 101; 115; 104; 111; 108; 100; 0; 0; 0; 1; 52; 0; 0; 0; 91; 0; 0; 0; 2; 0; 0; 0; 18; 99; 104; 117; 110; 107; 95; 108];
  [101; 110; 103; 116; 104; 95; 105; 110; 95; 107; 98; 0; 0; 0; 2; 49; 54; 0; 0; 0; 5; 99; 108; 97; 115; 115; 0; 0; 0; 46; 111; 114; 103; 46; 97; 112; 97; 99; 104; 101];
  [46; 99; 97; 115; 115; 97; 110; 100; 114; 97; 46; 105; 111; 46; 99; 111; 109; 112; 114; 101; 115; 115; 46; 76; 90; 52; 67; 111; 109; 112; 114; 101; 115; 115; 111; 114; 0; 0; 0; 8];
  [63; 240; 0; 0; 0; 0; 0; 0; 0; 0; 0; 8; 0; 0; 0; 0; 0; 0; 0; 0; 0; 0; 0; 4; 0; 0; 0; 0; 0; 0; 0; 4; 0; 0; 0; 0; 0; 0; 0; 16];
  [0; 0; 0; 1; 0; 0; 0; 8; 99; 111; 109; 112; 111; 117; 110; 100; 0; 0; 0; 4; 0; 9; 58; 128; 0; 0; 0; 16; 146; 76; 85; 135; 46; 58; 52; 91; 177; 12; 18; 243];
  [124; 27; 168; 149; 0; 0; 0; 4; 0; 0; 8; 0; 0; 0; 0; 4; 0; 54; 238; 128; 0; 0; 0; 4; 0; 0; 0; 128; 0; 0; 0; 8; 66; 76; 79; 67; 75; 73; 78; 71];
  [0; 0; 0; 8; 0; 0; 0; 0; 0; 0; 0; 0; 0; 0; 0; 3; 57; 57; 112; 0; 0; 0; 13; 115; 121; 115; 116; 101; 109; 95; 115; 99; 104; 101; 109; 97; 0; 0; 0; 7];
  [99; 111; 108; 117; 109; 110; 115; 0; 0; 0; 3; 57; 57; 112; 0; 0; 0; 8; 63; 132; 122; 225; 71; 174; 20; 123; 0; 0; 0; 49; 0; 0; 0; 2; 0; 0; 0; 4; 107; 101];
  [121; 115; 0; 0; 0; 3; 65; 76; 76; 0; 0; 0; 18; 114; 111; 119; 115; 95; 112; 101; 114; 95; 112; 97; 114; 116; 105; 116; 105; 111; 110; 0; 0; 0; 4; 78; 79; 78; 69; 255];
  [255; 255; 255; 0; 0; 0; 18; 99; 111; 108; 117; 109; 110; 32; 100; 101; 102; 105; 110; 105; 116; 105; 111; 110; 115; 0; 0; 0; 125; 0; 0; 0; 3; 0; 0; 0; 5; 99; 108; 97];
  [115; 115; 0; 0; 0; 63; 111; 114; 103; 46; 97; 112; 97; 99; 104; 101; 46; 99; 97; 115; 115; 97; 110; 100; 114; 97; 46; 100; 98; 46; 99; 111; 109; 112; 97; 99; 116; 105; 111; 110];
  [46; 83; 105; 122; 101; 84; 105; 101; 114; 101; 100; 67; 111; 109; 112; 97; 99; 116; 105; 111; 110; 83; 116; 114; 97; 116; 101; 103; 121; 0; 0; 0; 13; 109; 97; 120; 95; 116; 104; 114];
  [101; 115; 104; 111; 108; 100; 0; 0; 0; 2; 51; 50; 0; 0; 0; 13; 109; 105; 110; 95; 116; 104; 114; 101; 115; 104; 111; 108; 100; 0; 0; 0; 1; 52; 0; 0; 0; 91; 0; 0];
  [0; 2; 0; 0; 0; 18; 99; 104; 117; 110; 107; 95; 108; 101; 110; 103; 116; 104; 95; 105; 110; 95; 107; 98; 0; 0; 0; 2; 49; 54; 0; 0; 0; 5; 99; 108; 97; 115; 115; 0];
  [0; 0; 46; 111; 114; 103; 46; 97; 112; 97; 99; 104; 101; 46; 99; 97; 115; 115; 97; 110; 100; 114; 97; 46; 105; 111; 46; 99; 111; 109; 112; 114; 101; 115; 115; 46; 76; 90; 52; 67];
  [111; 109; 112; 114; 101; 115; 115; 111; 114; 0; 0; 0; 8; 63; 240; 0; 0; 0; 0; 0; 0; 0; 0; 0; 8; 0; 0; 0; 0; 0; 0; 0; 0; 0; 0; 0; 4; 0; 0; 0];
  [0; 0; 0; 0; 4; 0; 0; 0; 0; 0; 0; 0; 16; 0; 0; 0; 1; 0; 0; 0; 8; 99; 111; 109; 112; 111; 117; 110; 100; 0; 0; 0; 4; 0; 9; 58; 128; 0; 0; 0];
  [16; 36; 16; 28; 37; 162; 174; 58; 247; 135; 193; 180; 14; 225; 172; 163; 63; 0; 0; 0; 4; 0; 0; 8; 0; 0; 0; 0; 4; 0; 54; 238; 128; 0; 0; 0; 4; 0; 0; 0];
  [128; 0; 0; 0; 8; 66; 76; 79; 67; 75; 73; 78; 71; 0; 0; 0; 8; 0; 0; 0; 0; 0; 0; 0; 0; 0; 0; 0; 3; 57; 57; 112; 0; 0; 0; 13; 115; 121; 115; 116];
  [101; 109; 95; 115; 99; 104; 101; 109; 97; 0; 0; 0; 15; 100; 114; 111; 112; 112; 101; 100; 95; 99; 111; 108; 117; 109; 110; 115; 0; 0; 0; 3; 57; 57; 112; 0; 0; 0; 8; 63];
  [132; 122; 225; 71; 174; 20; 123; 0; 0; 0; 49; 0; 0; 0; 2; 0; 0; 0; 4; 107; 101; 121; 115; 0; 0; 0; 3; 65; 76; 76; 0; 0; 0; 18; 114; 111; 119; 115; 95; 112];
  [101; 114; 95; 112; 97; 114; 116; 105; 116; 105; 111; 110; 0; 0; 0; 4; 78; 79; 78; 69; 255; 255; 255; 255; 0; 0; 0; 23; 100; 114; 111; 112; 112; 101; 100; 32; 99; 111; 108; 117];
  [109; 110; 32; 114; 101; 103; 105; 115; 116; 114; 121; 0; 0; 0; 125; 0; 0; 0; 3; 0; 0; 0; 5; 99; 108; 97; 115; 115; 0; 0; 0; 63; 111; 114; 103; 46; 97; 112; 97; 99];
  [104; 101; 46; 99; 97; 115; 115; 97; 110; 100; 114; 97; 46; 100; 98; 46; 99; 111; 109; 112; 97; 99; 116; 105; 111; 110; 46; 83; 105; 122; 101; 84; 105; 101; 114; 101; 100; 67; 111; 109];
  [112; 97; 99; 116; 105; 111; 110; 83; 116; 114; 97; 116; 101; 103; 121; 0; 0; 0; 13; 109; 97; 120; 95; 116; 104; 114; 101; 115; 104; 111; 108; 100; 0; 0; 0; 2; 51; 50; 0; 0];
  [0; 13; 109; 105; 110; 95; 116; 104; 114; 101; 115; 104; 111; 108; 100; 0; 0; 0; 1; 52; 0; 0; 0; 91; 0; 0; 0; 2; 0; 0; 0; 18; 99; 104; 117; 110; 107; 95; 108; 101];
  [110; 103; 116; 104; 95; 105; 110; 95; 107; 98; 0; 0; 0; 2; 49; 54; 0; 0; 0; 5; 99; 108; 97; 115; 115; 0; 0; 0; 46; 111; 114; 103; 46; 97; 112; 97; 99; 104; 101; 46];
  [99; 97; 115; 115; 97; 110; 100; 114; 97; 46; 105; 111; 46; 99; 111; 109; 112; 114; 101; 115; 115; 46; 76; 90; 52; 67; 111; 109; 112; 114; 101; 115; 115; 111; 114; 0; 0; 0; 8; 63];
  [240; 0; 0; 0; 0; 0; 0; 0; 0; 0; 8; 0; 0; 0; 0; 0; 0; 0; 0; 0; 0; 0; 4; 0; 0; 0; 0; 0; 0; 0; 4; 0; 0; 0; 0; 0; 0; 0; 16; 0];
  [0; 0; 1; 0; 0; 0; 8; 99; 111; 109; 112; 111; 117; 110; 100; 0; 0; 0; 4; 0; 9; 58; 128; 0; 0; 0; 16; 94; 117; 131; 181; 243; 244; 58; 241; 154; 57; 183; 225; 214];
  [245; 241; 31; 0; 0; 0; 4; 0; 0; 8; 0; 0; 0; 0; 4; 0; 54; 238; 128; 0; 0; 0; 4; 0; 0; 0; 128; 0; 0; 0; 8; 66; 76; 79; 67; 75; 73; 78; 71; 0];
  [0; 0; 8; 0; 0; 0; 0; 0; 0; 0; 0; 0; 0; 0; 3; 57; 57; 112; 0; 0; 0; 13; 115; 121; 115; 116; 101; 109; 95; 115; 99; 104; 101; 109; 97; 0; 0; 0; 9; 102];
  [117; 110; 99; 116; 105; 111; 110; 115; 0; 0; 0; 3; 57; 57; 112; 0; 0; 0; 8; 63; 132; 122; 225; 71; 174; 20; 123; 0; 0; 0; 49; 0; 0; 0; 2; 0; 0; 0; 4; 107];
  [101; 121; 115; 0; 0; 0; 3; 65; 76; 76; 0; 0; 0; 18; 114; 111; 119; 115; 95; 112; 101; 114; 95; 112; 97; 114; 116; 105; 116; 105; 111; 110; 0; 0; 0; 4; 78; 79; 78; 69];
  [255; 255; 255; 255; 0; 0; 0; 33; 117; 115; 101; 114; 32; 100; 101; 102; 105; 110; 101; 100; 32; 102; 117; 110; 99; 116; 105; 111; 110; 32; 100; 101; 102; 105; 110; 105; 116; 105; 111; 110];
  [115; 0; 0; 0; 125; 0; 0; 0; 3; 0; 0; 0; 5; 99; 108; 97; 115; 115; 0; 0; 0; 63; 111; 114; 103; 46; 97; 112; 97; 99; 104; 101; 46; 99; 97; 115; 115; 97; 110; 100];
  [114; 97; 46; 100; 98; 46; 99; 111; 109; 112; 97; 99; 116; 105; 111; 110; 46; 83; 105; 122; 101; 84; 105; 101; 114; 101; 100; 67; 111; 109; 112; 97; 99; 116; 105; 111; 110; 83; 116; 114];
  [97; 116; 101; 103; 121; 0; 0; 0; 13; 109; 97; 120; 95; 116; 104; 114; 101; 115; 104; 111; 108; 100; 0; 0; 0; 2; 51; 50; 0; 0; 0; 13; 109; 105; 110; 95; 116; 104; 114; 101];
  [115; 104; 111; 108; 100; 0; 0; 0; 1; 52; 0; 0; 0; 91; 0; 0; 0; 2; 0; 0; 0; 18; 99; 104; 117; 110; 107; 95; 108; 101; 110; 103; 116; 104; 95; 105; 110; 95; 107; 98];
  [0; 0; 0; 2; 49; 54; 0; 0; 0; 5; 99; 108; 97; 115; 115; 0; 0; 0; 46; 111; 114; 103; 46; 97; 112; 97; 99; 104; 101; 46; 99; 97; 115; 115; 97; 110; 100; 114; 97; 46];
  [105; 111; 46; 99; 111; 109; 112; 114; 101; 115; 115; 46; 76; 90; 52; 67; 111; 109; 112; 114; 101; 115; 115; 111; 114; 0; 0; 0; 8; 63; 240; 0; 0; 0; 0; 0; 0; 0; 0; 0];
  [8; 0; 0; 0; 0; 0; 0; 0; 0; 0; 0; 0; 4; 0; 0; 0; 0; 0; 0; 0; 4; 0; 0; 0; 0; 0; 0; 0; 16; 0; 0; 0; 1; 0; 0; 0; 8; 99; 111; 109];
  [112; 111; 117; 110; 100; 0; 0; 0; 4; 0; 9; 58; 128; 0; 0; 0; 16; 150; 72; 155; 121; 128; 190; 62; 20; 167; 1; 102; 160; 185; 21; 148; 80; 0; 0; 0; 4; 0; 0; 8];
  [0; 0; 0; 0; 4; 0; 54; 238; 128; 0; 0; 0; 4; 0; 0; 0; 128; 0; 0; 0; 8; 66; 76; 79; 67; 75; 73; 78; 71; 0; 0; 0; 8; 0; 0; 0; 0; 0; 0; 0];
  [0; 0; 0; 0; 3; 57; 57; 112; 0; 0; 0; 13; 115; 121; 115; 116; 101; 109; 95; 115; 99; 104; 101; 109; 97; 0; 0; 0; 7; 105; 110; 100; 101; 120; 101; 115; 0; 0; 0; 3];
  [57; 57; 112; 0; 0; 0; 8; 63; 132; 122; 225; 71; 174; 20; 123; 0; 0; 0; 49; 0; 0; 0; 2; 0; 0; 0; 4; 107; 101; 121; 115; 0; 0; 0; 3; 65; 76; 76; 0; 0];
  [0; 18; 114; 111; 119; 115; 95; 112; 101; 114; 95; 112; 97; 114; 116; 105; 116; 105; 111; 110; 0; 0; 0; 4; 78; 79; 78; 69; 255; 255; 255; 255; 0; 0; 0; 27; 115; 101; 99; 111];
  [110; 100; 97; 114; 121; 32; 105; 110; 100; 101; 120; 32; 100; 101; 102; 105; 110; 105; 116; 105; 111; 110; 115; 0; 0; 0; 125; 0; 0; 0; 3; 0; 0; 0; 5; 99; 108; 97; 115; 115];
  [0; 0; 0; 63; 111; 114; 103; 46; 97; 112; 97; 99; 104; 101; 46; 99; 97; 115; 115; 97; 110; 100; 114; 97; 46; 100; 98; 46; 99; 111; 109; 112; 97; 99; 116; 105; 111; 110; 46; 83];
  [105; 122; 101; 84; 105; 101; 114; 101; 100; 67; 111; 109; 112; 97; 99; 116; 105; 111; 110; 83; 116; 114; 97; 116; 101; 103; 121; 0; 0; 0; 13; 109; 97; 120; 95; 116; 104; 114; 101; 115];
  [104; 111; 108; 100; 0; 0; 0; 2; 51; 50; 0; 0; 0; 13; 109; 105; 110; 95; 116; 104; 114; 101; 115; 104; 111; 108; 100; 0; 0; 0; 1; 52; 0; 0; 0; 91; 0; 0; 0; 2];
  [0; 0; 0; 18; 99; 104; 117; 110; 107; 95; 108; 101; 110; 103; 116; 104; 95; 105; 110; 95; 107; 98; 0; 0; 0; 2; 49; 54; 0; 0; 0; 5; 99; 108; 97; 115; 115; 0; 0; 0];
  [46; 111; 114; 103; 46; 97; 112; 97; 99; 104; 101; 46; 99; 97; 115; 115; 97; 110; 100; 114; 97; 46; 105; 111; 46; 99; 111; 109; 112; 114; 101; 115; 115; 46; 76; 90; 52; 67; 111; 109];
  [112; 114; 101; 115; 115; 111; 114; 0; 0; 0; 8; 63; 240; 0; 0; 0; 0; 0; 0; 0; 0; 0; 8; 0; 0; 0; 0; 0; 0; 0; 0; 0; 0; 0; 4; 0; 0; 0; 0; 0];
  [0; 0; 4; 0; 0; 0; 0; 0; 0; 0; 16; 0; 0; 0; 1; 0; 0; 0; 8; 99; 111; 109; 112; 111; 117; 110; 100; 0; 0; 0; 4; 0; 9; 58; 128; 0; 0; 0; 16; 15];
  [235; 87; 172; 49; 31; 56; 47; 186; 109; 144; 36; 211; 5; 112; 47; 0; 0; 0; 4; 0; 0; 8; 0; 0; 0; 0; 4; 0; 54; 238; 128; 0; 0; 0; 4; 0; 0; 0; 128; 0];
  [0; 0; 8; 66; 76; 79; 67; 75; 73; 78; 71; 0; 0; 0; 8; 0; 0; 0; 0; 0; 0; 0; 0; 0; 0; 0; 3; 57; 57; 112; 0; 0; 0; 13; 115; 121; 115; 116; 101; 109];
  [95; 115; 99; 104; 101; 109; 97; 0; 0; 0; 9; 107; 101; 121; 115; 112; 97; 99; 101; 115; 0; 0; 0; 3; 57; 57; 112; 0; 0; 0; 8; 63; 132; 122; 225; 71; 174; 20; 123; 0];
  [0; 0; 49; 0; 0; 0; 2; 0; 0; 0; 4; 107; 101; 121; 115; 0; 0; 0; 3; 65; 76; 76; 0; 0; 0; 18; 114; 111; 119; 115; 95; 112; 101; 114; 95; 112; 97; 114; 116; 105];
  [116; 105; 111; 110; 0; 0; 0; 4; 78; 79; 78; 69; 255; 255; 255; 255; 0; 0; 0; 20; 107; 101; 121; 115; 112; 97; 99; 101; 32; 100; 101; 102; 105; 110; 105; 116; 105; 111; 110; 115];
  [0; 0; 0; 125; 0; 0; 0; 3; 0; 0; 0; 5; 99; 108; 97; 115; 115; 0; 0; 0; 63; 111; 114; 103; 46; 97; 112; 97; 99; 104; 101; 46; 99; 97; 115; 115; 97; 110; 100; 114];
  [97; 46; 100; 98; 46; 99; 111; 109; 112; 97; 99; 116; 105; 111; 110; 46; 83; 105; 122; 101; 84; 105; 101; 114; 101; 100; 67; 111; 109; 112; 97; 99; 116; 105; 111; 110; 83; 116; 114; 97];
  [116; 101; 103; 121; 0; 0; 0; 13; 109; 97; 120; 95; 116; 104; 114; 101; 115; 104; 111; 108; 100; 0; 0; 0; 2; 51; 50; 0; 0; 0; 13; 109; 105; 110; 95; 116; 104; 114; 101; 115];
  [104; 111; 108; 100; 0; 0; 0; 1; 52; 0; 0; 0; 91; 0; 0; 0; 2; 0; 0; 0; 18; 99; 104; 117; 110; 107; 95; 108; 101; 110; 103; 116; 104; 95; 105; 110; 95; 107; 98; 0];
  [0; 0; 2; 49; 54; 0; 0; 0; 5; 99; 108; 97; 115; 115; 0; 0; 0; 46; 111; 114; 103; 46; 97; 112; 97; 99; 104; 101; 46; 99; 97; 115; 115; 97; 110; 100; 114; 97; 46; 105];
  [111; 46; 99; 111; 109; 112; 114; 101; 115; 115; 46; 76; 90; 52; 67; 111; 109; 112; 114; 101; 115; 115; 111; 114; 0; 0; 0; 8; 63; 240; 0; 0; 0; 0; 0; 0; 0; 0; 0; 8];
  [0; 0; 0; 0; 0; 0; 0; 0; 0; 0; 0; 4; 0; 0; 0; 0; 0; 0; 0; 4; 0; 0; 0; 0; 0; 0; 0; 16; 0; 0; 0; 1; 0; 0; 0; 8; 99; 111; 109; 112];
  [111; 117; 110; 100; 0; 0; 0; 4; 0; 9; 58; 128; 0; 0; 0; 16; 171; 172; 86; 130; 222; 166; 49; 197; 181; 53; 179; 214; 207; 253; 15; 182; 0; 0; 0; 4; 0; 0; 8; 0];
  [0; 0; 0; 4; 0; 54; 238; 128; 0; 0; 0; 4; 0; 0; 0; 128; 0; 0; 0; 8; 66; 76; 79; 67; 75; 73; 78; 71; 0; 0; 0; 8; 0; 0; 0; 0; 0; 0; 0; 0];
  [0; 0; 0; 3; 57; 57; 112; 0; 0; 0; 13; 115; 121; 115; 116; 101; 109; 95; 115; 99; 104; 101; 109; 97; 0; 0; 0; 6; 116; 97; 98; 108; 101; 115; 0; 0; 0; 3; 57; 57];
  [112; 0; 0; 0; 8; 63; 132; 122; 225; 71; 174; 20; 123; 0; 0; 0; 49; 0; 0; 0; 2; 0; 0; 0; 4; 107; 101; 121; 115; 0; 0; 0; 3; 65; 76; 76; 0; 0; 0; 18];
  [114; 111; 119; 115; 95; 112; 101; 114; 95; 112; 97; 114; 116; 105; 116; 105; 111; 110; 0; 0; 0; 4; 78; 79; 78; 69; 255; 255; 255; 255; 0; 0; 0; 17; 116; 97; 98; 108; 101; 32];
  [100; 101; 102; 105; 110; 105; 116; 105; 111; 110; 115; 0; 0; 0; 125; 0; 0; 0; 3; 0; 0; 0; 5; 99; 108; 97; 115; 115; 0; 0; 0; 63; 111; 114; 103; 46; 97; 112; 97; 99];
  [104; 101; 46; 99; 97; 115; 115; 97; 110; 100; 114; 97; 46; 100; 98; 46; 99; 111; 109; 112; 97; 99; 116; 105; 111; 110; 46; 83; 105; 122; 101; 84; 105; 101; 114; 101; 100; 67; 111; 109];
  [112; 97; 99; 116; 105; 111; 110; 83; 116; 114; 97; 116; 101; 103; 121; 0; 0; 0; 13; 109; 97; 120; 95; 116; 104; 114; 101; 115; 104; 111; 108; 100; 0; 0; 0; 2; 51; 50; 0; 0];
  [0; 13; 109; 105; 110; 95; 116; 104; 114; 101; 115; 104; 111; 108; 100; 0; 0; 0; 1; 52; 0; 0; 0; 91; 0; 0; 0; 2; 0; 0; 0; 18; 99; 104; 117; 110; 107; 95; 108; 101];
  [110; 103; 116; 104; 95; 105; 110; 95; 107; 98; 0; 0; 0; 2; 49; 54; 0; 0; 0; 5; 99; 108; 97; 115; 115; 0; 0; 0; 46; 111; 114; 103; 46; 97; 112; 97; 99; 104; 101; 46];
  [99; 97; 115; 115; 97; 110; 100; 114; 97; 46; 105; 111; 46; 99; 111; 109; 112; 114; 101; 115; 115; 46; 76; 90; 52; 67; 111; 109; 112; 114; 101; 115; 115; 111; 114; 0; 0; 0; 8; 63];
  [240; 0; 0; 0; 0; 0; 0; 0; 0; 0; 8; 0; 0; 0; 0; 0; 0; 0; 0; 0; 0; 0; 4; 0; 0; 0; 0; 0; 0; 0; 4; 0; 0; 0; 0; 0; 0; 0; 16; 0];
  [0; 0; 1; 0; 0; 0; 8; 99; 111; 109; 112; 111; 117; 110; 100; 0; 0; 0; 4; 0; 9; 58; 128; 0; 0; 0; 16; 175; 221; 251; 157; 188; 30; 48; 104; 128; 86; 238; 214; 195];
  [2; 186; 9; 0; 0; 0; 4; 0; 0; 8; 0; 0; 0; 0; 4; 0; 54; 238; 128; 0; 0; 0; 4; 0; 0; 0; 128; 0; 0; 0; 8; 66; 76; 79; 67; 75; 73; 78; 71; 0];
  [0; 0; 8; 0; 0; 0; 0; 0; 0; 0; 0; 0; 0; 0; 3; 57; 57; 112; 0; 0; 0; 13; 115; 121; 115; 116; 101; 109; 95; 115; 99; 104; 101; 109; 97; 0; 0; 0; 8; 116];
  [114; 105; 103; 103; 101; 114; 115; 0; 0; 0; 3; 57; 57; 112; 0; 0; 0; 8; 63; 132; 122; 225; 71; 174; 20; 123; 0; 0; 0; 49; 0; 0; 0; 2; 0; 0; 0; 4; 107; 101];
  [121; 115; 0; 0; 0; 3; 65; 76; 76; 0; 0; 0; 18; 114; 111; 119; 115; 95; 112; 101; 114; 95; 112; 97; 114; 116; 105; 116; 105; 111; 110; 0; 0; 0; 4; 78; 79; 78; 69; 255];
  [255; 255; 255; 0; 0; 0; 19; 116; 114; 105; 103; 103; 101; 114; 32; 100; 101; 102; 105; 110; 105; 116; 105; 111; 110; 115; 0; 0; 0; 125; 0; 0; 0; 3; 0; 0; 0; 5; 99; 108];
  [97; 115; 115; 0; 0; 0; 63; 111; 114; 103; 46; 97; 112; 97; 99; 104; 101; 46; 99; 97; 115; 115; 97; 110; 100; 114; 97; 46; 100; 98; 46; 99; 111; 109; 112; 97; 99; 116; 105; 111];
  [110; 46; 83; 105; 122; 101; 84; 105; 101; 114; 101; 100; 67; 111; 109; 112; 97; 99; 116; 105; 111; 110; 83; 116; 114; 97; 116; 101; 103; 121; 0; 0; 0; 13; 109; 97; 120; 95; 116; 104];
  [114; 101; 115; 104; 111; 108; 100; 0; 0; 0; 2; 51; 50; 0; 0; 0; 13; 109; 105; 110; 95; 116; 104; 114; 101; 115; 104; 111; 108; 100; 0; 0; 0; 1; 52; 0; 0; 0; 91; 0];
  [0; 0; 2; 0; 0; 0; 18; 99; 104; 117; 110; 107; 95; 108; 101; 110; 103; 116; 104; 95; 105; 110; 95; 107; 98; 0; 0; 0; 2; 49; 54; 0; 0; 0; 5; 99; 108; 97; 115; 115];
  [0; 0; 0; 46; 111; 114; 103; 46; 97; 112; 97; 99; 104; 101; 46; 99; 97; 115; 115; 97; 110; 100; 114; 97; 46; 105; 111; 46; 99; 111; 109; 112; 114; 101; 115; 115; 46; 76; 90; 52];
  [67; 111; 109; 112; 114; 101; 115; 115; 111; 114; 0; 0; 0; 8; 63; 240; 0; 0; 0; 0; 0; 0; 0; 0; 0; 8; 0; 0; 0; 0; 0; 0; 0; 0; 0; 0; 0; 4; 0; 0];
  [0; 0; 0; 0; 0; 4; 0; 0; 0; 0; 0; 0; 0; 16; 0; 0; 0; 1; 0; 0; 0; 8; 99; 111; 109; 112; 111; 117; 110; 100; 0; 0; 0; 4; 0; 9; 58; 128; 0; 0];
  [0; 16; 77; 247; 11; 102; 107; 5; 50; 81; 149; 161; 50; 181; 64; 5; 253; 72; 0; 0; 0; 4; 0; 0; 8; 0; 0; 0; 0; 4; 0; 54; 238; 128; 0; 0; 0; 4; 0; 0];
  [0; 128; 0; 0; 0; 8; 66; 76; 79; 67; 75; 73; 78; 71; 0; 0; 0; 8; 0; 0; 0; 0; 0; 0; 0; 0; 0; 0; 0; 3; 57; 57; 112; 0; 0; 0; 13; 115; 121; 115];
  [116; 101; 109; 95; 115; 99; 104; 101; 109; 97; 0; 0; 0; 5; 116; 121; 112; 101; 115; 0; 0; 0; 3; 57; 57; 112; 0; 0; 0; 8; 63; 132; 122; 225; 71; 174; 20; 123; 0; 0];
  [0; 49; 0; 0; 0; 2; 0; 0; 0; 4; 107; 101; 121; 115; 0; 0; 0; 3; 65; 76; 76; 0; 0; 0; 18; 114; 111; 119; 115; 95; 112; 101; 114; 95; 112; 97; 114; 116; 105; 116];
  [105; 111; 110; 0; 0; 0; 4; 78; 79; 78; 69; 255; 255; 255; 255; 0; 0; 0; 29; 117; 115; 101; 114; 32; 100; 101; 102; 105; 110; 101; 100; 32; 116; 121; 112; 101; 32; 100; 101; 102];
  [105; 110; 105; 116; 105; 111; 110; 115; 0; 0; 0; 125; 0; 0; 0; 3; 0; 0; 0; 5; 99; 108; 97; 115; 115; 0; 0; 0; 63; 111; 114; 103; 46; 97; 112; 97; 99; 104; 101; 46];
  [99; 97; 115; 115; 97; 110; 100; 114; 97; 46; 100; 98; 46; 99; 111; 109; 112; 97; 99; 116; 105; 111; 110; 46; 83; 105; 122; 101; 84; 105; 101; 114; 101; 100; 67; 111; 109; 112; 97; 99];
  [116; 105; 111; 110; 83; 116; 114; 97; 116; 101; 103; 121; 0; 0; 0; 13; 109; 97; 120; 95; 116; 104; 114; 101; 115; 104; 111; 108; 100; 0; 0; 0; 2; 51; 50; 0; 0; 0; 13; 109];
  [105; 110; 95; 116; 104; 114; 101; 115; 104; 111; 108; 100; 0; 0; 0; 1; 52; 0; 0; 0; 91; 0; 0; 0; 2; 0; 0; 0; 18; 99; 104; 117; 110; 107; 95; 108; 101; 110; 103; 116];
  [104; 95; 105; 110; 95; 107; 98; 0; 0; 0; 2; 49; 54; 0; 0; 0; 5; 99; 108; 97; 115; 115; 0; 0; 0; 46; 111; 114; 103; 46; 97; 112; 97; 99; 104; 101; 46; 99; 97; 115];
  [115; 97; 110; 100; 114; 97; 46; 105; 111; 46; 99; 111; 109; 112; 114; 101; 115; 115; 46; 76; 90; 52; 67; 111; 109; 112; 114; 101; 115; 115; 111; 114; 0; 0; 0; 8; 63; 240; 0; 0];
  [0; 0; 0; 0; 0; 0; 0; 8; 0; 0; 0; 0; 0; 0; 0; 0; 0; 0; 0; 4; 0; 0; 0; 0; 0; 0; 0; 4; 0; 0; 0; 0; 0; 0; 0; 16; 0; 0; 0; 1];
  [0; 0; 0; 8; 99; 111; 109; 112; 111; 117; 110; 100; 0; 0; 0; 4; 0; 9; 58; 128; 0; 0; 0; 16; 90; 139; 28; 168; 102; 2; 63; 119; 160; 69; 146; 115; 211; 8; 145; 122];
  [0; 0; 0; 4; 0; 0; 8; 0; 0; 0; 0; 4; 0; 54; 238; 128; 0; 0; 0; 4; 0; 0; 0; 128; 0; 0; 0; 8; 66; 76; 79; 67; 75; 73; 78; 71; 0; 0; 0; 8];
  [0; 0; 0; 0; 0; 0; 0; 0; 0; 0; 0; 3; 57; 57; 112; 0; 0; 0; 13; 115; 121; 115; 116; 101; 109; 95; 115; 99; 104; 101; 109; 97; 0; 0; 0; 5; 118; 105; 101; 119];
  [115; 0; 0; 0; 3; 57; 57; 112; 0; 0; 0; 8; 63; 132; 122; 225; 71; 174; 20; 123; 0; 0; 0; 49; 0; 0; 0; 2; 0; 0; 0; 4; 107; 101; 121; 115; 0; 0; 0; 3];
  [65; 76; 76; 0; 0; 0; 18; 114; 111; 119; 115; 95; 112; 101; 114; 95; 112; 97; 114; 116; 105; 116; 105; 111; 110; 0; 0; 0; 4; 78; 79; 78; 69; 255; 255; 255; 255; 0; 0; 0];
  [16; 118; 105; 101; 119; 32; 100; 101; 102; 105; 110; 105; 116; 105; 111; 110; 115; 0; 0; 0; 125; 0; 0; 0; 3; 0; 0; 0; 5; 99; 108; 97; 115; 115; 0; 0; 0; 63; 111; 114];
  [103; 46; 97; 112; 97; 99; 104; 101; 46; 99; 97; 115; 115; 97; 110; 100; 114; 97; 46; 100; 98; 46; 99; 111; 109; 112; 97; 99; 116; 105; 111; 110; 46; 83; 105; 122; 101; 84; 105; 101];
  [114; 101; 100; 67; 111; 109; 112; 97; 99; 116; 105; 111; 110; 83; 116; 114; 97; 116; 101; 103; 121; 0; 0; 0; 13; 109; 97; 120; 95; 116; 104; 114; 101; 115; 104; 111; 108; 100; 0; 0];
  [0; 2; 51; 50; 0; 0; 0; 13; 109; 105; 110; 95; 116; 104; 114; 101; 115; 104; 111; 108; 100; 0; 0; 0; 1; 52; 0; 0; 0; 91; 0; 0; 0; 2; 0; 0; 0; 18; 99; 104];
  [117; 110; 107; 95; 108; 101; 110; 103; 116; 104; 95; 105; 110; 95; 107; 98; 0; 0; 0; 2; 49; 54; 0; 0; 0; 5; 99; 108; 97; 115; 115; 0; 0; 0; 46; 111; 114; 103; 46; 97];
  [112; 97; 99; 104; 101; 46; 99; 97; 115; 115; 97; 110; 100; 114; 97; 46; 105; 111; 46; 99; 111; 109; 112; 114; 101; 115; 115; 46; 76; 90; 52; 67; 111; 109; 112; 114; 101; 115; 115; 111];
  [114; 0; 0; 0; 8; 63; 240; 0; 0; 0; 0; 0; 0; 0; 0; 0; 8; 0; 0; 0; 0; 0; 0; 0; 0; 0; 0; 0; 4; 0; 0; 0; 0; 0; 0; 0; 4; 0; 0; 0];
  [0; 0; 0; 0; 16; 0; 0; 0; 1; 0; 0; 0; 8; 99; 111; 109; 112; 111; 117; 110; 100; 0; 0; 0; 4; 0; 9; 58; 128; 0; 0; 0; 16; 151; 134; 172; 28; 221; 88; 50];
  [1; 167; 205; 173; 85; 100; 16; 201; 133; 0; 0; 0; 4; 0; 0; 8; 0; 0; 0; 0; 4; 0; 54; 238; 128; 0; 0; 0; 4; 0; 0; 0; 128; 0; 0; 0; 8; 66; 76; 79];
  [67; 75; 73; 78; 71; 0; 0; 0; 8; 0; 0; 0; 0; 0; 0; 0; 0; 0; 0; 0; 3; 57; 57; 112; 0; 0; 0; 18; 115; 121; 115; 116; 101; 109; 95; 100; 105; 115; 116; 114];
  [105; 98; 117; 116; 101; 100; 0; 0; 0; 21; 112; 97; 114; 101; 110; 116; 95; 114; 101; 112; 97; 105; 114; 95; 104; 105; 115; 116; 111; 114; 121; 0; 0; 0; 3; 57; 57; 112; 0; 0];
  [0; 8; 63; 132; 122; 225; 71; 174; 20; 123; 0; 0; 0; 49; 0; 0; 0; 2; 0; 0; 0; 4; 107; 101; 121; 115; 0; 0; 0; 3; 65; 76; 76; 0; 0; 0; 18; 114; 111; 119];
  [115; 95; 112; 101; 114; 95; 112; 97; 114; 116; 105; 116; 105; 111; 110; 0; 0; 0; 4; 78; 79; 78; 69; 255; 255; 255; 255; 0; 0; 0; 14; 82; 101; 112; 97; 105; 114; 32; 104; 105];
  [115; 116; 111; 114; 121; 0; 0; 0; 190; 0; 0; 0; 5; 0; 0; 0; 5; 99; 108; 97; 115; 115; 0; 0; 0; 63; 111; 114; 103; 46; 97; 112; 97; 99; 104; 101; 46; 99; 97; 115];
  [115; 97; 110; 100; 114; 97; 46; 100; 98; 46; 99; 111; 109; 112; 97; 99; 116; 105; 111; 110; 46; 84; 105; 109; 101; 87; 105; 110; 100; 111; 119; 67; 111; 109; 112; 97; 99; 116; 105; 111];
  [110; 83; 116; 114; 97; 116; 101; 103; 121; 0; 0; 0; 22; 99; 111; 109; 112; 97; 99; 116; 105; 111; 110; 95; 119; 105; 110; 100; 111; 119; 95; 115; 105; 122; 101; 0; 0; 0; 1; 49];
  [0; 0; 0; 22; 99; 111; 109; 112; 97; 99; 116; 105; 111; 110; 95; 119; 105; 110; 100; 111; 119; 95; 117; 110; 105; 116; 0; 0; 0; 4; 68; 65; 89; 83; 0; 0; 0; 13; 109; 97];
  [120; 95; 116; 104; 114; 101; 115; 104; 111; 108; 100; 0; 0; 0; 2; 51; 50; 0; 0; 0; 13; 109; 105; 110; 95; 116; 104; 114; 101; 115; 104; 111; 108; 100; 0; 0; 0; 1; 52; 0];
  [0; 0; 91; 0; 0; 0; 2; 0; 0; 0; 18; 99; 104; 117; 110; 107; 95; 108; 101; 110; 103; 116; 104; 95; 105; 110; 95; 107; 98; 0; 0; 0; 2; 49; 54; 0; 0; 0; 5; 99];
  [108; 97; 115; 115; 0; 0; 0; 46; 111; 114; 103; 46; 97; 112; 97; 99; 104; 101; 46; 99; 97; 115; 115; 97; 110; 100; 114; 97; 46; 105; 111; 46; 99; 111; 109; 112; 114; 101; 115; 115];
  [46; 76; 90; 52; 67; 111; 109; 112; 114; 101; 115; 115; 111; 114; 0; 0; 0; 8; 63; 240; 0; 0; 0; 0; 0; 0; 0; 0; 0; 8; 0; 0; 0; 0; 0; 0; 0; 0; 0; 0];
  [0; 4; 0; 39; 141; 0; 0; 0; 0; 4; 0; 0; 0; 0; 0; 0; 0; 16; 0; 0; 0; 1; 0; 0; 0; 8; 99; 111; 109; 112; 111; 117; 110; 100; 0; 0; 0; 4; 0; 13];
  [47; 0; 0; 0; 0; 16; 222; 171; 215; 52; 185; 157; 59; 156; 146; 229; 253; 146; 235; 90; 191; 20; 0; 0; 0; 4; 0; 0; 8; 0; 0; 0; 0; 4; 0; 0; 0; 0; 0; 0];
  [0; 4; 0; 0; 0; 128; 0; 0; 0; 8; 66; 76; 79; 67; 75; 73; 78; 71; 0; 0; 0; 8; 0; 0; 0; 0; 0; 0; 0; 0; 0; 0; 0; 3; 57; 57; 112; 0; 0; 0];
  [18; 115; 121; 115; 116; 101; 109; 95; 100; 105; 115; 116; 114; 105; 98; 117; 116; 101; 100; 0; 0; 0; 14; 114; 101; 112; 97; 105; 114; 95; 104; 105; 115; 116; 111; 114; 121; 0; 0; 0];
  [3; 57; 57; 112; 0; 0; 0; 8; 63; 132; 122; 225; 71; 174; 20; 123; 0; 0; 0; 49; 0; 0; 0; 2; 0; 0; 0; 4; 107; 101; 121; 115; 0; 0; 0; 3; 65; 76; 76; 0];
  [0; 0; 18; 114; 111; 119; 115; 95; 112; 101; 114; 95; 112; 97; 114; 116; 105; 116; 105; 111; 110; 0; 0; 0; 4; 78; 79; 78; 69; 255; 255; 255; 255; 0; 0; 0; 14; 82; 101; 112];
  [97; 105; 114; 32; 104; 105; 115; 116; 111; 114; 121; 0; 0; 0; 190; 0; 0; 0; 5; 0; 0; 0; 5; 99; 108; 97; 115; 115; 0; 0; 0; 63; 111; 114; 103; 46; 97; 112; 97; 99];
  [104; 101; 46; 99; 97; 115; 115; 97; 110; 100; 114; 97; 46; 100; 98; 46; 99; 111; 109; 112; 97; 99; 116; 105; 111; 110; 46; 84; 105; 109; 101; 87; 105; 110; 100; 111; 119; 67; 111; 109];
  [112; 97; 99; 116; 105; 111; 110; 83; 116; 114; 97; 116; 101; 103; 121; 0; 0; 0; 22; 99; 111; 109; 112; 97; 99; 116; 105; 111; 110; 95; 119; 105; 110; 100; 111; 119; 95; 115; 105; 122];
  [101; 0; 0; 0; 1; 49; 0; 0; 0; 22; 99; 111; 109; 112; 97; 99; 116; 105; 111; 110; 95; 119; 105; 110; 100; 111; 119; 95; 117; 110; 105; 116; 0; 0; 0; 4; 68; 65; 89; 83];
  [0; 0; 0; 13; 109; 97; 120; 95; 116; 104; 114; 101; 115; 104; 111; 108; 100; 0; 0; 0; 2; 51; 50; 0; 0; 0; 13; 109; 105; 110; 95; 116; 104; 114; 101; 115; 104; 111; 108; 100];
  [0; 0; 0; 1; 52; 0; 0; 0; 91; 0; 0; 0; 2; 0; 0; 0; 18; 99; 104; 117; 110; 107; 95; 108; 101; 110; 103; 116; 104; 95; 105; 110; 95; 107; 98; 0; 0; 0; 2; 49];
  [54; 0; 0; 0; 5; 99; 108; 97; 115; 115; 0; 0; 0; 46; 111; 114; 103; 46; 97; 112; 97; 99; 104; 101; 46; 99; 97; 115; 115; 97; 110; 100; 114; 97; 46; 105; 111; 46; 99; 111];
  [109; 112; 114; 101; 115; 115; 46; 76; 90; 52; 67; 111; 109; 112; 114; 101; 115; 115; 111; 114; 0; 0; 0; 8; 63; 240; 0; 0; 0; 0; 0; 0; 0; 0; 0; 8; 0; 0; 0; 0];
  [0; 0; 0; 0; 0; 0; 0; 4; 0; 39; 141; 0; 0; 0; 0; 4; 0; 0; 0; 0; 0; 0; 0; 16; 0; 0; 0; 1; 0; 0; 0; 8; 99; 111; 109; 112; 111; 117; 110; 100];
  [0; 0; 0; 4; 0; 13; 47; 0; 0; 0; 0; 16; 117; 159; 255; 173; 98; 75; 49; 129; 128; 238; 250; 154; 82; 209; 246; 39; 0; 0; 0; 4; 0; 0; 8; 0; 0; 0; 0; 4];
  [0; 0; 0; 0; 0; 0; 0; 4; 0; 0; 0; 128; 0; 0; 0; 8; 66; 76; 79; 67; 75; 73; 78; 71; 0; 0; 0; 8; 0; 0; 0; 0; 0; 0; 0; 0; 0; 0; 0; 3];
  [57; 57; 112; 0; 0; 0; 18; 115; 121; 115; 116; 101; 109; 95; 100; 105; 115; 116; 114; 105; 98; 117; 116; 101; 100; 0; 0; 0; 17; 118; 105; 101; 119; 95; 98; 117; 105; 108; 100; 95];
  [115; 116; 97; 116; 117; 115; 0; 0; 0; 3; 57; 57; 112; 0; 0; 0; 8; 63; 132; 122; 225; 71; 174; 20; 123; 0; 0; 0; 49; 0; 0; 0; 2; 0; 0; 0; 4; 107; 101; 121];
  [115; 0; 0; 0; 3; 65; 76; 76; 0; 0; 0; 18; 114; 111; 119; 115; 95; 112; 101; 114; 95; 112; 97; 114; 116; 105; 116; 105; 111; 110; 0; 0; 0; 4; 78; 79; 78; 69; 255; 255];
  [255; 255; 0; 0; 0; 30; 77; 97; 116; 101; 114; 105; 97; 108; 105; 122; 101; 100; 32; 86; 105; 101; 119; 32; 98; 117; 105; 108; 100; 32; 115; 116; 97; 116; 117; 115; 0; 0; 0; 125];
  [0; 0; 0; 3; 0; 0; 0; 5; 99; 108; 97; 115; 115; 0; 0; 0; 63; 111; 114; 103; 46; 97; 112; 97; 99; 104; 101; 46; 99; 97; 115; 115; 97; 110; 100; 114; 97; 46; 100; 98];
  [46; 99; 111; 109; 112; 97; 99; 116; 105; 111; 110; 46; 83; 105; 122; 101; 84; 105; 101; 114; 101; 100; 67; 111; 109; 112; 97; 99; 116; 105; 111; 110; 83; 116; 114; 97; 116; 101; 103; 121];
  [0; 0; 0; 13; 109; 97; 120; 95; 116; 104; 114; 101; 115; 104; 111; 108; 100; 0; 0; 0; 2; 51; 50; 0; 0; 0; 13; 109; 105; 110; 95; 116; 104; 114; 101; 115; 104; 111; 108; 100];
  [0; 0; 0; 1; 52; 0; 0; 0; 91; 0; 0; 0; 2; 0; 0; 0; 18; 99; 104; 117; 110; 107; 95; 108; 101; 110; 103; 116; 104; 95; 105; 110; 95; 107; 98; 0; 0; 0; 2; 49];
  [54; 0; 0; 0; 5; 99; 108; 97; 115; 115; 0; 0; 0; 46; 111; 114; 103; 46; 97; 112; 97; 99; 104; 101; 46; 99; 97; 115; 115; 97; 110; 100; 114; 97; 46; 105; 111; 46; 99; 111];
  [109; 112; 114; 101; 115; 115; 46; 76; 90; 52; 67; 111; 109; 112; 114; 101; 115; 115; 111; 114; 0; 0; 0; 8; 63; 240; 0; 0; 0; 0; 0; 0; 0; 0; 0; 8; 0; 0; 0; 0];
  [0; 0; 0; 0; 0; 0; 0; 4; 0; 0; 0; 0; 0; 0; 0; 4; 0; 0; 0; 0; 0; 0; 0; 16; 0; 0; 0; 1; 0; 0; 0; 8; 99; 111; 109; 112; 111; 117; 110; 100];
  [0; 0; 0; 4; 0; 13; 47; 0; 0; 0; 0; 16; 85; 130; 181; 159; 142; 78; 53; 225; 185; 19; 58; 202; 218; 81; 235; 4; 0; 0; 0; 4; 0; 0; 8; 0; 0; 0; 0; 4];
  [0; 0; 0; 0; 0; 0; 0; 4; 0; 0; 0; 128; 0; 0; 0; 8; 66; 76; 79; 67; 75; 73; 78; 71; 0; 0; 0; 8; 0; 0; 0; 0; 0; 0; 0; 0; 0; 0; 0; 3];
  [57; 57; 112; 0; 0; 0; 6; 115; 121; 115; 116; 101; 109; 0; 0; 0; 9; 73; 110; 100; 101; 120; 73; 110; 102; 111; 0; 0; 0; 3; 57; 57; 112; 0; 0; 0; 8; 63; 132; 122];
  [225; 71; 174; 20; 123; 0; 0; 0; 49; 0; 0; 0; 2; 0; 0; 0; 4; 107; 101; 121; 115; 0; 0; 0; 3; 65; 76; 76; 0; 0; 0; 18; 114; 111; 119; 115; 95; 112; 101; 114];
  [95; 112; 97; 114; 116; 105; 116; 105; 111; 110; 0; 0; 0; 4; 78; 79; 78; 69; 255; 255; 255; 255; 0; 0; 0; 20; 98; 117; 105; 108; 116; 32; 99; 111; 108; 117; 109; 110; 32; 105];
  [110; 100; 101; 120; 101; 115; 0; 0; 0; 125; 0; 0; 0; 3; 0; 0; 0; 5; 99; 108; 97; 115; 115; 0; 0; 0; 63; 111; 114; 103; 46; 97; 112; 97; 99; 104; 101; 46; 99; 97];
  [115; 115; 97; 110; 100; 114; 97; 46; 100; 98; 46; 99; 111; 109; 112; 97; 99; 116; 105; 111; 110; 46; 83; 105; 122; 101; 84; 105; 101; 114; 101; 100; 67; 111; 109; 112; 97; 99; 116; 105];
  [111; 110; 83; 116; 114; 97; 116; 101; 103; 121; 0; 0; 0; 13; 109; 97; 120; 95; 116; 104; 114; 101; 115; 104; 111; 108; 100; 0; 0; 0; 2; 51; 50; 0; 0; 0; 13; 109; 105; 110];
  [95; 116; 104; 114; 101; 115; 104; 111; 108; 100; 0; 0; 0; 1; 52; 0; 0; 0; 91; 0; 0; 0; 2; 0; 0; 0; 18; 99; 104; 117; 110; 107; 95; 108; 101; 110; 103; 116; 104; 95];
  [105; 110; 95; 107; 98; 0; 0; 0; 2; 49; 54; 0; 0; 0; 5; 99; 108; 97; 115; 115; 0; 0; 0; 46; 111; 114; 103; 46; 97; 112; 97; 99; 104; 101; 46; 99; 97; 115; 115; 97];
  [110; 100; 114; 97; 46; 105; 111; 46; 99; 111; 109; 112; 114; 101; 115; 115; 46; 76; 90; 52; 67; 111; 109; 112; 114; 101; 115; 115; 111; 114; 0; 0; 0; 8; 63; 240; 0; 0; 0; 0];
  [0; 0; 0; 0; 0; 8; 0; 0; 0; 0; 0; 0; 0; 0; 0; 0; 0; 4; 0; 0; 0; 0; 0; 0; 0; 4; 0; 0; 0; 0; 0; 0; 0; 16; 0; 0; 0; 1; 0; 0];
  [0; 8; 99; 111; 109; 112; 111; 117; 110; 100; 0; 0; 0; 4; 0; 0; 0; 0; 0; 0; 0; 16; 159; 92; 99; 116; 212; 133; 50; 41; 154; 10; 80; 148; 175; 154; 209; 227; 0; 0];
  [0; 4; 0; 0; 8; 0; 0; 0; 0; 4; 0; 54; 238; 128; 0; 0; 0; 4; 0; 0; 0; 128; 0; 0; 0; 8; 66; 76; 79; 67; 75; 73; 78; 71; 0; 0; 0; 8; 0; 0];
  [0; 0; 0; 0; 0; 0; 0; 0; 0; 3; 57; 57; 112; 0; 0; 0; 6; 115; 121; 115; 116; 101; 109; 0; 0; 0; 16; 97; 118; 97; 105; 108; 97; 98; 108; 101; 95; 114; 97; 110];
  [103; 101; 115; 0; 0; 0; 3; 57; 57; 112; 0; 0; 0; 8; 63; 132; 122; 225; 71; 174; 20; 123; 0; 0; 0; 49; 0; 0; 0; 2; 0; 0; 0; 4; 107; 101; 121; 115; 0; 0];
  [0; 3; 65; 76; 76; 0; 0; 0; 18; 114; 111; 119; 115; 95; 112; 101; 114; 95; 112; 97; 114; 116; 105; 116; 105; 111; 110; 0; 0; 0; 4; 78; 79; 78; 69; 255; 255; 255; 255; 0];
  [0; 0; 78; 97; 118; 97; 105; 108; 97; 98; 108; 101; 32; 107; 101; 121; 115; 112; 97; 99; 101; 47; 114; 97; 110; 103; 101; 115; 32; 100; 117; 114; 105; 110; 103; 32; 98; 111; 111; 116];
  [115; 116; 114; 97; 112; 47; 114; 101; 112; 108; 97; 99; 101; 32; 116; 104; 97; 116; 32; 97; 114; 101; 32; 114; 101; 97; 100; 121; 32; 116; 111; 32; 98; 101; 32; 115; 101; 114; 118; 101];
  [100; 0; 0; 0; 125; 0; 0; 0; 3; 0; 0; 0; 5; 99; 108; 97; 115; 115; 0; 0; 0; 63; 111; 114; 103; 46; 97; 112; 97; 99; 104; 101; 46; 99; 97; 115; 115; 97; 110; 100];
  [114; 97; 46; 100; 98; 46; 99; 111; 109; 112; 97; 99; 116; 105; 111; 110; 46; 83; 105; 122; 101; 84; 105; 101; 114; 101; 100; 67; 111; 109; 112; 97; 99; 116; 105; 111; 110; 83; 116; 114];
  [97; 116; 101; 103; 121; 0; 0; 0; 13; 109; 97; 120; 95; 116; 104; 114; 101; 115; 104; 111; 108; 100; 0; 0; 0; 2; 51; 50; 0; 0; 0; 13; 109; 105; 110; 95; 116; 104; 114; 101];
  [115; 104; 111; 108; 100; 0; 0; 0; 1; 52; 0; 0; 0; 91; 0; 0; 0; 2; 0; 0; 0; 18; 99; 104; 117; 110; 107; 95; 108; 101; 110; 103; 116; 104; 95; 105; 110; 95; 107; 98];
  [0; 0; 0; 2; 49; 54; 0; 0; 0; 5; 99; 108; 97; 115; 115; 0; 0; 0; 46; 111; 114; 103; 46; 97; 112; 97; 99; 104; 101; 46; 99; 97; 115; 115; 97; 110; 100; 114; 97; 46];
  [105; 111; 46; 99; 111; 109; 112; 114; 101; 115; 115; 46; 76; 90; 52; 67; 111; 109; 112; 114; 101; 115; 115; 111; 114; 0; 0; 0; 8; 63; 240; 0; 0; 0; 0; 0; 0; 0; 0; 0];
  [8; 0; 0; 0; 0; 0; 0; 0; 0; 0; 0; 0; 4; 0; 0; 0; 0; 0; 0; 0; 4; 0; 0; 0; 0; 0; 0; 0; 16; 0; 0; 0; 1; 0; 0; 0; 8; 99; 111; 109];
  [112; 111; 117; 110; 100; 0; 0; 0; 4; 0; 0; 0; 0; 0; 0; 0; 16; 197; 57; 252; 171; 214; 90; 49; 209; 129; 51; 210; 86; 5; 100; 62; 227; 0; 0; 0; 4; 0; 0; 8];
  [0; 0; 0; 0; 4; 0; 54; 238; 128; 0; 0; 0; 4; 0; 0; 0; 128; 0; 0; 0; 8; 66; 76; 79; 67; 75; 73; 78; 71; 0; 0; 0; 8; 0; 0; 0; 0; 0; 0; 0];
  [0; 0; 0; 0; 3; 57; 57; 112; 0; 0; 0; 6; 115; 121; 115; 116; 101; 109; 0; 0; 0; 19; 97; 118; 97; 105; 108; 97; 98; 108; 101; 95; 114; 97; 110; 103; 101; 115; 95; 118];
  [50; 0; 0; 0; 3; 57; 57; 112; 0; 0; 0; 8; 63; 132; 122; 225; 71; 174; 20; 123; 0; 0; 0; 49; 0; 0; 0; 2; 0; 0; 0; 4; 107; 101; 121; 115; 0; 0; 0; 3];
  [65; 76; 76; 0; 0; 0; 18; 114; 111; 119; 115; 95; 112; 101; 114; 95; 112; 97; 114; 116; 105; 116; 105; 111; 110; 0; 0; 0; 4; 78; 79; 78; 69; 255; 255; 255; 255; 0; 0; 0];
  [78; 97; 118; 97; 105; 108; 97; 98; 108; 101; 32; 107; 101; 121; 115; 112; 97; 99; 101; 47; 114; 97; 110; 103; 101; 115; 32; 100; 117; 114; 105; 110; 103; 32; 98; 111; 111; 116; 115; 116];
  [114; 97; 112; 47; 114; 101; 112; 108; 97; 99; 101; 32; 116; 104; 97; 116; 32; 97; 114; 101; 32; 114; 101; 97; 100; 121; 32; 116; 111; 32; 98; 101; 32; 115; 101; 114; 118; 101; 100; 0];
  [0; 0; 125; 0; 0; 0; 3; 0; 0; 0; 5; 99; 108; 97; 115; 115; 0; 0; 0; 63; 111; 114; 103; 46; 97; 112; 97; 99; 104; 101; 46; 99; 97; 115; 115; 97; 110; 100; 114; 97];
  [46; 100; 98; 46; 99; 111; 109; 112; 97; 99; 116; 105; 111; 110; 46; 83; 105; 122; 101; 84; 105; 101; 114; 101; 100; 67; 111; 109; 112; 97; 99; 116; 105; 111; 110; 83; 116; 114; 97; 116];
  [101; 103; 121; 0; 0; 0; 13; 109; 97; 120; 95; 116; 104; 114; 101; 115; 104; 111; 108; 100; 0; 0; 0; 2; 51; 50; 0; 0; 0; 13; 109; 105; 110; 95; 116; 104; 114; 101; 115; 104];
  [111; 108; 100; 0; 0; 0; 1; 52; 0; 0; 0; 91; 0; 0; 0; 2; 0; 0; 0; 18; 99; 104; 117; 110; 107; 95; 108; 101; 110; 103; 116; 104; 95; 105; 110; 95; 107; 98; 0; 0];
  [0; 2; 49; 54; 0; 0; 0; 5; 99; 108; 97; 115; 115; 0; 0; 0; 46; 111; 114; 103; 46; 97; 112; 97; 99; 104; 101; 46; 99; 97; 115; 115; 97; 110; 100; 114; 97; 46; 105; 111];
  [46; 99; 111; 109; 112; 114; 101; 115; 115; 46; 76; 90; 52; 67; 111; 109; 112; 114; 101; 115; 115; 111; 114; 0; 0; 0; 8; 63; 240; 0; 0; 0; 0; 0; 0; 0; 0; 0; 8; 0];
  [0; 0; 0; 0; 0; 0; 0; 0; 0; 0; 4; 0; 0; 0; 0; 0; 0; 0; 4; 0; 0; 0; 0; 0; 0; 0; 16; 0; 0; 0; 1; 0; 0; 0; 8; 99; 111; 109; 112; 111];
  [117; 110; 100; 0; 0; 0; 4; 0; 0; 0; 0; 0; 0; 0; 16; 66; 36; 160; 136; 42; 201; 61; 12; 136; 157; 251; 181; 240; 250; 205; 160; 0; 0; 0; 4; 0; 0; 8; 0; 0];
  [0; 0; 4; 0; 54; 238; 128; 0; 0; 0; 4; 0; 0; 0; 128; 0; 0; 0; 8; 66; 76; 79; 67; 75; 73; 78; 71; 0; 0; 0; 8; 0; 0; 0; 0; 0; 0; 0; 0; 0];
  [0; 0; 3; 57; 57; 112; 0; 0; 0; 6; 115; 121; 115; 116; 101; 109; 0; 0; 0; 7; 98; 97; 116; 99; 104; 101; 115; 0; 0; 0; 3; 57; 57; 112; 0; 0; 0; 8; 63; 132];
  [122; 225; 71; 174; 20; 123; 0; 0; 0; 49; 0; 0; 0; 2; 0; 0; 0; 4; 107; 101; 121; 115; 0; 0; 0; 3; 65; 76; 76; 0; 0; 0; 18; 114; 111; 119; 115; 95; 112; 101];
  [114; 95; 112; 97; 114; 116; 105; 116; 105; 111; 110; 0; 0; 0; 4; 78; 79; 78; 69; 255; 255; 255; 255; 0; 0; 0; 23; 98; 97; 116; 99; 104; 101; 115; 32; 97; 119; 97; 105; 116];
  [105; 110; 103; 32; 114; 101; 112; 108; 97; 121; 0; 0; 0; 125; 0; 0; 0; 3; 0; 0; 0; 5; 99; 108; 97; 115; 115; 0; 0; 0; 63; 111; 114; 103; 46; 97; 112; 97; 99; 104];
  [101; 46; 99; 97; 115; 115; 97; 110; 100; 114; 97; 46; 100; 98; 46; 99; 111; 109; 112; 97; 99; 116; 105; 111; 110; 46; 83; 105; 122; 101; 84; 105; 101; 114; 101; 100; 67; 111; 109; 112];
  [97; 99; 116; 105; 111; 110; 83; 116; 114; 97; 116; 101; 103; 121; 0; 0; 0; 13; 109; 97; 120; 95; 116; 104; 114; 101; 115; 104; 111; 108; 100; 0; 0; 0; 2; 51; 50; 0; 0; 0];
  [13; 109; 105; 110; 95; 116; 104; 114; 101; 115; 104; 111; 108; 100; 0; 0; 0; 1; 50; 0; 0; 0; 91; 0; 0; 0; 2; 0; 0; 0; 18; 99; 104; 117; 110; 107; 95; 108; 101; 110];
  [103; 116; 104; 95; 105; 110; 95; 107; 98; 0; 0; 0; 2; 49; 54; 0; 0; 0; 5; 99; 108; 97; 115; 115; 0; 0; 0; 46; 111; 114; 103; 46; 97; 112; 97; 99; 104; 101; 46; 99];
  [97; 115; 115; 97; 110; 100; 114; 97; 46; 105; 111; 46; 99; 111; 109; 112; 114; 101; 115; 115; 46; 76; 90; 52; 67; 111; 109; 112; 114; 101; 115; 115; 111; 114; 0; 0; 0; 8; 63; 240];
  [0; 0; 0; 0; 0; 0; 0; 0; 0; 8; 0; 0; 0; 0; 0; 0; 0; 0; 0; 0; 0; 4; 0; 0; 0; 0; 0; 0; 0; 4; 0; 0; 0; 0; 0; 0; 0; 16; 0; 0];
  [0; 1; 0; 0; 0; 8; 99; 111; 109; 112; 111; 117; 110; 100; 0; 0; 0; 4; 0; 0; 0; 0; 0; 0; 0; 16; 145; 154; 75; 197; 122; 51; 53; 115; 176; 62; 19; 252; 63; 104];
  [180; 101; 0; 0; 0; 4; 0; 0; 8; 0; 0; 0; 0; 4; 0; 54; 238; 128; 0; 0; 0; 4; 0; 0; 0; 128; 0; 0; 0; 8; 66; 76; 79; 67; 75; 73; 78; 71; 0; 0];
  [0; 8; 0; 0; 0; 0; 0; 0; 0; 0; 0; 0; 0; 3; 57; 57; 112; 0; 0; 0; 6; 115; 121; 115; 116; 101; 109; 0; 0; 0; 11; 98; 117; 105; 108; 116; 95; 118; 105; 101];
  [119; 115; 0; 0; 0; 3; 57; 57; 112; 0; 0; 0; 8; 63; 132; 122; 225; 71; 174; 20; 123; 0; 0; 0; 49; 0; 0; 0; 2; 0; 0; 0; 4; 107; 101; 121; 115; 0; 0; 0];
  [3; 65; 76; 76; 0; 0; 0; 18; 114; 111; 119; 115; 95; 112; 101; 114; 95; 112; 97; 114; 116; 105; 116; 105; 111; 110; 0; 0; 0; 4; 78; 79; 78; 69; 255; 255; 255; 255; 0; 0];
  [0; 11; 98; 117; 105; 108; 116; 32; 118; 105; 101; 119; 115; 0; 0; 0; 125; 0; 0; 0; 3; 0; 0; 0; 5; 99; 108; 97; 115; 115; 0; 0; 0; 63; 111; 114; 103; 46; 97; 112];
  [97; 99; 104; 101; 46; 99; 97; 115; 115; 97; 110; 100; 114; 97; 46; 100; 98; 46; 99; 111; 109; 112; 97; 99; 116; 105; 111; 110; 46; 83; 105; 122; 101; 84; 105; 101; 114; 101; 100; 67];
  [111; 109; 112; 97; 99; 116; 105; 111; 110; 83; 116; 114; 97; 116; 101; 103; 121; 0; 0; 0; 13; 109; 97; 120; 95; 116; 104; 114; 101; 115; 104; 111; 108; 100; 0; 0; 0; 2; 51; 50];
  [0; 0; 0; 13; 109; 105; 110; 95; 116; 104; 114; 101; 115; 104; 111; 108; 100; 0; 0; 0; 1; 52; 0; 0; 0; 91; 0; 0; 0; 2; 0; 0; 0; 18; 99; 104; 117; 110; 107; 95];
  [108; 101; 110; 103; 116; 104; 95; 105; 110; 95; 107; 98; 0; 0; 0; 2; 49; 54; 0; 0; 0; 5; 99; 108; 97; 115; 115; 0; 0; 0; 46; 111; 114; 103; 46; 97; 112; 97; 99; 104];
  [101; 46; 99; 97; 115; 115; 97; 110; 100; 114; 97; 46; 105; 111; 46; 99; 111; 109; 112; 114; 101; 115; 115; 46; 76; 90; 52; 67; 111; 109; 112; 114; 101; 115; 115; 111; 114; 0; 0; 0];
  [8; 63; 240; 0; 0; 0; 0; 0; 0; 0; 0; 0; 8; 0; 0; 0; 0; 0; 0; 0; 0; 0; 0; 0; 4; 0; 0; 0; 0; 0; 0; 0; 4; 0; 0; 0; 0; 0; 0; 0];
  [16; 0; 0; 0; 1; 0; 0; 0; 8; 99; 111; 109; 112; 111; 117; 110; 100; 0; 0; 0; 4; 0; 0; 0; 0; 0; 0; 0; 16; 75; 60; 80; 169; 234; 135; 61; 118; 145; 1; 109];
  [188; 156; 56; 73; 74; 0; 0; 0; 4; 0; 0; 8; 0; 0; 0; 0; 4; 0; 54; 238; 128; 0; 0; 0; 4; 0; 0; 0; 128; 0; 0; 0; 8; 66; 76; 79; 67; 75; 73; 78];
  [71; 0; 0; 0; 8; 0; 0; 0; 0; 0; 0; 0; 0; 0; 0; 0; 3; 57; 57; 112; 0; 0; 0; 6; 115; 121; 115; 116; 101; 109; 0; 0; 0; 18; 99; 111; 109; 112; 97; 99];
  [116; 105; 111; 110; 95; 104; 105; 115; 116; 111; 114; 121; 0; 0; 0; 3; 57; 57; 112; 0; 0; 0; 8; 63; 132; 122; 225; 71; 174; 20; 123; 0; 0; 0; 49; 0; 0; 0; 2; 0];
  [0; 0; 4; 107; 101; 121; 115; 0; 0; 0; 3; 65; 76; 76; 0; 0; 0; 18; 114; 111; 119; 115; 95; 112; 101; 114; 95; 112; 97; 114; 116; 105; 116; 105; 111; 110; 0; 0; 0; 4];
  [78; 79; 78; 69; 255; 255; 255; 255; 0; 0; 0; 28; 119; 101; 101; 107; 45; 108; 111; 110; 103; 32; 99; 111; 109; 112; 97; 99; 116; 105; 111; 110; 32; 104; 105; 115; 116; 111; 114; 121];
  [0; 0; 0; 125; 0; 0; 0; 3; 0; 0; 0; 5; 99; 108; 97; 115; 115; 0; 0; 0; 63; 111; 114; 103; 46; 97; 112; 97; 99; 104; 101; 46; 99; 97; 115; 115; 97; 110; 100; 114];
  [97; 46; 100; 98; 46; 99; 111; 109; 112; 97; 99; 116; 105; 111; 110; 46; 83; 105; 122; 101; 84; 105; 101; 114; 101; 100; 67; 111; 109; 112; 97; 99; 116; 105; 111; 110; 83; 116; 114; 97];
  [116; 101; 103; 121; 0; 0; 0; 13; 109; 97; 120; 95; 116; 104; 114; 101; 115; 104; 111; 108; 100; 0; 0; 0; 2; 51; 50; 0; 0; 0; 13; 109; 105; 110; 95; 116; 104; 114; 101; 115];
  [104; 111; 108; 100; 0; 0; 0; 1; 52; 0; 0; 0; 91; 0; 0; 0; 2; 0; 0; 0; 18; 99; 104; 117; 110; 107; 95; 108; 101; 110; 103; 116; 104; 95; 105; 110; 95; 107; 98; 0];
  [0; 0; 2; 49; 54; 0; 0; 0; 5; 99; 108; 97; 115; 115; 0; 0; 0; 46; 111; 114; 103; 46; 97; 112; 97; 99; 104; 101; 46; 99; 97; 115; 115; 97; 110; 100; 114; 97; 46; 105];
  [111; 46; 99; 111; 109; 112; 114; 101; 115; 115; 46; 76; 90; 52; 67; 111; 109; 112; 114; 101; 115; 115; 111; 114; 0; 0; 0; 8; 63; 240; 0; 0; 0; 0; 0; 0; 0; 0; 0; 8];
  [0; 0; 0; 0; 0; 0; 0; 0; 0; 0; 0; 4; 0; 9; 58; 128; 0; 0; 0; 4; 0; 0; 0; 0; 0; 0; 0; 16; 0; 0; 0; 1; 0; 0; 0; 8; 99; 111; 109; 112];
  [111; 117; 110; 100; 0; 0; 0; 4; 0; 0; 0; 0; 0; 0; 0; 16; 180; 219; 183; 180; 220; 73; 63; 181; 179; 191; 206; 110; 67; 72; 50; 202; 0; 0; 0; 4; 0; 0; 8; 0];
  [0; 0; 0; 4; 0; 54; 238; 128; 0; 0; 0; 4; 0; 0; 0; 128; 0; 0; 0; 8; 66; 76; 79; 67; 75; 73; 78; 71; 0; 0; 0; 8; 0; 0; 0; 0; 0; 0; 0; 0];
  [0; 0; 0; 3; 57; 57; 112; 0; 0; 0; 6; 115; 121; 115; 116; 101; 109; 0; 0; 0; 5; 108; 111; 99; 97; 108; 0; 0; 0; 3; 57; 57; 112; 0; 0; 0; 8; 63; 132; 122];
  [225; 71; 174; 20; 123; 0; 0; 0; 49; 0; 0; 0; 2; 0; 0; 0; 4; 107; 101; 121; 115; 0; 0; 0; 3; 65; 76; 76; 0; 0; 0; 18; 114; 111; 119; 115; 95; 112; 101; 114];
  [95; 112; 97; 114; 116; 105; 116; 105; 111; 110; 0; 0; 0; 4; 78; 79; 78; 69; 255; 255; 255; 255; 0; 0; 0; 32; 105; 110; 102; 111; 114; 109; 97; 116; 105; 111; 110; 32; 97; 98];
  [111; 117; 116; 32; 116; 104; 101; 32; 108; 111; 99; 97; 108; 32; 110; 111; 100; 101; 0; 0; 0; 125; 0; 0; 0; 3; 0; 0; 0; 5; 99; 108; 97; 115; 115; 0; 0; 0; 63; 111];
  [114; 103; 46; 97; 112; 97; 99; 104; 101; 46; 99; 97; 115; 115; 97; 110; 100; 114; 97; 46; 100; 98; 46; 99; 111; 109; 112; 97; 99; 116; 105; 111; 110; 46; 83; 105; 122; 101; 84; 105];
  [101; 114; 101; 100; 67; 111; 109; 112; 97; 99; 116; 105; 111; 110; 83; 116; 114; 97; 116; 101; 103; 121; 0; 0; 0; 13; 109; 97; 120; 95; 116; 104; 114; 101; 115; 104; 111; 108; 100; 0];
  [0; 0; 2; 51; 50; 0; 0; 0; 13; 109; 105; 110; 95; 116; 104; 114; 101; 115; 104; 111; 108; 100; 0; 0; 0; 1; 52; 0; 0; 0; 91; 0; 0; 0; 2; 0; 0; 0; 18; 99];
  [104; 117; 110; 107; 95; 108; 101; 110; 103; 116; 104; 95; 105; 110; 95; 107; 98; 0; 0; 0; 2; 49; 54; 0; 0; 0; 5; 99; 108; 97; 115; 115; 0; 0; 0; 46; 111; 114; 103; 46];
  [97; 112; 97; 99; 104; 101; 46; 99; 97; 115; 115; 97; 110; 100; 114; 97; 46; 105; 111; 46; 99; 111; 109; 112; 114; 101; 115; 115; 46; 76; 90; 52; 67; 111; 109; 112; 114; 101; 115; 115];
  [111; 114; 0; 0; 0; 8; 63; 240; 0; 0; 0; 0; 0; 0; 0; 0; 0; 8; 0; 0; 0; 0; 0; 0; 0; 0; 0; 0; 0; 4; 0; 0; 0; 0; 0; 0; 0; 4; 0; 0];
  [0; 0; 0; 0; 0; 16; 0; 0; 0; 1; 0; 0; 0; 8; 99; 111; 109; 112; 111; 117; 110; 100; 0; 0; 0; 4; 0; 0; 0; 0; 0; 0; 0; 16; 122; 213; 67; 146; 188; 221];
  [53; 166; 132; 23; 78; 4; 120; 96; 179; 119; 0; 0; 0; 4; 0; 0; 8; 0; 0; 0; 0; 4; 0; 54; 238; 128; 0; 0; 0; 4; 0; 0; 0; 128; 0; 0; 0; 8; 66; 76];
  [79; 67; 75; 73; 78; 71; 0; 0; 0; 8; 0; 0; 0; 0; 0; 0; 0; 0; 0; 0; 0; 3; 57; 57; 112; 0; 0; 0; 6; 115; 121; 115; 116; 101; 109; 0; 0; 0; 5; 112];
  [97; 120; 111; 115; 0; 0; 0; 3; 57; 57; 112; 0; 0; 0; 8; 63; 132; 122; 225; 71; 174; 20; 123; 0; 0; 0; 49; 0; 0; 0; 2; 0; 0; 0; 4; 107; 101; 121; 115; 0];
  [0; 0; 3; 65; 76; 76; 0; 0; 0; 18; 114; 111; 119; 115; 95; 112; 101; 114; 95; 112; 97; 114; 116; 105; 116; 105; 111; 110; 0; 0; 0; 4; 78; 79; 78; 69; 255; 255; 255; 255];
  [0; 0; 0; 27; 105; 110; 45; 112; 114; 111; 103; 114; 101; 115; 115; 32; 112; 97; 120; 111; 115; 32; 112; 114; 111; 112; 111; 115; 97; 108; 115; 0; 0; 0; 122; 0; 0; 0; 3; 0];
  [0; 0; 5; 99; 108; 97; 115; 115; 0; 0; 0; 60; 111; 114; 103; 46; 97; 112; 97; 99; 104; 101; 46; 99; 97; 115; 115; 97; 110; 100; 114; 97; 46; 100; 98; 46; 99; 111; 109; 112];
  [97; 99; 116; 105; 111; 110; 46; 76; 101; 118; 101; 108; 101; 100; 67; 111; 109; 112; 97; 99; 116; 105; 111; 110; 83; 116; 114; 97; 116; 101; 103; 121; 0; 0; 0; 13; 109; 97; 120; 95];
  [116; 104; 114; 101; 115; 104; 111; 108; 100; 0; 0; 0; 2; 51; 50; 0; 0; 0; 13; 109; 105; 110; 95; 116; 104; 114; 101; 115; 104; 111; 108; 100; 0; 0; 0; 1; 52; 0; 0; 0];
  [91; 0; 0; 0; 2; 0; 0; 0; 18; 99; 104; 117; 110; 107; 95; 108; 101; 110; 103; 116; 104; 95; 105; 110; 95; 107; 98; 0; 0; 0; 2; 49; 54; 0; 0; 0; 5; 99; 108; 97];
  [115; 115; 0; 0; 0; 46; 111; 114; 103; 46; 97; 112; 97; 99; 104; 101; 46; 99; 97; 115; 115; 97; 110; 100; 114; 97; 46; 105; 111; 46; 99; 111; 109; 112; 114; 101; 115; 115; 46; 76];
  [90; 52; 67; 111; 109; 112; 114; 101; 115; 115; 111; 114; 0; 0; 0; 8; 63; 240; 0; 0; 0; 0; 0; 0; 0; 0; 0; 8; 0; 0; 0; 0; 0; 0; 0; 0; 0; 0; 0; 4];
  [0; 0; 0; 0; 0; 0; 0; 4; 0; 0; 0; 0; 0; 0; 0; 16; 0; 0; 0; 1; 0; 0; 0; 8; 99; 111; 109; 112; 111; 117; 110; 100; 0; 0; 0; 4; 0; 0; 0; 0];
  [0; 0; 0; 16; 183; 183; 240; 194; 253; 10; 52; 16; 140; 5; 62; 246; 20; 187; 124; 45; 0; 0; 0; 4; 0; 0; 8; 0; 0; 0; 0; 4; 0; 54; 238; 128; 0; 0; 0; 4];
  [0; 0; 0; 128; 0; 0; 0; 8; 66; 76; 79; 67; 75; 73; 78; 71; 0; 0; 0; 8; 0; 0; 0; 0; 0; 0; 0; 0; 0; 0; 0; 3; 57; 57; 112; 0; 0; 0; 6; 115];
  [121; 115; 116; 101; 109; 0; 0; 0; 11; 112; 101; 101; 114; 95; 101; 118; 101; 110; 116; 115; 0; 0; 0; 3; 57; 57; 112; 0; 0; 0; 8; 63; 132; 122; 225; 71; 174; 20; 123; 0];
  [0; 0; 49; 0; 0; 0; 2; 0; 0; 0; 4; 107; 101; 121; 115; 0; 0; 0; 3; 65; 76; 76; 0; 0; 0; 18; 114; 111; 119; 115; 95; 112; 101; 114; 95; 112; 97; 114; 116; 105];
  [116; 105; 111; 110; 0; 0; 0; 4; 78; 79; 78; 69; 255; 255; 255; 255; 0; 0; 0; 23; 101; 118; 101; 110; 116; 115; 32; 114; 101; 108; 97; 116; 101; 100; 32; 116; 111; 32; 112; 101];
  [101; 114; 115; 0; 0; 0; 125; 0; 0; 0; 3; 0; 0; 0; 5; 99; 108; 97; 115; 115; 0; 0; 0; 63; 111; 114; 103; 46; 97; 112; 97; 99; 104; 101; 46; 99; 97; 115; 115; 97];
  [110; 100; 114; 97; 46; 100; 98; 46; 99; 111; 109; 112; 97; 99; 116; 105; 111; 110; 46; 83; 105; 122; 101; 84; 105; 101; 114; 101; 100; 67; 111; 109; 112; 97; 99; 116; 105; 111; 110; 83];
  [116; 114; 97; 116; 101; 103; 121; 0; 0; 0; 13; 109; 97; 120; 95; 116; 104; 114; 101; 115; 104; 111; 108; 100; 0; 0; 0; 2; 51; 50; 0; 0; 0; 13; 109; 105; 110; 95; 116; 104];
  [114; 101; 115; 104; 111; 108; 100; 0; 0; 0; 1; 52; 0; 0; 0; 91; 0; 0; 0; 2; 0; 0; 0; 18; 99; 104; 117; 110; 107; 95; 108; 101; 110; 103; 116; 104; 95; 105; 110; 95];
  [107; 98; 0; 0; 0; 2; 49; 54; 0; 0; 0; 5; 99; 108; 97; 115; 115; 0; 0; 0; 46; 111; 114; 103; 46; 97; 112; 97; 99; 104; 101; 46; 99; 97; 115; 115; 97; 110; 100; 114];
  [97; 46; 105; 111; 46; 99; 111; 109; 112; 114; 101; 115; 115; 46; 76; 90; 52; 67; 111; 109; 112; 114; 101; 115; 115; 111; 114; 0; 0; 0; 8; 63; 240; 0; 0; 0; 0; 0; 0; 0];
  [0; 0; 8; 0; 0; 0; 0; 0; 0; 0; 0; 0; 0; 0; 4; 0; 0; 0; 0; 0; 0; 0; 4; 0; 0; 0; 0; 0; 0; 0; 16; 0; 0; 0; 1; 0; 0; 0; 8; 99];
  [111; 109; 112; 111; 117; 110; 100; 0; 0; 0; 4; 0; 0; 0; 0; 0; 0; 0; 16; 89; 223; 234; 234; 141; 178; 51; 65; 145; 239; 16; 153; 116; 216; 20; 132; 0; 0; 0; 4; 0];
  [0; 8; 0; 0; 0; 0; 4; 0; 54; 238; 128; 0; 0; 0; 4; 0; 0; 0; 128; 0; 0; 0; 8; 66; 76; 79; 67; 75; 73; 78; 71; 0; 0; 0; 8; 0; 0; 0; 0; 0];
  [0; 0; 0; 0; 0; 0; 3; 57; 57; 112; 0; 0; 0; 6; 115; 121; 115; 116; 101; 109; 0; 0; 0; 14; 112; 101; 101; 114; 95; 101; 118; 101; 110; 116; 115; 95; 118; 50; 0; 0];
  [0; 3; 57; 57; 112; 0; 0; 0; 8; 63; 132; 122; 225; 71; 174; 20; 123; 0; 0; 0; 49; 0; 0; 0; 2; 0; 0; 0; 4; 107; 101; 121; 115; 0; 0; 0; 3; 65; 76; 76];
  [0; 0; 0; 18; 114; 111; 119; 115; 95; 112; 101; 114; 95; 112; 97; 114; 116; 105; 116; 105; 111; 110; 0; 0; 0; 4; 78; 79; 78; 69; 255; 255; 255; 255; 0; 0; 0; 23; 101; 118];
  [101; 110; 116; 115; 32; 114; 101; 108; 97; 116; 101; 100; 32; 116; 111; 32; 112; 101; 101; 114; 115; 0; 0; 0; 125; 0; 0; 0; 3; 0; 0; 0; 5; 99; 108; 97; 115; 115; 0; 0];
  [0; 63; 111; 114; 103; 46; 97; 112; 97; 99; 104; 101; 46; 99; 97; 115; 115; 97; 110; 100; 114; 97; 46; 100; 98; 46; 99; 111; 109; 112; 97; 99; 116; 105; 111; 110; 46; 83; 105; 122];
  [101; 84; 105; 101; 114; 101; 100; 67; 111; 109; 112; 97; 99; 116; 105; 111; 110; 83; 116; 114; 97; 116; 101; 103; 121; 0; 0; 0; 13; 109; 97; 120; 95; 116; 104; 114; 101; 115; 104; 111];
  [108; 100; 0; 0; 0; 2; 51; 50; 0; 0; 0; 13; 109; 105; 110; 95; 116; 104; 114; 101; 115; 104; 111; 108; 100; 0; 0; 0; 1; 52; 0; 0; 0; 91; 0; 0; 0; 2; 0; 0];
  [0; 18; 99; 104; 117; 110; 107; 95; 108; 101; 110; 103; 116; 104; 95; 105; 110; 95; 107; 98; 0; 0; 0; 2; 49; 54; 0; 0; 0; 5; 99; 108; 97; 115; 115; 0; 0; 0; 46; 111];
  [114; 103; 46; 97; 112; 97; 99; 104; 101; 46; 99; 97; 115; 115; 97; 110; 100; 114; 97; 46; 105; 111; 46; 99; 111; 109; 112; 114; 101; 115; 115; 46; 76; 90; 52; 67; 111; 109; 112; 114];
  [101; 115; 115; 111; 114; 0; 0; 0; 8; 63; 240; 0; 0; 0; 0; 0; 0; 0; 0; 0; 8; 0; 0; 0; 0; 0; 0; 0; 0; 0; 0; 0; 4; 0; 0; 0; 0; 0; 0; 0];
  [4; 0; 0; 0; 0; 0; 0; 0; 16; 0; 0; 0; 1; 0; 0; 0; 8; 99; 111; 109; 112; 111; 117; 110; 100; 0; 0; 0; 4; 0; 0; 0; 0; 0; 0; 0; 16; 14; 101; 6];
  [95; 228; 1; 56; 237; 149; 7; 185; 33; 63; 174; 141; 17; 0; 0; 0; 4; 0; 0; 8; 0; 0; 0; 0; 4; 0; 54; 238; 128; 0; 0; 0; 4; 0; 0; 0; 128; 0; 0; 0];
  [8; 66; 76; 79; 67; 75; 73; 78; 71; 0; 0; 0; 8; 0; 0; 0; 0; 0; 0; 0; 0; 0; 0; 0; 3; 57; 57; 112; 0; 0; 0; 6; 115; 121; 115; 116; 101; 109; 0; 0];
  [0; 5; 112; 101; 101; 114; 115; 0; 0; 0; 3; 57; 57; 112; 0; 0; 0; 8; 63; 132; 122; 225; 71; 174; 20; 123; 0; 0; 0; 49; 0; 0; 0; 2; 0; 0; 0; 4; 107; 101];
  [121; 115; 0; 0; 0; 3; 65; 76; 76; 0; 0; 0; 18; 114; 111; 119; 115; 95; 112; 101; 114; 95; 112; 97; 114; 116; 105; 116; 105; 111; 110; 0; 0; 0; 4; 78; 79; 78; 69; 255];
  [255; 255; 255; 0; 0; 0; 44; 105; 110; 102; 111; 114; 109; 97; 116; 105; 111; 110; 32; 97; 98; 111; 117; 116; 32; 107; 110; 111; 119; 110; 32; 112; 101; 101; 114; 115; 32; 105; 110; 32];
  [116; 104; 101; 32; 99; 108; 117; 115; 116; 101; 114; 0; 0; 0; 125; 0; 0; 0; 3; 0; 0; 0; 5; 99; 108; 97; 115; 115; 0; 0; 0; 63; 111; 114; 103; 46; 97; 112; 97; 99];
  [104; 101; 46; 99; 97; 115; 115; 97; 110; 100; 114; 97; 46; 100; 98; 46; 99; 111; 109; 112; 97; 99; 116; 105; 111; 110; 46; 83; 105; 122; 101; 84; 105; 101; 114; 101; 100; 67; 111; 109];
  [112; 97; 99; 116; 105; 111; 110; 83; 116; 114; 97; 116; 101; 103; 121; 0; 0; 0; 13; 109; 97; 120; 95; 116; 104; 114; 101; 115; 104; 111; 108; 100; 0; 0; 0; 2; 51; 50; 0; 0];
  [0; 13; 109; 105; 110; 95; 116; 104; 114; 101; 115; 104; 111; 108; 100; 0; 0; 0; 1; 52; 0; 0; 0; 91; 0; 0; 0; 2; 0; 0; 0; 18; 99; 104; 117; 110; 107; 95; 108; 101];
  [110; 103; 116; 104; 95; 105; 110; 95; 107; 98; 0; 0; 0; 2; 49; 54; 0; 0; 0; 5; 99; 108; 97; 115; 115; 0; 0; 0; 46; 111; 114; 103; 46; 97; 112; 97; 99; 104; 101; 46];
  [99; 97; 115; 115; 97; 110; 100; 114; 97; 46; 105; 111; 46; 99; 111; 109; 112; 114; 101; 115; 115; 46; 76; 90; 52; 67; 111; 109; 112; 114; 101; 115; 115; 111; 114; 0; 0; 0; 8; 63];
  [240; 0; 0; 0; 0; 0; 0; 0; 0; 0; 8; 0; 0; 0; 0; 0; 0; 0; 0; 0; 0; 0; 4; 0; 0; 0; 0; 0; 0; 0; 4; 0; 0; 0; 0; 0; 0; 0; 16; 0];
  [0; 0; 1; 0; 0; 0; 8; 99; 111; 109; 112; 111; 117; 110; 100; 0; 0; 0; 4; 0; 0; 0; 0; 0; 0; 0; 16; 55; 247; 26; 202; 125; 194; 56; 59; 167; 6; 114; 82; 138];
  [240; 77; 79; 0; 0; 0; 4; 0; 0; 8; 0; 0; 0; 0; 4; 0; 54; 238; 128; 0; 0; 0; 4; 0; 0; 0; 128; 0; 0; 0; 8; 66; 76; 79; 67; 75; 73; 78; 71; 0];
  [0; 0; 8; 0; 0; 0; 0; 0; 0; 0; 0; 0; 0; 0; 3; 57; 57; 112; 0; 0; 0; 6; 115; 121; 115; 116; 101; 109; 0; 0; 0; 8; 112; 101; 101; 114; 115; 95; 118; 50];
  [0; 0; 0; 3; 57; 57; 112; 0; 0; 0; 8; 63; 132; 122; 225; 71; 174; 20; 123; 0; 0; 0; 49; 0; 0; 0; 2; 0; 0; 0; 4; 107; 101; 121; 115; 0; 0; 0; 3; 65];
  [76; 76; 0; 0; 0; 18; 114; 111; 119; 115; 95; 112; 101; 114; 95; 112; 97; 114; 116; 105; 116; 105; 111; 110; 0; 0; 0; 4; 78; 79; 78; 69; 255; 255; 255; 255; 0; 0; 0; 44];
  [105; 110; 102; 111; 114; 109; 97; 116; 105; 111; 110; 32; 97; 98; 111; 117; 116; 32; 107; 110; 111; 119; 110; 32; 112; 101; 101; 114; 115; 32; 105; 110; 32; 116; 104; 101; 32; 99; 108; 117];
  [115; 116; 101; 114; 0; 0; 0; 125; 0; 0; 0; 3; 0; 0; 0; 5; 99; 108; 97; 115; 115; 0; 0; 0; 63; 111; 114; 103; 46; 97; 112; 97; 99; 104; 101; 46; 99; 97; 115; 115];
  [97; 110; 100; 114; 97; 46; 100; 98; 46; 99; 111; 109; 112; 97; 99; 116; 105; 111; 110; 46; 83; 105; 122; 101; 84; 105; 101; 114; 101; 100; 67; 111; 109; 112; 97; 99; 116; 105; 111; 110];
  [83; 116; 114; 97; 116; 101; 103; 121; 0; 0; 0; 13; 109; 97; 120; 95; 116; 104; 114; 101; 115; 104; 111; 108; 100; 0; 0; 0; 2; 51; 50; 0; 0; 0; 13; 109; 105; 110; 95; 116];
  [104; 114; 101; 115; 104; 111; 108; 100; 0; 0; 0; 1; 52; 0; 0; 0; 91; 0; 0; 0; 2; 0; 0; 0; 18; 99; 104; 117; 110; 107; 95; 108; 101; 110; 103; 116; 104; 95; 105; 110];
  [95; 107; 98; 0; 0; 0; 2; 49; 54; 0; 0; 0; 5; 99; 108; 97; 115; 115; 0; 0; 0; 46; 111; 114; 103; 46; 97; 112; 97; 99; 104; 101; 46; 99; 97; 115; 115; 97; 110; 100];
  [114; 97; 46; 105; 111; 46; 99; 111; 109; 112; 114; 101; 115; 115; 46; 76; 90; 52; 67; 111; 109; 112; 114; 101; 115; 115; 111; 114; 0; 0; 0; 8; 63; 240; 0; 0; 0; 0; 0; 0];
  [0; 0; 0; 8; 0; 0; 0; 0; 0; 0; 0; 0; 0; 0; 0; 4; 0; 0; 0; 0; 0; 0; 0; 4; 0; 0; 0; 0; 0; 0; 0; 16; 0; 0; 0; 1; 0; 0; 0; 8];
  [99; 111; 109; 112; 111; 117; 110; 100; 0; 0; 0; 4; 0; 0; 0; 0; 0; 0; 0; 16; 196; 50; 95; 187; 142; 94; 59; 175; 189; 7; 15; 146; 80; 237; 129; 142; 0; 0; 0; 4];
  [0; 0; 8; 0; 0; 0; 0; 4; 0; 54; 238; 128; 0; 0; 0; 4; 0; 0; 0; 128; 0; 0; 0; 8; 66; 76; 79; 67; 75; 73; 78; 71; 0; 0; 0; 8; 0; 0; 0; 0];
  [0; 0; 0; 0; 0; 0; 0; 3; 57; 57; 112; 0; 0; 0; 6; 115; 121; 115; 116; 101; 109; 0; 0; 0; 19; 112; 114; 101; 112; 97; 114; 101; 100; 95; 115; 116; 97; 116; 101; 109];
  [101; 110; 116; 115; 0; 0; 0; 3; 57; 57; 112; 0; 0; 0; 8; 63; 132; 122; 225; 71; 174; 20; 123; 0; 0; 0; 49; 0; 0; 0; 2; 0; 0; 0; 4; 107; 101; 121; 115; 0];
  [0; 0; 3; 65; 76; 76; 0; 0; 0; 18; 114; 111; 119; 115; 95; 112; 101; 114; 95; 112; 97; 114; 116; 105; 116; 105; 111; 110; 0; 0; 0; 4; 78; 79; 78; 69; 255; 255; 255; 255];
  [0; 0; 0; 19; 112; 114; 101; 112; 97; 114; 101; 100; 32; 115; 116; 97; 116; 101; 109; 101; 110; 116; 115; 0; 0; 0; 125; 0; 0; 0; 3; 0; 0; 0; 5; 99; 108; 97; 115; 115];
  [0; 0; 0; 63; 111; 114; 103; 46; 97; 112; 97; 99; 104; 101; 46; 99; 97; 115; 115; 97; 110; 100; 114; 97; 46; 100; 98; 46; 99; 111; 109; 112; 97; 99; 116; 105; 111; 110; 46; 83];
  [105; 122; 101; 84; 105; 101; 114; 101; 100; 67; 111; 109; 112; 97; 99; 116; 105; 111; 110; 83; 116; 114; 97; 116; 101; 103; 121; 0; 0; 0; 13; 109; 97; 120; 95; 116; 104; 114; 101; 115];
  [104; 111; 108; 100; 0; 0; 0; 2; 51; 50; 0; 0; 0; 13; 109; 105; 110; 95; 116; 104; 114; 101; 115; 104; 111; 108; 100; 0; 0; 0; 1; 52; 0; 0; 0; 91; 0; 0; 0; 2];
  [0; 0; 0; 18; 99; 104; 117; 110; 107; 95; 108; 101; 110; 103; 116; 104; 95; 105; 110; 95; 107; 98; 0; 0; 0; 2; 49; 54; 0; 0; 0; 5; 99; 108; 97; 115; 115; 0; 0; 0];
  [46; 111; 114; 103; 46; 97; 112; 97; 99; 104; 101; 46; 99; 97; 115; 115; 97; 110; 100; 114; 97; 46; 105; 111; 46; 99; 111; 109; 112; 114; 101; 115; 115; 46; 76; 90; 52; 67; 111; 109];
  [112; 114; 101; 115; 115; 111; 114; 0; 0; 0; 8; 63; 240; 0; 0; 0; 0; 0; 0; 0; 0; 0; 8; 0; 0; 0; 0; 0; 0; 0; 0; 0; 0; 0; 4; 0; 0; 0; 0; 0];
  [0; 0; 4; 0; 0; 0; 0; 0; 0; 0; 16; 0; 0; 0; 1; 0; 0; 0; 8; 99; 111; 109; 112; 111; 117; 110; 100; 0; 0; 0; 4; 0; 0; 0; 0; 0; 0; 0; 16; 24];
  [169; 194; 87; 106; 12; 56; 65; 186; 113; 140; 213; 41; 132; 159; 239; 0; 0; 0; 4; 0; 0; 8; 0; 0; 0; 0; 4; 0; 54; 238; 128; 0; 0; 0; 4; 0; 0; 0; 128; 0];
  [0; 0; 8; 66; 76; 79; 67; 75; 73; 78; 71; 0; 0; 0; 8; 0; 0; 0; 0; 0; 0; 0; 0; 0; 0; 0; 3; 57; 57; 112; 0; 0; 0; 6; 115; 121; 115; 116; 101; 109];
  [0; 0; 0; 7; 114; 101; 112; 97; 105; 114; 115; 0; 0; 0; 3; 57; 57; 112; 0; 0; 0; 8; 63; 132; 122; 225; 71; 174; 20; 123; 0; 0; 0; 49; 0; 0; 0; 2; 0; 0];
  [0; 4; 107; 101; 121; 115; 0; 0; 0; 3; 65; 76; 76; 0; 0; 0; 18; 114; 111; 119; 115; 95; 112; 101; 114; 95; 112; 97; 114; 116; 105; 116; 105; 111; 110; 0; 0; 0; 4; 78];
  [79; 78; 69; 255; 255; 255; 255; 0; 0; 0; 7; 114; 101; 112; 97; 105; 114; 115; 0; 0; 0; 125; 0; 0; 0; 3; 0; 0; 0; 5; 99; 108; 97; 115; 115; 0; 0; 0; 63; 111];
  [114; 103; 46; 97; 112; 97; 99; 104; 101; 46; 99; 97; 115; 115; 97; 110; 100; 114; 97; 46; 100; 98; 46; 99; 111; 109; 112; 97; 99; 116; 105; 111; 110; 46; 83; 105; 122; 101; 84; 105];
  [101; 114; 101; 100; 67; 111; 109; 112; 97; 99; 116; 105; 111; 110; 83; 116; 114; 97; 116; 101; 103; 121; 0; 0; 0; 13; 109; 97; 120; 95; 116; 104; 114; 101; 115; 104; 111; 108; 100; 0];
  [0; 0; 2; 51; 50; 0; 0; 0; 13; 109; 105; 110; 95; 116; 104; 114; 101; 115; 104; 111; 108; 100; 0; 0; 0; 1; 52; 0; 0; 0; 91; 0; 0; 0; 2; 0; 0; 0; 18; 99];
  [104; 117; 110; 107; 95; 108; 101; 110; 103; 116; 104; 95; 105; 110; 95; 107; 98; 0; 0; 0; 2; 49; 54; 0; 0; 0; 5; 99; 108; 97; 115; 115; 0; 0; 0; 46; 111; 114; 103; 46];
  [97; 112; 97; 99; 104; 101; 46; 99; 97; 115; 115; 97; 110; 100; 114; 97; 46; 105; 111; 46; 99; 111; 109; 112; 114; 101; 115; 115; 46; 76; 90; 52; 67; 111; 109; 112; 114; 101; 115; 115];
  [111; 114; 0; 0; 0; 8; 63; 240; 0; 0; 0; 0; 0; 0; 0; 0; 0; 8; 0; 0; 0; 0; 0; 0; 0; 0; 0; 0; 0; 4; 0; 0; 0; 0; 0; 0; 0; 4; 0; 0];
  [0; 0; 0; 0; 0; 16; 0; 0; 0; 1; 0; 0; 0; 8; 99; 111; 109; 112; 111; 117; 110; 100; 0; 0; 0; 4; 0; 0; 0; 0; 0; 0; 0; 16; 163; 210; 119; 209; 207; 175];
  [54; 245; 162; 167; 56; 213; 238; 169; 173; 106; 0; 0; 0; 4; 0; 0; 8; 0; 0; 0; 0; 4; 0; 54; 238; 128; 0; 0; 0; 4; 0; 0; 0; 128; 0; 0; 0; 8; 66; 76];
  [79; 67; 75; 73; 78; 71; 0; 0; 0; 8; 0; 0; 0; 0; 0; 0; 0; 0; 0; 0; 0; 3; 57; 57; 112; 0; 0; 0; 6; 115; 121; 115; 116; 101; 109; 0; 0; 0; 14; 115];
  [105; 122; 101; 95; 101; 115; 116; 105; 109; 97; 116; 101; 115; 0; 0; 0; 3; 57; 57; 112; 0; 0; 0; 8; 63; 132; 122; 225; 71; 174; 20; 123; 0; 0; 0; 49; 0; 0; 0; 2];
  [0; 0; 0; 4; 107; 101; 121; 115; 0; 0; 0; 3; 65; 76; 76; 0; 0; 0; 18; 114; 111; 119; 115; 95; 112; 101; 114; 95; 112; 97; 114; 116; 105; 116; 105; 111; 110; 0; 0; 0];
  [4; 78; 79; 78; 69; 255; 255; 255; 255; 0; 0; 0; 87; 112; 101; 114; 45; 116; 97; 98; 108; 101; 32; 112; 114; 105; 109; 97; 114; 121; 32; 114; 97; 110; 103; 101; 32; 115; 105; 122];
  [101; 32; 101; 115; 116; 105; 109; 97; 116; 101; 115; 44; 32; 116; 97; 98; 108; 101; 32; 105; 115; 32; 100; 101; 112; 114; 101; 99; 97; 116; 101; 100; 32; 105; 110; 32; 102; 97; 118; 111];
  [114; 32; 111; 102; 32; 116; 97; 98; 108; 101; 95; 101; 115; 116; 105; 109; 97; 116; 101; 115; 0; 0; 0; 125; 0; 0; 0; 3; 0; 0; 0; 5; 99; 108; 97; 115; 115; 0; 0; 0];
  [63; 111; 114; 103; 46; 97; 112; 97; 99; 104; 101; 46; 99; 97; 115; 115; 97; 110; 100; 114; 97; 46; 100; 98; 46; 99; 111; 109; 112; 97; 99; 116; 105; 111; 110; 46; 83; 105; 122; 101];
  [84; 105; 101; 114; 101; 100; 67; 111; 109; 112; 97; 99; 116; 105; 111; 110; 83; 116; 114; 97; 116; 101; 103; 121; 0; 0; 0; 13; 109; 97; 120; 95; 116; 104; 114; 101; 115; 104; 111; 108];
  [100; 0; 0; 0; 2; 51; 50; 0; 0; 0; 13; 109; 105; 110; 95; 116; 104; 114; 101; 115; 104; 111; 108; 100; 0; 0; 0; 1; 52; 0; 0; 0; 91; 0; 0; 0; 2; 0; 0; 0];
  [18; 99; 104; 117; 110; 107; 95; 108; 101; 110; 103; 116; 104; 95; 105; 110; 95; 107; 98; 0; 0; 0; 2; 49; 54; 0; 0; 0; 5; 99; 108; 97; 115; 115; 0; 0; 0; 46; 111; 114];
  [103; 46; 97; 112; 97; 99; 104; 101; 46; 99; 97; 115; 115; 97; 110; 100; 114; 97; 46; 105; 111; 46; 99; 111; 109; 112; 114; 101; 115; 115; 46; 76; 90; 52; 67; 111; 109; 112; 114; 101];
  [115; 115; 111; 114; 0; 0; 0; 8; 63; 240; 0; 0; 0; 0; 0; 0; 0; 0; 0; 8; 0; 0; 0; 0; 0; 0; 0; 0; 0; 0; 0; 4; 0; 0; 0; 0; 0; 0; 0; 4];
  [0; 0; 0; 0; 0; 0; 0; 16; 0; 0; 0; 1; 0; 0; 0; 8; 99; 111; 109; 112; 111; 117; 110; 100; 0; 0; 0; 4; 0; 0; 0; 0; 0; 0; 0; 16; 97; 143; 129; 123];
  [0; 95; 54; 120; 184; 164; 83; 243; 147; 11; 142; 134; 0; 0; 0; 4; 0; 0; 8; 0; 0; 0; 0; 4; 0; 54; 238; 128; 0; 0; 0; 4; 0; 0; 0; 128; 0; 0; 0; 8];
  [66; 76; 79; 67; 75; 73; 78; 71; 0; 0; 0; 8; 0; 0; 0; 0; 0; 0; 0; 0; 0; 0; 0; 3; 57; 57; 112; 0; 0; 0; 6; 115; 121; 115; 116; 101; 109; 0; 0; 0];
  [16; 115; 115; 116; 97; 98; 108; 101; 95; 97; 99; 116; 105; 118; 105; 116; 121; 0; 0; 0; 3; 57; 57; 112; 0; 0; 0; 8; 63; 132; 122; 225; 71; 174; 20; 123; 0; 0; 0; 49];
  [0; 0; 0; 2; 0; 0; 0; 4; 107; 101; 121; 115; 0; 0; 0; 3; 65; 76; 76; 0; 0; 0; 18; 114; 111; 119; 115; 95; 112; 101; 114; 95; 112; 97; 114; 116; 105; 116; 105; 111];
  [110; 0; 0; 0; 4; 78; 79; 78; 69; 255; 255; 255; 255; 0; 0; 0; 27; 104; 105; 115; 116; 111; 114; 105; 99; 32; 115; 115; 116; 97; 98; 108; 101; 32; 114; 101; 97; 100; 32; 114];
  [97; 116; 101; 115; 0; 0; 0; 125; 0; 0; 0; 3; 0; 0; 0; 5; 99; 108; 97; 115; 115; 0; 0; 0; 63; 111; 114; 103; 46; 97; 112; 97; 99; 104; 101; 46; 99; 97; 115; 115];
  [97; 110; 100; 114; 97; 46; 100; 98; 46; 99; 111; 109; 112; 97; 99; 116; 105; 111; 110; 46; 83; 105; 122; 101; 84; 105; 101; 114; 101; 100; 67; 111; 109; 112; 97; 99; 116; 105; 111; 110];
  [83; 116; 114; 97; 116; 101; 103; 121; 0; 0; 0; 13; 109; 97; 120; 95; 116; 104; 114; 101; 115; 104; 111; 108; 100; 0; 0; 0; 2; 51; 50; 0; 0; 0; 13; 109; 105; 110; 95; 116];
  [104; 114; 101; 115; 104; 111; 108; 100; 0; 0; 0; 1; 52; 0; 0; 0; 91; 0; 0; 0; 2; 0; 0; 0; 18; 99; 104; 117; 110; 107; 95; 108; 101; 110; 103; 116; 104; 95; 105; 110];
  [95; 107; 98; 0; 0; 0; 2; 49; 54; 0; 0; 0; 5; 99; 108; 97; 115; 115; 0; 0; 0; 46; 111; 114; 103; 46; 97; 112; 97; 99; 104; 101; 46; 99; 97; 115; 115; 97; 110; 100];
  [114; 97; 46; 105; 111; 46; 99; 111; 109; 112; 114; 101; 115; 115; 46; 76; 90; 52; 67; 111; 109; 112; 114; 101; 115; 115; 111; 114; 0; 0; 0; 8; 63; 240; 0; 0; 0; 0; 0; 0];
  [0; 0; 0; 8; 0; 0; 0; 0; 0; 0; 0; 0; 0; 0; 0; 4; 0; 0; 0; 0; 0; 0; 0; 4; 0; 0; 0; 0; 0; 0; 0; 16; 0; 0; 0; 1; 0; 0; 0; 8];
  [99; 111; 109; 112; 111; 117; 110; 100; 0; 0; 0; 4; 0; 0; 0; 0; 0; 0; 0; 16; 90; 31; 242; 103; 172; 224; 63; 18; 133; 99; 207; 174; 97; 3; 198; 94; 0; 0; 0; 4];
  [0; 0; 8; 0; 0; 0; 0; 4; 0; 54; 238; 128; 0; 0; 0; 4; 0; 0; 0; 128; 0; 0; 0; 8; 66; 76; 79; 67; 75; 73; 78; 71; 0; 0; 0; 8; 0; 0; 0; 0];
  [0; 0; 0; 0; 0; 0; 0; 3; 57; 57; 112; 0; 0; 0; 6; 115; 121; 115; 116; 101; 109; 0; 0; 0; 15; 116; 97; 98; 108; 101; 95; 101; 115; 116; 105; 109; 97; 116; 101; 115];
  [0; 0; 0; 3; 57; 57; 112; 0; 0; 0; 8; 63; 132; 122; 225; 71; 174; 20; 123; 0; 0; 0; 49; 0; 0; 0; 2; 0; 0; 0; 4; 107; 101; 121; 115; 0; 0; 0; 3; 65];
  [76; 76; 0; 0; 0; 18; 114; 111; 119; 115; 95; 112; 101; 114; 95; 112; 97; 114; 116; 105; 116; 105; 111; 110; 0; 0; 0; 4; 78; 79; 78; 69; 255; 255; 255; 255; 0; 0; 0; 30];
  [112; 101; 114; 45; 116; 97; 98; 108; 101; 32; 114; 97; 110; 103; 101; 32; 115; 105; 122; 101; 32; 101; 115; 116; 105; 109; 97; 116; 101; 115; 0; 0; 0; 125; 0; 0; 0; 3; 0; 0];
  [0; 5; 99; 108; 97; 115; 115; 0; 0; 0; 63; 111; 114; 103; 46; 97; 112; 97; 99; 104; 101; 46; 99; 97; 115; 115; 97; 110; 100; 114; 97; 46; 100; 98; 46; 99; 111; 109; 112; 97];
  [99; 116; 105; 111; 110; 46; 83; 105; 122; 101; 84; 105; 101; 114; 101; 100; 67; 111; 109; 112; 97; 99; 116; 105; 111; 110; 83; 116; 114; 97; 116; 101; 103; 121; 0; 0; 0; 13; 109; 97];
  [120; 95; 116; 104; 114; 101; 115; 104; 111; 108; 100; 0; 0; 0; 2; 51; 50; 0; 0; 0; 13; 109; 105; 110; 95; 116; 104; 114; 101; 115; 104; 111; 108; 100; 0; 0; 0; 1; 52; 0];
  [0; 0; 91; 0; 0; 0; 2; 0; 0; 0; 18; 99; 104; 117; 110; 107; 95; 108; 101; 110; 103; 116; 104; 95; 105; 110; 95; 107; 98; 0; 0; 0; 2; 49; 54; 0; 0; 0; 5; 99];
  [108; 97; 115; 115; 0; 0; 0; 46; 111; 114; 103; 46; 97; 112; 97; 99; 104; 101; 46; 99; 97; 115; 115; 97; 110; 100; 114; 97; 46; 105; 111; 46; 99; 111; 109; 112; 114; 101; 115; 115];
  [46; 76; 90; 52; 67; 111; 109; 112; 114; 101; 115; 115; 111; 114; 0; 0; 0; 8; 63; 240; 0; 0; 0; 0; 0; 0; 0; 0; 0; 8; 0; 0; 0; 0; 0; 0; 0; 0; 0; 0];
  [0; 4; 0; 0; 0; 0; 0; 0; 0; 4; 0; 0; 0; 0; 0; 0; 0; 16; 0; 0; 0; 1; 0; 0; 0; 8; 99; 111; 109; 112; 111; 117; 110; 100; 0; 0; 0; 4; 0; 0];
  [0; 0; 0; 0; 0; 16; 23; 108; 57; 205; 185; 61; 51; 165; 162; 24; 142; 176; 106; 86; 246; 110; 0; 0; 0; 4; 0; 0; 8; 0; 0; 0; 0; 4; 0; 54; 238; 128; 0; 0];
  [0; 4; 0; 0; 0; 128; 0; 0; 0; 8; 66; 76; 79; 67; 75; 73; 78; 71; 0; 0; 0; 8; 0; 0; 0; 0; 0; 0; 0; 0; 0; 0; 0; 3; 57; 57; 112; 0; 0; 0];
  [6; 115; 121; 115; 116; 101; 109; 0; 0; 0; 18; 116; 114; 97; 110; 115; 102; 101; 114; 114; 101; 100; 95; 114; 97; 110; 103; 101; 115; 0; 0; 0; 3; 57; 57; 112; 0; 0; 0; 8];
  [63; 132; 122; 225; 71; 174; 20; 123; 0; 0; 0; 49; 0; 0; 0; 2; 0; 0; 0; 4; 107; 101; 121; 115; 0; 0; 0; 3; 65; 76; 76; 0; 0; 0; 18; 114; 111; 119; 115; 95];
  [112; 101; 114; 95; 112; 97; 114; 116; 105; 116; 105; 111; 110; 0; 0; 0; 4; 78; 79; 78; 69; 255; 255; 255; 255; 0; 0; 0; 52; 114; 101; 99; 111; 114; 100; 32; 111; 102; 32; 116];
  [114; 97; 110; 115; 102; 101; 114; 114; 101; 100; 32; 114; 97; 110; 103; 101; 115; 32; 102; 111; 114; 32; 115; 116; 114; 101; 97; 109; 105; 110; 103; 32; 111; 112; 101; 114; 97; 116; 105; 111];
  [110; 0; 0; 0; 125; 0; 0; 0; 3; 0; 0; 0; 5; 99; 108; 97; 115; 115; 0; 0; 0; 63; 111; 114; 103; 46; 97; 112; 97; 99; 104; 101; 46; 99; 97; 115; 115; 97; 110; 100];
  [114; 97; 46; 100; 98; 46; 99; 111; 109; 112; 97; 99; 116; 105; 111; 110; 46; 83; 105; 122; 101; 84; 105; 101; 114; 101; 100; 67; 111; 109; 112; 97; 99; 116; 105; 111; 110; 83; 116; 114];
  [97; 116; 101; 103; 121; 0; 0; 0; 13; 109; 97; 120; 95; 116; 104; 114; 101; 115; 104; 111; 108; 100; 0; 0; 0; 2; 51; 50; 0; 0; 0; 13; 109; 105; 110; 95; 116; 104; 114; 101];
  [115; 104; 111; 108; 100; 0; 0; 0; 1; 52; 0; 0; 0; 91; 0; 0; 0; 2; 0; 0; 0; 18; 99; 104; 117; 110; 107; 95; 108; 101; 110; 103; 116; 104; 95; 105; 110; 95; 107; 98];
  [0; 0; 0; 2; 49; 54; 0; 0; 0; 5; 99; 108; 97; 115; 115; 0; 0; 0; 46; 111; 114; 103; 46; 97; 112; 97; 99; 104; 101; 46; 99; 97; 115; 115; 97; 110; 100; 114; 97; 46];
  [105; 111; 46; 99; 111; 109; 112; 114; 101; 115; 115; 46; 76; 90; 52; 67; 111; 109; 112; 114; 101; 115; 115; 111; 114; 0; 0; 0; 8; 63; 240; 0; 0; 0; 0; 0; 0; 0; 0; 0];
  [8; 0; 0; 0; 0; 0; 0; 0; 0; 0; 0; 0; 4; 0; 0; 0; 0; 0; 0; 0; 4; 0; 0; 0; 0; 0; 0; 0; 16; 0; 0; 0; 1; 0; 0; 0; 8; 99; 111; 109];
  [112; 111; 117; 110; 100; 0; 0; 0; 4; 0; 0; 0; 0; 0; 0; 0; 16; 108; 173; 32; 247; 212; 245; 58; 242; 182; 226; 13; 163; 60; 108; 31; 131; 0; 0; 0; 4; 0; 0; 8];
  [0; 0; 0; 0; 4; 0; 54; 238; 128; 0; 0; 0; 4; 0; 0; 0; 128; 0; 0; 0; 8; 66; 76; 79; 67; 75; 73; 78; 71; 0; 0; 0; 8; 0; 0; 0; 0; 0; 0; 0];
  [0; 0; 0; 0; 3; 57; 57; 112; 0; 0; 0; 6; 115; 121; 115; 116; 101; 109; 0; 0; 0; 21; 116; 114; 97; 110; 115; 102; 101; 114; 114; 101; 100; 95; 114; 97; 110; 103; 101; 115];
  [95; 118; 50; 0; 0; 0; 3; 57; 57; 112; 0; 0; 0; 8; 63; 132; 122; 225; 71; 174; 20; 123; 0; 0; 0; 49; 0; 0; 0; 2; 0; 0; 0; 4; 107; 101; 121; 115; 0; 0];
  [0; 3; 65; 76; 76; 0; 0; 0; 18; 114; 111; 119; 115; 95; 112; 101; 114; 95; 112; 97; 114; 116; 105; 116; 105; 111; 110; 0; 0; 0; 4; 78; 79; 78; 69; 255; 255; 255; 255; 0];
  [0; 0; 52; 114; 101; 99; 111; 114; 100; 32; 111; 102; 32; 116; 114; 97; 110; 115; 102; 101; 114; 114; 101; 100; 32; 114; 97; 110; 103; 101; 115; 32; 102; 111; 114; 32; 115; 116; 114; 101];
  [97; 109; 105; 110; 103; 32; 111; 112; 101; 114; 97; 116; 105; 111; 110; 0; 0; 0; 125; 0; 0; 0; 3; 0; 0; 0; 5; 99; 108; 97; 115; 115; 0; 0; 0; 63; 111; 114; 103; 46];
  [97; 112; 97; 99; 104; 101; 46; 99; 97; 115; 115; 97; 110; 100; 114; 97; 46; 100; 98; 46; 99; 111; 109; 112; 97; 99; 116; 105; 111; 110; 46; 83; 105; 122; 101; 84; 105; 101; 114; 101];
  [100; 67; 111; 109; 112; 97; 99; 116; 105; 111; 110; 83; 116; 114; 97; 116; 101; 103; 121; 0; 0; 0; 13; 109; 97; 120; 95; 116; 104; 114; 101; 115; 104; 111; 108; 100; 0; 0; 0; 2];
  [51; 50; 0; 0; 0; 13; 109; 105; 110; 95; 116; 104; 114; 101; 115; 104; 111; 108; 100; 0; 0; 0; 1; 52; 0; 0; 0; 91; 0; 0; 0; 2; 0; 0; 0; 18; 99; 104; 117; 110];
  [107; 95; 108; 101; 110; 103; 116; 104; 95; 105; 110; 95; 107; 98; 0; 0; 0; 2; 49; 54; 0; 0; 0; 5; 99; 108; 97; 115; 115; 0; 0; 0; 46; 111; 114; 103; 46; 97; 112; 97];
  [99; 104; 101; 46; 99; 97; 115; 115; 97; 110; 100; 114; 97; 46; 105; 111; 46; 99; 111; 109; 112; 114; 101; 115; 115; 46; 76; 90; 52; 67; 111; 109; 112; 114; 101; 115; 115; 111; 114; 0];
  [0; 0; 8; 63; 240; 0; 0; 0; 0; 0; 0; 0; 0; 0; 8; 0; 0; 0; 0; 0; 0; 0; 0; 0; 0; 0; 4; 0; 0; 0; 0; 0; 0; 0; 4; 0; 0; 0; 0; 0];
  [0; 0; 16; 0; 0; 0; 1; 0; 0; 0; 8; 99; 111; 109; 112; 111; 117; 110; 100; 0; 0; 0; 4; 0; 0; 0; 0; 0; 0; 0; 16; 31; 247; 143; 26; 125; 241; 58; 42; 169];
  [152; 111; 73; 50; 39; 10; 245; 0; 0; 0; 4; 0; 0; 8; 0; 0; 0; 0; 4; 0; 54; 238; 128; 0; 0; 0; 4; 0; 0; 0; 128; 0; 0; 0; 8; 66; 76; 79; 67; 75];
  [73; 78; 71; 0; 0; 0; 8; 0; 0; 0; 0; 0; 0; 0; 0; 0; 0; 0; 3; 57; 57; 112; 0; 0; 0; 6; 115; 121; 115; 116; 101; 109; 0; 0; 0; 23; 118; 105; 101; 119];
  [95; 98; 117; 105; 108; 100; 115; 95; 105; 110; 95; 112; 114; 111; 103; 114; 101; 115; 115; 0; 0; 0; 3; 57; 57; 112; 0; 0; 0; 8; 63; 132; 122; 225; 71; 174; 20; 123; 0; 0];
  [0; 49; 0; 0; 0; 2; 0; 0; 0; 4; 107; 101; 121; 115; 0; 0; 0; 3; 65; 76; 76; 0; 0; 0; 18; 114; 111; 119; 115; 95; 112; 101; 114; 95; 112; 97; 114; 116; 105; 116];
  [105; 111; 110; 0; 0; 0; 4; 78; 79; 78; 69; 255; 255; 255; 255; 0; 0; 0; 29; 118; 105; 101; 119; 115; 32; 98; 117; 105; 108; 100; 115; 32; 99; 117; 114; 114; 101; 110; 116; 32];
  [112; 114; 111; 103; 114; 101; 115; 115; 0; 0; 0; 125; 0; 0; 0; 3; 0; 0; 0; 5; 99; 108; 97; 115; 115; 0; 0; 0; 63; 111; 114; 103; 46; 97; 112; 97; 99; 104; 101; 46];
  [99; 97; 115; 115; 97; 110; 100; 114; 97; 46; 100; 98; 46; 99; 111; 109; 112; 97; 99; 116; 105; 111; 110; 46; 83; 105; 122; 101; 84; 105; 101; 114; 101; 100; 67; 111; 109; 112; 97; 99];
  [116; 105; 111; 110; 83; 116; 114; 97; 116; 101; 103; 121; 0; 0; 0; 13; 109; 97; 120; 95; 116; 104; 114; 101; 115; 104; 111; 108; 100; 0; 0; 0; 2; 51; 50; 0; 0; 0; 13; 109];
  [105; 110; 95; 116; 104; 114; 101; 115; 104; 111; 108; 100; 0; 0; 0; 1; 52; 0; 0; 0; 91; 0; 0; 0; 2; 0; 0; 0; 18; 99; 104; 117; 110; 107; 95; 108; 101; 110; 103; 116];
  [104; 95; 105; 110; 95; 107; 98; 0; 0; 0; 2; 49; 54; 0; 0; 0; 5; 99; 108; 97; 115; 115; 0; 0; 0; 46; 111; 114; 103; 46; 97; 112; 97; 99; 104; 101; 46; 99; 97; 115];
  [115; 97; 110; 100; 114; 97; 46; 105; 111; 46; 99; 111; 109; 112; 114; 101; 115; 115; 46; 76; 90; 52; 67; 111; 109; 112; 114; 101; 115; 115; 111; 114; 0; 0; 0; 8; 63; 240; 0; 0];
  [0; 0; 0; 0; 0; 0; 0; 8; 0; 0; 0; 0; 0; 0; 0; 0; 0; 0; 0; 4; 0; 0; 0; 0; 0; 0; 0; 4; 0; 0; 0; 0; 0; 0; 0; 16; 0; 0; 0; 1];
  [0; 0; 0; 8; 99; 111; 109; 112; 111; 117; 110; 100; 0; 0; 0; 4; 0; 0; 0; 0; 0; 0; 0; 16; 108; 34; 223; 102; 195; 189; 61; 246; 183; 77; 33; 23; 156; 106; 159; 233];
  [0; 0; 0; 4; 0; 0; 8; 0; 0; 0; 0; 4; 0; 54; 238; 128; 0; 0; 0; 4; 0; 0; 0; 128; 0; 0; 0; 8; 66; 76; 79; 67; 75; 73; 78; 71; 0; 0; 0; 8];
  [0; 0; 0; 0; 0; 0; 0; 0; 0; 0; 0; 3; 57; 57; 112; 0; 0; 0; 13; 115; 121; 115; 116; 101; 109; 95; 116; 114; 97; 99; 101; 115; 0; 0; 0; 6; 101; 118; 101; 110];
  [116; 115; 0; 0; 0; 3; 57; 57; 112; 0; 0; 0; 8; 63; 132; 122; 225; 71; 174; 20; 123; 0; 0; 0; 49; 0; 0; 0; 2; 0; 0; 0; 4; 107; 101; 121; 115; 0; 0; 0];
  [3; 65; 76; 76; 0; 0; 0; 18; 114; 111; 119; 115; 95; 112; 101; 114; 95; 112; 97; 114; 116; 105; 116; 105; 111; 110; 0; 0; 0; 4; 78; 79; 78; 69; 255; 255; 255; 255; 0; 0];
  [0; 14; 116; 114; 97; 99; 105; 110; 103; 32; 101; 118; 101; 110; 116; 115; 0; 0; 0; 125; 0; 0; 0; 3; 0; 0; 0; 5; 99; 108; 97; 115; 115; 0; 0; 0; 63; 111; 114; 103];
  [46; 97; 112; 97; 99; 104; 101; 46; 99; 97; 115; 115; 97; 110; 100; 114; 97; 46; 100; 98; 46; 99; 111; 109; 112; 97; 99; 116; 105; 111; 110; 46; 83; 105; 122; 101; 84; 105; 101; 114];
  [101; 100; 67; 111; 109; 112; 97; 99; 116; 105; 111; 110; 83; 116; 114; 97; 116; 101; 103; 121; 0; 0; 0; 13; 109; 97; 120; 95; 116; 104; 114; 101; 115; 104; 111; 108; 100; 0; 0; 0];
  [2; 51; 50; 0; 0; 0; 13; 109; 105; 110; 95; 116; 104; 114; 101; 115; 104; 111; 108; 100; 0; 0; 0; 1; 52; 0; 0; 0; 91; 0; 0; 0; 2; 0; 0; 0; 18; 99; 104; 117];
  [110; 107; 95; 108; 101; 110; 103; 116; 104; 95; 105; 110; 95; 107; 98; 0; 0; 0; 2; 49; 54; 0; 0; 0; 5; 99; 108; 97; 115; 115; 0; 0; 0; 46; 111; 114; 103; 46; 97; 112];
  [97; 99; 104; 101; 46; 99; 97; 115; 115; 97; 110; 100; 114; 97; 46; 105; 111; 46; 99; 111; 109; 112; 114; 101; 115; 115; 46; 76; 90; 52; 67; 111; 109; 112; 114; 101; 115; 115; 111; 114];
  [0; 0; 0; 8; 63; 240; 0; 0; 0; 0; 0; 0; 0; 0; 0; 8; 0; 0; 0; 0; 0; 0; 0; 0; 0; 0; 0; 4; 0; 0; 0; 0; 0; 0; 0; 4; 0; 0; 0; 0];
  [0; 0; 0; 16; 0; 0; 0; 1; 0; 0; 0; 8; 99; 111; 109; 112; 111; 117; 110; 100; 0; 0; 0; 4; 0; 0; 0; 0; 0; 0; 0; 16; 136; 38; 232; 233; 225; 106; 55; 40];
  [135; 83; 59; 193; 252; 113; 60; 37; 0; 0; 0; 4; 0; 0; 8; 0; 0; 0; 0; 4; 0; 0; 0; 0; 0; 0; 0; 4; 0; 0; 0; 128; 0; 0; 0; 8; 66; 76; 79; 67];
  [75; 73; 78; 71; 0; 0; 0; 8; 0; 0; 0; 0; 0; 0; 0; 0; 0; 0; 0; 3; 57; 57; 112; 0; 0; 0; 13; 115; 121; 115; 116; 101; 109; 95; 116; 114; 97; 99; 101; 115];
  [0; 0; 0; 8; 115; 101; 115; 115; 105; 111; 110; 115; 0; 0; 0; 3; 57; 57; 112; 0; 0; 0; 8; 63; 132; 122; 225; 71; 174; 20; 123; 0; 0; 0; 49; 0; 0; 0; 2; 0];
  [0; 0; 4; 107; 101; 121; 115; 0; 0; 0; 3; 65; 76; 76; 0; 0; 0; 18; 114; 111; 119; 115; 95; 112; 101; 114; 95; 112; 97; 114; 116; 105; 116; 105; 111; 110; 0; 0; 0; 4];
  [78; 79; 78; 69; 255; 255; 255; 255; 0; 0; 0; 16; 116; 114; 97; 99; 105; 110; 103; 32; 115; 101; 115; 115; 105; 111; 110; 115; 0; 0; 0; 125; 0; 0; 0; 3; 0; 0; 0; 5];
  [99; 108; 97; 115; 115; 0; 0; 0; 63; 111; 114; 103; 46; 97; 112; 97; 99; 104; 101; 46; 99; 97; 115; 115; 97; 110; 100; 114; 97; 46; 100; 98; 46; 99; 111; 109; 112; 97; 99; 116];
  [105; 111; 110; 46; 83; 105; 122; 101; 84; 105; 101; 114; 101; 100; 67; 111; 109; 112; 97; 99; 116; 105; 111; 110; 83; 116; 114; 97; 116; 101; 103; 121; 0; 0; 0; 13; 109; 97; 120; 95];
  [116; 104; 114; 101; 115; 104; 111; 108; 100; 0; 0; 0; 2; 51; 50; 0; 0; 0; 13; 109; 105; 110; 95; 116; 104; 114; 101; 115; 104; 111; 108; 100; 0; 0; 0; 1; 52; 0; 0; 0];
  [91; 0; 0; 0; 2; 0; 0; 0; 18; 99; 104; 117; 110; 107; 95; 108; 101; 110; 103; 116; 104; 95; 105; 110; 95; 107; 98; 0; 0; 0; 2; 49; 54; 0; 0; 0; 5; 99; 108; 97];
  [115; 115; 0; 0; 0; 46; 111; 114; 103; 46; 97; 112; 97; 99; 104; 101; 46; 99; 97; 115; 115; 97; 110; 100; 114; 97; 46; 105; 111; 46; 99; 111; 109; 112; 114; 101; 115; 115; 46; 76];
  [90; 52; 67; 111; 109; 112; 114; 101; 115; 115; 111; 114; 0; 0; 0; 8; 63; 240; 0; 0; 0; 0; 0; 0; 0; 0; 0; 8; 0; 0; 0; 0; 0; 0; 0; 0; 0; 0; 0; 4];
  [0; 0; 0; 0; 0; 0; 0; 4; 0; 0; 0; 0; 0; 0; 0; 16; 0; 0; 0; 1; 0; 0; 0; 8; 99; 111; 109; 112; 111; 117; 110; 100; 0; 0; 0; 4; 0; 0; 0; 0];
  [0; 0; 0; 16; 197; 233; 159; 22; 134; 119; 57; 20; 177; 126; 150; 6; 19; 81; 35; 69; 0; 0; 0; 4; 0; 0; 8; 0; 0; 0; 0; 4; 0; 0; 0; 0; 0; 0; 0; 4];
  [0; 0; 0; 128; 0; 0; 0; 8; 66; 76; 79; 67; 75; 73; 78; 71; 0; 0; 0; 8; 0; 0; 0; 0; 0; 0; 0; 0; 0; 0; 0; 3; 57; 57; 112]].

(** The rows of [system_schema.columns]. *)
Definition columns_meta : list Z := concat [
  [0; 0; 105; 93; 0; 0; 0; 2; 0; 0; 0; 1; 0; 0; 0; 8; 0; 13; 115; 121; 115; 116; 101; 109; 95; 115; 99; 104; 101; 109; 97; 0; 7; 99; 111; 108; 117; 109; 110; 115];
  [0; 13; 107; 101; 121; 115; 112; 97; 99; 101; 95; 110; 97; 109; 101; 0; 13; 0; 10; 116; 97; 98; 108; 101; 95; 110; 97; 109; 101; 0; 13; 0; 11; 99; 111; 108; 117; 109; 110; 95];
  [110; 97; 109; 101; 0; 13; 0; 16; 99; 108; 117; 115; 116; 101; 114; 105; 110; 103; 95; 111; 114; 100; 101; 114; 0; 13; 0; 17; 99; 111; 108; 117; 109; 110; 95; 110; 97; 109; 101; 95];
  [98; 121; 116; 101; 115; 0; 3; 0; 4; 107; 105; 110; 100; 0; 13; 0; 8; 112; 111; 115; 105; 116; 105; 111; 110; 0; 9; 0; 4; 116; 121; 112; 101; 0; 13; 0; 0; 1; 19; 0];
  [0; 0; 11; 115; 121; 115; 116; 101; 109; 95; 97; 117; 116; 104; 0; 0; 0; 19; 110; 101; 116; 119; 111; 114; 107; 95; 112; 101; 114; 109; 105; 115; 115; 105; 111; 110; 115; 0; 0; 0];
  [3; 100; 99; 115; 0; 0; 0; 4; 110; 111; 110; 101; 0; 0; 0; 3; 100; 99; 115; 0; 0; 0; 7; 114; 101; 103; 117; 108; 97; 114; 0; 0; 0; 4; 255; 255; 255; 255; 0; 0];
  [0; 17; 102; 114; 111; 122; 101; 110; 60; 115; 101; 116; 60; 116; 101; 120; 116; 62; 62; 0; 0; 0; 11; 115; 121; 115; 116; 101; 109; 95; 97; 117; 116; 104; 0; 0; 0; 19; 110; 101];
  [116; 119; 111; 114; 107; 95; 112; 101; 114; 109; 105; 115; 115; 105; 111; 110; 115; 0; 0; 0; 4; 114; 111; 108; 101; 0; 0; 0; 4; 110; 111; 110; 101; 0; 0; 0; 4; 114; 111; 108];
  [101; 0; 0; 0; 13; 112; 97; 114; 116; 105; 116; 105; 111; 110; 95; 107; 101; 121; 0; 0; 0; 4; 0; 0; 0; 0; 0; 0; 0; 4; 116; 101; 120; 116; 0; 0; 0; 11; 115; 121];
  [115; 116; 101; 109; 95; 97; 117; 116; 104; 0; 0; 0; 30; 114; 101; 115; 111; 117; 114; 99; 101; 95; 114; 111; 108; 101; 95; 112; 101; 114; 109; 105; 115; 115; 111; 110; 115; 95; 105; 110];
  [100; 101; 120; 0; 0; 0; 8; 114; 101; 115; 111; 117; 114; 99; 101; 0; 0; 0; 4; 110; 111; 110; 101; 0; 0; 0; 8; 114; 101; 115; 111; 117; 114; 99; 101; 0; 0; 0; 13; 112];
  [97; 114; 116; 105; 116; 105; 111; 110; 95; 107; 101; 121; 0; 0; 0; 4; 0; 0; 0; 0; 0; 0; 0; 4; 116; 101; 120; 116; 0; 0; 0; 11; 115; 121; 115; 116; 101; 109; 95; 97];
  [117; 116; 104; 0; 0; 0; 30; 114; 101; 115; 111; 117; 114; 99; 101; 95; 114; 111; 108; 101; 95; 112; 101; 114; 109; 105; 115; 115; 111; 110; 115; 95; 105; 110; 100; 101; 120; 0; 0; 0];
  [4; 114; 111; 108; 101; 0; 0; 0; 3; 97; 115; 99; 0; 0; 0; 4; 114; 111; 108; 101; 0; 0; 0; 10; 99; 108; 117; 115; 116; 101; 114; 105; 110; 103; 0; 0; 0; 4; 0; 0];
  [0; 0; 0; 0; 0; 4; 116; 101; 120; 116; 0; 0; 0; 11; 115; 121; 115; 116; 101; 109; 95; 97; 117; 116; 104; 0; 0; 0; 12; 114; 111; 108; 101; 95; 109; 101; 109; 98; 101; 114];
  [115; 0; 0; 0; 6; 109; 101; 109; 98; 101; 114; 0; 0; 0; 3; 97; 115; 99; 0; 0; 0; 6; 109; 101; 109; 98; 101; 114; 0; 0; 0; 10; 99; 108; 117; 115; 116; 101; 114; 105];
  [110; 103; 0; 0; 0; 4; 0; 0; 0; 0; 0; 0; 0; 4; 116; 101; 120; 116; 0; 0; 0; 11; 115; 121; 115; 116; 101; 109; 95; 97; 117; 116; 104; 0; 0; 0; 12; 114; 111; 108];
  [101; 95; 109; 101; 109; 98; 101; 114; 115; 0; 0; 0; 4; 114; 111; 108; 101; 0; 0; 0; 4; 110; 111; 110; 101; 0; 0; 0; 4; 114; 111; 108; 101; 0; 0; 0; 13; 112; 97; 114];
  [116; 105; 116; 105; 111; 110; 95; 107; 101; 121; 0; 0; 0; 4; 0; 0; 0; 0; 0; 0; 0; 4; 116; 101; 120; 116; 0; 0; 0; 11; 115; 121; 115; 116; 101; 109; 95; 97; 117; 116];
  [104; 0; 0; 0; 16; 114; 111; 108; 101; 95; 112; 101; 114; 109; 105; 115; 115; 105; 111; 110; 115; 0; 0; 0; 11; 112; 101; 114; 109; 105; 115; 115; 105; 111; 110; 115; 0; 0; 0; 4];
  [110; 111; 110; 101; 0; 0; 0; 11; 112; 101; 114; 109; 105; 115; 115; 105; 111; 110; 115; 0; 0; 0; 7; 114; 101; 103; 117; 108; 97; 114; 0; 0; 0; 4; 255; 255; 255; 255; 0; 0];
  [0; 9; 115; 101; 116; 60; 116; 101; 120; 116; 62; 0; 0; 0; 11; 115; 121; 115; 116; 101; 109; 95; 97; 117; 116; 104; 0; 0; 0; 16; 114; 111; 108; 101; 95; 112; 101; 114; 109; 105];
  [115; 115; 105; 111; 110; 115; 0; 0; 0; 8; 114; 101; 115; 111; 117; 114; 99; 101; 0; 0; 0; 3; 97; 115; 99; 0; 0; 0; 8; 114; 101; 115; 111; 117; 114; 99; 101; 0; 0; 0];
  [10; 99; 108; 117; 115; 116; 101; 114; 105; 110; 103; 0; 0; 0; 4; 0; 0; 0; 0; 0; 0; 0; 4; 116; 101; 120; 116; 0; 0; 0; 11; 115; 121; 115; 116; 101; 109; 95; 97; 117];
  [116; 104; 0; 0; 0; 16; 114; 111; 108; 101; 95; 112; 101; 114; 109; 105; 115; 115; 105; 111; 110; 115; 0; 0; 0; 4; 114; 111; 108; 101; 0; 0; 0; 4; 110; 111; 110; 101; 0; 0];
  [0; 4; 114; 111; 108; 101; 0; 0; 0; 13; 112; 97; 114; 116; 105; 116; 105; 111; 110; 95; 107; 101; 121; 0; 0; 0; 4; 0; 0; 0; 0; 0; 0; 0; 4; 116; 101; 120; 116; 0];
  [0; 0; 11; 115; 121; 115; 116; 101; 109; 95; 97; 117; 116; 104; 0; 0; 0; 5; 114; 111; 108; 101; 115; 0; 0; 0; 9; 99; 97; 110; 95; 108; 111; 103; 105; 110; 0; 0; 0; 4];
  [110; 111; 110; 101; 0; 0; 0; 9; 99; 97; 110; 95; 108; 111; 103; 105; 110; 0; 0; 0; 7; 114; 101; 103; 117; 108; 97; 114; 0; 0; 0; 4; 255; 255; 255; 255; 0; 0; 0; 7];
  [98; 111; 111; 108; 101; 97; 110; 0; 0; 0; 11; 115; 121; 115; 116; 101; 109; 95; 97; 117; 116; 104; 0; 0; 0; 5; 114; 111; 108; 101; 115; 0; 0; 0; 12; 105; 115; 95; 115; 117];
  [112; 101; 114; 117; 115; 101; 114; 0; 0; 0; 4; 110; 111; 110; 101; 0; 0; 0; 12; 105; 115; 95; 115; 117; 112; 101; 114; 117; 115; 101; 114; 0; 0; 0; 7; 114; 101; 103; 117; 108];
  [97; 114; 0; 0; 0; 4; 255; 255; 255; 255; 0; 0; 0; 7; 98; 111; 111; 108; 101; 97; 110; 0; 0; 0; 11; 115; 121; 115; 116; 101; 109; 95; 97; 117; 116; 104; 0; 0; 0; 5];
  [114; 111; 108; 101; 115; 0; 0; 0; 9; 109; 101; 109; 98; 101; 114; 95; 111; 102; 0; 0; 0; 4; 110; 111; 110; 101; 0; 0; 0; 9; 109; 101; 109; 98; 101; 114; 95; 111; 102; 0];
  [0; 0; 7; 114; 101; 103; 117; 108; 97; 114; 0; 0; 0; 4; 255; 255; 255; 255; 0; 0; 0; 9; 115; 101; 116; 60; 116; 101; 120; 116; 62; 0; 0; 0; 11; 115; 121; 115; 116; 101];
  [109; 95; 97; 117; 116; 104; 0; 0; 0; 5; 114; 111; 108; 101; 115; 0; 0; 0; 4; 114; 111; 108; 101; 0; 0; 0; 4; 110; 111; 110; 101; 0; 0; 0; 4; 114; 111; 108; 101; 0];
  [0; 0; 13; 112; 97; 114; 116; 105; 116; 105; 111; 110; 95; 107; 101; 121; 0; 0; 0; 4; 0; 0; 0; 0; 0; 0; 0; 4; 116; 101; 120; 116; 0; 0; 0; 11; 115; 121; 115; 116];
  [101; 109; 95; 97; 117; 116; 104; 0; 0; 0; 5; 114; 111; 108; 101; 115; 0; 0; 0; 11; 115; 97; 108; 116; 101; 100; 95; 104; 97; 115; 104; 0; 0; 0; 4; 110; 111; 110; 101; 0];
  [0; 0; 11; 115; 97; 108; 116; 101; 100; 95; 104; 97; 115; 104; 0; 0; 0; 7; 114; 101; 103; 117; 108; 97; 114; 0; 0; 0; 4; 255; 255; 255; 255; 0; 0; 0; 4; 116; 101; 120];
  [116; 0; 0; 0; 13; 115; 121; 115; 116; 101; 109; 95; 115; 99; 104; 101; 109; 97; 0; 0; 0; 10; 97; 103; 103; 114; 101; 103; 97; 116; 101; 115; 0; 0; 0; 14; 97; 103; 103; 114];
  [101; 103; 97; 116; 101; 95; 110; 97; 109; 101; 0; 0; 0; 3; 97; 115; 99; 0; 0; 0; 14; 97; 103; 103; 114; 101; 103; 97; 116; 101; 95; 110; 97; 109; 101; 0; 0; 0; 10; 99];
  [108; 117; 115; 116; 101; 114; 105; 110; 103; 0; 0; 0; 4; 0; 0; 0; 0; 0; 0; 0; 4; 116; 101; 120; 116; 0; 0; 0; 13; 115; 121; 115; 116; 101; 109; 95; 115; 99; 104; 101];
  [109; 97; 0; 0; 0; 10; 97; 103; 103; 114; 101; 103; 97; 116; 101; 115; 0; 0; 0; 14; 97; 114; 103; 117; 109; 101; 110; 116; 95; 116; 121; 112; 101; 115; 0; 0; 0; 3; 97; 115];
  [99; 0; 0; 0; 14; 97; 114; 103; 117; 109; 101; 110; 116; 95; 116; 121; 112; 101; 115; 0; 0; 0; 10; 99; 108; 117; 115; 116; 101; 114; 105; 110; 103; 0; 0; 0; 4; 0; 0; 0];
  [1; 0; 0; 0; 18; 102; 114; 111; 122; 101; 110; 60; 108; 105; 115; 116; 60; 116; 101; 120; 116; 62; 62; 0; 0; 0; 13; 115; 121; 115; 116; 101; 109; 95; 115; 99; 104; 101; 109; 97];
  [0; 0; 0; 10; 97; 103; 103; 114; 101; 103; 97; 116; 101; 115; 0; 0; 0; 10; 102; 105; 110; 97; 108; 95; 102; 117; 110; 99; 0; 0; 0; 4; 110; 111; 110; 101; 0; 0; 0; 10];
  [102; 105; 110; 97; 108; 95; 102; 117; 110; 99; 0; 0; 0; 7; 114; 101; 103; 117; 108; 97; 114; 0; 0; 0; 4; 255; 255; 255; 255; 0; 0; 0; 4; 116; 101; 120; 116; 0; 0; 0];
  [13; 115; 121; 115; 116; 101; 109; 95; 115; 99; 104; 101; 109; 97; 0; 0; 0; 10; 97; 103; 103; 114; 101; 103; 97; 116; 101; 115; 0; 0; 0; 8; 105; 110; 105; 116; 99; 111; 110; 100];
  [0; 0; 0; 4; 110; 111; 110; 101; 0; 0; 0; 8; 105; 110; 105; 116; 99; 111; 110; 100; 0; 0; 0; 7; 114; 101; 103; 117; 108; 97; 114; 0; 0; 0; 4; 255; 255; 255; 255; 0];
  [0; 0; 4; 116; 101; 120; 116; 0; 0; 0; 13; 115; 121; 115; 116; 101; 109; 95; 115; 99; 104; 101; 109; 97; 0; 0; 0; 10; 97; 103; 103; 114; 101; 103; 97; 116; 101; 115; 0; 0];
  [0; 13; 107; 101; 121; 115; 112; 97; 99; 101; 95; 110; 97; 109; 101; 0; 0; 0; 4; 110; 111; 110; 101; 0; 0; 0; 13; 107; 101; 121; 115; 112; 97; 99; 101; 95; 110; 97; 109; 101];
  [0; 0; 0; 13; 112; 97; 114; 116; 105; 116; 105; 111; 110; 95; 107; 101; 121; 0; 0; 0; 4; 0; 0; 0; 0; 0; 0; 0; 4; 116; 101; 120; 116; 0; 0; 0; 13; 115; 121; 115];
  [116; 101; 109; 95; 115; 99; 104; 101; 109; 97; 0; 0; 0; 10; 97; 103; 103; 114; 101; 103; 97; 116; 101; 115; 0; 0; 0; 11; 114; 101; 116; 117; 114; 110; 95; 116; 121; 112; 101; 0];
  [0; 0; 4; 110; 111; 110; 101; 0; 0; 0; 11; 114; 101; 116; 117; 114; 110; 95; 116; 121; 112; 101; 0; 0; 0; 7; 114; 101; 103; 117; 108; 97; 114; 0; 0; 0; 4; 255; 255; 255];
  [255; 0; 0; 0; 4; 116; 101; 120; 116; 0; 0; 0; 13; 115; 121; 115; 116; 101; 109; 95; 115; 99; 104; 101; 109; 97; 0; 0; 0; 10; 97; 103; 103; 114; 101; 103; 97; 116; 101; 115];
  [0; 0; 0; 10; 115; 116; 97; 116; 101; 95; 102; 117; 110; 99; 0; 0; 0; 4; 110; 111; 110; 101; 0; 0; 0; 10; 115; 116; 97; 116; 101; 95; 102; 117; 110; 99; 0; 0; 0; 7];
  [114; 101; 103; 117; 108; 97; 114; 0; 0; 0; 4; 255; 255; 255; 255; 0; 0; 0; 4; 116; 101; 120; 116; 0; 0; 0; 13; 115; 121; 115; 116; 101; 109; 95; 115; 99; 104; 101; 109; 97];
  [0; 0; 0; 10; 97; 103; 103; 114; 101; 103; 97; 116; 101; 115; 0; 0; 0; 10; 115; 116; 97; 116; 101; 95; 116; 121; 112; 101; 0; 0; 0; 4; 110; 111; 110; 101; 0; 0; 0; 10];
  [115; 116; 97; 116; 101; 95; 116; 121; 112; 101; 0; 0; 0; 7; 114; 101; 103; 117; 108; 97; 114; 0; 0; 0; 4; 255; 255; 255; 255; 0; 0; 0; 4; 116; 101; 120; 116; 0; 0; 0];
  [13; 115; 121; 115; 116; 101; 109; 95; 115; 99; 104; 101; 109; 97; 0; 0; 0; 7; 99; 111; 108; 117; 109; 110; 115; 0; 0; 0; 16; 99; 108; 117; 115; 116; 101; 114; 105; 110; 103; 95];
  [111; 114; 100; 101; 114; 0; 0; 0; 4; 110; 111; 110; 101; 0; 0; 0; 16; 99; 108; 117; 115; 116; 101; 114; 105; 110; 103; 95; 111; 114; 100; 101; 114; 0; 0; 0; 7; 114; 101; 103];
  [117; 108; 97; 114; 0; 0; 0; 4; 255; 255; 255; 255; 0; 0; 0; 4; 116; 101; 120; 116; 0; 0; 0; 13; 115; 121; 115; 116; 101; 109; 95; 115; 99; 104; 101; 109; 97; 0; 0; 0];
  [7; 99; 111; 108; 117; 109; 110; 115; 0; 0; 0; 11; 99; 111; 108; 117; 109; 110; 95; 110; 97; 109; 101; 0; 0; 0; 3; 97; 115; 99; 0; 0; 0; 11; 99; 111; 108; 117; 109; 110];
  [95; 110; 97; 109; 101; 0; 0; 0; 10; 99; 108; 117; 115; 116; 101; 114; 105; 110; 103; 0; 0; 0; 4; 0; 0; 0; 1; 0; 0; 0; 4; 116; 101; 120; 116; 0; 0; 0; 13; 115];
  [121; 115; 116; 101; 109; 95; 115; 99; 104; 101; 109; 97; 0; 0; 0; 7; 99; 111; 108; 117; 109; 110; 115; 0; 0; 0; 17; 99; 111; 108; 117; 109; 110; 95; 110; 97; 109; 101; 95; 98];
  [121; 116; 101; 115; 0; 0; 0; 4; 110; 111; 110; 101; 0; 0; 0; 17; 99; 111; 108; 117; 109; 110; 95; 110; 97; 109; 101; 95; 98; 121; 116; 101; 115; 0; 0; 0; 7; 114; 101; 103];
  [117; 108; 97; 114; 0; 0; 0; 4; 255; 255; 255; 255; 0; 0; 0; 4; 98; 108; 111; 98; 0; 0; 0; 13; 115; 121; 115; 116; 101; 109; 95; 115; 99; 104; 101; 109; 97; 0; 0; 0];
  [7; 99; 111; 108; 117; 109; 110; 115; 0; 0; 0; 13; 107; 101; 121; 115; 112; 97; 99; 101; 95; 110; 97; 109; 101; 0; 0; 0; 4; 110; 111; 110; 101; 0; 0; 0; 13; 107; 101; 121];
  [115; 112; 97; 99; 101; 95; 110; 97; 109; 101; 0; 0; 0; 13; 112; 97; 114; 116; 105; 116; 105; 111; 110; 95; 107; 101; 121; 0; 0; 0; 4; 0; 0; 0; 0; 0; 0; 0; 4; 116];
  [101; 120; 116; 0; 0; 0; 13; 115; 121; 115; 116; 101; 109; 95; 115; 99; 104; 101; 109; 97; 0; 0; 0; 7; 99; 111; 108; 117; 109; 110; 115; 0; 0; 0; 4; 107; 105; 110; 100; 0];
  [0; 0; 4; 110; 111; 110; 101; 0; 0; 0; 4; 107; 105; 110; 100; 0; 0; 0; 7; 114; 101; 103; 117; 108; 97; 114; 0; 0; 0; 4; 255; 255; 255; 255; 0; 0; 0; 4; 116; 101];
  [120; 116; 0; 0; 0; 13; 115; 121; 115; 116; 101; 109; 95; 115; 99; 104; 101; 109; 97; 0; 0; 0; 7; 99; 111; 108; 117; 109; 110; 115; 0; 0; 0; 8; 112; 111; 115; 105; 116; 105];
  [111; 110; 0; 0; 0; 4; 110; 111; 110; 101; 0; 0; 0; 8; 112; 111; 115; 105; 116; 105; 111; 110; 0; 0; 0; 7; 114; 101; 103; 117; 108; 97; 114; 0; 0; 0; 4; 255; 255; 255];
  [255; 0; 0; 0; 3; 105; 110; 116; 0; 0; 0; 13; 115; 121; 115; 116; 101; 109; 95; 115; 99; 104; 101; 109; 97; 0; 0; 0; 7; 99; 111; 108; 117; 109; 110; 115; 0; 0; 0; 10];
  [116; 97; 98; 108; 101; 95; 110; 97; 109; 101; 0; 0; 0; 3; 97; 115; 99; 0; 0; 0; 10; 116; 97; 98; 108; 101; 95; 110; 97; 109; 101; 0; 0; 0; 10; 99; 108; 117; 115; 116];
  [101; 114; 105; 110; 103; 0; 0; 0; 4; 0; 0; 0; 0; 0; 0; 0; 4; 116; 101; 120; 116; 0; 0; 0; 13; 115; 121; 115; 116; 101; 109; 95; 115; 99; 104; 101; 109; 97; 0; 0];
  [0; 7; 99; 111; 108; 117; 109; 110; 115; 0; 0; 0; 4; 116; 121; 112; 101; 0; 0; 0; 4; 110; 111; 110; 101; 0; 0; 0; 4; 116; 121; 112; 101; 0; 0; 0; 7; 114; 101; 103];
  [117; 108; 97; 114; 0; 0; 0; 4; 255; 255; 255; 255; 0; 0; 0; 4; 116; 101; 120; 116; 0; 0; 0; 13; 115; 121; 115; 116; 101; 109; 95; 115; 99; 104; 101; 109; 97; 0; 0; 0];
  [15; 100; 114; 111; 112; 112; 101; 100; 95; 99; 111; 108; 117; 109; 110; 115; 0; 0; 0; 11; 99; 111; 108; 117; 109; 110; 95; 110; 97; 109; 101; 0; 0; 0; 3; 97; 115; 99; 0; 0];
  [0; 11; 99; 111; 108; 117; 109; 110; 95; 110; 97; 109; 101; 0; 0; 0; 10; 99; 108; 117; 115; 116; 101; 114; 105; 110; 103; 0; 0; 0; 4; 0; 0; 0; 1; 0; 0; 0; 4; 116];
  [101; 120; 116; 0; 0; 0; 13; 115; 121; 115; 116; 101; 109; 95; 115; 99; 104; 101; 109; 97; 0; 0; 0; 15; 100; 114; 111; 112; 112; 101; 100; 95; 99; 111; 108; 117; 109; 110; 115; 0];
  [0; 0; 12; 100; 114; 111; 112; 112; 101; 100; 95; 116; 105; 109; 101; 0; 0; 0; 4; 110; 111; 110; 101; 0; 0; 0; 12; 100; 114; 111; 112; 112; 101; 100; 95; 116; 105; 109; 101; 0];
  [0; 0; 7; 114; 101; 103; 117; 108; 97; 114; 0; 0; 0; 4; 255; 255; 255; 255; 0; 0; 0; 9; 116; 105; 109; 101; 115; 116; 97; 109; 112; 0; 0; 0; 13; 115; 121; 115; 116; 101];
  [109; 95; 115; 99; 104; 101; 109; 97; 0; 0; 0; 15; 100; 114; 111; 112; 112; 101; 100; 95; 99; 111; 108; 117; 109; 110; 115; 0; 0; 0; 13; 107; 101; 121; 115; 112; 97; 99; 101; 95];
  [110; 97; 109; 101; 0; 0; 0; 4; 110; 111; 110; 101; 0; 0; 0; 13; 107; 101; 121; 115; 112; 97; 99; 101; 95; 110; 97; 109; 101; 0; 0; 0; 13; 112; 97; 114; 116; 105; 116; 105];
  [111; 110; 95; 107; 101; 121; 0; 0; 0; 4; 0; 0; 0; 0; 0; 0; 0; 4; 116; 101; 120; 116; 0; 0; 0; 13; 115; 121; 115; 116; 101; 109; 95; 115; 99; 104; 101; 109; 97; 0];
  [0; 0; 15; 100; 114; 111; 112; 112; 101; 100; 95; 99; 111; 108; 117; 109; 110; 115; 0; 0; 0; 4; 107; 105; 110; 100; 0; 0; 0; 4; 110; 111; 110; 101; 0; 0; 0; 4; 107; 105];
  [110; 100; 0; 0; 0; 7; 114; 101; 103; 117; 108; 97; 114; 0; 0; 0; 4; 255; 255; 255; 255; 0; 0; 0; 4; 116; 101; 120; 116; 0; 0; 0; 13; 115; 121; 115; 116; 101; 109; 95];
  [115; 99; 104; 101; 109; 97; 0; 0; 0; 15; 100; 114; 111; 112; 112; 101; 100; 95; 99; 111; 108; 117; 109; 110; 115; 0; 0; 0; 10; 116; 97; 98; 108; 101; 95; 110; 97; 109; 101; 0];
  [0; 0; 3; 97; 115; 99; 0; 0; 0; 10; 116; 97; 98; 108; 101; 95; 110; 97; 109; 101; 0; 0; 0; 10; 99; 108; 117; 115; 116; 101; 114; 105; 110; 103; 0; 0; 0; 4; 0; 0];
  [0; 0; 0; 0; 0; 4; 116; 101; 120; 116; 0; 0; 0; 13; 115; 121; 115; 116; 101; 109; 95; 115; 99; 104; 101; 109; 97; 0; 0; 0; 15; 100; 114; 111; 112; 112; 101; 100; 95; 99];
  [111; 108; 117; 109; 110; 115; 0; 0; 0; 4; 116; 121; 112; 101; 0; 0; 0; 4; 110; 111; 110; 101; 0; 0; 0; 4; 116; 121; 112; 101; 0; 0; 0; 7; 114; 101; 103; 117; 108; 97];
  [114; 0; 0; 0; 4; 255; 255; 255; 255; 0; 0; 0; 4; 116; 101; 120; 116; 0; 0; 0; 13; 115; 121; 115; 116; 101; 109; 95; 115; 99; 104; 101; 109; 97; 0; 0; 0; 9; 102; 117];
  [110; 99; 116; 105; 111; 110; 115; 0; 0; 0; 14; 97; 114; 103; 117; 109; 101; 110; 116; 95; 110; 97; 109; 101; 115; 0; 0; 0; 4; 110; 111; 110; 101; 0; 0; 0; 14; 97; 114; 103];
  [117; 109; 101; 110; 116; 95; 110; 97; 109; 101; 115; 0; 0; 0; 7; 114; 101; 103; 117; 108; 97; 114; 0; 0; 0; 4; 255; 255; 255; 255; 0; 0; 0; 18; 102; 114; 111; 122; 101; 110];
  [60; 108; 105; 115; 116; 60; 116; 101; 120; 116; 62; 62; 0; 0; 0; 13; 115; 121; 115; 116; 101; 109; 95; 115; 99; 104; 101; 109; 97; 0; 0; 0; 9; 102; 117; 110; 99; 116; 105; 111];
  [110; 115; 0; 0; 0; 14; 97; 114; 103; 117; 109; 101; 110; 116; 95; 116; 121; 112; 101; 115; 0; 0; 0; 3; 97; 115; 99; 0; 0; 0; 14; 97; 114; 103; 117; 109; 101; 110; 116; 95];
  [116; 121; 112; 101; 115; 0; 0; 0; 10; 99; 108; 117; 115; 116; 101; 114; 105; 110; 103; 0; 0; 0; 4; 0; 0; 0; 1; 0; 0; 0; 18; 102; 114; 111; 122; 101; 110; 60; 108; 105];
  [115; 116; 60; 116; 101; 120; 116; 62; 62; 0; 0; 0; 13; 115; 121; 115; 116; 101; 109; 95; 115; 99; 104; 101; 109; 97; 0; 0; 0; 9; 102; 117; 110; 99; 116; 105; 111; 110; 115; 0];
  [0; 0; 4; 98; 111; 100; 121; 0; 0; 0; 4; 110; 111; 110; 101; 0; 0; 0; 4; 98; 111; 100; 121; 0; 0; 0; 7; 114; 101; 103; 117; 108; 97; 114; 0; 0; 0; 4; 255; 255];
  [255; 255; 0; 0; 0; 4; 116; 101; 120; 116; 0; 0; 0; 13; 115; 121; 115; 116; 101; 109; 95; 115; 99; 104; 101; 109; 97; 0; 0; 0; 9; 102; 117; 110; 99; 116; 105; 111; 110; 115];
  [0; 0; 0; 20; 99; 97; 108; 108; 101; 100; 95; 111; 110; 95; 110; 117; 108; 108; 95; 105; 110; 112; 117; 116; 0; 0; 0; 4; 110; 111; 110; 101; 0; 0; 0; 20; 99; 97; 108; 108];
  [101; 100; 95; 111; 110; 95; 110; 117; 108; 108; 95; 105; 110; 112; 117; 116; 0; 0; 0; 7; 114; 101; 103; 117; 108; 97; 114; 0; 0; 0; 4; 255; 255; 255; 255; 0; 0; 0; 7; 98];
  [111; 111; 108; 101; 97; 110; 0; 0; 0; 13; 115; 121; 115; 116; 101; 109; 95; 115; 99; 104; 101; 109; 97; 0; 0; 0; 9; 102; 117; 110; 99; 116; 105; 111; 110; 115; 0; 0; 0; 13];
  [102; 117; 110; 99; 116; 105; 111; 110; 95; 110; 97; 109; 101; 0; 0; 0; 3; 97; 115; 99; 0; 0; 0; 13; 102; 117; 110; 99; 116; 105; 111; 110; 95; 110; 97; 109; 101; 0; 0; 0];
  [10; 99; 108; 117; 115; 116; 101; 114; 105; 110; 103; 0; 0; 0; 4; 0; 0; 0; 0; 0; 0; 0; 4; 116; 101; 120; 116; 0; 0; 0; 13; 115; 121; 115; 116; 101; 109; 95; 115; 99];
  [104; 101; 109; 97; 0; 0; 0; 9; 102; 117; 110; 99; 116; 105; 111; 110; 115; 0; 0; 0; 13; 107; 101; 121; 115; 112; 97; 99; 101; 95; 110; 97; 109; 101; 0; 0; 0; 4; 110; 111];
  [110; 101; 0; 0; 0; 13; 107; 101; 121; 115; 112; 97; 99; 101; 95; 110; 97; 109; 101; 0; 0; 0; 13; 112; 97; 114; 116; 105; 116; 105; 111; 110; 95; 107; 101; 121; 0; 0; 0; 4];
  [0; 0; 0; 0; 0; 0; 0; 4; 116; 101; 120; 116; 0; 0; 0; 13; 115; 121; 115; 116; 101; 109; 95; 115; 99; 104; 101; 109; 97; 0; 0; 0; 9; 102; 117; 110; 99; 116; 105; 111];
  [110; 115; 0; 0; 0; 8; 108; 97; 110; 103; 117; 97; 103; 101; 0; 0; 0; 4; 110; 111; 110; 101; 0; 0; 0; 8; 108; 97; 110; 103; 117; 97; 103; 101; 0; 0; 0; 7; 114; 101];
  [103; 117; 108; 97; 114; 0; 0; 0; 4; 255; 255; 255; 255; 0; 0; 0; 4; 116; 101; 120; 116; 0; 0; 0; 13; 115; 121; 115; 116; 101; 109; 95; 115; 99; 104; 101; 109; 97; 0; 0];
  [0; 9; 102; 117; 110; 99; 116; 105; 111; 110; 115; 0; 0; 0; 11; 114; 101; 116; 117; 114; 110; 95; 116; 121; 112; 101; 0; 0; 0; 4; 110; 111; 110; 101; 0; 0; 0; 11; 114; 101];
  [116; 117; 114; 110; 95; 116; 121; 112; 101; 0; 0; 0; 7; 114; 101; 103; 117; 108; 97; 114; 0; 0; 0; 4; 255; 255; 255; 255; 0; 0; 0; 4; 116; 101; 120; 116; 0; 0; 0; 13];
  [115; 121; 115; 116; 101; 109; 95; 115; 99; 104; 101; 109; 97; 0; 0; 0; 7; 105; 110; 100; 101; 120; 101; 115; 0; 0; 0; 10; 105; 110; 100; 101; 120; 95; 110; 97; 109; 101; 0; 0];
  [0; 3; 97; 115; 99; 0; 0; 0; 10; 105; 110; 100; 101; 120; 95; 110; 97; 109; 101; 0; 0; 0; 10; 99; 108; 117; 115; 116; 101; 114; 105; 110; 103; 0; 0; 0; 4; 0; 0; 0];
  [1; 0; 0; 0; 4; 116; 101; 120; 116; 0; 0; 0; 13; 115; 121; 115; 116; 101; 109; 95; 115; 99; 104; 101; 109; 97; 0; 0; 0; 7; 105; 110; 100; 101; 120; 101; 115; 0; 0; 0];
  [13; 107; 101; 121; 115; 112; 97; 99; 101; 95; 110; 97; 109; 101; 0; 0; 0; 4; 110; 111; 110; 101; 0; 0; 0; 13; 107; 101; 121; 115; 112; 97; 99; 101; 95; 110; 97; 109; 101; 0];
  [0; 0; 13; 112; 97; 114; 116; 105; 116; 105; 111; 110; 95; 107; 101; 121; 0; 0; 0; 4; 0; 0; 0; 0; 0; 0; 0; 4; 116; 101; 120; 116; 0; 0; 0; 13; 115; 121; 115; 116];
  [101; 109; 95; 115; 99; 104; 101; 109; 97; 0; 0; 0; 7; 105; 110; 100; 101; 120; 101; 115; 0; 0; 0; 4; 107; 105; 110; 100; 0; 0; 0; 4; 110; 111; 110; 101; 0; 0; 0; 4];
  [107; 105; 110; 100; 0; 0; 0; 7; 114; 101; 103; 117; 108; 97; 114; 0; 0; 0; 4; 255; 255; 255; 255; 0; 0; 0; 4; 116; 101; 120; 116; 0; 0; 0; 13; 115; 121; 115; 116; 101];
  [109; 95; 115; 99; 104; 101; 109; 97; 0; 0; 0; 7; 105; 110; 100; 101; 120; 101; 115; 0; 0; 0; 7; 111; 112; 116; 105; 111; 110; 115; 0; 0; 0; 4; 110; 111; 110; 101; 0; 0];
  [0; 7; 111; 112; 116; 105; 111; 110; 115; 0; 0; 0; 7; 114; 101; 103; 117; 108; 97; 114; 0; 0; 0; 4; 255; 255; 255; 255; 0; 0; 0; 23; 102; 114; 111; 122; 101; 110; 60; 109];
  [97; 112; 60; 116; 101; 120; 116; 44; 32; 116; 101; 120; 116; 62; 62; 0; 0; 0; 13; 115; 121; 115; 116; 101; 109; 95; 115; 99; 104; 101; 109; 97; 0; 0; 0; 7; 105; 110; 100; 101];
  [120; 101; 115; 0; 0; 0; 10; 116; 97; 98; 108; 101; 95; 110; 97; 109; 101; 0; 0; 0; 3; 97; 115; 99; 0; 0; 0; 10; 116; 97; 98; 108; 101; 95; 110; 97; 109; 101; 0; 0];
  [0; 10; 99; 108; 117; 115; 116; 101; 114; 105; 110; 103; 0; 0; 0; 4; 0; 0; 0; 0; 0; 0; 0; 4; 116; 101; 120; 116; 0; 0; 0; 13; 115; 121; 115; 116; 101; 109; 95; 115];
  [99; 104; 101; 109; 97; 0; 0; 0; 9; 107; 101; 121; 115; 112; 97; 99; 101; 115; 0; 0; 0; 14; 100; 117; 114; 97; 98; 108; 101; 95; 119; 114; 105; 116; 101; 115; 0; 0; 0; 4];
  [110; 111; 110; 101; 0; 0; 0; 14; 100; 117; 114; 97; 98; 108; 101; 95; 119; 114; 105; 116; 101; 115; 0; 0; 0; 7; 114; 101; 103; 117; 108; 97; 114; 0; 0; 0; 4; 255; 255; 255];
  [255; 0; 0; 0; 7; 98; 111; 111; 108; 101; 97; 110; 0; 0; 0; 13; 115; 121; 115; 116; 101; 109; 95; 115; 99; 104; 101; 109; 97; 0; 0; 0; 9; 107; 101; 121; 115; 112; 97; 99];
  [101; 115; 0; 0; 0; 13; 107; 101; 121; 115; 112; 97; 99; 101; 95; 110; 97; 109; 101; 0; 0; 0; 4; 110; 111; 110; 101; 0; 0; 0; 13; 107; 101; 121; 115; 112; 97; 99; 101; 95];
  [110; 97; 109; 101; 0; 0; 0; 13; 112; 97; 114; 116; 105; 116; 105; 111; 110; 95; 107; 101; 121; 0; 0; 0; 4; 0; 0; 0; 0; 0; 0; 0; 4; 116; 101; 120; 116; 0; 0; 0];
  [13; 115; 121; 115; 116; 101; 109; 95; 115; 99; 104; 101; 109; 97; 0; 0; 0; 9; 107; 101; 121; 115; 112; 97; 99; 101; 115; 0; 0; 0; 11; 114; 101; 112; 108; 105; 99; 97; 116; 105];
  [111; 110; 0; 0; 0; 4; 110; 111; 110; 101; 0; 0; 0; 11; 114; 101; 112; 108; 105; 99; 97; 116; 105; 111; 110; 0; 0; 0; 7; 114; 101; 103; 117; 108; 97; 114; 0; 0; 0; 4];
  [255; 255; 255; 255; 0; 0; 0; 23; 102; 114; 111; 122; 101; 110; 60; 109; 97; 112; 60; 116; 101; 120; 116; 44; 32; 116; 101; 120; 116; 62; 62; 0; 0; 0; 13; 115; 121; 115; 116; 101];
  [109; 95; 115; 99; 104; 101; 109; 97; 0; 0; 0; 6; 116; 97; 98; 108; 101; 115; 0; 0; 0; 23; 97; 100; 100; 105; 116; 105; 111; 110; 97; 108; 95; 119; 114; 105; 116; 101; 95; 112];
  [111; 108; 105; 99; 121; 0; 0; 0; 4; 110; 111; 110; 101; 0; 0; 0; 23; 97; 100; 100; 105; 116; 105; 111; 110; 97; 108; 95; 119; 114; 105; 116; 101; 95; 112; 111; 108; 105; 99; 121];
  [0; 0; 0; 7; 114; 101; 103; 117; 108; 97; 114; 0; 0; 0; 4; 255; 255; 255; 255; 0; 0; 0; 4; 116; 101; 120; 116; 0; 0; 0; 13; 115; 121; 115; 116; 101; 109; 95; 115; 99];
  [104; 101; 109; 97; 0; 0; 0; 6; 116; 97; 98; 108; 101; 115; 0; 0; 0; 22; 98; 108; 111; 111; 109; 95; 102; 105; 108; 116; 101; 114; 95; 102; 112; 95; 99; 104; 97; 110; 99; 101];
  [0; 0; 0; 4; 110; 111; 110; 101; 0; 0; 0; 22; 98; 108; 111; 111; 109; 95; 102; 105; 108; 116; 101; 114; 95; 102; 112; 95; 99; 104; 97; 110; 99; 101; 0; 0; 0; 7; 114; 101];
  [103; 117; 108; 97; 114; 0; 0; 0; 4; 255; 255; 255; 255; 0; 0; 0; 6; 100; 111; 117; 98; 108; 101; 0; 0; 0; 13; 115; 121; 115; 116; 101; 109; 95; 115; 99; 104; 101; 109; 97];
  [0; 0; 0; 6; 116; 97; 98; 108; 101; 115; 0; 0; 0; 7; 99; 97; 99; 104; 105; 110; 103; 0; 0; 0; 4; 110; 111; 110; 101; 0; 0; 0; 7; 99; 97; 99; 104; 105; 110; 103];
  [0; 0; 0; 7; 114; 101; 103; 117; 108; 97; 114; 0; 0; 0; 4; 255; 255; 255; 255; 0; 0; 0; 23; 102; 114; 111; 122; 101; 110; 60; 109; 97; 112; 60; 116; 101; 120; 116; 44; 32];
  [116; 101; 120; 116; 62; 62; 0; 0; 0; 13; 115; 121; 115; 116; 101; 109; 95; 115; 99; 104; 101; 109; 97; 0; 0; 0; 6; 116; 97; 98; 108; 101; 115; 0; 0; 0; 3; 99; 100; 99];
  [0; 0; 0; 4; 110; 111; 110; 101; 0; 0; 0; 3; 99; 100; 99; 0; 0; 0; 7; 114; 101; 103; 117; 108; 97; 114; 0; 0; 0; 4; 255; 255; 255; 255; 0; 0; 0; 7; 98; 111];
  [111; 108; 101; 97; 110; 0; 0; 0; 13; 115; 121; 115; 116; 101; 109; 95; 115; 99; 104; 101; 109; 97; 0; 0; 0; 6; 116; 97; 98; 108; 101; 115; 0; 0; 0; 7; 99; 111; 109; 109];
  [101; 110; 116; 0; 0; 0; 4; 110; 111; 110; 101; 0; 0; 0; 7; 99; 111; 109; 109; 101; 110; 116; 0; 0; 0; 7; 114; 101; 103; 117; 108; 97; 114; 0; 0; 0; 4; 255; 255; 255];
  [255; 0; 0; 0; 4; 116; 101; 120; 116; 0; 0; 0; 13; 115; 121; 115; 116; 101; 109; 95; 115; 99; 104; 101; 109; 97; 0; 0; 0; 6; 116; 97; 98; 108; 101; 115; 0; 0; 0; 10];
  [99; 111; 109; 112; 97; 99; 116; 105; 111; 110; 0; 0; 0; 4; 110; 111; 110; 101; 0; 0; 0; 10; 99; 111; 109; 112; 97; 99; 116; 105; 111; 110; 0; 0; 0; 7; 114; 101; 103; 117];
  [108; 97; 114; 0; 0; 0; 4; 255; 255; 255; 255; 0; 0; 0; 23; 102; 114; 111; 122; 101; 110; 60; 109; 97; 112; 60; 116; 101; 120; 116; 44; 32; 116; 101; 120; 116; 62; 62; 0; 0];
  [0; 13; 115; 121; 115; 116; 101; 109; 95; 115; 99; 104; 101; 109; 97; 0; 0; 0; 6; 116; 97; 98; 108; 101; 115; 0; 0; 0; 11; 99; 111; 109; 112; 114; 101; 115; 115; 105; 111; 110];
  [0; 0; 0; 4; 110; 111; 110; 101; 0; 0; 0; 11; 99; 111; 109; 112; 114; 101; 115; 115; 105; 111; 110; 0; 0; 0; 7; 114; 101; 103; 117; 108; 97; 114; 0; 0; 0; 4; 255; 255];
  [255; 255; 0; 0; 0; 23; 102; 114; 111; 122; 101; 110; 60; 109; 97; 112; 60; 116; 101; 120; 116; 44; 32; 116; 101; 120; 116; 62; 62; 0; 0; 0; 13; 115; 121; 115; 116; 101; 109; 95];
  [115; 99; 104; 101; 109; 97; 0; 0; 0; 6; 116; 97; 98; 108; 101; 115; 0; 0; 0; 16; 99; 114; 99; 95; 99; 104; 101; 99; 107; 95; 99; 104; 97; 110; 99; 101; 0; 0; 0; 4];
  [110; 111; 110; 101; 0; 0; 0; 16; 99; 114; 99; 95; 99; 104; 101; 99; 107; 95; 99; 104; 97; 110; 99; 101; 0; 0; 0; 7; 114; 101; 103; 117; 108; 97; 114; 0; 0; 0; 4; 255];
  [255; 255; 255; 0; 0; 0; 6; 100; 111; 117; 98; 108; 101; 0; 0; 0; 13; 115; 121; 115; 116; 101; 109; 95; 115; 99; 104; 101; 109; 97; 0; 0; 0; 6; 116; 97; 98; 108; 101; 115];
  [0; 0; 0; 26; 100; 99; 108; 111; 99; 97; 108; 95; 114; 101; 97; 100; 95; 114; 101; 112; 97; 105; 114; 95; 99; 104; 97; 110; 99; 101; 0; 0; 0; 4; 110; 111; 110; 101; 0; 0];
  [0; 26; 100; 99; 108; 111; 99; 97; 108; 95; 114; 101; 97; 100; 95; 114; 101; 112; 97; 105; 114; 95; 99; 104; 97; 110; 99; 101; 0; 0; 0; 7; 114; 101; 103; 117; 108; 97; 114; 0];
  [0; 0; 4; 255; 255; 255; 255; 0; 0; 0; 6; 100; 111; 117; 98; 108; 101; 0; 0; 0; 13; 115; 121; 115; 116; 101; 109; 95; 115; 99; 104; 101; 109; 97; 0; 0; 0; 6; 116; 97];
  [98; 108; 101; 115; 0; 0; 0; 20; 100; 101; 102; 97; 117; 108; 116; 95; 116; 105; 109; 101; 95; 116; 111; 95; 108; 105; 118; 101; 0; 0; 0; 4; 110; 111; 110; 101; 0; 0; 0; 20];
  [100; 101; 102; 97; 117; 108; 116; 95; 116; 105; 109; 101; 95; 116; 111; 95; 108; 105; 118; 101; 0; 0; 0; 7; 114; 101; 103; 117; 108; 97; 114; 0; 0; 0; 4; 255; 255; 255; 255; 0];
  [0; 0; 3; 105; 110; 116; 0; 0; 0; 13; 115; 121; 115; 116; 101; 109; 95; 115; 99; 104; 101; 109; 97; 0; 0; 0; 6; 116; 97; 98; 108; 101; 115; 0; 0; 0; 10; 101; 120; 116];
  [101; 110; 115; 105; 111; 110; 115; 0; 0; 0; 4; 110; 111; 110; 101; 0; 0; 0; 10; 101; 120; 116; 101; 110; 115; 105; 111; 110; 115; 0; 0; 0; 7; 114; 101; 103; 117; 108; 97; 114];
  [0; 0; 0; 4; 255; 255; 255; 255; 0; 0; 0; 23; 102; 114; 111; 122; 101; 110; 60; 109; 97; 112; 60; 116; 101; 120; 116; 44; 32; 98; 108; 111; 98; 62; 62; 0; 0; 0; 13; 115];
  [121; 115; 116; 101; 109; 95; 115; 99; 104; 101; 109; 97; 0; 0; 0; 6; 116; 97; 98; 108; 101; 115; 0; 0; 0; 5; 102; 108; 97; 103; 115; 0; 0; 0; 4; 110; 111; 110; 101; 0];
  [0; 0; 5; 102; 108; 97; 103; 115; 0; 0; 0; 7; 114; 101; 103; 117; 108; 97; 114; 0; 0; 0; 4; 255; 255; 255; 255; 0; 0; 0; 17; 102; 114; 111; 122; 101; 110; 60; 115; 101];
  [116; 60; 116; 101; 120; 116; 62; 62; 0; 0; 0; 13; 115; 121; 115; 116; 101; 109; 95; 115; 99; 104; 101; 109; 97; 0; 0; 0; 6; 116; 97; 98; 108; 101; 115; 0; 0; 0; 16; 103];
  [99; 95; 103; 114; 97; 99; 101; 95; 115; 101; 99; 111; 110; 100; 115; 0; 0; 0; 4; 110; 111; 110; 101; 0; 0; 0; 16; 103; 99; 95; 103; 114; 97; 99; 101; 95; 115; 101; 99; 111];
  [110; 100; 115; 0; 0; 0; 7; 114; 101; 103; 117; 108; 97; 114; 0; 0; 0; 4; 255; 255; 255; 255; 0; 0; 0; 3; 105; 110; 116; 0; 0; 0; 13; 115; 121; 115; 116; 101; 109; 95];
  [115; 99; 104; 101; 109; 97; 0; 0; 0; 6; 116; 97; 98; 108; 101; 115; 0; 0; 0; 2; 105; 100; 0; 0; 0; 4; 110; 111; 110; 101; 0; 0; 0; 2; 105; 100; 0; 0; 0; 7];
  [114; 101; 103; 117; 108; 97; 114; 0; 0; 0; 4; 255; 255; 255; 255; 0; 0; 0; 4; 117; 117; 105; 100; 0; 0; 0; 13; 115; 121; 115; 116; 101; 109; 95; 115; 99; 104; 101; 109; 97];
  [0; 0; 0; 6; 116; 97; 98; 108; 101; 115; 0; 0; 0; 13; 107; 101; 121; 115; 112; 97; 99; 101; 95; 110; 97; 109; 101; 0; 0; 0; 4; 110; 111; 110; 101; 0; 0; 0; 13; 107];
  [101; 121; 115; 112; 97; 99; 101; 95; 110; 97; 109; 101; 0; 0; 0; 13; 112; 97; 114; 116; 105; 116; 105; 111; 110; 95; 107; 101; 121; 0; 0; 0; 4; 0; 0; 0; 0; 0; 0; 0];
  [4; 116; 101; 120; 116; 0; 0; 0; 13; 115; 121; 115; 116; 101; 109; 95; 115; 99; 104; 101; 109; 97; 0; 0; 0; 6; 116; 97; 98; 108; 101; 115; 0; 0; 0; 18; 109; 97; 120; 95];
  [105; 110; 100; 101; 120; 95; 105; 110; 116; 101; 114; 118; 97; 108; 0; 0; 0; 4; 110; 111; 110; 101; 0; 0; 0; 18; 109; 97; 120; 95; 105; 110; 100; 101; 120; 95; 105; 110; 116; 101];
  [114; 118; 97; 108; 0; 0; 0; 7; 114; 101; 103; 117; 108; 97; 114; 0; 0; 0; 4; 255; 255; 255; 255; 0; 0; 0; 3; 105; 110; 116; 0; 0; 0; 13; 115; 121; 115; 116; 101; 109];
  [95; 115; 99; 104; 101; 109; 97; 0; 0; 0; 6; 116; 97; 98; 108; 101; 115; 0; 0; 0; 27; 109; 101; 109; 116; 97; 98; 108; 101; 95; 102; 108; 117; 115; 104; 95; 112; 101; 114; 105];
  [111; 100; 95; 105; 110; 95; 109; 115; 0; 0; 0; 4; 110; 111; 110; 101; 0; 0; 0; 27; 109; 101; 109; 116; 97; 98; 108; 101; 95; 102; 108; 117; 115; 104; 95; 112; 101; 114; 105; 111];
  [100; 95; 105; 110; 95; 109; 115; 0; 0; 0; 7; 114; 101; 103; 117; 108; 97; 114; 0; 0; 0; 4; 255; 255; 255; 255; 0; 0; 0; 3; 105; 110; 116; 0; 0; 0; 13; 115; 121; 115];
  [116; 101; 109; 95; 115; 99; 104; 101; 109; 97; 0; 0; 0; 6; 116; 97; 98; 108; 101; 115; 0; 0; 0; 18; 109; 105; 110; 95; 105; 110; 100; 101; 120; 95; 105; 110; 116; 101; 114; 118];
  [97; 108; 0; 0; 0; 4; 110; 111; 110; 101; 0; 0; 0; 18; 109; 105; 110; 95; 105; 110; 100; 101; 120; 95; 105; 110; 116; 101; 114; 118; 97; 108; 0; 0; 0; 7; 114; 101; 103; 117];
  [108; 97; 114; 0; 0; 0; 4; 255; 255; 255; 255; 0; 0; 0; 3; 105; 110; 116; 0; 0; 0; 13; 115; 121; 115; 116; 101; 109; 95; 115; 99; 104; 101; 109; 97; 0; 0; 0; 6; 116];
  [97; 98; 108; 101; 115; 0; 0; 0; 11; 114; 101; 97; 100; 95; 114; 101; 112; 97; 105; 114; 0; 0; 0; 4; 110; 111; 110; 101; 0; 0; 0; 11; 114; 101; 97; 100; 95; 114; 101; 112];
  [97; 105; 114; 0; 0; 0; 7; 114; 101; 103; 117; 108; 97; 114; 0; 0; 0; 4; 255; 255; 255; 255; 0; 0; 0; 4; 116; 101; 120; 116; 0; 0; 0; 13; 115; 121; 115; 116; 101; 109];
  [95; 115; 99; 104; 101; 109; 97; 0; 0; 0; 6; 116; 97; 98; 108; 101; 115; 0; 0; 0; 18; 114; 101; 97; 100; 95; 114; 101; 112; 97; 105; 114; 95; 99; 104; 97; 110; 99; 101; 0];
  [0; 0; 4; 110; 111; 110; 101; 0; 0; 0; 18; 114; 101; 97; 100; 95; 114; 101; 112; 97; 105; 114; 95; 99; 104; 97; 110; 99; 101; 0; 0; 0; 7; 114; 101; 103; 117; 108; 97; 114];
  [0; 0; 0; 4; 255; 255; 255; 255; 0; 0; 0; 6; 100; 111; 117; 98; 108; 101; 0; 0; 0; 13; 115; 121; 115; 116; 101; 109; 95; 115; 99; 104; 101; 109; 97; 0; 0; 0; 6; 116];
  [97; 98; 108; 101; 115; 0; 0; 0; 17; 115; 112; 101; 99; 117; 108; 97; 116; 105; 118; 101; 95; 114; 101; 116; 114; 121; 0; 0; 0; 4; 110; 111; 110; 101; 0; 0; 0; 17; 115; 112];
  [101; 99; 117; 108; 97; 116; 105; 118; 101; 95; 114; 101; 116; 114; 121; 0; 0; 0; 7; 114; 101; 103; 117; 108; 97; 114; 0; 0; 0; 4; 255; 255; 255; 255; 0; 0; 0; 4; 116; 101];
  [120; 116; 0; 0; 0; 13; 115; 121; 115; 116; 101; 109; 95; 115; 99; 104; 101; 109; 97; 0; 0; 0; 6; 116; 97; 98; 108; 101; 115; 0; 0; 0; 10; 116; 97; 98; 108; 101; 95; 110];
  [97; 109; 101; 0; 0; 0; 3; 97; 115; 99; 0; 0; 0; 10; 116; 97; 98; 108; 101; 95; 110; 97; 109; 101; 0; 0; 0; 10; 99; 108; 117; 115; 116; 101; 114; 105; 110; 103; 0; 0];
  [0; 4; 0; 0; 0; 0; 0; 0; 0; 4; 116; 101; 120; 116; 0; 0; 0; 13; 115; 121; 115; 116; 101; 109; 95; 115; 99; 104; 101; 109; 97; 0; 0; 0; 8; 116; 114; 105; 103; 103];
  [101; 114; 115; 0; 0; 0; 13; 107; 101; 121; 115; 112; 97; 99; 101; 95; 110; 97; 109; 101; 0; 0; 0; 4; 110; 111; 110; 101; 0; 0; 0; 13; 107; 101; 121; 115; 112; 97; 99; 101];
  [95; 110; 97; 109; 101; 0; 0; 0; 13; 112; 97; 114; 116; 105; 116; 105; 111; 110; 95; 107; 101; 121; 0; 0; 0; 4; 0; 0; 0; 0; 0; 0; 0; 4; 116; 101; 120; 116; 0; 0];
  [0; 13; 115; 121; 115; 116; 101; 109; 95; 115; 99; 104; 101; 109; 97; 0; 0; 0; 8; 116; 114; 105; 103; 103; 101; 114; 115; 0; 0; 0; 7; 111; 112; 116; 105; 111; 110; 115; 0; 0];
  [0; 4; 110; 111; 110; 101; 0; 0; 0; 7; 111; 112; 116; 105; 111; 110; 115; 0; 0; 0; 7; 114; 101; 103; 117; 108; 97; 114; 0; 0; 0; 4; 255; 255; 255; 255; 0; 0; 0; 23];
  [102; 114; 111; 122; 101; 110; 60; 109; 97; 112; 60; 116; 101; 120; 116; 44; 32; 116; 101; 120; 116; 62; 62; 0; 0; 0; 13; 115; 121; 115; 116; 101; 109; 95; 115; 99; 104; 101; 109; 97];
  [0; 0; 0; 8; 116; 114; 105; 103; 103; 101; 114; 115; 0; 0; 0; 10; 116; 97; 98; 108; 101; 95; 110; 97; 109; 101; 0; 0; 0; 3; 97; 115; 99; 0; 0; 0; 10; 116; 97; 98];
  [108; 101; 95; 110; 97; 109; 101; 0; 0; 0; 10; 99; 108; 117; 115; 116; 101; 114; 105; 110; 103; 0; 0; 0; 4; 0; 0; 0; 0; 0; 0; 0; 4; 116; 101; 120; 116; 0; 0; 0];
  [13; 115; 121; 115; 116; 101; 109; 95; 115; 99; 104; 101; 109; 97; 0; 0; 0; 8; 116; 114; 105; 103; 103; 101; 114; 115; 0; 0; 0; 12; 116; 114; 105; 103; 103; 101; 114; 95; 110; 97];
  [109; 101; 0; 0; 0; 3; 97; 115; 99; 0; 0; 0; 12; 116; 114; 105; 103; 103; 101; 114; 95; 110; 97; 109; 101; 0; 0; 0; 10; 99; 108; 117; 115; 116; 101; 114; 105; 110; 103; 0];
  [0; 0; 4; 0; 0; 0; 1; 0; 0; 0; 4; 116; 101; 120; 116; 0; 0; 0; 13; 115; 121; 115; 116; 101; 109; 95; 115; 99; 104; 101; 109; 97; 0; 0; 0; 5; 116; 121; 112; 101];
  [115; 0; 0; 0; 11; 102; 105; 101; 108; 100; 95; 110; 97; 109; 101; 115; 0; 0; 0; 4; 110; 111; 110; 101; 0; 0; 0; 11; 102; 105; 101; 108; 100; 95; 110; 97; 109; 101; 115; 0];
  [0; 0; 7; 114; 101; 103; 117; 108; 97; 114; 0; 0; 0; 4; 255; 255; 255; 255; 0; 0; 0; 18; 102; 114; 111; 122; 101; 110; 60; 108; 105; 115; 116; 60; 116; 101; 120; 116; 62; 62];
  [0; 0; 0; 13; 115; 121; 115; 116; 101; 109; 95; 115; 99; 104; 101; 109; 97; 0; 0; 0; 5; 116; 121; 112; 101; 115; 0; 0; 0; 11; 102; 105; 101; 108; 100; 95; 116; 121; 112; 101];
  [115; 0; 0; 0; 4; 110; 111; 110; 101; 0; 0; 0; 11; 102; 105; 101; 108; 100; 95; 116; 121; 112; 101; 115; 0; 0; 0; 7; 114; 101; 103; 117; 108; 97; 114; 0; 0; 0; 4; 255];
  [255; 255; 255; 0; 0; 0; 18; 102; 114; 111; 122; 101; 110; 60; 108; 105; 115; 116; 60; 116; 101; 120; 116; 62; 62; 0; 0; 0; 13; 115; 121; 115; 116; 101; 109; 95; 115; 99; 104; 101];
  [109; 97; 0; 0; 0; 5; 116; 121; 112; 101; 115; 0; 0; 0; 13; 107; 101; 121; 115; 112; 97; 99; 101; 95; 110; 97; 109; 101; 0; 0; 0; 4; 110; 111; 110; 101; 0; 0; 0; 13];
  [107; 101; 121; 115; 112; 97; 99; 101; 95; 110; 97; 109; 101; 0; 0; 0; 13; 112; 97; 114; 116; 105; 116; 105; 111; 110; 95; 107; 101; 121; 0; 0; 0; 4; 0; 0; 0; 0; 0; 0];
  [0; 4; 116; 101; 120; 116; 0; 0; 0; 13; 115; 121; 115; 116; 101; 109; 95; 115; 99; 104; 101; 109; 97; 0; 0; 0; 5; 116; 121; 112; 101; 115; 0; 0; 0; 9; 116; 121; 112; 101];
  [95; 110; 97; 109; 101; 0; 0; 0; 3; 97; 115; 99; 0; 0; 0; 9; 116; 121; 112; 101; 95; 110; 97; 109; 101; 0; 0; 0; 10; 99; 108; 117; 115; 116; 101; 114; 105; 110; 103; 0];
  [0; 0; 4; 0; 0; 0; 0; 0; 0; 0; 4; 116; 101; 120; 116; 0; 0; 0; 13; 115; 121; 115; 116; 101; 109; 95; 115; 99; 104; 101; 109; 97; 0; 0; 0; 5; 118; 105; 101; 119];
  [115; 0; 0; 0; 23; 97; 100; 100; 105; 116; 105; 111; 110; 97; 108; 95; 119; 114; 105; 116; 101; 95; 112; 111; 108; 105; 99; 121; 0; 0; 0; 4; 110; 111; 110; 101; 0; 0; 0; 23];
  [97; 100; 100; 105; 116; 105; 111; 110; 97; 108; 95; 119; 114; 105; 116; 101; 95; 112; 111; 108; 105; 99; 121; 0; 0; 0; 7; 114; 101; 103; 117; 108; 97; 114; 0; 0; 0; 4; 255; 255];
  [255; 255; 0; 0; 0; 4; 116; 101; 120; 116; 0; 0; 0; 13; 115; 121; 115; 116; 101; 109; 95; 115; 99; 104; 101; 109; 97; 0; 0; 0; 5; 118; 105; 101; 119; 115; 0; 0; 0; 13];
  [98; 97; 115; 101; 95; 116; 97; 98; 108; 101; 95; 105; 100; 0; 0; 0; 4; 110; 111; 110; 101; 0; 0; 0; 13; 98; 97; 115; 101; 95; 116; 97; 98; 108; 101; 95; 105; 100; 0; 0];
  [0; 7; 114; 101; 103; 117; 108; 97; 114; 0; 0; 0; 4; 255; 255; 255; 255; 0; 0; 0; 4; 117; 117; 105; 100; 0; 0; 0; 13; 115; 121; 115; 116; 101; 109; 95; 115; 99; 104; 101];
  [109; 97; 0; 0; 0; 5; 118; 105; 101; 119; 115; 0; 0; 0; 15; 98; 97; 115; 101; 95; 116; 97; 98; 108; 101; 95; 110; 97; 109; 101; 0; 0; 0; 4; 110; 111; 110; 101; 0; 0];
  [0; 15; 98; 97; 115; 101; 95; 116; 97; 98; 108; 101; 95; 110; 97; 109; 101; 0; 0; 0; 7; 114; 101; 103; 117; 108; 97; 114; 0; 0; 0; 4; 255; 255; 255; 255; 0; 0; 0; 4];
  [116; 101; 120; 116; 0; 0; 0; 13; 115; 121; 115; 116; 101; 109; 95; 115; 99; 104; 101; 109; 97; 0; 0; 0; 5; 118; 105; 101; 119; 115; 0; 0; 0; 22; 98; 108; 111; 111; 109; 95];
  [102; 105; 108; 116; 101; 114; 95; 102; 112; 95; 99; 104; 97; 110; 99; 101; 0; 0; 0; 4; 110; 111; 110; 101; 0; 0; 0; 22; 98; 108; 111; 111; 109; 95; 102; 105; 108; 116; 101; 114];
  [95; 102; 112; 95; 99; 104; 97; 110; 99; 101; 0; 0; 0; 7; 114; 101; 103; 117; 108; 97; 114; 0; 0; 0; 4; 255; 255; 255; 255; 0; 0; 0; 6; 100; 111; 117; 98; 108; 101; 0];
  [0; 0; 13; 115; 121; 115; 116; 101; 109; 95; 115; 99; 104; 101; 109; 97; 0; 0; 0; 5; 118; 105; 101; 119; 115; 0; 0; 0; 7; 99; 97; 99; 104; 105; 110; 103; 0; 0; 0; 4];
  [110; 111; 110; 101; 0; 0; 0; 7; 99; 97; 99; 104; 105; 110; 103; 0; 0; 0; 7; 114; 101; 103; 117; 108; 97; 114; 0; 0; 0; 4; 255; 255; 255; 255; 0; 0; 0; 23; 102; 114];
  [111; 122; 101; 110; 60; 109; 97; 112; 60; 116; 101; 120; 116; 44; 32; 116; 101; 120; 116; 62; 62; 0; 0; 0; 13; 115; 121; 115; 116; 101; 109; 95; 115; 99; 104; 101; 109; 97; 0; 0];
  [0; 5; 118; 105; 101; 119; 115; 0; 0; 0; 3; 99; 100; 99; 0; 0; 0; 4; 110; 111; 110; 101; 0; 0; 0; 3; 99; 100; 99; 0; 0; 0; 7; 114; 101; 103; 117; 108; 97; 114];
  [0; 0; 0; 4; 255; 255; 255; 255; 0; 0; 0; 7; 98; 111; 111; 108; 101; 97; 110; 0; 0; 0; 13; 115; 121; 115; 116; 101; 109; 95; 115; 99; 104; 101; 109; 97; 0; 0; 0; 5];
  [118; 105; 101; 119; 115; 0; 0; 0; 7; 99; 111; 109; 109; 101; 110; 116; 0; 0; 0; 4; 110; 111; 110; 101; 0; 0; 0; 7; 99; 111; 109; 109; 101; 110; 116; 0; 0; 0; 7; 114];
  [101; 103; 117; 108; 97; 114; 0; 0; 0; 4; 255; 255; 255; 255; 0; 0; 0; 4; 116; 101; 120; 116; 0; 0; 0; 13; 115; 121; 115; 116; 101; 109; 95; 115; 99; 104; 101; 109; 97; 0];
  [0; 0; 5; 118; 105; 101; 119; 115; 0; 0; 0; 10; 99; 111; 109; 112; 97; 99; 116; 105; 111; 110; 0; 0; 0; 4; 110; 111; 110; 101; 0; 0; 0; 10; 99; 111; 109; 112; 97; 99];
  [116; 105; 111; 110; 0; 0; 0; 7; 114; 101; 103; 117; 108; 97; 114; 0; 0; 0; 4; 255; 255; 255; 255; 0; 0; 0; 23; 102; 114; 111; 122; 101; 110; 60; 109; 97; 112; 60; 116; 101];
  [120; 116; 44; 32; 116; 101; 120; 116; 62; 62; 0; 0; 0; 13; 115; 121; 115; 116; 101; 109; 95; 115; 99; 104; 101; 109; 97; 0; 0; 0; 5; 118; 105; 101; 119; 115; 0; 0; 0; 11];
  [99; 111; 109; 112; 114; 101; 115; 115; 105; 111; 110; 0; 0; 0; 4; 110; 111; 110; 101; 0; 0; 0; 11; 99; 111; 109; 112; 114; 101; 115; 115; 105; 111; 110; 0; 0; 0; 7; 114; 101];
  [103; 117; 108; 97; 114; 0; 0; 0; 4; 255; 255; 255; 255; 0; 0; 0; 23; 102; 114; 111; 122; 101; 110; 60; 109; 97; 112; 60; 116; 101; 120; 116; 44; 32; 116; 101; 120; 116; 62; 62];
  [0; 0; 0; 13; 115; 121; 115; 116; 101; 109; 95; 115; 99; 104; 101; 109; 97; 0; 0; 0; 5; 118; 105; 101; 119; 115; 0; 0; 0; 16; 99; 114; 99; 95; 99; 104; 101; 99; 107; 95];
  [99; 104; 97; 110; 99; 101; 0; 0; 0; 4; 110; 111; 110; 101; 0; 0; 0; 16; 99; 114; 99; 95; 99; 104; 101; 99; 107; 95; 99; 104; 97; 110; 99; 101; 0; 0; 0; 7; 114; 101];
  [103; 117; 108; 97; 114; 0; 0; 0; 4; 255; 255; 255; 255; 0; 0; 0; 6; 100; 111; 117; 98; 108; 101; 0; 0; 0; 13; 115; 121; 115; 116; 101; 109; 95; 115; 99; 104; 101; 109; 97];
  [0; 0; 0; 5; 118; 105; 101; 119; 115; 0; 0; 0; 26; 100; 99; 108; 111; 99; 97; 108; 95; 114; 101; 97; 100; 95; 114; 101; 112; 97; 105; 114; 95; 99; 104; 97; 110; 99; 101; 0];
  [0; 0; 4; 110; 111; 110; 101; 0; 0; 0; 26; 100; 99; 108; 111; 99; 97; 108; 95; 114; 101; 97; 100; 95; 114; 101; 112; 97; 105; 114; 95; 99; 104; 97; 110; 99; 101; 0; 0; 0];
  [7; 114; 101; 103; 117; 108; 97; 114; 0; 0; 0; 4; 255; 255; 255; 255; 0; 0; 0; 6; 100; 111; 117; 98; 108; 101; 0; 0; 0; 13; 115; 121; 115; 116; 101; 109; 95; 115; 99; 104];
  [101; 109; 97; 0; 0; 0; 5; 118; 105; 101; 119; 115; 0; 0; 0; 20; 100; 101; 102; 97; 117; 108; 116; 95; 116; 105; 109; 101; 95; 116; 111; 95; 108; 105; 118; 101; 0; 0; 0; 4];
  [110; 111; 110; 101; 0; 0; 0; 20; 100; 101; 102; 97; 117; 108; 116; 95; 116; 105; 109; 101; 95; 116; 111; 95; 108; 105; 118; 101; 0; 0; 0; 7; 114; 101; 103; 117; 108; 97; 114; 0];
  [0; 0; 4; 255; 255; 255; 255; 0; 0; 0; 3; 105; 110; 116; 0; 0; 0; 13; 115; 121; 115; 116; 101; 109; 95; 115; 99; 104; 101; 109; 97; 0; 0; 0; 5; 118; 105; 101; 119; 115];
  [0; 0; 0; 10; 101; 120; 116; 101; 110; 115; 105; 111; 110; 115; 0; 0; 0; 4; 110; 111; 110; 101; 0; 0; 0; 10; 101; 120; 116; 101; 110; 115; 105; 111; 110; 115; 0; 0; 0; 7];
  [114; 101; 103; 117; 108; 97; 114; 0; 0; 0; 4; 255; 255; 255; 255; 0; 0; 0; 23; 102; 114; 111; 122; 101; 110; 60; 109; 97; 112; 60; 116; 101; 120; 116; 44; 32; 98; 108; 111; 98];
  [62; 62; 0; 0; 0; 13; 115; 121; 115; 116; 101; 109; 95; 115; 99; 104; 101; 109; 97; 0; 0; 0; 5; 118; 105; 101; 119; 115; 0; 0; 0; 16; 103; 99; 95; 103; 114; 97; 99; 101];
  [95; 115; 101; 99; 111; 110; 100; 115; 0; 0; 0; 4; 110; 111; 110; 101; 0; 0; 0; 16; 103; 99; 95; 103; 114; 97; 99; 101; 95; 115; 101; 99; 111; 110; 100; 115; 0; 0; 0; 7];
  [114; 101; 103; 117; 108; 97; 114; 0; 0; 0; 4; 255; 255; 255; 255; 0; 0; 0; 3; 105; 110; 116; 0; 0; 0; 13; 115; 121; 115; 116; 101; 109; 95; 115; 99; 104; 101; 109; 97; 0];
  [0; 0; 5; 118; 105; 101; 119; 115; 0; 0; 0; 2; 105; 100; 0; 0; 0; 4; 110; 111; 110; 101; 0; 0; 0; 2; 105; 100; 0; 0; 0; 7; 114; 101; 103; 117; 108; 97; 114; 0];
  [0; 0; 4; 255; 255; 255; 255; 0; 0; 0; 4; 117; 117; 105; 100; 0; 0; 0; 13; 115; 121; 115; 116; 101; 109; 95; 115; 99; 104; 101; 109; 97; 0; 0; 0; 5; 118; 105; 101; 119];
  [115; 0; 0; 0; 19; 105; 110; 99; 108; 117; 100; 101; 95; 97; 108; 108; 95; 99; 111; 108; 117; 109; 110; 115; 0; 0; 0; 4; 110; 111; 110; 101; 0; 0; 0; 19; 105; 110; 99; 108];
  [117; 100; 101; 95; 97; 108; 108; 95; 99; 111; 108; 117; 109; 110; 115; 0; 0; 0; 7; 114; 101; 103; 117; 108; 97; 114; 0; 0; 0; 4; 255; 255; 255; 255; 0; 0; 0; 7; 98; 111];
  [111; 108; 101; 97; 110; 0; 0; 0; 13; 115; 121; 115; 116; 101; 109; 95; 115; 99; 104; 101; 109; 97; 0; 0; 0; 5; 118; 105; 101; 119; 115; 0; 0; 0; 13; 107; 101; 121; 115; 112];
  [97; 99; 101; 95; 110; 97; 109; 101; 0; 0; 0; 4; 110; 111; 110; 101; 0; 0; 0; 13; 107; 101; 121; 115; 112; 97; 99; 101; 95; 110; 97; 109; 101; 0; 0; 0; 13; 112; 97; 114];
  [116; 105; 116; 105; 111; 110; 95; 107; 101; 121; 0; 0; 0; 4; 0; 0; 0; 0; 0; 0; 0; 4; 116; 101; 120; 116; 0; 0; 0; 13; 115; 121; 115; 116; 101; 109; 95; 115; 99; 104];
  [101; 109; 97; 0; 0; 0; 5; 118; 105; 101; 119; 115; 0; 0; 0; 18; 109; 97; 120; 95; 105; 110; 100; 101; 120; 95; 105; 110; 116; 101; 114; 118; 97; 108; 0; 0; 0; 4; 110; 111];
  [110; 101; 0; 0; 0; 18; 109; 97; 120; 95; 105; 110; 100; 101; 120; 95; 105; 110; 116; 101; 114; 118; 97; 108; 0; 0; 0; 7; 114; 101; 103; 117; 108; 97; 114; 0; 0; 0; 4; 255];
  [255; 255; 255; 0; 0; 0; 3; 105; 110; 116; 0; 0; 0; 13; 115; 121; 115; 116; 101; 109; 95; 115; 99; 104; 101; 109; 97; 0; 0; 0; 5; 118; 105; 101; 119; 115; 0; 0; 0; 27];
  [109; 101; 109; 116; 97; 98; 108; 101; 95; 102; 108; 117; 115; 104; 95; 112; 101; 114; 105; 111; 100; 95; 105; 110; 95; 109; 115; 0; 0; 0; 4; 110; 111; 110; 101; 0; 0; 0; 27; 109];
  [101; 109; 116; 97; 98; 108; 101; 95; 102; 108; 117; 115; 104; 95; 112; 101; 114; 105; 111; 100; 95; 105; 110; 95; 109; 115; 0; 0; 0; 7; 114; 101; 103; 117; 108; 97; 114; 0; 0; 0];
  [4; 255; 255; 255; 255; 0; 0; 0; 3; 105; 110; 116; 0; 0; 0; 13; 115; 121; 115; 116; 101; 109; 95; 115; 99; 104; 101; 109; 97; 0; 0; 0; 5; 118; 105; 101; 119; 115; 0; 0];
  [0; 18; 109; 105; 110; 95; 105; 110; 100; 101; 120; 95; 105; 110; 116; 101; 114; 118; 97; 108; 0; 0; 0; 4; 110; 111; 110; 101; 0; 0; 0; 18; 109; 105; 110; 95; 105; 110; 100; 101];
  [120; 95; 105; 110; 116; 101; 114; 118; 97; 108; 0; 0; 0; 7; 114; 101; 103; 117; 108; 97; 114; 0; 0; 0; 4; 255; 255; 255; 255; 0; 0; 0; 3; 105; 110; 116; 0; 0; 0; 13];
  [115; 121; 115; 116; 101; 109; 95; 115; 99; 104; 101; 109; 97; 0; 0; 0; 5; 118; 105; 101; 119; 115; 0; 0; 0; 11; 114; 101; 97; 100; 95; 114; 101; 112; 97; 105; 114; 0; 0; 0];
  [4; 110; 111; 110; 101; 0; 0; 0; 11; 114; 101; 97; 100; 95; 114; 101; 112; 97; 105; 114; 0; 0; 0; 7; 114; 101; 103; 117; 108; 97; 114; 0; 0; 0; 4; 255; 255; 255; 255; 0];
  [0; 0; 4; 116; 101; 120; 116; 0; 0; 0; 13; 115; 121; 115; 116; 101; 109; 95; 115; 99; 104; 101; 109; 97; 0; 0; 0; 5; 118; 105; 101; 119; 115; 0; 0; 0; 18; 114; 101; 97];
  [100; 95; 114; 101; 112; 97; 105; 114; 95; 99; 104; 97; 110; 99; 101; 0; 0; 0; 4; 110; 111; 110; 101; 0; 0; 0; 18; 114; 101; 97; 100; 95; 114; 101; 112; 97; 105; 114; 95; 99];
  [104; 97; 110; 99; 101; 0; 0; 0; 7; 114; 101; 103; 117; 108; 97; 114; 0; 0; 0; 4; 255; 255; 255; 255; 0; 0; 0; 6; 100; 111; 117; 98; 108; 101; 0; 0; 0; 13; 115; 121];
  [115; 116; 101; 109; 95; 115; 99; 104; 101; 109; 97; 0; 0; 0; 5; 118; 105; 101; 119; 115; 0; 0; 0; 17; 115; 112; 101; 99; 117; 108; 97; 116; 105; 118; 101; 95; 114; 101; 116; 114];
  [121; 0; 0; 0; 4; 110; 111; 110; 101; 0; 0; 0; 17; 115; 112; 101; 99; 117; 108; 97; 116; 105; 118; 101; 95; 114; 101; 116; 114; 121; 0; 0; 0; 7; 114; 101; 103; 117; 108; 97];
  [114; 0; 0; 0; 4; 255; 255; 255; 255; 0; 0; 0; 4; 116; 101; 120; 116; 0; 0; 0; 13; 115; 121; 115; 116; 101; 109; 95; 115; 99; 104; 101; 109; 97; 0; 0; 0; 5; 118; 105];
  [101; 119; 115; 0; 0; 0; 9; 118; 105; 101; 119; 95; 110; 97; 109; 101; 0; 0; 0; 3; 97; 115; 99; 0; 0; 0; 9; 118; 105; 101; 119; 95; 110; 97; 109; 101; 0; 0; 0; 10];
  [99; 108; 117; 115; 116; 101; 114; 105; 110; 103; 0; 0; 0; 4; 0; 0; 0; 0; 0; 0; 0; 4; 116; 101; 120; 116; 0; 0; 0; 13; 115; 121; 115; 116; 101; 109; 95; 115; 99; 104];
  [101; 109; 97; 0; 0; 0; 5; 118; 105; 101; 119; 115; 0; 0; 0; 12; 119; 104; 101; 114; 101; 95; 99; 108; 97; 117; 115; 101; 0; 0; 0; 4; 110; 111; 110; 101; 0; 0; 0; 12];
  [119; 104; 101; 114; 101; 95; 99; 108; 97; 117; 115; 101; 0; 0; 0; 7; 114; 101; 103; 117; 108; 97; 114; 0; 0; 0; 4; 255; 255; 255; 255; 0; 0; 0; 4; 116; 101; 120; 116; 0];
  [0; 0; 18; 115; 121; 115; 116; 101; 109; 95; 100; 105; 115; 116; 114; 105; 98; 117; 116; 101; 100; 0; 0; 0; 21; 112; 97; 114; 101; 110; 116; 95; 114; 101; 112; 97; 105; 114; 95; 104];
  [105; 115; 116; 111; 114; 121; 0; 0; 0; 18; 99; 111; 108; 117; 109; 110; 102; 97; 109; 105; 108; 121; 95; 110; 97; 109; 101; 115; 0; 0; 0; 4; 110; 111; 110; 101; 0; 0; 0; 18];
  [99; 111; 108; 117; 109; 110; 102; 97; 109; 105; 108; 121; 95; 110; 97; 109; 101; 115; 0; 0; 0; 7; 114; 101; 103; 117; 108; 97; 114; 0; 0; 0; 4; 255; 255; 255; 255; 0; 0; 0];
  [9; 115; 101; 116; 60; 116; 101; 120; 116; 62; 0; 0; 0; 18; 115; 121; 115; 116; 101; 109; 95; 100; 105; 115; 116; 114; 105; 98; 117; 116; 101; 100; 0; 0; 0; 21; 112; 97; 114; 101];
  [110; 116; 95; 114; 101; 112; 97; 105; 114; 95; 104; 105; 115; 116; 111; 114; 121; 0; 0; 0; 17; 101; 120; 99; 101; 112; 116; 105; 111; 110; 95; 109; 101; 115; 115; 97; 103; 101; 0; 0];
  [0; 4; 110; 111; 110; 101; 0; 0; 0; 17; 101; 120; 99; 101; 112; 116; 105; 111; 110; 95; 109; 101; 115; 115; 97; 103; 101; 0; 0; 0; 7; 114; 101; 103; 117; 108; 97; 114; 0; 0];
  [0; 4; 255; 255; 255; 255; 0; 0; 0; 4; 116; 101; 120; 116; 0; 0; 0; 18; 115; 121; 115; 116; 101; 109; 95; 100; 105; 115; 116; 114; 105; 98; 117; 116; 101; 100; 0; 0; 0; 21];
  [112; 97; 114; 101; 110; 116; 95; 114; 101; 112; 97; 105; 114; 95; 104; 105; 115; 116; 111; 114; 121; 0; 0; 0; 20; 101; 120; 99; 101; 112; 116; 105; 111; 110; 95; 115; 116; 97; 99; 107];
  [116; 114; 97; 99; 101; 0; 0; 0; 4; 110; 111; 110; 101; 0; 0; 0; 20; 101; 120; 99; 101; 112; 116; 105; 111; 110; 95; 115; 116; 97; 99; 107; 116; 114; 97; 99; 101; 0; 0; 0];
  [7; 114; 101; 103; 117; 108; 97; 114; 0; 0; 0; 4; 255; 255; 255; 255; 0; 0; 0; 4; 116; 101; 120; 116; 0; 0; 0; 18; 115; 121; 115; 116; 101; 109; 95; 100; 105; 115; 116; 114];
  [105; 98; 117; 116; 101; 100; 0; 0; 0; 21; 112; 97; 114; 101; 110; 116; 95; 114; 101; 112; 97; 105; 114; 95; 104; 105; 115; 116; 111; 114; 121; 0; 0; 0; 11; 102; 105; 110; 105; 115];
  [104; 101; 100; 95; 97; 116; 0; 0; 0; 4; 110; 111; 110; 101; 0; 0; 0; 11; 102; 105; 110; 105; 115; 104; 101; 100; 95; 97; 116; 0; 0; 0; 7; 114; 101; 103; 117; 108; 97; 114];
  [0; 0; 0; 4; 255; 255; 255; 255; 0; 0; 0; 9; 116; 105; 109; 101; 115; 116; 97; 109; 112; 0; 0; 0; 18; 115; 121; 115; 116; 101; 109; 95; 100; 105; 115; 116; 114; 105; 98; 117];
  [116; 101; 100; 0; 0; 0; 21; 112; 97; 114; 101; 110; 116; 95; 114; 101; 112; 97; 105; 114; 95; 104; 105; 115; 116; 111; 114; 121; 0; 0; 0; 13; 107; 101; 121; 115; 112; 97; 99; 101];
  [95; 110; 97; 109; 101; 0; 0; 0; 4; 110; 111; 110; 101; 0; 0; 0; 13; 107; 101; 121; 115; 112; 97; 99; 101; 95; 110; 97; 109; 101; 0; 0; 0; 7; 114; 101; 103; 117; 108; 97];
  [114; 0; 0; 0; 4; 255; 255; 255; 255; 0; 0; 0; 4; 116; 101; 120; 116; 0; 0; 0; 18; 115; 121; 115; 116; 101; 109; 95; 100; 105; 115; 116; 114; 105; 98; 117; 116; 101; 100; 0];
  [0; 0; 21; 112; 97; 114; 101; 110; 116; 95; 114; 101; 112; 97; 105; 114; 95; 104; 105; 115; 116; 111; 114; 121; 0; 0; 0; 7; 111; 112; 116; 105; 111; 110; 115; 0; 0; 0; 4; 110];
  [111; 110; 101; 0; 0; 0; 7; 111; 112; 116; 105; 111; 110; 115; 0; 0; 0; 7; 114; 101; 103; 117; 108; 97; 114; 0; 0; 0; 4; 255; 255; 255; 255; 0; 0; 0; 15; 109; 97; 112];
  [60; 116; 101; 120; 116; 44; 32; 116; 101; 120; 116; 62; 0; 0; 0; 18; 115; 121; 115; 116; 101; 109; 95; 100; 105; 115; 116; 114; 105; 98; 117; 116; 101; 100; 0; 0; 0; 21; 112; 97];
  [114; 101; 110; 116; 95; 114; 101; 112; 97; 105; 114; 95; 104; 105; 115; 116; 111; 114; 121; 0; 0; 0; 9; 112; 97; 114; 101; 110; 116; 95; 105; 100; 0; 0; 0; 4; 110; 111; 110; 101];
  [0; 0; 0; 9; 112; 97; 114; 101; 110; 116; 95; 105; 100; 0; 0; 0; 13; 112; 97; 114; 116; 105; 116; 105; 111; 110; 95; 107; 101; 121; 0; 0; 0; 4; 0; 0; 0; 0; 0; 0];
  [0; 8; 116; 105; 109; 101; 117; 117; 105; 100; 0; 0; 0; 18; 115; 121; 115; 116; 101; 109; 95; 100; 105; 115; 116; 114; 105; 98; 117; 116; 101; 100; 0; 0; 0; 21; 112; 97; 114; 101];
  [110; 116; 95; 114; 101; 112; 97; 105; 114; 95; 104; 105; 115; 116; 111; 114; 121; 0; 0; 0; 16; 114; 101; 113; 117; 101; 115; 116; 101; 100; 95; 114; 97; 110; 103; 101; 115; 0; 0; 0];
  [4; 110; 111; 110; 101; 0; 0; 0; 16; 114; 101; 113; 117; 101; 115; 116; 101; 100; 95; 114; 97; 110; 103; 101; 115; 0; 0; 0; 7; 114; 101; 103; 117; 108; 97; 114; 0; 0; 0; 4];
  [255; 255; 255; 255; 0; 0; 0; 9; 115; 101; 116; 60; 116; 101; 120; 116; 62; 0; 0; 0; 18; 115; 121; 115; 116; 101; 109; 95; 100; 105; 115; 116; 114; 105; 98; 117; 116; 101; 100; 0];
  [0; 0; 21; 112; 97; 114; 101; 110; 116; 95; 114; 101; 112; 97; 105; 114; 95; 104; 105; 115; 116; 111; 114; 121; 0; 0; 0; 10; 115; 116; 97; 114; 116; 101; 100; 95; 97; 116; 0; 0];
  [0; 4; 110; 111; 110; 101; 0; 0; 0; 10; 115; 116; 97; 114; 116; 101; 100; 95; 97; 116; 0; 0; 0; 7; 114; 101; 103; 117; 108; 97; 114; 0; 0; 0; 4; 255; 255; 255; 255; 0];
  [0; 0; 9; 116; 105; 109; 101; 115; 116; 97; 109; 112; 0; 0; 0; 18; 115; 121; 115; 116; 101; 109; 95; 100; 105; 115; 116; 114; 105; 98; 117; 116; 101; 100; 0; 0; 0; 21; 112; 97];
  [114; 101; 110; 116; 95; 114; 101; 112; 97; 105; 114; 95; 104; 105; 115; 116; 111; 114; 121; 0; 0; 0; 17; 115; 117; 99; 99; 101; 115; 115; 102; 117; 108; 95; 114; 97; 110; 103; 101; 115];
  [0; 0; 0; 4; 110; 111; 110; 101; 0; 0; 0; 17; 115; 117; 99; 99; 101; 115; 115; 102; 117; 108; 95; 114; 97; 110; 103; 101; 115; 0; 0; 0; 7; 114; 101; 103; 117; 108; 97; 114];
  [0; 0; 0; 4; 255; 255; 255; 255; 0; 0; 0; 9; 115; 101; 116; 60; 116; 101; 120; 116; 62; 0; 0; 0; 18; 115; 121; 115; 116; 101; 109; 95; 100; 105; 115; 116; 114; 105; 98; 117];
  [116; 101; 100; 0; 0; 0; 14; 114; 101; 112; 97; 105; 114; 95; 104; 105; 115; 116; 111; 114; 121; 0; 0; 0; 17; 99; 111; 108; 117; 109; 110; 102; 97; 109; 105; 108; 121; 95; 110; 97];
  [109; 101; 0; 0; 0; 4; 110; 111; 110; 101; 0; 0; 0; 17; 99; 111; 108; 117; 109; 110; 102; 97; 109; 105; 108; 121; 95; 110; 97; 109; 101; 0; 0; 0; 13; 112; 97; 114; 116; 105];
  [116; 105; 111; 110; 95; 107; 101; 121; 0; 0; 0; 4; 0; 0; 0; 1; 0; 0; 0; 4; 116; 101; 120; 116; 0; 0; 0; 18; 115; 121; 115; 116; 101; 109; 95; 100; 105; 115; 116; 114];
  [105; 98; 117; 116; 101; 100; 0; 0; 0; 14; 114; 101; 112; 97; 105; 114; 95; 104; 105; 115; 116; 111; 114; 121; 0; 0; 0; 11; 99; 111; 111; 114; 100; 105; 110; 97; 116; 111; 114; 0];
  [0; 0; 4; 110; 111; 110; 101; 0; 0; 0; 11; 99; 111; 111; 114; 100; 105; 110; 97; 116; 111; 114; 0; 0; 0; 7; 114; 101; 103; 117; 108; 97; 114; 0; 0; 0; 4; 255; 255; 255];
  [255; 0; 0; 0; 4; 105; 110; 101; 116; 0; 0; 0; 18; 115; 121; 115; 116; 101; 109; 95; 100; 105; 115; 116; 114; 105; 98; 117; 116; 101; 100; 0; 0; 0; 14; 114; 101; 112; 97; 105];
  [114; 95; 104; 105; 115; 116; 111; 114; 121; 0; 0; 0; 16; 99; 111; 111; 114; 100; 105; 110; 97; 116; 111; 114; 95; 112; 111; 114; 116; 0; 0; 0; 4; 110; 111; 110; 101; 0; 0; 0];
  [16; 99; 111; 111; 114; 100; 105; 110; 97; 116; 111; 114; 95; 112; 111; 114; 116; 0; 0; 0; 7; 114; 101; 103; 117; 108; 97; 114; 0; 0; 0; 4; 255; 255; 255; 255; 0; 0; 0; 3];
  [105; 110; 116; 0; 0; 0; 18; 115; 121; 115; 116; 101; 109; 95; 100; 105; 115; 116; 114; 105; 98; 117; 116; 101; 100; 0; 0; 0; 14; 114; 101; 112; 97; 105; 114; 95; 104; 105; 115; 116];
  [111; 114; 121; 0; 0; 0; 17; 101; 120; 99; 101; 112; 116; 105; 111; 110; 95; 109; 101; 115; 115; 97; 103; 101; 0; 0; 0; 4; 110; 111; 110; 101; 0; 0; 0; 17; 101; 120; 99; 101];
  [112; 116; 105; 111; 110; 95; 109; 101; 115; 115; 97; 103; 101; 0; 0; 0; 7; 114; 101; 103; 117; 108; 97; 114; 0; 0; 0; 4; 255; 255; 255; 255; 0; 0; 0; 4; 116; 101; 120; 116];
  [0; 0; 0; 18; 115; 121; 115; 116; 101; 109; 95; 100; 105; 115; 116; 114; 105; 98; 117; 116; 101; 100; 0; 0; 0; 14; 114; 101; 112; 97; 105; 114; 95; 104; 105; 115; 116; 111; 114; 121];
  [0; 0; 0; 20; 101; 120; 99; 101; 112; 116; 105; 111; 110; 95; 115; 116; 97; 99; 107; 116; 114; 97; 99; 101; 0; 0; 0; 4; 110; 111; 110; 101; 0; 0; 0; 20; 101; 120; 99; 101];
  [112; 116; 105; 111; 110; 95; 115; 116; 97; 99; 107; 116; 114; 97; 99; 101; 0; 0; 0; 7; 114; 101; 103; 117; 108; 97; 114; 0; 0; 0; 4; 255; 255; 255; 255; 0; 0; 0; 4; 116];
  [101; 120; 116; 0; 0; 0; 18; 115; 121; 115; 116; 101; 109; 95; 100; 105; 115; 116; 114; 105; 98; 117; 116; 101; 100; 0; 0; 0; 14; 114; 101; 112; 97; 105; 114; 95; 104; 105; 115; 116];
  [111; 114; 121; 0; 0; 0; 11; 102; 105; 110; 105; 115; 104; 101; 100; 95; 97; 116; 0; 0; 0; 4; 110; 111; 110; 101; 0; 0; 0; 11; 102; 105; 110; 105; 115; 104; 101; 100; 95; 97];
  [116; 0; 0; 0; 7; 114; 101; 103; 117; 108; 97; 114; 0; 0; 0; 4; 255; 255; 255; 255; 0; 0; 0; 9; 116; 105; 109; 101; 115; 116; 97; 109; 112; 0; 0; 0; 18; 115; 121; 115];
  [116; 101; 109; 95; 100; 105; 115; 116; 114; 105; 98; 117; 116; 101; 100; 0; 0; 0; 14; 114; 101; 112; 97; 105; 114; 95; 104; 105; 115; 116; 111; 114; 121; 0; 0; 0; 2; 105; 100; 0];
  [0; 0; 3; 97; 115; 99; 0; 0; 0; 2; 105; 100; 0; 0; 0; 10; 99; 108; 117; 115; 116; 101; 114; 105; 110; 103; 0; 0; 0; 4; 0; 0; 0; 0; 0; 0; 0; 8; 116; 105];
  [109; 101; 117; 117; 105; 100; 0; 0; 0; 18; 115; 121; 115; 116; 101; 109; 95; 100; 105; 115; 116; 114; 105; 98; 117; 116; 101; 100; 0; 0; 0; 14; 114; 101; 112; 97; 105; 114; 95; 104];
  [105; 115; 116; 111; 114; 121; 0; 0; 0; 13; 107; 101; 121; 115; 112; 97; 99; 101; 95; 110; 97; 109; 101; 0; 0; 0; 4; 110; 111; 110; 101; 0; 0; 0; 13; 107; 101; 121; 115; 112];
  [97; 99; 101; 95; 110; 97; 109; 101; 0; 0; 0; 13; 112; 97; 114; 116; 105; 116; 105; 111; 110; 95; 107; 101; 121; 0; 0; 0; 4; 0; 0; 0; 0; 0; 0; 0; 4; 116; 101; 120];
  [116; 0; 0; 0; 18; 115; 121; 115; 116; 101; 109; 95; 100; 105; 115; 116; 114; 105; 98; 117; 116; 101; 100; 0; 0; 0; 14; 114; 101; 112; 97; 105; 114; 95; 104; 105; 115; 116; 111; 114];
  [121; 0; 0; 0; 9; 112; 97; 114; 101; 110; 116; 95; 105; 100; 0; 0; 0; 4; 110; 111; 110; 101; 0; 0; 0; 9; 112; 97; 114; 101; 110; 116; 95; 105; 100; 0; 0; 0; 7; 114];
  [101; 103; 117; 108; 97; 114; 0; 0; 0; 4; 255; 255; 255; 255; 0; 0; 0; 8; 116; 105; 109; 101; 117; 117; 105; 100; 0; 0; 0; 18; 115; 121; 115; 116; 101; 109; 95; 100; 105; 115];
  [116; 114; 105; 98; 117; 116; 101; 100; 0; 0; 0; 14; 114; 101; 112; 97; 105; 114; 95; 104; 105; 115; 116; 111; 114; 121; 0; 0; 0; 12; 112; 97; 114; 116; 105; 99; 105; 112; 97; 110];
  [116; 115; 0; 0; 0; 4; 110; 111; 110; 101; 0; 0; 0; 12; 112; 97; 114; 116; 105; 99; 105; 112; 97; 110; 116; 115; 0; 0; 0; 7; 114; 101; 103; 117; 108; 97; 114; 0; 0; 0];
  [4; 255; 255; 255; 255; 0; 0; 0; 9; 115; 101; 116; 60; 105; 110; 101; 116; 62; 0; 0; 0; 18; 115; 121; 115; 116; 101; 109; 95; 100; 105; 115; 116; 114; 105; 98; 117; 116; 101; 100];
  [0; 0; 0; 14; 114; 101; 112; 97; 105; 114; 95; 104; 105; 115; 116; 111; 114; 121; 0; 0; 0; 15; 112; 97; 114; 116; 105; 99; 105; 112; 97; 110; 116; 115; 95; 118; 50; 0; 0; 0];
  [4; 110; 111; 110; 101; 0; 0; 0; 15; 112; 97; 114; 116; 105; 99; 105; 112; 97; 110; 116; 115; 95; 118; 50; 0; 0; 0; 7; 114; 101; 103; 117; 108; 97; 114; 0; 0; 0; 4; 255];
  [255; 255; 255; 0; 0; 0; 9; 115; 101; 116; 60; 116; 101; 120; 116; 62; 0; 0; 0; 18; 115; 121; 115; 116; 101; 109; 95; 100; 105; 115; 116; 114; 105; 98; 117; 116; 101; 100; 0; 0];
  [0; 14; 114; 101; 112; 97; 105; 114; 95; 104; 105; 115; 116; 111; 114; 121; 0; 0; 0; 11; 114; 97; 110; 103; 101; 95; 98; 101; 103; 105; 110; 0; 0; 0; 4; 110; 111; 110; 101; 0];
  [0; 0; 11; 114; 97; 110; 103; 101; 95; 98; 101; 103; 105; 110; 0; 0; 0; 7; 114; 101; 103; 117; 108; 97; 114; 0; 0; 0; 4; 255; 255; 255; 255; 0; 0; 0; 4; 116; 101; 120];
  [116; 0; 0; 0; 18; 115; 121; 115; 116; 101; 109; 95; 100; 105; 115; 116; 114; 105; 98; 117; 116; 101; 100; 0; 0; 0; 14; 114; 101; 112; 97; 105; 114; 95; 104; 105; 115; 116; 111; 114];
  [121; 0; 0; 0; 9; 114; 97; 110; 103; 101; 95; 101; 110; 100; 0; 0; 0; 4; 110; 111; 110; 101; 0; 0; 0; 9; 114; 97; 110; 103; 101; 95; 101; 110; 100; 0; 0; 0; 7; 114];
  [101; 103; 117; 108; 97; 114; 0; 0; 0; 4; 255; 255; 255; 255; 0; 0; 0; 4; 116; 101; 120; 116; 0; 0; 0; 18; 115; 121; 115; 116; 101; 109; 95; 100; 105; 115; 116; 114; 105; 98];
  [117; 116; 101; 100; 0; 0; 0; 14; 114; 101; 112; 97; 105; 114; 95; 104; 105; 115; 116; 111; 114; 121; 0; 0; 0; 10; 115; 116; 97; 114; 116; 101; 100; 95; 97; 116; 0; 0; 0; 4];
  [110; 111; 110; 101; 0; 0; 0; 10; 115; 116; 97; 114; 116; 101; 100; 95; 97; 116; 0; 0; 0; 7; 114; 101; 103; 117; 108; 97; 114; 0; 0; 0; 4; 255; 255; 255; 255; 0; 0; 0];
  [9; 116; 105; 109; 101; 115; 116; 97; 109; 112; 0; 0; 0; 18; 115; 121; 115; 116; 101; 109; 95; 100; 105; 115; 116; 114; 105; 98; 117; 116; 101; 100; 0; 0; 0; 14; 114; 101; 112; 97];
  [105; 114; 95; 104; 105; 115; 116; 111; 114; 121; 0; 0; 0; 6; 115; 116; 97; 116; 117; 115; 0; 0; 0; 4; 110; 111; 110; 101; 0; 0; 0; 6; 115; 116; 97; 116; 117; 115; 0; 0];
  [0; 7; 114; 101; 103; 117; 108; 97; 114; 0; 0; 0; 4; 255; 255; 255; 255; 0; 0; 0; 4; 116; 101; 120; 116; 0; 0; 0; 18; 115; 121; 115; 116; 101; 109; 95; 100; 105; 115; 116];
  [114; 105; 98; 117; 116; 101; 100; 0; 0; 0; 17; 118; 105; 101; 119; 95; 98; 117; 105; 108; 100; 95; 115; 116; 97; 116; 117; 115; 0; 0; 0; 7; 104; 111; 115; 116; 95; 105; 100; 0];
  [0; 0; 3; 97; 115; 99; 0; 0; 0; 7; 104; 111; 115; 116; 95; 105; 100; 0; 0; 0; 10; 99; 108; 117; 115; 116; 101; 114; 105; 110; 103; 0; 0; 0; 4; 0; 0; 0; 0; 0];
  [0; 0; 4; 117; 117; 105; 100; 0; 0; 0; 18; 115; 121; 115; 116; 101; 109; 95; 100; 105; 115; 116; 114; 105; 98; 117; 116; 101; 100; 0; 0; 0; 17; 118; 105; 101; 119; 95; 98; 117];
  [105; 108; 100; 95; 115; 116; 97; 116; 117; 115; 0; 0; 0; 13; 107; 101; 121; 115; 112; 97; 99; 101; 95; 110; 97; 109; 101; 0; 0; 0; 4; 110; 111; 110; 101; 0; 0; 0; 13; 107];
  [101; 121; 115; 112; 97; 99; 101; 95; 110; 97; 109; 101; 0; 0; 0; 13; 112; 97; 114; 116; 105; 116; 105; 111; 110; 95; 107; 101; 121; 0; 0; 0; 4; 0; 0; 0; 0; 0; 0; 0];
  [4; 116; 101; 120; 116; 0; 0; 0; 18; 115; 121; 115; 116; 101; 109; 95; 100; 105; 115; 116; 114; 105; 98; 117; 116; 101; 100; 0; 0; 0; 17; 118; 105; 101; 119; 95; 98; 117; 105; 108];
  [100; 95; 115; 116; 97; 116; 117; 115; 0; 0; 0; 6; 115; 116; 97; 116; 117; 115; 0; 0; 0; 4; 110; 111; 110; 101; 0; 0; 0; 6; 115; 116; 97; 116; 117; 115; 0; 0; 0; 7];
  [114; 101; 103; 117; 108; 97; 114; 0; 0; 0; 4; 255; 255; 255; 255; 0; 0; 0; 4; 116; 101; 120; 116; 0; 0; 0; 18; 115; 121; 115; 116; 101; 109; 95; 100; 105; 115; 116; 114; 105];
  [98; 117; 116; 101; 100; 0; 0; 0; 17; 118; 105; 101; 119; 95; 98; 117; 105; 108; 100; 95; 115; 116; 97; 116; 117; 115; 0; 0; 0; 9; 118; 105; 101; 119; 95; 110; 97; 109; 101; 0];
  [0; 0; 4; 110; 111; 110; 101; 0; 0; 0; 9; 118; 105; 101; 119; 95; 110; 97; 109; 101; 0; 0; 0; 13; 112; 97; 114; 116; 105; 116; 105; 111; 110; 95; 107; 101; 121; 0; 0; 0];
  [4; 0; 0; 0; 1; 0; 0; 0; 4; 116; 101; 120; 116; 0; 0; 0; 6; 115; 121; 115; 116; 101; 109; 0; 0; 0; 9; 73; 110; 100; 101; 120; 73; 110; 102; 111; 0; 0; 0; 10];
  [105; 110; 100; 101; 120; 95; 110; 97; 109; 101; 0; 0; 0; 3; 97; 115; 99; 0; 0; 0; 10; 105; 110; 100; 101; 120; 95; 110; 97; 109; 101; 0; 0; 0; 10; 99; 108; 117; 115; 116];
  [101; 114; 105; 110; 103; 0; 0; 0; 4; 0; 0; 0; 0; 0; 0; 0; 4; 116; 101; 120; 116; 0; 0; 0; 6; 115; 121; 115; 116; 101; 109; 0; 0; 0; 9; 73; 110; 100; 101; 120];
  [73; 110; 102; 111; 0; 0; 0; 10; 116; 97; 98; 108; 101; 95; 110; 97; 109; 101; 0; 0; 0; 4; 110; 111; 110; 101; 0; 0; 0; 10; 116; 97; 98; 108; 101; 95; 110; 97; 109; 101];
  [0; 0; 0; 13; 112; 97; 114; 116; 105; 116; 105; 111; 110; 95; 107; 101; 121; 0; 0; 0; 4; 0; 0; 0; 0; 0; 0; 0; 4; 116; 101; 120; 116; 0; 0; 0; 6; 115; 121; 115];
  [116; 101; 109; 0; 0; 0; 9; 73; 110; 100; 101; 120; 73; 110; 102; 111; 0; 0; 0; 5; 118; 97; 108; 117; 101; 0; 0; 0; 4; 110; 111; 110; 101; 0; 0; 0; 5; 118; 97; 108];
  [117; 101; 0; 0; 0; 7; 114; 101; 103; 117; 108; 97; 114; 0; 0; 0; 4; 255; 255; 255; 255; 0; 0; 0; 4; 98; 108; 111; 98; 0; 0; 0; 6; 115; 121; 115; 116; 101; 109; 0];
  [0; 0; 16; 97; 118; 97; 105; 108; 97; 98; 108; 101; 95; 114; 97; 110; 103; 101; 115; 0; 0; 0; 13; 107; 101; 121; 115; 112; 97; 99; 101; 95; 110; 97; 109; 101; 0; 0; 0; 4];
  [110; 111; 110; 101; 0; 0; 0; 13; 107; 101; 121; 115; 112; 97; 99; 101; 95; 110; 97; 109; 101; 0; 0; 0; 13; 112; 97; 114; 116; 105; 116; 105; 111; 110; 95; 107; 101; 121; 0; 0];
  [0; 4; 0; 0; 0; 0; 0; 0; 0; 4; 116; 101; 120; 116; 0; 0; 0; 6; 115; 121; 115; 116; 101; 109; 0; 0; 0; 16; 97; 118; 97; 105; 108; 97; 98; 108; 101; 95; 114; 97];
  [110; 103; 101; 115; 0; 0; 0; 6; 114; 97; 110; 103; 101; 115; 0; 0; 0; 4; 110; 111; 110; 101; 0; 0; 0; 6; 114; 97; 110; 103; 101; 115; 0; 0; 0; 7; 114; 101; 103; 117];
  [108; 97; 114; 0; 0; 0; 4; 255; 255; 255; 255; 0; 0; 0; 9; 115; 101; 116; 60; 98; 108; 111; 98; 62; 0; 0; 0; 6; 115; 121; 115; 116; 101; 109; 0; 0; 0; 19; 97; 118];
  [97; 105; 108; 97; 98; 108; 101; 95; 114; 97; 110; 103; 101; 115; 95; 118; 50; 0; 0; 0; 11; 102; 117; 108; 108; 95; 114; 97; 110; 103; 101; 115; 0; 0; 0; 4; 110; 111; 110; 101];
  [0; 0; 0; 11; 102; 117; 108; 108; 95; 114; 97; 110; 103; 101; 115; 0; 0; 0; 7; 114; 101; 103; 117; 108; 97; 114; 0; 0; 0; 4; 255; 255; 255; 255; 0; 0; 0; 9; 115; 101];
  [116; 60; 98; 108; 111; 98; 62; 0; 0; 0; 6; 115; 121; 115; 116; 101; 109; 0; 0; 0; 19; 97; 118; 97; 105; 108; 97; 98; 108; 101; 95; 114; 97; 110; 103; 101; 115; 95; 118; 50];
  [0; 0; 0; 13; 107; 101; 121; 115; 112; 97; 99; 101; 95; 110; 97; 109; 101; 0; 0; 0; 4; 110; 111; 110; 101; 0; 0; 0; 13; 107; 101; 121; 115; 112; 97; 99; 101; 95; 110; 97];
  [109; 101; 0; 0; 0; 13; 112; 97; 114; 116; 105; 116; 105; 111; 110; 95; 107; 101; 121; 0; 0; 0; 4; 0; 0; 0; 0; 0; 0; 0; 4; 116; 101; 120; 116; 0; 0; 0; 6; 115];
  [121; 115; 116; 101; 109; 0; 0; 0; 19; 97; 118; 97; 105; 108; 97; 98; 108; 101; 95; 114; 97; 110; 103; 101; 115; 95; 118; 50; 0; 0; 0; 16; 116; 114; 97; 110; 115; 105; 101; 110];
  [116; 95; 114; 97; 110; 103; 101; 115; 0; 0; 0; 4; 110; 111; 110; 101; 0; 0; 0; 16; 116; 114; 97; 110; 115; 105; 101; 110; 116; 95; 114; 97; 110; 103; 101; 115; 0; 0; 0; 7];
  [114; 101; 103; 117; 108; 97; 114; 0; 0; 0; 4; 255; 255; 255; 255; 0; 0; 0; 9; 115; 101; 116; 60; 98; 108; 111; 98; 62; 0; 0; 0; 6; 115; 121; 115; 116; 101; 109; 0; 0];
  [0; 7; 98; 97; 116; 99; 104; 101; 115; 0; 0; 0; 2; 105; 100; 0; 0; 0; 4; 110; 111; 110; 101; 0; 0; 0; 2; 105; 100; 0; 0; 0; 13; 112; 97; 114; 116; 105; 116; 105];
  [111; 110; 95; 107; 101; 121; 0; 0; 0; 4; 0; 0; 0; 0; 0; 0; 0; 8; 116; 105; 109; 101; 117; 117; 105; 100; 0; 0; 0; 6; 115; 121; 115; 116; 101; 109; 0; 0; 0; 7];
  [98; 97; 116; 99; 104; 101; 115; 0; 0; 0; 9; 109; 117; 116; 97; 116; 105; 111; 110; 115; 0; 0; 0; 4; 110; 111; 110; 101; 0; 0; 0; 9; 109; 117; 116; 97; 116; 105; 111; 110];
  [115; 0; 0; 0; 7; 114; 101; 103; 117; 108; 97; 114; 0; 0; 0; 4; 255; 255; 255; 255; 0; 0; 0; 10; 108; 105; 115; 116; 60; 98; 108; 111; 98; 62; 0; 0; 0; 6; 115; 121];
  [115; 116; 101; 109; 0; 0; 0; 7; 98; 97; 116; 99; 104; 101; 115; 0; 0; 0; 7; 118; 101; 114; 115; 105; 111; 110; 0; 0; 0; 4; 110; 111; 110; 101; 0; 0; 0; 7; 118; 101];
  [114; 115; 105; 111; 110; 0; 0; 0; 7; 114; 101; 103; 117; 108; 97; 114; 0; 0; 0; 4; 255; 255; 255; 255; 0; 0; 0; 3; 105; 110; 116; 0; 0; 0; 6; 115; 121; 115; 116; 101];
  [109; 0; 0; 0; 11; 98; 117; 105; 108; 116; 95; 118; 105; 101; 119; 115; 0; 0; 0; 13; 107; 101; 121; 115; 112; 97; 99; 101; 95; 110; 97; 109; 101; 0; 0; 0; 4; 110; 111; 110];
  [101; 0; 0; 0; 13; 107; 101; 121; 115; 112; 97; 99; 101; 95; 110; 97; 109; 101; 0; 0; 0; 13; 112; 97; 114; 116; 105; 116; 105; 111; 110; 95; 107; 101; 121; 0; 0; 0; 4; 0];
  [0; 0; 0; 0; 0; 0; 4; 116; 101; 120; 116; 0; 0; 0; 6; 115; 121; 115; 116; 101; 109; 0; 0; 0; 11; 98; 117; 105; 108; 116; 95; 118; 105; 101; 119; 115; 0; 0; 0; 17];
  [115; 116; 97; 116; 117; 115; 95; 114; 101; 112; 108; 105; 99; 97; 116; 101; 100; 0; 0; 0; 4; 110; 111; 110; 101; 0; 0; 0; 17; 115; 116; 97; 116; 117; 115; 95; 114; 101; 112; 108];
  [105; 99; 97; 116; 101; 100; 0; 0; 0; 7; 114; 101; 103; 117; 108; 97; 114; 0; 0; 0; 4; 255; 255; 255; 255; 0; 0; 0; 7; 98; 111; 111; 108; 101; 97; 110; 0; 0; 0; 6];
  [115; 121; 115; 116; 101; 109; 0; 0; 0; 11; 98; 117; 105; 108; 116; 95; 118; 105; 101; 119; 115; 0; 0; 0; 9; 118; 105; 101; 119; 95; 110; 97; 109; 101; 0; 0; 0; 3; 97; 115];
  [99; 0; 0; 0; 9; 118; 105; 101; 119; 95; 110; 97; 109; 101; 0; 0; 0; 10; 99; 108; 117; 115; 116; 101; 114; 105; 110; 103; 0; 0; 0; 4; 0; 0; 0; 0; 0; 0; 0; 4];
  [116; 101; 120; 116; 0; 0; 0; 6; 115; 121; 115; 116; 101; 109; 0; 0; 0; 18; 99; 111; 109; 112; 97; 99; 116; 105; 111; 110; 95; 104; 105; 115; 116; 111; 114; 121; 0; 0; 0; 8];
  [98; 121; 116; 101; 115; 95; 105; 110; 0; 0; 0; 4; 110; 111; 110; 101; 0; 0; 0; 8; 98; 121; 116; 101; 115; 95; 105; 110; 0; 0; 0; 7; 114; 101; 103; 117; 108; 97; 114; 0];
  [0; 0; 4; 255; 255; 255; 255; 0; 0; 0; 6; 98; 105; 103; 105; 110; 116; 0; 0; 0; 6; 115; 121; 115; 116; 101; 109; 0; 0; 0; 18; 99; 111; 109; 112; 97; 99; 116; 105; 111];
  [110; 95; 104; 105; 115; 116; 111; 114; 121; 0; 0; 0; 9; 98; 121; 116; 101; 115; 95; 111; 117; 116; 0; 0; 0; 4; 110; 111; 110; 101; 0; 0; 0; 9; 98; 121; 116; 101; 115; 95];
  [111; 117; 116; 0; 0; 0; 7; 114; 101; 103; 117; 108; 97; 114; 0; 0; 0; 4; 255; 255; 255; 255; 0; 0; 0; 6; 98; 105; 103; 105; 110; 116; 0; 0; 0; 6; 115; 121; 115; 116];
  [101; 109; 0; 0; 0; 18; 99; 111; 109; 112; 97; 99; 116; 105; 111; 110; 95; 104; 105; 115; 116; 111; 114; 121; 0; 0; 0; 17; 99; 111; 108; 117; 109; 110; 102; 97; 109; 105; 108; 121];
  [95; 110; 97; 109; 101; 0; 0; 0; 4; 110; 111; 110; 101; 0; 0; 0; 17; 99; 111; 108; 117; 109; 110; 102; 97; 109; 105; 108; 121; 95; 110; 97; 109; 101; 0; 0; 0; 7; 114; 101];
  [103; 117; 108; 97; 114; 0; 0; 0; 4; 255; 255; 255; 255; 0; 0; 0; 4; 116; 101; 120; 116; 0; 0; 0; 6; 115; 121; 115; 116; 101; 109; 0; 0; 0; 18; 99; 111; 109; 112; 97];
  [99; 116; 105; 111; 110; 95; 104; 105; 115; 116; 111; 114; 121; 0; 0; 0; 12; 99; 111; 109; 112; 97; 99; 116; 101; 100; 95; 97; 116; 0; 0; 0; 4; 110; 111; 110; 101; 0; 0; 0];
  [12; 99; 111; 109; 112; 97; 99; 116; 101; 100; 95; 97; 116; 0; 0; 0; 7; 114; 101; 103; 117; 108; 97; 114; 0; 0; 0; 4; 255; 255; 255; 255; 0; 0; 0; 9; 116; 105; 109; 101];
  [115; 116; 97; 109; 112; 0; 0; 0; 6; 115; 121; 115; 116; 101; 109; 0; 0; 0; 18; 99; 111; 109; 112; 97; 99; 116; 105; 111; 110; 95; 104; 105; 115; 116; 111; 114; 121; 0; 0; 0];
  [2; 105; 100; 0; 0; 0; 4; 110; 111; 110; 101; 0; 0; 0; 2; 105; 100; 0; 0; 0; 13; 112; 97; 114; 116; 105; 116; 105; 111; 110; 95; 107; 101; 121; 0; 0; 0; 4; 0; 0];
  [0; 0; 0; 0; 0; 4; 117; 117; 105; 100; 0; 0; 0; 6; 115; 121; 115; 116; 101; 109; 0; 0; 0; 18; 99; 111; 109; 112; 97; 99; 116; 105; 111; 110; 95; 104; 105; 115; 116; 111];
  [114; 121; 0; 0; 0; 13; 107; 101; 121; 115; 112; 97; 99; 101; 95; 110; 97; 109; 101; 0; 0; 0; 4; 110; 111; 110; 101; 0; 0; 0; 13; 107; 101; 121; 115; 112; 97; 99; 101; 95];
  [110; 97; 109; 101; 0; 0; 0; 7; 114; 101; 103; 117; 108; 97; 114; 0; 0; 0; 4; 255; 255; 255; 255; 0; 0; 0; 4; 116; 101; 120; 116; 0; 0; 0; 6; 115; 121; 115; 116; 101];
  [109; 0; 0; 0; 18; 99; 111; 109; 112; 97; 99; 116; 105; 111; 110; 95; 104; 105; 115; 116; 111; 114; 121; 0; 0; 0; 11; 114; 111; 119; 115; 95; 109; 101; 114; 103; 101; 100; 0; 0];
  [0; 4; 110; 111; 110; 101; 0; 0; 0; 11; 114; 111; 119; 115; 95; 109; 101; 114; 103; 101; 100; 0; 0; 0; 7; 114; 101; 103; 117; 108; 97; 114; 0; 0; 0; 4; 255; 255; 255; 255];
  [0; 0; 0; 16; 109; 97; 112; 60; 105; 110; 116; 44; 32; 98; 105; 103; 105; 110; 116; 62; 0; 0; 0; 6; 115; 121; 115; 116; 101; 109; 0; 0; 0; 5; 108; 111; 99; 97; 108; 0];
  [0; 0; 12; 98; 111; 111; 116; 115; 116; 114; 97; 112; 112; 101; 100; 0; 0; 0; 4; 110; 111; 110; 101; 0; 0; 0; 12; 98; 111; 111; 116; 115; 116; 114; 97; 112; 112; 101; 100; 0];
  [0; 0; 7; 114; 101; 103; 117; 108; 97; 114; 0; 0; 0; 4; 255; 255; 255; 255; 0; 0; 0; 4; 116; 101; 120; 116; 0; 0; 0; 6; 115; 121; 115; 116; 101; 109; 0; 0; 0; 5];
  [108; 111; 99; 97; 108; 0; 0; 0; 17; 98; 114; 111; 97; 100; 99; 97; 115; 116; 95; 97; 100; 100; 114; 101; 115; 115; 0; 0; 0; 4; 110; 111; 110; 101; 0; 0; 0; 17; 98; 114];
  [111; 97; 100; 99; 97; 115; 116; 95; 97; 100; 100; 114; 101; 115; 115; 0; 0; 0; 7; 114; 101; 103; 117; 108; 97; 114; 0; 0; 0; 4; 255; 255; 255; 255; 0; 0; 0; 4; 105; 110];
  [101; 116; 0; 0; 0; 6; 115; 121; 115; 116; 101; 109; 0; 0; 0; 5; 108; 111; 99; 97; 108; 0; 0; 0; 14; 98; 114; 111; 97; 100; 99; 97; 115; 116; 95; 112; 111; 114; 116; 0];
  [0; 0; 4; 110; 111; 110; 101; 0; 0; 0; 14; 98; 114; 111; 97; 100; 99; 97; 115; 116; 95; 112; 111; 114; 116; 0; 0; 0; 7; 114; 101; 103; 117; 108; 97; 114; 0; 0; 0; 4];
  [255; 255; 255; 255; 0; 0; 0; 3; 105; 110; 116; 0; 0; 0; 6; 115; 121; 115; 116; 101; 109; 0; 0; 0; 5; 108; 111; 99; 97; 108; 0; 0; 0; 12; 99; 108; 117; 115; 116; 101];
  [114; 95; 110; 97; 109; 101; 0; 0; 0; 4; 110; 111; 110; 101; 0; 0; 0; 12; 99; 108; 117; 115; 116; 101; 114; 95; 110; 97; 109; 101; 0; 0; 0; 7; 114; 101; 103; 117; 108; 97];
  [114; 0; 0; 0; 4; 255; 255; 255; 255; 0; 0; 0; 4; 116; 101; 120; 116; 0; 0; 0; 6; 115; 121; 115; 116; 101; 109; 0; 0; 0; 5; 108; 111; 99; 97; 108; 0; 0; 0; 11];
  [99; 113; 108; 95; 118; 101; 114; 115; 105; 111; 110; 0; 0; 0; 4; 110; 111; 110; 101; 0; 0; 0; 11; 99; 113; 108; 95; 118; 101; 114; 115; 105; 111; 110; 0; 0; 0; 7; 114; 101];
  [103; 117; 108; 97; 114; 0; 0; 0; 4; 255; 255; 255; 255; 0; 0; 0; 4; 116; 101; 120; 116; 0; 0; 0; 6; 115; 121; 115; 116; 101; 109; 0; 0; 0; 5; 108; 111; 99; 97; 108];
  [0; 0; 0; 11; 100; 97; 116; 97; 95; 99; 101; 110; 116; 101; 114; 0; 0; 0; 4; 110; 111; 110; 101; 0; 0; 0; 11; 100; 97; 116; 97; 95; 99; 101; 110; 116; 101; 114; 0; 0];
  [0; 7; 114; 101; 103; 117; 108; 97; 114; 0; 0; 0; 4; 255; 255; 255; 255; 0; 0; 0; 4; 116; 101; 120; 116; 0; 0; 0; 6; 115; 121; 115; 116; 101; 109; 0; 0; 0; 5; 108];
  [111; 99; 97; 108; 0; 0; 0; 17; 103; 111; 115; 115; 105; 112; 95; 103; 101; 110; 101; 114; 97; 116; 105; 111; 110; 0; 0; 0; 4; 110; 111; 110; 101; 0; 0; 0; 17; 103; 111; 115];
  [115; 105; 112; 95; 103; 101; 110; 101; 114; 97; 116; 105; 111; 110; 0; 0; 0; 7; 114; 101; 103; 117; 108; 97; 114; 0; 0; 0; 4; 255; 255; 255; 255; 0; 0; 0; 3; 105; 110; 116];
  [0; 0; 0; 6; 115; 121; 115; 116; 101; 109; 0; 0; 0; 5; 108; 111; 99; 97; 108; 0; 0; 0; 7; 104; 111; 115; 116; 95; 105; 100; 0; 0; 0; 4; 110; 111; 110; 101; 0; 0];
  [0; 7; 104; 111; 115; 116; 95; 105; 100; 0; 0; 0; 7; 114; 101; 103; 117; 108; 97; 114; 0; 0; 0; 4; 255; 255; 255; 255; 0; 0; 0; 4; 117; 117; 105; 100; 0; 0; 0; 6];
  [115; 121; 115; 116; 101; 109; 0; 0; 0; 5; 108; 111; 99; 97; 108; 0; 0; 0; 3; 107; 101; 121; 0; 0; 0; 4; 110; 111; 110; 101; 0; 0; 0; 3; 107; 101; 121; 0; 0; 0];
  [13; 112; 97; 114; 116; 105; 116; 105; 111; 110; 95; 107; 101; 121; 0; 0; 0; 4; 0; 0; 0; 0; 0; 0; 0; 4; 116; 101; 120; 116; 0; 0; 0; 6; 115; 121; 115; 116; 101; 109];
  [0; 0; 0; 5; 108; 111; 99; 97; 108; 0; 0; 0; 14; 108; 105; 115; 116; 101; 110; 95; 97; 100; 100; 114; 101; 115; 115; 0; 0; 0; 4; 110; 111; 110; 101; 0; 0; 0; 14; 108];
  [105; 115; 116; 101; 110; 95; 97; 100; 100; 114; 101; 115; 115; 0; 0; 0; 7; 114; 101; 103; 117; 108; 97; 114; 0; 0; 0; 4; 255; 255; 255; 255; 0; 0; 0; 4; 105; 110; 101; 116];
  [0; 0; 0; 6; 115; 121; 115; 116; 101; 109; 0; 0; 0; 5; 108; 111; 99; 97; 108; 0; 0; 0; 11; 108; 105; 115; 116; 101; 110; 95; 112; 111; 114; 116; 0; 0; 0; 4; 110; 111];
  [110; 101; 0; 0; 0; 11; 108; 105; 115; 116; 101; 110; 95; 112; 111; 114; 116; 0; 0; 0; 7; 114; 101; 103; 117; 108; 97; 114; 0; 0; 0; 4; 255; 255; 255; 255; 0; 0; 0; 3];
  [105; 110; 116; 0; 0; 0; 6; 115; 121; 115; 116; 101; 109; 0; 0; 0; 5; 108; 111; 99; 97; 108; 0; 0; 0; 23; 110; 97; 116; 105; 118; 101; 95; 112; 114; 111; 116; 111; 99; 111];
  [108; 95; 118; 101; 114; 115; 105; 111; 110; 0; 0; 0; 4; 110; 111; 110; 101; 0; 0; 0; 23; 110; 97; 116; 105; 118; 101; 95; 112; 114; 111; 116; 111; 99; 111; 108; 95; 118; 101; 114];
  [115; 105; 111; 110; 0; 0; 0; 7; 114; 101; 103; 117; 108; 97; 114; 0; 0; 0; 4; 255; 255; 255; 255; 0; 0; 0; 4; 116; 101; 120; 116; 0; 0; 0; 6; 115; 121; 115; 116; 101];
  [109; 0; 0; 0; 5; 108; 111; 99; 97; 108; 0; 0; 0; 11; 112; 97; 114; 116; 105; 116; 105; 111; 110; 101; 114; 0; 0; 0; 4; 110; 111; 110; 101; 0; 0; 0; 11; 112; 97; 114];
  [116; 105; 116; 105; 111; 110; 101; 114; 0; 0; 0; 7; 114; 101; 103; 117; 108; 97; 114; 0; 0; 0; 4; 255; 255; 255; 255; 0; 0; 0; 4; 116; 101; 120; 116; 0; 0; 0; 6; 115];
  [121; 115; 116; 101; 109; 0; 0; 0; 5; 108; 111; 99; 97; 108; 0; 0; 0; 4; 114; 97; 99; 107; 0; 0; 0; 4; 110; 111; 110; 101; 0; 0; 0; 4; 114; 97; 99; 107; 0; 0];
  [0; 7; 114; 101; 103; 117; 108; 97; 114; 0; 0; 0; 4; 255; 255; 255; 255; 0; 0; 0; 4; 116; 101; 120; 116; 0; 0; 0; 6; 115; 121; 115; 116; 101; 109; 0; 0; 0; 5; 108];
  [111; 99; 97; 108; 0; 0; 0; 15; 114; 101; 108; 101; 97; 115; 101; 95; 118; 101; 114; 115; 105; 111; 110; 0; 0; 0; 4; 110; 111; 110; 101; 0; 0; 0; 15; 114; 101; 108; 101; 97];
  [115; 101; 95; 118; 101; 114; 115; 105; 111; 110; 0; 0; 0; 7; 114; 101; 103; 117; 108; 97; 114; 0; 0; 0; 4; 255; 255; 255; 255; 0; 0; 0; 4; 116; 101; 120; 116; 0; 0; 0];
  [6; 115; 121; 115; 116; 101; 109; 0; 0; 0; 5; 108; 111; 99; 97; 108; 0; 0; 0; 11; 114; 112; 99; 95; 97; 100; 100; 114; 101; 115; 115; 0; 0; 0; 4; 110; 111; 110; 101; 0];
  [0; 0; 11; 114; 112; 99; 95; 97; 100; 100; 114; 101; 115; 115; 0; 0; 0; 7; 114; 101; 103; 117; 108; 97; 114; 0; 0; 0; 4; 255; 255; 255; 255; 0; 0; 0; 4; 105; 110; 101];
  [116; 0; 0; 0; 6; 115; 121; 115; 116; 101; 109; 0; 0; 0; 5; 108; 111; 99; 97; 108; 0; 0; 0; 8; 114; 112; 99; 95; 112; 111; 114; 116; 0; 0; 0; 4; 110; 111; 110; 101];
  [0; 0; 0; 8; 114; 112; 99; 95; 112; 111; 114; 116; 0; 0; 0; 7; 114; 101; 103; 117; 108; 97; 114; 0; 0; 0; 4; 255; 255; 255; 255; 0; 0; 0; 3; 105; 110; 116; 0; 0];
  [0; 6; 115; 121; 115; 116; 101; 109; 0; 0; 0; 5; 108; 111; 99; 97; 108; 0; 0; 0; 14; 115; 99; 104; 101; 109; 97; 95; 118; 101; 114; 115; 105; 111; 110; 0; 0; 0; 4; 110];
  [111; 110; 101; 0; 0; 0; 14; 115; 99; 104; 101; 109; 97; 95; 118; 101; 114; 115; 105; 111; 110; 0; 0; 0; 7; 114; 101; 103; 117; 108; 97; 114; 0; 0; 0; 4; 255; 255; 255; 255];
  [0; 0; 0; 4; 117; 117; 105; 100; 0; 0; 0; 6; 115; 121; 115; 116; 101; 109; 0; 0; 0; 5; 108; 111; 99; 97; 108; 0; 0; 0; 6; 116; 111; 107; 101; 110; 115; 0; 0; 0];
  [4; 110; 111; 110; 101; 0; 0; 0; 6; 116; 111; 107; 101; 110; 115; 0; 0; 0; 7; 114; 101; 103; 117; 108; 97; 114; 0; 0; 0; 4; 255; 255; 255; 255; 0; 0; 0; 9; 115; 101];
  [116; 60; 116; 101; 120; 116; 62; 0; 0; 0; 6; 115; 121; 115; 116; 101; 109; 0; 0; 0; 5; 108; 111; 99; 97; 108; 0; 0; 0; 12; 116; 114; 117; 110; 99; 97; 116; 101; 100; 95];
  [97; 116; 0; 0; 0; 4; 110; 111; 110; 101; 0; 0; 0; 12; 116; 114; 117; 110; 99; 97; 116; 101; 100; 95; 97; 116; 0; 0; 0; 7; 114; 101; 103; 117; 108; 97; 114; 0; 0; 0];
  [4; 255; 255; 255; 255; 0; 0; 0; 15; 109; 97; 112; 60; 117; 117; 105; 100; 44; 32; 98; 108; 111; 98; 62; 0; 0; 0; 6; 115; 121; 115; 116; 101; 109; 0; 0; 0; 5; 112; 97];
  [120; 111; 115; 0; 0; 0; 5; 99; 102; 95; 105; 100; 0; 0; 0; 3; 97; 115; 99; 0; 0; 0; 5; 99; 102; 95; 105; 100; 0; 0; 0; 10; 99; 108; 117; 115; 116; 101; 114; 105];
  [110; 103; 0; 0; 0; 4; 0; 0; 0; 0; 0; 0; 0; 4; 117; 117; 105; 100; 0; 0; 0; 6; 115; 121; 115; 116; 101; 109; 0; 0; 0; 5; 112; 97; 120; 111; 115; 0; 0; 0];
  [18; 105; 110; 95; 112; 114; 111; 103; 114; 101; 115; 115; 95; 98; 97; 108; 108; 111; 116; 0; 0; 0; 4; 110; 111; 110; 101; 0; 0; 0; 18; 105; 110; 95; 112; 114; 111; 103; 114; 101];
  [115; 115; 95; 98; 97; 108; 108; 111; 116; 0; 0; 0; 7; 114; 101; 103; 117; 108; 97; 114; 0; 0; 0; 4; 255; 255; 255; 255; 0; 0; 0; 8; 116; 105; 109; 101; 117; 117; 105; 100];
  [0; 0; 0; 6; 115; 121; 115; 116; 101; 109; 0; 0; 0; 5; 112; 97; 120; 111; 115; 0; 0; 0; 18; 109; 111; 115; 116; 95; 114; 101; 99; 101; 110; 116; 95; 99; 111; 109; 109; 105];
  [116; 0; 0; 0; 4; 110; 111; 110; 101; 0; 0; 0; 18; 109; 111; 115; 116; 95; 114; 101; 99; 101; 110; 116; 95; 99; 111; 109; 109; 105; 116; 0; 0; 0; 7; 114; 101; 103; 117; 108];
  [97; 114; 0; 0; 0; 4; 255; 255; 255; 255; 0; 0; 0; 4; 98; 108; 111; 98; 0; 0; 0; 6; 115; 121; 115; 116; 101; 109; 0; 0; 0; 5; 112; 97; 120; 111; 115; 0; 0; 0];
  [21; 109; 111; 115; 116; 95; 114; 101; 99; 101; 110; 116; 95; 99; 111; 109; 109; 105; 116; 95; 97; 116; 0; 0; 0; 4; 110; 111; 110; 101; 0; 0; 0; 21; 109; 111; 115; 116; 95; 114];
  [101; 99; 101; 110; 116; 95; 99; 111; 109; 109; 105; 116; 95; 97; 116; 0; 0; 0; 7; 114; 101; 103; 117; 108; 97; 114; 0; 0; 0; 4; 255; 255; 255; 255; 0; 0; 0; 8; 116; 105];
  [109; 101; 117; 117; 105; 100; 0; 0; 0; 6; 115; 121; 115; 116; 101; 109; 0; 0; 0; 5; 112; 97; 120; 111; 115; 0; 0; 0; 26; 109; 111; 115; 116; 95; 114; 101; 99; 101; 110; 116];
  [95; 99; 111; 109; 109; 105; 116; 95; 118; 101; 114; 115; 105; 111; 110; 0; 0; 0; 4; 110; 111; 110; 101; 0; 0; 0; 26; 109; 111; 115; 116; 95; 114; 101; 99; 101; 110; 116; 95; 99];
  [111; 109; 109; 105; 116; 95; 118; 101; 114; 115; 105; 111; 110; 0; 0; 0; 7; 114; 101; 103; 117; 108; 97; 114; 0; 0; 0; 4; 255; 255; 255; 255; 0; 0; 0; 3; 105; 110; 116; 0];
  [0; 0; 6; 115; 121; 115; 116; 101; 109; 0; 0; 0; 5; 112; 97; 120; 111; 115; 0; 0; 0; 8; 112; 114; 111; 112; 111; 115; 97; 108; 0; 0; 0; 4; 110; 111; 110; 101; 0; 0];
  [0; 8; 112; 114; 111; 112; 111; 115; 97; 108; 0; 0; 0; 7; 114; 101; 103; 117; 108; 97; 114; 0; 0; 0; 4; 255; 255; 255; 255; 0; 0; 0; 4; 98; 108; 111; 98; 0; 0; 0];
  [6; 115; 121; 115; 116; 101; 109; 0; 0; 0; 5; 112; 97; 120; 111; 115; 0; 0; 0; 15; 112; 114; 111; 112; 111; 115; 97; 108; 95; 98; 97; 108; 108; 111; 116; 0; 0; 0; 4; 110];
  [111; 110; 101; 0; 0; 0; 15; 112; 114; 111; 112; 111; 115; 97; 108; 95; 98; 97; 108; 108; 111; 116; 0; 0; 0; 7; 114; 101; 103; 117; 108; 97; 114; 0; 0; 0; 4; 255; 255; 255];
  [255; 0; 0; 0; 8; 116; 105; 109; 101; 117; 117; 105; 100; 0; 0; 0; 6; 115; 121; 115; 116; 101; 109; 0; 0; 0; 5; 112; 97; 120; 111; 115; 0; 0; 0; 16; 112; 114; 111; 112];
  [111; 115; 97; 108; 95; 118; 101; 114; 115; 105; 111; 110; 0; 0; 0; 4; 110; 111; 110; 101; 0; 0; 0; 16; 112; 114; 111; 112; 111; 115; 97; 108; 95; 118; 101; 114; 115; 105; 111; 110];
  [0; 0; 0; 7; 114; 101; 103; 117; 108; 97; 114; 0; 0; 0; 4; 255; 255; 255; 255; 0; 0; 0; 3; 105; 110; 116; 0; 0; 0; 6; 115; 121; 115; 116; 101; 109; 0; 0; 0; 5];
  [112; 97; 120; 111; 115; 0; 0; 0; 7; 114; 111; 119; 95; 107; 101; 121; 0; 0; 0; 4; 110; 111; 110; 101; 0; 0; 0; 7; 114; 111; 119; 95; 107; 101; 121; 0; 0; 0; 13; 112];
  [97; 114; 116; 105; 116; 105; 111; 110; 95; 107; 101; 121; 0; 0; 0; 4; 0; 0; 0; 0; 0; 0; 0; 4; 98; 108; 111; 98; 0; 0; 0; 6; 115; 121; 115; 116; 101; 109; 0; 0];
  [0; 11; 112; 101; 101; 114; 95; 101; 118; 101; 110; 116; 115; 0; 0; 0; 13; 104; 105; 110; 116; 115; 95; 100; 114; 111; 112; 112; 101; 100; 0; 0; 0; 4; 110; 111; 110; 101; 0; 0];
  [0; 13; 104; 105; 110; 116; 115; 95; 100; 114; 111; 112; 112; 101; 100; 0; 0; 0; 7; 114; 101; 103; 117; 108; 97; 114; 0; 0; 0; 4; 255; 255; 255; 255; 0; 0; 0; 14; 109; 97];
  [112; 60; 117; 117; 105; 100; 44; 32; 105; 110; 116; 62; 0; 0; 0; 6; 115; 121; 115; 116; 101; 109; 0; 0; 0; 11; 112; 101; 101; 114; 95; 101; 118; 101; 110; 116; 115; 0; 0; 0];
  [4; 112; 101; 101; 114; 0; 0; 0; 4; 110; 111; 110; 101; 0; 0; 0; 4; 112; 101; 101; 114; 0; 0; 0; 13; 112; 97; 114; 116; 105; 116; 105; 111; 110; 95; 107; 101; 121; 0; 0];
  [0; 4; 0; 0; 0; 0; 0; 0; 0; 4; 105; 110; 101; 116; 0; 0; 0; 6; 115; 121; 115; 116; 101; 109; 0; 0; 0; 14; 112; 101; 101; 114; 95; 101; 118; 101; 110; 116; 115; 95];
  [118; 50; 0; 0; 0; 13; 104; 105; 110; 116; 115; 95; 100; 114; 111; 112; 112; 101; 100; 0; 0; 0; 4; 110; 111; 110; 101; 0; 0; 0; 13; 104; 105; 110; 116; 115; 95; 100; 114; 111];
  [112; 112; 101; 100; 0; 0; 0; 7; 114; 101; 103; 117; 108; 97; 114; 0; 0; 0; 4; 255; 255; 255; 255; 0; 0; 0; 14; 109; 97; 112; 60; 117; 117; 105; 100; 44; 32; 105; 110; 116];
  [62; 0; 0; 0; 6; 115; 121; 115; 116; 101; 109; 0; 0; 0; 14; 112; 101; 101; 114; 95; 101; 118; 101; 110; 116; 115; 95; 118; 50; 0; 0; 0; 4; 112; 101; 101; 114; 0; 0; 0];
  [4; 110; 111; 110; 101; 0; 0; 0; 4; 112; 101; 101; 114; 0; 0; 0; 13; 112; 97; 114; 116; 105; 116; 105; 111; 110; 95; 107; 101; 121; 0; 0; 0; 4; 0; 0; 0; 0; 0; 0];
  [0; 4; 105; 110; 101; 116; 0; 0; 0; 6; 115; 121; 115; 116; 101; 109; 0; 0; 0; 14; 112; 101; 101; 114; 95; 101; 118; 101; 110; 116; 115; 95; 118; 50; 0; 0; 0; 9; 112; 101];
  [101; 114; 95; 112; 111; 114; 116; 0; 0; 0; 3; 97; 115; 99; 0; 0; 0; 9; 112; 101; 101; 114; 95; 112; 111; 114; 116; 0; 0; 0; 10; 99; 108; 117; 115; 116; 101; 114; 105; 110];
  [103; 0; 0; 0; 4; 0; 0; 0; 0; 0; 0; 0; 3; 105; 110; 116; 0; 0; 0; 6; 115; 121; 115; 116; 101; 109; 0; 0; 0; 5; 112; 101; 101; 114; 115; 0; 0; 0; 11; 100];
  [97; 116; 97; 95; 99; 101; 110; 116; 101; 114; 0; 0; 0; 4; 110; 111; 110; 101; 0; 0; 0; 11; 100; 97; 116; 97; 95; 99; 101; 110; 116; 101; 114; 0; 0; 0; 7; 114; 101; 103];
  [117; 108; 97; 114; 0; 0; 0; 4; 255; 255; 255; 255; 0; 0; 0; 4; 116; 101; 120; 116; 0; 0; 0; 6; 115; 121; 115; 116; 101; 109; 0; 0; 0; 5; 112; 101; 101; 114; 115; 0];
  [0; 0; 7; 104; 111; 115; 116; 95; 105; 100; 0; 0; 0; 4; 110; 111; 110; 101; 0; 0; 0; 7; 104; 111; 115; 116; 95; 105; 100; 0; 0; 0; 7; 114; 101; 103; 117; 108; 97; 114];
  [0; 0; 0; 4; 255; 255; 255; 255; 0; 0; 0; 4; 117; 117; 105; 100; 0; 0; 0; 6; 115; 121; 115; 116; 101; 109; 0; 0; 0; 5; 112; 101; 101; 114; 115; 0; 0; 0; 4; 112];
  [101; 101; 114; 0; 0; 0; 4; 110; 111; 110; 101; 0; 0; 0; 4; 112; 101; 101; 114; 0; 0; 0; 13; 112; 97; 114; 116; 105; 116; 105; 111; 110; 95; 107; 101; 121; 0; 0; 0; 4];
  [0; 0; 0; 0; 0; 0; 0; 4; 105; 110; 101; 116; 0; 0; 0; 6; 115; 121; 115; 116; 101; 109; 0; 0; 0; 5; 112; 101; 101; 114; 115; 0; 0; 0; 12; 112; 114; 101; 102; 101];
  [114; 114; 101; 100; 95; 105; 112; 0; 0; 0; 4; 110; 111; 110; 101; 0; 0; 0; 12; 112; 114; 101; 102; 101; 114; 114; 101; 100; 95; 105; 112; 0; 0; 0; 7; 114; 101; 103; 117; 108];
  [97; 114; 0; 0; 0; 4; 255; 255; 255; 255; 0; 0; 0; 4; 105; 110; 101; 116; 0; 0; 0; 6; 115; 121; 115; 116; 101; 109; 0; 0; 0; 5; 112; 101; 101; 114; 115; 0; 0; 0];
  [4; 114; 97; 99; 107; 0; 0; 0; 4; 110; 111; 110; 101; 0; 0; 0; 4; 114; 97; 99; 107; 0; 0; 0; 7; 114; 101; 103; 117; 108; 97; 114; 0; 0; 0; 4; 255; 255; 255; 255];
  [0; 0; 0; 4; 116; 101; 120; 116; 0; 0; 0; 6; 115; 121; 115; 116; 101; 109; 0; 0; 0; 5; 112; 101; 101; 114; 115; 0; 0; 0; 15; 114; 101; 108; 101; 97; 115; 101; 95; 118];
  [101; 114; 115; 105; 111; 110; 0; 0; 0; 4; 110; 111; 110; 101; 0; 0; 0; 15; 114; 101; 108; 101; 97; 115; 101; 95; 118; 101; 114; 115; 105; 111; 110; 0; 0; 0; 7; 114; 101; 103];
  [117; 108; 97; 114; 0; 0; 0; 4; 255; 255; 255; 255; 0; 0; 0; 4; 116; 101; 120; 116; 0; 0; 0; 6; 115; 121; 115; 116; 101; 109; 0; 0; 0; 5; 112; 101; 101; 114; 115; 0];
  [0; 0; 11; 114; 112; 99; 95; 97; 100; 100; 114; 101; 115; 115; 0; 0; 0; 4; 110; 111; 110; 101; 0; 0; 0; 11; 114; 112; 99; 95; 97; 100; 100; 114; 101; 115; 115; 0; 0; 0];
  [7; 114; 101; 103; 117; 108; 97; 114; 0; 0; 0; 4; 255; 255; 255; 255; 0; 0; 0; 4; 105; 110; 101; 116; 0; 0; 0; 6; 115; 121; 115; 116; 101; 109; 0; 0; 0; 5; 112; 101];
  [101; 114; 115; 0; 0; 0; 14; 115; 99; 104; 101; 109; 97; 95; 118; 101; 114; 115; 105; 111; 110; 0; 0; 0; 4; 110; 111; 110; 101; 0; 0; 0; 14; 115; 99; 104; 101; 109; 97; 95];
  [118; 101; 114; 115; 105; 111; 110; 0; 0; 0; 7; 114; 101; 103; 117; 108; 97; 114; 0; 0; 0; 4; 255; 255; 255; 255; 0; 0; 0; 4; 117; 117; 105; 100; 0; 0; 0; 6; 115; 121];
  [115; 116; 101; 109; 0; 0; 0; 5; 112; 101; 101; 114; 115; 0; 0; 0; 6; 116; 111; 107; 101; 110; 115; 0; 0; 0; 4; 110; 111; 110; 101; 0; 0; 0; 6; 116; 111; 107; 101; 110];
  [115; 0; 0; 0; 7; 114; 101; 103; 117; 108; 97; 114; 0; 0; 0; 4; 255; 255; 255; 255; 0; 0; 0; 9; 115; 101; 116; 60; 116; 101; 120; 116; 62; 0; 0; 0; 6; 115; 121; 115];
  [116; 101; 109; 0; 0; 0; 8; 112; 101; 101; 114; 115; 95; 118; 50; 0; 0; 0; 11; 100; 97; 116; 97; 95; 99; 101; 110; 116; 101; 114; 0; 0; 0; 4; 110; 111; 110; 101; 0; 0];
  [0; 11; 100; 97; 116; 97; 95; 99; 101; 110; 116; 101; 114; 0; 0; 0; 7; 114; 101; 103; 117; 108; 97; 114; 0; 0; 0; 4; 255; 255; 255; 255; 0; 0; 0; 4; 116; 101; 120; 116];
  [0; 0; 0; 6; 115; 121; 115; 116; 101; 109; 0; 0; 0; 8; 112; 101; 101; 114; 115; 95; 118; 50; 0; 0; 0; 7; 104; 111; 115; 116; 95; 105; 100; 0; 0; 0; 4; 110; 111; 110];
  [101; 0; 0; 0; 7; 104; 111; 115; 116; 95; 105; 100; 0; 0; 0; 7; 114; 101; 103; 117; 108; 97; 114; 0; 0; 0; 4; 255; 255; 255; 255; 0; 0; 0; 4; 117; 117; 105; 100; 0];
  [0; 0; 6; 115; 121; 115; 116; 101; 109; 0; 0; 0; 8; 112; 101; 101; 114; 115; 95; 118; 50; 0; 0; 0; 14; 110; 97; 116; 105; 118; 101; 95; 97; 100; 100; 114; 101; 115; 115; 0];
  [0; 0; 4; 110; 111; 110; 101; 0; 0; 0; 14; 110; 97; 116; 105; 118; 101; 95; 97; 100; 100; 114; 101; 115; 115; 0; 0; 0; 7; 114; 101; 103; 117; 108; 97; 114; 0; 0; 0; 4];
  [255; 255; 255; 255; 0; 0; 0; 4; 105; 110; 101; 116; 0; 0; 0; 6; 115; 121; 115; 116; 101; 109; 0; 0; 0; 8; 112; 101; 101; 114; 115; 95; 118; 50; 0; 0; 0; 11; 110; 97];
  [116; 105; 118; 101; 95; 112; 111; 114; 116; 0; 0; 0; 4; 110; 111; 110; 101; 0; 0; 0; 11; 110; 97; 116; 105; 118; 101; 95; 112; 111; 114; 116; 0; 0; 0; 7; 114; 101; 103; 117];
  [108; 97; 114; 0; 0; 0; 4; 255; 255; 255; 255; 0; 0; 0; 3; 105; 110; 116; 0; 0; 0; 6; 115; 121; 115; 116; 101; 109; 0; 0; 0; 8; 112; 101; 101; 114; 115; 95; 118; 50];
  [0; 0; 0; 4; 112; 101; 101; 114; 0; 0; 0; 4; 110; 111; 110; 101; 0; 0; 0; 4; 112; 101; 101; 114; 0; 0; 0; 13; 112; 97; 114; 116; 105; 116; 105; 111; 110; 95; 107; 101];
  [121; 0; 0; 0; 4; 0; 0; 0; 0; 0; 0; 0; 4; 105; 110; 101; 116; 0; 0; 0; 6; 115; 121; 115; 116; 101; 109; 0; 0; 0; 8; 112; 101; 101; 114; 115; 95; 118; 50; 0];
  [0; 0; 9; 112; 101; 101; 114; 95; 112; 111; 114; 116; 0; 0; 0; 3; 97; 115; 99; 0; 0; 0; 9; 112; 101; 101; 114; 95; 112; 111; 114; 116; 0; 0; 0; 10; 99; 108; 117; 115];
  [116; 101; 114; 105; 110; 103; 0; 0; 0; 4; 0; 0; 0; 0; 0; 0; 0; 3; 105; 110; 116; 0; 0; 0; 6; 115; 121; 115; 116; 101; 109; 0; 0; 0; 8; 112; 101; 101; 114; 115];
  [95; 118; 50; 0; 0; 0; 12; 112; 114; 101; 102; 101; 114; 114; 101; 100; 95; 105; 112; 0; 0; 0; 4; 110; 111; 110; 101; 0; 0; 0; 12; 112; 114; 101; 102; 101; 114; 114; 101; 100];
  [95; 105; 112; 0; 0; 0; 7; 114; 101; 103; 117; 108; 97; 114; 0; 0; 0; 4; 255; 255; 255; 255; 0; 0; 0; 4; 105; 110; 101; 116; 0; 0; 0; 6; 115; 121; 115; 116; 101; 109];
  [0; 0; 0; 8; 112; 101; 101; 114; 115; 95; 118; 50; 0; 0; 0; 14; 112; 114; 101; 102; 101; 114; 114; 101; 100; 95; 112; 111; 114; 116; 0; 0; 0; 4; 110; 111; 110; 101; 0; 0];
  [0; 14; 112; 114; 101; 102; 101; 114; 114; 101; 100; 95; 112; 111; 114; 116; 0; 0; 0; 7; 114; 101; 103; 117; 108; 97; 114; 0; 0; 0; 4; 255; 255; 255; 255; 0; 0; 0; 3; 105];
  [110; 116; 0; 0; 0; 6; 115; 121; 115; 116; 101; 109; 0; 0; 0; 8; 112; 101; 101; 114; 115; 95; 118; 50; 0; 0; 0; 4; 114; 97; 99; 107; 0; 0; 0; 4; 110; 111; 110; 101];
  [0; 0; 0; 4; 114; 97; 99; 107; 0; 0; 0; 7; 114; 101; 103; 117; 108; 97; 114; 0; 0; 0; 4; 255; 255; 255; 255; 0; 0; 0; 4; 116; 101; 120; 116; 0; 0; 0; 6; 115];
  [121; 115; 116; 101; 109; 0; 0; 0; 8; 112; 101; 101; 114; 115; 95; 118; 50; 0; 0; 0; 15; 114; 101; 108; 101; 97; 115; 101; 95; 118; 101; 114; 115; 105; 111; 110; 0; 0; 0; 4];
  [110; 111; 110; 101; 0; 0; 0; 15; 114; 101; 108; 101; 97; 115; 101; 95; 118; 101; 114; 115; 105; 111; 110; 0; 0; 0; 7; 114; 101; 103; 117; 108; 97; 114; 0; 0; 0; 4; 255; 255];
  [255; 255; 0; 0; 0; 4; 116; 101; 120; 116; 0; 0; 0; 6; 115; 121; 115; 116; 101; 109; 0; 0; 0; 8; 112; 101; 101; 114; 115; 95; 118; 50; 0; 0; 0; 14; 115; 99; 104; 101];
  [109; 97; 95; 118; 101; 114; 115; 105; 111; 110; 0; 0; 0; 4; 110; 111; 110; 101; 0; 0; 0; 14; 115; 99; 104; 101; 109; 97; 95; 118; 101; 114; 115; 105; 111; 110; 0; 0; 0; 7];
  [114; 101; 103; 117; 108; 97; 114; 0; 0; 0; 4; 255; 255; 255; 255; 0; 0; 0; 4; 117; 117; 105; 100; 0; 0; 0; 6; 115; 121; 115; 116; 101; 109; 0; 0; 0; 8; 112; 101; 101];
  [114; 115; 95; 118; 50; 0; 0; 0; 6; 116; 111; 107; 101; 110; 115; 0; 0; 0; 4; 110; 111; 110; 101; 0; 0; 0; 6; 116; 111; 107; 101; 110; 115; 0; 0; 0; 7; 114; 101; 103];
  [117; 108; 97; 114; 0; 0; 0; 4; 255; 255; 255; 255; 0; 0; 0; 9; 115; 101; 116; 60; 116; 101; 120; 116; 62; 0; 0; 0; 6; 115; 121; 115; 116; 101; 109; 0; 0; 0; 19; 112];
  [114; 101; 112; 97; 114; 101; 100; 95; 115; 116; 97; 116; 101; 109; 101; 110; 116; 115; 0; 0; 0; 15; 108; 111; 103; 103; 101; 100; 95; 107; 101; 121; 115; 112; 97; 99; 101; 0; 0; 0];
  [4; 110; 111; 110; 101; 0; 0; 0; 15; 108; 111; 103; 103; 101; 100; 95; 107; 101; 121; 115; 112; 97; 99; 101; 0; 0; 0; 7; 114; 101; 103; 117; 108; 97; 114; 0; 0; 0; 4; 255];
  [255; 255; 255; 0; 0; 0; 4; 116; 101; 120; 116; 0; 0; 0; 6; 115; 121; 115; 116; 101; 109; 0; 0; 0; 19; 112; 114; 101; 112; 97; 114; 101; 100; 95; 115; 116; 97; 116; 101; 109];
  [101; 110; 116; 115; 0; 0; 0; 11; 112; 114; 101; 112; 97; 114; 101; 100; 95; 105; 100; 0; 0; 0; 4; 110; 111; 110; 101; 0; 0; 0; 11; 112; 114; 101; 112; 97; 114; 101; 100; 95];
  [105; 100; 0; 0; 0; 13; 112; 97; 114; 116; 105; 116; 105; 111; 110; 95; 107; 101; 121; 0; 0; 0; 4; 0; 0; 0; 0; 0; 0; 0; 4; 98; 108; 111; 98; 0; 0; 0; 6; 115];
  [121; 115; 116; 101; 109; 0; 0; 0; 19; 112; 114; 101; 112; 97; 114; 101; 100; 95; 115; 116; 97; 116; 101; 109; 101; 110; 116; 115; 0; 0; 0; 12; 113; 117; 101; 114; 121; 95; 115; 116];
  [114; 105; 110; 103; 0; 0; 0; 4; 110; 111; 110; 101; 0; 0; 0; 12; 113; 117; 101; 114; 121; 95; 115; 116; 114; 105; 110; 103; 0; 0; 0; 7; 114; 101; 103; 117; 108; 97; 114; 0];
  [0; 0; 4; 255; 255; 255; 255; 0; 0; 0; 4; 116; 101; 120; 116; 0; 0; 0; 6; 115; 121; 115; 116; 101; 109; 0; 0; 0; 7; 114; 101; 112; 97; 105; 114; 115; 0; 0; 0; 5];
  [99; 102; 105; 100; 115; 0; 0; 0; 4; 110; 111; 110; 101; 0; 0; 0; 5; 99; 102; 105; 100; 115; 0; 0; 0; 7; 114; 101; 103; 117; 108; 97; 114; 0; 0; 0; 4; 255; 255; 255];
  [255; 0; 0; 0; 9; 115; 101; 116; 60; 117; 117; 105; 100; 62; 0; 0; 0; 6; 115; 121; 115; 116; 101; 109; 0; 0; 0; 7; 114; 101; 112; 97; 105; 114; 115; 0; 0; 0; 11; 99];
  [111; 111; 114; 100; 105; 110; 97; 116; 111; 114; 0; 0; 0; 4; 110; 111; 110; 101; 0; 0; 0; 11; 99; 111; 111; 114; 100; 105; 110; 97; 116; 111; 114; 0; 0; 0; 7; 114; 101; 103];
  [117; 108; 97; 114; 0; 0; 0; 4; 255; 255; 255; 255; 0; 0; 0; 4; 105; 110; 101; 116; 0; 0; 0; 6; 115; 121; 115; 116; 101; 109; 0; 0; 0; 7; 114; 101; 112; 97; 105; 114];
  [115; 0; 0; 0; 16; 99; 111; 111; 114; 100; 105; 110; 97; 116; 111; 114; 95; 112; 111; 114; 116; 0; 0; 0; 4; 110; 111; 110; 101; 0; 0; 0; 16; 99; 111; 111; 114; 100; 105; 110];
  [97; 116; 111; 114; 95; 112; 111; 114; 116; 0; 0; 0; 7; 114; 101; 103; 117; 108; 97; 114; 0; 0; 0; 4; 255; 255; 255; 255; 0; 0; 0; 3; 105; 110; 116; 0; 0; 0; 6; 115];
  [121; 115; 116; 101; 109; 0; 0; 0; 7; 114; 101; 112; 97; 105; 114; 115; 0; 0; 0; 11; 108; 97; 115; 116; 95; 117; 112; 100; 97; 116; 101; 0; 0; 0; 4; 110; 111; 110; 101; 0];
  [0; 0; 11; 108; 97; 115; 116; 95; 117; 112; 100; 97; 116; 101; 0; 0; 0; 7; 114; 101; 103; 117; 108; 97; 114; 0; 0; 0; 4; 255; 255; 255; 255; 0; 0; 0; 9; 116; 105; 109];
  [101; 115; 116; 97; 109; 112; 0; 0; 0; 6; 115; 121; 115; 116; 101; 109; 0; 0; 0; 7; 114; 101; 112; 97; 105; 114; 115; 0; 0; 0; 9; 112; 97; 114; 101; 110; 116; 95; 105; 100];
  [0; 0; 0; 4; 110; 111; 110; 101; 0; 0; 0; 9; 112; 97; 114; 101; 110; 116; 95; 105; 100; 0; 0; 0; 13; 112; 97; 114; 116; 105; 116; 105; 111; 110; 95; 107; 101; 121; 0; 0];
  [0; 4; 0; 0; 0; 0; 0; 0; 0; 8; 116; 105; 109; 101; 117; 117; 105; 100; 0; 0; 0; 6; 115; 121; 115; 116; 101; 109; 0; 0; 0; 7; 114; 101; 112; 97; 105; 114; 115; 0];
  [0; 0; 12; 112; 97; 114; 116; 105; 99; 105; 112; 97; 110; 116; 115; 0; 0; 0; 4; 110; 111; 110; 101; 0; 0; 0; 12; 112; 97; 114; 116; 105; 99; 105; 112; 97; 110; 116; 115; 0];
  [0; 0; 7; 114; 101; 103; 117; 108; 97; 114; 0; 0; 0; 4; 255; 255; 255; 255; 0; 0; 0; 9; 115; 101; 116; 60; 105; 110; 101; 116; 62; 0; 0; 0; 6; 115; 121; 115; 116; 101];
  [109; 0; 0; 0; 7; 114; 101; 112; 97; 105; 114; 115; 0; 0; 0; 15; 112; 97; 114; 116; 105; 99; 105; 112; 97; 110; 116; 115; 95; 119; 112; 0; 0; 0; 4; 110; 111; 110; 101; 0];
  [0; 0; 15; 112; 97; 114; 116; 105; 99; 105; 112; 97; 110; 116; 115; 95; 119; 112; 0; 0; 0; 7; 114; 101; 103; 117; 108; 97; 114; 0; 0; 0; 4; 255; 255; 255; 255; 0; 0; 0];
  [9; 115; 101; 116; 60; 116; 101; 120; 116; 62; 0; 0; 0; 6; 115; 121; 115; 116; 101; 109; 0; 0; 0; 7; 114; 101; 112; 97; 105; 114; 115; 0; 0; 0; 6; 114; 97; 110; 103; 101];
  [115; 0; 0; 0; 4; 110; 111; 110; 101; 0; 0; 0; 6; 114; 97; 110; 103; 101; 115; 0; 0; 0; 7; 114; 101; 103; 117; 108; 97; 114; 0; 0; 0; 4; 255; 255; 255; 255; 0; 0];
  [0; 9; 115; 101; 116; 60; 98; 108; 111; 98; 62; 0; 0; 0; 6; 115; 121; 115; 116; 101; 109; 0; 0; 0; 7; 114; 101; 112; 97; 105; 114; 115; 0; 0; 0; 11; 114; 101; 112; 97];
  [105; 114; 101; 100; 95; 97; 116; 0; 0; 0; 4; 110; 111; 110; 101; 0; 0; 0; 11; 114; 101; 112; 97; 105; 114; 101; 100; 95; 97; 116; 0; 0; 0; 7; 114; 101; 103; 117; 108; 97];
  [114; 0; 0; 0; 4; 255; 255; 255; 255; 0; 0; 0; 9; 116; 105; 109; 101; 115; 116; 97; 109; 112; 0; 0; 0; 6; 115; 121; 115; 116; 101; 109; 0; 0; 0; 7; 114; 101; 112; 97];
  [105; 114; 115; 0; 0; 0; 10; 115; 116; 97; 114; 116; 101; 100; 95; 97; 116; 0; 0; 0; 4; 110; 111; 110; 101; 0; 0; 0; 10; 115; 116; 97; 114; 116; 101; 100; 95; 97; 116; 0];
  [0; 0; 7; 114; 101; 103; 117; 108; 97; 114; 0; 0; 0; 4; 255; 255; 255; 255; 0; 0; 0; 9; 116; 105; 109; 101; 115; 116; 97; 109; 112; 0; 0; 0; 6; 115; 121; 115; 116; 101];
  [109; 0; 0; 0; 7; 114; 101; 112; 97; 105; 114; 115; 0; 0; 0; 5; 115; 116; 97; 116; 101; 0; 0; 0; 4; 110; 111; 110; 101; 0; 0; 0; 5; 115; 116; 97; 116; 101; 0; 0];
  [0; 7; 114; 101; 103; 117; 108; 97; 114; 0; 0; 0; 4; 255; 255; 255; 255; 0; 0; 0; 3; 105; 110; 116; 0; 0; 0; 6; 115; 121; 115; 116; 101; 109; 0; 0; 0; 14; 115; 105];
  [122; 101; 95; 101; 115; 116; 105; 109; 97; 116; 101; 115; 0; 0; 0; 13; 107; 101; 121; 115; 112; 97; 99; 101; 95; 110; 97; 109; 101; 0; 0; 0; 4; 110; 111; 110; 101; 0; 0; 0];
  [13; 107; 101; 121; 115; 112; 97; 99; 101; 95; 110; 97; 109; 101; 0; 0; 0; 13; 112; 97; 114; 116; 105; 116; 105; 111; 110; 95; 107; 101; 121; 0; 0; 0; 4; 0; 0; 0; 0; 0];
  [0; 0; 4; 116; 101; 120; 116; 0; 0; 0; 6; 115; 121; 115; 116; 101; 109; 0; 0; 0; 14; 115; 105; 122; 101; 95; 101; 115; 116; 105; 109; 97; 116; 101; 115; 0; 0; 0; 19; 109];
  [101; 97; 110; 95; 112; 97; 114; 116; 105; 116; 105; 111; 110; 95; 115; 105; 122; 101; 0; 0; 0; 4; 110; 111; 110; 101; 0; 0; 0; 19; 109; 101; 97; 110; 95; 112; 97; 114; 116; 105];
  [116; 105; 111; 110; 95; 115; 105; 122; 101; 0; 0; 0; 7; 114; 101; 103; 117; 108; 97; 114; 0; 0; 0; 4; 255; 255; 255; 255; 0; 0; 0; 6; 98; 105; 103; 105; 110; 116; 0; 0];
  [0; 6; 115; 121; 115; 116; 101; 109; 0; 0; 0; 14; 115; 105; 122; 101; 95; 101; 115; 116; 105; 109; 97; 116; 101; 115; 0; 0; 0; 16; 112; 97; 114; 116; 105; 116; 105; 111; 110; 115];
  [95; 99; 111; 117; 110; 116; 0; 0; 0; 4; 110; 111; 110; 101; 0; 0; 0; 16; 112; 97; 114; 116; 105; 116; 105; 111; 110; 115; 95; 99; 111; 117; 110; 116; 0; 0; 0; 7; 114; 101];
  [103; 117; 108; 97; 114; 0; 0; 0; 4; 255; 255; 255; 255; 0; 0; 0; 6; 98; 105; 103; 105; 110; 116; 0; 0; 0; 6; 115; 121; 115; 116; 101; 109; 0; 0; 0; 14; 115; 105; 122];
  [101; 95; 101; 115; 116; 105; 109; 97; 116; 101; 115; 0; 0; 0; 9; 114; 97; 110; 103; 101; 95; 101; 110; 100; 0; 0; 0; 3; 97; 115; 99; 0; 0; 0; 9; 114; 97; 110; 103; 101];
  [95; 101; 110; 100; 0; 0; 0; 10; 99; 108; 117; 115; 116; 101; 114; 105; 110; 103; 0; 0; 0; 4; 0; 0; 0; 2; 0; 0; 0; 4; 116; 101; 120; 116; 0; 0; 0; 6; 115; 121];
  [115; 116; 101; 109; 0; 0; 0; 14; 115; 105; 122; 101; 95; 101; 115; 116; 105; 109; 97; 116; 101; 115; 0; 0; 0; 11; 114; 97; 110; 103; 101; 95; 115; 116; 97; 114; 116; 0; 0; 0];
  [3; 97; 115; 99; 0; 0; 0; 11; 114; 97; 110; 103; 101; 95; 115; 116; 97; 114; 116; 0; 0; 0; 10; 99; 108; 117; 115; 116; 101; 114; 105; 110; 103; 0; 0; 0; 4; 0; 0; 0];
  [1; 0; 0; 0; 4; 116; 101; 120; 116; 0; 0; 0; 6; 115; 121; 115; 116; 101; 109; 0; 0; 0; 14; 115; 105; 122; 101; 95; 101; 115; 116; 105; 109; 97; 116; 101; 115; 0; 0; 0];
  [10; 116; 97; 98; 108; 101; 95; 110; 97; 109; 101; 0; 0; 0; 3; 97; 115; 99; 0; 0; 0; 10; 116; 97; 98; 108; 101; 95; 110; 97; 109; 101; 0; 0; 0; 10; 99; 108; 117; 115];
  [116; 101; 114; 105; 110; 103; 0; 0; 0; 4; 0; 0; 0; 0; 0; 0; 0; 4; 116; 101; 120; 116; 0; 0; 0; 6; 115; 121; 115; 116; 101; 109; 0; 0; 0; 16; 115; 115; 116; 97];
  [98; 108; 101; 95; 97; 99; 116; 105; 118; 105; 116; 121; 0; 0; 0; 17; 99; 111; 108; 117; 109; 110; 102; 97; 109; 105; 108; 121; 95; 110; 97; 109; 101; 0; 0; 0; 4; 110; 111; 110];
  [101; 0; 0; 0; 17; 99; 111; 108; 117; 109; 110; 102; 97; 109; 105; 108; 121; 95; 110; 97; 109; 101; 0; 0; 0; 13; 112; 97; 114; 116; 105; 116; 105; 111; 110; 95; 107; 101; 121; 0];
  [0; 0; 4; 0; 0; 0; 1; 0; 0; 0; 4; 116; 101; 120; 116; 0; 0; 0; 6; 115; 121; 115; 116; 101; 109; 0; 0; 0; 16; 115; 115; 116; 97; 98; 108; 101; 95; 97; 99; 116];
  [105; 118; 105; 116; 121; 0; 0; 0; 10; 103; 101; 110; 101; 114; 97; 116; 105; 111; 110; 0; 0; 0; 4; 110; 111; 110; 101; 0; 0; 0; 10; 103; 101; 110; 101; 114; 97; 116; 105; 111];
  [110; 0; 0; 0; 13; 112; 97; 114; 116; 105; 116; 105; 111; 110; 95; 107; 101; 121; 0; 0; 0; 4; 0; 0; 0; 2; 0; 0; 0; 3; 105; 110; 116; 0; 0; 0; 6; 115; 121; 115];
  [116; 101; 109; 0; 0; 0; 16; 115; 115; 116; 97; 98; 108; 101; 95; 97; 99; 116; 105; 118; 105; 116; 121; 0; 0; 0; 13; 107; 101; 121; 115; 112; 97; 99; 101; 95; 110; 97; 109; 101];
  [0; 0; 0; 4; 110; 111; 110; 101; 0; 0; 0; 13; 107; 101; 121; 115; 112; 97; 99; 101; 95; 110; 97; 109; 101; 0; 0; 0; 13; 112; 97; 114; 116; 105; 116; 105; 111; 110; 95; 107];
  [101; 121; 0; 0; 0; 4; 0; 0; 0; 0; 0; 0; 0; 4; 116; 101; 120; 116; 0; 0; 0; 6; 115; 121; 115; 116; 101; 109; 0; 0; 0; 16; 115; 115; 116; 97; 98; 108; 101; 95];
  [97; 99; 116; 105; 118; 105; 116; 121; 0; 0; 0; 9; 114; 97; 116; 101; 95; 49; 50; 48; 109; 0; 0; 0; 4; 110; 111; 110; 101; 0; 0; 0; 9; 114; 97; 116; 101; 95; 49; 50];
  [48; 109; 0; 0; 0; 7; 114; 101; 103; 117; 108; 97; 114; 0; 0; 0; 4; 255; 255; 255; 255; 0; 0; 0; 6; 100; 111; 117; 98; 108; 101; 0; 0; 0; 6; 115; 121; 115; 116; 101];
  [109; 0; 0; 0; 16; 115; 115; 116; 97; 98; 108; 101; 95; 97; 99; 116; 105; 118; 105; 116; 121; 0; 0; 0; 8; 114; 97; 116; 101; 95; 49; 53; 109; 0; 0; 0; 4; 110; 111; 110];
  [101; 0; 0; 0; 8; 114; 97; 116; 101; 95; 49; 53; 109; 0; 0; 0; 7; 114; 101; 103; 117; 108; 97; 114; 0; 0; 0; 4; 255; 255; 255; 255; 0; 0; 0; 6; 100; 111; 117; 98];
  [108; 101; 0; 0; 0; 6; 115; 121; 115; 116; 101; 109; 0; 0; 0; 15; 116; 97; 98; 108; 101; 95; 101; 115; 116; 105; 109; 97; 116; 101; 115; 0; 0; 0; 13; 107; 101; 121; 115; 112];
  [97; 99; 101; 95; 110; 97; 109; 101; 0; 0; 0; 4; 110; 111; 110; 101; 0; 0; 0; 13; 107; 101; 121; 115; 112; 97; 99; 101; 95; 110; 97; 109; 101; 0; 0; 0; 13; 112; 97; 114];
  [116; 105; 116; 105; 111; 110; 95; 107; 101; 121; 0; 0; 0; 4; 0; 0; 0; 0; 0; 0; 0; 4; 116; 101; 120; 116; 0; 0; 0; 6; 115; 121; 115; 116; 101; 109; 0; 0; 0; 15];
  [116; 97; 98; 108; 101; 95; 101; 115; 116; 105; 109; 97; 116; 101; 115; 0; 0; 0; 19; 109; 101; 97; 110; 95; 112; 97; 114; 116; 105; 116; 105; 111; 110; 95; 115; 105; 122; 101; 0; 0];
  [0; 4; 110; 111; 110; 101; 0; 0; 0; 19; 109; 101; 97; 110; 95; 112; 97; 114; 116; 105; 116; 105; 111; 110; 95; 115; 105; 122; 101; 0; 0; 0; 7; 114; 101; 103; 117; 108; 97; 114];
  [0; 0; 0; 4; 255; 255; 255; 255; 0; 0; 0; 6; 98; 105; 103; 105; 110; 116; 0; 0; 0; 6; 115; 121; 115; 116; 101; 109; 0; 0; 0; 15; 116; 97; 98; 108; 101; 95; 101; 115];
  [116; 105; 109; 97; 116; 101; 115; 0; 0; 0; 16; 112; 97; 114; 116; 105; 116; 105; 111; 110; 115; 95; 99; 111; 117; 110; 116; 0; 0; 0; 4; 110; 111; 110; 101; 0; 0; 0; 16; 112];
  [97; 114; 116; 105; 116; 105; 111; 110; 115; 95; 99; 111; 117; 110; 116; 0; 0; 0; 7; 114; 101; 103; 117; 108; 97; 114; 0; 0; 0; 4; 255; 255; 255; 255; 0; 0; 0; 6; 98; 105];
  [103; 105; 110; 116; 0; 0; 0; 6; 115; 121; 115; 116; 101; 109; 0; 0; 0; 15; 116; 97; 98; 108; 101; 95; 101; 115; 116; 105; 109; 97; 116; 101; 115; 0; 0; 0; 9; 114; 97; 110];
  [103; 101; 95; 101; 110; 100; 0; 0; 0; 3; 97; 115; 99; 0; 0; 0; 9; 114; 97; 110; 103; 101; 95; 101; 110; 100; 0; 0; 0; 10; 99; 108; 117; 115; 116; 101; 114; 105; 110; 103];
  [0; 0; 0; 4; 0; 0; 0; 3; 0; 0; 0; 4; 116; 101; 120; 116; 0; 0; 0; 6; 115; 121; 115; 116; 101; 109; 0; 0; 0; 15; 116; 97; 98; 108; 101; 95; 101; 115; 116; 105];
  [109; 97; 116; 101; 115; 0; 0; 0; 11; 114; 97; 110; 103; 101; 95; 115; 116; 97; 114; 116; 0; 0; 0; 3; 97; 115; 99; 0; 0; 0; 11; 114; 97; 110; 103; 101; 95; 115; 116; 97];
  [114; 116; 0; 0; 0; 10; 99; 108; 117; 115; 116; 101; 114; 105; 110; 103; 0; 0; 0; 4; 0; 0; 0; 2; 0; 0; 0; 4; 116; 101; 120; 116; 0; 0; 0; 6; 115; 121; 115; 116];
  [101; 109; 0; 0; 0; 15; 116; 97; 98; 108; 101; 95; 101; 115; 116; 105; 109; 97; 116; 101; 115; 0; 0; 0; 10; 114; 97; 110; 103; 101; 95; 116; 121; 112; 101; 0; 0; 0; 3; 97];
  [115; 99; 0; 0; 0; 10; 114; 97; 110; 103; 101; 95; 116; 121; 112; 101; 0; 0; 0; 10; 99; 108; 117; 115; 116; 101; 114; 105; 110; 103; 0; 0; 0; 4; 0; 0; 0; 1; 0; 0];
  [0; 4; 116; 101; 120; 116; 0; 0; 0; 6; 115; 121; 115; 116; 101; 109; 0; 0; 0; 15; 116; 97; 98; 108; 101; 95; 101; 115; 116; 105; 109; 97; 116; 101; 115; 0; 0; 0; 10; 116];
  [97; 98; 108; 101; 95; 110; 97; 109; 101; 0; 0; 0; 3; 97; 115; 99; 0; 0; 0; 10; 116; 97; 98; 108; 101; 95; 110; 97; 109; 101; 0; 0; 0; 10; 99; 108; 117; 115; 116; 101];
  [114; 105; 110; 103; 0; 0; 0; 4; 0; 0; 0; 0; 0; 0; 0; 4; 116; 101; 120; 116; 0; 0; 0; 6; 115; 121; 115; 116; 101; 109; 0; 0; 0; 18; 116; 114; 97; 110; 115; 102];
  [101; 114; 114; 101; 100; 95; 114; 97; 110; 103; 101; 115; 0; 0; 0; 13; 107; 101; 121; 115; 112; 97; 99; 101; 95; 110; 97; 109; 101; 0; 0; 0; 4; 110; 111; 110; 101; 0; 0; 0];
  [13; 107; 101; 121; 115; 112; 97; 99; 101; 95; 110; 97; 109; 101; 0; 0; 0; 13; 112; 97; 114; 116; 105; 116; 105; 111; 110; 95; 107; 101; 121; 0; 0; 0; 4; 0; 0; 0; 1; 0];
  [0; 0; 4; 116; 101; 120; 116; 0; 0; 0; 6; 115; 121; 115; 116; 101; 109; 0; 0; 0; 18; 116; 114; 97; 110; 115; 102; 101; 114; 114; 101; 100; 95; 114; 97; 110; 103; 101; 115; 0];
  [0; 0; 9; 111; 112; 101; 114; 97; 116; 105; 111; 110; 0; 0; 0; 4; 110; 111; 110; 101; 0; 0; 0; 9; 111; 112; 101; 114; 97; 116; 105; 111; 110; 0; 0; 0; 13; 112; 97; 114];
  [116; 105; 116; 105; 111; 110; 95; 107; 101; 121; 0; 0; 0; 4; 0; 0; 0; 0; 0; 0; 0; 4; 116; 101; 120; 116; 0; 0; 0; 6; 115; 121; 115; 116; 101; 109; 0; 0; 0; 18];
  [116; 114; 97; 110; 115; 102; 101; 114; 114; 101; 100; 95; 114; 97; 110; 103; 101; 115; 0; 0; 0; 4; 112; 101; 101; 114; 0; 0; 0; 3; 97; 115; 99; 0; 0; 0; 4; 112; 101; 101];
  [114; 0; 0; 0; 10; 99; 108; 117; 115; 116; 101; 114; 105; 110; 103; 0; 0; 0; 4; 0; 0; 0; 0; 0; 0; 0; 4; 105; 110; 101; 116; 0; 0; 0; 6; 115; 121; 115; 116; 101];
  [109; 0; 0; 0; 18; 116; 114; 97; 110; 115; 102; 101; 114; 114; 101; 100; 95; 114; 97; 110; 103; 101; 115; 0; 0; 0; 6; 114; 97; 110; 103; 101; 115; 0; 0; 0; 4; 110; 111; 110];
  [101; 0; 0; 0; 6; 114; 97; 110; 103; 101; 115; 0; 0; 0; 7; 114; 101; 103; 117; 108; 97; 114; 0; 0; 0; 4; 255; 255; 255; 255; 0; 0; 0; 9; 115; 101; 116; 60; 98; 108];
  [111; 98; 62; 0; 0; 0; 6; 115; 121; 115; 116; 101; 109; 0; 0; 0; 21; 116; 114; 97; 110; 115; 102; 101; 114; 114; 101; 100; 95; 114; 97; 110; 103; 101; 115; 95; 118; 50; 0; 0];
  [0; 13; 107; 101; 121; 115; 112; 97; 99; 101; 95; 110; 97; 109; 101; 0; 0; 0; 4; 110; 111; 110; 101; 0; 0; 0; 13; 107; 101; 121; 115; 112; 97; 99; 101; 95; 110; 97; 109; 101];
  [0; 0; 0; 13; 112; 97; 114; 116; 105; 116; 105; 111; 110; 95; 107; 101; 121; 0; 0; 0; 4; 0; 0; 0; 1; 0; 0; 0; 4; 116; 101; 120; 116; 0; 0; 0; 6; 115; 121; 115];
  [116; 101; 109; 0; 0; 0; 21; 116; 114; 97; 110; 115; 102; 101; 114; 114; 101; 100; 95; 114; 97; 110; 103; 101; 115; 95; 118; 50; 0; 0; 0; 9; 111; 112; 101; 114; 97; 116; 105; 111];
  [110; 0; 0; 0; 4; 110; 111; 110; 101; 0; 0; 0; 9; 111; 112; 101; 114; 97; 116; 105; 111; 110; 0; 0; 0; 13; 112; 97; 114; 116; 105; 116; 105; 111; 110; 95; 107; 101; 121; 0];
  [0; 0; 4; 0; 0; 0; 0; 0; 0; 0; 4; 116; 101; 120; 116; 0; 0; 0; 6; 115; 121; 115; 116; 101; 109; 0; 0; 0; 21; 116; 114; 97; 110; 115; 102; 101; 114; 114; 101; 100];
  [95; 114; 97; 110; 103; 101; 115; 95; 118; 50; 0; 0; 0; 4; 112; 101; 101; 114; 0; 0; 0; 3; 97; 115; 99; 0; 0; 0; 4; 112; 101; 101; 114; 0; 0; 0; 10; 99; 108; 117];
  [115; 116; 101; 114; 105; 110; 103; 0; 0; 0; 4; 0; 0; 0; 0; 0; 0; 0; 4; 105; 110; 101; 116; 0; 0; 0; 6; 115; 121; 115; 116; 101; 109; 0; 0; 0; 21; 116; 114; 97];
  [110; 115; 102; 101; 114; 114; 101; 100; 95; 114; 97; 110; 103; 101; 115; 95; 118; 50; 0; 0; 0; 9; 112; 101; 101; 114; 95; 112; 111; 114; 116; 0; 0; 0; 3; 97; 115; 99; 0; 0];
  [0; 9; 112; 101; 101; 114; 95; 112; 111; 114; 116; 0; 0; 0; 10; 99; 108; 117; 115; 116; 101; 114; 105; 110; 103; 0; 0; 0; 4; 0; 0; 0; 1; 0; 0; 0; 3; 105; 110; 116];
  [0; 0; 0; 6; 115; 121; 115; 116; 101; 109; 0; 0; 0; 21; 116; 114; 97; 110; 115; 102; 101; 114; 114; 101; 100; 95; 114; 97; 110; 103; 101; 115; 95; 118; 50; 0; 0; 0; 6; 114];
  [97; 110; 103; 101; 115; 0; 0; 0; 4; 110; 111; 110; 101; 0; 0; 0; 6; 114; 97; 110; 103; 101; 115; 0; 0; 0; 7; 114; 101; 103; 117; 108; 97; 114; 0; 0; 0; 4; 255; 255];
  [255; 255; 0; 0; 0; 9; 115; 101; 116; 60; 98; 108; 111; 98; 62; 0; 0; 0; 6; 115; 121; 115; 116; 101; 109; 0; 0; 0; 23; 118; 105; 101; 119; 95; 98; 117; 105; 108; 100; 115];
  [95; 105; 110; 95; 112; 114; 111; 103; 114; 101; 115; 115; 0; 0; 0; 9; 101; 110; 100; 95; 116; 111; 107; 101; 110; 0; 0; 0; 3; 97; 115; 99; 0; 0; 0; 9; 101; 110; 100; 95];
  [116; 111; 107; 101; 110; 0; 0; 0; 10; 99; 108; 117; 115; 116; 101; 114; 105; 110; 103; 0; 0; 0; 4; 0; 0; 0; 2; 0; 0; 0; 4; 116; 101; 120; 116; 0; 0; 0; 6; 115];
  [121; 115; 116; 101; 109; 0; 0; 0; 23; 118; 105; 101; 119; 95; 98; 117; 105; 108; 100; 115; 95; 105; 110; 95; 112; 114; 111; 103; 114; 101; 115; 115; 0; 0; 0; 10; 107; 101; 121; 115];
  [95; 98; 117; 105; 108; 116; 0; 0; 0; 4; 110; 111; 110; 101; 0; 0; 0; 10; 107; 101; 121; 115; 95; 98; 117; 105; 108; 116; 0; 0; 0; 7; 114; 101; 103; 117; 108; 97; 114; 0];
  [0; 0; 4; 255; 255; 255; 255; 0; 0; 0; 6; 98; 105; 103; 105; 110; 116; 0; 0; 0; 6; 115; 121; 115; 116; 101; 109; 0; 0; 0; 23; 118; 105; 101; 119; 95; 98; 117; 105; 108];
  [100; 115; 95; 105; 110; 95; 112; 114; 111; 103; 114; 101; 115; 115; 0; 0; 0; 13; 107; 101; 121; 115; 112; 97; 99; 101; 95; 110; 97; 109; 101; 0; 0; 0; 4; 110; 111; 110; 101; 0];
  [0; 0; 13; 107; 101; 121; 115; 112; 97; 99; 101; 95; 110; 97; 109; 101; 0; 0; 0; 13; 112; 97; 114; 116; 105; 116; 105; 111; 110; 95; 107; 101; 121; 0; 0; 0; 4; 0; 0; 0];
  [0; 0; 0; 0; 4; 116; 101; 120; 116; 0; 0; 0; 6; 115; 121; 115; 116; 101; 109; 0; 0; 0; 23; 118; 105; 101; 119; 95; 98; 117; 105; 108; 100; 115; 95; 105; 110; 95; 112; 114];
  [111; 103; 114; 101; 115; 115; 0; 0; 0; 10; 108; 97; 115; 116; 95; 116; 111; 107; 101; 110; 0; 0; 0; 4; 110; 111; 110; 101; 0; 0; 0; 10; 108; 97; 115; 116; 95; 116; 111; 107];
  [101; 110; 0; 0; 0; 7; 114; 101; 103; 117; 108; 97; 114; 0; 0; 0; 4; 255; 255; 255; 255; 0; 0; 0; 4; 116; 101; 120; 116; 0; 0; 0; 6; 115; 121; 115; 116; 101; 109; 0];
  [0; 0; 23; 118; 105; 101; 119; 95; 98; 117; 105; 108; 100; 115; 95; 105; 110; 95; 112; 114; 111; 103; 114; 101; 115; 115; 0; 0; 0; 11; 115; 116; 97; 114; 116; 95; 116; 111; 107; 101];
  [110; 0; 0; 0; 3; 97; 115; 99; 0; 0; 0; 11; 115; 116; 97; 114; 116; 95; 116; 111; 107; 101; 110; 0; 0; 0; 10; 99; 108; 117; 115; 116; 101; 114; 105; 110; 103; 0; 0; 0];
  [4; 0; 0; 0; 1; 0; 0; 0; 4; 116; 101; 120; 116; 0; 0; 0; 6; 115; 121; 115; 116; 101; 109; 0; 0; 0; 23; 118; 105; 101; 119; 95; 98; 117; 105; 108; 100; 115; 95; 105];
  [110; 95; 112; 114; 111; 103; 114; 101; 115; 115; 0; 0; 0; 9; 118; 105; 101; 119; 95; 110; 97; 109; 101; 0; 0; 0; 3; 97; 115; 99; 0; 0; 0; 9; 118; 105; 101; 119; 95; 110];
  [97; 109; 101; 0; 0; 0; 10; 99; 108; 117; 115; 116; 101; 114; 105; 110; 103; 0; 0; 0; 4; 0; 0; 0; 0; 0; 0; 0; 4; 116; 101; 120; 116; 0; 0; 0; 13; 115; 121; 115];
  [116; 101; 109; 95; 116; 114; 97; 99; 101; 115; 0; 0; 0; 6; 101; 118; 101; 110; 116; 115; 0; 0; 0; 8; 97; 99; 116; 105; 118; 105; 116; 121; 0; 0; 0; 4; 110; 111; 110; 101];
  [0; 0; 0; 8; 97; 99; 116; 105; 118; 105; 116; 121; 0; 0; 0; 7; 114; 101; 103; 117; 108; 97; 114; 0; 0; 0; 4; 255; 255; 255; 255; 0; 0; 0; 4; 116; 101; 120; 116; 0];
  [0; 0; 13; 115; 121; 115; 116; 101; 109; 95; 116; 114; 97; 99; 101; 115; 0; 0; 0; 6; 101; 118; 101; 110; 116; 115; 0; 0; 0; 8; 101; 118; 101; 110; 116; 95; 105; 100; 0; 0];
  [0; 3; 97; 115; 99; 0; 0; 0; 8; 101; 118; 101; 110; 116; 95; 105; 100; 0; 0; 0; 10; 99; 108; 117; 115; 116; 101; 114; 105; 110; 103; 0; 0; 0; 4; 0; 0; 0; 0; 0];
  [0; 0; 8; 116; 105; 109; 101; 117; 117; 105; 100; 0; 0; 0; 13; 115; 121; 115; 116; 101; 109; 95; 116; 114; 97; 99; 101; 115; 0; 0; 0; 6; 101; 118; 101; 110; 116; 115; 0; 0];
  [0; 10; 115; 101; 115; 115; 105; 111; 110; 95; 105; 100; 0; 0; 0; 4; 110; 111; 110; 101; 0; 0; 0; 10; 115; 101; 115; 115; 105; 111; 110; 95; 105; 100; 0; 0; 0; 13; 112; 97];
  [114; 116; 105; 116; 105; 111; 110; 95; 107; 101; 121; 0; 0; 0; 4; 0; 0; 0; 0; 0; 0; 0; 4; 117; 117; 105; 100; 0; 0; 0; 13; 115; 121; 115; 116; 101; 109; 95; 116; 114];
  [97; 99; 101; 115; 0; 0; 0; 6; 101; 118; 101; 110; 116; 115; 0; 0; 0; 6; 115; 111; 117; 114; 99; 101; 0; 0; 0; 4; 110; 111; 110; 101; 0; 0; 0; 6; 115; 111; 117; 114];
  [99; 101; 0; 0; 0; 7; 114; 101; 103; 117; 108; 97; 114; 0; 0; 0; 4; 255; 255; 255; 255; 0; 0; 0; 4; 105; 110; 101; 116; 0; 0; 0; 13; 115; 121; 115; 116; 101; 109; 95];
  [116; 114; 97; 99; 101; 115; 0; 0; 0; 6; 101; 118; 101; 110; 116; 115; 0; 0; 0; 14; 115; 111; 117; 114; 99; 101; 95; 101; 108; 97; 112; 115; 101; 100; 0; 0; 0; 4; 110; 111];
  [110; 101; 0; 0; 0; 14; 115; 111; 117; 114; 99; 101; 95; 101; 108; 97; 112; 115; 101; 100; 0; 0; 0; 7; 114; 101; 103; 117; 108; 97; 114; 0; 0; 0; 4; 255; 255; 255; 255; 0];
  [0; 0; 3; 105; 110; 116; 0; 0; 0; 13; 115; 121; 115; 116; 101; 109; 95; 116; 114; 97; 99; 101; 115; 0; 0; 0; 6; 101; 118; 101; 110; 116; 115; 0; 0; 0; 11; 115; 111; 117];
  [114; 99; 101; 95; 112; 111; 114; 116; 0; 0; 0; 4; 110; 111; 110; 101; 0; 0; 0; 11; 115; 111; 117; 114; 99; 101; 95; 112; 111; 114; 116; 0; 0; 0; 7; 114; 101; 103; 117; 108];
  [97; 114; 0; 0; 0; 4; 255; 255; 255; 255; 0; 0; 0; 3; 105; 110; 116; 0; 0; 0; 13; 115; 121; 115; 116; 101; 109; 95; 116; 114; 97; 99; 101; 115; 0; 0; 0; 6; 101; 118];
  [101; 110; 116; 115; 0; 0; 0; 6; 116; 104; 114; 101; 97; 100; 0; 0; 0; 4; 110; 111; 110; 101; 0; 0; 0; 6; 116; 104; 114; 101; 97; 100; 0; 0; 0; 7; 114; 101; 103; 117];
  [108; 97; 114; 0; 0; 0; 4; 255; 255; 255; 255; 0; 0; 0; 4; 116; 101; 120; 116; 0; 0; 0; 13; 115; 121; 115; 116; 101; 109; 95; 116; 114; 97; 99; 101; 115; 0; 0; 0; 8];
  [115; 101; 115; 115; 105; 111; 110; 115; 0; 0; 0; 6; 99; 108; 105; 101; 110; 116; 0; 0; 0; 4; 110; 111; 110; 101; 0; 0; 0; 6; 99; 108; 105; 101; 110; 116; 0; 0; 0; 7];
  [114; 101; 103; 117; 108; 97; 114; 0; 0; 0; 4; 255; 255; 255; 255; 0; 0; 0; 4; 105; 110; 101; 116; 0; 0; 0; 13; 115; 121; 115; 116; 101; 109; 95; 116; 114; 97; 99; 101; 115];
  [0; 0; 0; 8; 115; 101; 115; 115; 105; 111; 110; 115; 0; 0; 0; 7; 99; 111; 109; 109; 97; 110; 100; 0; 0; 0; 4; 110; 111; 110; 101; 0; 0; 0; 7; 99; 111; 109; 109; 97];
  [110; 100; 0; 0; 0; 7; 114; 101; 103; 117; 108; 97; 114; 0; 0; 0; 4; 255; 255; 255; 255; 0; 0; 0; 4; 116; 101; 120; 116; 0; 0; 0; 13; 115; 121; 115; 116; 101; 109; 95];
  [116; 114; 97; 99; 101; 115; 0; 0; 0; 8; 115; 101; 115; 115; 105; 111; 110; 115; 0; 0; 0; 11; 99; 111; 111; 114; 100; 105; 110; 97; 116; 111; 114; 0; 0; 0; 4; 110; 111; 110];
  [101; 0; 0; 0; 11; 99; 111; 111; 114; 100; 105; 110; 97; 116; 111; 114; 0; 0; 0; 7; 114; 101; 103; 117; 108; 97; 114; 0; 0; 0; 4; 255; 255; 255; 255; 0; 0; 0; 4; 105];
  [110; 101; 116; 0; 0; 0; 13; 115; 121; 115; 116; 101; 109; 95; 116; 114; 97; 99; 101; 115; 0; 0; 0; 8; 115; 101; 115; 115; 105; 111; 110; 115; 0; 0; 0; 16; 99; 111; 111; 114];
  [100; 105; 110; 97; 116; 111; 114; 95; 112; 111; 114; 116; 0; 0; 0; 4; 110; 111; 110; 101; 0; 0; 0; 16; 99; 111; 111; 114; 100; 105; 110; 97; 116; 111; 114; 95; 112; 111; 114; 116];
  [0; 0; 0; 7; 114; 101; 103; 117; 108; 97; 114; 0; 0; 0; 4; 255; 255; 255; 255; 0; 0; 0; 3; 105; 110; 116; 0; 0; 0; 13; 115; 121; 115; 116; 101; 109; 95; 116; 114; 97];
  [99; 101; 115; 0; 0; 0; 8; 115; 101; 115; 115; 105; 111; 110; 115; 0; 0; 0; 8; 100; 117; 114; 97; 116; 105; 111; 110; 0; 0; 0; 4; 110; 111; 110; 101; 0; 0; 0; 8; 100];
  [117; 114; 97; 116; 105; 111; 110; 0; 0; 0; 7; 114; 101; 103; 117; 108; 97; 114; 0; 0; 0; 4; 255; 255; 255; 255; 0; 0; 0; 3; 105; 110; 116; 0; 0; 0; 13; 115; 121; 115];
  [116; 101; 109; 95; 116; 114; 97; 99; 101; 115; 0; 0; 0; 8; 115; 101; 115; 115; 105; 111; 110; 115; 0; 0; 0; 10; 112; 97; 114; 97; 109; 101; 116; 101; 114; 115; 0; 0; 0; 4];
  [110; 111; 110; 101; 0; 0; 0; 10; 112; 97; 114; 97; 109; 101; 116; 101; 114; 115; 0; 0; 0; 7; 114; 101; 103; 117; 108; 97; 114; 0; 0; 0; 4; 255; 255; 255; 255; 0; 0; 0];
  [15; 109; 97; 112; 60; 116; 101; 120; 116; 44; 32; 116; 101; 120; 116; 62; 0; 0; 0; 13; 115; 121; 115; 116; 101; 109; 95; 116; 114; 97; 99; 101; 115; 0; 0; 0; 8; 115; 101; 115];
  [115; 105; 111; 110; 115; 0; 0; 0; 7; 114; 101; 113; 117; 101; 115; 116; 0; 0; 0; 4; 110; 111; 110; 101; 0; 0; 0; 7; 114; 101; 113; 117; 101; 115; 116; 0; 0; 0; 7; 114];
  [101; 103; 117; 108; 97; 114; 0; 0; 0; 4; 255; 255; 255; 255; 0; 0; 0; 4; 116; 101; 120; 116; 0; 0; 0; 13; 115; 121; 115; 116; 101; 109; 95; 116; 114; 97; 99; 101; 115; 0];
  [0; 0; 8; 115; 101; 115; 115; 105; 111; 110; 115; 0; 0; 0; 10; 115; 101; 115; 115; 105; 111; 110; 95; 105; 100; 0; 0; 0; 4; 110; 111; 110; 101; 0; 0; 0; 10; 115; 101; 115];
  [115; 105; 111; 110; 95; 105; 100; 0; 0; 0; 13; 112; 97; 114; 116; 105; 116; 105; 111; 110; 95; 107; 101; 121; 0; 0; 0; 4; 0; 0; 0; 0; 0; 0; 0; 4; 117; 117; 105; 100];
  [0; 0; 0; 13; 115; 121; 115; 116; 101; 109; 95; 116; 114; 97; 99; 101; 115; 0; 0; 0; 8; 115; 101; 115; 115; 105; 111; 110; 115; 0; 0; 0; 10; 115; 116; 97; 114; 116; 101; 100];
  [95; 97; 116; 0; 0; 0; 4; 110; 111; 110; 101; 0; 0; 0; 10; 115; 116; 97; 114; 116; 101; 100; 95; 97; 116; 0; 0; 0; 7; 114; 101; 103; 117; 108; 97; 114; 0; 0; 0; 4];
  [255; 255; 255; 255; 0; 0; 0; 9; 116; 105; 109; 101; 115; 116; 97; 109; 112]].

(** The rows of [system_virtual_schema.tables]. *)
Definition v_tables_meta : list Z := concat [
  [0; 0; 4; 96; 0; 0; 0; 2; 0; 0; 0; 1; 0; 0; 0; 3; 0; 21; 115; 121; 115; 116; 101; 109; 95; 118; 105; 114; 116; 117; 97; 108; 95; 115; 99; 104; 101; 109; 97; 0];
  [6; 116; 97; 98; 108; 101; 115; 0; 13; 107; 101; 121; 115; 112; 97; 99; 101; 95; 110; 97; 109; 101; 0; 13; 0; 10; 116; 97; 98; 108; 101; 95; 110; 97; 109; 101; 0; 13; 0; 7];
  [99; 111; 109; 109; 101; 110; 116; 0; 13; 0; 0; 0; 21; 0; 0; 0; 12; 115; 121; 115; 116; 101; 109; 95; 118; 105; 101; 119; 115; 0; 0; 0; 6; 99; 97; 99; 104; 101; 115; 0];
  [0; 0; 13; 115; 121; 115; 116; 101; 109; 32; 99; 97; 99; 104; 101; 115; 0; 0; 0; 12; 115; 121; 115; 116; 101; 109; 95; 118; 105; 101; 119; 115; 0; 0; 0; 7; 99; 108; 105; 101];
  [110; 116; 115; 0; 0; 0; 27; 99; 117; 114; 114; 101; 110; 116; 108; 121; 32; 99; 111; 110; 110; 101; 99; 116; 101; 100; 32; 99; 108; 105; 101; 110; 116; 115; 0; 0; 0; 12; 115; 121];
  [115; 116; 101; 109; 95; 118; 105; 101; 119; 115; 0; 0; 0; 24; 99; 111; 111; 114; 100; 105; 110; 97; 116; 111; 114; 95; 114; 101; 97; 100; 95; 108; 97; 116; 101; 110; 99; 121; 0; 0];
  [0; 0; 0; 0; 0; 12; 115; 121; 115; 116; 101; 109; 95; 118; 105; 101; 119; 115; 0; 0; 0; 24; 99; 111; 111; 114; 100; 105; 110; 97; 116; 111; 114; 95; 115; 99; 97; 110; 95; 108];
  [97; 116; 101; 110; 99; 121; 0; 0; 0; 0; 0; 0; 0; 12; 115; 121; 115; 116; 101; 109; 95; 118; 105; 101; 119; 115; 0; 0; 0; 25; 99; 111; 111; 114; 100; 105; 110; 97; 116; 111];
  [114; 95; 119; 114; 105; 116; 101; 95; 108; 97; 116; 101; 110; 99; 121; 0; 0; 0; 0; 0; 0; 0; 12; 115; 121; 115; 116; 101; 109; 95; 118; 105; 101; 119; 115; 0; 0; 0; 10; 100];
  [105; 115; 107; 95; 117; 115; 97; 103; 101; 0; 0; 0; 0; 0; 0; 0; 12; 115; 121; 115; 116; 101; 109; 95; 118; 105; 101; 119; 115; 0; 0; 0; 17; 105; 110; 116; 101; 114; 110; 111];
  [100; 101; 95; 105; 110; 98; 111; 117; 110; 100; 0; 0; 0; 0; 0; 0; 0; 12; 115; 121; 115; 116; 101; 109; 95; 118; 105; 101; 119; 115; 0; 0; 0; 18; 105; 110; 116; 101; 114; 110];
  [111; 100; 101; 95; 111; 117; 116; 98; 111; 117; 110; 100; 0; 0; 0; 0; 0; 0; 0; 12; 115; 121; 115; 116; 101; 109; 95; 118; 105; 101; 119; 115; 0; 0; 0; 18; 108; 111; 99; 97];
  [108; 95; 114; 101; 97; 100; 95; 108; 97; 116; 101; 110; 99; 121; 0; 0; 0; 0; 0; 0; 0; 12; 115; 121; 115; 116; 101; 109; 95; 118; 105; 101; 119; 115; 0; 0; 0; 18; 108; 111];
  [99; 97; 108; 95; 115; 99; 97; 110; 95; 108; 97; 116; 101; 110; 99; 121; 0; 0; 0; 0; 0; 0; 0; 12; 115; 121; 115; 116; 101; 109; 95; 118; 105; 101; 119; 115; 0; 0; 0; 19];
  [108; 111; 99; 97; 108; 95; 119; 114; 105; 116; 101; 95; 108; 97; 116; 101; 110; 99; 121; 0; 0; 0; 0; 0; 0; 0; 12; 115; 121; 115; 116; 101; 109; 95; 118; 105; 101; 119; 115; 0];
  [0; 0; 18; 109; 97; 120; 95; 112; 97; 114; 116; 105; 116; 105; 111; 110; 95; 115; 105; 122; 101; 0; 0; 0; 0; 0; 0; 0; 12; 115; 121; 115; 116; 101; 109; 95; 118; 105; 101; 119];
  [115; 0; 0; 0; 13; 114; 111; 119; 115; 95; 112; 101; 114; 95; 114; 101; 97; 100; 0; 0; 0; 0; 0; 0; 0; 12; 115; 121; 115; 116; 101; 109; 95; 118; 105; 101; 119; 115; 0; 0];
  [0; 8; 115; 101; 116; 116; 105; 110; 103; 115; 0; 0; 0; 16; 99; 117; 114; 114; 101; 110; 116; 32; 115; 101; 116; 116; 105; 110; 103; 115; 0; 0; 0; 12; 115; 121; 115; 116; 101; 109];
  [95; 118; 105; 101; 119; 115; 0; 0; 0; 13; 115; 115; 116; 97; 98; 108; 101; 95; 116; 97; 115; 107; 115; 0; 0; 0; 21; 99; 117; 114; 114; 101; 110; 116; 32; 115; 115; 116; 97; 98];
  [108; 101; 32; 116; 97; 115; 107; 115; 0; 0; 0; 12; 115; 121; 115; 116; 101; 109; 95; 118; 105; 101; 119; 115; 0; 0; 0; 17; 115; 121; 115; 116; 101; 109; 95; 112; 114; 111; 112; 101];
  [114; 116; 105; 101; 115; 0; 0; 0; 36; 67; 97; 115; 115; 97; 110; 100; 114; 97; 32; 114; 101; 108; 101; 118; 97; 110; 116; 32; 115; 121; 115; 116; 101; 109; 32; 112; 114; 111; 112; 101];
  [114; 116; 105; 101; 115; 0; 0; 0; 12; 115; 121; 115; 116; 101; 109; 95; 118; 105; 101; 119; 115; 0; 0; 0; 12; 116; 104; 114; 101; 97; 100; 95; 112; 111; 111; 108; 115; 0; 0; 0];
  [0; 0; 0; 0; 12; 115; 121; 115; 116; 101; 109; 95; 118; 105; 101; 119; 115; 0; 0; 0; 19; 116; 111; 109; 98; 115; 116; 111; 110; 101; 115; 95; 112; 101; 114; 95; 114; 101; 97; 100];
  [0; 0; 0; 0; 0; 0; 0; 21; 115; 121; 115; 116; 101; 109; 95; 118; 105; 114; 116; 117; 97; 108; 95; 115; 99; 104; 101; 109; 97; 0; 0; 0; 7; 99; 111; 108; 117; 109; 110; 115];
  [0; 0; 0; 26; 118; 105; 114; 116; 117; 97; 108; 32; 99; 111; 108; 117; 109; 110; 32; 100; 101; 102; 105; 110; 105; 116; 105; 111; 110; 115; 0; 0; 0; 21; 115; 121; 115; 116; 101; 109];
  [95; 118; 105; 114; 116; 117; 97; 108; 95; 115; 99; 104; 101; 109; 97; 0; 0; 0; 9; 107; 101; 121; 115; 112; 97; 99; 101; 115; 0; 0; 0; 28; 118; 105; 114; 116; 117; 97; 108; 32];
  [107; 101; 121; 115; 112; 97; 99; 101; 32; 100; 101; 102; 105; 110; 105; 116; 105; 111; 110; 115; 0; 0; 0; 21; 115; 121; 115; 116; 101; 109; 95; 118; 105; 114; 116; 117; 97; 108; 95; 115];
  [99; 104; 101; 109; 97; 0; 0; 0; 6; 116; 97; 98; 108; 101; 115; 0; 0; 0; 25; 118; 105; 114; 116; 117; 97; 108; 32; 116; 97; 98; 108; 101; 32; 100; 101; 102; 105; 110; 105; 116];
  [105; 111; 110; 115]].

(** The rows of [system_virtual_schema.columns]. *)
Definition v_columns_meta : list Z := concat [
  [0; 0; 61; 13; 0; 0; 0; 2; 0; 0; 0; 1; 0; 0; 0; 8; 0; 21; 115; 121; 115; 116; 101; 109; 95; 118; 105; 114; 116; 117; 97; 108; 95; 115; 99; 104; 101; 109; 97; 0];
  [7; 99; 111; 108; 117; 109; 110; 115; 0; 13; 107; 101; 121; 115; 112; 97; 99; 101; 95; 110; 97; 109; 101; 0; 13; 0; 10; 116; 97; 98; 108; 101; 95; 110; 97; 109; 101; 0; 13; 0];
  [11; 99; 111; 108; 117; 109; 110; 95; 110; 97; 109; 101; 0; 13; 0; 16; 99; 108; 117; 115; 116; 101; 114; 105; 110; 103; 95; 111; 114; 100; 101; 114; 0; 13; 0; 17; 99; 111; 108; 117];
  [109; 110; 95; 110; 97; 109; 101; 95; 98; 121; 116; 101; 115; 0; 3; 0; 4; 107; 105; 110; 100; 0; 13; 0; 8; 112; 111; 115; 105; 116; 105; 111; 110; 0; 9; 0; 4; 116; 121; 112];
  [101; 0; 13; 0; 0; 0; 151; 0; 0; 0; 12; 115; 121; 115; 116; 101; 109; 95; 118; 105; 101; 119; 115; 0; 0; 0; 6; 99; 97; 99; 104; 101; 115; 0; 0; 0; 14; 99; 97; 112];
  [97; 99; 105; 116; 121; 95; 98; 121; 116; 101; 115; 0; 0; 0; 4; 110; 111; 110; 101; 0; 0; 0; 14; 99; 97; 112; 97; 99; 105; 116; 121; 95; 98; 121; 116; 101; 115; 0; 0; 0];
  [7; 114; 101; 103; 117; 108; 97; 114; 0; 0; 0; 4; 255; 255; 255; 255; 0; 0; 0; 6; 98; 105; 103; 105; 110; 116; 0; 0; 0; 12; 115; 121; 115; 116; 101; 109; 95; 118; 105; 101];
  [119; 115; 0; 0; 0; 6; 99; 97; 99; 104; 101; 115; 0; 0; 0; 11; 101; 110; 116; 114; 121; 95; 99; 111; 117; 110; 116; 0; 0; 0; 4; 110; 111; 110; 101; 0; 0; 0; 11; 101];
  [110; 116; 114; 121; 95; 99; 111; 117; 110; 116; 0; 0; 0; 7; 114; 101; 103; 117; 108; 97; 114; 0; 0; 0; 4; 255; 255; 255; 255; 0; 0; 0; 3; 105; 110; 116; 0; 0; 0; 12];
  [115; 121; 115; 116; 101; 109; 95; 118; 105; 101; 119; 115; 0; 0; 0; 6; 99; 97; 99; 104; 101; 115; 0; 0; 0; 9; 104; 105; 116; 95; 99; 111; 117; 110; 116; 0; 0; 0; 4; 110];
  [111; 110; 101; 0; 0; 0; 9; 104; 105; 116; 95; 99; 111; 117; 110; 116; 0; 0; 0; 7; 114; 101; 103; 117; 108; 97; 114; 0; 0; 0; 4; 255; 255; 255; 255; 0; 0; 0; 6; 98];
  [105; 103; 105; 110; 116; 0; 0; 0; 12; 115; 121; 115; 116; 101; 109; 95; 118; 105; 101; 119; 115; 0; 0; 0; 6; 99; 97; 99; 104; 101; 115; 0; 0; 0; 9; 104; 105; 116; 95; 114];
  [97; 116; 105; 111; 0; 0; 0; 4; 110; 111; 110; 101; 0; 0; 0; 9; 104; 105; 116; 95; 114; 97; 116; 105; 111; 0; 0; 0; 7; 114; 101; 103; 117; 108; 97; 114; 0; 0; 0; 4];
  [255; 255; 255; 255; 0; 0; 0; 6; 100; 111; 117; 98; 108; 101; 0; 0; 0; 12; 115; 121; 115; 116; 101; 109; 95; 118; 105; 101; 119; 115; 0; 0; 0; 6; 99; 97; 99; 104; 101; 115];
  [0; 0; 0; 4; 110; 97; 109; 101; 0; 0; 0; 4; 110; 111; 110; 101; 0; 0; 0; 4; 110; 97; 109; 101; 0; 0; 0; 13; 112; 97; 114; 116; 105; 116; 105; 111; 110; 95; 107; 101];
  [121; 0; 0; 0; 4; 0; 0; 0; 0; 0; 0; 0; 4; 116; 101; 120; 116; 0; 0; 0; 12; 115; 121; 115; 116; 101; 109; 95; 118; 105; 101; 119; 115; 0; 0; 0; 6; 99; 97; 99];
  [104; 101; 115; 0; 0; 0; 26; 114; 101; 99; 101; 110; 116; 95; 104; 105; 116; 95; 114; 97; 116; 101; 95; 112; 101; 114; 95; 115; 101; 99; 111; 110; 100; 0; 0; 0; 4; 110; 111; 110];
  [101; 0; 0; 0; 26; 114; 101; 99; 101; 110; 116; 95; 104; 105; 116; 95; 114; 97; 116; 101; 95; 112; 101; 114; 95; 115; 101; 99; 111; 110; 100; 0; 0; 0; 7; 114; 101; 103; 117; 108];
  [97; 114; 0; 0; 0; 4; 255; 255; 255; 255; 0; 0; 0; 6; 98; 105; 103; 105; 110; 116; 0; 0; 0; 12; 115; 121; 115; 116; 101; 109; 95; 118; 105; 101; 119; 115; 0; 0; 0; 6];
  [99; 97; 99; 104; 101; 115; 0; 0; 0; 30; 114; 101; 99; 101; 110; 116; 95; 114; 101; 113; 117; 101; 115; 116; 95; 114; 97; 116; 101; 95; 112; 101; 114; 95; 115; 101; 99; 111; 110; 100];
  [0; 0; 0; 4; 110; 111; 110; 101; 0; 0; 0; 30; 114; 101; 99; 101; 110; 116; 95; 114; 101; 113; 117; 101; 115; 116; 95; 114; 97; 116; 101; 95; 112; 101; 114; 95; 115; 101; 99; 111];
  [110; 100; 0; 0; 0; 7; 114; 101; 103; 117; 108; 97; 114; 0; 0; 0; 4; 255; 255; 255; 255; 0; 0; 0; 6; 98; 105; 103; 105; 110; 116; 0; 0; 0; 12; 115; 121; 115; 116; 101];
  [109; 95; 118; 105; 101; 119; 115; 0; 0; 0; 6; 99; 97; 99; 104; 101; 115; 0; 0; 0; 13; 114; 101; 113; 117; 101; 115; 116; 95; 99; 111; 117; 110; 116; 0; 0; 0; 4; 110; 111];
  [110; 101; 0; 0; 0; 13; 114; 101; 113; 117; 101; 115; 116; 95; 99; 111; 117; 110; 116; 0; 0; 0; 7; 114; 101; 103; 117; 108; 97; 114; 0; 0; 0; 4; 255; 255; 255; 255; 0; 0];
  [0; 6; 98; 105; 103; 105; 110; 116; 0; 0; 0; 12; 115; 121; 115; 116; 101; 109; 95; 118; 105; 101; 119; 115; 0; 0; 0; 6; 99; 97; 99; 104; 101; 115; 0; 0; 0; 10; 115; 105];
  [122; 101; 95; 98; 121; 116; 101; 115; 0; 0; 0; 4; 110; 111; 110; 101; 0; 0; 0; 10; 115; 105; 122; 101; 95; 98; 121; 116; 101; 115; 0; 0; 0; 7; 114; 101; 103; 117; 108; 97];
  [114; 0; 0; 0; 4; 255; 255; 255; 255; 0; 0; 0; 6; 98; 105; 103; 105; 110; 116; 0; 0; 0; 12; 115; 121; 115; 116; 101; 109; 95; 118; 105; 101; 119; 115; 0; 0; 0; 7; 99];
  [108; 105; 101; 110; 116; 115; 0; 0; 0; 7; 97; 100; 100; 114; 101; 115; 115; 0; 0; 0; 4; 110; 111; 110; 101; 0; 0; 0; 7; 97; 100; 100; 114; 101; 115; 115; 0; 0; 0; 13];
  [112; 97; 114; 116; 105; 116; 105; 111; 110; 95; 107; 101; 121; 0; 0; 0; 4; 0; 0; 0; 0; 0; 0; 0; 4; 105; 110; 101; 116; 0; 0; 0; 12; 115; 121; 115; 116; 101; 109; 95];
  [118; 105; 101; 119; 115; 0; 0; 0; 7; 99; 108; 105; 101; 110; 116; 115; 0; 0; 0; 16; 99; 111; 110; 110; 101; 99; 116; 105; 111; 110; 95; 115; 116; 97; 103; 101; 0; 0; 0; 4];
  [110; 111; 110; 101; 0; 0; 0; 16; 99; 111; 110; 110; 101; 99; 116; 105; 111; 110; 95; 115; 116; 97; 103; 101; 0; 0; 0; 7; 114; 101; 103; 117; 108; 97; 114; 0; 0; 0; 4; 255];
  [255; 255; 255; 0; 0; 0; 4; 116; 101; 120; 116; 0; 0; 0; 12; 115; 121; 115; 116; 101; 109; 95; 118; 105; 101; 119; 115; 0; 0; 0; 7; 99; 108; 105; 101; 110; 116; 115; 0; 0];
  [0; 11; 100; 114; 105; 118; 101; 114; 95; 110; 97; 109; 101; 0; 0; 0; 4; 110; 111; 110; 101; 0; 0; 0; 11; 100; 114; 105; 118; 101; 114; 95; 110; 97; 109; 101; 0; 0; 0; 7];
  [114; 101; 103; 117; 108; 97; 114; 0; 0; 0; 4; 255; 255; 255; 255; 0; 0; 0; 4; 116; 101; 120; 116; 0; 0; 0; 12; 115; 121; 115; 116; 101; 109; 95; 118; 105; 101; 119; 115; 0];
  [0; 0; 7; 99; 108; 105; 101; 110; 116; 115; 0; 0; 0; 14; 100; 114; 105; 118; 101; 114; 95; 118; 101; 114; 115; 105; 111; 110; 0; 0; 0; 4; 110; 111; 110; 101; 0; 0; 0; 14];
  [100; 114; 105; 118; 101; 114; 95; 118; 101; 114; 115; 105; 111; 110; 0; 0; 0; 7; 114; 101; 103; 117; 108; 97; 114; 0; 0; 0; 4; 255; 255; 255; 255; 0; 0; 0; 4; 116; 101; 120];
  [116; 0; 0; 0; 12; 115; 121; 115; 116; 101; 109; 95; 118; 105; 101; 119; 115; 0; 0; 0; 7; 99; 108; 105; 101; 110; 116; 115; 0; 0; 0; 8; 104; 111; 115; 116; 110; 97; 109; 101];
  [0; 0; 0; 4; 110; 111; 110; 101; 0; 0; 0; 8; 104; 111; 115; 116; 110; 97; 109; 101; 0; 0; 0; 7; 114; 101; 103; 117; 108; 97; 114; 0; 0; 0; 4; 255; 255; 255; 255; 0];
  [0; 0; 4; 116; 101; 120; 116; 0; 0; 0; 12; 115; 121; 115; 116; 101; 109; 95; 118; 105; 101; 119; 115; 0; 0; 0; 7; 99; 108; 105; 101; 110; 116; 115; 0; 0; 0; 4; 112; 111];
  [114; 116; 0; 0; 0; 3; 97; 115; 99; 0; 0; 0; 4; 112; 111; 114; 116; 0; 0; 0; 10; 99; 108; 117; 115; 116; 101; 114; 105; 110; 103; 0; 0; 0; 4; 0; 0; 0; 0; 0];
  [0; 0; 3; 105; 110; 116; 0; 0; 0; 12; 115; 121; 115; 116; 101; 109; 95; 118; 105; 101; 119; 115; 0; 0; 0; 7; 99; 108; 105; 101; 110; 116; 115; 0; 0; 0; 16; 112; 114; 111];
  [116; 111; 99; 111; 108; 95; 118; 101; 114; 115; 105; 111; 110; 0; 0; 0; 4; 110; 111; 110; 101; 0; 0; 0; 16; 112; 114; 111; 116; 111; 99; 111; 108; 95; 118; 101; 114; 115; 105; 111];
  [110; 0; 0; 0; 7; 114; 101; 103; 117; 108; 97; 114; 0; 0; 0; 4; 255; 255; 255; 255; 0; 0; 0; 3; 105; 110; 116; 0; 0; 0; 12; 115; 121; 115; 116; 101; 109; 95; 118; 105];
  [101; 119; 115; 0; 0; 0; 7; 99; 108; 105; 101; 110; 116; 115; 0; 0; 0; 13; 114; 101; 113; 117; 101; 115; 116; 95; 99; 111; 117; 110; 116; 0; 0; 0; 4; 110; 111; 110; 101; 0];
  [0; 0; 13; 114; 101; 113; 117; 101; 115; 116; 95; 99; 111; 117; 110; 116; 0; 0; 0; 7; 114; 101; 103; 117; 108; 97; 114; 0; 0; 0; 4; 255; 255; 255; 255; 0; 0; 0; 6; 98];
  [105; 103; 105; 110; 116; 0; 0; 0; 12; 115; 121; 115; 116; 101; 109; 95; 118; 105; 101; 119; 115; 0; 0; 0; 7; 99; 108; 105; 101; 110; 116; 115; 0; 0; 0; 16; 115; 115; 108; 95];
  [99; 105; 112; 104; 101; 114; 95; 115; 117; 105; 116; 101; 0; 0; 0; 4; 110; 111; 110; 101; 0; 0; 0; 16; 115; 115; 108; 95; 99; 105; 112; 104; 101; 114; 95; 115; 117; 105; 116; 101];
  [0; 0; 0; 7; 114; 101; 103; 117; 108; 97; 114; 0; 0; 0; 4; 255; 255; 255; 255; 0; 0; 0; 4; 116; 101; 120; 116; 0; 0; 0; 12; 115; 121; 115; 116; 101; 109; 95; 118; 105];
  [101; 119; 115; 0; 0; 0; 7; 99; 108; 105; 101; 110; 116; 115; 0; 0; 0; 11; 115; 115; 108; 95; 101; 110; 97; 98; 108; 101; 100; 0; 0; 0; 4; 110; 111; 110; 101; 0; 0; 0];
  [11; 115; 115; 108; 95; 101; 110; 97; 98; 108; 101; 100; 0; 0; 0; 7; 114; 101; 103; 117; 108; 97; 114; 0; 0; 0; 4; 255; 255; 255; 255; 0; 0; 0; 7; 98; 111; 111; 108; 101];
  [97; 110; 0; 0; 0; 12; 115; 121; 115; 116; 101; 109; 95; 118; 105; 101; 119; 115; 0; 0; 0; 7; 99; 108; 105; 101; 110; 116; 115; 0; 0; 0; 12; 115; 115; 108; 95; 112; 114; 111];
  [116; 111; 99; 111; 108; 0; 0; 0; 4; 110; 111; 110; 101; 0; 0; 0; 12; 115; 115; 108; 95; 112; 114; 111; 116; 111; 99; 111; 108; 0; 0; 0; 7; 114; 101; 103; 117; 108; 97; 114];
  [0; 0; 0; 4; 255; 255; 255; 255; 0; 0; 0; 4; 116; 101; 120; 116; 0; 0; 0; 12; 115; 121; 115; 116; 101; 109; 95; 118; 105; 101; 119; 115; 0; 0; 0; 7; 99; 108; 105; 101];
  [110; 116; 115; 0; 0; 0; 8; 117; 115; 101; 114; 110; 97; 109; 101; 0; 0; 0; 4; 110; 111; 110; 101; 0; 0; 0; 8; 117; 115; 101; 114; 110; 97; 109; 101; 0; 0; 0; 7; 114];
  [101; 103; 117; 108; 97; 114; 0; 0; 0; 4; 255; 255; 255; 255; 0; 0; 0; 4; 116; 101; 120; 116; 0; 0; 0; 12; 115; 121; 115; 116; 101; 109; 95; 118; 105; 101; 119; 115; 0; 0];
  [0; 24; 99; 111; 111; 114; 100; 105; 110; 97; 116; 111; 114; 95; 114; 101; 97; 100; 95; 108; 97; 116; 101; 110; 99; 121; 0; 0; 0; 5; 99; 111; 117; 110; 116; 0; 0; 0; 4; 110];
  [111; 110; 101; 0; 0; 0; 5; 99; 111; 117; 110; 116; 0; 0; 0; 7; 114; 101; 103; 117; 108; 97; 114; 0; 0; 0; 4; 255; 255; 255; 255; 0; 0; 0; 6; 98; 105; 103; 105; 110];
  [116; 0; 0; 0; 12; 115; 121; 115; 116; 101; 109; 95; 118; 105; 101; 119; 115; 0; 0; 0; 24; 99; 111; 111; 114; 100; 105; 110; 97; 116; 111; 114; 95; 114; 101; 97; 100; 95; 108; 97];
  [116; 101; 110; 99; 121; 0; 0; 0; 13; 107; 101; 121; 115; 112; 97; 99; 101; 95; 110; 97; 109; 101; 0; 0; 0; 4; 110; 111; 110; 101; 0; 0; 0; 13; 107; 101; 121; 115; 112; 97];
  [99; 101; 95; 110; 97; 109; 101; 0; 0; 0; 13; 112; 97; 114; 116; 105; 116; 105; 111; 110; 95; 107; 101; 121; 0; 0; 0; 4; 0; 0; 0; 0; 0; 0; 0; 4; 116; 101; 120; 116];
  [0; 0; 0; 12; 115; 121; 115; 116; 101; 109; 95; 118; 105; 101; 119; 115; 0; 0; 0; 24; 99; 111; 111; 114; 100; 105; 110; 97; 116; 111; 114; 95; 114; 101; 97; 100; 95; 108; 97; 116];
  [101; 110; 99; 121; 0; 0; 0; 6; 109; 97; 120; 95; 109; 115; 0; 0; 0; 4; 110; 111; 110; 101; 0; 0; 0; 6; 109; 97; 120; 95; 109; 115; 0; 0; 0; 7; 114; 101; 103; 117];
  [108; 97; 114; 0; 0; 0; 4; 255; 255; 255; 255; 0; 0; 0; 6; 100; 111; 117; 98; 108; 101; 0; 0; 0; 12; 115; 121; 115; 116; 101; 109; 95; 118; 105; 101; 119; 115; 0; 0; 0];
  [24; 99; 111; 111; 114; 100; 105; 110; 97; 116; 111; 114; 95; 114; 101; 97; 100; 95; 108; 97; 116; 101; 110; 99; 121; 0; 0; 0; 8; 112; 53; 48; 116; 104; 95; 109; 115; 0; 0; 0];
  [4; 110; 111; 110; 101; 0; 0; 0; 8; 112; 53; 48; 116; 104; 95; 109; 115; 0; 0; 0; 7; 114; 101; 103; 117; 108; 97; 114; 0; 0; 0; 4; 255; 255; 255; 255; 0; 0; 0; 6];
  [100; 111; 117; 98; 108; 101; 0; 0; 0; 12; 115; 121; 115; 116; 101; 109; 95; 118; 105; 101; 119; 115; 0; 0; 0; 24; 99; 111; 111; 114; 100; 105; 110; 97; 116; 111; 114; 95; 114; 101];
  [97; 100; 95; 108; 97; 116; 101; 110; 99; 121; 0; 0; 0; 8; 112; 57; 57; 116; 104; 95; 109; 115; 0; 0; 0; 4; 110; 111; 110; 101; 0; 0; 0; 8; 112; 57; 57; 116; 104; 95];
  [109; 115; 0; 0; 0; 7; 114; 101; 103; 117; 108; 97; 114; 0; 0; 0; 4; 255; 255; 255; 255; 0; 0; 0; 6; 100; 111; 117; 98; 108; 101; 0; 0; 0; 12; 115; 121; 115; 116; 101];
  [109; 95; 118; 105; 101; 119; 115; 0; 0; 0; 24; 99; 111; 111; 114; 100; 105; 110; 97; 116; 111; 114; 95; 114; 101; 97; 100; 95; 108; 97; 116; 101; 110; 99; 121; 0; 0; 0; 10; 112];
  [101; 114; 95; 115; 101; 99; 111; 110; 100; 0; 0; 0; 4; 110; 111; 110; 101; 0; 0; 0; 10; 112; 101; 114; 95; 115; 101; 99; 111; 110; 100; 0; 0; 0; 7; 114; 101; 103; 117; 108];
  [97; 114; 0; 0; 0; 4; 255; 255; 255; 255; 0; 0; 0; 6; 100; 111; 117; 98; 108; 101; 0; 0; 0; 12; 115; 121; 115; 116; 101; 109; 95; 118; 105; 101; 119; 115; 0; 0; 0; 24];
  [99; 111; 111; 114; 100; 105; 110; 97; 116; 111; 114; 95; 114; 101; 97; 100; 95; 108; 97; 116; 101; 110; 99; 121; 0; 0; 0; 10; 116; 97; 98; 108; 101; 95; 110; 97; 109; 101; 0; 0];
  [0; 4; 110; 111; 110; 101; 0; 0; 0; 10; 116; 97; 98; 108; 101; 95; 110; 97; 109; 101; 0; 0; 0; 13; 112; 97; 114; 116; 105; 116; 105; 111; 110; 95; 107; 101; 121; 0; 0; 0];
  [4; 0; 0; 0; 1; 0; 0; 0; 4; 116; 101; 120; 116; 0; 0; 0; 12; 115; 121; 115; 116; 101; 109; 95; 118; 105; 101; 119; 115; 0; 0; 0; 24; 99; 111; 111; 114; 100; 105; 110];
  [97; 116; 111; 114; 95; 115; 99; 97; 110; 95; 108; 97; 116; 101; 110; 99; 121; 0; 0; 0; 5; 99; 111; 117; 110; 116; 0; 0; 0; 4; 110; 111; 110; 101; 0; 0; 0; 5; 99; 111];
  [117; 110; 116; 0; 0; 0; 7; 114; 101; 103; 117; 108; 97; 114; 0; 0; 0; 4; 255; 255; 255; 255; 0; 0; 0; 6; 98; 105; 103; 105; 110; 116; 0; 0; 0; 12; 115; 121; 115; 116];
  [101; 109; 95; 118; 105; 101; 119; 115; 0; 0; 0; 24; 99; 111; 111; 114; 100; 105; 110; 97; 116; 111; 114; 95; 115; 99; 97; 110; 95; 108; 97; 116; 101; 110; 99; 121; 0; 0; 0; 13];
  [107; 101; 121; 115; 112; 97; 99; 101; 95; 110; 97; 109; 101; 0; 0; 0; 4; 110; 111; 110; 101; 0; 0; 0; 13; 107; 101; 121; 115; 112; 97; 99; 101; 95; 110; 97; 109; 101; 0; 0];
  [0; 13; 112; 97; 114; 116; 105; 116; 105; 111; 110; 95; 107; 101; 121; 0; 0; 0; 4; 0; 0; 0; 0; 0; 0; 0; 4; 116; 101; 120; 116; 0; 0; 0; 12; 115; 121; 115; 116; 101];
  [109; 95; 118; 105; 101; 119; 115; 0; 0; 0; 24; 99; 111; 111; 114; 100; 105; 110; 97; 116; 111; 114; 95; 115; 99; 97; 110; 95; 108; 97; 116; 101; 110; 99; 121; 0; 0; 0; 6; 109];
  [97; 120; 95; 109; 115; 0; 0; 0; 4; 110; 111; 110; 101; 0; 0; 0; 6; 109; 97; 120; 95; 109; 115; 0; 0; 0; 7; 114; 101; 103; 117; 108; 97; 114; 0; 0; 0; 4; 255; 255];
  [255; 255; 0; 0; 0; 6; 100; 111; 117; 98; 108; 101; 0; 0; 0; 12; 115; 121; 115; 116; 101; 109; 95; 118; 105; 101; 119; 115; 0; 0; 0; 24; 99; 111; 111; 114; 100; 105; 110; 97];
  [116; 111; 114; 95; 115; 99; 97; 110; 95; 108; 97; 116; 101; 110; 99; 121; 0; 0; 0; 8; 112; 53; 48; 116; 104; 95; 109; 115; 0; 0; 0; 4; 110; 111; 110; 101; 0; 0; 0; 8];
  [112; 53; 48; 116; 104; 95; 109; 115; 0; 0; 0; 7; 114; 101; 103; 117; 108; 97; 114; 0; 0; 0; 4; 255; 255; 255; 255; 0; 0; 0; 6; 100; 111; 117; 98; 108; 101; 0; 0; 0];
  [12; 115; 121; 115; 116; 101; 109; 95; 118; 105; 101; 119; 115; 0; 0; 0; 24; 99; 111; 111; 114; 100; 105; 110; 97; 116; 111; 114; 95; 115; 99; 97; 110; 95; 108; 97; 116; 101; 110; 99];
  [121; 0; 0; 0; 8; 112; 57; 57; 116; 104; 95; 109; 115; 0; 0; 0; 4; 110; 111; 110; 101; 0; 0; 0; 8; 112; 57; 57; 116; 104; 95; 109; 115; 0; 0; 0; 7; 114; 101; 103];
  [117; 108; 97; 114; 0; 0; 0; 4; 255; 255; 255; 255; 0; 0; 0; 6; 100; 111; 117; 98; 108; 101; 0; 0; 0; 12; 115; 121; 115; 116; 101; 109; 95; 118; 105; 101; 119; 115; 0; 0];
  [0; 24; 99; 111; 111; 114; 100; 105; 110; 97; 116; 111; 114; 95; 115; 99; 97; 110; 95; 108; 97; 116; 101; 110; 99; 121; 0; 0; 0; 10; 112; 101; 114; 95; 115; 101; 99; 111; 110; 100];
  [0; 0; 0; 4; 110; 111; 110; 101; 0; 0; 0; 10; 112; 101; 114; 95; 115; 101; 99; 111; 110; 100; 0; 0; 0; 7; 114; 101; 103; 117; 108; 97; 114; 0; 0; 0; 4; 255; 255; 255];
  [255; 0; 0; 0; 6; 100; 111; 117; 98; 108; 101; 0; 0; 0; 12; 115; 121; 115; 116; 101; 109; 95; 118; 105; 101; 119; 115; 0; 0; 0; 24; 99; 111; 111; 114; 100; 105; 110; 97; 116];
  [111; 114; 95; 115; 99; 97; 110; 95; 108; 97; 116; 101; 110; 99; 121; 0; 0; 0; 10; 116; 97; 98; 108; 101; 95; 110; 97; 109; 101; 0; 0; 0; 4; 110; 111; 110; 101; 0; 0; 0];
  [10; 116; 97; 98; 108; 101; 95; 110; 97; 109; 101; 0; 0; 0; 13; 112; 97; 114; 116; 105; 116; 105; 111; 110; 95; 107; 101; 121; 0; 0; 0; 4; 0; 0; 0; 1; 0; 0; 0; 4];
  [116; 101; 120; 116; 0; 0; 0; 12; 115; 121; 115; 116; 101; 109; 95; 118; 105; 101; 119; 115; 0; 0; 0; 25; 99; 111; 111; 114; 100; 105; 110; 97; 116; 111; 114; 95; 119; 114; 105; 116];
  [101; 95; 108; 97; 116; 101; 110; 99; 121; 0; 0; 0; 5; 99; 111; 117; 110; 116; 0; 0; 0; 4; 110; 111; 110; 101; 0; 0; 0; 5; 99; 111; 117; 110; 116; 0; 0; 0; 7; 114];
  [101; 103; 117; 108; 97; 114; 0; 0; 0; 4; 255; 255; 255; 255; 0; 0; 0; 6; 98; 105; 103; 105; 110; 116; 0; 0; 0; 12; 115; 121; 115; 116; 101; 109; 95; 118; 105; 101; 119; 115];
  [0; 0; 0; 25; 99; 111; 111; 114; 100; 105; 110; 97; 116; 111; 114; 95; 119; 114; 105; 116; 101; 95; 108; 97; 116; 101; 110; 99; 121; 0; 0; 0; 13; 107; 101; 121; 115; 112; 97; 99];
  [101; 95; 110; 97; 109; 101; 0; 0; 0; 4; 110; 111; 110; 101; 0; 0; 0; 13; 107; 101; 121; 115; 112; 97; 99; 101; 95; 110; 97; 109; 101; 0; 0; 0; 13; 112; 97; 114; 116; 105];
  [116; 105; 111; 110; 95; 107; 101; 121; 0; 0; 0; 4; 0; 0; 0; 0; 0; 0; 0; 4; 116; 101; 120; 116; 0; 0; 0; 12; 115; 121; 115; 116; 101; 109; 95; 118; 105; 101; 119; 115];
  [0; 0; 0; 25; 99; 111; 111; 114; 100; 105; 110; 97; 116; 111; 114; 95; 119; 114; 105; 116; 101; 95; 108; 97; 116; 101; 110; 99; 121; 0; 0; 0; 6; 109; 97; 120; 95; 109; 115; 0];
  [0; 0; 4; 110; 111; 110; 101; 0; 0; 0; 6; 109; 97; 120; 95; 109; 115; 0; 0; 0; 7; 114; 101; 103; 117; 108; 97; 114; 0; 0; 0; 4; 255; 255; 255; 255; 0; 0; 0; 6];
  [100; 111; 117; 98; 108; 101; 0; 0; 0; 12; 115; 121; 115; 116; 101; 109; 95; 118; 105; 101; 119; 115; 0; 0; 0; 25; 99; 111; 111; 114; 100; 105; 110; 97; 116; 111; 114; 95; 119; 114];
  [105; 116; 101; 95; 108; 97; 116; 101; 110; 99; 121; 0; 0; 0; 8; 112; 53; 48; 116; 104; 95; 109; 115; 0; 0; 0; 4; 110; 111; 110; 101; 0; 0; 0; 8; 112; 53; 48; 116; 104];
  [95; 109; 115; 0; 0; 0; 7; 114; 101; 103; 117; 108; 97; 114; 0; 0; 0; 4; 255; 255; 255; 255; 0; 0; 0; 6; 100; 111; 117; 98; 108; 101; 0; 0; 0; 12; 115; 121; 115; 116];
  [101; 109; 95; 118; 105; 101; 119; 115; 0; 0; 0; 25; 99; 111; 111; 114; 100; 105; 110; 97; 116; 111; 114; 95; 119; 114; 105; 116; 101; 95; 108; 97; 116; 101; 110; 99; 121; 0; 0; 0];
  [8; 112; 57; 57; 116; 104; 95; 109; 115; 0; 0; 0; 4; 110; 111; 110; 101; 0; 0; 0; 8; 112; 57; 57; 116; 104; 95; 109; 115; 0; 0; 0; 7; 114; 101; 103; 117; 108; 97; 114];
  [0; 0; 0; 4; 255; 255; 255; 255; 0; 0; 0; 6; 100; 111; 117; 98; 108; 101; 0; 0; 0; 12; 115; 121; 115; 116; 101; 109; 95; 118; 105; 101; 119; 115; 0; 0; 0; 25; 99; 111];
  [111; 114; 100; 105; 110; 97; 116; 111; 114; 95; 119; 114; 105; 116; 101; 95; 108; 97; 116; 101; 110; 99; 121; 0; 0; 0; 10; 112; 101; 114; 95; 115; 101; 99; 111; 110; 100; 0; 0; 0];
  [4; 110; 111; 110; 101; 0; 0; 0; 10; 112; 101; 114; 95; 115; 101; 99; 111; 110; 100; 0; 0; 0; 7; 114; 101; 103; 117; 108; 97; 114; 0; 0; 0; 4; 255; 255; 255; 255; 0; 0];
  [0; 6; 100; 111; 117; 98; 108; 101; 0; 0; 0; 12; 115; 121; 115; 116; 101; 109; 95; 118; 105; 101; 119; 115; 0; 0; 0; 25; 99; 111; 111; 114; 100; 105; 110; 97; 116; 111; 114; 95];
  [119; 114; 105; 116; 101; 95; 108; 97; 116; 101; 110; 99; 121; 0; 0; 0; 10; 116; 97; 98; 108; 101; 95; 110; 97; 109; 101; 0; 0; 0; 4; 110; 111; 110; 101; 0; 0; 0; 10; 116];
  [97; 98; 108; 101; 95; 110; 97; 109; 101; 0; 0; 0; 13; 112; 97; 114; 116; 105; 116; 105; 111; 110; 95; 107; 101; 121; 0; 0; 0; 4; 0; 0; 0; 1; 0; 0; 0; 4; 116; 101];
  [120; 116; 0; 0; 0; 12; 115; 121; 115; 116; 101; 109; 95; 118; 105; 101; 119; 115; 0; 0; 0; 10; 100; 105; 115; 107; 95; 117; 115; 97; 103; 101; 0; 0; 0; 13; 107; 101; 121; 115];
  [112; 97; 99; 101; 95; 110; 97; 109; 101; 0; 0; 0; 4; 110; 111; 110; 101; 0; 0; 0; 13; 107; 101; 121; 115; 112; 97; 99; 101; 95; 110; 97; 109; 101; 0; 0; 0; 13; 112; 97];
  [114; 116; 105; 116; 105; 111; 110; 95; 107; 101; 121; 0; 0; 0; 4; 0; 0; 0; 0; 0; 0; 0; 4; 116; 101; 120; 116; 0; 0; 0; 12; 115; 121; 115; 116; 101; 109; 95; 118; 105];
  [101; 119; 115; 0; 0; 0; 10; 100; 105; 115; 107; 95; 117; 115; 97; 103; 101; 0; 0; 0; 9; 109; 101; 98; 105; 98; 121; 116; 101; 115; 0; 0; 0; 4; 110; 111; 110; 101; 0; 0];
  [0; 9; 109; 101; 98; 105; 98; 121; 116; 101; 115; 0; 0; 0; 7; 114; 101; 103; 117; 108; 97; 114; 0; 0; 0; 4; 255; 255; 255; 255; 0; 0; 0; 6; 98; 105; 103; 105; 110; 116];
  [0; 0; 0; 12; 115; 121; 115; 116; 101; 109; 95; 118; 105; 101; 119; 115; 0; 0; 0; 10; 100; 105; 115; 107; 95; 117; 115; 97; 103; 101; 0; 0; 0; 10; 116; 97; 98; 108; 101; 95];
  [110; 97; 109; 101; 0; 0; 0; 4; 110; 111; 110; 101; 0; 0; 0; 10; 116; 97; 98; 108; 101; 95; 110; 97; 109; 101; 0; 0; 0; 13; 112; 97; 114; 116; 105; 116; 105; 111; 110; 95];
  [107; 101; 121; 0; 0; 0; 4; 0; 0; 0; 1; 0; 0; 0; 4; 116; 101; 120; 116; 0; 0; 0; 12; 115; 121; 115; 116; 101; 109; 95; 118; 105; 101; 119; 115; 0; 0; 0; 17; 105];
  [110; 116; 101; 114; 110; 111; 100; 101; 95; 105; 110; 98; 111; 117; 110; 100; 0; 0; 0; 7; 97; 100; 100; 114; 101; 115; 115; 0; 0; 0; 4; 110; 111; 110; 101; 0; 0; 0; 7; 97];
  [100; 100; 114; 101; 115; 115; 0; 0; 0; 13; 112; 97; 114; 116; 105; 116; 105; 111; 110; 95; 107; 101; 121; 0; 0; 0; 4; 0; 0; 0; 0; 0; 0; 0; 4; 105; 110; 101; 116; 0];
  [0; 0; 12; 115; 121; 115; 116; 101; 109; 95; 118; 105; 101; 119; 115; 0; 0; 0; 17; 105; 110; 116; 101; 114; 110; 111; 100; 101; 95; 105; 110; 98; 111; 117; 110; 100; 0; 0; 0; 24];
  [99; 111; 114; 114; 117; 112; 116; 95; 102; 114; 97; 109; 101; 115; 95; 114; 101; 99; 111; 118; 101; 114; 101; 100; 0; 0; 0; 4; 110; 111; 110; 101; 0; 0; 0; 24; 99; 111; 114; 114];
  [117; 112; 116; 95; 102; 114; 97; 109; 101; 115; 95; 114; 101; 99; 111; 118; 101; 114; 101; 100; 0; 0; 0; 7; 114; 101; 103; 117; 108; 97; 114; 0; 0; 0; 4; 255; 255; 255; 255; 0];
  [0; 0; 6; 98; 105; 103; 105; 110; 116; 0; 0; 0; 12; 115; 121; 115; 116; 101; 109; 95; 118; 105; 101; 119; 115; 0; 0; 0; 17; 105; 110; 116; 101; 114; 110; 111; 100; 101; 95; 105];
  [110; 98; 111; 117; 110; 100; 0; 0; 0; 26; 99; 111; 114; 114; 117; 112; 116; 95; 102; 114; 97; 109; 101; 115; 95; 117; 110; 114; 101; 99; 111; 118; 101; 114; 101; 100; 0; 0; 0; 4];
  [110; 111; 110; 101; 0; 0; 0; 26; 99; 111; 114; 114; 117; 112; 116; 95; 102; 114; 97; 109; 101; 115; 95; 117; 110; 114; 101; 99; 111; 118; 101; 114; 101; 100; 0; 0; 0; 7; 114; 101];
  [103; 117; 108; 97; 114; 0; 0; 0; 4; 255; 255; 255; 255; 0; 0; 0; 6; 98; 105; 103; 105; 110; 116; 0; 0; 0; 12; 115; 121; 115; 116; 101; 109; 95; 118; 105; 101; 119; 115; 0];
  [0; 0; 17; 105; 110; 116; 101; 114; 110; 111; 100; 101; 95; 105; 110; 98; 111; 117; 110; 100; 0; 0; 0; 2; 100; 99; 0; 0; 0; 3; 97; 115; 99; 0; 0; 0; 2; 100; 99; 0];
  [0; 0; 10; 99; 108; 117; 115; 116; 101; 114; 105; 110; 103; 0; 0; 0; 4; 0; 0; 0; 0; 0; 0; 0; 4; 116; 101; 120; 116; 0; 0; 0; 12; 115; 121; 115; 116; 101; 109; 95];
  [118; 105; 101; 119; 115; 0; 0; 0; 17; 105; 110; 116; 101; 114; 110; 111; 100; 101; 95; 105; 110; 98; 111; 117; 110; 100; 0; 0; 0; 11; 101; 114; 114; 111; 114; 95; 98; 121; 116; 101];
  [115; 0; 0; 0; 4; 110; 111; 110; 101; 0; 0; 0; 11; 101; 114; 114; 111; 114; 95; 98; 121; 116; 101; 115; 0; 0; 0; 7; 114; 101; 103; 117; 108; 97; 114; 0; 0; 0; 4; 255];
  [255; 255; 255; 0; 0; 0; 6; 98; 105; 103; 105; 110; 116; 0; 0; 0; 12; 115; 121; 115; 116; 101; 109; 95; 118; 105; 101; 119; 115; 0; 0; 0; 17; 105; 110; 116; 101; 114; 110; 111];
  [100; 101; 95; 105; 110; 98; 111; 117; 110; 100; 0; 0; 0; 11; 101; 114; 114; 111; 114; 95; 99; 111; 117; 110; 116; 0; 0; 0; 4; 110; 111; 110; 101; 0; 0; 0; 11; 101; 114; 114];
  [111; 114; 95; 99; 111; 117; 110; 116; 0; 0; 0; 7; 114; 101; 103; 117; 108; 97; 114; 0; 0; 0; 4; 255; 255; 255; 255; 0; 0; 0; 6; 98; 105; 103; 105; 110; 116; 0; 0; 0];
  [12; 115; 121; 115; 116; 101; 109; 95; 118; 105; 101; 119; 115; 0; 0; 0; 17; 105; 110; 116; 101; 114; 110; 111; 100; 101; 95; 105; 110; 98; 111; 117; 110; 100; 0; 0; 0; 13; 101; 120];
  [112; 105; 114; 101; 100; 95; 98; 121; 116; 101; 115; 0; 0; 0; 4; 110; 111; 110; 101; 0; 0; 0; 13; 101; 120; 112; 105; 114; 101; 100; 95; 98; 121; 116; 101; 115; 0; 0; 0; 7];
  [114; 101; 103; 117; 108; 97; 114; 0; 0; 0; 4; 255; 255; 255; 255; 0; 0; 0; 6; 98; 105; 103; 105; 110; 116; 0; 0; 0; 12; 115; 121; 115; 116; 101; 109; 95; 118; 105; 101; 119];
  [115; 0; 0; 0; 17; 105; 110; 116; 101; 114; 110; 111; 100; 101; 95; 105; 110; 98; 111; 117; 110; 100; 0; 0; 0; 13; 101; 120; 112; 105; 114; 101; 100; 95; 99; 111; 117; 110; 116; 0];
  [0; 0; 4; 110; 111; 110; 101; 0; 0; 0; 13; 101; 120; 112; 105; 114; 101; 100; 95; 99; 111; 117; 110; 116; 0; 0; 0; 7; 114; 101; 103; 117; 108; 97; 114; 0; 0; 0; 4; 255];
  [255; 255; 255; 0; 0; 0; 6; 98; 105; 103; 105; 110; 116; 0; 0; 0; 12; 115; 121; 115; 116; 101; 109; 95; 118; 105; 101; 119; 115; 0; 0; 0; 17; 105; 110; 116; 101; 114; 110; 111];
  [100; 101; 95; 105; 110; 98; 111; 117; 110; 100; 0; 0; 0; 4; 112; 111; 114; 116; 0; 0; 0; 4; 110; 111; 110; 101; 0; 0; 0; 4; 112; 111; 114; 116; 0; 0; 0; 13; 112; 97];
  [114; 116; 105; 116; 105; 111; 110; 95; 107; 101; 121; 0; 0; 0; 4; 0; 0; 0; 1; 0; 0; 0; 3; 105; 110; 116; 0; 0; 0; 12; 115; 121; 115; 116; 101; 109; 95; 118; 105; 101];
  [119; 115; 0; 0; 0; 17; 105; 110; 116; 101; 114; 110; 111; 100; 101; 95; 105; 110; 98; 111; 117; 110; 100; 0; 0; 0; 15; 112; 114; 111; 99; 101; 115; 115; 101; 100; 95; 98; 121; 116];
  [101; 115; 0; 0; 0; 4; 110; 111; 110; 101; 0; 0; 0; 15; 112; 114; 111; 99; 101; 115; 115; 101; 100; 95; 98; 121; 116; 101; 115; 0; 0; 0; 7; 114; 101; 103; 117; 108; 97; 114];
  [0; 0; 0; 4; 255; 255; 255; 255; 0; 0; 0; 6; 98; 105; 103; 105; 110; 116; 0; 0; 0; 12; 115; 121; 115; 116; 101; 109; 95; 118; 105; 101; 119; 115; 0; 0; 0; 17; 105; 110];
  [116; 101; 114; 110; 111; 100; 101; 95; 105; 110; 98; 111; 117; 110; 100; 0; 0; 0; 15; 112; 114; 111; 99; 101; 115; 115; 101; 100; 95; 99; 111; 117; 110; 116; 0; 0; 0; 4; 110; 111];
  [110; 101; 0; 0; 0; 15; 112; 114; 111; 99; 101; 115; 115; 101; 100; 95; 99; 111; 117; 110; 116; 0; 0; 0; 7; 114; 101; 103; 117; 108; 97; 114; 0; 0; 0; 4; 255; 255; 255; 255];
  [0; 0; 0; 6; 98; 105; 103; 105; 110; 116; 0; 0; 0; 12; 115; 121; 115; 116; 101; 109; 95; 118; 105; 101; 119; 115; 0; 0; 0; 17; 105; 110; 116; 101; 114; 110; 111; 100; 101; 95];
  [105; 110; 98; 111; 117; 110; 100; 0; 0; 0; 4; 114; 97; 99; 107; 0; 0; 0; 3; 97; 115; 99; 0; 0; 0; 4; 114; 97; 99; 107; 0; 0; 0; 10; 99; 108; 117; 115; 116; 101];
  [114; 105; 110; 103; 0; 0; 0; 4; 0; 0; 0; 1; 0; 0; 0; 4; 116; 101; 120; 116; 0; 0; 0; 12; 115; 121; 115; 116; 101; 109; 95; 118; 105; 101; 119; 115; 0; 0; 0; 17];
  [105; 110; 116; 101; 114; 110; 111; 100; 101; 95; 105; 110; 98; 111; 117; 110; 100; 0; 0; 0; 14; 114; 101; 99; 101; 105; 118; 101; 100; 95; 98; 121; 116; 101; 115; 0; 0; 0; 4; 110];
  [111; 110; 101; 0; 0; 0; 14; 114; 101; 99; 101; 105; 118; 101; 100; 95; 98; 121; 116; 101; 115; 0; 0; 0; 7; 114; 101; 103; 117; 108; 97; 114; 0; 0; 0; 4; 255; 255; 255; 255];
  [0; 0; 0; 6; 98; 105; 103; 105; 110; 116; 0; 0; 0; 12; 115; 121; 115; 116; 101; 109; 95; 118; 105; 101; 119; 115; 0; 0; 0; 17; 105; 110; 116; 101; 114; 110; 111; 100; 101; 95];
  [105; 110; 98; 111; 117; 110; 100; 0; 0; 0; 14; 114; 101; 99; 101; 105; 118; 101; 100; 95; 99; 111; 117; 110; 116; 0; 0; 0; 4; 110; 111; 110; 101; 0; 0; 0; 14; 114; 101; 99];
  [101; 105; 118; 101; 100; 95; 99; 111; 117; 110; 116; 0; 0; 0; 7; 114; 101; 103; 117; 108; 97; 114; 0; 0; 0; 4; 255; 255; 255; 255; 0; 0; 0; 6; 98; 105; 103; 105; 110; 116];
  [0; 0; 0; 12; 115; 121; 115; 116; 101; 109; 95; 118; 105; 101; 119; 115; 0; 0; 0; 17; 105; 110; 116; 101; 114; 110; 111; 100; 101; 95; 105; 110; 98; 111; 117; 110; 100; 0; 0; 0];
  [15; 115; 99; 104; 101; 100; 117; 108; 101; 100; 95; 98; 121; 116; 101; 115; 0; 0; 0; 4; 110; 111; 110; 101; 0; 0; 0; 15; 115; 99; 104; 101; 100; 117; 108; 101; 100; 95; 98; 121];
  [116; 101; 115; 0; 0; 0; 7; 114; 101; 103; 117; 108; 97; 114; 0; 0; 0; 4; 255; 255; 255; 255; 0; 0; 0; 6; 98; 105; 103; 105; 110; 116; 0; 0; 0; 12; 115; 121; 115; 116];
  [101; 109; 95; 118; 105; 101; 119; 115; 0; 0; 0; 17; 105; 110; 116; 101; 114; 110; 111; 100; 101; 95; 105; 110; 98; 111; 117; 110; 100; 0; 0; 0; 15; 115; 99; 104; 101; 100; 117; 108];
  [101; 100; 95; 99; 111; 117; 110; 116; 0; 0; 0; 4; 110; 111; 110; 101; 0; 0; 0; 15; 115; 99; 104; 101; 100; 117; 108; 101; 100; 95; 99; 111; 117; 110; 116; 0; 0; 0; 7; 114];
  [101; 103; 117; 108; 97; 114; 0; 0; 0; 4; 255; 255; 255; 255; 0; 0; 0; 6; 98; 105; 103; 105; 110; 116; 0; 0; 0; 12; 115; 121; 115; 116; 101; 109; 95; 118; 105; 101; 119; 115];
  [0; 0; 0; 17; 105; 110; 116; 101; 114; 110; 111; 100; 101; 95; 105; 110; 98; 111; 117; 110; 100; 0; 0; 0; 15; 116; 104; 114; 111; 116; 116; 108; 101; 100; 95; 99; 111; 117; 110; 116];
  [0; 0; 0; 4; 110; 111; 110; 101; 0; 0; 0; 15; 116; 104; 114; 111; 116; 116; 108; 101; 100; 95; 99; 111; 117; 110; 116; 0; 0; 0; 7; 114; 101; 103; 117; 108; 97; 114; 0; 0];
  [0; 4; 255; 255; 255; 255; 0; 0; 0; 6; 98; 105; 103; 105; 110; 116; 0; 0; 0; 12; 115; 121; 115; 116; 101; 109; 95; 118; 105; 101; 119; 115; 0; 0; 0; 17; 105; 110; 116; 101];
  [114; 110; 111; 100; 101; 95; 105; 110; 98; 111; 117; 110; 100; 0; 0; 0; 15; 116; 104; 114; 111; 116; 116; 108; 101; 100; 95; 110; 97; 110; 111; 115; 0; 0; 0; 4; 110; 111; 110; 101];
  [0; 0; 0; 15; 116; 104; 114; 111; 116; 116; 108; 101; 100; 95; 110; 97; 110; 111; 115; 0; 0; 0; 7; 114; 101; 103; 117; 108; 97; 114; 0; 0; 0; 4; 255; 255; 255; 255; 0; 0];
  [0; 6; 98; 105; 103; 105; 110; 116; 0; 0; 0; 12; 115; 121; 115; 116; 101; 109; 95; 118; 105; 101; 119; 115; 0; 0; 0; 17; 105; 110; 116; 101; 114; 110; 111; 100; 101; 95; 105; 110];
  [98; 111; 117; 110; 100; 0; 0; 0; 11; 117; 115; 105; 110; 103; 95; 98; 121; 116; 101; 115; 0; 0; 0; 4; 110; 111; 110; 101; 0; 0; 0; 11; 117; 115; 105; 110; 103; 95; 98; 121];
  [116; 101; 115; 0; 0; 0; 7; 114; 101; 103; 117; 108; 97; 114; 0; 0; 0; 4; 255; 255; 255; 255; 0; 0; 0; 6; 98; 105; 103; 105; 110; 116; 0; 0; 0; 12; 115; 121; 115; 116];
  [101; 109; 95; 118; 105; 101; 119; 115; 0; 0; 0; 17; 105; 110; 116; 101; 114; 110; 111; 100; 101; 95; 105; 110; 98; 111; 117; 110; 100; 0; 0; 0; 19; 117; 115; 105; 110; 103; 95; 114];
  [101; 115; 101; 114; 118; 101; 95; 98; 121; 116; 101; 115; 0; 0; 0; 4; 110; 111; 110; 101; 0; 0; 0; 19; 117; 115; 105; 110; 103; 95; 114; 101; 115; 101; 114; 118; 101; 95; 98; 121];
  [116; 101; 115; 0; 0; 0; 7; 114; 101; 103; 117; 108; 97; 114; 0; 0; 0; 4; 255; 255; 255; 255; 0; 0; 0; 6; 98; 105; 103; 105; 110; 116; 0; 0; 0; 12; 115; 121; 115; 116];
  [101; 109; 95; 118; 105; 101; 119; 115; 0; 0; 0; 18; 105; 110; 116; 101; 114; 110; 111; 100; 101; 95; 111; 117; 116; 98; 111; 117; 110; 100; 0; 0; 0; 18; 97; 99; 116; 105; 118; 101];
  [95; 99; 111; 110; 110; 101; 99; 116; 105; 111; 110; 115; 0; 0; 0; 4; 110; 111; 110; 101; 0; 0; 0; 18; 97; 99; 116; 105; 118; 101; 95; 99; 111; 110; 110; 101; 99; 116; 105; 111];
  [110; 115; 0; 0; 0; 7; 114; 101; 103; 117; 108; 97; 114; 0; 0; 0; 4; 255; 255; 255; 255; 0; 0; 0; 6; 98; 105; 103; 105; 110; 116; 0; 0; 0; 12; 115; 121; 115; 116; 101];
  [109; 95; 118; 105; 101; 119; 115; 0; 0; 0; 18; 105; 110; 116; 101; 114; 110; 111; 100; 101; 95; 111; 117; 116; 98; 111; 117; 110; 100; 0; 0; 0; 7; 97; 100; 100; 114; 101; 115; 115];
  [0; 0; 0; 4; 110; 111; 110; 101; 0; 0; 0; 7; 97; 100; 100; 114; 101; 115; 115; 0; 0; 0; 13; 112; 97; 114; 116; 105; 116; 105; 111; 110; 95; 107; 101; 121; 0; 0; 0; 4];
  [0; 0; 0; 0; 0; 0; 0; 4; 105; 110; 101; 116; 0; 0; 0; 12; 115; 121; 115; 116; 101; 109; 95; 118; 105; 101; 119; 115; 0; 0; 0; 18; 105; 110; 116; 101; 114; 110; 111; 100];
  [101; 95; 111; 117; 116; 98; 111; 117; 110; 100; 0; 0; 0; 19; 99; 111; 110; 110; 101; 99; 116; 105; 111; 110; 95; 97; 116; 116; 101; 109; 112; 116; 115; 0; 0; 0; 4; 110; 111; 110];
  [101; 0; 0; 0; 19; 99; 111; 110; 110; 101; 99; 116; 105; 111; 110; 95; 97; 116; 116; 101; 109; 112; 116; 115; 0; 0; 0; 7; 114; 101; 103; 117; 108; 97; 114; 0; 0; 0; 4; 255];
  [255; 255; 255; 0; 0; 0; 6; 98; 105; 103; 105; 110; 116; 0; 0; 0; 12; 115; 121; 115; 116; 101; 109; 95; 118; 105; 101; 119; 115; 0; 0; 0; 18; 105; 110; 116; 101; 114; 110; 111];
  [100; 101; 95; 111; 117; 116; 98; 111; 117; 110; 100; 0; 0; 0; 2; 100; 99; 0; 0; 0; 3; 97; 115; 99; 0; 0; 0; 2; 100; 99; 0; 0; 0; 10; 99; 108; 117; 115; 116; 101];
  [114; 105; 110; 103; 0; 0; 0; 4; 0; 0; 0; 0; 0; 0; 0; 4; 116; 101; 120; 116; 0; 0; 0; 12; 115; 121; 115; 116; 101; 109; 95; 118; 105; 101; 119; 115; 0; 0; 0; 18];
  [105; 110; 116; 101; 114; 110; 111; 100; 101; 95; 111; 117; 116; 98; 111; 117; 110; 100; 0; 0; 0; 11; 101; 114; 114; 111; 114; 95; 98; 121; 116; 101; 115; 0; 0; 0; 4; 110; 111; 110];
  [101; 0; 0; 0; 11; 101; 114; 114; 111; 114; 95; 98; 121; 116; 101; 115; 0; 0; 0; 7; 114; 101; 103; 117; 108; 97; 114; 0; 0; 0; 4; 255; 255; 255; 255; 0; 0; 0; 6; 98];
  [105; 103; 105; 110; 116; 0; 0; 0; 12; 115; 121; 115; 116; 101; 109; 95; 118; 105; 101; 119; 115; 0; 0; 0; 18; 105; 110; 116; 101; 114; 110; 111; 100; 101; 95; 111; 117; 116; 98; 111];
  [117; 110; 100; 0; 0; 0; 11; 101; 114; 114; 111; 114; 95; 99; 111; 117; 110; 116; 0; 0; 0; 4; 110; 111; 110; 101; 0; 0; 0; 11; 101; 114; 114; 111; 114; 95; 99; 111; 117; 110];
  [116; 0; 0; 0; 7; 114; 101; 103; 117; 108; 97; 114; 0; 0; 0; 4; 255; 255; 255; 255; 0; 0; 0; 6; 98; 105; 103; 105; 110; 116; 0; 0; 0; 12; 115; 121; 115; 116; 101; 109];
  [95; 118; 105; 101; 119; 115; 0; 0; 0; 18; 105; 110; 116; 101; 114; 110; 111; 100; 101; 95; 111; 117; 116; 98; 111; 117; 110; 100; 0; 0; 0; 13; 101; 120; 112; 105; 114; 101; 100; 95];
  [98; 121; 116; 101; 115; 0; 0; 0; 4; 110; 111; 110; 101; 0; 0; 0; 13; 101; 120; 112; 105; 114; 101; 100; 95; 98; 121; 116; 101; 115; 0; 0; 0; 7; 114; 101; 103; 117; 108; 97];
  [114; 0; 0; 0; 4; 255; 255; 255; 255; 0; 0; 0; 6; 98; 105; 103; 105; 110; 116; 0; 0; 0; 12; 115; 121; 115; 116; 101; 109; 95; 118; 105; 101; 119; 115; 0; 0; 0; 18; 105];
  [110; 116; 101; 114; 110; 111; 100; 101; 95; 111; 117; 116; 98; 111; 117; 110; 100; 0; 0; 0; 13; 101; 120; 112; 105; 114; 101; 100; 95; 99; 111; 117; 110; 116; 0; 0; 0; 4; 110; 111];
  [110; 101; 0; 0; 0; 13; 101; 120; 112; 105; 114; 101; 100; 95; 99; 111; 117; 110; 116; 0; 0; 0; 7; 114; 101; 103; 117; 108; 97; 114; 0; 0; 0; 4; 255; 255; 255; 255; 0; 0];
  [0; 6; 98; 105; 103; 105; 110; 116; 0; 0; 0; 12; 115; 121; 115; 116; 101; 109; 95; 118; 105; 101; 119; 115; 0; 0; 0; 18; 105; 110; 116; 101; 114; 110; 111; 100; 101; 95; 111; 117];
  [116; 98; 111; 117; 110; 100; 0; 0; 0; 14; 111; 118; 101; 114; 108; 111; 97; 100; 95; 98; 121; 116; 101; 115; 0; 0; 0; 4; 110; 111; 110; 101; 0; 0; 0; 14; 111; 118; 101; 114];
  [108; 111; 97; 100; 95; 98; 121; 116; 101; 115; 0; 0; 0; 7; 114; 101; 103; 117; 108; 97; 114; 0; 0; 0; 4; 255; 255; 255; 255; 0; 0; 0; 6; 98; 105; 103; 105; 110; 116; 0];
  [0; 0; 12; 115; 121; 115; 116; 101; 109; 95; 118; 105; 101; 119; 115; 0; 0; 0; 18; 105; 110; 116; 101; 114; 110; 111; 100; 101; 95; 111; 117; 116; 98; 111; 117; 110; 100; 0; 0; 0];
  [14; 111; 118; 101; 114; 108; 111; 97; 100; 95; 99; 111; 117; 110; 116; 0; 0; 0; 4; 110; 111; 110; 101; 0; 0; 0; 14; 111; 118; 101; 114; 108; 111; 97; 100; 95; 99; 111; 117; 110];
  [116; 0; 0; 0; 7; 114; 101; 103; 117; 108; 97; 114; 0; 0; 0; 4; 255; 255; 255; 255; 0; 0; 0; 6; 98; 105; 103; 105; 110; 116; 0; 0; 0; 12; 115; 121; 115; 116; 101; 109];
  [95; 118; 105; 101; 119; 115; 0; 0; 0; 18; 105; 110; 116; 101; 114; 110; 111; 100; 101; 95; 111; 117; 116; 98; 111; 117; 110; 100; 0; 0; 0; 13; 112; 101; 110; 100; 105; 110; 103; 95];
  [98; 121; 116; 101; 115; 0; 0; 0; 4; 110; 111; 110; 101; 0; 0; 0; 13; 112; 101; 110; 100; 105; 110; 103; 95; 98; 121; 116; 101; 115; 0; 0; 0; 7; 114; 101; 103; 117; 108; 97];
  [114; 0; 0; 0; 4; 255; 255; 255; 255; 0; 0; 0; 6; 98; 105; 103; 105; 110; 116; 0; 0; 0; 12; 115; 121; 115; 116; 101; 109; 95; 118; 105; 101; 119; 115; 0; 0; 0; 18; 105];
  [110; 116; 101; 114; 110; 111; 100; 101; 95; 111; 117; 116; 98; 111; 117; 110; 100; 0; 0; 0; 13; 112; 101; 110; 100; 105; 110; 103; 95; 99; 111; 117; 110; 116; 0; 0; 0; 4; 110; 111];
  [110; 101; 0; 0; 0; 13; 112; 101; 110; 100; 105; 110; 103; 95; 99; 111; 117; 110; 116; 0; 0; 0; 7; 114; 101; 103; 117; 108; 97; 114; 0; 0; 0; 4; 255; 255; 255; 255; 0; 0];
  [0; 6; 98; 105; 103; 105; 110; 116; 0; 0; 0; 12; 115; 121; 115; 116; 101; 109; 95; 118; 105; 101; 119; 115; 0; 0; 0; 18; 105; 110; 116; 101; 114; 110; 111; 100; 101; 95; 111; 117];
  [116; 98; 111; 117; 110; 100; 0; 0; 0; 4; 112; 111; 114; 116; 0; 0; 0; 4; 110; 111; 110; 101; 0; 0; 0; 4; 112; 111; 114; 116; 0; 0; 0; 13; 112; 97; 114; 116; 105; 116];
  [105; 111; 110; 95; 107; 101; 121; 0; 0; 0; 4; 0; 0; 0; 1; 0; 0; 0; 3; 105; 110; 116; 0; 0; 0; 12; 115; 121; 115; 116; 101; 109; 95; 118; 105; 101; 119; 115; 0; 0];
  [0; 18; 105; 110; 116; 101; 114; 110; 111; 100; 101; 95; 111; 117; 116; 98; 111; 117; 110; 100; 0; 0; 0; 4; 114; 97; 99; 107; 0; 0; 0; 3; 97; 115; 99; 0; 0; 0; 4; 114];
  [97; 99; 107; 0; 0; 0; 10; 99; 108; 117; 115; 116; 101; 114; 105; 110; 103; 0; 0; 0; 4; 0; 0; 0; 1; 0; 0; 0; 4; 116; 101; 120; 116; 0; 0; 0; 12; 115; 121; 115];
  [116; 101; 109; 95; 118; 105; 101; 119; 115; 0; 0; 0; 18; 105; 110; 116; 101; 114; 110; 111; 100; 101; 95; 111; 117; 116; 98; 111; 117; 110; 100; 0; 0; 0; 10; 115; 101; 110; 116; 95];
  [98; 121; 116; 101; 115; 0; 0; 0; 4; 110; 111; 110; 101; 0; 0; 0; 10; 115; 101; 110; 116; 95; 98; 121; 116; 101; 115; 0; 0; 0; 7; 114; 101; 103; 117; 108; 97; 114; 0; 0];
  [0; 4; 255; 255; 255; 255; 0; 0; 0; 6; 98; 105; 103; 105; 110; 116; 0; 0; 0; 12; 115; 121; 115; 116; 101; 109; 95; 118; 105; 101; 119; 115; 0; 0; 0; 18; 105; 110; 116; 101];
  [114; 110; 111; 100; 101; 95; 111; 117; 116; 98; 111; 117; 110; 100; 0; 0; 0; 10; 115; 101; 110; 116; 95; 99; 111; 117; 110; 116; 0; 0; 0; 4; 110; 111; 110; 101; 0; 0; 0; 10];
  [115; 101; 110; 116; 95; 99; 111; 117; 110; 116; 0; 0; 0; 7; 114; 101; 103; 117; 108; 97; 114; 0; 0; 0; 4; 255; 255; 255; 255; 0; 0; 0; 6; 98; 105; 103; 105; 110; 116; 0];
  [0; 0; 12; 115; 121; 115; 116; 101; 109; 95; 118; 105; 101; 119; 115; 0; 0; 0; 18; 105; 110; 116; 101; 114; 110; 111; 100; 101; 95; 111; 117; 116; 98; 111; 117; 110; 100; 0; 0; 0];
  [30; 115; 117; 99; 99; 101; 115; 115; 102; 117; 108; 95; 99; 111; 110; 110; 101; 99; 116; 105; 111; 110; 95; 97; 116; 116; 101; 109; 112; 116; 115; 0; 0; 0; 4; 110; 111; 110; 101; 0];
  [0; 0; 30; 115; 117; 99; 99; 101; 115; 115; 102; 117; 108; 95; 99; 111; 110; 110; 101; 99; 116; 105; 111; 110; 95; 97; 116; 116; 101; 109; 112; 116; 115; 0; 0; 0; 7; 114; 101; 103];
  [117; 108; 97; 114; 0; 0; 0; 4; 255; 255; 255; 255; 0; 0; 0; 6; 98; 105; 103; 105; 110; 116; 0; 0; 0; 12; 115; 121; 115; 116; 101; 109; 95; 118; 105; 101; 119; 115; 0; 0];
  [0; 18; 105; 110; 116; 101; 114; 110; 111; 100; 101; 95; 111; 117; 116; 98; 111; 117; 110; 100; 0; 0; 0; 11; 117; 115; 105; 110; 103; 95; 98; 121; 116; 101; 115; 0; 0; 0; 4; 110];
  [111; 110; 101; 0; 0; 0; 11; 117; 115; 105; 110; 103; 95; 98; 121; 116; 101; 115; 0; 0; 0; 7; 114; 101; 103; 117; 108; 97; 114; 0; 0; 0; 4; 255; 255; 255; 255; 0; 0; 0];
  [6; 98; 105; 103; 105; 110; 116; 0; 0; 0; 12; 115; 121; 115; 116; 101; 109; 95; 118; 105; 101; 119; 115; 0; 0; 0; 18; 105; 110; 116; 101; 114; 110; 111; 100; 101; 95; 111; 117; 116];
  [98; 111; 117; 110; 100; 0; 0; 0; 19; 117; 115; 105; 110; 103; 95; 114; 101; 115; 101; 114; 118; 101; 95; 98; 121; 116; 101; 115; 0; 0; 0; 4; 110; 111; 110; 101; 0; 0; 0; 19];
  [117; 115; 105; 110; 103; 95; 114; 101; 115; 101; 114; 118; 101; 95; 98; 121; 116; 101; 115; 0; 0; 0; 7; 114; 101; 103; 117; 108; 97; 114; 0; 0; 0; 4; 255; 255; 255; 255; 0; 0];
  [0; 6; 98; 105; 103; 105; 110; 116; 0; 0; 0; 12; 115; 121; 115; 116; 101; 109; 95; 118; 105; 101; 119; 115; 0; 0; 0; 18; 108; 111; 99; 97; 108; 95; 114; 101; 97; 100; 95; 108];
  [97; 116; 101; 110; 99; 121; 0; 0; 0; 5; 99; 111; 117; 110; 116; 0; 0; 0; 4; 110; 111; 110; 101; 0; 0; 0; 5; 99; 111; 117; 110; 116; 0; 0; 0; 7; 114; 101; 103; 117];
  [108; 97; 114; 0; 0; 0; 4; 255; 255; 255; 255; 0; 0; 0; 6; 98; 105; 103; 105; 110; 116; 0; 0; 0; 12; 115; 121; 115; 116; 101; 109; 95; 118; 105; 101; 119; 115; 0; 0; 0];
  [18; 108; 111; 99; 97; 108; 95; 114; 101; 97; 100; 95; 108; 97; 116; 101; 110; 99; 121; 0; 0; 0; 13; 107; 101; 121; 115; 112; 97; 99; 101; 95; 110; 97; 109; 101; 0; 0; 0; 4];
  [110; 111; 110; 101; 0; 0; 0; 13; 107; 101; 121; 115; 112; 97; 99; 101; 95; 110; 97; 109; 101; 0; 0; 0; 13; 112; 97; 114; 116; 105; 116; 105; 111; 110; 95; 107; 101; 121; 0; 0];
  [0; 4; 0; 0; 0; 0; 0; 0; 0; 4; 116; 101; 120; 116; 0; 0; 0; 12; 115; 121; 115; 116; 101; 109; 95; 118; 105; 101; 119; 115; 0; 0; 0; 18; 108; 111; 99; 97; 108; 95];
  [114; 101; 97; 100; 95; 108; 97; 116; 101; 110; 99; 121; 0; 0; 0; 6; 109; 97; 120; 95; 109; 115; 0; 0; 0; 4; 110; 111; 110; 101; 0; 0; 0; 6; 109; 97; 120; 95; 109; 115];
  [0; 0; 0; 7; 114; 101; 103; 117; 108; 97; 114; 0; 0; 0; 4; 255; 255; 255; 255; 0; 0; 0; 6; 100; 111; 117; 98; 108; 101; 0; 0; 0; 12; 115; 121; 115; 116; 101; 109; 95];
  [118; 105; 101; 119; 115; 0; 0; 0; 18; 108; 111; 99; 97; 108; 95; 114; 101; 97; 100; 95; 108; 97; 116; 101; 110; 99; 121; 0; 0; 0; 8; 112; 53; 48; 116; 104; 95; 109; 115; 0];
  [0; 0; 4; 110; 111; 110; 101; 0; 0; 0; 8; 112; 53; 48; 116; 104; 95; 109; 115; 0; 0; 0; 7; 114; 101; 103; 117; 108; 97; 114; 0; 0; 0; 4; 255; 255; 255; 255; 0; 0];
  [0; 6; 100; 111; 117; 98; 108; 101; 0; 0; 0; 12; 115; 121; 115; 116; 101; 109; 95; 118; 105; 101; 119; 115; 0; 0; 0; 18; 108; 111; 99; 97; 108; 95; 114; 101; 97; 100; 95; 108];
  [97; 116; 101; 110; 99; 121; 0; 0; 0; 8; 112; 57; 57; 116; 104; 95; 109; 115; 0; 0; 0; 4; 110; 111; 110; 101; 0; 0; 0; 8; 112; 57; 57; 116; 104; 95; 109; 115; 0; 0];
  [0; 7; 114; 101; 103; 117; 108; 97; 114; 0; 0; 0; 4; 255; 255; 255; 255; 0; 0; 0; 6; 100; 111; 117; 98; 108; 101; 0; 0; 0; 12; 115; 121; 115; 116; 101; 109; 95; 118; 105];
  [101; 119; 115; 0; 0; 0; 18; 108; 111; 99; 97; 108; 95; 114; 101; 97; 100; 95; 108; 97; 116; 101; 110; 99; 121; 0; 0; 0; 10; 112; 101; 114; 95; 115; 101; 99; 111; 110; 100; 0];
  [0; 0; 4; 110; 111; 110; 101; 0; 0; 0; 10; 112; 101; 114; 95; 115; 101; 99; 111; 110; 100; 0; 0; 0; 7; 114; 101; 103; 117; 108; 97; 114; 0; 0; 0; 4; 255; 255; 255; 255];
  [0; 0; 0; 6; 100; 111; 117; 98; 108; 101; 0; 0; 0; 12; 115; 121; 115; 116; 101; 109; 95; 118; 105; 101; 119; 115; 0; 0; 0; 18; 108; 111; 99; 97; 108; 95; 114; 101; 97; 100];
  [95; 108; 97; 116; 101; 110; 99; 121; 0; 0; 0; 10; 116; 97; 98; 108; 101; 95; 110; 97; 109; 101; 0; 0; 0; 4; 110; 111; 110; 101; 0; 0; 0; 10; 116; 97; 98; 108; 101; 95];
  [110; 97; 109; 101; 0; 0; 0; 13; 112; 97; 114; 116; 105; 116; 105; 111; 110; 95; 107; 101; 121; 0; 0; 0; 4; 0; 0; 0; 1; 0; 0; 0; 4; 116; 101; 120; 116; 0; 0; 0];
  [12; 115; 121; 115; 116; 101; 109; 95; 118; 105; 101; 119; 115; 0; 0; 0; 18; 108; 111; 99; 97; 108; 95; 115; 99; 97; 110; 95; 108; 97; 116; 101; 110; 99; 121; 0; 0; 0; 5; 99];
  [111; 117; 110; 116; 0; 0; 0; 4; 110; 111; 110; 101; 0; 0; 0; 5; 99; 111; 117; 110; 116; 0; 0; 0; 7; 114; 101; 103; 117; 108; 97; 114; 0; 0; 0; 4; 255; 255; 255; 255];
  [0; 0; 0; 6; 98; 105; 103; 105; 110; 116; 0; 0; 0; 12; 115; 121; 115; 116; 101; 109; 95; 118; 105; 101; 119; 115; 0; 0; 0; 18; 108; 111; 99; 97; 108; 95; 115; 99; 97; 110];
  [95; 108; 97; 116; 101; 110; 99; 121; 0; 0; 0; 13; 107; 101; 121; 115; 112; 97; 99; 101; 95; 110; 97; 109; 101; 0; 0; 0; 4; 110; 111; 110; 101; 0; 0; 0; 13; 107; 101; 121];
  [115; 112; 97; 99; 101; 95; 110; 97; 109; 101; 0; 0; 0; 13; 112; 97; 114; 116; 105; 116; 105; 111; 110; 95; 107; 101; 121; 0; 0; 0; 4; 0; 0; 0; 0; 0; 0; 0; 4; 116];
  [101; 120; 116; 0; 0; 0; 12; 115; 121; 115; 116; 101; 109; 95; 118; 105; 101; 119; 115; 0; 0; 0; 18; 108; 111; 99; 97; 108; 95; 115; 99; 97; 110; 95; 108; 97; 116; 101; 110; 99];
  [121; 0; 0; 0; 6; 109; 97; 120; 95; 109; 115; 0; 0; 0; 4; 110; 111; 110; 101; 0; 0; 0; 6; 109; 97; 120; 95; 109; 115; 0; 0; 0; 7; 114; 101; 103; 117; 108; 97; 114];
  [0; 0; 0; 4; 255; 255; 255; 255; 0; 0; 0; 6; 100; 111; 117; 98; 108; 101; 0; 0; 0; 12; 115; 121; 115; 116; 101; 109; 95; 118; 105; 101; 119; 115; 0; 0; 0; 18; 108; 111];
  [99; 97; 108; 95; 115; 99; 97; 110; 95; 108; 97; 116; 101; 110; 99; 121; 0; 0; 0; 8; 112; 53; 48; 116; 104; 95; 109; 115; 0; 0; 0; 4; 110; 111; 110; 101; 0; 0; 0; 8];
  [112; 53; 48; 116; 104; 95; 109; 115; 0; 0; 0; 7; 114; 101; 103; 117; 108; 97; 114; 0; 0; 0; 4; 255; 255; 255; 255; 0; 0; 0; 6; 100; 111; 117; 98; 108; 101; 0; 0; 0];
  [12; 115; 121; 115; 116; 101; 109; 95; 118; 105; 101; 119; 115; 0; 0; 0; 18; 108; 111; 99; 97; 108; 95; 115; 99; 97; 110; 95; 108; 97; 116; 101; 110; 99; 121; 0; 0; 0; 8; 112];
  [57; 57; 116; 104; 95; 109; 115; 0; 0; 0; 4; 110; 111; 110; 101; 0; 0; 0; 8; 112; 57; 57; 116; 104; 95; 109; 115; 0; 0; 0; 7; 114; 101; 103; 117; 108; 97; 114; 0; 0];
  [0; 4; 255; 255; 255; 255; 0; 0; 0; 6; 100; 111; 117; 98; 108; 101; 0; 0; 0; 12; 115; 121; 115; 116; 101; 109; 95; 118; 105; 101; 119; 115; 0; 0; 0; 18; 108; 111; 99; 97];
  [108; 95; 115; 99; 97; 110; 95; 108; 97; 116; 101; 110; 99; 121; 0; 0; 0; 10; 112; 101; 114; 95; 115; 101; 99; 111; 110; 100; 0; 0; 0; 4; 110; 111; 110; 101; 0; 0; 0; 10];
  [112; 101; 114; 95; 115; 101; 99; 111; 110; 100; 0; 0; 0; 7; 114; 101; 103; 117; 108; 97; 114; 0; 0; 0; 4; 255; 255; 255; 255; 0; 0; 0; 6; 100; 111; 117; 98; 108; 101; 0];
  [0; 0; 12; 115; 121; 115; 116; 101; 109; 95; 118; 105; 101; 119; 115; 0; 0; 0; 18; 108; 111; 99; 97; 108; 95; 115; 99; 97; 110; 95; 108; 97; 116; 101; 110; 99; 121; 0; 0; 0];
  [10; 116; 97; 98; 108; 101; 95; 110; 97; 109; 101; 0; 0; 0; 4; 110; 111; 110; 101; 0; 0; 0; 10; 116; 97; 98; 108; 101; 95; 110; 97; 109; 101; 0; 0; 0; 13; 112; 97; 114];
  [116; 105; 116; 105; 111; 110; 95; 107; 101; 121; 0; 0; 0; 4; 0; 0; 0; 1; 0; 0; 0; 4; 116; 101; 120; 116; 0; 0; 0; 12; 115; 121; 115; 116; 101; 109; 95; 118; 105; 101];
  [119; 115; 0; 0; 0; 19; 108; 111; 99; 97; 108; 95; 119; 114; 105; 116; 101; 95; 108; 97; 116; 101; 110; 99; 121; 0; 0; 0; 5; 99; 111; 117; 110; 116; 0; 0; 0; 4; 110; 111];
  [110; 101; 0; 0; 0; 5; 99; 111; 117; 110; 116; 0; 0; 0; 7; 114; 101; 103; 117; 108; 97; 114; 0; 0; 0; 4; 255; 255; 255; 255; 0; 0; 0; 6; 98; 105; 103; 105; 110; 116];
  [0; 0; 0; 12; 115; 121; 115; 116; 101; 109; 95; 118; 105; 101; 119; 115; 0; 0; 0; 19; 108; 111; 99; 97; 108; 95; 119; 114; 105; 116; 101; 95; 108; 97; 116; 101; 110; 99; 121; 0];
  [0; 0; 13; 107; 101; 121; 115; 112; 97; 99; 101; 95; 110; 97; 109; 101; 0; 0; 0; 4; 110; 111; 110; 101; 0; 0; 0; 13; 107; 101; 121; 115; 112; 97; 99; 101; 95; 110; 97; 109];
  [101; 0; 0; 0; 13; 112; 97; 114; 116; 105; 116; 105; 111; 110; 95; 107; 101; 121; 0; 0; 0; 4; 0; 0; 0; 0; 0; 0; 0; 4; 116; 101; 120; 116; 0; 0; 0; 12; 115; 121];
  [115; 116; 101; 109; 95; 118; 105; 101; 119; 115; 0; 0; 0; 19; 108; 111; 99; 97; 108; 95; 119; 114; 105; 116; 101; 95; 108; 97; 116; 101; 110; 99; 121; 0; 0; 0; 6; 109; 97; 120];
  [95; 109; 115; 0; 0; 0; 4; 110; 111; 110; 101; 0; 0; 0; 6; 109; 97; 120; 95; 109; 115; 0; 0; 0; 7; 114; 101; 103; 117; 108; 97; 114; 0; 0; 0; 4; 255; 255; 255; 255];
  [0; 0; 0; 6; 100; 111; 117; 98; 108; 101; 0; 0; 0; 12; 115; 121; 115; 116; 101; 109; 95; 118; 105; 101; 119; 115; 0; 0; 0; 19; 108; 111; 99; 97; 108; 95; 119; 114; 105; 116];
  [101; 95; 108; 97; 116; 101; 110; 99; 121; 0; 0; 0; 8; 112; 53; 48; 116; 104; 95; 109; 115; 0; 0; 0; 4; 110; 111; 110; 101; 0; 0; 0; 8; 112; 53; 48; 116; 104; 95; 109];
  [115; 0; 0; 0; 7; 114; 101; 103; 117; 108; 97; 114; 0; 0; 0; 4; 255; 255; 255; 255; 0; 0; 0; 6; 100; 111; 117; 98; 108; 101; 0; 0; 0; 12; 115; 121; 115; 116; 101; 109];
  [95; 118; 105; 101; 119; 115; 0; 0; 0; 19; 108; 111; 99; 97; 108; 95; 119; 114; 105; 116; 101; 95; 108; 97; 116; 101; 110; 99; 121; 0; 0; 0; 8; 112; 57; 57; 116; 104; 95; 109];
  [115; 0; 0; 0; 4; 110; 111; 110; 101; 0; 0; 0; 8; 112; 57; 57; 116; 104; 95; 109; 115; 0; 0; 0; 7; 114; 101; 103; 117; 108; 97; 114; 0; 0; 0; 4; 255; 255; 255; 255];
  [0; 0; 0; 6; 100; 111; 117; 98; 108; 101; 0; 0; 0; 12; 115; 121; 115; 116; 101; 109; 95; 118; 105; 101; 119; 115; 0; 0; 0; 19; 108; 111; 99; 97; 108; 95; 119; 114; 105; 116];
  [101; 95; 108; 97; 116; 101; 110; 99; 121; 0; 0; 0; 10; 112; 101; 114; 95; 115; 101; 99; 111; 110; 100; 0; 0; 0; 4; 110; 111; 110; 101; 0; 0; 0; 10; 112; 101; 114; 95; 115];
  [101; 99; 111; 110; 100; 0; 0; 0; 7; 114; 101; 103; 117; 108; 97; 114; 0; 0; 0; 4; 255; 255; 255; 255; 0; 0; 0; 6; 100; 111; 117; 98; 108; 101; 0; 0; 0; 12; 115; 121];
  [115; 116; 101; 109; 95; 118; 105; 101; 119; 115; 0; 0; 0; 19; 108; 111; 99; 97; 108; 95; 119; 114; 105; 116; 101; 95; 108; 97; 116; 101; 110; 99; 121; 0; 0; 0; 10; 116; 97; 98];
  [108; 101; 95; 110; 97; 109; 101; 0; 0; 0; 4; 110; 111; 110; 101; 0; 0; 0; 10; 116; 97; 98; 108; 101; 95; 110; 97; 109; 101; 0; 0; 0; 13; 112; 97; 114; 116; 105; 116; 105];
  [111; 110; 95; 107; 101; 121; 0; 0; 0; 4; 0; 0; 0; 1; 0; 0; 0; 4; 116; 101; 120; 116; 0; 0; 0; 12; 115; 121; 115; 116; 101; 109; 95; 118; 105; 101; 119; 115; 0; 0];
  [0; 18; 109; 97; 120; 95; 112; 97; 114; 116; 105; 116; 105; 111; 110; 95; 115; 105; 122; 101; 0; 0; 0; 13; 107; 101; 121; 115; 112; 97; 99; 101; 95; 110; 97; 109; 101; 0; 0; 0];
  [4; 110; 111; 110; 101; 0; 0; 0; 13; 107; 101; 121; 115; 112; 97; 99; 101; 95; 110; 97; 109; 101; 0; 0; 0; 13; 112; 97; 114; 116; 105; 116; 105; 111; 110; 95; 107; 101; 121; 0];
  [0; 0; 4; 0; 0; 0; 0; 0; 0; 0; 4; 116; 101; 120; 116; 0; 0; 0; 12; 115; 121; 115; 116; 101; 109; 95; 118; 105; 101; 119; 115; 0; 0; 0; 18; 109; 97; 120; 95; 112];
  [97; 114; 116; 105; 116; 105; 111; 110; 95; 115; 105; 122; 101; 0; 0; 0; 9; 109; 101; 98; 105; 98; 121; 116; 101; 115; 0; 0; 0; 4; 110; 111; 110; 101; 0; 0; 0; 9; 109; 101];
  [98; 105; 98; 121; 116; 101; 115; 0; 0; 0; 7; 114; 101; 103; 117; 108; 97; 114; 0; 0; 0; 4; 255; 255; 255; 255; 0; 0; 0; 6; 98; 105; 103; 105; 110; 116; 0; 0; 0; 12];
  [115; 121; 115; 116; 101; 109; 95; 118; 105; 101; 119; 115; 0; 0; 0; 18; 109; 97; 120; 95; 112; 97; 114; 116; 105; 116; 105; 111; 110; 95; 115; 105; 122; 101; 0; 0; 0; 10; 116; 97];
  [98; 108; 101; 95; 110; 97; 109; 101; 0; 0; 0; 4; 110; 111; 110; 101; 0; 0; 0; 10; 116; 97; 98; 108; 101; 95; 110; 97; 109; 101; 0; 0; 0; 13; 112; 97; 114; 116; 105; 116];
  [105; 111; 110; 95; 107; 101; 121; 0; 0; 0; 4; 0; 0; 0; 1; 0; 0; 0; 4; 116; 101; 120; 116; 0; 0; 0; 12; 115; 121; 115; 116; 101; 109; 95; 118; 105; 101; 119; 115; 0];
  [0; 0; 13; 114; 111; 119; 115; 95; 112; 101; 114; 95; 114; 101; 97; 100; 0; 0; 0; 5; 99; 111; 117; 110; 116; 0; 0; 0; 4; 110; 111; 110; 101; 0; 0; 0; 5; 99; 111; 117];
  [110; 116; 0; 0; 0; 7; 114; 101; 103; 117; 108; 97; 114; 0; 0; 0; 4; 255; 255; 255; 255; 0; 0; 0; 6; 98; 105; 103; 105; 110; 116; 0; 0; 0; 12; 115; 121; 115; 116; 101];
  [109; 95; 118; 105; 101; 119; 115; 0; 0; 0; 13; 114; 111; 119; 115; 95; 112; 101; 114; 95; 114; 101; 97; 100; 0; 0; 0; 13; 107; 101; 121; 115; 112; 97; 99; 101; 95; 110; 97; 109];
  [101; 0; 0; 0; 4; 110; 111; 110; 101; 0; 0; 0; 13; 107; 101; 121; 115; 112; 97; 99; 101; 95; 110; 97; 109; 101; 0; 0; 0; 13; 112; 97; 114; 116; 105; 116; 105; 111; 110; 95];
  [107; 101; 121; 0; 0; 0; 4; 0; 0; 0; 0; 0; 0; 0; 4; 116; 101; 120; 116; 0; 0; 0; 12; 115; 121; 115; 116; 101; 109; 95; 118; 105; 101; 119; 115; 0; 0; 0; 13; 114];
  [111; 119; 115; 95; 112; 101; 114; 95; 114; 101; 97; 100; 0; 0; 0; 3; 109; 97; 120; 0; 0; 0; 4; 110; 111; 110; 101; 0; 0; 0; 3; 109; 97; 120; 0; 0; 0; 7; 114; 101];
  [103; 117; 108; 97; 114; 0; 0; 0; 4; 255; 255; 255; 255; 0; 0; 0; 6; 100; 111; 117; 98; 108; 101; 0; 0; 0; 12; 115; 121; 115; 116; 101; 109; 95; 118; 105; 101; 119; 115; 0];
  [0; 0; 13; 114; 111; 119; 115; 95; 112; 101; 114; 95; 114; 101; 97; 100; 0; 0; 0; 5; 112; 53; 48; 116; 104; 0; 0; 0; 4; 110; 111; 110; 101; 0; 0; 0; 5; 112; 53; 48];
  [116; 104; 0; 0; 0; 7; 114; 101; 103; 117; 108; 97; 114; 0; 0; 0; 4; 255; 255; 255; 255; 0; 0; 0; 6; 100; 111; 117; 98; 108; 101; 0; 0; 0; 12; 115; 121; 115; 116; 101];
  [109; 95; 118; 105; 101; 119; 115; 0; 0; 0; 13; 114; 111; 119; 115; 95; 112; 101; 114; 95; 114; 101; 97; 100; 0; 0; 0; 5; 112; 57; 57; 116; 104; 0; 0; 0; 4; 110; 111; 110];
  [101; 0; 0; 0; 5; 112; 57; 57; 116; 104; 0; 0; 0; 7; 114; 101; 103; 117; 108; 97; 114; 0; 0; 0; 4; 255; 255; 255; 255; 0; 0; 0; 6; 100; 111; 117; 98; 108; 101; 0];
  [0; 0; 12; 115; 121; 115; 116; 101; 109; 95; 118; 105; 101; 119; 115; 0; 0; 0; 13; 114; 111; 119; 115; 95; 112; 101; 114; 95; 114; 101; 97; 100; 0; 0; 0; 10; 116; 97; 98; 108];
  [101; 95; 110; 97; 109; 101; 0; 0; 0; 4; 110; 111; 110; 101; 0; 0; 0; 10; 116; 97; 98; 108; 101; 95; 110; 97; 109; 101; 0; 0; 0; 13; 112; 97; 114; 116; 105; 116; 105; 111];
  [110; 95; 107; 101; 121; 0; 0; 0; 4; 0; 0; 0; 1; 0; 0; 0; 4; 116; 101; 120; 116; 0; 0; 0; 12; 115; 121; 115; 116; 101; 109; 95; 118; 105; 101; 119; 115; 0; 0; 0];
  [8; 115; 101; 116; 116; 105; 110; 103; 115; 0; 0; 0; 4; 110; 97; 109; 101; 0; 0; 0; 4; 110; 111; 110; 101; 0; 0; 0; 4; 110; 97; 109; 101; 0; 0; 0; 13; 112; 97; 114];
  [116; 105; 116; 105; 111; 110; 95; 107; 101; 121; 0; 0; 0; 4; 0; 0; 0; 0; 0; 0; 0; 4; 116; 101; 120; 116; 0; 0; 0; 12; 115; 121; 115; 116; 101; 109; 95; 118; 105; 101];
  [119; 115; 0; 0; 0; 8; 115; 101; 116; 116; 105; 110; 103; 115; 0; 0; 0; 5; 118; 97; 108; 117; 101; 0; 0; 0; 4; 110; 111; 110; 101; 0; 0; 0; 5; 118; 97; 108; 117; 101];
  [0; 0; 0; 7; 114; 101; 103; 117; 108; 97; 114; 0; 0; 0; 4; 255; 255; 255; 255; 0; 0; 0; 4; 116; 101; 120; 116; 0; 0; 0; 12; 115; 121; 115; 116; 101; 109; 95; 118; 105];
  [101; 119; 115; 0; 0; 0; 13; 115; 115; 116; 97; 98; 108; 101; 95; 116; 97; 115; 107; 115; 0; 0; 0; 16; 99; 111; 109; 112; 108; 101; 116; 105; 111; 110; 95; 114; 97; 116; 105; 111];
  [0; 0; 0; 4; 110; 111; 110; 101; 0; 0; 0; 16; 99; 111; 109; 112; 108; 101; 116; 105; 111; 110; 95; 114; 97; 116; 105; 111; 0; 0; 0; 7; 114; 101; 103; 117; 108; 97; 114; 0];
  [0; 0; 4; 255; 255; 255; 255; 0; 0; 0; 6; 100; 111; 117; 98; 108; 101; 0; 0; 0; 12; 115; 121; 115; 116; 101; 109; 95; 118; 105; 101; 119; 115; 0; 0; 0; 13; 115; 115; 116];
  [97; 98; 108; 101; 95; 116; 97; 115; 107; 115; 0; 0; 0; 13; 107; 101; 121; 115; 112; 97; 99; 101; 95; 110; 97; 109; 101; 0; 0; 0; 4; 110; 111; 110; 101; 0; 0; 0; 13; 107];
  [101; 121; 115; 112; 97; 99; 101; 95; 110; 97; 109; 101; 0; 0; 0; 13; 112; 97; 114; 116; 105; 116; 105; 111; 110; 95; 107; 101; 121; 0; 0; 0; 4; 0; 0; 0; 0; 0; 0; 0];
  [4; 116; 101; 120; 116; 0; 0; 0; 12; 115; 121; 115; 116; 101; 109; 95; 118; 105; 101; 119; 115; 0; 0; 0; 13; 115; 115; 116; 97; 98; 108; 101; 95; 116; 97; 115; 107; 115; 0; 0];
  [0; 4; 107; 105; 110; 100; 0; 0; 0; 4; 110; 111; 110; 101; 0; 0; 0; 4; 107; 105; 110; 100; 0; 0; 0; 7; 114; 101; 103; 117; 108; 97; 114; 0; 0; 0; 4; 255; 255; 255];
  [255; 0; 0; 0; 4; 116; 101; 120; 116; 0; 0; 0; 12; 115; 121; 115; 116; 101; 109; 95; 118; 105; 101; 119; 115; 0; 0; 0; 13; 115; 115; 116; 97; 98; 108; 101; 95; 116; 97; 115];
  [107; 115; 0; 0; 0; 8; 112; 114; 111; 103; 114; 101; 115; 115; 0; 0; 0; 4; 110; 111; 110; 101; 0; 0; 0; 8; 112; 114; 111; 103; 114; 101; 115; 115; 0; 0; 0; 7; 114; 101];
  [103; 117; 108; 97; 114; 0; 0; 0; 4; 255; 255; 255; 255; 0; 0; 0; 6; 98; 105; 103; 105; 110; 116; 0; 0; 0; 12; 115; 121; 115; 116; 101; 109; 95; 118; 105; 101; 119; 115; 0];
  [0; 0; 13; 115; 115; 116; 97; 98; 108; 101; 95; 116; 97; 115; 107; 115; 0; 0; 0; 10; 116; 97; 98; 108; 101; 95; 110; 97; 109; 101; 0; 0; 0; 3; 97; 115; 99; 0; 0; 0];
  [10; 116; 97; 98; 108; 101; 95; 110; 97; 109; 101; 0; 0; 0; 10; 99; 108; 117; 115; 116; 101; 114; 105; 110; 103; 0; 0; 0; 4; 0; 0; 0; 0; 0; 0; 0; 4; 116; 101; 120];
  [116; 0; 0; 0; 12; 115; 121; 115; 116; 101; 109; 95; 118; 105; 101; 119; 115; 0; 0; 0; 13; 115; 115; 116; 97; 98; 108; 101; 95; 116; 97; 115; 107; 115; 0; 0; 0; 7; 116; 97];
  [115; 107; 95; 105; 100; 0; 0; 0; 3; 97; 115; 99; 0; 0; 0; 7; 116; 97; 115; 107; 95; 105; 100; 0; 0; 0; 10; 99; 108; 117; 115; 116; 101; 114; 105; 110; 103; 0; 0; 0];
  [4; 0; 0; 0; 1; 0; 0; 0; 4; 117; 117; 105; 100; 0; 0; 0; 12; 115; 121; 115; 116; 101; 109; 95; 118; 105; 101; 119; 115; 0; 0; 0; 13; 115; 115; 116; 97; 98; 108; 101];
  [95; 116; 97; 115; 107; 115; 0; 0; 0; 5; 116; 111; 116; 97; 108; 0; 0; 0; 4; 110; 111; 110; 101; 0; 0; 0; 5; 116; 111; 116; 97; 108; 0; 0; 0; 7; 114; 101; 103; 117];
  [108; 97; 114; 0; 0; 0; 4; 255; 255; 255; 255; 0; 0; 0; 6; 98; 105; 103; 105; 110; 116; 0; 0; 0; 12; 115; 121; 115; 116; 101; 109; 95; 118; 105; 101; 119; 115; 0; 0; 0];
  [13; 115; 115; 116; 97; 98; 108; 101; 95; 116; 97; 115; 107; 115; 0; 0; 0; 4; 117; 110; 105; 116; 0; 0; 0; 4; 110; 111; 110; 101; 0; 0; 0; 4; 117; 110; 105; 116; 0; 0];
  [0; 7; 114; 101; 103; 117; 108; 97; 114; 0; 0; 0; 4; 255; 255; 255; 255; 0; 0; 0; 4; 116; 101; 120; 116; 0; 0; 0; 12; 115; 121; 115; 116; 101; 109; 95; 118; 105; 101; 119];
  [115; 0; 0; 0; 17; 115; 121; 115; 116; 101; 109; 95; 112; 114; 111; 112; 101; 114; 116; 105; 101; 115; 0; 0; 0; 4; 110; 97; 109; 101; 0; 0; 0; 4; 110; 111; 110; 101; 0; 0];
  [0; 4; 110; 97; 109; 101; 0; 0; 0; 13; 112; 97; 114; 116; 105; 116; 105; 111; 110; 95; 107; 101; 121; 0; 0; 0; 4; 0; 0; 0; 0; 0; 0; 0; 4; 116; 101; 120; 116; 0];
  [0; 0; 12; 115; 121; 115; 116; 101; 109; 95; 118; 105; 101; 119; 115; 0; 0; 0; 17; 115; 121; 115; 116; 101; 109; 95; 112; 114; 111; 112; 101; 114; 116; 105; 101; 115; 0; 0; 0; 5];
  [118; 97; 108; 117; 101; 0; 0; 0; 4; 110; 111; 110; 101; 0; 0; 0; 5; 118; 97; 108; 117; 101; 0; 0; 0; 7; 114; 101; 103; 117; 108; 97; 114; 0; 0; 0; 4; 255; 255; 255];
  [255; 0; 0; 0; 4; 116; 101; 120; 116; 0; 0; 0; 12; 115; 121; 115; 116; 101; 109; 95; 118; 105; 101; 119; 115; 0; 0; 0; 12; 116; 104; 114; 101; 97; 100; 95; 112; 111; 111; 108];
  [115; 0; 0; 0; 12; 97; 99; 116; 105; 118; 101; 95; 116; 97; 115; 107; 115; 0; 0; 0; 4; 110; 111; 110; 101; 0; 0; 0; 12; 97; 99; 116; 105; 118; 101; 95; 116; 97; 115; 107];
  [115; 0; 0; 0; 7; 114; 101; 103; 117; 108; 97; 114; 0; 0; 0; 4; 255; 255; 255; 255; 0; 0; 0; 3; 105; 110; 116; 0; 0; 0; 12; 115; 121; 115; 116; 101; 109; 95; 118; 105];
  [101; 119; 115; 0; 0; 0; 12; 116; 104; 114; 101; 97; 100; 95; 112; 111; 111; 108; 115; 0; 0; 0; 18; 97; 99; 116; 105; 118; 101; 95; 116; 97; 115; 107; 115; 95; 108; 105; 109; 105];
  [116; 0; 0; 0; 4; 110; 111; 110; 101; 0; 0; 0; 18; 97; 99; 116; 105; 118; 101; 95; 116; 97; 115; 107; 115; 95; 108; 105; 109; 105; 116; 0; 0; 0; 7; 114; 101; 103; 117; 108];
  [97; 114; 0; 0; 0; 4; 255; 255; 255; 255; 0; 0; 0; 3; 105; 110; 116; 0; 0; 0; 12; 115; 121; 115; 116; 101; 109; 95; 118; 105; 101; 119; 115; 0; 0; 0; 12; 116; 104; 114];
  [101; 97; 100; 95; 112; 111; 111; 108; 115; 0; 0; 0; 13; 98; 108; 111; 99; 107; 101; 100; 95; 116; 97; 115; 107; 115; 0; 0; 0; 4; 110; 111; 110; 101; 0; 0; 0; 13; 98; 108];
  [111; 99; 107; 101; 100; 95; 116; 97; 115; 107; 115; 0; 0; 0; 7; 114; 101; 103; 117; 108; 97; 114; 0; 0; 0; 4; 255; 255; 255; 255; 0; 0; 0; 6; 98; 105; 103; 105; 110; 116];
  [0; 0; 0; 12; 115; 121; 115; 116; 101; 109; 95; 118; 105; 101; 119; 115; 0; 0; 0; 12; 116; 104; 114; 101; 97; 100; 95; 112; 111; 111; 108; 115; 0; 0; 0; 22; 98; 108; 111; 99];
  [107; 101; 100; 95; 116; 97; 115; 107; 115; 95; 97; 108; 108; 95; 116; 105; 109; 101; 0; 0; 0; 4; 110; 111; 110; 101; 0; 0; 0; 22; 98; 108; 111; 99; 107; 101; 100; 95; 116; 97];
  [115; 107; 115; 95; 97; 108; 108; 95; 116; 105; 109; 101; 0; 0; 0; 7; 114; 101; 103; 117; 108; 97; 114; 0; 0; 0; 4; 255; 255; 255; 255; 0; 0; 0; 6; 98; 105; 103; 105; 110];
  [116; 0; 0; 0; 12; 115; 121; 115; 116; 101; 109; 95; 118; 105; 101; 119; 115; 0; 0; 0; 12; 116; 104; 114; 101; 97; 100; 95; 112; 111; 111; 108; 115; 0; 0; 0; 15; 99; 111; 109];
  [112; 108; 101; 116; 101; 100; 95; 116; 97; 115; 107; 115; 0; 0; 0; 4; 110; 111; 110; 101; 0; 0; 0; 15; 99; 111; 109; 112; 108; 101; 116; 101; 100; 95; 116; 97; 115; 107; 115; 0];
  [0; 0; 7; 114; 101; 103; 117; 108; 97; 114; 0; 0; 0; 4; 255; 255; 255; 255; 0; 0; 0; 6; 98; 105; 103; 105; 110; 116; 0; 0; 0; 12; 115; 121; 115; 116; 101; 109; 95; 118];
  [105; 101; 119; 115; 0; 0; 0; 12; 116; 104; 114; 101; 97; 100; 95; 112; 111; 111; 108; 115; 0; 0; 0; 4; 110; 97; 109; 101; 0; 0; 0; 4; 110; 111; 110; 101; 0; 0; 0; 4];
  [110; 97; 109; 101; 0; 0; 0; 13; 112; 97; 114; 116; 105; 116; 105; 111; 110; 95; 107; 101; 121; 0; 0; 0; 4; 0; 0; 0; 0; 0; 0; 0; 4; 116; 101; 120; 116; 0; 0; 0];
  [12; 115; 121; 115; 116; 101; 109; 95; 118; 105; 101; 119; 115; 0; 0; 0; 12; 116; 104; 114; 101; 97; 100; 95; 112; 111; 111; 108; 115; 0; 0; 0; 13; 112; 101; 110; 100; 105; 110; 103];
  [95; 116; 97; 115; 107; 115; 0; 0; 0; 4; 110; 111; 110; 101; 0; 0; 0; 13; 112; 101; 110; 100; 105; 110; 103; 95; 116; 97; 115; 107; 115; 0; 0; 0; 7; 114; 101; 103; 117; 108];
  [97; 114; 0; 0; 0; 4; 255; 255; 255; 255; 0; 0; 0; 3; 105; 110; 116; 0; 0; 0; 12; 115; 121; 115; 116; 101; 109; 95; 118; 105; 101; 119; 115; 0; 0; 0; 19; 116; 111; 109];
  [98; 115; 116; 111; 110; 101; 115; 95; 112; 101; 114; 95; 114; 101; 97; 100; 0; 0; 0; 5; 99; 111; 117; 110; 116; 0; 0; 0; 4; 110; 111; 110; 101; 0; 0; 0; 5; 99; 111; 117];
  [110; 116; 0; 0; 0; 7; 114; 101; 103; 117; 108; 97; 114; 0; 0; 0; 4; 255; 255; 255; 255; 0; 0; 0; 6; 98; 105; 103; 105; 110; 116; 0; 0; 0; 12; 115; 121; 115; 116; 101];
  [109; 95; 118; 105; 101; 119; 115; 0; 0; 0; 19; 116; 111; 109; 98; 115; 116; 111; 110; 101; 115; 95; 112; 101; 114; 95; 114; 101; 97; 100; 0; 0; 0; 13; 107; 101; 121; 115; 112; 97];
  [99; 101; 95; 110; 97; 109; 101; 0; 0; 0; 4; 110; 111; 110; 101; 0; 0; 0; 13; 107; 101; 121; 115; 112; 97; 99; 101; 95; 110; 97; 109; 101; 0; 0; 0; 13; 112; 97; 114; 116];
  [105; 116; 105; 111; 110; 95; 107; 101; 121; 0; 0; 0; 4; 0; 0; 0; 0; 0; 0; 0; 4; 116; 101; 120; 116; 0; 0; 0; 12; 115; 121; 115; 116; 101; 109; 95; 118; 105; 101; 119];
  [115; 0; 0; 0; 19; 116; 111; 109; 98; 115; 116; 111; 110; 101; 115; 95; 112; 101; 114; 95; 114; 101; 97; 100; 0; 0; 0; 3; 109; 97; 120; 0; 0; 0; 4; 110; 111; 110; 101; 0];
  [0; 0; 3; 109; 97; 120; 0; 0; 0; 7; 114; 101; 103; 117; 108; 97; 114; 0; 0; 0; 4; 255; 255; 255; 255; 0; 0; 0; 6; 100; 111; 117; 98; 108; 101; 0; 0; 0; 12; 115];
  [121; 115; 116; 101; 109; 95; 118; 105; 101; 119; 115; 0; 0; 0; 19; 116; 111; 109; 98; 115; 116; 111; 110; 101; 115; 95; 112; 101; 114; 95; 114; 101; 97; 100; 0; 0; 0; 5; 112; 53];
  [48; 116; 104; 0; 0; 0; 4; 110; 111; 110; 101; 0; 0; 0; 5; 112; 53; 48; 116; 104; 0; 0; 0; 7; 114; 101; 103; 117; 108; 97; 114; 0; 0; 0; 4; 255; 255; 255; 255; 0];
  [0; 0; 6; 100; 111; 117; 98; 108; 101; 0; 0; 0; 12; 115; 121; 115; 116; 101; 109; 95; 118; 105; 101; 119; 115; 0; 0; 0; 19; 116; 111; 109; 98; 115; 116; 111; 110; 101; 115; 95];
  [112; 101; 114; 95; 114; 101; 97; 100; 0; 0; 0; 5; 112; 57; 57; 116; 104; 0; 0; 0; 4; 110; 111; 110; 101; 0; 0; 0; 5; 112; 57; 57; 116; 104; 0; 0; 0; 7; 114; 101];
  [103; 117; 108; 97; 114; 0; 0; 0; 4; 255; 255; 255; 255; 0; 0; 0; 6; 100; 111; 117; 98; 108; 101; 0; 0; 0; 12; 115; 121; 115; 116; 101; 109; 95; 118; 105; 101; 119; 115; 0];
  [0; 0; 19; 116; 111; 109; 98; 115; 116; 111; 110; 101; 115; 95; 112; 101; 114; 95; 114; 101; 97; 100; 0; 0; 0; 10; 116; 97; 98; 108; 101; 95; 110; 97; 109; 101; 0; 0; 0; 4];
  [110; 111; 110; 101; 0; 0; 0; 10; 116; 97; 98; 108; 101; 95; 110; 97; 109; 101; 0; 0; 0; 13; 112; 97; 114; 116; 105; 116; 105; 111; 110; 95; 107; 101; 121; 0; 0; 0; 4; 0];
  [0; 0; 1; 0; 0; 0; 4; 116; 101; 120; 116; 0; 0; 0; 21; 115; 121; 115; 116; 101; 109; 95; 118; 105; 114; 116; 117; 97; 108; 95; 115; 99; 104; 101; 109; 97; 0; 0; 0; 7];
  [99; 111; 108; 117; 109; 110; 115; 0; 0; 0; 16; 99; 108; 117; 115; 116; 101; 114; 105; 110; 103; 95; 111; 114; 100; 101; 114; 0; 0; 0; 4; 110; 111; 110; 101; 0; 0; 0; 16; 99];
  [108; 117; 115; 116; 101; 114; 105; 110; 103; 95; 111; 114; 100; 101; 114; 0; 0; 0; 7; 114; 101; 103; 117; 108; 97; 114; 0; 0; 0; 4; 255; 255; 255; 255; 0; 0; 0; 4; 116; 101];
  [120; 116; 0; 0; 0; 21; 115; 121; 115; 116; 101; 109; 95; 118; 105; 114; 116; 117; 97; 108; 95; 115; 99; 104; 101; 109; 97; 0; 0; 0; 7; 99; 111; 108; 117; 109; 110; 115; 0; 0];
  [0; 11; 99; 111; 108; 117; 109; 110; 95; 110; 97; 109; 101; 0; 0; 0; 3; 97; 115; 99; 0; 0; 0; 11; 99; 111; 108; 117; 109; 110; 95; 110; 97; 109; 101; 0; 0; 0; 10; 99];
  [108; 117; 115; 116; 101; 114; 105; 110; 103; 0; 0; 0; 4; 0; 0; 0; 1; 0; 0; 0; 4; 116; 101; 120; 116; 0; 0; 0; 21; 115; 121; 115; 116; 101; 109; 95; 118; 105; 114; 116];
  [117; 97; 108; 95; 115; 99; 104; 101; 109; 97; 0; 0; 0; 7; 99; 111; 108; 117; 109; 110; 115; 0; 0; 0; 17; 99; 111; 108; 117; 109; 110; 95; 110; 97; 109; 101; 95; 98; 121; 116];
  [101; 115; 0; 0; 0; 4; 110; 111; 110; 101; 0; 0; 0; 17; 99; 111; 108; 117; 109; 110; 95; 110; 97; 109; 101; 95; 98; 121; 116; 101; 115; 0; 0; 0; 7; 114; 101; 103; 117; 108];
  [97; 114; 0; 0; 0; 4; 255; 255; 255; 255; 0; 0; 0; 4; 98; 108; 111; 98; 0; 0; 0; 21; 115; 121; 115; 116; 101; 109; 95; 118; 105; 114; 116; 117; 97; 108; 95; 115; 99; 104];
  [101; 109; 97; 0; 0; 0; 7; 99; 111; 108; 117; 109; 110; 115; 0; 0; 0; 13; 107; 101; 121; 115; 112; 97; 99; 101; 95; 110; 97; 109; 101; 0; 0; 0; 4; 110; 111; 110; 101; 0];
  [0; 0; 13; 107; 101; 121; 115; 112; 97; 99; 101; 95; 110; 97; 109; 101; 0; 0; 0; 13; 112; 97; 114; 116; 105; 116; 105; 111; 110; 95; 107; 101; 121; 0; 0; 0; 4; 0; 0; 0];
  [0; 0; 0; 0; 4; 116; 101; 120; 116; 0; 0; 0; 21; 115; 121; 115; 116; 101; 109; 95; 118; 105; 114; 116; 117; 97; 108; 95; 115; 99; 104; 101; 109; 97; 0; 0; 0; 7; 99; 111];
  [108; 117; 109; 110; 115; 0; 0; 0; 4; 107; 105; 110; 100; 0; 0; 0; 4; 110; 111; 110; 101; 0; 0; 0; 4; 107; 105; 110; 100; 0; 0; 0; 7; 114; 101; 103; 117; 108; 97; 114];
  [0; 0; 0; 4; 255; 255; 255; 255; 0; 0; 0; 4; 116; 101; 120; 116; 0; 0; 0; 21; 115; 121; 115; 116; 101; 109; 95; 118; 105; 114; 116; 117; 97; 108; 95; 115; 99; 104; 101; 109];
  [97; 0; 0; 0; 7; 99; 111; 108; 117; 109; 110; 115; 0; 0; 0; 8; 112; 111; 115; 105; 116; 105; 111; 110; 0; 0; 0; 4; 110; 111; 110; 101; 0; 0; 0; 8; 112; 111; 115; 105];
  [116; 105; 111; 110; 0; 0; 0; 7; 114; 101; 103; 117; 108; 97; 114; 0; 0; 0; 4; 255; 255; 255; 255; 0; 0; 0; 3; 105; 110; 116; 0; 0; 0; 21; 115; 121; 115; 116; 101; 109];
  [95; 118; 105; 114; 116; 117; 97; 108; 95; 115; 99; 104; 101; 109; 97; 0; 0; 0; 7; 99; 111; 108; 117; 109; 110; 115; 0; 0; 0; 10; 116; 97; 98; 108; 101; 95; 110; 97; 109; 101];
  [0; 0; 0; 3; 97; 115; 99; 0; 0; 0; 10; 116; 97; 98; 108; 101; 95; 110; 97; 109; 101; 0; 0; 0; 10; 99; 108; 117; 115; 116; 101; 114; 105; 110; 103; 0; 0; 0; 4; 0];
  [0; 0; 0; 0; 0; 0; 4; 116; 101; 120; 116; 0; 0; 0; 21; 115; 121; 115; 116; 101; 109; 95; 118; 105; 114; 116; 117; 97; 108; 95; 115; 99; 104; 101; 109; 97; 0; 0; 0; 7];
  [99; 111; 108; 117; 109; 110; 115; 0; 0; 0; 4; 116; 121; 112; 101; 0; 0; 0; 4; 110; 111; 110; 101; 0; 0; 0; 4; 116; 121; 112; 101; 0; 0; 0; 7; 114; 101; 103; 117; 108];
  [97; 114; 0; 0; 0; 4; 255; 255; 255; 255; 0; 0; 0; 4; 116; 101; 120; 116; 0; 0; 0; 21; 115; 121; 115; 116; 101; 109; 95; 118; 105; 114; 116; 117; 97; 108; 95; 115; 99; 104];
  [101; 109; 97; 0; 0; 0; 9; 107; 101; 121; 115; 112; 97; 99; 101; 115; 0; 0; 0; 13; 107; 101; 121; 115; 112; 97; 99; 101; 95; 110; 97; 109; 101; 0; 0; 0; 4; 110; 111; 110];
  [101; 0; 0; 0; 13; 107; 101; 121; 115; 112; 97; 99; 101; 95; 110; 97; 109; 101; 0; 0; 0; 13; 112; 97; 114; 116; 105; 116; 105; 111; 110; 95; 107; 101; 121; 0; 0; 0; 4; 0];
  [0; 0; 0; 0; 0; 0; 4; 116; 101; 120; 116; 0; 0; 0; 21; 115; 121; 115; 116; 101; 109; 95; 118; 105; 114; 116; 117; 97; 108; 95; 115; 99; 104; 101; 109; 97; 0; 0; 0; 6];
  [116; 97; 98; 108; 101; 115; 0; 0; 0; 7; 99; 111; 109; 109; 101; 110; 116; 0; 0; 0; 4; 110; 111; 110; 101; 0; 0; 0; 7; 99; 111; 109; 109; 101; 110; 116; 0; 0; 0; 7];
  [114; 101; 103; 117; 108; 97; 114; 0; 0; 0; 4; 255; 255; 255; 255; 0; 0; 0; 4; 116; 101; 120; 116; 0; 0; 0; 21; 115; 121; 115; 116; 101; 109; 95; 118; 105; 114; 116; 117; 97];
  [108; 95; 115; 99; 104; 101; 109; 97; 0; 0; 0; 6; 116; 97; 98; 108; 101; 115; 0; 0; 0; 13; 107; 101; 121; 115; 112; 97; 99; 101; 95; 110; 97; 109; 101; 0; 0; 0; 4; 110];
  [111; 110; 101; 0; 0; 0; 13; 107; 101; 121; 115; 112; 97; 99; 101; 95; 110; 97; 109; 101; 0; 0; 0; 13; 112; 97; 114; 116; 105; 116; 105; 111; 110; 95; 107; 101; 121; 0; 0; 0];
  [4; 0; 0; 0; 0; 0; 0; 0; 4; 116; 101; 120; 116; 0; 0; 0; 21; 115; 121; 115; 116; 101; 109; 95; 118; 105; 114; 116; 117; 97; 108; 95; 115; 99; 104; 101; 109; 97; 0; 0];
  [0; 6; 116; 97; 98; 108; 101; 115; 0; 0; 0; 10; 116; 97; 98; 108; 101; 95; 110; 97; 109; 101; 0; 0; 0; 3; 97; 115; 99; 0; 0; 0; 10; 116; 97; 98; 108; 101; 95; 110];
  [97; 109; 101; 0; 0; 0; 10; 99; 108; 117; 115; 116; 101; 114; 105; 110; 103; 0; 0; 0; 4; 0; 0; 0; 0; 0; 0; 0; 4; 116; 101; 120; 116]].
