(* ===== verification/Metadata.v ===== *)
(** * The system tables a driver asks for: [api::cql3::Metadata]

    Models [include/api/cql3/fake_meta.hh] and [lib/api/cql3/fake_meta.cc]: the
    replies to the queries about the system tables, some canned
    ([MetaTables.v]) and some assembled column by column.

    A reply starts with its length; the four bytes of the length and what
    follows them are the part of the frame after the opcode. *)

From Stdlib Require Import ZArith Lia Strings.Byte Ascii String.
From stdpp Require Import base list list_numbers strings pretty.
From S2P Require Import Prelude Buffer OrdMap Data Catalog Text Wire SystemTables MetaTables.

Local Open Scope Z_scope.

(** ** The pieces of a reply *)

(** [total_size]: the length, in the four bytes at the start. *)
Definition total_size (size : Z) : M chars Z :=
  let size := size - 3 in
  poke_all 0 [0; 0; 0; 0];;
  (if size <? 256 then poke 3 size
   else if (256 <=? size) && (size <? 65536) then
     poke 2 (size ÷ 256);; poke 3 (size - (size ÷ 256) * 256)
   else if (65536 <=? size) && (size <? 16777216) then
     poke 1 (size ÷ (256 * 256));;
     m1 ← peek 1;
     poke 2 ((size - m1 * 256 * 256) ÷ 256);;
     m1 ← peek 1; m2 ← peek 2;
     poke 3 (size - m1 * 256 * 256 - m2 * 256)
   else mret tt);;
  mret size.

(** [add_str]: a counted string at index [i]. *)
Definition add_str (str : string) (i : Z) : M chars Z :=
  let length := s32 (slen str) in
  (if 255 <? length then poke_all i [length ÷ 256; length - (length ÷ 256) * 256]
   else poke_all i [0; length]);;
  for_each (λ j, c ← lift (string_at str j); poke (i + 2 + j) c) (seqZ 0 length);;
  mret (i + 2 + Z.max 0 length).

Definition append_hdrs (keyspace table : string) (cols : Z) : M chars Z :=
  poke_all 4 [0; 0; 0; 2];;
  poke_all 8 [0; 0; 0; 1];;
  poke_all 12 [0; 0; 0; cols];;
  count ← add_str keyspace 16;
  add_str table count.

(** A column: its name, its type and the types of its elements. *)
Record column := MkColumn { c_name : string; c_dtype : Z; c_t1 : Z; c_t2 : Z }.

Definition add_column (c : column) (count : Z) : M chars Z :=
  count ← add_str (c_name c) count;
  poke_all count [0; c_dtype c];;
  if (c_dtype c =? 34) || (c_dtype c =? 33) || (c_dtype c =? 32) then
    poke_all (count + 2) [0; c_t1 c];;
    if c_dtype c =? 33 then
      poke_all (count + 4) [0; c_t2 c];;
      mret (count + 6)
    else mret (count + 4)
  else mret (count + 2).

Fixpoint add_schema (columns : list column) (count : Z) : M chars Z :=
  match columns with
  | [] => mret count
  | c :: columns => count ← add_column c count; add_schema columns count
  end.

Definition record_metadata (count rows : Z) : M chars Z :=
  if rows <? 256 then poke_all count [0; 0; 0; rows];; mret (count + 4) else mret count.

Definition record_size (count : Z) (record : string) : M chars Z :=
  let len := s32 (slen record) in
  poke_all count [0; 0; 0; 0];;
  (if len <? 256 then poke (count + 3) len
   else if (256 <=? len) && (len <? 65536) then
     poke (count + 2) (len ÷ 256);;
     m2 ← peek (count + 2);
     poke (count + 3) (len - 256 * m2)
   else mret tt);;
  mret (count + 4).

Fixpoint add_record_loop (records : list string) (count : Z) : M chars Z :=
  match records with
  | [] => mret count
  | r :: records =>
      count ← record_size count r;
      for_each (λ j, c ← lift (string_at r j); poke (count + j) c) (seqZ 0 (s32 (slen r)));;
      add_record_loop records (count + Z.max 0 (s32 (slen r)))
  end.

Definition add_records (records : list string) (count : Z) : M chars Z :=
  count ← add_record_loop records count; mret (count + 1).

(** [append]: the first [msg_length] bytes of [meta] to the start of [body]. *)
Definition append (meta : chars) (msg_length : Z) : M chars unit :=
  for_each (λ i, v ← lift (fst (peek i meta)); poke i v) (seqZ 0 msg_length).

(** ** [meta_result] *)

(** The assembled replies: [metadata] is an uninitialised array of 4096 bytes;
    [adjust] is what is taken from [count] before [total_size]. *)
Definition assembled (garbage : chars) (keyspace table : string) (columns : list column)
    (records : list string) (adjust : Z) : M chars Z :=
  '(size, metadata) ← run_on garbage
    (count ← append_hdrs keyspace table (zlen columns);
     count ← add_schema columns count;
     count ← record_metadata count (zlen records);
     count ← (if bool_decide (records = []) then mret count else add_records records count);
     total_size (count - adjust));
  let msg_length := size + 9 in
  append metadata msg_length;;
  mret msg_length.

(** The canned ones: the rest of an array after its initialiser is zero. *)
Definition canned (meta : list Z) (array_size msg_length : Z) : M chars Z :=
  append ((byte_of_Z <$> meta) ++ replicate (Z.to_nat array_size - length meta) x00) msg_length;;
  mret msg_length.

Fixpoint columns_of (names : list string) (dtype t1 t2 : list Z) : list column :=
  match names, dtype, t1, t2 with
  | n :: names, d :: dtype, x :: t1, y :: t2 => MkColumn n d x y :: columns_of names dtype t1 t2
  | _, _, _, _ => []
  end.

Definition peers_columns : list column := columns_of
  ["peer"; "peer_port"; "data_center"; "host_id"; "native_address"; "native_port"; "preferred_ip";
   "preferred_port"; "rack"; "release_version"; "schema_version"; "tokens"]
  [16; 9; 13; 12; 16; 9; 16; 9; 13; 13; 12; 34]
  [0; 0; 0; 0; 0; 0; 0; 0; 0; 0; 0; 13]
  [0; 0; 0; 0; 0; 0; 0; 0; 0; 0; 0; 0].

Definition types_columns : list column := columns_of
  ["keyspace_name"; "type_name"; "field_names"; "field_types"]
  [13; 13; 32; 32] [0; 0; 13; 13] [0; 0; 0; 0].

Definition aggregates_columns : list column := columns_of
  ["keyspace_name"; "aggregate_name"; "argument_types"; "final_func"; "initcond"; "return_type";
   "state_func"; "state_type"]
  [13; 13; 32; 13; 13; 13; 13; 13] [0; 0; 13; 0; 0; 0; 0; 0] [0; 0; 0; 0; 0; 0; 0; 0].

Definition functions_columns : list column := columns_of
  ["keyspace_name"; "function_name"; "argument_types"; "argument_names"; "body";
   "called_on_null_input"; "language"; "return_type"]
  [13; 13; 32; 32; 13; 4; 13; 13] [0; 0; 13; 13; 0; 0; 0; 0] [0; 0; 0; 0; 0; 0; 0; 0].

Definition triggers_columns : list column := columns_of
  ["keyspace_name"; "table_name"; "trigger_name"; "options"]
  [13; 13; 13; 33] [0; 0; 0; 13] [0; 0; 0; 13].

Definition indexes_columns : list column := columns_of
  ["keyspace_name"; "table_name"; "index_name"; "kind"; "options"]
  [13; 13; 13; 13; 33] [0; 0; 0; 0; 13] [0; 0; 0; 0; 13].

Definition views_columns : list column := columns_of
  ["keyspace_name"; "view_name"; "additional_write_policy"; "base_table_id"; "base_table_name";
   "bloom_filter_fp_chance"; "caching"; "cdc"; "comment"; "compaction"; "compression";
   "crc_check_chance"; "dclocal_read_repair_chance"; "default_time_to_live"; "extensions";
   "gc_grace_seconds"; "id"; "include_all_columns"; "max_index_interval";
   "memtable_flush_period_in_ms"; "min_index_interval"; "read_repair"; "read_repair_chance";
   "speculative_retry"; "where_clause"]
  [13; 13; 13; 12; 13; 7; 33; 4; 13; 33; 33; 7; 7; 9; 33; 9; 12; 4; 9; 9; 9; 13; 7; 13; 13]
  [0; 0; 0; 0; 0; 0; 13; 0; 0; 13; 13; 0; 0; 0; 13; 0; 0; 0; 0; 0; 0; 0; 0; 0; 0]
  [0; 0; 0; 0; 0; 0; 13; 0; 0; 13; 13; 0; 0; 0; 3; 0; 0; 0; 0; 0; 0; 0; 0; 0; 0].

Definition v_keyspaces_columns : list column := columns_of ["keyspace_name"] [13] [0] [0].

Definition meta_result (garbage : chars) (query : string) : M chars Z :=
  if strstr query "peers_v2" then assembled garbage "system" "peers_v2" peers_columns [] 0
  else if strstr query "system.local" then canned local_meta 4096 1064
  else if strstr query "system_schema.keyspaces" then canned keyspaces_meta 4096 610
  else if strstr query "system_schema.tables" then canned tables_meta 20880 20880
  else if strstr query "system_schema.columns" then canned columns_meta 26982 26982
  else if strstr query "types" then assembled garbage "system_schema" "types" types_columns [] 1
  else if strstr query "aggregates" then
    assembled garbage "system_schema" "aggregates" aggregates_columns [] 1
  else if strstr query "functions" then
    assembled garbage "system_schema" "functions" functions_columns [] 1
  else if strstr query "triggers" then
    assembled garbage "system_schema" "triggers" triggers_columns [] 1
  else if strstr query "indexes" then
    assembled garbage "system_schema" "triggers" indexes_columns [] 1
  else if strstr query "views" then assembled garbage "system_schema" "views" views_columns [] 1
  else if strstr query "system_virtual_schema.keyspaces" then
    assembled garbage "system_virtual_schema" "keyspaces" v_keyspaces_columns
      ["system_views"; "system_virtual_schema"] 2
  else if strstr query "system_virtual_schema.tables" then canned v_tables_meta 1129 1129
  else if strstr query "system_virtual_schema.columns" then canned v_columns_meta 15638 15638
  else mret 0.

(** ** Layout *)

Lemma for_each_fmap {S A B} (f : B → M S unit) (g : A → B) l s :
  for_each f (g <$> l) s = for_each (λ x, f (g x)) l s.
Proof.
  revert s. induction l as [|x l IH]; intros s; [done|]. csimpl. unfold mbind, M_bind.
  destruct (f (g x) s) as [[] ?]; by rewrite ?IH.
Qed.

Lemma for_each_ext {S A} (f g : A → M S unit) l s :
  (∀ x s, f x s = g x s) → for_each f l s = for_each g l s.
Proof.
  intros Hfg. revert s. induction l as [|x l IH]; intros s; [done|]. cbn. unfold mbind, M_bind.
  rewrite Hfg. destruct (g x s) as [[] ?]; by rewrite ?IH.
Qed.

(** The copying loops of this file count from zero. *)
Lemma copy_from_zero str start (l : chars) : 0 ≤ start → start + slen str ≤ zlen l →
  for_each (λ j, c ← lift (string_at str j); poke (start + j) c) (seqZ 0 (slen str)) l =
    (Ok tt, overwrite (Z.to_nat start) (str_bytes str) l).
Proof.
  intros H0 Hl. rewrite <- copy_string_ok by done. unfold copy_string.
  replace (seqZ start (slen str)) with ((Z.add start) <$> seqZ 0 (slen str))
    by (rewrite fmap_add_seqZ; f_equal; lia).
  rewrite for_each_fmap. apply for_each_ext. intros j s. by replace (start + j - start) with j by lia.
Qed.

Lemma emits_pokes vs : emits (λ i, poke_all i vs;; mret (i + zlen vs)) (byte_of_Z <$> vs).
Proof.
  intros start l Hs Hl. unfold zlen in *. rewrite length_fmap in *.
  by erewrite M_bind_ok by (apply poke_all_ok; unfold zlen; lia).
Qed.

Lemma bytes_2 z : 0 ≤ z < 65536 → be_bytes 2 z = byte_of_Z <$> [z / 256; z].
Proof. done. Qed.

Lemma bytes_4 z : 0 ≤ z < 256 → be_bytes 4 z = byte_of_Z <$> [0; 0; 0; z].
Proof.
  intros Hz. unfold be_bytes. cbn. rewrite !Z.div_div by lia. by rewrite !Z.div_small by lia.
Qed.

Lemma add_str_emits str : slen str < 65536 → emits (add_str str) (string_enc str).
Proof.
  intros Hs start l Hst Hl. pose proof (slen_nonneg str). unfold add_str, string_enc in *.
  rewrite zlen_app, zlen_be_bytes, zlen_str_bytes in *. rewrite swrap_small by (unfold in_s; lia).
  rewrite Z.max_r by lia.
  assert (∀ l, start + 2 ≤ zlen l →
    (if 255 <? slen str then poke_all start [slen str ÷ 256; slen str - (slen str ÷ 256) * 256]
     else poke_all start [0; slen str]) l =
    (Ok tt, overwrite (Z.to_nat start) (be_bytes 2 (slen str)) l)) as Hhead.
  { intros l' Hl'. rewrite bytes_2 by lia. rewrite Z.quot_div_nonneg by lia.
    destruct (Z.ltb_spec 255 (slen str)); rewrite poke_all_ok by (unfold zlen in *; cbn; lia).
    - do 2 f_equal. cbn. f_equal. f_equal. apply byte_of_Z_eq.
      replace (slen str - slen str / 256 * 256) with (slen str + (- (slen str / 256)) * 256) by lia.
      apply Z_mod_plus_full.
    - do 2 f_equal. cbn. by rewrite Z.div_small by lia. }
  erewrite M_bind_ok by (apply Hhead; lia). unfold zlen in *.
  erewrite M_bind_ok by (apply copy_from_zero; [lia|];
    unfold zlen; rewrite length_overwrite; rewrite ?length_be_bytes; lia).
  unfold mret, M_ret. f_equal; [f_equal; lia|].
  rewrite <- overwrite_app by (rewrite length_be_bytes; rewrite str_bytes_length; unfold slen in *; lia).
  rewrite length_be_bytes. f_equal. lia.
Qed.

(** Columns as the client reads them. *)
Definition column_type (c : column) : ctype :=
  if c_dtype c =? 33 then T_map (c_t1 c) (c_t2 c)
  else if c_dtype c =? 34 then T_set (c_t1 c)
  else if c_dtype c =? 32 then T_list (c_t1 c)
  else T_basic (c_dtype c).

Definition column_wire (c : column) : list byte :=
  string_enc (c_name c) ++ be_bytes 2 (c_dtype c) ++
  (if (c_dtype c =? 34) || (c_dtype c =? 33) || (c_dtype c =? 32) then be_bytes 2 (c_t1 c) else []) ++
  (if c_dtype c =? 33 then be_bytes 2 (c_t2 c) else []).

Definition column_ok (c : column) : Prop :=
  slen (c_name c) < 65536 ∧ 0 ≤ c_dtype c < 256 ∧ 0 ≤ c_t1 c < 256 ∧ 0 ≤ c_t2 c < 256.

Lemma emits_pokes_2 d : 0 ≤ d < 256 → emits (λ i, poke_all i [0; d];; mret (i + 2)) (be_bytes 2 d).
Proof. intros Hd. rewrite bytes_2, Z.div_small by lia. apply (emits_pokes [0; d]). Qed.

Lemma add_column_emits c : column_ok c → emits (add_column c) (column_wire c).
Proof.
  intros (Hn & Hd & H1 & H2). unfold add_column, column_wire.
  apply (emits_bind (add_str (c_name c))); [by apply add_str_emits|].
  set (p d := λ i, poke_all i [0; d];; mret (i + 2)).
  assert (∀ d, 0 ≤ d < 256 → emits (p d) (be_bytes 2 d)) as Hp by apply emits_pokes_2.
  destruct (Z.eqb_spec (c_dtype c) 33) as [H33|H33]; cbn [orb]; rewrite ?orb_true_r; cbn [orb].
  - eapply emits_ext; [|apply (emits_bind (p (c_dtype c)) (λ i, p (c_t1 c) i ≫= p (c_t2 c)));
      [by apply Hp|apply emits_bind; by apply Hp]].
    intros i l. unfold p, mbind, M_bind, mret, M_ret. destruct (poke_all i _ l) as [[] ?]; try done.
    destruct (poke_all (i + 2) _ _) as [[] ?]; try done.
    replace (i + 2 + 2) with (i + 4) by lia. destruct (poke_all (i + 4) _ _) as [[] ?]; try done.
    do 2 f_equal. lia.
  - rewrite orb_false_r, app_nil_r. destruct ((c_dtype c =? 34) || (c_dtype c =? 32)) eqn:E.
    + eapply emits_ext; [|apply (emits_bind (p (c_dtype c)) (p (c_t1 c))); by apply Hp].
      intros i l. unfold p, mbind, M_bind, mret, M_ret. destruct (poke_all i _ l) as [[] ?]; try done.
      destruct (poke_all (i + 2) _ _) as [[] ?]; try done. do 2 f_equal. lia.
    + rewrite app_nil_r. by apply Hp.
Qed.

Lemma add_schema_emits columns : Forall column_ok columns →
  emits (add_schema columns) (concat (column_wire <$> columns)).
Proof.
  induction 1 as [|c columns Hc _ IH]; [apply emits_nil|].
  apply (emits_bind (add_column c)); [by apply add_column_emits|done].
Qed.

Lemma record_metadata_emits rows : 0 ≤ rows < 256 →
  emits (λ i, record_metadata i rows) (be_bytes 4 rows).
Proof.
  intros Hr. rewrite bytes_4 by done. unfold record_metadata.
  destruct (Z.ltb_spec rows 256); [|lia]. apply (emits_pokes [0; 0; 0; rows]).
Qed.

(** Records of one short column. *)
Definition record_wire (r : string) : list byte := be_bytes 4 (slen r) ++ str_bytes r.

Lemma record_size_emits r : slen r < 256 → emits (λ i, record_size i r) (be_bytes 4 (slen r)).
Proof.
  intros Hr start l Hs Hl. pose proof (slen_nonneg r). rewrite zlen_be_bytes in *.
  unfold record_size. rewrite swrap_small by (unfold in_s; lia). unfold zlen in Hl.
  erewrite M_bind_ok by (apply poke_all_ok; unfold zlen; cbn; lia).
  destruct (Z.ltb_spec (slen r) 256); [|lia].
  erewrite M_bind_ok by (apply poke_ok; unfold zlen; rewrite length_overwrite; cbn; lia).
  unfold mret, M_ret. f_equal. rewrite bytes_4 by lia.
  change (byte_of_Z <$> [0; 0; 0; 0]) with ([x00; x00; x00] ++ [x00]).
  rewrite <- overwrite_app by (cbn; lia).
  replace (Z.to_nat (start + 3)) with (Z.to_nat start + length [x00; x00; x00])%nat by (cbn; lia).
  change (byte_of_Z <$> [0; 0; 0; slen r]) with ([x00; x00; x00] ++ [byte_of_Z (slen r)]).
  rewrite <- overwrite_1 by (rewrite length_overwrite; cbn; lia).
  rewrite list_insert_insert_eq. rewrite overwrite_snoc by (cbn; lia). done.
Qed.

Lemma add_record_loop_emits records : Forall (λ r, slen r < 256) records →
  emits (add_record_loop records) (concat (record_wire <$> records)).
Proof.
  induction 1 as [|r records Hr _ IH]; [apply emits_nil|].
  pose proof (slen_nonneg r).
  assert (emits (λ i, for_each (λ j, c ← lift (string_at r j); poke (i + j) c) (seqZ 0 (slen r));;
    mret (i + slen r)) (str_bytes r)) as Hcopy.
  { intros start l Hs Hl. rewrite zlen_str_bytes in *.
    by erewrite M_bind_ok by (apply copy_from_zero; lia). }
  rewrite fmap_cons. cbn [concat]. unfold record_wire at 1. rewrite <- app_assoc.
  eapply emits_ext; [|apply (emits_bind (λ i, record_size i r)
    (λ i, (for_each (λ j, c ← lift (string_at r j); poke (i + j) c) (seqZ 0 (slen r));;
      mret (i + slen r)) ≫= add_record_loop records));
    [by apply record_size_emits|by apply emits_bind]].
  - intros i l. cbn [add_record_loop]. rewrite swrap_small, Z.max_r by (unfold in_s; lia).
    unfold mbind, M_bind, mret, M_ret. destruct (record_size i r l) as [[] ?]; try done.
    by destruct (for_each _ _ _) as [[] ?].
Qed.

(** The bytes of an assembled reply, after the length. *)
Definition meta_wire (keyspace table : string) (columns : list column) (records : list string) :
    list byte :=
  be_bytes 4 2 ++ be_bytes 4 1 ++ be_bytes 4 (zlen columns) ++ string_enc keyspace ++
  string_enc table ++ concat (column_wire <$> columns) ++ be_bytes 4 (zlen records) ++
  concat (record_wire <$> records).

Lemma append_hdrs_ok keyspace table cols (l : chars) :
  slen keyspace < 65536 → slen table < 65536 → 0 ≤ cols < 256 →
  let hdrs := be_bytes 4 2 ++ be_bytes 4 1 ++ be_bytes 4 cols ++ string_enc keyspace ++ string_enc table in
  4 + zlen hdrs ≤ zlen l →
  append_hdrs keyspace table cols l = (Ok (4 + zlen hdrs), overwrite 4 hdrs l).
Proof.
  intros Hk Ht Hc hdrs Hl. unfold append_hdrs, hdrs in *. rewrite !zlen_app, !zlen_be_bytes in *.
  pose proof (zlen_nonneg (string_enc keyspace)). pose proof (zlen_nonneg (string_enc table)).
  assert (emits (λ i, (poke_all i [0; 0; 0; 2];; mret (i + 4)) ≫= λ i,
    (poke_all i [0; 0; 0; 1];; mret (i + 4)) ≫= λ i, (poke_all i [0; 0; 0; cols];; mret (i + 4)) ≫= λ i,
    add_str keyspace i ≫= add_str table)
    (be_bytes 4 2 ++ be_bytes 4 1 ++ be_bytes 4 cols ++ string_enc keyspace ++ string_enc table)) as He.
  { apply emits_bind; [rewrite bytes_4 by lia; apply (emits_pokes [0; 0; 0; 2])|].
    apply emits_bind; [rewrite bytes_4 by lia; apply (emits_pokes [0; 0; 0; 1])|].
    apply emits_bind; [rewrite bytes_4 by lia; apply (emits_pokes [0; 0; 0; cols])|].
    apply emits_bind; by apply add_str_emits. }
  specialize (He 4 l ltac:(lia)). rewrite !zlen_app, !zlen_be_bytes in He.
  change (Z.to_nat 4) with 4%nat in He.
  rewrite <- He by lia. unfold mbind, M_bind, mret, M_ret.
  destruct (poke_all 4 _ l) as [[] l1]; try done. change (4 + 4) with 8.
  destruct (poke_all 8 _ l1) as [[] l2]; try done. change (8 + 4) with 12.
  by destruct (poke_all 12 _ l2) as [[] l3].
Qed.

Lemma total_size_ok size (l : chars) : 0 ≤ size - 3 < 65536 → 4 ≤ zlen l →
  total_size size l = (Ok (size - 3), overwrite 0 (be_bytes 4 (size - 3)) l).
Proof.
  intros Hs Hl. unfold total_size. set (n := size - 3) in *.
  assert (∃ a b c d r, l = a :: b :: c :: d :: r) as (a & b & c & d & r & ->).
  { unfold zlen in Hl. destruct l as [|a [|b [|c [|d r]]]]; cbn in Hl; try lia. by repeat eexists. }
  erewrite M_bind_ok by (apply poke_all_ok; unfold zlen in *; cbn in *; lia).
  change (overwrite (Z.to_nat 0) (byte_of_Z <$> [0; 0; 0; 0]) (a :: b :: c :: d :: r))
    with (x00 :: x00 :: x00 :: x00 :: r).
  assert (zlen (x00 :: x00 :: x00 :: x00 :: r) = 4 + zlen r) as Hz by (unfold zlen; cbn [length]; lia).
  pose proof (zlen_nonneg r).
  assert (overwrite 0 (be_bytes 4 n) (a :: b :: c :: d :: r) =
    (byte_of_Z <$> [0; 0; n / 256; n]) ++ r) as ->.
  { unfold overwrite. rewrite length_be_bytes. unfold be_bytes. cbn.
    rewrite !Z.div_div by lia. by rewrite (Z.div_small n (256 * 256)), (Z.div_small n (256 * (256 * 256))) by lia. }
  destruct (Z.ltb_spec n 256) as [Hn|Hn].
  - erewrite M_bind_ok by (apply poke_ok; lia). cbn. by rewrite Z.div_small by lia.
  - destruct (Z.leb_spec 256 n), (Z.ltb_spec n 65536); try lia. cbn [andb].
    erewrite M_bind_ok; [reflexivity|].
    erewrite M_bind_ok by (apply poke_ok; lia). rewrite poke_ok by (unfold zlen in *; rewrite length_insert; lia).
    rewrite Z.quot_div_nonneg by lia. rewrite (byte_of_Z_eq (n - n / 256 * 256) n); [done|].
    replace (n - n / 256 * 256) with (n + (- (n / 256)) * 256) by lia. apply Z_mod_plus_full.
Qed.

(** [append] copies a prefix. *)
Lemma append_ok (meta : chars) n (l : chars) : 0 ≤ n ≤ zlen meta → n ≤ zlen l →
  append meta n l = (Ok tt, overwrite 0 (take (Z.to_nat n) meta) l).
Proof.
  intros Hn Hl. unfold append. set (bs := take (Z.to_nat n) meta).
  assert (zlen bs = n) as Hbs by (unfold bs, zlen in *; rewrite length_take; lia).
  rewrite <- Hbs. apply for_each_overwrite; [lia..|]. intros k b Hk l'.
  pose proof (lookup_lt_Some _ _ _ Hk) as Hkl.
  assert (meta !! k = Some b) as Hm.
  { unfold bs in Hk. rewrite lookup_take_lt in Hk; [done|]. unfold zlen in *. lia. }
  rewrite Z.add_0_l. erewrite M_bind_ok by
    (unfold lift; rewrite (peek_ok _ b) by (rewrite ?Nat2Z.id; done || lia); reflexivity).
  rewrite poke_ok.
  - rewrite byte_of_Z_of_byte. do 2 f_equal. lia.
  - subst l'. unfold zlen in *. rewrite length_overwrite; rewrite ?length_take; lia.
Qed.

(** The part of an assembled reply after its headers. *)
Lemma add_rows_ok columns records start (l : chars) :
  Forall column_ok columns → Forall (λ r, slen r < 256) records → zlen records < 256 →
  let rest := concat (column_wire <$> columns) ++ be_bytes 4 (zlen records) ++
              concat (record_wire <$> records) in
  1 ≤ start → start + zlen rest ≤ zlen l →
  (count ← add_schema columns start;
   count ← record_metadata count (zlen records);
   if bool_decide (records = []) then mret count else add_records records count) l =
  (Ok (start + zlen rest + (if decide (records = []) then 0 else 1)), overwrite (Z.to_nat start) rest l).
Proof.
  intros Hc Hr Hn rest Hs Hl. pose proof (zlen_nonneg records).
  assert (emits (λ i, count ← add_schema columns i; count ← record_metadata count (zlen records);
    add_record_loop records count) rest) as He.
  { apply emits_bind; [by apply add_schema_emits|].
    apply (emits_bind (λ i, record_metadata i (zlen records))); [by apply record_metadata_emits|].
    by apply add_record_loop_emits. }
  specialize (He start l Hs Hl). revert He. unfold mbind, M_bind.
  destruct (add_schema columns start l) as [[i1| |] l1]; try done.
  destruct (record_metadata i1 _ l1) as [[i2| |] l2]; try done. intros He.
  destruct (decide (records = [])) as [->|Hne].
  - rewrite bool_decide_true by done. cbn in He. unfold mret, M_ret in *. rewrite He. f_equal. f_equal. lia.
  - rewrite bool_decide_false by done. unfold add_records. by erewrite M_bind_ok by exact He.
Qed.

Lemma assembled_ok garbage keyspace table columns records adjust (l : chars) :
  slen keyspace < 65536 → slen table < 65536 → Forall column_ok columns →
  zlen columns < 256 → Forall (λ r, slen r < 256) records → zlen records < 256 →
  let bs := meta_wire keyspace table columns records in
  let size := zlen bs + 1 + (if decide (records = []) then 0 else 1) - adjust in
  0 ≤ size < 4000 → zlen bs < 4000 → zlen garbage = 4096 → 4100 ≤ zlen l →
  ∃ tail, assembled garbage keyspace table columns records adjust l =
    (Ok (size + 9), overwrite 0 (take (Z.to_nat (size + 9)) (be_bytes 4 size ++ bs ++ tail)) l) ∧
    zlen tail = 4092 - zlen bs.
Proof.
  intros Hk Ht Hc Hnc Hr Hnr bs size Hsize Hbs Hg Hl. pose proof (zlen_nonneg columns).
  set (hdrs := be_bytes 4 2 ++ be_bytes 4 1 ++ be_bytes 4 (zlen columns) ++ string_enc keyspace ++ string_enc table).
  set (rest := concat (column_wire <$> columns) ++ be_bytes 4 (zlen records) ++ concat (record_wire <$> records)).
  assert (bs = hdrs ++ rest) as Hb by (unfold bs, meta_wire, hdrs, rest; by rewrite <- !app_assoc).
  assert (zlen bs = zlen hdrs + zlen rest) as Hzb by (by rewrite Hb, zlen_app).
  pose proof (zlen_nonneg hdrs). pose proof (zlen_nonneg rest). unfold zlen in Hg.
  assert (zlen (overwrite 4 hdrs garbage) = 4096) as Hz1
    by (unfold zlen in *; rewrite length_overwrite; lia).
  assert (overwrite (Z.to_nat (4 + zlen hdrs)) rest (overwrite 4 hdrs garbage) = overwrite 4 bs garbage)
    as Hov.
  { unfold zlen in *. rewrite Hb. rewrite <- overwrite_app by lia. f_equal. lia. }
  assert (zlen (overwrite 4 bs garbage) = 4096) as Hz2
    by (unfold zlen in *; rewrite length_overwrite; lia).
  set (metadata := overwrite 0 (be_bytes 4 size) (overwrite 4 bs garbage)).
  exists (drop (4 + length bs) garbage). split; [|unfold zlen in *; rewrite length_drop; lia].
  assert (metadata = be_bytes 4 size ++ bs ++ drop (4 + length bs) garbage) as Hmeta.
  { unfold metadata. unfold overwrite at 1. rewrite length_be_bytes, take_0. cbn [app].
    change (0 + 4)%nat with 4%nat. rewrite drop_overwrite by lia. done. }
  assert (zlen metadata = 4096) as Hz3 by (unfold metadata, zlen in *; rewrite length_overwrite;
    rewrite ?length_be_bytes; lia).
  unfold assembled.
  assert (∀ m : M chars Z, m garbage = (Ok size, metadata) →
    run_on (S := chars) garbage m l = (Ok (size, metadata), l)) as Hro
    by (intros m Hm; unfold run_on; by rewrite Hm).
  erewrite M_bind_ok; [|apply Hro].
  - cbv beta iota zeta. erewrite M_bind_ok by (apply append_ok; lia). unfold mret, M_ret. by rewrite <- Hmeta.
  - erewrite M_bind_ok by (apply append_hdrs_ok; [done|done|lia|fold hdrs; unfold zlen in *; lia]).
    fold hdrs. pose proof (add_rows_ok columns records (4 + zlen hdrs) (overwrite 4 hdrs garbage)
      Hc Hr Hnr ltac:(lia)) as Hrows. fold rest in Hrows. rewrite Hov in Hrows.
    specialize (Hrows ltac:(lia)). revert Hrows. unfold mbind, M_bind.
    destruct (add_schema columns _ _) as [[i1| |] l1]; try done.
    destruct (record_metadata i1 _ l1) as [[i2| |] l2]; try done.
    intros ->. rewrite total_size_ok by lia. unfold metadata.
    replace (4 + zlen hdrs + zlen rest + (if decide (records = []) then 0 else 1) - adjust - 3)
      with size by lia. done.
Qed.

(** ** The replies as the client reads them *)

Lemma p_meta_column_ok c bs : column_ok c →
  p_column (column_wire c ++ bs) = Some ((c_name c, column_type c), bs).
Proof.
  intros (Hn & Hd & H1 & H2). unfold p_column, column_wire, column_type, p_type.
  rewrite <- !app_assoc, p_string_ok by done. cbn [mbind option_bind].
  rewrite p_be_ok by lia. cbn [mbind option_bind].
  destruct (Z.eqb_spec (c_dtype c) 32) as [H32|H32].
  { rewrite H32. cbn. by rewrite p_be_ok by lia. }
  destruct (Z.eqb_spec (c_dtype c) 34) as [H34|H34].
  { rewrite H34. cbn. by rewrite p_be_ok by lia. }
  destruct (Z.eqb_spec (c_dtype c) 33) as [H33|H33]; [|done].
  cbn. rewrite p_be_ok by lia. cbn. by rewrite p_be_ok by lia.
Qed.

Lemma p_meta_value_ok r bs : slen r < 256 →
  p_value (record_wire r ++ bs) = Some (Some (str_bytes r), bs).
Proof.
  intros Hr. pose proof (slen_nonneg r). unfold p_value, record_wire. rewrite <- app_assoc.
  rewrite p_be_ok by (cbn; lia). cbn. rewrite swrap_small by (unfold in_s; lia).
  destruct (Z.ltb_spec (slen r) 0); [lia|].
  replace (Z.to_nat (slen r)) with (length (str_bytes r))
    by (rewrite str_bytes_length; unfold slen; lia). by rewrite p_take_ok.
Qed.

(** An assembled reply: no rows, or rows of one column. *)
Lemma p_meta_ok keyspace table columns records bs :
  slen keyspace < 65536 → slen table < 65536 → Forall column_ok columns → zlen columns < 256 →
  Forall (λ r, slen r < 256) records → zlen records < 256 → records = [] ∨ length columns = 1%nat →
  p_rows (meta_wire keyspace table columns records ++ bs) =
    Some (MkRows keyspace table ((λ c, (c_name c, column_type c)) <$> columns)
            ((λ r, [Some (str_bytes r)]) <$> records), bs).
Proof.
  intros Hk Ht Hc Hnc Hr Hnr Hone. pose proof (zlen_nonneg columns). pose proof (zlen_nonneg records).
  unfold p_rows, meta_wire. rewrite <- !app_assoc.
  rewrite p_be_ok by lia. cbn [mbind option_bind]. rewrite p_be_ok by lia. cbn.
  rewrite p_be_ok by (cbn; lia). cbn. rewrite p_string_ok by done. cbn.
  rewrite p_string_ok by done. cbn. unfold zlen at 1. rewrite Nat2Z.id.
  rewrite (p_repeat_ok p_column column_wire (λ c, (c_name c, column_type c)))
    by (eapply Forall_impl; [exact Hc|]; intros; by apply p_meta_column_ok).
  cbn. rewrite p_be_ok by (cbn; lia). cbn. rewrite length_fmap. unfold zlen. rewrite Nat2Z.id.
  destruct Hone as [->|H1]; [done|]. rewrite H1.
  rewrite (p_repeat_ok (p_repeat 1 p_value) record_wire (λ r, [Some (str_bytes r)])); [done|].
  eapply Forall_impl; [exact Hr|]. intros r Hlt rest. cbn. by rewrite p_meta_value_ok.
Qed.

(** A complete reply of [n] bytes: the announced length is that of the part
    behind the header, and a client reads that part as the table [rows], with
    [slack] stray bytes behind it. *)
Definition framed (n : Z) (body : chars) (rows : Rows) (slack : nat) : Prop :=
  9 ≤ n ≤ zlen body ∧ zlen body = 30000 ∧
  be_value (take 4 body) = n - 9 ∧
  ∃ rest, p_rows (take (Z.to_nat (n - 9)) (drop 4 body)) = Some (rows, rest) ∧ length rest = slack.

(** What the reader sees of a copied prefix. *)
Lemma framed_prefix size (data rest l : chars) : 0 ≤ size → size + 9 ≤ zlen data →
  data = be_bytes 4 size ++ rest →
  let body := overwrite 0 (take (Z.to_nat (size + 9)) data) l in
  take 4 body = be_bytes 4 size ∧ take (Z.to_nat size) (drop 4 body) = take (Z.to_nat size) rest.
Proof.
  intros Hs Hd -> body. unfold body, overwrite. rewrite take_0. cbn [app Nat.add].
  unfold zlen in *. rewrite length_app, length_be_bytes in Hd. split.
  - rewrite take_app_le by (rewrite length_take, length_app, length_be_bytes; lia).
    rewrite take_take, Nat.min_l by lia. rewrite take_app_le by (rewrite length_be_bytes; lia).
    by rewrite take_ge by (rewrite length_be_bytes; lia).
  - rewrite drop_app_le by (rewrite length_take, length_app, length_be_bytes; lia).
    rewrite take_app_le
      by (rewrite length_drop, length_take, length_app, length_be_bytes; lia).
    rewrite skipn_firstn_comm, take_take, Nat.min_l by lia.
    rewrite drop_app_ge by (rewrite length_be_bytes; lia). by rewrite length_be_bytes.
Qed.

Lemma assembled_framed garbage keyspace table columns records adjust (l : chars) :
  slen keyspace < 65536 → slen table < 65536 → Forall column_ok columns →
  zlen columns < 256 → Forall (λ r, slen r < 256) records → zlen records < 256 →
  records = [] ∨ length columns = 1%nat →
  let slack := 1 + (if decide (records = []) then 0 else 1) - adjust in
  0 ≤ slack ≤ 1 → zlen (meta_wire keyspace table columns records) < 3999 →
  zlen garbage = 4096 → zlen l = 30000 →
  ∃ n body, assembled garbage keyspace table columns records adjust l = (Ok n, body) ∧
    framed n body (MkRows keyspace table ((λ c, (c_name c, column_type c)) <$> columns)
      ((λ r, [Some (str_bytes r)]) <$> records)) (Z.to_nat slack).
Proof.
  intros Hk Ht Hc Hnc Hr Hnr Hone slack Hsl Hlen Hg Hl.
  pose proof (assembled_ok garbage keyspace table columns records adjust l Hk Ht Hc Hnc Hr Hnr) as Hok.
  pose proof (λ rest, p_meta_ok keyspace table columns records rest Hk Ht Hc Hnc Hr Hnr Hone) as Hp.
  set (bs := meta_wire keyspace table columns records) in *. pose proof (zlen_nonneg bs).
  cbv zeta in Hok.
  replace (zlen bs + 1 + (if decide (records = []) then 0 else 1) - adjust) with (zlen bs + slack)
    in Hok by lia.
  destruct Hok as (tail & Hrun & Htail); [lia..|]. eexists _, _. split; [exact Hrun|].
  clearbody bs slack. set (data := be_bytes 4 (zlen bs + slack) ++ bs ++ tail) in *.
  assert (zlen data = 4096) as Hd by (unfold data; rewrite !zlen_app, zlen_be_bytes; lia).
  destruct (framed_prefix (zlen bs + slack) data (bs ++ tail) l) as [H4 Hbody]; [lia|lia|done|].
  assert (zlen (overwrite 0 (take (Z.to_nat (zlen bs + slack + 9)) data) l) = 30000) as Hbl.
  { unfold zlen in *. rewrite length_overwrite; rewrite ?length_take; lia. }
  split; [rewrite Hbl; lia|]. split; [exact Hbl|].
  split; [rewrite H4, be_value_bytes, Z.mod_small; cbn; lia|].
  replace (zlen bs + slack + 9 - 9) with (zlen bs + slack) by lia. rewrite Hbody.
  rewrite take_app_ge by (unfold zlen; lia).
  eexists. split; [apply Hp|]. rewrite length_take. unfold zlen in *. lia.
Qed.

#[export] Instance ctype_eq_dec : EqDecision ctype.
Proof. solve_decision. Defined.
#[export] Instance Rows_eq_dec : EqDecision Rows.
Proof. solve_decision. Defined.

(** The check of a canned reply, by computation. *)
Definition canned_check (meta : list Z) (msg_length : Z) (rows : Rows) : bool :=
  let bs := byte_of_Z <$> meta in
  (length meta =? Z.to_nat (msg_length - 5))%nat &&
  (be_value (take 4 bs) =? msg_length - 9) &&
  bool_decide (p_rows (drop 4 bs) = Some (rows, [])).

Lemma canned_framed meta asize n rows (l : chars) :
  canned_check meta n rows = true → 9 ≤ n ≤ asize → n ≤ zlen l → zlen l = 30000 →
  ∃ body, canned meta asize n l = (Ok n, body) ∧ framed n body rows 0.
Proof.
  unfold canned_check. rewrite !andb_true_iff, Nat.eqb_eq, Z.eqb_eq, bool_decide_eq_true. intros [[Hlen H4] Hrows] Hn Hl Hl3.
  set (bs := byte_of_Z <$> meta) in *.
  assert (length bs = Z.to_nat (n - 5)) as Hbs by (unfold bs; rewrite length_fmap; lia).
  set (data := bs ++ replicate (Z.to_nat asize - length meta) x00).
  assert (zlen data = asize) as Hd
    by (unfold data, zlen; rewrite length_app, length_replicate; lia).
  eexists. split.
  { unfold canned. fold bs data. erewrite M_bind_ok by (apply append_ok; lia). done. }
  assert (be_bytes 4 (n - 9) = take 4 bs) as Hbe.
  { rewrite <- H4. unfold be_value, be_bytes.
    replace 4%nat with (length (reverse (take 4 bs))) at 1 by (rewrite length_reverse, length_take; lia).
    by rewrite le_bytes_value, reverse_involutive. }
  destruct (framed_prefix (n - 9) data (drop 4 data) l ltac:(lia) ltac:(lia)) as [Ht Hb].
  { rewrite Hbe. unfold data. rewrite (drop_app_le bs) by lia. rewrite app_assoc. by rewrite take_drop. }
  replace (n - 9 + 9) with n in Ht, Hb by lia.
  assert (zlen (overwrite 0 (take (Z.to_nat n) data) l) = 30000) as Hbl.
  { unfold zlen in *. rewrite length_overwrite; rewrite ?length_take; lia. }
  split; [rewrite Hbl; lia|]. split; [exact Hbl|]. split; [by rewrite Ht, Hbe|]. rewrite Hb.
  assert (take (Z.to_nat (n - 9)) (drop 4 data) = drop 4 bs) as ->.
  { unfold data. rewrite drop_app_le, take_app_le by (rewrite ?length_drop; lia).
    by rewrite take_ge by (rewrite length_drop; lia). }
  by exists [].
Qed.

(** ** The six canned replies *)

Lemma local_check : canned_check local_meta 1064 Tables.system_local = true.
Proof. vm_compute. reflexivity. Qed.
Lemma keyspaces_check : canned_check keyspaces_meta 610 Tables.schema_keyspaces = true.
Proof. vm_compute. reflexivity. Qed.
Lemma tables_check : canned_check tables_meta 20880 Tables.schema_tables = true.
Proof. vm_compute. reflexivity. Qed.
Lemma columns_check : canned_check columns_meta 26982 Tables.schema_columns = true.
Proof. vm_compute. reflexivity. Qed.
Lemma v_tables_check : canned_check v_tables_meta 1129 Tables.virtual_tables = true.
Proof. vm_compute. reflexivity. Qed.
Lemma v_columns_check : canned_check v_columns_meta 15638 Tables.virtual_columns = true.
Proof. vm_compute. reflexivity. Qed.

(** ** Property *)

(** Columns of short names with one-byte types. *)
Definition columns_check_ok (columns : list column) : bool :=
  forallb (λ c, (slen (c_name c) <? 65536) && (0 <=? c_dtype c) && (c_dtype c <? 256) &&
                (0 <=? c_t1 c) && (c_t1 c <? 256) && (0 <=? c_t2 c) && (c_t2 c <? 256)) columns.

Lemma columns_check_spec columns : columns_check_ok columns = true → Forall column_ok columns.
Proof.
  unfold columns_check_ok. induction columns as [|c columns IH]; [constructor|]. cbn.
  rewrite !andb_true_iff, !Z.ltb_lt, !Z.leb_le. intros [Hc Hcs]. constructor; [|by apply IH].
  unfold column_ok. lia.
Qed.

(** An assembled reply, when what the client reads of it is the table expected. *)
Lemma assembled_reads garbage k t c r a (body : chars) rows slack :
  slen k < 65536 → slen t < 65536 → columns_check_ok c = true →
  (zlen c <? 256) && forallb (λ r, slen r <? 256) r && (zlen r <? 256) = true →
  r = [] ∨ length c = 1%nat → Z.of_nat slack = 1 + (if decide (r = []) then 0 else 1) - a →
  (slack ≤ 1)%nat → zlen (meta_wire k t c r) < 3999 →
  MkRows k t ((λ c, (c_name c, column_type c)) <$> c) ((λ r, [Some (str_bytes r)]) <$> r) = rows →
  zlen garbage = 4096 → zlen body = 30000 →
  ∃ n body', assembled garbage k t c r a body = (Ok n, body') ∧ framed n body' rows slack.
Proof.
  intros Hk Ht Hc Hn Hone Hs Hs1 Hw <- Hg Hb. rewrite <- (Nat2Z.id slack), Hs.
  rewrite !andb_true_iff, !Z.ltb_lt, forallb_forall in Hn. destruct Hn as [[Hn Hr] Hnr].
  apply assembled_framed; try done; try lia.
  - by apply columns_check_spec.
  - apply Forall_forall. intros x Hx%list_elem_of_In. apply Hr in Hx. lia.
Qed.

(** Every question about the system tables that is answered at all is answered
    with a complete reply: the announced length is exactly the length of what
    follows, and what follows is, for a client, exactly the table expected; only
    the reply about peers carries one byte more.  A text that mentions none of the
    names gets no reply.  This holds whatever the uninitialised arrays contained. *)
Lemma meta_result_framed (garbage : chars) (query : string) (body : chars) :
  zlen garbage = 4096 → zlen body = 30000 →
  ∃ n body', meta_result garbage query body = (Ok n, body') ∧
    match system_table query with
    | Some t => framed n body' (sy_rows t) (sy_slack t)
    | None => n = 0 ∧ body' = body
    end.
Proof.
  intros Hg Hb. unfold meta_result, system_table, system_tables. cbn [find_system sy_mention].
  repeat match goal with
  | |- context [strstr query ?s] => destruct (strstr query s);
      [cbn [sy_rows sy_slack];
       first [apply assembled_reads; first [assumption | by vm_compute | by left | by right | by (vm_compute; split) | vm_compute; lia]
             | eexists _; apply canned_framed;
               [first [exact local_check | exact keyspaces_check | exact tables_check |
                       exact columns_check | exact v_tables_check | exact v_columns_check]|lia|lia|done]]|]
  end.
  by exists 0, body.
Qed.

(** ** The catalog and the tables *)

(** What a client reads of the reply to a question. *)
Definition reply_rows (garbage : chars) (query : string) (body : chars) : option Rows :=
  match meta_result garbage query body with
  | (Ok n, body') => fst <$> p_rows (take (Z.to_nat (n - 9)) (drop 4 body'))
  | _ => None
  end.

Lemma reply_rows_ok garbage query body t : zlen garbage = 4096 → zlen body = 30000 →
  system_table query = Some t → reply_rows garbage query body = Some (sy_rows t).
Proof.
  intros Hg Hb Ht. destruct (meta_result_framed garbage query body Hg Hb) as (n & body' & Hm & Hf).
  rewrite Ht in Hf. destruct Hf as (_ & _ & _ & rest & Hr & _). unfold reply_rows. by rewrite Hm, Hr.
Qed.

(** The names of the types in CQL; [frozen] is not part of what a column has on
    the wire. *)
Definition cql_basic (code : Z) : string :=
  if code =? 3 then "blob" else if code =? 4 then "boolean" else if code =? 7 then "double"
  else if code =? 9 then "int" else if code =? 12 then "uuid" else if code =? 13 then "text"
  else if code =? 16 then "inet" else "unknown".

Definition cql_type (t : ctype) : string :=
  match t with
  | T_basic c => cql_basic c
  | T_list c => "list<" +:+ cql_basic c +:+ ">"
  | T_set c => "set<" +:+ cql_basic c +:+ ">"
  | T_map k v => "map<" +:+ cql_basic k +:+ ", " +:+ cql_basic v +:+ ">"
  end.

Definition thawed (type : string) : string :=
  if String.prefix "frozen<" type then substring 7 (String.length type - 8) type else type.

Definition cell_text (row : list (option (list byte))) (i : nat) : string :=
  default "" (bytes_str <$> mjoin (row !! i)).

(** The columns a reply about columns describes for a table, the tables it
    describes, and the tables and keyspaces a reply lists. *)
Definition described_in (catalog : Rows) (keyspace table : string) : list (string * string) :=
  (λ row, (cell_text row 2, thawed (cell_text row 7))) <$>
    filter (λ row, cell_text row 0 = keyspace ∧ cell_text row 1 = table) (rows_content catalog).
Definition tables_in (rows : Rows) : list (string * string) :=
  remove_dups ((λ row, (cell_text row 0, cell_text row 1)) <$> rows_content rows).
Definition keyspaces_in (rows : Rows) : list string :=
  remove_dups ((λ row, cell_text row 0) <$> rows_content rows).

Definition columns_in (rows : Rows) : list (string * string) := prod_map id cql_type <$> rows_columns rows.

Lemma find_system_elem query tables t : find_system query tables = Some t → t ∈ tables.
Proof.
  induction tables as [|t' tables IH]; [done|]. cbn. destruct (strstr query (sy_mention t')).
  - intros [= ->]. apply list_elem_of_here.
  - intros H. apply list_elem_of_further. by apply IH.
Qed.

(** Every table has the columns the catalog gives it. *)
Definition catalog_check : bool :=
  forallb (λ t, bool_decide (columns_in (sy_rows t) ≡ₚ
    described_in Tables.schema_columns (sy_keyspace t) (sy_name t) ++
    described_in Tables.virtual_columns (sy_keyspace t) (sy_name t))) system_tables.

Lemma catalog_checked : catalog_check = true.
Proof. vm_compute. reflexivity. Qed.

Lemma tables_checked :
  tables_in Tables.schema_columns ≡ₚ tables_in Tables.schema_tables ∧
  tables_in Tables.virtual_columns ≡ₚ tables_in Tables.virtual_tables ∧
  keyspaces_in Tables.schema_tables ≡ₚ keyspaces_in Tables.schema_keyspaces ∧
  keyspaces_in Tables.virtual_tables ≡ₚ keyspaces_in Tables.virtual_keyspaces.
Proof. split_and!; apply (bool_decide_unpack _); vm_compute; exact I. Qed.

(** C22 (invariant): the replies about the system agree with each other.  A client
    that asks for the columns of the keyspaces and of the virtual keyspaces is
    told, for every table of the system it can ask about, exactly the names and
    the types of the columns that the reply about that table carries, up to their
    order and to [frozen]; the tables that have columns are exactly those that the
    replies about tables list, and the keyspaces of these are exactly those that
    the replies about keyspaces list.  (The table that a question about indexes is
    answered with is called [triggers], but has the columns of [indexes].)  This
    holds whatever the uninitialised arrays contained. *)
Theorem catalog_describes (garbage body : chars) :
  zlen garbage = 4096 → zlen body = 30000 →
  ∃ columns v_columns tables v_tables keyspaces v_keyspaces,
    reply_rows garbage "SELECT * FROM system_schema.columns" body = Some columns ∧
    reply_rows garbage "SELECT * FROM system_virtual_schema.columns" body = Some v_columns ∧
    reply_rows garbage "SELECT * FROM system_schema.tables" body = Some tables ∧
    reply_rows garbage "SELECT * FROM system_virtual_schema.tables" body = Some v_tables ∧
    reply_rows garbage "SELECT * FROM system_schema.keyspaces" body = Some keyspaces ∧
    reply_rows garbage "SELECT * FROM system_virtual_schema.keyspaces" body = Some v_keyspaces ∧
    (∀ query t, system_table query = Some t →
      ∃ rows, reply_rows garbage query body = Some rows ∧
        columns_in rows ≡ₚ described_in columns (sy_keyspace t) (sy_name t) ++
                           described_in v_columns (sy_keyspace t) (sy_name t)) ∧
    tables_in columns ≡ₚ tables_in tables ∧ tables_in v_columns ≡ₚ tables_in v_tables ∧
    keyspaces_in tables ≡ₚ keyspaces_in keyspaces ∧ keyspaces_in v_tables ≡ₚ keyspaces_in v_keyspaces.
Proof.
  intros Hg Hb. do 6 eexists. do 6 (split; [by apply reply_rows_ok|]). split; [|exact tables_checked].
  intros query t Ht. exists (sy_rows t). split; [by apply reply_rows_ok|].
  pose proof catalog_checked as Hc. unfold catalog_check in Hc. rewrite forallb_forall in Hc.
  apply (bool_decide_unpack _), Is_true_true, Hc, list_elem_of_In. by eapply find_system_elem.
Qed.

Lemma catalog_describes_witness :
  ∃ columns v_columns rows,
    reply_rows (replicate (Z.to_nat 4096) xaa) "SELECT * FROM system_schema.columns" (replicate (Z.to_nat 30000) x00) =
      Some columns ∧
    reply_rows (replicate (Z.to_nat 4096) xaa) "SELECT * FROM system_virtual_schema.columns"
      (replicate (Z.to_nat 30000) x00) = Some v_columns ∧
    reply_rows (replicate (Z.to_nat 4096) xaa) "SELECT * FROM system.peers_v2" (replicate (Z.to_nat 30000) x00) = Some rows ∧
    columns_in rows ≡ₚ described_in columns "system" "peers_v2" ++ described_in v_columns "system" "peers_v2".
Proof.
  destruct (catalog_describes (replicate (Z.to_nat 4096) xaa) (replicate (Z.to_nat 30000) x00))
    as (columns & v_columns & tables & v_tables & keyspaces & v_keyspaces & Hc & Hv & _ & _ & _ & _ & Hall & _).
  - unfold zlen. by rewrite length_replicate.
  - unfold zlen. by rewrite length_replicate.
  - destruct (Hall "SELECT * FROM system.peers_v2" (MkSystem "peers_v2" "system" "peers_v2" Tables.system_peers 1))
      as (rows & Hr & Hp); [reflexivity|].
    exists columns, v_columns, rows. by split_and!.
Defined.
