(* ===== verification/ServerMsg.v ===== *)
(** * Requests and their replies: [api::cql3::ServerMsg]

    Models [include/api/cql3/server_response.hh] and
    [lib/api/cql3/server_response.cc]: the options a server supports, the
    extraction of a query from the body of a frame, and [CreateResponse], which
    runs the query and writes the reply into the array [Header]; and from
    [lib/api/cql3/server.cc] how received bytes are cut into requests and how a
    reply is sent.

    The parse tree of a query, the transport between nodes, the clock and the
    contents of uninitialised arrays are parameters. *)

From Stdlib Require Import ZArith Lia Strings.Byte Ascii String.
From stdpp Require Import base list list_numbers strings gmap pretty.
From S2P Require Import Prelude Errors Buffer OrdMap Data Catalog IndexPage Summary FileSystem Disk Sstable TableManager Database.
From S2P Require Import Text Lang Wire Dht MetaTables Metadata.

Local Open Scope Z_scope.

(** ** Opcodes *)

Definition op_STARTUP : Z := 0x01.
Definition op_READY : Z := 0x02.
Definition op_OPTIONS : Z := 0x05.
Definition op_SUPPORTED : Z := 0x06.
Definition op_QUERY : Z := 0x07.
Definition op_RESULT : Z := 0x08.
Definition op_REGISTER : Z := 0x0B.

(** ** [SupportedMessage] *)

(** A text with its length in two bytes, the first always zero. *)
Definition put_short (s : string) (index : Z) : M chars Z :=
  poke_all index [0; slen s];;
  append_string (index + 2) (slen s) s.

Fixpoint put_shorts (l : list string) (index : Z) : M chars Z :=
  match l with
  | [] => mret index
  | s :: l => index ← put_short s index; put_shorts l index
  end.

(** One option: its name, then the number of its values and the values; an
    option without values gets no number either. *)
Definition put_option (o : string * list string) (index : Z) : M chars Z :=
  index ← put_short o.1 index;
  match o.2 with
  | [] => mret index
  | _ => poke_all index [0; zlen o.2];; put_shorts o.2 (index + 2)
  end.

Fixpoint put_options (os : list (string * list string)) (index : Z) : M chars Z :=
  match os with
  | [] => mret index
  | o :: os => index ← put_option o index; put_options os index
  end.

Definition SupportedMessage (supportedOptions : list (string * list string)) : M chars Z :=
  index ← match supportedOptions with
          | [] => mret 9
          | _ => poke_all 9 [0; zlen supportedOptions];; put_options supportedOptions 11
          end;
  poke 8 (index - 9);;
  mret index.

(** The [std::map] of the [OPTIONS] case, in the order of its keys. *)
Definition supported_options : list (string * list string) :=
  [("COMPRESSION", ["snappy"; "lz4"]); ("CQL_VERSION", ["3.4.5"]); ("PROTOCOL_VERSIONS", ["3/V3"])].

(** ** Queries *)

(** The loop over the body: a byte that is not positive, as [char], makes the
    next positive one be skipped too. *)
Fixpoint scan_query (body : chars) (escape_flag : bool) (query : string) : string :=
  match body with
  | [] => query
  | b :: body =>
      if s8 (Z_of_byte b) <=? 0 then scan_query body true query
      else if escape_flag then scan_query body false query
      else scan_query body false (query +:+ bytes_str [b])
  end.

Definition body_query (frame : Frame) (query : string) : outcome string :=
  if fr_max_size frame - 9 <=? 0 then Ok query else
  match fr_body frame with
  | None => Undef NullDereference
  | Some body =>
      if zlen body <? fr_max_size frame - 9 then Undef OutOfBounds
      else Ok (scan_query (take (Z.to_nat (fr_max_size frame - 9)) body) false query)
  end.

(** [query.back()]; the query is not empty. *)
Definition str_back (s : string) : outcome Z := string_at s (slen s - 1).

(** A query with a semicolon ends at the first one. *)
Definition cut_query (query : string) : outcome (bool * string) :=
  if negb (String.eqb query "") && strstr query ";" then
    last ← str_back query;
    if last =? 59 then Ok (false, query)
    else q ← str_substr query 0 (str_find query ";" + 1); Ok (false, q)
  else Ok (true, query).

(** "Handling sliced user queries": the first letter is put back. *)
Definition repair_query (query : string) : outcome string :=
  c0 ← string_at query 0;
  if tolower c0 =? 110 then Ok ("I" +:+ query)
  else if tolower c0 =? 114 then Ok ("C" +:+ query)
  else if tolower c0 =? 101 then
    c4 ← string_at query 4;
    if tolower c4 =? 99 then Ok ("S" +:+ query)
    else if tolower c4 =? 116 then Ok ("D" +:+ query)
    else Ok query
  else Ok query.

(** ** [CreateResponse] *)

Definition not_found_message : string :=
  let quote := String (ascii_of_nat 34) "" in
  "code=2200 [Invalid query] message=" +:+ quote +:+ "record couldn't be found" +:+ quote.

Section response.
Context {F : Type} `{PosixFS F}.
Context (junk : Z → byte) (strtold : string → Z).
Context (parse_tree : string → option (list CqlContext)).
Context (config : Config).
Context {St : Type} (proj : St → StateStore * world F) (inj : StateStore * world F → St → St).
Context (rpc : string → string → M St (Z * string + string)).
(** The contents of the local arrays, and a measured duration. *)
Context (garbage30000 garbage4096 garbage3500 : chars) (elapsed : Z).

Record Response := MkResponse {
  rs_query : string;
  rs_header : chars;             (* unsigned char[71680] *)
  rs_msg_length : Z;
  rs_met : list Z;               (* int[8] *)
  rs_body : chars;               (* the local array of the query's replies, char[3500] *)
  rs_db : Database;              (* the database of the server *)
  rs_net : St
}.

Abbreviation R := (M Response).

Definition set_query (q : string) (r : Response) : Response :=
  MkResponse q (rs_header r) (rs_msg_length r) (rs_met r) (rs_body r) (rs_db r) (rs_net r).
Definition set_header (h : chars) (r : Response) : Response :=
  MkResponse (rs_query r) h (rs_msg_length r) (rs_met r) (rs_body r) (rs_db r) (rs_net r).
Definition set_length (n : Z) (r : Response) : Response :=
  MkResponse (rs_query r) (rs_header r) n (rs_met r) (rs_body r) (rs_db r) (rs_net r).
Definition set_met (m : list Z) (r : Response) : Response :=
  MkResponse (rs_query r) (rs_header r) (rs_msg_length r) m (rs_body r) (rs_db r) (rs_net r).
Definition set_body (b : chars) (r : Response) : Response :=
  MkResponse (rs_query r) (rs_header r) (rs_msg_length r) (rs_met r) b (rs_db r) (rs_net r).
Definition set_net (n : St) (r : Response) : Response :=
  MkResponse (rs_query r) (rs_header r) (rs_msg_length r) (rs_met r) (rs_body r) (rs_db r) n.

Definition in_header {A} : M chars A → R A := zoom rs_header set_header.
Definition in_body {A} : M chars A → R A := zoom rs_body set_body.
Definition in_net {A} : M St A → R A := zoom rs_net set_net.
Definition msg_length (n : Z) : R unit := modify (set_length n).

(** [met\[i\] += 1], [met\[i\] = v] *)
Definition met_incr (i : nat) : R unit :=
  r ← get_state;
  match rs_met r !! i with
  | Some v => if bool_decide (in_s 32 (v + 1)) then modify (set_met (<[i := v + 1]> (rs_met r)))
              else lift (Undef SignedOverflow)
  | None => lift (Undef OutOfBounds)
  end.
Definition met_set (i : nat) (v : Z) : R unit := modify (λ r, set_met (<[i := v]> (rs_met r)) r).

(** A call on the server's database, in the node's operating system. *)
Definition on_db {A} (m : M (Database * world F) A) : R A := λ r,
  let '(o, (db, w)) := m (rs_db r, (proj (rs_net r)).2) in
  (o, MkResponse (rs_query r) (rs_header r) (rs_msg_length r) (rs_met r) (rs_body r) db
        (inj ((proj (rs_net r)).1, w) (rs_net r))).

(** [try { m } catch (c1) { ... } catch (c2) { ... }] *)
Definition try_catch {A} (m : R A) (handlers : list (exn_class * (exn → R A))) : R A := λ r,
  match m r with
  | (Throw e, r') => match first_handler handlers e with Some h => h r' | None => (Throw e, r') end
  | res => res
  end.

(** [for (i = start; i < start + size; i++) Header\[i\] = body\[i - start\];] *)
Definition copy_body (start size : Z) (body : chars) : R unit :=
  in_header (for_each (λ i, v ← lift (fst (peek (i - start) body)); poke i v) (seqZ start size)).

(** The same loop, from the array the statements of a query share. *)
Definition copy_out (start size : Z) : R unit := r ← get_state; copy_body start size (rs_body r).

Definition run_create_table (responce_version : Z) (s : CreateTableStatement) : R unit :=
  try_catch
    (on_db (CreateTableStatement_execute s);;
     met_incr 0;;
     stream_id ← in_header (peek 3);
     size1 ← in_body (schema_change (ct_keyspace s) (ct_table s));
     copy_out 2 size1;;
     in_header (poke_all (size1 + 2) [0; 1; 0]);;
     in_header (poke_all (size1 + 2) [responce_version; 0; 0; stream_id; 0x8]);;
     size2 ← in_body (QueryResult_create_table (ct_keyspace s) (ct_table s));
     in_header (poke_all (size1 + 7) [0; 0; 0; size2]);;
     copy_out (size1 + 11) size2;;
     msg_length (size1 + 2 + size2 + 12))
    [(C_unspported_cql_statement, λ _, met_incr 7)].

Definition run_insert (s : InsertStatement) : R unit :=
  try_catch
    (size ← in_body insert_record;
     met_set 3 elapsed;;
     met_incr 1;;
     copy_out 5 size;;
     msg_length (size + 5))
    [(C_schema_mismatch_error, λ _, met_incr 7)].

Definition run_select (record_str_result : string) (s : SelectStatement) : R unit :=
  schema ← on_db (read_schema (fs_table (sl_from_spec s)));
  size ← in_body
    (select_result (fs_keyspace (sl_from_spec s)) (fs_table (sl_from_spec s)) schema []
       record_str_result);
  met_set 4 elapsed;;
  met_incr 2;;
  in_header (poke_all 5 [0; 0; 0; size]);;
  copy_out 9 size;;
  msg_length (size + 9).

Definition run_statement (responce_version : Z) (record_str_result : string) (s : Statement) : R unit :=
  match s with
  | CREATE_TABLE s => run_create_table responce_version s
  | INSERT s => run_insert s
  | SELECT s => run_select record_str_result s
  end.

(** The [catch] clauses around a query. *)
Definition query_handlers : list (exn_class * (exn → R unit)) :=
  [(C_non_existent_record_error, λ _,
      in_net (here proj inj (zoom snd (λ w n, (n.1, w)) (log_err not_found_message)));; met_incr 7);
   (C_unspported_cql_statement, λ _, met_incr 7)].

(** The user's queries. *)
Definition run_query (responce_version : Z) : R unit :=
  r ← get_state;
  query ← lift (repair_query (rs_query r));
  modify (set_query query);;
  modify (set_body garbage3500);;
  try_catch
    (statements ← lift (visitRoot strtold (parse_tree query));
     record_str_result ← in_net (process junk strtold parse_tree config proj inj rpc query);
     for_each (run_statement responce_version record_str_result) statements)
    query_handlers.

(** The driver's queries about the system. *)
Definition run_meta : R unit :=
  r ← get_state;
  '(length, body) ← run_on garbage30000 (meta_result garbage4096 (rs_query r));
  msg_length length;;
  copy_body 5 (length - 5) body.

Definition handle_query (frame : Frame) (responce_version : Z) : R unit :=
  in_header (poke 4 op_RESULT);;
  r ← get_state;
  query ← lift (body_query frame (rs_query r));
  '(meta, query) ← lift (cut_query query);
  modify (set_query query);;
  if (meta : bool) then run_meta
  else if negb (String.eqb query "") then
    last ← lift (str_back query);
    if last =? 59 then run_query responce_version else mret tt
  else mret tt.

Definition CreateResponse (frame : Frame) : R Z :=
  let opcode := fr_opcode frame in
  let responce_version := fr_version frame + 0x80 in
  msg_length 9;;
  in_header (poke_all 0 [responce_version; fr_flags frame; (fr_streamID frame).1; (fr_streamID frame).2]);;
  (if opcode =? op_OPTIONS then
     in_header (poke_all 4 [op_SUPPORTED; 0; 0; 0]);;
     n ← in_header (SupportedMessage supported_options);
     msg_length n
   else if (opcode =? op_STARTUP) || (opcode =? op_REGISTER) then
     in_header (poke_all 4 [op_READY; 0; 0; 0; 0]);;
     msg_length 9
   else if opcode =? op_QUERY then handle_query frame responce_version
   else mret tt);;
  r ← get_state;
  mret (rs_msg_length r).
End response.

(** ** The options *)

(** The client's reader of a string multimap. *)
Definition p_shorts : parser (list string) := λ bs,
  '(n, bs) ← p_be 2 bs; p_repeat (Z.to_nat n) p_string bs.

Definition p_option : parser (string * list string) := λ bs,
  '(name, bs) ← p_string bs; '(values, bs) ← p_shorts bs; Some ((name, values), bs).

Definition p_options : parser (list (string * list string)) := λ bs,
  '(n, bs) ← p_be 2 bs; p_repeat (Z.to_nat n) p_option bs.

Definition option_wire (o : string * list string) : list byte :=
  string_enc o.1 ++ be_bytes 2 (zlen o.2) ++ concat (string_enc <$> o.2).

Definition options_wire (os : list (string * list string)) : list byte :=
  be_bytes 2 (zlen os) ++ concat (option_wire <$> os).

(** Options within the one-byte counts of [SupportedMessage]. *)
Definition option_ok (o : string * list string) : Prop :=
  slen o.1 < 256 ∧ o.2 ≠ [] ∧ zlen o.2 < 256 ∧ Forall (λ s, slen s < 256) o.2.

Lemma put_short_emits s : slen s < 256 → emits (put_short s) (string_enc s).
Proof.
  intros Hs. pose proof (slen_nonneg s). unfold string_enc.
  eapply emits_ext; [|apply (emits_bind (λ i, poke_all i [0; slen s];; mret (i + 2))
    (λ i, append_string i (slen s) s)); [by apply emits_pokes_2|apply emits_copy]].
  intros i l. unfold put_short, mbind, M_bind, mret, M_ret.
  by destruct (poke_all i _ l) as [[] ?].
Qed.

Lemma put_shorts_emits l : Forall (λ s, slen s < 256) l →
  emits (put_shorts l) (concat (string_enc <$> l)).
Proof.
  induction 1 as [|s l Hs _ IH]; [apply emits_nil|].
  apply (emits_bind (put_short s)); [by apply put_short_emits|done].
Qed.

Lemma put_option_emits o : option_ok o → emits (put_option o) (option_wire o).
Proof.
  intros (Hn & Hne & Hlen & Hs). unfold option_wire. pose proof (zlen_nonneg o.2).
  apply (emits_bind (put_short o.1)); [by apply put_short_emits|].
  eapply emits_ext; [|apply (emits_bind (λ i, poke_all i [0; zlen o.2];; mret (i + 2)) (put_shorts o.2));
    [by apply emits_pokes_2|by apply put_shorts_emits]].
  intros i l. unfold mbind, M_bind, mret, M_ret. destruct (poke_all i _ l) as [[] ?] eqn:He;
    destruct o as [n [|s ss]]; try done; cbn [snd] in *; by rewrite He.
Qed.

Lemma put_options_emits os : Forall option_ok os →
  emits (put_options os) (concat (option_wire <$> os)).
Proof.
  induction 1 as [|o os Ho _ IH]; [apply emits_nil|].
  apply (emits_bind (put_option o)); [by apply put_option_emits|done].
Qed.

Lemma p_options_ok os bs : Forall option_ok os → zlen os < 256 →
  p_options (options_wire os ++ bs) = Some (os, bs).
Proof.
  intros Hos Hn. pose proof (zlen_nonneg os). unfold p_options, options_wire. rewrite <- app_assoc.
  rewrite p_be_ok by (cbn; lia). cbn. unfold zlen. rewrite Nat2Z.id.
  rewrite (p_repeat_ok p_option option_wire id); [by rewrite list_fmap_id|].
  eapply Forall_impl; [exact Hos|]. intros [n vs] (Hname & _ & Hlen & Hs) rest. cbn [fst snd] in *.
  unfold p_option, option_wire, p_shorts. cbn [fst snd]. rewrite <- !app_assoc, p_string_ok by lia.
  cbn. pose proof (zlen_nonneg vs). rewrite p_be_ok by (cbn; lia). cbn. unfold zlen. rewrite Nat2Z.id.
  rewrite (p_repeat_ok p_string string_enc id); [by rewrite list_fmap_id|].
  eapply Forall_impl; [exact Hs|]. intros s Hlt rest'. cbv beta in Hlt. apply (p_string_ok s). lia.
Qed.

Lemma SupportedMessage_ok os (l : chars) : os ≠ [] → Forall option_ok os → zlen os < 256 →
  9 + zlen (options_wire os) ≤ zlen l →
  SupportedMessage os l =
    (Ok (9 + zlen (options_wire os)),
     <[8%nat := byte_of_Z (zlen (options_wire os))]> (overwrite 9 (options_wire os) l)).
Proof.
  intros Hne Hos Hn Hl. unfold SupportedMessage. pose proof (zlen_nonneg os).
  assert (emits (λ i, (poke_all i [0; zlen os];; mret (i + 2)) ≫= put_options os) (options_wire os)) as He.
  { apply emits_bind; [by apply emits_pokes_2|by apply put_options_emits]. }
  specialize (He 9 l ltac:(lia) Hl).
  assert (match os with [] => mret 9 | _ => poke_all 9 [0; zlen os];; put_options os 11 end l =
    (Ok (9 + zlen (options_wire os)), overwrite (Z.to_nat 9) (options_wire os) l)) as Hhead.
  { rewrite <- He. destruct os as [|o os']; [done|]. unfold mbind, M_bind, mret, M_ret.
    by destruct (poke_all 9 _ l) as [[] ?]. }
  erewrite M_bind_ok by exact Hhead.
  erewrite M_bind_ok by (apply poke_ok; unfold zlen in *; rewrite length_overwrite; lia).
  unfold mret, M_ret. f_equal. change (Z.to_nat 8) with 8%nat. change (Z.to_nat 9) with 9%nat.
  do 2 f_equal. lia.
Qed.

(** ** Queries as the client sent them *)

(** The characters of CQL texts: the positive values of [char]. *)
Definition plain (s : string) : Prop :=
  Forall (λ b, 1 ≤ Z_of_byte b < 128) (str_bytes s).

Lemma s8_plain b : 1 ≤ Z_of_byte b < 128 → (s8 (Z_of_byte b) <=? 0) = false.
Proof. intros Hb. rewrite swrap_small by (unfold in_s; lia). lia. Qed.

Lemma scan_plain bs rest q : Forall (λ b, 1 ≤ Z_of_byte b < 128) bs →
  scan_query (bs ++ rest) false q = scan_query rest false (q +:+ bytes_str bs).
Proof.
  intros Hbs. revert q. induction Hbs as [|b bs Hb _ IH]; intros q.
  { cbn. change (bytes_str []) with "". by rewrite str_app_nil_r. }
  cbn [app scan_query]. rewrite s8_plain by done. rewrite IH, str_app_assoc. done.
Qed.

(** What follows the text: the consistency, of which the first byte is zero. *)
Lemma scan_tail c q : scan_query [x00; c] false q = q.
Proof. cbn. by destruct (s8 (Z_of_byte c) <=? 0). Qed.

Lemma be_bytes_4 z : 0 ≤ z < 256 → be_bytes 4 z = [x00; x00; x00; byte_of_Z z].
Proof. intros. by rewrite bytes_4. Qed.

Lemma scan_request text c : plain text → 1 ≤ slen text < 256 →
  scan_query (be_bytes 4 (slen text) ++ str_bytes text ++ [x00; c]) false "" =
    if slen text <? 128 then text
    else match text with String _ text => text | EmptyString => "" end.
Proof.
  intros Hp Hl. rewrite be_bytes_4 by lia. cbn [app scan_query].
  change (s8 (Z_of_byte x00) <=? 0) with true. cbn iota.
  rewrite Z_of_byte_of_Z, Z.mod_small by lia.
  destruct (Z.ltb_spec (slen text) 128) as [Hs|Hs].
  - rewrite swrap_small by (unfold in_s; lia). destruct (Z.leb_spec (slen text) 0); [lia|].
    rewrite scan_plain by done. rewrite scan_tail. by rewrite bytes_str_bytes.
  - assert ((s8 (slen text) <=? 0) = true) as ->.
    { unfold swrap. change (2 ^ 8) with 256. rewrite Z.mod_small by lia.
      change (2 ^ (8 - 1)) with 128. destruct (Z.ltb_spec (slen text) 128); lia. }
    destruct text as [|a text]; [done|]. change (str_bytes (String a text)) with
      (Ascii.byte_of_ascii a :: str_bytes text) in *. apply Forall_cons in Hp as [Ha Hp].
    cbn [app scan_query]. rewrite s8_plain by done.
    rewrite scan_plain by done. rewrite scan_tail. by rewrite bytes_str_bytes.
Qed.

(** The body of a [QUERY] frame, less the byte the server drops. *)
Definition query_body (text : string) (consistency : byte) : list byte :=
  be_bytes 4 (slen text) ++ str_bytes text ++ [x00; consistency].

(** The query [CreateResponse] runs for a body. *)
Definition recovered (body : list byte) : outcome (bool * string) :=
  '(meta, query) ← cut_query (scan_query body false "");
  if (meta : bool) then Ok (true, query) else q ← repair_query query; Ok (false, q).

Lemma get_app_last s c : String.get (String.length s) (s +:+ String c "") = Some c.
Proof. induction s as [|a s IH]; [done|]. by rewrite str_app_cons. Qed.

Lemma back_semicolon s : str_back (s +:+ ";") = Ok 59.
Proof.
  unfold str_back, string_at. rewrite slen_app. change (slen ";") with 1.
  pose proof (slen_nonneg s). rewrite bool_decide_true by lia.
  replace (Z.to_nat (slen s + 1 - 1)) with (String.length s) by (unfold slen; lia).
  by rewrite get_app_last.
Qed.

Lemma cut_whole s : cut_query (s +:+ ";") = Ok (false, s +:+ ";").
Proof.
  assert (s +:+ ";" ≠ "") as Hne by (by destruct s).
  assert (strstr (s +:+ ";") ";" = true) as Hstr.
  { unfold strstr. destruct (index_char ";" (s +:+ ";")) as [[_ Hl]|(p & r & _ & _ & ->)]; [|done].
    rewrite list_ascii_app, Forall_app in Hl. destruct Hl as [_ Hl]. by inversion Hl. }
  unfold cut_query. rewrite Hstr, back_semicolon. apply String.eqb_neq in Hne. by rewrite Hne.
Qed.

(** C34 (functional): what is run for the text of a request of fewer than 256
    plain characters.  Below 128 characters, an [INSERT], [CREATE], [SELECT] or
    [DELETE] is run as sent.  From 128 on the length byte is negative as [char]
    and the scan drops the first letter: [INSERT] and [CREATE] get it back, but
    a [SELECT] is run as [DELECT], a [DELETE] as [ELETE] and a [DROP] as [CROP],
    because the letter that tells them apart is looked up one place too far. *)
Theorem query_recovered (keyword rest : string) (consistency : byte) :
  let text := keyword +:+ rest +:+ ";" in
  plain text → slen text < 256 →
  (keyword ∈ ["INSERT "; "CREATE "; "SELECT "; "DELETE "] → slen text < 128 →
   recovered (query_body text consistency) = Ok (false, text)) ∧
  (128 ≤ slen text → ∀ run, (keyword, run) ∈
     [("INSERT ", "INSERT "); ("CREATE ", "CREATE "); ("SELECT ", "DELECT ");
      ("DELETE ", "ELETE "); ("DROP ", "CROP ")] →
   recovered (query_body text consistency) = Ok (false, run +:+ rest +:+ ";")).
Proof.
  intros text Hp Hl. unfold recovered, query_body.
  assert (∀ k, k +:+ rest +:+ ";" = (k +:+ rest) +:+ ";") as Hassoc
    by (intros; by rewrite str_app_assoc).
  assert (1 ≤ slen text) as Hpos.
  { unfold text. rewrite !slen_app. change (slen ";") with 1. pose proof (slen_nonneg keyword).
    pose proof (slen_nonneg rest). lia. }
  rewrite scan_request by done. split.
  - intros Hk Hs. destruct (Z.ltb_spec (slen text) 128); [|lia]. unfold text.
    rewrite Hassoc, cut_whole, <- Hassoc.
    rewrite !elem_of_cons, elem_of_nil in Hk. by destruct Hk as [->|[->|[->|[->|[]]]]].
  - intros Hlo run Hk. destruct (Z.ltb_spec (slen text) 128); [lia|]. unfold text.
    assert (∀ a k, match (String a k +:+ rest +:+ ";") with String _ t => t | EmptyString => "" end
      = (k +:+ rest) +:+ ";") as Hdrop by (intros; cbn; by rewrite str_app_assoc).
    rewrite !elem_of_cons, elem_of_nil in Hk.
    by destruct Hk as [[= -> ->]|[[= -> ->]|[[= -> ->]|[[= -> ->]|[[= -> ->]|[]]]]]];
      rewrite Hdrop, cut_whole.
Qed.

Lemma query_recovered_witness :
  recovered (query_body "SELECT * FROM races WHERE id = 1;" x01) =
    Ok (false, "SELECT * FROM races WHERE id = 1;").
Proof.
  refine (proj1 (query_recovered "SELECT " "* FROM races WHERE id = 1" x01 _ _) _ _).
  - unfold plain. repeat apply Forall_cons_2; try apply Forall_nil_2; vm_compute; split; congruence.
  - vm_compute. reflexivity.
  - right. right. left.
  - vm_compute. reflexivity.
Defined.

(** ** Replies *)

Lemma supported_options_ok : Forall option_ok supported_options.
Proof.
  repeat apply Forall_cons_2; try apply Forall_nil_2; split_and!; try done;
    repeat apply Forall_cons_2; try apply Forall_nil_2; done.
Qed.

Section replies.
Context {F : Type} `{PosixFS F}.
Context (junk : Z → byte) (strtold : string → Z).
Context (parse_tree : string → option (list CqlContext)).
Context (config : Config).
Context {St : Type} (proj : St → StateStore * world F) (inj : StateStore * world F → St → St).
Context (rpc : string → string → M St (Z * string + string)).
Context (garbage30000 garbage4096 garbage3500 : chars) (elapsed : Z).

Abbreviation respond := (CreateResponse junk strtold parse_tree config proj inj rpc
  garbage30000 garbage4096 garbage3500 elapsed).
Implicit Types (r : Response (St := St)).

Lemma in_header_ok {A} (m : M chars A) o h r :
  m (rs_header r) = (o, h) → in_header m r = (o, set_header h r).
Proof. intros Hm. unfold in_header, zoom. by rewrite Hm. Qed.

(** The four bytes every reply starts with. *)
Definition reply_start (f : Frame) : list byte :=
  byte_of_Z <$> [fr_version f + 0x80; fr_flags f; (fr_streamID f).1; (fr_streamID f).2].

Lemma poke_all_header i vs r : 0 ≤ i → i + zlen vs ≤ zlen (rs_header r) →
  in_header (poke_all i vs) r =
    (Ok tt, set_header (overwrite (Z.to_nat i) (byte_of_Z <$> vs) (rs_header r)) r).
Proof. intros. by apply in_header_ok, poke_all_ok. Qed.

(** Appending behind what was written from the start of the array. *)
Lemma overwrite_0_app {A} (bs1 bs2 l : list A) n : n = length bs1 →
  (length bs1 + length bs2 ≤ length l)%nat →
  overwrite n bs2 (overwrite 0 bs1 l) = overwrite 0 (bs1 ++ bs2) l.
Proof. intros -> Hl. by apply (overwrite_app 0). Qed.

Lemma respond_start f r : 9 ≤ zlen (rs_header r) → ∀ (k : M (Response (St := St)) Z),
  (msg_length 9;; in_header (poke_all 0 [fr_version f + 0x80; fr_flags f; (fr_streamID f).1;
     (fr_streamID f).2]);; k) r =
  k (set_header (overwrite 0 (reply_start f) (rs_header r)) (set_length 9 r)).
Proof.
  intros Hl k. erewrite M_bind_ok by reflexivity.
  erewrite M_bind_ok by (apply poke_all_header; unfold zlen in *; cbn [length rs_header set_length]; lia).
  done.
Qed.

(** [Header\[8\]] is set after the body behind it. *)
Lemma overwrite_set_8 (start body l : list byte) v : length start = 8%nat →
  (9 + length body ≤ length l)%nat →
  <[8%nat := v]> (overwrite 9 body (overwrite 0 start l)) = overwrite 0 (start ++ [v] ++ body) l.
Proof.
  intros Hs Hl. do 9 (destruct l as [|? l]; [cbn in Hl; lia|]).
  do 8 (destruct start as [|? start]; [done|]). destruct start; [|done].
  unfold overwrite. reflexivity.
Qed.

Lemma ready_reply (f : Frame) (r : Response (St := St)) : 9 ≤ zlen (rs_header r) →
  fr_opcode f = op_STARTUP ∨ fr_opcode f = op_REGISTER →
  respond f r =
    (Ok 9, set_header (overwrite 0 (reply_start f ++ [x02; x00; x00; x00; x00]) (rs_header r))
             (set_length 9 r)).
Proof.
  intros Hh Hop. unfold CreateResponse. cbv zeta. rewrite respond_start by done.
  assert (length (reply_start f) = 4%nat) as Hs by done. unfold zlen in Hh.
  assert (length (overwrite 0 (reply_start f) (rs_header r)) = length (rs_header r)) as Hl1
    by (apply length_overwrite; lia).
  assert ((fr_opcode f =? op_OPTIONS) = false) as -> by (by destruct Hop as [-> | ->]).
  assert ((fr_opcode f =? op_STARTUP) || (fr_opcode f =? op_REGISTER) = true) as ->
    by (by destruct Hop as [-> | ->]).
  rewrite M_bind_assoc. erewrite M_bind_ok by (apply poke_all_header; [lia|];
    unfold zlen; cbn [rs_header set_header]; rewrite Hl1; cbn; lia).
  cbn [rs_header set_header]. rewrite overwrite_0_app by (cbn; lia). done.
Qed.

(** The body of the [SUPPORTED] reply. *)
Definition supported_body : chars := options_wire supported_options.

Lemma options_reply (f : Frame) (r : Response (St := St)) : 100 ≤ zlen (rs_header r) →
  fr_opcode f = op_OPTIONS →
  respond f r =
    (Ok (9 + zlen supported_body),
     set_header (overwrite 0 (reply_start f ++ [x06] ++ be_bytes 4 (zlen supported_body) ++ supported_body)
       (rs_header r)) (set_length (9 + zlen supported_body) r)).
Proof.
  intros Hh Hop. unfold CreateResponse. cbv zeta. rewrite respond_start by lia.
  assert (length (reply_start f) = 4%nat) as Hs by done. unfold zlen in Hh.
  assert (length (overwrite 0 (reply_start f) (rs_header r)) = length (rs_header r)) as Hl1
    by (apply length_overwrite; lia).
  rewrite Hop. cbn [Z.eqb op_OPTIONS Pos.eqb].
  assert (zlen supported_body = 79) as Hbody by (vm_compute; reflexivity).
  rewrite M_bind_assoc. erewrite M_bind_ok by (apply poke_all_header; [lia|];
    unfold zlen; cbn [rs_header set_header]; rewrite Hl1; cbn; lia).
  cbn [rs_header set_header]. rewrite overwrite_0_app by (cbn; lia).
  rewrite M_bind_assoc. erewrite M_bind_ok.
  2:{ apply in_header_ok. apply SupportedMessage_ok; [done|exact supported_options_ok|by vm_compute|].
      fold supported_body. rewrite Hbody. cbn [rs_header set_header]. unfold zlen.
      rewrite length_overwrite; cbn; lia. }
  fold supported_body. cbn [rs_header set_header]. change (Z.to_nat 9) with 9%nat.
  assert (length supported_body = 79%nat) as Hlen by (unfold zlen in Hbody; lia).
  rewrite overwrite_set_8; [rewrite Hbody; done|by rewrite length_app, Hs|lia].
Qed.

(** The handshake.  [STARTUP] and [REGISTER] are answered by an
    empty [READY], [OPTIONS] by a [SUPPORTED] whose announced length is exact
    and from which a client reads the three options; the stream identifier and
    the flags of the request are returned, and nothing but the array and the
    length changes. *)
Theorem handshake_replies (f : Frame) (r : Response (St := St)) :
  zlen (rs_header r) = 71680 →
  (fr_opcode f = op_STARTUP ∨ fr_opcode f = op_REGISTER →
   respond f r =
     (Ok 9, set_header (overwrite 0 (reply_start f ++ [x02; x00; x00; x00; x00]) (rs_header r))
              (set_length 9 r))) ∧
  (fr_opcode f = op_OPTIONS → ∃ body,
   respond f r =
     (Ok (9 + zlen body),
      set_header (overwrite 0 (reply_start f ++ [x06] ++ be_bytes 4 (zlen body) ++ body) (rs_header r))
        (set_length (9 + zlen body) r)) ∧
   p_options body = Some (supported_options, [])).
Proof.
  intros Hh. split; intros Hop.
  - apply ready_reply; [lia|done].
  - exists supported_body. split; [apply options_reply; [lia|done]|vm_compute; reflexivity].
Qed.
End replies.

(** ** Examples *)

Import MemFS.

Definition zero_header : chars := replicate (Z.to_nat 71680) x00.

Definition example_response : Response (St := gmap string (StateStore * world fsview)) :=
  MkResponse "" zero_header 0 (replicate 8 0) [] example_db example_cluster.

Abbreviation example_respond := (CreateResponse (λ _, x00) (λ _, 0) example_tree
  (node_config example_ranges "A") (the_node empty_node "A") (set_node "A") example_rpc
  (replicate (Z.to_nat 30000) x00) (replicate (Z.to_nat 4096) x00) (replicate (Z.to_nat 3500) x00) 0).

Lemma handshake_replies_witness :
  example_respond (MkFrame [] 3 0 op_STARTUP (0, 7) [0; 0; 0; 0] 9 None) example_response =
    (Ok 9, set_header (overwrite 0 [x83; x00; x00; x07; x02; x00; x00; x00; x00] zero_header)
             (set_length 9 example_response)).
Proof.
  refine (proj1 (handshake_replies (λ _, x00) (λ _, 0) example_tree (node_config example_ranges "A")
    (the_node empty_node "A") (set_node "A") example_rpc _ _ _ 0 _ _ _) _).
  - unfold zlen. cbn [rs_header example_response]. unfold zero_header. by rewrite length_replicate.
  - by left.
Defined.
