(* ===== verification/Query.v ===== *)
(** * A query and its reply

    The parts of [ServerMsg::CreateResponse] put together: a [SELECT] from the
    frame that asks for a record to the frame that carries it, the reply to an
    [INSERT], and what is left of a query whose processing throws, ends or returns
    no record. *)

From Stdlib Require Import ZArith Lia Strings.Byte Ascii String.
From stdpp Require Import base list list_numbers strings gmap pretty.
From S2P Require Import Prelude Errors Buffer OrdMap Data Catalog IndexPage Summary FileSystem Disk Sstable TableManager Database.
From S2P Require Import Text Lang Wire Dht MetaTables Metadata ServerMsg.

Local Open Scope Z_scope.

(** A record a reply can carry under a schema. *)
Record carried (keyspace table : string) (schema : Schema) (ds : list Data) : Prop := {
  cr_keyspace : wire_string keyspace;
  cr_table : wire_string table;
  cr_fields : Forall wire_field (m_fields schema);
  cr_count : countable 4 (zlen (m_fields schema));
  cr_wf : Forall data_wf ds;
  cr_sendable : Forall sendable ds;
  cr_length : length ds = length (m_fields schema);
  cr_nonempty : ds ≠ []
}.

Section query.
Context {F : Type} `{PosixFS F}.
Context (junk : Z → byte) (strtold : string → Z).
Context (parse_tree : string → option (list CqlContext)).
Context (config : Config).
Context {St : Type} (proj : St → StateStore * world F) (inj : StateStore * world F → St → St).
Context (rpc : string → string → M St (Z * string + string)).
Context (garbage30000 garbage4096 garbage3500 : chars) (elapsed : Z).

Abbreviation respond := (CreateResponse junk strtold parse_tree config proj inj rpc
  garbage30000 garbage4096 garbage3500 elapsed).
Implicit Types (r : Response (St := St)).

Lemma copy_body_ok start bs rest r : 0 ≤ start → start + zlen bs ≤ zlen (rs_header r) →
  copy_body start (zlen bs) (bs ++ rest) r =
    (Ok tt, set_header (overwrite (Z.to_nat start) bs (rs_header r)) r).
Proof.
  intros H0 Hl. unfold copy_body. apply in_header_ok. apply for_each_overwrite; [done..|].
  intros k b Hb l'. replace (start + Z.of_nat k - start) with (Z.of_nat k) by lia.
  erewrite M_bind_ok.
  2:{ unfold lift. rewrite (peek_ok _ b); [reflexivity|lia|]. rewrite Nat2Z.id.
      by apply lookup_app_l_Some. }
  apply lookup_lt_Some in Hb. unfold zlen in *. rewrite poke_ok.
  - rewrite byte_of_Z_of_byte. do 2 f_equal. lia.
  - unfold l', zlen. rewrite length_overwrite; rewrite ?length_take; lia.
Qed.

(** A call that leaves the database and the operating system as they are. *)
Lemma on_db_pure {A} (m : M (Database * world F) A) (x : A) r :
  m (rs_db r, (proj (rs_net r)).2) = (Ok x, (rs_db r, (proj (rs_net r)).2)) → inj (proj (rs_net r)) (rs_net r) = rs_net r → on_db proj inj m r = (Ok x, r).
Proof.
  intros Hm Hl. unfold on_db. rewrite Hm. rewrite <- surjective_pairing, Hl.
  by destruct r.
Qed.

(** The counter of reads, with room for one more. *)
Definition selections (met : list Z) (count : Z) : Prop := met !! 2%nat = Some count ∧ in_s 32 (count + 1).

Lemma met_incr_ok i v r : rs_met r !! i = Some v → in_s 32 (v + 1) →
  met_incr i r = (Ok tt, set_met (<[i := v + 1]> (rs_met r)) r).
Proof.
  intros Hv Hi. unfold met_incr. erewrite M_bind_ok by reflexivity.
  by rewrite Hv, bool_decide_true by done.
Qed.

(** What a [SELECT] writes behind the first five bytes. *)
Lemma run_select_ok record_text s r name tm ds count :
  let keyspace := fs_keyspace (sl_from_spec s) in
  let table := fs_table (sl_from_spec s) in
  let rows := rows_wire keyspace table (tm_schema tm) ds in
  map_find str_cmp table (db_table_managers (rs_db r)) = Ok (Some (name, tm)) →
  carried keyspace table (tm_schema tm) ds →
  serialize (Some (Some <$> ds)) = Ok record_text → slen record_text < 2 ^ 31 →
  inj (proj (rs_net r)) (rs_net r) = rs_net r →
  zlen rows ≤ zlen (rs_body r) → 9 + zlen rows ≤ zlen (rs_header r) → selections (rs_met r) count →
  run_select proj inj elapsed record_text s r =
    (Ok tt, MkResponse (rs_query r)
       (overwrite 9 rows (overwrite 5 [x00; x00; x00; byte_of_Z (zlen rows)] (rs_header r)))
       (zlen rows + 9) (<[2%nat := count + 1]> (<[4%nat := elapsed]> (rs_met r)))
       (overwrite 0 rows (rs_body r)) (rs_db r) (rs_net r)).
Proof.
  intros keyspace table rows Hfind [Hk Ht Hf Hn Hwf Hs Hlen Hne] Hser Hsl Hlens Hb Hh [Hmet Hcount].
  unfold run_select. erewrite M_bind_ok.
  2:{ apply (on_db_pure _ (tm_schema tm)); [|done]. unfold read_schema.
      erewrite M_bind_ok by reflexivity. fold table. cbv beta iota.
      erewrite M_bind_ok by (unfold lift; rewrite Hfind; reflexivity). reflexivity. }
  erewrite M_bind_ok.
  2:{ unfold in_body, zoom. cbn [rs_body]. fold keyspace table.
      rewrite (select_result_ok keyspace table (tm_schema tm) ds) by done. reflexivity. }
  fold rows. cbn [rs_query rs_header rs_msg_length rs_met rs_body rs_db rs_net set_body].
  erewrite M_bind_ok by reflexivity.
  erewrite M_bind_ok by (apply met_incr_ok; [cbn [rs_met set_met]; by rewrite list_lookup_insert_ne by done|done]).
  pose proof (zlen_nonneg rows).
  erewrite M_bind_ok by (apply poke_all_header; [lia|]; cbn; unfold zlen in *; cbn; lia).
  cbn [rs_header set_header set_met]. change (Z.to_nat 5) with 5%nat.
  change (byte_of_Z <$> [0; 0; 0; zlen rows]) with [x00; x00; x00; byte_of_Z (zlen rows)].
  erewrite M_bind_ok.
  2:{ unfold copy_out. erewrite M_bind_ok by reflexivity. cbn [rs_body set_header set_met].
      unfold overwrite at 1. rewrite take_0. cbn [app Nat.add].
      apply copy_body_ok; [lia|]. cbn [rs_header set_header]. unfold zlen in *.
      rewrite length_overwrite; cbn; lia. }
  cbn [rs_header set_header]. done.
Qed.

(** The frame of a query; what its body holds behind the announced size is not read. *)
Definition query_frame (f : Frame) (text : string) (consistency : byte) : Prop :=
  fr_opcode f = op_QUERY ∧ (∃ pad, fr_body f = Some (query_body text consistency ++ pad)) ∧
  fr_max_size f = 9 + zlen (query_body text consistency).

Lemma body_query_ok f text c : query_frame f text c → plain text → 1 ≤ slen text < 128 →
  body_query f "" = Ok text.
Proof.
  intros (_ & (pad & Hb) & Hm) Hp Hl. unfold body_query. rewrite Hb, Hm.
  replace (9 + zlen (query_body text c) - 9) with (zlen (query_body text c)) by lia.
  pose proof (zlen_nonneg pad). rewrite (proj2 (Z.ltb_ge _ _)) by (rewrite zlen_app; lia). destruct (Z.leb_spec (zlen (query_body text c)) 0) as [Hz|_].
  { exfalso. unfold query_body in Hz. rewrite !zlen_app, zlen_be_bytes in Hz.
    pose proof (zlen_nonneg (str_bytes text)). pose proof (zlen_nonneg [x00; c]). lia. }
  unfold zlen. rewrite Nat2Z.id, take_app_length. unfold query_body. rewrite scan_request by (done || lia).
  by destruct (Z.ltb_spec (slen text) 128); [|lia].
Qed.

Abbreviation process_query := (process junk strtold parse_tree config proj inj rpc).

Lemma run_query_ok v text s r net' name tm ds record_text count :
  let rows := rows_wire (fs_keyspace (sl_from_spec s)) (fs_table (sl_from_spec s)) (tm_schema tm) ds in
  repair_query text = Ok text → rs_query r = text →
  visitRoot strtold (parse_tree text) = Ok [SELECT s] →
  process_query text (rs_net r) = (Ok record_text, net') → inj (proj net') net' = net' →
  map_find str_cmp (fs_table (sl_from_spec s)) (db_table_managers (rs_db r)) = Ok (Some (name, tm)) →
  carried (fs_keyspace (sl_from_spec s)) (fs_table (sl_from_spec s)) (tm_schema tm) ds →
  serialize (Some (Some <$> ds)) = Ok record_text → slen record_text < 2 ^ 31 →
  zlen rows ≤ zlen garbage3500 → 9 + zlen rows ≤ zlen (rs_header r) → selections (rs_met r) count →
  run_query junk strtold parse_tree config proj inj rpc garbage3500 elapsed v r =
    (Ok tt, MkResponse text
       (overwrite 9 rows (overwrite 5 [x00; x00; x00; byte_of_Z (zlen rows)] (rs_header r)))
       (zlen rows + 9) (<[2%nat := count + 1]> (<[4%nat := elapsed]> (rs_met r)))
       (overwrite 0 rows garbage3500) (rs_db r) net').
Proof.
  intros rows Hrep Hq Hroot Hproc Hlens Hfind Hc Hser Hsl Hb Hh Hmet. unfold run_query.
  erewrite M_bind_ok by reflexivity. rewrite Hq, Hrep. erewrite M_bind_ok by reflexivity.
  erewrite M_bind_ok by reflexivity. erewrite M_bind_ok by reflexivity.
  unfold try_catch. unfold lift at 1. rewrite Hroot. erewrite M_bind_ok by reflexivity.
  erewrite M_bind_ok by (unfold in_net, zoom; cbn [rs_net set_query set_body]; rewrite Hproc; reflexivity).
  cbn [for_each run_statement]. erewrite M_bind_ok.
  2:{ apply (run_select_ok record_text s _ name tm ds count); try done. }
  reflexivity.
Qed.

(** A text with a semicolon at its end is handed to [run_query]. *)
Lemma handle_query_run f v c head r : let text := head +:+ ";" in
  query_frame f text c → plain text → slen text < 128 → rs_query r = "" → 9 ≤ zlen (rs_header r) →
  handle_query junk strtold parse_tree config proj inj rpc garbage30000 garbage4096 garbage3500
    elapsed f v r =
  run_query junk strtold parse_tree config proj inj rpc garbage3500 elapsed v
    (set_query text (set_header (overwrite 4 [x08] (rs_header r)) r)).
Proof.
  intros text Hf Hp Hl Hq Hh. unfold handle_query.
  assert (1 ≤ slen text) as Hpos.
  { unfold text. rewrite slen_app. pose proof (slen_nonneg head). change (slen ";") with 1. lia. }
  erewrite M_bind_ok by (apply in_header_ok, poke_ok; lia).
  rewrite insert_take_drop by (unfold zlen in Hh; lia).
  change (_ ++ _ :: _) with (overwrite 4 [x08] (rs_header r)).
  erewrite M_bind_ok by reflexivity. cbn [rs_query set_header]. rewrite Hq.
  unfold lift at 1. rewrite (body_query_ok f text c) by done. erewrite M_bind_ok by reflexivity.
  unfold lift at 1. unfold text at 1. rewrite cut_whole. erewrite M_bind_ok by reflexivity.
  cbv beta iota. erewrite M_bind_ok by reflexivity. fold text.
  assert ((text =? "")%string = false) as -> by (apply String.eqb_neq; unfold text; by destruct head).
  cbn [negb]. replace (str_back text) with (Ok 59 : outcome Z) by (by unfold text; rewrite back_semicolon).
  erewrite M_bind_ok by reflexivity. done.
Qed.

(** A query with a semicolon at its end: [run_query] on what has been written. *)
Lemma respond_query f c head r : let text := head +:+ ";" in
  query_frame f text c → plain text → slen text < 128 → rs_query r = "" → 9 ≤ zlen (rs_header r) →
  respond f r =
    (run_query junk strtold parse_tree config proj inj rpc garbage3500 elapsed (fr_version f + 0x80);;
     r' ← get_state; mret (rs_msg_length r'))
      (set_query text (set_header (overwrite 0 (reply_start f ++ [x08]) (rs_header r)) (set_length 9 r))).
Proof.
  intros text Hf Hp Hl Hq Hh. unfold CreateResponse. cbv zeta.
  rewrite respond_start by lia. rewrite (proj1 Hf).
  cbn [Z.eqb op_OPTIONS op_STARTUP op_REGISTER op_QUERY Pos.eqb orb].
  assert (length (reply_start f) = 4%nat) as Hs by done. unfold zlen in Hh.
  unfold mbind at 1 3, M_bind at 1 3. erewrite (handle_query_run _ _ c head); try done.
  - fold text. cbn [rs_header set_header set_length]. by rewrite overwrite_0_app by (cbn; lia).
  - cbn [rs_header set_header]. unfold zlen in *. rewrite length_overwrite; lia.
Qed.

(** The reply to a [SELECT] whose record has arrived. *)
Lemma select_reply f c rest s r net' name tm ds record_text count :
  let text := "SELECT " +:+ rest +:+ ";" in
  let rows := rows_wire (fs_keyspace (sl_from_spec s)) (fs_table (sl_from_spec s)) (tm_schema tm) ds in
  query_frame f text c → plain text → slen text < 128 → rs_query r = "" →
  visitRoot strtold (parse_tree text) = Ok [SELECT s] →
  process_query text (rs_net r) = (Ok record_text, net') → inj (proj net') net' = net' →
  map_find str_cmp (fs_table (sl_from_spec s)) (db_table_managers (rs_db r)) = Ok (Some (name, tm)) →
  carried (fs_keyspace (sl_from_spec s)) (fs_table (sl_from_spec s)) (tm_schema tm) ds →
  serialize (Some (Some <$> ds)) = Ok record_text → slen record_text < 2 ^ 31 →
  zlen rows ≤ zlen garbage3500 → 9 + zlen rows ≤ zlen (rs_header r) → selections (rs_met r) count →
  respond f r =
    (Ok (zlen rows + 9), MkResponse text
       (overwrite 0 (reply_start f ++ [x08; x00; x00; x00; byte_of_Z (zlen rows)] ++ rows) (rs_header r))
       (zlen rows + 9) (<[2%nat := count + 1]> (<[4%nat := elapsed]> (rs_met r)))
       (overwrite 0 rows garbage3500) (rs_db r) net').
Proof.
  intros text rows Hf Hp Hl Hq Hroot Hproc Hlens Hfind Hc Hser Hsl Hb Hh Hmet.
  pose proof (zlen_nonneg rows).
  assert (length (reply_start f) = 4%nat) as Hs by done. unfold zlen in Hh.
  assert (text = ("SELECT " +:+ rest) +:+ ";") as Htext by (unfold text; by rewrite str_app_assoc).
  rewrite Htext in Hf, Hp, Hl. rewrite (respond_query f c ("SELECT " +:+ rest)) by (try done; unfold zlen in *; lia).
  rewrite <- Htext. erewrite M_bind_ok.
  2:{ apply (run_query_ok _ text s _ net' name tm ds record_text count); try done.
      fold rows. cbn [rs_header set_header set_query set_length]. unfold zlen in *.
      rewrite length_overwrite; rewrite ?length_app; cbn [length]; lia. }
  fold rows. cbn [rs_header set_header set_query set_length].
  erewrite M_bind_ok by reflexivity. cbn [rs_msg_length]. unfold mret, M_ret. do 2 f_equal.
  rewrite !overwrite_0_app by (rewrite ?length_app; cbn [length]; lia).
  by rewrite <- !app_assoc.
Qed.

(** *** Queries that fail *)

(** What a query leaves when [process] does not return. *)
Lemma run_query_throws v text r stmts e net' :
  repair_query text = Ok text → rs_query r = text → visitRoot strtold (parse_tree text) = Ok stmts →
  process_query text (rs_net r) = (Throw e, net') →
  run_query junk strtold parse_tree config proj inj rpc garbage3500 elapsed v r =
    match first_handler (query_handlers proj inj) e with Some h => h | None => throw e end
      (set_net net' (set_body garbage3500 (set_query text r))).
Proof.
  intros Hrep Hq Hroot Hproc. unfold run_query.
  erewrite M_bind_ok by reflexivity. rewrite Hq, Hrep. erewrite M_bind_ok by reflexivity.
  erewrite M_bind_ok by reflexivity. erewrite M_bind_ok by reflexivity.
  unfold try_catch. unfold lift at 1. rewrite Hroot. erewrite M_bind_ok by reflexivity.
  erewrite M_bind_throw by (unfold in_net, zoom; cbn [rs_net set_query set_body]; rewrite Hproc; reflexivity).
  by destruct (first_handler _ e).
Qed.

Lemma run_query_undef v text r stmts u net' :
  repair_query text = Ok text → rs_query r = text → visitRoot strtold (parse_tree text) = Ok stmts →
  process_query text (rs_net r) = (Undef u, net') →
  run_query junk strtold parse_tree config proj inj rpc garbage3500 elapsed v r =
    (Undef u, set_net net' (set_body garbage3500 (set_query text r))).
Proof.
  intros Hrep Hq Hroot Hproc. unfold run_query.
  erewrite M_bind_ok by reflexivity. rewrite Hq, Hrep. erewrite M_bind_ok by reflexivity.
  erewrite M_bind_ok by reflexivity. erewrite M_bind_ok by reflexivity.
  unfold try_catch. unfold lift at 1. rewrite Hroot. erewrite M_bind_ok by reflexivity.
  by erewrite M_bind_undef by (unfold in_net, zoom; cbn [rs_net set_query set_body]; rewrite Hproc; reflexivity).
Qed.

(** When it returns, the statements write the reply. *)
Lemma run_query_returns v text r s answer net' :
  repair_query text = Ok text → rs_query r = text → visitRoot strtold (parse_tree text) = Ok [s] →
  process_query text (rs_net r) = (Ok answer, net') →
  run_query junk strtold parse_tree config proj inj rpc garbage3500 elapsed v r =
    try_catch (run_statement proj inj elapsed v answer s;; mret tt) (query_handlers proj inj)
      (set_net net' (set_body garbage3500 (set_query text r))).
Proof.
  intros Hrep Hq Hroot Hproc. unfold run_query.
  erewrite M_bind_ok by reflexivity. rewrite Hq, Hrep. erewrite M_bind_ok by reflexivity.
  erewrite M_bind_ok by reflexivity. erewrite M_bind_ok by reflexivity.
  unfold try_catch. unfold lift at 1. rewrite Hroot. erewrite M_bind_ok by reflexivity.
  by erewrite M_bind_ok by (unfold in_net, zoom; cbn [rs_net set_query set_body]; rewrite Hproc; reflexivity).
Qed.

(** The five bytes of the reply that are written, and what the array holds behind
    them. *)
Definition unwritten (f : Frame) (header : chars) : chars :=
  reply_start f ++ [x08] ++ take 4 (drop 5 header).

Lemma zlen_unwritten f header : 9 ≤ zlen header → zlen (unwritten f header) = 9.
Proof.
  intros Hh. unfold unwritten, zlen in *. rewrite !length_app, length_take, length_drop.
  change (length (reply_start f)) with 4%nat. cbn [length]. lia.
Qed.

Lemma overwrite_unwritten f header : 9 ≤ zlen header →
  overwrite 0 (unwritten f header) header = overwrite 0 (reply_start f ++ [x08]) header.
Proof.
  intros Hh. pose proof (zlen_unwritten f header Hh) as Hz. unfold zlen in Hz, Hh.
  unfold overwrite. rewrite !take_0. cbn [app Nat.add]. rewrite (Nat2Z.inj _ 9 Hz).
  unfold unwritten. rewrite <- !app_assoc. f_equal. cbn [app]. f_equal.
  change (length (reply_start f ++ [x08])) with 5%nat.
  by rewrite <- (take_drop 4 (drop 5 header)) at 2; rewrite drop_drop.
Qed.

(** The node of [r] after a message in its log. *)
Definition logged (net : St) : St :=
  inj ((proj net).1, World (w_fs (proj net).2) (w_log (proj net).2 ++ [not_found_message])) net.

(** The record is not there: an error is counted, and the length of the body is
    never written. *)
Lemma respond_missing f c head r stmts net' count : let text := head +:+ ";" in
  query_frame f text c → plain text → slen text < 128 → rs_query r = "" → 9 ≤ zlen (rs_header r) →
  repair_query text = Ok text → visitRoot strtold (parse_tree text) = Ok stmts →
  process_query text (rs_net r) = (Throw non_existent_record_error, net') →
  rs_met r !! 7%nat = Some count → in_s 32 (count + 1) →
  respond f r =
    (Ok 9, MkResponse text (overwrite 0 (unwritten f (rs_header r)) (rs_header r)) 9
             (<[7%nat := count + 1]> (rs_met r)) garbage3500 (rs_db r) (logged net')).
Proof.
  intros text Hf Hp Hl Hq Hh Hrep Hroot Hproc Hmet Hc.
  rewrite (respond_query f c head) by done. fold text.
  erewrite M_bind_ok.
  2:{ rewrite (run_query_throws _ text _ stmts non_existent_record_error net') by done.
      change (first_handler (query_handlers proj inj) non_existent_record_error)
        with (Some (in_net (here proj inj (zoom snd (λ (w : world F) (n : StateStore * world F), (n.1, w))
                      (log_err not_found_message)));; met_incr (St := St) 7)).
      cbv iota. erewrite M_bind_ok by reflexivity. by apply met_incr_ok. }
  erewrite M_bind_ok by reflexivity. rewrite overwrite_unwritten by done. done.
Qed.

(** The response when a query ends the reply: of the members of the server, the
    nodes alone have changed. *)
Definition stopped r net' (r' : Response (St := St)) : Prop :=
  rs_net r' = net' ∧ rs_db r' = rs_db r ∧ rs_met r' = rs_met r.

(** An exception of another class leaves the server. *)
Lemma respond_uncaught f c head r stmts e net' : let text := head +:+ ";" in
  query_frame f text c → plain text → slen text < 128 → rs_query r = "" → 9 ≤ zlen (rs_header r) →
  repair_query text = Ok text → visitRoot strtold (parse_tree text) = Ok stmts →
  process_query text (rs_net r) = (Throw e, net') → first_handler (query_handlers proj inj) e = None →
  ∃ r', respond f r = (Throw e, r') ∧ stopped r net' r'.
Proof.
  intros text Hf Hp Hl Hq Hh Hrep Hroot Hproc He.
  rewrite (respond_query f c head) by done. fold text. eexists. split.
  { apply M_bind_throw. rewrite (run_query_throws _ text _ stmts e net') by done. rewrite He. reflexivity. }
  done.
Qed.

Lemma respond_undef f c head r stmts u net' : let text := head +:+ ";" in
  query_frame f text c → plain text → slen text < 128 → rs_query r = "" → 9 ≤ zlen (rs_header r) →
  repair_query text = Ok text → visitRoot strtold (parse_tree text) = Ok stmts →
  process_query text (rs_net r) = (Undef u, net') →
  ∃ r', respond f r = (Undef u, r') ∧ stopped r net' r'.
Proof.
  intros text Hf Hp Hl Hq Hh Hrep Hroot Hproc.
  rewrite (respond_query f c head) by done. fold text. eexists. split.
  { apply M_bind_undef. by rewrite (run_query_undef _ text _ stmts u net'). }
  done.
Qed.

(** A returned answer that is no record. *)
Lemma respond_no_record f c head r s net' name tm : let text := head +:+ ";" in
  query_frame f text c → plain text → slen text < 128 → rs_query r = "" → 9 ≤ zlen (rs_header r) →
  repair_query text = Ok text → visitRoot strtold (parse_tree text) = Ok [SELECT s] →
  process_query text (rs_net r) = (Ok "Error", net') → inj (proj net') net' = net' →
  map_find str_cmp (fs_table (sl_from_spec s)) (db_table_managers (rs_db r)) = Ok (Some (name, tm)) →
  wire_string (fs_keyspace (sl_from_spec s)) → wire_string (fs_table (sl_from_spec s)) →
  Forall wire_field (m_fields (tm_schema tm)) → countable 4 (zlen (m_fields (tm_schema tm))) →
  zlen (rows_head (fs_keyspace (sl_from_spec s)) (fs_table (sl_from_spec s)) (tm_schema tm) 2) ≤ zlen garbage3500 →
  ∃ r', respond f r = (Undef OutOfBounds, r') ∧ stopped r net' r'.
Proof.
  intros text Hf Hp Hl Hq Hh Hrep Hroot Hproc Hlens Hfind Hk Ht Hfs Hn Hrows.
  rewrite (respond_query f c head) by done. fold text.
  destruct (select_error _ _ _ garbage3500 Hk Ht Hfs Hn Hrows) as [body Hsel].
  eexists. split; [|split; [|split]]; [apply M_bind_undef|..].
  { rewrite (run_query_returns _ text _ (SELECT s) "Error" net') by done.
    unfold try_catch. erewrite M_bind_undef; [reflexivity|]. unfold run_statement, run_select.
    erewrite M_bind_ok.
    2:{ apply (on_db_pure _ (tm_schema tm)); [|done]. unfold read_schema.
        erewrite M_bind_ok by reflexivity. cbv beta iota. cbn [rs_db set_net set_body set_query set_header set_length].
        erewrite M_bind_ok by (unfold lift; rewrite Hfind; reflexivity). reflexivity. }
    apply M_bind_undef. unfold in_body, zoom. cbn [rs_body set_net set_body]. rewrite Hsel. reflexivity. }
  all: reflexivity.
Qed.

(** An [INSERT] whose processing returned, whatever it returned. *)
Definition insert_reply (f : Frame) : chars :=
  reply_start f ++ [x08; x00; x00; x00; x04; x00; x00; x00; x01].

Lemma respond_inserted f c head r s answer net' count : let text := head +:+ ";" in
  query_frame f text c → plain text → slen text < 128 → rs_query r = "" → 13 ≤ zlen (rs_header r) →
  8 ≤ zlen garbage3500 →
  repair_query text = Ok text → visitRoot strtold (parse_tree text) = Ok [INSERT s] →
  process_query text (rs_net r) = (Ok answer, net') →
  rs_met r !! 1%nat = Some count → in_s 32 (count + 1) →
  ∃ body, respond f r =
    (Ok 13, MkResponse text (overwrite 0 (insert_reply f) (rs_header r)) 13
              (<[1%nat := count + 1]> (<[3%nat := elapsed]> (rs_met r))) body (rs_db r) net').
Proof.
  intros text Hf Hp Hl Hq Hh Hb Hrep Hroot Hproc Hmet Hc.
  rewrite (respond_query f c head) by (done || lia). fold text.
  set (body := overwrite 0 [x00; x00; x00; x04; x00; x00; x00; x01] garbage3500). exists body.
  assert (length (reply_start f) = 4%nat) as Hs by done. unfold zlen in Hh.
  erewrite M_bind_ok.
  2:{ rewrite (run_query_returns _ text _ (INSERT s) answer net') by done.
      unfold try_catch at 1. erewrite M_bind_ok; [reflexivity|]. unfold run_statement, run_insert, try_catch.
      erewrite M_bind_ok.
      2:{ unfold in_body, zoom. cbn [rs_body set_net set_body]. unfold insert_record.
          erewrite M_bind_ok by (apply poke_all_ok; [lia|]; unfold zlen in *; cbn; lia). reflexivity. }
      erewrite M_bind_ok by reflexivity.
      erewrite M_bind_ok by (apply met_incr_ok; [cbn [rs_met set_met set_body]; by rewrite list_lookup_insert_ne by done|done]).
      erewrite M_bind_ok.
      2:{ unfold copy_out. erewrite M_bind_ok by reflexivity. cbn [rs_body set_header set_met set_body].
          apply (copy_body_ok 5 [x00; x00; x00; x04; x00; x00; x00; x01]); [lia|].
          cbn [rs_header set_header set_met set_body set_net set_query set_length]. unfold zlen.
          rewrite length_overwrite; rewrite ?length_app; cbn [length]; lia. }
      reflexivity. }
  erewrite M_bind_ok by reflexivity. cbn [rs_msg_length set_length]. unfold mret, M_ret. do 2 f_equal.
  cbn [rs_header set_header set_met set_body set_net set_query set_length]. unfold insert_reply.
  rewrite overwrite_0_app by (rewrite ?length_app; cbn [length]; lia). by rewrite <- app_assoc.
Qed.

(** A text without a semicolon asks about the system. *)
Lemma handle_query_meta f v c text r :
  query_frame f text c → plain text → 1 ≤ slen text < 128 → strstr text ";" = false →
  rs_query r = "" → 9 ≤ zlen (rs_header r) →
  handle_query junk strtold parse_tree config proj inj rpc garbage30000 garbage4096 garbage3500
    elapsed f v r =
  run_meta garbage30000 garbage4096 (set_query text (set_header (overwrite 4 [x08] (rs_header r)) r)).
Proof.
  intros Hf Hp Hl Hsemi Hq Hh. unfold handle_query.
  erewrite M_bind_ok by (apply in_header_ok, poke_ok; lia).
  rewrite insert_take_drop by (unfold zlen in Hh; lia).
  change (_ ++ _ :: _) with (overwrite 4 [x08] (rs_header r)).
  erewrite M_bind_ok by reflexivity. cbn [rs_query set_header]. rewrite Hq.
  unfold lift at 1. rewrite (body_query_ok f text c) by done. erewrite M_bind_ok by reflexivity.
  assert (cut_query text = Ok (true, text)) as Hcut by (unfold cut_query; by rewrite Hsemi, andb_false_r).
  unfold lift at 1. rewrite Hcut. erewrite M_bind_ok by reflexivity.
  cbv beta iota. by erewrite M_bind_ok by reflexivity.
Qed.

(** The reply to a question about the system. *)
Lemma meta_reply f c text r n body :
  query_frame f text c → plain text → 1 ≤ slen text < 128 → strstr text ";" = false → rs_query r = "" →
  meta_result garbage4096 text garbage30000 = (Ok n, body) → 9 ≤ n ≤ zlen body → n ≤ zlen (rs_header r) →
  respond f r =
    (Ok n, MkResponse text
       (overwrite 0 (reply_start f ++ [x08] ++ take (Z.to_nat (n - 5)) body) (rs_header r))
       n (rs_met r) (rs_body r) (rs_db r) (rs_net r)).
Proof.
  intros Hf Hp Hl Hsemi Hq Hmeta Hn Hh. unfold CreateResponse. cbv zeta.
  rewrite respond_start by lia. rewrite (proj1 Hf).
  cbn [Z.eqb op_OPTIONS op_STARTUP op_REGISTER op_QUERY Pos.eqb orb].
  assert (length (reply_start f) = 4%nat) as Hs by done.
  assert (zlen (take (Z.to_nat (n - 5)) body) = n - 5) as Ht by (unfold zlen in *; rewrite length_take; lia).
  erewrite M_bind_ok.
  2:{ rewrite (handle_query_meta _ _ c text); try done.
      2:{ cbn [rs_header set_header]. unfold zlen in *. rewrite length_overwrite; lia. }
      unfold run_meta. erewrite M_bind_ok by reflexivity. cbn [rs_query set_query].
      unfold run_on. erewrite M_bind_ok by (rewrite Hmeta; reflexivity). cbv beta iota.
      erewrite M_bind_ok by reflexivity.
      rewrite <- (take_drop (Z.to_nat (n - 5)) body) at 1. rewrite <- Ht at 1.
      apply copy_body_ok; [lia|]. rewrite Ht. cbn [rs_header set_length set_query set_header].
      unfold zlen in *. rewrite !length_overwrite; rewrite ?length_overwrite; cbn [length]; lia. }
  cbn [rs_header set_header set_query set_length].
  erewrite M_bind_ok by reflexivity. cbn [rs_msg_length]. unfold mret, M_ret. do 2 f_equal.
  rewrite !overwrite_0_app by (rewrite ?length_app; cbn [length]; unfold zlen in *; lia).
  by rewrite <- !app_assoc.
Qed.
End query.

(** ** Through the cluster *)

Section cluster_query.
Context {F : Type} `{PosixSpec F}.
Context (junk : Z → byte) (strtold : string → Z).
Context (parse_tree : string → option (list CqlContext)).
Context (ranges : list Range) (node0 : StateStore * world F).
Context (rpc : string → string → M (gmap string (StateStore * world F)) (Z * string + string)).
Context (garbage30000 garbage4096 garbage3500 : chars) (elapsed : Z).

Abbreviation cluster := (gmap string (StateStore * world F)).
Abbreviation respond_at b := (CreateResponse junk strtold parse_tree (node_config ranges b)
  (the_node node0 b) (set_node b) rpc garbage30000 garbage4096 garbage3500 elapsed).

(** Node [b] of the cluster [c] can route a read of the table of [s] under the
    key [d] to its owner [a], whose database represents [σ]. *)
Record routed (n : nat) (σ : gmap string (Schema * store)) (a b : string) (c : cluster)
    (s : SelectStatement) (d : Data) (schema : Schema) (st : store) : Prop := {
  rt_rpc : rpc_delivers junk strtold parse_tree ranges node0 rpc;
  rt_receiver : ∃ nb, c !! b = Some nb ∧ streamers_ok nb;
  rt_owner : ∃ na, c !! a = Some na ∧ node_represents n σ a na ∧
    (size (fds na.2) + n + 3 ≤ fd_max)%nat;
  rt_count : Z.of_nat n + 1 < 2 ^ 62;
  rt_where : ∃ e es, sl_where_spec s = e :: es ∧ re_operand e = Some d;
  rt_key : ∃ key, Data_print d = Ok key ∧ key ≠ "" ∧ get_address (node_config ranges b) key = Some a;
  rt_wf : data_wf d;
  rt_table : σ !! fs_table (sl_from_spec s) = Some (schema, st);
  rt_request : table_request_ok σ (fs_table (sl_from_spec s)) (Get d)
}.

Lemma routed_process n σ a b c s d schema st query ds text :
  routed n σ a b c s d schema st → visitRoot strtold (parse_tree query) = Ok [SELECT s] →
  store_read st (Some d) = Ok (Some <$> ds) → ds ≠ [] → serialize (Some (Some <$> ds)) = Ok text →
  ∃ na na', c !! a = Some na ∧
    process_at junk strtold parse_tree ranges node0 rpc b query c = (Ok text, <[a := na']> c) ∧
    node_served n σ a na na'.
Proof.
  intros [Hrpc (nb & Hcb & Hstr) (na & Hca & Hrep & Hroom) Hn (e & es & Hw & He)
    (key & Hpr & Hne & Ha) Hwf Hσ Hreq] Hroot Hread Hds Hser.
  destruct ds as [|d0 ds]; [done|]. cbn [fmap list_fmap] in Hread, Hser.
  destruct (select_stored junk ranges n σ a na s e es d schema st _ _ Hrep Hw He Hσ Hreq Hwf Hroom Hn Hread)
    as (na' & Hex & Hrep').
  exists na, na'. split; [done|]. split; [|done]. rewrite Hser in Hex.
  eapply process_owner; try done.
  - unfold parse_statement. by rewrite Hroot.
  - unfold partition_key, SelectStatement_partition_key. rewrite Hw. cbn. by rewrite He; cbn; rewrite Hpr.
Qed.

(** A [SELECT] from the client's frame to the server's: it is answered with the
    record that the table's store holds under the key on the node that owns it,
    and of the cluster only that node changes. *)
Lemma select_answered (f : Frame) (rest : string) (consistency : byte) (s : SelectStatement)
    (r : Response (St := cluster)) (n : nat) (σ : gmap string (Schema * store)) (a b : string)
    (d : Data) (schema : Schema) (st : store) (name : string) (tm : TableManager) (ds : list Data)
    (record_text : string) (count : Z) :
  let text := "SELECT " +:+ rest +:+ ";" in
  let keyspace := fs_keyspace (sl_from_spec s) in
  let table := fs_table (sl_from_spec s) in
  query_frame f text consistency → plain text → slen text < 128 →
  visitRoot strtold (parse_tree text) = Ok [SELECT s] →
  routed n σ a b (rs_net r) s d schema st →
  store_read st (Some d) = Ok (Some <$> ds) →
  map_find str_cmp table (db_table_managers (rs_db r)) = Ok (Some (name, tm)) → tm_schema tm = schema →
  carried keyspace table schema ds →
  serialize (Some (Some <$> ds)) = Ok record_text → slen record_text < 2 ^ 31 →
  zlen (rows_wire keyspace table schema ds) ≤ 3500 → zlen garbage3500 = 3500 →
  zlen (rs_header r) = 71680 → rs_query r = "" → selections (rs_met r) count →
  let rows := rows_wire keyspace table schema ds in
  ∃ na na', rs_net r !! a = Some na ∧ respond_at b f r =
      (Ok (zlen rows + 9), MkResponse text
         (overwrite 0 (reply_start f ++ [x08; x00; x00; x00; byte_of_Z (zlen rows)] ++ rows) (rs_header r))
         (zlen rows + 9) (<[2%nat := count + 1]> (<[4%nat := elapsed]> (rs_met r)))
         (overwrite 0 rows garbage3500) (rs_db r) (<[a := na']> (rs_net r))) ∧
    node_served n σ a na na'.
Proof.
  intros text keyspace table Hf Hp Hl Hroot Hrt Hread Hfind <- Hc Hser Hsl Hb H35 Hh Hq Hmet rows.
  destruct (routed_process n σ a b (rs_net r) s d (tm_schema tm) st text ds record_text)
    as (na & na' & Hna & Hproc & Hrep); [done..|apply Hc|done|].
  exists na, na'. split; [done|]. split; [|done]. pose proof (zlen_nonneg rows).
  eapply select_reply with (c := consistency) (name := name);
    try done; try (unfold rows, keyspace, table in *; lia).
  unfold set_node, the_node. rewrite insert_id; [done|].
  destruct Hrt as [_ (nb & Hcb & _) _ _ _ _ _ _ _]. destruct (decide (a = b)) as [->|Hab].
  - by rewrite lookup_insert_eq.
  - by rewrite lookup_insert_ne, Hcb.
Qed.
End cluster_query.

(** ** An example *)

Import MemFS.

Definition example_text : string := "SELECT * FROM races WHERE id = 1;".

Definition example_answer : list Data := [ASCIIData "TdF"; IntData 1; ASCIIData "Alice"].

Lemma example_carried : carried "" "races" example_schema example_answer.
Proof.
  split; try done.
  - repeat apply Forall_cons_2; try apply Forall_nil_2; (split; [split; vm_compute; done|by eexists]).
  - unfold countable, zlen. simpl. lia.
  - repeat apply Forall_cons_2; try apply Forall_nil_2; (split; [|done]); vm_compute; by split.
  - repeat apply Forall_cons_2; try apply Forall_nil_2;
      first [by unfold sendable, countable; simpl; lia
            |split_and!; [..|unfold countable, slen; simpl; lia];
             repeat apply Forall_cons_2; try apply Forall_nil_2; done].
Qed.
