(* ===== verification/Http.v ===== *)
(** * HTTP messages: [api::prom_endp]

    Models [include/api/prom_endp/uri.hh], [include/api/prom_endp/http_message.hh]
    and [lib/api/prom_endp/http_message.cc]: methods, versions and status codes
    with their texts, requests and responses, their printing, and the parser of
    requests with the stream operations it is written with. *)

From Stdlib Require Import ZArith Lia Ascii String.
From stdpp Require Import base list strings pretty.
From S2P Require Import Prelude Text.

Local Open Scope Z_scope.

(** ** Enumerations *)

Inductive HttpMethod :=
  GET | HEAD | POST | PUT | DELETE | CONNECT | OPTIONS | TRACE | PATCH.

Inductive HttpVersion := HTTP_0_9 | HTTP_1_0 | HTTP_1_1 | HTTP_2_0.

Inductive HttpStatusCode :=
| Continue | SwitchingProtocols | EarlyHints
| Ok_ | Created | Accepted | NonAuthoritativeInformation | NoContent | ResetContent
| PartialContent
| MultipleChoices | MovedPermanently | Found | NotModified
| BadRequest | Unauthorized | Forbidden | NotFound | MethodNotAllowed | RequestTimeout
| ImATeapot
| InternalServerError | NotImplemented | BadGateway | ServiceUnvailable | GatewayTimeout
| HttpVersionNotSupported.

#[export] Instance HttpMethod_eq_dec : EqDecision HttpMethod.
Proof. solve_decision. Defined.
#[export] Instance HttpVersion_eq_dec : EqDecision HttpVersion.
Proof. solve_decision. Defined.
#[export] Instance HttpStatusCode_eq_dec : EqDecision HttpStatusCode.
Proof. solve_decision. Defined.

(** [static_cast<int>(status_code)] *)
Definition status_int (c : HttpStatusCode) : Z :=
  match c with
  | Continue => 100 | SwitchingProtocols => 101 | EarlyHints => 103
  | Ok_ => 200 | Created => 201 | Accepted => 202 | NonAuthoritativeInformation => 203
  | NoContent => 204 | ResetContent => 205 | PartialContent => 206
  | MultipleChoices => 300 | MovedPermanently => 301 | Found => 302 | NotModified => 304
  | BadRequest => 400 | Unauthorized => 401 | Forbidden => 403 | NotFound => 404
  | MethodNotAllowed => 405 | RequestTimeout => 408 | ImATeapot => 418
  | InternalServerError => 500 | NotImplemented => 501 | BadGateway => 502
  | ServiceUnvailable => 503 | GatewayTimeout => 504 | HttpVersionNotSupported => 505
  end.

(** ** [to_string] *)

Definition method_to_string (m : HttpMethod) : string :=
  match m with
  | GET => "GET" | HEAD => "HEAD" | POST => "POST" | PUT => "PUT" | DELETE => "DELETE"
  | CONNECT => "CONNECT" | OPTIONS => "OPTIONS" | TRACE => "TRACE" | PATCH => "PATCH"
  end.

Definition version_to_string (v : HttpVersion) : string :=
  match v with
  | HTTP_0_9 => "HTTP/0.9" | HTTP_1_0 => "HTTP/1.0" | HTTP_1_1 => "HTTP/1.1"
  | HTTP_2_0 => "HTTP/2.0"
  end.

(** Codes the switch does not list have no text. *)
Definition status_to_string (c : HttpStatusCode) : string :=
  match c with
  | Continue => "Continue" | Ok_ => "OK" | Accepted => "Accepted"
  | MovedPermanently => "Moved Permanently" | Found => "Found"
  | BadRequest => "Bad Request" | Forbidden => "Forbidden" | NotFound => "Not Found"
  | MethodNotAllowed => "Method Not Allowed" | ImATeapot => "I'm a Teapot"
  | InternalServerError => "Internal Server Error" | NotImplemented => "Not Implemented"
  | BadGateway => "Bad Gateway"
  | _ => ""
  end.

(** ** [std::transform] of a string, [toupper], [tolower] *)

Fixpoint str_transform (f : ascii → ascii) (s : string) : outcome string :=
  match s with
  | EmptyString => Ok ""
  | String c s =>
      if ctype_arg c then t ← str_transform f s; Ok (String (f c) t) else Undef CtypeArgument
  end.

Definition code_char (z : Z) : ascii := ascii_of_N (Z.to_N z).
Definition lower_char (c : ascii) : ascii := code_char (tolower (char_code c)).
Definition upper_char (c : ascii) : ascii :=
  let z := char_code c in if (97 <=? z) && (z <=? 122) then code_char (z - 32) else c.

Definition string_to_method (method_string : string) : outcome HttpMethod :=
  s ← str_transform upper_char method_string;
  if String.eqb s "GET" then Ok GET
  else if String.eqb s "HEAD" then Ok HEAD
  else if String.eqb s "POST" then Ok POST
  else if String.eqb s "PUT" then Ok PUT
  else if String.eqb s "DELETE" then Ok DELETE
  else if String.eqb s "CONNECT" then Ok CONNECT
  else if String.eqb s "OPTIONS" then Ok OPTIONS
  else if String.eqb s "TRACE" then Ok TRACE
  else if String.eqb s "PATCH" then Ok PATCH
  else Throw (invalid_argument "Unexpected HTTP method").

Definition string_to_version (version_string : string) : outcome HttpVersion :=
  s ← str_transform upper_char version_string;
  if String.eqb s "HTTP/0.9" then Ok HTTP_0_9
  else if String.eqb s "HTTP/1.0" then Ok HTTP_1_0
  else if String.eqb s "HTTP/1.1" then Ok HTTP_1_1
  else if String.eqb s "HTTP/2" || String.eqb s "HTTP/2.0" then Ok HTTP_2_0
  else Throw (invalid_argument "Unexpected HTTP version").

(** ** [Uri] *)

(** Only the path is supported. *)
Record Uri := MkUri { uri_path : string }.

Definition Uri_new (path : string) : outcome Uri := path ← str_transform lower_char path; Ok (MkUri path).
Definition Uri_default : Uri := MkUri "".
Definition SetPath (path : string) (u : Uri) : outcome Uri :=
  path ← str_transform lower_char path; Ok (MkUri path).
Definition Uri_lt (u v : Uri) : bool := str_before (uri_path u) (uri_path v).
Definition Uri_eq (u v : Uri) : bool := String.eqb (uri_path u) (uri_path v).

(** ** [HttpMessageInterface] *)

(** Headers in the order of the [std::map]. *)
Record HttpMessage := MkMessage {
  hm_version : HttpVersion;
  hm_headers : list (string * string);
  hm_content : string
}.

Definition HttpMessage_new : HttpMessage := MkMessage HTTP_1_1 [] "".

Definition SetHeader (key value : string) (m : HttpMessage) : HttpMessage :=
  MkMessage (hm_version m) (str_map_set key value (hm_headers m)) (hm_content m).
Definition RemoveHeader (key : string) (m : HttpMessage) : HttpMessage :=
  MkMessage (hm_version m) (filter (λ kv, kv.1 ≠ key) (hm_headers m)) (hm_content m).
Definition ClearHeader (m : HttpMessage) : HttpMessage :=
  MkMessage (hm_version m) [] (hm_content m).

(** [std::to_string(content_.length())] *)
Definition SetContentLength (m : HttpMessage) : HttpMessage :=
  SetHeader "Content-Length" (pretty (slen (hm_content m))) m.
Definition SetContent (content : string) (m : HttpMessage) : HttpMessage :=
  SetContentLength (MkMessage (hm_version m) (hm_headers m) content).
Definition ClearContent (m : HttpMessage) : HttpMessage :=
  SetContentLength (MkMessage (hm_version m) (hm_headers m) "").

Definition header (key : string) (m : HttpMessage) : string :=
  match str_map_get key (hm_headers m) with Some v => v | None => "" end.
Definition content_length (m : HttpMessage) : Z := slen (hm_content m).

Record HttpRequest := MkRequest {
  rq_message : HttpMessage;
  rq_method : HttpMethod;
  rq_uri : Uri
}.
Definition HttpRequest_new : HttpRequest := MkRequest HttpMessage_new GET Uri_default.

Record HttpResponse := MkHttpResponse {
  rp_message : HttpMessage;
  rp_status_code : HttpStatusCode
}.
Definition HttpResponse_new (c : HttpStatusCode) : HttpResponse := MkHttpResponse HttpMessage_new c.

Definition SetMethod (m : HttpMethod) (r : HttpRequest) : HttpRequest :=
  MkRequest (rq_message r) m (rq_uri r).
Definition SetUri (u : Uri) (r : HttpRequest) : HttpRequest := MkRequest (rq_message r) (rq_method r) u.
Definition SetStatusCode (c : HttpStatusCode) (r : HttpResponse) : HttpResponse :=
  MkHttpResponse (rp_message r) c.

(** [response.SetContent(..)], [response.SetHeader(..)] *)
Definition response_content (content : string) (r : HttpResponse) : HttpResponse :=
  MkHttpResponse (SetContent content (rp_message r)) (rp_status_code r).
Definition response_header (key value : string) (r : HttpResponse) : HttpResponse :=
  MkHttpResponse (SetHeader key value (rp_message r)) (rp_status_code r).

(** ** Printing *)

Definition CR : ascii := ascii_of_nat 13.
Definition LF : ascii := ascii_of_nat 10.
Definition crlf : string := String CR (String LF "").

Fixpoint headers_to_string (headers : list (string * string)) : string :=
  match headers with
  | [] => ""
  | (k, v) :: headers => (k +:+ ": " +:+ v +:+ crlf) +:+ headers_to_string headers
  end.

Definition request_to_string (r : HttpRequest) : string :=
  method_to_string (rq_method r) +:+ " " +:+ uri_path (rq_uri r) +:+ " "
    +:+ version_to_string (hm_version (rq_message r)) +:+ crlf
    +:+ headers_to_string (hm_headers (rq_message r)) +:+ crlf
    +:+ hm_content (rq_message r).

Definition response_to_string (r : HttpResponse) (send_content : bool) : string :=
  version_to_string (hm_version (rp_message r)) +:+ " "
    +:+ pretty (status_int (rp_status_code r)) +:+ " "
    +:+ status_to_string (rp_status_code r) +:+ crlf
    +:+ headers_to_string (hm_headers (rp_message r)) +:+ crlf
    +:+ (if send_content then hm_content (rp_message r) else "").

(** ** Input streams *)

(** [std::istringstream]: what is left to read, [eofbit] and [failbit]. *)
Record istream := MkStream { is_rest : string; is_eof : bool; is_fail : bool }.

Definition istream_new (s : string) : istream := MkStream s false false.
Definition good (s : istream) : bool := negb (is_eof s) && negb (is_fail s).

(** The text before the first [c], and what follows it. *)
Fixpoint cut_at (c : ascii) (s : string) : option (string * string) :=
  match s with
  | EmptyString => None
  | String a s =>
      if Ascii.eqb a c then Some ("", s)
      else match cut_at c s with Some (p, r) => Some (String a p, r) | None => None end
  end.

(** [std::getline(stream, str, delim)].  A stream that is not good keeps the
    old value of [str]; [eofbit] is set when the end is met before [delim], and
    [failbit] too if nothing was read. *)
Definition getline (delim : ascii) (str : string) (s : istream) : string * istream :=
  if good s then
    match cut_at delim (is_rest s) with
    | Some (line, rest) => (line, MkStream rest false false)
    | None => (is_rest s, MkStream "" true (String.eqb (is_rest s) ""))
    end
  else (str, MkStream (is_rest s) (is_eof s) true).

(** The characters up to the first space, and the rest. *)
Fixpoint word_of (s : string) : string * string :=
  match s with
  | EmptyString => ("", "")
  | String a s' =>
      if isspace a then ("", s) else let '(w, r) := word_of s' in (String a w, r)
  end.

(** [stream >> str]: spaces are skipped; at the end of the text the extraction
    fails and [str] keeps its value. *)
Definition extract (str : string) (s : istream) : string * istream :=
  if good s then
    let rest := skip_space (is_rest s) in
    if String.eqb rest "" then (str, MkStream "" true true)
    else let '(w, r) := word_of rest in (w, MkStream r (String.eqb r "") false)
  else (str, MkStream (is_rest s) (is_eof s) true).

(** [str.erase(std::remove_if(.., isspace), str.end())] *)
Fixpoint remove_spaces (s : string) : outcome string :=
  match s with
  | EmptyString => Ok ""
  | String a s =>
      if ctype_arg a then
        t ← remove_spaces s; Ok (if isspace a then t else String a t)
      else Undef CtypeArgument
  end.

(** ** [string_to_request] *)

(** [str.find(token, pos)] *)
Definition str_find_from (s token : string) (pos : Z) : Z :=
  match String.index (Z.to_nat pos) token s with Some p => Z.of_nat p | None => npos end.

(** The body of the loop over the header lines.  [key] and [value] are declared
    outside of the loop. *)
Definition header_line (line : string) (kv : string * string) : outcome (string * string) :=
  let header_stream := istream_new line in
  let '(key, header_stream) := getline ":" kv.1 header_stream in
  let '(value, _) := getline LF kv.2 header_stream in
  key ← remove_spaces key;
  value ← remove_spaces value;
  Ok (key, value).

(** [while (std::getline(iss, line))]; [None] when the fuel runs out. *)
Fixpoint header_loop (fuel : nat) (iss : istream) (kv : string * string) (m : HttpMessage) :
    option (outcome HttpMessage) :=
  match fuel with
  | O => None
  | S fuel =>
      let '(line, iss) := getline LF "" iss in
      if is_fail iss then Some (Ok m)
      else match header_line line kv with
           | Ok kv => header_loop fuel iss kv (SetHeader kv.1 kv.2 m)
           | Throw e => Some (Throw e)
           | Undef u => Some (Undef u)
           end
  end.

(** The three parts of a request: the start line, the header lines, the body. *)
Definition request_parts (s : string) : outcome (string * string * string) :=
  let rpos := str_find_from s crlf 0 in
  if rpos =? npos then Throw (invalid_argument "Could not find request start line") else
  start_line ← str_substr s 0 rpos;
  let lpos := rpos + 2 in
  let rpos := str_find_from s (crlf +:+ crlf) lpos in
  if rpos =? npos then Ok (start_line, "", "") else
  header_lines ← str_substr s lpos (rpos - lpos);
  let lpos := rpos + 4 in
  if lpos <? slen s then
    message_body ← str_substr s lpos (slen s - lpos);
    Ok (start_line, header_lines, message_body)
  else Ok (start_line, header_lines, "").

(** The start line. *)
Definition parse_start_line (start_line : string) : outcome (HttpMethod * Uri * HttpVersion) :=
  let '(method, iss) := extract "" (istream_new start_line) in
  let '(path, iss) := extract "" iss in
  let '(version, iss) := extract "" iss in
  if negb (good iss) && negb (is_eof iss) then
    Throw (invalid_argument "Invalid start line format")
  else
  m ← string_to_method method;
  uri ← Uri_new path;
  v ← string_to_version version;
  Ok (m, uri, v).

(** The loop makes at most one round per character and a last one. *)
Definition string_to_request (request_string : string) : outcome HttpRequest :=
  '(start_line, header_lines, message_body) ← request_parts request_string;
  '(method, uri, version) ← parse_start_line start_line;
  if bool_decide (version = hm_version HttpMessage_new) then
    match header_loop (S (S (String.length header_lines))) (istream_new header_lines) ("", "")
            HttpMessage_new with
    | Some m => m ← m; Ok (MkRequest (SetContent message_body m) method uri)
    | None => Undef MissingReturn
    end
  else Throw (logic_error "HTTP version not supported").

(** [string_to_response] *)
Definition string_to_response (response_string : string) : outcome HttpResponse :=
  Throw (logic_error "Method not implemented").

(** ** Searching texts *)

Local Arguments isspace : simpl never.

(** The characters of a text are such that [<cctype>] takes them. *)
Abbreviation ctyped s := (Forall (λ a, ctype_arg a = true) (String.list_ascii_of_string s)).
Abbreviation spaceless s := (Forall (λ a, isspace a = false) (String.list_ascii_of_string s)).

Lemma spaceless_lacks c s : isspace c = true → spaceless s → lacks c s.
Proof. intros Hc Hs. eapply Forall_impl; [exact Hs|]. intros a Ha ->. cbv beta in Ha. congruence. Qed.

Lemma remove_spaces_app s t s' t' : remove_spaces s = Ok s' → remove_spaces t = Ok t' →
  remove_spaces (s +:+ t) = Ok (s' +:+ t').
Proof.
  intros Hs Ht. revert s' Hs. induction s as [|a s IH]; [by intros ? [= <-]|].
  intros s'. rewrite str_app_cons. cbn. destruct (ctype_arg a); [|done].
  destruct (remove_spaces s) as [u| |]; [|done..]. intros [= <-]. rewrite (IH u eq_refl). cbn.
  by destruct (isspace a).
Qed.

Lemma remove_spaces_id s : spaceless s → ctyped s → remove_spaces s = Ok s.
Proof.
  induction s as [|a s IH]; [done|]. cbn. intros [Ha Hs]%Forall_cons [Hc Ht]%Forall_cons.
  by rewrite Hc, IH, Ha.
Qed.

Lemma str_transform_ctyped f s t : str_transform f s = Ok t → ctyped s.
Proof.
  revert t. induction s as [|a s IH]; intros t; [constructor|]. cbn.
  destruct (ctype_arg a) eqn:Ha; [|done]. destruct (str_transform f s) as [u| |]; [|done..].
  intros _. constructor; [done|]. by eapply IH.
Qed.

(** On other texts the program is undefined, and on no other. *)
Lemma str_transform_cases f s : (∃ t, str_transform f s = Ok t) ∨
  str_transform f s = Undef CtypeArgument ∧ ¬ ctyped s.
Proof.
  induction s as [|a s [[t IH]|[IH Hn]]]; cbn; [left; by eexists|..];
    destruct (ctype_arg a) eqn:Ha; rewrite ?IH; cbn.
  - left. by eexists.
  - right. split; [done|]. intros [Ha' _]%Forall_cons. congruence.
  - right. split; [done|]. by intros [_ ?]%Forall_cons.
  - right. split; [done|]. intros [Ha' _]%Forall_cons. congruence.
Qed.

Lemma remove_spaces_cases s : (∃ t, remove_spaces s = Ok t ∧ ctyped t) ∨
  remove_spaces s = Undef CtypeArgument ∧ ¬ ctyped s.
Proof.
  induction s as [|a s [(t & IH & Ht)|[IH Hn]]]; cbn; [left; by eexists|..];
    destruct (ctype_arg a) eqn:Ha; rewrite ?IH; cbn.
  - left. eexists. split; [done|]. destruct (isspace a); [done|by constructor].
  - right. split; [done|]. intros [Ha' _]%Forall_cons. congruence.
  - right. split; [done|]. by intros [_ ?]%Forall_cons.
  - right. split; [done|]. intros [Ha' _]%Forall_cons. congruence.
Qed.

Lemma word_of_app s t c : spaceless s → isspace c = true → word_of (s +:+ String c t) = (s, String c t).
Proof.
  intros Hs Hc. induction s as [|a s IH].
  { change ("" +:+ String c t) with (String c t). cbn. by rewrite Hc. }
  rewrite str_app_cons. cbn in *.
  apply Forall_cons in Hs as [-> Hs]. by rewrite IH.
Qed.

Lemma word_of_id s : spaceless s → word_of s = (s, "").
Proof. induction s as [|a s IH]; [done|]. cbn. intros [-> Hs]%Forall_cons. by rewrite IH. Qed.

Lemma cut_at_app c p r : lacks c p → cut_at c (p +:+ String c r) = Some (p, r).
Proof.
  induction p as [|a p IH].
  { change ("" +:+ String c r) with (String c r). cbn. by rewrite Ascii.eqb_refl. }
  rewrite str_app_cons. cbn.
  intros [Ha Hp]%Forall_cons. apply Ascii.eqb_neq in Ha. by rewrite Ha, IH.
Qed.

Lemma cut_at_none c s : lacks c s → cut_at c s = None.
Proof.
  induction s as [|a s IH]; [done|]. cbn. intros [Ha Hp]%Forall_cons.
  apply Ascii.eqb_neq in Ha. by rewrite Ha, IH.
Qed.

Lemma cut_at_shorter c s p r : cut_at c s = Some (p, r) → (String.length r < String.length s)%nat.
Proof.
  revert p. induction s as [|a s IH]; intros p; [done|]. cbn. destruct (Ascii.eqb a c).
  - intros [= _ <-]. lia.
  - destruct (cut_at c s) as [[p' r']|]; [|done]. intros [= _ <-]. specialize (IH p' eq_refl). lia.
Qed.

(** A search from behind a prefix. *)
Lemma index_shift t p s n :
  String.index (String.length p + n) t (p +:+ s) = Nat.add (String.length p) <$> String.index n t s.
Proof.
  induction p as [|a p IH].
  { change ("" +:+ s) with s. cbn [String.length Nat.add]. by destruct (String.index n t s). }
  rewrite str_app_cons.
  cbn [String.length Nat.add String.index]. rewrite IH. by destruct (String.index n t s).
Qed.

(** A search skips the text without the first character of the token. *)
Lemma index_skip c t p s : lacks c p →
  String.index 0 (String c t) (p +:+ s) = Nat.add (String.length p) <$> String.index 0 (String c t) s.
Proof.
  induction p as [|a p IH].
  { intros _. change ("" +:+ s) with s. cbn [String.length]. by destruct (String.index 0 (String c t) s). }
  rewrite str_app_cons. cbn [String.list_ascii_of_string]. intros [Ha Hp]%Forall_cons.
  cbn [String.length String.index String.prefix]. destruct (ascii_dec c a); [congruence|].
  rewrite IH by done. by destruct (String.index 0 (String c t) s).
Qed.

Lemma str_prefix_app t s : String.prefix t (t +:+ s) = true.
Proof.
  induction t as [|a t IH]; [by destruct s|]. rewrite str_app_cons. cbn.
  by destruct (ascii_dec a a).
Qed.

Lemma index_here t s : t ≠ "" → String.index 0 t (t +:+ s) = Some 0%nat.
Proof.
  intros Ht. pose proof (str_prefix_app t s) as Hp. destruct t as [|a t]; [done|].
  rewrite str_app_cons in *. cbn [String.index]. by rewrite Hp.
Qed.

(** ** Requests that survive printing and parsing *)

Definition header_ok (kv : string * string) : Prop :=
  (spaceless kv.1 ∧ ctyped kv.1) ∧ lacks ":"%char kv.1 ∧ spaceless kv.2 ∧ ctyped kv.2.

(** Keys in the order of the map. *)
Fixpoint keys_sorted (l : list (string * string)) : Prop :=
  match l with
  | [] => True
  | (k, _) :: l => Forall (λ kv, str_before k kv.1 = true) l ∧ keys_sorted l
  end.

Record wf_request (r : HttpRequest) : Prop := {
  ro_version : hm_version (rq_message r) = HTTP_1_1;
  ro_path : uri_path (rq_uri r) ≠ "";
  ro_path_spaceless : spaceless (uri_path (rq_uri r));
  ro_path_lower : str_transform lower_char (uri_path (rq_uri r)) = Ok (uri_path (rq_uri r));
  ro_headers : Forall header_ok (hm_headers (rq_message r));
  ro_sorted : keys_sorted (hm_headers (rq_message r));
  ro_length : str_map_get "Content-Length" (hm_headers (rq_message r)) =
                Some (pretty (slen (hm_content (rq_message r))))
}.

(** *** The headers as a map *)

Lemma str_before_asym a b : str_before a b = true → str_before b a = false ∧ a ≠ b.
Proof.
  unfold str_before. intros Hab%negb_true_iff. split.
  - rewrite negb_false_iff. destruct (String.leb_total a b) as [|Hba]; [done|congruence].
  - intros ->. destruct (String.leb_total b b); congruence.
Qed.

Lemma str_map_set_snoc {V} k (v : V) l : Forall (λ kv, str_before kv.1 k = true) l →
  str_map_set k v l = l ++ [(k, v)].
Proof.
  induction 1 as [|[k' v'] l Hk _ IH]; [done|]. cbn in *. destruct (str_before_asym k' k Hk) as [-> Hne].
  apply String.eqb_neq in Hne. by rewrite Hne, IH.
Qed.

Lemma str_map_set_same k v l : keys_sorted l → str_map_get k l = Some v → str_map_set k v l = l.
Proof.
  induction l as [|[k' v'] l IH]; [done|]. cbn. intros [Hk Hs].
  destruct (String.eqb_spec k' k) as [->|Hne]; [by intros [= ->]|]. intros Hg.
  assert (str_before k k' = false) as ->; [|by rewrite IH].
  assert (∃ v'', (k, v'') ∈ l) as [v'' Hin].
  { clear -Hg. induction l as [|[k2 v2] l IH]; [done|]. cbn in Hg.
    destruct (String.eqb_spec k2 k) as [->|]; [exists v2; left|].
    destruct (IH Hg) as [v'' ?]. exists v''. by right. }
  rewrite Forall_forall in Hk. apply (str_before_asym k' k), (Hk _ Hin).
Qed.

Lemma set_headers l l0 : keys_sorted (l0 ++ l) →
  foldl (λ m kv, str_map_set kv.1 kv.2 m) l0 l = l0 ++ l.
Proof.
  revert l0. induction l as [|[k v] l IH]; intros l0 Hs; [by rewrite app_nil_r|]. cbn.
  rewrite str_map_set_snoc.
  - change ((k, v) :: l) with ([(k, v)] ++ l) in *. rewrite app_assoc in *. by apply IH.
  - clear IH. induction l0 as [|[k0 v0] l0 IH]; [done|]. cbn in Hs. destruct Hs as [Hk Hs].
    constructor; [|by apply IH]. rewrite Forall_app, Forall_cons in Hk. apply Hk.
Qed.

(** *** The header lines *)

Definition header_text (kv : string * string) : string := kv.1 +:+ ": " +:+ kv.2.

(** The header lines without the line break of the last one. *)
Fixpoint join_headers (l : list (string * string)) : string :=
  match l with
  | [] => ""
  | [kv] => header_text kv
  | kv :: l => header_text kv +:+ crlf +:+ join_headers l
  end.

Lemma join_headers_string l : l ≠ [] → headers_to_string l = join_headers l +:+ crlf.
Proof.
  induction l as [|[k v] l IH]; [done|]. intros _. cbn [headers_to_string join_headers].
  destruct l as [|kv l].
  - unfold header_text. cbn [headers_to_string fst snd]. by rewrite str_app_nil_r, !str_app_assoc.
  - rewrite IH by done. unfold header_text. cbn [fst snd]. by rewrite !str_app_assoc.
Qed.

Lemma header_text_lacks c kv : header_ok kv → c = CR ∨ c = LF → lacks c (header_text kv).
Proof.
  intros ((Hk & _) & _ & Hv & _) Hc. assert (isspace c = true) as Hs by (by destruct Hc as [-> | ->]).
  unfold header_text. rewrite !list_ascii_app, !Forall_app.
  split_and!; [by apply spaceless_lacks| |by apply spaceless_lacks].
  by destruct Hc as [-> | ->]; repeat constructor.
Qed.

Lemma header_line_ok kv old (tail : string) : header_ok kv → tail = "" ∨ tail = String CR "" →
  header_line (header_text kv +:+ tail) old = Ok kv.
Proof.
  destruct kv as [k v]. intros ((Hk & Hkc) & Hc & Hv & Hvc) Ht. cbn [fst snd] in *. unfold header_line, header_text.
  cbn [fst snd]. rewrite !str_app_assoc. change (": " +:+ v +:+ tail) with (String ":" (" " +:+ v +:+ tail)).
  unfold getline at 1. cbn [istream_new good is_eof is_fail negb andb is_rest].
  rewrite cut_at_app by done. unfold getline. cbn [good is_eof is_fail negb andb is_rest].
  rewrite cut_at_none.
  - rewrite (remove_spaces_id k) by done. cbn [mbind outcome_bind].
    rewrite (remove_spaces_app " " (v +:+ tail) "" v); [done|done|]. rewrite <- (str_app_nil_r v) at 2.
    apply remove_spaces_app; [by apply remove_spaces_id|]. by destruct Ht as [-> | ->].
  - rewrite !list_ascii_app, !Forall_app. split_and!; [by repeat constructor|by apply spaceless_lacks|].
    destruct Ht as [-> | ->]; by repeat constructor.
Qed.

Lemma header_loop_ok l : Forall header_ok l → ∀ fuel old m, (S (length l) ≤ fuel)%nat →
  header_loop fuel (istream_new (join_headers l)) old m =
    Some (Ok (foldl (λ m kv, SetHeader kv.1 kv.2 m) m l)).
Proof.
  induction 1 as [|kv l Hkv Hl IH]; intros fuel old m Hf; (destruct fuel as [|fuel]; [cbn in Hf; lia|]).
  { reflexivity. }
  assert (header_text kv ≠ "") as Hne by (destruct kv as [[|] ?]; done).
  cbn [foldl]. destruct l as [|kv' l].
  - cbn [join_headers header_loop]. unfold getline at 1. cbn [istream_new good is_eof is_fail negb andb is_rest].
    rewrite cut_at_none by (by apply header_text_lacks; auto).
    apply String.eqb_neq in Hne. rewrite Hne. cbn [is_fail].
    pose proof (header_line_ok kv old "" Hkv ltac:(auto)) as Hline. rewrite str_app_nil_r in Hline.
    rewrite Hline. cbn in Hf. destruct fuel as [|fuel]; [lia|]. reflexivity.
  - change (join_headers (kv :: kv' :: l)) with (header_text kv +:+ crlf +:+ join_headers (kv' :: l)).
    change (crlf +:+ join_headers (kv' :: l)) with (String CR "" +:+ String LF (join_headers (kv' :: l))).
    rewrite <- str_app_assoc. cbn [header_loop]. unfold getline at 1.
    cbn [istream_new good is_eof is_fail negb andb is_rest]. rewrite cut_at_app.
    + cbn [is_fail]. rewrite header_line_ok by auto. apply IH. cbn in *. lia.
    + rewrite list_ascii_app, Forall_app. split; [by apply header_text_lacks; auto|by repeat constructor].
Qed.

(** Enough fuel for any header lines. *)
Lemma header_loop_total fuel : ∀ iss kv m,
  (match good iss with true => S (S (String.length (is_rest iss))) | false => 1 end ≤ fuel)%nat →
  ∃ m', header_loop fuel iss kv m = Some m'.
Proof.
  induction fuel as [|fuel IH]; intros iss kv m Hf; [destruct (good iss); lia|].
  cbn [header_loop]. unfold getline. destruct (good iss) eqn:Hg; [|by eexists].
  destruct (cut_at LF (is_rest iss)) as [[line rest]|] eqn:Hcut.
  - cbn [is_fail]. destruct (header_line line kv); [|by eexists..].
    apply IH. cbn. apply cut_at_shorter in Hcut. lia.
  - cbn [is_fail]. destruct (String.eqb (is_rest iss) ""); [by eexists|].
    destruct (header_line _ kv); [|by eexists..]. apply IH. cbn. lia.
Qed.

(** *** The parts of a request *)

Lemma find_from_app token p s n : String.index 0 token s = Some n →
  str_find_from (p +:+ s) token (slen p) = slen p + Z.of_nat n.
Proof.
  intros Hn. unfold str_find_from, slen. rewrite Nat2Z.id.
  pose proof (index_shift token p s 0) as Hi. rewrite Nat.add_0_r, Hn in Hi. rewrite Hi. cbn. lia.
Qed.

(** Slicing [p ++ q ++ r] around [q]. *)
Lemma substr_mid p q r n : n = slen q → str_substr (p +:+ q +:+ r) (slen p) n = Ok q.
Proof.
  intros ->. unfold str_substr. rewrite !slen_app. unfold slen.
  destruct (Z.ltb_spec (Z.of_nat (String.length p) + (Z.of_nat (String.length q) + Z.of_nat (String.length r)))
    (Z.of_nat (String.length p))); [lia|].
  rewrite Z.min_l, !Nat2Z.id by lia. f_equal. clear.
  induction p as [|a p IH]; [exact (substring_0 q r)|]. rewrite str_app_cons. cbn. apply IH.
Qed.

Lemma crlf_index p s : lacks CR p → String.index 0 crlf (p +:+ crlf +:+ s) = Some (String.length p).
Proof.
  intros Hp. unfold crlf at 1. rewrite index_skip by done. change (String CR (String LF "")) with crlf.
  rewrite index_here by done. cbn. f_equal. lia.
Qed.

Lemma join_index l s : l ≠ [] → Forall header_ok l →
  String.index 0 (crlf +:+ crlf) (join_headers l +:+ crlf +:+ crlf +:+ s) =
    Some (String.length (join_headers l)).
Proof.
  intros Hne Hl. revert Hne. induction Hl as [|kv l Hkv Hl IH]; [done|]. intros _.
  assert (lacks CR (header_text kv)) as HCR by (by apply header_text_lacks; auto).
  change (crlf +:+ crlf) with (String CR (String LF crlf)) in *.
  destruct l as [|kv' l].
  - cbn [join_headers]. rewrite index_skip by done.
    rewrite <- (str_app_assoc crlf crlf s). change (crlf +:+ crlf) with (String CR (String LF crlf)).
    rewrite index_here by done. cbn. f_equal. lia.
  - set (rest := join_headers (kv' :: l)) in *.
    change (join_headers (kv :: kv' :: l)) with (header_text kv +:+ crlf +:+ rest).
    rewrite (str_app_assoc (header_text kv)), index_skip by done.
    rewrite str_length_app, (str_app_assoc crlf). 
    assert (∃ a t, rest = String a t ∧ a ≠ CR) as (a & t & Hrest & Ha).
    { unfold rest. inversion Hl as [|? ? ((Hk & _) & _) _]; subst.
      assert (∃ a t, header_text kv' = String a t ∧ a ≠ CR) as (a & t & Ht & Ha).
      { unfold header_text. destruct kv' as [[|a k] v]; cbn [fst snd].
        - by exists ":"%char, (String " " v).
        - exists a, (k +:+ ": " +:+ v). rewrite str_app_cons. split; [done|]. cbn in Hk.
          apply Forall_cons in Hk as [Hs _]. intros ->. done. }
      cbn [join_headers]. destruct l as [|kv2 l]; rewrite Ht; [by eauto|].
      rewrite str_app_cons. by eauto. }
    specialize (IH ltac:(done)). fold rest in IH.
    assert (∀ z, String.index 0 (String CR (String LF crlf)) (crlf +:+ rest +:+ z) =
      Nat.add 2 <$> String.index 0 (String CR (String LF crlf)) (rest +:+ z)) as Hstep.
    { intros z. rewrite Hrest, str_app_cons. unfold crlf at 2.
      change (String CR (String LF "") +:+ ?x) with (String CR (String LF x)).
      cbn [String.index]. cbn [String.prefix].
      destruct (ascii_dec CR CR) as [_|]; [|done]. destruct (ascii_dec LF LF) as [_|]; [|done].
      unfold crlf at 1. destruct (ascii_dec CR LF); [done|].
      change (String.prefix (String CR (String LF "")) (String a (t +:+ z))) with
        (if ascii_dec CR a then String.prefix (String LF "") (t +:+ z) else false).
      destruct (ascii_dec CR a); [congruence|]. change crlf with (String CR (String LF "")).
      by destruct (String.index 0 (String CR (String LF (String CR (String LF "")))) (t +:+ z)). }
    rewrite Hstep, IH. by cbn [fmap option_fmap option_map].
Qed.

Lemma request_parts_ok start l body : lacks CR start → l ≠ [] → Forall header_ok l →
  slen (start +:+ crlf +:+ headers_to_string l +:+ crlf +:+ body) < npos →
  request_parts (start +:+ crlf +:+ headers_to_string l +:+ crlf +:+ body) =
    Ok (start, join_headers l, body).
Proof.
  intros Hs Hne Hl. rewrite join_headers_string by done. rewrite (str_app_assoc (join_headers l)).
  set (j := join_headers l). set (whole := start +:+ crlf +:+ j +:+ crlf +:+ crlf +:+ body). intros Hn.
  pose proof (slen_nonneg start). pose proof (slen_nonneg j). pose proof (slen_nonneg body).
  assert (slen whole = slen start + slen j + slen body + 6) as Hlen.
  { unfold whole. rewrite !slen_app. change (slen crlf) with 2. lia. }
  assert (str_find_from whole crlf 0 = slen start) as Hf1.
  { unfold str_find_from. change (Z.to_nat 0) with 0%nat. unfold whole. by rewrite crlf_index. }
  assert (str_substr whole 0 (slen start) = Ok start) as Hs1 by exact (substr_mid "" start _ _ eq_refl).
  assert (slen (start +:+ crlf) = slen start + 2) as Hpre by (rewrite slen_app; done).
  assert (str_find_from whole (crlf +:+ crlf) (slen start + 2) = slen start + 2 + slen j) as Hf2.
  { unfold whole. rewrite <- str_app_assoc, <- Hpre. by apply find_from_app, join_index. }
  assert (str_substr whole (slen start + 2) (slen j) = Ok j) as Hs2.
  { unfold whole. rewrite <- str_app_assoc, <- Hpre. by apply substr_mid. }
  assert (str_substr whole (slen start + slen j + 6) (slen body) = Ok body) as Hs3.
  { replace whole with ((start +:+ crlf +:+ j +:+ crlf +:+ crlf) +:+ body +:+ "")
      by (unfold whole; by rewrite str_app_nil_r, !str_app_assoc).
    replace (slen start + slen j + 6) with (slen (start +:+ crlf +:+ j +:+ crlf +:+ crlf))
      by (rewrite !slen_app; change (slen crlf) with 2; lia). by apply substr_mid. }
  unfold request_parts. rewrite Hf1. destruct (Z.eqb_spec (slen start) npos); [lia|].
  rewrite Hs1. cbn [mbind outcome_bind]. rewrite Hf2.
  destruct (Z.eqb_spec (slen start + 2 + slen j) npos); [lia|].
  replace (slen start + 2 + slen j - (slen start + 2)) with (slen j) by lia.
  rewrite Hs2. cbn [mbind outcome_bind]. rewrite Hlen.
  replace (slen start + 2 + slen j + 4) with (slen start + slen j + 6) by lia.
  replace (slen start + slen j + slen body + 6 - (slen start + slen j + 6)) with (slen body) by lia.
  rewrite Hs3. destruct (Z.ltb_spec (slen start + slen j + 6) (slen start + slen j + slen body + 6)); [done|].
  destruct body as [|a body]; [done|]. unfold slen in *. cbn [String.length] in *. lia.
Qed.

Lemma extract_word w c t : spaceless w → w ≠ "" → isspace c = true →
  extract "" (istream_new (w +:+ String c t)) = (w, MkStream (String c t) false false).
Proof.
  intros Hw Hne Hc. unfold extract. cbn [istream_new good is_eof is_fail negb andb is_rest].
  destruct w as [|a w]; [done|]. rewrite str_app_cons. cbn [skip_space].
  pose proof Hw as Hw'. cbn in Hw'. apply Forall_cons in Hw' as [Ha _]. rewrite Ha.
  cbn [String.eqb]. rewrite <- str_app_cons, word_of_app by done. done.
Qed.

Lemma string_to_method_ok m : string_to_method (method_to_string m) = Ok m.
Proof. by destruct m. Qed.

Lemma parse_start_line_ok m path : path ≠ "" → spaceless path → str_transform lower_char path = Ok path →
  parse_start_line (method_to_string m +:+ " " +:+ path +:+ " " +:+ "HTTP/1.1") =
    Ok (m, MkUri path, HTTP_1_1).
Proof.
  intros Hp Hs Hlow. unfold parse_start_line.
  change (" " +:+ path +:+ " " +:+ "HTTP/1.1") with (String " " (path +:+ String " " "HTTP/1.1")).
  rewrite extract_word by (by destruct m; repeat constructor).
  unfold extract at 1. cbn [good is_eof is_fail negb andb is_rest skip_space].
  change (isspace " ") with true. cbn iota.
  pose proof (extract_word path " " "HTTP/1.1" Hs Hp eq_refl) as He. unfold extract in He.
  cbn [istream_new good is_eof is_fail negb andb is_rest] in He. rewrite He.
  change (extract "" (MkStream (String " " "HTTP/1.1") false false)) with
    ("HTTP/1.1", MkStream "" true false). cbn [good is_eof is_fail negb andb].
  rewrite string_to_method_ok. cbn [mbind outcome_bind]. unfold Uri_new. by rewrite Hlow.
Qed.

Lemma fold_SetHeader l m : foldl (λ m kv, SetHeader kv.1 kv.2 m) m l =
  MkMessage (hm_version m) (foldl (λ h kv, str_map_set kv.1 kv.2 h) (hm_headers m) l) (hm_content m).
Proof. revert m. induction l as [|kv l IH]; intros m; [by destruct m|]. cbn [foldl]. by rewrite IH. Qed.

(** C23 (roundtrip): a well-formed request is read back as it was printed: its
    method, its lower-case path, its headers, each without white space and with
    keys without colons, and its content, whatever characters that has. *)
Theorem request_roundtrip (r : HttpRequest) :
  wf_request r → slen (request_to_string r) < npos →
  string_to_request (request_to_string r) = Ok r.
Proof.
  intros [Hv Hp Hps Hlow Hh Hsort Hcl]. destruct r as [[v hs body] m [path]].
  cbn [rq_message rq_method rq_uri hm_version hm_headers hm_content uri_path] in *. subst v.
  assert (hs ≠ []) as Hne by (by destruct hs).
  unfold request_to_string. cbn [rq_message rq_method rq_uri hm_version hm_headers hm_content uri_path].
  set (start := method_to_string m +:+ " " +:+ path +:+ " " +:+ "HTTP/1.1").
  replace (method_to_string m +:+ " " +:+ path +:+ " " +:+ version_to_string HTTP_1_1 +:+ crlf
    +:+ headers_to_string hs +:+ crlf +:+ body) with
    (start +:+ crlf +:+ headers_to_string hs +:+ crlf +:+ body)
    by (unfold start; by rewrite !str_app_assoc).
  intros Hlen. unfold string_to_request. rewrite request_parts_ok; [|idtac|done|done|done].
  - cbn [mbind outcome_bind]. unfold start. rewrite parse_start_line_ok by done. cbn [mbind outcome_bind].
    rewrite bool_decide_true by done. rewrite header_loop_ok.
    + cbn [mbind outcome_bind]. rewrite fold_SetHeader. cbn [HttpMessage_new hm_version hm_headers hm_content].
      rewrite (set_headers hs []) by done. unfold SetContent, SetContentLength, SetHeader.
      cbn [hm_version hm_headers hm_content app]. by rewrite str_map_set_same by done.
    + done.
    + clear. assert (∀ l, (length l ≤ S (String.length (join_headers l)))%nat) as Hle.
      { induction l as [|kv l IH]; [cbn; lia|]. destruct l as [|kv' l]; [cbn; lia|].
        change (join_headers (kv :: kv' :: l)) with (header_text kv +:+ crlf +:+ join_headers (kv' :: l)).
        rewrite !str_length_app. cbn [length String.length crlf] in *. lia. }
      specialize (Hle hs). lia.
  - unfold start. rewrite !list_ascii_app, !Forall_app. split_and!; try by repeat constructor.
    + by destruct m; repeat constructor.
    + by apply spaceless_lacks.
Qed.

Definition example_request : HttpRequest :=
  MkRequest (MkMessage HTTP_1_1 [("Content-Length", "0"); ("Host", "localhost:8080")] "") GET
    (MkUri "/metrics").

Lemma request_roundtrip_witness :
  string_to_request (request_to_string example_request) = Ok example_request.
Proof.
  apply (request_roundtrip example_request); [|reflexivity].
  split; cbn; try done; repeat constructor; done.
Defined.

(** *** Any request is parsed or refused *)

Lemma index_bound t s : ∀ n p, String.index n t s = Some p →
  (n ≤ p ∧ p + String.length t ≤ String.length s)%nat.
Proof.
  assert (∀ s, String.prefix t s = true → (String.length t ≤ String.length s)%nat) as Hpre.
  { induction t as [|b t IH]; intros [|a s']; cbn; try lia; try done.
    destruct (ascii_dec b a); [|done]. intros Hp%IH. lia. }
  induction s as [|a s IH]; intros [|n] p.
  - cbn. destruct t; [|done]. intros [= <-]. cbn. lia.
  - cbn. done.
  - cbn [String.index]. destruct (String.prefix t (String a s)) eqn:Hp.
    + intros [= <-]. apply Hpre in Hp. lia.
    + destruct (String.index 0 t s) as [p'|] eqn:Hi; [|done]. intros [= <-]. apply IH in Hi. cbn. lia.
  - cbn [String.index]. destruct (String.index n t s) as [p'|] eqn:Hi; [|done].
    intros [= <-]. apply IH in Hi. cbn. lia.
Qed.

Lemma find_from_bound s token pos : slen s < npos → 0 ≤ pos →
  str_find_from s token pos = npos ∨
  pos ≤ str_find_from s token pos ∧ str_find_from s token pos + slen token ≤ slen s.
Proof.
  intros Hs Hp. unfold str_find_from, slen in *. destruct (String.index _ token s) as [p|] eqn:Hi; [|by left].
  right. apply index_bound in Hi. lia.
Qed.

Lemma substr_ok s pos n : pos ≤ slen s → ∃ t, str_substr s pos n = Ok t.
Proof. intros H. unfold str_substr. destruct (Z.ltb_spec (slen s) pos); [lia|]. by eexists. Qed.

(** The messages of the parser.  The fourth of the source, for a start line that
    could not be read, cannot occur: the extraction only fails at its end. *)
Definition refusals : list string :=
  ["Could not find request start line"; "Unexpected HTTP method"; "Unexpected HTTP version"].

Lemma request_parts_total s : slen s < npos →
  (∃ p, request_parts s = Ok p) ∨ ∃ w, request_parts s = Throw (invalid_argument w) ∧ w ∈ refusals.
Proof.
  intros Hs. unfold request_parts. pose proof (slen_nonneg s).
  destruct (find_from_bound s crlf 0 Hs ltac:(lia)) as [->|[Hlo Hhi]]; [right; eexists; split; [done|left]|].
  change (slen crlf) with 2 in Hhi. set (rpos := str_find_from s crlf 0) in *.
  destruct (Z.eqb_spec rpos npos); [lia|]. left.
  destruct (substr_ok s 0 rpos ltac:(lia)) as [start ->]. cbn [mbind outcome_bind].
  destruct (find_from_bound s (crlf +:+ crlf) (rpos + 2) Hs ltac:(lia)) as [->|[Hlo2 Hhi2]]; [by eexists|].
  change (slen (crlf +:+ crlf)) with 4 in Hhi2.
  set (rpos2 := str_find_from s (crlf +:+ crlf) (rpos + 2)) in *. destruct (Z.eqb_spec rpos2 npos); [lia|].
  destruct (substr_ok s (rpos + 2) (rpos2 - (rpos + 2)) ltac:(lia)) as [h ->]. cbn [mbind outcome_bind].
  destruct (rpos2 + 4 <? slen s); [|by eexists].
  destruct (substr_ok s (rpos2 + 4) (slen s - (rpos2 + 4)) ltac:(lia)) as [b ->]. by eexists.
Qed.

(** What a text may come to: a value, a refusal, or a character [<cctype>] does
    not take, of which there is one in [t]. *)
Definition parsed {A} (x : outcome A) (t : string) : Prop :=
  (∃ a, x = Ok a) ∨ (∃ w, x = Throw (invalid_argument w) ∧ w ∈ refusals) ∨
  (x = Undef CtypeArgument ∧ ¬ ctyped t).

Lemma parsed_bind {A B} (x : outcome A) (k : A → outcome B) t :
  parsed x t → (∀ a, x = Ok a → parsed (k a) t) → parsed (x ≫= k) t.
Proof. intros [[a ->]|[(w & -> & Hw)|[-> Hn]]] Hk; [by apply Hk| |]; right; [left|right]; eauto. Qed.

Lemma parsed_weaken {A} (x : outcome A) t t' : (ctyped t' → ctyped t) → parsed x t → parsed x t'.
Proof. intros Ht [?|[?|[? Hn]]]; [by left|by right; left|right; right]. split; [done|]. auto. Qed.

Lemma transform_parsed f s : parsed (str_transform f s) s.
Proof. destruct (str_transform_cases f s) as [?|?]; [by left|by right; right]. Qed.

Lemma string_to_method_parsed s : parsed (string_to_method s) s.
Proof.
  apply parsed_bind; [apply transform_parsed|]. intros t _. repeat case_match; try (left; by eexists).
  right. left. eexists. split; [done|]. right. left.
Qed.

Lemma string_to_version_parsed s : parsed (string_to_version s) s.
Proof.
  apply parsed_bind; [apply transform_parsed|]. intros t _. repeat case_match; try (left; by eexists).
  right. left. eexists. split; [done|]. do 2 right. left.
Qed.

Lemma Uri_new_parsed s : parsed (Uri_new s) s.
Proof. apply parsed_bind; [apply transform_parsed|]. intros t _. left. by eexists. Qed.

(** Words and lines are made of characters of the stream. *)
Lemma word_of_ctyped s : ctyped s → ctyped (word_of s).1 ∧ ctyped (word_of s).2.
Proof.
  induction s as [|a s IH]; [done|]. cbn [word_of]. intros Hs. pose proof Hs as [Ha Hs']%Forall_cons.
  destruct (isspace a); [by split|]. destruct (IH Hs') as [H1 H2]. destruct (word_of s) as [w r].
  split; [by constructor|done].
Qed.

Lemma skip_space_ctyped s : ctyped s → ctyped (skip_space s).
Proof.
  induction s as [|a s IH]; [done|]. intros Hs. cbn. destruct (isspace a); [|done].
  apply IH. by apply Forall_cons in Hs as [_ ?].
Qed.

Lemma extract_ctyped str s : ctyped str → ctyped (is_rest s) →
  ctyped (extract str s).1 ∧ ctyped (is_rest (extract str s).2).
Proof.
  intros Hstr Hs. unfold extract. destruct (good s); [|done].
  pose proof (word_of_ctyped _ (skip_space_ctyped _ Hs)) as [H1 H2].
  destruct (String.eqb _ ""); [by split; [|constructor]|].
  destruct (word_of (skip_space (is_rest s))) as [w r]. done.
Qed.

Lemma cut_at_ctyped c s p r : cut_at c s = Some (p, r) → ctyped s → ctyped p ∧ ctyped r.
Proof.
  revert p. induction s as [|a s IH]; intros p; [done|]. cbn. intros Hcut [Ha Hs]%Forall_cons.
  destruct (Ascii.eqb a c); [injection Hcut as <- <-; split; [constructor|done]|].
  destruct (cut_at c s) as [[p' r']|]; [|done]. injection Hcut as <- <-.
  destruct (IH p' eq_refl Hs). split; [by constructor|done].
Qed.

Lemma getline_ctyped c str s : ctyped str → ctyped (is_rest s) →
  ctyped (getline c str s).1 ∧ ctyped (is_rest (getline c str s).2).
Proof.
  intros Hstr Hs. unfold getline. destruct (good s); [|done].
  destruct (cut_at c (is_rest s)) as [[p r]|] eqn:Hcut; [by apply (cut_at_ctyped c (is_rest s))|].
  split; [done|constructor].
Qed.

(** An extraction fails only at the end of the text. *)
Lemma extract_at_end str s : (is_fail s = true → is_eof s = true) →
  is_fail (extract str s).2 = true → is_eof (extract str s).2 = true.
Proof.
  unfold extract, good. destruct (is_eof s) eqn:He; [done|]. destruct (is_fail s) eqn:Hf.
  { intros Hs. by discriminate Hs. }
  intros _. cbn [negb andb]. destruct (String.eqb _ ""); [done|]. by destruct (word_of _).
Qed.

Lemma parse_start_line_parsed s : parsed (parse_start_line s) s.
Proof.
  unfold parse_start_line.
  destruct (extract "" (istream_new s)) as [method iss] eqn:E1.
  destruct (extract "" iss) as [path iss'] eqn:E2. destruct (extract "" iss') as [version iss''] eqn:E3.
  assert (negb (good iss'') && negb (is_eof iss'') = false) as ->.
  { pose proof (extract_at_end "" (istream_new s) ltac:(done)) as H1. rewrite E1 in H1.
    pose proof (extract_at_end "" iss H1) as H2. rewrite E2 in H2.
    pose proof (extract_at_end "" iss' H2) as H3. rewrite E3 in H3. cbn [snd] in H3. unfold good.
    destruct (is_eof iss''), (is_fail iss''); try done. by specialize (H3 eq_refl). }
  assert (ctyped s → ctyped method ∧ ctyped path ∧ ctyped version) as Hc.
  { intros Hs. pose proof (extract_ctyped "" (istream_new s) ltac:(constructor) Hs) as [H1 R1].
    rewrite E1 in H1, R1. pose proof (extract_ctyped "" iss ltac:(constructor) R1) as [H2 R2].
    rewrite E2 in H2, R2. pose proof (extract_ctyped "" iss' ltac:(constructor) R2) as [H3 _].
    rewrite E3 in H3. done. }
  apply parsed_bind; [eapply parsed_weaken, string_to_method_parsed; naive_solver|]. intros m _.
  apply parsed_bind; [eapply parsed_weaken, Uri_new_parsed; naive_solver|]. intros u _.
  apply parsed_bind; [eapply parsed_weaken, string_to_version_parsed; naive_solver|]. intros v _.
  left. by eexists.
Qed.

Lemma header_line_parsed line kv : ctyped kv.2 → ctyped kv.1 →
  (∃ kv', header_line line kv = Ok kv' ∧ ctyped kv'.1 ∧ ctyped kv'.2) ∨
  (header_line line kv = Undef CtypeArgument ∧ ¬ ctyped line).
Proof.
  intros H2 H1. unfold header_line.
  destruct (getline ":" kv.1 (istream_new line)) as [key hs] eqn:E1.
  destruct (getline LF kv.2 hs) as [value hs'] eqn:E2.
  assert (ctyped line → ctyped key ∧ ctyped value) as Hc.
  { intros Hl. pose proof (getline_ctyped ":" kv.1 (istream_new line) H1 Hl) as [Hk R]. rewrite E1 in Hk, R.
    pose proof (getline_ctyped LF kv.2 hs H2 R) as [Hv _]. by rewrite E2 in Hv. }
  destruct (remove_spaces_cases key) as [(k & -> & Hk)|[-> Hn]]; cbn [mbind outcome_bind]; [|right; naive_solver].
  destruct (remove_spaces_cases value) as [(v & -> & Hv)|[-> Hn]]; cbn [mbind outcome_bind]; [|right; naive_solver].
  left. by eexists.
Qed.

Lemma header_loop_parsed fuel : ∀ iss kv m o, ctyped kv.1 → ctyped kv.2 →
  header_loop fuel iss kv m = Some o → parsed o (is_rest iss).
Proof.
  induction fuel as [|fuel IH]; intros iss kv m o H1 H2; [done|]. cbn [header_loop].
  pose proof (getline_ctyped LF "" iss ltac:(constructor)) as Hg.
  destruct (getline LF "" iss) as [line iss']. cbn [fst snd] in Hg.
  destruct (is_fail iss'); [intros [= <-]; left; by eexists|].
  destruct (header_line_parsed line kv H2 H1) as [(kv' & -> & Hk & Hv)|[-> Hn]].
  - intros Ho. eapply parsed_weaken; [|by eapply IH; [exact Hk|exact Hv|]]. intros Hs. by apply Hg.
  - intros [= <-]. right. right. split; [done|]. intros Hs. by apply Hn, Hg.
Qed.

(** The exceptions [HandleHttpData] distinguishes. *)
Lemma string_to_request_cases s : slen s < npos →
  (∃ r, string_to_request s = Ok r) ∨
  (∃ w, string_to_request s = Throw (invalid_argument w) ∧ w ∈ refusals) ∨
  string_to_request s = Throw (logic_error "HTTP version not supported") ∨
  (string_to_request s = Undef CtypeArgument ∧ ∃ start headers body,
     request_parts s = Ok (start, headers, body) ∧ ¬ ctyped (start +:+ headers)).
Proof.
  intros Hs. unfold string_to_request.
  destruct (request_parts_total s Hs) as [[[[start h] b] ->]|(w & -> & Hw)]; [|cbn; eauto]. cbn [mbind outcome_bind].
  assert (∀ A (x : outcome A), parsed x start ∨ parsed x h → parsed x (start +:+ h)) as Hp.
  { intros A x [Hx|Hx]; (eapply parsed_weaken; [|exact Hx]); rewrite list_ascii_app, Forall_app; by intros []. }
  destruct (Hp _ _ (or_introl (parse_start_line_parsed start))) as [[[[m u] v] ->]|[(w & -> & Hw)|[-> Hn]]];
    cbn [mbind outcome_bind]; [|eauto|do 3 right; eauto 6].
  destruct (bool_decide (v = hm_version HttpMessage_new)); [|eauto].
  destruct (header_loop_total (S (S (String.length h))) (istream_new h) ("", "") HttpMessage_new)
    as [o Ho]; [done|]. rewrite Ho.
  pose proof (header_loop_parsed _ _ ("", "") _ _ (Forall_nil_2 _) (Forall_nil_2 _) Ho) as Hpo.
  destruct (Hp _ _ (or_intror Hpo)) as [[m' ->]|[(w & -> & Hw)|[-> Hn]]];
    cbn [mbind outcome_bind]; [eauto|eauto|do 3 right; eauto 6].
Qed.

(** C35 (termination): what the parser does with any text.  It returns a request,
    one of three refusals of its syntax, or the refusal of its version; or it is
    undefined, and then only because the start line or the header lines hold a
    character of 0x80 to 0xfe, which as a plain [char] is negative and which
    [toupper], [tolower] and [isspace] do not take.  The loop over the header
    lines always has rounds enough, and no slice of the text is out of range. *)
Theorem parser_total (s : string) : slen s < npos →
  (∃ r, string_to_request s = Ok r) ∨
  (∃ w, string_to_request s = Throw (invalid_argument w) ∧ w ∈ refusals) ∨
  string_to_request s = Throw (logic_error "HTTP version not supported") ∨
  (string_to_request s = Undef CtypeArgument ∧ ∃ start headers body,
     request_parts s = Ok (start, headers, body) ∧ ¬ ctyped (start +:+ headers)).
Proof. apply string_to_request_cases. Qed.

Lemma parser_total_witness :
  (∃ r, string_to_request "GET /metrics" = Ok r) ∨
  (∃ w, string_to_request "GET /metrics" = Throw (invalid_argument w) ∧ w ∈ refusals) ∨
  string_to_request "GET /metrics" = Throw (logic_error "HTTP version not supported") ∨
  (string_to_request "GET /metrics" = Undef CtypeArgument ∧ ∃ start headers body,
     request_parts "GET /metrics" = Ok (start, headers, body) ∧ ¬ ctyped (start +:+ headers)).
Proof. apply (parser_total "GET /metrics"). reflexivity. Defined.

(** A path with a letter outside of ASCII. *)
Example path_undefined :
  string_to_request ("GET /caf" +:+ String (ascii_of_nat 195) (String (ascii_of_nat 169) " HTTP/1.1")
    +:+ crlf +:+ crlf) = Undef CtypeArgument.
Proof. reflexivity. Qed.

(** A header line without a colon keeps the value of the line before it. *)
Lemma colonless_line line kv : lacks ":"%char line →
  header_line line kv = (key ← remove_spaces line; value ← remove_spaces kv.2; Ok (key, value)).
Proof.
  intros Hl. unfold header_line. unfold getline at 1. cbn [istream_new good is_eof is_fail negb andb is_rest].
  rewrite cut_at_none by done. unfold getline. cbn [good is_eof is_fail negb andb is_rest]. done.
Qed.
