(* ===== verification/HttpServer.v ===== *)
(** * The metrics endpoint: [api::prom_endp::HttpServer]

    Models [include/api/prom_endp/http_server.hh] and
    [lib/api/prom_endp/http_server.cc]: the table of handlers, the answer to a
    request, and the state machine of the connections of a worker, with the
    heap objects its epoll instance points to.  What the kernel answers to
    [recv] and [send] is an input of each step; the epoll instance is a
    parameter with its documented behaviour. *)

From Stdlib Require Import ZArith Lia Strings.Byte Ascii String.
From stdpp Require Import base list list_numbers strings pretty gmap sets.
From S2P Require Import Prelude Errors Text Http.

Local Open Scope Z_scope.

(** ** Handlers *)

Definition method_index (m : HttpMethod) : nat :=
  match m with
  | GET => 0 | HEAD => 1 | POST => 2 | PUT => 3 | DELETE => 4 | CONNECT => 5 | OPTIONS => 6
  | TRACE => 7 | PATCH => 8
  end.

#[export] Instance HttpMethod_countable : Countable HttpMethod.
Proof.
  apply (inj_countable' method_index (λ n, nth n
    [GET; HEAD; POST; PUT; DELETE; CONNECT; OPTIONS; TRACE; PATCH] GET)). by intros [].
Defined.

(** [HttpRequestHandler_t] *)
Definition HttpRequestHandler : Type := HttpRequest → outcome HttpResponse.

(** [request_handlers_], by the path of the [Uri]. *)
Definition Handlers : Type := gmap string (gmap HttpMethod HttpRequestHandler).

(** [request_handlers_\[uri\].insert(..)] keeps an entry that exists. *)
Definition insert_handler (uri : Uri) (method : HttpMethod) (callback : HttpRequestHandler)
    (h : Handlers) : Handlers :=
  let methods := default ∅ (h !! uri_path uri) in
  <[uri_path uri := match methods !! method with
                    | Some _ => methods
                    | None => <[method := callback]> methods
                    end]> h.

(** [request_handlers_.erase(uri)] *)
Definition erase_handlers (uri : Uri) (h : Handlers) : Handlers := delete (uri_path uri) h.

(** [RegisterHttpRequestHandler] for a path, and for a [Uri]. *)
Definition RegisterHttpRequestHandler (path : string) (method : HttpMethod)
    (callback : HttpRequestHandler) (h : Handlers) : outcome Handlers :=
  uri ← Uri_new path; Ok (insert_handler uri method callback (erase_handlers uri h)).

Definition RegisterUriHandler (uri : Uri) (method : HttpMethod) (callback : HttpRequestHandler)
    (h : Handlers) : Handlers := insert_handler uri method callback h.

Definition HandleHttpRequest (h : Handlers) (request : HttpRequest) : outcome HttpResponse :=
  match h !! uri_path (rq_uri request) with
  | None => Ok (HttpResponse_new NotFound)
  | Some methods =>
      match methods !! rq_method request with
      | None => Ok (HttpResponse_new MethodNotAllowed)
      | Some callback => callback request
      end
  end.

(** ** Messages in buffers *)

Definition kMaxBufferSize : Z := 4096.

Record EventData := MkEvent {
  ev_fd : Z;
  ev_length : Z;
  ev_cursor : Z;
  ev_buffer : list byte          (* char[kMaxBufferSize] *)
}.
Definition EventData_new : EventData := MkEvent 0 0 0 (replicate (Z.to_nat kMaxBufferSize) x00).

(** The bytes before the first NUL. *)
Fixpoint c_bytes (l : list byte) : option (list byte) :=
  match l with
  | [] => None
  | b :: l => if Byte.eqb b x00 then Some [] else cons b <$> c_bytes l
  end.

(** [std::string s(buffer)]: without a NUL the array is read past its end. *)
Definition c_string (l : list byte) : outcome string :=
  match c_bytes l with Some bs => Ok (bytes_str bs) | None => Undef OutOfBounds end.

(** [strncpy(dst, s.c_str(), n)]: up to the first NUL or [n] bytes, then zeros. *)
Definition strncpy (s : string) (n : nat) : list byte :=
  let bs := default (str_bytes s) (c_bytes (str_bytes s)) in
  take n bs ++ replicate (n - length bs) x00.

Section server.
(** [what()] of the exceptions that are not made from a text. *)
Context (what : exn → string).

Definition exn_what (e : exn) : string :=
  match e with
  | invalid_argument w | logic_error w | out_of_range w | runtime_error w | unspported_cql_statement w => w
  | e => what e
  end.

(** The [catch] clauses of [HandleHttpData]. *)
Definition answer_handlers : list (exn_class * (exn → HttpResponse)) :=
  [(C_invalid_argument, λ e, response_content (exn_what e) (HttpResponse_new BadRequest));
   (C_logic_error, λ e, response_content (exn_what e) (HttpResponse_new HttpVersionNotSupported));
   (C_exception, λ e, response_content (exn_what e) (HttpResponse_new InternalServerError))].

Definition catch_answer (answer : outcome HttpResponse) : outcome HttpResponse :=
  match answer with
  | Throw e => match first_handler answer_handlers e with Some response => Ok response | None => Throw e end
  | answer => answer
  end.

(** [HandleHttpData] up to the text of the response. *)
Definition http_answer (h : Handlers) (request_string : string) : outcome string :=
  let '(http_request, answer) :=
    match string_to_request request_string with
    | Ok r => (r, HandleHttpRequest h r)
    | Throw e => (HttpRequest_new, Throw e)
    | Undef u => (HttpRequest_new, Undef u)
    end in
  http_response ← catch_answer answer;
  Ok (response_to_string http_response (bool_decide (rq_method http_request ≠ HEAD))).

Definition HandleHttpData (h : Handlers) (raw_request raw_response : EventData) : outcome EventData :=
  request_string ← c_string (ev_buffer raw_request);
  response_string ← http_answer h request_string;
  Ok (MkEvent (ev_fd raw_response) (slen response_string) (ev_cursor raw_response)
        (strncpy response_string (Z.to_nat kMaxBufferSize))).
End server.

(** ** The epoll interface *)

Definition EPOLLIN : Z := 1.
Definition EPOLLOUT : Z := 4.
Definition EPOLLERR : Z := 8.
Definition EPOLLHUP : Z := 16.

Inductive ctl_op := EPOLL_CTL_ADD | EPOLL_CTL_DEL | EPOLL_CTL_MOD.

Record interest := MkInterest { it_events : Z; it_data : Z }.

(** [epoll_ctl] fails with [None]; [interests] is what an instance watches. *)
Class Epoll (E : Type) := {
  epoll_ctl : ctl_op → Z → interest → E → option E;
  interests : E → gmap Z interest
}.

(** The documented behaviour: a call may fail ([EBADF], [ENOMEM], [ENOSPC]), and
    has its effect otherwise; [ADD] fails on a descriptor that is watched already
    ([EEXIST]), [MOD] and [DEL] on one that is not ([ENOENT]). *)
Class EpollSpec (E : Type) `{Epoll E} : Prop := {
  ctl_effect : ∀ op fd i e e', epoll_ctl op fd i e = Some e' →
    interests e' = match op with
                   | EPOLL_CTL_DEL => delete fd (interests e)
                   | _ => <[fd := i]> (interests e)
                   end;
  ctl_exists : ∀ fd i e, is_Some (interests e !! fd) → epoll_ctl EPOLL_CTL_ADD fd i e = None;
  ctl_missing : ∀ op fd i e, op ≠ EPOLL_CTL_ADD → interests e !! fd = None → epoll_ctl op fd i e = None
}.

(** No [MOD] of a watched descriptor fails. *)
Definition mods_succeed (E : Type) `{Epoll E} : Prop := ∀ fd i (e : E),
  is_Some (interests e !! fd) → is_Some (epoll_ctl EPOLL_CTL_MOD fd i e).

(** ** Workers *)

(** What the kernel answers. *)
Inductive recv_answer :=
| Received (bs : list byte)      (* byte_count > 0 *)
| PeerClosed                     (* byte_count == 0 *)
| RecvAgain                      (* EAGAIN, EWOULDBLOCK *)
| RecvError.

Inductive send_answer :=
| Sent (byte_count : Z)
| SendAgain
| SendError.

Section worker.
Context {E : Type} `{Epoll E}.
Context (what : exn → string).

(** One worker: its epoll instance, the objects allocated for its connections,
    the open descriptors, and what was handed to the kernel on each. *)
Record Worker := MkWorker {
  wk_epoll : E;
  wk_heap : gmap Z EventData;
  wk_open : gset Z;
  wk_sent : list (Z * list byte)
}.

Definition set_heap (h : gmap Z EventData) (w : Worker) : Worker :=
  MkWorker (wk_epoll w) h (wk_open w) (wk_sent w).
Definition set_epoll (e : E) (w : Worker) : Worker :=
  MkWorker e (wk_heap w) (wk_open w) (wk_sent w).

(** [new EventData()]: an address that is not in use. *)
Definition new_EventData : M Worker Z :=
  w ← get_state;
  let p := fresh (dom (wk_heap w)) in
  modify (set_heap (<[p := EventData_new]> (wk_heap w)));;
  mret p.

(** [*p], an assignment through [p], and [delete p]. *)
Definition deref (p : Z) : M Worker EventData := λ w,
  match wk_heap w !! p with Some ev => (Ok ev, w) | None => (Undef UseAfterFree, w) end.
Definition assign (p : Z) (ev : EventData) : M Worker unit :=
  deref p;; modify (λ w, set_heap (<[p := ev]> (wk_heap w)) w).
Definition delete_EventData (p : Z) : M Worker unit :=
  deref p;; modify (λ w, set_heap (delete p (wk_heap w)) w).

Definition close (fd : Z) : M Worker unit :=
  modify (λ w, MkWorker (wk_epoll w) (wk_heap w) (wk_open w ∖ {[fd]}) (wk_sent w)).

Definition control_epoll_event (op : ctl_op) (fd events data : Z) : M Worker unit :=
  w ← get_state;
  match epoll_ctl op fd (MkInterest events data) (wk_epoll w) with
  | Some e => put_state (set_epoll e w)
  | None => throw (runtime_error (match op with
              | EPOLL_CTL_DEL => "Failed to remove file descriptor (Prometheus Server)"
              | _ => "Failed to add file descriptor (Prometheus Server)"
              end))
  end.

(** Deregister, close, delete: the end of a connection. *)
Definition drop_connection (fd p : Z) : M Worker unit :=
  control_epoll_event EPOLL_CTL_DEL fd 0 0;; close fd;; delete_EventData p.

(** [HandleEpollEvent], the [EPOLLIN] branch. *)
Definition handle_input (h : Handlers) (data : Z) (answer : recv_answer) : M Worker unit :=
  request ← deref data;
  let fd := ev_fd request in
  match answer with
  | Received bs =>
      assign data (MkEvent fd (ev_length request) (ev_cursor request) (overwrite 0 bs (ev_buffer request)));;
      response ← new_EventData;
      ev ← deref response;
      assign response (MkEvent fd (ev_length ev) (ev_cursor ev) (ev_buffer ev));;
      raw_request ← deref data;
      raw_response ← deref response;
      filled ← lift (HandleHttpData what h raw_request raw_response);
      assign response filled;;
      control_epoll_event EPOLL_CTL_MOD fd EPOLLOUT response;;
      delete_EventData data
  | PeerClosed => drop_connection fd data
  | RecvAgain =>
      assign data (MkEvent fd (ev_length request) (ev_cursor request) (ev_buffer request));;
      control_epoll_event EPOLL_CTL_MOD fd EPOLLIN data
  | RecvError => drop_connection fd data
  end.

(** The bytes [send] is given: [length] of them from [buffer + cursor]. *)
Definition outgoing (response : EventData) : outcome (list byte) :=
  if ev_cursor response + ev_length response <=? zlen (ev_buffer response) then
    Ok (take (Z.to_nat (ev_length response)) (drop (Z.to_nat (ev_cursor response)) (ev_buffer response)))
  else Undef OutOfBounds.

(** [HandleEpollEvent], the other branch; [byte_count] is compared as unsigned. *)
Definition handle_output (data : Z) (answer : send_answer) : M Worker unit :=
  response ← deref data;
  let fd := ev_fd response in
  bytes ← lift (outgoing response);
  match answer with
  | Sent byte_count =>
      modify (λ w, MkWorker (wk_epoll w) (wk_heap w) (wk_open w)
                     (wk_sent w ++ [(fd, take (Z.to_nat byte_count) bytes)]));;
      if byte_count <? ev_length response then
        assign data (MkEvent fd (u64 (ev_length response - byte_count))
                       (u64 (ev_cursor response + byte_count)) (ev_buffer response));;
        control_epoll_event EPOLL_CTL_MOD fd EPOLLOUT data
      else
        request ← new_EventData;
        ev ← deref request;
        assign request (MkEvent fd (ev_length ev) (ev_cursor ev) (ev_buffer ev));;
        control_epoll_event EPOLL_CTL_MOD fd EPOLLIN request;;
        delete_EventData data
  | SendAgain => control_epoll_event EPOLL_CTL_ADD fd EPOLLOUT data
  | SendError => drop_connection fd data
  end.

Definition HandleEpollEvent (h : Handlers) (data events : Z) (r : recv_answer) (s : send_answer) :
    M Worker unit :=
  if events =? EPOLLIN then handle_input h data r else handle_output data s.

(** The body of the loop of [ProcessEvents]. *)
Definition process_event (h : Handlers) (events data : Z) (r : recv_answer) (s : send_answer) :
    M Worker unit :=
  if negb (Z.land events EPOLLHUP =? 0) || negb (Z.land events EPOLLERR =? 0) then
    ev ← deref data; drop_connection (ev_fd ev) data
  else if (events =? EPOLLIN) || (events =? EPOLLOUT) then HandleEpollEvent h data events r s
  else ev ← deref data; drop_connection (ev_fd ev) data.

(** The body of the loop of [Listen], on the worker whose turn it is; the
    kernel hands out descriptors that are not open. *)
Definition accept_client (client_fd : Z) : M Worker unit :=
  modify (λ w, MkWorker (wk_epoll w) (wk_heap w) ({[client_fd]} ∪ wk_open w) (wk_sent w));;
  client_data ← new_EventData;
  ev ← deref client_data;
  assign client_data (MkEvent client_fd (ev_length ev) (ev_cursor ev) (ev_buffer ev));;
  control_epoll_event EPOLL_CTL_ADD client_fd EPOLLIN client_data.

(** The listener hands the clients to the workers in turn. *)
Definition kThreadPoolSize : nat := 5.

Record Listener := MkListener { ls_workers : list Worker; ls_current : nat }.

(** The body of the loop of [Listen]; [accept4] failed when [client_fd < 0]. *)
Definition Listen (client_fd : Z) : M Listener unit := λ l,
  if client_fd <? 0 then (Ok tt, l)
  else match ls_workers l !! ls_current l with
       | Some w =>
           let '(o, w) := accept_client client_fd w in
           let next := S (ls_current l) in
           (o, MkListener (<[ls_current l := w]> (ls_workers l))
                 (match o with
                  | Ok _ => if bool_decide (next = kThreadPoolSize) then 0 else next
                  | _ => ls_current l
                  end)%nat)
       | None => (Undef OutOfBounds, l)
       end.
End worker.
Arguments Worker : clear implicits.

(** ** What a worker keeps true *)

Definition zero_buffer : list byte := replicate (Z.to_nat kMaxBufferSize) x00.

(** The object of a connection that waits for a request, or that has a part of
    a response to send. *)
Definition event_ok (events : Z) (ev : EventData) : Prop :=
  (events = EPOLLIN ∧ ev_buffer ev = zero_buffer) ∨
  (events = EPOLLOUT ∧ zlen (ev_buffer ev) = kMaxBufferSize ∧
   0 ≤ ev_cursor ev ∧ 0 ≤ ev_length ev ∧ ev_cursor ev + ev_length ev ≤ kMaxBufferSize).

(** Every watched descriptor is open and points to a live object of its own;
    there are no other open descriptors and no other objects. *)
Record worker_ok {E} `{Epoll E} (w : Worker E) : Prop := {
  wo_open : wk_open w = dom (interests (wk_epoll w));
  wo_live : ∀ fd i, interests (wk_epoll w) !! fd = Some i →
    ∃ ev, wk_heap w !! it_data i = Some ev ∧ ev_fd ev = fd ∧ event_ok (it_events i) ev;
  wo_owned : ∀ p ev, wk_heap w !! p = Some ev →
    ∃ i, interests (wk_epoll w) !! ev_fd ev = Some i ∧ it_data i = p
}.

Section safety.
Context {E : Type} `{EpollSpec E}.
Context (what : exn → string).
Implicit Types (w : Worker E) (h : Handlers).

Lemma deref_ok w p ev : wk_heap w !! p = Some ev → deref p w = (Ok ev, w).
Proof. intros Hp. unfold deref. by rewrite Hp. Qed.

Lemma assign_ok w p ev ev' : wk_heap w !! p = Some ev →
  assign p ev' w = (Ok tt, set_heap (<[p := ev']> (wk_heap w)) w).
Proof. intros Hp. unfold assign. by erewrite M_bind_ok by (by apply deref_ok). Qed.

Lemma delete_ok w p ev : wk_heap w !! p = Some ev →
  delete_EventData p w = (Ok tt, set_heap (delete p (wk_heap w)) w).
Proof. intros Hp. unfold delete_EventData. by erewrite M_bind_ok by (by apply deref_ok). Qed.

Lemma new_ok w : ∃ p, wk_heap w !! p = None ∧
  new_EventData w = (Ok p, set_heap (<[p := EventData_new]> (wk_heap w)) w).
Proof.
  exists (fresh (dom (wk_heap w))). split; [|done].
  apply not_elem_of_dom. apply is_fresh.
Qed.

(** An object for [fd], new and empty. *)
Definition fresh_event (fd : Z) : EventData := MkEvent fd 0 0 zero_buffer.

Lemma alloc_ok w fd : ∃ p, wk_heap w !! p = None ∧ ∀ A (k : Z → M (Worker E) A),
  (response ← new_EventData; ev ← deref response;
   assign response (MkEvent fd (ev_length ev) (ev_cursor ev) (ev_buffer ev));; k response) w =
  k p (set_heap (<[p := fresh_event fd]> (wk_heap w)) w).
Proof.
  destruct (new_ok w) as (p & Hp & Hnew). exists p. split; [done|]. intros A k.
  erewrite M_bind_ok by exact Hnew.
  erewrite M_bind_ok by (apply deref_ok; cbn; apply lookup_insert_eq).
  erewrite M_bind_ok by (eapply assign_ok; cbn; apply lookup_insert_eq).
  cbn. unfold set_heap. cbn. by rewrite insert_insert_eq.
Qed.

(** A call of [epoll_ctl] has its effect, or ends the worker. *)
Definition refuses w fd (o : outcome unit) : Prop :=
  ∃ m op i, o = Throw (runtime_error m) ∧ epoll_ctl op fd i (wk_epoll w) = None.

Lemma control_cases w op fd events data :
  (∃ e', control_epoll_event op fd events data w = (Ok tt, set_epoll e' w) ∧
     epoll_ctl op fd (MkInterest events data) (wk_epoll w) = Some e') ∨
  ∃ m, control_epoll_event op fd events data w = (Throw (runtime_error m), w) ∧
    epoll_ctl op fd (MkInterest events data) (wk_epoll w) = None.
Proof.
  unfold control_epoll_event. erewrite M_bind_ok by reflexivity.
  destruct (epoll_ctl op fd _ _) as [e'|] eqn:He; [left|right]; by eexists.
Qed.

(** One call and what follows it, in a state [w1] with the epoll instance of [w]. *)
Lemma control_then {A} w w1 op fd events data (k : unit → M (Worker E) A) :
  wk_epoll w1 = wk_epoll w →
  (∃ e', epoll_ctl op fd (MkInterest events data) (wk_epoll w) = Some e' ∧
     (control_epoll_event op fd events data ≫= k) w1 = k tt (set_epoll e' w1)) ∨
  ∃ m, epoll_ctl op fd (MkInterest events data) (wk_epoll w) = None ∧
     (control_epoll_event op fd events data ≫= k) w1 = (Throw (runtime_error m), w1).
Proof.
  intros Hw. destruct (control_cases w1 op fd events data) as [(e' & Hc & He)|(m & Hc & He)];
    rewrite Hw in He; [left; exists e'|right; exists m]; (split; [done|]).
  - by apply M_bind_ok.
  - by apply M_bind_throw.
Qed.

Lemma drop_cases w fd p ev : wk_heap w !! p = Some ev →
  (∃ e', drop_connection fd p w =
      (Ok tt, MkWorker e' (delete p (wk_heap w)) (wk_open w ∖ {[fd]}) (wk_sent w)) ∧
    interests e' = delete fd (interests (wk_epoll w))) ∨
  ∃ o, drop_connection fd p w = (o, w) ∧ refuses w fd o.
Proof.
  intros Hp. unfold drop_connection.
  destruct (control_then w w EPOLL_CTL_DEL fd 0 0 (λ _, close fd;; delete_EventData p) eq_refl)
    as [(e' & He & ->)|(m & He & ->)].
  - left. exists e'. split; [|exact (ctl_effect _ _ _ _ _ He)].
    erewrite M_bind_ok by reflexivity. by erewrite delete_ok.
  - right. eexists. split; [done|]. by repeat eexists.
Qed.

(** *** The invariant under the three changes of a connection *)

Lemma ok_drop w e' fd i : worker_ok w → interests (wk_epoll w) !! fd = Some i →
  interests e' = delete fd (interests (wk_epoll w)) →
  worker_ok (MkWorker e' (delete (it_data i) (wk_heap w)) (wk_open w ∖ {[fd]}) (wk_sent w)).
Proof.
  intros [Ho Hl Hw] Hi He. split; cbn [wk_open wk_epoll wk_heap]; rewrite ?He.
  - by rewrite Ho, dom_delete_L.
  - intros fd' i' [Hne Hi']%lookup_delete_Some. destruct (Hl _ _ Hi') as (ev & Hev & Hfd & Hok).
    exists ev. split_and!; [|done|done]. rewrite lookup_delete_ne; [done|].
    intros Heq. destruct (Hl _ _ Hi) as (ev0 & Hev0 & Hfd0 & _). rewrite Heq in Hev0. simplify_eq.
  - intros p ev [Hne Hev]%lookup_delete_Some. destruct (Hw _ _ Hev) as (i' & Hi' & Hp).
    exists i'. split; [|done]. rewrite lookup_delete_ne; [done|]. intros ->. simplify_eq.
Qed.

(** The connection goes on with the object [p]. *)
Lemma ok_move w e' fd i p ev events sent : worker_ok w → interests (wk_epoll w) !! fd = Some i →
  (wk_heap w !! p = None ∨ p = it_data i) →
  interests e' = <[fd := MkInterest events p]> (interests (wk_epoll w)) →
  ev_fd ev = fd → event_ok events ev →
  worker_ok (MkWorker e' (<[p := ev]> (delete (it_data i) (wk_heap w))) (wk_open w) sent).
Proof.
  intros [Ho Hl Hw] Hi Hp He Hfd Hok. destruct (Hl _ _ Hi) as (ev0 & Hev0 & Hfd0 & _).
  split; cbn [wk_open wk_epoll wk_heap]; rewrite ?He.
  - by rewrite dom_insert_lookup_L.
  - intros fd' i' [[<- <-]|[Hne Hi']]%lookup_insert_Some.
    + exists ev. rewrite lookup_insert_eq. done.
    + destruct (Hl _ _ Hi') as (ev' & Hev' & Hfd' & Hok'). exists ev'. split_and!; [|done|done].
      assert (it_data i' ≠ it_data i) as Hd by (intros Heq; rewrite Heq in Hev'; simplify_eq).
      rewrite lookup_insert_ne; [by rewrite lookup_delete_ne|].
      intros Heq. destruct Hp as [Hp|Hp]; congruence.
  - intros p' ev' [[<- <-]|[Hne [Hne' Hev']%lookup_delete_Some]]%lookup_insert_Some.
    + rewrite Hfd, lookup_insert_eq. by eexists.
    + destruct (Hw _ _ Hev') as (i' & Hi' & Hd). exists i'. split; [|done].
      rewrite lookup_insert_ne; [done|]. intros Heq. congruence.
Qed.

Lemma ok_add w e' fd p ev events sent : worker_ok w → interests (wk_epoll w) !! fd = None →
  wk_heap w !! p = None → interests e' = <[fd := MkInterest events p]> (interests (wk_epoll w)) →
  ev_fd ev = fd → event_ok events ev →
  worker_ok (MkWorker e' (<[p := ev]> (wk_heap w)) ({[fd]} ∪ wk_open w) sent).
Proof.
  intros [Ho Hl Hw] Hi Hp He Hfd Hok. split; cbn [wk_open wk_epoll wk_heap]; rewrite ?He.
  - by rewrite dom_insert_L, Ho.
  - intros fd' i' [[<- <-]|[Hne Hi']]%lookup_insert_Some.
    + exists ev. rewrite lookup_insert_eq. done.
    + destruct (Hl _ _ Hi') as (ev' & Hev' & Hfd' & Hok'). exists ev'. split_and!; [|done|done].
      rewrite lookup_insert_ne; [done|]. intros Heq. congruence.
  - intros p' ev' [[<- <-]|[Hne Hev']]%lookup_insert_Some.
    + rewrite Hfd, lookup_insert_eq. by eexists.
    + destruct (Hw _ _ Hev') as (i' & Hi' & Hd). exists i'. split; [|done].
      rewrite lookup_insert_ne; [done|]. intros Heq. congruence.
Qed.

(** *** One event *)

(** The kernel reports what was asked for, besides errors and hang-ups; it
    delivers no more than the buffer it is given and takes at most what is left
    to send. *)
Definition delivered (i : interest) (events : Z) : Prop :=
  (events = EPOLLIN → it_events i = EPOLLIN) ∧ (events = EPOLLOUT → it_events i = EPOLLOUT).

Definition received_ok (r : recv_answer) : Prop :=
  match r with Received bs => zlen bs ≤ kMaxBufferSize | _ => True end.

Definition sent_ok w (p : Z) (s : send_answer) : Prop :=
  match s with
  | Sent n => ∀ ev, wk_heap w !! p = Some ev → 0 ≤ n ≤ ev_length ev
  | _ => True
  end.

(** The handlers answer every request with a response that fits a buffer; only
    texts the parser is undefined on have no answer. *)
Definition fits h : Prop := ∀ s, slen s < kMaxBufferSize →
  (∃ t, http_answer what h s = Ok t ∧ slen t ≤ kMaxBufferSize) ∨
  (http_answer what h s = Undef CtypeArgument ∧ string_to_request s = Undef CtypeArgument).

Lemma c_bytes_end l : x00 ∈ l → ∃ s, c_bytes l = Some s ∧ (length s < length l)%nat.
Proof.
  induction l as [|b l IH]; [by intros ?%elem_of_nil|]. cbn [c_bytes length].
  destruct (Byte.eqb b x00) eqn:Hb; [exists []; cbn; split; [done|lia]|].
  intros [<-|Hin]%elem_of_cons; [done|]. destruct (IH Hin) as (s & -> & Hlen).
  exists (b :: s). cbn. split; [done|lia].
Qed.

Lemma c_bytes_clean l : x00 ∉ l → c_bytes l = None.
Proof.
  induction l as [|b l IH]; [done|]. cbn. intros [Hb Hl]%not_elem_of_cons.
  destruct (Byte.eqb b x00) eqn:He; [by apply Byte.byte_dec_bl in He|]. by rewrite IH.
Qed.

Lemma c_bytes_app bs l : x00 ∉ bs → c_bytes (bs ++ x00 :: l) = Some bs.
Proof.
  induction bs as [|b bs IH]; [done|]. cbn. intros [Hb Hl]%not_elem_of_cons.
  destruct (Byte.eqb b x00) eqn:He; [by apply Byte.byte_dec_bl in He|]. by rewrite IH.
Qed.

(** What [std::string(buffer)] makes of a reception. *)
Definition request_text (bs : list byte) : outcome string := c_string (overwrite 0 bs zero_buffer).

Lemma received_buffer bs : zlen bs ≤ kMaxBufferSize →
  overwrite 0 bs zero_buffer = bs ++ replicate (Z.to_nat kMaxBufferSize - length bs) x00.
Proof. intros Hl. unfold overwrite, zero_buffer. by rewrite take_0, drop_replicate. Qed.

Lemma request_text_clean bs : zlen bs < kMaxBufferSize → x00 ∉ bs → request_text bs = Ok (bytes_str bs).
Proof.
  intros Hl Hni. unfold request_text. rewrite received_buffer by lia.
  destruct (Z.to_nat kMaxBufferSize - length bs)%nat as [|k] eqn:Hk; [unfold zlen in *; lia|].
  unfold c_string. cbn [replicate]. by rewrite c_bytes_app.
Qed.

(** Only a full buffer without a NUL is read past its end. *)
Lemma request_text_cases bs : zlen bs ≤ kMaxBufferSize →
  (∃ s, request_text bs = Ok s ∧ slen s < kMaxBufferSize ∧ ¬ (zlen bs = kMaxBufferSize ∧ x00 ∉ bs)) ∨
  (request_text bs = Undef OutOfBounds ∧ zlen bs = kMaxBufferSize ∧ x00 ∉ bs).
Proof.
  intros Hl. unfold request_text, c_string. rewrite received_buffer by done.
  set (pad := replicate (Z.to_nat kMaxBufferSize - length bs) x00).
  destruct (decide (x00 ∈ bs ++ pad)) as [Hin|Hni].
  - left. destruct (c_bytes_end _ Hin) as (s & -> & Hlen). eexists. split; [done|].
    rewrite length_app in Hlen. unfold pad in *. rewrite length_replicate in Hlen.
    unfold slen, zlen in *. rewrite <- str_bytes_length, String.list_byte_of_string_of_list_byte.
    split; [lia|]. intros [Hfull Hno]. apply elem_of_app in Hin as [|Hin]; [done|].
    by replace (Z.to_nat kMaxBufferSize - length bs)%nat with 0%nat in Hin by lia; apply elem_of_nil in Hin.
  - right. rewrite (c_bytes_clean _ Hni). apply not_elem_of_app in Hni as [Hbs Hpad]. split_and!; try done.
    unfold pad, zlen in *. destruct (Z.to_nat kMaxBufferSize - length bs)%nat eqn:Hk; [lia|].
    cbn in Hpad. by apply not_elem_of_cons in Hpad as [].
Qed.

Lemma length_strncpy s n : length (strncpy s n) = n.
Proof. unfold strncpy. rewrite length_app, length_take, length_replicate. lia. Qed.

Lemma filled_ok fd t : slen t ≤ kMaxBufferSize →
  event_ok EPOLLOUT (MkEvent fd (slen t) 0 (strncpy t (Z.to_nat kMaxBufferSize))).
Proof.
  intros Ht. pose proof (slen_nonneg t). right. cbn. unfold zlen. rewrite length_strncpy.
  split_and!; try done; lia.
Qed.

(** A reception up to the answer: the request keeps what was received, and the
    response is a new object. *)
Lemma input_prefix w h fd i bs : worker_ok w → interests (wk_epoll w) !! fd = Some i →
  it_events i = EPOLLIN →
  ∃ p req, wk_heap w !! p = None ∧ p ≠ it_data i ∧ ev_buffer req = overwrite 0 bs zero_buffer ∧
    handle_input what h (it_data i) (Received bs) w =
      (filled ← lift (HandleHttpData what h req (fresh_event fd));
       assign p filled;;
       control_epoll_event EPOLL_CTL_MOD fd EPOLLOUT p;;
       delete_EventData (it_data i))
        (set_heap (<[p := fresh_event fd]> (<[it_data i := req]> (wk_heap w))) w).
Proof.
  intros Hw Hi Hin. destruct (wo_live _ Hw _ _ Hi) as (ev & Hev & Hfd & Hok).
  destruct Hok as [[_ Hz]|[Ho _]]; [|by rewrite Hin in Ho].
  unfold handle_input. erewrite M_bind_ok by (by apply deref_ok). rewrite Hfd.
  erewrite M_bind_ok by (by eapply assign_ok). rewrite Hz.
  set (req := MkEvent fd (ev_length ev) (ev_cursor ev) (overwrite 0 bs zero_buffer)).
  set (w1 := set_heap (<[it_data i := req]> (wk_heap w)) w).
  destruct (alloc_ok w1 fd) as (p & Hp & Halloc). rewrite Halloc. clear Halloc.
  assert (p ≠ it_data i) as Hne by (intros ->; cbn in Hp; by rewrite lookup_insert_eq in Hp).
  exists p, req. split; [cbn in Hp; by rewrite lookup_insert_ne in Hp|]. split; [done|]. split; [done|].
  erewrite M_bind_ok by (apply deref_ok; cbn; rewrite lookup_insert_ne by done; apply lookup_insert_eq).
  erewrite M_bind_ok by (apply deref_ok; cbn; apply lookup_insert_eq). done.
Qed.

(** A request is replaced by its response, if the kernel takes the change. *)
Lemma input_received w h fd i bs s t : worker_ok w → interests (wk_epoll w) !! fd = Some i →
  it_events i = EPOLLIN → request_text bs = Ok s → http_answer what h s = Ok t →
  (∃ p e', wk_heap w !! p = None ∧
    interests e' = <[fd := MkInterest EPOLLOUT p]> (interests (wk_epoll w)) ∧
    handle_input what h (it_data i) (Received bs) w =
      (Ok tt, MkWorker e'
         (<[p := MkEvent fd (slen t) 0 (strncpy t (Z.to_nat kMaxBufferSize))]>
            (delete (it_data i) (wk_heap w))) (wk_open w) (wk_sent w))) ∨
  ∃ o w' p, handle_input what h (it_data i) (Received bs) w = (o, w') ∧ refuses w fd o ∧
    epoll_ctl EPOLL_CTL_MOD fd (MkInterest EPOLLOUT p) (wk_epoll w) = None.
Proof.
  intros Hw Hi Hin Hs Ht. destruct (input_prefix w h fd i bs Hw Hi Hin) as (p & req & Hp & Hne & Hbuf & ->).
  unfold HandleHttpData. rewrite Hbuf. fold (request_text bs). rewrite Hs. cbn [mbind outcome_bind].
  rewrite Ht. cbn [mbind outcome_bind]. unfold lift. erewrite M_bind_ok by reflexivity.
  erewrite M_bind_ok by (eapply assign_ok; cbn; apply lookup_insert_eq).
  match goal with |- context [(control_epoll_event _ _ _ _ ≫= ?k) ?w2] =>
    destruct (control_then w w2 EPOLL_CTL_MOD fd EPOLLOUT p k eq_refl) as [(e' & He & ->)|(m & He & ->)] end.
  - left. exists p, e'. split; [done|]. split; [exact (ctl_effect _ _ _ _ _ He)|].
    erewrite delete_ok by (cbn; rewrite lookup_insert_ne by done; rewrite lookup_insert_ne by done;
      apply lookup_insert_eq).
    unfold set_heap, set_epoll. cbn. rewrite insert_insert_eq, delete_insert_ne, delete_insert_eq by done. done.
  - right. do 2 eexists. exists p. split; [done|]. split; [|done]. by repeat eexists.
Qed.

(** What is undefined in the answer ends the worker. *)
Lemma input_undefined w h fd i bs u : worker_ok w → interests (wk_epoll w) !! fd = Some i →
  it_events i = EPOLLIN → (s ← request_text bs; http_answer what h s) = Undef u →
  ∃ w', handle_input what h (it_data i) (Received bs) w = (Undef u, w').
Proof.
  intros Hw Hi Hin Hu. destruct (input_prefix w h fd i bs Hw Hi Hin) as (p & req & Hp & Hne & Hbuf & ->).
  eexists. erewrite M_bind_undef; [done|]. unfold lift, HandleHttpData. rewrite Hbuf.
  fold (request_text bs). destruct (request_text bs) as [s| |]; cbn in *; [|done|by simplify_eq].
  rewrite Hu. done.
Qed.

(** A part of a response is sent; when nothing is left the connection waits for
    the next request. *)
Lemma output_sent w fd i ev n : worker_ok w → interests (wk_epoll w) !! fd = Some i →
  it_events i = EPOLLOUT → wk_heap w !! it_data i = Some ev → 0 ≤ n ≤ ev_length ev →
  let sent := wk_sent w ++ [(fd, take (Z.to_nat n)
    (take (Z.to_nat (ev_length ev)) (drop (Z.to_nat (ev_cursor ev)) (ev_buffer ev))))] in
  (∃ e' p ev' events, handle_output (it_data i) (Sent n) w =
      (Ok tt, MkWorker e' (<[p := ev']> (delete (it_data i) (wk_heap w))) (wk_open w) sent) ∧
    interests e' = <[fd := MkInterest events p]> (interests (wk_epoll w)) ∧
    (wk_heap w !! p = None ∨ p = it_data i) ∧
    (events, ev') = (if n <? ev_length ev then
       (EPOLLOUT, MkEvent fd (ev_length ev - n) (ev_cursor ev + n) (ev_buffer ev))
     else (EPOLLIN, fresh_event fd))) ∨
  ∃ o w' j, handle_output (it_data i) (Sent n) w = (o, w') ∧ refuses w fd o ∧
    epoll_ctl EPOLL_CTL_MOD fd j (wk_epoll w) = None.
Proof.
  intros Hw Hi Hout Hev Hn. cbv zeta. destruct (wo_live _ Hw _ _ Hi) as (ev0 & Hev0 & Hfd & Hok).
  rewrite Hev in Hev0. injection Hev0 as <-. destruct Hok as [[Ho _]|(_ & Hb & Hc & Hle & Hsum)];
    [by rewrite Hout in Ho|].
  unfold handle_output. erewrite M_bind_ok by (by apply deref_ok). unfold outgoing.
  rewrite Hb. destruct (Z.leb_spec (ev_cursor ev + ev_length ev) kMaxBufferSize); [|lia].
  erewrite M_bind_ok by reflexivity. rewrite Hfd. erewrite M_bind_ok by reflexivity.
  unfold kMaxBufferSize in *. destruct (Z.ltb_spec n (ev_length ev)) as [Hlt|Hge].
  - rewrite !wrap_small by (unfold in_u; lia).
    erewrite M_bind_ok by (eapply assign_ok; cbn; exact Hev).
    match goal with |- context [control_epoll_event _ _ _ _ ?w2] =>
      destruct (control_cases w2 EPOLL_CTL_MOD fd EPOLLOUT (it_data i)) as [(e' & -> & He)|(m & -> & He)] end.
    + left. exists e', (it_data i), (MkEvent fd (ev_length ev - n) (ev_cursor ev + n) (ev_buffer ev)), EPOLLOUT.
      split_and!; [|exact (ctl_effect _ _ _ _ _ He)|by right|done]. cbn. by rewrite insert_delete_eq.
    + right. do 3 eexists. split; [done|]. split; [|exact He]. by repeat eexists.
  - match goal with |- context [(new_EventData ≫= _) ?w2] =>
      destruct (alloc_ok w2 fd) as (p & Hp & Halloc); rewrite Halloc; clear Halloc end. cbn in Hp.
    assert (p ≠ it_data i) as Hne by (intros ->; congruence).
    match goal with |- context [(control_epoll_event _ _ _ _ ≫= ?k) ?w2] =>
      destruct (control_then w w2 EPOLL_CTL_MOD fd EPOLLIN p k eq_refl) as [(e' & He & ->)|(m & He & ->)] end.
    + left. exists e', p, (fresh_event fd), EPOLLIN.
      split_and!; [|exact (ctl_effect _ _ _ _ _ He)|by left|done].
      erewrite delete_ok by (cbn; rewrite lookup_insert_ne by done; exact Hev).
      unfold set_heap, set_epoll. cbn. by rewrite delete_insert_ne by done.
    + right. do 3 eexists. split; [done|]. split; [|exact He]. by repeat eexists.
Qed.

(** A part of a response the kernel does not take. *)
Lemma output_again w fd i : worker_ok w → interests (wk_epoll w) !! fd = Some i → it_events i = EPOLLOUT →
  ∃ o, handle_output (it_data i) SendAgain w = (o, w) ∧ refuses w fd o.
Proof.
  intros Hw Hi Hout. destruct (wo_live _ Hw _ _ Hi) as (ev & Hev & Hfd & Hok).
  destruct Hok as [[Ho _]|(_ & Hb & Hc & Hle & Hsum)]; [by rewrite Hout in Ho|].
  unfold handle_output. erewrite M_bind_ok by (by apply deref_ok). unfold outgoing. rewrite Hb.
  destruct (Z.leb_spec (ev_cursor ev + ev_length ev) kMaxBufferSize); [|lia].
  erewrite M_bind_ok by reflexivity. rewrite Hfd.
  pose proof (ctl_exists fd (MkInterest EPOLLOUT (it_data i)) (wk_epoll w) ltac:(by exists i)) as Hex.
  destruct (control_cases w EPOLL_CTL_ADD fd EPOLLOUT (it_data i)) as [(e' & _ & He)|(m & -> & He)];
    [congruence|]. eexists. split; [done|]. by repeat eexists.
Qed.

(** What an event may come to, for a connection [fd]. *)
Definition event_result w fd (events : Z) (r : recv_answer) (o : outcome unit) w' : Prop :=
  match o with
  | Ok _ => worker_ok w'
  | Throw _ => refuses w fd o
  | Undef u => events = EPOLLIN ∧ ∃ bs, r = Received bs ∧
      ((u = OutOfBounds ∧ zlen bs = kMaxBufferSize ∧ x00 ∉ bs) ∨
       (u = CtypeArgument ∧ ∃ s, request_text bs = Ok s ∧ string_to_request s = Undef CtypeArgument))
  end.

Lemma refused_result w fd events r o w' : refuses w fd o → event_result w fd events r o w'.
Proof. intros Ho. pose proof Ho as (m & op & i & -> & _). exact Ho. Qed.

Lemma drop_step w fd i events r : worker_ok w → interests (wk_epoll w) !! fd = Some i →
  ∃ o w', drop_connection fd (it_data i) w = (o, w') ∧ event_result w fd events r o w'.
Proof.
  intros Hw Hi. destruct (wo_live _ Hw _ _ Hi) as (ev & Hev & _ & _).
  destruct (drop_cases w fd (it_data i) ev Hev) as [(e' & -> & Hint)|(o & -> & Ho)].
  - do 2 eexists. split; [done|]. by eapply ok_drop.
  - do 2 eexists. split; [done|]. by apply refused_result.
Qed.

Lemma input_step w h fd i r : worker_ok w → interests (wk_epoll w) !! fd = Some i →
  it_events i = EPOLLIN → fits h → received_ok r →
  ∃ o w', handle_input what h (it_data i) r w = (o, w') ∧ event_result w fd EPOLLIN r o w'.
Proof.
  intros Hw Hi Hin Hf Hr. destruct (wo_live _ Hw _ _ Hi) as (ev & Hev & Hfd & Hok).
  destruct r as [bs| | |].
  - destruct (request_text_cases bs Hr) as [(s & Hs & Hlen & _)|(Hs & Hfull & Hni)].
    + destruct (Hf s Hlen) as [(t & Ht & Hle)|[Hans Hp]].
      * destruct (input_received w h fd i bs s t) as [(p & e' & Hnew & Hint & ->)|(o & w' & p & -> & Ho & _)]; try done.
        -- do 2 eexists. split; [done|]. eapply ok_move; try done; [by left|by apply filled_ok].
        -- do 2 eexists. split; [done|]. by apply refused_result.
      * destruct (input_undefined w h fd i bs CtypeArgument) as [w' ->]; try done; [by rewrite Hs|].
        do 2 eexists. split; [done|]. split; [done|]. exists bs. split; [done|]. right. eauto.
    + destruct (input_undefined w h fd i bs OutOfBounds) as [w' ->]; try done; [by rewrite Hs|].
      do 2 eexists. split; [done|]. split; [done|]. exists bs. split; [done|]. by left.
  - unfold handle_input. erewrite M_bind_ok by (by apply deref_ok). rewrite Hfd. by apply drop_step.
  - unfold handle_input. erewrite M_bind_ok by (by apply deref_ok). rewrite Hfd.
    erewrite M_bind_ok by (by eapply assign_ok).
    match goal with |- context [control_epoll_event _ _ _ _ ?w2] =>
      destruct (control_cases w2 EPOLL_CTL_MOD fd EPOLLIN (it_data i)) as [(e' & -> & He)|(m & -> & He)] end.
    + do 2 eexists. split; [done|]. pose proof (ctl_effect _ _ _ _ _ He) as Hint.
      unfold set_epoll, set_heap. cbn. rewrite <- insert_delete_eq.
      eapply (ok_move w e' fd i (it_data i) _ EPOLLIN); try done; [by right|].
      destruct Hok as [[_ Hz]|[Ho _]]; [by left|by rewrite Hin in Ho].
    + do 2 eexists. split; [done|]. by repeat eexists.
  - unfold handle_input. erewrite M_bind_ok by (by apply deref_ok). rewrite Hfd. by apply drop_step.
Qed.

Lemma output_step w fd i r sa : worker_ok w → interests (wk_epoll w) !! fd = Some i →
  it_events i = EPOLLOUT → sent_ok w (it_data i) sa →
  ∃ o w', handle_output (it_data i) sa w = (o, w') ∧ event_result w fd EPOLLOUT r o w'.
Proof.
  intros Hw Hi Hout Hs. destruct (wo_live _ Hw _ _ Hi) as (ev & Hev & Hfd & Hok).
  destruct Hok as [[Ho _]|(_ & Hb & Hc & Hle & Hsum)]; [by rewrite Hout in Ho|]. destruct sa as [n| |].
  - specialize (Hs _ Hev).
    destruct (output_sent w fd i ev n) as [(e' & p & ev' & evs & -> & Hint & Hp & Heq)|(o & w' & j & -> & Ho & _)]; try done.
    + do 2 eexists. split; [done|].
      assert (ev_fd ev' = fd ∧ event_ok evs ev') as [Hfd' Hok'].
      { destruct (Z.ltb_spec n (ev_length ev)); injection Heq as -> ->; (split; [done|]).
        - right. cbn. split_and!; try done; lia.
        - by left. }
      by eapply ok_move.
    + do 2 eexists. split; [done|]. by apply refused_result.
  - destruct (output_again w fd i) as (o & -> & Ho); try done. do 2 eexists. split; [done|]. by apply refused_result.
  - unfold handle_output. erewrite M_bind_ok by (by apply deref_ok).
    unfold outgoing. rewrite Hb. destruct (Z.leb_spec (ev_cursor ev + ev_length ev) kMaxBufferSize); [|lia].
    erewrite M_bind_ok by reflexivity. rewrite Hfd. by apply drop_step.
Qed.

(** Whatever an event brings, the connection goes on in a good state or is
    closed, or the worker is ended by the kernel, or undefined. *)
Lemma event_step w h fd i events r sa : worker_ok w → interests (wk_epoll w) !! fd = Some i →
  delivered i events → fits h → received_ok r → sent_ok w (it_data i) sa →
  ∃ o w', process_event what h events (it_data i) r sa w = (o, w') ∧ event_result w fd events r o w'.
Proof.
  intros Hw Hi [Hdin Hdout] Hf Hr Hs. destruct (wo_live _ Hw _ _ Hi) as (ev & Hev & Hfd & _).
  unfold process_event. case_match.
  { erewrite M_bind_ok by (by apply deref_ok). rewrite Hfd. by apply drop_step. }
  case_match eqn:Hmask; last first.
  { erewrite M_bind_ok by (by apply deref_ok). rewrite Hfd. by apply drop_step. }
  unfold HandleEpollEvent. destruct (Z.eqb_spec events EPOLLIN) as [->|_].
  - apply input_step; auto.
  - cbn [orb] in Hmask. apply Z.eqb_eq in Hmask. subst events. apply output_step; auto.
Qed.

Lemma accept_step w fd : worker_ok w → fd ∉ wk_open w →
  ∃ o w', accept_client fd w = (o, w') ∧ match o with
                                         | Ok _ => worker_ok w'
                                         | Throw _ => refuses w fd o
                                         | Undef _ => False
                                         end.
Proof.
  intros Hw Hfd. assert (interests (wk_epoll w) !! fd = None) as Hi.
  { rewrite (wo_open _ Hw) in Hfd. by apply not_elem_of_dom. }
  unfold accept_client. erewrite M_bind_ok by reflexivity.
  match goal with |- context [(new_EventData ≫= _) ?w2] =>
    destruct (alloc_ok w2 fd) as (p & Hp & Halloc); rewrite Halloc; clear Halloc end. cbn in Hp.
  match goal with |- context [control_epoll_event _ _ _ _ ?w2] =>
    destruct (control_cases w2 EPOLL_CTL_ADD fd EPOLLIN p) as [(e' & -> & He)|(m & -> & He)] end.
  - do 2 eexists. split; [reflexivity|]. pose proof (ctl_effect _ _ _ _ _ He) as Hint.
    unfold set_epoll, set_heap. cbn. eapply (ok_add w _ fd _ _ EPOLLIN); try done. by left.
  - do 2 eexists. split; [reflexivity|]. by repeat eexists.
Qed.

(** The steps of a worker: connections accepted for it and events delivered to
    it, with whatever handlers are registered at that moment. *)
Inductive worker_step : Worker E → Worker E → Prop :=
| step_accept w fd w' :
    fd ∉ wk_open w → accept_client fd w = (Ok tt, w') → worker_step w w'
| step_event w h fd i events r sa w' :
    interests (wk_epoll w) !! fd = Some i → delivered i events →
    fits h → received_ok r → sent_ok w (it_data i) sa →
    process_event what h events (it_data i) r sa w = (Ok tt, w') → worker_step w w'.

Lemma worker_reachable e w : interests e = ∅ → rtc worker_step (MkWorker e ∅ ∅ []) w → worker_ok w.
Proof.
  intros He Hsteps. remember (MkWorker e ∅ ∅ []) as w0 eqn:Hw0.
  assert (worker_ok w0) as Hok0.
  { subst w0. split; cbn; rewrite ?He; done. }
  clear Hw0 He. induction Hsteps as [w|w0 w1 w2 Hstep _ IH]; [done|]. apply IH.
  destruct Hstep as [w fd w' Hfd Hacc|w h fd i events r sa w' Hi Hd Hf Hr Hs Hp].
  - destruct (accept_step w fd Hok0 Hfd) as (o & w2' & Hacc' & Hok). rewrite Hacc in Hacc'. by simplify_eq.
  - destruct (event_step w h fd i events r sa Hok0 Hi Hd Hf Hr Hs) as (o & w2' & Hp' & Hok).
    rewrite Hp in Hp'. by simplify_eq.
Qed.

(** *** A whole response *)

(** The next event of a connection, as the kernel reports it. *)
Definition next_event h (fd : Z) (r : recv_answer) (sa : send_answer) : M (Worker E) unit :=
  w ← get_state;
  match interests (wk_epoll w) !! fd with
  | Some i => process_event what h (it_events i) (it_data i) r sa
  | None => mret tt
  end.

Lemma next_event_eq h fd r sa w i : interests (wk_epoll w) !! fd = Some i →
  next_event h fd r sa w = process_event what h (it_events i) (it_data i) r sa w.
Proof. intros Hi. unfold next_event. erewrite M_bind_ok by reflexivity. by rewrite Hi. Qed.

Definition total (ns : list Z) : Z := foldr Z.add 0 ns.

Lemma total_cons n ns : total (n :: ns) = n + total ns.
Proof. done. Qed.

Lemma total_nonneg ns : Forall (λ n, 0 < n) ns → 0 ≤ total ns.
Proof. induction 1 as [|n ns Hn _ IH]; [done|]. rewrite total_cons. lia. Qed.

Lemma sends_ok h fd ns : mods_succeed E → ∀ w i ev, worker_ok w → interests (wk_epoll w) !! fd = Some i →
  it_events i = EPOLLOUT → wk_heap w !! it_data i = Some ev →
  ns ≠ [] → Forall (λ n, 0 < n) ns → total ns = ev_length ev →
  ∃ w' chunks i', for_each (λ n, next_event h fd RecvAgain (Sent n)) ns w = (Ok tt, w') ∧ worker_ok w' ∧
    wk_sent w' = wk_sent w ++ (pair fd <$> chunks) ∧ zlen <$> chunks = ns ∧
    concat chunks = take (Z.to_nat (ev_length ev)) (drop (Z.to_nat (ev_cursor ev)) (ev_buffer ev)) ∧
    interests (wk_epoll w') !! fd = Some i' ∧ it_events i' = EPOLLIN.
Proof.
  intros Hmods. induction ns as [|n ns IH]; [done|]. intros w i ev Hw Hi Hout Hev _ [Hn Hns]%Forall_cons Hsum.
  rewrite total_cons in Hsum. pose proof (total_nonneg ns Hns) as Hpos.
  destruct (wo_live _ Hw _ _ Hi) as (ev0 & Hev0 & Hfd & Hok). rewrite Hev in Hev0. injection Hev0 as <-.
  destruct Hok as [[Ho _]|(_ & Hb & Hc & Hle & Hroom)]; [by rewrite Hout in Ho|].
  destruct (output_sent w fd i ev n) as [(e' & p & ev' & evs & Hrun & Hint & Hp & Heq)|(o & w' & j & _ & _ & Hno)];
    try done; [lia| |by destruct (Hmods fd j (wk_epoll w) ltac:(by exists i)); simplify_eq].
  assert (process_event what h EPOLLOUT (it_data i) RecvAgain (Sent n) w =
    handle_output (it_data i) (Sent n) w) as Hproc by done.
  cbn [for_each]. erewrite M_bind_ok by (rewrite (next_event_eq _ _ _ _ _ i) by done; rewrite Hout, Hproc; exact Hrun).
  set (w1 := MkWorker e' (<[p := ev']> (delete (it_data i) (wk_heap w))) (wk_open w) _).
  set (bytes := take (Z.to_nat (ev_length ev)) (drop (Z.to_nat (ev_cursor ev)) (ev_buffer ev))) in *.
  assert (length bytes = Z.to_nat (ev_length ev)) as Hbl.
  { unfold bytes. rewrite length_take, length_drop. unfold zlen, kMaxBufferSize in *. lia. }
  assert (ev_fd ev' = fd ∧ event_ok evs ev') as [Hfd' Hok'].
  { destruct (Z.ltb_spec n (ev_length ev)); injection Heq as -> ->; (split; [done|]); [right|by left].
    cbn. split_and!; try done; lia. }
  assert (worker_ok w1) as Hw1 by (by eapply ok_move).
  assert (interests (wk_epoll w1) !! fd = Some (MkInterest evs p)) as Hi1
    by (cbn; rewrite Hint; apply lookup_insert_eq).
  assert (wk_heap w1 !! p = Some ev') as Hev1 by (cbn; apply lookup_insert_eq).
  assert (zlen (take (Z.to_nat n) bytes) = n) as Hchunk
    by (unfold zlen; rewrite length_take; lia).
  destruct (Z.ltb_spec n (ev_length ev)) as [Hlt|Hge]; injection Heq as Hevs Hev'.
  - subst evs. edestruct (IH w1 (MkInterest EPOLLOUT p) ev') as (w' & chunks & i' & Hrun' & Hw' & Hsent & Hz & Hcat & Hi' & Hin');
      try done.
    { intros ->. cbn in Hsum. lia. }
    { rewrite Hev'. cbn. lia. }
    exists w', (take (Z.to_nat n) bytes :: chunks), i'. split_and!; try done.
    + rewrite Hsent. cbn. by rewrite <- app_assoc.
    + cbn. by rewrite Hchunk, Hz.
    + cbn [concat]. rewrite Hcat, Hev'. cbn [ev_length ev_cursor ev_buffer].
      rewrite <- (take_drop (Z.to_nat n) bytes) at 2. f_equal. unfold bytes.
      rewrite skipn_firstn_comm, drop_drop. f_equal; [lia|]. f_equal. lia.
  - subst evs ev'. destruct ns as [|n' ns]; last first.
    { apply Forall_cons in Hns as [Hn' Hns]. pose proof (total_nonneg ns Hns).
      rewrite total_cons in Hsum. lia. }
    exists w1, [take (Z.to_nat n) bytes], (MkInterest EPOLLIN p). split_and!; try done.
    + cbn. by rewrite Hchunk.
    + cbn [concat]. rewrite app_nil_r. apply take_ge. cbn in Hsum. lia.
Qed.

(** C12 (safety): the connections of a worker.  In every state that connections
    and events lead to, the open descriptors are those watched, each with a live
    object of its own, and there is no other object: nothing leaks and nothing is
    freed twice.  From there one more connection, or one more event, whatever the
    kernel answers and whichever handlers are registered whose responses fit a
    buffer, keeps it so, with these exceptions only.  An [epoll_ctl] the kernel
    refuses throws what nobody catches; so does always a [send] that would
    block, after which the descriptor is added a second time.  A reception that
    fills the buffer and has no NUL is read past the end of the buffer, always.
    And a request with a character [<cctype>] does not take is undefined. *)
Theorem connections_safe (e : E) (w : Worker E) :
  interests e = ∅ → rtc worker_step (MkWorker e ∅ ∅ []) w →
  worker_ok w ∧
  (∀ fd, fd ∉ wk_open w → ∃ o w', accept_client fd w = (o, w') ∧
     match o with Ok _ => worker_ok w' | Throw _ => refuses w fd o | Undef _ => False end) ∧
  ∀ h fd i events r sa, interests (wk_epoll w) !! fd = Some i → delivered i events →
    fits h → received_ok r → sent_ok w (it_data i) sa →
    ∃ o w', process_event what h events (it_data i) r sa w = (o, w') ∧
      match o with
      | Ok _ => worker_ok w'
      | Throw _ => refuses w fd o
      | Undef u => events = EPOLLIN ∧ ∃ bs, r = Received bs ∧
          ((u = OutOfBounds ∧ zlen bs = kMaxBufferSize ∧ x00 ∉ bs) ∨
           (u = CtypeArgument ∧ ∃ s, request_text bs = Ok s ∧ string_to_request s = Undef CtypeArgument))
      end ∧
      (events = EPOLLOUT → sa = SendAgain → refuses w fd o) ∧
      (∀ bs, events = EPOLLIN → r = Received bs → zlen bs = kMaxBufferSize → x00 ∉ bs → o = Undef OutOfBounds).
Proof.
  intros He Hsteps. pose proof (worker_reachable e w He Hsteps) as Hw. split; [done|].
  split; [intros fd; by apply accept_step|].
  intros h fd i events r sa Hi Hd Hf Hr Hs.
  destruct (event_step w h fd i events r sa Hw Hi Hd Hf Hr Hs) as (o & w' & Hrun & Hres).
  exists o, w'. split; [exact Hrun|]. split; [exact Hres|]. split.
  - intros -> ->. destruct (output_again w fd i Hw Hi (proj2 Hd eq_refl)) as (o' & Ho & Href).
    assert (process_event what h EPOLLOUT (it_data i) r SendAgain w = handle_output (it_data i) SendAgain w)
      as Hproc by done. rewrite Hproc, Ho in Hrun. by injection Hrun as <- _.
  - intros bs -> -> Hfull Hni.
    destruct (input_undefined w h fd i bs OutOfBounds Hw Hi (proj1 Hd eq_refl)) as [w2 Hund].
    { destruct (request_text_cases bs Hr) as [(s & _ & _ & Hno)|[-> _]]; [by destruct Hno|done]. }
    assert (process_event what h EPOLLIN (it_data i) (Received bs) sa w =
      handle_input what h (it_data i) (Received bs) w) as Hproc by done.
    rewrite Hproc, Hund in Hrun. by injection Hrun as <- _.
Qed.

Lemma take_strncpy t : slen t ≤ kMaxBufferSize → x00 ∉ str_bytes t →
  take (Z.to_nat (slen t)) (strncpy t (Z.to_nat kMaxBufferSize)) = str_bytes t.
Proof.
  intros Hl Hni. assert (c_bytes (str_bytes t) = None) as Hc.
  { clear Hl. induction (str_bytes t) as [|b l IH]; [done|]. cbn. destruct (Byte.eqb b x00) eqn:Hb.
    - apply Byte.byte_dec_bl in Hb. set_solver.
    - rewrite IH; [done|set_solver]. }
  unfold strncpy. rewrite Hc. cbn [default]. unfold slen in *. rewrite Nat2Z.id.
  rewrite (take_ge (str_bytes t)) by (rewrite str_bytes_length; lia).
  apply take_app_length'. by rewrite str_bytes_length.
Qed.

(** A request gets its whole response, in however many parts the kernel takes it.
    The bytes sent are the printed response, in order and without repetition, and
    the connection then waits for the next request. *)
Lemma response_delivered (w : Worker E) (h : Handlers) (fd : Z) (i : interest) (bs : list byte)
    (text : string) (ns : list Z) :
  mods_succeed E → worker_ok w → interests (wk_epoll w) !! fd = Some i → it_events i = EPOLLIN → fits h →
  zlen bs < kMaxBufferSize → x00 ∉ bs →
  http_answer what h (bytes_str bs) = Ok text → x00 ∉ str_bytes text →
  ns ≠ [] → Forall (λ n, 0 < n) ns → total ns = slen text →
  ∃ w' chunks i',
    (next_event h fd (Received bs) SendAgain;;
     for_each (λ n, next_event h fd RecvAgain (Sent n)) ns) w = (Ok tt, w') ∧ worker_ok w' ∧
    wk_sent w' = wk_sent w ++ (pair fd <$> chunks) ∧ zlen <$> chunks = ns ∧
    concat chunks = str_bytes text ∧
    interests (wk_epoll w') !! fd = Some i' ∧ it_events i' = EPOLLIN.
Proof.
  intros Hmods Hw Hi Hin Hf Hl Hni Hans Hnt Hne Hns Htot.
  assert (slen text ≤ kMaxBufferSize) as Ht.
  { destruct (Hf (bytes_str bs)) as [(t & Ht & Hle)|[Ht _]]; [|congruence..].
    unfold slen, zlen in *. rewrite <- str_bytes_length, String.list_byte_of_string_of_list_byte. lia. }
  destruct (input_received w h fd i bs (bytes_str bs) text) as [(p & e' & Hp & Hint & Hrun)|(o & w' & p & _ & _ & Hno)];
    [done|done|done|by apply request_text_clean|done| |].
  2: { destruct (Hmods fd (MkInterest EPOLLOUT p) (wk_epoll w) ltac:(by exists i)); simplify_eq. }
  assert (process_event what h EPOLLIN (it_data i) (Received bs) SendAgain w =
    handle_input what h (it_data i) (Received bs) w) as Hproc by done.
  erewrite M_bind_ok by (rewrite (next_event_eq _ _ _ _ _ i) by done; rewrite Hin, Hproc; exact Hrun).
  set (ev := MkEvent fd (slen text) 0 (strncpy text (Z.to_nat kMaxBufferSize))).
  match goal with |- context [for_each _ _ ?w2] => set (w1 := w2) end.
  assert (worker_ok w1) as Hw1 by (eapply ok_move; try done; [by left|by apply filled_ok]).
  destruct (sends_ok h fd ns Hmods w1 (MkInterest EPOLLOUT p) ev)
    as (w' & chunks & i' & Hrun' & Hw' & Hsent & Hz & Hcat & Hi' & Hin'); try done.
  - cbn. rewrite Hint. apply lookup_insert_eq.
  - cbn. apply lookup_insert_eq.
  - exists w', chunks, i'. split_and!; try done. rewrite Hcat. cbn [ev ev_length ev_cursor ev_buffer].
    change (Z.to_nat 0) with 0%nat. rewrite drop_0. by apply take_strncpy.
Qed.
End safety.

(** ** Handlers and registrations *)

(** A registration for a path replaces all the handlers of that path: other
    methods are refused from then on, and between its two steps the path is not
    known at all. *)
Lemma erase_ok (u : Uri) (h : Handlers) (r : HttpRequest) :
  HandleHttpRequest (erase_handlers u h) r =
    (if bool_decide (uri_path (rq_uri r) = uri_path u) then Ok (HttpResponse_new NotFound)
     else HandleHttpRequest h r).
Proof.
  unfold erase_handlers, HandleHttpRequest, Handlers in *.
  case_bool_decide as Hp; [by rewrite Hp, lookup_delete_eq|by rewrite lookup_delete_ne].
Qed.

Lemma register_eq (path low : string) (m : HttpMethod) (cb : HttpRequestHandler) (h : Handlers) :
  str_transform lower_char path = Ok low →
  RegisterHttpRequestHandler path m cb h = Ok (<[low := {[m := cb]}]> h).
Proof.
  intros Hl. unfold RegisterHttpRequestHandler, Uri_new, insert_handler, erase_handlers, Handlers in *.
  rewrite Hl. cbn. rewrite lookup_delete_eq. cbn [default]. by rewrite lookup_empty, insert_delete_eq.
Qed.

Lemma insert_replaced (low : string) (m : HttpMethod) (cb : HttpRequestHandler) (h : Handlers)
    (r : HttpRequest) :
  HandleHttpRequest (<[low := {[m := cb]}]> h) r =
    (if bool_decide (uri_path (rq_uri r) = low) then
       if bool_decide (rq_method r = m) then cb r else Ok (HttpResponse_new MethodNotAllowed)
     else HandleHttpRequest h r).
Proof.
  unfold HandleHttpRequest, Handlers, HttpRequestHandler in *. case_bool_decide as Hp.
  - rewrite Hp, lookup_insert_eq.
    case_bool_decide as Hm; [by rewrite Hm, lookup_singleton_eq|]. by rewrite lookup_singleton_ne.
  - by rewrite lookup_insert_ne.
Qed.

(** ** Responses that fit *)

(** Handlers that return responses no longer than a buffer. *)
Definition short_handler (cb : HttpRequestHandler) : Prop := ∀ r,
  ∃ resp, cb r = Ok resp ∧ ∀ b, slen (response_to_string resp b) ≤ kMaxBufferSize.

Definition short_handlers (h : Handlers) : Prop := ∀ path methods m cb,
  h !! path = Some methods → methods !! m = Some cb → short_handler cb.

Lemma insert_short low m cb h : short_handler cb → short_handlers h →
  short_handlers (<[low := {[m := cb]}]> h).
Proof.
  intros Hcb Hh p methods m' cb'. unfold Handlers in *.
  intros [[<- <-]|[_ Hp]]%lookup_insert_Some; [|by eapply Hh].
  by intros [_ <-]%lookup_singleton_Some.
Qed.

Lemma response_to_string_content w c : ∀ b,
  slen (response_to_string (response_content w (HttpResponse_new c)) b) ≤
  slen (response_to_string (response_content w (HttpResponse_new c)) true).
Proof.
  intros [|]; [lia|]. unfold response_to_string. rewrite !slen_app.
  pose proof (slen_nonneg (hm_content (rp_message (response_content w (HttpResponse_new c))))).
  change (slen "") with 0. lia.
Qed.

Lemma short_handlers_fit what h : short_handlers h → fits what h.
Proof.
  intros Hh s Hs. unfold http_answer. assert (slen s < npos) as Hn by (unfold kMaxBufferSize, npos in *; lia).
  destruct (string_to_request_cases s Hn) as [[r ->]|[(w & -> & Hw)|[->|[-> _]]]]; [left|left|left|by right].
  - unfold HandleHttpRequest. destruct (h !! uri_path (rq_uri r)) as [methods|] eqn:Hm.
    + destruct (methods !! rq_method r) as [cb|] eqn:Hc.
      * destruct (Hh _ _ _ _ Hm Hc r) as (resp & -> & Hlen). eexists. split; [reflexivity|]. apply Hlen.
      * eexists. split; [reflexivity|]. by destruct (bool_decide _).
    + eexists. split; [reflexivity|]. by destruct (bool_decide _).
  - eexists. split; [reflexivity|]. etransitivity; [apply response_to_string_content|].
    unfold refusals in Hw. rewrite !elem_of_cons, elem_of_nil in Hw.
    by destruct Hw as [->|[->|[->|[]]]].
  - eexists. split; [reflexivity|]. etransitivity; [apply response_to_string_content|]. done.
Qed.

(** ** Examples *)

(** An epoll instance as the list of what it watches. *)
#[export] Instance gmap_epoll : Epoll (gmap Z interest) := {
  epoll_ctl op fd i e :=
    match op, e !! fd with
    | EPOLL_CTL_ADD, None | EPOLL_CTL_MOD, Some _ => Some (<[fd := i]> e)
    | EPOLL_CTL_DEL, Some _ => Some (delete fd e)
    | _, _ => None
    end;
  interests e := e
}.

#[export] Instance gmap_epoll_spec : EpollSpec (gmap Z interest).
Proof.
  split; cbn.
  - intros op fd i e e'. destruct op, (e !! fd); intros [= <-]; done.
  - intros fd i e [j Hi]. by rewrite Hi.
  - intros op fd i e Hop Hi. rewrite Hi. by destruct op.
Qed.

Lemma gmap_mods_succeed : mods_succeed (gmap Z interest).
Proof. intros fd i e [j Hi]. cbn in *. rewrite Hi. by eexists. Qed.

Definition idle_worker : Worker (gmap Z interest) :=
  (accept_client 7 (MkWorker (∅ : gmap Z interest) ∅ ∅ [])).2.

Definition refused : string := response_to_string (HttpResponse_new NotFound) true.

Definition get_metrics : list byte := str_bytes (request_to_string example_request).

Lemma idle_worker_ok : worker_ok idle_worker.
Proof.
  destruct (accept_step (MkWorker (∅ : gmap Z interest) ∅ ∅ []) 7) as (o & w' & Hacc & Hok).
  - split; cbn; try done.
  - done.
  - assert (o = Ok tt) as -> by (pose proof Hacc as Ho; vm_compute in Ho; by injection Ho as <- _).
    unfold idle_worker. by rewrite Hacc.
Qed.

Lemma no_handlers_fit : fits (λ _, "") ∅.
Proof. apply short_handlers_fit. intros path methods m cb Hp. done. Qed.

(** An idle connection gets a request, and a reception without an end. *)
Lemma connections_safe_witness :
  worker_ok idle_worker ∧
  (∃ w', process_event (λ _, "") ∅ EPOLLIN 0 (Received get_metrics) SendAgain idle_worker = (Ok tt, w') ∧
     worker_ok w') ∧
  ∃ w', process_event (λ _, "") ∅ EPOLLIN 0 (Received (replicate (Z.to_nat 4096) x41)) SendAgain idle_worker =
          (Undef OutOfBounds, w').
Proof.
  destruct (connections_safe (λ _, "") (∅ : gmap Z interest) idle_worker) as (Hok & _ & Hstep).
  - reflexivity.
  - eapply rtc_l; [|apply rtc_refl]. eapply (step_accept _ _ 7); [done|]. vm_compute. reflexivity.
  - split; [exact Hok|]. split.
    + destruct (Hstep ∅ 7 (MkInterest EPOLLIN 0) EPOLLIN (Received get_metrics) SendAgain)
        as (o & w' & Hrun & Hres & _);
        [vm_compute; reflexivity|by split|by apply no_handlers_fit|vm_compute; congruence|exact I|].
      assert (o = Ok tt) as -> by (pose proof Hrun as Ho; vm_compute in Ho; by injection Ho as <- _).
      exists w'. split; [exact Hrun|exact Hres].
    + destruct (Hstep ∅ 7 (MkInterest EPOLLIN 0) EPOLLIN (Received (replicate (Z.to_nat 4096) x41)) SendAgain)
        as (o & w' & Hrun & _ & _ & Hfull);
        [vm_compute; reflexivity|by split|by apply no_handlers_fit|vm_compute; congruence|exact I|].
      exists w'. rewrite <- (Hfull (replicate (Z.to_nat 4096) x41)); [exact Hrun|done|done|done|].
      by intros [Heq _]%elem_of_replicate.
Defined.

Lemma response_delivered_witness :
  ∃ w' chunks i',
    (next_event (λ _, "") ∅ 7 (Received get_metrics) SendAgain;;
     for_each (λ n, next_event (λ _, "") ∅ 7 RecvAgain (Sent n)) [10; 16]) idle_worker = (Ok tt, w') ∧
    worker_ok w' ∧
    wk_sent w' = wk_sent idle_worker ++ (pair 7 <$> chunks) ∧ zlen <$> chunks = [10; 16] ∧
    concat chunks = str_bytes refused ∧
    interests (wk_epoll w') !! 7 = Some i' ∧ it_events i' = EPOLLIN.
Proof.
  apply (response_delivered (λ _, "") idle_worker ∅ 7 (MkInterest EPOLLIN 0) get_metrics refused [10; 16]).
  - apply gmap_mods_succeed.
  - apply idle_worker_ok.
  - vm_compute. reflexivity.
  - reflexivity.
  - apply no_handlers_fit.
  - reflexivity.
  - apply (bool_decide_unpack _). vm_compute. exact I.
  - vm_compute. reflexivity.
  - apply (bool_decide_unpack _). vm_compute. exact I.
  - done.
  - repeat constructor.
  - reflexivity.
Defined.
