(* ===== verification/Race.v ===== *)
(** * The table of handlers, shared by threads

    The workers of [api::prom_endp::HttpServer] look handlers up in
    [request_handlers_] while the main thread replaces those of [/metrics] in
    every round of its loop, without a lock.  In C++ such accesses are a data
    race, undefined as they are; this file exhibits one thing that goes wrong,
    already when every access to the map is taken to be one step: the nodes of
    the outer map are objects that [erase] frees, an iterator is the identity of
    a node, and the steps of the threads interleave.  Nothing is claimed of the
    executions in which accesses overlap, nor that others are defined. *)

From Stdlib Require Import ZArith Lia String.
From stdpp Require Import base list list_numbers strings pretty gmap sets relations.
From S2P Require Import Prelude Text Http HttpServer.

Local Open Scope Z_scope.

(** ** The map *)

Abbreviation Methods := (gmap HttpMethod HttpRequestHandler).

(** Which node holds each path, the nodes that were not freed, and the next
    identity. *)
Record Shared := MkShared {
  sh_index : gmap string Z;
  sh_nodes : gmap Z Methods;
  sh_next : Z
}.

(** The handlers as [HandleHttpRequest] of [HttpServer] knows them. *)
Definition table (s : Shared) : Handlers := (λ p, default ∅ (sh_nodes s !! p)) <$> sh_index s.

(** [erase(uri)] *)
Definition erase_node (path : string) (s : Shared) : Shared :=
  match sh_index s !! path with
  | Some p => MkShared (delete path (sh_index s)) (delete p (sh_nodes s)) (sh_next s)
  | None => s
  end.

(** [request_handlers_\[uri\]]: the node of the path, new if there is none. *)
Definition emplace_node (path : string) (s : Shared) : Z * Shared :=
  match sh_index s !! path with
  | Some p => (p, s)
  | None => (sh_next s, MkShared (<[path := sh_next s]> (sh_index s)) (<[sh_next s := ∅]> (sh_nodes s))
                          (sh_next s + 1))
  end.

(** [.insert(std::make_pair(method, callback))] on the map of a node. *)
Definition insert_method (p : Z) (m : HttpMethod) (cb : HttpRequestHandler) (s : Shared) : outcome Shared :=
  match sh_nodes s !! p with
  | Some ms => Ok (MkShared (sh_index s) (<[p := match ms !! m with Some _ => ms | None => <[m := cb]> ms end]>
                     (sh_nodes s)) (sh_next s))
  | None => Undef UseAfterFree
  end.

(** ** The threads *)

(** What the main thread has left to do of [RegisterHttpRequestHandler]. *)
Inductive main_op :=
| Erase (path : string)
| Emplace (path : string) (method : HttpMethod) (callback : HttpRequestHandler)
| Insert (node : Z) (path : string) (method : HttpMethod) (callback : HttpRequestHandler).

Definition op_path (o : main_op) : string :=
  match o with Erase p | Emplace p _ _ | Insert _ p _ _ => p end.

(** The [Uri] of the path is a local object. *)
Definition register_ops (uri : Uri) (method : HttpMethod) (callback : HttpRequestHandler) : list main_op :=
  [Erase (uri_path uri); Emplace (uri_path uri) method callback].

(** One step of the main thread: the rest of its work and the map. *)
Definition main_step (os : list main_op) (s : Shared) : outcome (list main_op * Shared) :=
  match os with
  | [] => Ok ([], s)
  | Erase path :: os => Ok (os, erase_node path s)
  | Emplace path m cb :: os => let '(p, s) := emplace_node path s in Ok (Insert p path m cb :: os, s)
  | Insert p path m cb :: os => s ← insert_method p m cb s; Ok (os, s)
  end.

(** Where a worker is in [HandleHttpRequest]: before [find], holding [it], holding
    [callback_it], or done. *)
Inductive request_state :=
| Looking (r : HttpRequest)
| Found (r : HttpRequest) (it : Z)
| Calling (r : HttpRequest) (it : Z)
| Answered (r : HttpRequest) (answer : outcome HttpResponse).

Definition request_step (w : request_state) (s : Shared) : request_state :=
  match w with
  | Looking r =>
      match sh_index s !! uri_path (rq_uri r) with
      | Some p => Found r p
      | None => Answered r (Ok (HttpResponse_new NotFound))
      end
  | Found r it =>
      match sh_nodes s !! it with
      | None => Answered r (Undef UseAfterFree)
      | Some ms => match ms !! rq_method r with
                   | None => Answered r (Ok (HttpResponse_new MethodNotAllowed))
                   | Some _ => Calling r it
                   end
      end
  | Calling r it =>
      match sh_nodes s !! it ≫= (λ ms : Methods, ms !! rq_method r : option HttpRequestHandler) with
      | Some callback => Answered r (callback r)
      | None => Answered r (Undef UseAfterFree)
      end
  | Answered r a => Answered r a
  end.

Record System := MkSystem {
  sy_main : list main_op;
  sy_workers : list request_state;
  sy_shared : Shared
}.

(** A step of one thread; a main thread that touches a freed node is stuck. *)
Inductive thread_step : System → System → Prop :=
| step_main os ws s os' s' : main_step os s = Ok (os', s') →
    thread_step (MkSystem os ws s) (MkSystem os' ws s')
| step_worker os ws s i w : ws !! i = Some w →
    thread_step (MkSystem os ws s) (MkSystem os (<[i := request_step w s]> ws) s).

(** ** What the steps keep *)

(** Each path has a live node of its own, and there are no other live nodes. *)
Record shared_ok (s : Shared) : Prop := {
  so_live : ∀ path p, sh_index s !! path = Some p → is_Some (sh_nodes s !! p);
  so_owned : ∀ p ms, sh_nodes s !! p = Some ms → p < sh_next s ∧ ∃ path, sh_index s !! path = Some p;
  so_inj : ∀ path path' p, sh_index s !! path = Some p → sh_index s !! path' = Some p → path = path'
}.

(** A path whose handlers are as in [s0]. *)
Definition untouched (s0 s : Shared) (path : string) : Prop :=
  sh_index s !! path = sh_index s0 !! path ∧
  ∀ p, sh_index s0 !! path = Some p → sh_nodes s !! p = sh_nodes s0 !! p.

Lemma table_lookup s path : table s !! path = (λ p, default ∅ (sh_nodes s !! p)) <$> sh_index s !! path.
Proof. unfold table, Handlers. by rewrite lookup_fmap. Qed.

Lemma untouched_table s0 s path : untouched s0 s path → table s !! path = table s0 !! path.
Proof.
  intros [Hi Hn]. rewrite !table_lookup, Hi. destruct (sh_index s0 !! path) as [p|] eqn:Hp; [|done].
  cbn. by rewrite Hn.
Qed.

(** What an operation on the path [at_] does to the map: the other paths stay as
    they are, and a node that is still live is the node it was. *)
Record evolves (at_ : string) (s s' : Shared) : Prop := {
  ev_ok : shared_ok s';
  ev_other : ∀ path, path ≠ at_ → untouched s s' path;
  ev_next : sh_next s ≤ sh_next s';
  ev_nodes : ∀ p ms, p < sh_next s → sh_nodes s' !! p = Some ms →
    ∃ ms0, sh_nodes s !! p = Some ms0 ∧ ms0 ⊆ ms ∧
      ∀ path, sh_index s !! path = Some p → sh_index s' !! path = Some p
}.

Lemma evolves_refl at_ s : shared_ok s → evolves at_ s s.
Proof. intros Hs. split; [done|by split|lia|]. intros p ms _ Hp. by exists ms. Qed.

Lemma erase_evolves path s : shared_ok s → evolves path s (erase_node path s).
Proof.
  intros Hs. unfold erase_node. destruct (sh_index s !! path) as [p0|] eqn:Hp0; [|by apply evolves_refl].
  pose proof Hs as [Hlive Howned Hinj]. split; cbn.
  - split; cbn.
    + intros path' p [Hne Hp]%lookup_delete_Some. rewrite lookup_delete_ne; [by eapply Hlive|].
      intros ->. by apply Hne, (Hinj _ _ p).
    + intros p ms [Hne Hp]%lookup_delete_Some. destruct (Howned p ms Hp) as (Hlt & path' & Hi).
      split; [done|]. exists path'. rewrite lookup_delete_ne; [done|]. intros ->. congruence.
    + intros a b p [_ Ha]%lookup_delete_Some [_ Hb]%lookup_delete_Some. by eapply Hinj.
  - intros path' Hne. split; cbn; [by rewrite lookup_delete_ne|]. intros p Hp.
    rewrite lookup_delete_ne; [done|]. intros ->. by apply Hne, (Hinj _ _ p).
  - lia.
  - intros p ms _ [Hne Hp]%lookup_delete_Some. exists ms. split_and!; [done|done|].
    intros path' Hi. rewrite lookup_delete_ne; [done|]. intros ->. congruence.
Qed.

Lemma emplace_evolves path s : shared_ok s →
  evolves path s (emplace_node path s).2 ∧
  sh_index (emplace_node path s).2 !! path = Some (emplace_node path s).1.
Proof.
  intros Hs. unfold emplace_node. destruct (sh_index s !! path) as [p0|] eqn:Hp0;
    [by split; [apply evolves_refl|]|]. pose proof Hs as [Hlive Howned Hinj].
  assert (∀ path' p, sh_index s !! path' = Some p → p < sh_next s) as Hlt.
  { intros path' p Hi. destruct (Hlive _ _ Hi) as [ms Hms]. by destruct (Howned p ms Hms). }
  split; [|cbn; apply lookup_insert_eq]. split; cbn.
  - split; cbn.
    + intros path' p [[<- <-]|[Hne Hp]]%lookup_insert_Some; [rewrite lookup_insert_eq; by eexists|].
      rewrite lookup_insert_ne; [by eapply Hlive|]. apply Hlt in Hp. lia.
    + intros p ms [[<- <-]|[Hne Hp]]%lookup_insert_Some.
      * split; [lia|]. exists path. apply lookup_insert_eq.
      * destruct (Howned p ms Hp) as (Hl & path' & Hi). split; [lia|]. exists path'.
        rewrite lookup_insert_ne; [done|]. intros ->. congruence.
    + intros a b p [[<- <-]|[Hna Ha]]%lookup_insert_Some [[<- Hb]|[Hnb Hb]]%lookup_insert_Some;
        [done| | |by eapply Hinj].
      * apply Hlt in Hb. lia.
      * subst p. apply Hlt in Ha. lia.
  - intros path' Hne. split; cbn; [by rewrite lookup_insert_ne|]. intros p Hp.
    rewrite lookup_insert_ne; [done|]. apply Hlt in Hp. lia.
  - lia.
  - intros p ms Hp Hn. rewrite lookup_insert_ne in Hn by lia. exists ms. split_and!; [done|done|].
    intros path' Hi. rewrite lookup_insert_ne; [done|]. intros ->. congruence.
Qed.

Lemma insert_evolves path p m cb s : shared_ok s → sh_index s !! path = Some p →
  ∃ s', insert_method p m cb s = Ok s' ∧ evolves path s s'.
Proof.
  intros Hs Hi. pose proof Hs as [Hlive Howned Hinj]. destruct (Hlive _ _ Hi) as [ms Hms].
  unfold insert_method. rewrite Hms. eexists. split; [reflexivity|]. split; cbn.
  - split; cbn.
    + intros path' p' Hp'. destruct (decide (p = p')) as [->|Hne]; [rewrite lookup_insert_eq; by eexists|].
      rewrite lookup_insert_ne by done. by eapply Hlive.
    + intros p' ms' [[<- _]|[_ Hp']]%lookup_insert_Some; [|by eapply Howned].
      destruct (Howned p ms Hms) as [Hl _]. split; [done|]. by exists path.
    + done.
  - intros path' Hne. split; cbn; [done|]. intros p' Hp'. rewrite lookup_insert_ne; [done|].
    intros ->. by apply Hne, (Hinj _ _ p').
  - lia.
  - intros p' ms' _ [[<- <-]|[_ Hp']]%lookup_insert_Some; [exists ms|exists ms']; split_and!; try done.
    destruct (ms !! m) eqn:Hm; [reflexivity|]. by apply insert_subseteq.
Qed.

(** ** Any interleaving *)

Abbreviation steps := (rtc thread_step).

Definition request_path (r : HttpRequest) : string := uri_path (rq_uri r).

(** The answer of a look-up, seen from the map it was made in. *)
Lemma handle_table s r : HandleHttpRequest (table s) r =
  match (λ p, default ∅ (sh_nodes s !! p)) <$> sh_index s !! request_path r with
  | None => Ok (HttpResponse_new NotFound)
  | Some ms => match (ms !! rq_method r : option HttpRequestHandler) with
               | None => Ok (HttpResponse_new MethodNotAllowed)
               | Some cb => cb r
               end
  end.
Proof. unfold HandleHttpRequest. by rewrite <- table_lookup. Qed.

(** The steps of one request, uninterrupted, are [HandleHttpRequest]. *)
Lemma request_steps os s r : shared_ok s → ∃ a,
  steps (MkSystem os [Looking r] s) (MkSystem os [Answered r a] s) ∧ a = HandleHttpRequest (table s) r.
Proof.
  intros [Hlive _ _]. rewrite handle_table.
  assert (∀ w, thread_step (MkSystem os [w] s) (MkSystem os [request_step w s] s)) as Hstep
    by (intros w; by apply (step_worker os [w] s 0 w)).
  pose proof (Hstep (Looking r)) as H1. cbn [request_step] in H1. fold (request_path r) in H1.
  destruct (sh_index s !! request_path r) as [p|] eqn:Hp; [|eexists; split; [by apply rtc_once|done]].
  destruct (Hlive _ _ Hp) as [ms Hms]. pose proof (Hstep (Found r p)) as H2. cbn [request_step] in H2.
  rewrite Hms in H2. cbn [fmap option_fmap option_map]. rewrite Hms. cbn [default].
  destruct (ms !! rq_method r) as [cb|] eqn:Hcb.
  - pose proof (Hstep (Calling r p)) as H3. cbn [request_step] in H3. rewrite Hms in H3. cbn in H3.
    rewrite Hcb in H3. exists (cb r). split; [|cbn; by rewrite Hcb].
    eapply rtc_l; [exact H1|]. eapply rtc_l; [exact H2|]. by apply rtc_once.
  - eexists. split; [|cbn; by rewrite Hcb]. eapply rtc_l; [exact H1|]. by apply rtc_once.
Qed.

(** *** A registration on its own *)

(** The steps of one registration, uninterrupted, are [RegisterHttpRequestHandler]. *)
Lemma register_steps path uri m cb s ws : shared_ok s → Uri_new path = Ok uri → ∃ s',
  steps (MkSystem (register_ops uri m cb) ws s) (MkSystem [] ws s') ∧ shared_ok s' ∧
  RegisterHttpRequestHandler path m cb (table s) = Ok (table s').
Proof.
  intros Hs Huri. set (p := uri_path uri). assert (str_transform lower_char path = Ok p) as Hlow.
  { unfold Uri_new in Huri. destruct (str_transform lower_char path); [|done..]. by injection Huri as <-. }
  pose proof (erase_evolves p s Hs) as He. pose proof (ev_ok _ _ _ He) as Hs1.
  destruct (emplace_evolves p (erase_node p s) Hs1) as [Hem Hi].
  destruct (emplace_node p (erase_node p s)) as [q s2] eqn:Hq. cbn [fst snd] in *.
  destruct (insert_evolves p q m cb s2 (ev_ok _ _ _ Hem) Hi) as (s3 & Hins & Hev).
  exists s3. split; [|split; [by apply Hev|]].
  - unfold register_ops. fold p.
    eapply rtc_l; [by apply (step_main _ _ _ [Emplace p m cb])|].
    eapply rtc_l; [apply (step_main _ _ _ [Insert q p m cb] s2); cbn [main_step]; by rewrite Hq|].
    eapply rtc_l; [apply (step_main _ _ _ [] s3); cbn [main_step]; by rewrite Hins|]. constructor.
  - rewrite (register_eq path p) by done. f_equal. unfold Handlers in *. symmetry. apply map_eq. intros path'.
    destruct (decide (path' = p)) as [->|Hne].
    + assert (sh_index (erase_node p s) !! p = None) as Hnone.
      { unfold erase_node. destruct (sh_index s !! p) eqn:Hp; [apply lookup_delete_eq|done]. }
      unfold emplace_node in Hq. rewrite Hnone in Hq. injection Hq as <- <-.
      unfold insert_method in Hins. cbn in Hins. rewrite lookup_insert_eq, lookup_empty in Hins.
      injection Hins as <-. rewrite lookup_insert_eq, table_lookup. cbn.
      rewrite lookup_insert_eq. cbn. by rewrite lookup_insert_eq.
    + rewrite lookup_insert_ne by done.
      rewrite (untouched_table s2 s3) by (by apply Hev).
      rewrite (untouched_table (erase_node p s) s2) by (by apply Hem).
      by rewrite (untouched_table s) by (by apply He).
Qed.

(** C37 (error): the two threads race.  From any table where a handler is
    registered, a request for it can find the node of its path, and then follow
    the iterator after the main thread has erased the node to register the
    handler anew, as it does for [/metrics] in every round of its loop. *)
Theorem registration_races (s : Shared) (uri : Uri) (m : HttpMethod) (cb cb' : HttpRequestHandler)
    (ms : Methods) (r : HttpRequest) :
  shared_ok s → table s !! uri_path uri = Some ms → ms !! m = Some cb →
  request_path r = uri_path uri → rq_method r = m →
  HandleHttpRequest (table s) r = cb r ∧
  ∃ z, steps (MkSystem (register_ops uri m cb') [Looking r] s) z ∧
    sy_workers z = [Answered r (Undef UseAfterFree)].
Proof.
  intros Hs Ht Hm Hp Hr. split.
  { unfold HandleHttpRequest. fold (request_path r). rewrite Hp, Ht, Hr. unfold HttpRequestHandler in *. by rewrite Hm. }
  rewrite table_lookup in Ht. destruct (sh_index s !! uri_path uri) as [p|] eqn:Hi; [|done].
  eexists. split.
  - eapply rtc_l; [by apply (step_worker _ _ _ 0)|].
    eapply rtc_l; [by apply (step_main _ _ _ [Emplace (uri_path uri) m cb'])|].
    eapply rtc_l; [by apply (step_worker _ _ _ 0)|]. constructor.
  - cbn [list_insert insert sy_workers request_step]. fold (request_path r). rewrite Hp, Hi.
    cbn [request_step]. unfold erase_node. rewrite Hi. cbn. by rewrite lookup_delete_eq.
Qed.

(** ** An example *)

Definition page (text : string) : HttpRequestHandler := λ _, Ok (response_content text (HttpResponse_new Ok_)).

(** [/] and [/metrics] with a handler of [GET] each. *)
Definition example_shared : Shared :=
  MkShared {["/" := 0; "/metrics" := 1]} {[0 := {[GET := page "hello"]}; 1 := {[GET := page "old"]}]} 2.

Lemma example_shared_ok : shared_ok example_shared.
Proof.
  split; unfold example_shared; cbn.
  - intros path p [[<- <-]|[_ [<- <-]%lookup_singleton_Some]]%lookup_insert_Some; vm_compute; by eexists.
  - intros p ms [[<- <-]|[_ [<- <-]%lookup_singleton_Some]]%lookup_insert_Some; (split; [lia|]).
    + by exists "/".
    + by exists "/metrics".
  - intros a b p [[<- <-]|[_ [<- <-]%lookup_singleton_Some]]%lookup_insert_Some
      [[<- Hb]|[_ [<- Hb]%lookup_singleton_Some]]%lookup_insert_Some; done.
Qed.

Definition get_request (path : string) : HttpRequest :=
  match string_to_request ("GET " +:+ path +:+ " HTTP/1.1" +:+ crlf +:+ crlf) with
  | Ok r => r
  | _ => HttpRequest_new
  end.

Lemma registration_races_witness :
  HandleHttpRequest (table example_shared) (get_request "/metrics") = page "old" (get_request "/metrics") ∧
  ∃ z, steps (MkSystem (register_ops (MkUri "/metrics") GET (page "new")) [Looking (get_request "/metrics")]
                example_shared) z ∧
    sy_workers z = [Answered (get_request "/metrics") (Undef UseAfterFree)].
Proof.
  apply (registration_races example_shared (MkUri "/metrics") GET (page "old") (page "new") {[GET := page "old"]}).
  - apply example_shared_ok.
  - reflexivity.
  - reflexivity.
  - vm_compute. reflexivity.
  - vm_compute. reflexivity.
Defined.
