(* ===== verification/Kernel.v ===== *)
(** * Sockets and epoll instances

    The system calls of the two servers on descriptors: the class [Kernel] of the
    calls, [KernelSpec] of their documented behaviour, and an instance in
    memory.  Every call returns what the function of the C library returns, -1
    for a failure. *)

From Stdlib Require Import ZArith Lia String.
From stdpp Require Import base list list_numbers strings gmap sets.
From S2P Require Import Prelude Text Http HttpServer.

Local Open Scope Z_scope.

(** ** The interface *)

Class Kernel (K : Type) := {
  k_socket : K → Z * K;
  k_setsockopt : Z → K → Z * K;
  k_bind : Z → Z → K → Z * K;                       (* descriptor, port *)
  k_listen : Z → Z → K → Z * K;                     (* descriptor, backlog *)
  k_accept4 : Z → K → Z * K;
  k_epoll_create : K → Z * K;
  k_epoll_ctl : Z → ctl_op → Z → interest → K → Z * K;
  k_close : Z → K → Z * K;
  (** The open descriptors, what an epoll instance watches, and the limit on
      descriptors ([RLIMIT_NOFILE]). *)
  k_open : K → gset Z;
  k_watched : K → Z → gmap Z interest;
  k_limit : nat
}.

Section laws.
Context {K : Type} `{Kernel K}.

Definition same_descriptors (k k' : K) : Prop :=
  k_open k' = k_open k ∧ ∀ ep, k_watched k' ep = k_watched k ep.

(** A call that makes a descriptor: a new one below the limit, or nothing. *)
Definition creates (k : K) (r : Z * K) : Prop :=
  (r.1 = -1 ∧ same_descriptors k r.2) ∨
  (0 ≤ r.1 ∧ r.1 ∉ k_open k ∧ (size (k_open k) < k_limit)%nat ∧
   k_open r.2 = {[r.1]} ∪ k_open k ∧ ∀ ep, k_watched r.2 ep = k_watched k ep).

(** A call that sets something up on a descriptor ([EBADF] on a closed one). *)
Definition configures (fd : Z) (k : K) (r : Z * K) : Prop :=
  (r.1 = 0 ∨ r.1 = -1) ∧ same_descriptors k r.2 ∧ (fd ∉ k_open k → r.1 = -1).

(** [epoll_ctl] fails or has its effect; [ADD] fails on a descriptor that is
    watched already. *)
Definition controls (ep : Z) (op : ctl_op) (fd : Z) (i : interest) (k : K) (r : Z * K) : Prop :=
  (r.1 = -1 ∧ same_descriptors k r.2) ∨
  (r.1 = 0 ∧ ep ∈ k_open k ∧ fd ∈ k_open k ∧ k_open r.2 = k_open k ∧
   (∀ ep', ep' ≠ ep → k_watched r.2 ep' = k_watched k ep') ∧
   match op with
   | EPOLL_CTL_ADD => k_watched k ep !! fd = None ∧ k_watched r.2 ep = <[fd := i]> (k_watched k ep)
   | EPOLL_CTL_MOD => is_Some (k_watched k ep !! fd) ∧ k_watched r.2 ep = <[fd := i]> (k_watched k ep)
   | EPOLL_CTL_DEL => is_Some (k_watched k ep !! fd) ∧ k_watched r.2 ep = delete fd (k_watched k ep)
   end).

(** [close]: the descriptor leaves the epoll instances that watch it. *)
Definition closes (fd : Z) (k : K) (r : Z * K) : Prop :=
  (fd ∉ k_open k ∧ r.1 = -1 ∧ same_descriptors k r.2) ∨
  (fd ∈ k_open k ∧ k_open r.2 = k_open k ∖ {[fd]} ∧
   ∀ ep, ep ≠ fd → k_watched r.2 ep = delete fd (k_watched k ep)).

(** A call as a computation. *)
Definition sys (call : K → Z * K) : M K Z := λ k, let '(r, k') := call k in (Ok r, k').
End laws.

Class KernelSpec (K : Type) `{Kernel K} : Prop := {
  socket_spec : ∀ k, creates k (k_socket k);
  setsockopt_spec : ∀ fd k, configures fd k (k_setsockopt fd k);
  bind_spec : ∀ fd port k, configures fd k (k_bind fd port k);
  listen_spec : ∀ fd backlog k, configures fd k (k_listen fd backlog k);
  accept_spec : ∀ fd k, creates k (k_accept4 fd k) ∧ (fd ∉ k_open k → (k_accept4 fd k).1 = -1);
  epoll_create_spec : ∀ k, creates k (k_epoll_create k);
  epoll_ctl_spec : ∀ ep op fd i k, controls ep op fd i k (k_epoll_ctl ep op fd i k);
  close_spec : ∀ fd k, closes fd k (k_close fd k);
  (** What is not open watches nothing and is not watched. *)
  watched_open : ∀ k ep, ep ∉ k_open k → k_watched k ep = ∅
}.

(** ** An instance *)

Module MemKernel.
(** Every call succeeds on open descriptors while there is room. *)
Record kernel := MkKernel { mk_open : gset Z; mk_watched : gmap Z (gmap Z interest) }.

Definition unused (k : kernel) : Z := foldr Z.max 2 (elements (mk_open k)) + 1.

Definition mem_limit : nat := 1024.

Definition create (k : kernel) : Z * kernel :=
  if bool_decide (size (mk_open k) < mem_limit)%nat then
    (unused k, MkKernel ({[unused k]} ∪ mk_open k) (delete (unused k) (mk_watched k)))
  else (-1, k).

Definition on_fd (fd : Z) (k : kernel) : Z * kernel :=
  (if bool_decide (fd ∈ mk_open k) then 0 else -1, k).

Definition watched (k : kernel) (ep : Z) : gmap Z interest :=
  if bool_decide (ep ∈ mk_open k) then default ∅ (mk_watched k !! ep) else ∅.

Definition control (ep : Z) (op : ctl_op) (fd : Z) (i : interest) (k : kernel) : Z * kernel :=
  if bool_decide (ep ∈ mk_open k ∧ fd ∈ mk_open k) then
    let w := watched k ep in
    match op, w !! fd with
    | EPOLL_CTL_ADD, None | EPOLL_CTL_MOD, Some _ =>
        (0, MkKernel (mk_open k) (<[ep := <[fd := i]> w]> (mk_watched k)))
    | EPOLL_CTL_DEL, Some _ => (0, MkKernel (mk_open k) (<[ep := delete fd w]> (mk_watched k)))
    | _, _ => (-1, k)
    end
  else (-1, k).

Definition mem_close (fd : Z) (k : kernel) : Z * kernel :=
  if bool_decide (fd ∈ mk_open k) then
    (0, MkKernel (mk_open k ∖ {[fd]}) (delete fd <$> mk_watched k))
  else (-1, k).

#[export] Instance mem_kernel : Kernel kernel := {
  k_socket := create;
  k_setsockopt := on_fd;
  k_bind fd _ := on_fd fd;
  k_listen fd _ := on_fd fd;
  k_accept4 fd k := if bool_decide (fd ∈ mk_open k) then create k else (-1, k);
  k_epoll_create := create;
  k_epoll_ctl := control;
  k_close := mem_close;
  k_open := mk_open;
  k_watched := watched;
  k_limit := mem_limit
}.

Lemma max_le (l : list Z) x : x ∈ l → x ≤ foldr Z.max 2 l.
Proof. induction 1 as [x l|x y l _ IH]; cbn; lia. Qed.

Lemma max_pos (l : list Z) : 2 ≤ foldr Z.max 2 l.
Proof. induction l; cbn; lia. Qed.

Lemma unused_fresh k : unused k ∉ mk_open k.
Proof.
  unfold unused. intros Hin. rewrite <- elem_of_elements in Hin. apply max_le in Hin. lia.
Qed.

Lemma same_refl (k : kernel) : same_descriptors k k.
Proof. by split. Qed.

Lemma create_ok k : creates k (create k).
Proof.
  unfold create. case_bool_decide as Hs; [right|left; by split]. pose proof (unused_fresh k) as Hf.
  cbn. split_and!; try done.
  - unfold unused. pose proof (max_pos (elements (mk_open k))). lia.
  - intros ep. unfold watched. cbn. destruct (decide (ep = unused k)) as [->|Hne].
    + rewrite lookup_delete_eq. rewrite bool_decide_true by set_solver. by rewrite bool_decide_false.
    + rewrite lookup_delete_ne by done. by rewrite (bool_decide_ext _ (ep ∈ mk_open k)) by set_solver.
Qed.

Lemma on_fd_ok fd k : configures fd k (on_fd fd k).
Proof. unfold on_fd. split; [|split; [apply same_refl|]]; cbn; case_bool_decide; auto; done. Qed.

Lemma control_ok ep op fd i k : controls ep op fd i k (control ep op fd i k).
Proof.
  unfold control. case_bool_decide as Hin; [|left; by split]. destruct Hin as [Hep Hfd].
  assert (∀ w ep', ep' ≠ ep → watched (MkKernel (mk_open k) (<[ep := w]> (mk_watched k))) ep' = watched k ep')
    as Hother by (intros w ep' Hne; unfold watched; cbn; by rewrite lookup_insert_ne).
  assert (∀ w, watched (MkKernel (mk_open k) (<[ep := w]> (mk_watched k))) ep = w) as Hself
    by (intros w; unfold watched; cbn; by rewrite bool_decide_true, lookup_insert_eq).
  destruct op, (watched k ep !! fd) as [j|] eqn:Hw; cbn; try (left; by split);
    right; cbn; split_and!; try done; try (by eexists); try (intros; by apply Hother); by apply Hself.
Qed.

Lemma mem_close_ok fd k : closes fd k (mem_close fd k).
Proof.
  unfold mem_close. case_bool_decide as Hin; [right|left; by split_and!]. cbn. split_and!; try done.
  intros ep Hne. unfold watched. cbn. rewrite (bool_decide_ext _ (ep ∈ mk_open k)) by set_solver.
  case_bool_decide; [|by rewrite delete_empty]. rewrite lookup_fmap.
  destruct (mk_watched k !! ep); cbn; [done|by rewrite delete_empty].
Qed.

#[export] Instance mem_kernel_spec : KernelSpec kernel.
Proof.
  split; cbn.
  - apply create_ok.
  - apply on_fd_ok.
  - intros fd _. apply on_fd_ok.
  - intros fd _. apply on_fd_ok.
  - intros fd k. case_bool_decide; (split; [|done]); [apply create_ok|left; by split].
  - apply create_ok.
  - apply control_ok.
  - apply mem_close_ok.
  - intros k ep Hep. unfold watched. by rewrite bool_decide_false.
Qed.
End MemKernel.
