(* ===== verification/Endpoint.v ===== *)
(** * The life of the metrics endpoint

    The constructor, [Start] and [Stop] of [api::prom_endp::HttpServer]
    ([lib/api/prom_endp/http_server.cc]) over the system calls of [Kernel], with
    the table of handlers.  A thread is whether it can be joined; what its loop
    does is in [HttpServer]. *)

From Stdlib Require Import ZArith Lia String.
From stdpp Require Import base list list_numbers strings pretty gmap sets.
From S2P Require Import Prelude Text Http HttpServer Kernel.

Local Open Scope Z_scope.

(** ** The server *)

Record HttpServer := MkHttp {
  hs_host : string;
  hs_port : Z;                   (* uint16_t *)
  hs_sock_fd : Z;
  hs_running : bool;
  hs_listener : bool;            (* whether the thread is joinable *)
  hs_workers : list bool;
  hs_epoll_fds : list Z;         (* int[kThreadPoolSize] *)
  hs_handlers : Handlers
}.

Definition set_running (r : bool) (h : HttpServer) : HttpServer :=
  MkHttp (hs_host h) (hs_port h) (hs_sock_fd h) r (hs_listener h) (hs_workers h) (hs_epoll_fds h) (hs_handlers h).
Definition set_listener (j : bool) (h : HttpServer) : HttpServer :=
  MkHttp (hs_host h) (hs_port h) (hs_sock_fd h) (hs_running h) j (hs_workers h) (hs_epoll_fds h) (hs_handlers h).
Definition set_workers (w : list bool) (h : HttpServer) : HttpServer :=
  MkHttp (hs_host h) (hs_port h) (hs_sock_fd h) (hs_running h) (hs_listener h) w (hs_epoll_fds h) (hs_handlers h).
Definition set_epoll_fds (l : list Z) (h : HttpServer) : HttpServer :=
  MkHttp (hs_host h) (hs_port h) (hs_sock_fd h) (hs_running h) (hs_listener h) (hs_workers h) l (hs_handlers h).
Definition set_handlers (t : Handlers) (h : HttpServer) : HttpServer :=
  MkHttp (hs_host h) (hs_port h) (hs_sock_fd h) (hs_running h) (hs_listener h) (hs_workers h) (hs_epoll_fds h) t.

Definition kBacklogSize : Z := 1000.

Section endpoint.
Context {K : Type} `{Kernel K}.

Abbreviation HT := (M (HttpServer * K)).

Definition in_kernel {A} (m : M K A) : HT A := zoom snd (λ k s, (s.1, k)) m.
Definition on_server (f : HttpServer → HttpServer) : HT unit := modify (λ s, (f s.1, s.2)).

(** [if (call < 0) throw std::runtime_error(what);] *)
Definition check_call (call : K → Z * K) (what : string) : HT unit :=
  r ← in_kernel (sys call);
  if (r : Z) <? 0 then throw (runtime_error what) else mret tt.

(** The descriptor that is assigned to [sock_fd_]. *)
Definition CreateSocket : M K Z :=
  fd ← sys k_socket;
  if (fd : Z) <? 0 then throw (runtime_error "Failed to create a TCP socket (Prometheus Server)")
  else mret fd.

Definition HttpServer_new (host : string) (port : Z) : M K HttpServer :=
  fd ← CreateSocket;
  mret (MkHttp host (u16 port) fd false false (replicate kThreadPoolSize false)
          (replicate kThreadPoolSize 0) ∅).

Definition create_epoll (i : nat) : HT unit :=
  fd ← in_kernel (sys k_epoll_create);
  on_server (λ h, set_epoll_fds (<[i := fd]> (hs_epoll_fds h)) h);;
  if (fd : Z) <? 0
  then throw (runtime_error "Failed to create epoll file descriptor for worker (Prometheus Server)")
  else mret tt.

Definition SetUpEpoll : HT unit := for_each create_epoll (seq 0 kThreadPoolSize).

(** The assignment of a new thread: a thread that was not joined ends the
    process. *)
Definition start_listener : HT unit :=
  '(h, _) ← get_state;
  if hs_listener h then lift (Undef (ProcessExit "std::terminate"))
  else on_server (set_listener true).

Definition start_worker (i : nat) : HT unit :=
  '(h, _) ← get_state;
  match hs_workers h !! i with
  | Some false => on_server (set_workers (<[i := true]> (hs_workers h)))
  | Some true => lift (Undef (ProcessExit "std::terminate"))
  | None => lift (Undef OutOfBounds)
  end.

(** [inet_pton] and the address have no effect but on the call of [bind]. *)
Definition Start : HT unit :=
  '(h, _) ← get_state;
  check_call (k_setsockopt (hs_sock_fd h)) "Failed to set socket options (Prometheus Server)";;
  check_call (k_bind (hs_sock_fd h) (hs_port h)) "Failed to bind to socket (Prometheus Server)";;
  check_call (k_listen (hs_sock_fd h) kBacklogSize)
    ("Failed to listen on port (Prometheus Server)" +:+ pretty (hs_port h));;
  SetUpEpoll;;
  on_server (set_running true);;
  start_listener;;
  for_each start_worker (seq 0 kThreadPoolSize).

(** [join]: the loops end once [running_] is false. *)
Definition join_listener : HT unit :=
  '(h, _) ← get_state;
  if hs_listener h then on_server (set_listener false) else throw (runtime_error "Invalid argument").

Definition join_worker (i : nat) : HT unit :=
  '(h, _) ← get_state;
  match hs_workers h !! i with
  | Some true => on_server (set_workers (<[i := false]> (hs_workers h)))
  | Some false => throw (runtime_error "Invalid argument")
  | None => lift (Undef OutOfBounds)
  end.

Definition close_worker_epoll (i : nat) : HT unit :=
  '(h, _) ← get_state;
  match hs_epoll_fds h !! i with
  | Some fd => in_kernel (sys (k_close fd));; mret tt
  | None => lift (Undef OutOfBounds)
  end.

Definition Stop : HT unit :=
  on_server (set_running false);;
  join_listener;;
  for_each join_worker (seq 0 kThreadPoolSize);;
  for_each close_worker_epoll (seq 0 kThreadPoolSize);;
  '(h, _) ← get_state;
  in_kernel (sys (k_close (hs_sock_fd h)));;
  mret tt.

(** ** What the calls leave behind *)

Section facts.
Context {KS : KernelSpec K}.

(** Descriptors that did not exist: distinct, above those that were open. *)
Definition opened (k k' : K) (fds : list Z) : Prop :=
  NoDup fds ∧ Forall (λ fd, 0 ≤ fd ∧ fd ∉ k_open k) fds ∧ k_open k' = list_to_set fds ∪ k_open k.

Lemma opened_nil k k' : k_open k' = k_open k → opened k k' [].
Proof. intros Hk. split_and!; [by constructor|done|]. rewrite Hk. set_solver. Qed.

Lemma opened_cons k k1 k2 fd fds : 0 ≤ fd → fd ∉ k_open k → k_open k1 = {[fd]} ∪ k_open k →
  opened k1 k2 fds → opened k k2 (fd :: fds).
Proof.
  intros H0 Hfd H1 (Hnd & Hall & H2). rewrite H1 in Hall, H2. rewrite Forall_forall in Hall. split_and!.
  - constructor; [|done]. intros Hin. apply Hall in Hin. set_solver.
  - constructor; [done|]. rewrite Forall_forall. intros x Hx. apply Hall in Hx. set_solver.
  - rewrite H2. set_solver.
Qed.

Lemma check_call_cases call fd what h (k : K) : configures fd k (call k) →
  ∃ k', k_open k' = k_open k ∧
    ((check_call call what (h, k) = (Ok tt, (h, k')) ∧ fd ∈ k_open k) ∨
     check_call call what (h, k) = (Throw (runtime_error what), (h, k'))).
Proof.
  intros (Hr & [Hopen _] & Hbad). unfold check_call, in_kernel, zoom, sys, mbind, M_bind.
  cbn [fst snd]. destruct (call k) as [r k'] eqn:Hc. cbn [fst snd] in *. exists k'. split; [done|].
  destruct Hr as [-> | ->]; [left|by right]. split; [done|].
  destruct (decide (fd ∈ k_open k)) as [Hin|Hout]; [done|by specialize (Hbad Hout)].
Qed.

Lemma check_call_closed call fd what h (k : K) : configures fd k (call k) → fd ∉ k_open k →
  ∃ k', k_open k' = k_open k ∧ check_call call what (h, k) = (Throw (runtime_error what), (h, k')).
Proof.
  intros Hc Hout. destruct (check_call_cases call fd what h k Hc) as (k' & Hk & [[_ Hin]|Ht]); [done|by exists k'].
Qed.

Lemma create_epoll_cases i h (k : K) : ∃ fd k',
  (create_epoll i (h, k) = (Ok tt, (set_epoll_fds (<[i := fd]> (hs_epoll_fds h)) h, k')) ∧
     0 ≤ fd ∧ fd ∉ k_open k ∧ k_open k' = {[fd]} ∪ k_open k) ∨
  (create_epoll i (h, k) = (Throw (runtime_error
       "Failed to create epoll file descriptor for worker (Prometheus Server)"),
     (set_epoll_fds (<[i := fd]> (hs_epoll_fds h)) h, k')) ∧ k_open k' = k_open k).
Proof.
  pose proof (epoll_create_spec k) as Hc. unfold create_epoll, in_kernel, on_server, zoom, sys, mbind, M_bind.
  cbn [fst snd]. destruct (k_epoll_create k) as [fd k'] eqn:Hk. cbn [fst snd] in *. exists fd, k'.
  destruct Hc as [[Hf [Ho _]]|(H0 & Hn & _ & Ho & _)]; cbn [fst snd] in *.
  - right. subst fd. done.
  - left. destruct (Z.ltb_spec fd 0); [lia|]. done.
Qed.

Lemma insert_block {A} i n (x : A) fds l : (i + S n ≤ length l)%nat →
  take (S i) (<[i := x]> l) ++ fds ++ drop (S i + n) (<[i := x]> l) =
  take i l ++ (x :: fds) ++ drop (i + S n) l.
Proof.
  intros Hl. rewrite (take_S_r _ _ x) by (apply list_lookup_insert_eq; lia).
  rewrite take_insert_ge, drop_insert_lt, <- app_assoc by lia. cbn [app]. by rewrite Nat.add_succ_r.
Qed.

(** All the instances are created, or the exception leaves those before it. *)
Lemma create_epolls_cases n : ∀ i h (k : K), (i + n ≤ length (hs_epoll_fds h))%nat →
  ∃ fds rest k', opened k k' fds ∧
    ((for_each create_epoll (seq i n) (h, k) =
        (Ok tt, (set_epoll_fds (take i (hs_epoll_fds h) ++ fds ++ drop (i + n) (hs_epoll_fds h)) h, k')) ∧
      length fds = n) ∨
     (for_each create_epoll (seq i n) (h, k) = (Throw (runtime_error
        "Failed to create epoll file descriptor for worker (Prometheus Server)"),
        (set_epoll_fds rest h, k')) ∧ (length fds < n)%nat)).
Proof.
  induction n as [|n IH]; intros i h k Hl.
  { exists [], [], k. split; [by apply opened_nil|]. left. split; [|done]. cbn.
    rewrite Nat.add_0_r, take_drop. by destruct h. }
  cbn [seq for_each]. destruct (create_epoll_cases i h k) as (fd & k1 & [(He & H0 & Hfd & Hk1)|(He & Hk1)]).
  - set (h1 := set_epoll_fds _ h) in *.
    assert (hs_epoll_fds h1 = <[i := fd]> (hs_epoll_fds h)) as Hfds by done.
    destruct (IH (S i) h1 k1) as (fds & rest & k2 & Hop & Hcases); [rewrite Hfds, length_insert; lia|].
    exists (fd :: fds), rest, k2. split; [by eapply opened_cons|].
    destruct Hcases as [[Hrun Hlen]|[Hrun Hlen]]; [left|right].
    + split; [|cbn; lia]. erewrite M_bind_ok by exact He. rewrite Hrun, Hfds. unfold h1, set_epoll_fds. cbn.
      do 3 f_equal. by apply insert_block.
    + split; [|cbn; lia]. unfold mbind, M_bind. rewrite He, Hrun. done.
  - exists [], (<[i := fd]> (hs_epoll_fds h)), k1. split; [by apply opened_nil|]. right.
    split; [|cbn; lia]. unfold mbind, M_bind. by rewrite He.
Qed.

Lemma start_threads_ok h (k : K) : hs_listener h = false → hs_workers h = replicate kThreadPoolSize false →
  (start_listener;; for_each start_worker (seq 0 kThreadPoolSize)) (h, k) =
    (Ok tt, (set_workers (replicate kThreadPoolSize true) (set_listener true h), k)).
Proof. destruct h as [host port fd run j w l t]. cbn. by intros -> ->. Qed.

(** [Start] either starts all the threads on five new instances, or throws and
    starts none; what was created before the throw stays open. *)
Lemma start_cases h (k : K) : hs_listener h = false → hs_workers h = replicate kThreadPoolSize false →
  length (hs_epoll_fds h) = kThreadPoolSize →
  ∃ fds h' k', opened k k' fds ∧
    ((Start (h, k) = (Ok tt, (h', k')) ∧ hs_sock_fd h ∈ k_open k ∧ length fds = kThreadPoolSize ∧
      h' = MkHttp (hs_host h) (hs_port h) (hs_sock_fd h) true true (replicate kThreadPoolSize true) fds
             (hs_handlers h)) ∨
     (∃ what, Start (h, k) = (Throw (runtime_error what), (h', k')) ∧
      hs_running h' = hs_running h ∧ hs_listener h' = false ∧ hs_workers h' = hs_workers h ∧
      (length fds < kThreadPoolSize)%nat)).
Proof.
  intros Hj Hw Hl. unfold Start. erewrite M_bind_ok by reflexivity. cbv beta iota.
  edestruct (check_call_cases (k_setsockopt (hs_sock_fd h)) (hs_sock_fd h)) as (k1 & Hk1 & [[Hc Hin]|Hc]);
    [apply setsockopt_spec| |].
  2:{ exists [], h, k1. split; [by apply opened_nil|]. right. eexists. split_and!; [|done..|unfold kThreadPoolSize; cbn; lia].
      unfold mbind, M_bind. rewrite Hc. reflexivity. }
  erewrite M_bind_ok by exact Hc.
  edestruct (check_call_cases (k_bind (hs_sock_fd h) (hs_port h)) (hs_sock_fd h)) as (k2 & Hk2 & [[Hc2 _]|Hc2]);
    [apply bind_spec| |].
  2:{ exists [], h, k2. split; [apply opened_nil; rewrite ?Hk3, ?Hk2, ?Hk1; done|]. right. eexists. split_and!; [|done..|unfold kThreadPoolSize; cbn; lia].
      unfold mbind, M_bind. rewrite Hc2. reflexivity. }
  erewrite M_bind_ok by exact Hc2.
  edestruct (check_call_cases (k_listen (hs_sock_fd h) kBacklogSize) (hs_sock_fd h)) as (k3 & Hk3 & [[Hc3 _]|Hc3]);
    [apply listen_spec| |].
  2:{ exists [], h, k3. split; [apply opened_nil; rewrite ?Hk3, ?Hk2, ?Hk1; done|]. right. eexists. split_and!; [|done..|unfold kThreadPoolSize; cbn; lia].
      unfold mbind, M_bind. rewrite Hc3. reflexivity. }
  erewrite M_bind_ok by exact Hc3.
  destruct (create_epolls_cases kThreadPoolSize 0 h k3) as (fds & rest & k4 & Hop & Hcases); [by rewrite Hl|].
  assert (opened k k4 fds) as Hop'.
  { destruct Hop as (Hnd & Hall & Ho). rewrite Hk3, Hk2, Hk1 in *. done. }
  destruct Hcases as [[Hrun Hlen]|[Hrun Hlen]].
  - exists fds. eexists _, k4. split; [done|]. left. split_and!; [|done..]. unfold SetUpEpoll.
    erewrite M_bind_ok by exact Hrun. erewrite M_bind_ok by reflexivity. cbn [fst snd].
    rewrite start_threads_ok by done. unfold kThreadPoolSize in *.
    rewrite (drop_ge (hs_epoll_fds h)) by lia. cbn [take app]. rewrite app_nil_r. done.
  - exists fds, (set_epoll_fds rest h), k4. split; [done|]. right. eexists. split_and!; [|done..].
    unfold SetUpEpoll. by erewrite M_bind_throw by exact Hrun.
Qed.

Lemma close_ok fd (k : K) : fd ∈ k_open k → ∃ r k', sys (k_close fd) k = (Ok r, k') ∧
  k_open k' = k_open k ∖ {[fd]}.
Proof.
  intros Hin. unfold sys. pose proof (close_spec fd k) as [[Hn _]|(_ & Ho & _)]; [done|].
  destruct (k_close fd k) as [r k']. by exists r, k'.
Qed.

Lemma close_epolls_ok fds : ∀ i h (k : K), drop i (hs_epoll_fds h) = fds → NoDup fds →
  list_to_set fds ⊆ k_open k →
  ∃ k', for_each close_worker_epoll (seq i (length fds)) (h, k) = (Ok tt, (h, k')) ∧
    k_open k' = k_open k ∖ list_to_set fds.
Proof.
  induction fds as [|fd fds IH]; intros i h k Hd Hnd Hsub.
  { exists k. split; [done|]. set_solver. }
  apply NoDup_cons in Hnd as [Hn Hnd].
  assert (hs_epoll_fds h !! i = Some fd) as Hi.
  { by rewrite <- (Nat.add_0_r i), <- lookup_drop, Hd. }
  destruct (close_ok fd k) as (r & k1 & Hc & Hk1); [set_solver|].
  destruct (IH (S i) h k1) as (k2 & Hrun & Hk2).
  - by rewrite <- Nat.add_1_r, <- drop_drop, Hd.
  - done.
  - rewrite Hk1. set_solver.
  - exists k2. split; [|rewrite Hk2, Hk1; set_solver]. cbn [length seq for_each].
    erewrite M_bind_ok; [exact Hrun|]. unfold close_worker_epoll. erewrite M_bind_ok by reflexivity.
    cbv beta iota. rewrite Hi. unfold in_kernel, zoom, mbind, M_bind. cbn [snd]. by rewrite Hc.
Qed.

(** The descriptors a started server owns. *)
Definition own_descriptors (h : HttpServer) : gset Z := {[hs_sock_fd h]} ∪ list_to_set (hs_epoll_fds h).

Record started (h : HttpServer) : Prop := {
  st_running : hs_running h = true;
  st_listener : hs_listener h = true;
  st_workers : hs_workers h = replicate kThreadPoolSize true;
  st_count : length (hs_epoll_fds h) = kThreadPoolSize;
  st_distinct : NoDup (hs_sock_fd h :: hs_epoll_fds h)
}.

Lemma stop_ok h (k : K) : started h → own_descriptors h ⊆ k_open k →
  ∃ k', Stop (h, k) = (Ok tt, (set_workers (replicate kThreadPoolSize false) (set_listener false (set_running false h)), k')) ∧
    k_open k' = k_open k ∖ own_descriptors h.
Proof.
  intros [Hr Hj Hw Hl [Hn Hnd]%NoDup_cons] Hsub. unfold Stop, own_descriptors in *.
  set (h1 := set_workers _ _). assert (hs_epoll_fds h1 = hs_epoll_fds h) as Hfds by done.
  destruct (close_epolls_ok (hs_epoll_fds h) 0 h1 k) as (k1 & Hrun & Hk1); [done|done|set_solver|].
  destruct (close_ok (hs_sock_fd h) k1) as (r & k2 & Hc & Hk2); [rewrite Hk1; set_solver|].
  exists k2. split; [|rewrite Hk2, Hk1; set_solver].
  assert ((on_server (set_running false);; join_listener;; for_each join_worker (seq 0 kThreadPoolSize))
    (h, k) = (Ok tt, (h1, k))) as Hjoin.
  { destruct h as [host port fd run j w l t]. cbn in Hj, Hw |- *. subst. done. }
  rewrite Hl in Hrun. unfold mbind, M_bind in Hjoin |- *. unfold on_server, modify in *. cbn [fst snd] in *.
  destruct (join_listener _) as [[[]|e|u] s1]; [|done..].
  destruct (for_each join_worker _ s1) as [[[]|e|u] s2]; [|done..]. injection Hjoin as ->.
  rewrite Hrun. unfold get_state. cbn [fst snd]. change (hs_sock_fd h1) with (hs_sock_fd h).
  unfold in_kernel, zoom. cbn [snd]. by rewrite Hc.
Qed.

(** C17 (functional): the life of the endpoint.  The constructor opens one socket.
    [Start] either makes five epoll instances, of descriptors of their own, and
    runs the six threads, or throws with no thread started, leaving open what it
    had created.  [Stop] ends the threads and closes exactly the six descriptors
    of the server: what its connections opened meanwhile stays open.  A stopped
    server cannot be started again, because its socket is not made anew. *)
Theorem endpoint_life (host : string) (port : Z) (h : HttpServer) (k k1 : K) :
  HttpServer_new host port k = (Ok h, k1) →
  hs_port h = u16 port ∧ (∃ fd, hs_sock_fd h = fd ∧ opened k k1 [fd]) ∧
  ∃ fds h2 k2, opened k1 k2 fds ∧
    ((∃ what, Start (h, k1) = (Throw (runtime_error what), (h2, k2)) ∧
        hs_running h2 = false ∧ hs_listener h2 = false ∧ hs_workers h2 = replicate kThreadPoolSize false ∧
        (length fds < kThreadPoolSize)%nat) ∨
     (Start (h, k1) = (Ok tt, (h2, k2)) ∧ started h2 ∧ hs_epoll_fds h2 = fds ∧
      ∀ k3, k_open k2 ⊆ k_open k3 →
        ∃ h4 k4, Stop (h2, k3) = (Ok tt, (h4, k4)) ∧ hs_running h4 = false ∧
          k_open k4 = k_open k3 ∖ own_descriptors h2 ∧ size (own_descriptors h2) = 6%nat ∧
          ∃ k5, Start (h4, k4) =
            (Throw (runtime_error "Failed to set socket options (Prometheus Server)"), (h4, k5)))).
Proof.
  intros Hnew. unfold HttpServer_new, CreateSocket, sys, mbind, M_bind in Hnew.
  pose proof (socket_spec k) as Hs. destruct (k_socket k) as [fd k0]. cbn [fst snd] in *.
  destruct (Z.ltb_spec fd 0); [done|]. injection Hnew as Hh <-.
  destruct Hs as [[Hf _]|(_ & Hn & _ & Ho & _)]; [cbn in Hf; lia|]. cbn [fst snd] in *.
  split; [by subst h|]. split.
  { exists fd. split; [by subst h|]. eapply opened_cons; [done..|by apply opened_nil]. }
  destruct (start_cases h k0) as (fds & h2 & k2 & Hop & Hcases); [by subst h..|].
  exists fds, h2, k2. split; [done|].
  destruct Hcases as [(Hrun & Hin & Hlen & Hh2)|(what & Hrun & Hr & Hj & Hw & Hlen)].
  2:{ left. exists what. split_and!; try done; by rewrite ?Hr, ?Hw; subst h. }
  right. assert (hs_sock_fd h = fd) as Hfd by (by subst h).
  destruct Hop as (Hnd & Hall & Hk2). rewrite Forall_forall in Hall.
  assert (fd ∈ k_open k0) as Hfdin by (rewrite Ho; set_solver).
  assert (started h2) as Hst.
  { split; rewrite ?Hh2; cbn; try done. rewrite Hfd. constructor; [|done].
    intros Hx%Hall. destruct Hx as [_ Hx]. done. }
  split_and!; [done|done|by rewrite Hh2|]. intros k3 Hsub.
  destruct (stop_ok h2 k3 Hst) as (k4 & Hstop & Hk4).
  { unfold own_descriptors. rewrite Hh2. cbn. rewrite Hfd. set_solver. }
  eexists _, k4. split; [exact Hstop|]. split; [done|]. split; [exact Hk4|]. split.
  { unfold own_descriptors. destruct Hst as [_ _ _ Hc Hd].
    change ({[hs_sock_fd h2]} ∪ list_to_set (hs_epoll_fds h2) : gset Z) with
      (list_to_set (hs_sock_fd h2 :: hs_epoll_fds h2) : gset Z).
    rewrite size_list_to_set by done. cbn. by rewrite Hc. }
  set (h4 := set_workers _ _).
  destruct (check_call_closed (k_setsockopt (hs_sock_fd h4)) (hs_sock_fd h4)
    "Failed to set socket options (Prometheus Server)" h4 k4) as (k5 & _ & Hc).
  { apply setsockopt_spec. }
  { rewrite Hk4. unfold own_descriptors, h4. cbn. set_solver. }
  exists k5. unfold Start. erewrite M_bind_ok by reflexivity. cbv beta iota.
  by erewrite M_bind_throw by exact Hc.
Qed.
End facts.
End endpoint.

(** ** An example *)

Import MemKernel.

Definition boot : kernel := MkKernel (list_to_set [0; 1; 2]) ∅.

Definition example_http : HttpServer :=
  MkHttp "0.0.0.0" 4464 3 false false (replicate kThreadPoolSize false) (replicate kThreadPoolSize 0) ∅.

Lemma endpoint_life_witness :
  hs_port example_http = 4464 ∧
  ∃ fds h2 k2, opened (k_socket boot).2 k2 fds ∧ Start (example_http, (k_socket boot).2) = (Ok tt, (h2, k2)) ∧
    started h2 ∧
    ∃ h4 k4, Stop (h2, k2) = (Ok tt, (h4, k4)) ∧ k_open k4 = k_open k2 ∖ own_descriptors h2 ∧
      ∃ k5, Start (h4, k4) = (Throw (runtime_error "Failed to set socket options (Prometheus Server)"), (h4, k5)).
Proof.
  destruct (endpoint_life "0.0.0.0" 70000 example_http boot (k_socket boot).2) as (Hport & _ & fds & h2 & k2 & Hop & Hcases).
  - vm_compute. reflexivity.
  - split; [exact Hport|]. exists fds, h2, k2. split; [exact Hop|].
    destruct Hcases as [(what & Hrun & _)|(Hrun & Hst & _ & Hstop)].
    + exfalso. vm_compute in Hrun. discriminate.
    + split; [exact Hrun|]. split; [exact Hst|].
      destruct (Hstop k2) as (h4 & k4 & H1 & _ & H2 & _ & H3); [done|]. exists h4, k4. by split_and!.
Defined.
