(* ===== verification/Server.v ===== *)
(** * The server loop: [api::cql3::Server]

    Models [lib/api/cql3/server.cc]: the metrics registered with the endpoint,
    how the bytes of a [recv] are cut into requests, how each is answered, and
    what is handed to [send].  A call of [recv] is a step of the server on the bytes it
    returned; the sockets and the rounds of the loop are in [CqlServer]. *)

From Stdlib Require Import ZArith Lia Strings.Byte Ascii String.
From stdpp Require Import base list list_numbers strings gmap pretty.
From S2P Require Import Prelude Buffer OrdMap Data Catalog IndexPage Summary FileSystem Disk Sstable TableManager Database.
From S2P Require Import Text Lang Wire Dht MetaTables Metadata ServerMsg Http HttpServer.

Local Open Scope Z_scope.

(** ** Metrics *)

Definition newline : string := String LF "".

(** The metrics: what each [TYPE] line names, its kind, and the name the value
    is given under. *)
Definition metric_names : list (string * string * string) := [
  ("number_of_tables_created", "counter", "number_of_tables_created");
  ("number_of_insertions", "counter", "number_of_insertions");
  ("number_of_selections", "counter", "number_of_selections");
  ("time_of_insertion", "gauge", "time_of_insertion");
  ("time_of_selection", "gauge", "time_of_selection");
  ("number_of_deletetions", "counter", "number_of_deletions");
  ("time_of_deletion", "gauge", "time_of_deletion");
  ("number_of_exceptions", "counter", "number_of_exceptions")].

Definition metric_text (m : string * string * string) (value : Z) : string :=
  "# TYPE " +:+ m.1.1 +:+ " " +:+ m.1.2 +:+ newline +:+ m.2 +:+ " " +:+ pretty value +:+ newline.

Fixpoint metrics_text (names : list (string * string * string)) (met : list Z) : string :=
  match names, met with
  | m :: names, v :: met => metric_text m v +:+ metrics_text names met
  | _, _ => ""
  end.

(** The lambdas [Greetings] and [Greetings2]. *)
Definition text_handler (content : string) : HttpRequestHandler := λ _,
  Ok (response_content content (response_header "Content-Type" "text/plain" (HttpResponse_new Ok_))).

Definition register_greetings (h : Handlers) : outcome Handlers :=
  h ← RegisterHttpRequestHandler "/" HEAD (text_handler "GOTO /metrics") h;
  RegisterHttpRequestHandler "/" GET (text_handler "GOTO /metrics") h.

Definition register_metrics (met : list Z) (h : Handlers) : outcome Handlers :=
  let test := metrics_text metric_names met in
  h ← RegisterHttpRequestHandler "/metrics" HEAD (text_handler test) h;
  RegisterHttpRequestHandler "/metrics" GET (text_handler test) h.

(** The tables these registrations make: the second of each erases what the first
    one registered. *)
Definition greeting_table : Handlers := {["/" := {[GET := text_handler "GOTO /metrics"]}]}.
Definition with_metrics (met : list Z) (h : Handlers) : Handlers :=
  <["/metrics" := {[GET := text_handler (metrics_text metric_names met)]}]> h.

Lemma register_greetings_ok : register_greetings ∅ = Ok greeting_table.
Proof.
  unfold register_greetings. rewrite (register_eq "/" "/") by done. cbn [mbind outcome_bind].
  rewrite (register_eq "/" "/") by done. unfold Handlers. by rewrite insert_insert_eq.
Qed.

Lemma register_metrics_ok met h : register_metrics met h = Ok (with_metrics met h).
Proof.
  unfold register_metrics. rewrite (register_eq "/metrics" "/metrics") by done. cbn [mbind outcome_bind].
  rewrite (register_eq "/metrics" "/metrics") by done.
  unfold with_metrics, Handlers in *. by rewrite insert_insert_eq.
Qed.

Lemma with_metrics_again met met' h : with_metrics met' (with_metrics met h) = with_metrics met' h.
Proof. unfold with_metrics, Handlers in *. apply insert_insert_eq. Qed.

(** ** Requests in a buffer *)

Definition MAX_MESSAGE_LEN : Z := 2048.

(** [buffer\[i\]] *)
Definition at_ (l : chars) (i : Z) : outcome byte :=
  if bool_decide (0 ≤ i) then
    match l !! Z.to_nat i with Some b => Ok b | None => Undef OutOfBounds end
  else Undef OutOfBounds.

(** [buffer\[i\] == buffer\[0\] && buffer\[i+1\] == buffer\[1\]] *)
Definition is_start (buffer : chars) (i : Z) : outcome bool :=
  b ← at_ buffer i;
  b0 ← at_ buffer 0;
  if Byte.eqb b b0 then
    c ← at_ buffer (i + 1);
    c0 ← at_ buffer 1;
    Ok (Byte.eqb c c0)
  else Ok false.

(** The loop that fills [indeces]. *)
Fixpoint find_starts (buffer : chars) (js : list Z) : outcome (list Z) :=
  match js with
  | [] => Ok []
  | i :: js =>
      start ← is_start buffer i;
      rest ← find_starts buffer js;
      Ok (if (start : bool) then i :: rest else rest)
  end.

Definition indeces (buffer : chars) (bytes_received : Z) : outcome (list Z) :=
  starts ← find_starts buffer (seqZ 0 bytes_received);
  Ok (starts ++ [bytes_received - 1]).

(** ** Sending *)

(** [Header\[i\] == Header\[0\] && Header\[i+1\] == Header\[1\] && Header\[2\] == 255] *)
Definition starts_event (header : chars) (i : Z) : outcome bool :=
  start ← is_start header i;
  if (start : bool) then s ← at_ header 2; Ok (Byte.eqb s xff) else Ok false.

(** The body of the loop over the reply: [index] is where the last frame starts
    when the stream is 255, and [div], an array of 1000, gets that frame. *)
Definition div_step (header : chars) (i : Z) : M (Z * chars) unit :=
  here ← lift (starts_event header i);
  (if (here : bool) then modify (λ s, (i, s.2)) else mret tt);;
  '(index, _) ← get_state;
  if index =? 0 then mret tt
  else b ← lift (at_ header i);
       zoom snd (λ div s, (s.1, div)) (poke (i - index) (Z_of_byte b)).

(** What is given to [send], call by call. *)
Definition send_reply (garbage1000 header : chars) (bytes_sent : Z) : outcome (list chars) :=
  match for_each (div_step header) (seqZ 0 bytes_sent) (0, garbage1000) with
  | (Ok _, (index, div)) =>
      if index =? 0 then Ok [take (Z.to_nat bytes_sent) header]
      else Ok [take (Z.to_nat (index + 1)) header; take (Z.to_nat (bytes_sent - index)) div]
  | (Throw e, _) => Throw e
  | (Undef u, _) => Undef u
  end.

(** ** The server *)

Section server.
Context {F : Type} `{PosixFS F}.
Context (junk : Z → byte) (strtold : string → Z).
Context (parse_tree : string → option (list CqlContext)).
Context (config : Config).
Context {St : Type} (proj : St → StateStore * world F) (inj : StateStore * world F → St → St).
Context (rpc : string → string → M St (Z * string + string)).
(** The contents of local arrays, of fields that are not initialised, and a
    measured duration. *)
Context (garbage30000 garbage4096 garbage3500 garbage71680 garbage1000 : chars).
Context (frame_junk : Z * Z) (elapsed : Z).

(** The variables of the constructor that live through its loop. *)
Record ServerState := MkServer {
  sv_buffer : chars;             (* char[MAX_MESSAGE_LEN] *)
  sv_new_buffer : chars;         (* char[MAX_MESSAGE_LEN] *)
  sv_met : list Z;               (* int[8] *)
  sv_db : Database;
  sv_net : St;
  sv_sent : list chars           (* what was given to send *)
}.

Abbreviation respond := (CreateResponse junk strtold parse_tree config proj inj rpc
  garbage30000 garbage4096 garbage3500 elapsed).

Definition in_new_buffer {A} : M chars A → M ServerState A :=
  zoom sv_new_buffer (λ b s, MkServer (sv_buffer s) b (sv_met s) (sv_db s) (sv_net s) (sv_sent s)).

(** [ServerMsg m(f); m.CreateResponse(db, met)]: the reply in its [Header]. *)
Definition create_response (f : Frame) : M ServerState (Z * chars) := λ s,
  let '(o, r) := respond f (MkResponse "" garbage71680 0 (sv_met s) [] (sv_db s) (sv_net s)) in
  (bytes_sent ← o; Ok (bytes_sent, rs_header r),
   MkServer (sv_buffer s) (sv_new_buffer s) (rs_met r) (rs_db r) (rs_net r) (sv_sent s)).

(** Answering the request of [size] bytes in [new_buffer].  [query] of the
    server is never set, so that [count] and [flag] stay zero. *)
Definition answer_frame (size : Z) : M ServerState unit :=
  s ← get_state;
  f ← lift (Frame_parse (Frame_new frame_junk (sv_new_buffer s) size));
  '(bytes_sent, header) ← create_response f;
  calls ← lift (send_reply garbage1000 header bytes_sent);
  modify (λ s, MkServer (sv_buffer s) (sv_new_buffer s) (sv_met s) (sv_db s) (sv_net s)
                 (sv_sent s ++ calls)).

(** The body of the loop over the requests. *)
Definition answer_request (start stop : Z) : M ServerState unit :=
  s ← get_state;
  in_new_buffer (for_each (λ j, b ← lift (at_ (sv_buffer s) j); poke (j - start) (Z_of_byte b))
    (seqZ start (stop - start)));;
  answer_frame (stop - start).

Fixpoint answer_requests (idx : list Z) : M ServerState unit :=
  match idx with
  | start :: (stop :: _) as rest => answer_request start stop;; answer_requests rest
  | _ => mret tt
  end.

(** One [recv]: [bytes] were put at the start of [buffer]; none means that the
    peer closed or an error, and the metadata are written. *)
Definition on_receive (bytes : chars) : M ServerState unit :=
  match bytes with
  | [] => λ s,
      let '(o, (db, w)) := flush_metadata (sv_db s, (proj (sv_net s)).2) in
      (o, MkServer (sv_buffer s) (sv_new_buffer s) (sv_met s) db
            (inj ((proj (sv_net s)).1, w) (sv_net s)) (sv_sent s))
  | _ =>
      modify (λ s, MkServer (overwrite 0 bytes (sv_buffer s)) (sv_new_buffer s) (sv_met s) (sv_db s)
                     (sv_net s) (sv_sent s));;
      s ← get_state;
      idx ← lift (indeces (sv_buffer s) (zlen bytes));
      answer_requests idx
  end.

(** *** Requests cut from what was received *)

(** Answering a request from its bytes. *)
Definition answer_bytes (bs : chars) : M ServerState unit :=
  in_new_buffer (modify (overwrite 0 bs));; answer_frame (zlen bs).

Lemma answer_frame_keeps n s s' : answer_frame n s = (Ok tt, s') →
  sv_buffer s' = sv_buffer s ∧ sv_new_buffer s' = sv_new_buffer s.
Proof.
  unfold answer_frame. intros Ha. erewrite M_bind_ok in Ha by reflexivity.
  apply M_bind_ok_inv in Ha as (f & s1 & Hf & Ha). unfold lift in Hf. simplify_eq.
  apply M_bind_ok_inv in Ha as ([n' header] & s2 & Hc & Ha). unfold create_response in Hc.
  destruct (respond f _) as [o r]. injection Hc as _ <-.
  apply M_bind_ok_inv in Ha as (calls & s3 & Hl & Ha). unfold lift in Hl. simplify_eq.
  unfold modify in Ha. by simplify_eq.
Qed.

Lemma at_lookup (l : chars) i b : 0 ≤ i → l !! Z.to_nat i = Some b → at_ l i = Ok b.
Proof. intros Hi Hb. unfold at_. by rewrite bool_decide_true, Hb. Qed.

Lemma answer_request_bytes start bs s : 0 ≤ start → zlen bs ≤ zlen (sv_new_buffer s) →
  (∀ k b, bs !! k = Some b → sv_buffer s !! (Z.to_nat start + k)%nat = Some b) →
  answer_request start (start + zlen bs) s = answer_bytes bs s.
Proof.
  intros H0 Hl Hbs. unfold answer_request, answer_bytes. erewrite M_bind_ok by reflexivity.
  replace (start + zlen bs - start) with (zlen bs) by lia.
  assert (for_each (λ j, b ← lift (at_ (sv_buffer s) j); poke (j - start) (Z_of_byte b))
    (seqZ start (zlen bs)) (sv_new_buffer s) = (Ok tt, overwrite 0 bs (sv_new_buffer s))) as Hcopy.
  { replace (seqZ start (zlen bs)) with (Z.add start <$> seqZ 0 (zlen bs))
      by (rewrite fmap_add_seqZ; f_equal; lia).
    rewrite for_each_fmap. apply (for_each_overwrite _ 0); [done|lia|]. intros k b Hb l'.
    rewrite Z.add_0_l. erewrite M_bind_ok.
    2:{ unfold lift. rewrite (at_lookup _ _ b); [reflexivity|lia|].
        rewrite <- (Hbs k b Hb). f_equal. lia. }
    replace (start + Z.of_nat k - start) with (Z.of_nat k) by lia. apply lookup_lt_Some in Hb.
    rewrite poke_ok.
    - rewrite Nat2Z.id, byte_of_Z_of_byte. done.
    - unfold l', zlen in *. rewrite length_overwrite; rewrite ?length_take; lia. }
  unfold in_new_buffer. erewrite M_bind_ok by (unfold zoom; rewrite Hcopy; reflexivity).
  erewrite (M_bind_ok (zoom _ _ (modify _))) by reflexivity. reflexivity.
Qed.
(** *** The arrays keep their lengths *)

Definition sizes (s : ServerState) : nat * nat := (length (sv_buffer s), length (sv_new_buffer s)).

Definition keeps_sizes {A} (m : M ServerState A) : Prop := ∀ s, sizes (m s).2 = sizes s.

Lemma sizes_bind {A B} (m : M ServerState A) (f : A → M ServerState B) :
  keeps_sizes m → (∀ a, keeps_sizes (f a)) → keeps_sizes (m ≫= f).
Proof.
  intros Hm Hf s. unfold mbind, M_bind. specialize (Hm s).
  destruct (m s) as [[a|e|u] s1]; cbn [snd] in *; [by rewrite Hf|done..].
Qed.

Lemma sizes_copy (buffer : chars) start js :
  keeps_sizes (in_new_buffer (for_each (λ j, b ← lift (at_ buffer j); poke (j - start) (Z_of_byte b)) js)).
Proof.
  intros s. unfold in_new_buffer, zoom.
  assert (∀ l, length (for_each (λ j, b ← lift (at_ buffer j); poke (j - start) (Z_of_byte b)) js l).2 = length l)
    as Hl.
  { induction js as [|j js IH]; intros l; [done|]. cbn [for_each]. unfold mbind, M_bind, lift, poke.
    destruct (at_ buffer j) as [b|e|u]; cbn [snd]; [|done..].
    case_bool_decide; cbn [snd]; [|done]. unfold mbind, M_bind, lift, poke in IH.
    rewrite IH. apply length_insert. }
  specialize (Hl (sv_new_buffer s)). destruct (for_each _ _ _) as [o l]. cbn in *. unfold sizes. cbn. by rewrite Hl.
Qed.

Lemma sizes_answer n : keeps_sizes (answer_frame n).
Proof.
  apply sizes_bind; [done|]. intros s0. apply sizes_bind; [done|]. intros f.
  apply sizes_bind; [|intros [k header]; by apply sizes_bind].
  intros s. unfold create_response. by destruct (respond f _) as [o r].
Qed.

Lemma sizes_requests idx : keeps_sizes (answer_requests idx).
Proof.
  induction idx as [|start [|stop idx] IH]; [done..|]. cbn [answer_requests].
  apply sizes_bind; [|done]. apply sizes_bind; [done|]. intros s.
  apply sizes_bind; [apply sizes_copy|intros []; apply sizes_answer].
Qed.

Lemma receive_sizes bytes s : zlen bytes ≤ zlen (sv_buffer s) → sizes (on_receive bytes s).2 = sizes s.
Proof.
  intros Hl. destruct bytes as [|b bytes]; cbn [on_receive].
  - by destruct (flush_metadata _) as [o [db w]].
  - erewrite M_bind_ok by reflexivity. erewrite M_bind_ok by reflexivity.
    set (s1 := MkServer _ _ _ _ _ _). assert (sizes s1 = sizes s) as <-.
    { unfold sizes, s1. cbn [sv_buffer sv_new_buffer]. rewrite length_overwrite; [done|].
      unfold zlen in Hl. lia. }
    refine (sizes_bind _ _ _ _ s1); [done|]. apply sizes_requests.
Qed.
End server.

(** A received text as frames: each starts with the first two bytes received,
    and these are found side by side nowhere else. *)
Fixpoint framed_at (buffer : chars) (off : Z) (fs : list chars) : Prop :=
  match fs with
  | [] => True
  | f :: fs =>
      f ≠ [] ∧ is_start buffer off = Ok true ∧
      (∀ j, off < j < off + zlen f → is_start buffer j = Ok false) ∧
      framed_at buffer (off + zlen f) fs
  end.

Fixpoint offsets (off : Z) (fs : list chars) : list Z :=
  match fs with
  | [] => []
  | f :: fs => off :: offsets (off + zlen f) fs
  end.

(** All the frames, the last one without its last byte. *)
Fixpoint clipped (fs : list chars) : list chars :=
  match fs with
  | [] => []
  | [f] => [take (length f - 1) f]
  | f :: fs => f :: clipped fs
  end.

Lemma find_starts_app buffer l k a b : find_starts buffer l = Ok a → find_starts buffer k = Ok b →
  find_starts buffer (l ++ k) = Ok (a ++ b).
Proof.
  intros Hl Hk. revert a Hl. induction l as [|i l IH]; intros a Hl; [by simplify_eq/=|].
  cbn [app find_starts] in *. destruct (is_start buffer i) as [st|e|u]; [|done..]. cbn in *.
  destruct (find_starts buffer l) as [rest|e|u]; [|done..]. cbn in *. rewrite (IH _ eq_refl). cbn.
  injection Hl as <-. by destruct st.
Qed.

Lemma find_starts_none buffer l : (∀ j, j ∈ l → is_start buffer j = Ok false) →
  find_starts buffer l = Ok [].
Proof.
  induction l as [|i l IH]; intros Hl; [done|]. cbn. rewrite Hl by left. cbn.
  rewrite IH; [done|]. intros j Hj. apply Hl. by right.
Qed.

Lemma framed_nonempty buffer fs : ∀ off, framed_at buffer off fs → Forall (λ f, f ≠ []) fs.
Proof.
  induction fs as [|f fs IH]; intros off; [done|]. intros (Hf & _ & _ & Hr). constructor; [done|].
  by eapply IH.
Qed.

Lemma find_starts_framed buffer fs : ∀ off, framed_at buffer off fs →
  find_starts buffer (seqZ off (zlen (concat fs))) = Ok (offsets off fs).
Proof.
  induction fs as [|f fs IH]; intros off; [done|]. cbn [framed_at concat offsets].
  intros (Hne & Hs & Hn & Hfs). rewrite zlen_app, seqZ_app by apply zlen_nonneg.
  assert (0 < zlen f) as Hpos by (destruct f; [done|]; unfold zlen; cbn; lia).
  rewrite seqZ_cons by done. cbn [app find_starts]. rewrite Hs. cbn [mbind outcome_bind].
  rewrite (find_starts_app _ _ _ [] (offsets (off + zlen f) fs)); [done| |by apply IH].
  apply find_starts_none. intros j [Hj1 Hj2]%elem_of_seqZ. apply Hn. lia.
Qed.

Section cutting.
Context {F : Type} `{PosixFS F}.
Context (junk : Z → byte) (strtold : string → Z).
Context (parse_tree : string → option (list CqlContext)).
Context (config : Config).
Context {St : Type} (proj : St → StateStore * world F) (inj : StateStore * world F → St → St).
Context (rpc : string → string → M St (Z * string + string)).
Context (garbage30000 garbage4096 garbage3500 garbage71680 garbage1000 : chars).
Context (frame_junk : Z * Z) (elapsed : Z).

Abbreviation one_request := (answer_request junk strtold parse_tree config proj inj rpc garbage30000
  garbage4096 garbage3500 garbage71680 garbage1000 frame_junk elapsed).
Abbreviation requests := (answer_requests junk strtold parse_tree config proj inj rpc garbage30000
  garbage4096 garbage3500 garbage71680 garbage1000 frame_junk elapsed).
Abbreviation one_frame := (answer_bytes junk strtold parse_tree config proj inj rpc garbage30000
  garbage4096 garbage3500 garbage71680 garbage1000 frame_junk elapsed).
Abbreviation receive := (on_receive junk strtold parse_tree config proj inj rpc garbage30000
  garbage4096 garbage3500 garbage71680 garbage1000 frame_junk elapsed).
Implicit Types (s : ServerState (St := St)).

Lemma one_frame_keeps bs s s' : one_frame bs s = (Ok tt, s') →
  sv_buffer s' = sv_buffer s ∧ sv_new_buffer s' = overwrite 0 bs (sv_new_buffer s).
Proof.
  unfold answer_bytes. intros Ha. erewrite M_bind_ok in Ha by reflexivity.
  by apply answer_frame_keeps in Ha.
Qed.

Lemma requests_offsets fs : ∀ off s, fs ≠ [] → Forall (λ f, f ≠ []) fs → 0 ≤ off →
  (∀ k b, concat fs !! k = Some b → sv_buffer s !! (Z.to_nat off + k)%nat = Some b) →
  zlen (concat fs) ≤ zlen (sv_new_buffer s) →
  requests (offsets off fs ++ [off + zlen (concat fs) - 1]) s = for_each one_frame (clipped fs) s.
Proof.
  induction fs as [|f fs IH]; [done|]. intros off s _ [Hf Hfs]%Forall_cons H0 Hb Hl.
  assert (0 < zlen f) as Hpos by (destruct f; [done|]; unfold zlen; cbn; lia).
  cbn [concat] in *. rewrite zlen_app in *. destruct fs as [|f2 fs].
  - assert (zlen (concat ([] : list chars)) = 0) as Hnil by done. rewrite Hnil in *.
    change (requests (offsets off [f] ++ [off + (zlen f + 0) - 1])) with
      (one_request off (off + (zlen f + 0) - 1);; mret tt).
    change (for_each one_frame (clipped [f])) with (one_frame (take (length f - 1) f);; mret tt).
    assert (zlen (take (length f - 1) f) = zlen f - 1) as Hz
      by (unfold zlen in *; rewrite length_take; lia).
    replace (off + (zlen f + 0) - 1) with (off + zlen (take (length f - 1) f)) by lia.
    unfold mbind, M_bind. rewrite answer_request_bytes; [done|done|lia|].
    intros k b Hk. apply Hb. rewrite app_nil_r. by apply lookup_take_Some in Hk as [Hk _].
  - set (rest := f2 :: fs) in *. pose proof (zlen_nonneg (concat rest)).
    change (requests (offsets off (f :: rest) ++ [off + (zlen f + zlen (concat rest)) - 1])) with
      (one_request off (off + zlen f);;
       requests (offsets (off + zlen f) rest ++ [off + (zlen f + zlen (concat rest)) - 1])).
    change (for_each one_frame (clipped (f :: rest))) with
      (one_frame f;; for_each one_frame (clipped rest)).
    unfold mbind, M_bind. rewrite answer_request_bytes; [|done|lia|].
    2:{ intros k b Hk. apply Hb. by apply lookup_app_l_Some. }
    destruct (one_frame f s) as [[[]|e|u] s'] eqn:Ha; [|done..].
    apply one_frame_keeps in Ha as [Hbuf Hnew].
    replace (off + (zlen f + zlen (concat rest)) - 1) with (off + zlen f + zlen (concat rest) - 1) by lia.
    apply IH; [done|done|lia| |].
    + intros k b Hk. rewrite Hbuf. specialize (Hb (length f + k)%nat b).
      rewrite lookup_app_r in Hb by lia. replace (length f + k - length f)%nat with k in Hb by lia.
      rewrite <- (Hb Hk). f_equal. unfold zlen. lia.
    + rewrite Hnew. unfold zlen in *. rewrite length_overwrite by lia. lia.
Qed.

Lemma receive_cut (fs : list chars) (s : ServerState (St := St)) :
  let received := concat fs in
  let buffer := overwrite 0 received (sv_buffer s) in
  fs ≠ [] → framed_at buffer 0 fs →
  zlen received ≤ zlen (sv_buffer s) → zlen received ≤ zlen (sv_new_buffer s) →
  receive received s =
    for_each one_frame (clipped fs)
      (MkServer buffer (sv_new_buffer s) (sv_met s) (sv_db s) (sv_net s) (sv_sent s)).
Proof.
  intros received buffer Hne Hfr Hb Hn.
  pose proof (framed_nonempty buffer fs 0 Hfr) as Hfs.
  assert (received ≠ []) as Hrec.
  { destruct fs as [|f fs]; [done|]. apply Forall_cons in Hfs as [Hf _]. by destruct f. }
  assert (receive received s = (idx ← lift (indeces buffer (zlen received)); requests idx)
    (MkServer buffer (sv_new_buffer s) (sv_met s) (sv_db s) (sv_net s) (sv_sent s))) as ->
    by (by destruct received).
  assert (indeces buffer (zlen received) = Ok (offsets 0 fs ++ [zlen received - 1])) as Hidx.
  { unfold indeces. unfold received. by rewrite (find_starts_framed buffer fs 0 Hfr). }
  erewrite M_bind_ok by (unfold lift; rewrite Hidx; reflexivity).
  rewrite <- (Z.add_0_l (zlen received)). apply requests_offsets; try done.
  cbn. intros k b Hk. unfold buffer, overwrite. rewrite take_0. cbn [app]. by apply lookup_app_l_Some.
Qed.

(** C13 (refinement): the requests of one [recv] are its frames.  When the first
    two bytes received are side by side only where a frame starts, the server
    does what it would do on each frame alone, in order, except that the last
    one has lost its last byte. *)
Theorem requests_cut (fs : list chars) (s : ServerState (St := St)) :
  let received := concat fs in
  let buffer := overwrite 0 received (sv_buffer s) in
  fs ≠ [] → framed_at buffer 0 fs →
  zlen received ≤ zlen (sv_buffer s) → zlen received ≤ zlen (sv_new_buffer s) →
  receive received s =
    for_each one_frame (clipped fs)
      (MkServer buffer (sv_new_buffer s) (sv_met s) (sv_db s) (sv_net s) (sv_sent s)).
Proof. apply receive_cut. Qed.
End cutting.

(** ** What is sent of a reply *)

Lemma at_ok (l : chars) i : 0 ≤ i < zlen l → ∃ b, l !! Z.to_nat i = Some b ∧ at_ l i = Ok b.
Proof.
  intros Hi. destruct (lookup_lt_is_Some_2 l (Z.to_nat i)) as [b Hb]; [unfold zlen in Hi; lia|].
  exists b. split; [done|]. apply at_lookup; [lia|done].
Qed.

Lemma is_start_ok l i : 0 ≤ i → i + 1 < zlen l → ∃ b, is_start l i = Ok b.
Proof.
  intros Hi Hl. unfold is_start. destruct (at_ok l i ltac:(lia)) as (b & _ & ->).
  destruct (at_ok l 0 ltac:(lia)) as (b0 & _ & ->). cbn. destruct (Byte.eqb b b0); [|by eexists].
  destruct (at_ok l (i + 1) ltac:(lia)) as (c & _ & ->).
  destruct (at_ok l 1 ltac:(lia)) as (c0 & _ & ->). by eexists.
Qed.

Lemma for_each_app {S A} (f : A → M S unit) l k s :
  for_each f (l ++ k) s = (for_each f l;; for_each f k) s.
Proof.
  revert s. induction l as [|x l IH]; intros s; [done|]. cbn [app for_each]. rewrite M_bind_assoc.
  unfold mbind, M_bind. destruct (f x s) as [[]]; [|done..]. apply IH.
Qed.

(** Rounds that find no start change nothing before the first is found. *)
Lemma div_idle header js div : (∀ i, i ∈ js → starts_event header i = Ok (bool_decide (i = 0))
    ∨ starts_event header i = Ok false) →
  for_each (div_step header) js (0, div) = (Ok tt, (0, div)).
Proof.
  induction js as [|i js IH]; intros His; [done|]. cbn [for_each].
  assert (div_step header i (0, div) = (Ok tt, (0, div))) as Hstep.
  { unfold div_step. destruct (His i ltac:(left)) as [-> | ->]; [|done].
    by case_bool_decide; subst. }
  erewrite M_bind_ok by exact Hstep. apply IH. intros j Hj. apply His. by right.
Qed.

Lemma is_start_0 l : 2 ≤ zlen l → is_start l 0 = Ok true.
Proof.
  intros Hl. unfold is_start. destruct (at_ok l 0 ltac:(lia)) as (b & _ & Hb).
  destruct (at_ok l 1 ltac:(lia)) as (c & _ & Hc). rewrite Hb. cbn [mbind outcome_bind].
  rewrite (Byte.byte_dec_lb eq_refl). change (0 + 1) with 1. rewrite Hc. cbn [mbind outcome_bind].
  by rewrite (Byte.byte_dec_lb eq_refl).
Qed.

(** The round that finds the start. *)
Lemma div_first (event tail : chars) b garbage : let header := event ++ b :: tail in
  0 < zlen event → 0 < zlen garbage → starts_event header (zlen event) = Ok true →
  div_step header (zlen event) (0, garbage) = (Ok tt, (zlen event, overwrite 0 [b] garbage)).
Proof.
  intros header He Hg Hst. unfold div_step. rewrite Hst. erewrite M_bind_ok by reflexivity.
  erewrite M_bind_ok by reflexivity. erewrite M_bind_ok by reflexivity. cbv beta iota.
  destruct (Z.eqb_spec (zlen event) 0); [lia|].
  erewrite M_bind_ok. 2:{ unfold lift. rewrite (at_lookup _ _ b); [reflexivity|lia|].
    unfold header, zlen. rewrite Nat2Z.id. by apply list_lookup_middle. }
  unfold zoom. cbn [snd fst]. rewrite Z.sub_diag, poke_ok by lia. rewrite byte_of_Z_of_byte.
  destruct garbage; [done|]. reflexivity.
Qed.

Lemma div_fill header (f : chars) at0 div : 0 < at0 → at0 + zlen f < zlen header → zlen f ≤ zlen div →
  (∀ k b, f !! k = Some b → header !! (Z.to_nat at0 + k)%nat = Some b) →
  (∀ i, at0 < i < at0 + zlen f → starts_event header i = Ok false) →
  ∀ n k, (1 ≤ k)%nat → (k + n = length f)%nat →
  for_each (div_step header) (seqZ (at0 + Z.of_nat k) (Z.of_nat n)) (at0, overwrite 0 (take k f) div) =
    (Ok tt, (at0, overwrite 0 f div)).
Proof.
  intros H0 Hl Hd Hf Hno. induction n as [|n IH]; intros k Hk Hkn; [cbn; by rewrite take_ge by lia|].
  rewrite seqZ_cons by lia. cbn [for_each]. destruct (lookup_lt_is_Some_2 f k ltac:(lia)) as [b Hb].
  unfold zlen in *. assert (length (overwrite 0 (take k f) div) = length div) as Hlen
    by (apply length_overwrite; rewrite length_take; lia).
  assert (div_step header (at0 + Z.of_nat k) (at0, overwrite 0 (take k f) div) =
    (Ok tt, (at0, overwrite 0 (take (S k) f) div))) as Hstep.
  { unfold div_step. rewrite Hno by lia. erewrite M_bind_ok by reflexivity. erewrite M_bind_ok by reflexivity.
    erewrite M_bind_ok by reflexivity. cbv beta iota. destruct (Z.eqb_spec at0 0); [lia|].
    erewrite M_bind_ok. 2:{ unfold lift. rewrite (at_lookup _ _ b); [reflexivity|lia|].
      rewrite <- (Hf k b Hb). f_equal. lia. }
    unfold zoom. cbn [snd fst]. replace (at0 + Z.of_nat k - at0) with (Z.of_nat k) by lia.
    rewrite poke_ok by (unfold zlen; lia). rewrite Nat2Z.id, byte_of_Z_of_byte.
    rewrite (take_S_r _ _ b) by done. do 2 f_equal.
    pose proof (overwrite_snoc 0 (take k f) b div) as Hov. rewrite length_take, Nat.min_l in Hov by lia.
    apply Hov. lia. }
  erewrite M_bind_ok by exact Hstep.
  replace (Z.succ (at0 + Z.of_nat k)) with (at0 + Z.of_nat (S k)) by lia.
  replace (Z.pred (Z.of_nat (S n))) with (Z.of_nat n) by lia. apply IH; lia.
Qed.

Lemma send_plain garbage header n : 0 ≤ n → n < zlen header → 3 ≤ zlen header →
  header !! 2%nat ≠ Some xff → send_reply garbage header n = Ok [take (Z.to_nat n) header].
Proof.
  intros H0 Hn H3 Hs. unfold send_reply. rewrite div_idle; [done|].
  intros i [Hi1 Hi2]%elem_of_seqZ. right. unfold starts_event.
  destruct (is_start_ok header i ltac:(lia) ltac:(lia)) as [[|] ->]; [|done]. cbn.
  destruct (at_ok header 2 ltac:(lia)) as (b & Hb & ->). cbn. destruct (Byte.eqb b xff) eqn:He; [|done].
  apply Byte.byte_dec_bl in He as ->. change (Z.to_nat 2) with 2%nat in Hb. done.
Qed.

(** What is handed to [send].  A reply whose stream does not
    start with the byte 255 goes out as it is, in one call.  An event followed
    by a result goes out in two: the event with the first byte of the result
    after it, and then the result. *)
Theorem reply_sent (garbage event result rest : chars) :
  let header := event ++ result ++ rest in
  let n := zlen event + zlen result in
  3 ≤ zlen event → result ≠ [] → rest ≠ [] → zlen result ≤ zlen garbage →
  (header !! 2%nat ≠ Some xff → send_reply garbage header n = Ok [event ++ result]) ∧
  (header !! 2%nat = Some xff → is_start header (zlen event) = Ok true →
   (∀ i, 0 < i < n → i ≠ zlen event → is_start header i = Ok false) →
   send_reply garbage header n = Ok [event ++ take 1 result; result]).
Proof.
  intros header n He Hr Hrest Hg.
  assert (zlen header = n + zlen rest) as Hlen by (unfold header, n; rewrite !zlen_app; lia).
  assert (0 < zlen result) as Hrp by (destruct result; [done|]; unfold zlen; cbn; lia).
  assert (0 < zlen rest) as Hrp' by (destruct rest; [done|]; unfold zlen; cbn; lia).
  split.
  - intros H2. rewrite send_plain by (try done; lia). do 2 f_equal. unfold header, n, zlen.
    rewrite app_assoc. apply take_app_length'. rewrite length_app. lia.
  - intros H2 Hst Hno. unfold send_reply, n. rewrite seqZ_app by lia.
    assert (∀ i, 0 ≤ i < n → starts_event header i = is_start header i) as Hev.
    { intros i Hi. unfold starts_event. destruct (is_start_ok header i ltac:(lia) ltac:(lia)) as [[|] ->]; [|done].
      cbn. by rewrite (at_lookup header 2 xff). }
    assert (for_each (div_step header) (seqZ 0 (zlen event) ++ seqZ (0 + zlen event) (zlen result)) (0, garbage)
      = (Ok tt, (zlen event, overwrite 0 result garbage))) as ->.
    { rewrite for_each_app. erewrite M_bind_ok.
      2:{ apply div_idle. intros i [Hi1 Hi2]%elem_of_seqZ. rewrite Hev by lia.
          destruct (decide (i = 0)) as [->|Hi]; [|right; apply Hno; lia]. left.
          rewrite bool_decide_true by done. apply is_start_0. lia. }
      rewrite Z.add_0_l, seqZ_cons by lia. cbn [for_each]. destruct result as [|b result]; [done|].
      erewrite M_bind_ok by (apply (div_first event (result ++ rest)); [lia..|];
        exact (eq_trans (Hev (zlen event) ltac:(lia)) Hst)).
      replace (Z.succ (zlen event)) with (zlen event + Z.of_nat 1) by lia.
      replace (Z.pred (zlen (b :: result))) with (Z.of_nat (length result)) by (unfold zlen; cbn; lia).
      change [b] with (take 1 (b :: result)). apply div_fill; try lia; try done.
      - intros k c Hk. unfold header, zlen. rewrite Nat2Z.id, lookup_app_r by lia.
        replace (length event + k - length event)%nat with k by lia. by apply lookup_app_l_Some.
      - intros i Hi. rewrite Hev by lia. apply Hno; lia. }
    destruct (Z.eqb_spec (zlen event) 0); [lia|]. unfold header, overwrite, zlen. do 2 f_equal.
    + replace (Z.to_nat (Z.of_nat (length event) + 1)) with (length event + 1)%nat by lia.
      rewrite take_app_add. f_equal. destruct result; done.
    + f_equal. rewrite take_0. cbn [app]. apply take_app_length'. lia.
Qed.

(** ** Metrics as they are served *)

Lemma metric_text_length m v : in_s 32 v →
  slen (metric_text m v) ≤ slen m.1.1 + slen m.1.2 + slen m.2 + 22.
Proof.
  intros Hv. pose proof (pretty_length_s32 v Hv). unfold metric_text. rewrite !slen_app.
  change (slen "# TYPE ") with 7. change (slen " ") with 1. change (slen newline) with 1. lia.
Qed.

Lemma metrics_text_length names met : Forall (in_s 32) met →
  slen (metrics_text names met) ≤ foldr (λ m n, slen m.1.1 + slen m.1.2 + slen m.2 + 22 + n) 0 names.
Proof.
  intros Hm. revert names. induction Hm as [|v met Hv _ IH]; intros [|m names]; cbn [metrics_text foldr].
  - done.
  - assert (∀ ns : list (string * string * string),
      0 ≤ foldr (λ m n, slen m.1.1 + slen m.1.2 + slen m.2 + 22 + n) 0 ns) as Hpos.
    { induction ns as [|m' ns IHn]; [done|]. cbn [foldr]. pose proof (slen_nonneg m'.1.1).
      pose proof (slen_nonneg m'.1.2). pose proof (slen_nonneg m'.2). lia. }
    apply (Hpos (m :: names)).
  - done.
  - rewrite slen_app. pose proof (metric_text_length m v Hv). specialize (IH names). lia.
Qed.

(** The response of a text handler, printed. *)
Lemma text_response content b :
  response_to_string (response_content content (response_header "Content-Type" "text/plain" (HttpResponse_new Ok_))) b =
  "HTTP/1.1 200 OK" +:+ crlf +:+ "Content-Length: " +:+ pretty (slen content) +:+ crlf
    +:+ "Content-Type: text/plain" +:+ crlf +:+ crlf +:+ (if b then content else "").
Proof.
  unfold response_to_string. cbn [response_content response_header rp_message rp_status_code].
  unfold SetContent, SetContentLength, SetHeader. cbn [hm_version hm_headers hm_content].
  change (hm_headers (rp_message (HttpResponse_new Ok_))) with (@nil (string * string)).
  change (str_map_set "Content-Type" "text/plain" []) with [("Content-Type", "text/plain")].
  change (str_map_set "Content-Length" (pretty (slen content)) [("Content-Type", "text/plain")]) with
    [("Content-Length", pretty (slen content)); ("Content-Type", "text/plain")].
  cbn [headers_to_string]. rewrite str_app_nil_r, !str_app_assoc. reflexivity.
Qed.

Lemma text_handler_short content : slen content ≤ 3000 → short_handler (text_handler content).
Proof.
  intros Hc r. eexists. split; [reflexivity|]. intros b. rewrite text_response, !slen_app.
  pose proof (slen_nonneg content). pose proof (pretty_length_s32 (slen content) ltac:(unfold in_s; lia)).
  assert (slen (if b then content else "") ≤ slen content) by (destruct b; [lia|done]).
  change (slen "HTTP/1.1 200 OK") with 15. change (slen crlf) with 2. change (slen "Content-Length: ") with 16.
  change (slen "Content-Type: text/plain") with 24. unfold kMaxBufferSize. lia.
Qed.

(** The handlers of the server are short whatever its counters. *)
Lemma metrics_short (met : list Z) : Forall (in_s 32) met →
  short_handlers (with_metrics met greeting_table).
Proof.
  intros Hm. assert (slen (metrics_text metric_names met) ≤ 3000) as Ht.
  { etransitivity; [by apply metrics_text_length|]. vm_compute. congruence. }
  apply insert_short; [by apply text_handler_short|]. unfold greeting_table.
  apply (insert_short "/" GET _ ∅); [by apply text_handler_short|]. by intros path methods m cb Hx.
Qed.

(** ** A request and its reply, from [recv] to [send] *)

Section options.
Context {F : Type} `{PosixFS F}.
Context (junk : Z → byte) (strtold : string → Z).
Context (parse_tree : string → option (list CqlContext)).
Context (config : Config).
Context {St : Type} (proj : St → StateStore * world F) (inj : StateStore * world F → St → St).
Context (rpc : string → string → M St (Z * string + string)).
Context (garbage30000 garbage4096 garbage3500 garbage71680 garbage1000 : chars).
Context (frame_junk : Z * Z) (elapsed : Z).

Abbreviation one_frame := (answer_bytes junk strtold parse_tree config proj inj rpc garbage30000
  garbage4096 garbage3500 garbage71680 garbage1000 frame_junk elapsed).
Abbreviation receive := (on_receive junk strtold parse_tree config proj inj rpc garbage30000
  garbage4096 garbage3500 garbage71680 garbage1000 frame_junk elapsed).

(** An [OPTIONS] request of stream [s0], [s1]. *)
Definition options_request (s0 s1 : byte) : chars := [x03; x00; s0; s1; x05; x00; x00; x00; x00].

Definition options_answer (s0 s1 : byte) : chars :=
  [x83; x00; s0; s1; x06] ++ be_bytes 4 (zlen supported_body) ++ supported_body.

Lemma options_framed s0 s1 buffer : 9 < zlen buffer → (s0, s1) ≠ (x03, x00) →
  framed_at (overwrite 0 (options_request s0 s1) buffer) 0 [options_request s0 s1].
Proof.
  intros Hl Hs. do 10 (destruct buffer as [|? buffer]; [unfold zlen in Hl; cbn in Hl; lia|]).
  split; [done|]. split; [done|]. split; [|done].
  assert (zlen (options_request s0 s1) = 9) as Hz by done. intros j Hj. rewrite Hz in Hj.
  assert (j = 1 ∨ j = 2 ∨ j = 3 ∨ j = 4 ∨ j = 5 ∨ j = 6 ∨ j = 7 ∨ j = 8) as Hcases by lia.
  destruct Hcases as [->|[->|[->|[->|[->|[->|[->| ->]]]]]]]; try reflexivity; unfold is_start.
  - rewrite (at_lookup _ 2 s0), (at_lookup _ 0 x03), (at_lookup _ (2 + 1) s1), (at_lookup _ 1 x00) by done.
    cbn -[Byte.eqb]. destruct (Byte.eqb s0 x03) eqn:H0; [|done]. apply Byte.byte_dec_bl in H0 as ->.
    destruct (Byte.eqb s1 x00) eqn:H1; [|done]. apply Byte.byte_dec_bl in H1 as ->. done.
  - rewrite (at_lookup _ 3 s1), (at_lookup _ 0 x03), (at_lookup _ (3 + 1) x05), (at_lookup _ 1 x00) by done.
    cbn -[Byte.eqb]. by destruct (Byte.eqb s1 x03).
Qed.

Lemma options_frame s0 s1 (s : ServerState (St := St)) : 9 ≤ zlen (sv_new_buffer s) →
  ∃ f, Frame_parse (Frame_new frame_junk
         (overwrite 0 (take 8 (options_request s0 s1)) (sv_new_buffer s)) 8) = Ok f ∧
    fr_opcode f = op_OPTIONS ∧ reply_start f = [x83; x00; s0; s1].
Proof.
  intros Hl. destruct (sv_new_buffer s) as [|b0 [|b1 [|b2 [|b3 [|b4 [|b5 [|b6 [|b7 [|b8 l]]]]]]]]];
    try (unfold zlen in Hl; cbn in Hl; lia).
  eexists. split; [reflexivity|]. split; [reflexivity|]. unfold reply_start. cbn -[byte_of_Z Z_of_byte].
  by rewrite !byte_of_Z_of_byte.
Qed.

(** A client that asks for the options gets them.  The nine
    bytes of the request, received with whatever the buffers held before, make
    the server send one [SUPPORTED] frame for the same stream, complete and of
    the announced length, from which the client reads the options; database,
    nodes and counters do not change. *)
Theorem options_answered (s : ServerState (St := St)) (s0 s1 : byte) :
  9 < zlen (sv_buffer s) → 9 ≤ zlen (sv_new_buffer s) → 100 ≤ zlen garbage71680 →
  s0 ≠ xff → (s0, s1) ≠ (x03, x00) →
  (∃ s', receive (options_request s0 s1) s = (Ok tt, s') ∧
    sv_sent s' = sv_sent s ++ [options_answer s0 s1] ∧
    sv_met s' = sv_met s ∧ sv_db s' = sv_db s ∧ sv_net s' = sv_net s) ∧
  p_options (drop 9 (options_answer s0 s1)) = Some (supported_options, []).
Proof.
  intros Hb Hn Hg Hff Hs. split; [|vm_compute; reflexivity].
  change (options_request s0 s1) with (concat [options_request s0 s1]).
  rewrite receive_cut; [|done|by apply options_framed|cbn; unfold zlen in *; cbn; lia|
    cbn; unfold zlen in *; cbn; lia].
  set (s1' := MkServer _ _ _ _ _ _). cbn [clipped for_each].
  change (take (length (options_request s0 s1) - 1) (options_request s0 s1)) with
    (take 8 (options_request s0 s1)).
  destruct (options_frame s0 s1 s Hn) as (f & Hf & Hop & Hst).
  unfold answer_bytes. rewrite M_bind_assoc. erewrite M_bind_ok by reflexivity.
  change (zlen (take 8 (options_request s0 s1))) with 8.
  unfold answer_frame. rewrite M_bind_assoc. erewrite M_bind_ok by reflexivity. cbn [sv_new_buffer s1'].
  rewrite M_bind_assoc. erewrite M_bind_ok by (unfold lift; rewrite Hf; reflexivity).
  rewrite M_bind_assoc. erewrite M_bind_ok.
  2:{ unfold create_response. rewrite options_reply by done. cbn [rs_header set_header]. reflexivity. }
  cbn [rs_header set_length set_header]. rewrite Hst.
  set (reply := [x83; x00; s0; s1] ++ [x06] ++ be_bytes 4 (zlen supported_body) ++ supported_body).
  assert (length reply = 88%nat) as Hlen by (vm_compute; reflexivity).
  assert (9 + zlen supported_body = 88) as -> by (vm_compute; reflexivity).
  assert (send_reply garbage1000 (overwrite 0 reply garbage71680) 88 = Ok [reply]) as Hsend.
  { rewrite send_plain.
    - unfold overwrite. rewrite take_0. reflexivity.
    - done.
    - unfold zlen in *. rewrite length_overwrite; lia.
    - unfold zlen in *. rewrite length_overwrite; lia.
    - unfold overwrite. rewrite take_0. intros Heq. by injection Heq. }
  rewrite M_bind_assoc. erewrite M_bind_ok by (unfold lift; rewrite Hsend; reflexivity).
  erewrite M_bind_ok by reflexivity. eexists. split; [reflexivity|]. done.
Qed.

(** A reception that fills the array and ends in its first byte: the search for
    requests reads behind the array. *)
Lemma full_reception bytes s : zlen bytes = zlen (sv_buffer s) → 2 ≤ zlen bytes →
  last bytes = head bytes → ∃ s', receive bytes s = (Undef OutOfBounds, s').
Proof.
  intros Hz H2 Hlast. destruct bytes as [|b bytes]; [done|]. cbn [head] in Hlast.
  set (bs := b :: bytes) in *. eexists.
  change (receive bs s) with
    ((modify (λ s, MkServer (overwrite 0 bs (sv_buffer s)) (sv_new_buffer s) (sv_met s) (sv_db s) (sv_net s)
                     (sv_sent s));;
      s ← get_state; idx ← lift (indeces (sv_buffer s) (zlen bs));
      answer_requests junk strtold parse_tree config proj inj rpc garbage30000 garbage4096 garbage3500
        garbage71680 garbage1000 frame_junk elapsed idx) s).
  erewrite M_bind_ok by reflexivity. erewrite M_bind_ok by reflexivity. cbn [sv_buffer].
  assert (overwrite 0 bs (sv_buffer s) = bs) as ->.
  { unfold overwrite, zlen in *. rewrite take_0, drop_ge by lia. cbn [app]. by rewrite app_nil_r. }
  apply M_bind_undef. unfold lift. f_equal. unfold indeces.
  assert (∀ n i, 0 ≤ i → i + Z.of_nat n + 1 = zlen bs →
    find_starts bs (seqZ i (Z.of_nat n + 1)) = Undef OutOfBounds) as Hfind.
  { intros n. induction n as [|n IH]; intros i H0 Hi.
    - rewrite seqZ_cons by lia. cbn [find_starts]. unfold is_start. rewrite (at_lookup bs i b), (at_lookup bs 0 b); try done.
      2:{ rewrite <- Hlast, last_lookup. f_equal. unfold zlen in Hi. lia. }
      cbn [mbind outcome_bind]. rewrite (Byte.byte_dec_lb (eq_refl b)).
      assert (at_ bs (i + 1) = Undef OutOfBounds) as ->; [|done]. unfold at_.
      rewrite bool_decide_true, lookup_ge_None_2; [done|unfold zlen in Hi; lia|lia].
    - replace (Z.of_nat (S n) + 1) with (1 + (Z.of_nat n + 1)) by lia. rewrite seqZ_cons by lia.
      cbn [find_starts]. destruct (is_start_ok bs i) as [x Hx]; [lia|lia|]. rewrite Hx.
      cbn [mbind outcome_bind]. replace (Z.pred (1 + (Z.of_nat n + 1))) with (Z.of_nat n + 1) by lia.
      by rewrite IH by lia. }
  replace (zlen bs) with (Z.of_nat (length bytes) + 1) at 1 by (unfold bs, zlen; cbn [length]; lia).
  rewrite Hfind; [done|lia|]. unfold bs, zlen. cbn [length]. lia.
Qed.
End options.

(** ** Examples *)

Import MemFS.

Abbreviation example_receive := (on_receive (λ _, x00) (λ _, 0) example_tree
  (node_config example_ranges "A") (the_node empty_node "A") (set_node "A") example_rpc
  [] [] [] (replicate (Z.to_nat 71680) x00) (replicate 1000 x00) (0, 0) 0).

Abbreviation example_frame := (answer_bytes (λ _, x00) (λ _, 0) example_tree
  (node_config example_ranges "A") (the_node empty_node "A") (set_node "A") example_rpc
  [] [] [] (replicate (Z.to_nat 71680) x00) (replicate 1000 x00) (0, 0) 0).

Definition example_server : ServerState (St := gmap string (StateStore * world fsview)) :=
  MkServer (replicate 2048 x00) (replicate 2048 x00) (replicate 8 0) example_db example_cluster [].

Lemma requests_cut_witness :
  example_receive (options_request x00 x07 ++ options_request x00 x08) example_server =
    for_each example_frame [options_request x00 x07; take 8 (options_request x00 x08)]
      (MkServer (overwrite 0 (options_request x00 x07 ++ options_request x00 x08) (sv_buffer example_server))
         (sv_new_buffer example_server) (sv_met example_server) (sv_db example_server)
         (sv_net example_server) (sv_sent example_server)).
Proof.
  apply (requests_cut (λ _, x00) (λ _, 0) example_tree (node_config example_ranges "A")
    (the_node empty_node "A") (set_node "A") example_rpc [] [] [] (replicate (Z.to_nat 71680) x00)
    (replicate 1000 x00) (0, 0) 0 [options_request x00 x07; options_request x00 x08] example_server).
  - done.
  - assert (∀ j, 0 < j < 9 → j = 1 ∨ j = 2 ∨ j = 3 ∨ j = 4 ∨ j = 5 ∨ j = 6 ∨ j = 7 ∨ j = 8) as Hc by lia.
    cbn [framed_at]. split_and!; [done|vm_compute; reflexivity| |done|vm_compute; reflexivity| |done].
    + intros j Hj. change (0 + zlen (options_request x00 x07)) with 9 in Hj.
      destruct (Hc j Hj) as [->|[->|[->|[->|[->|[->|[->| ->]]]]]]]; vm_compute; reflexivity.
    + intros j Hj. change (0 + zlen (options_request x00 x07)) with 9 in Hj.
      change (9 + zlen (options_request x00 x08)) with 18 in Hj.
      replace j with (9 + (j - 9)) by lia.
      destruct (Hc (j - 9) ltac:(lia)) as [->|[->|[->|[->|[->|[->|[->| ->]]]]]]]; vm_compute; reflexivity.
  - vm_compute. congruence.
  - vm_compute. congruence.
Defined.

Lemma reply_sent_witness :
  send_reply (replicate 1000 x00) ([x83; x00; xff; x0c; x01] ++ [x83; x00; x00; x08] ++ [x00]) 9 =
    Ok [[x83; x00; xff; x0c; x01; x83]; [x83; x00; x00; x08]].
Proof.
  refine (proj2 (reply_sent (replicate 1000 x00) [x83; x00; xff; x0c; x01] [x83; x00; x00; x08] [x00] _ _ _ _) _ _ _).
  - done.
  - done.
  - done.
  - vm_compute. congruence.
  - reflexivity.
  - vm_compute. reflexivity.
  - intros i Hi Hne. change (zlen [x83; x00; xff; x0c; x01]) with 5 in *.
    change (zlen [x83; x00; x00; x08]) with 4 in *.
    assert (i = 1 ∨ i = 2 ∨ i = 3 ∨ i = 4 ∨ i = 6 ∨ i = 7 ∨ i = 8) as Hc by lia.
    destruct Hc as [->|[->|[->|[->|[->|[->| ->]]]]]]; vm_compute; reflexivity.
Defined.

Lemma options_answered_witness :
  ∃ s', example_receive (options_request x00 x07) example_server = (Ok tt, s') ∧
    sv_sent s' = [options_answer x00 x07] ∧ sv_met s' = replicate 8 0.
Proof.
  destruct (options_answered (λ _, x00) (λ _, 0) example_tree (node_config example_ranges "A")
    (the_node empty_node "A") (set_node "A") example_rpc [] [] [] (replicate (Z.to_nat 71680) x00)
    (replicate 1000 x00) (0, 0) 0 example_server x00 x07) as [(s' & Hr & Hsent & Hmet & _) _].
  - vm_compute. reflexivity.
  - vm_compute. congruence.
  - unfold zlen. rewrite length_replicate. lia.
  - done.
  - done.
  - exists s'. split_and!; assumption.
Defined.
