(* ===== verification/Counters.v ===== *)
(** * The counters of the server

    [CreateResponse] keeps the counters in the range of [int], whatever the
    request and however it ends: each is a counter that undefined behaviour
    would stop before it leaves the range, or a measured duration.  The server
    keeps them so over any sequence of receptions, and so its metrics always
    fit the buffers of the endpoint. *)

From Stdlib Require Import ZArith Lia Strings.Byte Ascii String.
From stdpp Require Import base list list_numbers strings gmap pretty.
From S2P Require Import Prelude Errors Buffer OrdMap Data Catalog IndexPage Summary FileSystem Disk Sstable TableManager Database.
From S2P Require Import Text Lang Wire Dht MetaTables Metadata ServerMsg Http HttpServer Server.

Local Open Scope Z_scope.

Definition counters_ok (met : list Z) : Prop := Forall (in_s 32) met.

(** ** Computations that keep them *)

Section keeps.
Context {F : Type} `{PosixFS F}.
Context (junk : Z → byte) (strtold : string → Z).
Context (parse_tree : string → option (list CqlContext)).
Context (config : Config).
Context {St : Type} (proj : St → StateStore * world F) (inj : StateStore * world F → St → St).
Context (rpc : string → string → M St (Z * string + string)).
Context (garbage30000 garbage4096 garbage3500 garbage71680 garbage1000 : chars).
Context (frame_junk : Z * Z) (elapsed : Z).
Hypothesis elapsed_int : in_s 32 elapsed.

Definition keeps {A} (m : M (Response (St := St)) A) : Prop :=
  ∀ r, counters_ok (rs_met r) → counters_ok (rs_met (m r).2).

Lemma keeps_ret {A} (a : A) : keeps (mret a).
Proof. by intros r Hr. Qed.

Lemma keeps_lift {A} (o : outcome A) : keeps (lift o).
Proof. by intros r Hr. Qed.

Lemma keeps_get : keeps get_state.
Proof. by intros r Hr. Qed.

Lemma keeps_bind {A B} (m : M _ A) (f : A → M _ B) : keeps m → (∀ a, keeps (f a)) → keeps (m ≫= f).
Proof.
  intros Hm Hf r Hr. specialize (Hm r Hr). unfold mbind, M_bind.
  destruct (m r) as [[a|e|u] r']; [by apply Hf|done..].
Qed.

Lemma keeps_modify f : (∀ r, rs_met (f r) = rs_met r) → keeps (modify f).
Proof. intros Hf r Hr. unfold modify. cbn [snd]. by rewrite Hf. Qed.

Lemma keeps_zoom {T A} (p : Response → T) (i : T → Response → Response) (m : M T A) :
  (∀ t r, rs_met (i t r) = rs_met r) → keeps (zoom p i m).
Proof. intros Hi r Hr. unfold zoom. destruct (m (p r)) as [o t]. cbn [snd]. by rewrite Hi. Qed.

Lemma keeps_run_on {T A} (t : T) (m : M T A) : keeps (run_on t m).
Proof. intros r Hr. unfold run_on. by destruct (m t) as [[] ?]. Qed.

Lemma keeps_on_db {A} (m : M (Database * world F) A) : keeps (on_db proj inj m).
Proof. intros r Hr. unfold on_db. by destruct (m _) as [o [db w]]. Qed.

Lemma keeps_for_each {A} (f : A → M _ unit) l : (∀ a, keeps (f a)) → keeps (for_each f l).
Proof. intros Hf. induction l as [|a l IH]; [apply keeps_ret|]. by apply keeps_bind. Qed.

Lemma keeps_try {A} (m : M _ A) handlers : keeps m → (∀ e, Forall (λ h, keeps (h.2 e)) handlers) →
  keeps (try_catch m handlers).
Proof.
  intros Hm Hh r Hr. specialize (Hm r Hr). unfold try_catch.
  destruct (m r) as [[a|e|u] r']; [done| |done].
  destruct (first_handler handlers e) as [h|] eqn:He; [|done].
  apply first_handler_Some in He as (c & h' & Hin & _ & ->).
  specialize (Hh e). rewrite Forall_forall in Hh. by apply (Hh _ Hin).
Qed.

Lemma keeps_incr i : keeps (met_incr i).
Proof.
  intros r Hr. unfold met_incr. erewrite M_bind_ok by reflexivity. destruct (rs_met r !! i); [|done].
  case_bool_decide; [|done]. by apply Forall_insert.
Qed.

Lemma keeps_set i : keeps (met_set i elapsed).
Proof. intros r Hr. by apply Forall_insert. Qed.

Ltac keeps_step :=
  match goal with
  | |- ∀ _, _ => intros
  | |- keeps (_ ≫= _) => apply keeps_bind
  | |- keeps (for_each _ _) => apply keeps_for_each
  | |- keeps (try_catch _ _) => apply keeps_try
  | |- keeps (if ?b then _ else _) => destruct b
  | |- keeps (match ?x with _ => _ end) => destruct x
  | |- Forall _ _ => repeat constructor; cbn [snd]
  | |- keeps (in_header _) => apply keeps_zoom
  | |- keeps (in_body _) => apply keeps_zoom
  | |- keeps (in_net _) => apply keeps_zoom
  | |- keeps (zoom _ _ _) => apply keeps_zoom
  | |- keeps (modify _) => apply keeps_modify
  | |- keeps (msg_length _) => apply keeps_modify
  end.
Ltac keeps_tac := repeat keeps_step; auto using keeps_ret, keeps_lift, keeps_get, keeps_run_on,
  keeps_on_db, keeps_incr, keeps_set.

Lemma keeps_copy_body start size body : keeps (copy_body start size body).
Proof. unfold copy_body. keeps_tac. Qed.

Lemma keeps_copy_out start size : keeps (copy_out start size).
Proof. unfold copy_out. keeps_tac. apply keeps_copy_body. Qed.

Lemma keeps_statement v text stmt : keeps (run_statement proj inj elapsed v text stmt).
Proof.
  destruct stmt; cbn [run_statement]; [unfold run_create_table|unfold run_insert|unfold run_select];
    keeps_tac; apply keeps_copy_out.
Qed.

Lemma keeps_query v : keeps (run_query junk strtold parse_tree config proj inj rpc garbage3500 elapsed v).
Proof. unfold run_query. keeps_tac; by apply keeps_statement. Qed.

Lemma keeps_response f : keeps (CreateResponse junk strtold parse_tree config proj inj rpc
  garbage30000 garbage4096 garbage3500 elapsed f).
Proof.
  unfold CreateResponse, handle_query, run_meta. keeps_tac;
    first [apply keeps_query|apply keeps_copy_body].
Qed.

(** ** Receptions *)

Definition keeps_server {A} (m : M (ServerState (St := St)) A) : Prop :=
  ∀ s, counters_ok (sv_met s) → counters_ok (sv_met (m s).2).

Lemma server_bind {A B} (m : M _ A) (f : A → M _ B) :
  keeps_server m → (∀ a, keeps_server (f a)) → keeps_server (m ≫= f).
Proof.
  intros Hm Hf s Hs. specialize (Hm s Hs). unfold mbind, M_bind.
  destruct (m s) as [[a|e|u] s']; [by apply Hf|done..].
Qed.

Lemma server_same {A} (m : M _ A) : (∀ s, sv_met (m s).2 = sv_met s) → keeps_server m.
Proof. intros Hm s Hs. by rewrite Hm. Qed.

Lemma server_create f : keeps_server (create_response junk strtold parse_tree config proj inj rpc
  garbage30000 garbage4096 garbage3500 garbage71680 elapsed f).
Proof.
  intros s Hs. unfold create_response.
  pose proof (keeps_response f (MkResponse "" garbage71680 0 (sv_met s) [] (sv_db s) (sv_net s)) Hs) as Hk.
  by destruct (CreateResponse _ _ _ _ _ _ _ _ _ _ _ f _) as [o r].
Qed.

Lemma server_frame size : keeps_server (answer_frame junk strtold parse_tree config proj inj rpc
  garbage30000 garbage4096 garbage3500 garbage71680 garbage1000 frame_junk elapsed size).
Proof.
  unfold answer_frame. apply server_bind; [by apply server_same|]. intros s.
  apply server_bind; [by apply server_same|]. intros f. apply server_bind; [apply server_create|].
  intros [n header]. apply server_bind; [by apply server_same|]. intros calls. by apply server_same.
Qed.

Lemma server_requests idx : keeps_server (answer_requests junk strtold parse_tree config proj inj rpc
  garbage30000 garbage4096 garbage3500 garbage71680 garbage1000 frame_junk elapsed idx).
Proof.
  induction idx as [|start idx IH]; [by apply server_same|].
  destruct idx as [|stop idx]; [by apply server_same|]. cbn [answer_requests].
  apply server_bind; [|done]. intros. unfold answer_request.
  apply server_bind; [by apply server_same|]. intros s. apply server_bind; [|intros; apply server_frame].
  apply server_same. intros s'. unfold in_new_buffer, zoom. by destruct (for_each _ _ _) as [o b].
Qed.

Lemma server_receive bytes : keeps_server (on_receive junk strtold parse_tree config proj inj rpc
  garbage30000 garbage4096 garbage3500 garbage71680 garbage1000 frame_junk elapsed bytes).
Proof.
  destruct bytes as [|b bytes]; cbn [on_receive].
  - apply server_same. intros s. by destruct (flush_metadata _) as [o [db w]].
  - apply server_bind; [by apply server_same|]. intros []. apply server_bind; [by apply server_same|].
    intros s. apply server_bind; [by apply server_same|]. intros idx. apply server_requests.
Qed.
End keeps.
