(* ===== verification/CqlServer.v ===== *)
(** * The server: [api::cql3::Server]

    The constructor of [lib/api/cql3/server.cc], which is the whole program: it
    opens the database, starts the metrics endpoint, listens, and serves its
    epoll instance for ever.  What [epoll_wait] reports and what [recv] returns
    are the input of each round; the internal service of the node runs in a
    thread of its own ([Dht]). *)

From Stdlib Require Import ZArith Lia Strings.Byte Ascii String.
From stdpp Require Import base list list_numbers strings gmap pretty sets relations.
From S2P Require Import Prelude Buffer OrdMap Data Catalog IndexPage Summary FileSystem Disk Sstable TableManager Database.
From S2P Require Import Text Lang Wire Dht MetaTables Metadata ServerMsg Query Http HttpServer Kernel Endpoint Server Counters.

Local Open Scope Z_scope.

Definition BACKLOG : Z := 512.
Definition EPOLLET : Z := 2 ^ 31.

(** [perror] and [exit]; the messages all end in a newline. *)
Definition error {S A} (msg : string) : M S A := lift (Undef (ProcessExit (msg +:+ newline))).

(** What [epoll_wait] returned: -1, or for each event its descriptor and the
    bytes [recv] gives for it, none when [recv] returns 0 or -1. *)
Definition wakeup : Type := option (list (Z * chars)).

(** [recv] is given [MAX_MESSAGE_LEN] bytes at most. *)
Definition reception_ok (w : wakeup) : Prop := Forall (λ e, zlen e.2 ≤ MAX_MESSAGE_LEN) (default [] w).

Section cql.
Context {F : Type} `{PosixFS F}.
Context (junk : Z → byte) (strtold : string → Z).
Context (parse_tree : string → option (list CqlContext)).
Context (config : Config).
Context {St : Type} (proj : St → StateStore * world F) (inj : StateStore * world F → St → St).
Context (rpc : string → string → M St (Z * string + string)).
Context (garbage30000 garbage4096 garbage3500 garbage71680 garbage1000 : chars).
Context (frame_junk : Z * Z) (elapsed : Z).
Context {K : Type} `{Kernel K}.

(** The variables of the constructor and the members of the server. *)
Record CqlServer := MkCql {
  cq_http : HttpServer;
  cq_listen : Z;                 (* sock_listen_fd *)
  cq_epollfd : Z;
  cq_prom_started : bool;
  cq_server : ServerState (St := St);
  cq_replies : list (Z * chars); (* what was given to send, on which descriptor *)
  cq_kernel : K
}.

Abbreviation C := (M CqlServer).

Definition set_http (h : HttpServer) (s : CqlServer) : CqlServer :=
  MkCql h (cq_listen s) (cq_epollfd s) (cq_prom_started s) (cq_server s) (cq_replies s) (cq_kernel s).
Definition set_prom_started (b : bool) (s : CqlServer) : CqlServer :=
  MkCql (cq_http s) (cq_listen s) (cq_epollfd s) b (cq_server s) (cq_replies s) (cq_kernel s).
Definition set_cq_kernel (k : K) (s : CqlServer) : CqlServer :=
  MkCql (cq_http s) (cq_listen s) (cq_epollfd s) (cq_prom_started s) (cq_server s) (cq_replies s) k.

Definition on_kernel {A} (m : M K A) : C A := zoom cq_kernel set_cq_kernel m.

(** *** The start *)

(** The endpoint, its greeting and its threads. *)
Definition on_endpoint (h : HttpServer) (m : M (HttpServer * K) unit) : M K HttpServer := λ k,
  let '(o, (h, k)) := m (h, k) in (_ ← o; Ok h, k).

Definition start_endpoint (prom_port : Z) : M K HttpServer :=
  h ← HttpServer_new "0.0.0.0" prom_port;
  on_endpoint h
    ('(h, _) ← get_state;
     handlers ← lift (register_greetings (hs_handlers h));
     on_server (set_handlers handlers);;
     Start).

(** The listening socket and the epoll instance that watches it. *)
Definition open_listener (port : Z) : M K (Z * Z) :=
  fd ← sys k_socket;
  if (fd : Z) <? 0 then error "Error creating socket.." else
  r ← sys (k_bind fd (u16 port));
  if (r : Z) <? 0 then error "Error binding socket (CQL Server).. " else
  r ← sys (k_listen fd BACKLOG);
  if (r : Z) <? 0 then error "Error listening.." else
  epollfd ← sys k_epoll_create;
  if (epollfd : Z) <? 0 then error "Error creating epoll (CQL Server).. " else
  r ← sys (k_epoll_ctl epollfd EPOLL_CTL_ADD fd (MkInterest EPOLLIN fd));
  if (r : Z) =? -1 then error "Error adding new listeding socket to epoll.." else
  mret (fd, epollfd).

(** The constructor up to its loop; [new_buffer] is not initialised. *)
Definition Server_new (garbage2048 : chars) (port prom_port : Z) : M (St * K) CqlServer :=
  db ← zoom (λ s, (proj s.1).2) (λ w s, (inj ((proj s.1).1, w) s.1, s.2)) (Database_new junk "database");
  http ← zoom snd (λ k s, (s.1, k)) (start_endpoint prom_port);
  '(fd, epollfd) ← zoom snd (λ k s, (s.1, k)) (open_listener port);
  '(net, k) ← get_state;
  mret (MkCql http fd epollfd false
          (MkServer (replicate (Z.to_nat MAX_MESSAGE_LEN) x00) garbage2048 (replicate 8 0) db net []) [] k).

(** *** A round of the loop *)

Definition accept_connection : C unit :=
  s ← get_state;
  fd ← on_kernel (sys (k_accept4 (cq_listen s)));
  if (fd : Z) =? -1 then error "Error accepting new connection (CQL Server).." else
  r ← on_kernel (sys (k_epoll_ctl (cq_epollfd s) EPOLL_CTL_ADD fd (MkInterest (Z.lor EPOLLIN EPOLLET) fd)));
  if (r : Z) =? -1 then error "Error adding new event to epoll (CQL Server).." else mret tt.

Abbreviation receive := (on_receive junk strtold parse_tree config proj inj rpc garbage30000
  garbage4096 garbage3500 garbage71680 garbage1000 frame_junk elapsed).

(** The [recv] of a connection: what [receive] gives to [send] goes to it. *)
Definition receive_on (fd : Z) (bytes : chars) (st : ServerState (St := St) * list (Z * chars)) :
    outcome unit * (ServerState (St := St) * list (Z * chars)) :=
  let '(o, sv) := receive bytes (MkServer (sv_buffer st.1) (sv_new_buffer st.1) (sv_met st.1) (sv_db st.1)
                                   (sv_net st.1) []) in
  (o, (MkServer (sv_buffer sv) (sv_new_buffer sv) (sv_met sv) (sv_db sv) (sv_net sv) [],
       st.2 ++ (pair fd <$> sv_sent sv))).

Definition serve_connection (fd : Z) (bytes : chars) : C unit :=
  zoom (λ s, (cq_server s, cq_replies s))
    (λ st s, MkCql (cq_http s) (cq_listen s) (cq_epollfd s) (cq_prom_started s) st.1 st.2 (cq_kernel s))
    (receive_on fd bytes).

Definition handle_event (e : Z * chars) : C unit :=
  s ← get_state;
  if e.1 =? cq_listen s then accept_connection else serve_connection e.1 e.2.

Definition wake (w : wakeup) : C unit :=
  s ← get_state;
  handlers ← lift (register_metrics (sv_met (cq_server s)) (hs_handlers (cq_http s)));
  modify (λ s, set_http (set_handlers handlers (cq_http s)) s);;
  modify (set_prom_started true);;
  match w with
  | None => error "Error in epoll_wait (CQL Server).."
  | Some events => for_each handle_event events
  end.

(** What a round does before its events: the counters are registered again. *)
Definition refreshed (s : CqlServer) : CqlServer :=
  set_prom_started true
    (set_http (set_handlers (with_metrics (sv_met (cq_server s)) (hs_handlers (cq_http s))) (cq_http s)) s).

Lemma wake_eq w s : wake w s =
  match w with
  | None => error "Error in epoll_wait (CQL Server).."
  | Some events => for_each handle_event events
  end (refreshed s).
Proof.
  unfold wake. erewrite M_bind_ok by reflexivity.
  erewrite M_bind_ok by (unfold lift; rewrite register_metrics_ok; reflexivity).
  by do 2 erewrite M_bind_ok by reflexivity.
Qed.
End cql.
Arguments CqlServer : clear implicits.

(** ** Its descriptors *)

Section descriptors.
Context {F : Type} `{PosixFS F}.
Context (junk : Z → byte) (strtold : string → Z).
Context (parse_tree : string → option (list CqlContext)).
Context (config : Config).
Context {St : Type} (proj : St → StateStore * world F) (inj : StateStore * world F → St → St).
Context (rpc : string → string → M St (Z * string + string)).
Context (garbage30000 garbage4096 garbage3500 garbage71680 garbage1000 : chars).
Context (frame_junk : Z * Z) (elapsed : Z).
Context {K : Type} `{KernelSpec K}.

Abbreviation Cql := (CqlServer St K).
Abbreviation round := (wake junk strtold parse_tree config proj inj rpc garbage30000 garbage4096
  garbage3500 garbage71680 garbage1000 frame_junk elapsed).
Abbreviation event := (handle_event junk strtold parse_tree config proj inj rpc garbage30000 garbage4096
  garbage3500 garbage71680 garbage1000 frame_junk elapsed).
Abbreviation start := (Server_new junk proj inj (K := K)).
Implicit Types (s : Cql).

(** What the epoll instance of the server watches. *)
Definition watches s : gmap Z interest := k_watched (cq_kernel s) (cq_epollfd s).

(** The instance is open; it watches open descriptors, the listening one by
    level and the others by edge. *)
Record kernel_ok s : Prop := {
  ko_epoll : cq_epollfd s ∈ k_open (cq_kernel s);
  ko_open : dom (watches s) ⊆ k_open (cq_kernel s);
  ko_listen : watches s !! cq_listen s = Some (MkInterest EPOLLIN (cq_listen s));
  ko_clients : ∀ fd i, watches s !! fd = Some i → fd ≠ cq_listen s →
    i = MkInterest (Z.lor EPOLLIN EPOLLET) fd
}.

(** What the other threads of the process may do to the descriptors. *)
Definition others_step s (k : K) : Prop :=
  k_watched k (cq_epollfd s) = watches s ∧ cq_epollfd s ∈ k_open k ∧ dom (watches s) ⊆ k_open k.

(** The connections a wake-up announces. *)
Definition announced (listen : Z) (w : wakeup) : nat :=
  length (filter (λ e, e.1 = listen) (default [] w)).

(** Rounds of the loop that end, between which other threads run, with the number
    of connections they accept. *)
Inductive serves : nat → Cql → Cql → Prop :=
| serves_refl s : serves 0 s s
| serves_wake n s w s1 s2 : reception_ok w → round w s = (Ok tt, s1) → serves n s1 s2 →
    serves (announced (cq_listen s) w + n) s s2
| serves_others n s k s2 : others_step s k → serves n (set_cq_kernel k s) s2 → serves n s s2.

(** A round in which a client connects. *)
Lemma serves_client s s1 : round (Some [(cq_listen s, [])]) s = (Ok tt, s1) → serves 1 s s1.
Proof.
  intros Hr. rewrite <- (Nat.add_0_r 1).
  replace 1%nat with (announced (cq_listen s) (Some [(cq_listen s, [])])).
  - eapply serves_wake; [by repeat constructor|exact Hr|constructor].
  - unfold announced. cbn. by rewrite decide_True by done.
Qed.

Lemma others_kernel_ok s k : kernel_ok s → others_step s k → kernel_ok (set_cq_kernel k s).
Proof.
  intros [He Ho Hl Hc] (Hw & He' & Ho'). split; unfold watches in *; cbn; rewrite ?Hw; done.
Qed.

Lemma accept_ok s s' : kernel_ok s → accept_connection s = (Ok tt, s') →
  ∃ fd k', s' = set_cq_kernel k' s ∧ (fd ∉ dom (watches s)) ∧ (size (k_open (cq_kernel s)) < k_limit)%nat ∧
    k_open k' = {[fd]} ∪ k_open (cq_kernel s) ∧
    watches s' = <[fd := MkInterest (Z.lor EPOLLIN EPOLLET) fd]> (watches s).
Proof.
  intros Hok Hrun. unfold accept_connection in Hrun. erewrite M_bind_ok in Hrun by reflexivity.
  pose proof (accept_spec (cq_listen s) (cq_kernel s)) as [Ha _]. unfold on_kernel, zoom, sys, mbind, M_bind in Hrun.
  destruct (k_accept4 (cq_listen s) (cq_kernel s)) as [fd k1]. cbn [fst snd] in *.
  destruct (Z.eqb_spec fd (-1)) as [->|Hne]; [done|].
  destruct Ha as [[? _]|(_ & Hfd & Hs & Ho & Hw)]; [done|]. cbn [fst snd] in *.
  cbn [cq_kernel cq_epollfd set_cq_kernel] in Hrun.
  pose proof (epoll_ctl_spec (cq_epollfd s) EPOLL_CTL_ADD fd (MkInterest (Z.lor EPOLLIN EPOLLET) fd) k1) as Hc.
  destruct (k_epoll_ctl _ _ _ _ k1) as [r k2]. cbn [fst snd] in *.
  destruct (Z.eqb_spec r (-1)) as [->|Hr]; [done|]. unfold mret, M_ret in Hrun. injection Hrun as <-.
  destruct Hc as [[? _]|(_ & _ & _ & Ho2 & _ & Hnone & Hw2)]; [done|]. cbn [fst snd] in *.
  exists fd, k2. split; [done|]. split; [|split; [done|split]].
  - pose proof (ko_open _ Hok). set_solver.
  - by rewrite Ho2.
  - unfold watches. cbn. by rewrite Hw2, Hw.
Qed.

Lemma accept_full s : (k_limit ≤ size (k_open (cq_kernel s)))%nat →
  accept_connection s =
    (Undef (ProcessExit ("Error accepting new connection (CQL Server).." +:+ newline)),
     set_cq_kernel (k_accept4 (cq_listen s) (cq_kernel s)).2 s).
Proof.
  intros Hfull. unfold accept_connection. erewrite M_bind_ok by reflexivity.
  pose proof (accept_spec (cq_listen s) (cq_kernel s)) as [Ha _]. unfold on_kernel, zoom, sys, mbind, M_bind.
  destruct (k_accept4 (cq_listen s) (cq_kernel s)) as [fd k1]. cbn [fst snd] in *.
  destruct Ha as [[Hfd _]|(_ & _ & Hs & _)]; [cbn in Hfd; by subst fd|lia].
Qed.

Lemma accept_kernel_ok s s' : kernel_ok s → accept_connection s = (Ok tt, s') →
  kernel_ok s' ∧ cq_listen s' = cq_listen s ∧ watches s ⊆ watches s' ∧
  size (watches s') = S (size (watches s)) ∧ (size (watches s') ≤ k_limit)%nat.
Proof.
  intros Hok Hrun. destruct (accept_ok s s' Hok Hrun) as (fd & k' & -> & Hfd & Hsize & Ho & Hw).
  pose proof Hok as [He Hopen Hl Hc]. assert (watches s !! fd = None) as Hnone by (by apply not_elem_of_dom).
  assert (size (watches (set_cq_kernel k' s)) = S (size (watches s))) as Hsz
    by (rewrite Hw; by apply map_size_insert_None).
  split_and!; [|done|rewrite Hw; by apply insert_subseteq|done|].
  - split; cbn [cq_kernel cq_epollfd cq_listen set_cq_kernel].
    + rewrite Ho. set_solver.
    + rewrite Hw, Ho, dom_insert. set_solver.
    + rewrite Hw, lookup_insert_ne; [done|]. intros ->. by rewrite Hl in Hnone.
    + intros fd' i. rewrite Hw, lookup_insert_Some. intros [[<- <-]|[_ Hi]] Hne; [done|by apply Hc].
  - rewrite Hsz, <- size_dom. apply (subseteq_size (dom (watches s))) in Hopen. lia.
Qed.

Lemma serve_kernel (fd : Z) (bytes : chars) s :
  let s' := (serve_connection junk strtold parse_tree config proj inj rpc garbage30000 garbage4096
    garbage3500 garbage71680 garbage1000 frame_junk elapsed fd bytes s).2 in
  cq_kernel s' = cq_kernel s ∧ cq_epollfd s' = cq_epollfd s ∧ cq_listen s' = cq_listen s ∧
  cq_http s' = cq_http s.
Proof.
  unfold serve_connection, zoom. by destruct (receive_on _ _ _ _ _ _ _ _ _ _ _ _ _ _ _ _ _) as [o st].
Qed.

Lemma kernel_ok_eq s s' : cq_kernel s' = cq_kernel s → cq_epollfd s' = cq_epollfd s →
  cq_listen s' = cq_listen s → kernel_ok s → kernel_ok s'.
Proof. intros Hk He Hl []. split; unfold watches in *; rewrite ?Hk, ?He, ?Hl; done. Qed.

Lemma events_kernel_ok evs : ∀ s s', kernel_ok s → for_each event evs s = (Ok tt, s') →
  let n := length (filter (λ e, e.1 = cq_listen s) evs) in
  kernel_ok s' ∧ cq_listen s' = cq_listen s ∧ watches s ⊆ watches s' ∧
  size (watches s') = (n + size (watches s))%nat ∧ ((0 < n)%nat → (size (watches s') ≤ k_limit)%nat).
Proof.
  induction evs as [|[fd bytes] evs IH]; intros s s' Hok Hrun.
  { cbn in Hrun. unfold mret, M_ret in Hrun. injection Hrun as <-. cbn. split_and!; try done. lia. }
  cbn [for_each] in Hrun. apply M_bind_ok_inv in Hrun as ([] & s1 & He & Hrun).
  unfold handle_event in He. erewrite M_bind_ok in He by reflexivity. cbn [fst snd] in He.
  rewrite filter_cons. cbn [fst]. destruct (Z.eqb_spec fd (cq_listen s)) as [Heq|Hne].
  - rewrite decide_True by done. destruct (accept_kernel_ok s s1 Hok He) as (Hok1 & Hl1 & Hsub & Hsz & Hlim).
    destruct (IH s1 s' Hok1 Hrun) as (Hok' & Hl' & Hsub' & Hsz' & Hlim'). rewrite Hl1 in *.
    split_and!; [done|done|by etransitivity|cbn; lia|]. intros _.
    destruct (decide (0 < length (filter (λ e, e.1 = cq_listen s) evs))%nat) as [Hp|Hz]; [by apply Hlim'|lia].
  - rewrite decide_False by done. pose proof (serve_kernel fd bytes s) as Hs. rewrite He in Hs.
    cbn [snd] in Hs. destruct Hs as (Hk & Hep & Hl & _).
    assert (kernel_ok s1) as Hok1 by (by apply (kernel_ok_eq s)).
    assert (watches s1 = watches s) as Hw by (unfold watches; by rewrite Hk, Hep).
    destruct (IH s1 s' Hok1 Hrun) as (Hok' & Hl' & Hsub' & Hsz' & Hlim'). rewrite Hl, Hw in *.
    by split_and!.
Qed.

Lemma round_kernel_ok w s s' : kernel_ok s → round w s = (Ok tt, s') →
  kernel_ok s' ∧ cq_listen s' = cq_listen s ∧ watches s ⊆ watches s' ∧
  size (watches s') = (announced (cq_listen s) w + size (watches s))%nat ∧
  ((0 < announced (cq_listen s) w)%nat → (size (watches s') ≤ k_limit)%nat).
Proof.
  intros Hok Hrun. rewrite wake_eq in Hrun. destruct w as [evs|]; [|done].
  apply events_kernel_ok in Hrun; [exact Hrun|by apply (kernel_ok_eq s)].
Qed.

Lemma serves_kernel_ok n s s' : serves n s s' → kernel_ok s →
  kernel_ok s' ∧ cq_listen s' = cq_listen s ∧ watches s ⊆ watches s' ∧
  size (watches s') = (n + size (watches s))%nat ∧ ((0 < n)%nat → (size (watches s') ≤ k_limit)%nat).
Proof.
  induction 1 as [s|n s w s1 s2 _ Hr Hs IH|n s k s2 Ho Hs IH]; intros Hok.
  - split_and!; try done. lia.
  - destruct (round_kernel_ok w s s1 Hok Hr) as (Hok1 & Hl1 & Hsub & Hsz & Hb).
    destruct (IH Hok1) as (Hok2 & Hl2 & Hsub2 & Hsz2 & Hn).
    split_and!; [done|congruence|by etransitivity|lia|]. intros Hp.
    destruct (decide (0 < n)%nat) as [?|Hz]; [by apply Hn|].
    rewrite Hsz2. replace n with 0%nat by lia. cbn. apply Hb. lia.
  - destruct (IH (others_kernel_ok _ _ Hok Ho)) as (Hok2 & Hl2 & Hsub2 & Hsz2 & Hn).
    destruct Ho as (Hw & _ & _). unfold watches in *. cbn [cq_kernel cq_epollfd set_cq_kernel] in *.
    rewrite Hw in *. by split_and!.
Qed.

Lemma watches_pos s : kernel_ok s → (0 < size (watches s))%nat.
Proof.
  intros [_ _ Hl _]. destruct (size (watches s)) eqn:Hz; [|lia].
  apply map_size_empty_inv in Hz. by rewrite Hz in Hl.
Qed.

(** *** The start *)

Lemma sys_inv (c : K → Z * K) k r k' : sys c k = (Ok r, k') → c k = (r, k').
Proof. unfold sys. destruct (c k). by intros [= -> ->]. Qed.

Lemma open_listener_ok port (k : K) fd epollfd k' : open_listener port k = (Ok (fd, epollfd), k') →
  epollfd ∈ k_open k' ∧ fd ∈ k_open k' ∧ k_watched k' epollfd = {[fd := MkInterest EPOLLIN fd]} ∧
  (size (k_open k) < k_limit)%nat.
Proof.
  unfold open_listener. intros Hrun.
  apply M_bind_ok_inv in Hrun as (fd1 & k1 & Hs%sys_inv & Hrun).
  pose proof (socket_spec k) as Hsock. rewrite Hs in Hsock. destruct (Z.ltb_spec fd1 0); [done|].
  destruct Hsock as [[? _]|(_ & Hfd & Hsize & Ho & _)]; [cbn in *; lia|]. cbn [fst snd] in *.
  apply M_bind_ok_inv in Hrun as (r & k2 & Hs2%sys_inv & Hrun).
  pose proof (bind_spec fd1 (u16 port) k1) as (_ & [Ho2 _] & _). rewrite Hs2 in Ho2.
  destruct (Z.ltb_spec r 0); [done|]. cbn [fst snd] in *.
  apply M_bind_ok_inv in Hrun as (r2 & k3 & Hs3%sys_inv & Hrun).
  pose proof (listen_spec fd1 BACKLOG k2) as (_ & [Ho3 _] & _). rewrite Hs3 in Ho3.
  destruct (Z.ltb_spec r2 0); [done|]. cbn [fst snd] in *.
  apply M_bind_ok_inv in Hrun as (ep & k4 & Hs4%sys_inv & Hrun).
  pose proof (epoll_create_spec k3) as Hc. rewrite Hs4 in Hc. destruct (Z.ltb_spec ep 0); [done|].
  destruct Hc as [[? _]|(_ & Hep & _ & Ho4 & Hw4)]; [cbn in *; lia|]. cbn [fst snd] in *.
  apply M_bind_ok_inv in Hrun as (r3 & k5 & Hs5%sys_inv & Hrun).
  pose proof (epoll_ctl_spec ep EPOLL_CTL_ADD fd1 (MkInterest EPOLLIN fd1) k4) as Hctl. rewrite Hs5 in Hctl.
  destruct (Z.eqb_spec r3 (-1)); [done|]. unfold mret, M_ret in Hrun. injection Hrun as -> -> ->.
  destruct Hctl as [[? _]|(_ & Hepin & Hfdin & Ho5 & _ & _ & Hw5)]; [done|]. cbn [fst snd] in *.
  rewrite Ho5, Hw5, Hw4, (watched_open k3 epollfd Hep). split_and!; done.
Qed.

Lemma start_kernel_ok garbage2048 port prom_port (st st' : St * K) s :
  start garbage2048 port prom_port st = (Ok s, st') →
  kernel_ok s ∧ size (watches s) = 1%nat ∧ (0 < k_limit)%nat.
Proof.
  unfold Server_new. intros Hrun.
  apply M_bind_ok_inv in Hrun as (db & st1 & _ & Hrun).
  apply M_bind_ok_inv in Hrun as (http & [net1 k1] & _ & Hrun).
  apply M_bind_ok_inv in Hrun as ([fd ep] & [net2 k2] & Hlist & Hrun).
  unfold zoom in Hlist. cbn [snd fst] in Hlist.
  destruct (open_listener port k1) as [o k3] eqn:Hopen. injection Hlist as -> <- <-.
  apply open_listener_ok in Hopen as (Hep & Hfd & Hw & Hsize). unfold get_state, mbind, M_bind in Hrun.
  cbn [fst snd] in Hrun. unfold mret, M_ret in Hrun. injection Hrun as <- _.
  split; [|split; [unfold watches; cbn; by rewrite Hw, map_size_singleton|lia]].
  split; unfold watches; cbn [cq_kernel cq_epollfd cq_listen]; rewrite ?Hw.
  - done.
  - rewrite dom_singleton. set_solver.
  - apply lookup_singleton_eq.
  - intros x i [<- _]%lookup_singleton_Some. done.
Qed.

(** C14 (bounds): the connections of the server.  In every state it reaches after
    its start, whatever the clients send and the other threads of the process
    do, every connection it ever accepted is still open and watched: a peer that
    closes is never closed on this side.  So it accepts fewer connections in its
    whole life than the process may have descriptors, and when these are used up
    the next client that connects ends the process. *)
Theorem connections_never_closed (garbage2048 : chars) (port prom_port : Z) (st st' : St * K)
    (s0 s1 s2 : Cql) (n m : nat) :
  start garbage2048 port prom_port st = (Ok s0, st') → serves n s0 s1 → serves m s1 s2 →
  kernel_ok s2 ∧ watches s1 ⊆ watches s2 ∧ size (watches s2) = S (n + m) ∧ (n + m < k_limit)%nat ∧
  ((k_limit ≤ size (k_open (cq_kernel s2)))%nat → ∀ bytes events, ∃ s3,
     round (Some ((cq_listen s2, bytes) :: events)) s2 =
       (Undef (ProcessExit ("Error accepting new connection (CQL Server).." +:+ newline)), s3)).
Proof.
  intros Hstart Hn Hm. 
  destruct (start_kernel_ok _ _ _ _ _ _ Hstart) as (Hok0 & Hone & Hlim).
  destruct (serves_kernel_ok n s0 s1 Hn Hok0) as (Hok1 & Hl1 & Hsub1 & Hsz1 & Hb1).
  destruct (serves_kernel_ok m s1 s2 Hm Hok1) as (Hok2 & Hl2 & Hsub2 & Hsz2 & Hb2).
  split_and!; [done|done|lia| |].
  - destruct (decide (0 < m)%nat) as [Hp|Hz]; [specialize (Hb2 Hp); lia|].
    destruct (decide (0 < n)%nat) as [Hp|Hz']; [specialize (Hb1 Hp); lia|lia].
  - intros Hfull bytes events. eexists. rewrite wake_eq. cbn [for_each]. apply M_bind_undef. unfold handle_event.
    erewrite M_bind_ok by reflexivity. cbn [fst snd cq_listen refreshed set_http set_prom_started].
    rewrite Z.eqb_refl. by apply accept_full.
Qed.
End descriptors.

(** ** What its endpoint serves *)

(** What a client of the endpoint gets for a request it can parse. *)
Definition endpoint_answer (text : string) (r : HttpRequest) : string :=
  let ok content := "HTTP/1.1 200 OK" +:+ crlf +:+ "Content-Length: " +:+ pretty (slen content) +:+ crlf
                      +:+ "Content-Type: text/plain" +:+ crlf +:+ crlf +:+ content in
  let not_allowed := "HTTP/1.1 405 Method Not Allowed" +:+ crlf +:+ crlf in
  let only_get content := if bool_decide (rq_method r = GET) then ok content else not_allowed in
  if bool_decide (uri_path (rq_uri r) = "/metrics") then only_get text
  else if bool_decide (uri_path (rq_uri r) = "/") then only_get "GOTO /metrics"
  else "HTTP/1.1 404 Not Found" +:+ crlf +:+ crlf.

(** One path with a handler of [GET]. *)
Lemma text_method content (r : HttpRequest) (what : exn → string) :
  (http_response ← catch_answer what
     match ({[GET := text_handler content]} : gmap HttpMethod HttpRequestHandler) !! rq_method r with
     | None => Ok (HttpResponse_new MethodNotAllowed)
     | Some callback => callback r
     end;
   Ok (response_to_string http_response (bool_decide (rq_method r ≠ HEAD)))) =
  Ok (if bool_decide (rq_method r = GET) then
        "HTTP/1.1 200 OK" +:+ crlf +:+ "Content-Length: " +:+ pretty (slen content) +:+ crlf
          +:+ "Content-Type: text/plain" +:+ crlf +:+ crlf +:+ content
      else "HTTP/1.1 405 Method Not Allowed" +:+ crlf +:+ crlf).
Proof.
  destruct (decide (rq_method r = GET)) as [Hg|Hg].
  - rewrite Hg, lookup_singleton_eq. unfold text_handler. cbn [catch_answer mbind outcome_bind].
    rewrite !bool_decide_true by done. f_equal. apply (text_response content true).
  - rewrite lookup_singleton_ne, (bool_decide_false _ Hg) by done. cbn [catch_answer mbind outcome_bind]. f_equal.
    by destruct (bool_decide _).
Qed.

Lemma endpoint_answer_ok (what : exn → string) met request r : string_to_request request = Ok r →
  http_answer what (with_metrics met greeting_table) request =
    Ok (endpoint_answer (metrics_text metric_names met) r).
Proof.
  intros Hr. unfold http_answer, endpoint_answer. rewrite Hr.
  unfold HandleHttpRequest, with_metrics, greeting_table, Handlers in *.
  destruct (decide (uri_path (rq_uri r) = "/metrics")) as [->|Hm].
  { rewrite (bool_decide_true ("/metrics" = "/metrics")), lookup_insert_eq by done.
    by apply text_method. }
  rewrite lookup_insert_ne, (bool_decide_false _ Hm) by done.
  destruct (decide (uri_path (rq_uri r) = "/")) as [->|Hroot].
  { rewrite (bool_decide_true ("/" = "/")), lookup_singleton_eq by done. by apply text_method. }
  rewrite lookup_singleton_ne, (bool_decide_false _ Hroot) by done.
  by destruct (bool_decide (rq_method r ≠ HEAD)).
Qed.

Section content.
Context {F : Type} `{PosixFS F}.
Context (junk : Z → byte) (strtold : string → Z).
Context (parse_tree : string → option (list CqlContext)).
Context (config : Config).
Context {St : Type} (proj : St → StateStore * world F) (inj : StateStore * world F → St → St).
Context (rpc : string → string → M St (Z * string + string)).
Context (garbage30000 garbage4096 garbage3500 garbage71680 garbage1000 : chars).
Context (frame_junk : Z * Z) (elapsed : Z).
Hypothesis elapsed_int : in_s 32 elapsed.
Context {K : Type} `{KernelSpec K}.

Abbreviation Cql := (CqlServer St K).
Abbreviation round := (wake junk strtold parse_tree config proj inj rpc garbage30000 garbage4096
  garbage3500 garbage71680 garbage1000 frame_junk elapsed).
Abbreviation event := (handle_event junk strtold parse_tree config proj inj rpc garbage30000 garbage4096
  garbage3500 garbage71680 garbage1000 frame_junk elapsed).
Abbreviation start := (Server_new junk proj inj (K := K)).
Abbreviation server_serves := (serves junk strtold parse_tree config proj inj rpc garbage30000 garbage4096
  garbage3500 garbage71680 garbage1000 frame_junk elapsed (K := K)).
Implicit Types (s : Cql).

(** The counters are in range, and the handlers are those of the greeting and,
    after the first round, of some metrics. *)
Record content_ok s : Prop := {
  co_counters : counters_ok (sv_met (cq_server s));
  co_handlers : hs_handlers (cq_http s) = greeting_table ∨
    ∃ met, hs_handlers (cq_http s) = with_metrics met greeting_table
}.

(** A step that changes neither the endpoint nor the range of the counters. *)
Definition keeps_content {A} (m : M Cql A) : Prop := ∀ s,
  counters_ok (sv_met (cq_server s)) →
  counters_ok (sv_met (cq_server (m s).2)) ∧ cq_http (m s).2 = cq_http s.

Lemma event_content e : keeps_content (event e).
Proof.
  intros s Hs. unfold handle_event. erewrite M_bind_ok by reflexivity.
  destruct (e.1 =? cq_listen s).
  - unfold accept_connection, on_kernel, zoom, sys, mbind, M_bind. cbn [fst snd get_state].
    unfold get_state. destruct (k_accept4 _ _) as [fd k]. destruct (fd =? -1); [done|].
    destruct (k_epoll_ctl _ _ _ _ _) as [r k']. by destruct (r =? -1).
  - unfold serve_connection, zoom, receive_on. cbn [fst snd].
    pose proof (server_receive junk strtold parse_tree config proj inj rpc garbage30000 garbage4096
      garbage3500 garbage71680 garbage1000 frame_junk elapsed elapsed_int e.2
      (MkServer (sv_buffer (cq_server s)) (sv_new_buffer (cq_server s)) (sv_met (cq_server s))
         (sv_db (cq_server s)) (sv_net (cq_server s)) []) Hs) as Hk.
    by destruct (on_receive _ _ _ _ _ _ _ _ _ _ _ _ _ _ e.2 _) as [o sv].
Qed.

Lemma events_content evs : keeps_content (for_each event evs).
Proof.
  induction evs as [|e evs IH]; intros s Hs; [done|]. cbn [for_each].
  destruct (event_content e s Hs) as [Hs1 Hh1]. unfold mbind, M_bind.
  destruct (event e s) as [[[]|x|u] s1]; cbn [snd] in *; [|done..].
  destruct (IH s1 Hs1) as [Hs2 Hh2]. split; [done|congruence].
Qed.

(** After a round, however it ends, the handlers are those of its counters. *)
Lemma round_content w s : content_ok s →
  content_ok (round w s).2 ∧
  hs_handlers (cq_http (round w s).2) = with_metrics (sv_met (cq_server s)) greeting_table.
Proof.
  intros [Hm Hh]. rewrite wake_eq. set (s1 := refreshed s).
  assert (hs_handlers (cq_http s1) = with_metrics (sv_met (cq_server s)) greeting_table) as Hs1.
  { cbn. destruct Hh as [-> |[met ->]]; [done|apply with_metrics_again]. }
  destruct w as [evs|].
  - destruct (events_content evs s1 Hm) as [Hm2 Hh2]. rewrite Hh2. split; [|done].
    split; [done|]. right. eexists. by rewrite Hh2.
  - split; [|done]. split; [done|]. right. by eexists.
Qed.

Lemma serves_content n s s' : server_serves n s s' → content_ok s → content_ok s'.
Proof.
  induction 1 as [s|n s w s1 s2 _ Hr _ IH|n s k s2 _ _ IH]; intros Hok; [done|..]; apply IH.
  - destruct (round_content w s Hok) as [Hc _]. by rewrite Hr in Hc.
  - by destruct Hok.
Qed.

(** The arrays of the server keep their lengths. *)
Lemma event_sizes e s : zlen e.2 ≤ MAX_MESSAGE_LEN → length (sv_buffer (cq_server s)) = Z.to_nat MAX_MESSAGE_LEN →
  sizes (cq_server (event e s).2) = sizes (cq_server s).
Proof.
  intros He Hl. unfold handle_event. erewrite M_bind_ok by reflexivity.
  destruct (e.1 =? cq_listen s).
  - unfold accept_connection, on_kernel, zoom, sys, mbind, M_bind. cbn [fst snd get_state].
    unfold get_state. destruct (k_accept4 _ _) as [fd k]. destruct (fd =? -1); [done|].
    destruct (k_epoll_ctl _ _ _ _ _) as [r k']. by destruct (r =? -1).
  - unfold serve_connection, zoom, receive_on. cbn [fst snd].
    pose proof (receive_sizes junk strtold parse_tree config proj inj rpc garbage30000 garbage4096
      garbage3500 garbage71680 garbage1000 frame_junk elapsed e.2
      (MkServer (sv_buffer (cq_server s)) (sv_new_buffer (cq_server s)) (sv_met (cq_server s))
         (sv_db (cq_server s)) (sv_net (cq_server s)) [])) as Hk.
    cbn [sv_buffer] in Hk. unfold zlen in Hk, He. rewrite Hl in Hk. specialize (Hk ltac:(lia)).
    by destruct (on_receive _ _ _ _ _ _ _ _ _ _ _ _ _ _ e.2 _) as [o sv].
Qed.

Lemma events_sizes evs : ∀ s, Forall (λ e, zlen e.2 ≤ MAX_MESSAGE_LEN) evs →
  length (sv_buffer (cq_server s)) = Z.to_nat MAX_MESSAGE_LEN →
  sizes (cq_server (for_each event evs s).2) = sizes (cq_server s).
Proof.
  induction evs as [|e evs IH]; intros s Hall Hl; [done|]. apply Forall_cons in Hall as [He Hall].
  cbn [for_each]. pose proof (event_sizes e s He Hl) as Hs. unfold mbind, M_bind.
  destruct (event e s) as [[[]|x|u] s1]; cbn [snd] in *; [|done..].
  rewrite <- Hs. apply IH; [done|]. unfold sizes in Hs. congruence.
Qed.

Lemma serves_sizes n s s' : server_serves n s s' →
  length (sv_buffer (cq_server s)) = Z.to_nat MAX_MESSAGE_LEN → sizes (cq_server s') = sizes (cq_server s).
Proof.
  induction 1 as [s|n s w s1 s2 Hw Hr _ IH|n s k s2 _ _ IH]; intros Hl; [done| |by apply IH].
  assert (sizes (cq_server s1) = sizes (cq_server s)) as Hs.
  { rewrite wake_eq in Hr.
    destruct w as [evs|]; [|done].
    match type of Hr with for_each _ _ ?x = _ => pose proof (events_sizes evs x Hw Hl) as Hev end.
    by rewrite Hr in Hev. }
  rewrite <- Hs. apply IH. unfold sizes in Hs. congruence.
Qed.

Lemma start_sizes garbage2048 port prom_port (st st' : St * K) s :
  start garbage2048 port prom_port st = (Ok s, st') →
  sizes (cq_server s) = (Z.to_nat MAX_MESSAGE_LEN, length garbage2048).
Proof.
  unfold Server_new. intros Hrun.
  apply M_bind_ok_inv in Hrun as (db & [net0 k0] & _ & Hrun).
  apply M_bind_ok_inv in Hrun as (http & [net1 k1] & _ & Hrun).
  apply M_bind_ok_inv in Hrun as ([fd ep] & [net2 k2] & _ & Hrun).
  unfold get_state, mbind, M_bind, mret, M_ret in Hrun. injection Hrun as <- _.
  unfold sizes. cbn [cq_server sv_buffer sv_new_buffer]. reflexivity.
Qed.

Lemma start_endpoint_ok prom_port (k k' : K) h : start_endpoint prom_port k = (Ok h, k') →
  started h ∧ hs_handlers h = greeting_table.
Proof.
  unfold start_endpoint. intros Hrun. apply M_bind_ok_inv in Hrun as (h0 & k1 & Hnew & Hrun).
  apply M_bind_ok_inv in Hnew as (fd & k2 & Hsk & Hnew).
  apply M_bind_ok_inv in Hsk as (fd' & k2' & Hs%sys_inv & Hsk).
  pose proof (socket_spec k) as Hsock. rewrite Hs in Hsock. destruct (Z.ltb_spec fd' 0); [done|].
  unfold mret, M_ret in Hsk. injection Hsk as <- <-.
  destruct Hsock as [[? _]|(_ & _ & _ & Ho & _)]; [cbn in *; lia|]. cbn [fst snd] in *.
  unfold mret, M_ret in Hnew. injection Hnew as <- <-. unfold on_endpoint in Hrun.
  erewrite M_bind_ok in Hrun by reflexivity. cbv beta iota in Hrun.
  erewrite M_bind_ok in Hrun by (unfold lift; cbn [hs_handlers]; rewrite register_greetings_ok; reflexivity).
  erewrite M_bind_ok in Hrun by reflexivity. cbn [fst snd] in Hrun.
  match type of Hrun with context [Start (?h, ?kk)] => set (h1 := h) in Hrun end.
  destruct (start_cases h1 k2') as (fds & h2 & k3 & Hop & [(Hst & Hin & Hlen & Hh)|(what & Hst & _)]);
    [done..| |by rewrite Hst in Hrun].
  rewrite Hst in Hrun. injection Hrun as <- _. rewrite Hh. split; [|done].
  destruct Hop as (Hnd & Hall & _). rewrite Forall_forall in Hall.
  split; try done. constructor; [|done]. intros Hx%Hall. destruct Hx as [_ Hx]. done.
Qed.

Lemma start_content garbage2048 port prom_port (st st' : St * K) s :
  start garbage2048 port prom_port st = (Ok s, st') → content_ok s ∧ started (cq_http s).
Proof.
  unfold Server_new. intros Hrun.
  apply M_bind_ok_inv in Hrun as (db & [net0 k0] & _ & Hrun).
  apply M_bind_ok_inv in Hrun as (http & [net1 k1] & Hhttp & Hrun).
  apply M_bind_ok_inv in Hrun as ([fd ep] & [net2 k2] & _ & Hrun).
  unfold get_state, mbind, M_bind, mret, M_ret in Hrun. injection Hrun as <- _.
  unfold zoom in Hhttp. cbn [snd fst] in Hhttp.
  destruct (start_endpoint prom_port k0) as [o k3] eqn:He. injection Hhttp as -> _ _.
  apply start_endpoint_ok in He as [Hst Hh]. split; [|done]. split; [|by left].
  cbn. unfold counters_ok. repeat constructor; done.
Qed.

(** C15 (invariant): what the metrics endpoint serves while the server runs.  From
    the start on, after any rounds and however the next one ends, its handlers
    answer every request they can parse: [/metrics] with the counters as they
    were when that round began, [/] with the greeting, other paths with 404.
    Only [GET] is answered, because the registration of [GET] erases the handler
    of [HEAD] registered just before.  All the responses fit a buffer, which is
    what the workers need to be safe. *)
Theorem endpoint_current (what : exn → string) (garbage2048 : chars) (port prom_port : Z)
    (st st' : St * K) (s0 s1 : Cql) (n : nat) (w : wakeup) :
  start garbage2048 port prom_port st = (Ok s0, st') → server_serves n s0 s1 →
  let h := hs_handlers (cq_http (round w s1).2) in
  let text := metrics_text metric_names (sv_met (cq_server s1)) in
  counters_ok (sv_met (cq_server s1)) ∧ fits what h ∧
  ∀ request r, string_to_request request = Ok r → http_answer what h request = Ok (endpoint_answer text r).
Proof.
  intros Hstart Hserves h text. destruct (start_content _ _ _ _ _ _ Hstart) as [Hok _].
  apply serves_content in Hserves as Hok1; [|done].
  destruct (round_content w s1 Hok1) as [_ Hh]. unfold h. rewrite Hh. split_and!.
  - apply Hok1.
  - apply short_handlers_fit, metrics_short, Hok1.
  - intros request r. apply endpoint_answer_ok.
Qed.

Lemma metrics_nul_free names met : Forall (λ m, nul_free m.1.1 ∧ nul_free m.1.2 ∧ nul_free m.2) names →
  nul_free (metrics_text names met).
Proof.
  intros Hn. revert met. induction Hn as [|m names (Hf & Hk & Hs) _ IH]; intros [|v met];
    cbn [metrics_text]; try (by apply nul_free_text).
  unfold metric_text. rewrite !nul_free_app. split_and!; try done; first [apply nul_free_pretty | by apply nul_free_text].
Qed.

Lemma endpoint_nul_free met r : nul_free (endpoint_answer (metrics_text metric_names met) r).
Proof.
  assert (nul_free (metrics_text metric_names met)) as Hm.
  { apply metrics_nul_free. repeat constructor; by apply nul_free_text. }
  unfold endpoint_answer. repeat case_bool_decide; rewrite ?nul_free_app; split_and!; try done;
    first [apply nul_free_pretty | by apply nul_free_text].
Qed.

(** C21 (liveness): what a client of the endpoint gets.  After any rounds of the
    server and however the next one ends, a request that arrives at any worker of
    the endpoint on a connection that waits for one, that comes in one reception
    of less than 4096 bytes without a NUL, and that can be parsed, is answered
    whole, in however many parts the kernel takes it, as long as no [send] would
    block, no [epoll_ctl] fails and no other thread touches the table of handlers
    meanwhile ([Race]): the bytes sent are the answer of the endpoint, which for a
    [GET] of [/metrics] holds the counters as they were when that round began, in
    order and without repetition, and the connection then waits for the next
    request. *)
Theorem endpoint_served {E : Type} `{EpollSpec E} (what : exn → string) (garbage2048 : chars)
    (port prom_port : Z) (st st' : St * K) (s0 s1 : Cql) (n : nat) (w : wakeup)
    (worker : Worker E) (fd : Z) (i : interest) (bs : list byte) (r : HttpRequest) (ns : list Z) :
  start garbage2048 port prom_port st = (Ok s0, st') → server_serves n s0 s1 →
  mods_succeed E → worker_ok worker → interests (wk_epoll worker) !! fd = Some i → it_events i = EPOLLIN →
  zlen bs < kMaxBufferSize → x00 ∉ bs → string_to_request (bytes_str bs) = Ok r →
  let h := hs_handlers (cq_http (round w s1).2) in
  let text := endpoint_answer (metrics_text metric_names (sv_met (cq_server s1))) r in
  ns ≠ [] → Forall (λ n, 0 < n) ns → total ns = slen text →
  ∃ worker' chunks i',
    (next_event what h fd (Received bs) SendAgain;;
     for_each (λ n, next_event what h fd RecvAgain (Sent n)) ns) worker = (Ok tt, worker') ∧
    worker_ok worker' ∧
    wk_sent worker' = wk_sent worker ++ (pair fd <$> chunks) ∧ zlen <$> chunks = ns ∧
    concat chunks = str_bytes text ∧
    interests (wk_epoll worker') !! fd = Some i' ∧ it_events i' = EPOLLIN.
Proof.
  intros Hstart Hserves Hmods Hw Hi Hin Hl Hni Hr h text Hne Hns Htot.
  destruct (start_content _ _ _ _ _ _ Hstart) as [Hok _]. apply serves_content in Hserves as Hok1; [|done].
  destruct (round_content w s1 Hok1) as [_ Hh].
  apply (response_delivered what worker h fd i bs text ns); try done.
  - unfold h. rewrite Hh. apply short_handlers_fit, metrics_short, Hok1.
  - unfold h. rewrite Hh. by apply endpoint_answer_ok.
  - apply endpoint_nul_free.
Qed.
End content.

(** ** An example *)

Import MemFS MemKernel.

Definition is_ok {A} (o : outcome A) : bool := match o with Ok _ => true | _ => false end.

Lemma is_ok_inv {S A} (r : outcome A * S) : is_ok r.1 = true → ∃ a s, r = (Ok a, s).
Proof. destruct r as [[a|e|u] s]; [by exists a, s|done..]. Qed.

Definition example_start := Server_new (K := kernel) (λ _, x00) (the_node empty_node "A") (set_node "A")
  (replicate 2048 x00) 9042 8080 (example_cluster, boot).

Abbreviation example_round := (wake (K := kernel) (λ _, x00) (λ _, 0) example_tree
  (node_config example_ranges "A") (the_node empty_node "A") (set_node "A") example_rpc
  [] [] [] (replicate (Z.to_nat 71680) x00) (replicate 1000 x00) (0, 0) 0).
Abbreviation example_serves := (serves (K := kernel) (λ _, x00) (λ _, 0) example_tree
  (node_config example_ranges "A") (the_node empty_node "A") (set_node "A") example_rpc
  [] [] [] (replicate (Z.to_nat 71680) x00) (replicate 1000 x00) (0, 0) 0).

(** A client connects; then another one does, and the first one closes. *)
Definition example_wakeups (listen : Z) : list wakeup :=
  [Some [(listen, [])]; Some [(listen, []); (listen + 2, [])]].

Definition example_run : bool :=
  match example_start with
  | (Ok s0, _) => is_ok (for_each example_round (example_wakeups (cq_listen s0)) s0).1
  | _ => false
  end.

Lemma connections_never_closed_witness :
  ∃ s0 st' s1 s2, example_start = (Ok s0, st') ∧ example_serves 1 s0 s1 ∧ example_serves 1 s1 s2 ∧
    watches s1 ⊆ watches s2 ∧ size (watches s2) = 3%nat.
Proof.
  assert (example_run = true) as Hrun by (vm_compute; reflexivity). unfold example_run in Hrun.
  destruct example_start as [[s0|e|u] st'] eqn:Hstart; [|done..].
  unfold example_start in Hstart.
  apply is_ok_inv in Hrun as ([] & s2 & Hrun). cbn [example_wakeups for_each] in Hrun.
  apply M_bind_ok_inv in Hrun as ([] & s1 & H1 & Hrun).
  apply M_bind_ok_inv in Hrun as ([] & s2' & H2 & Hrun). unfold mret, M_ret in Hrun. injection Hrun as ->.
  assert (kernel_ok s0 ∧ cq_listen s1 = cq_listen s0) as [Hok Hl].
  { pose proof (start_kernel_ok (λ _, x00) (the_node empty_node "A") (set_node "A") (replicate 2048 x00)
      9042 8080 (example_cluster, boot) st' s0 Hstart) as (Hok & _).
    destruct (round_kernel_ok (λ _, x00) (λ _, 0) example_tree (node_config example_ranges "A")
      (the_node empty_node "A") (set_node "A") example_rpc [] [] [] (replicate (Z.to_nat 71680) x00)
      (replicate 1000 x00) (0, 0) 0 _ s0 s1 Hok H1) as (_ & Hl & _). by split. }
  assert (example_serves 1 s0 s1) as Hs1.
  { eapply serves_client. exact H1. }
  assert (example_serves 1 s1 s2) as Hs2.
  { rewrite <- (Nat.add_0_r 1).
    replace 1%nat with (announced (cq_listen s1) (Some [(cq_listen s0, []); (cq_listen s0 + 2, [])])).
    - eapply serves_wake; [by repeat constructor|exact H2|constructor].
    - unfold announced. cbn. rewrite decide_True by done. rewrite decide_False by (cbn; lia). done. }
  exists s0, st', s1, s2. split; [reflexivity|]. split; [done|]. split; [done|].
  destruct (connections_never_closed (λ _, x00) (λ _, 0) example_tree (node_config example_ranges "A")
    (the_node empty_node "A") (set_node "A") example_rpc [] [] [] (replicate (Z.to_nat 71680) x00)
    (replicate 1000 x00) (0, 0) 0 (replicate 2048 x00) 9042 8080 (example_cluster, boot) st' s0 s1 s2 1 1
    Hstart Hs1 Hs2)
    as (_ & Hsub & Hsize & _). by split.
Defined.

(** While the first client connects and after it, [GET /metrics] gets zeros. *)
Lemma endpoint_current_witness :
  ∃ s0 st' s1, example_start = (Ok s0, st') ∧ example_serves 1 s0 s1 ∧
    http_answer (λ _, "") (hs_handlers (cq_http (example_round (Some []) s1).2)) (request_to_string example_request) =
      Ok (endpoint_answer (metrics_text metric_names (sv_met (cq_server s1))) example_request).
Proof.
  assert (example_run = true) as Hrun by (vm_compute; reflexivity). unfold example_run in Hrun.
  destruct example_start as [[s0|e|u] st'] eqn:Hstart; [|done..].
  unfold example_start in Hstart.
  apply is_ok_inv in Hrun as ([] & s2 & Hrun). cbn [example_wakeups for_each] in Hrun.
  apply M_bind_ok_inv in Hrun as ([] & s1 & H1 & _).
  assert (example_serves 1 s0 s1) as Hs1.
  { eapply serves_client. exact H1. }
  exists s0, st', s1. split; [reflexivity|]. split; [exact Hs1|].
  assert (in_s 32 0) as Helapsed by (split; vm_compute; congruence).
  destruct (endpoint_current (λ _, x00) (λ _, 0) example_tree (node_config example_ranges "A")
    (the_node empty_node "A") (set_node "A") example_rpc [] [] [] (replicate (Z.to_nat 71680) x00)
    (replicate 1000 x00) (0, 0) 0 Helapsed (λ _, "") (replicate 2048 x00) 9042 8080 (example_cluster, boot)
    st' s0 s1 1 (Some []) Hstart Hs1) as (_ & _ & Hanswer).
  apply Hanswer. vm_compute. reflexivity.
Defined.

(** A worker with a connection is asked for the metrics, and its kernel takes the
    answer in two parts. *)
Definition quiet_run : bool :=
  match example_start with
  | (Ok s0, _) => match example_round (Some [(cq_listen s0, [])]) s0 with
                  | (Ok _, s1) => bool_decide (sv_met (cq_server s1) = replicate 8 0)
                  | _ => false
                  end
  | _ => false
  end.

Definition zeros : string := endpoint_answer (metrics_text metric_names (replicate 8 0)) example_request.

Lemma endpoint_served_witness :
  ∃ s0 st' s1 worker' chunks i', example_start = (Ok s0, st') ∧ example_serves 1 s0 s1 ∧
    let h := hs_handlers (cq_http (example_round (Some []) s1).2) in
    (next_event (λ _, "") h 7 (Received (str_bytes (request_to_string example_request))) SendAgain;;
     for_each (λ n, next_event (λ _, "") h 7 RecvAgain (Sent n)) [100; slen zeros - 100]) idle_worker =
      (Ok tt, worker') ∧
    wk_sent worker' = wk_sent idle_worker ++ (pair 7 <$> chunks) ∧
    concat chunks = str_bytes zeros ∧
    interests (wk_epoll worker') !! 7 = Some i' ∧ it_events i' = EPOLLIN.
Proof.
  assert (quiet_run = true) as Hrun by (vm_compute; reflexivity). unfold quiet_run in Hrun.
  destruct example_start as [[s0|e|u] st'] eqn:Hstart; [|discriminate Hrun..].
  unfold example_start in Hstart.
  destruct (example_round (Some [(cq_listen s0, [])]) s0) as [[[]|e|u] s1] eqn:H1; [|discriminate Hrun..].
  apply bool_decide_eq_true_1 in Hrun.
  assert (example_serves 1 s0 s1) as Hs1.
  { eapply serves_client. exact H1. }
  assert (in_s 32 0) as Helapsed by (split; vm_compute; congruence).
  destruct (endpoint_served (λ _, x00) (λ _, 0) example_tree (node_config example_ranges "A")
    (the_node empty_node "A") (set_node "A") example_rpc [] [] [] (replicate (Z.to_nat 71680) x00)
    (replicate 1000 x00) (0, 0) 0 Helapsed (λ _, "") (replicate 2048 x00) 9042 8080 (example_cluster, boot)
    st' s0 s1 1 (Some []) idle_worker 7 (MkInterest EPOLLIN 0) (str_bytes (request_to_string example_request))
    example_request [100; slen zeros - 100])
    as (worker' & chunks & i' & Hserved & _ & Hsent & _ & Hcat & Hi' & Hin').
  - exact Hstart.
  - exact Hs1.
  - exact gmap_mods_succeed.
  - exact idle_worker_ok.
  - vm_compute. reflexivity.
  - reflexivity.
  - vm_compute. reflexivity.
  - apply nul_free_text. vm_compute. reflexivity.
  - vm_compute. reflexivity.
  - congruence.
  - repeat constructor; vm_compute; reflexivity.
  - rewrite Hrun. vm_compute. reflexivity.
  - exists s0, st', s1, worker', chunks, i'. rewrite Hrun in Hcat.
    split; [reflexivity|]. split; [exact Hs1|]. split; [exact Hserved|]. split; [exact Hsent|].
    split; [exact Hcat|]. split; [exact Hi'|exact Hin'].
Defined.
