(* ===== verification/Service.v ===== *)
(** * A query over a connection

    The whole way of a [SELECT], and of a question about the system: the bytes a
    client sends, cut, parsed and answered by [api::cql3::Server], routed through
    the cluster, and the bytes handed to [send]; first for one reception, then for
    rounds of a server that runs, with any number of requests on any connections. *)

From Stdlib Require Import ZArith Lia Strings.Byte Ascii String.
From stdpp Require Import base list list_numbers strings gmap pretty.
From S2P Require Import Prelude Buffer OrdMap Data Catalog IndexPage Summary FileSystem Disk Sstable TableManager Database.
From S2P Require Import Text Lang Wire Dht SystemTables MetaTables Metadata ServerMsg Query Http HttpServer Kernel Endpoint Server Counters CqlServer.

Local Open Scope Z_scope.

(** ** Requests that are not cut *)

(** [x] and [y] are nowhere side by side, and [x] is not the last byte. *)
Fixpoint pair_free (x y : byte) (l : chars) : Prop :=
  match l with
  | [] => True
  | a :: l' => match l' with [] => a ≠ x | b :: _ => (a = x → b ≠ y) end ∧ pair_free x y l'
  end.

Lemma is_start_no l j a x y : 0 ≤ j → l !! 0%nat = Some x → l !! 1%nat = Some y →
  l !! Z.to_nat j = Some a → (a = x → ∃ b, l !! S (Z.to_nat j) = Some b ∧ b ≠ y) →
  is_start l j = Ok false.
Proof.
  intros Hj Hx Hy Ha Hb. unfold is_start. rewrite (at_lookup _ j a), (at_lookup _ 0 x) by done.
  cbn [mbind outcome_bind]. destruct (Byte.eqb a x) eqn:Hax; [|done].
  apply Byte.byte_dec_bl in Hax. destruct (Hb Hax) as (b & Hl & Hne).
  rewrite (at_lookup _ (j + 1) b), (at_lookup _ 1 y) by (try lia; try done; by replace (Z.to_nat (j + 1)) with (S (Z.to_nat j)) by lia).
  cbn [mbind outcome_bind]. destruct (Byte.eqb b y) eqn:Hby; [|done]. by apply Byte.byte_dec_bl in Hby.
Qed.

Lemma pair_free_lookup x y l : ∀ k a, pair_free x y l → l !! k = Some a →
  a = x → ∃ b, l !! S k = Some b ∧ b ≠ y.
Proof.
  induction l as [|c l IH]; [done|]. intros [|k] a [Hc Hl] Hk Hax.
  - injection Hk as ->. destruct l as [|b l]; [done|]. exists b. split; [done|]. by apply Hc.
  - by apply (IH k a).
Qed.

(** A frame that contains its first two bytes only once is not cut, whatever was
    in the buffer before. *)
Lemma framed_single x y rest (buffer : chars) : pair_free x y (y :: rest) →
  zlen (x :: y :: rest) ≤ zlen buffer →
  framed_at (overwrite 0 (x :: y :: rest) buffer) 0 [x :: y :: rest].
Proof.
  intros Hp Hl. set (w := x :: y :: rest) in *.
  assert (∀ k a, w !! k = Some a → overwrite 0 w buffer !! k = Some a) as Hw.
  { intros k a Hk. unfold overwrite. rewrite take_0. cbn [app]. by apply lookup_app_l_Some. }
  split; [done|]. split.
  { apply is_start_0. unfold zlen, w in *. rewrite length_overwrite by (cbn in *; lia). cbn in *. lia. }
  split; [|done]. intros j Hj. unfold zlen in Hj.
  destruct (lookup_lt_is_Some_2 w (Z.to_nat j)) as [a Ha]; [lia|].
  apply (is_start_no _ j a x y); [lia|by apply Hw..|].
  intros Hax. unfold w in Ha. destruct (Z.to_nat j) as [|k] eqn:Hk; [lia|]. cbn in Ha.
  destruct (pair_free_lookup x y (y :: rest) k a Hp Ha Hax) as (b & Hb & Hne).
  exists b. split; [|done]. by apply Hw.
Qed.

Lemma pair_free_app x y l z rest : Forall (λ b, b ≠ y) l → z ≠ y →
  pair_free x y (z :: rest) → pair_free x y (l ++ z :: rest).
Proof.
  intros Hl Hz Hr. induction Hl as [|b l Hb Hl IH]; [done|]. cbn [app pair_free]. split; [|done].
  destruct Hl as [|c l Hc Hl]; cbn [app]; done.
Qed.

(** ** The bytes of a query *)

(** A [QUERY] of stream [s0], [s1]: header, text, consistency and flags. *)
Definition query_request (s0 s1 : byte) (text : string) (consistency flags : byte) : chars :=
  [x03; x00; s0; s1; x07] ++ be_bytes 4 (zlen (query_body text consistency ++ [flags]))
    ++ query_body text consistency ++ [flags].

Lemma zlen_query_body text c : zlen (query_body text c) = slen text + 6.
Proof.
  unfold query_body. rewrite !zlen_app, zlen_be_bytes. unfold zlen, slen. rewrite str_bytes_length. cbn. lia.
Qed.

Lemma zlen_query_request s0 s1 text c fl : zlen (query_request s0 s1 text c fl) = slen text + 16.
Proof.
  unfold query_request. rewrite !zlen_app, zlen_be_bytes, zlen_query_body. unfold zlen. cbn [length]. lia.
Qed.

Lemma query_request_framed s0 s1 text c fl buffer :
  plain text → last (str_bytes text) ≠ Some x03 → 4 ≤ slen text < 128 → (s0, s1) ≠ (x03, x00) → c ≠ x03 → fl ≠ x03 →
  zlen (query_request s0 s1 text c fl) ≤ zlen buffer →
  framed_at (overwrite 0 (query_request s0 s1 text c fl) buffer) 0 [query_request s0 s1 text c fl].
Proof.
  intros Hp Hlast Hl Hs Hc Hfl Hb.
  assert (zlen (query_body text c ++ [fl]) = slen text + 7) as Hz
    by (rewrite zlen_app, zlen_query_body; unfold zlen; cbn; lia).
  unfold query_request in *. rewrite Hz in *. apply framed_single; [|exact Hb].
  rewrite be_bytes_4 by lia. unfold query_body. rewrite be_bytes_4 by lia.
  assert (byte_of_Z (slen text + 7) ≠ x03) as Hn.
  { intros Heq%(f_equal Z_of_byte). rewrite Z_of_byte_of_Z, Z.mod_small in Heq by lia. cbn in Heq. lia. }
  assert (byte_of_Z (slen text) ≠ x03) as Hn'.
  { intros Heq%(f_equal Z_of_byte). rewrite Z_of_byte_of_Z, Z.mod_small in Heq by lia. cbn in Heq. lia. }
  assert (pair_free x03 x00 (str_bytes text ++ [x00; c] ++ [fl])) as Htext.
  { unfold plain in Hp. destruct (last (str_bytes text)) as [z|] eqn:Hz'.
    2:{ apply last_None in Hz'. pose proof (zlen_str_bytes text) as Hlen. rewrite Hz' in Hlen.
        change (zlen ([] : chars)) with 0 in Hlen. lia. }
    apply last_Some in Hz' as [l Htext]. rewrite Htext in *. apply Forall_app in Hp as [Hp Hz'].
    rewrite Forall_singleton in Hz'. rewrite <- app_assoc. cbn [app]. apply pair_free_app.
    - eapply Forall_impl; [exact Hp|]. cbv beta. intros b Hb' ->. cbn in Hb'. lia.
    - intros ->. cbn in Hz'. lia.
    - cbn. split_and!; try done; congruence. }
  cbn [app pair_free]. split_and!; try done; try congruence.
  - destruct ((str_bytes text ++ _) ++ _); congruence.
  - by rewrite <- app_assoc.
Qed.

(** At consistency THREE and with no flags, the end of a request looks like a
    second one. *)
Lemma three_is_cut s0 s1 text (buffer : chars) : let r := query_request s0 s1 text x03 x00 in
  is_start (overwrite 0 r buffer) (zlen r - 2) = Ok true.
Proof.
  intros r.
  assert (∃ pre, r = x03 :: x00 :: pre ++ [x03; x00]) as [pre Hr].
  { eexists ([s0; s1; x07] ++ be_bytes 4 (zlen (query_body text x03 ++ [x00])) ++ be_bytes 4 (slen text)
      ++ str_bytes text ++ [x00]). unfold r, query_request, query_body. cbn [app].
    by rewrite <- !app_assoc. }
  rewrite Hr in *. clear r Hr. set (b := overwrite _ _ _).
  assert (∀ k a, (x03 :: x00 :: pre ++ [x03; x00]) !! k = Some a → b !! k = Some a) as Hb.
  { intros k a Hk. unfold b, overwrite. rewrite take_0. cbn [app]. by apply (lookup_app_l_Some (_ :: _ :: _)). }
  assert (zlen (x03 :: x00 :: pre ++ [x03; x00]) = zlen pre + 4) as Hz
    by (unfold zlen; cbn [length]; rewrite length_app; cbn; lia).
  rewrite Hz. pose proof (zlen_nonneg pre). unfold is_start.
  assert (∀ k a, (pre ++ [x03; x00]) !! k = Some a → b !! S (S k) = Some a) as Hb' by (intros; by apply Hb).
  assert (at_ b (zlen pre + 4 - 2) = Ok x03) as ->.
  { apply at_lookup; [lia|]. replace (Z.to_nat _) with (S (S (length pre))) by (unfold zlen; lia).
    apply Hb'. by rewrite lookup_app_r, Nat.sub_diag by lia. }
  assert (at_ b (zlen pre + 4 - 2 + 1) = Ok x00) as ->.
  { apply at_lookup; [lia|]. replace (Z.to_nat _) with (S (S (S (length pre)))) by (unfold zlen; lia).
    apply Hb'. rewrite lookup_app_r by lia. by replace (S (length pre) - length pre)%nat with 1%nat by lia. }
  rewrite (at_lookup b 0 x03), (at_lookup b 1 x00) by (try lia; by apply Hb). done.
Qed.

(** The frame the server parses from it, in which the byte of the flags is lost. *)
Lemma query_request_frame frame_junk s0 s1 text c fl (buffer : chars) : slen text < 128 →
  let bytes := take (length (query_request s0 s1 text c fl) - 1) (query_request s0 s1 text c fl) in
  zlen bytes ≤ zlen buffer →
  ∃ f, Frame_parse (Frame_new frame_junk (overwrite 0 bytes buffer) (zlen bytes)) = Ok f ∧
    query_frame f text c ∧ reply_start f = [x83; x00; s0; s1].
Proof.
  intros Hl bytes Hb.
  assert (zlen (query_body text c ++ [fl]) = slen text + 7) as Hz
    by (rewrite zlen_app, zlen_query_body; unfold zlen; cbn; lia).
  pose proof (slen_nonneg text).
  assert (bytes = [x03; x00; s0; s1; x07; x00; x00; x00; byte_of_Z (slen text + 7)] ++ query_body text c)
    as Hbytes.
  { unfold bytes, query_request. rewrite Hz, be_bytes_4 by lia. rewrite !app_assoc.
    rewrite length_app. apply take_app_length'. rewrite ?length_app; cbn [length]; rewrite ?length_app; cbn [length]; lia. }
  assert (zlen bytes = 9 + zlen (query_body text c)) as Hlen by (by rewrite Hbytes, zlen_app).
  unfold overwrite. rewrite take_0, Hlen. cbn [app]. set (rest := drop _ buffer).
  rewrite Hbytes. set (q := query_body text c) in *. pose proof (zlen_query_body text c) as Hq. fold q in Hq.
  unfold Frame_parse, Frame_new. cbn [fr_buffer fr_max_size fr_body].
  destruct (Z.ltb_spec 9 (9 + zlen q)); [|lia].
  replace (9 + zlen q - 9) with (zlen q) by lia. unfold Frame_substr.
  rewrite bool_decide_true by (unfold zlen in *; rewrite !length_app; cbn [length]; lia).
  change (Z.to_nat 9) with 9%nat. cbn [app drop].
  replace (Z.to_nat (zlen q)) with (length q) by (unfold zlen; lia). rewrite drop_0, take_app_length.
  eexists. split; [reflexivity|]. split.
  - split; [done|]. split; [by eexists|done].
  - unfold reply_start. cbn -[byte_of_Z Z_of_byte]. by rewrite !byte_of_Z_of_byte.
Qed.

(** ** Questions about the system *)

(** What [meta_result] leaves, as the frame that is sent. *)
Lemma meta_reply_framed (garbage : chars) (query : string) (body0 : chars) t :
  zlen garbage = 4096 → zlen body0 = 30000 → system_table query = Some t →
  ∃ n data, meta_result garbage query body0 = (Ok n, data) ∧ (9 ≤ n ≤ zlen data ∧ n ≤ 30000) ∧
    ∃ body, take (Z.to_nat (n - 5)) data = be_bytes 4 (zlen body) ++ body ∧ zlen body = n - 9 ∧
      ∃ rest, p_rows body = Some (sy_rows t, rest) ∧ length rest = sy_slack t.
Proof.
  intros Hg Hb Hsys. destruct (meta_result_framed garbage query body0 Hg Hb) as (n & data & Hmeta & Hfr).
  rewrite Hsys in Hfr. destruct Hfr as (Hn & Hd & Hbe & rest & Hrows).
  exists n, data. split; [done|]. split; [lia|]. exists (take (Z.to_nat (n - 9)) (drop 4 data)).
  assert (zlen (take (Z.to_nat (n - 9)) (drop 4 data)) = n - 9) as Hz.
  { unfold zlen in *. rewrite length_take, length_drop. lia. }
  split; [|split; [done|by exists rest]]. rewrite Hz, <- Hbe.
  assert (length (take 4 data) = 4%nat) as H4 by (unfold zlen in *; rewrite length_take; lia).
  rewrite <- (take_drop 4 data) at 1. rewrite take_app_ge by lia. rewrite H4.
  replace (Z.to_nat (n - 5) - 4)%nat with (Z.to_nat (n - 9)) by lia. f_equal; [|by rewrite Hbe].
  unfold be_value, be_bytes. rewrite <- H4 at 2. rewrite <- (length_reverse (take 4 data)).
  by rewrite le_bytes_value, reverse_involutive.
Qed.

(** ** Frames in the stream of a client *)

(** What a client takes for the next frame of the bytes that arrive: the five
    bytes before the length, the body, of as many bytes as the four bytes of the
    length announce, and what is left for the next frame. *)
Definition read_frame (stream : chars) : option (chars * chars * chars) :=
  let n := be_value (take 4 (drop 5 stream)) in
  if bool_decide (9 + n ≤ zlen stream) then
    Some (take 5 stream, take (Z.to_nat n) (drop 9 stream), drop (Z.to_nat n) (drop 9 stream))
  else None.

(** A frame whose length is written as its last byte alone. *)
Lemma read_short_length b0 b1 b2 b3 b4 (body : chars) :
  let k := Z.to_nat (zlen body mod 256) in
  read_frame ([b0; b1; b2; b3; b4; x00; x00; x00; byte_of_Z (zlen body)] ++ body) =
    Some ([b0; b1; b2; b3; b4], take k body, drop k body).
Proof.
  intros k. unfold read_frame.
  assert (be_value [x00; x00; x00; byte_of_Z (zlen body)] = zlen body mod 256) as Hn.
  { cbn -[byte_of_Z Z.mul Z.modulo]. rewrite Z_of_byte_of_Z. lia. }
  pose proof (zlen_nonneg body). pose proof (Z.mod_le (zlen body) 256).
  change (take 4 _) with [x00; x00; x00; byte_of_Z (zlen body)]. rewrite Hn.
  rewrite bool_decide_true; [done|]. rewrite zlen_app. change (zlen [_; _; _; _; _; _; _; _; _]) with 9. lia.
Qed.

(** The frame of a body whose length is written in full. *)
Lemma read_full_length b0 b1 b2 b3 b4 (body : chars) : zlen body < 2 ^ 32 →
  read_frame ([b0; b1; b2; b3; b4] ++ be_bytes 4 (zlen body) ++ body) = Some ([b0; b1; b2; b3; b4], body, []).
Proof.
  intros Hlt. pose proof (zlen_nonneg body). unfold read_frame.
  pose proof (length_be_bytes 4 (zlen body)) as H4.
  assert (drop 5 ([b0; b1; b2; b3; b4] ++ be_bytes 4 (zlen body) ++ body) = be_bytes 4 (zlen body) ++ body) as H5 by done.
  assert (drop 9 ([b0; b1; b2; b3; b4] ++ be_bytes 4 (zlen body) ++ body) = body) as H9.
  { change 9%nat with (5 + 4)%nat. rewrite <- drop_drop, H5. by rewrite drop_app_length'. }
  rewrite H9, H5, take_app_length' by done. rewrite be_value_bytes, Z.mod_small by (split; [done|exact Hlt]).
  rewrite bool_decide_true by (rewrite zlen_app, (zlen_app (be_bytes 4 _)), zlen_be_bytes; unfold zlen; cbn [length]; lia).
  unfold zlen. by rewrite Nat2Z.id, (take_ge body), (drop_ge body) by lia.
Qed.

(** ** From [recv] to [send] *)

Section service.
Context {F : Type} `{PosixSpec F}.
Context (junk : Z → byte) (strtold : string → Z).
Context (parse_tree : string → option (list CqlContext)).
Context (ranges : list Range) (node0 : StateStore * world F).
Context (rpc : string → string → M (gmap string (StateStore * world F)) (Z * string + string)).
Context (garbage30000 garbage4096 garbage3500 garbage71680 garbage1000 : chars).
Context (frame_junk : Z * Z) (elapsed : Z).

Abbreviation cluster := (gmap string (StateStore * world F)).
Abbreviation receive_at b := (on_receive junk strtold parse_tree (node_config ranges b)
  (the_node node0 b) (set_node b) rpc garbage30000 garbage4096 garbage3500 garbage71680 garbage1000
  frame_junk elapsed).
Abbreviation answer_at b := (answer_bytes junk strtold parse_tree (node_config ranges b)
  (the_node node0 b) (set_node b) rpc garbage30000 garbage4096 garbage3500 garbage71680 garbage1000
  frame_junk elapsed).
Abbreviation respond_at b := (CreateResponse junk strtold parse_tree (node_config ranges b)
  (the_node node0 b) (set_node b) rpc garbage30000 garbage4096 garbage3500 elapsed).
Implicit Types (s : ServerState (St := cluster)).

(** The reply to a frame, and its way to [send]. *)
Definition deliver b (f : Frame) : M (ServerState (St := cluster)) unit :=
  '(bytes_sent, header) ← create_response junk strtold parse_tree (node_config ranges b) (the_node node0 b)
    (set_node b) rpc garbage30000 garbage4096 garbage3500 garbage71680 elapsed f;
  calls ← lift (send_reply garbage1000 header bytes_sent);
  modify (λ s, MkServer (sv_buffer s) (sv_new_buffer s) (sv_met s) (sv_db s) (sv_net s) (sv_sent s ++ calls)).

(** A query received by any node whatever its buffers hold is the frame that
    carries it, whose reply is delivered. *)
Lemma query_delivered b (text : string) (s0 s1 consistency flags : byte) s :
  let request := query_request s0 s1 text consistency flags in
  plain text → last (str_bytes text) ≠ Some x03 → 4 ≤ slen text < 128 →
  (s0, s1) ≠ (x03, x00) → consistency ≠ x03 → flags ≠ x03 →
  zlen (sv_buffer s) = MAX_MESSAGE_LEN → zlen (sv_new_buffer s) = MAX_MESSAGE_LEN →
  ∃ f buffer new_buffer, query_frame f text consistency ∧ reply_start f = [x83; x00; s0; s1] ∧
    receive_at b request s =
      deliver b f (MkServer buffer new_buffer (sv_met s) (sv_db s) (sv_net s) (sv_sent s)).
Proof.
  intros request Hp Hlast Hl Hs Hc Hfl Hb Hnb.
  pose proof (zlen_query_request s0 s1 text consistency flags : zlen request = _) as Hz.
  set (bytes := take (length request - 1) request).
  assert (zlen bytes ≤ zlen (sv_new_buffer s)) as Hbytes.
  { unfold bytes, zlen, MAX_MESSAGE_LEN in *. rewrite length_take. lia. }
  destruct (query_request_frame frame_junk s0 s1 text consistency flags (sv_new_buffer s) (proj2 Hl) Hbytes)
    as (f & Hf & Hqf & Hstart).
  change (Frame_parse (Frame_new frame_junk (overwrite 0 bytes (sv_new_buffer s)) (zlen bytes)) = Ok f) in Hf.
  exists f. do 2 eexists. split; [done|]. split; [done|].
  replace request with (concat [request]) by apply app_nil_r. rewrite receive_cut; try done.
  - cbn [clipped for_each]. fold bytes. rewrite M_bind_ret. unfold answer_bytes.
    erewrite M_bind_ok by reflexivity. unfold answer_frame. erewrite M_bind_ok by reflexivity.
    cbn [sv_buffer sv_new_buffer sv_met sv_db sv_net sv_sent].
    by erewrite M_bind_ok by (unfold lift; rewrite Hf; reflexivity).
  - cbn [concat]. rewrite app_nil_r. apply query_request_framed; try done; try lia.
    unfold MAX_MESSAGE_LEN in *. fold request. lia.
  - cbn [concat]. rewrite app_nil_r. unfold MAX_MESSAGE_LEN in *. lia.
  - cbn [concat]. rewrite app_nil_r. unfold MAX_MESSAGE_LEN in *. lia.
Qed.

(** A reply that is one plain frame. *)
Lemma deliver_plain b s f reply r :
  respond_at b f (MkResponse "" garbage71680 0 (sv_met s) [] (sv_db s) (sv_net s)) = (Ok (zlen reply), r) →
  rs_header r = overwrite 0 reply garbage71680 → 3 ≤ zlen reply → zlen reply < zlen garbage71680 →
  reply !! 2%nat ≠ Some xff →
  deliver b f s = (Ok tt, MkServer (sv_buffer s) (sv_new_buffer s) (rs_met r) (rs_db r) (rs_net r)
                            (sv_sent s ++ [reply])).
Proof.
  intros Hr Hh H3 Hl Hff. unfold deliver. erewrite M_bind_ok.
  2:{ unfold create_response. cbn [sv_met sv_db sv_net]. rewrite Hr. reflexivity. }
  rewrite Hh. assert (send_reply garbage1000 (overwrite 0 reply garbage71680) (zlen reply) = Ok [reply]) as Hsend.
  { assert (length (overwrite 0 reply garbage71680) = length garbage71680) as Hlo
      by (apply length_overwrite; unfold zlen in *; lia).
    rewrite send_plain; [|unfold zlen in *; rewrite ?Hlo; lia..|].
    - unfold overwrite. rewrite take_0. cbn [app]. unfold zlen. by rewrite Nat2Z.id, take_app_length.
    - unfold overwrite. rewrite take_0. cbn [app]. rewrite lookup_app_l; [done|]. unfold zlen in H3. lia. }
  erewrite M_bind_ok by (unfold lift; rewrite Hsend; reflexivity). done.
Qed.

(** A query with a semicolon at its end, of fewer than 128 characters. *)
Lemma command_text rest (text : string) : text = rest +:+ ";" → 3 ≤ slen rest → slen text < 128 →
  last (str_bytes text) ≠ Some x03 ∧ 4 ≤ slen text < 128.
Proof.
  intros -> Hr Hl. rewrite str_bytes_app. change (str_bytes ";") with ([x3b] : chars). rewrite last_snoc.
  split; [done|]. split; [|done]. rewrite slen_app. change (slen ";") with 1. lia.
Qed.

(** A [SELECT] received by any node whatever its buffers hold: one [RESULT] frame
    for the stream of the request with the record the owner of the key stores. *)
Lemma select_received (rest : string) (s0 s1 consistency flags : byte) (q : SelectStatement)
    (s : ServerState (St := cluster)) (n : nat) (σ : gmap string (Schema * store)) (a b : string)
    (d : Data) (schema : Schema) (st : store) (name : string) (tm : TableManager) (ds : list Data)
    (record_text : string) (count : Z) :
  let text := "SELECT " +:+ rest +:+ ";" in
  let keyspace := fs_keyspace (sl_from_spec q) in
  let table := fs_table (sl_from_spec q) in
  let request := query_request s0 s1 text consistency flags in
  plain text → slen text < 128 →
  s0 ≠ xff → (s0, s1) ≠ (x03, x00) → consistency ≠ x03 → flags ≠ x03 →
  visitRoot strtold (parse_tree text) = Ok [SELECT q] →
  routed junk strtold parse_tree ranges node0 rpc n σ a b (sv_net s) q d schema st →
  store_read st (Some d) = Ok (Some <$> ds) →
  map_find str_cmp table (db_table_managers (sv_db s)) = Ok (Some (name, tm)) → tm_schema tm = schema →
  carried keyspace table schema ds →
  serialize (Some (Some <$> ds)) = Ok record_text → slen record_text < 2 ^ 31 →
  zlen (rows_wire keyspace table schema ds) ≤ 3500 → selections (sv_met s) count →
  zlen garbage3500 = 3500 → zlen garbage71680 = 71680 →
  zlen (sv_buffer s) = MAX_MESSAGE_LEN → zlen (sv_new_buffer s) = MAX_MESSAGE_LEN →
  let body := rows_wire keyspace table schema ds in
  ∃ s' na na',
    receive_at b request s = (Ok tt, s') ∧
    sv_sent s' = sv_sent s ++ [[x83; x00; s0; s1; x08; x00; x00; x00; byte_of_Z (zlen body)] ++ body] ∧
    p_rows body = Some (MkRows keyspace table (client_column <$> m_fields schema)
                          [client_value <$> ds], []) ∧
    sv_met s' = <[2%nat := count + 1]> (<[4%nat := elapsed]> (sv_met s)) ∧ sv_db s' = sv_db s ∧
    sv_net s !! a = Some na ∧ sv_net s' = <[a := na']> (sv_net s) ∧ node_served n σ a na na'.
Proof.
  intros text keyspace table request Hp Hl Hff Hs Hc Hfl Hroot Hrt Hread Hfind Hsch Hcar Hser Hsl Hrows
    Hmet H35 Hhd Hb Hnb body.
  destruct (command_text ("SELECT " +:+ rest) text) as [Hlast Hl'];
    [unfold text; by rewrite str_app_assoc| |done|].
  { rewrite slen_app. pose proof (slen_nonneg rest). change (slen "SELECT ") with 7. lia. }
  destruct (query_delivered b text s0 s1 consistency flags s) as (f & bf & nbf & Hqf & Hstart & Hdel); try done.
  destruct (select_answered junk strtold parse_tree ranges node0 rpc garbage30000 garbage4096 garbage3500
    elapsed f rest consistency q (MkResponse "" garbage71680 0 (sv_met s) [] (sv_db s) (sv_net s)) n σ a b d
    schema st name tm ds record_text count) as (na & na' & Hna & Hresp & Hrep); try done.
  rewrite Hstart in Hresp. fold text in Hresp. cbn [rs_header rs_met rs_db rs_net] in Hresp.
  change (rows_wire _ _ _ _) with body in Hresp.
  set (reply := [x83; x00; s0; s1; x08; x00; x00; x00; byte_of_Z (zlen body)] ++ body).
  assert (zlen reply = zlen body + 9) as Hreply by (unfold reply; rewrite zlen_app; unfold zlen at 1; cbn; lia).
  pose proof (zlen_nonneg body). eexists _, na, na'. split.
  { etransitivity; [exact Hdel|]. eapply deliver_plain with (reply := reply); cbn [sv_met sv_db sv_net];
      [rewrite Hreply; exact Hresp|reflexivity|lia|unfold body, keyspace, table in *; lia|].
    unfold reply. cbn. congruence. }
  cbn [sv_sent sv_met sv_db sv_net rs_met rs_db rs_net]. split_and!; try done.
  destruct Hcar. rewrite <- (app_nil_r body). by apply p_rows_ok.
Qed.

(** A question about the system, received by any node whatever its buffers and
    the uninitialised arrays hold: one complete [RESULT] frame for the stream of
    the request, with the table that was asked for. *)
Lemma meta_received (text : string) (s0 s1 consistency flags : byte) (b : string) (t : SystemTable)
    (s : ServerState (St := cluster)) :
  let request := query_request s0 s1 text consistency flags in
  plain text → last (str_bytes text) ≠ Some x03 → 4 ≤ slen text < 128 → strstr text ";" = false →
  system_table text = Some t →
  s0 ≠ xff → (s0, s1) ≠ (x03, x00) → consistency ≠ x03 → flags ≠ x03 →
  zlen garbage4096 = 4096 → zlen garbage30000 = 30000 → zlen garbage71680 = 71680 →
  zlen (sv_buffer s) = MAX_MESSAGE_LEN → zlen (sv_new_buffer s) = MAX_MESSAGE_LEN →
  ∃ s' reply body rest,
    receive_at b request s = (Ok tt, s') ∧ sv_sent s' = sv_sent s ++ [reply] ∧
    read_frame reply = Some ([x83; x00; s0; s1; x08], body, []) ∧
    p_rows body = Some (sy_rows t, rest) ∧ length rest = sy_slack t ∧
    sv_met s' = sv_met s ∧ sv_db s' = sv_db s ∧ sv_net s' = sv_net s.
Proof.
  intros request Hp Hlast Hl Hsemi Hsys Hff Hs Hc Hfl H4 H30 Hhd Hb Hnb.
  destruct (query_delivered b text s0 s1 consistency flags s) as (f & bf & nbf & Hqf & Hstart & Hdel); try done.
  destruct (meta_reply_framed garbage4096 text garbage30000 t H4 H30 Hsys)
    as (n & data & Hmeta & Hn & body & Htake & Hlen & rest & Hrows & Hslack).
  pose proof (meta_reply junk strtold parse_tree (node_config ranges b) (the_node node0 b) (set_node b) rpc
    garbage30000 garbage4096 garbage3500 elapsed f consistency text
    (MkResponse "" garbage71680 0 (sv_met s) [] (sv_db s) (sv_net s)) n data Hqf Hp ltac:(lia) Hsemi
    eq_refl Hmeta) as Hresp.
  cbn [rs_header rs_met rs_db rs_net] in Hresp. rewrite Hstart, Htake in Hresp.
  set (reply := [x83; x00; s0; s1] ++ [x08] ++ be_bytes 4 (zlen body) ++ body) in *.
  assert (zlen reply = n) as Hreply.
  { unfold reply. rewrite !zlen_app, zlen_be_bytes. unfold zlen at 1 2. cbn. lia. }
  eexists _, reply, body, rest. split.
  { etransitivity; [exact Hdel|]. eapply deliver_plain with (reply := reply); cbn [sv_met sv_db sv_net];
      [rewrite Hreply; apply Hresp; lia|reflexivity|lia|lia|]. unfold reply. cbn. congruence. }
  cbn [sv_sent sv_met sv_db sv_net rs_met rs_db rs_net]. split_and!; try done.
  apply (read_full_length _ _ _ _ _ body). lia.
Qed.

(** *** On a connection of a server that runs *)

Context {K : Type} `{KernelSpec K}.

Abbreviation Cql := (CqlServer cluster K).
Abbreviation start_at b := (Server_new junk (the_node node0 b) (set_node b) (K := K)).
Abbreviation serves_at b := (serves junk strtold parse_tree (node_config ranges b) (the_node node0 b)
  (set_node b) rpc garbage30000 garbage4096 garbage3500 garbage71680 garbage1000 frame_junk elapsed (K := K)).
Abbreviation event_at b := (handle_event junk strtold parse_tree (node_config ranges b) (the_node node0 b)
  (set_node b) rpc garbage30000 garbage4096 garbage3500 garbage71680 garbage1000 frame_junk elapsed (K := K)).
Abbreviation round_at b := (wake junk strtold parse_tree (node_config ranges b) (the_node node0 b)
  (set_node b) rpc garbage30000 garbage4096 garbage3500 garbage71680 garbage1000 frame_junk elapsed (K := K)).

(** A reception on a connection, whatever comes of it. *)
Lemma event_receive b fd bytes (c : Cql) o sv : fd ≠ cq_listen c →
  receive_at b bytes (MkServer (sv_buffer (cq_server c)) (sv_new_buffer (cq_server c)) (sv_met (cq_server c))
    (sv_db (cq_server c)) (sv_net (cq_server c)) []) = (o, sv) →
  ∃ c', event_at b (fd, bytes) c = (o, c') ∧
    cq_replies c' = cq_replies c ++ (pair fd <$> sv_sent sv) ∧
    cq_server c' = MkServer (sv_buffer sv) (sv_new_buffer sv) (sv_met sv) (sv_db sv) (sv_net sv) [] ∧
    cq_kernel c' = cq_kernel c ∧ cq_listen c' = cq_listen c.
Proof.
  intros Hfd Hrec. eexists. split.
  { unfold handle_event. erewrite M_bind_ok by reflexivity. cbn [fst snd].
    rewrite (proj2 (Z.eqb_neq _ _)) by done.
    unfold serve_connection, zoom, receive_on. cbn [fst snd]. rewrite Hrec. reflexivity. }
  by cbn.
Qed.

Lemma round_events b events (c : Cql) :
  round_at b (Some events) c = for_each (event_at b) events (refreshed c).
Proof. by rewrite wake_eq. Qed.

(** A round with one reception. *)
Lemma round_receive b fd bytes (c : Cql) o sv : fd ≠ cq_listen c →
  receive_at b bytes (MkServer (sv_buffer (cq_server c)) (sv_new_buffer (cq_server c)) (sv_met (cq_server c))
    (sv_db (cq_server c)) (sv_net (cq_server c)) []) = (o, sv) →
  ∃ c', round_at b (Some [(fd, bytes)]) c = (o, c') ∧
    cq_replies c' = cq_replies c ++ (pair fd <$> sv_sent sv) ∧
    cq_server c' = MkServer (sv_buffer sv) (sv_new_buffer sv) (sv_met sv) (sv_db sv) (sv_net sv) [] ∧
    cq_kernel c' = cq_kernel c.
Proof.
  intros Hfd Hrec. destruct (event_receive b fd bytes (refreshed c) o sv Hfd Hrec) as (c' & He & Hr & Hs & Hk & _).
  exists c'. rewrite round_events. cbn [for_each]. split; [|done]. by rewrite M_bind_ret.
Qed.

(** The arrays of a server that runs. *)
Lemma served_lengths (garbage2048 : chars) (port prom_port : Z) (st st' : cluster * K) (c0 c1 : Cql) (n : nat)
    (b : string) : zlen garbage2048 = MAX_MESSAGE_LEN →
  start_at b garbage2048 port prom_port st = (Ok c0, st') → serves_at b n c0 c1 →
  zlen (sv_buffer (cq_server c1)) = MAX_MESSAGE_LEN ∧ zlen (sv_new_buffer (cq_server c1)) = MAX_MESSAGE_LEN.
Proof.
  intros Hg Hstart Hserves. apply start_sizes in Hstart. apply serves_sizes in Hserves as Hz.
  2:{ unfold sizes in Hstart. congruence. }
  rewrite Hstart in Hz. unfold sizes in Hz. injection Hz as Hz1 Hz2. unfold zlen in *. by rewrite Hz1, Hz2.
Qed.

Section reads.
(** *** Any reads, on any connections *)

(** A request for a record: the connection, the parts of the [QUERY], what it asks
    for, and the answer of the store under the table's schema. *)
Record Read := MkRead {
  rd_fd : Z;
  rd_rest : string;
  rd_s0 : byte;
  rd_s1 : byte;
  rd_consistency : byte;
  rd_flags : byte;
  rd_select : SelectStatement;
  rd_key : Data;
  rd_schema : Schema;
  rd_answer : list Data
}.
Implicit Types (rd : Read) (Σ : gmap string (gmap string (Schema * store))).

Definition rd_text rd : string := "SELECT " +:+ rd_rest rd +:+ ";".
Definition rd_keyspace rd : string := fs_keyspace (sl_from_spec (rd_select rd)).
Definition rd_table rd : string := fs_table (sl_from_spec (rd_select rd)).

(** What the loop is told of it. *)
Definition rd_event rd : Z * chars :=
  (rd_fd rd, query_request (rd_s0 rd) (rd_s1 rd) (rd_text rd) (rd_consistency rd) (rd_flags rd)).

(** The body of the reply, and what a client that is given all of it reads: the
    record, under the names and types of the schema. *)
Definition rd_body rd : chars := rows_wire (rd_keyspace rd) (rd_table rd) (rd_schema rd) (rd_answer rd).
Definition rd_rows rd : Rows :=
  MkRows (rd_keyspace rd) (rd_table rd) (client_column <$> m_fields (rd_schema rd)) [client_value <$> rd_answer rd].

(** A reply to it: on the same connection, one [RESULT] for the same stream.  A
    client that cuts it by its length reads the record from a body below 256
    bytes, with nothing left; of a longer one it is given the first bytes, as many
    as the length modulo 256, and takes the others for the next frame. *)
Definition answers rd (reply : Z * chars) : Prop :=
  let header := [x83; x00; rd_s0 rd; rd_s1 rd; x08] in
  let k := Z.to_nat (zlen (rd_body rd) mod 256) in
  reply.1 = rd_fd rd ∧ p_rows (rd_body rd) = Some (rd_rows rd, []) ∧
  read_frame reply.2 = Some (header, take k (rd_body rd), drop k (rd_body rd)) ∧
  (zlen (rd_body rd) < 256 →
    ∃ body, read_frame reply.2 = Some (header, body, []) ∧ p_rows body = Some (rd_rows rd, [])).

(** The request is one a server on [b] can carry, and [Σ], the stores of the
    nodes, holds its answer. *)
Record read_ok (b : string) Σ (db : Database) rd : Prop := {
  ro_plain : plain (rd_text rd);
  ro_short : slen (rd_text rd) < 128;
  ro_stream : rd_s0 rd ≠ xff ∧ (rd_s0 rd, rd_s1 rd) ≠ (x03, x00);
  ro_tail : rd_consistency rd ≠ x03 ∧ rd_flags rd ≠ x03;
  ro_parsed : visitRoot strtold (parse_tree (rd_text rd)) = Ok [SELECT (rd_select rd)];
  ro_where : ∃ e es, sl_where_spec (rd_select rd) = e :: es ∧ re_operand e = Some (rd_key rd);
  ro_key : data_wf (rd_key rd);
  ro_stored : ∃ key a σ st, Data_print (rd_key rd) = Ok key ∧ key ≠ "" ∧
    get_address (node_config ranges b) key = Some a ∧ Σ !! a = Some σ ∧
    σ !! rd_table rd = Some (rd_schema rd, st) ∧ table_request_ok σ (rd_table rd) (Get (rd_key rd)) ∧
    store_read st (Some (rd_key rd)) = Ok (Some <$> rd_answer rd);
  ro_known : ∃ name tm, map_find str_cmp (rd_table rd) (db_table_managers db) = Ok (Some (name, tm)) ∧
    tm_schema tm = rd_schema rd;
  ro_carried : carried (rd_keyspace rd) (rd_table rd) (rd_schema rd) (rd_answer rd);
  ro_serialized : ∃ text, serialize (Some (Some <$> rd_answer rd)) = Ok text ∧ slen text < 2 ^ 31;
  ro_rows : zlen (rows_wire (rd_keyspace rd) (rd_table rd) (rd_schema rd) (rd_answer rd)) ≤ 3500
}.

(** The nodes hold the stores [Σ], and have descriptors left for [k] reads. *)
Record cluster_holds (b : string) (k : nat) Σ (c : cluster) : Prop := {
  ho_receiver : ∃ nb, c !! b = Some nb ∧ streamers_ok nb;
  ho_owners : ∀ a σ, Σ !! a = Some σ → ∃ na n, c !! a = Some na ∧ node_represents n σ a na ∧
    (size (fds na.2) + k * (n + k + 2) ≤ fd_max)%nat ∧ Z.of_nat (n + k) < 2 ^ 62
}.

Lemma holds_read b k Σ c a σ n na na' : cluster_holds b (S k) Σ c → Σ !! a = Some σ → c !! a = Some na →
  (size (fds na.2) + S k * (n + S k + 2) ≤ fd_max)%nat → Z.of_nat (n + S k) < 2 ^ 62 →
  node_served n σ a na na' → cluster_holds b k Σ (<[a := na']> c).
Proof.
  intros [(nb & Hb & Hstr) Ho] HΣ Ha Hroom Hn [Hrep Hs Hfds]. split.
  - destruct (decide (a = b)) as [<-|Hne].
    + exists na'. rewrite lookup_insert_eq. split; [done|]. simplify_eq. intros x y. rewrite Hs. apply Hstr.
    + exists nb. by rewrite lookup_insert_ne.
  - intros a' σ' HΣ'. destruct (decide (a = a')) as [<-|Hne].
    + simplify_eq. exists na', (S n). rewrite lookup_insert_eq. split_and!; [done|done| |lia]. nia.
    + destruct (Ho a' σ' HΣ') as (na2 & n2 & Ha2 & Hrep2 & Hroom2 & Hn2).
      exists na2, n2. rewrite lookup_insert_ne by done. split_and!; [done|done| |lia]. nia.
Qed.

(** A server that can answer [k] more reads. *)
Record reading (b : string) (k : nat) Σ (db : Database) (count : Z) (c : Cql) : Prop := {
  rg_buffers : sizes (cq_server c) = (Z.to_nat MAX_MESSAGE_LEN, Z.to_nat MAX_MESSAGE_LEN);
  rg_db : sv_db (cq_server c) = db;
  rg_holds : cluster_holds b k Σ (sv_net (cq_server c));
  rg_count : sv_met (cq_server c) !! 2%nat = Some count ∧ 0 ≤ count ∧ count + Z.of_nat k < 2 ^ 31
}.

Context (Hrpc : rpc_delivers junk strtold parse_tree ranges node0 rpc).
Context (G35 : zlen garbage3500 = 3500) (G7 : zlen garbage71680 = 71680).

(** From [c] to [c'] with the given replies, and nothing changed but buffers,
    counters and the owners of the keys. *)
Record went Σ (replies : list (Z * chars)) (c c' : Cql) : Prop := {
  we_replies : cq_replies c' = cq_replies c ++ replies;
  we_listen : cq_listen c' = cq_listen c;
  we_kernel : cq_kernel c' = cq_kernel c;
  we_others : ∀ a, Σ !! a = None → sv_net (cq_server c') !! a = sv_net (cq_server c) !! a
}.

Lemma went_trans Σ r1 r2 c1 c2 c3 : went Σ r1 c1 c2 → went Σ r2 c2 c3 → went Σ (r1 ++ r2) c1 c3.
Proof.
  intros [Hr1 Hl1 Hk1 Ho1] [Hr2 Hl2 Hk2 Ho2]. split; [by rewrite Hr2, Hr1, app_assoc|congruence..|].
  intros a Ha. by rewrite Ho2, Ho1.
Qed.

Lemma answers_reply rd : p_rows (rd_body rd) = Some (rd_rows rd, []) →
  answers rd (rd_fd rd,
    [x83; x00; rd_s0 rd; rd_s1 rd; x08; x00; x00; x00; byte_of_Z (zlen (rd_body rd))] ++ rd_body rd).
Proof.
  intros Hrows. pose proof (zlen_nonneg (rd_body rd)). unfold answers. cbv zeta. cbn [fst snd].
  rewrite read_short_length. split_and!; try done.
  intros Hlt. exists (rd_body rd). split; [|done]. rewrite Z.mod_small by lia. unfold zlen.
  by rewrite Nat2Z.id, take_ge, drop_ge by lia.
Qed.

Lemma read_event b k Σ db count rd (c : Cql) :
  read_ok b Σ db rd → rd_fd rd ≠ cq_listen c → reading b (S k) Σ db count c →
  ∃ c' reply, event_at b (rd_event rd) c = (Ok tt, c') ∧ answers rd reply ∧ went Σ [reply] c c' ∧
    reading b k Σ db (count + 1) c'.
Proof.
  intros [Hp Hl [Hff Hs] [Hc Hfl] Hroot Hw Hwf (key & a & σ & st & Hpr & Hne & Haddr & HΣ & Hσ & Hreq & Hread)
    (name & tm & Hfind & Hsch) Hcar (text & Hser & Hsl) Hrows] Hfd [Hsz Hdb Hho [Hmet Hcount]].
  assert (zlen (sv_buffer (cq_server c)) = MAX_MESSAGE_LEN ∧ zlen (sv_new_buffer (cq_server c)) = MAX_MESSAGE_LEN)
    as [Hb Hnb] by (unfold sizes in Hsz; injection Hsz as Hz1 Hz2; unfold zlen; by rewrite Hz1, Hz2).
  destruct (ho_owners _ _ _ _ Hho a σ HΣ) as (na & n & Hna & Hrep & Hroom & Hn). subst db.
  destruct (select_received (rd_rest rd) (rd_s0 rd) (rd_s1 rd) (rd_consistency rd) (rd_flags rd) (rd_select rd)
    (MkServer (sv_buffer (cq_server c)) (sv_new_buffer (cq_server c)) (sv_met (cq_server c))
       (sv_db (cq_server c)) (sv_net (cq_server c)) []) n σ a b (rd_key rd) (rd_schema rd) st name tm
    (rd_answer rd) text count) as (sv & na1 & na' & Hrun & Hsent & Hbody & Hmet' & Hdb' & Hna1 & Hnet & Hnr);
    try done.
  { split; try done; [apply Hho|exists na; split_and!; [done|done|nia]|lia|by exists key]. }
  { split; [done|]. unfold in_s. lia. }
  cbn [sv_met sv_db sv_net] in *. simplify_eq.
  destruct (event_receive b (rd_fd rd) _ c _ sv Hfd Hrun) as (c' & Hev & Hrepl & Hsv & Hk & Hli).
  fold (rd_body rd) (rd_keyspace rd) (rd_table rd) in Hbody, Hsent.
  eexists c', (rd_fd rd, _). split; [done|]. split; [|split].
  { by apply (answers_reply rd). }
  - split; [rewrite Hrepl, Hsent; reflexivity|done|done|]. intros a' Ha'. rewrite Hsv. cbn. rewrite Hnet.
    apply lookup_insert_ne. congruence.
  - split; rewrite Hsv; cbn.
    + rewrite <- Hsz. pose proof (event_sizes junk strtold parse_tree (node_config ranges b) (the_node node0 b)
        (set_node b) rpc garbage30000 garbage4096 garbage3500 garbage71680 garbage1000 frame_junk elapsed
        (rd_event rd) c) as Hes. change (event_at b (rd_event rd) c = (Ok tt, c')) in Hev.
      rewrite Hev in Hes. cbn [snd] in Hes. rewrite Hsv in Hes. apply Hes; [|exact (f_equal fst Hsz)].
      cbn [rd_event snd]. rewrite zlen_query_request. unfold MAX_MESSAGE_LEN. lia.
    + done.
    + rewrite Hnet. by eapply holds_read.
    + rewrite Hmet'. split; [|lia]. apply list_lookup_insert_eq.
      rewrite length_insert. by eapply lookup_lt_Some.
Qed.

Lemma read_events b k Σ db reads : ∀ count (c : Cql),
  Forall (λ rd, read_ok b Σ db rd ∧ rd_fd rd ≠ cq_listen c) reads →
  reading b (length reads + k) Σ db count c →
  ∃ c' replies, for_each (event_at b) (rd_event <$> reads) c = (Ok tt, c') ∧ Forall2 answers reads replies ∧
    went Σ replies c c' ∧ reading b k Σ db (count + zlen reads) c'.
Proof.
  induction reads as [|rd reads IH]; intros count c Hok Hr.
  { exists c, []. cbn in *. rewrite Z.add_0_r. split_and!; try done. split; try done. by rewrite app_nil_r. }
  apply Forall_cons in Hok as [[Hrd Hfd] Hok].
  destruct (read_event b _ Σ db count rd c Hrd Hfd Hr) as (c1 & reply & He & Ha & Hw & Hr1).
  destruct (IH (count + 1) c1) as (c2 & replies & Hes & Has & Hw2 & Hr2); [|done|].
  { by rewrite (we_listen _ _ _ _ Hw). }
  exists c2, (reply :: replies). split_and!.
  - cbn [fmap list_fmap for_each]. by erewrite M_bind_ok by exact He.
  - by constructor.
  - by apply (went_trans Σ [reply] replies c c1 c2).
  - by replace (count + zlen (rd :: reads)) with (count + 1 + zlen reads) by (unfold zlen; cbn [length]; lia).
Qed.

(** Rounds of the loop, each with any number of reads. *)
Lemma read_rounds b k Σ db rounds : ∀ count (c : Cql),
  Forall (λ rd, read_ok b Σ db rd ∧ rd_fd rd ≠ cq_listen c) (concat rounds) →
  reading b (length (concat rounds) + k) Σ db count c →
  ∃ c' replies, for_each (λ reads, round_at b (Some (rd_event <$> reads))) rounds c = (Ok tt, c') ∧
    Forall2 answers (concat rounds) replies ∧ went Σ replies c c' ∧
    reading b k Σ db (count + zlen (concat rounds)) c'.
Proof.
  induction rounds as [|reads rounds IH]; intros count c Hok Hr.
  { exists c, []. cbn in *. rewrite Z.add_0_r. split_and!; try done. split; try done. by rewrite app_nil_r. }
  cbn [concat] in *. apply Forall_app in Hok as [Hok1 Hok2].
  rewrite length_app, <- Nat.add_assoc in Hr.
  destruct (read_events b (length (concat rounds) + k) Σ db reads count (refreshed c) Hok1) as (c1 & replies1 & He & Ha & Hw & Hr1);
    [by destruct Hr|].
  assert (went Σ replies1 c c1) as Hw' by (by destruct Hw).
  destruct (IH (count + zlen reads) c1) as (c2 & replies & Hes & Has & Hw2 & Hr2); [|done|].
  { by rewrite (we_listen _ _ _ _ Hw'). }
  exists c2, (replies1 ++ replies). split_and!.
  - cbn [for_each]. erewrite M_bind_ok; [exact Hes|]. by rewrite round_events.
  - by apply Forall2_app.
  - by apply (went_trans Σ replies1 replies c c1 c2).
  - by rewrite zlen_app, Z.add_assoc.
Qed.

End reads.

End service.

(** ** An example *)

Import MemFS.
(** A client connects and asks the first question of a driver. *)
Import MemKernel.

Definition driver_start := Server_new (K := kernel) (λ _, x00) (the_node empty_node "B") (set_node "B")
  (replicate 2048 x00) 9042 8080 (example_cluster, boot).

Abbreviation driver_round := (wake (K := kernel) (λ _, x00) (λ _, 0) example_tree
  (node_config example_ranges "B") (the_node empty_node "B") (set_node "B") example_rpc
  (replicate (Z.to_nat 30000) x00) (replicate (Z.to_nat 4096) xaa) [] (replicate (Z.to_nat 71680) x00)
  (replicate 1000 x00) (0, 0) 12).
Abbreviation driver_serves := (serves (K := kernel) (λ _, x00) (λ _, 0) example_tree
  (node_config example_ranges "B") (the_node empty_node "B") (set_node "B") example_rpc
  (replicate (Z.to_nat 30000) x00) (replicate (Z.to_nat 4096) xaa) [] (replicate (Z.to_nat 71680) x00)
  (replicate 1000 x00) (0, 0) 12).

Definition driver_run : bool :=
  match driver_start with
  | (Ok c0, _) => is_ok (driver_round (Some [(cq_listen c0, [])]) c0).1
  | _ => false
  end.


(** A node whose files hold the table of the owner, opened by its server; a client
    connects, and asks for a record. *)
Definition saved_world : world fsview :=
  match Database_new (λ _, x00) "database" empty_world with
  | (Ok db, w) => ((create_table "races" example_schema;; flush_metadata) (db, w)).2.2
  | (_, w) => w
  end.

Definition saved_cluster : gmap string (StateStore * world fsview) :=
  {["A" := example_node; "B" := (empty_node.1, saved_world)]}.

Definition select_start := Server_new (K := kernel) (λ _, x00) (the_node empty_node "B") (set_node "B")
  (replicate 2048 x00) 9042 8080 (saved_cluster, boot).

Abbreviation select_round := (wake (K := kernel) (λ _, x00) (λ _, 0) example_tree
  (node_config example_ranges "B") (the_node empty_node "B") (set_node "B") example_rpc
  [] [] (replicate (Z.to_nat 3500) x00) (replicate (Z.to_nat 71680) x00) (replicate 1000 x00) (0, 0) 12).
Abbreviation select_serves := (serves (K := kernel) (λ _, x00) (λ _, 0) example_tree
  (node_config example_ranges "B") (the_node empty_node "B") (set_node "B") example_rpc
  [] [] (replicate (Z.to_nat 3500) x00) (replicate (Z.to_nat 71680) x00) (replicate 1000 x00) (0, 0) 12).

(** The server once two clients have connected. *)
Definition select_run : option (CqlServer (gmap string (StateStore * world fsview)) kernel *
                                CqlServer (gmap string (StateStore * world fsview)) kernel) :=
  match select_start with
  | (Ok c0, _) => match select_round (Some [(cq_listen c0, []); (cq_listen c0, [])]) c0 with
                  | (Ok _, c1) => Some (c0, c1)
                  | _ => None
                  end
  | _ => None
  end.

Definition serves_races (sv : ServerState (St := gmap string (StateStore * world fsview))) : Prop :=
  sv_net sv !! "A" = Some example_node ∧
  match sv_net sv !! "B" with Some nb => nb.1 = empty_node.1 | None => False end ∧
  match map_find str_cmp "races" (db_table_managers (sv_db sv)) with
  | Ok (Some (name, tm)) => tm_schema tm = example_schema
  | _ => False
  end ∧ sv_met sv = replicate 8 0.

Lemma select_run_ok :
  match select_run with Some (_, c1) => serves_races (cq_server c1) | None => False end.
Proof. vm_compute. repeat split; reflexivity. Qed.

Definition example_read (fd : Z) (stream : byte) : Read :=
  MkRead fd "* FROM races WHERE id = 1" x00 stream x01 x00 example_select (IntData 1) example_schema example_answer.

(** Two clients ask at once, and one of them again. *)
Definition example_reads (listen : Z) : list (list Read) :=
  [[example_read (listen + 2) x07; example_read (listen + 3) x08]; [example_read (listen + 2) x09]].

Lemma example_read_ok fd stream db name tm :
  map_find str_cmp "races" (db_table_managers db) = Ok (Some (name, tm)) → tm_schema tm = example_schema →
  read_ok (λ _, 0) example_tree example_ranges "B" {["A" := example_stores]} db (example_read fd stream).
Proof.
  intros Hfind Hsch. split; cbn [example_read rd_s0 rd_s1 rd_consistency rd_flags rd_select rd_key rd_schema rd_answer].
  - unfold plain. repeat apply Forall_cons_2; try apply Forall_nil_2; vm_compute; split; congruence.
  - vm_compute. reflexivity.
  - split; congruence.
  - split; congruence.
  - reflexivity.
  - by exists (MkRelation "id" EQ (Some (IntData 1))), [].
  - split; vm_compute; done.
  - exists "1", "A", example_stores, (MkStore (Some (Some (IntData 1), row 1 "Alice")) []).
    split_and!; try reflexivity; [done|]. intros schema s t Hs Ht. vm_compute in Hs. simplify_eq. injection Ht as <-.
    split; [split; vm_compute; done|reflexivity].
  - by exists name, tm.
  - apply example_carried.
  - exists "TdF,0,3|1,5,4|Alice,0,5|". by split.
  - vm_compute. congruence.
Qed.

Lemma example_streamers (node : StateStore * world fsview) : node.1 = empty_node.1 → streamers_ok node.
Proof.
  intros Hs x y. rewrite Hs. cbn [empty_node fst ss_streamers str_map_get].
  repeat case_match; intros; simplify_eq; by apply String.eqb_eq.
Qed.

Lemma example_holds (c : gmap string (StateStore * world fsview)) nb :
  c !! "A" = Some example_node → c !! "B" = Some nb → nb.1 = empty_node.1 →
  cluster_holds "B" 3 {["A" := example_stores]} c.
Proof.
  intros HA HB Hnb. split.
  - exists nb. split; [done|]. by apply example_streamers.
  - intros a σ [<- <-]%lookup_singleton_Some. exists example_node, 0%nat. split_and!; [done| |vm_compute; lia|done].
    exists example_db. split; [reflexivity|apply example_db_represents].
Qed.

Lemma example_rpc_delivers :
  rpc_delivers (λ _, x00) (λ _, 0) example_tree example_ranges empty_node example_rpc.
Proof. intros a query c0 text c' Hrun. unfold example_rpc. by erewrite M_bind_ok by exact Hrun. Qed.

