(* ===== verification/Failures.v ===== *)
(** * Requests that fail

    What a client gets, and what becomes of the server, when a statement cannot be
    answered: a record or a table that is not there, a record that does not fit its
    table, the statements that have no result, and an owner that cannot be reached. *)

From Stdlib Require Import ZArith Lia Strings.Byte Ascii String.
From stdpp Require Import base list list_numbers strings gmap pretty.
From S2P Require Import Prelude Errors Buffer OrdMap Data Catalog IndexPage Summary FileSystem Disk Sstable TableManager Database.
From S2P Require Import Text Lang Wire Dht MetaTables Metadata ServerMsg Query Http HttpServer Kernel Endpoint Server Counters.
From S2P Require Import CqlServer Service.

Local Open Scope Z_scope.

(** A run that ends with an exception or with undefined behaviour. *)
Definition stop : Type := exn + ub.
Definition stop_with {A} (x : stop) : outcome A := match x with inl e => Throw e | inr u => Undef u end.

(** A command a client can send. *)
Record command (text : string) (s0 s1 consistency flags : byte) : Prop := {
  cm_text : ∃ head, text = head +:+ ";" ∧ 3 ≤ slen head;
  cm_plain : plain text;
  cm_short : slen text < 128;
  cm_first : repair_query text = Ok text;
  cm_stream : s0 ≠ xff ∧ (s0, s1) ≠ (x03, x00);
  cm_tail : consistency ≠ x03 ∧ flags ≠ x03
}.

(** ** What the stores refuse *)

Lemma store_serve_throws schema q s :
  match (store_serve schema q s).1 with
  | GetReply o => (∃ r, o = Ok r) ∨ o = Throw non_existent_record_error
  | PutReply o => o = Ok tt ∨ o = Throw schema_mismatch_error
  end.
Proof.
  destruct q as [key|record]; cbn [store_serve fst].
  - unfold store_read. destruct (store_entry s (Some key)); eauto.
  - destruct (Schema_verify schema record) as [[]| |], (Record_index record (m_sort_key_index schema));
      cbn [fst]; auto.
Qed.

(** The exceptions a statement can end with. *)
Lemma executed_throws σ q e : executed (abs_step σ q).1 = Throw e →
  e = non_existent_record_error ∨ first_handler (A := unit) [(C_non_existent_record_error, λ _, tt);
    (C_unspported_cql_statement, λ _, tt)] e = None.
Proof.
  assert (∀ name q', executed (abs_request σ name q').1 = Throw e →
    e = non_existent_record_error ∨ e = schema_mismatch_error ∨ e = uncomparable_type_error) as Hreq.
  { intros name q'. unfold abs_request. destruct (σ !! name) as [[schema s]|].
    - pose proof (store_serve_throws schema q' s) as Hs. destruct (store_serve schema q' s) as [[o|o] s'];
        cbn [fst executed] in *.
      + destruct Hs as [[r ->]| ->]; cbn; [by destruct r|intros [= <-]; auto].
      + destruct Hs as [-> | ->]; cbn; [done|intros [= <-]; auto].
    - destruct q'; cbn; [intros [= <-]; auto|done]. }
  destruct q as [name schema|name key|name record]; cbn [abs_step]; [done|..];
    intros [-> |[-> | ->]]%Hreq; auto.
Qed.

Section failures.
Context {F : Type} `{PosixSpec F}.
Context (junk : Z → byte) (strtold : string → Z).
Context (parse_tree : string → option (list CqlContext)).
Context (ranges : list Range) (node0 : StateStore * world F).
Context (rpc : string → string → M (gmap string (StateStore * world F)) (Z * string + string)).
Context (garbage30000 garbage4096 garbage3500 garbage71680 garbage1000 : chars).
Context (frame_junk : Z * Z) (elapsed : Z).
Context {K : Type} `{KernelSpec K}.

Abbreviation cluster := (gmap string (StateStore * world F)).
Abbreviation Cql := (CqlServer cluster K).
Abbreviation start_at b := (Server_new junk (the_node node0 b) (set_node b) (K := K)).
Abbreviation serves_at b := (serves junk strtold parse_tree (node_config ranges b) (the_node node0 b)
  (set_node b) rpc garbage30000 garbage4096 garbage3500 garbage71680 garbage1000 frame_junk elapsed (K := K)).
Abbreviation round_at b := (wake junk strtold parse_tree (node_config ranges b) (the_node node0 b)
  (set_node b) rpc garbage30000 garbage4096 garbage3500 garbage71680 garbage1000 frame_junk elapsed (K := K)).
Abbreviation receive_at b := (on_receive junk strtold parse_tree (node_config ranges b)
  (the_node node0 b) (set_node b) rpc garbage30000 garbage4096 garbage3500 garbage71680 garbage1000
  frame_junk elapsed).
Abbreviation respond_at b := (CreateResponse junk strtold parse_tree (node_config ranges b)
  (the_node node0 b) (set_node b) rpc garbage30000 garbage4096 garbage3500 elapsed).
Abbreviation process_on b := (process_at junk strtold parse_tree ranges node0 rpc b).

(** The response a request starts with. *)
Abbreviation fresh_response s := (MkResponse "" garbage71680 0 (sv_met s) [] (sv_db s) (sv_net s)).

(** ** One reception *)

Lemma command_received b (text : string) (s0 s1 consistency flags : byte) (s : ServerState (St := cluster)) :
  command text s0 s1 consistency flags →
  zlen (sv_buffer s) = MAX_MESSAGE_LEN → zlen (sv_new_buffer s) = MAX_MESSAGE_LEN →
  ∃ f buffer new_buffer, query_frame f text consistency ∧ reply_start f = [x83; x00; s0; s1] ∧
    receive_at b (query_request s0 s1 text consistency flags) s =
      deliver junk strtold parse_tree ranges node0 rpc garbage30000 garbage4096 garbage3500 garbage71680
        garbage1000 elapsed b f
        (MkServer buffer new_buffer (sv_met s) (sv_db s) (sv_net s) (sv_sent s)).
Proof.
  intros [(hd & Htext & Hhd) Hp Hl _ [_ Hs] [Hc Hfl]] Hb Hnb.
  destruct (command_text hd text Htext Hhd Hl) as [Hlast Hl']. by apply query_delivered.
Qed.

(** A response that ends ends the reception, before anything is sent. *)
Lemma stopped_received b text s0 s1 consistency flags (s : ServerState (St := cluster)) net' x :
  command text s0 s1 consistency flags →
  zlen (sv_buffer s) = MAX_MESSAGE_LEN → zlen (sv_new_buffer s) = MAX_MESSAGE_LEN →
  (∀ f, query_frame f text consistency → ∃ r', respond_at b f (fresh_response s) = (stop_with x, r') ∧
    stopped (fresh_response s) net' r') →
  ∃ s', receive_at b (query_request s0 s1 text consistency flags) s = (stop_with x, s') ∧
    sv_sent s' = sv_sent s ∧ sv_net s' = net' ∧ sv_db s' = sv_db s ∧ sv_met s' = sv_met s.
Proof.
  intros Hcmd Hb Hnb Hres.
  destruct (command_received b text s0 s1 consistency flags s Hcmd Hb Hnb) as (f & bf & nbf & Hqf & _ & Hdel).
  destruct (Hres f Hqf) as (r' & Hr & Hnet & Hdb & Hmet).
  exists (MkServer bf nbf (rs_met r') (rs_db r') (rs_net r') (sv_sent s)).
  split; [|by split_and!]. rewrite Hdel. unfold deliver.
  destruct x as [e|u]; [apply M_bind_throw|apply M_bind_undef];
    unfold create_response; cbn [sv_met sv_db sv_net]; by rewrite Hr.
Qed.

(** A reply that is written whole. *)
Lemma plain_received b text s0 s1 consistency flags (s : ServerState (St := cluster)) rest
    (P : Response (St := cluster) → Prop) :
  command text s0 s1 consistency flags →
  zlen (sv_buffer s) = MAX_MESSAGE_LEN → zlen (sv_new_buffer s) = MAX_MESSAGE_LEN →
  let reply := [x83; x00; s0; s1] ++ rest in zlen reply < zlen garbage71680 →
  (∀ f, query_frame f text consistency → reply_start f = [x83; x00; s0; s1] →
     ∃ r, respond_at b f (fresh_response s) = (Ok (zlen reply), r) ∧
          rs_header r = overwrite 0 reply garbage71680 ∧ P r) →
  ∃ s' r, P r ∧ receive_at b (query_request s0 s1 text consistency flags) s = (Ok tt, s') ∧
    sv_sent s' = sv_sent s ++ [reply] ∧ sv_net s' = rs_net r ∧ sv_db s' = rs_db r ∧ sv_met s' = rs_met r.
Proof.
  intros Hcmd Hb Hnb reply Hl Hres.
  destruct (command_received b text s0 s1 consistency flags s Hcmd Hb Hnb) as (f & bf & nbf & Hqf & Hst & Hdel).
  destruct (Hres f Hqf Hst) as (r & Hr & Hhead & HP). eexists _, r. split; [done|]. split.
  { etransitivity; [exact Hdel|]. eapply deliver_plain with (reply := reply) (r := r); try done.
    - unfold reply. rewrite zlen_app. pose proof (zlen_nonneg rest). unfold zlen at 1. cbn. lia.
    - unfold reply. cbn. destruct Hcmd as [_ _ _ _ [Hff _] _]. congruence. }
  by cbn.
Qed.
(** ** A node that answers for itself *)

Lemma logged_represents n σ a (node : StateStore * world F) log :
  node_represents n σ a node → node_represents n σ a (node.1, World (w_fs node.2) log).
Proof.
  intros (db & Hdb & Hrep). exists db. split; [done|].
  by apply (db_represents_same _ _ _ node.2).
Qed.

(** What one request comes to, by what [process] does with it. *)
Lemma failed_received b text s0 s1 consistency flags (s : ServerState (St := cluster)) stmts x net' count :
  command text s0 s1 consistency flags → zlen garbage71680 = 71680 →
  zlen (sv_buffer s) = MAX_MESSAGE_LEN → zlen (sv_new_buffer s) = MAX_MESSAGE_LEN →
  visitRoot strtold (parse_tree text) = Ok stmts →
  process_on b text (sv_net s) = (stop_with x, net') →
  sv_met s !! 7%nat = Some count → in_s 32 (count + 1) →
  let request := query_request s0 s1 text consistency flags in
  (x = inl non_existent_record_error →
   ∃ s', receive_at b request s = (Ok tt, s') ∧
     sv_sent s' = sv_sent s ++ [[x83; x00; s0; s1; x08] ++ take 4 (drop 5 garbage71680)] ∧
     sv_net s' = logged (the_node node0 b) (set_node b) net' ∧ sv_db s' = sv_db s ∧
     sv_met s' = <[7%nat := count + 1]> (sv_met s)) ∧
  (match x with inl e => first_handler (query_handlers (the_node node0 b) (set_node b)) e = None | inr _ => True end →
   ∃ s', receive_at b request s = (stop_with x, s') ∧
     sv_sent s' = sv_sent s ∧ sv_net s' = net' ∧ sv_db s' = sv_db s ∧ sv_met s' = sv_met s).
Proof.
  intros Hcmd H7 Hb Hnb Hroot Hproc Hmet Hcount request.
  pose proof Hcmd as [(hd & -> & Hhd) Hp Hl Hfirst _ _]. unfold zlen in H7. split.
  - intros ->. destruct (plain_received b (hd +:+ ";") s0 s1 consistency flags s
      ([x08] ++ take 4 (drop 5 garbage71680))
      (λ r, rs_net r = logged (the_node node0 b) (set_node b) net' ∧ rs_db r = sv_db s ∧
            rs_met r = <[7%nat := count + 1]> (sv_met s))) as (s' & r & (Hn & Hd & Hm) & Hrun & Hsent & Hn' & Hd' & Hm');
      try done.
    + unfold zlen. cbn [app length]. rewrite length_take, length_drop. lia.
    + intros f Hqf Hst. eexists. split.
      { replace (zlen _) with 9 by (unfold zlen; cbn [app length]; rewrite length_take, length_drop; lia).
        apply (respond_missing junk strtold parse_tree (node_config ranges b) (the_node node0 b) (set_node b) rpc
          garbage30000 garbage4096 garbage3500 elapsed f consistency hd (fresh_response s) stmts net' count);
          try done. cbn [rs_header]. unfold zlen. lia. }
      cbn [rs_header]. unfold unwritten. rewrite Hst. by split.
    + exists s'. rewrite Hn', Hd', Hm'. by split_and!.
  - intros Hx. apply (stopped_received b (hd +:+ ";") s0 s1 consistency flags s net' x); try done.
    intros f Hqf. destruct x as [e|u].
    + apply (respond_uncaught junk strtold parse_tree (node_config ranges b) (the_node node0 b) (set_node b) rpc
        garbage30000 garbage4096 garbage3500 elapsed f consistency hd (fresh_response s) stmts e net'); try done.
      cbn [rs_header]. unfold zlen. lia.
    + apply (respond_undef junk strtold parse_tree (node_config ranges b) (the_node node0 b) (set_node b) rpc
        garbage30000 garbage4096 garbage3500 elapsed f consistency hd (fresh_response s) stmts u net'); try done.
      cbn [rs_header]. unfold zlen. lia.
Qed.

(** C6 (error): statements without a result.  After any rounds of the server of a
    node whose database holds stores [σ], a statement that node executes, a [CREATE TABLE] or one whose key is local, is carried out on the
    stores as the database does; and when it has no result, then
    - a record that is not there is answered by the first five bytes of a [RESULT]
      and four bytes of the uninitialised array where the length should be, and
      one error is counted;
    - any other exception, of a table that is not there or of a record that does
      not fit the schema, is caught by nobody and ends the program;
    - a [CREATE TABLE], and an [INSERT] that was written or ignored, is undefined
      behaviour: the executor ends without returning a value. *)
Theorem statement_failed (garbage2048 : chars) (port prom_port : Z) (st st' : cluster * K) (c0 c1 : Cql) (m : nat)
    (b : string) (fd : Z) (text : string) (s0 s1 consistency flags : byte) (stmt : Statement) (q : db_request)
    (nb : StateStore * world F) (n : nat) (σ : gmap string (Schema * store)) (count : Z) :
  zlen garbage71680 = 71680 → zlen garbage2048 = MAX_MESSAGE_LEN →
  start_at b garbage2048 port prom_port st = (Ok c0, st') → serves_at b m c0 c1 → fd ≠ cq_listen c1 →
  command text s0 s1 consistency flags →
  visitRoot strtold (parse_tree text) = Ok [stmt] → abs_of stmt = Some q → copied q →
  runs_here ranges b stmt →
  sv_net (cq_server c1) !! b = Some nb → node_represents n σ b nb → db_request_ok σ q →
  (size (fds nb.2) + n + 3 ≤ fd_max)%nat → Z.of_nat n + 1 < 2 ^ 62 →
  sv_met (cq_server c1) !! 7%nat = Some count → in_s 32 (count + 1) →
  (∀ record, executed (abs_step σ q).1 ≠ Ok record) →
  ∃ o c2 nb',
    round_at b (Some [(fd, query_request s0 s1 text consistency flags)]) c1 = (o, c2) ∧
    sv_net (cq_server c2) = <[b := nb']> (sv_net (cq_server c1)) ∧
    node_represents (S n) (abs_step σ q).2 b nb' ∧
    match executed (abs_step σ q).1 with
    | Ok _ => False
    | Throw non_existent_record_error =>
        o = Ok tt ∧ sv_met (cq_server c2) = <[7%nat := count + 1]> (sv_met (cq_server c1)) ∧
        cq_replies c2 = cq_replies c1 ++ [(fd, [x83; x00; s0; s1; x08] ++ take 4 (drop 5 garbage71680))]
    | Throw e => o = Throw e ∧ sv_met (cq_server c2) = sv_met (cq_server c1) ∧ cq_replies c2 = cq_replies c1
    | Undef u => o = Undef u ∧ sv_met (cq_server c2) = sv_met (cq_server c1) ∧ cq_replies c2 = cq_replies c1
    end.
Proof.
  intros G7 G2 Hstart Hserves Hfd Hcmd Hroot Hq Hcop Hhere Hnb Hrep Hok Hroom Hn Hmet Hcount Hfail.
  destruct (served_lengths _ _ _ _ _ _ _ _ _ _ _ _ _ _ _ _ _ _ _ _ _ _ G2 Hstart Hserves) as [Hz1 Hz2].
  destruct (statement_executes junk ranges n σ b nb stmt q Hrep Hq Hcop Hok Hroom Hn) as (nb1 & Hex & [Hrep1 _ _]).
  assert (process_on b text (sv_net (cq_server c1)) =
    (executed (abs_step σ q).1 ≫= serialize, <[b := nb1]> (sv_net (cq_server c1)))) as Hproc.
  { apply (process_here junk strtold parse_tree ranges node0 rpc text stmt b _ nb); try done.
    - unfold parse_statement. by rewrite Hroot.
    - destruct (executed _) as [r| |] eqn:He; try done. by destruct (Hfail r). }
  set (s := MkServer (sv_buffer (cq_server c1)) (sv_new_buffer (cq_server c1)) (sv_met (cq_server c1))
    (sv_db (cq_server c1)) (sv_net (cq_server c1)) []).
  destruct (executed (abs_step σ q).1) as [r|e|u] eqn:He; [by destruct (Hfail r)|..].
  - destruct (failed_received b text s0 s1 consistency flags s [stmt] (inl e) (<[b := nb1]> (sv_net (cq_server c1))) count)
      as [Hmiss Hstop]; try done.
    apply executed_throws in He as [->|He].
    + destruct (Hmiss eq_refl) as (sv & Hrun & Hsent & Hnet & Hdb & Hm).
      destruct (round_receive _ _ _ _ _ _ _ _ _ _ _ _ _ b fd _ c1 _ sv Hfd Hrun) as (c2 & Hround & Hreplies & Hsv & Hk).
      exists (Ok tt), c2. eexists. rewrite Hreplies, Hsent, Hsv. cbn [sv_met sv_net].
      split_and!; [done|rewrite Hnet; unfold logged, set_node, the_node; by rewrite insert_insert_eq, lookup_insert_eq
        |by apply logged_represents|done|done|done].
    + destruct Hstop as (sv & Hrun & Hsent & Hnet & Hdb & Hm).
      { by destruct e. }
      destruct (round_receive _ _ _ _ _ _ _ _ _ _ _ _ _ b fd _ c1 _ sv Hfd Hrun) as (c2 & Hround & Hreplies & Hsv & Hk).
      exists (Throw e), c2, nb1. rewrite Hreplies, Hsent, Hsv. cbn [sv_met sv_net fmap list_fmap]. rewrite app_nil_r.
      split_and!; try done. by destruct e.
  - destruct (failed_received b text s0 s1 consistency flags s [stmt] (inr u) (<[b := nb1]> (sv_net (cq_server c1))) count)
      as [_ Hstop]; try done.
    destruct (Hstop I) as (sv & Hrun & Hsent & Hnet & Hdb & Hm).
    destruct (round_receive _ _ _ _ _ _ _ _ _ _ _ _ _ b fd _ c1 _ sv Hfd Hrun) as (c2 & Hround & Hreplies & Hsv & Hk).
    exists (Undef u), c2, nb1. rewrite Hreplies, Hsent, Hsv. cbn [sv_met sv_net fmap list_fmap]. rewrite app_nil_r.
    by split_and!.
Qed.
(** ** An owner that cannot be reached *)

(** What a reply needs of a table to begin with it. *)
Definition table_known (s : SelectStatement) (db : Database) : Prop :=
  let keyspace := fs_keyspace (sl_from_spec s) in
  let table := fs_table (sl_from_spec s) in
  ∃ name tm, map_find str_cmp table (db_table_managers db) = Ok (Some (name, tm)) ∧
    wire_string keyspace ∧ wire_string table ∧ Forall wire_field (m_fields (tm_schema tm)) ∧
    countable 4 (zlen (m_fields (tm_schema tm))) ∧ zlen (rows_head keyspace table (tm_schema tm) 2) ≤ 3500.

(** C7 (error): an owner that cannot be reached.  When the call to the node that
    owns the key of a statement fails, for whatever reason, the server goes on with
    the text [Error] in place of the answer: the reply to a [SELECT] takes that
    text apart as if it were a record, and reads behind the end of a vector, which
    is undefined behaviour, so that no reply is sent; and an [INSERT] is answered
    with the frame that reports success, though nothing was written, and counted
    as an insertion. *)
Theorem peer_unreached (garbage2048 : chars) (port prom_port : Z) (st st' : cluster * K) (c0 c1 : Cql) (m : nat)
    (a b : string) (fd : Z) (text : string) (s0 s1 consistency flags : byte) (stmt : Statement) (key : string)
    (nb : StateStore * world F) (code : Z) (message : string) (net' : cluster) (count : Z) :
  zlen garbage3500 = 3500 → zlen garbage71680 = 71680 → zlen garbage2048 = MAX_MESSAGE_LEN →
  start_at b garbage2048 port prom_port st = (Ok c0, st') → serves_at b m c0 c1 → fd ≠ cq_listen c1 →
  command text s0 s1 consistency flags →
  visitRoot strtold (parse_tree text) = Ok [stmt] → partition_key stmt = Ok (Some key) → key ≠ "" →
  get_address (node_config ranges b) key = Some a → a ≠ b →
  sv_net (cq_server c1) !! b = Some nb → streamers_ok nb →
  rpc a text (sv_net (cq_server c1)) = (Ok (inl (code, message)), net') →
  match stmt with
  | CREATE_TABLE _ => False
  | SELECT s => table_known s (sv_db (cq_server c1))
  | INSERT s => sv_met (cq_server c1) !! 1%nat = Some count ∧ in_s 32 (count + 1)
  end →
  ∃ o c2 nb',
    round_at b (Some [(fd, query_request s0 s1 text consistency flags)]) c1 = (o, c2) ∧
    sv_net (cq_server c2) = <[b := nb']> net' ∧ sv_db (cq_server c2) = sv_db (cq_server c1) ∧
    match stmt with
    | CREATE_TABLE _ => False
    | SELECT _ => o = Undef OutOfBounds ∧ cq_replies c2 = cq_replies c1
    | INSERT _ =>
        o = Ok tt ∧ sv_met (cq_server c2) = <[1%nat := count + 1]> (<[3%nat := elapsed]> (sv_met (cq_server c1))) ∧
        cq_replies c2 = cq_replies c1 ++
          [(fd, [x83; x00; s0; s1] ++ [x08; x00; x00; x00; x04; x00; x00; x00; x01])]
    end.
Proof.
  intros G35 G7 G2 Hstart Hserves Hfd Hcmd Hroot Hkey Hne Ha Hab Hnb Hstr Hcall Hstmt.
  destruct (served_lengths _ _ _ _ _ _ _ _ _ _ _ _ _ _ _ _ _ _ _ _ _ _ G2 Hstart Hserves) as [Hz1 Hz2].
  destruct (process_unreached junk strtold parse_tree ranges node0 rpc text stmt key a b (sv_net (cq_server c1)) nb
    code message net') as [nb' Hproc]; try done.
  { unfold parse_statement. by rewrite Hroot. }
  { by destruct stmt. }
  set (s := MkServer (sv_buffer (cq_server c1)) (sv_new_buffer (cq_server c1)) (sv_met (cq_server c1))
    (sv_db (cq_server c1)) (sv_net (cq_server c1)) []).
  pose proof Hcmd as [(hd & Htext & Hhd) Hp Hl Hfirst _ _]. subst text.
  destruct stmt as [s'|s'|s']; [done|..].
  - destruct Hstmt as [Hmet Hcount].
    destruct (plain_received b (hd +:+ ";") s0 s1 consistency flags s
      [x08; x00; x00; x00; x04; x00; x00; x00; x01]
      (λ r, rs_net r = <[b := nb']> net' ∧ rs_db r = sv_db s ∧
            rs_met r = <[1%nat := count + 1]> (<[3%nat := elapsed]> (sv_met s))))
      as (sv & r & (Hn & Hd & Hm) & Hrun & Hsent & Hn' & Hd' & Hm'); try done.
    + rewrite G7. done.
    + intros f Hqf Hst. destruct (respond_inserted junk strtold parse_tree (node_config ranges b) (the_node node0 b)
        (set_node b) rpc garbage30000 garbage4096 garbage3500 elapsed f consistency hd (fresh_response s) s' "Error"
        (<[b := nb']> net') count) as [body Hr]; try done.
      * cbn [rs_header]. lia.
      * lia.
      * eexists. split; [exact Hr|]. cbn [rs_header]. unfold insert_reply. rewrite Hst. by split_and!.
    + destruct (round_receive _ _ _ _ _ _ _ _ _ _ _ _ _ b fd _ c1 _ sv Hfd Hrun) as (c2 & Hround & Hreplies & Hsv & Hk).
      exists (Ok tt), c2, nb'. rewrite Hreplies, Hsent, Hsv. cbn [sv_met sv_net sv_db].
      rewrite Hn', Hd', Hm'. by split_and!.
  - destruct Hstmt as (name & tm & Hfind & Hks & Ht & Hf & Hc & Hrows).
    destruct (stopped_received b (hd +:+ ";") s0 s1 consistency flags s (<[b := nb']> net') (inr OutOfBounds))
      as (sv & Hrun & Hsent & Hnet & Hdb & Hm); try done.
    + intros f Hqf. apply (respond_no_record junk strtold parse_tree (node_config ranges b) (the_node node0 b)
        (set_node b) rpc garbage30000 garbage4096 garbage3500 elapsed f consistency hd (fresh_response s) s'
        (<[b := nb']> net') name tm); try done.
      * cbn [rs_header]. lia.
      * unfold set_node, the_node. by rewrite lookup_insert_eq, insert_insert_eq.
      * by rewrite G35.
    + destruct (round_receive _ _ _ _ _ _ _ _ _ _ _ _ _ b fd _ c1 _ sv Hfd Hrun) as (c2 & Hround & Hreplies & Hsv & Hk).
      exists (Undef OutOfBounds), c2, nb'. rewrite Hreplies, Hsent, Hsv. cbn [sv_met sv_net sv_db fmap list_fmap].
      rewrite app_nil_r. by split_and!.
Qed.
End failures.

(** ** Examples *)

Import MemFS.
Import MemKernel.

(** The node that holds the table, opened by its own server; a client connects, and
    asks for a record that is not there. *)
Definition own_start := Server_new (K := kernel) (λ _, x00) (the_node empty_node "A") (set_node "A")
  (replicate 2048 x00) 9042 8080 (example_cluster, boot).

Abbreviation own_round := (wake (K := kernel) (λ _, x00) (λ _, 0) example_tree
  (node_config example_ranges "A") (the_node empty_node "A") (set_node "A") example_rpc
  [] [] (replicate (Z.to_nat 3500) x00) (replicate (Z.to_nat 71680) xaa) (replicate 1000 x00) (0, 0) 12).
Abbreviation own_serves := (serves (K := kernel) (λ _, x00) (λ _, 0) example_tree
  (node_config example_ranges "A") (the_node empty_node "A") (set_node "A") example_rpc
  [] [] (replicate (Z.to_nat 3500) x00) (replicate (Z.to_nat 71680) xaa) (replicate 1000 x00) (0, 0) 12).

Definition own_run : option (CqlServer (gmap string (StateStore * world fsview)) kernel *
                             CqlServer (gmap string (StateStore * world fsview)) kernel) :=
  match own_start with
  | (Ok c0, _) => match own_round (Some [(cq_listen c0, [])]) c0 with
                  | (Ok _, c1) => Some (c0, c1)
                  | _ => None
                  end
  | _ => None
  end.

Definition holds_races (sv : ServerState (St := gmap string (StateStore * world fsview))) : Prop :=
  match sv_net sv !! "A" with
  | Some na => na.1 = example_node.1 ∧ dir_ready "db" na.2 && bool_decide ("db/races" ∈ dirs na.2) = true ∧
               Nat.leb (size (fds na.2) + 3) fd_max = true
  | None => False
  end ∧ sv_met sv = replicate 8 0.

Lemma own_run_ok : match own_run with Some (_, c1) => holds_races (cq_server c1) | None => False end.
Proof. vm_compute. repeat split; reflexivity. Qed.

Definition missing_text : string := "SELECT * FROM races WHERE id = 3;".

Lemma missing_command : command missing_text x00 x07 x01 x00.
Proof.
  split.
  - by exists "SELECT * FROM races WHERE id = 3".
  - unfold plain. repeat apply Forall_cons_2; try apply Forall_nil_2; vm_compute; split; congruence.
  - reflexivity.
  - reflexivity.
  - split; congruence.
  - split; congruence.
Qed.

Lemma missing_here : runs_here example_ranges "A" (SELECT missing_select).
Proof. intros _. by exists "3". Qed.

Lemma missing_copied : copied (DbGet "races" (IntData 3)).
Proof. split; vm_compute; done. Qed.

Lemma missing_ok : db_request_ok example_stores (DbGet "races" (IntData 3)).
Proof.
  intros schema s t Hσ Ht. vm_compute in Hσ. simplify_eq. injection Ht as <-.
  split; [split; vm_compute; done|reflexivity].
Qed.

Lemma missing_not_found record : executed (abs_step example_stores (DbGet "races" (IntData 3))).1 ≠ Ok record.
Proof. vm_compute. congruence. Qed.

Lemma own_represents (node : StateStore * world fsview) : node.1 = example_node.1 →
  dir_ready "db" node.2 && bool_decide ("db/races" ∈ dirs node.2) = true → node_represents 0 example_stores "A" node.
Proof.
  intros Hs [Hready Hdir]%andb_true_iff. exists example_db. rewrite Hs. split; [reflexivity|].
  exact (example_db_represents_in _ Hready (bool_decide_eq_true_1 _ Hdir)).
Qed.

Lemma statement_failed_witness :
  ∃ c0 st' c1 c2, own_start = (Ok c0, st') ∧ own_serves 1 c0 c1 ∧
    own_round (Some [(cq_listen c1 + 2, query_request x00 x07 missing_text x01 x00)]) c1 = (Ok tt, c2) ∧
    cq_replies c2 = cq_replies c1 ++ [(cq_listen c1 + 2, [x83; x00; x00; x07; x08; xaa; xaa; xaa; xaa])] ∧
    sv_met (cq_server c2) = [0; 0; 0; 0; 0; 0; 0; 1].
Proof.
  pose proof own_run_ok as Hok. unfold own_run in Hok.
  destruct own_start as [[c0|e|u] st'] eqn:Hstart; [|destruct Hok..]. unfold own_start in Hstart.
  destruct (own_round (Some [(cq_listen c0, [])]) c0) as [[[]|e|u] c1] eqn:H1; [|destruct Hok..].
  destruct Hok as (HA & Hmet).
  destruct (sv_net (cq_server c1) !! "A") as [[sa wa]|] eqn:HA1; [|destruct HA].
  destruct HA as (Hs & Hdir & Hroom). cbn [fst snd] in Hs, Hdir, Hroom.
  assert (own_serves 1 c0 c1) as Hs1.
  { eapply serves_client. exact H1. }
  destruct (statement_failed (λ _, x00) (λ _, 0) example_tree example_ranges empty_node example_rpc
    [] [] (replicate (Z.to_nat 3500) x00) (replicate (Z.to_nat 71680) xaa) (replicate 1000 x00) (0, 0) 12)
    with (garbage2048 := replicate 2048 x00) (port := 9042) (prom_port := 8080)
      (st := (example_cluster, boot)) (st' := st') (c0 := c0) (c1 := c1) (m := 1%nat) (b := "A")
      (fd := cq_listen c1 + 2) (text := missing_text) (s0 := x00) (s1 := x07) (consistency := x01) (flags := x00)
      (stmt := SELECT missing_select) (q := DbGet "races" (IntData 3)) (nb := (sa, wa)) (n := 0%nat)
      (σ := example_stores) (count := 0)
    as (o & c2 & nb' & Hround & _ & _ & Ho & Hmet2 & Hrep).
  - unfold zlen. by rewrite length_replicate.
  - vm_compute. reflexivity.
  - exact Hstart.
  - exact Hs1.
  - lia.
  - exact missing_command.
  - reflexivity.
  - reflexivity.
  - exact missing_copied.
  - exact missing_here.
  - exact HA1.
  - exact (own_represents (sa, wa) Hs Hdir).
  - exact missing_ok.
  - apply Nat.leb_le in Hroom. cbn [snd]. lia.
  - reflexivity.
  - rewrite Hmet. reflexivity.
  - unfold in_s. lia.
  - exact missing_not_found.
  - exists c0, st', c1, c2. rewrite Ho in Hround. rewrite Hmet in Hmet2.
    split; [reflexivity|]. split; [exact Hs1|]. split; [exact Hround|]. split; [exact Hrep|exact Hmet2].
Defined.

(** A network without connections. *)
Definition no_rpc : string → string → M (gmap string (StateStore * world fsview)) (Z * string + string) :=
  λ _ _, mret (inl (14, "failed to connect to all addresses")).

Definition cut_start := Server_new (K := kernel) (λ _, x00) (the_node empty_node "B") (set_node "B")
  (replicate 2048 x00) 9042 8080 (saved_cluster, boot).

Abbreviation cut_round := (wake (K := kernel) (λ _, x00) (λ _, 0) example_tree
  (node_config example_ranges "B") (the_node empty_node "B") (set_node "B") no_rpc
  [] [] (replicate (Z.to_nat 3500) x00) (replicate (Z.to_nat 71680) x00) (replicate 1000 x00) (0, 0) 12).
Abbreviation cut_serves := (serves (K := kernel) (λ _, x00) (λ _, 0) example_tree
  (node_config example_ranges "B") (the_node empty_node "B") (set_node "B") no_rpc
  [] [] (replicate (Z.to_nat 3500) x00) (replicate (Z.to_nat 71680) x00) (replicate 1000 x00) (0, 0) 12).

Definition cut_run : option (CqlServer (gmap string (StateStore * world fsview)) kernel *
                             CqlServer (gmap string (StateStore * world fsview)) kernel) :=
  match cut_start with
  | (Ok c0, _) => match cut_round (Some [(cq_listen c0, [])]) c0 with
                  | (Ok _, c1) => Some (c0, c1)
                  | _ => None
                  end
  | _ => None
  end.

Lemma cut_run_ok : match cut_run with Some (_, c1) => serves_races (cq_server c1) | None => False end.
Proof. vm_compute. repeat split; reflexivity. Qed.

Lemma example_known db name tm :
  map_find str_cmp "races" (db_table_managers db) = Ok (Some (name, tm)) → tm_schema tm = example_schema →
  table_known example_select db.
Proof.
  intros Hfind Hsch. exists name, tm. rewrite Hsch. destruct example_carried.
  by split_and!.
Qed.

Lemma example_command : command example_text x00 x07 x01 x00.
Proof.
  split; [by exists "SELECT * FROM races WHERE id = 1"| |reflexivity|reflexivity|split; congruence..].
  unfold plain. repeat apply Forall_cons_2; try apply Forall_nil_2; vm_compute; split; congruence.
Qed.

Lemma peer_unreached_witness :
  ∃ c0 st' c1 c2, cut_start = (Ok c0, st') ∧ cut_serves 1 c0 c1 ∧
    cut_round (Some [(cq_listen c1 + 2, query_request x00 x07 example_text x01 x00)]) c1 =
      (Undef OutOfBounds, c2) ∧ cq_replies c2 = cq_replies c1.
Proof.
  pose proof cut_run_ok as Hok. unfold cut_run in Hok.
  destruct cut_start as [[c0|e|u] st'] eqn:Hstart; [|destruct Hok..]. unfold cut_start in Hstart.
  destruct (cut_round (Some [(cq_listen c0, [])]) c0) as [[[]|e|u] c1] eqn:H1; [|destruct Hok..].
  destruct Hok as (HA & HB & Htm & Hmet).
  destruct (sv_net (cq_server c1) !! "B") as [nb|] eqn:HB1; [|destruct HB].
  destruct (map_find _ _ _) as [[[name tm]|]|e|u] eqn:Hfind; [|destruct Htm..].
  assert (cut_serves 1 c0 c1) as Hs1.
  { eapply serves_client. exact H1. }
  destruct (peer_unreached (λ _, x00) (λ _, 0) example_tree example_ranges empty_node no_rpc
    [] [] (replicate (Z.to_nat 3500) x00) (replicate (Z.to_nat 71680) x00) (replicate 1000 x00) (0, 0) 12)
    with (garbage2048 := replicate 2048 x00) (port := 9042) (prom_port := 8080)
      (st := (saved_cluster, boot)) (st' := st') (c0 := c0) (c1 := c1) (m := 1%nat) (a := "A") (b := "B")
      (fd := cq_listen c1 + 2) (text := example_text) (s0 := x00) (s1 := x07) (consistency := x01) (flags := x00)
      (stmt := SELECT example_select) (key := "1") (nb := nb) (code := 14)
      (message := "failed to connect to all addresses") (net' := sv_net (cq_server c1)) (count := 0)
    as (o & c2 & nb' & Hround & _ & _ & Ho & Hrep).
  - unfold zlen. by rewrite length_replicate.
  - unfold zlen. by rewrite length_replicate.
  - vm_compute. reflexivity.
  - exact Hstart.
  - exact Hs1.
  - lia.
  - exact example_command.
  - reflexivity.
  - reflexivity.
  - congruence.
  - reflexivity.
  - congruence.
  - exact HB1.
  - exact (example_streamers nb HB).
  - reflexivity.
  - exact (example_known _ name tm Hfind Htm).
  - exists c0, st', c1, c2. rewrite Ho in Hround.
    split; [reflexivity|]. split; [exact Hs1|]. split; [exact Hround|exact Hrep].
Defined.
