(* ===== verification/Programs.v ===== *)
(** * The programs

    The [main] functions of [src/src]: the server's arguments ([main.cc]), the
    interpreter of CQL files ([lang.cc]), with what it prints, the demonstration of
    the logger ([logger.cc]), the probe of nodes ([streamer.cc]) and the start of
    [dht::StreamerService]; and the assertions of [include/util/assert.hh]. *)

From Stdlib Require Import ZArith Lia Strings.Byte Ascii String.
From stdpp Require Import base list list_numbers strings gmap pretty.
From S2P Require Import Prelude Buffer OrdMap Data Catalog IndexPage Summary FileSystem Disk Sstable TableManager Database.
From S2P Require Import Logger Text Lang Wire Dht.

Local Open Scope Z_scope.

(** ** [main.cc] *)

(** [argv\[i\]] as a text: the pointer behind the last argument is null. *)
Definition arg (argv : list string) (i : nat) : outcome string :=
  match argv !! i with Some a => Ok a | None => Undef NullDereference end.

(** The text of the usage, or the two ports the server is built with. *)
Definition main (argv : list string) : outcome (string + Z * Z) :=
  if zlen argv <? 3 then
    a0 ← arg argv 0; a1 ← arg argv 1;
    Ok (inl ("usage: " +:+ a0 +:+ " <CQL port>" +:+ a1 +:+ " <Prometheus Port>"))
  else
    a1 ← arg argv 1; a2 ← arg argv 2;
    Ok (inr (s32 (strtoll a1), s32 (strtoll a2))).

(** Without any argument the usage prints the null pointer. *)
Lemma main_usage program : main [program] = Undef NullDereference.
Proof. reflexivity. Qed.

(** ** [logger.cc] *)

(** The lines given to [dprintf] by successive calls. *)
Fixpoint log_lines (calls : list (Logger → outcome (option string))) (l : Logger) : outcome (list string) :=
  match calls with
  | [] => Ok []
  | c :: calls => line ← c l; rest ← log_lines calls l; Ok (option_list line ++ rest)
  end.

Definition logger_main (tty : bool) : outcome (list string) :=
  let logger := Logger_new tty INFO in
  first ← log_lines [info "This is an info message."; notice "This is an notice message.";
                     warn "This is an warning message."; err "This is an error message."] logger;
  second ← log_lines [info "This should not appear."; notice "This should not appear.";
                      warn "This should appear as warning."; err "This should appear as error."]
             (set_verbosity WARNING logger);
  third ← log_lines [info "This should not appear."; notice "This should not appear.";
                     warn "This should not appear."; err "This should not appear."]
            (set_verbosity NONE logger);
  Ok (first ++ second ++ third).

(** What should not appear does not. *)
Lemma logger_main_ok : logger_main false = Ok ((λ l, l +:+ String (ascii_of_nat 10) "") <$>
  ["dibibase|info: This is an info message."; "dibibase|notice: This is an notice message.";
   "dibibase|warn: This is an warning message."; "dibibase|error: This is an error message.";
   "dibibase|warn: This should appear as warning."; "dibibase|error: This should appear as error."]).
Proof. reflexivity. Qed.

(** ** [streamer.cc] *)

Section streamer.
Context {St : Type} (health : string → M St (Z * string + bool)).

(** One round of the loop over the addresses typed in. *)
Definition probe_address (address : string) : M St unit := StreamerClient_health_check health address;; mret tt.

(** Its first [n] rounds: [std::cin >> address] leaves the new string empty when
    there are no more words, and the stream is never tested. *)
Definition probe_loop (words : list string) (n : nat) : M St unit :=
  for_each (λ i, probe_address (default "" (words !! i))) (seq 0 n).

Lemma probe_rounds (words : list string) (l : list nat) s : for_each (λ i, probe_address (default "" (words !! i))) l s =
  for_each probe_address ((λ i, default "" (words !! i)) <$> l) s.
Proof.
  revert s. induction l as [|i l IH]; intros s; [done|]. cbn [for_each fmap list_fmap]. unfold mbind, M_bind.
  destruct (probe_address _ s) as [[[]|x|u] s']; [apply IH|done..].
Qed.

(** It probes the addresses in order, and then the empty one for ever. *)
Lemma probe_loop_ok words n s :
  probe_loop words (length words + n) s = for_each probe_address (words ++ replicate n "") s.
Proof.
  unfold probe_loop. rewrite probe_rounds. f_equal. rewrite seq_app, fmap_app. f_equal.
  - apply list_eq. intros i. rewrite list_lookup_fmap.
    destruct (decide (i < length words)%nat) as [Hi|Hi].
    + rewrite lookup_seq_lt by lia. cbn. by destruct (lookup_lt_is_Some_2 words i Hi) as [x ->].
    + rewrite lookup_seq_ge by lia. by rewrite lookup_ge_None_2 by lia.
  - apply list_eq. intros i. rewrite list_lookup_fmap.
    destruct (decide (i < n)%nat) as [Hi|Hi].
    + rewrite lookup_seq_lt, lookup_replicate_2 by lia. cbn. by rewrite lookup_ge_None_2 by lia.
    + rewrite lookup_seq_ge by lia. by rewrite lookup_ge_None_2 by (rewrite length_replicate; lia).
Qed.

(** *** [StreamerService] *)

(** The methods gRPC calls on a registered [StreamerServer]. *)
Record Service := MkService {
  svc_execute : string → M St string;
  svc_health_check : bool * bool
}.

(** What [run_server] asks of gRPC: the two switches of the process, the builder,
    and the server it makes, a null pointer when it cannot listen. *)
Record Grpc := MkGrpc {
  EnableDefaultHealthCheckService : bool → M St unit;
  InitProtoReflectionServerBuilderPlugin : M St unit;
  ServerBuilder : Type;
  builder_new : ServerBuilder;
  AddListeningPort : string → ServerBuilder → ServerBuilder;
  RegisterService : Service → ServerBuilder → ServerBuilder;
  grpc_server : Type;
  BuildAndStart : ServerBuilder → M St (option grpc_server);
  Wait : grpc_server → M St unit
}.

(** [StreamerService::run_server]; [log] takes the line of the log. *)
Definition run_server (grpc : Grpc) (log : string → M St unit) (service : Service) (server_str : string) :
    M St unit :=
  EnableDefaultHealthCheckService grpc true;;
  InitProtoReflectionServerBuilderPlugin grpc;;
  let builder := AddListeningPort grpc server_str (builder_new grpc) in
  let builder := RegisterService grpc service builder in
  server ← BuildAndStart grpc builder;
  log ("Server listening on " +:+ server_str);;
  match server with
  | Some server => Wait grpc server
  | None => lift (Undef NullDereference)
  end.

(** What the builder returns is used without a test: when the address cannot be
    listened on, [Wait] is called on a null pointer, after the log has said that
    the server listens. *)
Lemma run_server_null grpc log service server_str s s1 s2 s3 s4 :
  EnableDefaultHealthCheckService grpc true s = (Ok tt, s1) →
  InitProtoReflectionServerBuilderPlugin grpc s1 = (Ok tt, s2) →
  BuildAndStart grpc (RegisterService grpc service (AddListeningPort grpc server_str (builder_new grpc))) s2 =
    (Ok None, s3) →
  log ("Server listening on " +:+ server_str) s3 = (Ok tt, s4) →
  run_server grpc log service server_str s = (Undef NullDereference, s4).
Proof.
  intros H1 H2 H3 H4. unfold run_server. erewrite M_bind_ok by exact H1. erewrite M_bind_ok by exact H2.
  erewrite M_bind_ok by exact H3. by erewrite M_bind_ok by exact H4.
Qed.
End streamer.

(** The service a node registers. *)
Definition StreamerServer {F} `{PosixFS F} (junk : Z → byte) (strtold : string → Z)
    (parse_tree : string → option (list CqlContext)) (config : Config) : Service :=
  MkService (StreamerServer_execute junk strtold parse_tree config) StreamerServer_health_check.

(** ** [assert.hh] *)

Section asserts.
(** The logger of the function is built by its first call.  The message is the
    argument of a format with [%s] in [assert_m] and [fail_m]; [assert_eq_m] gives
    its text as the format, which is right for a text without [%]. *)
Context (tty : bool).

Definition abort {S A} : M S A := lift (Undef (ProcessExit "abort")).

(** [logger.err(...)], kept as the line given to [dprintf]. *)
Definition log_failure (message : string) : M (list string) unit :=
  line ← lift (err message (Logger_new tty INFO));
  modify (λ out, out ++ option_list line).

Definition assert_m (condition : bool) (message : string) : M (list string) bool :=
  (if negb condition then log_failure ("Assertion failed: " +:+ message);; abort else mret tt);;
  mret condition.

(** [print] is the output of a value on a stream. *)
Definition assert_eq_m {A} `{EqDecision A} (print : A → string) (ele_1 ele_2 : A) (message : string) :
    M (list string) bool :=
  let vaild := bool_decide (ele_1 = ele_2) in
  (if negb vaild then
     log_failure ("Assertion failed: " +:+ message +:+ String (ascii_of_nat 10) (String (ascii_of_nat 9) "")
       +:+ "Expected: `" +:+ print ele_1 +:+ "` but got: `" +:+ print ele_2 +:+ "`");; abort
   else mret tt);;
  mret vaild.

Definition fail_m (message : string) : M (list string) bool :=
  log_failure ("Assertion failed: " +:+ message);; abort.

(** The place of a call: [FILE_LINE] and [__func__]. *)
Definition place (file : string) (line : Z) (func : string) : string :=
  file +:+ ":" +:+ pretty line +:+ ":in " +:+ func +:+ "()".

Definition fail_0 file line func : M (list string) bool := fail_m (place file line func).
Definition fail_1 file line func message : M (list string) bool := fail_m (place file line func +:+ ": " +:+ message).
Definition assert_1 file line func condition : M (list string) bool := assert_m condition (place file line func).
Definition assert_2 file line func condition message : M (list string) bool :=
  assert_m condition (place file line func +:+ ": " +:+ message).

Definition assert_eq_2 {A} `{EqDecision A} (print : A → string) file line func (e_1 e_2 : A) :
    M (list string) bool :=
  assert_eq_m print e_1 e_2 (place file line func).
Definition assert_eq_3 {A} `{EqDecision A} (print : A → string) file line func (e_1 e_2 : A) message :
    M (list string) bool :=
  assert_eq_m print e_1 e_2 (place file line func +:+ ": " +:+ message).

(** An assertion returns exactly when it holds, and then it has no effect. *)
Lemma assert_iff condition message out :
  (∃ b out', assert_m condition message out = (Ok b, out')) ↔ condition = true.
Proof.
  split.
  - intros (b & out' & Hrun). destruct condition; [done|]. unfold assert_m in Hrun. cbn [negb] in Hrun.
    apply M_bind_ok_inv in Hrun as ([] & o1 & Hl & _). by apply M_bind_ok_inv in Hl as (? & ? & _ & Ha).
  - intros ->. by exists true, out.
Qed.

Lemma assert_eq_iff {A} `{EqDecision A} (print : A → string) (x y : A) message out :
  (∃ b out', assert_eq_m print x y message out = (Ok b, out')) ↔ x = y.
Proof.
  unfold assert_eq_m. split.
  - intros (b & out' & Hrun). destruct (decide (x = y)) as [?|Hne]; [done|].
    rewrite bool_decide_false in Hrun by done. cbn [negb] in Hrun.
    apply M_bind_ok_inv in Hrun as ([] & o1 & Hl & _). by apply M_bind_ok_inv in Hl as (? & ? & _ & Ha).
  - intros ->. rewrite bool_decide_true by done. by exists true, out.
Qed.
End asserts.

(** ** [lang.cc] *)

Section lang.
Context {F : Type} `{PosixFS F}.
Context (junk : Z → byte) (strtold : string → Z).

(** A database, its operating system and what was printed, line by line. *)
Abbreviation L := (M ((Database * world F) * list string)).

Definition print_line (line : string) : L unit := modify (λ s, (s.1, s.2 ++ [line])).
Definition in_db {A} (m : M (Database * world F) A) : L A := zoom fst (λ d s, (d, s.2)) m.

(** [std::cout << value->print()] *)
Definition print_value (v : option Data) : L unit :=
  match v with
  | None => lift (Undef NullDereference)
  | Some d => text ← lift (Data_print d); print_line text
  end.

(** The body of the loop over the statements. *)
Definition lang_statement (stmt : Statement) : L unit :=
  result ← in_db (Statement_execute junk stmt);
  match stmt with
  | CREATE_TABLE s => print_line (ct_table s)
  | INSERT s => print_line (in_table s)
  | SELECT s =>
      print_line (fs_table (sl_from_spec s));;
      match result with
      | Some record => for_each print_value record
      | None => mret tt
      end
  end.

(** The loop over the statements, and the destructor of the database when it ends;
    an exception that leaves [main] runs no destructor. *)
Definition lang_statements (db : Database) (statements : list Statement) : M (world F * list string) unit := λ s,
  let '(o, ((_, w), out)) :=
    (for_each lang_statement statements;; in_db flush_metadata) ((db, s.1), s.2) in (o, (w, out)).

(** The program on a file ANTLR parses to [tree]. *)
Definition lang_main (argv : list string) (tree : option (list CqlContext)) : M (world F * list string) unit :=
  if zlen argv <? 2 then
    a0 ← lift (arg argv 0);
    modify (λ s, (s.1, s.2 ++ ["usage: " +:+ a0 +:+ " <CQL file path>"]));;
    lift (Undef (ProcessExit ""))
  else
    statements ← lift (visitRoot strtold tree);
    db ← zoom fst (λ w s, (w, s.2)) (Database_new junk "database");
    lang_statements db statements.
End lang.

(** *** What the interpreter prints *)

(** The request a statement makes of the database. *)
Inductive makes : Statement → db_request → Prop :=
| makes_create s : makes (CREATE_TABLE s) (DbCreate (ct_table s) (ct_schema s))
| makes_insert s ds : in_values s = Some <$> ds → Forall data_wf ds →
    makes (INSERT s) (DbPut (in_table s) (Some <$> ds))
| makes_select s e es d : sl_where_spec s = e :: es → re_operand e = Some d → data_wf d →
    makes (SELECT s) (DbGet (fs_table (sl_from_spec s)) d).

Definition stmt_table (stmt : Statement) : string :=
  match stmt with CREATE_TABLE s => ct_table s | INSERT s => in_table s | SELECT s => fs_table (sl_from_spec s) end.

(** The record of a reply, empty for those without one. *)
Definition reply_record (a : db_reply) : outcome Record_ :=
  match a with
  | Created o => _ ← o; Ok []
  | Answered (PutReply o) => _ ← o; Ok []
  | Answered (GetReply o) => o
  end.

(** The lines of a record; a value that cannot be printed ends them. *)
Fixpoint record_lines (vs : Record_) : outcome unit * list string :=
  match vs with
  | [] => (Ok tt, [])
  | None :: _ => (Undef NullDereference, [])
  | Some d :: vs => match Data_print d with
                    | Ok text => let '(o, lines) := record_lines vs in (o, text :: lines)
                    | Throw e => (Throw e, [])
                    | Undef u => (Undef u, [])
                    end
  end.

Definition statement_lines (stmt : Statement) (a : db_reply) : outcome unit * list string :=
  match reply_record a with
  | Ok vs => let '(o, lines) := record_lines vs in (o, stmt_table stmt :: lines)
  | Throw e => (Throw e, [])
  | Undef u => (Undef u, [])
  end.

(** The lines of a program over abstract stores, up to what ends it. *)
Fixpoint program_lines (σ : gmap string (Schema * store)) (sqs : list (Statement * db_request)) :
    outcome unit * list string :=
  match sqs with
  | [] => (Ok tt, [])
  | (stmt, q) :: sqs =>
      let '(a, σ) := abs_step σ q in
      match statement_lines stmt a with
      | (Ok _, lines) => let '(o, lines') := program_lines σ sqs in (o, lines ++ lines')
      | bad => bad
      end
  end.

Section interpreter.
Context {F : Type} `{PosixSpec F}.
Context (junk : Z → byte) (strtold : string → Z).
Implicit Types (w : world F).

Lemma print_values_ok (st : Database * world F) vs out :
  for_each print_value vs (st, out) = ((record_lines vs).1, (st, out ++ (record_lines vs).2)).
Proof.
  revert out. induction vs as [|[d|] vs IH]; intros out; cbn [for_each record_lines].
  - by rewrite app_nil_r.
  - assert (print_value (Some d) (st, out) =
      match Data_print d with
      | Ok text => (Ok tt, (st, out ++ [text]))
      | Throw e => (Throw e, (st, out))
      | Undef u => (Undef u, (st, out))
      end) as Hv.
    { unfold print_value, mbind, M_bind, lift. by destruct (Data_print d). }
    destruct (Data_print d) as [text|e|u].
    + erewrite M_bind_ok by exact Hv. rewrite IH. destruct (record_lines vs) as [o lines]. cbn.
      by rewrite <- app_assoc.
    + erewrite M_bind_throw by exact Hv. cbn. by rewrite app_nil_r.
    + erewrite M_bind_undef by exact Hv. cbn. by rewrite app_nil_r.
  - cbn. by rewrite app_nil_r.
Qed.

(** A statement does what its request does. *)
Lemma statement_request stmt q (st st' : Database * world F) a : makes stmt q →
  db_serve junk q st = (Ok a, st') →
  ∃ o, Statement_execute junk stmt st = (o, st') ∧
    match reply_record a with
    | Ok vs => ∃ r, o = Ok r ∧ match stmt with SELECT _ => r = Some vs | _ => vs = [] end
    | Throw e => o = Throw e
    | Undef u => o = Undef u
    end.
Proof.
  intros Hm. destruct Hm as [s|s ds Hv Hds|s e es d Hw He Hd]; cbn [db_serve Statement_execute]; intros Hrun.
  - destruct (create_table _ _ st) as [o st1] eqn:Hc. injection Hrun as <- <-.
    unfold CreateTableStatement_execute, mbind, M_bind. rewrite Hc.
    destruct o as [[]|e|u]; eexists; (split; [reflexivity|]); cbn; [by eexists|done..].
  - destruct (Database_write_record _ _ st) as [o st1] eqn:Hc. injection Hrun as <- <-.
    unfold InsertStatement_execute. rewrite Hv, copy_values_ok by done.
    erewrite M_bind_ok by reflexivity. unfold mbind, M_bind. rewrite Hc.
    destruct o as [[]|e|u]; eexists; (split; [reflexivity|]); cbn; [by eexists|done..].
  - destruct (Database_read_record _ _ _ st) as [o st1] eqn:Hc. injection Hrun as <- <-.
    unfold SelectStatement_execute. rewrite Hw. cbn [lookup list_lookup]. rewrite He, Data_copy_ok by done.
    erewrite M_bind_ok by reflexivity. unfold mbind, M_bind. rewrite Hc.
    destruct o as [r|e'|u]; eexists; (split; [reflexivity|]); cbn; [by eexists|done..].
Qed.

Lemma lang_statement_ok stmt q (st st' : Database * world F) a out : makes stmt q →
  db_serve junk q st = (Ok a, st') →
  lang_statement junk stmt (st, out) =
    ((statement_lines stmt a).1, (st', out ++ (statement_lines stmt a).2)).
Proof.
  intros Hm Hrun. destruct (statement_request stmt q st st' a Hm Hrun) as (o & Hex & Hcases).
  unfold lang_statement, statement_lines, in_db. destruct (reply_record a) as [vs|e|u].
  - destruct Hcases as (r & -> & Hr). erewrite M_bind_ok by (unfold zoom; cbn [fst]; rewrite Hex; reflexivity).
    destruct Hm as [s|s ds Hv Hds|s e es d Hw He Hd]; subst; try done.
    erewrite M_bind_ok by reflexivity. cbn [fst snd]. rewrite print_values_ok.
    destruct (record_lines vs) as [o lines]. cbn. by rewrite <- app_assoc.
  - subst o. erewrite M_bind_throw by (unfold zoom; cbn [fst]; rewrite Hex; reflexivity).
    cbn. by rewrite app_nil_r.
  - subst o. erewrite M_bind_undef by (unfold zoom; cbn [fst]; rewrite Hex; reflexivity).
    cbn. by rewrite app_nil_r.
Qed.

Lemma lang_statements_ok n σ sqs (db : Database) w out :
  db_represents n σ db w → Forall (λ sq, makes sq.1 sq.2) sqs → db_requests_ok σ (snd <$> sqs) →
  (size (fds w) + length sqs * (n + length sqs + 1) + 3 ≤ fd_max)%nat →
  Z.of_nat n + zlen sqs < 2 ^ 62 →
  ∃ st', for_each (lang_statement junk) (fst <$> sqs) ((db, w), out) =
    ((program_lines σ sqs).1, (st', out ++ (program_lines σ sqs).2)) ∧
    ((program_lines σ sqs).1 = Ok tt →
     db_represents (n + length sqs) (abs_run σ (snd <$> sqs)).2 st'.1 st'.2).
Proof.
  revert n σ db w out. induction sqs as [|[stmt q] sqs IH]; intros n σ db w out Hdb Hm Hok Hroom Hcount.
  { exists (db, w). cbn. rewrite app_nil_r, Nat.add_0_r. by split. }
  apply Forall_cons in Hm as [Hm Hms]. destruct Hok as [Hq Hqs]. cbn [fst snd length] in *.
  assert (zlen ((stmt, q) :: sqs) = 1 + zlen sqs) as Hz by (unfold zlen; simpl; lia).
  pose proof (zlen_nonneg sqs).
  destruct (db_serve_ok junk n σ db w q Hdb Hq) as (db1 & w1 & Hrun & Hdb1 & _ & Hf); [nia|lia|].
  pose proof (lang_statement_ok stmt q (db, w) (db1, w1) _ out Hm Hrun) as Hstep.
  csimpl. destruct (abs_step σ q) as [a σ1]. cbn [fst snd] in *.
  destruct (statement_lines stmt a) as [[[]|e|u] lines]; cbn [fst snd] in *.
  - erewrite M_bind_ok by exact Hstep.
    destruct (IH (S n) σ1 db1 w1 (out ++ lines) Hdb1 Hms Hqs) as (st' & Hrest & Hrep); [nia|lia|].
    exists st'. rewrite Hrest, <- Nat.add_succ_comm. destruct (program_lines σ1 sqs) as [o lines'].
    cbn [fst snd] in *. rewrite <- app_assoc. split; [done|]. by destruct (abs_run σ1 (snd <$> sqs)).
  - exists (db1, w1). by erewrite M_bind_throw by exact Hstep.
  - exists (db1, w1). by erewrite M_bind_undef by exact Hstep.
Qed.

(** C16 (refinement): the interpreter of CQL files.  On a file whose statements
    make the requests [qs], it prints, in order, the table of each statement and
    behind that of a [SELECT] the values of the record, one to a line, that
    abstract stores hold under the key at that point.  A statement that fails ends
    the program with the failure of the store, and nothing is printed after it;
    otherwise the program ends with the writing of the metadata of a database
    that represents the stores after all the requests. *)
Theorem lang_program (program file : string) (tree : option (list CqlContext)) (sqs : list (Statement * db_request))
    (n : nat) (σ : gmap string (Schema * store)) (db : Database) (w w1 : world F) (out : list string) :
  visitRoot strtold tree = Ok (fst <$> sqs) → Forall (λ sq, makes sq.1 sq.2) sqs →
  Database_new junk "database" w = (Ok db, w1) → db_represents n σ db w1 →
  db_requests_ok σ (snd <$> sqs) →
  (size (fds w1) + length sqs * (n + length sqs + 1) + 3 ≤ fd_max)%nat →
  Z.of_nat n + zlen sqs < 2 ^ 62 →
  ∃ o db' w' w'', lang_main junk strtold [program; file] tree (w, out) =
    (o, (w'', out ++ (program_lines σ sqs).2)) ∧
    match (program_lines σ sqs).1 with
    | Ok _ => db_represents (n + length sqs) (abs_run σ (snd <$> sqs)).2 db' w' ∧
        ∃ db'', flush_metadata (db', w') = (o, (db'', w''))
    | bad => o = bad
    end.
Proof.
  intros Hroot Hm Hnew Hdb Hok Hroom Hcount.
  destruct (lang_statements_ok n σ sqs db w1 out Hdb Hm Hok Hroom Hcount) as ([db' w'] & Hrun & Hrep).
  assert (lang_main junk strtold [program; file] tree (w, out) =
    lang_statements junk db (fst <$> sqs) (w1, out)) as ->.
  { unfold lang_main. change (zlen [program; file] <? 2) with false. cbv iota.
    erewrite M_bind_ok by (unfold lift; rewrite Hroot; reflexivity).
    by erewrite M_bind_ok by (unfold zoom; cbn [fst]; rewrite Hnew; reflexivity). }
  unfold lang_statements. cbn [fst snd]. unfold mbind, M_bind. rewrite Hrun.
  destruct (program_lines σ sqs) as [[[]|e|u] lines]; cbn [fst snd] in *.
  - unfold in_db, zoom. cbn [fst snd]. destruct (flush_metadata (db', w')) as [o [db'' w'']] eqn:Hf.
    exists o, db', w', w''. split; [done|]. split; [by apply Hrep|by exists db''].
  - by exists (Throw e), db', w', w'.
  - by exists (Undef u), db', w', w'.
Qed.
End interpreter.

(** *** A program *)

Import MemFS.

(** [CREATE TABLE t (race ASCII(5), position INT, cyclist ASCII(7), PRIMARY KEY (position))],
    two [INSERT]s and a [SELECT] of the second row. *)
Definition program_insert (race position cyclist : string) : CqlContext :=
  cql_insert (MkInsertContext None None "t" None
    (valuesSpec (constantExpression <$> [stringLiteral race; decimalLiteral position; stringLiteral cyclist]))
    false (Some (MkUsing None None))).

Definition program_tree : list CqlContext :=
  [cql_createTable (MkCreateTableContext false None "t"
     (MkColumnDefinitionList
        [MkColumnDefinition "race" (K_ASCII "5") false; MkColumnDefinition "position" K_INT false;
         MkColumnDefinition "cyclist" (K_ASCII "7") false]
        (Some (singlePrimaryKey "position"))));
   program_insert "'TdF'" "1" "'Alice'"; program_insert "'TdF'" "2" "'Marco'";
   cql_select (MkSelectContext false false true [] ("t", None)
     (Some [MkRelationElementContext ["position"] (Some EQ) (Some (decimalLiteral "2"))]) None None false)].

Definition program_schema : Schema :=
  MkSchema 1 0 [MkField "race" (MkType ASCII 5); MkField "position" (MkType INT 4);
                MkField "cyclist" (MkType ASCII 7)].

Definition program_row (position : Z) (cyclist : string) : list Data :=
  [ASCIIData "'TdF'"; IntData position; ASCIIData cyclist].

Definition program_requests : list db_request :=
  [DbCreate "t" program_schema; DbPut "t" (Some <$> program_row 1 "'Alice'");
   DbPut "t" (Some <$> program_row 2 "'Marco'"); DbGet "t" (IntData 2)].

Definition program_statements : list Statement := Eval vm_compute in
  match visitRoot (λ _, 0) (Some program_tree) with Ok statements => statements | _ => [] end.

Lemma program_row_wf position cyclist : slen cyclist = 7 → in_s 32 position →
  Forall data_wf (program_row position cyclist).
Proof.
  intros Hc Hp. unfold program_row. repeat constructor; try done; cbn.
  - apply Hp.
  - apply Hp.
  - by rewrite Hc.
  - by rewrite Hc.
Qed.

Lemma program_table_ok : table_ok INT (MkType INT 4) program_schema.
Proof.
  split; [|done|done|done|by eexists|apply leb_complete; done].
  repeat split; repeat constructor; vm_compute; congruence.
Qed.

Lemma program_put_ok σ position cyclist : slen cyclist = 7 → in_s 32 position →
  (∀ schema s, σ !! "t" = Some (schema, s) → schema = program_schema) →
  db_request_ok σ (DbPut "t" (Some <$> program_row position cyclist)).
Proof.
  intros Hc Hp Hσ schema s t Hs Ht. rewrite (Hσ _ _ Hs) in *. injection Ht as <-.
  split; [|by intros d [= <-]]. 
  pose proof (program_row_wf position cyclist Hc Hp) as Hwf.
  repeat (apply Forall_cons in Hwf as [? Hwf]).
  repeat constructor; eexists; (split; [reflexivity|done]).
Qed.

Lemma program_makes : Forall (λ sq, makes sq.1 sq.2) (zip program_statements program_requests).
Proof.
  assert (Forall data_wf (program_row 1 "'Alice'") ∧ Forall data_wf (program_row 2 "'Marco'")) as [H1 H2]
    by (split; by apply program_row_wf).
  apply Forall_cons_2; [exact (makes_create _)|].
  apply Forall_cons_2; [by apply makes_insert|]. apply Forall_cons_2; [by apply makes_insert|].
  apply Forall_singleton. by eapply makes_select.
Qed.

Lemma program_requests_ok : db_requests_ok ∅ (snd <$> zip program_statements program_requests).
Proof.
  change (snd <$> zip program_statements program_requests) with program_requests.
  cbn [db_requests_ok program_requests]. split_and!; try done.
  - split; [done|]. split; [done|]. exists (MkType INT 4). split; [done|apply program_table_ok].
  - apply program_put_ok; [done|done|]. intros schema s Hs. vm_compute in Hs. by simplify_eq.
  - apply program_put_ok; [done|done|]. intros schema s Hs. vm_compute in Hs. by simplify_eq.
  - intros schema s t Hs Ht. vm_compute in Hs; simplify_eq; injection Ht as <-.
    vm_compute. repeat split; congruence.
Qed.

Lemma lang_program_witness :
  ∃ o db' w' w'', lang_main (λ _, x00) (λ _, 0) ["lang"; "program.cql"] (Some program_tree) (empty_world, []) =
    (o, (w'', ["t"; "t"; "t"; "t"; "'TdF'"; "2"; "'Marco'"])) ∧
    db_represents 4 (abs_run ∅ program_requests).2 db' w' ∧
    ∃ db'', flush_metadata (db', w') = (o, (db'', w'')).
Proof.
  destruct (Database_new (λ _, x00) "database" empty_world) as [o w1] eqn:Hnew.
  assert (o = Ok (MkDb "database" [])) as -> by (vm_compute in Hnew; injection Hnew as <- _; reflexivity).
  refine (lang_program (λ _, x00) (λ _, 0) "lang" "program.cql" (Some program_tree)
    (zip program_statements program_requests) 0 ∅ (MkDb "database" []) empty_world w1 [] _ _ Hnew _ _ _ _).
  - vm_compute. reflexivity.
  - apply program_makes.
  - apply db_represents_nil, dir_ready_ok. vm_compute in Hnew. by injection Hnew as <-.
  - apply program_requests_ok.
  - vm_compute in Hnew. injection Hnew as <-. vm_compute. lia.
  - done.
Defined.
